(* ===== verification/_CoqProject ===== *)
-Q . S2P
Prelude.v
Errors.v
Pathname.v
IndexCriteria.v
IndexCriteriaSpec.v
Locking.v
LockingSpec.v
TimeInternal.v
TimeSpec.v
Base64.v
Endian.v
TapeOps.v
FileDebug.v
FileDebugOk.v
FileDebugSpec.v
TapeDev.v
TapeLoad.v
TapeDevSpec.v
Coherency.v
FileDebugLoad.v
TapeOnFile.v
Append.v
Extents.v
ExtentsSpec.v
Volume.v
VolumeSpec.v
VolumeOnFile.v
FsRaw.v
FsRawSpec.v
FsRawWriteSpec.v
FsRawReadSpec.v
FsRawOnFile.v
IndexRead.v
IndexReadSpec.v
IndexRoundTrip.v
IndexOnFile.v
FsTree.v
FsOps.v
FsGraph.v
FsTreeSpec.v
FsOpsSpec.v
RenameSpec.v
FsHistory.v
XmlLib.v
XmlRead.v
XmlWrite.v
HashSort.v
XmlSpec.v
XmlWp.v
XmlValues.v
XmlTree.v
XmlWriteSpec.v
XmlReadOk.v
XmlFileOk.v
XmlDirOk.v
XmlTreeOk.v
XmlSchemaOk.v
XmlRoundTrip.v
XmlLoaded.v
Label.v
LabelSpec.v
LabelOnFile.v
CheckMedium.v
Mount.v
MountSpec.v
MountOnFile.v
Checksum.v
ChecksumSpec.v
KeyFormat.v
KeyFormatSpec.v
VolumeInfo.v
Xattr.v
XattrSpec.v
XattrOnFile.v
Unified.v
UnifiedList.v
UnifiedWp.v
UnifiedWrite.v
UnifiedSpec.v
UnifiedOnMemory.v
