(* ===== verification/Prelude.v ===== *)
(** * LTFS: a verification library for the Linear Tape File System

    LTFS (src/ltfs) keeps a file system on a tape with two partitions.  File
    data goes to the data partition in blocks; the directory tree, the extents
    of every file and a little volume state are written as an XML document, the
    Index, between two file marks, on either partition.  A mounted volume is
    the tree in memory plus the drive's position; it is made permanent by
    writing an Index.

    ** The parts and how they interact

    From the bottom up, with the files under src/ltfs/src that each part models
    and the files of this library that hold it.

    - Numbers and names: [Prelude] (C integers as [Z] with their wrap-around
      written out, C strings as lists of characters), [Errors] (ltfs_error.h,
      the error predicates of tape.h, arch/errormap.c), [Endian]
      (ltfs_endian.h), [TimeInternal] and [TimeSpec] (arch/time_internal.c and
      the time stamps of an Index), [Base64] (base64.c), [Pathname] (pathname.c),
      [IndexCriteria] and [IndexCriteriaSpec] (index_criteria.c, the data
      placement policy).
    - The lock: [Locking] and [LockingSpec] (ltfs_locking.h), a step relation
      over the accesses of the lock's operations to mutexes, flags and counter.
    - The drive: [TapeOps] is the backend interface of tape_ops.h, a record of
      operations over an abstract device state together with the class
      [TapeOk] of what a backend promises about the records on the medium;
      [FileDebug], [FileDebugOk] and [FileDebugSpec] are the backend of
      tape_drivers/generic/file/filedebug_tc.c and its instance of [TapeOk];
      [TapeDev], [TapeDevSpec], [Coherency] and [TapeOnFile] are tape.c over any
      backend.
    - The Index: [Append] (runs of writes), [Extents] and [ExtentsSpec] (extent
      lists), [Volume], [VolumeSpec], [VolumeOnFile] (writing an Index: ltfs.c,
      ltfs_internal.c, xml_writer.c), [IndexRead], [IndexReadSpec],
      [IndexRoundTrip], [IndexOnFile] (reading one: xml_reader.c,
      xml_reader_libltfs.c, ltfs_internal.c).
    - File data: [FsRaw] with [FsRawSpec], [FsRawWriteSpec], [FsRawReadSpec] and
      [FsRawOnFile] (ltfs_fsops_raw.c).
    - The unified scheduler: [Unified] (iosched/unified.c and cache_manager.c: the queue of
      write requests of every file, the counters and lists of files with requests, the
      calls of the plugin and the rounds of its thread) over a record of operations on
      the files below, [raw_ops].  [UnifiedList] has the lemmas on sorted requests and
      the bytes they show, [UnifiedWp] a rule per helper function, [UnifiedWrite] the
      invariant of the loop of unified_write, [UnifiedSpec] the class [FileStore] of what
      is promised below and the theorems on writing, reading and flushing;
      [UnifiedOnMemory] is an instance with files in memory.
    - The tree: [FsTree] (fs.c) and [FsOps] (ltfs_fsops.c) are the code;
      [FsGraph] is the abstract tree; [FsTreeSpec], [FsOpsSpec], [RenameSpec] and
      [FsHistory] relate them.
    - The Index document: [XmlLib] (the calls of the XML library the program makes,
      the macros of xml.h and the readers of single values in xml_reader.c),
      [XmlRead] (xml_reader_libltfs.c) and [XmlWrite] (xml_writer_libltfs.c) are the
      code; [HashSort] is the sort of a directory's entries before they are
      written (uthash.h); [XmlTree] is the abstract document of a tree and
      [XmlSpec] says which nodes a reader may report for a document;
      [XmlWriteSpec] relates the writer to the document, [XmlWp], [XmlValues],
      [XmlReadOk], [XmlFileOk], [XmlDirOk], [XmlTreeOk] and [XmlSchemaOk] follow
      the parser through it, from single values to the whole schema;
      [XmlRoundTrip] and [XmlLoaded] join both.
    - Cartridges: [TapeLoad] (the part of tape.c that reserves the drive, loads and
      unloads a cartridge, sets mode pages and formats) over a second record of
      backend operations, [load_ops], which [FileDebugLoad] fills for the
      file-backed drive; [Label] (label.c, the label part of ltfs.c,
      ltfs_internal.c and of the XML reader and writer) with [LabelSpec] and
      [LabelOnFile]; [CheckMedium] (the consistency check of ltfs_internal.c) and
      [Mount] (mounting, unmounting, formatting and searching generations, ltfs.c)
      with [MountSpec] and [MountOnFile].
    - Extended attributes: [VolumeInfo] (the questions to drive and cartridge in tape.c
      and ltfs.c, and ltfs_sync_index) and [Xattr] (xattr.c and the operations of
      ltfs_fsops.c) with [XattrSpec] and [XattrOnFile].
    - Beside them: [Checksum] and [ChecksumSpec] (the block checksums of hardware
      drivers, tape_drivers/crc32c_crc.c and reed_solomon_crc.c); [KeyFormat] and
      [KeyFormatSpec] (kmi.c, and the key list format and both plugins of kmi/).

    ** How state and operations correspond to the code

    A struct is a Record with the same fields, a C function a Definition of the
    same name: it takes the state it mutates and returns it with the result.  A
    result is the C return value, zero or a negated code of [Errors]; where the
    code would touch freed memory or read outside a buffer the model returns
    [None], and the theorems show that this does not happen.  Pointers between
    dentries are addresses in a heap (a finite map), so sharing and disposal
    are visible; extent lists, child tables and glob stacks are lists or maps.
    Loops are structural where they can be; the others take fuel (the matcher
    of the criteria, the seek for an index, the read and write loops), and each
    has a theorem that the fuel its caller passes is enough: twice the product
    of pattern and name lengths for the matcher, the number of file marks for
    the seek, the number of blocks for the data loops, six steps for a byte and
    three for a request in the scheduler's write.

    ** What is proved

    - File data: a write puts its bytes into the file and leaves every other
      byte of the volume as it was ([FsRawWriteSpec]); a read returns the bytes
      of the file, for every position of the head and state of the read cache
      ([FsRawReadSpec]); extents are overlaid and cut as bytes are
      ([FsRawSpec], [ExtentsSpec]).
    - The unified scheduler: a file is the bytes below under those of its requests.  A write
      changes this picture at its offset and nowhere else, under the condition [fine] on
      the requests it meets, without which the loop leaves old bytes (the examples of
      [UnifiedOnMemory]); a read shows it ([UnifiedSpec]); a flush that succeeds brings
      it to the files below, and one that fails reports it ([UnifiedSpec]).  Queues,
      counters and cache blocks agree with the requests afterwards.
    - The tree: every history of operations keeps it a tree, with the right
      reference counts, and touches no freed dentry ([FsHistory]); what creating,
      removing and renaming do, on every outcome ([FsOpsSpec], [RenameSpec]);
      paths and lookups are inverse ([FsTreeSpec]).
    - The Index: the document on the tape is the serialized one, between file
      marks, at the place the self pointer says ([VolumeSpec]); a failed write
      leaves generation and pointers ([VolumeSpec]); what was written is what is
      found again ([IndexRoundTrip]).  One failure goes unnoticed: the writer ignores
      whether closing the XML output succeeded, so where the drive is reset - it asks
      for a revalidation and stays writable - while the last block is written, the
      call reports success and the document is cut off.  The theorems about written
      indexes exclude exactly this, by the condition [VolumeSpec.document_lost] on the
      run of the output, which never holds on a drive that is not reset
      ([VolumeSpec.document_not_lost]); the example [VolumeOnFile.truncated_index]
      shows it on a drive that is.
    - The Index document: what the writer is asked to write the parser reads back
      to the same index and tree, whatever white space the XML library puts
      between the tags ([XmlRoundTrip]); the tree that is loaded satisfies the
      invariant of the directory tree, so all theorems about the operations apply
      to it ([XmlLoaded]); the first failing call ends the writing
      ([XmlWriteSpec]); entries are written in the order of their unique ids
      ([HashSort]).
    - Extended attributes: what is stored is a map from names to values, for every
      sequence of calls; virtual and reserved names are kept apart; lists of names are
      complete ([XattrSpec]).
    - The drive: seeks, appends and error handling of tape.c against [TapeOk]
      ([TapeDevSpec], [Append]); until a cartridge is loaded, no call of the layer takes
      back that it is read only ([TapeDevSpec]); the file-backed driver implements [TapeOk] and
      reloads what it wrote ([FileDebugSpec]).
    - The lock: exclusion, progress, bounds of its counter ([LockingSpec]).
    - Cartridges: labels that were written are read back and found consistent
      ([LabelSpec]); a cartridge whose partitions both end in an index is mounted
      with the newer one, whichever way it is found, and one whose data partition
      is ahead, as after an interrupted synchronisation, is made consistent by
      one write that replaces the old index ([MountSpec]).
    - Checksums: table-driven, instruction-driven and bitwise computation agree, and
      bursts of up to four bytes are detected ([ChecksumSpec]).
    - Keys: which key lists are accepted; keys printed into a file or given as options
      are found again by every request ([KeyFormatSpec]).
    - The small parts: each against a reference definition or an inverse
      ([IndexCriteriaSpec], [TimeSpec], [Base64], [Coherency], [Pathname],
      [Errors]).

    The theorems about a component assume of the one below only its interface;
    the files [TapeOnFile], [VolumeOnFile], [FsRawOnFile], [IndexOnFile],
    [LabelOnFile], [XattrOnFile] and [MountOnFile] put the layers on the file-backed
    driver, where every hypothesis is shown to hold of a concrete volume.

    ** Not modelled

    - libxml2 and ICU are libraries the sources call: text conversion and grapheme
      breaks are an argument ([icu_lib]); the XML writer is an argument that takes
      one call after the other, and the XML reader a sequence of nodes, related to
      the calls by [XmlSpec.reads]: elements in the order they were written, with
      any white space between them.  How the text between both looks is not
      modelled.  The data path on tape takes the document as
      bytes, from a serializer that is an argument ([xml_lib]).
    - Reading an Index from a file and writing it to one.
    - Of the extended attributes: the capacities of the partitions, which are computed
      with floating point numbers, and what the tracing facility answers, are arguments.
    - Of mounting: the interruption by a signal, the search for an index on a
      cartridge without end of data, the detection of the last record of such a
      partition, the splitting of symbolic link conflicts (an argument of the
      index reader), revalidation after a cartridge was changed.  The tree of an
      index that was read is an argument of the check ([tree_at]); that the parser
      makes a well-formed tree of a document is the subject of [XmlLoaded].
    - Concurrency outside the lock: an operation of the file system or of the
      tape layer is one atomic step.  Waiting for a revalidation and the
      revalidation itself are arguments of the data path.
    - Of the unified scheduler: the locks, and the reference counts of cache blocks, which
      are never above one.  A call runs alone, except where a writer waits for a cache
      block: what the others do is an argument, and the theorem on writing is for calls
      that find enough blocks.  The rounds of the thread, truncation and the alternate
      extents are modelled without theorems of their own.
    - The dentry cache and the scheduler of iosched/fcfs.c forward calls, as does
      iosched.c; the operations of the file system are modelled without a scheduler, as
      they run when none is loaded.  Hardware drivers issue SCSI commands through the
      operating system.  Logging, tracing, SNMP, option parsing, the FUSE
      callbacks and the command line tools keep no state the rest reads.
    - The cached copy of the MAM attributes that is read back after an Index was
      written: nothing modelled looks at it.
    - Memory exhaustion: [malloc] succeeds. *)

From Stdlib Require Export ZArith Lia.
From stdpp Require Export base gmap list strings option.
#[global] Set Default Goal Selector "!".

Declare Scope ltfs_scope.
Delimit Scope ltfs_scope with ltfs.

(** ** Machine integers

    C integers are [Z] with the wrap-around written out: [u8], [u16], [u32],
    [u64] are the conversions to the unsigned types of those widths. *)

Definition u8 (x : Z) : Z := x `mod` 2 ^ 8.
Definition u16 (x : Z) : Z := x `mod` 2 ^ 16.
Definition u32 (x : Z) : Z := x `mod` 2 ^ 32.
Definition u64 (x : Z) : Z := x `mod` 2 ^ 64.

(** Conversion to [int] (two's complement, 32 bits) and to a 64-bit signed
    integer, as every compiler the project supports implements it. *)
Definition s32 (x : Z) : Z := (x + 2 ^ 31) `mod` 2 ^ 32 - 2 ^ 31.
Definition s64 (x : Z) : Z := (x + 2 ^ 63) `mod` 2 ^ 64 - 2 ^ 63.

Notation "a +u64 b" := (u64 (a + b)) (at level 50, left associativity) : ltfs_scope.
Notation "a -u64 b" := (u64 (a - b)) (at level 50, left associativity) : ltfs_scope.
Notation "a *u64 b" := (u64 (a * b)) (at level 40, left associativity) : ltfs_scope.

(** A byte is a [Z] in the range of [unsigned char]. *)
Definition is_byte (b : Z) : Prop := (0 <= b < 256)%Z.

#[global] Instance is_byte_dec b : Decision (is_byte b).
Proof. unfold is_byte. apply _. Defined.

(** A C string is the list of its characters before the terminating NUL. *)
Abbreviation cstring := (list Z).

Fixpoint cstr (s : string) : cstring :=
  match s with
  | EmptyString => []
  | String a s' => Z.of_N (Ascii.N_of_ascii a) :: cstr s'
  end.

(** ** Small integer facts *)

Lemma u64_small x : (0 <= x < 2 ^ 64)%Z -> u64 x = x.
Proof. intros H. unfold u64. by apply Z.mod_small. Qed.

Lemma u32_small x : (0 <= x < 2 ^ 32)%Z -> u32 x = x.
Proof. intros H. unfold u32. by apply Z.mod_small. Qed.

Lemma u8_small x : (0 <= x < 2 ^ 8)%Z -> u8 x = x.
Proof. intros H. unfold u8. by apply Z.mod_small. Qed.

Lemma s64_small x : (- 2 ^ 63 <= x < 2 ^ 63)%Z -> s64 x = x.
Proof. intros H. unfold s64. rewrite Z.mod_small; lia. Qed.

Lemma s32_small x : (- 2 ^ 31 <= x < 2 ^ 31)%Z -> s32 x = x.
Proof. intros H. unfold s32. rewrite Z.mod_small; lia. Qed.

Lemma u64_range x : (0 <= u64 x < 2 ^ 64)%Z.
Proof. unfold u64. apply Z.mod_pos_bound. lia. Qed.

Lemma u32_range x : (0 <= u32 x < 2 ^ 32)%Z.
Proof. unfold u32. apply Z.mod_pos_bound. lia. Qed.

Lemma u8_range x : (0 <= u8 x < 2 ^ 8)%Z.
Proof. unfold u8. apply Z.mod_pos_bound. lia. Qed.

Lemma u64_add_l a b : u64 (u64 a + b) = u64 (a + b).
Proof. unfold u64. by rewrite Zplus_mod_idemp_l. Qed.

Lemma u32_add_l a b : u32 (u32 a + b) = u32 (a + b).
Proof. unfold u32. by rewrite Zplus_mod_idemp_l. Qed.

Create HintDb ltfs.
#[export] Hint Resolve u64_range u32_range u8_range : ltfs.

(** Case analysis on every boolean test or match of the goal, keeping the
    arithmetic reading of the tests. *)
Ltac case_test :=
  match goal with
  | |- context [ if ?b then _ else _ ] =>
      lazymatch b with
      | context [ if _ then _ else _ ] => fail
      | _ => let E := fresh "E" in destruct b eqn:E
      end
  end.

Ltac bool_to_prop :=
  repeat match goal with
  | H : (_ && _)%bool = true |- _ => apply andb_prop in H; destruct H
  | H : (_ && _)%bool = false |- _ => apply andb_false_iff in H
  | H : (_ || _)%bool = true |- _ => apply orb_prop in H
  | H : (_ || _)%bool = false |- _ => apply orb_false_elim in H; destruct H
  | H : negb _ = true |- _ => apply negb_true_iff in H
  | H : negb _ = false |- _ => apply negb_false_iff in H
  | H : (_ =? _)%Z = true |- _ => apply Z.eqb_eq in H
  | H : (_ =? _)%Z = false |- _ => apply Z.eqb_neq in H
  | H : (_ <=? _)%Z = true |- _ => apply Z.leb_le in H
  | H : (_ <=? _)%Z = false |- _ => apply Z.leb_gt in H
  | H : (_ <? _)%Z = true |- _ => apply Z.ltb_lt in H
  | H : (_ <? _)%Z = false |- _ => apply Z.ltb_ge in H
  | H : (_ >? _)%Z = true |- _ => rewrite Z.gtb_ltb in H; apply Z.ltb_lt in H
  | H : (_ >? _)%Z = false |- _ => rewrite Z.gtb_ltb in H; apply Z.ltb_ge in H
  | H : (_ >=? _)%Z = true |- _ => rewrite Z.geb_leb in H; apply Z.leb_le in H
  | H : (_ >=? _)%Z = false |- _ => rewrite Z.geb_leb in H; apply Z.leb_gt in H
  end.
