(* ===== verification/Errors.v ===== *)
(** * Error codes

    The error numbers of [libltfs/ltfs_error.h], the two predicates of
    [libltfs/tape.h] the recovery paths test, and the table of
    [libltfs/arch/errormap.c] that turns an internal error into the errno value
    FUSE reports.  Functions of the library return a negated code, or a
    non-negative result.  The errno values and the [#ifdef]s of the table are
    those of Linux ([ENOATTR] undefined; [ENOMEDIUM], [EUCLEAN], [ENOTBLK] and
    [EDQUOT] defined). *)

From S2P Require Import Prelude.
Open Scope Z_scope.

(** ** The codes of [ltfs_error.h] *)

Definition LTFS_ERR_MIN : Z := 1000.
Definition LTFS_NULL_ARG : Z := 1000.
Definition LTFS_NO_MEMORY : Z := 1001.
Definition LTFS_MUTEX_INVALID : Z := 1002.
Definition LTFS_MUTEX_UNLOCKED : Z := 1003.
Definition LTFS_BAD_DEVICE_DATA : Z := 1004.
Definition LTFS_BAD_PARTNUM : Z := 1005.
Definition LTFS_LIBXML2_FAILURE : Z := 1006.
Definition LTFS_DEVICE_UNREADY : Z := 1007.
Definition LTFS_NO_MEDIUM : Z := 1008.
Definition LTFS_LARGE_BLOCKSIZE : Z := 1009.
Definition LTFS_BAD_LOCATE : Z := 1010.
Definition LTFS_NOT_PARTITIONED : Z := 1011.
Definition LTFS_LABEL_INVALID : Z := 1012.
Definition LTFS_LABEL_MISMATCH : Z := 1013.
Definition LTFS_INDEX_INVALID : Z := 1014.
Definition LTFS_INCONSISTENT : Z := 1015.
Definition LTFS_UNSUPPORTED_MEDIUM : Z := 1016.
Definition LTFS_GENERATION_MISMATCH : Z := 1017.
Definition LTFS_MAM_CACHE_INVALID : Z := 1018.
Definition LTFS_INDEX_CACHE_INVALID : Z := 1019.
Definition LTFS_POLICY_EMPTY_RULE : Z := 1020.
Definition LTFS_MUTEX_INIT : Z := 1021.
Definition LTFS_BAD_ARG : Z := 1022.
Definition LTFS_NAMETOOLONG : Z := 1023.
Definition LTFS_NO_DENTRY : Z := 1024.
Definition LTFS_INVALID_PATH : Z := 1025.
Definition LTFS_INVALID_SRC_PATH : Z := 1026.
Definition LTFS_DENTRY_EXISTS : Z := 1027.
Definition LTFS_DIRNOTEMPTY : Z := 1028.
Definition LTFS_UNLINKROOT : Z := 1029.
Definition LTFS_DIRMOVE : Z := 1030.
Definition LTFS_RENAMELOOP : Z := 1031.
Definition LTFS_SMALL_BLOCK : Z := 1032.
Definition LTFS_ISDIRECTORY : Z := 1033.
Definition LTFS_EOD_MISSING_MEDIUM : Z := 1034.
Definition LTFS_BOTH_EOD_MISSING : Z := 1035.
Definition LTFS_UNEXPECTED_VALUE : Z := 1036.
Definition LTFS_UNSUPPORTED : Z := 1037.
Definition LTFS_NO_XATTR : Z := 1040.
Definition LTFS_SIG_HANDLER_ERR : Z := 1041.
Definition LTFS_INTERRUPTED : Z := 1042.
Definition LTFS_UNSUPPORTED_INDEX_VERSION : Z := 1043.
Definition LTFS_ICU_ERROR : Z := 1044.
Definition LTFS_PLUGIN_LOAD : Z := 1045.
Definition LTFS_PLUGIN_UNLOAD : Z := 1046.
Definition LTFS_RDONLY_XATTR : Z := 1047.
Definition LTFS_XATTR_EXISTS : Z := 1048.
Definition LTFS_SMALL_BUFFER : Z := 1049.
Definition LTFS_RDONLY_VOLUME : Z := 1050.
Definition LTFS_NO_SPACE : Z := 1051.
Definition LTFS_LARGE_XATTR : Z := 1052.
Definition LTFS_NO_INDEX : Z := 1053.
Definition LTFS_XATTR_NAMESPACE : Z := 1054.
Definition LTFS_CONFIG_INVALID : Z := 1055.
Definition LTFS_PLUGIN_INCOMPLETE : Z := 1056.
Definition LTFS_NO_PLUGIN : Z := 1057.
Definition LTFS_POLICY_INVALID : Z := 1058.
Definition LTFS_ISFILE : Z := 1059.
Definition LTFS_UNRESOLVED_VOLUME : Z := 1060.
Definition LTFS_POLICY_IMMUTABLE : Z := 1061.
Definition LTFS_SMALL_BLOCKSIZE : Z := 1062.
Definition LTFS_BARCODE_LENGTH : Z := 1063.
Definition LTFS_BARCODE_INVALID : Z := 1064.
Definition LTFS_RESOURCE_SHORTAGE : Z := 1065.
Definition LTFS_DEVICE_FENCED : Z := 1066.
Definition LTFS_REVAL_RUNNING : Z := 1067.
Definition LTFS_REVAL_FAILED : Z := 1068.
Definition LTFS_SLOT_FULL : Z := 1069.
Definition LTFS_SLOT_SHORTAGE : Z := 1070.
Definition LTFS_CHANGER_ERROR : Z := 1071.
Definition LTFS_UNEXPECTED_TAPE : Z := 1072.
Definition LTFS_NO_HOMESLOT : Z := 1073.
Definition LTFS_MOVE_ACTIVE_CART : Z := 1074.
Definition LTFS_NO_IE_SLOT : Z := 1075.
Definition LTFS_INVALID_SLOT : Z := 1076.
Definition LTFS_UNSUPPORTED_CART : Z := 1077.
Definition LTFS_CART_STUCKED : Z := 1078.
Definition LTFS_OP_NOT_ALLOWED : Z := 1079.
Definition LTFS_OP_TO_DUP : Z := 1080.
Definition LTFS_OP_TO_NON_SUP : Z := 1081.
Definition LTFS_OP_TO_INACC : Z := 1082.
Definition LTFS_OP_TO_UNFMT : Z := 1083.
Definition LTFS_OP_TO_INV : Z := 1084.
Definition LTFS_OP_TO_ERR : Z := 1085.
Definition LTFS_OP_TO_CRIT : Z := 1086.
Definition LTFS_OP_TO_CLN : Z := 1087.
Definition LTFS_OP_TO_RO : Z := 1088.
Definition LTFS_ALREADY_FS_INC : Z := 1089.
Definition LTFS_NOT_IN_FS : Z := 1090.
Definition LTFS_FS_CART_TO_IE : Z := 1091.
Definition LTFS_OP_TO_UNKN : Z := 1092.
Definition LTFS_DRV_LOCKED : Z := 1093.
Definition LTFS_DRV_ALRDY_ADDED : Z := 1094.
Definition LTFS_FORCE_INVENTORY : Z := 1095.
Definition LTFS_INVENTORY_FAILED : Z := 1096.
Definition LTFS_RESTART_OPERATION : Z := 1097.
Definition LTFS_NO_TARGET_DRIVE : Z := 1098.
Definition LTFS_NO_DCACHE_FSTYPE : Z := 1099.
Definition LTFS_IMAGE_EXISTED : Z := 1100.
Definition LTFS_IMAGE_MOUNTED : Z := 1101.
Definition LTFS_IMAGE_NOT_MOUNTED : Z := 1102.
Definition LTFS_MTAB_NOREGULAR : Z := 1103.
Definition LTFS_MTAB_OPEN : Z := 1104.
Definition LTFS_MTAB_LOCK : Z := 1105.
Definition LTFS_MTAB_SEEK : Z := 1106.
Definition LTFS_MTAB_UPDATE : Z := 1107.
Definition LTFS_MTAB_FLUSH : Z := 1108.
Definition LTFS_MTAB_UNLOCK : Z := 1109.
Definition LTFS_MTAB_CLOSE : Z := 1110.
Definition LTFS_MTAB_COPY : Z := 1111.
Definition LTFS_MTAB_TEMP_OPEN : Z := 1112.
Definition LTFS_MTAB_TEMP_SEEK : Z := 1113.
Definition LTFS_DCACHE_CREATION_FAIL : Z := 1114.
Definition LTFS_DCACHE_UNSUPPORTED : Z := 1115.
Definition LTFS_DCACHE_EXTRA_SPACE : Z := 1116.
Definition LTFS_KEY_NOT_FOUND : Z := 1117.
Definition LTFS_INVALID_SEQUENCE : Z := 1118.
Definition LTFS_RDONLY_ROOT : Z := 1119.
Definition LTFS_SYMLINK_CONFLICT : Z := 1120.
Definition LTFS_NETWORK_INIT_FAIL : Z := 1121.
Definition LTFS_DRIVE_SHORTAGE : Z := 1122.
Definition LTFS_INVALID_VOLSER : Z := 1123.
Definition LTFS_LESS_SPACE : Z := 1124.
Definition LTFS_WRITE_PROTECT : Z := 1125.
Definition LTFS_WRITE_ERROR : Z := 1126.
Definition LTFS_UNEXPECTED_BARCODE : Z := 1127.
Definition LTFS_STRING_CONVERSION : Z := 1128.
Definition LTFS_SESSION_INIT_FAIL : Z := 1129.
Definition LTFS_MESSAGE_INVALID : Z := 1130.
Definition LTFS_PASSWORD_INVALID : Z := 1131.
Definition LTFS_NOT_AUTHENTICATERD : Z := 1132.
Definition LTFS_WORM_DEEP_RECOVERY : Z := 1133.
Definition LTFS_WORM_ROLLBACK : Z := 1134.
Definition LTFS_NONWORM_SALVAGE : Z := 1135.
Definition LTFS_FORMATTED : Z := 1136.
Definition LTFS_RULES_WORM : Z := 1137.
Definition LTFS_BAD_BLOCKSIZE : Z := 1138.
Definition LTFS_BAD_VOLNAME : Z := 1139.
Definition LTFS_BAD_RULES : Z := 1140.
Definition LTFS_GEN_NEEDED : Z := 1141.
Definition LTFS_BAD_GENERATION : Z := 1142.
Definition LTFS_NO_ROLLBACK_TARGET : Z := 1143.
Definition LTFS_MANY_INDEXES : Z := 1144.
Definition LTFS_SALVAGE_NOT_NEEDED : Z := 1145.
Definition LTFS_LOGICAL_WRITE_PROTECT : Z := 1146.
Definition LTFS_CARTRIDGE_NOT_FOUND : Z := 1150.
Definition LTFS_CACHE_LOCK_ERR : Z := 1151.
Definition LTFS_CACHE_UNLOCK_ERR : Z := 1152.
Definition LTFS_CREPO_FILE_ERR : Z := 1153.
Definition LTFS_CREPO_READ_ERR : Z := 1154.
Definition LTFS_CREPO_WRITE_ERR : Z := 1155.
Definition LTFS_CREPO_INVALID_OP : Z := 1156.
Definition LTFS_FILE_ERR : Z := 1157.
Definition LTFS_CARTRIDGE_IN_USE : Z := 1158.
Definition LTFS_NO_LOCK_ENTRY : Z := 1159.
Definition LTFS_MOUNT_ERR : Z := 1160.
Definition LTFS_NO_DEVICE : Z := 1161.
Definition LTFS_XATTR_ERR : Z := 1162.
Definition LTFS_FTW_ERR : Z := 1163.
Definition LTFS_TIME_ERR : Z := 1164.
Definition LTFS_NOT_BLOCK_DEVICE : Z := 1165.
Definition LTFS_QUOTA_EXCEEDED : Z := 1166.
Definition LTFS_TOO_MANY_OPEN_FILES : Z := 1167.
Definition LTFS_LINKDIR_EXISTS : Z := 1168.
Definition LTFS_NO_DMAP_ENTRY : Z := 1169.
Definition LTFS_RECOVERABLE_FILE_ERR : Z := 1170.
Definition LTFS_NO_DCACHE_SPC : Z := 1171.
Definition LTFS_CREPO_UNAVAILABLE : Z := 1172.
Definition LTFS_CREPO_OUT_OF_SYNC : Z := 1173.
Definition LTFS_NODE_STATUS_ERR : Z := 1174.
Definition LTFS_OUT_OF_SYNC : Z := 1175.
Definition LTFS_CACHE_SYNC_FAILED : Z := 1176.
Definition LTFS_DCACHE_SYNC_FAILED : Z := 1177.
Definition LTFS_CREPOS_SYNC_FAILED : Z := 1178.
Definition LTFS_NO_MULTINODE_CONFIG : Z := 1179.
Definition LTFS_MULTINODE_FILE_ERR : Z := 1180.
Definition LTFS_CACHE_DISCARDED : Z := 1181.
Definition LTFS_LONG_WRITE_LOCK : Z := 1182.
Definition LTFS_INCOMPATIBLE_CACHE : Z := 1183.
Definition LTFS_DCACHE_NOT_INITIALIZED : Z := 1184.
Definition LTFS_CONFIG_FILE_WLOCKED : Z := 1185.
Definition LTFS_CREATE_QUEUE : Z := 1186.
Definition LTFS_FORK_ERROR : Z := 1187.
Definition LTFS_NOACK : Z := 1188.
Definition LTFS_NODE_DETECT_FAIL : Z := 1189.
Definition LTFS_INVALID_MESSAGE : Z := 1190.
Definition LTFS_NODE_DEGATE_FAIL : Z := 1191.
Definition LTFS_CLUSTER_MRSW_FAIL : Z := 1192.
Definition LTFS_ERR_MAX : Z := 19999.
Definition DEVICE_GOOD : Z := 0.
Definition EDEV_ERR_MIN : Z := 20000.
Definition EDEV_NO_SENSE : Z := 20000.
Definition EDEV_OVERRUN : Z := 20002.
Definition EDEV_UNDERRUN : Z := 20003.
Definition EDEV_FILEMARK_DETECTED : Z := 20004.
Definition EDEV_EARLY_WARNING : Z := 20005.
Definition EDEV_BOP_DETECTED : Z := 20006.
Definition EDEV_PROG_EARLY_WARNING : Z := 20007.
Definition EDEV_CLEANING_CART : Z := 20008.
Definition EDEV_VOLTAG_NOT_READABLE : Z := 20009.
Definition EDEV_LOCATION_NOT_PRESENT : Z := 20010.
Definition EDEV_MEDIA_PRESENSE_UNKNOWN : Z := 20011.
Definition EDEV_SLOT_UNKNOWN_STATE : Z := 20012.
Definition EDEV_DRIVE_NOT_PRESENT : Z := 20013.
Definition EDEV_RECORD_NOT_FOUND : Z := 20014.
Definition EDEV_INSUFFICIENT_TIME : Z := 20015.
Definition EDEV_CLEANING_REQUIRED : Z := 20098.
Definition EDEV_RECOVERED_ERROR : Z := 20100.
Definition EDEV_MODE_PARAMETER_ROUNDED : Z := 20101.
Definition EDEV_DEGRADED_MEDIA : Z := 20198.
Definition EDEV_NOT_READY : Z := 20200.
Definition EDEV_NOT_REPORTABLE : Z := 20201.
Definition EDEV_BECOMING_READY : Z := 20202.
Definition EDEV_NEED_INITIALIZE : Z := 20203.
Definition EDEV_MANUAL_INTERVENTION : Z := 20204.
Definition EDEV_OPERATION_IN_PROGRESS : Z := 20205.
Definition EDEV_OFFLINE : Z := 20206.
Definition EDEV_DOOR_OPEN : Z := 20207.
Definition EDEV_OVER_TEMPERATURE : Z := 20208.
Definition EDEV_NO_MEDIUM : Z := 20209.
Definition EDEV_NOT_SELF_CONFIGURED_YET : Z := 20210.
Definition EDEV_PARAMETER_VALUE_REJECTED : Z := 20211.
Definition EDEV_CLEANING_IN_PROGRESS : Z := 20297.
Definition EDEV_IE_OPEN : Z := 20298.
Definition EDEV_MEDIUM_MIN : Z := 20300.
Definition EDEV_MEDIUM_ERROR : Z := 20300.
Definition EDEV_RW_PERM : Z := 20301.
Definition EDEV_CM_PERM : Z := 20302.
Definition EDEV_MEDIUM_FORMAT_ERROR : Z := 20303.
Definition EDEV_MEDIUM_FORMAT_CORRUPTED : Z := 20304.
Definition EDEV_INTEGRITY_CHECK : Z := 20305.
Definition EDEV_LOAD_UNLOAD_ERROR : Z := 20306.
Definition EDEV_CLEANING_FALIURE : Z := 20307.
Definition EDEV_READ_PERM : Z := 20308.
Definition EDEV_WRITE_PERM : Z := 20309.
Definition EDEV_MEDIUM_MAX : Z := 20399.
Definition EDEV_HARDWARE_MIN : Z := 20400.
Definition EDEV_HARDWARE_ERROR : Z := 20400.
Definition EDEV_LBP_WRITE_ERROR : Z := 20401.
Definition EDEV_LBP_READ_ERROR : Z := 20402.
Definition EDEV_HARDWARE_MAX : Z := 20499.
Definition EDEV_ILLEGAL_REQUEST : Z := 20500.
Definition EDEV_INVALID_FIELD_CDB : Z := 20501.
Definition EDEV_DEST_FULL : Z := 20502.
Definition EDEV_SRC_EMPTY : Z := 20503.
Definition EDEV_MAGAZINE_INACCESSIBLE : Z := 20504.
Definition EDEV_INVALID_ADDRESS : Z := 20505.
Definition EDEV_MEDIUM_LOCKED : Z := 20506.
Definition EDEV_UA_MIN : Z := 20600.
Definition EDEV_UNIT_ATTENTION : Z := 20600.
Definition EDEV_MEDIUM_MAY_BE_CHANGED : Z := 20601.
Definition EDEV_IE_ACCESSED : Z := 20602.
Definition EDEV_POR_OR_BUS_RESET : Z := 20603.
Definition EDEV_CONFIGURE_CHANGED : Z := 20604.
Definition EDEV_COMMAND_CLEARED : Z := 20605.
Definition EDEV_MEDIUM_REMOVAL_REQ : Z := 20606.
Definition EDEV_MEDIA_REMOVAL_PREV : Z := 20607.
Definition EDEV_DOOR_CLOSED : Z := 20608.
Definition EDEV_UA_MAX : Z := 20699.
Definition EDEV_DATA_PROTECT : Z := 20700.
Definition EDEV_WRITE_PROTECTED : Z := 20701.
Definition EDEV_WRITE_PROTECTED_WORM : Z := 20702.
Definition EDEV_WRITE_PROTECTED_OPERATOR : Z := 20703.
Definition EDEV_BLANK_CHECK : Z := 20800.
Definition EDEV_EOD_DETECTED : Z := 20801.
Definition EDEV_EOD_NOT_FOUND : Z := 20802.
Definition EDEV_ABORTED_COMMAND : Z := 21100.
Definition EDEV_OVERLAPPED : Z := 21101.
Definition EDEV_TIMEOUT : Z := 21102.
Definition EDEV_OVERFLOW : Z := 21300.
Definition EDEV_CRYPTO_ERROR : Z := 21600.
Definition EDEV_KEY_SERVICE_ERROR : Z := 21601.
Definition EDEV_KEY_CHANGE_DETECTED : Z := 21602.
Definition EDEV_KEY_REQUIRED : Z := 21603.
Definition EDEV_INTERNAL_ERROR : Z := 21700.
Definition EDEV_DRIVER_ERROR : Z := 21701.
Definition EDEV_HOST_ERROR : Z := 21702.
Definition EDEV_TARGET_ERROR : Z := 21703.
Definition EDEV_NO_MEMORY : Z := 21704.
Definition EDEV_UNSUPPORTED_FUNCTION : Z := 21705.
Definition EDEV_PARAMETER_NOT_FOUND : Z := 21706.
Definition EDEV_CANNOT_GET_SENSE : Z := 21707.
Definition EDEV_INVALID_ARG : Z := 21708.
Definition EDEV_DUMP_EIO : Z := 21709.
Definition EDEV_DEVICE_BUSY : Z := 21710.
Definition EDEV_DEVICE_UNOPENABLE : Z := 21711.
Definition EDEV_DEVICE_UNSUPPORTABLE : Z := 21712.
Definition EDEV_INVALID_LICENSE : Z := 21713.
Definition EDEV_UNSUPPORTED_FIRMWARE : Z := 21714.
Definition EDEV_UNKNOWN : Z := 29998.
Definition EDEV_VENDOR_UNIQUE : Z := 29999.

(** ** The recovery predicates of [tape.h] *)

Definition NEED_REVAL (ret : Z) : bool :=
  (ret =? - EDEV_POR_OR_BUS_RESET) || (ret =? - EDEV_MEDIUM_MAY_BE_CHANGED).

Definition IS_UNEXPECTED_MOVE (ret : Z) : bool := ret =? - EDEV_MEDIUM_REMOVAL_REQ.

(** ** errno values (Linux) *)

Definition EPERM : Z := 1.
Definition ENOENT : Z := 2.
Definition EIO : Z := 5.
Definition EAGAIN : Z := 11.
Definition ENOMEM : Z := 12.
Definition EACCES : Z := 13.
Definition EFAULT : Z := 14.
Definition ENOTBLK : Z := 15.
Definition EBUSY : Z := 16.
Definition EEXIST : Z := 17.
Definition ENODEV : Z := 19.
Definition ENOTDIR : Z := 20.
Definition EINVAL : Z := 22.
Definition ENFILE : Z := 23.
Definition ENOSPC : Z := 28.
Definition ESPIPE : Z := 29.
Definition EROFS : Z := 30.
Definition ERANGE : Z := 34.
Definition ENAMETOOLONG : Z := 36.
Definition ENOTEMPTY : Z := 39.
Definition EIDRM : Z := 43.
Definition ENODATA : Z := 61.
Definition EILSEQ : Z := 84.
Definition EOPNOTSUPP : Z := 95.
Definition ETIMEDOUT : Z := 110.
Definition EUCLEAN : Z := 117.
Definition EDQUOT : Z := 122.
Definition ENOMEDIUM : Z := 123.
Definition ECANCELED : Z := 125.

(** ** The error map *)

Record error_map := {
  ltfs_error : Z;
  msd_id : string;
  general_error : Z
}.

(** [fuse_error_list], up to its sentinel entry. *)
Definition fuse_error_list : list error_map := [
  Build_error_map LTFS_NULL_ARG "I1000E" EINVAL;
  Build_error_map LTFS_NO_MEMORY "I1001E" ENOMEM;
  Build_error_map LTFS_MUTEX_INVALID "I1002E" EINVAL;
  Build_error_map LTFS_MUTEX_UNLOCKED "I1003E" EINVAL;
  Build_error_map LTFS_BAD_DEVICE_DATA "I1004E" EINVAL;
  Build_error_map LTFS_BAD_PARTNUM "I1005E" EINVAL;
  Build_error_map LTFS_LIBXML2_FAILURE "I1006E" EINVAL;
  Build_error_map LTFS_DEVICE_UNREADY "I1007E" EAGAIN;
  Build_error_map LTFS_NO_MEDIUM "I1008E" ENOMEDIUM;
  Build_error_map LTFS_LARGE_BLOCKSIZE "I1009E" EINVAL;
  Build_error_map LTFS_BAD_LOCATE "I1010E" EIO;
  Build_error_map LTFS_NOT_PARTITIONED "I1011E" EINVAL;
  Build_error_map LTFS_LABEL_INVALID "I1012E" EINVAL;
  Build_error_map LTFS_LABEL_MISMATCH "I1013E" EINVAL;
  Build_error_map LTFS_INDEX_INVALID "I1014E" EINVAL;
  Build_error_map LTFS_INCONSISTENT "I1015E" EINVAL;
  Build_error_map LTFS_UNSUPPORTED_MEDIUM "I1016E" EINVAL;
  Build_error_map LTFS_GENERATION_MISMATCH "I1017E" EINVAL;
  Build_error_map LTFS_MAM_CACHE_INVALID "I1018E" EINVAL;
  Build_error_map LTFS_INDEX_CACHE_INVALID "I1019E" EINVAL;
  Build_error_map LTFS_POLICY_EMPTY_RULE "I1020E" EINVAL;
  Build_error_map LTFS_MUTEX_INIT "I1021E" EINVAL;
  Build_error_map LTFS_BAD_ARG "I1022E" EINVAL;
  Build_error_map LTFS_NAMETOOLONG "I1023E" ENAMETOOLONG;
  Build_error_map LTFS_NO_DENTRY "I1024E" ENOENT;
  Build_error_map LTFS_INVALID_PATH "I1025E" EINVAL;
  Build_error_map LTFS_INVALID_SRC_PATH "I1026E" ENOENT;
  Build_error_map LTFS_DENTRY_EXISTS "I1027E" EEXIST;
  Build_error_map LTFS_DIRNOTEMPTY "I1028E" ENOTEMPTY;
  Build_error_map LTFS_UNLINKROOT "I1029E" EBUSY;
  Build_error_map LTFS_DIRMOVE "I1030E" EIO;
  Build_error_map LTFS_RENAMELOOP "I1031E" EINVAL;
  Build_error_map LTFS_SMALL_BLOCK "I1032E" EIO;
  Build_error_map LTFS_ISDIRECTORY "I1033E" EINVAL;
  Build_error_map LTFS_EOD_MISSING_MEDIUM "I1034E" EINVAL;
  Build_error_map LTFS_BOTH_EOD_MISSING "I1035E" EIO;
  Build_error_map LTFS_UNEXPECTED_VALUE "I1036E" EIO;
  Build_error_map LTFS_UNSUPPORTED "I1037E" EIO;
  Build_error_map LTFS_NO_XATTR "I1040E" ENODATA;
  Build_error_map LTFS_SIG_HANDLER_ERR "I1041E" EINVAL;
  Build_error_map LTFS_INTERRUPTED "I1042E" ECANCELED;
  Build_error_map LTFS_UNSUPPORTED_INDEX_VERSION "I1043E" EINVAL;
  Build_error_map LTFS_ICU_ERROR "I1044E" EINVAL;
  Build_error_map LTFS_PLUGIN_LOAD "I1045E" EINVAL;
  Build_error_map LTFS_PLUGIN_UNLOAD "I1046E" EINVAL;
  Build_error_map LTFS_RDONLY_XATTR "I1047E" EACCES;
  Build_error_map LTFS_XATTR_EXISTS "I1048E" EEXIST;
  Build_error_map LTFS_SMALL_BUFFER "I1049E" ERANGE;
  Build_error_map LTFS_RDONLY_VOLUME "I1050E" EROFS;
  Build_error_map LTFS_NO_SPACE "I1051E" ENOSPC;
  Build_error_map LTFS_LARGE_XATTR "I1052E" ENOSPC;
  Build_error_map LTFS_NO_INDEX "I1053E" ENODATA;
  Build_error_map LTFS_XATTR_NAMESPACE "I1054E" EOPNOTSUPP;
  Build_error_map LTFS_CONFIG_INVALID "I1055E" EINVAL;
  Build_error_map LTFS_PLUGIN_INCOMPLETE "I1056E" EINVAL;
  Build_error_map LTFS_NO_PLUGIN "I1057E" ENOENT;
  Build_error_map LTFS_POLICY_INVALID "I1058E" EINVAL;
  Build_error_map LTFS_ISFILE "I1059E" ENOTDIR;
  Build_error_map LTFS_UNRESOLVED_VOLUME "I1060E" EBUSY;
  Build_error_map LTFS_POLICY_IMMUTABLE "I1061E" EPERM;
  Build_error_map LTFS_SMALL_BLOCKSIZE "I1062E" EINVAL;
  Build_error_map LTFS_BARCODE_LENGTH "I1063E" EINVAL;
  Build_error_map LTFS_BARCODE_INVALID "I1064E" EINVAL;
  Build_error_map LTFS_RESOURCE_SHORTAGE "I1065E" EBUSY;
  Build_error_map LTFS_DEVICE_FENCED "I1066E" EAGAIN;
  Build_error_map LTFS_REVAL_RUNNING "I1067E" EAGAIN;
  Build_error_map LTFS_REVAL_FAILED "I1068E" EFAULT;
  Build_error_map LTFS_SLOT_FULL "I1069E" EFAULT;
  Build_error_map LTFS_SLOT_SHORTAGE "I1070E" EFAULT;
  Build_error_map LTFS_CHANGER_ERROR "I1071E" EIO;
  Build_error_map LTFS_UNEXPECTED_TAPE "I1072E" EINVAL;
  Build_error_map LTFS_NO_HOMESLOT "I1073E" EINVAL;
  Build_error_map LTFS_MOVE_ACTIVE_CART "I1074E" ECANCELED;
  Build_error_map LTFS_NO_IE_SLOT "I1075E" ECANCELED;
  Build_error_map LTFS_INVALID_SLOT "I1076E" EINVAL;
  Build_error_map LTFS_UNSUPPORTED_CART "I1077E" EINVAL;
  Build_error_map LTFS_CART_STUCKED "I1078E" EIO;
  Build_error_map LTFS_OP_NOT_ALLOWED "I1079E" EINVAL;
  Build_error_map LTFS_OP_TO_DUP "I1080E" EINVAL;
  Build_error_map LTFS_OP_TO_NON_SUP "I1081E" EINVAL;
  Build_error_map LTFS_OP_TO_INACC "I1082E" EINVAL;
  Build_error_map LTFS_OP_TO_UNFMT "I1083E" EINVAL;
  Build_error_map LTFS_OP_TO_INV "I1084E" EINVAL;
  Build_error_map LTFS_OP_TO_ERR "I1085E" EINVAL;
  Build_error_map LTFS_OP_TO_CRIT "I1086E" EINVAL;
  Build_error_map LTFS_OP_TO_CLN "I1087E" EINVAL;
  Build_error_map LTFS_OP_TO_RO "I1088E" EINVAL;
  Build_error_map LTFS_ALREADY_FS_INC "I1089E" EINVAL;
  Build_error_map LTFS_NOT_IN_FS "I1090E" EINVAL;
  Build_error_map LTFS_FS_CART_TO_IE "I1091E" EINVAL;
  Build_error_map LTFS_OP_TO_UNKN "I1092E" EINVAL;
  Build_error_map LTFS_DRV_LOCKED "I1093E" EINVAL;
  Build_error_map LTFS_DRV_ALRDY_ADDED "I1094E" EINVAL;
  Build_error_map LTFS_FORCE_INVENTORY "I1095E" EIO;
  Build_error_map LTFS_INVENTORY_FAILED "I1096E" EFAULT;
  Build_error_map LTFS_RESTART_OPERATION "I1097E" EIO;
  Build_error_map LTFS_NO_TARGET_DRIVE "I1098E" EINVAL;
  Build_error_map LTFS_NO_DCACHE_FSTYPE "I1099E" EINVAL;
  Build_error_map LTFS_IMAGE_EXISTED "I1100E" EINVAL;
  Build_error_map LTFS_IMAGE_MOUNTED "I1101E" EIO;
  Build_error_map LTFS_IMAGE_NOT_MOUNTED "I1102E" EIO;
  Build_error_map LTFS_MTAB_NOREGULAR "I1103E" EIO;
  Build_error_map LTFS_MTAB_OPEN "I1104E" EIO;
  Build_error_map LTFS_MTAB_LOCK "I1105E" EIO;
  Build_error_map LTFS_MTAB_SEEK "I1106E" EIO;
  Build_error_map LTFS_MTAB_UPDATE "I1107E" EIO;
  Build_error_map LTFS_MTAB_FLUSH "I1108E" EIO;
  Build_error_map LTFS_MTAB_UNLOCK "I1109E" EIO;
  Build_error_map LTFS_MTAB_CLOSE "I1110E" EIO;
  Build_error_map LTFS_MTAB_COPY "I1111E" EIO;
  Build_error_map LTFS_MTAB_TEMP_OPEN "I1112E" EIO;
  Build_error_map LTFS_MTAB_TEMP_SEEK "I1113E" EIO;
  Build_error_map LTFS_DCACHE_CREATION_FAIL "I1114E" EIO;
  Build_error_map LTFS_DCACHE_UNSUPPORTED "I1115E" EINVAL;
  Build_error_map LTFS_DCACHE_EXTRA_SPACE "I1116E" EINVAL;
  Build_error_map LTFS_KEY_NOT_FOUND "I1117E" EINVAL;
  Build_error_map LTFS_INVALID_SEQUENCE "I1118E" EINVAL;
  Build_error_map LTFS_RDONLY_ROOT "I1119E" EACCES;
  Build_error_map LTFS_SYMLINK_CONFLICT "I1120E" EIO;
  Build_error_map LTFS_NETWORK_INIT_FAIL "I1121E" EINVAL;
  Build_error_map LTFS_DRIVE_SHORTAGE "I1122E" ENODEV;
  Build_error_map LTFS_INVALID_VOLSER "I1123E" EINVAL;
  Build_error_map LTFS_LESS_SPACE "I1124E" ENOSPC;
  Build_error_map LTFS_WRITE_PROTECT "I1125E" EROFS;
  Build_error_map LTFS_WRITE_ERROR "I1126E" EROFS;
  Build_error_map LTFS_UNEXPECTED_BARCODE "I1127E" EIO;
  Build_error_map LTFS_STRING_CONVERSION "I1128E" EINVAL;
  Build_error_map LTFS_SESSION_INIT_FAIL "I1129E" EIO;
  Build_error_map LTFS_MESSAGE_INVALID "I1130E" EINVAL;
  Build_error_map LTFS_PASSWORD_INVALID "I1131E" EPERM;
  Build_error_map LTFS_NOT_AUTHENTICATERD "I1132E" EINVAL;
  Build_error_map LTFS_WORM_DEEP_RECOVERY "I1133E" EINVAL;
  Build_error_map LTFS_WORM_ROLLBACK "I1134E" EINVAL;
  Build_error_map LTFS_NONWORM_SALVAGE "I1135E" EINVAL;
  Build_error_map LTFS_FORMATTED "I1136E" EPERM;
  Build_error_map LTFS_RULES_WORM "I1137E" EINVAL;
  Build_error_map LTFS_BAD_BLOCKSIZE "I1138E" EINVAL;
  Build_error_map LTFS_BAD_VOLNAME "I1139E" EINVAL;
  Build_error_map LTFS_BAD_RULES "I1140E" EINVAL;
  Build_error_map LTFS_GEN_NEEDED "I1141E" EINVAL;
  Build_error_map LTFS_BAD_GENERATION "I1142E" EINVAL;
  Build_error_map LTFS_NO_ROLLBACK_TARGET "I1143E" EINVAL;
  Build_error_map LTFS_MANY_INDEXES "I1144E" EINVAL;
  Build_error_map LTFS_SALVAGE_NOT_NEEDED "I1145E" EINVAL;
  Build_error_map LTFS_CARTRIDGE_NOT_FOUND "I1150E" EINVAL;
  Build_error_map LTFS_CACHE_LOCK_ERR "I1151E" EIO;
  Build_error_map LTFS_CACHE_UNLOCK_ERR "I1152E" EIO;
  Build_error_map LTFS_CREPO_FILE_ERR "I1153E" EIO;
  Build_error_map LTFS_CREPO_READ_ERR "I1154E" EIO;
  Build_error_map LTFS_CREPO_WRITE_ERR "I1155E" EIO;
  Build_error_map LTFS_CREPO_INVALID_OP "I1156E" EINVAL;
  Build_error_map LTFS_FILE_ERR "I1157E" EIO;
  Build_error_map LTFS_CARTRIDGE_IN_USE "I1158E" EBUSY;
  Build_error_map LTFS_NO_LOCK_ENTRY "I1159E" ENOENT;
  Build_error_map LTFS_MOUNT_ERR "I1160E" EIO;
  Build_error_map LTFS_NO_DEVICE "I1161E" ENODEV;
  Build_error_map LTFS_XATTR_ERR "I1162E" EIO;
  Build_error_map LTFS_FTW_ERR "I1163E" EIO;
  Build_error_map LTFS_TIME_ERR "I1164E" EIO;
  Build_error_map LTFS_NOT_BLOCK_DEVICE "I1165E" ENOTBLK;
  Build_error_map LTFS_QUOTA_EXCEEDED "I1166E" EDQUOT;
  Build_error_map LTFS_TOO_MANY_OPEN_FILES "I1167E" ENFILE;
  Build_error_map LTFS_LINKDIR_EXISTS "I1168E" EEXIST;
  Build_error_map LTFS_NO_DMAP_ENTRY "I1169E" ENOENT;
  Build_error_map LTFS_RECOVERABLE_FILE_ERR "I1170E" EAGAIN;
  Build_error_map LTFS_NO_DCACHE_SPC "I1171E" ENOSPC;
  Build_error_map LTFS_CREPO_UNAVAILABLE "I1172E" EAGAIN;
  Build_error_map LTFS_CREPO_OUT_OF_SYNC "I1173E" EAGAIN;
  Build_error_map LTFS_NODE_STATUS_ERR "I1174E" EIO;
  Build_error_map LTFS_OUT_OF_SYNC "I1175E" EAGAIN;
  Build_error_map LTFS_CACHE_SYNC_FAILED "I1176E" EAGAIN;
  Build_error_map LTFS_DCACHE_SYNC_FAILED "I1177E" EAGAIN;
  Build_error_map LTFS_CREPOS_SYNC_FAILED "I1178E" EAGAIN;
  Build_error_map LTFS_NO_MULTINODE_CONFIG "I1179E" ENOENT;
  Build_error_map LTFS_MULTINODE_FILE_ERR "I1180E" EIO;
  Build_error_map LTFS_CACHE_DISCARDED "I1181E" ENOENT;
  Build_error_map LTFS_LONG_WRITE_LOCK "I1182E" EAGAIN;
  Build_error_map LTFS_INCOMPATIBLE_CACHE "I1183E" EINVAL;
  Build_error_map LTFS_DCACHE_NOT_INITIALIZED "I1184E" EIO;
  Build_error_map LTFS_CONFIG_FILE_WLOCKED "I1185E" EINVAL;
  Build_error_map LTFS_CREATE_QUEUE "I1186E" EIO;
  Build_error_map LTFS_FORK_ERROR "I1187E" EIO;
  Build_error_map LTFS_NOACK "I1188E" EIO;
  Build_error_map LTFS_NODE_DETECT_FAIL "I1189E" EIO;
  Build_error_map LTFS_INVALID_MESSAGE "I1190E" EIO;
  Build_error_map LTFS_NODE_DEGATE_FAIL "I1191E" EIO;
  Build_error_map LTFS_CLUSTER_MRSW_FAIL "I1192E" EIO;
  Build_error_map EDEV_NO_SENSE "D0000E" EIO;
  Build_error_map EDEV_OVERRUN "D0002E" EIO;
  Build_error_map EDEV_UNDERRUN "D0003E" ENODATA;
  Build_error_map EDEV_FILEMARK_DETECTED "D0004E" EIO;
  Build_error_map EDEV_EARLY_WARNING "D0005E" EIO;
  Build_error_map EDEV_BOP_DETECTED "D0006E" EIO;
  Build_error_map EDEV_PROG_EARLY_WARNING "D0007E" EIO;
  Build_error_map EDEV_CLEANING_CART "D0008E" EINVAL;
  Build_error_map EDEV_VOLTAG_NOT_READABLE "D0009E" EINVAL;
  Build_error_map EDEV_LOCATION_NOT_PRESENT "D0010E" EINVAL;
  Build_error_map EDEV_MEDIA_PRESENSE_UNKNOWN "D0011E" EINVAL;
  Build_error_map EDEV_SLOT_UNKNOWN_STATE "D0012E" EINVAL;
  Build_error_map EDEV_DRIVE_NOT_PRESENT "D0013E" EINVAL;
  Build_error_map EDEV_RECORD_NOT_FOUND "D0014E" ESPIPE;
  Build_error_map EDEV_INSUFFICIENT_TIME "D0015E" EIO;
  Build_error_map EDEV_CLEANING_REQUIRED "D0098E" EUCLEAN;
  Build_error_map EDEV_RECOVERED_ERROR "D0100E" EIO;
  Build_error_map EDEV_MODE_PARAMETER_ROUNDED "D0101E" EIO;
  Build_error_map EDEV_DEGRADED_MEDIA "D0198E" EIO;
  Build_error_map EDEV_NOT_READY "D0200E" EAGAIN;
  Build_error_map EDEV_NOT_REPORTABLE "D0201E" EAGAIN;
  Build_error_map EDEV_BECOMING_READY "D0202E" EAGAIN;
  Build_error_map EDEV_NEED_INITIALIZE "D0203E" EIO;
  Build_error_map EDEV_MANUAL_INTERVENTION "D0204E" EAGAIN;
  Build_error_map EDEV_OPERATION_IN_PROGRESS "D0205E" EAGAIN;
  Build_error_map EDEV_OFFLINE "D0206E" EAGAIN;
  Build_error_map EDEV_DOOR_OPEN "D0207E" EAGAIN;
  Build_error_map EDEV_OVER_TEMPERATURE "D0208E" EAGAIN;
  Build_error_map EDEV_NO_MEDIUM "D0209E" ENOMEDIUM;
  Build_error_map EDEV_NOT_SELF_CONFIGURED_YET "D0210E" EAGAIN;
  Build_error_map EDEV_PARAMETER_VALUE_REJECTED "D0211E" EINVAL;
  Build_error_map EDEV_CLEANING_IN_PROGRESS "D0297E" EAGAIN;
  Build_error_map EDEV_IE_OPEN "D0298E" EAGAIN;
  Build_error_map EDEV_MEDIUM_ERROR "D0300E" EIO;
  Build_error_map EDEV_RW_PERM "D0301E" EIO;
  Build_error_map EDEV_CM_PERM "D0302E" EIO;
  Build_error_map EDEV_MEDIUM_FORMAT_ERROR "D0303E" EIO;
  Build_error_map EDEV_MEDIUM_FORMAT_CORRUPTED "D0304E" EIO;
  Build_error_map EDEV_INTEGRITY_CHECK "D0305E" EILSEQ;
  Build_error_map EDEV_LOAD_UNLOAD_ERROR "D0306E" EIO;
  Build_error_map EDEV_CLEANING_FALIURE "D0307E" EIO;
  Build_error_map EDEV_READ_PERM "D0308E" EIO;
  Build_error_map EDEV_WRITE_PERM "D0309E" EIO;
  Build_error_map EDEV_HARDWARE_ERROR "D0400E" EIO;
  Build_error_map EDEV_HARDWARE_ERROR "D0401E" EIO;
  Build_error_map EDEV_LBP_WRITE_ERROR "D0401E" EIO;
  Build_error_map EDEV_LBP_READ_ERROR "D0402E" EIO;
  Build_error_map EDEV_ILLEGAL_REQUEST "D0500E" EILSEQ;
  Build_error_map EDEV_INVALID_FIELD_CDB "D0501E" EILSEQ;
  Build_error_map EDEV_DEST_FULL "D0502E" EIO;
  Build_error_map EDEV_SRC_EMPTY "D0503E" EIO;
  Build_error_map EDEV_MAGAZINE_INACCESSIBLE "D0504E" EIO;
  Build_error_map EDEV_INVALID_ADDRESS "D0505E" EIDRM;
  Build_error_map EDEV_MEDIUM_LOCKED "D0506E" EIO;
  Build_error_map EDEV_UNIT_ATTENTION "D0600E" EIO;
  Build_error_map EDEV_MEDIUM_MAY_BE_CHANGED "D0601E" EIO;
  Build_error_map EDEV_IE_ACCESSED "D0602E" EIO;
  Build_error_map EDEV_POR_OR_BUS_RESET "D0603E" EIO;
  Build_error_map EDEV_CONFIGURE_CHANGED "D0604E" EIO;
  Build_error_map EDEV_COMMAND_CLEARED "D0605E" EIO;
  Build_error_map EDEV_MEDIUM_REMOVAL_REQ "D0606E" EIO;
  Build_error_map EDEV_MEDIA_REMOVAL_PREV "D0607E" EIO;
  Build_error_map EDEV_DOOR_CLOSED "D0608E" EIO;
  Build_error_map EDEV_DATA_PROTECT "D0700E" EIO;
  Build_error_map EDEV_WRITE_PROTECTED "D0701E" EIO;
  Build_error_map EDEV_WRITE_PROTECTED_WORM "D0702E" EIO;
  Build_error_map EDEV_WRITE_PROTECTED_OPERATOR "D0703E" EIO;
  Build_error_map EDEV_BLANK_CHECK "D0800E" EIO;
  Build_error_map EDEV_EOD_DETECTED "D0801E" ESPIPE;
  Build_error_map EDEV_EOD_NOT_FOUND "D0802E" ESPIPE;
  Build_error_map EDEV_ABORTED_COMMAND "D1100E" EIO;
  Build_error_map EDEV_OVERLAPPED "D1101E" EIO;
  Build_error_map EDEV_TIMEOUT "D1102E" ETIMEDOUT;
  Build_error_map EDEV_OVERFLOW "D1300E" EIO;
  Build_error_map EDEV_CRYPTO_ERROR "D1600E" EIO;
  Build_error_map EDEV_KEY_SERVICE_ERROR "D1601E" EIO;
  Build_error_map EDEV_KEY_CHANGE_DETECTED "D1602E" EIO;
  Build_error_map EDEV_KEY_REQUIRED "D1603E" EIO;
  Build_error_map EDEV_INTERNAL_ERROR "D1700E" EIO;
  Build_error_map EDEV_DRIVER_ERROR "D1701E" EIO;
  Build_error_map EDEV_HOST_ERROR "D1702E" EIO;
  Build_error_map EDEV_TARGET_ERROR "D1703E" EIO;
  Build_error_map EDEV_DRIVER_ERROR "D1701E" EIO;
  Build_error_map EDEV_NO_MEMORY "D1704E" EIO;
  Build_error_map EDEV_UNSUPPORTED_FUNCTION "D1705E" EIO;
  Build_error_map EDEV_PARAMETER_NOT_FOUND "D1706E" EIO;
  Build_error_map EDEV_CANNOT_GET_SENSE "D1707E" EIO;
  Build_error_map EDEV_INVALID_ARG "D1708E" EINVAL;
  Build_error_map EDEV_DUMP_EIO "D1709E" EIO;
  Build_error_map EDEV_UNKNOWN "D9998E" EIO;
  Build_error_map EDEV_VENDOR_UNIQUE "D9999E" EIO;
  Build_error_map EDEV_DEVICE_BUSY "D1710E" EAGAIN;
  Build_error_map EDEV_DEVICE_UNOPENABLE "D1711E" EIO;
  Build_error_map EDEV_DEVICE_UNSUPPORTABLE "D1712E" EOPNOTSUPP;
  Build_error_map EDEV_INVALID_LICENSE "D1713E" EOPNOTSUPP;
  Build_error_map EDEV_UNSUPPORTED_FIRMWARE "D1714E" EOPNOTSUPP].

(** [errormap_init]: the rows are added to the hash one after the other until
    the sentinel; a later row is found before an earlier one with the same
    key. *)
Definition fuse_errormap : list error_map :=
  fold_left (fun h err => err :: h) fuse_error_list [].

(** [HASH_FIND_INT]. *)
Fixpoint hash_find_int (h : list error_map) (val : Z) : option error_map :=
  match h with
  | [] => None
  | err :: h' => if ltfs_error err =? val then Some err else hash_find_int h' val
  end.

Definition errormap_fuse_error (val : Z) : Z :=
  let val := - val in
  if val <? LTFS_ERR_MIN then - val
  else match hash_find_int fuse_errormap val with
       | Some out => - general_error out
       | None => - EIO
       end.

Definition errormap_msg_id (val : Z) : option string :=
  let val := - val in
  if val <? LTFS_ERR_MIN then None
  else match hash_find_int fuse_errormap val with
       | Some out => Some (msd_id out)
       | None => None
       end.

(** ** Lemmas *)

Lemma need_reval_neg ret : NEED_REVAL ret = true -> ret < 0.
Proof.
  unfold NEED_REVAL, EDEV_POR_OR_BUS_RESET, EDEV_MEDIUM_MAY_BE_CHANGED.
  intros H. apply orb_prop in H as [H|H]; apply Z.eqb_eq in H; lia.
Qed.

Lemma unexpected_move_neg ret : IS_UNEXPECTED_MOVE ret = true -> ret < 0.
Proof. unfold IS_UNEXPECTED_MOVE. intros H%Z.eqb_eq. by rewrite H. Qed.

Lemma need_reval_nonneg ret : 0 <= ret -> NEED_REVAL ret = false.
Proof.
  intros H. destruct (NEED_REVAL ret) eqn:E; [|done].
  apply need_reval_neg in E. lia.
Qed.

Lemma unexpected_move_nonneg ret : 0 <= ret -> IS_UNEXPECTED_MOVE ret = false.
Proof.
  intros H. unfold IS_UNEXPECTED_MOVE, EDEV_MEDIUM_REMOVAL_REQ. apply Z.eqb_neq. lia.
Qed.

#[export] Hint Resolve need_reval_nonneg unexpected_move_nonneg : ltfs.

Lemma hash_find_int_Some h val err :
  hash_find_int h val = Some err -> err ∈ h /\ ltfs_error err = val.
Proof.
  induction h as [|e h IH]; cbn; [done|].
  destruct (ltfs_error e =? val) eqn:E.
  - intros [= ->]. apply Z.eqb_eq in E. split; [by left | done].
  - intros H. destruct (IH H). split; [by right | done].
Qed.

Lemma hash_find_int_None h val :
  hash_find_int h val = None -> forall err, err ∈ h -> ltfs_error err <> val.
Proof.
  induction h as [|e h IH]; cbn; intros H err Hin.
  - by apply not_elem_of_nil in Hin.
  - destruct (ltfs_error e =? val) eqn:E; [done|].
    apply Z.eqb_neq in E. apply elem_of_cons in Hin as [->|Hin]; [done|]. by apply IH.
Qed.

Lemma fuse_errormap_rev : fuse_errormap = reverse fuse_error_list.
Proof. reflexivity. Qed.

Lemma elem_of_fuse_errormap err : err ∈ fuse_errormap <-> err ∈ fuse_error_list.
Proof. rewrite fuse_errormap_rev. apply elem_of_reverse. Qed.

(** The rows all carry a positive errno below 4096 and a code of at least
    [LTFS_ERR_MIN], and rows with the same code carry the same errno. *)
Definition row_ok (err : error_map) : bool :=
  (LTFS_ERR_MIN <=? ltfs_error err) && (1 <=? general_error err) && (general_error err <=? 4095).

Definition rows_agree (e1 e2 : error_map) : bool :=
  negb (ltfs_error e1 =? ltfs_error e2) || (general_error e1 =? general_error e2).

Lemma rows_ok : forallb row_ok fuse_error_list = true.
Proof. vm_compute. reflexivity. Qed.

Lemma all_rows_agree :
  forallb (fun e1 => forallb (rows_agree e1) fuse_error_list) fuse_error_list = true.
Proof. vm_compute. reflexivity. Qed.

Lemma forallb_elem {A} (f : A -> bool) l x : forallb f l = true -> x ∈ l -> f x = true.
Proof. intros H Hx. rewrite forallb_forall in H. apply H. by apply list_elem_of_In. Qed.

Lemma row_range err :
  err ∈ fuse_error_list ->
  LTFS_ERR_MIN <= ltfs_error err /\ 1 <= general_error err <= 4095.
Proof.
  intros Hin. pose proof (forallb_elem _ _ _ rows_ok Hin) as H.
  unfold row_ok in H. bool_to_prop. lia.
Qed.

Lemma rows_same_code e1 e2 :
  e1 ∈ fuse_error_list -> e2 ∈ fuse_error_list ->
  ltfs_error e1 = ltfs_error e2 -> general_error e1 = general_error e2.
Proof.
  intros H1 H2 He.
  pose proof (forallb_elem _ _ _ (forallb_elem _ _ _ all_rows_agree H1) H2) as H.
  cbv beta in H. unfold rows_agree in H. rewrite He, Z.eqb_refl in H. cbn in H.
  by apply Z.eqb_eq.
Qed.

(** ** The map never turns an error into a success *)

(** C33: Every row of the table is what a lookup of its code returns (duplicate
    rows agree), so the errno FUSE sees for a code the table knows is that
    row's; a code it does not know becomes [EIO], an operating-system code is
    passed through, and no negative value is ever mapped to zero or a positive
    result. *)
Theorem errormap_fuse_error_spec :
  (forall err, err ∈ fuse_error_list ->
     errormap_fuse_error (- ltfs_error err) = - general_error err) /\
  (forall val, - LTFS_ERR_MIN < val -> errormap_fuse_error val = val) /\
  (forall val, val <= - LTFS_ERR_MIN ->
     (forall err, err ∈ fuse_error_list -> ltfs_error err <> - val) ->
     errormap_fuse_error val = - EIO) /\
  (forall val, val < 0 -> - 4096 < errormap_fuse_error val < 0).
Proof.
  assert (Hlook : forall val err, hash_find_int fuse_errormap val = Some err ->
                    err ∈ fuse_error_list /\ ltfs_error err = val).
  { intros val err H. apply hash_find_int_Some in H as [H ?].
    split; [by apply elem_of_fuse_errormap | done]. }
  unfold errormap_fuse_error. split; [|split; [|split]].
  - intros err Hin. pose proof (row_range err Hin). rewrite Z.opp_involutive.
    destruct (ltfs_error err <? LTFS_ERR_MIN) eqn:E; bool_to_prop; [lia|].
    destruct (hash_find_int fuse_errormap (ltfs_error err)) as [e|] eqn:F.
    + destruct (Hlook _ _ F) as [Hin' Hc]. by rewrite (rows_same_code e err Hin' Hin Hc).
    + exfalso. eapply hash_find_int_None; [exact F | by apply elem_of_fuse_errormap | done].
  - intros val H. destruct (- val <? LTFS_ERR_MIN) eqn:E; bool_to_prop; lia.
  - intros val H Hno. destruct (- val <? LTFS_ERR_MIN) eqn:E; bool_to_prop; [lia|].
    destruct (hash_find_int fuse_errormap (- val)) as [e|] eqn:F; [|done].
    destruct (Hlook _ _ F) as [Hin' Hc]. by destruct (Hno e Hin').
  - intros val H. unfold LTFS_ERR_MIN, EIO.
    destruct (- val <? 1000) eqn:E; bool_to_prop; [lia|].
    destruct (hash_find_int fuse_errormap (- val)) as [e|] eqn:F; [|lia].
    destruct (Hlook _ _ F) as [Hin' Hc]. pose proof (row_range e Hin'). lia.
Qed.

(** The table has no row for [LTFS_LOGICAL_WRITE_PROTECT], which
    [tape_logically_read_only] returns: FUSE sees [EIO] for it, where the other
    write-protect codes become [EROFS]. *)
Example logical_write_protect_unmapped :
  errormap_fuse_error (- LTFS_LOGICAL_WRITE_PROTECT) = - EIO /\
  errormap_fuse_error (- LTFS_WRITE_PROTECT) = - EROFS.
Proof. vm_compute. auto. Qed.
