(* ===== verification/Pathname.v ===== *)
(** * File names

    [pathname.c]: counting and truncating UTF-8 strings by code point, validating
    names, and the two conversions a name goes through: to the canonical form
    (UTF-8, NFC) and to the form used for caseless matching.  ICU, which the
    file only calls, is the record [icu_lib]. *)

From S2P Require Import Prelude Errors.
Open Scope Z_scope.

Definition LTFS_FILENAME_MAX : Z := 255.

(** ** Code points of a UTF-8 string *)

(** The test [! ( *tmp & 0x80) || ( *tmp & 0xC0) == 0xC0]: the byte starts a
    code point. *)
Definition starts_code_point (b : Z) : bool :=
  (Z.land b 0x80 =? 0) || (Z.land b 0xC0 =? 0xC0).

Fixpoint strlen_loop (name : cstring) (ret : Z) : Z :=
  match name with
  | [] => ret
  | b :: tmp => strlen_loop tmp (if starts_code_point b then ret + 1 else ret)
  end.

Definition pathname_strlen (name : cstring) : Z := strlen_loop name 0.

(** [len] is compared with [size] before it is incremented. *)
Fixpoint truncate_chars (name : cstring) (size len : Z) : cstring :=
  match name with
  | [] => []
  | b :: tmp =>
      if starts_code_point b
      then if len =? size then [] else b :: truncate_chars tmp size (u64 (len + 1))
      else b :: truncate_chars tmp size len
  end.

Definition pathname_truncate (size : Z) (name : cstring) : cstring := truncate_chars name size 0.

(** ** ICU

    Each conversion gives a result or fails; the quick check tells that a
    string is normalised already.  [U8_NEXT] is a macro of ICU: the next code
    point of a non-empty string, negative when ill-formed, and the rest. *)
Record icu_lib := {
  U8_NEXT : Z -> cstring -> Z * cstring;
  ucnv_toUChars : cstring -> option (list Z);
  u_strFromUTF8 : cstring -> option (list Z);
  u_strToUTF8 : list Z -> option cstring;
  u_strFoldCase : list Z -> option (list Z);
  unorm_normalize_nfc : list Z -> option (list Z);
  unorm_normalize_nfd : list Z -> option (list Z);
  quick_check_nfc : list Z -> bool;
  quick_check_nfd : list Z -> bool;
  ucnv_getDefaultName : cstring;
  ucnv_convert : cstring -> option cstring;
  u_strcmp : list Z -> list Z -> Z
}.

(** What [U8_NEXT] documents: it consumes at least one byte. *)
Class IcuOk (icu : icu_lib) : Prop := {
  u8_next_shorter b s : (length (snd (U8_NEXT icu b s)) <= length s)%nat
}.

Section icu.
Context (icu : icu_lib).

Definition icu_result {A} (r : option A) : Z + A :=
  match r with Some x => inr x | None => inl (- LTFS_ICU_ERROR) end.

Definition _pathname_foldcase_icu (src : list Z) : Z + list Z :=
  icu_result (u_strFoldCase icu src).

Definition _pathname_normalize_nfc_icu (src : list Z) : Z + list Z :=
  if quick_check_nfc icu src then inr src else icu_result (unorm_normalize_nfc icu src).

Definition _pathname_normalize_nfd_icu (src : list Z) : Z + list Z :=
  if quick_check_nfd icu src then inr src else icu_result (unorm_normalize_nfd icu src).

Definition _pathname_utf8_to_utf16_icu (src : cstring) : Z + list Z :=
  icu_result (u_strFromUTF8 icu src).

Definition _pathname_utf16_to_utf8_icu (src : list Z) : Z + cstring :=
  icu_result (u_strToUTF8 icu src).

Definition _pathname_system_to_utf16_icu (src : cstring) : Z + list Z :=
  icu_result (ucnv_toUChars icu src).

(** [if (ret < 0) return ret;] *)
Definition and_then {A B} (r : Z + A) (k : A -> Z + B) : Z + B :=
  match r with inl e => inl e | inr x => k x end.

(** ** Validation *)

Definition _pathname_valid_in_xml (c : Z) : bool :=
  negb (((c >=? 0) && (c <=? 0x1f) && negb (c =? 0x09) && negb (c =? 0x0a) && negb (c =? 0x0d))
        || ((c >=? 0xd800) && (c <=? 0xdfff)) || (c =? 0xfffe) || (c =? 0xffff)).

(** The loop over the code points; [fuel] is the number of bytes left. *)
Fixpoint validate_loop (fuel : nat) (name : cstring) (allow_slash : bool) : Z :=
  match fuel, name with
  | _, [] => 0
  | O, _ => - LTFS_ICU_ERROR
  | S fuel, b :: s =>
      let '(c, rest) := U8_NEXT icu b s in
      if c <? 0 then - LTFS_ICU_ERROR
      else if negb (_pathname_valid_in_xml c) || (c =? 58) || (negb allow_slash && (c =? 47))
      then - LTFS_INVALID_PATH
      else validate_loop fuel rest allow_slash
  end.

Definition _pathname_validate (name : cstring) (allow_slash : bool) : Z :=
  validate_loop (length name) name allow_slash.

Definition pathname_validate_file (name : cstring) : Z :=
  if pathname_strlen name >? LTFS_FILENAME_MAX then - LTFS_NAMETOOLONG
  else _pathname_validate name false.

(** ** Extended attribute values *)

Definition _pathname_check_utf8_icu (src : cstring) : Z :=
  match u_strFromUTF8 icu src with Some _ => 0 | None => 1 end.

Definition _pathname_is_utf8 (name : cstring) : Z := _pathname_check_utf8_icu name.

Definition pathname_validate_xattr_name (name : cstring) : Z := pathname_validate_file name.

Fixpoint xml_loop (fuel : nat) (name : cstring) : Z :=
  match fuel, name with
  | _, [] => 0
  | O, _ => - LTFS_ICU_ERROR
  | S fuel, b :: s =>
      let '(c, rest) := U8_NEXT icu b s in
      if c <? 0 then - LTFS_ICU_ERROR
      else if negb (_pathname_valid_in_xml c) then 1
      else xml_loop fuel rest
  end.

(** 0: the value can be placed in an index as it is; 1: it must be encoded. *)
Definition pathname_validate_xattr_value (name : cstring) : Z :=
  if _pathname_is_utf8 name =? 1 then 1 else xml_loop (length name) name.

(** ** Conversions *)

(** The canonical LTFS form of a name in the system locale. *)
Definition _pathname_format_icu (src : cstring) (validate allow_slash : bool) : Z + cstring :=
  and_then (_pathname_system_to_utf16_icu src) (fun utf16_name =>
  and_then (_pathname_normalize_nfc_icu utf16_name) (fun utf16_name_norm =>
  and_then (_pathname_utf16_to_utf8_icu utf16_name_norm) (fun dest =>
  if validate then
    if negb allow_slash && (pathname_strlen dest >? LTFS_FILENAME_MAX) then inl (- LTFS_NAMETOOLONG)
    else let ret := _pathname_validate dest allow_slash in
         if ret <? 0 then inl ret else inr dest
  else inr dest))).

Definition pathname_format (name : cstring) (validate allow_slash : bool) : Z + cstring :=
  _pathname_format_icu name validate allow_slash.

(** A code point whose decomposition needs an initial NFD mapping. *)
Definition needs_nfd (c : Z) : bool := (c =? 0x0345) || ((c >=? 0x1f80) && (c <=? 0x1fff)).

Definition pathname_prepare_caseless (name : cstring) (use_nfc : bool) : Z + list Z :=
  and_then (_pathname_utf8_to_utf16_icu name) (fun icu_name =>
  and_then (if existsb needs_nfd icu_name
            then and_then (_pathname_normalize_nfd_icu icu_name) _pathname_foldcase_icu
            else _pathname_foldcase_icu icu_name) (fun icu_fold =>
  if use_nfc then _pathname_normalize_nfc_icu icu_fold else _pathname_normalize_nfd_icu icu_fold)).

(** [inr result]: [*result], 0 when the names match *)
Definition pathname_caseless_match (name1 name2 : cstring) : Z + Z :=
  and_then (pathname_prepare_caseless name1 true) (fun dname1 =>
  and_then (pathname_prepare_caseless name2 true) (fun dname2 => inr (u_strcmp icu dname1 dname2))).

Definition _pathname_foldcase_utf8_icu (src : cstring) : Z + cstring :=
  and_then (_pathname_utf8_to_utf16_icu src) (fun icu_str =>
  and_then (_pathname_foldcase_icu icu_str) _pathname_utf16_to_utf8_icu).

Definition _pathname_normalize_utf8_icu (src : cstring) : Z + cstring :=
  and_then (_pathname_utf8_to_utf16_icu src) (fun icu_str =>
  and_then (_pathname_normalize_nfc_icu icu_str) _pathname_utf16_to_utf8_icu).

Definition pathname_normalize (name : cstring) : Z + cstring := _pathname_normalize_utf8_icu name.

Definition _pathname_normalize_utf8_nfd_icu (src : cstring) : Z + cstring :=
  and_then (_pathname_utf8_to_utf16_icu src) (fun icu_str =>
  and_then (_pathname_normalize_nfd_icu icu_str) _pathname_utf16_to_utf8_icu).

Definition pathname_nfd_normaize (name : cstring) : Z + cstring := _pathname_normalize_utf8_nfd_icu name.

Definition _pathname_utf8_to_system_icu (src : cstring) : Z + cstring :=
  if decide (ucnv_getDefaultName icu = cstr "UTF-8") then inr src else icu_result (ucnv_convert icu src).

Definition pathname_unformat (name : cstring) : Z + cstring := _pathname_utf8_to_system_icu name.

End icu.

(** ** UTF-8, as a reference: the bytes of a code point *)

Definition utf8_char (c : Z) : list Z :=
  if c <? 0x80 then [c]
  else if c <? 0x800 then [0xC0 + c / 64; 0x80 + c mod 64]
  else if c <? 0x10000 then [0xE0 + c / 4096; 0x80 + c / 64 mod 64; 0x80 + c mod 64]
  else [0xF0 + c / 262144; 0x80 + c / 4096 mod 64; 0x80 + c / 64 mod 64; 0x80 + c mod 64].

Definition utf8 (cs : list Z) : list Z := cs ≫= utf8_char.

Definition code_point (c : Z) : Prop := 0 < c < 0x110000.

(** ** Proofs *)

Lemma starts_spec b : 0 <= b < 256 -> starts_code_point b = (b <? 0x80) || (0xC0 <=? b).
Proof.
  intros Hb.
  assert (H : forallb (fun n => eqb (starts_code_point (Z.of_nat n))
                 ((Z.of_nat n <? 0x80) || (0xC0 <=? Z.of_nat n))) (seq 0 256) = true) by reflexivity.
  rewrite forallb_forall in H. specialize (H (Z.to_nat b)). rewrite Z2Nat.id in H by lia.
  apply eqb_prop, H, in_seq. lia.
Qed.

Lemma not_start x : starts_code_point (0x80 + x mod 64) = false.
Proof.
  assert (0 <= x mod 64 < 64) by (apply Z.mod_pos_bound; lia).
  rewrite starts_spec by lia.
  destruct (Z.ltb_spec (0x80 + x mod 64) 0x80), (Z.leb_spec 0xC0 (0x80 + x mod 64)); (lia || reflexivity).
Qed.

(** The bytes of a code point: a first byte, then bytes that start none. *)
Lemma utf8_char_shape c :
  code_point c -> exists b rest, utf8_char c = b :: rest /\ starts_code_point b = true
    /\ Forall (fun x => starts_code_point x = false) rest.
Proof.
  intros Hc. unfold code_point in Hc. unfold utf8_char.
  repeat case_test; bool_to_prop; eexists _, _; (split; [reflexivity|]).
  all: split; [|repeat constructor; apply not_start].
  all: rewrite starts_spec by (Z.to_euclidean_division_equations; lia).
  all: apply orb_true_iff; rewrite Z.ltb_lt, Z.leb_le; Z.to_euclidean_division_equations; lia.
Qed.

Lemma strlen_rest rest s r :
  Forall (fun x => starts_code_point x = false) rest -> strlen_loop (rest ++ s) r = strlen_loop s r.
Proof. induction 1 as [|x l Hx _ IH]; cbn; [reflexivity|]. by rewrite Hx. Qed.

Lemma truncate_rest rest s n k :
  Forall (fun x => starts_code_point x = false) rest ->
  truncate_chars (rest ++ s) n k = rest ++ truncate_chars s n k.
Proof. induction 1 as [|x l Hx _ IH]; cbn; [reflexivity|]. by rewrite Hx, IH. Qed.

Lemma strlen_utf8 cs r :
  Forall code_point cs -> strlen_loop (utf8 cs) r = r + Z.of_nat (length cs).
Proof.
  intros H. revert r. induction H as [|c cs Hc _ IH]; intros r; [cbn; lia|].
  change (utf8 (c :: cs)) with (utf8_char c ++ utf8 cs).
  destruct (utf8_char_shape c Hc) as (b & rest & -> & Hb & Hrest).
  cbn. rewrite Hb, strlen_rest, IH by done. lia.
Qed.

Lemma truncate_utf8 cs n k :
  Forall code_point cs -> 0 <= k <= n -> n < 2 ^ 64 ->
  truncate_chars (utf8 cs) n k = utf8 (take (Z.to_nat (n - k)) cs).
Proof.
  intros H. revert k. induction H as [|c cs Hc _ IH]; intros k Hk Hn.
  - by rewrite take_nil.
  - change (utf8 (c :: cs)) with (utf8_char c ++ utf8 cs).
    destruct (utf8_char_shape c Hc) as (b & rest & E & Hb & Hrest). rewrite E.
    cbn. rewrite Hb. destruct (Z.eqb_spec k n) as [->|Hne].
    + by rewrite Z.sub_diag.
    + replace (Z.to_nat (n - k)) with (S (Z.to_nat (n - (k + 1)))) by lia.
      rewrite u64_small, truncate_rest, IH by (done || lia).
      cbn [take]. change (utf8 (c :: ?l)) with (utf8_char c ++ utf8 l). by rewrite E.
Qed.

Lemma utf8_app a b : utf8 (a ++ b) = utf8 a ++ utf8 b.
Proof. unfold utf8. apply bind_app. Qed.

(** C37: counting and truncating by code point.  On the UTF-8 form of any sequence
    of code points, [pathname_strlen] is their number and [pathname_truncate]
    keeps exactly the first [n] of them, never part of one. *)
Theorem pathname_truncate_spec (cs : list Z) (n : Z) :
  Forall code_point cs -> 0 <= n < 2 ^ 64 ->
  pathname_strlen (utf8 cs) = Z.of_nat (length cs)
  /\ pathname_truncate n (utf8 cs) = utf8 (take (Z.to_nat n) cs)
  /\ pathname_strlen (pathname_truncate n (utf8 cs)) = Z.min n (Z.of_nat (length cs)).
Proof.
  intros Hcs Hn. unfold pathname_strlen, pathname_truncate.
  rewrite truncate_utf8 by (done || lia). rewrite Z.sub_0_r, !strlen_utf8 by auto using Forall_take.
  rewrite length_take. split; [lia|]. split; [reflexivity|lia].
Qed.

Lemma pathname_truncate_spec_witness :
  pathname_truncate 3 (utf8 [104; 0xE9; 0x20AC; 0x1F4FC; 111]) = utf8 [104; 0xE9; 0x20AC]
  /\ pathname_strlen (utf8 [104; 0xE9; 0x20AC; 0x1F4FC; 111]) = 5.
Proof.
  destruct (pathname_truncate_spec [104; 0xE9; 0x20AC; 0x1F4FC; 111] 3) as (H1 & H2 & _).
  - repeat constructor.
  - lia.
  - split; [exact H2|exact H1].
Defined.
