(* ===== verification/IndexCriteria.v ===== *)
(** * Index partition criteria

    [index_criteria.c]: the data placement policy.  The option string is parsed
    into a list of file name patterns and a maximum size; a file whose name
    matches one of the patterns is a candidate for the index partition.  The
    matcher works on grapheme clusters; ICU's break iterator is the argument
    [graphemes], which cuts a string into its clusters ([None]: it cannot be
    opened). *)

From S2P Require Import Prelude Errors Pathname.
Open Scope Z_scope.

Record index_criteria := {
  have_criteria : bool;
  max_filesize_criteria : Z;
  glob_patterns : option (list cstring);
  glob_cache : option (list (list Z))
}.

Definition SLASH : Z := 47.
Definition COLON : Z := 58.

(** ** The option string *)

Definition tolower (b : Z) : Z := if (65 <=? b) && (b <=? 90) then b + 32 else b.
Definition isdigit (b : Z) : bool := (48 <=? b) && (b <=? 57).
Definition isalpha (b : Z) : bool := (97 <=? tolower b) && (tolower b <=? 122).

(** [! strncasecmp(pat, s, strlen(pat))] *)
Fixpoint starts_with (pat s : cstring) : bool :=
  match pat, s with
  | [], _ => true
  | _, [] => false
  | p :: pat', b :: s' => (tolower p =? tolower b) && starts_with pat' s'
  end.

Definition NAME_OPTION : cstring := cstr "name=".
Definition SIZE_OPTION : cstring := cstr "size=".

Definition valid_option (s : cstring) : bool := starts_with NAME_OPTION s || starts_with SIZE_OPTION s.

(** What comes after each separator. *)
Fixpoint bad_separator (s : cstring) : bool :=
  match s with
  | [] => false
  | b :: s' => if (b =? SLASH) && negb (valid_option s') then true else bad_separator s'
  end.

Definition index_criteria_contains_invalid_options (str : cstring) : bool :=
  if (length str <? 5)%nat then true
  else if negb (valid_option str) then true
  else bad_separator (tail str).

(** The first occurrence of [substr] right after a '/'. *)
Fixpoint find_sep (substr : cstring) (prev : Z) (s : cstring) : option cstring :=
  if starts_with substr s && (prev =? SLASH) then Some s
  else match s with
       | [] => None
       | b :: s' => find_sep substr b s'
       end.

Definition find_start (substr str : cstring) : option cstring :=
  if starts_with substr str then Some str
  else match str with
       | [] => None
       | b :: s => find_sep substr b s
       end.

Fixpoint upto_slash (s : cstring) : cstring * cstring :=
  match s with
  | [] => ([], [])
  | b :: s' => if b =? SLASH then ([], s) else let '(t, e) := upto_slash s' in (b :: t, e)
  end.

(** [Twice] is the return value false with [*error] set. *)
Inductive search_result := Found (text : cstring) | Missing | Twice.

Fixpoint find_option (fuel : nat) (str substr : cstring) : search_result :=
  match fuel with
  | O => Missing
  | S fuel =>
      if (length str <? 5)%nat then Missing
      else match find_start substr str with
           | None => Missing
           | Some str_start =>
               let '(text, str_end) := upto_slash str_start in
               match find_option fuel str_end substr with
               | Found _ => Twice
               | _ => Found text
               end
           end
  end.

Definition index_criteria_find_option (str substr : cstring) : search_result :=
  find_option (S (length str)) str substr.

(** ** The size rule *)

Fixpoint two_letters (rule : cstring) : bool :=
  match rule with
  | a :: (b :: _) as rest => (isalpha a && isalpha b) || two_letters rest
  | _ => false
  end.

Definition ULLONG_MAX : Z := 2 ^ 64 - 1.

(** [strtoull(rule, NULL, 10)] of a string that starts with a digit *)
Fixpoint strtoull_loop (rule : cstring) (acc : Z) : Z :=
  match rule with
  | [] => acc
  | b :: rest => if isdigit b then strtoull_loop rest (Z.min ULLONG_MAX (acc * 10 + (b - 48))) else acc
  end.

Definition multiplier (b : Z) : option Z :=
  if tolower b =? 107 then Some 1024
  else if tolower b =? 109 then Some (1024 * 1024)
  else if tolower b =? 103 then Some (1024 * 1024 * 1024)
  else None.

Definition size_value (rule : cstring) (mult : Z) : Z + Z :=
  match rule with
  | [] => inl (- LTFS_POLICY_INVALID)
  | b :: _ => if isdigit b then inr (u64 (strtoull_loop rule 0 * mult)) else inl (- LTFS_POLICY_INVALID)
  end.

(** [criteria] is the text of the option; [None]: the byte before the buffer is
    read. *)
Definition index_criteria_parse_size (criteria : cstring) : option (Z + Z) :=
  let rule := drop 5 criteria in
  if two_letters rule then Some (inl (- LTFS_POLICY_INVALID))
  else match list.last rule with
       | None => None
       | Some b =>
           if isalpha b
           then match multiplier b with
                | Some m => Some (size_value (removelast rule) m)
                | None => Some (inl (- LTFS_POLICY_INVALID))
                end
           else Some (size_value rule 1)
       end.

(** ** The name rules *)

Fixpoint empty_rule (prev : Z) (s : cstring) : bool :=
  match s with
  | [] => false
  | b :: s' =>
      if (b =? COLON) && ((prev =? COLON) || match s' with [] => true | _ => false end) then true
      else empty_rule b s'
  end.

(** The loop that cuts the text at each ':'.  [rule] is the string at the rule
    pointer; a '/' puts an end to it without moving the pointer. *)
Fixpoint assign_rules (rule : cstring) (ended : bool) (s : cstring) : list cstring :=
  match s with
  | [] => []
  | b :: s' =>
      if b =? COLON then rule :: assign_rules [] false s'
      else if b =? SLASH then rule :: assign_rules rule true s'
      else let rule' := if ended then rule else rule ++ [b] in
           match s' with
           | [] => [rule']
           | _ => assign_rules rule' ended s'
           end
  end.

Fixpoint first_error (f : cstring -> Z) (names : list cstring) : Z :=
  match names with
  | [] => 0
  | n :: rest => let ret := f n in if ret =? 0 then first_error f rest else ret
  end.

Definition set_patterns (p : option (list cstring)) (ic : index_criteria) : index_criteria :=
  {| have_criteria := have_criteria ic; max_filesize_criteria := max_filesize_criteria ic;
     glob_patterns := p; glob_cache := glob_cache ic |}.

Definition set_max_filesize (n : Z) (ic : index_criteria) : index_criteria :=
  {| have_criteria := have_criteria ic; max_filesize_criteria := n;
     glob_patterns := glob_patterns ic; glob_cache := glob_cache ic |}.

Definition set_glob_cache (c : option (list (list Z))) (ic : index_criteria) : index_criteria :=
  {| have_criteria := have_criteria ic; max_filesize_criteria := max_filesize_criteria ic;
     glob_patterns := glob_patterns ic; glob_cache := c |}.

Definition set_have (b : bool) (ic : index_criteria) : index_criteria :=
  {| have_criteria := b; max_filesize_criteria := max_filesize_criteria ic;
     glob_patterns := glob_patterns ic; glob_cache := glob_cache ic |}.

Section criteria.
Context (icu : icu_lib).

(** [None]: the bytes after the terminating NUL are read. *)
Definition index_criteria_parse_name (criteria : cstring) (ic : index_criteria)
    : option (Z * index_criteria) :=
  match drop 5 criteria with
  | [] => None
  | b :: rest =>
      if (b =? COLON) || empty_rule b rest then Some (- LTFS_POLICY_EMPTY_RULE, ic)
      else let names := assign_rules [] false (b :: rest) in
           Some (first_error (pathname_validate_file icu) names, set_patterns (Some names) ic)
  end.

Definition index_criteria_free (ic : index_criteria) : index_criteria :=
  if have_criteria ic
  then {| have_criteria := false; max_filesize_criteria := 0; glob_patterns := None;
          glob_cache := None |}
  else ic.

(** The size= half of [index_criteria_parse]. *)
Definition parse_size_option (filterrules : cstring) (has_name : bool) (ret : Z) (ic : index_criteria)
    : option (Z * index_criteria) :=
  let ic := set_max_filesize 0 ic in
  match index_criteria_find_option filterrules SIZE_OPTION with
  | Found text =>
      match index_criteria_parse_size text with
      | None => None
      | Some (inl e) => Some (e, ic)
      | Some (inr n) => Some (0, set_max_filesize n ic)
      end
  | Twice => Some (- LTFS_POLICY_INVALID, ic)
  | Missing => Some (if has_name then - LTFS_POLICY_INVALID else ret, ic)
  end.

Definition index_criteria_parse (filterrules : option cstring) (ic : index_criteria)
    : option (Z * index_criteria) :=
  match filterrules with
  | None => Some (0, set_have false ic)
  | Some rules =>
      let ic := set_have true (index_criteria_free ic) in
      if index_criteria_contains_invalid_options rules then Some (- LTFS_POLICY_INVALID, ic)
      else match index_criteria_find_option rules NAME_OPTION with
           | Found text =>
               match index_criteria_parse_name text ic with
               | None => None
               | Some (ret, ic) => if ret <? 0 then Some (ret, ic) else parse_size_option rules true ret ic
               end
           | Twice => Some (- LTFS_POLICY_INVALID, ic)
           | Missing => parse_size_option rules false 0 ic
           end
  end.

Definition index_criteria_dup_rules (src_ic : index_criteria) : index_criteria :=
  set_glob_cache None src_ic.

Definition index_criteria_get_max_filesize (ic : index_criteria) : Z :=
  if have_criteria ic then max_filesize_criteria ic else 0.

Definition index_criteria_get_glob_patterns (ic : index_criteria) : option (list cstring) :=
  if have_criteria ic then glob_patterns ic else None.

(** ** The matcher

    A position ([cr_bnd], [fi_bnd] and the iterator behind it) is the list of the
    clusters from the current one to the end.  The stack is the linked list
    from the pointer the code keeps: [_push_ustack] hangs the new element
    behind the first one, and [_pop_ustack] takes the last. *)

Definition ASTERISK : list Z := [0x2a].
Definition QUESTION : list Z := [0x3f].

Definition ustack : Type := list (list (list Z) * list (list Z)).

Definition _push_ustack (element : list (list Z) * list (list Z)) (stack : ustack) : ustack :=
  match stack with
  | [] => [element]
  | base :: _ => [base; element]
  end.

Fixpoint _pop_ustack (stack : ustack) : option ((list (list Z) * list (list Z)) * ustack) :=
  match stack with
  | [] => None
  | [top] => Some (top, [])
  | e :: rest =>
      match _pop_ustack rest with
      | Some (top, rest') => Some (top, e :: rest')
      | None => None
      end
  end.

Record matcher := {
  criteria : list (list Z);
  filename : list (list Z);
  stack : ustack;
  have_asterisk : bool
}.

(** "Consume sequential asterisks." *)
Fixpoint skip_asterisks (cr : list (list Z)) (have : bool) : list (list Z) * bool :=
  match cr with
  | c :: cr' => if decide (c = ASTERISK) then skip_asterisks cr' true else (cr, have)
  | [] => ([], have)
  end.

(** Take up the search at the last element pushed, one character later. *)
Definition backtrack (st : matcher) : matcher + Z :=
  match _pop_ustack (stack st) with
  | None => inr 0
  | Some ((cr, fi), rest) =>
      inl {| criteria := cr; filename := tail fi; stack := rest; have_asterisk := true |}
  end.

(** One round of the inner loop, or the code after it when the loop ends. *)
Definition match_step (st : matcher) : matcher + Z :=
  match criteria st with
  | [] => match filename st with [] => inr 1 | _ => backtrack st end
  | _ =>
      let '(cr, have) := skip_asterisks (criteria st) (have_asterisk st) in
      match cr, filename st with
      | [], _ => inr 1
      | c :: cr', [] =>
          backtrack {| criteria := cr; filename := []; stack := stack st; have_asterisk := have |}
      | c :: cr', f :: fi' =>
          let matches := bool_decide (c = QUESTION \/ c = f) in
          if have then
            if matches
            then inl {| criteria := cr'; filename := fi';
                        stack := _push_ustack (cr, filename st) (stack st); have_asterisk := false |}
            else inl {| criteria := cr; filename := fi'; stack := stack st; have_asterisk := true |}
          else if matches
          then inl {| criteria := cr'; filename := fi'; stack := stack st; have_asterisk := false |}
          else backtrack {| criteria := cr; filename := filename st; stack := stack st;
                            have_asterisk := false |}
      end
  end.

Fixpoint match_loop (fuel : nat) (st : matcher) : option Z :=
  match fuel with
  | O => None
  | S fuel => match match_step st with inr r => Some r | inl st' => match_loop fuel st' end
  end.

Context (graphemes : list Z -> option (list (list Z))).

(** Enough for any search: at most [n + 1] restarts of each of the two elements
    the stack can hold, and [n + 1] characters between two restarts. *)
Definition match_fuel (fi : list (list Z)) : nat := S ((S (length fi)) ^ 3).

Definition _matches_name_criteria_caseless (criteria filename : list Z) : option Z :=
  match criteria, filename with
  | [], [] => Some 1
  | [], _ => Some 0
  | _, _ =>
      match graphemes criteria, graphemes filename with
      | Some cr, Some fi =>
          match_loop (match_fuel fi)
            {| criteria := cr; filename := fi; stack := []; have_asterisk := false |}
      | _, _ => Some (- LTFS_ICU_ERROR)
      end
  end.

(** ** Matching a file name *)

Fixpoint caseless_patterns (patterns : list cstring) : Z * list (list Z) :=
  match patterns with
  | [] => (0, [])
  | p :: rest =>
      match pathname_prepare_caseless icu p false with
      | inl ret => (ret, [])
      | inr u => let '(ret, cache) := caseless_patterns rest in (ret, u :: cache)
      end
  end.

Definition _prepare_glob_cache (patterns : list cstring) (ic : index_criteria) : Z * index_criteria :=
  let '(ret, cache) := caseless_patterns patterns in (ret, set_glob_cache (Some cache) ic).

Fixpoint match_any (cache : list (list Z)) (dname : list Z) : option bool :=
  match cache with
  | [] => Some false
  | g :: rest =>
      match _matches_name_criteria_caseless g dname with
      | None => None
      | Some m => if m >? 0 then Some true else match_any rest dname
      end
  end.

(** The name is prepared and tried against the cached patterns. *)
Definition match_name (cache : list (list Z)) (name : cstring) : option bool :=
  match pathname_prepare_caseless icu name false with
  | inl ret => Some true   (** [return ret;] of a negative value from a [bool] function *)
  | inr dname => match_any cache dname
  end.

(** [None]: the matcher does not terminate. *)
Definition index_criteria_match (name : cstring) (ic : index_criteria)
    : option (bool * index_criteria) :=
  if negb (have_criteria ic) || (max_filesize_criteria ic =? 0) then Some (false, ic)
  else match glob_patterns ic with
       | None => Some (true, ic)
       | Some patterns =>
           let '(ret, ic) := match glob_cache ic with
                             | Some _ => (0, ic)
                             | None => _prepare_glob_cache patterns ic
                             end in
           if ret <? 0 then Some (true, ic)
           else match glob_cache ic with
                | None => None
                | Some cache =>
                    match match_name cache name with
                    | None => None
                    | Some b => Some (b, ic)
                    end
                end
       end.

End criteria.
