(* ===== verification/IndexCriteriaSpec.v ===== *)
(** * What the index criteria promise

    The backtracking matcher decides the glob relation, with the fuel it is
    given; the option string is read back as it was written. *)

From S2P Require Import Prelude Errors Pathname IndexCriteria.
Open Scope Z_scope.

(** ** The reference definition of matching *)

Inductive glob : list (list Z) -> list (list Z) -> Prop :=
| glob_nil : glob [] []
| glob_star_none cr fi : glob cr fi -> glob (ASTERISK :: cr) fi
| glob_star_one cr f fi : glob (ASTERISK :: cr) fi -> glob (ASTERISK :: cr) (f :: fi)
| glob_any cr f fi : glob cr fi -> glob (QUESTION :: cr) (f :: fi)
| glob_char c cr fi : c <> ASTERISK -> glob cr fi -> glob (c :: cr) (c :: fi).

Lemma glob_nil_l fi : glob [] fi <-> fi = [].
Proof. split; [by inversion 1|intros ->; constructor]. Qed.

Lemma glob_nil_r c cr : c <> ASTERISK -> ~ glob (c :: cr) [].
Proof. intros Hc H. inversion H; congruence. Qed.

Lemma glob_star_suffix cr a fi : glob (ASTERISK :: cr) fi -> glob (ASTERISK :: cr) (a ++ fi).
Proof. intros H. induction a; [done|]. by apply glob_star_one. Qed.

Lemma glob_star_split cr fi :
  glob (ASTERISK :: cr) fi <-> exists a b, fi = a ++ b /\ glob cr b.
Proof.
  split.
  - induction fi as [|f fi IH]; intros H.
    + inversion H; subst; try congruence. by exists [], [].
    + inversion H; subst.
      * by exists [], (f :: fi).
      * destruct (IH ltac:(assumption)) as (a & b & -> & ?). by exists (f :: a), b.
      * congruence.
  - intros (a & b & -> & H). apply glob_star_suffix. by constructor.
Qed.

Lemma glob_star_star cr fi : glob (ASTERISK :: ASTERISK :: cr) fi <-> glob (ASTERISK :: cr) fi.
Proof.
  split; [|by constructor].
  rewrite glob_star_split. intros (a & b & -> & H). by apply glob_star_suffix.
Qed.

Lemma glob_cons c cr f fi :
  c <> ASTERISK -> glob (c :: cr) (f :: fi) <-> (c = QUESTION \/ c = f) /\ glob cr fi.
Proof.
  intros Hc. split.
  - intros H. inversion H; subst; try congruence; auto.
  - intros [[-> | ->] H]; [by constructor|by constructor].
Qed.

Lemma glob_star_cons c cr f fi :
  c <> ASTERISK ->
  glob (ASTERISK :: c :: cr) (f :: fi) <->
  ((c = QUESTION \/ c = f) /\ glob cr fi) \/ glob (ASTERISK :: c :: cr) fi.
Proof.
  intros Hc. rewrite <- (glob_cons c cr f fi Hc). split.
  - intros H. inversion H; subst; auto; congruence.
  - intros [H | H]; by constructor.
Qed.

(** A pattern prefix without an asterisk consumes as many characters as it has. *)
Lemma glob_prefix u cr fi :
  Forall (fun c => c <> ASTERISK) u -> glob (u ++ cr) fi ->
  exists v fi', fi = v ++ fi' /\ length v = length u /\ glob cr fi'.
Proof.
  intros Hu. revert fi. induction Hu as [|c u Hc _ IH]; intros fi H; cbn in H.
  - by exists [], fi.
  - destruct fi as [|f fi]; [by apply glob_nil_r in H|].
    apply glob_cons in H as [_ H]; [|done].
    destruct (IH fi H) as (v & fi' & -> & Hlen & ?). exists (f :: v), fi'. cbn. auto.
Qed.

(** ** The search: what each position stands for *)

(** What is left to try at the current position. *)
Definition goal_of (have : bool) (cr fi : list (list Z)) : Prop :=
  if have then glob (ASTERISK :: cr) fi else glob cr fi.

(** What an element of the stack stands for: the asterisk before it takes one
    more character. *)
Definition resume (e : list (list Z) * list (list Z)) : Prop :=
  glob (ASTERISK :: fst e) (tail (snd e)).

Lemma skip_asterisks_spec cr have cr' have' :
  skip_asterisks cr have = (cr', have') ->
  (forall fi, goal_of have cr fi <-> goal_of have' cr' fi)
  /\ (match cr' with c :: _ => c <> ASTERISK | [] => True end)
  /\ (have' = have /\ cr' = cr \/ have' = true /\ exists k, cr = ASTERISK :: k)
  /\ (length cr' <= length cr)%nat
  /\ (cr <> [] -> cr' = [] -> have' = true).
Proof.
  revert have. induction cr as [|c cr IH]; intros have; cbn.
  { intros [= <- <-]. repeat split; auto; done. }
  destruct (decide (c = ASTERISK)) as [-> | Hc].
  - intros H. destruct (IH true H) as (Hg & Hh & Hor & Hlen & Hnil).
    assert (Ht : have' = true) by (destruct Hor as [[-> _]|[-> _]]; done).
    split_and!; [|done|right; split; [done|by exists cr]|lia|done].
    intros fi. rewrite <- Hg. unfold goal_of. destruct have; [apply glob_star_star|done].
  - intros [= <- <-]. repeat split; auto; try done.
Qed.

(** The stack holds at most two elements; every one is a position after an
    asterisk at a character the pattern accepted. *)
Definition element_ok (n : nat) (e : list (list Z) * list (list Z)) : Prop :=
  snd e <> [] /\ (length (snd e) <= n)%nat
  /\ match fst e with c :: _ => c <> ASTERISK | [] => False end.

(** The current position was reached from the last element of the stack without
    meeting an asterisk. *)
Definition reached (e : list (list Z) * list (list Z)) (cr fi : list (list Z)) : Prop :=
  exists u v, fst e = u ++ cr /\ snd e = v ++ fi /\ length u = length v
    /\ Forall (fun c => c <> ASTERISK) u.

Lemma reached_star e cr fi :
  reached e (ASTERISK :: cr) fi -> resume e -> glob (ASTERISK :: cr) fi.
Proof.
  intros (u & v & Hu & Hv & Hlen & Hns) H. unfold resume in H. rewrite Hu, Hv in H.
  apply glob_star_split in H as (a & b & Hab & H).
  destruct (glob_prefix u _ _ Hns H) as (v' & fi' & -> & Hlen' & H').
  assert (Hs : exists d, fi = d ++ fi').
  { destruct v as [|x v]; cbn in Hab.
    - destruct u; [|done]. destruct v'; [|done]. cbn in Hab.
      destruct fi as [|f fi]; cbn in Hab.
      + symmetry in Hab. apply app_eq_nil in Hab as [-> ->]. by exists [].
      + exists (f :: a). by rewrite Hab.
    - exists (drop (length v) (a ++ v')).
      assert (E : drop (length v) (v ++ fi) = drop (length v) ((a ++ v') ++ fi')) by (by rewrite Hab, <- app_assoc).
      rewrite drop_app_length in E. rewrite E. apply drop_app_le. rewrite length_app. cbn in Hlen. lia. }
  destruct Hs as (d & ->). by apply glob_star_suffix.
Qed.

(** The invariant of the search for an answer [A]: what is left to try here or on
    the stack is sound; and nothing is lost, because only the last element
    pushed can still be needed, and not even that one once a later asterisk
    has been reached. *)
Record search_ok (A : Prop) (n : nat) (st : matcher) : Prop := {
  so_sound : goal_of (have_asterisk st) (criteria st) (filename st) -> A;
  so_stack : Forall (fun e => element_ok n e /\ (resume e -> A)) (stack st);
  so_open : have_asterisk st = true -> criteria st <> [];
  so_small : (length (stack st) <= 2)%nat;
  so_length : (length (filename st) <= n)%nat;
  so_below : match stack st with
             | [_; b] => (length (filename st) <= length (snd b))%nat
             | _ => True
             end;
  so_reached top rest :
    have_asterisk st = false -> _pop_ustack (stack st) = Some (top, rest) ->
    reached top (criteria st) (filename st);
  so_complete :
    A -> goal_of (have_asterisk st) (criteria st) (filename st)
         \/ (have_asterisk st = false
             /\ exists top rest, _pop_ustack (stack st) = Some (top, rest) /\ resume top)
}.

(** The measure: the characters left at the bottom element, at the one above it,
    and at the current position, in this order. *)
Definition bottom_left (st : matcher) : nat :=
  match stack st with a :: _ => length (snd a) | [] => length (filename st) end.
Definition top_left (st : matcher) : nat :=
  match stack st with [_; b] => length (snd b) | _ => length (filename st) end.
Definition weight (n b t l : nat) : nat := (b * (S n * S n) + t * S n + l)%nat.
Arguments weight : simpl never.
Definition measure (n : nat) (st : matcher) : nat :=
  weight n (bottom_left st) (top_left st) (length (filename st)).

Lemma lexicographic n b t l b' t' l' :
  (t' <= n)%nat -> (l' <= n)%nat ->
  (b' < b \/ b' = b /\ t' < t \/ b' <= b /\ t' <= t /\ l' < l)%nat ->
  (weight n b' t' l' < weight n b t l)%nat.
Proof.
  unfold weight. intros Ht Hl [H|[[-> H]|(H1 & H2 & H3)]].
  - assert (b' * (S n * S n) + S n * S n <= b * (S n * S n))%nat by nia. nia.
  - assert (t' * S n + S n <= t * S n)%nat by nia. nia.
  - assert (b' * (S n * S n) <= b * (S n * S n))%nat by nia.
    assert (t' * S n <= t * S n)%nat by nia. lia.
Qed.

Definition step_ok (A : Prop) (n : nat) (st : matcher) (r : matcher + Z) : Prop :=
  match r with
  | inr r => r = 1 /\ A \/ r = 0 /\ ~ A
  | inl st' => search_ok A n st' /\ (measure n st' < measure n st)%nat
  end.

Lemma backtrack_ok A n st :
  search_ok A n st -> ~ goal_of (have_asterisk st) (criteria st) (filename st) ->
  step_ok A n st (backtrack st).
Proof.
  intros [Hs Hst Hop Hsm Hl Hb Hr Hc] Hfail. unfold backtrack, step_ok.
  assert (Hc' : A -> exists top rest, _pop_ustack (stack st) = Some (top, rest) /\ resume top)
    by (intros HA; destruct (Hc HA) as [?|[_ ?]]; tauto).
  clear Hs Hr Hc. unfold measure, bottom_left, top_left.
  destruct (stack st) as [|[cra fia] [|[crb fib] [|]]] eqn:E; cbn in *; [| | |lia].
  - right. split; [done|]. intros HA. destruct (Hc' HA) as (? & ? & ? & _). done.
  - rewrite Forall_singleton in Hst. destruct Hst as ((Hne & Hn & Hd) & Hsound). cbn in *.
    destruct fia as [|f fia]; [done|]. cbn in *. split.
    + constructor; cbn; auto; try lia; try done.
      * by destruct cra.
      * intros HA. left. destruct (Hc' HA) as (? & ? & [= <- <-] & ?). done.
    + apply lexicographic; lia.
  - apply Forall_cons_1 in Hst as [Ha Hst]. rewrite Forall_singleton in Hst.
    destruct Hst as ((Hne & Hn & Hd) & Hsound). cbn in *.
    destruct fib as [|f fib]; [done|]. cbn in *. split.
    + constructor; cbn; auto; try lia; try done.
      * by destruct crb.
      * intros HA. left. destruct (Hc' HA) as (? & ? & [= <- <-] & ?). done.
    + apply lexicographic; lia.
Qed.

(** Reading past asterisks keeps the invariant. *)
Lemma skip_ok A n st cr have :
  search_ok A n st -> skip_asterisks (criteria st) (have_asterisk st) = (cr, have) ->
  cr <> [] ->
  search_ok A n {| criteria := cr; filename := filename st; stack := stack st; have_asterisk := have |}.
Proof.
  intros [Hs Hst Hop Hsm Hl Hb Hr Hc] Hskip Hend.
  destruct (skip_asterisks_spec _ _ _ _ Hskip) as (Hg & Hh & Hor & Hlen & Hnil).
  constructor; cbn; auto.
  - rewrite <- Hg. exact Hs.
  - intros top rest -> Hp. destruct Hor as [[E1 ->]|[E1 _]]; [|done]. by apply (Hr top rest).
  - intros HA. rewrite <- Hg. destruct (Hc HA) as [H|(Hf & top & rest & Hp & Hre)]; [by left|].
    destruct Hor as [[-> ->]|[-> [k Hk]]].
    + right. split; [done|]. by exists top, rest.
    + left. rewrite Hf. unfold goal_of. rewrite Hk. apply reached_star with top; [|done].
      rewrite <- Hk. by apply (Hr top rest).
Qed.

Lemma pop_push e s : _pop_ustack (_push_ustack e s) = Some (e, take 1 s).
Proof. destruct s as [|a s]; reflexivity. Qed.

Lemma pop_in s top rest : _pop_ustack s = Some (top, rest) -> List.In top s.
Proof.
  revert rest. induction s as [|e s IH]; intros rest; cbn; [done|].
  destruct s as [|e' s]; [intros [= <- <-]; by left|].
  destruct (_pop_ustack (e' :: s)) as [[t r]|]; [|done]. intros [= <- <-]. right. by eapply IH.
Qed.

(** Taking a character without popping brings the measure down. *)
Lemma measure_next n cr cr' f fi s s' h h' :
  (S (length fi) <= n)%nat ->
  match s with [_; b] => (length (snd b) <= n)%nat | _ => True end ->
  match s with [_; b] => (S (length fi) <= length (snd b))%nat | _ => True end ->
  s' = s \/ (exists k, s' = _push_ustack (k, f :: fi) s) ->
  (measure n {| criteria := cr'; filename := fi; stack := s'; have_asterisk := h' |}
   < measure n {| criteria := cr; filename := f :: fi; stack := s; have_asterisk := h |})%nat.
Proof.
  intros Hn Hs Hb Hs'. unfold measure, bottom_left, top_left. cbn [stack filename].
  apply lexicographic; destruct Hs' as [-> | [k ->]], s as [|a [|b [|]]]; cbn in *; lia.
Qed.

Lemma top_bounded n P s :
  Forall (fun e => element_ok n e /\ P e) s ->
  match s with [_; b] => (length (snd b) <= n)%nat | _ => True end.
Proof.
  intros H. destruct s as [|a [|b [|]]]; try done.
  apply Forall_cons_1 in H as [_ H]. apply Forall_cons_1 in H as [H _]. apply H.
Qed.

(** The character is taken with an asterisk open: the position is pushed. *)
Lemma push_ok A n c cr f fi s :
  c <> ASTERISK -> c = QUESTION \/ c = f ->
  search_ok A n {| criteria := c :: cr; filename := f :: fi; stack := s; have_asterisk := true |} ->
  step_ok A n {| criteria := c :: cr; filename := f :: fi; stack := s; have_asterisk := true |}
    (inl {| criteria := cr; filename := fi; stack := _push_ustack (c :: cr, f :: fi) s;
            have_asterisk := false |}).
Proof.
  intros Hc Hm [Hs Hst Hop Hsm Hl Hb Hr Hcp]. cbn in *.
  assert (Hres : resume (c :: cr, f :: fi) -> A).
  { unfold resume. cbn. intros H. apply Hs. rewrite glob_star_cons by done. by right. }
  assert (He : element_ok n (c :: cr, f :: fi)) by (unfold element_ok; cbn; auto).
  split.
  - constructor; cbn [criteria filename stack have_asterisk].
    + intros H. apply Hs. rewrite glob_star_cons by done. by left.
    + destruct s as [|a s]; cbn; [by apply Forall_singleton|].
      apply Forall_cons_1 in Hst as [Ha _]. repeat constructor; try apply Ha; auto; apply He.
    + done.
    + destruct s; cbn; lia.
    + cbn in Hl. lia.
    + destruct s; cbn; lia || done.
    + intros top rest _. rewrite pop_push. intros [= <- <-]. exists [c], [f]. cbn. auto.
    + intros HA. destruct (Hcp HA) as [H|[? _]]; [|done].
      rewrite glob_star_cons in H by done. destruct H as [[_ H]|H]; [by left|].
      right. split; [done|]. rewrite pop_push. eexists _, _. by split; [reflexivity|].
  - apply measure_next; [done|by apply top_bounded in Hst|done|eauto].
Qed.

(** The character goes to the open asterisk. *)
Lemma subsume_ok A n c cr f fi s :
  c <> ASTERISK -> ~ (c = QUESTION \/ c = f) ->
  search_ok A n {| criteria := c :: cr; filename := f :: fi; stack := s; have_asterisk := true |} ->
  step_ok A n {| criteria := c :: cr; filename := f :: fi; stack := s; have_asterisk := true |}
    (inl {| criteria := c :: cr; filename := fi; stack := s; have_asterisk := true |}).
Proof.
  intros Hc Hm [Hs Hst Hop Hsm Hl Hb Hr Hcp]. cbn in *. split.
  - constructor; cbn; auto; try done.
    + intros H. apply Hs. rewrite glob_star_cons by done. by right.
    + lia.
    + destruct s as [|? [|? [|]]]; cbn in *; lia || done.
    + intros HA. destruct (Hcp HA) as [H|[? _]]; [|done].
      rewrite glob_star_cons in H by done. left. tauto.
  - apply measure_next; [done|by apply top_bounded in Hst|done|eauto].
Qed.

(** The character is taken, with no asterisk open. *)
Lemma consume_ok A n c cr f fi s :
  c <> ASTERISK -> c = QUESTION \/ c = f ->
  search_ok A n {| criteria := c :: cr; filename := f :: fi; stack := s; have_asterisk := false |} ->
  step_ok A n {| criteria := c :: cr; filename := f :: fi; stack := s; have_asterisk := false |}
    (inl {| criteria := cr; filename := fi; stack := s; have_asterisk := false |}).
Proof.
  intros Hc Hm [Hs Hst Hop Hsm Hl Hb Hr Hcp]. cbn in *. split.
  - constructor; cbn; auto; try done.
    + intros H. apply Hs. by rewrite glob_cons.
    + lia.
    + destruct s as [|? [|? [|]]]; cbn in *; lia || done.
    + intros top rest Hh Hp. destruct (Hr top rest Hh Hp) as (u & v & E1 & E2 & E3 & E4).
      exists (u ++ [c]), (v ++ [f]). rewrite <- !app_assoc, !length_app, E3.
      repeat split; try done. by apply Forall_app_2; [|apply Forall_singleton].
    + intros HA. destruct (Hcp HA) as [H|H]; [|by right].
      rewrite glob_cons in H by done. left. tauto.
  - apply measure_next; [done|by apply top_bounded in Hst|done|eauto].
Qed.

Lemma match_step_ok A n st : search_ok A n st -> step_ok A n st (match_step st).
Proof.
  intros Hok. unfold match_step. destruct (criteria st) as [|c0 cr0] eqn:Ecr.
  - assert (Hh : have_asterisk st = false).
    { destruct (have_asterisk st) eqn:Eh; [|done]. by destruct (so_open _ _ _ Hok Eh). }
    destruct (filename st) as [|f fi] eqn:Efi.
    + left. split; [done|]. apply (so_sound _ _ _ Hok). rewrite Ecr, Efi, Hh. constructor.
    + apply backtrack_ok; [done|]. rewrite Ecr, Efi, Hh. cbn. by rewrite glob_nil_l.
  - destruct (skip_asterisks (c0 :: cr0) (have_asterisk st)) as [cr have] eqn:Hskip.
    destruct (skip_asterisks_spec _ _ _ _ Hskip) as (Hg & Hh & _ & _ & Hnil).
    destruct cr as [|c cr].
    { left. split; [done|]. apply (so_sound _ _ _ Hok). rewrite Ecr, Hg, Hnil by done. cbn.
      rewrite <- (app_nil_r (filename st)). apply glob_star_suffix. repeat constructor. }
    rewrite <- Ecr in Hskip.
    pose proof (skip_ok _ _ _ _ _ Hok Hskip ltac:(done)) as Hok'.
    assert (Hmeas : measure n st = measure n {| criteria := c :: cr; filename := filename st;
              stack := stack st; have_asterisk := have |}) by reflexivity.
    unfold step_ok. rewrite Hmeas. fold (step_ok A n {| criteria := c :: cr; filename := filename st;
              stack := stack st; have_asterisk := have |}).
    clear Hmeas Hg Hnil Hskip. destruct (filename st) as [|f fi].
    + apply backtrack_ok; [done|]. destruct have; cbn; [|by apply glob_nil_r].
      intros H. apply glob_star_split in H as (a & b & Hab & H).
      symmetry in Hab. apply app_eq_nil in Hab as [_ ->]. by apply glob_nil_r in H.
    + destruct have; case_bool_decide.
      * by apply push_ok.
      * by apply subsume_ok.
      * by apply consume_ok.
      * apply backtrack_ok; [done|]. cbn. rewrite glob_cons by done. tauto.
Qed.

Lemma match_loop_ok A n st fuel :
  search_ok A n st -> (measure n st < fuel)%nat ->
  match_loop fuel st = Some 1 /\ A \/ match_loop fuel st = Some 0 /\ ~ A.
Proof.
  revert st. induction fuel as [|fuel IH]; intros st Hok Hm; [lia|]. cbn.
  pose proof (match_step_ok _ _ _ Hok) as Hstep.
  destruct (match_step st) as [st'|r]; cbn in Hstep.
  - apply IH; [apply Hstep|]. lia.
  - destruct Hstep as [[-> ?]|[-> ?]]; auto.
Qed.

Section matching.
Context (graphemes : list Z -> option (list (list Z))).

(** The answer of the matcher, as a decision of the glob relation. *)
Lemma matches_ok cr_str fi_str cr fi :
  cr_str <> [] -> graphemes cr_str = Some cr -> graphemes fi_str = Some fi ->
  glob cr fi /\ _matches_name_criteria_caseless graphemes cr_str fi_str = Some 1
  \/ ~ glob cr fi /\ _matches_name_criteria_caseless graphemes cr_str fi_str = Some 0.
Proof.
  intros Hne Ecr Efi. unfold _matches_name_criteria_caseless. destruct cr_str as [|x cr_str]; [done|].
  rewrite Ecr, Efi.
  set (st := {| criteria := cr; filename := fi; stack := []; have_asterisk := false |}).
  assert (Hok : search_ok (glob cr fi) (length fi) st).
  { constructor; cbn; auto; try lia; try done. }
  assert (Hm : (measure (length fi) st < match_fuel fi)%nat).
  { unfold measure, weight, match_fuel, bottom_left, top_left. cbn [stack filename st].
    set (n := length fi). cbn [Nat.pow]. nia. }
  destruct (match_loop_ok _ _ _ _ Hok Hm) as [[-> ?]|[-> ?]]; auto.
Qed.

(** Whatever the break iterator says, matching ends. *)
Lemma matches_total cr_str fi_str :
  exists r, _matches_name_criteria_caseless graphemes cr_str fi_str = Some r.
Proof.
  destruct cr_str as [|c cr_str]; [destruct fi_str; eexists; reflexivity|].
  destruct (graphemes (c :: cr_str)) as [cr|] eqn:Ec, (graphemes fi_str) as [fi|] eqn:Ef.
  - destruct (matches_ok (c :: cr_str) fi_str cr fi ltac:(done) Ec Ef) as [[_ ->]|[_ ->]]; eauto.
  - eexists. unfold _matches_name_criteria_caseless. rewrite Ec, Ef. reflexivity.
  - eexists. unfold _matches_name_criteria_caseless. rewrite Ec. reflexivity.
  - eexists. unfold _matches_name_criteria_caseless. rewrite Ec. reflexivity.
Qed.

Lemma match_any_total cache dname : exists b, match_any graphemes cache dname = Some b.
Proof.
  induction cache as [|g cache [b IH]]; cbn; [by eexists|].
  destruct (matches_total g dname) as [r ->]. destruct (r >? 0); eauto.
Qed.

Lemma index_criteria_match_total icu name ic :
  exists b ic', index_criteria_match icu graphemes name ic = Some (b, ic').
Proof.
  assert (H : forall cache, exists b, match_name icu graphemes cache name = Some b).
  { intros cache. unfold match_name. destruct (pathname_prepare_caseless icu name false);
      [by eexists|apply match_any_total]. }
  unfold index_criteria_match, _prepare_glob_cache. destruct (_ || _); [by eexists _, _|].
  destruct (glob_patterns ic) as [ps|]; [|by eexists _, _].
  destruct (glob_cache ic) as [cache|] eqn:Ec.
  - cbn. rewrite Ec. destruct (H cache) as [b ->]. eauto.
  - destruct (caseless_patterns icu ps) as [ret cache]. destruct (ret <? 0); [eauto|].
    cbn. destruct (H cache) as [b ->]. eauto.
Qed.

(** C23: the matcher is the glob relation.  On the clusters of a pattern and of a
    name, the backtracking loop always ends, within the fuel it is given, and
    answers 1 exactly when the pattern matches ([*] any clusters, [?] one
    cluster), although the stack it backtracks on keeps only two of the
    positions pushed on it. *)
Theorem matches_name_criteria_spec cr_str fi_str cr fi :
  cr_str <> [] -> graphemes cr_str = Some cr -> graphemes fi_str = Some fi ->
  glob cr fi /\ _matches_name_criteria_caseless graphemes cr_str fi_str = Some 1
  \/ ~ glob cr fi /\ _matches_name_criteria_caseless graphemes cr_str fi_str = Some 0.
Proof. apply matches_ok. Qed.

(** *** The policy decision *)

Context (icu : icu_lib).

(** The clusters of the caseless form of a name. *)
Definition clusters (name : cstring) (g : list (list Z)) : Prop :=
  exists u, pathname_prepare_caseless icu name false = inr u /\ u <> [] /\ graphemes u = Some g.

Lemma caseless_patterns_ok ps gs :
  Forall2 clusters ps gs ->
  exists us, caseless_patterns icu ps = (0, us)
    /\ Forall2 (fun u g => u <> [] /\ graphemes u = Some g) us gs.
Proof.
  induction 1 as [|p g ps gs (u & E & Hne & Hg) _ (us & IH & H2)]; cbn.
  - by exists [].
  - rewrite E, IH. exists (u :: us). by repeat constructor.
Qed.

Lemma match_any_ok us gs dname fi :
  Forall2 (fun u g => u <> [] /\ graphemes u = Some g) us gs -> graphemes dname = Some fi ->
  exists b, match_any graphemes us dname = Some b /\ (b = true <-> Exists (fun g => glob g fi) gs).
Proof.
  intros H Hfi. induction H as [|u g us gs [Hne Hg] _ (b & Eb & Hb)]; cbn.
  - exists false. split; [done|]. by rewrite Exists_nil.
  - destruct (matches_ok _ _ _ _ Hne Hg Hfi) as [[Hyes ->]|[Hno ->]]; cbn.
    + exists true. split; [done|]. split; [by left|done].
    + exists b. split; [done|]. rewrite Hb, Exists_cons. tauto.
Qed.

Lemma match_name_ok us gs name fi :
  Forall2 (fun u g => u <> [] /\ graphemes u = Some g) us gs -> clusters name fi ->
  exists b, match_name icu graphemes us name = Some b /\ (b = true <-> Exists (fun g => glob g fi) gs).
Proof.
  intros H (u & E & _ & Hfi). unfold match_name. rewrite E. by apply match_any_ok.
Qed.

(** the data placement policy.  With a size limit and name patterns set, and
    the patterns not prepared yet, a file is a candidate for the index partition
    exactly when one of the patterns matches its name, both taken in their
    caseless form; the prepared patterns are kept and give the same answer next
    time. *)
Theorem index_criteria_match_spec name fi ps gs ic :
  have_criteria ic = true -> max_filesize_criteria ic <> 0 ->
  glob_patterns ic = Some ps -> glob_cache ic = None ->
  Forall2 clusters ps gs -> clusters name fi ->
  exists b ic', index_criteria_match icu graphemes name ic = Some (b, ic')
    /\ (b = true <-> Exists (fun g => glob g fi) gs)
    /\ glob_patterns ic' = Some ps /\ glob_cache ic' <> None
    /\ index_criteria_match icu graphemes name ic' = Some (b, ic').
Proof.
  intros Hh Hm Hp Hc Hps Hname. apply Z.eqb_neq in Hm.
  destruct (caseless_patterns_ok _ _ Hps) as (us & Eus & Hus).
  destruct (match_name_ok us gs name fi Hus Hname) as (b & Eb & Hb).
  exists b, (set_glob_cache (Some us) ic).
  unfold index_criteria_match. cbn [set_glob_cache have_criteria max_filesize_criteria glob_patterns glob_cache].
  rewrite Hh, Hm, Hp, Hc. unfold _prepare_glob_cache. rewrite Eus. cbn.
  rewrite Eb. auto.
Qed.

End matching.

(** ** Reading the option string back *)

Fixpoint join_names (names : list cstring) : cstring :=
  match names with
  | [] => []
  | [n] => n
  | n :: rest => n ++ COLON :: join_names rest
  end.

(** [name=<pattern>:...:<pattern>/size=<digits><unit>] *)
Definition print_criteria (names : list cstring) (digits unit : cstring) : cstring :=
  NAME_OPTION ++ join_names names ++ SLASH :: SIZE_OPTION ++ digits ++ unit.

Definition dec_value (digits : cstring) : Z :=
  fold_left (fun a b => a * 10 + (b - 48)) digits 0.

(** The factor a unit stands for. *)
Definition unit_factor (unit : cstring) (m : Z) : Prop :=
  unit = [] /\ m = 1 \/ exists b, unit = [b] /\ multiplier b = Some m.

Definition no_sep (s : cstring) : Prop := Forall (fun b => b <> SLASH /\ b <> COLON) s.
Definition no_slash (s : cstring) : Prop := Forall (fun b => b <> SLASH) s.

Lemma upto_slash_none s : no_slash s -> upto_slash s = (s, []).
Proof. induction 1 as [|b s Hb _ IH]; cbn; [done|]. apply Z.eqb_neq in Hb. by rewrite Hb, IH. Qed.

Lemma upto_slash_app a s : no_slash a -> upto_slash (a ++ SLASH :: s) = (a, SLASH :: s).
Proof. induction 1 as [|b a Hb _ IH]; cbn; [done|]. apply Z.eqb_neq in Hb. by rewrite Hb, IH. Qed.

Lemma find_sep_none sub prev s : no_slash s -> prev <> SLASH -> find_sep sub prev s = None.
Proof.
  intros Hs. revert prev. induction Hs as [|b s Hb _ IH]; intros prev Hp; cbn [find_sep].
  all: rewrite (proj2 (Z.eqb_neq _ _) Hp), andb_false_r; auto.
Qed.

Lemma find_sep_app sub prev a s :
  no_slash a -> prev <> SLASH -> starts_with sub (SLASH :: s) = false ->
  find_sep sub prev (a ++ SLASH :: s) = find_sep sub SLASH s.
Proof.
  intros Ha. revert prev. induction Ha as [|b a Hb _ IH]; intros prev Hp Hs; cbn [app find_sep].
  - by rewrite Hs.
  - rewrite (proj2 (Z.eqb_neq _ _) Hp), andb_false_r. auto.
Qed.

Lemma bad_separator_app a s :
  no_slash a -> valid_option s = true -> bad_separator (a ++ SLASH :: s) = bad_separator s.
Proof.
  intros Ha Hv. induction Ha as [|b a Hb _ IH]; cbn.
  - by rewrite Hv.
  - apply Z.eqb_neq in Hb. by rewrite Hb.
Qed.

Lemma bad_separator_none s : no_slash s -> bad_separator s = false.
Proof. induction 1 as [|b s Hb _ IH]; cbn; [done|]. apply Z.eqb_neq in Hb. by rewrite Hb. Qed.

Lemma no_sep_slash n : no_sep n -> no_slash n.
Proof. induction 1 as [|b n [? _] _ IH]; by constructor. Qed.

Lemma no_slash_join names : Forall no_sep names -> no_slash (join_names names).
Proof.
  induction 1 as [|n [|n' rest] Hn Hrest IH]; cbn.
  - constructor.
  - by apply no_sep_slash.
  - apply Forall_app_2; [by apply no_sep_slash|]. by constructor.
Qed.

(** *** The name rules *)

Lemma empty_rule_name prev n : no_sep n -> empty_rule prev n = false.
Proof.
  intros H. revert prev. induction H as [|b n [_ Hb] _ IH]; intros prev; cbn; [done|].
  apply Z.eqb_neq in Hb. rewrite Hb. cbn. apply IH.
Qed.

Lemma empty_rule_join prev n s :
  no_sep n -> (n <> [] \/ prev <> COLON) -> s <> [] ->
  empty_rule prev (n ++ COLON :: s) = empty_rule COLON s.
Proof.
  intros H. revert prev. induction H as [|b n [_ Hb] _ IH]; intros prev Hne Hs; cbn.
  - destruct Hne as [?|Hp]; [done|]. apply Z.eqb_neq in Hp. rewrite Hp. by destruct s.
  - apply Z.eqb_neq in Hb as Eb. rewrite Eb. cbn. apply IH; auto.
Qed.

Lemma empty_rule_names prev names :
  Forall (fun n => no_sep n /\ n <> []) names -> empty_rule prev (join_names names) = false.
Proof.
  intros H. revert prev. induction H as [|n [|n' rest] [Hn Hne] Hrest IH]; intros prev; [done| |].
  - by apply empty_rule_name.
  - change (join_names (n :: n' :: rest)) with (n ++ COLON :: join_names (n' :: rest)).
    rewrite empty_rule_join; [apply IH|done|by left|].
    apply Forall_cons_1 in Hrest as [[_ Hne'] _]. by destruct rest, n'.
Qed.

Lemma assign_name acc n : no_sep n -> n <> [] -> assign_rules acc false n = [acc ++ n].
Proof.
  intros H. revert acc. induction H as [|b n [Hs Hb] _ IH]; intros acc Hne; [done|]. cbn.
  apply Z.eqb_neq in Hs, Hb. rewrite Hb, Hs. destruct n as [|b' n]; [done|].
  rewrite IH by done. by rewrite <- app_assoc.
Qed.

Lemma assign_join acc n s :
  no_sep n -> assign_rules acc false (n ++ COLON :: s) = (acc ++ n) :: assign_rules [] false s.
Proof.
  intros H. revert acc. induction H as [|b n [Hs Hb] _ IH]; intros acc; cbn.
  - by rewrite app_nil_r.
  - apply Z.eqb_neq in Hs, Hb. rewrite Hb, Hs. rewrite IH, <- app_assoc. by destruct n.
Qed.

Lemma assign_names names :
  Forall (fun n => no_sep n /\ n <> []) names -> assign_rules [] false (join_names names) = names.
Proof.
  induction 1 as [|n [|n' rest] [Hn Hne] Hrest IH]; [done| |].
  - by apply (assign_name []).
  - change (join_names (n :: n' :: rest)) with (n ++ COLON :: join_names (n' :: rest)).
    by rewrite assign_join, IH.
Qed.

(** *** The size rule *)

Definition is_digits (s : cstring) : Prop := Forall (fun b => isdigit b = true) s.

Lemma digit_facts b : isdigit b = true -> isalpha b = false /\ b <> SLASH.
Proof.
  unfold isdigit, isalpha, tolower, SLASH. intros H. bool_to_prop.
  replace ((65 <=? b) && (b <=? 90)) with false; [|symmetry; apply andb_false_iff; rewrite !Z.leb_gt; lia].
  split; [|lia]. apply andb_false_iff. left. apply Z.leb_gt. lia.
Qed.

Lemma unit_facts b m : multiplier b = Some m -> isalpha b = true /\ isdigit b = false /\ b <> SLASH.
Proof.
  unfold multiplier, isalpha, isdigit, tolower, SLASH. intros H.
  destruct ((65 <=? b) && (b <=? 90)) eqn:E; bool_to_prop.
  all: repeat (case_match; bool_to_prop; [subst; split_and!; [apply andb_true_iff; rewrite !Z.leb_le; lia
    |apply andb_false_iff; rewrite !Z.leb_gt; lia|lia]|]); done.
Qed.

Lemma two_letters_digits ds unit :
  is_digits ds -> (length unit <= 1)%nat -> two_letters (ds ++ unit) = false.
Proof.
  intros H Hu. induction H as [|b ds Hb Hds IH].
  - by destruct unit as [|? [|]]; cbn in *; try lia.
  - destruct (digit_facts b Hb) as [Ha _]. cbn in *. destruct (ds ++ unit); [done|]. by rewrite Ha.
Qed.

Lemma strtoull_digits ds acc :
  is_digits ds -> 0 <= acc ->
  strtoull_loop ds (Z.min ULLONG_MAX acc) =
  Z.min ULLONG_MAX (fold_left (fun a b => a * 10 + (b - 48)) ds acc).
Proof.
  intros H. revert acc. induction H as [|b ds Hb _ IH]; intros acc Hacc; cbn [strtoull_loop fold_left]; [done|].
  rewrite Hb. unfold isdigit in Hb. bool_to_prop.
  rewrite <- IH by lia. f_equal. unfold ULLONG_MAX. lia.
Qed.

Lemma size_value_digits ds m :
  is_digits ds -> ds <> [] -> size_value ds m = inr (u64 (Z.min ULLONG_MAX (dec_value ds) * m)).
Proof.
  intros H Hne. unfold size_value. destruct ds as [|b ds]; [done|].
  pose proof (Forall_cons_1 _ _ _ H) as [Hb _]. cbn beta in Hb. rewrite Hb.
  pose proof (strtoull_digits (b :: ds) 0 H ltac:(lia)) as E.
  change (Z.min ULLONG_MAX 0) with 0 in E. by rewrite E.
Qed.

Lemma parse_size_digits ds unit m :
  is_digits ds -> ds <> [] -> unit_factor unit m ->
  index_criteria_parse_size (SIZE_OPTION ++ ds ++ unit)
  = Some (inr (u64 (Z.min ULLONG_MAX (dec_value ds) * m))).
Proof.
  intros H Hne Hu. unfold index_criteria_parse_size.
  change (drop 5 (SIZE_OPTION ++ ds ++ unit)) with (ds ++ unit).
  rewrite two_letters_digits; [|done|by destruct Hu as [[-> _]|(b & -> & _)]; cbn; lia].
  destruct Hu as [[-> ->]|(b & -> & Hb)].
  - rewrite app_nil_r. destruct ds as [|b ds _] using rev_ind; [done|].
    rewrite last_snoc. apply Forall_app in H as Hsplit. destruct Hsplit as [_ Hlast].
    rewrite Forall_singleton in Hlast. destruct (digit_facts b Hlast) as [-> _].
    by rewrite size_value_digits.
  - rewrite last_snoc, removelast_last. destruct (unit_facts b m Hb) as (-> & _ & _).
    by rewrite Hb, size_value_digits.
Qed.

Lemma no_slash_size ds unit m : is_digits ds -> unit_factor unit m -> no_slash (ds ++ unit).
Proof.
  intros H Hu. apply Forall_app_2.
  - induction H as [|b ds Hb _ IH]; constructor; [by apply digit_facts|done].
  - destruct Hu as [[-> _]|(b & -> & Hb)]; [constructor|].
    apply Forall_singleton. destruct (unit_facts b m Hb) as (_ & _ & ?). done.
Qed.

Lemma no_slash_size_option s : no_slash s -> no_slash (SIZE_OPTION ++ s).
Proof. intros H. apply Forall_app_2; [|done]. by repeat constructor. Qed.

(** *** The whole string *)

Section print.
Context (names : list cstring) (digits unit : cstring) (m : Z).
Context (Hnames : Forall (fun n => no_sep n /\ n <> []) names) (Hne : names <> []).
Context (Hdigits : is_digits digits) (Hdne : digits <> []) (Hunit : unit_factor unit m).

Let rules := print_criteria names digits unit.
Let tail_ok : no_slash (SIZE_OPTION ++ digits ++ unit) :=
  no_slash_size_option _ (no_slash_size digits unit m Hdigits Hunit).

Lemma names_no_slash : no_slash (join_names names).
Proof. apply no_slash_join. revert Hnames. apply Forall_impl. by intros ? [? _]. Qed.

Lemma name_text_no_slash : no_slash (NAME_OPTION ++ join_names names).
Proof. apply Forall_app_2; [by repeat constructor|apply names_no_slash]. Qed.

Lemma rules_split : rules = (NAME_OPTION ++ join_names names) ++ SLASH :: SIZE_OPTION ++ digits ++ unit.
Proof. unfold rules, print_criteria. by rewrite <- app_assoc. Qed.

Lemma rules_valid : index_criteria_contains_invalid_options rules = false.
Proof.
  unfold index_criteria_contains_invalid_options.
  change (bad_separator (tail rules) )
    with (bad_separator ((cstr "ame=" ++ join_names names ++ SLASH :: SIZE_OPTION ++ digits ++ unit))).
  rewrite app_assoc, bad_separator_app; [|apply Forall_app_2; [by repeat constructor|apply names_no_slash]|done].
  rewrite bad_separator_none by exact tail_ok.
  destruct (Nat.ltb_spec (length rules) 5) as [Hlt|_]; [|reflexivity].
  unfold rules, print_criteria in Hlt. rewrite length_app in Hlt. cbn in Hlt. lia.
Qed.

Lemma find_none_size fuel : find_option fuel (SLASH :: SIZE_OPTION ++ digits ++ unit) NAME_OPTION = Missing.
Proof.
  destruct fuel; [done|]. cbn [find_option]. destruct (_ <? 5)%nat; [done|].
  unfold find_start. change (starts_with NAME_OPTION (SLASH :: ?s)) with false.
  replace (find_sep NAME_OPTION SLASH (SIZE_OPTION ++ digits ++ unit)) with (@None cstring); [done|].
  symmetry. change (find_sep NAME_OPTION SLASH (SIZE_OPTION ++ digits ++ unit))
    with (find_sep NAME_OPTION 115 (cstr "ize=" ++ digits ++ unit)).
  apply find_sep_none; [|done]. apply Forall_app_2; [by repeat constructor|].
  by apply (no_slash_size digits unit m).
Qed.

Lemma rules_long : (length rules <? 5)%nat = false.
Proof. apply Nat.ltb_ge. unfold rules, print_criteria. rewrite length_app. cbn. lia. Qed.

Lemma find_name : index_criteria_find_option rules NAME_OPTION = Found (NAME_OPTION ++ join_names names).
Proof.
  unfold index_criteria_find_option. cbn [find_option]. rewrite rules_long.
  unfold find_start. change (starts_with NAME_OPTION rules) with true. cbv iota beta.
  rewrite rules_split, upto_slash_app by apply name_text_no_slash.
  by rewrite find_none_size.
Qed.

Lemma find_size : index_criteria_find_option rules SIZE_OPTION = Found (SIZE_OPTION ++ digits ++ unit).
Proof.
  unfold index_criteria_find_option. cbn [find_option]. rewrite rules_long.
  unfold find_start. change (starts_with SIZE_OPTION rules) with false. cbv iota beta.
  change rules with (110 :: cstr "ame=" ++ join_names names ++ SLASH :: SIZE_OPTION ++ digits ++ unit).
  cbv iota beta. rewrite app_assoc, find_sep_app; [|apply Forall_app_2; [by repeat constructor|apply names_no_slash]|done|done].
  change (find_sep SIZE_OPTION SLASH (SIZE_OPTION ++ digits ++ unit))
    with (Some (SIZE_OPTION ++ digits ++ unit)).
  cbv iota beta. rewrite upto_slash_none by exact tail_ok.
  by destruct (length _).
Qed.

End print.

Lemma first_error_none f names : Forall (fun n => f n = 0) names -> first_error f names = 0.
Proof. induction 1 as [|n rest Hn _ IH]; cbn; [done|]. by rewrite Hn. Qed.

(** C30: the option string round trip.  [name=<patterns>/size=<number><unit>]
    with valid, non-empty patterns is accepted and gives back those patterns,
    in order, and the size the number and its unit stand for ([strtoull]'s
    saturation and the 64-bit product included). *)
Theorem index_criteria_roundtrip icu names digits unit m ic :
  Forall (fun n => no_sep n /\ n <> []) names -> names <> [] ->
  Forall (fun n => pathname_validate_file icu n = 0) names ->
  is_digits digits -> digits <> [] -> unit_factor unit m ->
  index_criteria_parse icu (Some (print_criteria names digits unit)) ic
  = Some (0, {| have_criteria := true;
                max_filesize_criteria := u64 (Z.min ULLONG_MAX (dec_value digits) * m);
                glob_patterns := Some names;
                glob_cache := glob_cache (index_criteria_free ic) |}).
Proof.
  intros Hn Hne Hv Hd Hdne Hu. unfold index_criteria_parse.
  rewrite (rules_valid _ _ _ m), (find_name _ _ _ m) by done.
  unfold index_criteria_parse_name. change (drop 5 (NAME_OPTION ++ join_names names)) with (join_names names).
  destruct (join_names names) as [|b rest] eqn:Ej.
  { destruct names as [|[|b n] [|]]; cbn in *; try done; apply Forall_cons_1 in Hn as [[_ ?] _]; done. }
  assert (Eb : (b =? COLON) || empty_rule b rest = false).
  { pose proof (empty_rule_names SLASH names Hn) as E. rewrite Ej in E. cbn in E.
    destruct (b =? COLON) eqn:Ebc; [|exact E]. exfalso. apply Z.eqb_eq in Ebc as ->.
    destruct names as [|[|x n] rest']; try done; apply Forall_cons_1 in Hn as [[Hx ?] _]; [done|].
    apply Forall_cons_1 in Hx as [[_ Hx] _]. by destruct rest'; injection Ej as ->. }
  rewrite Eb, <- Ej, assign_names by done. rewrite first_error_none by done. cbn [Z.ltb Z.compare].
  unfold parse_size_option. by rewrite (find_size _ _ _ m), (parse_size_digits _ _ m).
Qed.

(** ** Witnesses *)

(** ICU restricted to ASCII, as far as the examples need it. *)
Definition ascii_icu : icu_lib := {|
  U8_NEXT b s := (if b <? 128 then b else -1, s);
  ucnv_toUChars := Some; u_strFromUTF8 := Some; u_strToUTF8 := Some;
  u_strFoldCase s := Some (map tolower s);
  unorm_normalize_nfc := Some; unorm_normalize_nfd := Some;
  quick_check_nfc _ := true; quick_check_nfd _ := true;
  ucnv_getDefaultName := cstr "UTF-8"; ucnv_convert := Some;
  u_strcmp s t := if decide (s = t) then 0 else 1
|}.

#[export] Instance ascii_icu_ok : IcuOk ascii_icu.
Proof. constructor. cbn. lia. Qed.

(** Every ASCII character is a cluster of its own. *)
Definition ascii_graphemes (s : list Z) : option (list (list Z)) := Some (map (fun b => [b]) s).

Lemma matches_name_criteria_spec_witness :
  _matches_name_criteria_caseless ascii_graphemes (cstr "*ab?c*d") (cstr "xabycabzcd") = Some 1
  /\ _matches_name_criteria_caseless ascii_graphemes (cstr "*ab?c*d") (cstr "xabycabzce") = Some 0.
Proof.
  destruct (matches_name_criteria_spec ascii_graphemes (cstr "*ab?c*d") (cstr "xabycabzcd")
    _ _ ltac:(discriminate) eq_refl eq_refl) as [[_ E1]|[_ E1]]; [|vm_compute in E1; discriminate].
  destruct (matches_name_criteria_spec ascii_graphemes (cstr "*ab?c*d") (cstr "xabycabzce")
    _ _ ltac:(discriminate) eq_refl eq_refl) as [[_ E2]|[_ E2]]; [vm_compute in E2; discriminate|].
  split; [exact E1|exact E2].
Defined.

Definition sample_criteria : index_criteria :=
  {| have_criteria := true; max_filesize_criteria := 1048576;
     glob_patterns := Some [cstr "*.jpg"; cstr "IMG_????.png"]; glob_cache := None |}.

Lemma index_criteria_match_spec_witness :
  exists b ic', index_criteria_match ascii_icu ascii_graphemes (cstr "img_0042.PNG") sample_criteria
                = Some (b, ic')
    /\ b = true.
Proof.
  destruct (index_criteria_match_spec ascii_graphemes ascii_icu (cstr "img_0042.PNG")
    (map (fun b => [b]) (cstr "img_0042.png")) [cstr "*.jpg"; cstr "IMG_????.png"]
    [map (fun b => [b]) (cstr "*.jpg"); map (fun b => [b]) (cstr "img_????.png")]
    sample_criteria) as (b & ic' & E & Hb & _); [reflexivity|discriminate|reflexivity|reflexivity| | |].
  - repeat constructor; eexists; (split; [reflexivity|split; [discriminate|reflexivity]]).
  - eexists; (split; [reflexivity|split; [discriminate|reflexivity]]).
  - exists b, ic'. split; [exact E|]. vm_compute in E. injection E as <- _. reflexivity.
Defined.

Lemma index_criteria_roundtrip_witness :
  index_criteria_parse ascii_icu (Some (cstr "name=*.jpg:*.txt/size=100k")) sample_criteria
  = Some (0, {| have_criteria := true; max_filesize_criteria := 102400;
                glob_patterns := Some [cstr "*.jpg"; cstr "*.txt"]; glob_cache := None |}).
Proof.
  apply (index_criteria_roundtrip ascii_icu [cstr "*.jpg"; cstr "*.txt"] (cstr "100") (cstr "k") 1024).
  - repeat constructor; discriminate.
  - discriminate.
  - repeat constructor.
  - repeat constructor.
  - discriminate.
  - right. exists 107. split; reflexivity.
Defined.

(** A repeated option is refused, but an option given three times is accepted:
    the error the inner search reports is taken for "no second occurrence". *)
Lemma option_given_three_times :
  index_criteria_parse ascii_icu (Some (cstr "size=1k/size=2k")) sample_criteria
  = Some (- LTFS_POLICY_INVALID, {| have_criteria := true; max_filesize_criteria := 0;
                                    glob_patterns := None; glob_cache := None |})
  /\ index_criteria_parse ascii_icu (Some (cstr "size=1k/size=2k/size=3k")) sample_criteria
  = Some (0, {| have_criteria := true; max_filesize_criteria := 1024;
                glob_patterns := None; glob_cache := None |}).
Proof. split; reflexivity. Qed.
