(* ===== verification/Locking.v ===== *)
(** * The multiple-reader single-writer lock

    [libltfs/ltfs_locking.h].  Every operation is the list of the accesses to the
    lock it makes, in the order of the code; threads execute such lists one access
    at a time, in any interleaving.  The three mutexes are owned by nobody in
    particular: the last reader unlocks the mutex the first one locked.  [sleep]
    is no access, and the log messages are left out. *)

From S2P Require Import Prelude.
Open Scope Z_scope.

(** ** The lock *)

Inductive mutex := write_exclusive_mutex | reading_mutex | read_count_mutex.

(** A mutex is [true] when it is locked. *)
Record MultiReaderSingleWriter := {
  write_exclusive : bool;
  reading : bool;
  reading_count : bool;
  read_count : Z;
  writer : bool;
  long_lock : bool
}.

Definition locked (l : MultiReaderSingleWriter) (m : mutex) : bool :=
  match m with
  | write_exclusive_mutex => write_exclusive l
  | reading_mutex => reading l
  | read_count_mutex => reading_count l
  end.

Definition set_mutex (m : mutex) (b : bool) (l : MultiReaderSingleWriter) : MultiReaderSingleWriter :=
  {| write_exclusive := match m with write_exclusive_mutex => b | _ => write_exclusive l end;
     reading := match m with reading_mutex => b | _ => reading l end;
     reading_count := match m with read_count_mutex => b | _ => reading_count l end;
     read_count := read_count l; writer := writer l; long_lock := long_lock l |}.

Definition set_read_count (n : Z) (l : MultiReaderSingleWriter) : MultiReaderSingleWriter :=
  {| write_exclusive := write_exclusive l; reading := reading l; reading_count := reading_count l;
     read_count := n; writer := writer l; long_lock := long_lock l |}.

Definition set_writer (b : bool) (l : MultiReaderSingleWriter) : MultiReaderSingleWriter :=
  {| write_exclusive := write_exclusive l; reading := reading l; reading_count := reading_count l;
     read_count := read_count l; writer := b; long_lock := long_lock l |}.

Definition set_long_lock (b : bool) (l : MultiReaderSingleWriter) : MultiReaderSingleWriter :=
  {| write_exclusive := write_exclusive l; reading := reading l; reading_count := reading_count l;
     read_count := read_count l; writer := writer l; long_lock := b |}.

Definition init_mrsw : MultiReaderSingleWriter :=
  {| write_exclusive := false; reading := false; reading_count := false; read_count := 0;
     writer := false; long_lock := false |}.

(** ** The operations *)

Inductive instr :=
  | Lock (m : mutex)
  | Unlock (m : mutex)
  | SetWriter (b : bool)
  | SetLong (b : bool)
  | IncRead                             (* read_count++ *)
  | LockIfFirst                         (* if (read_count == 1) lock reading_mutex *)
  | DecRead                             (* if (read_count <= 0) read_count = 0 else read_count--, and the next *)
  | UnlockIfLast                        (* if (read_count == 0) unlock reading_mutex *)
  | TryLock (m : mutex) (held : list mutex)  (* on failure: unlock [held] and return *)
  | ReturnIfLong                        (* if (long_lock) return -1 *)
  | TryLockLoop                         (* while (trylock fails) if (long_lock) return -1 *)
  | CallRelease.                        (* if (writer) releasewrite_mrsw else releaseread_mrsw *)

Definition try_acquirewrite_mrsw : list instr :=
  [TryLock write_exclusive_mutex []; TryLock reading_mutex [write_exclusive_mutex]; SetWriter true].

Definition acquirewrite_mrsw : list instr :=
  [Lock write_exclusive_mutex; Lock reading_mutex; SetWriter true; SetLong false].

Definition acquirewrite_mrsw_long : list instr :=
  [Lock write_exclusive_mutex; Lock reading_mutex; SetWriter true; SetLong true].

Definition releasewrite_mrsw : list instr :=
  [SetWriter false; SetLong false; Unlock reading_mutex; Unlock write_exclusive_mutex].

Definition acquireread_mrsw : list instr :=
  [Lock write_exclusive_mutex; SetLong false; Unlock write_exclusive_mutex;
   Lock read_count_mutex; IncRead; LockIfFirst; Unlock read_count_mutex].

Definition acquireread_mrsw_short : list instr :=
  [ReturnIfLong; TryLockLoop; Unlock write_exclusive_mutex;
   Lock read_count_mutex; IncRead; LockIfFirst; Unlock read_count_mutex].

Definition releaseread_mrsw : list instr :=
  [Lock read_count_mutex; DecRead; UnlockIfLast; Unlock read_count_mutex].

Definition release_mrsw : list instr := [CallRelease].

Definition writetoread_mrsw : list instr :=
  [SetWriter false; SetLong false; Unlock reading_mutex;
   Lock read_count_mutex; IncRead; LockIfFirst; Unlock read_count_mutex;
   Unlock write_exclusive_mutex].

(** ** Execution *)

(** What a thread holds when it is in no operation. *)
Inductive mode := Idle | Reading | Writing.

#[global] Instance mode_eq_dec : EqDecision mode.
Proof. solve_decision. Defined.

(** A thread: what is left of its operation, and what it holds at the end of it. *)
Record thread := { code : list instr; after : mode }.

(** One access.  [None]: the thread waits for a mutex. *)
Definition exec (t : thread) (l : MultiReaderSingleWriter) : option (thread * MultiReaderSingleWriter) :=
  let go c l := Some ({| code := c; after := after t |}, l) in
  let return_without c l := Some ({| code := c; after := Idle |}, l) in
  match code t with
  | [] => None
  | Lock m :: c => if locked l m then None else go c (set_mutex m true l)
  | Unlock m :: c => go c (set_mutex m false l)
  | SetWriter b :: c => go c (set_writer b l)
  | SetLong b :: c => go c (set_long_lock b l)
  | IncRead :: c => go c (set_read_count (u32 (read_count l + 1)) l)
  | LockIfFirst :: c =>
      if read_count l =? 1
      then if reading l then None else go c (set_mutex reading_mutex true l)
      else go c l
  | DecRead :: c =>
      if read_count l <=? 0 then go (tail c) (set_read_count 0 l)
      else go c (set_read_count (read_count l - 1) l)
  | UnlockIfLast :: c => go c (if read_count l =? 0 then set_mutex reading_mutex false l else l)
  | TryLock m held :: c =>
      if locked l m then return_without (map Unlock held) l else go c (set_mutex m true l)
  | ReturnIfLong :: c => if long_lock l then return_without [] l else go c l
  | TryLockLoop :: c =>
      if write_exclusive l then go (ReturnIfLong :: TryLockLoop :: c) l
      else go c (set_mutex write_exclusive_mutex true l)
  | CallRelease :: c => go ((if writer l then releasewrite_mrsw else releaseread_mrsw) ++ c) l
  end.

(** The operations a thread may call, by what it holds. *)
Inductive may_call : mode -> list instr -> mode -> Prop :=
  | call_try : may_call Idle try_acquirewrite_mrsw Writing
  | call_write : may_call Idle acquirewrite_mrsw Writing
  | call_write_long : may_call Idle acquirewrite_mrsw_long Writing
  | call_read : may_call Idle acquireread_mrsw Reading
  | call_read_short : may_call Idle acquireread_mrsw_short Reading
  | call_release_write : may_call Writing releasewrite_mrsw Idle
  | call_release_read : may_call Reading releaseread_mrsw Idle
  | call_release_w : may_call Writing release_mrsw Idle
  | call_release_r : may_call Reading release_mrsw Idle
  | call_downgrade : may_call Writing writetoread_mrsw Reading.

Record state := { threads : list thread; lock : MultiReaderSingleWriter }.

Inductive step : state -> state -> Prop :=
  | step_exec s i t t' l' :
      threads s !! i = Some t -> exec t (lock s) = Some (t', l') ->
      step s {| threads := <[i := t']> (threads s); lock := l' |}
  | step_call s i m op m' :
      threads s !! i = Some {| code := []; after := m |} -> may_call m op m' ->
      step s {| threads := <[i := {| code := op; after := m' |}]> (threads s); lock := lock s |}.

(** A freshly initialized lock and threads that hold nothing. *)
Definition initial (n : nat) : state :=
  {| threads := replicate n {| code := []; after := Idle |}; lock := init_mrsw |}.

(** Thread [i] is in no operation and holds what [m] says. *)
Definition rests (s : state) (i : nat) (m : mode) : Prop :=
  threads s !! i = Some {| code := []; after := m |}.
