(* ===== verification/LockingSpec.v ===== *)
(** * What the lock guarantees

    For threads that release what they hold and nothing else, in every interleaving:
    a writer is alone, [release_mrsw] picks the right kind of release, the reader
    count is never decremented below zero, and no wait is for ever unless somebody
    keeps the lock. *)

From stdpp Require Import relations.
From S2P Require Import Prelude Locking.
Open Scope Z_scope.

(** ** Phases

    What a thread owns in the middle of an operation: mutexes, its share of
    [read_count], the writer flag. *)
Inductive phase :=
  | PIdle | PExcl | PBoth | PWriting           (* nothing; first; both mutexes; with the flag set *)
  | PCount | PInc | PCounted | PReading | PDec (* [read_count_mutex]: taken; incremented; held as a reader; released; decremented *)
  | PXCount | PXInc | PXCounted | PXReading.   (* the same with [write_exclusive_mutex] *)

#[global] Instance phase_eq_dec : EqDecision phase.
Proof. solve_decision. Defined.

Definition has_exclusive (p : phase) : bool :=
  match p with PExcl | PBoth | PWriting | PXCount | PXInc | PXCounted | PXReading => true | _ => false end.
Definition has_both (p : phase) : bool := match p with PBoth | PWriting => true | _ => false end.
Definition has_flag (p : phase) : bool := match p with PWriting => true | _ => false end.
Definition has_count_mutex (p : phase) : bool :=
  match p with PCount | PInc | PCounted | PDec | PXCount | PXInc | PXCounted => true | _ => false end.
Definition is_counted (p : phase) : bool :=
  match p with PInc | PCounted | PReading | PXInc | PXCounted | PXReading => true | _ => false end.
Definition is_inc (p : phase) : bool := match p with PInc | PXInc => true | _ => false end.
Definition is_dec (p : phase) : bool := match p with PDec => true | _ => false end.

Definition mode_phase (m : mode) : phase :=
  match m with Idle => PIdle | Reading => PReading | Writing => PWriting end.

(** The phase after an access that is legal in phase [p]. *)
Definition next_phase (i : instr) (p : phase) : option phase :=
  match i, p with
  | Lock write_exclusive_mutex, PIdle => Some PExcl
  | Lock reading_mutex, PExcl => Some PBoth
  | Lock read_count_mutex, PIdle => Some PCount
  | Lock read_count_mutex, PExcl => Some PXCount
  | Lock read_count_mutex, PReading => Some PCounted
  | Unlock reading_mutex, PBoth => Some PExcl
  | Unlock write_exclusive_mutex, PExcl => Some PIdle
  | Unlock write_exclusive_mutex, PXReading => Some PReading
  | Unlock read_count_mutex, PCount => Some PIdle
  | Unlock read_count_mutex, PCounted => Some PReading
  | Unlock read_count_mutex, PXCounted => Some PXReading
  | SetWriter true, PBoth => Some PWriting
  | SetWriter false, PWriting => Some PBoth
  | SetLong _, PIdle => None
  | SetLong _, _ => Some p
  | IncRead, PCount => Some PInc
  | IncRead, PXCount => Some PXInc
  | LockIfFirst, PInc => Some PCounted
  | LockIfFirst, PXInc => Some PXCounted
  | DecRead, PCounted => Some PDec
  | UnlockIfLast, PDec => Some PCount
  | TryLock write_exclusive_mutex [], PIdle => Some PExcl
  | TryLock reading_mutex [write_exclusive_mutex], PExcl => Some PBoth
  | ReturnIfLong, PIdle => Some PIdle
  | TryLockLoop, PIdle => Some PExcl
  | _, _ => None
  end.

(** The rest of an operation is legal and ends with what [m] says. *)
Fixpoint legal (p : phase) (c : list instr) (m : mode) : bool :=
  match c with
  | [] => bool_decide (p = mode_phase m)
  | [CallRelease] => bool_decide (m = Idle) && (bool_decide (p = PWriting) || bool_decide (p = PReading))
  | i :: c' => match next_phase i p with Some p' => legal p' c' m | None => false end
  end.

Lemma may_call_legal m op m' : may_call m op m' -> legal (mode_phase m) op m' = true.
Proof. by destruct 1. Qed.

(** ** Counting threads *)

Fixpoint count_of (f : phase -> bool) (ps : list phase) : Z :=
  match ps with [] => 0 | p :: ps' => Z.b2z (f p) + count_of f ps' end.

Lemma count_of_insert f ps i p q :
  ps !! i = Some p -> count_of f (<[i := q]> ps) = count_of f ps - Z.b2z (f p) + Z.b2z (f q).
Proof.
  revert i. induction ps as [|p0 ps IH]; intros [|i] Hi; try done.
  - injection Hi as ->. cbn. lia.
  - change (<[S i:=q]> (p0 :: ps)) with (p0 :: <[i:=q]> ps). cbn [count_of]. rewrite (IH i Hi). lia.
Qed.

Lemma count_of_range f ps : 0 <= count_of f ps <= Z.of_nat (length ps).
Proof. induction ps as [|p ps IH]; cbn [count_of length]; [lia|]. destruct (f p); cbn [Z.b2z]; lia. Qed.

Lemma count_of_pos f ps i p : ps !! i = Some p -> f p = true -> 0 < count_of f ps.
Proof.
  revert i. induction ps as [|p0 ps IH]; intros [|i] Hi Hf; try done; cbn in Hi |- *.
  - injection Hi as ->. rewrite Hf. pose proof (count_of_range f ps). cbn. lia.
  - pose proof (IH i Hi Hf). destruct (f p0); cbn; lia.
Qed.

Lemma count_of_find f ps : 0 < count_of f ps -> exists i p, ps !! i = Some p /\ f p = true.
Proof.
  induction ps as [|p ps IH]; cbn [count_of]; [lia|]. destruct (f p) eqn:E; intros H.
  - by exists 0%nat, p.
  - destruct (IH H) as (i & q & Hq & Hf). by exists (S i), q.
Qed.

Lemma count_of_two f ps i j p q :
  ps !! i = Some p -> ps !! j = Some q -> i <> j -> f p = true -> f q = true -> 2 <= count_of f ps.
Proof.
  revert i j. induction ps as [|p0 ps IH]; intros [|i] [|j] Hi Hj Hne Hp Hq; try done; cbn in Hi, Hj |- *.
  - injection Hi as ->. rewrite Hp. pose proof (count_of_pos f ps j q Hj Hq). cbn [Z.b2z]. lia.
  - injection Hj as ->. rewrite Hq. pose proof (count_of_pos f ps i p Hi Hp). cbn [Z.b2z]. lia.
  - pose proof (IH i j Hi Hj ltac:(congruence) Hp Hq). destruct (f p0); cbn [Z.b2z]; lia.
Qed.

Lemma count_of_le f g ps : (forall p, f p = true -> g p = true) -> count_of f ps <= count_of g ps.
Proof.
  intros H. induction ps as [|p ps IH]; cbn; [lia|]. specialize (H p).
   destruct (f p), (g p); cbn; lia.
Qed.

(** ** The invariant *)

(** Whether the readers, as a group, hold [reading_mutex]: while one of them is
    between incrementing and locking, the ones counted before; while one is between
    decrementing and unlocking, always. *)
Definition group_holds (ps : list phase) : bool :=
  if 0 <? count_of is_inc ps then 1 <? count_of is_counted ps
  else (0 <? count_of is_dec ps) || (0 <? count_of is_counted ps).

Record consistent (ps : list phase) (l : MultiReaderSingleWriter) : Prop := {
  c_exclusive : Z.b2z (write_exclusive l) = count_of has_exclusive ps;
  c_count_mutex : Z.b2z (reading_count l) = count_of has_count_mutex ps;
  c_reading : Z.b2z (reading l) = count_of has_both ps + Z.b2z (group_holds ps);
  c_count : read_count l = count_of is_counted ps;
  c_writer : Z.b2z (writer l) = count_of has_flag ps
}.

Definition invariant (s : state) : Prop :=
  exists ps, consistent ps (lock s) /\ length ps = length (threads s)
  /\ forall i t p, threads s !! i = Some t -> ps !! i = Some p -> legal p (code t) (after t) = true.

Lemma invariant_initial n : invariant (initial n).
Proof.
  exists (replicate n PIdle).
  assert (H : forall f, f PIdle = false -> count_of f (replicate n PIdle) = 0).
  { intros f Hf. induction n as [|n IH]; cbn; [done|]. by rewrite Hf, IH. }
  split; [|split].
  - split; cbn; unfold group_holds; by rewrite ?H.
  - cbn. by rewrite !length_replicate.
  - intros i t p Ht Hp. cbn in Ht. apply lookup_replicate in Ht as [-> _]. by apply lookup_replicate in Hp as [-> _].
Qed.

(** At most one thread is at a time in the section of [read_count_mutex], hence
    between two accesses of it. *)
Lemma counts_of ps l : consistent ps l ->
  count_of has_exclusive ps <= 1 /\ count_of has_count_mutex ps <= 1
  /\ count_of has_both ps <= 1 /\ count_of has_flag ps <= count_of has_both ps
  /\ count_of has_both ps <= count_of has_exclusive ps
  /\ 0 <= count_of is_inc ps /\ 0 <= count_of is_dec ps
  /\ count_of is_inc ps + count_of is_dec ps <= count_of has_count_mutex ps
  /\ count_of is_inc ps <= count_of is_counted ps
  /\ (0 < count_of has_both ps -> group_holds ps = false)
  /\ 0 <= count_of has_flag ps.
Proof.
  intros [H1 H2 H3 H4 H5].
  assert (He : count_of has_exclusive ps <= 1) by (rewrite <- H1; destruct (write_exclusive l); cbn; lia).
  assert (Hm : count_of has_count_mutex ps <= 1) by (rewrite <- H2; destruct (reading_count l); cbn; lia).
  pose proof (count_of_le has_both has_exclusive ps ltac:(by intros [])) as Hb.
  pose proof (count_of_le has_flag has_both ps ltac:(by intros [])) as Hf.
  pose proof (count_of_le is_inc is_counted ps ltac:(by intros [])) as Hi.
  pose proof (count_of_range is_inc ps). pose proof (count_of_range is_dec ps).
  pose proof (count_of_range has_flag ps).
  assert (Hid : count_of is_inc ps + count_of is_dec ps <= count_of has_count_mutex ps).
  { clear. induction ps as [|p ps IH]; cbn [count_of]; [lia|]. destruct p; cbn [is_inc is_dec has_count_mutex Z.b2z]; lia. }
  repeat (split; [lia|]). split; [|lia]. intros Hpos.
  destruct (group_holds ps); [|done]. cbn in H3. destruct (reading l); cbn in H3; lia.
Qed.

(** A reader that is past the locking of [reading_mutex]. *)
Definition is_settled (p : phase) : bool := is_counted p && negb (is_inc p).

Lemma counted_split ps : count_of is_counted ps = count_of is_inc ps + count_of is_settled ps.
Proof. induction ps as [|p ps IH]; cbn [count_of]; [done|]. rewrite IH. destruct p; cbn; lia. Qed.

(** A thread that holds [read_count_mutex] and is not in the middle of something. *)
Definition is_plain (p : phase) : bool := has_count_mutex p && negb (is_inc p) && negb (is_dec p).

Lemma mutex_split ps :
  count_of has_count_mutex ps = count_of is_inc ps + count_of is_dec ps + count_of is_plain ps.
Proof. induction ps as [|p ps IH]; cbn [count_of]; [done|]. rewrite IH. destruct p; cbn; lia. Qed.

(** A writer whose flag is not set. *)
Definition is_unflagged (p : phase) : bool := has_both p && negb (has_flag p).

Lemma both_split ps : count_of has_both ps = count_of has_flag ps + count_of is_unflagged ps.
Proof. induction ps as [|p ps IH]; cbn [count_of]; [done|]. rewrite IH. destruct p; cbn; lia. Qed.

Lemma count_of_lt f ps i p : ps !! i = Some p -> f p = false -> count_of f ps < Z.of_nat (length ps).
Proof.
  revert i. induction ps as [|p0 ps IH]; intros [|i] Hi Hf; try done; cbn [count_of length].
  - injection Hi as ->. rewrite Hf. pose proof (count_of_range f ps). cbn [Z.b2z]. lia.
  - pose proof (IH i Hi Hf). destruct (f p0); cbn [Z.b2z]; lia.
Qed.

Lemma settled_group ps : 0 < count_of is_settled ps -> group_holds ps = true.
Proof.
  intros H. pose proof (counted_split ps). unfold group_holds. pose proof (count_of_range is_inc ps).
  destruct (Z.ltb_spec 0 (count_of is_inc ps)); [apply Z.ltb_lt; lia|].
  rewrite (proj2 (Z.ltb_lt 0 (count_of is_counted ps))) by lia. apply orb_true_r.
Qed.

(** ** Every step keeps it *)

Lemma legal_cons p i c m :
  legal p (i :: c) m = true ->
  (i = CallRelease /\ c = [] /\ m = Idle /\ (p = PWriting \/ p = PReading))
  \/ exists p', next_phase i p = Some p' /\ legal p' c m = true.
Proof.
  intros H. cbn [legal] in H. destruct (next_phase i p) as [p'|] eqn:E.
  - right. exists p'. split; [done|]. by destruct i.
  - destruct i; try done. destruct c; [|done]. left.
    apply andb_prop in H as [H1 H2]. apply bool_decide_eq_true in H1. split; [done|]. split; [done|].
    split; [done|]. apply orb_prop in H2 as [H2|H2]; apply bool_decide_eq_true in H2; auto.
Qed.

(** Replace every count by what it was before, and decide. *)
Ltac solve_counts Hcnt :=
  cbn [write_exclusive reading reading_count read_count writer long_lock set_mutex set_read_count
       set_writer set_long_lock] in *;
  unfold group_holds in *; rewrite ?Hcnt in *; rewrite ?u32_small by lia;
  cbn [has_exclusive has_both has_flag has_count_mutex is_counted is_inc is_dec Z.b2z] in *;
  repeat match goal with
  | |- context [?a <? ?b] => destruct (Z.ltb_spec a b)
  | H : context [?a <? ?b] |- _ => destruct (Z.ltb_spec a b)
  end; cbn [orb Z.b2z] in *; try lia.

(** One access: the phase of the thread moves on and the lock with it. *)
Lemma exec_consistent ps i p t l t' l' :
  Z.of_nat (length ps) < 2 ^ 32 ->
  consistent ps l -> ps !! i = Some p -> legal p (code t) (after t) = true -> exec t l = Some (t', l') ->
  exists p', consistent (<[i := p']> ps) l' /\ legal p' (code t') (after t') = true.
Proof.
  intros Hlen Hc Hi Hl Hx. pose proof (counts_of _ _ Hc) as Hn.
  assert (Hcnt : forall f q, count_of f (<[i := q]> ps) = count_of f ps - Z.b2z (f p) + Z.b2z (f q))
    by (intros f q; by apply count_of_insert).
  pose proof (count_of_range is_counted ps) as Hrange.
  assert (Hpos : forall f, f p = true -> 0 < count_of f ps) by (intros f; by apply (count_of_pos f ps i)).
  destruct t as [[|ins c] m]; [done|]. cbn [code after] in *.
  destruct (legal_cons _ _ _ _ Hl) as [(-> & -> & -> & Hp)|(p' & Hnext & Hl')].
  { cbn in Hx. injection Hx as <- <-. exists p. rewrite list_insert_id by done. split; [done|].
    destruct Hc as [_ _ _ _ Hw]. destruct Hp as [->| ->].
    - pose proof (Hpos has_flag eq_refl). destruct (writer l); [done|]. cbn in Hw. lia.
    - pose proof (settled_group ps (Hpos is_settled eq_refl)) as Hg.
      destruct Hn as (_ & _ & _ & Hfb & _ & _ & _ & _ & _ & Hno & _).
      destruct (writer l); [|done]. cbn in Hw. rewrite Hno in Hg by lia. discriminate. }
  destruct Hc as [H1 H2 H3 H4 H5].
  pose proof (mutex_split ps) as Hsplit. pose proof (count_of_range is_plain ps) as Hplain.
  assert (Hpp := Hpos is_plain). assert (Hdecp := Hpos is_dec). assert (Hincp := Hpos is_inc).
  assert (Hcntp := Hpos is_counted). assert (Hexp := Hpos has_exclusive).
  assert (Hbop := Hpos has_both). assert (Hflp := Hpos has_flag). assert (Hcmp := Hpos has_count_mutex).
  pose proof (both_split ps) as Hbsplit. pose proof (count_of_range is_unflagged ps) as Hunfl.
  assert (Hunp := Hpos is_unflagged).
  assert (Hlt := count_of_lt is_counted ps i p Hi). clear Hpos.
  destruct ins as [[]|[]|[]|b| | | | |[] [|[] [|]]| | |]; destruct p; try discriminate Hnext.
  all: try (injection Hnext as <-); 
    cbn [is_plain is_unflagged has_count_mutex has_exclusive has_both has_flag is_inc is_dec is_counted andb negb] in *.
  all: try specialize (Hpp eq_refl); try specialize (Hdecp eq_refl); try specialize (Hincp eq_refl);
    try specialize (Hcntp eq_refl); try specialize (Hlt eq_refl); try specialize (Hexp eq_refl);
    try specialize (Hbop eq_refl); try specialize (Hflp eq_refl); try specialize (Hcmp eq_refl);
    try specialize (Hunp eq_refl).
  all: cbn [exec code after locked tail map] in Hx.
  all: try (match type of Hx with context [if ?b then _ else _] => destruct b eqn:Hb end; try discriminate Hx; bool_to_prop).
  all: try (match type of Hx with context [if ?b then _ else _] => destruct b eqn:Hb2 end; try discriminate Hx).
  all: injection Hx as <- <-; cbn [code after].
  all: first
    [ exfalso; lia
    | eexists; split; [|exact Hl']; split; solve [solve_counts Hcnt]
    | exists PIdle; rewrite (list_insert_id _ _ _ Hi); split; [split; rewrite ?Hb; assumption|first [exact Hl'|reflexivity]]
    | exists PExcl; rewrite (list_insert_id _ _ _ Hi); split; [split; rewrite ?Hb; assumption|reflexivity] ].
Qed.

Lemma invariant_step s s' :
  Z.of_nat (length (threads s)) < 2 ^ 32 -> invariant s -> step s s' -> invariant s'.
Proof.
  intros Hlen (ps & Hc & Hps & Hl) Hs. destruct Hs as [s i t t' l' Ht Hx|s i m op m' Ht Hcall].
  - destruct (lookup_lt_is_Some_2 ps i) as [p Hp]; [rewrite Hps; by eapply lookup_lt_Some|].
    destruct (exec_consistent ps i p t (lock s) t' l') as (p' & Hc' & Hl'); [by rewrite Hps|done|done|by eapply Hl|done|].
    exists (<[i := p']> ps). split; [done|]. split; [cbn; by rewrite !length_insert|].
    intros j u q Hu Hq. cbn in Hu.
    destruct (decide (i = j)) as [<-|Hne].
    + rewrite list_lookup_insert_eq in Hu by (by eapply lookup_lt_Some).
      rewrite list_lookup_insert_eq in Hq by (by eapply lookup_lt_Some). by simplify_eq.
    + rewrite list_lookup_insert_ne in Hu by done. rewrite list_lookup_insert_ne in Hq by done. by eapply Hl.
  - exists ps. split; [done|]. split; [cbn; by rewrite length_insert|].
    intros j u q Hu Hq. cbn in Hu. destruct (decide (i = j)) as [<-|Hne].
    + rewrite list_lookup_insert_eq in Hu by (by eapply lookup_lt_Some). simplify_eq. cbn.
      pose proof (Hl i _ q Ht Hq) as Hrest. cbn in Hrest. apply bool_decide_eq_true in Hrest as ->.
      by apply may_call_legal.
    + rewrite list_lookup_insert_ne in Hu by done. by eapply Hl.
Qed.

(** ** Reachable states *)

Definition reachable (n : nat) (s : state) : Prop := rtc step (initial n) s.

Lemma step_threads s s' : step s s' -> length (threads s') = length (threads s).
Proof. by destruct 1; cbn; rewrite length_insert. Qed.

Lemma reachable_invariant n s : Z.of_nat n < 2 ^ 32 -> reachable n s -> invariant s.
Proof.
  intros Hn Hr. assert (Hi := invariant_initial n).
  assert (Hlen : Z.of_nat (length (threads (initial n))) < 2 ^ 32) by (cbn; by rewrite length_replicate).
  unfold reachable in Hr. revert Hi Hlen. induction Hr as [s|s s1 s2 Hs _ IH]; intros Hi Hlen; [done|].
  apply IH; [by eapply invariant_step|by rewrite (step_threads _ _ Hs)].
Qed.

(** The phase of a thread of a state that satisfies the invariant. *)
Lemma thread_phase ps s i t :
  length ps = length (threads s) ->
  (forall i t p, threads s !! i = Some t -> ps !! i = Some p -> legal p (code t) (after t) = true) ->
  threads s !! i = Some t -> exists p, ps !! i = Some p /\ legal p (code t) (after t) = true.
Proof.
  intros Hps Hl Ht. destruct (lookup_lt_is_Some_2 ps i) as [p Hp]; [rewrite Hps; by eapply lookup_lt_Some|].
  exists p. split; [done|by eapply Hl].
Qed.

Lemma rests_phase ps s i m :
  length ps = length (threads s) ->
  (forall i t p, threads s !! i = Some t -> ps !! i = Some p -> legal p (code t) (after t) = true) ->
  rests s i m -> ps !! i = Some (mode_phase m).
Proof.
  intros Hps Hl Hr. destruct (thread_phase ps s i _ Hps Hl Hr) as (p & Hp & Hlp).
  cbn in Hlp. by apply bool_decide_eq_true in Hlp as <-.
Qed.

(** The holder of the write lock excludes writers and readers that hold it. *)
Lemma writer_alone s i j m :
  invariant s -> rests s i Writing -> rests s j m -> i <> j -> m = Idle.
Proof.
  intros (ps & Hc & Hps & Hl) Hi Hj Hne. pose proof (counts_of _ _ Hc) as (_ & _ & Hb & _ & _ & _ & _ & _ & _ & Hno & _).
  apply (rests_phase ps) in Hi; [|done..]. apply (rests_phase ps) in Hj; [|done..]. destruct m; [done| |].
  - pose proof (settled_group ps (count_of_pos _ _ _ _ Hj eq_refl)) as Hg.
    rewrite Hno in Hg; [done|]. by apply (count_of_pos _ _ _ _ Hi).
  - pose proof (count_of_two has_both ps i j _ _ Hi Hj Hne eq_refl eq_refl). lia.
Qed.

Lemma holder_flag s i m :
  invariant s -> rests s i m -> m <> Idle -> writer (lock s) = bool_decide (m = Writing).
Proof.
  intros (ps & Hc & Hps & Hl) Hi Hm. pose proof (counts_of _ _ Hc) as (_ & _ & _ & Hfb & _ & _ & _ & _ & _ & Hno & _).
  destruct Hc as [_ _ _ _ Hw]. apply (rests_phase ps) in Hi; [|done..]. destruct m; [done| |].
  - pose proof (settled_group ps (count_of_pos _ _ _ _ Hi eq_refl)) as Hg.
    destruct (writer (lock s)); [|done]. cbn in Hw. rewrite Hno in Hg by lia. done.
  - pose proof (count_of_pos has_flag _ _ _ Hi eq_refl). destruct (writer (lock s)); [done|]. cbn in Hw. lia.
Qed.

(** ** Progress *)

(** A bound on the accesses an operation still makes, retries of a [trylock] loop
    not counted. *)
Definition instr_effort (i : instr) : nat :=
  match i with TryLock _ held => 2 + length held | CallRelease => 6 | _ => 1 end.
Definition effort (t : thread) : nat := list_sum (map instr_effort (code t)).

(** When none of the mutexes a thread may wait for in its phase is locked, it gets on. *)
Lemma thread_advances p t l :
  legal p (code t) (after t) = true -> code t <> [] ->
  (p = PIdle -> write_exclusive l = false) ->
  (p = PIdle \/ p = PExcl \/ p = PReading -> reading_count l = false) ->
  (p = PExcl -> reading l = false) ->
  (p = PInc \/ p = PXInc -> read_count l = 1 -> reading l = false) ->
  exists t' l', exec t l = Some (t', l') /\ (effort t' < effort t)%nat.
Proof.
  destruct t as [[|ins c] m]; [done|]. cbn [code after]. intros Hl _ H1 H2 H3 H4.
  destruct (legal_cons _ _ _ _ Hl) as [(-> & -> & -> & Hp)|(p' & Hnext & Hl')].
  { cbn [exec code after]. eexists _, _. split; [done|]. destruct (writer l); cbn; lia. }
  assert (H5 : p = PInc \/ p = PXInc -> (read_count l =? 1) && reading l = false).
  { intros Hp. destruct (Z.eqb_spec (read_count l) 1) as [E|E]; [by rewrite (H4 Hp E)|done]. }
  clear Hl Hl' H4.
  destruct ins as [[]|[]|[]|b| | | | |[] [|[] [|]]| | |]; destruct p; try discriminate Hnext; clear Hnext;
    try specialize (H1 eq_refl); try specialize (H2 ltac:(tauto)); try specialize (H3 eq_refl);
    try specialize (H5 ltac:(tauto)); cbn [exec code after locked];
    try (destruct (read_count l =? 1); cbn [andb] in H5);
    repeat match goal with H : _ = false |- _ => rewrite H end; repeat case_test.
  all: eexists _, _; (split; [reflexivity|]); unfold effort; cbn [code map instr_effort list_sum foldr length app tail]; try lia.
  all: destruct c; cbn; lia.
Qed.

(** A thread in the middle of an operation has a phase that is not [PReading] or
    [PWriting] at rest; a thread whose code is at an end rests. *)
Lemma running_or_resting s i t : threads s !! i = Some t -> code t <> [] \/ rests s i (after t).
Proof. unfold rests. intros ->. destruct t as [[|ins c] m]; [by right|by left]. Qed.

(** Somebody gets on. *)
Definition advances (s : state) : Prop :=
  exists i t t' l', threads s !! i = Some t /\ exec t (lock s) = Some (t', l') /\ (effort t' < effort t)%nat.

(** What a thread in phase [p] may wait for is free. *)
Definition unblocked (p : phase) (l : MultiReaderSingleWriter) : Prop :=
  (p = PIdle -> write_exclusive l = false)
  /\ (p = PIdle \/ p = PExcl \/ p = PReading -> reading_count l = false)
  /\ (p = PExcl -> reading l = false)
  /\ (p = PInc \/ p = PXInc -> read_count l = 1 -> reading l = false).

Lemma unblocked_advances s i t p :
  threads s !! i = Some t -> code t <> [] -> legal p (code t) (after t) = true -> unblocked p (lock s) ->
  advances s.
Proof.
  intros Ht Hrun Hleg (H1 & H2 & H3 & H4).
  destruct (thread_advances p t (lock s) Hleg Hrun H1 H2 H3 H4) as (t' & l' & Hx & Hlt). by exists i, t, t', l'.
Qed.

(** When no thread keeps the lock, one that owns something is running. *)
Lemma owner_advances f s ps :
  length ps = length (threads s) ->
  (forall i t p, threads s !! i = Some t -> ps !! i = Some p -> legal p (code t) (after t) = true) ->
  (forall i m, rests s i m -> m = Idle) ->
  f PIdle = false -> 0 < count_of f ps ->
  (forall k p, ps !! k = Some p -> f p = true -> unblocked p (lock s)) -> advances s.
Proof.
  intros Hps Hl Hidle Hf Hpos Hun. destruct (count_of_find _ _ Hpos) as (k & p & Hk & Hp).
  destruct (lookup_lt_is_Some_2 (threads s) k) as [t Ht]; [rewrite <- Hps; by eapply lookup_lt_Some|].
  apply (unblocked_advances s k t p); [done| |by eapply Hl|by apply (Hun k)].
  intros Hnil. destruct (running_or_resting s k t Ht) as [|Hr]; [done|].
  pose proof (rests_phase ps s k _ Hps Hl Hr) as Hph. rewrite (Hidle _ _ Hr) in Hph. cbn in Hph. congruence.
Qed.

Lemma free_mutex b z : Z.b2z b = z -> z <= 0 -> b = false.
Proof. intros Hb Hz. destruct b; [cbn in Hb; lia|done]. Qed.

(** While nobody keeps the lock, somebody gets on: the owner of both mutexes, else
    the one of [read_count_mutex], else a counted reader, else the one of
    [write_exclusive_mutex], else anybody. *)
Lemma someone_advances s :
  invariant s -> (exists i t, threads s !! i = Some t /\ code t <> []) ->
  (forall i m, rests s i m -> m = Idle) -> advances s.
Proof.
  intros (ps & Hc & Hps & Hl) (i0 & t0 & Ht0 & Hrun0) Hidle.
  pose proof (counts_of _ _ Hc) as (_ & _ & _ & _ & _ & Hi0 & Hd0 & Hid & _ & _ & _).
  destruct Hc as [H1 H2 H3 H4 H5].
  destruct (Z.ltb_spec 0 (count_of has_both ps)) as [Hb|Hb].
  { apply (owner_advances has_both s ps); try done. intros k p _ Hp. split_and!; destruct p; naive_solver. }
  destruct (Z.ltb_spec 0 (count_of has_count_mutex ps)) as [Hcm|Hcm].
  { apply (owner_advances has_count_mutex s ps); try done. intros k p Hk Hp.
    split_and!; [destruct p; naive_solver..|]. intros Hinc Hone.
    assert (0 < count_of is_inc ps) by (apply (count_of_pos _ _ _ _ Hk); by destruct Hinc as [->| ->]).
    apply (free_mutex _ _ H3). unfold group_holds. rewrite (proj2 (Z.ltb_lt _ _)) by done.
    rewrite (proj2 (Z.ltb_ge 1 _)) by lia. cbn. lia. }
  pose proof (free_mutex _ _ H2 Hcm) as Hcf.
  destruct (Z.ltb_spec 0 (count_of is_counted ps)) as [Hco|Hco].
  { apply (owner_advances is_counted s ps); try done. intros k p Hk Hp.
    pose proof (count_of_pos has_count_mutex _ _ _ Hk) as Hx.
    split_and!; [destruct p; naive_solver|done|destruct p; naive_solver|].
    intros [->| ->]; specialize (Hx eq_refl); lia. }
  assert (Hrf : reading (lock s) = false).
  { apply (free_mutex _ _ H3). unfold group_holds.
    rewrite (proj2 (Z.ltb_ge 0 (count_of is_inc ps))), (proj2 (Z.ltb_ge 0 (count_of is_dec ps))),
      (proj2 (Z.ltb_ge 0 (count_of is_counted ps))) by lia. cbn. lia. }
  destruct (Z.ltb_spec 0 (count_of has_exclusive ps)) as [Hex|Hex].
  { apply (owner_advances has_exclusive s ps); try done. intros k p _ Hp.
    split_and!; [destruct p; naive_solver|done..]. }
  destruct (thread_phase ps s i0 t0 Hps Hl Ht0) as (p & Hp & Hleg).
  apply (unblocked_advances s i0 t0 p Ht0 Hrun0 Hleg). split_and!; [|done..]. intros _. by apply (free_mutex _ _ H1).
Qed.

(** ** The properties *)

(** C25: mutual exclusion.  In every state the threads can reach, a thread that holds
    the lock for writing is the only one that holds it, and the flag that
    [release_mrsw] looks at tells a writer from a reader: its release is that of
    what the thread holds. *)
Theorem mrsw_exclusion n s i m :
  Z.of_nat n < 2 ^ 32 -> reachable n s -> rests s i m -> m <> Idle ->
  (m = Writing -> forall j m', rests s j m' -> j <> i -> m' = Idle)
  /\ exec {| code := release_mrsw; after := Idle |} (lock s)
     = Some ({| code := match m with Writing => releasewrite_mrsw | _ => releaseread_mrsw end; after := Idle |}, lock s).
Proof.
  intros Hn Hr Hi Hm. pose proof (reachable_invariant n s Hn Hr) as Hinv. split.
  - intros -> j m' Hj Hne. by apply (writer_alone s i j m' Hinv Hi Hj).
  - cbn. rewrite (holder_flag s i m Hinv Hi Hm). by destruct m.
Qed.

(** The reader count.  It is never above the number of threads, and it is
    positive whenever a thread is about to decrement it: the branch of
    [releaseread_mrsw] for a count that is not is never taken. *)
Theorem mrsw_count_bounds n s :
  Z.of_nat n < 2 ^ 32 -> reachable n s ->
  0 <= read_count (lock s) <= Z.of_nat n
  /\ forall i t c, threads s !! i = Some t -> code t = DecRead :: c -> 0 < read_count (lock s).
Proof.
  intros Hn Hr. destruct (reachable_invariant n s Hn Hr) as (ps & Hc & Hps & Hl).
  assert (Hlen : length (threads s) = n).
  { clear -Hr. unfold reachable in Hr. assert (H0 : length (threads (initial n)) = n) by (cbn; by rewrite length_replicate).
    revert H0. induction Hr as [|s0 s1 s2 Hs _ IH]; intros H0; [done|]. apply IH. by rewrite (step_threads _ _ Hs). }
  rewrite (c_count _ _ Hc), <- Hlen, <- Hps. split; [apply count_of_range|].
  intros i t c Ht Hcode. destruct (thread_phase ps s i t Hps Hl Ht) as (p & Hp & Hleg). rewrite Hcode in Hleg.
  apply (count_of_pos _ _ _ _ Hp).
  destruct (legal_cons _ _ _ _ Hleg) as [(? & _)|(p' & Hnext & _)]; [done|]. by destruct p.
Qed.

(** C26: no deadlock.  When some thread is in the middle of an operation and no thread
    keeps the lock, some thread makes an access that brings its operation nearer to
    its end; a failed attempt of the loop of [acquireread_mrsw_short] does not count. *)
Theorem mrsw_no_deadlock n s :
  Z.of_nat n < 2 ^ 32 -> reachable n s ->
  (exists i t, threads s !! i = Some t /\ code t <> []) -> (forall i m, rests s i m -> m = Idle) ->
  exists i t t' l', threads s !! i = Some t /\ exec t (lock s) = Some (t', l') /\ (effort t' < effort t)%nat.
Proof. intros Hn Hr. apply someone_advances. by apply (reachable_invariant n). Qed.

(** ** Runs *)

(** Thread [i] calls an operation / makes [k] accesses. *)
Definition call_op (i : nat) (op : list instr) (m : mode) (s : state) : state :=
  {| threads := <[i := {| code := op; after := m |}]> (threads s); lock := lock s |}.

Fixpoint run (sched : list nat) (s : state) : option state :=
  match sched with
  | [] => Some s
  | i :: sched' =>
      match threads s !! i with
      | Some t => match exec t (lock s) with
                  | Some (t', l') => run sched' {| threads := <[i := t']> (threads s); lock := l' |}
                  | None => None
                  end
      | None => None
      end
  end.

Lemma run_reachable n sched s s' : reachable n s -> run sched s = Some s' -> reachable n s'.
Proof.
  revert s. induction sched as [|i sched IH]; intros s Hr; cbn; [by intros [= <-]|].
  destruct (threads s !! i) as [t|] eqn:Ht; [|done]. destruct (exec t (lock s)) as [[t' l']|] eqn:Hx; [|done].
  apply IH. eapply rtc_r; [exact Hr|]. by eapply step_exec.
Qed.

Lemma call_reachable n i m op m' s :
  reachable n s -> rests s i m -> may_call m op m' -> reachable n (call_op i op m' s).
Proof. intros Hr Hi Hc. eapply rtc_r; [exact Hr|]. by eapply step_call. Qed.

(** Two threads: the first one takes the write lock while the second one has made
    its first access of [acquireread_mrsw_short]. *)
Definition writer_and_waiter : state :=
  {| threads := [{| code := []; after := Writing |}; {| code := tail acquireread_mrsw_short; after := Reading |}];
     lock := {| write_exclusive := true; reading := true; reading_count := false; read_count := 0;
                writer := true; long_lock := false |} |}.

Lemma writer_and_waiter_reachable : reachable 2 writer_and_waiter.
Proof.
  assert (H1 := call_reachable 2 1 Idle acquireread_mrsw_short Reading (initial 2) (rtc_refl _ _) eq_refl call_read_short).
  assert (H2 := run_reachable 2 [1%nat] _ _ H1 eq_refl).
  assert (H3 := call_reachable 2 0 Idle acquirewrite_mrsw Writing _ H2 eq_refl call_write).
  exact (run_reachable 2 [0; 0; 0; 0]%nat _ _ H3 eq_refl).
Qed.

(** Then the writer downgrades: the waiter has the mutex it asked for only after that. *)
Definition downgrading : state :=
  {| threads := [{| code := writetoread_mrsw; after := Reading |}; {| code := tail acquireread_mrsw_short; after := Reading |}];
     lock := lock writer_and_waiter |}.

Lemma downgrading_reachable : reachable 2 downgrading.
Proof. exact (call_reachable 2 0 Writing _ _ _ writer_and_waiter_reachable eq_refl call_downgrade). Qed.

Lemma mrsw_exclusion_witness :
  rests writer_and_waiter 0 Writing
  /\ exec {| code := release_mrsw; after := Idle |} (lock writer_and_waiter)
     = Some ({| code := releasewrite_mrsw; after := Idle |}, lock writer_and_waiter).
Proof.
  split; [reflexivity|].
  exact (proj2 (mrsw_exclusion 2 _ 0 Writing eq_refl writer_and_waiter_reachable eq_refl ltac:(discriminate))).
Defined.

Lemma mrsw_count_bounds_witness : 0 <= read_count (lock writer_and_waiter) <= 2.
Proof. exact (proj1 (mrsw_count_bounds 2 _ eq_refl writer_and_waiter_reachable)). Defined.

Lemma mrsw_no_deadlock_witness :
  exists i t t' l', threads downgrading !! i = Some t /\ exec t (lock downgrading) = Some (t', l') /\ (effort t' < effort t)%nat.
Proof.
  apply (mrsw_no_deadlock 2 downgrading eq_refl downgrading_reachable).
  - exists 0%nat, {| code := writetoread_mrsw; after := Reading |}. by split.
  - intros [|[|[|i]]] m H; by inversion H.
Defined.
