(* ===== verification/TimeInternal.v ===== *)
(** * Calendar time

    [libltfs/arch/time_internal.c] and [time_internal.h], and the conversions to and
    from the text of an Index, [xml_format_time] of [libltfs/xml_writer.c] and
    [xml_parse_time] of [libltfs/xml_reader.c].

    Division and remainder of C truncate: [Z.quot] and [Z.rem].  The clock and the
    local time zone are not modelled. *)

From S2P Require Import Prelude.
Open Scope Z_scope.

(** ** Data *)

Record tm := {
  tm_sec : Z; tm_min : Z; tm_hour : Z; tm_mday : Z; tm_mon : Z; tm_year : Z;
  tm_wday : Z; tm_yday : Z; tm_isdst : Z
}.

Record ltfs_timespec := { tv_sec : Z; tv_nsec : Z }.

Definition LTFS_TIME_T_MAX : Z := 253402300799.
Definition LTFS_TIME_T_MIN : Z := -62167219200.
Definition LTFS_TIME_OUT_OF_RANGE : Z := 1.
Definition LTFS_NSEC_MAX : Z := 999999999.
Definition LTFS_NSEC_MIN : Z := 0.

Definition normalize_ltfs_time (t : ltfs_timespec) : Z * ltfs_timespec :=
  if LTFS_TIME_T_MAX <? tv_sec t
  then (LTFS_TIME_OUT_OF_RANGE, {| tv_sec := LTFS_TIME_T_MAX; tv_nsec := LTFS_NSEC_MAX |})
  else if tv_sec t <? LTFS_TIME_T_MIN
  then (LTFS_TIME_OUT_OF_RANGE, {| tv_sec := LTFS_TIME_T_MIN; tv_nsec := LTFS_NSEC_MIN |})
  else (0, t).

(** ** From the calendar to seconds *)

Definition ltfs_timegm (t : tm) : Z :=
  let tmp := Z.quot (tm_mon t - 13) 12 in
  86400 * (Z.quot (1461 * (tm_year t + 6700 + tmp)) 4
           + Z.quot (367 * (tm_mon t - 1 - 12 * tmp)) 12
           - Z.quot (3 * Z.quot (tm_year t + 6800 + tmp) 100) 4
           + tm_mday t - 2472663)
  + 3600 * tm_hour t + 60 * tm_min t + tm_sec t.

(** ** From seconds to the calendar *)

Definition ltfs_get_days_of_year (nYear : Z) : Z :=
  if (Z.rem nYear 400 =? 0) || (negb (Z.rem nYear 100 =? 0) && (Z.rem nYear 4 =? 0)) then 366 else 365.

Definition anDaysOfMonth (nYear : Z) : list Z :=
  [31; if ltfs_get_days_of_year nYear =? 365 then 28 else 29; 31; 30; 31; 30; 31; 31; 30; 31; 30; 31].

(** The loop over the months from [i] on: the day of the month, and the month where
    the loop breaks. *)
Fixpoint month_loop (months : list Z) (i nMday : Z) : Z * option Z :=
  match months with
  | [] => (nMday, None)
  | n :: months' => if nMday <? n then (nMday, Some i) else month_loop months' (i + 1) (nMday - n)
  end.

(** The day of the month from 1 and the month from 0, [-1] when there is none. *)
Definition ltfs_get_mday_from_yday (nYear nYday : Z) : Z * Z :=
  let '(nMday, found) := month_loop (anDaysOfMonth nYear) 0 nYday in
  let nMonth := match found with Some i => i | None => -1 end in
  let nMday := if (nMday <? 0) || (match found with None => true | _ => false end) then -2 else nMday in
  (nMday + 1, nMonth).

(** A field and the rest: the remainder made non-negative. *)
Definition gm_field (nSrcTime size : Z) : Z * Z :=
  let n := Z.rem nSrcTime size in
  let rest := Z.quot nSrcTime size in
  if 0 <=? n then (n, rest) else (n + size, rest - 1).

(** From the days since 2000-03-01 to the years since and the days since March 1st. *)
Definition gm_years (nSrcTime : Z) : Z * Z :=
  let n400Y := Z.quot nSrcTime 146097 in
  let nYears := n400Y * 400 in
  let nSrcTime := Z.rem nSrcTime 146097 in
  let n100Y := Z.quot nSrcTime 36524 in
  let nYears := nYears + n100Y * 100 in
  let nSrcTime := Z.rem nSrcTime 36524 in
  let nSrcTime := if n100Y =? 4 then nSrcTime - 1 else nSrcTime in
  let n4Y := Z.quot nSrcTime 1461 in
  let nYears := nYears + n4Y * 4 in
  let nSrcTime := Z.rem nSrcTime 1461 in
  let nSrcTime := if (n100Y <? 0) && (n4Y =? 0) then nSrcTime + 1 else nSrcTime in
  let n1Y := Z.quot nSrcTime 365 in
  let nYears := nYears + n1Y in
  let nSrcTime := Z.rem nSrcTime 365 in
  let nSrcTime := if n1Y =? 4 then nSrcTime - 1 else nSrcTime in
  let nSrcTime := if (n1Y <? 0) && negb ((n100Y <? 0) && (n4Y =? 0)) then nSrcTime + 1 else nSrcTime in
  (nYears, nSrcTime).

(** From there to the years since 2000 and the day of the year. *)
Definition gm_yday (nYears nSrcTime : Z) : Z * Z :=
  let nDaysOfYear := ltfs_get_days_of_year (nYears + 2000) in
  let nYday := nSrcTime + 31 + 28 + (nDaysOfYear - 365) in
  if nDaysOfYear <=? nYday then (nYears + 1, nYday - nDaysOfYear)
  else if nYday <? 0 then (nYears - 1, nYday + ltfs_get_days_of_year (nYears - 1 + 2000))
  else (nYears, nYday).

Definition ltfs_gmtime (timep : Z) : tm :=
  let '(sec, nSrcTime) := gm_field timep 60 in
  let '(min, nSrcTime) := gm_field nSrcTime 60 in
  let '(hour, nSrcTime) := gm_field nSrcTime 24 in
  let nSrcTime := nSrcTime - 11017 in
  let wday := Z.rem (nSrcTime + 3) 7 in
  let '(nYears, nSrcTime) := gm_years nSrcTime in
  let '(nYears, nYday) := gm_yday nYears nSrcTime in
  let '(mday, mon) := ltfs_get_mday_from_yday (nYears + 2000) nYday in
  {| tm_sec := sec; tm_min := min; tm_hour := hour; tm_mday := mday; tm_mon := mon;
     tm_year := s32 (nYears + 2000 - 1900); tm_wday := if wday <? 0 then wday + 7 else wday;
     tm_yday := s32 nYday; tm_isdst := -1 |}.

(** ** The text of an Index

    [sprintf] with [%0wd] for numbers that are not negative, and [sscanf] with [%d]
    and [%wd]: white space, a sign and digits, at most [w] characters from the sign
    on. *)

Definition digit (n : Z) : Z := 48 + n mod 10.

Fixpoint print_digits (w : nat) (n : Z) : cstring :=
  match w with O => [] | S w' => print_digits w' (n / 10) ++ [digit n] end.

Definition is_digit (c : Z) : bool := (48 <=? c) && (c <=? 57).
Definition is_space (c : Z) : bool := (c =? 32) || ((9 <=? c) && (c <=? 13)).

(** Digits, at most [w] of them; the number, whether there was one, and the rest. *)
Fixpoint scan_digits (w : nat) (acc : Z) (some : bool) (s : cstring) : option (Z * cstring) :=
  let stop := if some then Some (acc, s) else None in
  match w, s with
  | S w', c :: s' => if is_digit c then scan_digits w' (10 * acc + (c - 48)) true s' else stop
  | _, _ => stop
  end.

Fixpoint skip_spaces (s : cstring) : cstring :=
  match s with c :: s' => if is_space c then skip_spaces s' else s | [] => [] end.

(** [%d] ([w] the length of the string) or [%wd]. *)
Definition scan_int (w : nat) (s : cstring) : option (Z * cstring) :=
  match skip_spaces s with
  | c :: s' =>
      if c =? 45 then match scan_digits (w - 1) 0 false s' with Some (n, r) => Some (- n, r) | None => None end
      else if c =? 43 then scan_digits (w - 1) 0 false s'
      else scan_digits w 0 false (c :: s')
  | [] => None
  end.

(** A literal character of the format. *)
Definition scan_char (c : Z) (s : cstring) : option cstring :=
  match s with c' :: s' => if c =? c' then Some s' else None | [] => None end.

(** The seven conversions of [xml_parse_time]; [None] unless all of them are made.
    Nothing depends on the [Z] after the last. *)
Definition scan_time (s : cstring) : option (Z * Z * Z * Z * Z * Z * Z) :=
  '(year, s) ← scan_int (length s) s; s ← scan_char 45 s;
  '(mon, s) ← scan_int 2 s; s ← scan_char 45 s;
  '(mday, s) ← scan_int 2 s; s ← scan_char 84 s;
  '(hour, s) ← scan_int 2 s; s ← scan_char 58 s;
  '(min, s) ← scan_int 2 s; s ← scan_char 58 s;
  '(sec, s) ← scan_int 2 s; s ← scan_char 46 s;
  '(nsec, s) ← scan_int 9 s;
  Some (year, mon, mday, hour, min, sec, nsec).

Definition xml_format_time (t : ltfs_timespec) : Z * cstring :=
  let '(normalized, t) := normalize_ltfs_time t in
  let tm := ltfs_gmtime (tv_sec t) in
  (normalized,
   print_digits 4 (tm_year tm + 1900) ++ [45] ++ print_digits 2 (tm_mon tm + 1) ++ [45]
   ++ print_digits 2 (tm_mday tm) ++ [84] ++ print_digits 2 (tm_hour tm) ++ [58]
   ++ print_digits 2 (tm_min tm) ++ [58] ++ print_digits 2 (tm_sec tm) ++ [46]
   ++ print_digits 9 (tv_nsec t) ++ [90]).

(** The value returned, and the time when it is not negative. *)
Definition xml_parse_time (fmt_time : cstring) : Z * option ltfs_timespec :=
  match scan_time fmt_time with
  | None => (-1, None)
  | Some (year, mon, mday, hour, min, sec, nsec) =>
      let tm := {| tm_sec := sec; tm_min := min; tm_hour := hour; tm_mday := mday; tm_mon := mon - 1;
                   tm_year := s32 year - 1900; tm_wday := 0; tm_yday := 0; tm_isdst := 0 |} in
      let '(ret, t) := normalize_ltfs_time {| tv_sec := ltfs_timegm tm; tv_nsec := nsec |} in
      (ret, Some t)
  end.
