(* ===== verification/TimeSpec.v ===== *)
(** * Calendar time: what the conversions compute

    The reference is the proleptic Gregorian calendar, as a count of days. *)

From S2P Require Import Prelude TimeInternal.
Open Scope Z_scope.

(** ** The calendar *)

(** Leap years up to [y]. *)
Definition leaps (y : Z) : Z := y / 4 - y / 100 + y / 400.

(** January 1st of year [y], in days since 1970-01-01. *)
Definition jan1 (y : Z) : Z := 365 * (y - 1970) + leaps (y - 1) - leaps 1969.

(** The days of the months before month [m]. *)
Definition days_before (y m : Z) : Z := foldr Z.add 0 (take (Z.to_nat m) (anDaysOfMonth y)).

(** Month [m] from 0, day [d] from 1. *)
Definition day_number (y m d : Z) : Z := jan1 y + days_before y m + (d - 1).

(** The reference is right: it starts at the epoch, and the length of every year is
    that of the rule for leap years. *)
Lemma days_of_year_cases y :
  ltfs_get_days_of_year y = if (y mod 4 =? 0) && (negb (y mod 100 =? 0) || (y mod 400 =? 0)) then 366 else 365.
Proof.
  unfold ltfs_get_days_of_year.
  assert (H : forall d, 0 < d -> (Z.rem y d =? 0) = (y mod d =? 0)).
  { intros d Hd. apply eq_true_iff_eq. rewrite !Z.eqb_eq, Z.rem_divide, Z.mod_divide by lia. done. }
  rewrite !H by lia.
  destruct (Z.eqb_spec (y mod 400) 0), (Z.eqb_spec (y mod 100) 0), (Z.eqb_spec (y mod 4) 0); cbn; try done.
  all: exfalso; Z.to_euclidean_division_equations; lia.
Qed.

Lemma jan1_epoch : jan1 1970 = 0.
Proof. reflexivity. Qed.

Lemma jan1_next y : jan1 (y + 1) = jan1 y + ltfs_get_days_of_year y.
Proof.
  rewrite days_of_year_cases. unfold jan1, leaps. replace (y + 1 - 1) with y by lia.
  destruct (Z.eqb_spec (y mod 4) 0), (Z.eqb_spec (y mod 100) 0), (Z.eqb_spec (y mod 400) 0); cbn;
    Z.to_euclidean_division_equations; lia.
Qed.

Lemma days_of_year_two y : ltfs_get_days_of_year y = 365 \/ ltfs_get_days_of_year y = 366.
Proof. unfold ltfs_get_days_of_year. case_match; auto. Qed.

(** ** The parts of [ltfs_gmtime] *)

Lemma gm_field_floor s size : 0 < size -> gm_field s size = (s mod size, s / size).
Proof.
  intros H. unfold gm_field. pose proof (Z.quot_rem' s size). pose proof (Z.rem_bound_abs s size ltac:(lia)).
  destruct (Z.leb_spec 0 (Z.rem s size)); f_equal.
  - apply (Z.mod_unique_pos _ _ (Z.quot s size)); lia.
  - apply (Z.div_unique_pos _ _ _ (Z.rem s size)); lia.
  - apply (Z.mod_unique_pos _ _ (Z.quot s size - 1)); lia.
  - apply (Z.div_unique_pos _ _ _ (Z.rem s size + size)); lia.
Qed.

(** March 1st of year [y]. *)
Definition mar1 (y : Z) : Z := jan1 y + 59 + (ltfs_get_days_of_year y - 365).

Lemma mar1_leaps y : mar1 y = 365 * (y - 1970) + leaps y - 418.
Proof.
  unfold mar1. pose proof (jan1_next y) as H. unfold jan1 in *. replace (y + 1 - 1) with y in H by lia.
  change (leaps 1969) with 477 in *. lia.
Qed.

Lemma gm_years_spec s :
  let '(y, r) := gm_years s in mar1 (y + 2000) + r = s + 11017 /\ -366 <= r <= 366.
Proof.
  unfold gm_years. cbv zeta. rewrite mar1_leaps. unfold leaps.
  pose proof (Z.quot_rem' s 146097). pose proof (Z.rem_bound_abs s 146097 ltac:(lia)).
  set (a := Z.quot s 146097) in *. set (r1 := Z.rem s 146097) in *.
  pose proof (Z.quot_rem' r1 36524). pose proof (Z.rem_bound_abs r1 36524 ltac:(lia)).
  set (b := Z.quot r1 36524) in *. set (r2 := Z.rem r1 36524) in *.
  destruct (Z.leb_spec 0 s).
  - assert (0 <= r1) by (apply Z.rem_nonneg; lia).
    assert (0 <= r2) by (apply Z.rem_nonneg; lia).
    assert (0 <= b <= 4) by lia.
    assert (Hb : b = 0 \/ b = 1 \/ b = 2 \/ b = 3 \/ b = 4) by lia.
    destruct Hb as [Hb|[Hb|[Hb|[Hb|Hb]]]]; rewrite Hb in *; cbn [Z.eqb Pos.eqb Z.ltb Z.compare andb negb];
    repeat case_test; bool_to_prop; Z.to_euclidean_division_equations; lia.
  - assert (r1 <= 0) by (apply Z.rem_nonpos; lia).
    assert (r2 <= 0) by (apply Z.rem_nonpos; lia).
    assert (-4 <= b <= 0) by lia.
    assert (Hb : b = 0 \/ b = -1 \/ b = -2 \/ b = -3 \/ b = -4) by lia.
    destruct Hb as [Hb|[Hb|[Hb|[Hb|Hb]]]]; rewrite Hb in *; cbn [Z.eqb Pos.eqb Z.ltb Z.compare andb negb];
    repeat case_test; bool_to_prop; Z.to_euclidean_division_equations; lia.
Qed.

Lemma gm_yday_spec y r :
  -366 <= r <= 366 ->
  let '(y', yday) := gm_yday y r in
  jan1 (y' + 2000) + yday = mar1 (y + 2000) + r /\ 0 <= yday < ltfs_get_days_of_year (y' + 2000)
  /\ (y' = y - 1 \/ y' = y \/ y' = y + 1).
Proof.
  intros Hr. unfold gm_yday, mar1.
  pose proof (days_of_year_two (y + 2000)). pose proof (days_of_year_two (y + 1 + 2000)).
  pose proof (days_of_year_two (y - 1 + 2000)).
  pose proof (jan1_next (y + 2000)) as HA. replace (y + 2000 + 1) with (y + 1 + 2000) in HA by lia.
  pose proof (jan1_next (y - 1 + 2000)) as HB. replace (y - 1 + 2000 + 1) with (y + 2000) in HB by lia.
  cbv zeta. repeat case_test; bool_to_prop; lia.
Qed.

Lemma month_loop_spec months i n :
  0 <= n < foldr Z.add 0 months ->
  exists k, (k < length months)%nat /\ 0 <= n - foldr Z.add 0 (take k months) < nth k months 0
  /\ month_loop months i n = (n - foldr Z.add 0 (take k months), Some (i + Z.of_nat k)).
Proof.
  revert i n. induction months as [|a months IH]; intros i n Hn; cbn [foldr month_loop] in *; [lia|].
  destruct (Z.ltb_spec n a).
  - exists 0%nat. cbn. split; [lia|]. split; [lia|]. f_equal; [lia|f_equal; lia].
  - destruct (IH (i + 1) (n - a) ltac:(lia)) as (k & Hk & Hb & ->). exists (S k). cbn [length nth take foldr].
    split; [lia|]. split; [lia|]. f_equal; [lia|f_equal; lia].
Qed.

Lemma months_of_year y : foldr Z.add 0 (anDaysOfMonth y) = ltfs_get_days_of_year y.
Proof. unfold anDaysOfMonth. by destruct (days_of_year_two y) as [->| ->]. Qed.

Lemma mday_spec y yday :
  0 <= yday < ltfs_get_days_of_year y ->
  let '(mday, mon) := ltfs_get_mday_from_yday y yday in
  0 <= mon < 12 /\ 1 <= mday <= nth (Z.to_nat mon) (anDaysOfMonth y) 0 /\ days_before y mon + (mday - 1) = yday.
Proof.
  intros Hy. rewrite <- months_of_year in Hy. unfold ltfs_get_mday_from_yday, days_before.
  destruct (month_loop_spec (anDaysOfMonth y) 0 yday Hy) as (k & Hk & Hb & ->).
  assert (Hlen : length (anDaysOfMonth y) = 12%nat) by done.
  rewrite (proj2 (Z.ltb_ge (yday - foldr Z.add 0 (take k (anDaysOfMonth y))) 0)) by lia. cbn [orb]. replace (Z.to_nat (0 + Z.of_nat k)) with k by lia. lia.
Qed.

(** ** The conversions *)

(** A day of the calendar, and a time of that day. *)
Definition valid_date (t : tm) : Prop :=
  0 <= tm_mon t < 12 /\ 1 <= tm_mday t <= nth (Z.to_nat (tm_mon t)) (anDaysOfMonth (tm_year t + 1900)) 0.
Definition valid_clock (t : tm) : Prop :=
  0 <= tm_sec t < 60 /\ 0 <= tm_min t < 60 /\ 0 <= tm_hour t < 24.

Definition seconds_of (t : tm) : Z :=
  86400 * day_number (tm_year t + 1900) (tm_mon t) (tm_mday t) + 3600 * tm_hour t + 60 * tm_min t + tm_sec t.

Definition in_time_range (t : Z) : Prop := LTFS_TIME_T_MIN <= t <= LTFS_TIME_T_MAX.

Lemma jan1_year y d :
  jan1 0 <= d < jan1 10000 -> jan1 y <= d < jan1 (y + 1) -> 0 <= y <= 9999.
Proof. unfold jan1, leaps. intros. Z.to_euclidean_division_equations. lia. Qed.

(** The clock of a time: three nested remainders. *)
Lemma clock_split t :
  t = 86400 * (t / 60 / 60 / 24) + 3600 * (t / 60 / 60 mod 24) + 60 * (t / 60 mod 60) + t mod 60.
Proof. Z.to_euclidean_division_equations. lia. Qed.

(** What [ltfs_gmtime] computes. *)
Lemma gmtime_ok t :
  in_time_range t ->
  let g := ltfs_gmtime t in
  valid_date g /\ valid_clock g /\ 0 <= tm_year g + 1900 <= 9999 /\ seconds_of g = t
  /\ tm_wday g = (t / 86400 + 4) mod 7 /\ tm_yday g = days_before (tm_year g + 1900) (tm_mon g) + tm_mday g - 1.
Proof.
  intros Ht. unfold in_time_range, LTFS_TIME_T_MIN, LTFS_TIME_T_MAX in Ht. unfold ltfs_gmtime.
  rewrite !gm_field_floor by lia. pose proof (clock_split t) as Hsplit.
  set (days := t / 60 / 60 / 24) in *.
  assert (Hdays : days = t / 86400) by (unfold days; rewrite !Z.div_div by lia; done).
  assert (Hr : -719528 <= days < 2932897) by (rewrite Hdays; Z.to_euclidean_division_equations; lia).
  pose proof (gm_years_spec (days - 11017)) as H1. destruct (gm_years (days - 11017)) as [y r].
  destruct H1 as [H1 Hb]. pose proof (gm_yday_spec y r Hb) as H2. destruct (gm_yday y r) as [y' yday].
  destruct H2 as (H2 & Hyday & _). pose proof (mday_spec _ _ Hyday) as H3.
  destruct (ltfs_get_mday_from_yday (y' + 2000) yday) as [mday mon]. destruct H3 as (Hmon & Hmday & H3).
  pose proof (jan1_next (y' + 2000)) as Hnext. pose proof (days_of_year_two (y' + 2000)).
  assert (Hyear : 0 <= y' + 2000 <= 9999).
  { apply (jan1_year _ days); [|lia]. change (jan1 0) with (-719528). change (jan1 10000) with 2932897. lia. }
  unfold valid_date, valid_clock, seconds_of, day_number. cbn [tm_sec tm_min tm_hour tm_mday tm_mon tm_year tm_wday tm_yday].
  rewrite !s32_small by lia. replace (y' + 2000 - 1900 + 1900) with (y' + 2000) by lia.
  pose proof (Z.mod_pos_bound t 60 ltac:(lia)). pose proof (Z.mod_pos_bound (t / 60) 60 ltac:(lia)).
  pose proof (Z.mod_pos_bound (t / 60 / 60) 24 ltac:(lia)).
  split; [done|]. split; [done|]. split; [done|]. split; [lia|]. split; [|lia].
  rewrite <- Hdays. clear. destruct (Z.ltb_spec (Z.rem (days - 11017 + 3) 7) 0); Z.to_euclidean_division_equations; lia.
Qed.

(** What [ltfs_timegm] computes. *)
Lemma timegm_ok t :
  0 <= tm_year t + 1900 <= 9999 -> 0 <= tm_mon t < 12 -> ltfs_timegm t = seconds_of t.
Proof.
  intros Hy Hm. unfold ltfs_timegm, seconds_of, day_number. cbv zeta.
  enough (Z.quot (1461 * (tm_year t + 6700 + Z.quot (tm_mon t - 13) 12)) 4
           + Z.quot (367 * (tm_mon t - 1 - 12 * Z.quot (tm_mon t - 13) 12)) 12
           - Z.quot (3 * Z.quot (tm_year t + 6800 + Z.quot (tm_mon t - 13) 12) 100) 4
           + tm_mday t - 2472663 = jan1 (tm_year t + 1900) + days_before (tm_year t + 1900) (tm_mon t) + (tm_mday t - 1)) by lia.
  set (y := tm_year t) in *. clearbody y. set (d := tm_mday t). clearbody d. set (m := tm_mon t) in *. clearbody m.
  pose proof (jan1_next (y + 1900)) as Hn. pose proof (days_of_year_two (y + 1900)) as H2.
  unfold days_before, anDaysOfMonth.
  assert (Hcases : m = 0 \/ m = 1 \/ m = 2 \/ m = 3 \/ m = 4 \/ m = 5 \/ m = 6 \/ m = 7 \/ m = 8 \/ m = 9 \/ m = 10 \/ m = 11) by lia.
  unfold jan1, leaps in *.
  repeat destruct Hcases as [Hcases|Hcases]; subst m.
  all: destruct H2 as [H2|H2]; rewrite H2 in *; cbn [Z.eqb Pos.eqb].
  all: repeat match goal with
    | |- context [foldr ?f ?z ?l] => let v := eval vm_compute in (foldr f z l) in change (foldr f z l) with v
    | |- context [Z.quot (?a - 13) 12] => let v := eval vm_compute in (Z.quot (a - 13) 12) in change (Z.quot (a - 13) 12) with v
    | |- context [Z.quot (367 * ?a) 12] => let v := eval vm_compute in (Z.quot (367 * a) 12) in change (Z.quot (367 * a) 12) with v
    end.
  all: Z.to_euclidean_division_equations; lia.
Qed.

(** ** The text *)

Lemma digit_is_digit n : is_digit (digit n) = true.
Proof. unfold is_digit, digit. pose proof (Z.mod_pos_bound n 10 ltac:(lia)). apply andb_true_intro. split; apply Z.leb_le; lia. Qed.

Lemma length_print_digits w n : length (print_digits w n) = w.
Proof. revert n. induction w as [|w IH]; intros n; cbn; [done|]. rewrite length_app, IH. cbn. lia. Qed.

Lemma scan_print_digits w k acc some n r :
  0 <= n < 10 ^ Z.of_nat w ->
  scan_digits (w + k) acc some (print_digits w n ++ r)
  = scan_digits k (acc * 10 ^ Z.of_nat w + n) (some || (0 <? Z.of_nat w)) r.
Proof.
  revert k acc some n r. induction w as [|w IH]; intros k acc some n r Hn.
  - cbn in *. rewrite orb_false_r. f_equal. lia.
  - replace (Z.of_nat (S w)) with (Z.of_nat w + 1) in * by lia. rewrite Z.pow_add_r in * by lia.
    cbn [print_digits]. rewrite <- app_assoc. replace (S w + k)%nat with (w + S k)%nat by lia.
    rewrite IH by (Z.to_euclidean_division_equations; lia). cbn [app scan_digits]. rewrite digit_is_digit.
    rewrite (proj2 (Z.ltb_lt 0 (Z.of_nat w + 1))) by lia. rewrite orb_true_r. f_equal.
    unfold digit. pose proof (Z.div_mod n 10 ltac:(lia)). nia.
Qed.

(** A number as it was printed, followed by a character that is no digit when more
    characters would be read. *)
Lemma scan_int_print w k n c r :
  (0 < w)%nat -> 0 <= n < 10 ^ Z.of_nat w -> k = O \/ is_digit c = false ->
  scan_int (w + k) (print_digits w n ++ c :: r) = Some (n, c :: r).
Proof.
  intros Hw Hn Hk. unfold scan_int.
  assert (Hd : exists d s, print_digits w n ++ c :: r = d :: s /\ is_digit d = true).
  { destruct w as [|w]; [lia|]. clear. revert n r c. induction w as [|w IH]; intros n r c.
    - exists (digit n), (c :: r). split; [done|]. apply digit_is_digit.
    - destruct (IH (n / 10) (c :: r) (digit n)) as (d & s & E & Hd). exists d, s. split; [|done].
      rewrite <- E. cbn [print_digits]. by rewrite <- !app_assoc. }
  destruct Hd as (d & s & E & Hd). pose proof (scan_print_digits w k 0 false n (c :: r) Hn) as Hs.
  rewrite E in *. unfold is_digit in Hd. bool_to_prop.
  cbn [skip_spaces]. unfold is_space. rewrite (proj2 (Z.eqb_neq d 32)), (proj2 (Z.leb_gt d 13)) by lia.
  rewrite andb_false_r. cbn [orb]. rewrite (proj2 (Z.eqb_neq d 45)), (proj2 (Z.eqb_neq d 43)) by lia.
  rewrite Hs, (proj2 (Z.ltb_lt 0 (Z.of_nat w))) by lia.
  destruct k as [|k]; cbn; [done|]. destruct Hk as [?| ->]; [done|]. f_equal.
Qed.

Lemma scan_char_hit c s : scan_char c (c :: s) = Some s.
Proof. cbn. by rewrite Z.eqb_refl. Qed.

Definition printed_time (t : tm) (nsec : Z) : cstring :=
  print_digits 4 (tm_year t + 1900) ++ [45] ++ print_digits 2 (tm_mon t + 1) ++ [45]
  ++ print_digits 2 (tm_mday t) ++ [84] ++ print_digits 2 (tm_hour t) ++ [58]
  ++ print_digits 2 (tm_min t) ++ [58] ++ print_digits 2 (tm_sec t) ++ [46] ++ print_digits 9 nsec ++ [90].

Lemma length_printed_time t nsec : length (printed_time t nsec) = 30%nat.
Proof. unfold printed_time. by rewrite !length_app, !length_print_digits. Qed.

Lemma mday_31 t : valid_date t -> 1 <= tm_mday t <= 31.
Proof.
  intros [Hm [H1 H2]]. split; [done|]. etrans; [exact H2|].
  assert (H : Forall (fun n => n <= 31) (anDaysOfMonth (tm_year t + 1900))).
  { unfold anDaysOfMonth. case_test; repeat (apply List.Forall_cons; [lia|]); by apply List.Forall_nil. }
  rewrite List.Forall_nth in H. apply H. change (length (anDaysOfMonth (tm_year t + 1900))) with 12%nat. lia.
Qed.

Lemma scan_printed t nsec :
  valid_date t -> valid_clock t -> 0 <= tm_year t + 1900 <= 9999 -> 0 <= nsec <= LTFS_NSEC_MAX ->
  scan_time (printed_time t nsec)
  = Some (tm_year t + 1900, tm_mon t + 1, tm_mday t, tm_hour t, tm_min t, tm_sec t, nsec).
Proof.
  intros Hd (Hs & Hmi & Hh) Hy Hn. pose proof (mday_31 t Hd). destruct Hd as [Hmo _]. unfold LTFS_NSEC_MAX in Hn.
  unfold scan_time. rewrite length_printed_time. unfold printed_time. cbn [app].
  rewrite (scan_int_print 4 26) by (first [lia|by right]). cbn [mbind option_bind]. rewrite scan_char_hit. cbn [mbind option_bind].
  do 5 (rewrite (scan_int_print 2 0) by (first [lia|by left]); cbn [mbind option_bind]; rewrite scan_char_hit; cbn [mbind option_bind]).
  by rewrite (scan_int_print 9 0) by (first [lia|by left]).
Qed.

Lemma normalize_range t :
  0 <= tv_nsec t <= LTFS_NSEC_MAX ->
  in_time_range (tv_sec (normalize_ltfs_time t).2) /\ 0 <= tv_nsec (normalize_ltfs_time t).2 <= LTFS_NSEC_MAX.
Proof.
  intros Hn. unfold normalize_ltfs_time, in_time_range, LTFS_TIME_T_MAX, LTFS_TIME_T_MIN in *.
  repeat case_test; bool_to_prop; cbn; unfold LTFS_NSEC_MAX, LTFS_NSEC_MIN in *; lia.
Qed.

Lemma normalize_id t : in_time_range (tv_sec t) -> normalize_ltfs_time t = (0, t).
Proof.
  unfold normalize_ltfs_time, in_time_range. intros H. by rewrite !(proj2 (Z.ltb_ge _ _)) by lia.
Qed.

Lemma format_parse t :
  0 <= tv_nsec t <= LTFS_NSEC_MAX ->
  let '(ret, text) := xml_format_time t in
  ret = (normalize_ltfs_time t).1 /\ length text = 30%nat
  /\ xml_parse_time text = (0, Some (normalize_ltfs_time t).2).
Proof.
  intros Hn. pose proof (normalize_range t Hn) as [Hr Hn']. unfold xml_format_time.
  destruct (normalize_ltfs_time t) as [ret t']. cbn [fst snd] in *.
  destruct (gmtime_ok _ Hr) as (Hd & Hc & Hy & Hsec & _).
  fold (printed_time (ltfs_gmtime (tv_sec t')) (tv_nsec t')).
  split; [done|]. split; [apply length_printed_time|].
  unfold xml_parse_time. rewrite scan_printed by done.
  rewrite s32_small by lia. rewrite timegm_ok by (cbn; destruct Hd; lia).
  set (g := ltfs_gmtime (tv_sec t')) in *. unfold seconds_of. cbn [tm_sec tm_min tm_hour tm_mday tm_mon tm_year].
  replace (tm_year g + 1900 - 1900) with (tm_year g) by lia. replace (tm_mon g + 1 - 1) with (tm_mon g) by lia.
  fold (seconds_of g). rewrite Hsec. destruct t' as [sec nsec]. cbn [tv_sec tv_nsec] in *.
  by rewrite normalize_id.
Qed.

(** ** The properties *)

(** C34: calendar.  For every time of the range of LTFS, [ltfs_gmtime] computes the day
    of the proleptic Gregorian calendar, counted by the rule for leap years from
    1970-01-01, with the time of the day, the day of the week and the day of the year;
    and [ltfs_timegm] brings back the time. *)
Theorem gmtime_calendar t :
  in_time_range t ->
  let g := ltfs_gmtime t in
  valid_date g /\ valid_clock g /\ 0 <= tm_year g + 1900 <= 9999
  /\ seconds_of g = t /\ ltfs_timegm g = t
  /\ tm_wday g = (t / 86400 + 4) mod 7
  /\ tm_yday g = days_before (tm_year g + 1900) (tm_mon g) + tm_mday g - 1.
Proof.
  intros Ht. destruct (gmtime_ok t Ht) as (Hd & Hc & Hy & Hs & Hw & Hyd). cbv zeta in *.
  rewrite (timegm_ok _ Hy (proj1 Hd)). exact (conj Hd (conj Hc (conj Hy (conj Hs (conj Hs (conj Hw Hyd)))))).
Qed.

(** C35: times in an Index.  The text [xml_format_time] writes has 30 characters, one
    less than its buffer, and [xml_parse_time] reads the time back from it: the one
    that was written, or, outside the years 0 to 9999, the bound that
    [normalize_ltfs_time] replaced it with, which the result reports. *)
Theorem format_parse_time t :
  0 <= tv_nsec t <= LTFS_NSEC_MAX ->
  let '(ret, text) := xml_format_time t in
  length text = 30%nat
  /\ (in_time_range (tv_sec t) -> ret = 0 /\ xml_parse_time text = (0, Some t))
  /\ (LTFS_TIME_T_MAX < tv_sec t ->
      ret = LTFS_TIME_OUT_OF_RANGE
      /\ xml_parse_time text = (0, Some {| tv_sec := LTFS_TIME_T_MAX; tv_nsec := LTFS_NSEC_MAX |}))
  /\ (tv_sec t < LTFS_TIME_T_MIN ->
      ret = LTFS_TIME_OUT_OF_RANGE
      /\ xml_parse_time text = (0, Some {| tv_sec := LTFS_TIME_T_MIN; tv_nsec := LTFS_NSEC_MIN |})).
Proof.
  intros Hn. pose proof (format_parse t Hn) as H. destruct (xml_format_time t) as [ret text].
  destruct H as (-> & Hlen & ->). split; [done|].
  split; [|split]; intros Ht.
  - by rewrite normalize_id.
  - unfold normalize_ltfs_time. by rewrite (proj2 (Z.ltb_lt _ _)).
  - unfold normalize_ltfs_time. rewrite (proj2 (Z.ltb_ge LTFS_TIME_T_MAX _)), (proj2 (Z.ltb_lt _ _)); [done|done|].
    unfold LTFS_TIME_T_MIN, LTFS_TIME_T_MAX in *. lia.
Qed.

(** 2000-02-29T12:34:56. *)
Lemma gmtime_calendar_witness : in_time_range 951827696 /\ ltfs_timegm (ltfs_gmtime 951827696) = 951827696.
Proof.
  assert (H : in_time_range 951827696) by (unfold in_time_range, LTFS_TIME_T_MIN, LTFS_TIME_T_MAX; lia).
  split; [exact H|]. exact (proj1 (proj2 (proj2 (proj2 (proj2 (gmtime_calendar 951827696 H)))))).
Defined.

Example gmtime_leap_day :
  ltfs_gmtime 951827696 = {| tm_sec := 56; tm_min := 34; tm_hour := 12; tm_mday := 29; tm_mon := 1;
    tm_year := 100; tm_wday := 2; tm_yday := 59; tm_isdst := -1 |}.
Proof. vm_compute. reflexivity. Qed.

Lemma format_parse_time_witness :
  length (xml_format_time {| tv_sec := -1; tv_nsec := 5 |}).2 = 30%nat.
Proof. exact (proj1 (format_parse_time {| tv_sec := -1; tv_nsec := 5 |} ltac:(cbn; unfold LTFS_NSEC_MAX; lia))). Defined.
