(* ===== verification/Base64.v ===== *)
(** * Base64 decoding

    [libltfs/base64.c], which reads extended attributes and symbolic data of an
    Index.  The output buffer is a map from positions to the bytes written there, so
    that a write outside the buffer would be seen; [malloc] is taken to succeed. *)

From S2P Require Import Prelude.
Open Scope Z_scope.

(** ** The program *)

Definition UCHAR_MAX : Z := 255.

Definition base64_enc : cstring :=
  cstr "ABCDEFGHIJKLMNOPQRSTUVWXYZabcdefghijklmnopqrstuvwxyz0123456789+/".

(** The decode map: filled with [UCHAR_MAX], then one entry for each digit. *)
Definition base64_dec : gmap Z Z :=
  foldl (fun m i => <[default 0 (base64_enc !! i) := Z.of_nat i]> m) ∅ (seq 0 64).

Definition dec_char (c : Z) : Z := default UCHAR_MAX (base64_dec !! c).

Definition is_blank (c : Z) : bool := (c =? 13) || (c =? 10) || (c =? 32) || (c =? 9).

(** [enc[i]]; at [-1], whatever is in front of the string. *)
Definition enc_at (before : Z) (enc : cstring) (i : Z) : Z :=
  if i <? 0 then before else nth (Z.to_nat i) enc 0.

(** The first pass from position [i] on: [nequal] and [nbytes_real], or nothing for an
    invalid character. *)
Fixpoint check_loop (before : Z) (enc rest : cstring) (i nequal nbytes_real : Z) : option (Z * Z) :=
  let nbytes_in := Z.of_nat (length enc) in
  match rest with
  | [] => Some (nequal, nbytes_real)
  | c :: rest' =>
      if (i =? u64 (nbytes_in - 2)) && (c =? 61) && (enc_at before enc (i + 1) =? 61)
      then check_loop before enc rest' (i + 1) 2 nbytes_real
      else if (i =? u64 (nbytes_in - 1)) && (c =? 61)
      then check_loop before enc rest' (i + 1)
             (if negb (enc_at before enc (i - 1) =? 61) then 1 else nequal) nbytes_real
      else if is_blank c then check_loop before enc rest' (i + 1) nequal (u64 (nbytes_real - 1))
      else if dec_char c =? UCHAR_MAX then None
      else check_loop before enc rest' (i + 1) nequal nbytes_real
  end.

(** The bytes of a quad, written from [out_pos] on. *)
Definition write_quad (q0 q1 q2 q3 out_pos : Z) (dec : gmap Z Z) : gmap Z Z :=
  let dec := <[out_pos := Z.lor (u8 (Z.shiftl q0 2)) (Z.shiftr (Z.land q1 48) 4)]> dec in
  if negb (q2 =? UCHAR_MAX) then
    let dec := <[out_pos + 1 := Z.lor (u8 (Z.shiftl (Z.land q1 15) 4)) (Z.shiftr (Z.land q2 60) 2)]> dec in
    if negb (q3 =? UCHAR_MAX)
    then <[out_pos + 2 := Z.lor (u8 (Z.shiftl (Z.land q2 3) 6)) q3]> dec
    else dec
  else dec.

(** The second pass; [quad] holds the first [quad_count] entries of [cur_quad]. *)
Fixpoint quad_loop (rest quad : cstring) (out_pos : Z) (dec : gmap Z Z) : gmap Z Z :=
  match rest with
  | [] => dec
  | c :: rest' =>
      if is_blank c then quad_loop rest' quad out_pos dec
      else match quad ++ [dec_char c] with
           | [q0; q1; q2; q3] => quad_loop rest' [] (out_pos + 3) (write_quad q0 q1 q2 q3 out_pos dec)
           | quad' => quad_loop rest' quad' out_pos dec
           end
  end.

(** The number of bytes, and the buffer when there is one. *)
Definition base64_decode (before : Z) (enc : cstring) : Z * option (gmap Z Z) :=
  if Z.of_nat (length enc) =? 0 then (0, None)
  else match check_loop before enc enc 0 0 (Z.of_nat (length enc)) with
       | None => (0, None)
       | Some (nequal, nbytes_real) =>
           if negb (nbytes_real mod 4 =? 0) then (0, None)
           else let nout := u64 (3 * (nbytes_real / 4) - nequal) in
                (nout, Some (quad_loop enc [] 0 ∅))
       end.

(** ** The encoding

    The reference: groups of three bytes, four digits each, padded with [=]. *)

Definition enc_digit (n : Z) : Z := nth (Z.to_nat n) base64_enc 0.

Fixpoint base64_digits (bs : list Z) : list Z :=
  match bs with
  | a :: b :: c :: bs' => a / 4 :: a mod 4 * 16 + b / 16 :: b mod 16 * 4 + c / 64 :: c mod 64 :: base64_digits bs'
  | [a; b] => [a / 4; a mod 4 * 16 + b / 16; b mod 16 * 4]
  | [a] => [a / 4; a mod 4 * 16]
  | [] => []
  end.

Definition padding (n : nat) : nat := match (n mod 3)%nat with O => 0 | S O => 2 | _ => 1 end.

Definition base64_encode (bs : list Z) : cstring :=
  map enc_digit (base64_digits bs) ++ replicate (padding (length bs)) 61.

(** ** The digits *)

Lemma dec_enc_digit n : 0 <= n < 64 -> dec_char (enc_digit n) = n /\ is_blank (enc_digit n) = false /\ enc_digit n <> 61.
Proof.
  intros Hn.
  assert (H : forallb (fun k => (dec_char (enc_digit (Z.of_nat k)) =? Z.of_nat k) && negb (is_blank (enc_digit (Z.of_nat k)))
                                && negb (enc_digit (Z.of_nat k) =? 61)) (seq 0 64) = true) by (vm_compute; reflexivity).
  rewrite forallb_forall in H. specialize (H (Z.to_nat n) ltac:(apply in_seq; lia)).
  rewrite Z2Nat.id in H by lia. bool_to_prop. auto.
Qed.

(** The bit operations on digits, as arithmetic. *)
Lemma quad_bits p q :
  0 <= p < 64 -> 0 <= q < 64 ->
  Z.lor (u8 (Z.shiftl p 2)) (Z.shiftr (Z.land q 48) 4) = p * 4 + q / 16
  /\ Z.lor (u8 (Z.shiftl (Z.land p 15) 4)) (Z.shiftr (Z.land q 60) 2) = p mod 16 * 16 + q / 4
  /\ Z.lor (u8 (Z.shiftl (Z.land p 3) 6)) q = p mod 4 * 64 + q.
Proof.
  intros Hp Hq.
  assert (H : forallb (fun i => forallb (fun j => let p := Z.of_nat i in let q := Z.of_nat j in
     (Z.lor (u8 (Z.shiftl p 2)) (Z.shiftr (Z.land q 48) 4) =? p * 4 + q / 16)
     && (Z.lor (u8 (Z.shiftl (Z.land p 15) 4)) (Z.shiftr (Z.land q 60) 2) =? p mod 16 * 16 + q / 4)
     && (Z.lor (u8 (Z.shiftl (Z.land p 3) 6)) q =? p mod 4 * 64 + q)) (seq 0 64)) (seq 0 64) = true) by (vm_compute; reflexivity).
  rewrite forallb_forall in H. specialize (H (Z.to_nat p) ltac:(apply in_seq; lia)).
  rewrite forallb_forall in H. specialize (H (Z.to_nat q) ltac:(apply in_seq; lia)).
  cbv zeta in H. rewrite !Z2Nat.id in H by lia. bool_to_prop. auto.
Qed.

(** ** What the second pass computes *)

(** Reference: the bytes of a sequence of values of digits, 255 for a padding. *)
Fixpoint bytes_of (vals : list Z) : list Z :=
  match vals with
  | q0 :: q1 :: q2 :: q3 :: vals' =>
      if q2 =? 255 then [q0 * 4 + q1 / 16]
      else if q3 =? 255 then [q0 * 4 + q1 / 16; q1 mod 16 * 16 + q2 / 4]
      else q0 * 4 + q1 / 16 :: q1 mod 16 * 16 + q2 / 4 :: q2 mod 4 * 64 + q3 :: bytes_of vals'
  | _ => []
  end.

(** Whole quads, of which only the last is padded. *)
Inductive quads : list Z -> Z -> Prop :=
  | quads_nil : quads [] 0
  | quads_two q0 q1 : 0 <= q0 < 64 -> 0 <= q1 < 64 -> quads [q0; q1; 255; 255] 2
  | quads_one q0 q1 q2 : 0 <= q0 < 64 -> 0 <= q1 < 64 -> 0 <= q2 < 64 -> quads [q0; q1; q2; 255] 1
  | quads_cons q0 q1 q2 q3 vals n :
      0 <= q0 < 64 -> 0 <= q1 < 64 -> 0 <= q2 < 64 -> 0 <= q3 < 64 -> quads vals n ->
      quads (q0 :: q1 :: q2 :: q3 :: vals) n.

(** [bs] is in [dec] from [pos] on, and nothing else is. *)
Definition buffer_is (dec : gmap Z Z) (bs : list Z) : Prop :=
  forall i, dec !! i = if 0 <=? i then bs !! Z.to_nat i else None.

Lemma buffer_snoc dec bs b :
  buffer_is dec bs -> buffer_is (<[Z.of_nat (length bs) := b]> dec) (bs ++ [b]).
Proof.
  intros H i. destruct (decide (Z.of_nat (length bs) = i)) as [<-|Hi].
  - rewrite lookup_insert_eq, (proj2 (Z.leb_le _ _)) by lia. by rewrite Nat2Z.id, list_lookup_middle.
  - rewrite lookup_insert_ne by done. rewrite H. destruct (Z.leb_spec 0 i); [|done].
    destruct (decide (i < Z.of_nat (length bs))) as [Hl|Hl].
    + by rewrite lookup_app_l by lia.
    + rewrite lookup_ge_None_2 by lia. rewrite lookup_ge_None_2; [done|]. rewrite length_app. cbn. lia.
Qed.

Lemma length_app1 (bs : list Z) b : Z.of_nat (length (bs ++ [b])) = Z.of_nat (length bs) + 1.
Proof. rewrite length_app. cbn. lia. Qed.

Lemma write_quad_bytes q0 q1 q2 q3 bs dec :
  0 <= q0 < 64 -> 0 <= q1 < 64 -> (0 <= q2 < 64 /\ (0 <= q3 < 64 \/ q3 = 255)) \/ q2 = 255 ->
  buffer_is dec bs ->
  buffer_is (write_quad q0 q1 q2 q3 (Z.of_nat (length bs)) dec) (bs ++ bytes_of [q0; q1; q2; q3]).
Proof.
  intros H0 H1 Hq Hb. destruct (quad_bits q0 q1 H0 H1) as (E0 & _).
  unfold write_quad, UCHAR_MAX. rewrite E0. apply (buffer_snoc _ _ (q0 * 4 + q1 / 16)) in Hb. cbn [bytes_of].
  destruct (Z.eqb_spec q2 255) as [->|Hne]; cbn [negb]; [done|].
  destruct Hq as [[H2 Hq]|]; [|done]. destruct (quad_bits q1 q2 H1 H2) as (_ & E1 & _). rewrite E1.
  apply (buffer_snoc _ _ (q1 mod 16 * 16 + q2 / 4)) in Hb. rewrite length_app1 in Hb.
  destruct (Z.eqb_spec q3 255) as [->|Hne3]; cbn [negb]; [by rewrite <- app_assoc in Hb|].
  destruct Hq as [H3|]; [|done]. destruct (quad_bits q2 q3 H2 H3) as (_ & _ & E2). rewrite E2.
  apply (buffer_snoc _ _ (q2 mod 4 * 64 + q3)) in Hb. rewrite !length_app1 in Hb.
  replace (Z.of_nat (length bs) + 1 + 1) with (Z.of_nat (length bs) + 2) in Hb by lia.
  by rewrite <- !app_assoc in Hb.
Qed.

Lemma quad_loop_blanks s quad pos dec :
  quad_loop s quad pos dec = quad_loop (filter (fun c => is_blank c = false) s) quad pos dec.
Proof.
  revert quad pos dec. induction s as [|c s IH]; intros quad pos dec; [done|].
  rewrite filter_cons. cbn [quad_loop]. destruct (is_blank c) eqn:E.
  - by rewrite decide_False by done.
  - rewrite decide_True by done. cbn [quad_loop]. rewrite E.
    destruct (quad ++ [dec_char c]) as [|q0 [|q1 [|q2 [|q3 [|]]]]]; apply IH.
Qed.

Lemma quad_loop_bytes s n bs dec :
  Forall (fun c => is_blank c = false) s -> quads (map dec_char s) n -> buffer_is dec bs ->
  buffer_is (quad_loop s [] (Z.of_nat (length bs)) dec) (bs ++ bytes_of (map dec_char s)).
Proof.
  intros Hs Hq. remember (map dec_char s) as vals eqn:Ev.
  revert s bs dec Hs Ev. induction Hq as [|q0 q1 H0 H1|q0 q1 q2 H0 H1 H2|q0 q1 q2 q3 vals n H0 H1 H2 H3 Hq IH];
    intros s bs dec Hs Ev Hb.
  - destruct s; [|done]. cbn. by rewrite app_nil_r.
  - destruct s as [|c0 [|c1 [|c2 [|c3 [|]]]]]; try done. injection Ev as -> -> E2 E3.
    rewrite !List.Forall_cons_iff in Hs. destruct Hs as (B0 & B1 & B2 & B3 & _).
    cbn [quad_loop app]. rewrite B0, B1, B2, B3. rewrite <- E2, <- E3. apply write_quad_bytes; auto.
  - destruct s as [|c0 [|c1 [|c2 [|c3 [|]]]]]; try done. injection Ev as -> -> -> E3.
    rewrite !List.Forall_cons_iff in Hs. destruct Hs as (B0 & B1 & B2 & B3 & _).
    cbn [quad_loop app]. rewrite B0, B1, B2, B3. rewrite <- E3. apply write_quad_bytes; auto.
  - destruct s as [|c0 [|c1 [|c2 [|c3 s]]]]; try done. injection Ev as -> -> -> -> Ev.
    rewrite !List.Forall_cons_iff in Hs. destruct Hs as (B0 & B1 & B2 & B3 & Hs).
    cbn [quad_loop app]. rewrite B0, B1, B2, B3.
    apply (write_quad_bytes (dec_char c0) (dec_char c1) (dec_char c2) (dec_char c3)) in Hb; [|done|done|auto].
    cbn [bytes_of] in Hb |- *. rewrite (proj2 (Z.eqb_neq (dec_char c2) 255)), (proj2 (Z.eqb_neq (dec_char c3) 255)) in Hb |- * by lia.
    specialize (IH s _ _ Hs Ev Hb). rewrite length_app in IH. cbn [length] in IH.
    replace (Z.of_nat (length bs + 3)) with (Z.of_nat (length bs) + 3) in IH by lia. by rewrite <- app_assoc in IH.
Qed.

Lemma length_bytes_of vals n :
  quads vals n -> Z.of_nat (length (bytes_of vals)) = 3 * (Z.of_nat (length vals) / 4) - n.
Proof.
  induction 1 as [| | |q0 q1 q2 q3 vals n H0 H1 H2 H3 Hq IH]; cbn [bytes_of length].
  - done.
  - done.
  - by rewrite (proj2 (Z.eqb_neq q2 255)) by lia.
  - rewrite (proj2 (Z.eqb_neq q2 255)), (proj2 (Z.eqb_neq q3 255)) by lia. cbn [length].
    replace (Z.of_nat (S (S (S (S (length vals)))))) with (Z.of_nat (length vals) + 1 * 4) by lia.
    rewrite Z.div_add by lia. lia.
Qed.

(** ** What the first pass accepts *)

Definition is_code (c : Z) : bool := is_blank c || negb (dec_char c =? UCHAR_MAX).
Definition strip (s : cstring) : cstring := filter (fun c => is_blank c = false) s.

(** Digits and blanks, then at most two paddings at the very end, and as many of both
    as whole quads have. *)
Record well_formed (body : cstring) (nequal : nat) : Prop := {
  wf_body : Forall (fun c => is_code c = true) body;
  wf_nequal : (nequal <= 2)%nat;
  wf_quads : Z.of_nat (length (strip body) + nequal) mod 4 = 0
}.

Lemma is_code_equal c : is_code c = true -> (c =? 61) = false.
Proof. intros H. destruct (Z.eqb_spec c 61) as [->|]; [|done]. vm_compute in H. done. Qed.

Lemma strip_app s t : strip (s ++ t) = strip s ++ strip t.
Proof. apply list.filter_app. Qed.

Lemma length_strip s : (length (strip s) <= length s)%nat.
Proof. apply list.length_filter. Qed.

(** One character that is neither of the last two, or no padding. *)
Lemma check_code before enc c rest i nequal real :
  is_code c = true -> 0 < real < 2 ^ 64 ->
  check_loop before enc (c :: rest) i nequal real
  = check_loop before enc rest (i + 1) nequal (if is_blank c then real - 1 else real).
Proof.
  intros Hc Hr. cbn [check_loop]. rewrite (is_code_equal c Hc), !andb_false_r. cbn [andb]. unfold is_code in Hc.
  destruct (is_blank c); [by rewrite u64_small by lia|]. cbn [orb] in Hc. by apply negb_true_iff in Hc as ->.
Qed.

Lemma check_codes before enc s rest i nequal real :
  Forall (fun c => is_code c = true) s -> Z.of_nat (length s) <= real < 2 ^ 64 ->
  check_loop before enc (s ++ rest) i nequal real
  = check_loop before enc rest (i + Z.of_nat (length s)) nequal (real - Z.of_nat (length s) + Z.of_nat (length (strip s))).
Proof.
  intros Hs. revert i real. induction Hs as [|c s Hc Hs IH]; intros i real Hr.
  - cbn. f_equal; lia.
  - cbn [length] in Hr. cbn [app]. rewrite check_code by (done || lia). rewrite IH by (destruct (is_blank c); lia).
    unfold strip. rewrite filter_cons. destruct (is_blank c) eqn:E.
    + rewrite decide_False by done. cbn [length]. f_equal; lia.
    + rewrite decide_True by done. cbn [length]. f_equal; lia.
Qed.

Lemma check_bad before enc c rest i nequal real :
  is_code c = false -> (c = 61 -> i < Z.of_nat (length enc) - 2) -> 0 <= i -> 2 <= Z.of_nat (length enc) < 2 ^ 64 ->
  check_loop before enc (c :: rest) i nequal real = None.
Proof.
  intros Hc Hi H0 Hn. cbn [check_loop]. unfold is_code in Hc. apply orb_false_iff in Hc as [-> Hd].
  apply negb_false_iff in Hd as ->. rewrite !u64_small by lia.
  destruct (Z.eqb_spec c 61) as [E|]; [|by rewrite !andb_false_r].
  by rewrite (proj2 (Z.eqb_neq i _)), (proj2 (Z.eqb_neq i _)) by lia.
Qed.

(** The two passes agree on what is accepted. *)
Lemma check_accepts before body nequal :
  well_formed body nequal -> Z.of_nat (length body + nequal) < 2 ^ 64 ->
  let enc := body ++ replicate nequal 61 in
  check_loop before enc enc 0 0 (Z.of_nat (length enc))
  = Some (Z.of_nat nequal, Z.of_nat (length (strip body) + nequal)).
Proof.
  intros [Hb Hn Hq] Hlen enc. unfold enc at 2. rewrite check_codes.
  2: done.
  2: { unfold enc. rewrite length_app, length_replicate. lia. }
  assert (Henc : length enc = (length body + nequal)%nat) by (unfold enc; by rewrite length_app, length_replicate).
  rewrite Henc. destruct nequal as [|[|[|]]]; [| | |lia]; cbn [replicate check_loop].
  - do 2 f_equal; lia.
  - (* one padding, after a digit *)
    destruct (List.exists_last (l := body)) as (b & x & ->); [intros ->; cbn in Hq; done|].
    rewrite Henc, length_app. cbn [length]. rewrite !u64_small by (rewrite ?length_app in Hlen; cbn in Hlen; lia).
    rewrite (proj2 (Z.eqb_neq _ (_ - 2))) by lia. rewrite (proj2 (Z.eqb_eq _ (_ - 1))) by lia. cbn [andb Z.eqb Pos.eqb].
    apply Forall_app in Hb as [_ Hx]. apply List.Forall_inv in Hx.
    assert (E : enc_at before enc (0 + Z.of_nat (length b + 1) - 1) = x).
    { unfold enc_at. rewrite (proj2 (Z.ltb_ge _ 0)) by lia. unfold enc. rewrite <- app_assoc.
      rewrite app_nth2 by lia. replace (Z.to_nat _ - length b)%nat with 0%nat by lia. done. }
    rewrite E, (is_code_equal x Hx). cbn [negb]. do 2 f_equal; lia.
  - rewrite Henc. rewrite !u64_small by lia.
    rewrite (proj2 (Z.eqb_eq _ (_ - 2))) by lia.
    assert (E : enc_at before enc (0 + Z.of_nat (length body) + 1) = 61).
    { unfold enc_at. rewrite (proj2 (Z.ltb_ge _ 0)) by lia. unfold enc.
      rewrite app_nth2 by lia. replace (Z.to_nat _ - length body)%nat with 1%nat by lia. done. }
    rewrite E. cbn [andb Z.eqb Pos.eqb]. rewrite (proj2 (Z.eqb_neq _ (_ - 2))) by lia.
    rewrite (proj2 (Z.eqb_eq _ (_ - 1))) by lia. cbn [andb].
    assert (E2 : enc_at before enc (0 + Z.of_nat (length body) + 1 - 1) = 61).
    { unfold enc_at. rewrite (proj2 (Z.ltb_ge _ 0)) by lia. unfold enc.
      rewrite app_nth2 by lia. replace (Z.to_nat _ - length body)%nat with 0%nat by lia. done. }
    rewrite E2. cbn [negb Z.eqb Pos.eqb]. do 2 f_equal; lia.
Qed.

Lemma first_bad s :
  Forall (fun c => is_code c = true) s
  \/ exists s1 c s2, s = s1 ++ c :: s2 /\ Forall (fun c => is_code c = true) s1 /\ is_code c = false.
Proof.
  induction s as [|c s IH]; [by left|]. destruct (is_code c) eqn:E.
  - destruct IH as [H|(s1 & d & s2 & -> & H & Hd)]; [left; by constructor|].
    right. exists (c :: s1), d, s2. split; [done|]. split; [by constructor|done].
  - right. exists [], c, s. by split_and!.
Qed.

(** An invalid character stops the first pass. *)
Lemma check_rejects before s1 c s2 :
  let enc := s1 ++ c :: s2 in
  Forall (fun c => is_code c = true) s1 -> is_code c = false ->
  (c = 61 -> Z.of_nat (length s1) < Z.of_nat (length enc) - 2) -> 2 <= Z.of_nat (length enc) < 2 ^ 64 ->
  check_loop before enc enc 0 0 (Z.of_nat (length enc)) = None.
Proof.
  intros enc Hs1 Hc Hp Hn. unfold enc at 2. rewrite check_codes.
  - apply check_bad; [done|lia|lia|done].
  - done.
  - split; [|lia]. unfold enc. rewrite length_app. lia.
Qed.

(** [enc[i]] in a string whose parts are known. *)
Lemma enc_at_mid before s1 x s2 i : i = Z.of_nat (length s1) -> enc_at before (s1 ++ x :: s2) i = x.
Proof.
  intros ->. unfold enc_at. rewrite (proj2 (Z.ltb_ge _ 0)), Nat2Z.id, app_nth2, Nat.sub_diag by lia. done.
Qed.

(** A padding at the last place. *)
Lemma check_last before s1 nequal real n r :
  2 <= n < 2 ^ 64 -> n = Z.of_nat (length s1) + 1 ->
  check_loop before (s1 ++ [61]) [61] (n - 1) nequal real = Some r -> snd r = real.
Proof.
  intros Hn En Hx. assert (Hl : Z.of_nat (length (s1 ++ [61])) = n) by (rewrite length_app; cbn [length]; lia).
  cbn [check_loop] in Hx. rewrite Hl, !u64_small in Hx by lia.
  rewrite (proj2 (Z.eqb_neq (n - 1) (n - 2))), !Z.eqb_refl in Hx by lia. cbn [andb] in Hx.
  by injection Hx as <-.
Qed.

(** A padding at the last place but one. *)
Lemma check_last_two before s1 d nequal real n r :
  2 <= n < 2 ^ 64 -> n = Z.of_nat (length s1) + 2 ->
  check_loop before (s1 ++ [61; d]) [61; d] (n - 2) nequal real = Some r -> d = 61 /\ snd r = real.
Proof.
  intros Hn En Hx. assert (Hl : Z.of_nat (length (s1 ++ [61; d])) = n) by (rewrite length_app; cbn [length]; lia).
  assert (Ee : enc_at before (s1 ++ [61; d]) (n - 2 + 1) = d).
  { change (s1 ++ [61; d]) with (s1 ++ [61] ++ [d]). rewrite app_assoc. apply enc_at_mid. rewrite length_app. cbn. lia. }
  cbn [check_loop] in Hx. rewrite Hl, Ee, !u64_small in Hx by lia.
  rewrite !Z.eqb_refl, (proj2 (Z.eqb_neq (n - 2) (n - 1))), (proj2 (Z.eqb_neq (n - 2 + 1) (n - 2))),
    (proj2 (Z.eqb_eq (n - 2 + 1) (n - 1))) in Hx by lia. cbn [andb] in Hx.

  destruct (Z.eqb_spec d 61) as [->|]; [|done]. cbn in Hx. by injection Hx as <-.
Qed.

(** The first character that is neither a digit nor blank, in a string that is not
    rejected: the first of at most two paddings at the end. *)
Lemma check_padding before s1 c s2 nequal real :
  let enc := s1 ++ c :: s2 in
  Forall (fun c => is_code c = true) s1 -> is_code c = false -> 2 <= Z.of_nat (length enc) < 2 ^ 64 ->
  check_loop before enc enc 0 0 (Z.of_nat (length enc)) = Some (nequal, real) ->
  exists k, (k <= 2)%nat /\ c :: s2 = replicate k 61 /\ real = Z.of_nat (length (strip s1) + k).
Proof.
  intros enc Hs1 Hc Hn Hx.
  destruct (decide (c = 61 -> Z.of_nat (length s1) < Z.of_nat (length enc) - 2)) as [Hp|Hp].
  { pose proof (check_rejects before s1 c s2 Hs1 Hc Hp Hn) as H. fold enc in H. cbv zeta in H. congruence. }
  assert (E61 : c = 61) by (destruct (decide (c = 61)); [done|exfalso; apply Hp; congruence]). subst c.
  assert (Hlen : Z.of_nat (length enc) - 2 <= Z.of_nat (length s1)) by (apply Z.nlt_ge; intros ?; by apply Hp).
  unfold enc at 2 in Hx. rewrite check_codes in Hx; [|done|unfold enc in *; rewrite length_app in *; lia].
  unfold enc in *. rewrite length_app in *. cbn [length] in *.
  destruct s2 as [|d [|]]; cbn [length] in *; [| |lia].
  - exists 1%nat. split; [lia|]. split; [done|].
    replace (0 + Z.of_nat (length s1)) with (Z.of_nat (length s1 + 1) - 1) in Hx by lia.
    apply (check_last before s1 0 _ (Z.of_nat (length s1 + 1))) in Hx; [|lia|lia]. cbn in Hx. lia.
  - replace (0 + Z.of_nat (length s1)) with (Z.of_nat (length s1 + 2) - 2) in Hx by lia.
    apply (check_last_two before s1 d 0 _ (Z.of_nat (length s1 + 2))) in Hx as [-> Hx]; [|lia|lia].
    exists 2%nat. split; [lia|]. split; [done|]. cbn in Hx. lia.
Qed.

Lemma check_single before c nequal real :
  check_loop before [c] [c] 0 0 1 = Some (nequal, real) -> real mod 4 = 0 -> is_code c = true.
Proof.
  cbn. unfold is_code. destruct (Z.eqb_spec c 61) as [->|Hc]; cbn.
  - destruct (negb (before =? 61)); intros [= <- <-]; done.
  - destruct (is_blank c); [done|]. by destruct (dec_char c =? UCHAR_MAX).
Qed.

Lemma check_accepted before enc nequal real :
  0 < Z.of_nat (length enc) < 2 ^ 64 ->
  check_loop before enc enc 0 0 (Z.of_nat (length enc)) = Some (nequal, real) -> real mod 4 = 0 ->
  exists body k, enc = body ++ replicate k 61 /\ well_formed body k.
Proof.
  intros Hn Hx Hr. destruct (first_bad enc) as [Hall|(s1 & c & s2 & -> & Hs1 & Hc)].
  { exists enc, 0%nat. cbn. rewrite app_nil_r. split; [done|]. split; [done|lia|].
    pose proof (check_codes before enc enc [] 0 0 (Z.of_nat (length enc)) Hall ltac:(lia)) as H.
    rewrite app_nil_r, Hx in H. cbn in H. injection H as _ E2. rewrite Nat.add_0_r, <- Hr. f_equal. lia. }
  destruct (decide (2 <= Z.of_nat (length (s1 ++ c :: s2)))) as [H2|H2].
  - destruct (check_padding before s1 c s2 nequal real) as (k & Hk & E & ->); [done|done|lia|done|].
    exists s1, k. by rewrite <- E.
  - rewrite length_app in *. destruct s1, s2; cbn [length] in *; try lia.
    cbn [app] in Hx. cbn in H2. apply check_single in Hx; [congruence|done].
Qed.

(** ** The properties *)

Lemma codes_values s : Forall (fun c => is_code c = true) s -> Forall (fun v => 0 <= v < 64) (map dec_char (strip s)).
Proof.
  unfold strip. induction 1 as [|c s Hc Hs IH]; [by apply List.Forall_nil|]. rewrite filter_cons. unfold is_code in Hc.
  destruct (is_blank c) eqn:E; [by rewrite decide_False|]. rewrite decide_True by done. cbn [map].
  apply List.Forall_cons; [|done]. cbn [orb] in Hc. apply negb_true_iff in Hc.
  assert (H : map_Forall (fun _ v => 0 <= v < 64) base64_dec) by (apply (bool_decide_unpack _); vm_compute; exact I).
  unfold dec_char in *. destruct (base64_dec !! c) as [v|] eqn:Ev; [by apply (H c v)|]. by vm_compute in Hc.
Qed.

Lemma quads_values vals k :
  Forall (fun v => 0 <= v < 64) vals -> (k <= 2)%nat -> Z.of_nat (length vals + k) mod 4 = 0 ->
  quads (vals ++ replicate k 255) (Z.of_nat k).
Proof.
  intros Hv Hk. remember (length vals) as n eqn:Hn. revert vals Hv Hn.
  induction (lt_wf n) as [n _ IH]. intros vals Hv Hn Hm.
  destruct vals as [|q0 [|q1 [|q2 [|q3 vals]]]]; rewrite ?List.Forall_cons_iff in Hv; cbn [length] in Hn.
  1-4: subst n; destruct k as [|[|[|]]]; [..|lia]; try (cbn in Hm; discriminate Hm); cbn; constructor; tauto.
  cbn [app]. constructor; try tauto. apply (IH (length vals)); [lia|tauto|done|].
  rewrite <- Hm, Hn. replace (Z.of_nat (S (S (S (S (length vals)))) + k)) with (Z.of_nat (length vals + k) + 1 * 4) by lia.
  by rewrite Z.mod_add by lia.
Qed.

Lemma strip_padding body k : strip (body ++ replicate k 61) = strip body ++ replicate k 61.
Proof.
  rewrite strip_app. f_equal. induction k as [|k IH]; [done|]. cbn [replicate].
  unfold strip in *. rewrite filter_cons, decide_True by done. by rewrite IH.
Qed.

Lemma dec_padding k : map dec_char (replicate k 61) = replicate k 255.
Proof. induction k as [|k IH]; [done|]. cbn [replicate map]. rewrite IH. done. Qed.

Lemma decode_ok before body k :
  well_formed body k -> 0 < Z.of_nat (length body + k) < 2 ^ 62 ->
  let enc := body ++ replicate k 61 in let bs := bytes_of (map dec_char (strip enc)) in
  exists dec, base64_decode before enc = (Z.of_nat (length bs), Some dec) /\ buffer_is dec bs.
Proof.
  intros Hwf Hlen enc bs. pose proof (check_accepts before body k Hwf ltac:(lia)) as Hc. cbv zeta in Hc. fold enc in Hc.
  destruct Hwf as [Hb Hk Hq].
  assert (Hl : length enc = (length body + k)%nat) by (unfold enc; by rewrite length_app, length_replicate).
  assert (Hvals : map dec_char (strip enc) = map dec_char (strip body) ++ replicate k 255).
  { unfold enc. by rewrite strip_padding, map_app, dec_padding. }
  assert (Hquads : quads (map dec_char (strip enc)) (Z.of_nat k)).
  { rewrite Hvals. apply quads_values; [by apply codes_values|done|by rewrite length_map]. }
  pose proof (length_bytes_of _ _ Hquads) as Hlen_bs. fold bs in Hlen_bs.
  rewrite length_map in Hlen_bs. unfold enc in Hlen_bs. rewrite strip_padding, length_app, length_replicate in Hlen_bs.
  pose proof (length_strip body).
  unfold base64_decode. rewrite Hc, Hq. rewrite (proj2 (Z.eqb_neq (Z.of_nat (length enc)) 0)) by lia. cbn [Z.eqb negb].
  exists (quad_loop enc [] 0 ∅). rewrite <- Hlen_bs, u64_small.
  2: { pose proof (Z.div_le_upper_bound (Z.of_nat (length (strip body) + k)) 4 (2 ^ 60) ltac:(lia) ltac:(lia)). lia. }
  split; [done|]. rewrite quad_loop_blanks. fold (strip enc).
  apply (quad_loop_bytes (strip enc) (Z.of_nat k) [] ∅); [|done|].
  - apply List.Forall_forall. intros c Hin. by apply list_elem_of_In, list_elem_of_filter in Hin as [Hin _].
  - intros i. rewrite lookup_empty. by case_match.
Qed.

(** Blanks between or behind the paddings are refused, although the comment in front of
    [base64_decode] says that white space is ignored: a padding is looked for only at the
    last two places of the text. *)
Example blanks_at_the_padding :
  fst <$> map (base64_decode 0) [cstr "TQ=="; cstr "T Q =="; cstr "TQ= ="; cstr "TQ==" ++ [10]] = [1; 1; 0; 0].
Proof. vm_compute. reflexivity. Qed.

(** C36: what is decoded.  [base64_decode] accepts exactly the strings that are whole
    quads of digits, with blanks anywhere in front of at most two paddings at the very
    end, but none between or behind these; it fills the buffer it allocated with the bytes
    of the quads, every byte of it and none outside; for any other string it allocates
    nothing and returns 0.  What is in the memory in front of the string makes no
    difference. *)
Theorem base64_decode_spec before enc :
  0 < Z.of_nat (length enc) < 2 ^ 62 ->
  (exists body k, enc = body ++ replicate k 61 /\ well_formed body k
     /\ let bs := bytes_of (map dec_char (strip enc)) in
        exists dec, base64_decode before enc = (Z.of_nat (length bs), Some dec) /\ buffer_is dec bs)
  \/ (~ (exists body k, enc = body ++ replicate k 61 /\ well_formed body k) /\ base64_decode before enc = (0, None)).
Proof.
  intros Hlen. destruct (base64_decode before enc) as [n [dec|]] eqn:Hx.
  - left. unfold base64_decode in Hx. destruct (Z.eqb_spec (Z.of_nat (length enc)) 0); [done|].
    destruct (check_loop before enc enc 0 0 (Z.of_nat (length enc))) as [[nequal real]|] eqn:Hc; [|done].
    destruct (Z.eqb_spec (real mod 4) 0) as [Hr|]; [|done].
    destruct (check_accepted before enc nequal real ltac:(lia) Hc Hr) as (body & k & -> & Hwf).
    exists body, k. split; [done|]. split; [done|].
    rewrite length_app, length_replicate in Hlen. destruct (decode_ok before body k Hwf Hlen) as (dec' & E & Hb).
    exists dec'. split; [|done]. rewrite <- E. unfold base64_decode. rewrite Hc, Hr. cbn [Z.eqb negb]. rewrite <- Hx.
    by rewrite (proj2 (Z.eqb_neq (Z.of_nat (length (body ++ replicate k 61))) 0)).
  - right. split.
    + intros (body & k & -> & Hwf). rewrite length_app, length_replicate in Hlen.
      destruct (decode_ok before body k Hwf Hlen) as (dec' & E & Hb). cbv zeta in E. congruence.
    + unfold base64_decode in Hx. repeat case_match; congruence.
Qed.

(** The digits of bytes, padded, are whole quads. *)
Lemma digits_quads bs :
  Forall is_byte bs ->
  Forall (fun v => 0 <= v < 64) (base64_digits bs)
  /\ Z.of_nat (length (base64_digits bs) + padding (length bs)) mod 4 = 0
  /\ bytes_of (base64_digits bs ++ replicate (padding (length bs)) 255) = bs.
Proof.
  remember (length bs) as n eqn:Hn. revert bs Hn. induction (lt_wf n) as [n _ IH]. intros bs Hn Hb.
  destruct bs as [|a [|b [|c bs]]]; rewrite ?List.Forall_cons_iff in Hb; unfold is_byte in Hb; cbn [length] in Hn.
  - subst n. by split_and!.
  - subst n. destruct Hb as [Ha _]. split_and!; cbn; [|done|f_equal; Z.to_euclidean_division_equations; lia].
    repeat (apply List.Forall_cons; [Z.to_euclidean_division_equations; lia|]). apply List.Forall_nil.
  - subst n. destruct Hb as (Ha & Hb & _).
    assert (H64 : b mod 16 * 4 < 64) by (Z.to_euclidean_division_equations; lia).
    split_and!; cbn; [|done|].
    + repeat (apply List.Forall_cons; [Z.to_euclidean_division_equations; lia|]). apply List.Forall_nil.
    + rewrite (proj2 (Z.eqb_neq _ 255)) by lia. f_equal; [|f_equal]; Z.to_euclidean_division_equations; lia.
  - destruct Hb as (Ha & Hb & Hc & Hbs). destruct (IH (length bs) ltac:(lia) bs eq_refl Hbs) as (H1 & H2 & H3).
    assert (Hp : padding n = padding (length bs)).
    { unfold padding. subst n. replace (S (S (S (length bs)))) with (length bs + 1 * 3)%nat by lia. by rewrite Nat.Div0.mod_add. }
    rewrite Hp. cbn [base64_digits length app bytes_of].
    assert (H64 : b mod 16 * 4 + c / 64 < 64) by (Z.to_euclidean_division_equations; lia).
    assert (H65 : c mod 64 < 64) by (Z.to_euclidean_division_equations; lia).
    split_and!.
    + repeat (apply List.Forall_cons; [Z.to_euclidean_division_equations; lia|]). done.
    + rewrite <- H2. replace (Z.of_nat (S (S (S (S (length (base64_digits bs))))) + padding (length bs)))
        with (Z.of_nat (length (base64_digits bs) + padding (length bs)) + 1 * 4) by lia. by rewrite Z.mod_add by lia.
    + rewrite (proj2 (Z.eqb_neq (b mod 16 * 4 + c / 64) 255)), (proj2 (Z.eqb_neq (c mod 64) 255)) by lia. rewrite H3.
      f_equal; [|f_equal; [|f_equal]]; Z.to_euclidean_division_equations; lia.
Qed.

Lemma strip_blanks_back body ds :
  Forall (fun v => 0 <= v < 64) ds -> strip body = map enc_digit ds ->
  Forall (fun c => is_code c = true) body /\ map dec_char (strip body) = ds.
Proof.
  intros Hd Hs. split.
  - apply List.Forall_forall. intros c Hc. unfold is_code. destruct (is_blank c) eqn:E; [done|].
    assert (Hin : c ∈ strip body) by (unfold strip; apply list_elem_of_filter; split; [done|by apply list_elem_of_In]).
    rewrite Hs in Hin. apply list_elem_of_fmap in Hin as (v & -> & Hv).
    rewrite List.Forall_forall in Hd. apply list_elem_of_In, Hd in Hv. destruct (dec_enc_digit v Hv) as (-> & _).
    cbn. unfold UCHAR_MAX. by rewrite (proj2 (Z.eqb_neq v 255)) by lia.
  - rewrite Hs, map_map. clear -Hd. induction Hd as [|v ds Hv Hd IH]; [done|]. cbn [map].
    rewrite (proj1 (dec_enc_digit v Hv)). by f_equal.
Qed.

(** An encoding is decoded to the bytes it encodes. *)
Lemma decode_encoded before bs body :
  Forall is_byte bs -> bs <> [] -> strip body = map enc_digit (base64_digits bs) ->
  Z.of_nat (length body) < 2 ^ 61 ->
  exists dec, base64_decode before (body ++ replicate (padding (length bs)) 61) = (Z.of_nat (length bs), Some dec)
  /\ buffer_is dec bs.
Proof.
  intros Hb Hne Hs Hlen. destruct (digits_quads bs Hb) as (Hd & Hm & Hbytes).
  destruct (strip_blanks_back body _ Hd Hs) as [Hbody Hvals].
  assert (Hpad : (padding (length bs) <= 2)%nat) by (unfold padding; repeat case_match; lia).
  assert (Hwf : well_formed body (padding (length bs))) by (split; [done|done|by rewrite Hs, length_map]).
  assert (Hpos : (0 < length body)%nat).
  { destruct body; [|cbn; lia]. destruct bs as [|a [|b [|c bs]]]; [done|..]; discriminate Hs. }
  destruct (decode_ok before body _ Hwf ltac:(lia)) as (dec & E & Hdec). exists dec.
  assert (Ebs : bytes_of (map dec_char (strip (body ++ replicate (padding (length bs)) 61))) = bs).
  { rewrite strip_padding, map_app, Hvals, dec_padding. exact Hbytes. }
  rewrite Ebs in *. by split.
Qed.

(** Round trip.  The encoding of any bytes but none, with blanks anywhere in front
    of the padding, is decoded to these bytes. *)
Theorem base64_roundtrip before bs body :
  Forall is_byte bs -> bs <> [] -> strip body = map enc_digit (base64_digits bs) ->
  Z.of_nat (length body) < 2 ^ 61 ->
  exists dec, base64_decode before (body ++ replicate (padding (length bs)) 61) = (Z.of_nat (length bs), Some dec)
  /\ buffer_is dec bs.
Proof. exact (decode_encoded before bs body). Qed.

(** "LTFS!" with a line break. *)
Lemma base64_roundtrip_witness :
  exists dec, base64_decode 0 (cstr "TFRG" ++ [10] ++ cstr "UyE=") = (5, Some dec) /\ buffer_is dec (cstr "LTFS!").
Proof.
  apply (base64_roundtrip 0 (cstr "LTFS!") (cstr "TFRG" ++ [10] ++ cstr "UyE")).
  - apply (bool_decide_unpack _). vm_compute. exact I.
  - discriminate.
  - vm_compute. reflexivity.
  - vm_compute. reflexivity.
Defined.

Lemma base64_decode_spec_witness : base64_decode 7 (cstr "TQ=") = (0, None).
Proof.
  destruct (base64_decode_spec 7 (cstr "TQ=") ltac:(vm_compute; split; reflexivity)) as [(body & k & E & [Hb Hk Hq] & _)|[_ E]];
    [exfalso|exact E].
  destruct k as [|[|k]].
  - cbn in E. rewrite app_nil_r in E. subst body. vm_compute in Hq. discriminate Hq.
  - assert (Hbody : body = cstr "TQ") by (change (cstr "TQ=") with (cstr "TQ" ++ [61]) in E; symmetry in E; by apply app_inj_tail in E as [E _]).
    subst body. vm_compute in Hq. discriminate Hq.
  - assert (Hbody : length body = (1 - k)%nat) by (apply (f_equal length) in E; rewrite length_app, length_replicate in E; cbn in E; lia).
    apply (f_equal (fun l => nth (length body) l 0)) in E. rewrite app_nth2, Nat.sub_diag in E by lia. cbn in E.
    rewrite Hbody in E. destruct k as [|[|k]]; [done|done|lia].
Defined.
