(* ===== verification/Endian.v ===== *)
(** * Byte order

    The macros of [libltfs/ltfs_endian.h]: fixed-width integers to and from
    big-endian byte sequences.  [htonl] and [ntohl] compute on the abstract value,
    so the model is the byte sequence itself. *)

From S2P Require Import Prelude.
Open Scope Z_scope.

Definition ltfs_u16tobe (src : Z) : list Z := [u8 (src ≫ 8); u8 src].

Definition ltfs_u32tobe (src : Z) : list Z :=
  [u8 (src ≫ 24); u8 (src ≫ 16); u8 (src ≫ 8); u8 src].

Definition ltfs_u64tobe (src : Z) : list Z :=
  ltfs_u32tobe (Z.land (src ≫ 32) 0xffffffff) ++ ltfs_u32tobe (Z.land src 0xffffffff).

(** The readers look at the bytes the pointer designates; a buffer that is too
    short is an out-of-bounds read ([None]). *)
Definition ltfs_betou16 (buf : list Z) : option Z :=
  match buf with
  | b0 :: b1 :: _ => Some (b0 * 2 ^ 8 + b1)
  | _ => None
  end.

Definition ltfs_betou32 (buf : list Z) : option Z :=
  match buf with
  | b0 :: b1 :: b2 :: b3 :: _ => Some (b0 * 2 ^ 24 + b1 * 2 ^ 16 + b2 * 2 ^ 8 + b3)
  | _ => None
  end.

Definition ltfs_betou64 (buf : list Z) : option Z :=
  match ltfs_betou32 buf, ltfs_betou32 (drop 4 buf) with
  | Some hi, Some lo => Some (u64 (hi ≪ 32) + lo)
  | _, _ => None
  end.

(** ** Round trips *)

Lemma shiftr_split x n : 0 <= n -> u8 (x ≫ n) = (x / 2 ^ n) `mod` 256.
Proof. intros H. unfold u8. by rewrite Z.shiftr_div_pow2. Qed.

Lemma byte_cons x n : 0 <= n -> x / 2 ^ n = (x / 2 ^ (n + 8)) * 256 + (x / 2 ^ n) `mod` 256.
Proof.
  intros H. pose proof (Z.pow_pos_nonneg 2 n ltac:(lia) H).
  rewrite Z.pow_add_r by lia. rewrite <- Z.div_div by lia.
  rewrite (Z.mul_comm _ 256). apply Z.div_mod. lia.
Qed.

Lemma betou16_u16tobe src rest :
  0 <= src < 2 ^ 16 -> ltfs_betou16 (ltfs_u16tobe src ++ rest) = Some src.
Proof.
  intros H. cbn -[Z.pow]. f_equal. rewrite shiftr_split by lia. unfold u8.
  pose proof (Z.div_mod src 256 ltac:(lia)) as H0.
  rewrite (Z.mod_small (src / 2 ^ 8)) by (split; [apply Z.div_pos | apply Z.div_lt_upper_bound]; lia).
  change (2 ^ 8) with 256 in *. lia.
Qed.

Lemma betou32_u32tobe src rest :
  0 <= src < 2 ^ 32 -> ltfs_betou32 (ltfs_u32tobe src ++ rest) = Some src.
Proof.
  intros H. cbn -[Z.pow]. f_equal. rewrite !shiftr_split by lia. unfold u8.
  pose proof (Z.div_mod src 256 ltac:(lia)) as H0.
  pose proof (byte_cons src 8 ltac:(lia)) as H1.
  pose proof (byte_cons src 16 ltac:(lia)) as H2.
  cbn [Z.add Pos.add] in *.
  change (8 + 8) with 16 in *. change (16 + 8) with 24 in *.
  rewrite (Z.mod_small (src / 2 ^ 24)) by (split; [apply Z.div_pos | apply Z.div_lt_upper_bound]; lia).
  change (2 ^ 8) with 256 in *. change (2 ^ 16) with 65536 in *. change (2 ^ 24) with 16777216 in *.
  lia.
Qed.

Lemma length_u32tobe src : length (ltfs_u32tobe src) = 4%nat.
Proof. reflexivity. Qed.

Lemma u32tobe_bytes src : Forall is_byte (ltfs_u32tobe src).
Proof.
  unfold ltfs_u32tobe, is_byte. repeat constructor; unfold u8; apply Z.mod_pos_bound; lia.
Qed.

Lemma betou64_u64tobe src rest :
  0 <= src < 2 ^ 64 -> ltfs_betou64 (ltfs_u64tobe src ++ rest) = Some src.
Proof.
  intros H. unfold ltfs_betou64, ltfs_u64tobe. rewrite <- app_assoc.
  replace (drop 4 _) with (ltfs_u32tobe (Z.land src 0xffffffff) ++ rest) by reflexivity.
  change 0xffffffff with (Z.ones 32). rewrite !Z.land_ones, Z.shiftr_div_pow2 by lia.
  pose proof (Z.mod_pos_bound src (2 ^ 32) ltac:(lia)).
  rewrite (Z.mod_small (src / 2 ^ 32)) by (split; [apply Z.div_pos | apply Z.div_lt_upper_bound]; lia).
  rewrite !betou32_u32tobe; [|lia|split; [apply Z.div_pos | apply Z.div_lt_upper_bound]; lia].
  rewrite Z.shiftl_mul_pow2 by lia. f_equal.
  pose proof (Z.div_mod src (2 ^ 32) ltac:(lia)).
  rewrite u64_small; [lia|].
  assert (src / 2 ^ 32 < 2 ^ 32) by (apply Z.div_lt_upper_bound; lia).
  assert (0 <= src / 2 ^ 32) by (apply Z.div_pos; lia). lia.
Qed.
