(* ===== verification/TapeOps.v ===== *)
(** * The tape backend interface

    [libltfs/tape_ops.h]: the position record every backend call returns, the
    table of operations a backend provides (the ones the data path uses), and
    the contract those operations have to meet.  A medium is, per partition, the
    sequence of logical records written since the beginning of the partition; a
    block number is an index in that sequence.  [TapeDev] is verified against
    the contract [TapeOk], and [FileDebug] is proved to meet it. *)

From S2P Require Import Prelude Errors.
Open Scope Z_scope.

(** ** [struct tc_position] *)

Record tc_position := {
  block : Z;
  filemarks : Z;
  partition : Z;
  early_warning : bool;
  programmable_early_warning : bool
}.

Definition TAPE_BLOCK_MAX : Z := 2 ^ 64 - 1.

Definition set_block (b : Z) (p : tc_position) : tc_position :=
  {| block := b; filemarks := filemarks p; partition := partition p;
     early_warning := early_warning p;
     programmable_early_warning := programmable_early_warning p |}.

Definition set_filemarks (f : Z) (p : tc_position) : tc_position :=
  {| block := block p; filemarks := f; partition := partition p;
     early_warning := early_warning p;
     programmable_early_warning := programmable_early_warning p |}.

Definition set_partition (n : Z) (p : tc_position) : tc_position :=
  {| block := block p; filemarks := filemarks p; partition := n;
     early_warning := early_warning p;
     programmable_early_warning := programmable_early_warning p |}.

Definition set_warnings (ew pew : bool) (p : tc_position) : tc_position :=
  {| block := block p; filemarks := filemarks p; partition := partition p;
     early_warning := ew; programmable_early_warning := pew |}.

(** ** [TC_SPACE_TYPE] *)

Inductive TC_SPACE_TYPE := TC_SPACE_EOD | TC_SPACE_FM_F | TC_SPACE_FM_B | TC_SPACE_F | TC_SPACE_B.

(** ** Cartridge memory attributes *)

Definition TC_MAM_PAGE_HEADER_SIZE : Z := 5.
Definition TC_MAM_PAGE_VCR : Z := 9.
Definition TC_MAM_PAGE_VCR_SIZE : Z := 4.
Definition TC_MAM_PAGE_COHERENCY : Z := 0x080C.
Definition TC_MAM_PAGE_COHERENCY_SIZE : Z := 0x46.
Definition TC_MAM_PAGE_EWSTATE : Z := 0x1500.
Definition TC_MAM_PAGE_EWSTATE_LEN : Z := 4.
Inductive TC_FORMAT_TYPE := TC_FORMAT_DEFAULT | TC_FORMAT_PARTITION | TC_FORMAT_DEST_PART | TC_FORMAT_MAX.

Definition EOD_GOOD : Z := 0.
Definition EOD_MISSING : Z := 1.
Definition EOD_UNKNOWN : Z := 2.

Definition EWSTATE_CLEAR : Z := 0.
Definition EWSTATE_SET : Z := 1.

(** ** The media abstraction *)

Inductive tape_record :=
  | Data (bytes : list Z)
  | Filemark.

#[global] Instance tape_record_eq_dec : EqDecision tape_record.
Proof. solve_decision. Defined.

Record medium := { part0 : list tape_record; part1 : list tape_record }.

Definition part_of (m : medium) (p : Z) : list tape_record :=
  if p =? 0 then part0 m else part1 m.

Definition set_part (p : Z) (l : list tape_record) (m : medium) : medium :=
  if p =? 0 then {| part0 := l; part1 := part1 m |} else {| part0 := part0 m; part1 := l |}.

Definition record_at (m : medium) (p b : Z) : option tape_record :=
  if b <? 0 then None else part_of m p !! Z.to_nat b.

Definition eod_at (m : medium) (p : Z) : Z := Z.of_nat (length (part_of m p)).

Definition valid_part (p : Z) : Prop := p = 0 \/ p = 1.

(** Arrays of two, indexed by partition. *)
Definition sel {A} (p : Z) (a : A * A) : A := if p =? 0 then a.1 else a.2.
Definition upd {A} (p : Z) (v : A) (a : A * A) : A * A := if p =? 0 then (v, a.2) else (a.1, v).

(** Writing at block [b] drops everything from [b] on and appends the new
    records: a sequential medium cannot be overwritten in the middle. *)
Definition write_at (p b : Z) (rs : list tape_record) (m : medium) : medium :=
  set_part p (take (Z.to_nat b) (part_of m p) ++ rs) m.

(** ** [struct tape_ops]

    Each operation takes the device state and the caller's position structure,
    and returns its result code, the structure as the backend filled it, and
    the new device state.  Cartridge memory attributes are read and written by
    partition and id; they are no part of the medium. *)

Record tape_ops (D : Type) := {
  op_read : Z -> bool -> tc_position -> D -> Z * list Z * tc_position * D;
  op_write : list Z -> tc_position -> D -> Z * tc_position * D;
  op_writefm : Z -> bool -> tc_position -> D -> Z * tc_position * D;
  op_locate : tc_position -> tc_position -> D -> Z * tc_position * D;
  op_space : Z -> TC_SPACE_TYPE -> tc_position -> D -> Z * tc_position * D;
  op_readpos : tc_position -> D -> Z * tc_position * D;
  op_allow_overwrite : tc_position -> D -> Z * D;
  op_read_attribute : Z -> Z -> Z -> D -> Z * list Z;
  op_write_attribute : Z -> list Z -> D -> Z * D;
  op_get_keyalias : D -> Z * list Z * D;
  op_set_key : option (list Z) -> option (list Z) -> D -> Z * D;
  op_test_unit_ready : D -> Z * D
}.

Arguments op_read {_}. Arguments op_write {_}. Arguments op_writefm {_}.
Arguments op_locate {_}. Arguments op_space {_}. Arguments op_readpos {_}.
Arguments op_allow_overwrite {_}. Arguments op_read_attribute {_}.
Arguments op_write_attribute {_}. Arguments op_get_keyalias {_}. Arguments op_set_key {_}.
Arguments op_test_unit_ready {_}.

(** ** The contract

    [tape_at d m pos]: the device is usable, holds the medium [m], and its head
    is where [pos] says.  The laws constrain the calls that succeed; what a
    failing call leaves behind is up to the backend.  A write succeeds with any result
    that is not negative: tape_ops.h asks for 0, as the drivers of hardware return, and
    the file-backed one returns the number of bytes. *)

Class TapeOk {D : Type} (ops : tape_ops D) (tape_at : D -> medium -> tc_position -> Prop) := {
  tape_at_ok : forall d m pos, tape_at d m pos ->
    valid_part (partition pos) /\ 0 <= block pos <= eod_at m (partition pos)
    /\ eod_at m 0 < 2 ^ 63 /\ eod_at m 1 < 2 ^ 63;
  locate_ok : forall dest pos d m rc pos' d', tape_at d m pos ->
    valid_part (partition dest) -> 0 <= block dest ->
    op_locate ops dest pos d = (rc, pos', d') -> 0 <= rc ->
    rc = 0 /\ tape_at d' m pos' /\ partition pos' = partition dest
    /\ block pos' = Z.min (block dest) (eod_at m (partition dest));
  read_ok : forall count u pos d m rc buf pos' d', tape_at d m pos -> 0 <= count < 2 ^ 31 ->
    op_read ops count u pos d = (rc, buf, pos', d') -> 0 <= rc ->
    tape_at d' m pos' /\ partition pos' = partition pos
    /\ block pos' = block pos + 1 /\ rc = Z.of_nat (length buf)
    /\ match record_at m (partition pos) (block pos) with
       | Some (Data bs) => buf = take (Z.to_nat count) bs
       | Some Filemark => buf = []
       | None => False
       end;
  write_ok : forall buf pos d m rc pos' d', tape_at d m pos ->
    0 < Z.of_nat (length buf) < 2 ^ 31 -> block pos + 1 < 2 ^ 63 ->
    op_write ops buf pos d = (rc, pos', d') -> 0 <= rc ->
    partition pos' = partition pos /\ block pos' = block pos + 1
    /\ tape_at d' (write_at (partition pos) (block pos) [Data buf] m) pos';
  writefm_ok : forall n immed pos d m rc pos' d', tape_at d m pos -> 0 <= n < 256 ->
    block pos + n < 2 ^ 63 ->
    op_writefm ops n immed pos d = (rc, pos', d') -> 0 <= rc ->
    rc = 0 /\ partition pos' = partition pos /\ block pos' = block pos + n
    /\ tape_at d' (if n =? 0 then m
                   else write_at (partition pos) (block pos) (replicate (Z.to_nat n) Filemark) m) pos';
  readpos_ok : forall any pos d m rc pos' d', tape_at d m pos ->
    op_readpos ops any d = (rc, pos', d') -> 0 <= rc ->
    tape_at d' m pos' /\ partition pos' = partition pos /\ block pos' = block pos;
  allow_overwrite_ok : forall at_pos pos d m rc d', tape_at d m pos ->
    op_allow_overwrite ops at_pos d = (rc, d') -> tape_at d' m pos;
  write_attribute_ok : forall part buf pos d m rc d', tape_at d m pos ->
    op_write_attribute ops part buf d = (rc, d') -> tape_at d' m pos;
  get_keyalias_ok : forall pos d m rc ka d', tape_at d m pos ->
    op_get_keyalias ops d = (rc, ka, d') -> tape_at d' m pos;
  set_key_ok : forall ka key pos d m rc d', tape_at d m pos ->
    op_set_key ops ka key d = (rc, d') -> tape_at d' m pos
}.

(** The block after the [count]-th file mark of [l], whose first record is
    block [i]. *)
Fixpoint fwd_fm (l : list tape_record) (i count : Z) : option Z :=
  match l with
  | [] => None
  | Filemark :: l' => if count =? 1 then Some (i + 1) else fwd_fm l' (i + 1) (count - 1)
  | Data _ :: l' => fwd_fm l' (i + 1) count
  end.

(** The [count]-th file mark of [l], read towards the beginning of the tape from
    block [i]. *)
Fixpoint back_fm (l : list tape_record) (i count : Z) : option Z :=
  match l with
  | [] => None
  | Filemark :: l' => if count =? 1 then Some i else back_fm l' (i - 1) (count - 1)
  | Data _ :: l' => back_fm l' (i - 1) count
  end.

(** The part of the contract that concerns spacing over file marks. *)
Class SpaceOk {D : Type} (ops : tape_ops D) (tape_at : D -> medium -> tc_position -> Prop) := {
  space_fm_fwd_ok : forall count pos d m rc pos' d', tape_at d m pos -> 0 < count ->
    op_space ops count TC_SPACE_FM_F pos d = (rc, pos', d') -> 0 <= rc ->
    rc = 0 /\ tape_at d' m pos' /\ partition pos' = partition pos
    /\ fwd_fm (drop (Z.to_nat (block pos)) (part_of m (partition pos))) (block pos) count = Some (block pos');
  space_fm_back_ok : forall count pos d m rc pos' d', tape_at d m pos -> 0 < count -> 0 < block pos ->
    op_space ops count TC_SPACE_FM_B pos d = (rc, pos', d') -> 0 <= rc ->
    rc = 0 /\ tape_at d' m pos' /\ partition pos' = partition pos
    /\ back_fm (reverse (take (Z.to_nat (block pos)) (part_of m (partition pos)))) (block pos - 1) count
       = Some (block pos')
}.

(** A drive that finds the file marks there are. *)
Record spaces_reliably {D : Type} (ops : tape_ops D) (tape_at : D -> medium -> tc_position -> Prop) : Prop := {
  space_fwd_reliable : forall count pos d m, tape_at d m pos -> 0 < count ->
    fwd_fm (drop (Z.to_nat (block pos)) (part_of m (partition pos))) (block pos) count <> None ->
    0 <= (op_space ops count TC_SPACE_FM_F pos d).1.1;
  space_back_reliable : forall count pos d m, tape_at d m pos -> 0 < count -> 0 < block pos ->
    back_fm (reverse (take (Z.to_nat (block pos)) (part_of m (partition pos)))) (block pos - 1) count <> None ->
    0 <= (op_space ops count TC_SPACE_FM_B pos d).1.1
}.

(** The part of the contract that concerns one attribute: what is written with a
    well-formed header is read back with the size it was written with. *)
Class AttributeOk {D : Type} (ops : tape_ops D) := {
  attribute_read_back : forall part id len data d rc d',
    0 <= id < 2 ^ 16 -> Z.of_nat (length data) = len -> 0 <= len < 2 ^ 16 ->
    op_write_attribute ops part ([id / 256; id mod 256; 0; len / 256; len mod 256] ++ data) d
      = (rc, d') -> 0 <= rc ->
    op_read_attribute ops part id (len + TC_MAM_PAGE_HEADER_SIZE) d'
      = (0, [id / 256; id mod 256; 0; len / 256; len mod 256] ++ data)
}.

(** ** Lemmas on spacing *)

Lemma fwd_fm_range l i count b : fwd_fm l i count = Some b -> i < b <= i + Z.of_nat (length l).
Proof.
  revert i count. induction l as [|[bs|] l IH]; intros i count H; cbn [fwd_fm length] in *; [done| |].
  - apply IH in H. lia.
  - destruct (count =? 1); [injection H as <-; lia|]. apply IH in H. lia.
Qed.

Lemma back_fm_range l i count b : back_fm l i count = Some b -> i - Z.of_nat (length l) < b <= i.
Proof.
  revert i count. induction l as [|[bs|] l IH]; intros i count H; cbn [back_fm length] in *; [done| |].
  - apply IH in H. lia.
  - destruct (count =? 1); [injection H as <-; lia|]. apply IH in H. lia.
Qed.

(** Data records are passed. *)
Lemma fwd_fm_data blocks l i count :
  fwd_fm ((Data <$> blocks) ++ l) i count = fwd_fm l (i + Z.of_nat (length blocks)) count.
Proof.
  revert i. induction blocks as [|k blocks IH]; intros i; cbn; [f_equal; lia|]. rewrite IH. f_equal. lia.
Qed.

Lemma back_fm_data blocks l i count :
  back_fm ((Data <$> blocks) ++ l) i count = back_fm l (i - Z.of_nat (length blocks)) count.
Proof.
  revert i. induction blocks as [|k blocks IH]; intros i; cbn; [f_equal; lia|]. rewrite IH. f_equal. lia.
Qed.

(** ** Lemmas on media *)

Lemma sel_upd {A} p q (v : A) a : valid_part p -> valid_part q ->
  sel q (upd p v a) = if p =? q then v else sel q a.
Proof. intros [->| ->] [->| ->]; reflexivity. Qed.

Lemma sel_upd_other {A} p (v : A) a : valid_part p -> sel (1 - p) (upd p v a) = sel (1 - p) a.
Proof. intros [->| ->]; reflexivity. Qed.

Lemma valid_part_other p : valid_part p -> valid_part (1 - p).
Proof. intros [->| ->]; [by right|by left]. Qed.

Lemma part_of_set_part p q l m :
  valid_part p -> valid_part q ->
  part_of (set_part p l m) q = if p =? q then l else part_of m q.
Proof. intros [->| ->] [->| ->]; reflexivity. Qed.

Lemma part_of_write_at p q b rs m :
  valid_part p -> valid_part q ->
  part_of (write_at p b rs m) q =
    if p =? q then take (Z.to_nat b) (part_of m p) ++ rs else part_of m q.
Proof. intros Hp Hq. unfold write_at. by rewrite part_of_set_part. Qed.

Lemma eod_write_at p b rs m :
  valid_part p -> 0 <= b <= eod_at m p ->
  eod_at (write_at p b rs m) p = b + Z.of_nat (length rs).
Proof.
  intros Hp Hb. unfold eod_at in *. rewrite part_of_write_at, Z.eqb_refl by done.
  rewrite length_app, length_take. lia.
Qed.

Lemma eod_write_at_ne p q b rs m :
  valid_part p -> valid_part q -> p <> q -> eod_at (write_at p b rs m) q = eod_at m q.
Proof.
  intros Hp Hq Hne. unfold eod_at. rewrite part_of_write_at by done.
  by rewrite (proj2 (Z.eqb_neq p q)).
Qed.

(** The records before the block written stay what they were. *)
Lemma record_at_write_before p q b rs m i :
  valid_part p -> valid_part q -> 0 <= b <= eod_at m p -> p <> q \/ i < b ->
  record_at (write_at p b rs m) q i = record_at m q i.
Proof.
  intros Hp Hq Hb Hi. unfold record_at, eod_at in *. rewrite part_of_write_at by done.
  destruct (i <? 0) eqn:E; bool_to_prop; [done|].
  destruct (p =? q) eqn:E2; bool_to_prop; [subst q|done].
  rewrite lookup_app_l by (rewrite length_take; lia).
  apply lookup_take_lt. lia.
Qed.

Lemma record_at_write_new p b rs m i :
  valid_part p -> 0 <= b <= eod_at m p -> b <= i ->
  record_at (write_at p b rs m) p i = rs !! Z.to_nat (i - b).
Proof.
  intros Hp Hb Hi. unfold record_at, eod_at in *. rewrite part_of_write_at, Z.eqb_refl by done.
  destruct (i <? 0) eqn:E; bool_to_prop; [lia|].
  rewrite lookup_app_r by (rewrite length_take; lia).
  f_equal. rewrite length_take. lia.
Qed.

Lemma record_at_lt_eod m p b r : record_at m p b = Some r -> 0 <= b < eod_at m p.
Proof.
  unfold record_at, eod_at. destruct (b <? 0) eqn:E; bool_to_prop; [done|].
  intros H%lookup_lt_Some. lia.
Qed.

Lemma write_at_write_at p b rs1 rs2 m :
  valid_part p -> 0 <= b <= eod_at m p ->
  write_at p (b + Z.of_nat (length rs1)) rs2 (write_at p b rs1 m) = write_at p b (rs1 ++ rs2) m.
Proof.
  intros Hp Hb. unfold write_at at 1. rewrite part_of_write_at, Z.eqb_refl by done.
  unfold eod_at in Hb.
  rewrite take_ge by (rewrite length_app, length_take; lia).
  rewrite <- app_assoc.
  unfold write_at, set_part. destruct (p =? 0); reflexivity.
Qed.
