(* ===== verification/FileDebug.v ===== *)
(** * The file-backed tape driver

    [tape_drivers/generic/file/filedebug_tc.c], the backend that keeps a tape as
    a directory of files: one file per logical record, named by partition, block
    number and a suffix that says whether the record is a data block, a file mark
    or the end-of-data marker.  The directory is a finite map from such names to
    file contents; the kernel's calls on it are assumed not to fail other than by
    [ENOENT].  The device state is [struct filedebug_data] together with the
    directory (fields the modelled operations never read are left out).

    The last part relates the directory to the abstract media of [TapeOps] and
    discharges the backend contract [TapeOk]. *)

From S2P Require Import Prelude Errors Endian TapeOps.
Open Scope Z_scope.

(** ** State *)

Definition MAX_PARTITIONS : Z := 2.
Definition MISSING_EOD : Z := 0xFFFFFFFFFFFFFFFF.

Definition SUFFIX_RECORD : Z := 0.
Definition SUFFIX_FILEMARK : Z := 1.
Definition SUFFIX_EOD : Z := 2.


Record filedebug_data := {
  device_reserved : bool;
  medium_locked : bool;
  current_position : tc_position;
  max_block_size : Z;
  ready : bool;
  last_block : Z * Z;
  eod : Z * Z;
  partitions : Z;
  write_pass_prev : Z;
  write_pass : Z;
  emulate_readonly : bool;
  p0_warning : Z;
  p1_warning : Z;
  p0_p_warning : Z;
  p1_p_warning : Z;
  (** the directory: records by (partition, block, suffix), attributes by
      (partition, id) *)
  files : gmap (Z * Z * Z) (list Z);
  attrs : gmap (Z * Z) (list Z)
}.

Definition with_state (s : filedebug_data) (pos : tc_position) (rdy : bool) (lb e : Z * Z)
    (parts wpp wp : Z) (fs : gmap (Z * Z * Z) (list Z)) (ats : gmap (Z * Z) (list Z))
    : filedebug_data :=
  {| device_reserved := device_reserved s; medium_locked := medium_locked s;
     current_position := pos; max_block_size := max_block_size s; ready := rdy;
     last_block := lb; eod := e; partitions := parts; write_pass_prev := wpp;
     write_pass := wp; emulate_readonly := emulate_readonly s;
     p0_warning := p0_warning s; p1_warning := p1_warning s;
     p0_p_warning := p0_p_warning s; p1_p_warning := p1_p_warning s;
     files := fs; attrs := ats |}.

Definition set_current (pos : tc_position) (s : filedebug_data) : filedebug_data :=
  with_state s pos (ready s) (last_block s) (eod s) (partitions s) (write_pass_prev s)
    (write_pass s) (files s) (attrs s).

Definition set_files (fs : gmap (Z * Z * Z) (list Z)) (s : filedebug_data) : filedebug_data :=
  with_state s (current_position s) (ready s) (last_block s) (eod s) (partitions s)
    (write_pass_prev s) (write_pass s) fs (attrs s).

Definition set_eod (p lb e : Z) (s : filedebug_data) : filedebug_data :=
  with_state s (current_position s) (ready s) (upd p lb (last_block s)) (upd p e (eod s))
    (partitions s) (write_pass_prev s) (write_pass s) (files s) (attrs s).

Definition set_write_pass (wp : Z) (s : filedebug_data) : filedebug_data :=
  with_state s (current_position s) (ready s) (last_block s) (eod s) (partitions s)
    (write_pass_prev s) wp (files s) (attrs s).

Definition set_attrs (ats : gmap (Z * Z) (list Z)) (s : filedebug_data) : filedebug_data :=
  with_state s (current_position s) (ready s) (last_block s) (eod s) (partitions s)
    (write_pass_prev s) (write_pass s) (files s) ats.

Definition set_partitions (n : Z) (s : filedebug_data) : filedebug_data :=
  with_state s (current_position s) (ready s) (last_block s) (eod s) n (write_pass_prev s)
    (write_pass s) (files s) (attrs s).

(** Current partition and block. *)
Definition cur_part (s : filedebug_data) : Z := partition (current_position s).
Definition cur_block (s : filedebug_data) : Z := block (current_position s).

(** ** Files of the directory *)

(** [open(fname, O_RDWR)] then [close]: 1 when the file exists, 0 otherwise. *)
Definition _filedebug_check_file (s : filedebug_data) (part pos suffix : Z) : Z :=
  match files s !! (part, pos, suffix) with Some _ => 1 | None => 0 end.

(** [unlink] of the three possible names of the record. *)
Definition remove_record_files (part blknum : Z) (fs : gmap (Z * Z * Z) (list Z)) :=
  delete (part, blknum, SUFFIX_EOD)
    (delete (part, blknum, SUFFIX_FILEMARK) (delete (part, blknum, SUFFIX_RECORD) fs)).

Definition _filedebug_remove_record (part blknum : Z) (s : filedebug_data) : Z * filedebug_data :=
  (DEVICE_GOOD, set_files (remove_record_files part blknum (files s)) s).

Definition _filedebug_remove_current_record (s : filedebug_data) : Z * filedebug_data :=
  _filedebug_remove_record (cur_part s) (cur_block s) s.

(** The loop [for (i = from; i <= eod; ++i)] over the records behind the new
    end of data; [n] is the number of iterations. *)
Fixpoint remove_records (n : nat) (part i : Z) (s : filedebug_data) : filedebug_data :=
  match n with
  | O => s
  | S n' => remove_records n' part (u64 (i + 1)) (_filedebug_remove_record part i s).2
  end.

Definition _filedebug_write_eod (s : filedebug_data) : Z * filedebug_data :=
  let p := cur_part s in
  let b := cur_block s in
  let remove_extra_rec := negb (sel p (eod s) =? MISSING_EOD) in
  (* remove any existing record at this position *)
  let s1 := (_filedebug_remove_current_record s).2 in
  (* create EOD record *)
  let s2 := set_files (<[(p, b, SUFFIX_EOD) := []]> (files s1)) s1 in
  let s3 := if remove_extra_rec
            then remove_records (Z.to_nat (sel p (eod s2) - b)) p (u64 (b + 1)) s2
            else s2 in
  (DEVICE_GOOD, set_eod p (u64 (b - 1)) b s3).

(** ** Attributes and the write pass *)

Definition filedebug_read_attribute (part id size : Z) (s : filedebug_data) : Z * list Z :=
  match attrs s !! (part, id) with
  | None => (- EDEV_CM_PERM, [])
  | Some f => (DEVICE_GOOD, take (Z.to_nat size) f)
  end.

(** The loop over the attributes of [buf]: each one found creates the file of
    its id, with the whole buffer as contents.  [None] is a read past the end of
    the buffer; one step consumes at least five bytes, so [size] steps are
    enough. *)
Fixpoint write_attributes (fuel : nat) (part i : Z) (buf : list Z)
    (ats : gmap (Z * Z) (list Z)) : option (gmap (Z * Z) (list Z)) :=
  match fuel with
  | O => None
  | S fuel' =>
      if Z.of_nat (length buf) >? i then
        match ltfs_betou16 (drop (Z.to_nat i) buf), ltfs_betou16 (drop (Z.to_nat (i + 3)) buf) with
        | Some id, Some attr_size =>
            write_attributes fuel' part (i + (attr_size + 5)) buf (<[(part, id) := buf]> ats)
        | _, _ => None
        end
      else Some ats
  end.

Definition filedebug_write_attribute (part : Z) (buf : list Z) (s : filedebug_data)
    : option (Z * filedebug_data) :=
  match write_attributes (S (length buf)) part 0 buf (attrs s) with
  | Some ats => Some (DEVICE_GOOD, set_attrs ats s)
  | None => None
  end.

Definition wp_data (wp : Z) : list Z :=
  ltfs_u16tobe TC_MAM_PAGE_VCR ++ [0] ++ ltfs_u16tobe TC_MAM_PAGE_VCR_SIZE ++ ltfs_u32tobe (u32 wp).

(** [filedebug_write_attribute] on [wp_data], which holds one whole attribute,
    never reads past its end ([set_wp_attribute] below). *)
Definition _set_wp (wp : Z) (s : filedebug_data) : Z * filedebug_data :=
  match filedebug_write_attribute 0 (wp_data wp) s with
  | Some r => r
  | None => (- EDEV_CM_PERM, s)
  end.

Definition _get_wp (s : filedebug_data) : Z * Z * filedebug_data :=
  let '(ret, data) := filedebug_read_attribute 0 TC_MAM_PAGE_VCR
                        (TC_MAM_PAGE_VCR_SIZE + TC_MAM_PAGE_HEADER_SIZE) s in
  if ret =? 0 then
    (* the buffer was zeroed before the read *)
    let full := data ++ replicate (9 - length data) 0 in
    (ret, default 0 (ltfs_betou32 (drop 5 full)), s)
  else
    let '(ret, s') := _set_wp 1 s in (ret, 0, s').

(** "Increment Write Pass for consistency check", shared by the two writers. *)
Definition bump_write_pass (s : filedebug_data) : Z * filedebug_data :=
  if write_pass_prev s =? write_pass s then
    let s1 := set_write_pass (u64 (write_pass s + 1)) s in
    _set_wp (write_pass s1) s1
  else (0, s).

(** ** Early warnings *)

(** The warning tests after a locate, a space or a file mark. *)
Definition set_pos_warnings (s : filedebug_data) (pos : tc_position) : tc_position :=
  let p := cur_part s in
  let b := cur_block s in
  let ew :=
    if negb (p0_warning s =? 0) && (p =? 0) && (b >=? p0_warning s) then true
    else if negb (p1_warning s =? 0) && (p =? 1) && (b >=? p1_warning s) then true
    else early_warning pos in
  let pew :=
    if negb (p0_p_warning s =? 0) && (p =? 0) && (b >=? p0_p_warning s) then true
    else if negb (p1_p_warning s =? 0) && (p =? 1) && (b >=? p1_p_warning s) then true
    else programmable_early_warning pos in
  set_warnings ew pew pos.

(** In [filedebug_write] the programmable warning is raised only by the write
    that moves into the zone. *)
Definition set_write_warnings (s : filedebug_data) (pos : tc_position) : tc_position :=
  let p := cur_part s in
  let b := cur_block s in
  let ew :=
    if negb (p0_warning s =? 0) && (p =? 0) && (b >=? p0_warning s) then true
    else if negb (p1_warning s =? 0) && (p =? 1) && (b >=? p1_warning s) then true
    else early_warning pos in
  let pew :=
    if negb (p0_p_warning s =? 0) && (p =? 0) && (b =? p0_p_warning s) then true
    else if negb (p1_p_warning s =? 0) && (p =? 1) && (b =? p1_p_warning s) then true
    else programmable_early_warning pos in
  set_warnings ew pew pos.

(** ** Data path *)

Definition filedebug_test_unit_ready (s : filedebug_data) : Z :=
  if negb (ready s) then - EDEV_NEED_INITIALIZE else DEVICE_GOOD.

Definition filedebug_read (count : Z) (unusual_size : bool) (pos : tc_position)
    (s : filedebug_data) : Z * list Z * tc_position * filedebug_data :=
  let p := cur_part s in
  let b := cur_block s in
  if negb (ready s) then (- EDEV_NOT_READY, [], pos, s)
  (* check for EOD (reading is an error) *)
  else if sel p (eod s) =? b then (- EDEV_EOD_DETECTED, [], pos, s)
  else if _filedebug_check_file s p b SUFFIX_EOD >? 0 then (- EDEV_EOD_NOT_FOUND, [], pos, s)
  (* check for filemark (reading returns 0 bytes and advances the position) *)
  else if _filedebug_check_file s p b SUFFIX_FILEMARK >? 0 then
    let cur := set_filemarks (u64 (filemarks (current_position s) + 1))
                 (set_block (u64 (b + 1)) (current_position s)) in
    (0, [], set_filemarks (filemarks cur) (set_block (block cur) pos), set_current cur s)
  else
    (* check for record *)
    match files s !! (p, b, SUFFIX_RECORD) with
    | Some content =>
        let buf := take (Z.to_nat count) content in
        let cur := set_block (u64 (b + 1)) (current_position s) in
        (s32 (Z.of_nat (length buf)), buf, set_block (block cur) pos, set_current cur s)
    | None => (- EDEV_RW_PERM, [], pos, s)
    end.

(** Creating the record file, stepping over it and moving the end of data. *)
Definition write_record (buf : list Z) (pos : tc_position) (s : filedebug_data)
    : Z * tc_position * filedebug_data :=
  let s1 := set_files (<[(cur_part s, cur_block s, SUFFIX_RECORD) := buf]> (files s)) s in
  let s2 := set_current (set_block (u64 (cur_block s1 + 1)) (current_position s1)) s1 in
  let pos := set_block (cur_block s2) pos in
  let '(rc, s3) := _filedebug_write_eod s2 in
  if rc <? 0 then (rc, pos, s3)
  else (s32 (Z.of_nat (length buf)), set_write_warnings s3 pos, s3).

Definition filedebug_write (buf : list Z) (pos : tc_position) (s : filedebug_data)
    : Z * tc_position * filedebug_data :=
  let count := Z.of_nat (length buf) in
  if negb (ready s) then (- EDEV_NOT_READY, pos, s)
  else if count =? 0 then (0, pos, s)
  else if count >? max_block_size s then (- EDEV_INVALID_ARG, pos, s)
  else
    (* clean up old records at this position *)
    let '(rc, s1) := _filedebug_remove_current_record s in
    if rc <? 0 then (rc, pos, s1)
    else
      let '(rc, s2) := bump_write_pass s1 in
      if rc <? 0 then (rc, pos, s2) else write_record buf pos s2.

(** One iteration of the loop of [filedebug_writefm]. *)
Definition write_one_fm (pos : tc_position) (s : filedebug_data)
    : Z * tc_position * filedebug_data :=
  let '(rc, s1) := _filedebug_remove_current_record s in
  if rc <? 0 then (rc, pos, s1)
  else
    let s2 := set_files (<[(cur_part s1, cur_block s1, SUFFIX_FILEMARK) := []]> (files s1)) s1 in
    let cur := set_filemarks (u64 (filemarks (current_position s2) + 1))
                 (set_block (u64 (cur_block s2 + 1)) (current_position s2)) in
    let s3 := set_current cur s2 in
    let pos := set_filemarks (filemarks cur) (set_block (block cur) pos) in
    let '(rc, s4) := _filedebug_write_eod s3 in
    (rc, pos, s4).

Fixpoint write_fms (n : nat) (pos : tc_position) (s : filedebug_data)
    : Z * tc_position * filedebug_data :=
  match n with
  | O => (0, pos, s)
  | S n' =>
      let '(rc, pos', s') := write_one_fm pos s in
      if rc <? 0 then (rc, pos', s') else write_fms n' pos' s'
  end.

Definition filedebug_writefm (count : Z) (immed : bool) (pos : tc_position) (s : filedebug_data)
    : Z * tc_position * filedebug_data :=
  if negb (ready s) then (- EDEV_NOT_READY, pos, s)
  else if count =? 0 then (DEVICE_GOOD, pos, s)
  else
    let '(rc, s1) := bump_write_pass s in
    if rc <? 0 then (rc, pos, s1)
    else
      let '(rc, pos', s2) := write_fms (Z.to_nat count) pos s1 in
      if rc <? 0 then (rc, pos', s2) else (rc, set_pos_warnings s2 pos', s2).

(** ** Positioning *)

Definition filedebug_rewind (pos : tc_position) (s : filedebug_data)
    : Z * tc_position * filedebug_data :=
  if negb (ready s) then (- EDEV_NOT_READY, pos, s)
  else
    let cur := set_filemarks 0 (set_block 0 (current_position s)) in
    (DEVICE_GOOD, set_warnings false false (set_filemarks 0 (set_block 0 pos)), set_current cur s).

(** The loop counting the file marks of partition [p] below block [n]. *)
Fixpoint count_filemarks (n : nat) (p i : Z) (s : filedebug_data) : Z :=
  match n with
  | O => 0
  | S n' =>
      (if _filedebug_check_file s p i SUFFIX_FILEMARK =? 1 then 1 else 0)
      + count_filemarks n' p (i + 1) s
  end.

(** What [filedebug_locate] and [filedebug_space] do once the head has moved:
    recount the file marks and report the position. *)
Definition report_position (pos : tc_position) (s : filedebug_data)
    : tc_position * filedebug_data :=
  let fm := u64 (count_filemarks (Z.to_nat (cur_block s)) (cur_part s) 0 s) in
  let s' := set_current (set_filemarks fm (current_position s)) s in
  (set_pos_warnings s' (set_filemarks fm pos), s').

Definition filedebug_locate (dest pos : tc_position) (s : filedebug_data)
    : Z * tc_position * filedebug_data :=
  if negb (ready s) then (- EDEV_NOT_READY, pos, s)
  else if (partition dest >=? MAX_PARTITIONS) || (partition dest <? 0)
  then (- EDEV_INVALID_ARG, pos, s)
  else
    let p := partition dest in
    let b :=
      if (sel p (eod s) =? MISSING_EOD) && (sel p (last_block s) <? block dest)
      then u64 (sel p (last_block s) + 1)
      else if sel p (eod s) <? block dest then sel p (eod s)
      else block dest in
    let s1 := set_current (set_block b (set_partition p (current_position s))) s in
    let '(pos', s2) := report_position (set_block b (set_partition p pos)) s1 in
    (0, pos', s2).

(** The loops of [_filedebug_space_fm]; [fuel] bounds the number of blocks
    visited and [None] is a loop that has not ended within it. *)
Fixpoint space_fm_fwd (fuel : nat) (count fm_count : Z) (s : filedebug_data)
    : option (Z * filedebug_data) :=
  match fuel with
  | O => None
  | S fuel' =>
      let p := cur_part s in
      let b := cur_block s in
      if b =? sel p (eod s) then Some (- EDEV_EOD_DETECTED, s)
      else if b =? u64 (sel p (last_block s) + 1) then Some (- EDEV_RW_PERM, s)
      else
        let next := set_current (set_block (u64 (b + 1)) (current_position s)) s in
        if _filedebug_check_file s p b SUFFIX_FILEMARK >? 0 then
          if fm_count + 1 =? count then Some (DEVICE_GOOD, next)
          else space_fm_fwd fuel' count (fm_count + 1) next
        else space_fm_fwd fuel' count fm_count next
  end.

Fixpoint space_fm_back (fuel : nat) (count fm_count : Z) (s : filedebug_data)
    : option (Z * filedebug_data) :=
  match fuel with
  | O => None
  | S fuel' =>
      let p := cur_part s in
      let b := cur_block s in
      let fm_count' := fm_count + (if _filedebug_check_file s p b SUFFIX_FILEMARK >? 0 then 1 else 0) in
      if (_filedebug_check_file s p b SUFFIX_FILEMARK >? 0) && (fm_count' =? count)
      then Some (DEVICE_GOOD, s)
      else if b =? 0 then Some (- EDEV_BOP_DETECTED, s)
      else space_fm_back fuel' count fm_count'
             (set_current (set_block (u64 (b - 1)) (current_position s)) s)
  end.

(** Enough fuel for either direction: the blocks up to the end of data, or up
    to the last block found when the end of data is missing. *)
Definition space_fuel (s : filedebug_data) : nat :=
  let p := cur_part s in
  let last := if sel p (eod s) =? MISSING_EOD then sel p (last_block s) + 1 else sel p (eod s) in
  Z.to_nat (Z.max last (cur_block s) + 2).

Definition _filedebug_space_fm (count : Z) (back : bool) (s : filedebug_data)
    : option (Z * filedebug_data) :=
  if count =? 0 then Some (DEVICE_GOOD, s)
  else if back then
    let s1 := if cur_block s >? 0
              then set_current (set_block (cur_block s - 1) (current_position s)) s else s in
    space_fm_back (space_fuel s) count 0 s1
  else space_fm_fwd (space_fuel s) count 0 s.

Fixpoint space_rec_loop (fuel : nat) (count rec_count : Z) (back : bool) (s : filedebug_data)
    : option (Z * filedebug_data) :=
  match fuel with
  | O => None
  | S fuel' =>
      let p := cur_part s in
      let b := cur_block s in
      let next := set_current (set_block (u64 (b + 1)) (current_position s)) s in
      let prev := set_current (set_block (u64 (b - 1)) (current_position s)) s in
      if negb back && (b =? sel p (eod s)) then Some (- EDEV_EOD_DETECTED, s)
      else if negb back && (b =? u64 (sel p (last_block s) + 1)) then Some (- EDEV_RW_PERM, s)
      else if (_filedebug_check_file s p b SUFFIX_FILEMARK >? 0) && (negb back || (rec_count >? 0))
      then Some (- EDEV_RW_PERM, if negb back then next else s)
      else if back && (b =? 0) then Some (- EDEV_BOP_DETECTED, s)
      else
        let s' := if back then prev else next in
        if rec_count + 1 =? count then Some (DEVICE_GOOD, s')
        else space_rec_loop fuel' count (rec_count + 1) back s'
  end.

Definition _filedebug_space_rec (count : Z) (back : bool) (s : filedebug_data)
    : option (Z * filedebug_data) :=
  if count =? 0 then Some (DEVICE_GOOD, s) else space_rec_loop (space_fuel s) count 0 back s.

(** The switch of [filedebug_space] over the space type; [inl rc] is an early
    return. *)
Definition space_move (count : Z) (type : TC_SPACE_TYPE) (s : filedebug_data)
    : option ((Z * filedebug_data) + (Z * filedebug_data)) :=
  let missing := cur_block s =? MISSING_EOD in
  let go (r : option (Z * filedebug_data)) :=
    if missing then Some (inl (- EDEV_RW_PERM, s)) else inr <$> r in
  match type with
  | TC_SPACE_EOD =>
      let s1 := set_current (set_block (sel (cur_part s) (eod s)) (current_position s)) s in
      if cur_block s1 =? MISSING_EOD then Some (inl (- EDEV_RW_PERM, s1)) else Some (inr (0, s1))
  | TC_SPACE_FM_F => go (_filedebug_space_fm count false s)
  | TC_SPACE_FM_B => go (_filedebug_space_fm count true s)
  | TC_SPACE_F => go (_filedebug_space_rec count false s)
  | TC_SPACE_B => go (_filedebug_space_rec count true s)
  end.

Definition filedebug_space (count : Z) (type : TC_SPACE_TYPE) (pos : tc_position)
    (s : filedebug_data) : option (Z * tc_position * filedebug_data) :=
  if negb (ready s) then Some (- EDEV_NOT_READY, pos, s)
  else match space_move count type s with
       | None => None
       | Some (inl (rc, s')) => Some (rc, pos, s')
       | Some (inr (rc, s')) =>
           let '(pos', s'') := report_position (set_block (cur_block s') pos) s' in
           Some (rc, pos', s'')
       end.

Definition filedebug_readpos (pos : tc_position) (s : filedebug_data)
    : Z * tc_position * filedebug_data :=
  if negb (ready s) then (- EDEV_NOT_READY, pos, s)
  else
    let cur := current_position s in
    (DEVICE_GOOD, set_filemarks (filemarks cur) (set_block (block cur) (set_partition (partition cur) pos)), s).

(** ** Loading, formatting and the rest of the driver *)

Definition filedebug_erase (pos : tc_position) (long_erase : bool) (s : filedebug_data)
    : Z * tc_position * filedebug_data :=
  if negb (ready s) then (- EDEV_NOT_READY, pos, s)
  else
    let pos := set_filemarks (filemarks (current_position s)) (set_block (cur_block s) pos) in
    let '(ret, s') := _filedebug_write_eod s in (ret, pos, s').

(** The scan of [filedebug_search_eod]: from block 0 on, until an end-of-data
    file is found or neither a record nor a file mark is.  It returns the block
    reached and whether the end-of-data file was there. *)
Fixpoint search_eod_loop (fuel : nat) (p b : Z) (s : filedebug_data) : option (Z * bool) :=
  match fuel with
  | O => None
  | S fuel' =>
      let f0 := _filedebug_check_file s p b SUFFIX_RECORD in
      let f1 := _filedebug_check_file s p b SUFFIX_FILEMARK in
      let f2 := _filedebug_check_file s p b SUFFIX_EOD in
      let again := (negb (f0 =? 0) || negb (f1 =? 0)) && (f2 =? 0) in
      if again then search_eod_loop fuel' p (u64 (b + 1)) s else Some (b, negb (f2 =? 0))
  end.

Definition filedebug_search_eod (p : Z) (s : filedebug_data) : option (Z * filedebug_data) :=
  let s0 := set_current (set_block 0 (set_partition p (current_position s))) s in
  match search_eod_loop (S (size (files s))) p 0 s0 with
  | None => None
  | Some (b, found) =>
      let s1 := set_current (set_block b (current_position s0)) s0 in
      if negb found && negb (b =? 0) then Some (DEVICE_GOOD, set_eod p b MISSING_EOD s1)
      else Some (_filedebug_write_eod s1)
  end.

Definition set_loaded (wp : Z) (s : filedebug_data) : filedebug_data :=
  with_state s (current_position s) (ready s) (last_block s) (eod s) (partitions s) wp wp
    (files s) (attrs s).

(** [filedebug_load] in directory mode (no redirection file). *)
Definition filedebug_load (pos : tc_position) (s : filedebug_data)
    : option (Z * tc_position * filedebug_data) :=
  if ready s then Some (DEVICE_GOOD, pos, s)
  else
    let s0 := with_state s (current_position s) true (last_block s) (eod s) (partitions s)
                (write_pass_prev s) (write_pass s) (files s) (attrs s) in
    match filedebug_search_eod 0 s0 with
    | None => None
    | Some (ret, s1) =>
        if ret <? 0 then Some (- EDEV_INTERNAL_ERROR, pos, s1)
        else match filedebug_search_eod 1 s1 with
             | None => None
             | Some (ret, s2) =>
                 if ret <? 0 then Some (- EDEV_INTERNAL_ERROR, pos, s2)
                 else
                   let cur := set_filemarks 0 (set_block 0 (set_partition 0 (current_position s2))) in
                   let s3 := set_partitions MAX_PARTITIONS (set_current cur s2) in
                   let pos := set_filemarks 0 (set_block 0 (set_partition 0 pos)) in
                   let '(rc, wp, s4) := _get_wp s3 in
                   if negb (rc =? 0) then Some (- EDEV_INTERNAL_ERROR, pos, s4)
                   else Some (DEVICE_GOOD, pos, set_loaded wp s4)
             end
    end.

Definition filedebug_unload (pos : tc_position) (s : filedebug_data)
    : Z * tc_position * filedebug_data :=
  let home (q : tc_position) := set_filemarks 0 (set_block 0 (set_partition 0 q)) in
  (DEVICE_GOOD, home pos,
   with_state s (home (current_position s)) false (last_block s) (eod s) (partitions s)
     (write_pass_prev s) (write_pass s) (files s) (attrs s)).

(** "erase all partitions": partition 1, then partition 0, from block 0; the
    position structure handed to [filedebug_erase] is a scratch one and its
    result is ignored. *)
Definition erase_all (s : filedebug_data) : filedebug_data :=
  let at_bop p q := set_block 0 (set_partition p q) in
  let scratch := current_position s in
  let '(_, _, s1) := filedebug_erase scratch false (set_current (at_bop 1 (current_position s)) s) in
  let '(_, _, s2) := filedebug_erase scratch false (set_current (at_bop 0 (current_position s1)) s1) in
  s2.

Definition filedebug_setcap (proportion : Z) (s : filedebug_data) : Z * filedebug_data :=
  if negb (cur_part s =? 0) || negb (cur_block s =? 0) then (- EDEV_ILLEGAL_REQUEST, s)
  else (DEVICE_GOOD, erase_all (set_partitions 1 s)).

Definition filedebug_format (format : TC_FORMAT_TYPE) (s : filedebug_data) : Z * filedebug_data :=
  if negb (cur_part s =? 0) || negb (cur_block s =? 0) then (- EDEV_ILLEGAL_REQUEST, s)
  else match format with
       | TC_FORMAT_DEFAULT => (DEVICE_GOOD, erase_all (set_partitions 1 s))
       | TC_FORMAT_PARTITION | TC_FORMAT_DEST_PART => (DEVICE_GOOD, erase_all (set_partitions 2 s))
       | TC_FORMAT_MAX => (- EDEV_INVALID_ARG, s)
       end.

Definition filedebug_get_eod_status (part : Z) (s : filedebug_data) : Z :=
  if sel part (eod s) =? MISSING_EOD then EOD_MISSING else EOD_GOOD.

Definition set_flags (reserved locked : bool) (s : filedebug_data) : filedebug_data :=
  {| device_reserved := reserved; medium_locked := locked;
     current_position := current_position s; max_block_size := max_block_size s;
     ready := ready s; last_block := last_block s; eod := eod s; partitions := partitions s;
     write_pass_prev := write_pass_prev s; write_pass := write_pass s;
     emulate_readonly := emulate_readonly s; p0_warning := p0_warning s;
     p1_warning := p1_warning s; p0_p_warning := p0_p_warning s;
     p1_p_warning := p1_p_warning s; files := files s; attrs := attrs s |}.

Definition filedebug_reserve_unit (s : filedebug_data) : Z * filedebug_data :=
  if device_reserved s then (- EDEV_ILLEGAL_REQUEST, s)
  else (DEVICE_GOOD, set_flags true (medium_locked s) s).

Definition filedebug_release_unit (s : filedebug_data) : Z * filedebug_data :=
  (DEVICE_GOOD, set_flags false (medium_locked s) s).

Definition filedebug_prevent_medium_removal (s : filedebug_data) : Z * filedebug_data :=
  if negb (ready s) then (- EDEV_NOT_READY, s)
  else (DEVICE_GOOD, set_flags (device_reserved s) true s).

Definition filedebug_allow_medium_removal (s : filedebug_data) : Z * filedebug_data :=
  if negb (ready s) then (- EDEV_NOT_READY, s)
  else (DEVICE_GOOD, set_flags (device_reserved s) false s).

Definition filedebug_allow_overwrite (pos : tc_position) (s : filedebug_data) : Z * filedebug_data :=
  (DEVICE_GOOD, s).

Definition filedebug_set_key (keyalias key : option (list Z)) (s : filedebug_data)
    : Z * filedebug_data :=
  (- EDEV_UNSUPPORTED_FUNCTION, s).

Definition filedebug_get_keyalias (s : filedebug_data) : Z * list Z * filedebug_data :=
  (- EDEV_UNSUPPORTED_FUNCTION, [], s).

(** [filedebug_open] on a directory: [calloc], then the two fields it sets. *)
Definition filedebug_open (fs : gmap (Z * Z * Z) (list Z)) (ats : gmap (Z * Z) (list Z))
    : filedebug_data :=
  {| device_reserved := false; medium_locked := false;
     current_position := {| block := 0; filemarks := 0; partition := 0; early_warning := false;
                            programmable_early_warning := false |};
     max_block_size := 16 * 1024 * 1024; ready := false; last_block := (0, 0); eod := (0, 0);
     partitions := 0; write_pass_prev := 0; write_pass := 0; emulate_readonly := false;
     p0_warning := 0; p1_warning := 0; p0_p_warning := 0; p1_p_warning := 0;
     files := fs; attrs := ats |}.

(** The operation table.  [filedebug_space] always ends on the states the driver
    reaches ([FileDebugSpec.space_fm_spec]); a call that would not end has no
    result, and stands here as an error.  So does an attribute buffer that
    [filedebug_write_attribute] would read past. *)
Definition filedebug_handler : tape_ops filedebug_data := {|
  op_read := filedebug_read;
  op_write := filedebug_write;
  op_writefm := filedebug_writefm;
  op_locate := filedebug_locate;
  op_space := fun count type pos s =>
    default (- EDEV_UNKNOWN, pos, s) (filedebug_space count type pos s);
  op_readpos := filedebug_readpos;
  op_allow_overwrite := filedebug_allow_overwrite;
  op_read_attribute := filedebug_read_attribute;
  op_write_attribute := fun part buf s =>
    default (- EDEV_UNKNOWN, s) (filedebug_write_attribute part buf s);
  op_get_keyalias := filedebug_get_keyalias;
  op_set_key := filedebug_set_key;
  op_test_unit_ready d := (filedebug_test_unit_ready d, d)
|}.
