(* ===== verification/FileDebugOk.v ===== *)
(** * The file-backed driver meets the backend contract

    [holds s p l]: in partition [p] the directory of [s] contains exactly the
    files of the record sequence [l], followed by the end-of-data file, and the
    driver's counters say so.  Every operation of [FileDebug] is characterised on
    such states, and together they discharge [TapeOk]. *)

From S2P Require Import Prelude Errors Endian TapeOps FileDebug.
Open Scope Z_scope.

(** ** The directory of a record sequence *)

Definition record_file (r : tape_record) (suffix : Z) : option (list Z) :=
  match r with
  | Data bs => if suffix =? SUFFIX_RECORD then Some bs else None
  | Filemark => if suffix =? SUFFIX_FILEMARK then Some [] else None
  end.

(** The file named by block [i] and [suffix], for the records [l]. *)
Definition expected (l : list tape_record) (i suffix : Z) : option (list Z) :=
  if i <? 0 then None
  else if i =? Z.of_nat (length l) then (if suffix =? SUFFIX_EOD then Some [] else None)
  else match l !! Z.to_nat i with Some r => record_file r suffix | None => None end.

Definition files_hold (fs : gmap (Z * Z * Z) (list Z)) (p : Z) (l : list tape_record) : Prop :=
  forall i suffix, fs !! (p, i, suffix) = expected l i suffix.

Definition holds (s : filedebug_data) (p : Z) (l : list tape_record) : Prop :=
  files_hold (files s) p l /\ sel p (eod s) = Z.of_nat (length l)
  /\ sel p (last_block s) = u64 (Z.of_nat (length l) - 1).

(** The write-pass attribute is only ever rewritten; warnings are disabled
    ([filedebug_open] leaves them at zero). *)
Definition filedebug_at (s : filedebug_data) (m : medium) (pos : tc_position) : Prop :=
  ready s = true /\ max_block_size s < 2 ^ 31
  /\ holds s 0 (part0 m) /\ holds s 1 (part1 m)
  /\ valid_part (cur_part s) /\ 0 <= cur_block s <= eod_at m (cur_part s)
  /\ eod_at m 0 < 2 ^ 63 /\ eod_at m 1 < 2 ^ 63
  /\ partition pos = cur_part s /\ block pos = cur_block s.

Lemma holds_part s m p :
  valid_part p -> holds s 0 (part0 m) -> holds s 1 (part1 m) -> holds s p (part_of m p).
Proof. intros [->| ->]; done. Qed.

Lemma expected_record l i suffix r :
  0 <= i -> l !! Z.to_nat i = Some r -> expected l i suffix = record_file r suffix.
Proof.
  intros Hi Hl. unfold expected. pose proof (lookup_lt_Some _ _ _ Hl).
  rewrite (proj2 (Z.ltb_ge i 0)), (proj2 (Z.eqb_neq _ _)) by lia. by rewrite Hl.
Qed.

Lemma expected_eod l suffix :
  expected l (Z.of_nat (length l)) suffix = if suffix =? SUFFIX_EOD then Some [] else None.
Proof. unfold expected. rewrite (proj2 (Z.ltb_ge _ 0)) by lia. by rewrite Z.eqb_refl. Qed.

Lemma expected_beyond l i suffix : Z.of_nat (length l) < i -> expected l i suffix = None.
Proof.
  intros H. unfold expected. rewrite (proj2 (Z.ltb_ge _ 0)), (proj2 (Z.eqb_neq _ _)) by lia.
  rewrite lookup_ge_None_2; [done|lia].
Qed.

Lemma expected_take_app l n r i suffix :
  0 <= n <= Z.of_nat (length l) -> i < n ->
  expected (take (Z.to_nat n) l ++ r) i suffix = expected l i suffix.
Proof.
  intros Hn Hi. unfold expected. destruct (i <? 0) eqn:E; bool_to_prop; [done|].
  rewrite length_app, length_take, !(proj2 (Z.eqb_neq _ _)) by lia.
  rewrite lookup_app_l by (rewrite length_take; lia).
  by rewrite lookup_take_lt by lia.
Qed.

(** ** Removing records *)

Ltac suffix_ne := cbv [SUFFIX_RECORD SUFFIX_FILEMARK SUFFIX_EOD]; congruence.

Lemma lookup_remove_record fs p b q i suffix :
  remove_record_files p b fs !! (q, i, suffix) =
    if decide (q = p /\ i = b /\ (suffix = SUFFIX_RECORD \/ suffix = SUFFIX_FILEMARK \/ suffix = SUFFIX_EOD))
    then None else fs !! (q, i, suffix).
Proof.
  unfold remove_record_files.
  destruct (decide _) as [(-> & -> & [->|[->| ->]])|Hne].
  - rewrite !lookup_delete_ne by suffix_ne.
    apply lookup_delete_eq.
  - rewrite lookup_delete_ne by suffix_ne.
    apply lookup_delete_eq.
  - apply lookup_delete_eq.
  - rewrite !lookup_delete_ne; [done|..]; intros [= ? ? ?]; subst; apply Hne; tauto.
Qed.

Lemma remove_records_frame n p i s :
  current_position (remove_records n p i s) = current_position s
  /\ last_block (remove_records n p i s) = last_block s /\ eod (remove_records n p i s) = eod s
  /\ ready (remove_records n p i s) = ready s
  /\ max_block_size (remove_records n p i s) = max_block_size s.
Proof.
  revert i s. induction n as [|n IH]; intros i s; cbn [remove_records]; [done|].
  destruct (IH (u64 (i + 1)) (_filedebug_remove_record p i s).2) as (-> & -> & -> & -> & ->).
  done.
Qed.

Lemma lookup_remove_records n p b s q i suffix :
  0 <= b -> b + Z.of_nat n < 2 ^ 64 ->
  files (remove_records n p b s) !! (q, i, suffix) =
    if decide (q = p /\ b <= i < b + Z.of_nat n /\
               (suffix = SUFFIX_RECORD \/ suffix = SUFFIX_FILEMARK \/ suffix = SUFFIX_EOD))
    then None else files s !! (q, i, suffix).
Proof.
  revert b s. induction n as [|n IH]; intros b s Hb Hn; cbn [remove_records].
  - rewrite decide_False by lia. done.
  - rewrite u64_small by lia. rewrite IH by lia. cbn [_filedebug_remove_record snd set_files with_state files].
    rewrite lookup_remove_record.
    repeat case_decide; try done; exfalso; lia.
Qed.

(** ** Moving the end of data *)

(** [_filedebug_write_eod] at block [b], when every block below [b] holds the
    records [l] and the directory was consistent before: the partition now holds
    [l] and nothing else. *)
Lemma write_eod_holds s l old :
  valid_part (cur_part s) -> cur_block s = Z.of_nat (length l) -> cur_block s < 2 ^ 63 ->
  sel (cur_part s) (eod s) = Z.of_nat (length old) -> Z.of_nat (length old) < 2 ^ 63 ->
  (forall i suffix, i < cur_block s -> files s !! (cur_part s, i, suffix) = expected l i suffix) ->
  (forall i suffix, cur_block s < i ->
     files s !! (cur_part s, i, suffix) = expected old i suffix) ->
  (forall suffix, suffix <> SUFFIX_RECORD -> suffix <> SUFFIX_FILEMARK -> suffix <> SUFFIX_EOD ->
     files s !! (cur_part s, cur_block s, suffix) = None) ->
  holds (_filedebug_write_eod s).2 (cur_part s) l.
Proof.
  intros Hp Hb Hb63 Heod Hold Hbelow Habove Hother.
  unfold _filedebug_write_eod.
  assert (Hmiss : (sel (cur_part s) (eod s) =? MISSING_EOD) = false)
    by (apply Z.eqb_neq; unfold MISSING_EOD; lia).
  rewrite Hmiss. cbn [negb snd].
  set (s1 := (_filedebug_remove_current_record s).2).
  set (s2 := set_files _ s1).
  assert (Heod2 : eod s2 = eod s) by done. rewrite Heod2, Heod, (u64_small (cur_block s + 1)) by lia.
  set (n := Z.to_nat (Z.of_nat (length old) - cur_block s)).
  destruct (remove_records_frame n (cur_part s) (cur_block s + 1) s2) as (_ & Hlb & He & _ & _).
  split; [|split].
  - intros i suffix. cbn [set_eod with_state files].
    rewrite lookup_remove_records by lia.
    assert (Hfs2 : files s2 !! (cur_part s, i, suffix) =
      if decide (i = cur_block s) then (if suffix =? SUFFIX_EOD then Some [] else None)
      else files s !! (cur_part s, i, suffix)).
    { subst s2 s1. cbn [set_files with_state files _filedebug_remove_current_record
                        _filedebug_remove_record snd].
      rewrite lookup_insert. case_decide as Heq.
      - injection Heq as <- <-. rewrite decide_True by done. by rewrite Z.eqb_refl.
      - rewrite lookup_remove_record. destruct (decide (i = cur_block s)) as [->|Hi].
        + destruct (suffix =? SUFFIX_EOD) eqn:E; bool_to_prop; [congruence|].
          case_decide as D; [done|]. apply Hother; [intros ->; apply D; tauto..|done].
        + case_decide; [lia|done]. }
    rewrite Hfs2. destruct (decide (i = cur_block s)) as [->|Hi].
    + rewrite decide_False by lia. by rewrite Hb, expected_eod.
    + case_decide as D.
      * rewrite expected_beyond; [done|lia].
      * destruct (Z.lt_trichotomy i (cur_block s)) as [Hlt|[?|Hgt]]; [by apply Hbelow|lia|].
        rewrite Habove by done. rewrite (expected_beyond l) by lia.
        destruct (Z.lt_ge_cases (Z.of_nat (length old)) i).
        -- by apply expected_beyond.
        -- assert (~ (suffix = SUFFIX_RECORD \/ suffix = SUFFIX_FILEMARK \/ suffix = SUFFIX_EOD)) as Hs
             by (intros ?; apply D; lia).
           unfold expected. destruct (i <? 0) eqn:?; [done|].
           destruct (i =? _) eqn:?; [destruct (suffix =? SUFFIX_EOD) eqn:?; bool_to_prop; tauto|].
           destruct (old !! _) as [[]|]; [..|done]; cbn;
             [destruct (suffix =? SUFFIX_RECORD) eqn:?|destruct (suffix =? SUFFIX_FILEMARK) eqn:?];
             bool_to_prop; tauto.
  - cbn [set_eod with_state eod]. rewrite sel_upd, Z.eqb_refl by done. done.
  - cbn [set_eod with_state last_block]. rewrite sel_upd, Z.eqb_refl by done. by rewrite Hb.
Qed.

(** ** Frames *)

Lemma holds_frame s s' p l :
  (forall i suffix, files s' !! (p, i, suffix) = files s !! (p, i, suffix)) ->
  sel p (eod s') = sel p (eod s) -> sel p (last_block s') = sel p (last_block s) ->
  holds s p l -> holds s' p l.
Proof.
  intros Hf He Hl (H1 & H2 & H3). split; [|by rewrite He, Hl].
  intros i suffix. by rewrite Hf.
Qed.

(** What an operation on the record files of partition [p] leaves alone. *)
Definition same_elsewhere (p : Z) (s s' : filedebug_data) : Prop :=
  ready s' = ready s /\ max_block_size s' = max_block_size s
  /\ forall q, valid_part q -> q <> p ->
       sel q (eod s') = sel q (eod s) /\ sel q (last_block s') = sel q (last_block s)
       /\ forall i suffix, files s' !! (q, i, suffix) = files s !! (q, i, suffix).

Lemma same_elsewhere_holds p q s s' l :
  same_elsewhere p s s' -> valid_part q -> q <> p -> holds s q l -> holds s' q l.
Proof.
  intros (_ & _ & H) Hq Hne. destruct (H q Hq Hne) as (He & Hl & Hf).
  by apply holds_frame.
Qed.

Lemma same_elsewhere_trans p s1 s2 s3 :
  same_elsewhere p s1 s2 -> same_elsewhere p s2 s3 -> same_elsewhere p s1 s3.
Proof.
  intros (R1 & M1 & H1) (R2 & M2 & H2). split; [congruence|]. split; [congruence|].
  intros q Hq Hne. destruct (H1 q Hq Hne) as (? & ? & F1), (H2 q Hq Hne) as (? & ? & F2).
  split; [congruence|]. split; [congruence|]. intros i x. by rewrite F2, F1.
Qed.

Lemma write_eod_position s :
  current_position (_filedebug_write_eod s).2 = current_position s
  /\ (_filedebug_write_eod s).1 = DEVICE_GOOD.
Proof.
  unfold _filedebug_write_eod. cbn [fst snd set_eod with_state current_position].
  split; [|done]. destruct (negb _); [|done].
  by rewrite (proj1 (remove_records_frame _ _ _ _)).
Qed.

Lemma files_remove_records_other n p b s q i suffix :
  q <> p -> files (remove_records n p b s) !! (q, i, suffix) = files s !! (q, i, suffix).
Proof.
  intros Hne. revert b s. induction n as [|n IH]; intros b s; cbn [remove_records]; [done|].
  rewrite IH. cbn [_filedebug_remove_record snd set_files with_state files].
  rewrite lookup_remove_record. case_decide; [tauto|done].
Qed.

Lemma write_eod_elsewhere s :
  valid_part (cur_part s) -> same_elsewhere (cur_part s) s (_filedebug_write_eod s).2.
Proof.
  intros Hp. unfold _filedebug_write_eod. cbn [snd].
  set (s2 := set_files _ _).
  assert (H2 : same_elsewhere (cur_part s) s s2).
  { split; [done|]. split; [done|]. intros q Hq Hne. split; [done|]. split; [done|]. intros i x.
    subst s2. cbn [set_files with_state files _filedebug_remove_current_record
                   _filedebug_remove_record snd].
    rewrite lookup_insert_ne by congruence. rewrite lookup_remove_record.
    case_decide; [tauto|done]. }
  set (s3 := if negb _ then _ else s2).
  assert (H3 : same_elsewhere (cur_part s) s2 s3).
  { subst s3. destruct (negb _); [|by repeat split].
    destruct (remove_records_frame (Z.to_nat (sel (cur_part s) (eod s2) - cur_block s)) (cur_part s)
      (u64 (cur_block s + 1)) s2) as (_ & Hl & He & Hr & Hm).
    split; [done|]. split; [done|]. intros q Hq Hne. rewrite Hl, He. split; [done|]. split; [done|].
    intros i x. by apply files_remove_records_other. }
  eapply same_elsewhere_trans; [exact H2|]. eapply same_elsewhere_trans; [exact H3|].
  split; [done|]. split; [done|]. intros q Hq Hne. cbn [set_eod with_state eod last_block files].
  rewrite !sel_upd by done. rewrite (proj2 (Z.eqb_neq _ _)) by congruence. done.
Qed.

(** ** The write pass *)

(** Writing the write-pass attribute always succeeds and touches no record. *)
Lemma set_wp_attribute wp s :
  _set_wp wp s = (DEVICE_GOOD, set_attrs (<[(0, TC_MAM_PAGE_VCR) := wp_data wp]> (attrs s)) s).
Proof.
  unfold _set_wp, filedebug_write_attribute, wp_data, ltfs_u32tobe.
  generalize (u8 (u32 wp ≫ 24)) (u8 (u32 wp ≫ 16)) (u8 (u32 wp ≫ 8)) (u8 (u32 wp)).
  intros a b c d. reflexivity.
Qed.

Lemma bump_write_pass_frame s :
  exists wp ats, bump_write_pass s = (0, set_attrs ats (set_write_pass wp s)).
Proof.
  unfold bump_write_pass. destruct (write_pass_prev s =? write_pass s).
  - rewrite set_wp_attribute. by do 2 eexists.
  - exists (write_pass s), (attrs s). by destruct s.
Qed.

(** ** Appending one record *)

Definition record_suffix (r : tape_record) : Z :=
  match r with Data _ => SUFFIX_RECORD | Filemark => SUFFIX_FILEMARK end.

Definition record_content (r : tape_record) : list Z :=
  match r with Data bs => bs | Filemark => [] end.

Lemma expected_other l i suffix :
  suffix <> SUFFIX_RECORD -> suffix <> SUFFIX_FILEMARK -> suffix <> SUFFIX_EOD ->
  expected l i suffix = None.
Proof.
  intros H1 H2 H3. apply Z.eqb_neq in H1, H2, H3. unfold expected, record_file.
  rewrite H1, H2, H3. destruct (i <? 0); [done|]. destruct (i =? _); [done|].
  by destruct (l !! _) as [[]|].
Qed.

Lemma record_file_spec r suffix :
  record_file r suffix = if suffix =? record_suffix r then Some (record_content r) else None.
Proof. by destruct r. Qed.

(** The files once the record [r] replaces what was at block [b]. *)
Lemma replace_record fs p b r l :
  files_hold fs p l -> forall i suffix,
  <[(p, b, record_suffix r) := record_content r]> (remove_record_files p b fs) !! (p, i, suffix) =
    if decide (i = b) then record_file r suffix else expected l i suffix.
Proof.
  intros Hf i suffix. rewrite record_file_spec, lookup_insert. case_decide as H.
  - injection H as <- <-. by rewrite decide_True, Z.eqb_refl.
  - rewrite lookup_remove_record, Hf. destruct (decide (i = b)) as [->|Hi].
    + rewrite (proj2 (Z.eqb_neq _ _)) by congruence.
      case_decide; [done|]. apply expected_other; tauto.
    + by rewrite decide_False by tauto.
Qed.

Lemma append_record_holds s l b r :
  valid_part (cur_part s) -> cur_block s = b + 1 -> 0 <= b <= Z.of_nat (length l) ->
  b + 1 < 2 ^ 63 -> sel (cur_part s) (eod s) = Z.of_nat (length l) -> Z.of_nat (length l) < 2 ^ 63 ->
  (exists fs, files_hold fs (cur_part s) l /\
     files s = <[(cur_part s, b, record_suffix r) := record_content r]>
                 (remove_record_files (cur_part s) b fs)) ->
  holds (_filedebug_write_eod s).2 (cur_part s) (take (Z.to_nat b) l ++ [r]).
Proof.
  intros Hp Hcb Hb Hb63 Heod Hl63 (fs & Hfs & Hfiles).
  assert (Hlen : Z.of_nat (length (take (Z.to_nat b) l ++ [r])) = b + 1)
    by (rewrite length_app, length_take; cbn; lia).
  apply (write_eod_holds s _ l); try (rewrite ?Hcb, ?Hlen; done || lia).
  - intros i suffix Hi. rewrite Hfiles, (replace_record _ _ _ _ l) by done.
    destruct (decide (i = b)) as [->|Hne].
    + rewrite (expected_record _ b suffix r); [done|lia|].
      rewrite lookup_app_r by (rewrite length_take; lia).
      by replace (_ - _)%nat with 0%nat by (rewrite length_take; lia).
    + rewrite expected_take_app by lia. done.
  - intros i suffix Hi. rewrite Hfiles, (replace_record _ _ _ _ l) by done.
    by rewrite decide_False by lia.
  - intros suffix H1 H2 H3. rewrite Hfiles, (replace_record _ _ _ _ l) by done.
    rewrite decide_False by lia. by apply expected_other.
Qed.

(** One record more: the common part of a data write and of a file mark. *)
Lemma append_at s s3 m pos pos3 r :
  filedebug_at s m pos -> block pos + 1 < 2 ^ 63 ->
  files s3 = <[(cur_part s, cur_block s, record_suffix r) := record_content r]>
               (remove_record_files (cur_part s) (cur_block s) (files s)) ->
  eod s3 = eod s -> last_block s3 = last_block s -> ready s3 = ready s ->
  max_block_size s3 = max_block_size s -> cur_part s3 = cur_part s ->
  cur_block s3 = cur_block s + 1 -> partition pos3 = cur_part s -> block pos3 = cur_block s + 1 ->
  filedebug_at (_filedebug_write_eod s3).2 (write_at (partition pos) (block pos) [r] m) pos3.
Proof.
  intros (Hr & Hm & H0 & H1 & Hp & Hb & He0 & He1 & Hpp & Hpb) Hmax Hf Heod Hlb Hr3 Hm3 Hp3 Hb3 Hq3 Hqb3.
  assert (Hl63 : eod_at m (cur_part s) < 2 ^ 63) by (destruct Hp as [->| ->]; done).
  pose proof (holds_part s m _ Hp H0 H1) as (Hfh & Heodp & _).
  assert (Hnew : holds (_filedebug_write_eod s3).2 (cur_part s)
                   (take (Z.to_nat (cur_block s)) (part_of m (cur_part s)) ++ [r])).
  { rewrite <- Hp3. apply (append_record_holds s3 (part_of m (cur_part s3)) (cur_block s) r);
      rewrite ?Hp3, ?Hb3; try done; try lia.
    - by rewrite Heod.
    - exists (files s). by rewrite Hf. }
  assert (Hdiff : same_elsewhere (cur_part s) s s3).
  { split; [done|]. split; [done|]. intros q Hq Hne. rewrite Heod, Hlb, Hf.
    split; [done|]. split; [done|]. intros i x. rewrite lookup_insert_ne by congruence.
    rewrite lookup_remove_record. case_decide; [tauto|done]. }
  pose proof (write_eod_elsewhere s3) as He3. rewrite Hp3 in He3. specialize (He3 Hp).
  pose proof (same_elsewhere_trans _ _ _ _ Hdiff He3) as Hall.
  destruct (write_eod_position s3) as [Hpos3 _]. rewrite Hpp, Hpb.
  assert (Heodw : eod_at (write_at (cur_part s) (cur_block s) [r] m) (cur_part s) = cur_block s + 1)
    by (rewrite eod_write_at; [done|done|lia]).
  assert (Hpart : forall q, valid_part q ->
    holds (_filedebug_write_eod s3).2 q (part_of (write_at (cur_part s) (cur_block s) [r] m) q)).
  { intros q Hq. rewrite part_of_write_at by done. destruct (Z.eqb_spec (cur_part s) q) as [<-|Hne].
    - done.
    - eapply same_elsewhere_holds; [exact Hall|done|congruence|]. by apply holds_part. }
  assert (Heq : forall q, valid_part q ->
    eod_at (write_at (cur_part s) (cur_block s) [r] m) q < 2 ^ 63).
  { intros q Hq. destruct (decide (cur_part s = q)) as [<-|Hne]; [lia|].
    rewrite eod_write_at_ne by done. by destruct Hq as [->| ->]. }
  destruct Hall as (Hra & Hma & _).
  split; [congruence|]. split; [congruence|].
  split; [apply (Hpart 0); by left|]. split; [apply (Hpart 1); by right|].
  unfold cur_part, cur_block in *. rewrite Hpos3, Hp3, Hb3.
  split; [done|]. split; [lia|]. split; [apply (Heq 0); by left|]. split; [apply (Heq 1); by right|].
  done.
Qed.

(** ** The operations *)

Lemma filedebug_write_at buf pos s m rc pos' s' :
  filedebug_at s m pos -> 0 < Z.of_nat (length buf) < 2 ^ 31 -> block pos + 1 < 2 ^ 63 ->
  filedebug_write buf pos s = (rc, pos', s') -> 0 <= rc ->
  rc = Z.of_nat (length buf) /\ partition pos' = partition pos /\ block pos' = block pos + 1
  /\ filedebug_at s' (write_at (partition pos) (block pos) [Data buf] m) pos'.
Proof.
  intros Hat Hlen Hmax Hw Hrc. unfold filedebug_write in Hw.
  destruct (negb (ready s)); [injection Hw as <- _ _; by unfold EDEV_NOT_READY in Hrc|].
  destruct (Z.of_nat (length buf) =? 0) eqn:Hz; bool_to_prop; [lia|].
  destruct (Z.of_nat (length buf) >? max_block_size s);
    [injection Hw as <- _ _; by unfold EDEV_INVALID_ARG in Hrc|].
  cbn [_filedebug_remove_current_record _filedebug_remove_record] in Hw.
  set (s1 := set_files _ s) in Hw. change (DEVICE_GOOD <? 0) with false in Hw. cbv iota in Hw.
  destruct (bump_write_pass_frame s1) as (wp & ats & Hbump). rewrite Hbump in Hw.
  change (0 <? 0) with false in Hw. cbv iota in Hw.
  unfold write_record in Hw.
  match type of Hw with context [_filedebug_write_eod ?x] => set (s3 := x) in Hw end.
  destruct (_filedebug_write_eod s3) as [rc1 s4] eqn:Heod.
  destruct (write_eod_position s3) as [Hpos4 Hrc4]. rewrite Heod in Hpos4, Hrc4. cbn in Hpos4, Hrc4.
  rewrite Hrc4 in Hw. change (DEVICE_GOOD <? 0) with false in Hw. cbv iota in Hw.
  injection Hw as <- <- <-.
  pose proof Hat as (_ & _ & _ & _ & _ & Hb & _ & _ & Hpp & Hpb).
  rewrite s32_small by lia. split; [done|].
  assert (Hcb : cur_block s3 = cur_block s + 1).
  { subst s3 s1. cbn. apply u64_small. unfold cur_block in *. lia. }
  split; [done|]. split; [cbn [set_write_warnings set_warnings set_block block]; rewrite Hcb; lia|].
  replace s4 with (_filedebug_write_eod s3).2 by (by rewrite Heod).
  by apply append_at with (s := s).
Qed.

Lemma write_one_fm_at pos s m :
  filedebug_at s m pos -> block pos + 1 < 2 ^ 63 ->
  exists pos' s', write_one_fm pos s = (0, pos', s')
  /\ partition pos' = partition pos /\ block pos' = block pos + 1
  /\ filedebug_at s' (write_at (partition pos) (block pos) [Filemark] m) pos'.
Proof.
  intros Hat Hmax. unfold write_one_fm.
  cbn [_filedebug_remove_current_record _filedebug_remove_record].
  change (DEVICE_GOOD <? 0) with false. cbv iota.
  match goal with |- context [_filedebug_write_eod ?x] => set (s3 := x) end.
  destruct (_filedebug_write_eod s3) as [rc1 s4] eqn:Heod.
  destruct (write_eod_position s3) as [_ Hrc4]. rewrite Heod in Hrc4. cbn in Hrc4. subst rc1.
  do 2 eexists. split; [reflexivity|].
  pose proof Hat as (_ & _ & _ & _ & _ & Hb & _ & _ & Hpp & Hpb).
  assert (Hcb : cur_block s3 = cur_block s + 1).
  { subst s3. cbn. apply u64_small. unfold cur_block in *. lia. }
  change (block (set_filemarks _ (set_block _ (current_position _)))) with (cur_block s3).
  split; [done|]. split; [cbn [set_filemarks set_block block]; lia|].
  replace s4 with (_filedebug_write_eod s3).2 by (by rewrite Heod).
  by apply append_at with (s := s).
Qed.

Lemma write_fms_at n pos s m :
  filedebug_at s m pos -> block pos + Z.of_nat n < 2 ^ 63 ->
  exists pos' s', write_fms n pos s = (0, pos', s')
  /\ partition pos' = partition pos /\ block pos' = block pos + Z.of_nat n
  /\ filedebug_at s' (match n with O => m | _ =>
       write_at (partition pos) (block pos) (replicate n Filemark) m end) pos'.
Proof.
  revert pos s m. induction n as [|n IH]; intros pos s m Hat Hmax; cbn [write_fms].
  - exists pos, s. split; [done|]. split; [done|]. split; [lia|done].
  - destruct (write_one_fm_at pos s m Hat ltac:(lia)) as (pos1 & s1 & -> & Hp1 & Hb1 & Hat1).
    change (0 <? 0) with false. cbv iota.
    destruct (IH _ _ _ Hat1 ltac:(lia)) as (pos2 & s2 & -> & Hp2 & Hb2 & Hat2).
    exists pos2, s2. split; [done|]. split; [congruence|]. split; [lia|].
    destruct n as [|n]; [done|]. rewrite Hp1, Hb1 in Hat2.
    pose proof Hat as (_ & _ & _ & _ & Hv & Hb & _ & _ & Hpp & Hpb).
    change 1 with (Z.of_nat (length [Filemark])) in Hat2.
    rewrite write_at_write_at in Hat2; [done|by rewrite Hpp|by rewrite Hpp, Hpb].
Qed.

Lemma filedebug_writefm_at n immed pos s m rc pos' s' :
  filedebug_at s m pos -> 0 <= n < 256 -> block pos + n < 2 ^ 63 ->
  filedebug_writefm n immed pos s = (rc, pos', s') -> 0 <= rc ->
  rc = 0 /\ partition pos' = partition pos /\ block pos' = block pos + n
  /\ filedebug_at s' (if n =? 0 then m
       else write_at (partition pos) (block pos) (replicate (Z.to_nat n) Filemark) m) pos'.
Proof.
  intros Hat Hn Hmax Hw Hrc. unfold filedebug_writefm in Hw.
  destruct (negb (ready s)); [injection Hw as <- _ _; by unfold EDEV_NOT_READY in Hrc|].
  destruct (n =? 0) eqn:Hz; bool_to_prop.
  - injection Hw as <- <- <-. split; [done|]. split; [done|]. split; [lia|done].
  - destruct (bump_write_pass_frame s) as (wp & ats & Hbump). rewrite Hbump in Hw.
    change (0 <? 0) with false in Hw. cbv iota in Hw.
    assert (Hat1 : filedebug_at (set_attrs ats (set_write_pass wp s)) m pos) by exact Hat.
    destruct (write_fms_at (Z.to_nat n) pos _ m Hat1 ltac:(lia)) as (p2 & s2 & Hf & Hp & Hb & Hat2).
    rewrite Hf in Hw. change (0 <? 0) with false in Hw. cbv iota in Hw. injection Hw as <- <- <-.
    split; [done|]. split; [done|]. split; [cbn; lia|].
    destruct (Z.to_nat n) eqn:E; [lia|]. exact Hat2.
Qed.

(** Recounting the file marks moves nothing. *)
Lemma report_position_at s m pos pos1 s1 :
  filedebug_at s m pos -> report_position pos s = (pos1, s1) ->
  filedebug_at s1 m pos1 /\ partition pos1 = partition pos /\ block pos1 = block pos.
Proof. intros H [= <- <-]. split; [exact H|done]. Qed.

Lemma filedebug_locate_at dest pos s m rc pos' s' :
  filedebug_at s m pos -> valid_part (partition dest) -> 0 <= block dest ->
  filedebug_locate dest pos s = (rc, pos', s') -> 0 <= rc ->
  rc = 0 /\ filedebug_at s' m pos' /\ partition pos' = partition dest
  /\ block pos' = Z.min (block dest) (eod_at m (partition dest)).
Proof.
  intros Hat Hv Hd Hl Hrc. pose proof Hat as (Hr & Hm & H0 & H1 & _ & _ & He0 & He1 & _ & _).
  unfold filedebug_locate in Hl. rewrite Hr in Hl. cbn [negb] in Hl.
  destruct ((partition dest >=? MAX_PARTITIONS) || (partition dest <? 0));
    [injection Hl as <- _ _; by unfold EDEV_INVALID_ARG in Hrc|].
  pose proof (holds_part s m _ Hv H0 H1) as (_ & Heod & _).
  assert (Hlt : eod_at m (partition dest) < 2 ^ 63) by (destruct Hv as [->| ->]; done).
  unfold eod_at in *. rewrite Heod in Hl.
  rewrite (proj2 (Z.eqb_neq (Z.of_nat _) MISSING_EOD)) in Hl by (unfold MISSING_EOD; lia).
  cbn [andb] in Hl.
  set (b := if _ <? _ then _ else block dest) in Hl.
  assert (Hb : b = Z.min (block dest) (Z.of_nat (length (part_of m (partition dest))))).
  { subst b. destruct (_ <? _) eqn:E; bool_to_prop; lia. }
  destruct (report_position _ _) as [pos2 s2] eqn:Hrep. injection Hl as <- <- <-.
  apply report_position_at with (m := m) in Hrep as (Hat2 & -> & ->).
  - split; [done|]. split; [exact Hat2|]. done.
  - split; [done|]. split; [done|]. split; [exact H0|]. split; [exact H1|].
    unfold cur_part, cur_block, eod_at. cbn. split; [done|]. split; [lia|]. done.
Qed.

Lemma check_file_holds s p l i suffix :
  holds s p l -> _filedebug_check_file s p i suffix =
                 match expected l i suffix with Some _ => 1 | None => 0 end.
Proof. intros (H & _). unfold _filedebug_check_file. by rewrite H. Qed.

Lemma filedebug_read_at count u pos s m rc buf pos' s' :
  filedebug_at s m pos -> 0 <= count < 2 ^ 31 ->
  filedebug_read count u pos s = (rc, buf, pos', s') -> 0 <= rc ->
  filedebug_at s' m pos' /\ partition pos' = partition pos
  /\ block pos' = block pos + 1 /\ rc = Z.of_nat (length buf)
  /\ match record_at m (partition pos) (block pos) with
     | Some (Data bs) => buf = take (Z.to_nat count) bs
     | Some Filemark => buf = []
     | None => False
     end.
Proof.
  intros Hat Hc Hread Hrc. pose proof Hat as (Hr & Hm & H0 & H1 & Hv & Hb & He0 & He1 & Hpp & Hpb).
  unfold filedebug_read in Hread. rewrite Hr in Hread. cbn [negb] in Hread.
  pose proof (holds_part s m _ Hv H0 H1) as Hholds. pose proof Hholds as (Hfs & Heod & _).
  assert (Hlt : eod_at m (cur_part s) < 2 ^ 63) by (destruct Hv as [->| ->]; done).
  rewrite Heod in Hread. unfold eod_at in *.
  destruct (Z.of_nat (length (part_of m (cur_part s))) =? cur_block s) eqn:E; bool_to_prop;
    [injection Hread as <- _ _ _; by unfold EDEV_EOD_DETECTED in Hrc|].
  assert (exists r, part_of m (cur_part s) !! Z.to_nat (cur_block s) = Some r) as [r Hrec]
    by (apply lookup_lt_is_Some_2; lia).
  assert (Hra : record_at m (partition pos) (block pos) = Some r).
  { unfold record_at. rewrite Hpp, Hpb. by rewrite (proj2 (Z.ltb_ge _ 0)) by lia. }
  rewrite Hra. rewrite !(check_file_holds _ _ _ _ _ Hholds), Hfs in Hread.
  rewrite !(expected_record _ _ _ r) in Hread by (done || lia).
  assert (Hstep : forall cur posn, partition cur = cur_part s -> block cur = cur_block s + 1 ->
            partition posn = partition pos -> block posn = block cur ->
            filedebug_at (set_current cur s) m posn).
  { intros cur posn Hcp Hcb Hqp Hqb. split; [done|]. split; [done|]. split; [exact H0|].
    split; [exact H1|]. unfold cur_part, cur_block, eod_at in *. cbn. rewrite Hcp.
    split; [done|]. split; [lia|]. split; [done|]. split; [done|]. split; congruence. }
  assert (Hu : u64 (cur_block s + 1) = cur_block s + 1) by (apply u64_small; lia).
  destruct r as [bs|]; cbn in Hread; injection Hread as <- <- <- <-; rewrite Hu.
  - split; [by apply Hstep|]. split; [done|]. cbn [set_block block]. split; [lia|].
    split; [|done]. rewrite s32_small; [done|]. rewrite length_take. lia.
  - split; [by apply Hstep|]. split; [done|]. cbn. split; [lia|]. done.
Qed.

Lemma filedebug_readpos_at any pos s m rc pos' s' :
  filedebug_at s m pos -> filedebug_readpos any s = (rc, pos', s') -> 0 <= rc ->
  filedebug_at s' m pos' /\ partition pos' = partition pos /\ block pos' = block pos.
Proof.
  intros (Hr & Hm & H0 & H1 & Hv & Hb & He0 & He1 & Hpp & Hpb) Hp Hrc.
  unfold filedebug_readpos in Hp. rewrite Hr in Hp. cbn [negb] in Hp. injection Hp as <- <- <-.
  unfold cur_part, cur_block in *. split; [|by rewrite Hpp, Hpb].
  by repeat (split; [assumption|]).
Qed.

Lemma filedebug_write_attribute_at part buf pos s m :
  filedebug_at s m pos ->
  filedebug_at (default (- EDEV_UNKNOWN, s) (filedebug_write_attribute part buf s)).2 m pos.
Proof.
  intros Hat. unfold filedebug_write_attribute. case_match; [|exact Hat]. exact Hat.
Qed.

(** The driver meets the contract. *)
#[export] Instance filedebug_ok : TapeOk filedebug_handler filedebug_at.
Proof.
  split.
  - intros s m pos (_ & _ & _ & _ & Hv & Hb & He0 & He1 & -> & ->). done.
  - intros. by eapply filedebug_locate_at.
  - intros. by eapply filedebug_read_at.
  - intros. by eapply filedebug_write_at.
  - intros. by eapply filedebug_writefm_at.
  - intros. by eapply filedebug_readpos_at.
  - intros ? ? ? ? ? ? Hat H. by injection H as _ <-.
  - intros part buf pos s m rc s' Hat H. cbn in H.
    pose proof (filedebug_write_attribute_at part buf pos s m Hat) as Hat'. by rewrite H in Hat'.
  - intros ? ? ? ? ? ? Hat H. by injection H as _ _ <-.
  - intros ? ? ? ? ? ? ? Hat H. by injection H as _ <-.
Qed.

#[export] Instance filedebug_attribute_ok : AttributeOk filedebug_handler.
Proof.
  split. intros part id len data d rc d' Hid Hlen Hr Hw Hrc. cbn -[app] in Hw |- *.
  set (hdr := [id / 256; id mod 256; 0; len / 256; len mod 256]) in *.
  assert (Hb : forall x, 0 <= x < 2 ^ 16 -> x / 256 * 256 + x mod 256 = x)
    by (intros x _; pose proof (Z.div_mod x 256); lia).
  assert (Hl : Z.of_nat (length (hdr ++ data)) = len + 5) by (rewrite length_app; cbn; lia).
  unfold filedebug_write_attribute in Hw.
  replace (S (length (hdr ++ data))) with (S (S (Z.to_nat (len + 4)))) in Hw by lia.
  cbn [write_attributes] in Hw. rewrite Hl in Hw.
  rewrite (proj2 (Z.gtb_lt _ _)) in Hw by lia.
  change (drop (Z.to_nat 0) (hdr ++ data)) with (hdr ++ data) in Hw.
  change (drop (Z.to_nat (0 + 3)) (hdr ++ data)) with ([len / 256; len mod 256] ++ data) in Hw.
  cbn [hdr app ltfs_betou16] in Hw. change (2 ^ 8) with 256 in Hw. rewrite !Hb in Hw by done.
  rewrite Z.add_0_l in Hw.
  rewrite Z.gtb_ltb, (proj2 (Z.ltb_ge _ _)) in Hw by lia.
  injection Hw as <- <-. unfold filedebug_read_attribute. cbn [attrs set_attrs with_state].
  rewrite lookup_insert_eq. unfold TC_MAM_PAGE_HEADER_SIZE. f_equal.
  apply take_ge. rewrite <- Hl. unfold hdr. by rewrite Nat2Z.id.
Qed.
