(* ===== verification/FileDebugSpec.v ===== *)
(** * What the file-backed driver does

    The properties of the driver of [FileDebug] as a tape: total correctness of
    the write / locate / read cycle, spacing over file marks against a reference
    function on the record sequence, and loading a tape back from its
    directory. *)

From S2P Require Import Prelude Errors Endian TapeOps FileDebug FileDebugOk.
Open Scope Z_scope.

(** ** Spacing over file marks *)

Definition moved_to (b : Z) (s : filedebug_data) : filedebug_data :=
  set_current (set_block b (current_position s)) s.

Lemma moved_to_moved_to b1 b2 s : moved_to b2 (moved_to b1 s) = moved_to b2 s.
Proof. reflexivity. Qed.

Lemma moved_to_self s : moved_to (cur_block s) s = s.
Proof. destruct s as [? ? [] ? ? ? ? ? ? ? ? ? ? ? ? ? ?]. reflexivity. Qed.

Lemma filemark_check s p l i r :
  holds s p l -> 0 <= i -> l !! Z.to_nat i = Some r ->
  (_filedebug_check_file s p i SUFFIX_FILEMARK >? 0) = bool_decide (r = Filemark).
Proof.
  intros Hh Hi Hr. rewrite (check_file_holds _ _ _ _ _ Hh), (expected_record _ _ _ r) by done.
  by destruct r.
Qed.

Lemma filemark_check_eod s p l :
  holds s p l -> (_filedebug_check_file s p (Z.of_nat (length l)) SUFFIX_FILEMARK >? 0) = false.
Proof. intros Hh. by rewrite (check_file_holds _ _ _ _ _ Hh), expected_eod. Qed.

(** The forward loop, from block [b] with [k] of [count] file marks seen. *)
Lemma space_fm_fwd_spec fuel s l b k count :
  holds s (cur_part s) l -> valid_part (cur_part s) -> Z.of_nat (length l) < 2 ^ 63 ->
  0 <= b <= Z.of_nat (length l) -> 0 <= k < count -> Z.of_nat (length l) - b < Z.of_nat fuel ->
  space_fm_fwd fuel count k (moved_to b s) =
    Some (match fwd_fm (drop (Z.to_nat b) l) b (count - k) with
          | Some b' => (DEVICE_GOOD, moved_to b' s)
          | None => (- EDEV_EOD_DETECTED, moved_to (Z.of_nat (length l)) s)
          end).
Proof.
  intros Hh Hv Hl63. revert b k. induction fuel as [|fuel IH]; intros b k Hb Hk Hfuel; [lia|].
  cbn [space_fm_fwd].
  change (cur_part (moved_to b s)) with (cur_part s). change (cur_block (moved_to b s)) with b.
  change (eod (moved_to b s)) with (eod s). change (last_block (moved_to b s)) with (last_block s).
  change (_filedebug_check_file (moved_to b s)) with (_filedebug_check_file s).
  destruct Hh as (Hf & He & Hlb). rewrite He, Hlb.
  destruct (Z.eqb_spec b (Z.of_nat (length l))) as [->|Hne].
  { rewrite drop_ge by lia. reflexivity. }
  rewrite (proj2 (Z.eqb_neq b _)).
  2:{ unfold u64. rewrite Zplus_mod_idemp_l. rewrite Z.mod_small by lia. lia. }
  destruct (lookup_lt_is_Some_2 l (Z.to_nat b)) as [r Hr]; [lia|].
  rewrite (filemark_check s _ l b r) by (done || lia).
  rewrite (drop_S l r) by done. replace (S (Z.to_nat b)) with (Z.to_nat (b + 1)) by lia.
  rewrite u64_small by lia.
  change (set_current (set_block (b + 1) (current_position (moved_to b s))) (moved_to b s))
    with (moved_to (b + 1) s).
  destruct r as [bs|]; cbn [bool_decide decide_rel tape_record_eq_dec fwd_fm].
  - rewrite bool_decide_false by done. apply IH; lia.
  - rewrite bool_decide_true by done.
    destruct (Z.eqb_spec (k + 1) count).
    + by rewrite (proj2 (Z.eqb_eq _ _)) by lia.
    + rewrite (proj2 (Z.eqb_neq _ _)) by lia. rewrite IH by lia.
      by replace (count - (k + 1)) with (count - k - 1) by lia.
Qed.

Lemma space_fm_back_spec fuel s l b k count :
  holds s (cur_part s) l -> valid_part (cur_part s) -> Z.of_nat (length l) < 2 ^ 63 ->
  0 <= b <= Z.of_nat (length l) -> 0 <= k < count -> b < Z.of_nat fuel ->
  space_fm_back fuel count k (moved_to b s) =
    Some (match back_fm (reverse (take (Z.to_nat (b + 1)) l))
                  (if b =? Z.of_nat (length l) then b - 1 else b) (count - k) with
          | Some b' => (DEVICE_GOOD, moved_to b' s)
          | None => (- EDEV_BOP_DETECTED, moved_to 0 s)
          end).
Proof.
  intros Hh Hv Hl63. revert b k. induction fuel as [|fuel IH]; intros b k Hb Hk Hfuel; [lia|].
  cbn [space_fm_back].
  change (cur_part (moved_to b s)) with (cur_part s). change (cur_block (moved_to b s)) with b.
  change (_filedebug_check_file (moved_to b s)) with (_filedebug_check_file s).
  assert (Hprev : b <> 0 -> set_current (set_block (u64 (b - 1)) (current_position (moved_to b s)))
                    (moved_to b s) = moved_to (b - 1) s) by (intros; by rewrite u64_small by lia).
  destruct (Z.eqb_spec b (Z.of_nat (length l))) as [Heq|Hne].
  - assert (Hc : (_filedebug_check_file s (cur_part s) b SUFFIX_FILEMARK >? 0) = false)
      by (rewrite Heq; by apply filemark_check_eod).
    rewrite !Hc. cbn [andb]. rewrite Z.add_0_r.
    destruct (Z.eqb_spec b 0) as [->|H0].
    + destruct l; [reflexivity|cbn in Heq; lia].
    + rewrite Hprev, IH by lia. rewrite (proj2 (Z.eqb_neq _ _)) by lia.
      rewrite !take_ge by lia. reflexivity.
  - destruct (lookup_lt_is_Some_2 l (Z.to_nat b)) as [r Hr]; [lia|].
    rewrite (filemark_check s _ l b r) by (done || lia).
    replace (Z.to_nat (b + 1)) with (S (Z.to_nat b)) by lia.
    rewrite (take_S_r _ _ r), reverse_snoc by done.
    assert (Hrec : b <> 0 -> forall k', 0 <= k' < count ->
      space_fm_back fuel count k' (moved_to (b - 1) s) =
      Some (match back_fm (reverse (take (Z.to_nat b) l)) (b - 1) (count - k') with
            | Some b' => (DEVICE_GOOD, moved_to b' s)
            | None => (- EDEV_BOP_DETECTED, moved_to 0 s)
            end)).
    { intros H0 k' Hk'. rewrite IH by lia. rewrite (proj2 (Z.eqb_neq _ _)) by lia.
      by replace (b - 1 + 1) with b by lia. }
    destruct r as [bs|]; cbn [back_fm].
    + rewrite bool_decide_false by done. cbn [andb]. rewrite Z.add_0_r.
      destruct (Z.eqb_spec b 0) as [->|H0]; [reflexivity|].
      rewrite Hprev by done. apply Hrec; lia.
    + rewrite bool_decide_true by done. cbn [andb].
      destruct (Z.eqb_spec (k + 1) count).
      * by rewrite (proj2 (Z.eqb_eq _ _)) by lia.
      * rewrite (proj2 (Z.eqb_neq (count - k) 1)) by lia.
        destruct (Z.eqb_spec b 0) as [->|H0]; [reflexivity|].
        rewrite Hprev, Hrec by lia. by replace (count - (k + 1)) with (count - k - 1) by lia.
Qed.

(** Both directions, whatever the distance. *)
Lemma space_fm_ok s m pos count :
  filedebug_at s m pos -> 0 < count ->
  let l := part_of m (cur_part s) in
  let b := cur_block s in
  _filedebug_space_fm count false s =
    Some (match fwd_fm (drop (Z.to_nat b) l) b count with
          | Some b' => (DEVICE_GOOD, moved_to b' s)
          | None => (- EDEV_EOD_DETECTED, moved_to (Z.of_nat (length l)) s)
          end) /\
  _filedebug_space_fm count true s =
    let b0 := Z.max 0 (b - 1) in
    Some (match back_fm (reverse (take (Z.to_nat (b0 + 1)) l)) b0 count with
          | Some b' => (DEVICE_GOOD, moved_to b' s)
          | None => (- EDEV_BOP_DETECTED, moved_to 0 s)
          end).
Proof.
  intros (Hr & Hm & H0 & H1 & Hv & Hb & He0 & He1 & Hpp & Hpb) Hcount l b.
  pose proof (holds_part s m _ Hv H0 H1) as Hh. fold l in Hh.
  assert (Hlt : Z.of_nat (length l) < 2 ^ 63) by (unfold eod_at, l in *; destruct Hv as [->| ->]; done).
  unfold eod_at in Hb. fold l b in Hb. pose proof Hh as (_ & He & _).
  assert (Hfuel : space_fuel s = Z.to_nat (Z.of_nat (length l) + 2)).
  { unfold space_fuel. rewrite He, (proj2 (Z.eqb_neq _ _)) by (unfold MISSING_EOD; lia).
    f_equal. fold b. lia. }
  unfold _filedebug_space_fm. rewrite (proj2 (Z.eqb_neq count 0)), Hfuel by lia. split.
  - rewrite <- (moved_to_self s) at 1. fold b.
    rewrite (space_fm_fwd_spec _ s l) by (done || lia). by rewrite Z.sub_0_r.
  - fold b.
    replace (if b >? 0 then set_current (set_block (b - 1) (current_position s)) s else s)
      with (moved_to (Z.max 0 (b - 1)) s).
    2:{ destruct (b >? 0) eqn:E; bool_to_prop; [by replace (Z.max 0 (b - 1)) with (b - 1) by lia|].
        replace (Z.max 0 (b - 1)) with b by lia. apply moved_to_self. }
    rewrite (space_fm_back_spec _ s l) by (done || lia). rewrite Z.sub_0_r.
    destruct (Z.eqb_spec (Z.max 0 (b - 1)) (Z.of_nat (length l))) as [Heq|]; [|done].
    destruct l; [by rewrite !take_nil|cbn in *; lia].
Qed.

(** C32: Spacing over [count] file marks always ends.  Forwards the head stops just
    after the [count]-th file mark behind it, or at the end of data with
    [EDEV_EOD_DETECTED] when there are not that many; backwards it stops in front
    of the [count]-th file mark before the head (at block 0, of the record there),
    or at block 0 with [EDEV_BOP_DETECTED].  Nothing else changes. *)
Theorem space_fm_spec s m pos count :
  filedebug_at s m pos -> 0 < count ->
  let l := part_of m (cur_part s) in
  let b := cur_block s in
  _filedebug_space_fm count false s =
    Some (match fwd_fm (drop (Z.to_nat b) l) b count with
          | Some b' => (DEVICE_GOOD, moved_to b' s)
          | None => (- EDEV_EOD_DETECTED, moved_to (Z.of_nat (length l)) s)
          end) /\
  _filedebug_space_fm count true s =
    let b0 := Z.max 0 (b - 1) in
    Some (match back_fm (reverse (take (Z.to_nat (b0 + 1)) l)) b0 count with
          | Some b' => (DEVICE_GOOD, moved_to b' s)
          | None => (- EDEV_BOP_DETECTED, moved_to 0 s)
          end).
Proof. apply space_fm_ok. Qed.

(** ** Finding the end of data again *)

(** The directory of [l] with or without its end-of-data file. *)
Definition files_found (fs : gmap (Z * Z * Z) (list Z)) (p : Z) (l : list tape_record) (found : bool) : Prop :=
  forall i suffix, fs !! (p, i, suffix) =
    if found || negb (i =? Z.of_nat (length l)) then expected l i suffix else None.

Lemma files_found_record fs p l found i r suffix :
  files_found fs p l found -> 0 <= i -> l !! Z.to_nat i = Some r ->
  fs !! (p, i, suffix) = record_file r suffix.
Proof.
  intros Hf Hi Hr. pose proof (lookup_lt_Some _ _ _ Hr). rewrite Hf.
  rewrite (proj2 (Z.eqb_neq _ _)), orb_true_r by lia. by apply expected_record.
Qed.

Lemma search_eod_loop_spec fuel s p l found b :
  files_found (files s) p l found -> 0 <= b <= Z.of_nat (length l) -> Z.of_nat (length l) < 2 ^ 63 ->
  Z.of_nat (length l) - b < Z.of_nat fuel ->
  search_eod_loop fuel p b s = Some (Z.of_nat (length l), found).
Proof.
  intros Hf. revert b. induction fuel as [|fuel IH]; intros b Hb Hl63 Hfuel; [lia|].
  cbn [search_eod_loop]. unfold _filedebug_check_file.
  destruct (Z.eqb_spec b (Z.of_nat (length l))) as [->|Hne].
  - rewrite !(Hf (Z.of_nat (length l))), Z.eqb_refl. destruct found; [|done].
    cbn [orb]. rewrite !expected_eod. done.
  - destruct (lookup_lt_is_Some_2 l (Z.to_nat b)) as [r Hr]; [lia|].
    pose proof (fun x => files_found_record _ _ _ _ b r x Hf ltac:(lia) Hr) as Hrec. rewrite !Hrec.
    destruct r as [bs|]; cbn; rewrite u64_small by lia; apply IH; lia.
Qed.

(** A consistent partition has at least one file per record, so the fuel of
    [filedebug_search_eod] is enough. *)
Lemma files_found_size fs p l found :
  files_found fs p l found -> (length l <= size fs)%nat.
Proof.
  intros Hf.
  set (key := fun (j : nat) => (p, Z.of_nat j, match l !! j with Some r => record_suffix r | None => 0 end)).
  set (ks := list_to_set (C := gset (Z * Z * Z)) (key <$> seq 0 (length l))).
  assert (Hnd : NoDup (key <$> seq 0 (length l))).
  { apply NoDup_fmap_2; [|apply NoDup_seq]. intros i j [= H _]. lia. }
  rewrite <- (length_seq (length l) 0), <- (length_fmap key (seq 0 (length l))).
  rewrite <- (size_list_to_set (C := gset (Z * Z * Z)) _ Hnd), <- size_dom. apply subseteq_size.
  intros k Hk. apply elem_of_list_to_set, list_elem_of_fmap in Hk as (j & -> & Hj).
  apply elem_of_seq in Hj. apply elem_of_dom. unfold key.
  destruct (lookup_lt_is_Some_2 l j) as [r Hr]; [lia|]. rewrite Hr.
  rewrite (files_found_record fs p l found (Z.of_nat j) r) by (rewrite ?Nat2Z.id; done || lia).
  rewrite record_file_spec, Z.eqb_refl. done.
Qed.

Lemma search_eod_spec s p l found :
  valid_part p -> files_found (files s) p l found -> Z.of_nat (length l) < 2 ^ 63 ->
  sel p (eod s) = 0 ->
  exists s', filedebug_search_eod p s = Some (DEVICE_GOOD, s')
  /\ same_elsewhere p s s' /\ attrs s' = attrs s
  /\ if found || (length l =? 0)%nat then holds s' p l
     else files s' = files s /\ filedebug_get_eod_status p s' = EOD_MISSING.
Proof.
  intros Hp Hf Hl63 He. unfold filedebug_search_eod.
  set (s0 := set_current _ s).
  rewrite (search_eod_loop_spec _ s0 p l found 0) by
    (try done; try lia; pose proof (files_found_size _ _ _ _ Hf); lia).
  set (s1 := set_current _ s0).
  destruct (negb found && negb (Z.of_nat (length l) =? 0)) eqn:E.
  - apply andb_prop in E as [E1 E2]. apply negb_true_iff in E1, E2. apply Z.eqb_neq in E2. subst found.
    rewrite (proj2 (Nat.eqb_neq _ _)) by lia. cbn [orb].
    eexists. split; [reflexivity|]. split; [|split; [done|split; [done|]]].
    + split; [done|]. split; [done|]. intros q Hq Hne. cbn [set_eod with_state eod last_block files].
      rewrite !sel_upd by done. by rewrite (proj2 (Z.eqb_neq p q)) by congruence.
    + unfold filedebug_get_eod_status. cbn [set_eod with_state eod]. by rewrite sel_upd, Z.eqb_refl.
  - assert (Hor : found || (length l =? 0)%nat = true).
    { destruct found; [done|]. cbn in E. apply negb_false_iff in E. apply Z.eqb_eq in E.
      apply Nat.eqb_eq. lia. }
    rewrite Hor. exists (_filedebug_write_eod s1).2.
    pose proof (write_eod_position s1) as [_ Hrc]. destruct (_filedebug_write_eod s1) as [rc s2] eqn:Hw.
    cbn in Hrc. subst rc. split; [done|]. cbn [snd].
    assert (Hat : attrs s2 = attrs s).
    { assert (Hgen : forall n q i t, attrs (remove_records n q i t) = attrs t)
        by (induction n as [|n IHn]; intros; cbn [remove_records]; [done|by rewrite IHn]).
      unfold _filedebug_write_eod in Hw. injection Hw as <-. cbn [set_eod with_state attrs].
      case_match; [by rewrite Hgen|done]. }
    replace s2 with (_filedebug_write_eod s1).2 in * by (by rewrite Hw).
    split; [|split; [done|]].
    + pose proof (write_eod_elsewhere s1) as H. cbn in H. specialize (H Hp). exact H.
    + change p with (cur_part s1). apply (write_eod_holds s1 l []); try done; try lia.
      * intros i x Hi. cbn in Hi. change (files s1) with (files s). cbn. rewrite Hf.
        rewrite (proj2 (Z.eqb_neq _ _)) by (unfold cur_block in Hi; cbn in Hi; lia).
        by rewrite orb_true_r.
      * intros i x Hi. cbn in Hi. unfold cur_block in Hi. cbn in Hi. cbn. rewrite Hf.
        rewrite (expected_beyond l), (expected_beyond []) by (cbn; lia).
        by case_match.
      * intros x H1 H2 H3. unfold cur_block. cbn. rewrite Hf, expected_other by done.
        by case_match.
Qed.

(** ** Loading a tape *)

(** The directory holds the medium [m]: each partition has the files of its
    records, and its end-of-data file unless it has no record at all. *)
Definition directory_of (fs : gmap (Z * Z * Z) (list Z)) (m : medium) : Prop :=
  forall p, valid_part p -> exists found, files_found fs p (part_of m p) found
    /\ found || (length (part_of m p) =? 0)%nat = true /\ eod_at m p < 2 ^ 63.

Lemma filedebug_at_directory s m pos : filedebug_at s m pos -> directory_of (files s) m.
Proof.
  intros (_ & _ & H0 & H1 & _ & _ & He0 & He1 & _) p Hp. exists true. split; [|split; [done|]].
  - intros i x. pose proof (holds_part s m p Hp H0 H1) as (Hf & _). by rewrite Hf.
  - by destruct Hp as [->| ->].
Qed.

Lemma directory_of_blank : directory_of ∅ {| part0 := []; part1 := [] |}.
Proof.
  intros p Hp. exists false.
  assert (Hl : part_of {| part0 := []; part1 := [] |} p = []) by (by destruct Hp as [->| ->]).
  unfold eod_at. rewrite Hl. split; [|split; [|cbn; lia]].
  2:{ reflexivity. }
  intros i x. rewrite lookup_empty. cbn [orb length]. change (Z.of_nat 0) with 0.
  destruct (i =? 0) eqn:E; cbn [negb]; [done|].
  unfold expected. destruct (i <? 0) eqn:E2; [done|]. cbn [length]. change (Z.of_nat 0) with 0.
  rewrite E. cbn. by rewrite lookup_nil.
Qed.

Lemma get_wp_ok s :
  (forall f, attrs s !! (0, TC_MAM_PAGE_VCR) = Some f -> (9 <= length f)%nat) ->
  exists wp ats, _get_wp s = (0, wp, set_attrs ats s).
Proof.
  intros Hlen. unfold _get_wp, filedebug_read_attribute.
  destruct (attrs s !! (0, TC_MAM_PAGE_VCR)) as [f|] eqn:E.
  - eexists _, (attrs s). by destruct s.
  - change (- EDEV_CM_PERM =? 0) with false. cbv iota.
    rewrite set_wp_attribute. by do 2 eexists.
Qed.

(** The volume change reference attribute, where there is one, has its nine bytes. *)
Definition vcr_present (ats : gmap (Z * Z) (list Z)) : Prop :=
  forall f, ats !! (0, TC_MAM_PAGE_VCR) = Some f -> (9 <= length f)%nat.

Lemma filedebug_load_at fs ats m pos :
  directory_of fs m -> vcr_present ats ->
  exists pos' s', filedebug_load pos (filedebug_open fs ats) = Some (DEVICE_GOOD, pos', s')
  /\ filedebug_at s' m pos' /\ partition pos' = 0 /\ block pos' = 0.
Proof.
  intros Hdir Hats. unfold filedebug_load. cbn [ready filedebug_open].
  set (s0 := with_state _ _ _ _ _ _ _ _ _ _).
  destruct (Hdir 0) as (f0 & Hf0 & Hor0 & Hl0); [by left|].
  destruct (Hdir 1) as (f1 & Hf1 & Hor1 & Hl1); [by right|].
  destruct (search_eod_spec s0 0 (part0 m) f0) as (s1 & -> & Hs1 & Hat1 & Hh0);
    [by left|done|done|done|].
  change (part_of m 0) with (part0 m) in Hor0. rewrite Hor0 in Hh0. cbn [Z.ltb Z.compare DEVICE_GOOD].
  destruct Hs1 as (Hr1 & Hm1 & Hs1). destruct (Hs1 1) as (He1 & Hb1 & Hfs1); [by right|done|].
  destruct (search_eod_spec s1 1 (part1 m) f1) as (s2 & -> & Hs2 & Hat2 & Hh1);
    [by right|intros i x; rewrite Hfs1; apply Hf1|done|done|].
  change (part_of m 1) with (part1 m) in Hor1. rewrite Hor1 in Hh1. cbn [Z.ltb Z.compare DEVICE_GOOD].
  assert (Hh0' : holds s2 0 (part0 m)) by (eapply same_elsewhere_holds; [exact Hs2|by left|done|done]).
  destruct Hs2 as (Hr2 & Hm2 & _).
  destruct (get_wp_ok (set_partitions MAX_PARTITIONS
    (set_current (set_filemarks 0 (set_block 0 (set_partition 0 (current_position s2)))) s2)))
    as (wp & ats' & ->).
  { intros f Hf. apply Hats. cbn in Hf. rewrite Hat2, Hat1 in Hf. exact Hf. }
  cbn [negb Z.eqb]. do 2 eexists. split; [reflexivity|]. split; [|done].
  split; [cbn; rewrite Hr2, Hr1; done|]. split; [cbn; rewrite Hm2, Hm1; done|].
  split; [exact Hh0'|]. split; [exact Hh1|]. cbn. split; [by left|].
  unfold eod_at. split; [lia|]. done.
Qed.

(** C24: A tape survives a reload.  Whatever the medium is that the driver is at,
    opening the directory it has made and loading it again succeeds, and the
    drive is then at the beginning of partition 0 of exactly that medium; the
    same holds for a blank directory and a blank medium. *)
Theorem load_recovers_medium s m pos0 pos ats :
  filedebug_at s m pos0 -> vcr_present ats ->
  (exists pos' s', filedebug_load pos (filedebug_open (files s) ats) = Some (DEVICE_GOOD, pos', s')
     /\ filedebug_at s' m pos' /\ partition pos' = 0 /\ block pos' = 0) /\
  (exists pos' s', filedebug_load pos (filedebug_open ∅ ats) = Some (DEVICE_GOOD, pos', s')
     /\ filedebug_at s' {| part0 := []; part1 := [] |} pos').
Proof.
  intros Hat Hvcr. split; [by apply filedebug_load_at; [eapply filedebug_at_directory|]|].
  destruct (filedebug_load_at ∅ ats _ pos directory_of_blank Hvcr) as (pos' & s' & H1 & H2 & _).
  by exists pos', s'.
Qed.

(** ** A sample tape

    A blank directory, loaded, with one block and one file mark written. *)

Definition no_position : tc_position :=
  {| block := 0; filemarks := 0; partition := 0; early_warning := false;
     programmable_early_warning := false |}.

Definition blank_drive : filedebug_data :=
  match filedebug_load no_position (filedebug_open ∅ ∅) with
  | Some (_, _, s) => s
  | None => filedebug_open ∅ ∅
  end.

Definition blank_medium : medium := {| part0 := []; part1 := [] |}.

Lemma blank_drive_at : filedebug_at blank_drive blank_medium no_position.
Proof.
  destruct (filedebug_load_at ∅ ∅ _ no_position directory_of_blank) as (pos & s & Hl & Hat & Hp & Hb).
  { intros f Hf. by rewrite lookup_empty in Hf. }
  unfold blank_drive. rewrite Hl. destruct Hat as (H1 & H2 & H3 & H4 & H5 & H6 & H7 & H8 & H9 & H10).
  do 8 (split; [assumption|]). cbn. by rewrite <- H9, <- H10, Hp, Hb.
Qed.

Definition sample_block : list Z := [76; 84; 70; 83].

Definition sample_drive : filedebug_data :=
  let '(_, pos, s) := filedebug_write sample_block no_position blank_drive in
  let '(_, _, s) := filedebug_writefm 1 false pos s in s.

Definition sample_position : tc_position :=
  let '(_, pos, s) := filedebug_write sample_block no_position blank_drive in
  let '(_, pos, _) := filedebug_writefm 1 false pos s in pos.

Definition sample_medium : medium := {| part0 := [Data sample_block; Filemark]; part1 := [] |}.

Lemma sample_drive_at : filedebug_at sample_drive sample_medium sample_position.
Proof.
  unfold sample_drive, sample_position.
  destruct (filedebug_write _ _ _) as [[rc1 pos1] s1] eqn:H1.
  assert (Hrc1 : 0 <= rc1) by (replace rc1 with (filedebug_write sample_block no_position blank_drive).1.1
    by (by rewrite H1); vm_compute; done).
  assert (Hlen : 0 < Z.of_nat (length sample_block) < 2 ^ 31) by (cbn; lia).
  assert (Hb0 : block no_position + 1 < 2 ^ 63) by (cbn; lia).
  destruct (filedebug_write_at _ _ _ _ _ _ _ blank_drive_at Hlen Hb0 H1 Hrc1)
    as (_ & Hp1 & Hb1 & Hat1).
  destruct (filedebug_writefm 1 false pos1 s1) as [[rc2 pos2] s2] eqn:H2.
  assert (Hrc2 : 0 <= rc2).
  { replace rc2 with (filedebug_writefm 1 false pos1 s1).1.1 by (by rewrite H2).
    replace pos1 with (filedebug_write sample_block no_position blank_drive).1.2 by (by rewrite H1).
    replace s1 with (filedebug_write sample_block no_position blank_drive).2 by (by rewrite H1).
    vm_compute. done. }
  assert (Hn : 0 <= 1 < 256) by lia.
  assert (Hb2 : block pos1 + 1 < 2 ^ 63) by (rewrite Hb1; cbn; lia).
  destruct (filedebug_writefm_at _ _ _ _ _ _ _ _ Hat1 Hn Hb2 H2 Hrc2)
    as (_ & _ & _ & Hat2).
  rewrite Hp1, Hb1 in Hat2. exact Hat2.
Qed.

Lemma space_fm_spec_witness :
  filedebug_at sample_drive sample_medium sample_position /\
  _filedebug_space_fm 1 true sample_drive = Some (DEVICE_GOOD, moved_to 1 sample_drive).
Proof.
  split; [exact sample_drive_at|].
  destruct (space_fm_spec sample_drive sample_medium sample_position 1 sample_drive_at ltac:(lia))
    as [_ H].
  assert (Hp : cur_part sample_drive = 0) by (vm_compute; reflexivity).
  assert (Hb : cur_block sample_drive = 2) by (vm_compute; reflexivity).
  rewrite Hp, Hb in H. exact H.
Defined.

Lemma load_recovers_medium_witness :
  exists pos' s', filedebug_load no_position (filedebug_open (files sample_drive) (attrs sample_drive))
      = Some (DEVICE_GOOD, pos', s')
    /\ filedebug_at s' sample_medium pos' /\ partition pos' = 0 /\ block pos' = 0.
Proof.
  assert (Hvcr : vcr_present (attrs sample_drive)).
  { intros f Hf.
    assert (Hl : (from_option (fun l => 9 <=? length l)%nat true
              (attrs sample_drive !! (0, TC_MAM_PAGE_VCR)) = true)) by (vm_compute; reflexivity).
    rewrite Hf in Hl. by apply Nat.leb_le in Hl. }
  exact (proj1 (load_recovers_medium sample_drive sample_medium sample_position no_position
                  (attrs sample_drive) sample_drive_at Hvcr)).
Defined.

(** ** Writing and reading back *)

Lemma filedebug_write_succeeds buf pos s :
  ready s = true -> 0 < Z.of_nat (length buf) <= max_block_size s -> max_block_size s < 2 ^ 31 ->
  0 <= (filedebug_write buf pos s).1.1.
Proof.
  intros Hr Hlen Hm. unfold filedebug_write. rewrite Hr. cbn [negb].
  rewrite (proj2 (Z.eqb_neq _ _)) by lia. rewrite Z.gtb_ltb, (proj2 (Z.ltb_ge _ _)) by lia.
  cbn [_filedebug_remove_current_record _filedebug_remove_record].
  change (DEVICE_GOOD <? 0) with false. cbv iota.
  destruct (bump_write_pass_frame (set_files (remove_record_files (cur_part s) (cur_block s) (files s)) s))
    as (wp & ats & ->). change (0 <? 0) with false. cbv iota. unfold write_record.
  match goal with |- context [_filedebug_write_eod ?x] =>
    destruct (write_eod_position x) as [_ H]; destruct (_filedebug_write_eod x) as [rc s4] end.
  cbn in H. subst rc. cbn. rewrite s32_small; lia.
Qed.

Lemma filedebug_locate_succeeds dest pos s :
  ready s = true -> valid_part (partition dest) -> (filedebug_locate dest pos s).1.1 = 0.
Proof.
  intros Hr Hv. unfold filedebug_locate. rewrite Hr.
  rewrite (proj2 (orb_false_iff _ _)).
  2:{ destruct Hv as [->| ->]; done. }
  cbn [negb]. by destruct (report_position _ _).
Qed.

Lemma filedebug_read_succeeds count u pos s m r :
  filedebug_at s m pos -> 0 <= count < 2 ^ 31 ->
  record_at m (partition pos) (block pos) = Some r -> 0 <= (filedebug_read count u pos s).1.1.1.
Proof.
  intros (Hr & Hm & H0 & H1 & Hv & Hb & He0 & He1 & Hpp & Hpb) Hc Hrec.
  pose proof (holds_part s m _ Hv H0 H1) as Hh. pose proof Hh as (Hf & He & _).
  rewrite Hpp, Hpb in Hrec. pose proof (record_at_lt_eod _ _ _ _ Hrec) as Hlt.
  unfold record_at in Hrec. rewrite (proj2 (Z.ltb_ge _ _)) in Hrec by lia. unfold eod_at in Hlt.
  unfold filedebug_read. rewrite Hr, He. cbn [negb].
  rewrite (proj2 (Z.eqb_neq _ _)) by lia.
  rewrite !(check_file_holds _ _ _ _ _ Hh), Hf, !(expected_record _ _ _ r) by (done || lia).
  destruct r as [bs|]; cbn; [|done]. rewrite s32_small; [lia|]. rewrite length_take. lia.
Qed.

(** On a ready drive, writing a block of at most [max_block_size] bytes
    succeeds; locating back to where it was written and reading returns those
    bytes (at most [count] of them); and locating to any earlier record of the
    partition, or any record of the other one, and reading returns what that
    record held before the write. *)
Theorem filedebug_write_then_read buf pos s m count dest :
  filedebug_at s m pos -> 0 < Z.of_nat (length buf) <= max_block_size s ->
  block pos + 1 < 2 ^ 63 -> 0 <= count < 2 ^ 31 ->
  valid_part (partition dest) ->
  (partition dest = partition pos /\ block dest = block pos) \/
  (0 <= block dest < eod_at m (partition dest) /\
   (partition dest <> partition pos \/ block dest < block pos)) ->
  let '(rc1, pos1, s1) := filedebug_write buf pos s in
  let '(rc2, pos2, s2) := filedebug_locate dest pos1 s1 in
  let '(rc3, out, pos3, s3) := filedebug_read count false pos2 s2 in
  rc1 = Z.of_nat (length buf) /\ rc2 = 0 /\ rc3 = Z.of_nat (length out)
  /\ filedebug_at s3 (write_at (partition pos) (block pos) [Data buf] m) pos3
  /\ match (if (partition dest =? partition pos) && (block dest =? block pos)
            then Some (Data buf) else record_at m (partition dest) (block dest)) with
     | Some (Data bs) => out = take (Z.to_nat count) bs
     | Some Filemark => out = []
     | None => False
     end.
Proof.
  intros Hat Hlen Hmax Hc Hv Hdest.
  pose proof Hat as (Hr & Hm & _ & _ & Hvp & Hb & _ & _ & Hpp & Hpb).
  rewrite <- Hpp in Hvp, Hb. rewrite <- Hpb in Hb.
  destruct (filedebug_write buf pos s) as [[rc1 pos1] s1] eqn:Hw.
  pose proof (filedebug_write_succeeds buf pos s Hr Hlen Hm) as Hrc1. rewrite Hw in Hrc1. cbn in Hrc1.
  assert (Hlen2 : 0 < Z.of_nat (length buf) < 2 ^ 31) by lia.
  destruct (filedebug_write_at _ _ _ _ _ _ _ Hat Hlen2 Hmax Hw Hrc1) as (-> & Hp1 & Hb1 & Hat1).
  set (m1 := write_at _ _ _ m) in *.
  assert (Hd0 : 0 <= block dest) by lia.
  destruct (filedebug_locate dest pos1 s1) as [[rc2 pos2] s2] eqn:Hl.
  pose proof (filedebug_locate_succeeds dest pos1 s1 (proj1 Hat1) Hv) as Hrc2.
  rewrite Hl in Hrc2. cbn in Hrc2.
  destruct (filedebug_locate_at _ _ _ _ _ _ _ Hat1 Hv Hd0 Hl ltac:(lia)) as (_ & Hat2 & Hp2 & Hb2).
  assert (Hrec : exists r, record_at m1 (partition dest) (block dest) = Some r /\
    (if (partition dest =? partition pos) && (block dest =? block pos)
     then Some (Data buf) else record_at m (partition dest) (block dest)) = Some r).
  { destruct Hdest as [[Hdp Hdb]|[Hdr Hne]].
    - exists (Data buf). rewrite Hdp, Hdb, !Z.eqb_refl. split; [|done].
      unfold m1. rewrite record_at_write_new by (done || lia). by rewrite Z.sub_diag.
    - destruct (lookup_lt_is_Some_2 (part_of m (partition dest)) (Z.to_nat (block dest))) as [r Hr'];
        [unfold eod_at in Hdr; lia|].
      exists r. rewrite (proj2 (andb_false_iff _ _)) by (rewrite !Z.eqb_neq; lia).
      assert (Hm' : record_at m (partition dest) (block dest) = Some r)
        by (unfold record_at; by rewrite (proj2 (Z.ltb_ge _ _)) by lia).
      split; [|done]. rewrite <- Hm'. unfold m1.
      apply record_at_write_before; [done|done|lia|].
      destruct Hne as [Hne|]; [left; congruence|by right]. }
  destruct Hrec as (r & Hrec1 & ->).
  pose proof (record_at_lt_eod _ _ _ _ Hrec1) as Hlt.
  rewrite Z.min_l in Hb2 by lia. rewrite <- Hp2, <- Hb2 in Hrec1.
  destruct (filedebug_read count false pos2 s2) as [[[rc3 out] pos3] s3] eqn:Hrd.
  pose proof (filedebug_read_succeeds count false pos2 s2 m1 r Hat2 Hc Hrec1) as Hrc3.
  rewrite Hrd in Hrc3. cbn in Hrc3.
  destruct (filedebug_read_at _ _ _ _ _ _ _ _ _ Hat2 Hc Hrd Hrc3) as (Hat3 & _ & _ & -> & Hout).
  rewrite Hrec1 in Hout. done.
Qed.

Lemma filedebug_write_then_read_witness :
  let '(rc1, pos1, s1) := filedebug_write [1; 2; 3] sample_position sample_drive in
  let '(rc2, pos2, s2) := filedebug_locate no_position pos1 s1 in
  let '(rc3, out, pos3, s3) := filedebug_read 100 false pos2 s2 in
  rc1 = 3 /\ rc2 = 0 /\ out = sample_block.
Proof.
  assert (Hp : sample_position = set_block 2 (set_filemarks 1 no_position)) by (vm_compute; reflexivity).
  assert (Hm : max_block_size sample_drive = 16 * 1024 * 1024) by (vm_compute; reflexivity).
  pose proof (filedebug_write_then_read [1; 2; 3] sample_position sample_drive sample_medium 100
    no_position sample_drive_at) as H.
  rewrite Hm, Hp in H. rewrite Hp. cbn in H.
  assert (H' := H ltac:(lia) ltac:(lia) ltac:(lia) ltac:(by left) ltac:(right; cbn; unfold eod_at; cbn; lia)).
  clear H. rename H' into H.
  destruct (filedebug_write _ _ _) as [[rc1 pos1] s1].
  destruct (filedebug_locate _ _ _) as [[rc2 pos2] s2].
  destruct (filedebug_read _ _ _ _) as [[[rc3 out] pos3] s3].
  destruct H as (H1 & H2 & _ & _ & H3). split; [exact H1|]. split; [exact H2|exact H3].
Defined.

(** ** Spacing as the contract has it *)

Lemma filedebug_space_fm count (back : bool) pos s m :
  filedebug_at s m pos -> 0 < count ->
  let l := part_of m (partition pos) in
  let b := block pos in
  let b0 := Z.max 0 (b - 1) in
  let found := if back then back_fm (reverse (take (Z.to_nat (b0 + 1)) l)) b0 count
               else fwd_fm (drop (Z.to_nat b) l) b count in
  let '(rc, pos', s') := default (- EDEV_UNKNOWN, pos, s)
    (filedebug_space count (if back then TC_SPACE_FM_B else TC_SPACE_FM_F) pos s) in
  match found with
  | Some b' => rc = 0 /\ filedebug_at s' m pos' /\ partition pos' = partition pos /\ block pos' = b'
  | None => rc < 0
  end.
Proof.
  intros Hat Hc l b b0 found. destruct (space_fm_ok s m pos count Hat Hc) as [Hf Hb].
  pose proof Hat as (Hr & Hm & H0 & H1 & Hv & Hbk & He0 & He1 & Hpp & Hpb). rewrite <- Hpp, <- Hpb in Hf, Hb.
  fold l b in Hf, Hb. cbv zeta in Hb. fold b0 in Hb.
  assert (Hmiss : (cur_block s =? MISSING_EOD) = false).
  { apply Z.eqb_neq. unfold eod_at in *. unfold MISSING_EOD. destruct Hv as [E|E]; rewrite E in *; cbn in *; lia. }
  assert (Hmove : forall b', 0 <= b' <= eod_at m (cur_part s) ->
    filedebug_at (moved_to b' s) m (set_block b' pos)) by (intros b' Hb'; exact (conj Hr (conj Hm (conj H0 (conj H1 (conj Hv (conj Hb' (conj He0 (conj He1 (conj Hpp eq_refl)))))))))).

  assert (Hl : eod_at m (cur_part s) = Z.of_nat (length l)) by (unfold eod_at, l; by rewrite Hpp).
  unfold filedebug_space. rewrite Hr. cbn [negb]. unfold space_move.
  destruct back; rewrite Hmiss; [rewrite Hb|rewrite Hf]; subst found; cbn [fmap option_fmap option_map].
  - destruct (back_fm _ _ _) as [b'|] eqn:E.
    + cbn [from_option id]. destruct (report_position _ _) as [pos' s'] eqn:Hrep.
      apply back_fm_range in E. rewrite length_reverse, length_take in E.
      apply report_position_at with (m := m) in Hrep as (Hat' & Hp' & Hb'); [done|].
      apply Hmove. change (cur_block (moved_to b' s)) with b'. unfold b0, b in *. lia.
    + cbn [from_option id]. by destruct (report_position _ _).
  - destruct (fwd_fm _ _ _) as [b'|] eqn:E.
    + cbn [from_option id]. destruct (report_position _ _) as [pos' s'] eqn:Hrep.
      apply fwd_fm_range in E. rewrite length_drop in E.
      apply report_position_at with (m := m) in Hrep as (Hat' & Hp' & Hb'); [done|].
      apply Hmove. change (cur_block (moved_to b' s)) with b'. unfold b0, b in *. lia.
    + cbn [from_option id]. by destruct (report_position _ _).
Qed.

#[export] Instance filedebug_space_ok : SpaceOk filedebug_handler filedebug_at.
Proof.
  split; intros count pos d m rc pos' d' Hat Hc; cbn [op_space filedebug_handler].
  - intros Hs Hrc. pose proof (filedebug_space_fm count false pos d m Hat Hc) as H. cbv zeta iota in H. rewrite Hs in H.
    destruct (fwd_fm _ _ _) as [b'|]; [|lia]. destruct H as (? & ? & ? & ->). done.
  - intros Hb Hs Hrc. pose proof (filedebug_space_fm count true pos d m Hat Hc) as H. cbv zeta iota in H. rewrite Hs in H.
    replace (Z.max 0 (block pos - 1)) with (block pos - 1) in H by lia.
    replace (block pos - 1 + 1) with (block pos) in H by lia.
    destruct (back_fm _ _ _) as [b'|]; [|lia]. destruct H as (? & ? & ? & ->). done.
Qed.

Lemma filedebug_spaces_reliably : spaces_reliably filedebug_handler filedebug_at.
Proof.
  split; intros count pos d m Hat Hc; cbn [op_space filedebug_handler].
  - intros Hf. pose proof (filedebug_space_fm count false pos d m Hat Hc) as H. cbv zeta iota in H.
    destruct (default (- EDEV_UNKNOWN, pos, d) (filedebug_space count TC_SPACE_FM_F pos d)) as [[rc ?] ?]. destruct (fwd_fm _ _ _); [|done]. cbn. lia.
  - intros Hb Hf. pose proof (filedebug_space_fm count true pos d m Hat Hc) as H. cbv zeta iota in H.
    replace (Z.max 0 (block pos - 1)) with (block pos - 1) in H by lia.
    replace (block pos - 1 + 1) with (block pos) in H by lia.
    destruct (default (- EDEV_UNKNOWN, pos, d) (filedebug_space count TC_SPACE_FM_B pos d)) as [[rc ?] ?]. destruct (back_fm _ _ _); [|done]. cbn. lia.
Qed.
