(* ===== verification/TapeDev.v ===== *)
(** * The tape device layer

    [libltfs/tape.c] over an arbitrary backend: seeking, appending, the read-only
    and space bookkeeping, block and file mark writes, reads with the key
    recovery, and the cartridge coherency attribute.  The mutexes that protect
    single fields are not modelled: each function is one atomic step.  A
    partition number is at most 1 wherever the code uses it as an index; null
    argument checks have no counterpart. *)

From S2P Require Import Prelude Errors Endian TapeOps.
Open Scope Z_scope.

(** ** [struct device_data] *)

Inductive partition_status := PART_WRITABLE | PART_LESS_SPACE | PART_NO_SPACE.

#[global] Instance partition_status_eq_dec : EqDecision partition_status.
Proof. solve_decision. Defined.

Record device_data (D : Type) := {
  position : tc_position;
  append_pos : Z * Z;
  max_block_size : Z;
  partition_space : partition_status * partition_status;
  write_protect : bool;
  write_error : bool;
  device_reserved : bool;
  medium_locked : bool;
  physical_write_protect : bool;
  previous_exist : Z * Z;
  fence : bool;
  append_only_mode : bool;
  is_key_set : bool;
  backend_data : D
}.

Arguments position {_}. Arguments append_pos {_}. Arguments max_block_size {_}.
Arguments partition_space {_}. Arguments write_protect {_}. Arguments write_error {_}.
Arguments device_reserved {_}. Arguments medium_locked {_}. Arguments physical_write_protect {_}.
Arguments previous_exist {_}. Arguments fence {_}. Arguments append_only_mode {_}. Arguments is_key_set {_}.
Arguments backend_data {_}.

Section tape.
Context {D : Type} (ops : tape_ops D).
Implicit Types (dev : device_data D) (d : D).

(** Field updates. *)
Definition set_backend (pos : tc_position) (d : D) (dev : device_data D) : device_data D :=
  {| position := pos; append_pos := append_pos dev; max_block_size := max_block_size dev;
     partition_space := partition_space dev; write_protect := write_protect dev;
     write_error := write_error dev; device_reserved := device_reserved dev; medium_locked := medium_locked dev;
     physical_write_protect := physical_write_protect dev; previous_exist := previous_exist dev; fence := fence dev;
     append_only_mode := append_only_mode dev; is_key_set := is_key_set dev; backend_data := d |}.

Definition set_append_pos (a : Z * Z) (dev : device_data D) : device_data D :=
  {| position := position dev; append_pos := a; max_block_size := max_block_size dev;
     partition_space := partition_space dev; write_protect := write_protect dev;
     write_error := write_error dev; device_reserved := device_reserved dev; medium_locked := medium_locked dev;
     physical_write_protect := physical_write_protect dev; previous_exist := previous_exist dev; fence := fence dev;
     append_only_mode := append_only_mode dev; is_key_set := is_key_set dev;
     backend_data := backend_data dev |}.

Definition set_space (sp : partition_status * partition_status) (dev : device_data D)
    : device_data D :=
  {| position := position dev; append_pos := append_pos dev; max_block_size := max_block_size dev;
     partition_space := sp; write_protect := write_protect dev;
     write_error := write_error dev; device_reserved := device_reserved dev; medium_locked := medium_locked dev;
     physical_write_protect := physical_write_protect dev; previous_exist := previous_exist dev; fence := fence dev;
     append_only_mode := append_only_mode dev; is_key_set := is_key_set dev;
     backend_data := backend_data dev |}.

Definition set_flags (wp we fe ks : bool) (dev : device_data D) : device_data D :=
  {| position := position dev; append_pos := append_pos dev; max_block_size := max_block_size dev;
     partition_space := partition_space dev; write_protect := wp; write_error := we; device_reserved := device_reserved dev; medium_locked := medium_locked dev;
     physical_write_protect := physical_write_protect dev;
     previous_exist := previous_exist dev; fence := fe; append_only_mode := append_only_mode dev; is_key_set := ks;
     backend_data := backend_data dev |}.

Definition set_write_error (dev : device_data D) : device_data D :=
  set_flags (write_protect dev) true (fence dev) (is_key_set dev) dev.

Definition set_previous_exist (t : Z * Z) (dev : device_data D) : device_data D :=
  {| position := position dev; append_pos := append_pos dev; max_block_size := max_block_size dev;
     partition_space := partition_space dev; write_protect := write_protect dev;
     write_error := write_error dev; device_reserved := device_reserved dev; medium_locked := medium_locked dev;
     physical_write_protect := physical_write_protect dev; previous_exist := t; fence := fence dev;
     append_only_mode := append_only_mode dev; is_key_set := is_key_set dev;
     backend_data := backend_data dev |}.

Definition set_protect (p : bool) (dev : device_data D) : device_data D :=
  {| position := position dev; append_pos := append_pos dev; max_block_size := max_block_size dev;
     partition_space := partition_space dev; write_protect := write_protect dev;
     write_error := write_error dev; device_reserved := device_reserved dev; medium_locked := medium_locked dev;
     physical_write_protect := p; previous_exist := previous_exist dev; fence := fence dev;
     append_only_mode := append_only_mode dev; is_key_set := is_key_set dev;
     backend_data := backend_data dev |}.

Definition set_reserved (reserved locked : bool) (dev : device_data D) : device_data D :=
  {| position := position dev; append_pos := append_pos dev; max_block_size := max_block_size dev;
     partition_space := partition_space dev; write_protect := write_protect dev;
     write_error := write_error dev; device_reserved := reserved; medium_locked := locked;
     physical_write_protect := physical_write_protect dev; previous_exist := previous_exist dev; fence := fence dev;
     append_only_mode := append_only_mode dev; is_key_set := is_key_set dev;
     backend_data := backend_data dev |}.

Definition set_modes (max : Z) (append_only : bool) (dev : device_data D) : device_data D :=
  {| position := position dev; append_pos := append_pos dev; max_block_size := max;
     partition_space := partition_space dev; write_protect := write_protect dev;
     write_error := write_error dev; device_reserved := device_reserved dev; medium_locked := medium_locked dev;
     physical_write_protect := physical_write_protect dev; previous_exist := previous_exist dev; fence := fence dev;
     append_only_mode := append_only; is_key_set := is_key_set dev;
     backend_data := backend_data dev |}.

(** ** Locking and fencing *)

(** The result of [ltfs_mutex_lock] is an argument. *)
Definition tape_device_lock (lock_ret : Z) (dev : device_data D) : Z :=
  if negb (lock_ret =? 0) then - LTFS_MUTEX_INVALID
  else if fence dev then - LTFS_DEVICE_FENCED
  else lock_ret.

Definition tape_device_unlock (unlock_ret : Z) : Z :=
  if unlock_ret =? 0 then 0
  else if unlock_ret =? EPERM then - LTFS_MUTEX_UNLOCKED
  else - LTFS_MUTEX_INVALID.

Definition tape_start_fence (dev : device_data D) : Z * device_data D :=
  (0, set_flags (write_protect dev) (write_error dev) true (is_key_set dev) dev).

Definition tape_release_fence (dev : device_data D) : Z * device_data D :=
  (0, set_flags (write_protect dev) (write_error dev) false (is_key_set dev) dev).

(** ** Read-only state *)

Definition tape_read_only (partition : Z) (dev : device_data D) : Z :=
  if write_protect dev then - LTFS_WRITE_PROTECT
  else if write_error dev then - LTFS_WRITE_ERROR
  else match sel partition (partition_space dev) with
       | PART_WRITABLE => 0
       | PART_LESS_SPACE => - LTFS_LESS_SPACE
       | PART_NO_SPACE => - LTFS_NO_SPACE
       end.

Definition tape_force_read_only (dev : device_data D) : Z * device_data D :=
  (0, set_flags true (write_error dev) (fence dev) (is_key_set dev) dev).

(** ** Positioning *)

(** The update of [partition_space] after a locate. *)
Definition note_space (dev : device_data D) : device_data D :=
  let p := partition (position dev) in
  let dev1 := if early_warning (position dev)
              then set_space (upd p PART_NO_SPACE (partition_space dev)) dev else dev in
  if negb (bool_decide (sel p (partition_space dev1) = PART_NO_SPACE))
     && programmable_early_warning (position dev1)
  then set_space (upd p PART_LESS_SPACE (partition_space dev1)) dev1 else dev1.

Definition tape_seek (pos : tc_position) (dev : device_data D) : Z * device_data D :=
  let '(ret, dev1) :=
    if (partition pos =? partition (position dev)) && (block pos =? block (position dev))
    then (0, dev)
    else let '(ret, pos', d') := op_locate ops pos (position dev) (backend_data dev) in
         let dev' := set_backend pos' d' dev in
         if ret <? 0 then (ret, dev') else (ret, note_space dev') in
  if (ret =? 0) && (negb (partition (position dev1) =? partition pos)
       || (negb (block pos =? TAPE_BLOCK_MAX) && negb (block pos =? block (position dev1))))
  then (- LTFS_BAD_LOCATE, dev1)
  else (ret, dev1).

(** The position structure [{ .partition = prt, .block = b, .filemarks = 0 }]; the
    fields the code leaves out are zero. *)
Definition seek_pos (prt b : Z) : tc_position :=
  {| block := b; filemarks := 0; partition := prt; early_warning := false;
     programmable_early_warning := false |}.

Definition tape_seek_eod (prt : Z) (dev : device_data D) : Z * device_data D :=
  if prt >? 1 then (- LTFS_BAD_PARTNUM, dev)
  else
    let '(ret, pos', d') := op_locate ops (seek_pos prt TAPE_BLOCK_MAX) (position dev) (backend_data dev) in
    let dev1 := set_backend pos' d' dev in
    if ret <? 0 then (ret, dev1)
    else if negb (prt =? partition (position dev1)) then (- LTFS_BAD_LOCATE, dev1)
    else
      let dev2 := note_space dev1 in
      (0, set_append_pos (upd prt (block (position dev2)) (append_pos dev2)) dev2).

Definition tape_get_position (dev : device_data D) : Z * tc_position := (0, position dev).

Definition tape_update_position (pos : tc_position) (dev : device_data D)
    : Z * tc_position * device_data D :=
  let '(ret, pos', d') := op_readpos ops (position dev) (backend_data dev) in
  let dev1 := set_backend pos' d' dev in
  if ret <? 0 then (ret, pos, dev1) else (0, position dev1, dev1).

Definition tape_spacefm (count : Z) (dev : device_data D) : Z * device_data D :=
  let '(ret, pos', d') :=
    if count >? 0 then op_space ops count TC_SPACE_FM_F (position dev) (backend_data dev)
    else op_space ops (- count) TC_SPACE_FM_B (position dev) (backend_data dev) in
  (ret, set_backend pos' d' dev).

Definition tape_get_append_position (prt : Z) (dev : device_data D) : Z * option Z :=
  if prt >? 1 then (- LTFS_BAD_PARTNUM, None) else (0, Some (sel prt (append_pos dev))).

Definition tape_set_append_position (prt b : Z) (dev : device_data D) : Z * device_data D :=
  if prt >? 1 then (- LTFS_BAD_PARTNUM, dev)
  else (0, set_append_pos (upd prt b (append_pos dev)) dev).

Definition tape_seek_append_position (prt : Z) (unlock_write : bool) (dev : device_data D)
    : Z * device_data D :=
  let b0 := sel prt (append_pos dev) in
  let b := if b0 =? 0 then TAPE_BLOCK_MAX else b0 in
  let '(ret, dev1) := tape_seek (seek_pos prt b) dev in
  if ret <? 0 then (ret, dev1)
  else
    let '(ret, dev2) :=
      if unlock_write && append_only_mode dev1 && negb (b =? TAPE_BLOCK_MAX)
      then let '(ret, d') := op_allow_overwrite ops (position dev1) (backend_data dev1) in
           (ret, set_backend (position dev1) d' dev1)
      else (ret, dev1) in
    let dev3 := if sel prt (append_pos dev2) =? 0
                then set_append_pos (upd prt (block (position dev2)) (append_pos dev2)) dev2
                else dev2 in
    (ret, dev3).

(** ** The early warning attribute *)

Definition ewstate_buf (ewstate : Z) : list Z :=
  [u8 (TC_MAM_PAGE_EWSTATE ≫ 8); Z.land TC_MAM_PAGE_EWSTATE 0xFF; 0; 0; TC_MAM_PAGE_EWSTATE_LEN;
   0x48; 0x50; 0x45; u8 ewstate].

Definition tape_set_ewstate (ewstate : Z) (dev : device_data D) : Z * device_data D :=
  let '(status, d') := op_write_attribute ops 0 (ewstate_buf ewstate) (backend_data dev) in
  (status, set_backend (position dev) d' dev).

(** A byte the backend did not fill in is whatever the stack held ([junk]). *)
Definition filled (size : nat) (out junk : list Z) : list Z := take size (out ++ drop (length out) junk).

Definition tape_get_ewstate (junk : list Z) (dev : device_data D) : Z :=
  let '(status, out) := op_read_attribute ops 0 TC_MAM_PAGE_EWSTATE
                          (TC_MAM_PAGE_EWSTATE_LEN + TC_MAM_PAGE_HEADER_SIZE) (backend_data dev) in
  let b i := default 0 (filled 9 out junk !! i) in
  if status <? 0 then 0
  else if (b 0%nat =? 0x15) && (b 1%nat =? 0) && (b 5%nat =? 0x48) && (b 6%nat =? 0x50)
          && (b 7%nat =? 0x45) then b 8%nat
  else EWSTATE_CLEAR.

(** ** Writing *)

(** The tests that refuse a write, in the order of the code. *)
Definition write_refused (ignore_less ignore_nospc : bool) (dev : device_data D) : Z :=
  let sp := sel (partition (position dev)) (partition_space dev) in
  if write_protect dev then - LTFS_WRITE_PROTECT
  else if write_error dev then - LTFS_WRITE_ERROR
  else if bool_decide (sp = PART_NO_SPACE) && negb ignore_nospc then - LTFS_NO_SPACE
  else if bool_decide (sp = PART_LESS_SPACE) && negb ignore_less then - LTFS_LESS_SPACE
  else 0.

Definition tape_write (buf : list Z) (ignore_less ignore_nospc : bool) (dev : device_data D)
    : Z * device_data D :=
  let count := Z.of_nat (length buf) in
  let ret := write_refused ignore_less ignore_nospc dev in
  let ret := if ret <? 0 then ret
             else if count >? max_block_size dev then - LTFS_LARGE_BLOCKSIZE else 0 in
  if ret <? 0 then (ret, dev)
  else
    let '(ret, pos', d') := op_write ops buf (position dev) (backend_data dev) in
    let dev1 := set_backend pos' d' dev in
    if ret <? 0 then (ret, if NEED_REVAL ret then dev1 else set_write_error dev1)
    else
      let p := partition (position dev1) in
      let '(count, dev2) :=
        if early_warning (position dev1) then
          let dev2 := set_space (upd p PART_NO_SPACE (partition_space dev1)) dev1 in
          let dev3 := (tape_set_ewstate EWSTATE_SET dev2).2 in
          (if negb ignore_nospc then - LTFS_NO_SPACE else count, dev3)
        else if programmable_early_warning (position dev1) then
          let dev2 := set_space (upd p PART_LESS_SPACE (partition_space dev1)) dev1 in
          (if negb ignore_less then - LTFS_LESS_SPACE else count, dev2)
        else (count, dev1) in
      (count, set_append_pos (upd p (block (position dev2)) (append_pos dev2)) dev2).

Definition tape_write_filemark (count : Z) (ignore_less ignore_nospc immed : bool)
    (dev : device_data D) : Z * device_data D :=
  let ret := write_refused ignore_less ignore_nospc dev in
  if ret <? 0 then (ret, dev)
  else
    let '(ret, pos', d') := op_writefm ops count immed (position dev) (backend_data dev) in
    let dev1 := set_backend pos' d' dev in
    if ret <? 0 then (ret, if NEED_REVAL ret then dev1 else set_write_error dev1)
    else
      let p := partition (position dev1) in
      let '(ret, dev2) :=
        if early_warning (position dev1) then
          (if negb ignore_nospc then - LTFS_NO_SPACE else ret,
           set_space (upd p PART_NO_SPACE (partition_space dev1)) dev1)
        else if programmable_early_warning (position dev1) then
          (if negb ignore_less then - LTFS_LESS_SPACE else ret,
           set_space (upd p PART_LESS_SPACE (partition_space dev1)) dev1)
        else (ret, dev1) in
      (ret, set_append_pos (upd p (block (position dev2)) (append_pos dev2)) dev2).

(** ** Keys and reading *)

Definition tape_get_keyalias (dev : device_data D) : Z * list Z * device_data D :=
  let '(ret, ka, d') := op_get_keyalias ops (backend_data dev) in
  (ret, ka, set_backend (position dev) d' dev).

Definition tape_set_key (keyalias key : option (list Z)) (dev : device_data D)
    : Z * device_data D :=
  let pos := seek_pos 0 0 in
  let '(ret, pos, dev1) :=
    match key with
    | Some _ =>
        let '(ret, pos', d') := op_readpos ops pos (backend_data dev) in
        let dev' := set_backend (position dev) d' dev in
        if ret <? 0 then (ret, pos', dev')
        else (0, pos', set_flags (write_protect dev') (write_error dev') (fence dev') true dev')
    | None => (0, pos, dev)
    end in
  if ret <? 0 then (ret, dev1)
  else
    let '(ret, d') := op_set_key ops keyalias key (backend_data dev1) in
    let dev2 := set_backend (position dev1) d' dev1 in
    if (0 <=? ret) && negb (block pos =? 0) then (ret, (tape_force_read_only dev2).2)
    else (ret, dev2).

Definition tape_clear_key (kmi : bool) (dev : device_data D) : Z * device_data D :=
  if kmi || is_key_set dev then tape_set_key None None dev else (0, dev).

(** [kmi]: the [get_key] operation of the key manager plugin, where there is one. *)
Definition tape_read (count : Z) (unusual_size : bool)
    (kmi : option (list Z -> Z * option (list Z))) (dev : device_data D)
    : Z * list Z * device_data D :=
  let '(ret, buf, pos', d') := op_read ops count unusual_size (position dev) (backend_data dev) in
  let dev1 := set_backend pos' d' dev in
  match kmi with
  | Some get_key =>
      if (ret =? - EDEV_CRYPTO_ERROR) || (ret =? - EDEV_KEY_REQUIRED) then
        let '(tmp, keyalias, dev2) := tape_get_keyalias dev1 in
        if tmp <? 0 then (ret, buf, dev2)
        else
          let '(tmp, key) := get_key keyalias in
          if tmp <? 0 then (ret, buf, dev2)
          else match key with
          | None => (ret, buf, dev2)
          | Some key =>
              let '(tmp, dev3) := tape_set_key (Some keyalias) (Some key) dev2 in
              if tmp <? 0 then (ret, buf, dev3)
              else
                (* try to read using the suitable data key *)
                let '(ret, buf, pos', d') :=
                  op_read ops count unusual_size (position dev3) (backend_data dev3) in
                (ret, buf, set_backend pos' d' dev3)
          end
      else (ret, buf, dev1)
  | None => (ret, buf, dev1)
  end.

(** ** Readiness *)

Definition _tape_test_unit_ready (dev : device_data D) : Z * device_data D :=
  let '(ret, d') := op_test_unit_ready ops (backend_data dev) in
  (ret, set_backend (position dev) d' dev).

(** The macro [timer_sub]: seconds and nanoseconds since [b]. *)
Definition timer_sub (a b : Z * Z) : Z * Z :=
  let '(sec, nsec) := (fst a - fst b, snd a - snd b) in
  if nsec <? 0 then (sec - 1, nsec + 1000000000) else (sec, nsec).

(** A test within the second after the last one is skipped. *)
Definition tape_test_unit_ready (ts_now : Z * Z) (dev : device_data D) : Z * device_data D :=
  if fst (timer_sub ts_now (previous_exist dev)) =? 0 then (0, dev)
  else
    let '(ret, dev') := _tape_test_unit_ready dev in
    (ret, set_previous_exist ts_now dev').

End tape.
