(* ===== verification/TapeLoad.v ===== *)
(** * Loading, unloading and formatting

    The part of [libltfs/tape.c] that prepares a cartridge for use and gives it
    back: reservation, waiting for the drive, [tape_load_tape], [tape_unload_tape], the
    mode pages, the end-of-data status, and formatting.

    The backend's entries for this are the record [load_ops].  Loops without a
    bound of their own, which go on while the drive reports resets, take fuel;
    [None] is a drive that goes on reporting them. *)

From S2P Require Import Prelude Errors TapeOps TapeDev.
Open Scope Z_scope.

(** ** The backend *)

Record tc_drive_param := {
  max_blksize : Z;
  param_write_protect : bool;
  logical_write_protect : bool
}.

Record tc_remaining_cap := {
  remaining_p0 : Z;
  remaining_p1 : Z;
  max_p0 : Z;
  max_p1 : Z
}.

Definition TC_MP_DEV_CONFIG_EXT : Z := 0x10.
Definition TC_MP_DEV_CONFIG_EXT_SIZE : nat := 48.
Definition TC_MP_MEDIUM_PARTITION : Z := 0x11.
Definition TC_MP_MEDIUM_PARTITION_SIZE : nat := 32.
Definition TC_MP_PC_CURRENT : Z := 0.

(** Operations that fill a structure of the caller take what it holds before. *)
Record load_ops (D : Type) := {
  op_load : tc_position -> D -> Z * tc_position * D;
  op_unload : tc_position -> D -> Z * tc_position * D;
  op_rewind : tc_position -> D -> Z * tc_position * D;
  op_erase : tc_position -> bool -> D -> Z * tc_position * D;
  op_set_default : D -> Z * D;
  op_remaining_capacity : tc_remaining_cap -> D -> Z * tc_remaining_cap * D;
  op_get_parameters : tc_drive_param -> D -> Z * tc_drive_param * D;
  op_modesense : Z -> Z -> Z -> list Z -> D -> Z * list Z * D;
  op_modeselect : list Z -> D -> Z * D;
  op_prevent_medium_removal : D -> Z * D;
  op_allow_medium_removal : D -> Z * D;
  op_reserve_unit : D -> Z * D;
  op_release_unit : D -> Z * D;
  op_get_eod_status : Z -> D -> Z * D;
  op_set_compression : bool -> tc_position -> D -> Z * tc_position * D;
  op_get_worm_status : bool -> D -> Z * bool * D;
  op_get_tape_alert : Z -> D -> Z * Z * D;
  op_setcap : Z -> D -> Z * D;
  op_format : TC_FORMAT_TYPE -> D -> Z * D
}.

Arguments op_load {_}. Arguments op_unload {_}. Arguments op_rewind {_}. Arguments op_erase {_}.
Arguments op_set_default {_}. Arguments op_remaining_capacity {_}. Arguments op_get_parameters {_}.
Arguments op_modesense {_}. Arguments op_modeselect {_}. Arguments op_prevent_medium_removal {_}.
Arguments op_allow_medium_removal {_}. Arguments op_reserve_unit {_}. Arguments op_release_unit {_}.
Arguments op_get_eod_status {_}. Arguments op_set_compression {_}. Arguments op_get_worm_status {_}.
Arguments op_get_tape_alert {_}. Arguments op_setcap {_}. Arguments op_format {_}.

Section load.
Context {D : Type} (ops : tape_ops D) (lops : load_ops D).
Implicit Types (dev : device_data D) (d : D).

(** An operation of the backend that touches no position *)
Definition backend_op (op : D -> Z * D) (dev : device_data D) : Z * device_data D :=
  let '(ret, d) := op (backend_data dev) in (ret, set_backend (position dev) d dev).

(** An operation that moves the head *)
Definition moving_op (op : tc_position -> D -> Z * tc_position * D) (dev : device_data D) : Z * device_data D :=
  let '(ret, pos, d) := op (position dev) (backend_data dev) in (ret, set_backend pos d dev).

(** [do ... while (NEED_REVAL(ret))] *)
Fixpoint while_reset (fuel : nat) (op : device_data D -> Z * device_data D) (dev : device_data D)
    : option (Z * device_data D) :=
  match fuel with
  | O => None
  | S fuel =>
      let '(ret, dev) := op dev in
      if NEED_REVAL ret then while_reset fuel op dev else Some (ret, dev)
  end.

(** ** Reservation *)

Definition tape_reserve_device (fuel : nat) dev : option (Z * device_data D) :=
  if device_reserved dev then Some (0, dev)
  else match while_reset fuel (backend_op (op_reserve_unit lops)) dev with
       | None => None
       | Some (ret, dev) =>
           if negb (ret =? 0) then Some (if ret <? 0 then ret else - ret, dev)
           else Some (ret, set_reserved true (medium_locked dev) dev)
       end.

Definition tape_release_device (fuel : nat) dev : option (device_data D) :=
  if device_reserved dev then
    match while_reset fuel (backend_op (op_release_unit lops)) dev with
    | None => None
    | Some (ret, dev) => Some (set_reserved (negb (ret =? 0)) (medium_locked dev) dev)
    end
  else Some dev.

Definition tape_prevent_medium_removal (fuel : nat) dev : option (Z * device_data D) :=
  if medium_locked dev then Some (0, dev)
  else match while_reset fuel (backend_op (op_prevent_medium_removal lops)) dev with
       | None => None
       | Some (ret, dev) =>
           if negb (ret =? 0) then Some (if ret <? 0 then ret else - ret, dev)
           else Some (ret, set_reserved (device_reserved dev) true dev)
       end.

Definition tape_allow_medium_removal (fuel : nat) (force_release : bool) dev : option (device_data D) :=
  if medium_locked dev || force_release then
    match while_reset fuel (backend_op (op_allow_medium_removal lops)) dev with
    | None => None
    | Some (ret, dev) => Some (set_reserved (device_reserved dev) (negb (ret =? 0)) dev)
    end
  else Some dev.

(** ** Parameters *)

Definition tape_get_capacity (cap : tc_remaining_cap) dev : Z * tc_remaining_cap * device_data D :=
  let '(ret, cap, d) := op_remaining_capacity lops cap (backend_data dev) in
  (ret, cap, set_backend (position dev) d dev).

Definition tape_set_compression (use_compression : bool) dev : Z * device_data D :=
  moving_op (op_set_compression lops use_compression) dev.

(** What the caller's structure holds is an argument, [junk]. *)
Definition tape_get_max_blocksize (junk : tc_drive_param) dev : Z * Z * device_data D :=
  let '(ret, param, d) := op_get_parameters lops junk (backend_data dev) in
  let dev := set_backend (position dev) d dev in
  if ret <? 0 then (ret, 0, dev) else (0, max_blksize param, dev).

Definition tape_logically_read_only (junk : tc_drive_param) dev : Z * device_data D :=
  let '(ret, param, d) := op_get_parameters lops junk (backend_data dev) in
  let dev := set_backend (position dev) d dev in
  if ret <? 0 then (ret, dev)
  else (if logical_write_protect param then - LTFS_LOGICAL_WRITE_PROTECT else ret, dev).

Definition tape_get_worm_status (junk : bool) dev : Z * bool * device_data D :=
  let '(ret, is_worm, d) := op_get_worm_status lops junk (backend_data dev) in
  (ret, is_worm, set_backend (position dev) d dev).

Definition tape_get_tape_alert (tape_alert : Z) dev : Z * Z * device_data D :=
  let '(ret, tape_alert, d) := op_get_tape_alert lops tape_alert (backend_data dev) in
  (ret, tape_alert, set_backend (position dev) d dev).

(** [EOD_UNKNOWN] where the backend cannot tell *)
Definition tape_check_eod_status (part : Z) dev : Z * device_data D :=
  let '(ret, d) := op_get_eod_status lops part (backend_data dev) in
  (if (ret =? EOD_GOOD) || (ret =? EOD_MISSING) || (ret =? EOD_UNKNOWN) then ret else EOD_UNKNOWN,
   set_backend (position dev) d dev).

Definition tape_rewind dev : Z * device_data D := moving_op (op_rewind lops) dev.

Definition tape_erase (long_erase : bool) dev : Z * device_data D :=
  moving_op (fun pos => op_erase lops pos long_erase) dev.

(** ** The device configuration page *)

Definition byte_at (l : list Z) (i : nat) : Z := default 0 (l !! i).

Definition sense_config dev : Z * list Z * device_data D :=
  let '(ret, buf, d) := op_modesense lops TC_MP_DEV_CONFIG_EXT TC_MP_PC_CURRENT 1
                          (replicate TC_MP_DEV_CONFIG_EXT_SIZE 0) (backend_data dev) in
  (ret, buf, set_backend (position dev) d dev).

(** The size in megabytes, an [uint16_t] *)
Definition tape_get_pews dev : Z * Z * device_data D :=
  let '(ret, buf, dev) := sense_config dev in
  if ret <? 0 then (ret, 0, dev)
  else (0, u16 (Z.lor (Z.shiftl (byte_at buf 22) 8) (byte_at buf 23)), dev).

Definition tape_set_pews (cap : tc_remaining_cap) (set_value : bool) dev : Z * device_data D :=
  let '(ret, cap, dev) := tape_get_capacity cap dev in
  if ret <? 0 then (ret, dev)
  else
    let half_of_max_p0 := max_p0 cap / 2 in
    let pews := if set_value then (if half_of_max_p0 <? 0xFFFF then half_of_max_p0 else 0xFFFF) else 0 in
    let '(ret, buf, dev) := sense_config dev in
    if ret <? 0 then (ret, dev)
    else
      let buf := <[0%nat := 0]> (<[1%nat := 0]> buf) in
      let buf := <[16%nat := Z.land (byte_at buf 16) 0x7F]> buf in
      let buf := <[22%nat := Z.land (Z.shiftr pews 8) 0xFF]> (<[23%nat := Z.land pews 0xFF]> buf) in
      backend_op (op_modeselect lops buf) dev.

Definition tape_get_append_only_mode_setting dev : Z * bool * device_data D :=
  let '(ret, buf, dev) := sense_config dev in
  if ret <? 0 then (ret, false, dev)
  else
    let enabled := negb (Z.land (Z.shiftr (byte_at buf 21) 4) 0x0F =? 0) in
    (0, enabled, set_modes (max_block_size dev) enabled dev).

(** [for (i = 0; i < n && ret < 0; i++)] of the readiness test *)
Fixpoint test_ready_times (n : nat) (ret : Z) dev : Z * device_data D :=
  match n with
  | O => (ret, dev)
  | S n =>
      if ret <? 0 then let '(ret, dev) := _tape_test_unit_ready ops dev in test_ready_times n ret dev
      else (ret, dev)
  end.

Definition select_append_only (enable : bool) (buf : list Z) : list Z :=
  let buf := <[0%nat := 0]> (<[1%nat := 0]> buf) in
  let buf := <[16%nat := Z.land (byte_at buf 16) 0x7F]> buf in
  <[21%nat := Z.lor (Z.land (byte_at buf 21) 0x0F) (if enable then 0x10 else 0)]> buf.

Definition tape_enable_append_only_mode (enable : bool) dev : Z * device_data D :=
  let '(ret, dev) := test_ready_times 3 (-1) dev in
  let loaded := ret =? 0 in
  let '(ret, buf, dev) := sense_config dev in
  if ret <? 0 then (ret, dev)
  else
    let reload := loaded && negb enable && (Z.land (byte_at buf 21) 0xF0 =? 0x10) in
    let '(ret, dev) :=
      if reload then moving_op (op_unload lops) dev
      else if loaded && enable then
        let '(ret, dev) := moving_op (op_load lops) dev in
        (if ret =? - EDEV_MEDIUM_FORMAT_ERROR then - LTFS_UNSUPPORTED_MEDIUM else ret, dev)
      else (0, dev) in
    if ret <? 0 then (ret, dev)
    else
      let '(ret, dev) := backend_op (op_modeselect lops (select_append_only enable buf)) dev in
      if ret <? 0 then (ret, dev)
      else
        let '(ret, dev) := if reload then moving_op (op_load lops) dev else (0, dev) in
        if ret <? 0 then (ret, dev)
        else (0, set_modes (max_block_size dev) enable dev).

(** ** Waiting for the drive *)

(** The [for] loop: up to [n] tests. *)
Fixpoint loadable_loop (n : nat) (ret : Z) dev : Z * device_data D :=
  match n with
  | O => (ret, dev)
  | S n =>
      if ret <? 0 then
        let '(ret, dev) := _tape_test_unit_ready ops dev in
        if (ret =? DEVICE_GOOD) || (ret =? - EDEV_NEED_INITIALIZE) then (DEVICE_GOOD, dev)
        else if ret =? - EDEV_NO_MEDIUM then (- LTFS_NO_MEDIUM, dev)
        else if (ret =? - EDEV_BECOMING_READY) || (ret =? - EDEV_NOT_SELF_CONFIGURED_YET)
                || (ret =? - EDEV_MEDIUM_MAY_BE_CHANGED) || (ret =? - EDEV_POR_OR_BUS_RESET)
                || (ret =? - EDEV_CONFIGURE_CHANGED)
        then loadable_loop n ret dev
        else (ret, dev)
      else (ret, dev)
  end.

Definition tape_is_cartridge_loadable dev : Z * device_data D := loadable_loop 300 (- EDEV_UNKNOWN) dev.

(** Tape alert flags 0Bh, 16h, 17h and 36h *)
Definition any_cleaning_media : Z :=
  Z.lor 0x0020000000000000 (Z.lor 0x0000040000000000 (Z.lor 0x0000020000000000 0x0000000000000400)).

Definition IS_MEDIUM_ERROR (e : Z) : bool := (EDEV_MEDIUM_MIN <=? e) && (e <=? EDEV_MEDIUM_MAX).
Definition IS_HARDWARE_ERROR (e : Z) : bool := (EDEV_HARDWARE_MIN <=? e) && (e <=? EDEV_HARDWARE_MAX).

(** From the label [make_ready] on: [tries] tests, and again from the start when the
    cartridge had to be loaded.  [inl]: the function returns this. *)
Fixpoint make_ready (fuel : nat) (load : device_data D -> option (Z * device_data D)) (tries : nat) (ret : Z) dev
    : option ((Z + Z) * device_data D) :=
  match tries with
  | O => Some (inr ret, dev)
  | S tries =>
      if negb (ret <? 0) then Some (inr ret, dev)
      else match fuel with
      | O => None
      | S fuel =>
          let '(ret, dev) := _tape_test_unit_ready ops dev in
          if (ret =? - EDEV_NEED_INITIALIZE) || (ret =? - EDEV_BECOMING_READY) then
            let '(rc, tape_alert, dev) := tape_get_tape_alert 0 dev in
            if (0 <=? rc) && negb (Z.land tape_alert any_cleaning_media =? 0) then Some (inl ret, dev)
            else match load dev with
                 | None => None
                 | Some (_, dev) => make_ready fuel load 3 ret dev
                 end
          else if ret =? - LTFS_NULL_ARG then Some (inl ret, dev)
          else make_ready fuel load tries ret dev
      end
  end.

Fixpoint ready_loop (n : nat) (ret : Z) dev : Z * device_data D :=
  match n with
  | O => (ret, dev)
  | S n =>
      if ret <? 0 then
        let '(ret, dev) := _tape_test_unit_ready ops dev in
        if (ret =? DEVICE_GOOD) || (ret =? - EDEV_NO_MEDIUM) || (ret =? - EDEV_DRIVER_ERROR)
           || IS_MEDIUM_ERROR (- ret) || IS_HARDWARE_ERROR (- ret)
        then (ret, dev)
        else ready_loop n ret dev
      else (ret, dev)
  end.

Definition tape_wait_device_ready (fuel : nat) (load : device_data D -> option (Z * device_data D)) dev
    : option (Z * device_data D) :=
  match make_ready fuel load 3 (- EDEV_UNKNOWN) dev with
  | None => None
  | Some (inl ret, dev) => Some (ret, dev)
  | Some (inr ret, dev) => Some (ready_loop 30 ret dev)
  end.

(** ** Loading *)

Definition space_status (both : bool) (remaining pews : Z) : partition_status :=
  if both && (remaining =? 0) then PART_NO_SPACE
  else if remaining <=? pews then PART_LESS_SPACE
  else PART_WRITABLE.

(** The read-only flags and what is left on the partitions *)
Definition note_parameters (param : tc_drive_param) (cap : tc_remaining_cap) (pews : Z) dev : device_data D :=
  let both := negb (max_p0 cap =? 0) && negb (max_p1 cap =? 0) in
  let dev := set_protect (param_write_protect param) dev in
  let dev := set_flags (param_write_protect param || logical_write_protect param) false (fence dev) (is_key_set dev) dev in
  set_space (space_status both (remaining_p0 cap) pews, space_status both (remaining_p1 cap) pews) dev.

(** What the structures on the stack hold before they are filled: [cap0], [param0];
    the 9 bytes for an attribute: [junk]. *)
Context (cap0 : tc_remaining_cap) (param0 : tc_drive_param) (junk : list Z).

(** From the drive being ready on.  The sum of a [uint16_t] and 10 is stored in one. *)
Definition load_parameters (kmi : bool) dev : Z * device_data D :=
  let '(ret, dev) := moving_op (op_readpos ops) dev in
  if ret <? 0 then (ret, dev) else
  let '(ret, dev) := backend_op (op_set_default lops) dev in
  if ret <? 0 then (ret, dev) else
  let '(ret, dev) := tape_clear_key ops kmi dev in
  if ret <? 0 then (ret, dev) else
  let '(ret, cap, dev) := tape_get_capacity cap0 dev in
  if ret <? 0 then (ret, dev) else
  let '(ret, param, d) := op_get_parameters lops param0 (backend_data dev) in
  let dev := set_backend (position dev) d dev in
  if ret <? 0 then (ret, dev) else
  let dev := set_modes (max_blksize param) (append_only_mode dev) dev in
  let '(ret, pews, dev) := tape_get_pews dev in
  if ret <? 0 then (ret, dev) else
  let dev := note_parameters param cap (u16 (pews + 10)) dev in
  let ret := tape_get_ewstate ops junk dev in
  (0, if ret =? EWSTATE_SET then set_space ((partition_space dev).1, PART_NO_SPACE) dev else dev).

(** Waiting for the drive may load the cartridge again. *)
Fixpoint tape_load_tape (fuel : nat) (kmi : bool) dev : option (Z * device_data D) :=
  match fuel with
  | O => None
  | S fuel =>
      let '(ret, dev) := tape_is_cartridge_loadable dev in
      if ret <? 0 then Some (ret, dev)
      else match while_reset fuel (moving_op (op_load lops)) dev with
      | None => None
      | Some (ret, dev) =>
          if ret =? - EDEV_NO_MEDIUM then Some (- LTFS_NO_MEDIUM, dev)
          else if ret <? 0 then
            Some (if ret =? - EDEV_MEDIUM_FORMAT_ERROR then - LTFS_UNSUPPORTED_MEDIUM else ret, dev)
          else
            let dev := set_append_pos (0, 0) dev in
            match tape_wait_device_ready fuel (tape_load_tape fuel kmi) dev with
            | None => None
            | Some (ret, dev) =>
                if ret <? 0 then Some (- LTFS_DEVICE_UNREADY, dev)
                else match tape_prevent_medium_removal fuel dev with
                | None => None
                | Some (ret, dev) => if ret <? 0 then Some (ret, dev) else Some (load_parameters kmi dev)
                end
            end
      end
  end.

Definition tape_unload_tape (fuel : nat) dev : option (Z * device_data D) :=
  let dev := set_previous_exist (0, 0) dev in
  match tape_allow_medium_removal fuel false dev with
  | None => None
  | Some dev =>
      match while_reset fuel tape_rewind dev with
      | None => None
      | Some (_, dev) =>
          match while_reset fuel (moving_op (op_unload lops)) dev with
          | None => None
          | Some (_, dev) => Some (tape_enable_append_only_mode false dev)
          end
      end
  end.

(** ** Formatting *)

Definition bom : tc_position := seek_pos 0 0.

Definition tape_reset_capacity dev : Z * device_data D :=
  let '(ret, dev) := moving_op (op_locate ops bom) dev in
  if ret <? 0 then (ret, dev)
  else
    let '(ret, dev) := backend_op (op_setcap lops 0xFFFF) dev in
    if ret <? 0 then (ret, dev)
    else (0, (_tape_test_unit_ready ops dev).2).

(** The medium partition page: two partitions, [index_part] as small as possible.  In
    this build, the generic one, byte 22 is left as it is. *)
Definition partition_page (index_part : Z) (page : list Z) : list Z :=
  let page := <[0%nat := 0]> (<[1%nat := 0]> (<[19%nat := 1]> page)) in
  let page := <[20%nat := Z.lor 0x20 (Z.land (byte_at page 20) 0x1F)]> page in
  if index_part =? 1
  then <[24%nat := 0xFF]> (<[25%nat := 0xFF]> (<[26%nat := 0]> (<[27%nat := 1]> page)))
  else <[24%nat := 0]> (<[25%nat := 1]> (<[26%nat := 0xFF]> (<[27%nat := 0xFF]> page))).

(** The names of the volume and the barcode are handed on to the backend, which the
    table [load_ops] leaves out.  [None]: the page says it is longer than its buffer,
    which is then read past its end.  The result of the mode selection is not
    looked at. *)
Definition tape_format (index_part : Z) dev : option (Z * device_data D) :=
  let '(ret, dev) := moving_op (op_load lops) dev in
  if ret <? 0 then Some (ret, dev)
  else
    let '(ret, page, d) := op_modesense lops TC_MP_MEDIUM_PARTITION TC_MP_PC_CURRENT 0
                             (replicate TC_MP_MEDIUM_PARTITION_SIZE 0) (backend_data dev) in
    let dev := set_backend (position dev) d dev in
    if ret <? 0 then Some (ret, dev)
    else
      let pagelen := Z.shiftl (byte_at page 0) 8 + byte_at page 1 + 2 in
      if Z.of_nat TC_MP_MEDIUM_PARTITION_SIZE + 4 <? pagelen then None
      else
        let page := partition_page index_part (page ++ replicate 4 0) in
        let '(_, dev) := backend_op (op_modeselect lops (take (Z.to_nat pagelen) page)) dev in
        let '(ret, dev) := backend_op (op_format lops TC_FORMAT_DEST_PART) dev in
        if ret <? 0 then Some (ret, dev)
        else
          let '(_, dev) := tape_set_ewstate ops EWSTATE_CLEAR dev in
          Some (0, set_space (PART_WRITABLE, PART_WRITABLE) dev).

Definition tape_remove_ewstate dev : Z * device_data D :=
  backend_op (op_write_attribute ops 0 [TC_MAM_PAGE_EWSTATE / 256; TC_MAM_PAGE_EWSTATE mod 256; 0; 0; 0]) dev.

Definition tape_unformat dev : Z * device_data D :=
  let '(ret, dev) := moving_op (op_load lops) dev in
  if ret <? 0 then (ret, dev)
  else
    let '(ret, dev) := backend_op (op_format lops TC_FORMAT_DEFAULT) dev in
    if ret <? 0 then (ret, dev)
    else
      let '(_, dev) := tape_remove_ewstate dev in
      (0, set_space (PART_WRITABLE, PART_WRITABLE) dev).

(** ** Indexes on tape

    From one to the next: the head ends at the first block of an index. *)

Definition tape_locate_next_index dev : Z * device_data D := tape_spacefm ops 1 dev.

Definition tape_locate_previous_index dev : Z * device_data D :=
  let '(ret, dev) := tape_spacefm ops (-4) dev in
  if ret =? 0 then tape_spacefm ops 1 dev else (ret, dev).

Definition tape_locate_first_index (part : Z) dev : Z * device_data D :=
  let '(ret, dev) := tape_seek ops (seek_pos part 4) dev in
  if ret =? 0 then tape_spacefm ops 1 dev else (ret, dev).

Definition tape_locate_last_index (part : Z) dev : Z * device_data D :=
  let '(ret, dev) := tape_seek_eod ops part dev in
  if negb (ret =? 0) then (ret, dev)
  else
    let '(ret, dev) := tape_spacefm ops (-2) dev in
    if ret =? 0 then tape_spacefm ops 1 dev else (ret, dev).

(** ** Missing end of data *)

(** The [while] loop reads until a read fails. *)
Fixpoint read_to_end (fuel : nat) (size : Z) (kmi : option (list Z -> Z * option (list Z))) dev
    : option (device_data D) :=
  match fuel with
  | O => None
  | S fuel =>
      let '(ret, _, dev) := tape_read ops size true kmi dev in
      if 0 <=? ret then read_to_end fuel size kmi dev else Some dev
  end.

(** In this build, the generic one, the erase position is one block before the one
    that is reported, and the cartridge is not unloaded first. *)
Definition tape_recover_eod_status (fuel : nat) (kmi : option (list Z -> Z * option (list Z))) dev
    : option (Z * device_data D) :=
  let '(ret, recover_block_size, dev) := tape_get_max_blocksize param0 dev in
  if ret <? 0 then Some (ret, dev)
  else match read_to_end fuel recover_block_size kmi dev with
  | None => None
  | Some dev =>
      let '(ret, eod_pos, d) := op_readpos ops (seek_pos 0 0) (backend_data dev) in
      let dev := set_backend (position dev) d dev in
      if ret <? 0 then Some (ret, dev)
      else
        let eod_pos := set_block (u64 (block eod_pos - 1)) eod_pos in
        match tape_load_tape fuel (match kmi with Some _ => true | None => false end) dev with
        | None => None
        | Some (ret, dev) =>
            if ret <? 0 then Some (ret, dev)
            else
              let '(ret, dev) := tape_seek ops eod_pos dev in
              if ret <? 0 then Some (ret, dev) else Some (tape_erase false dev)
        end
  end.

End load.
