(* ===== verification/TapeDevSpec.v ===== *)
(** * What the tape layer does

    The functions of [TapeDev] and [TapeLoad] against the backend contract [TapeOk]:
    seeking reaches the requested block, a write lands where it should and is recorded
    in the append position, and a device that had a write error, or is write protected,
    is not written again until a cartridge is loaded.  [TapeOnFile] instantiates the
    results with the file-backed driver. *)

From stdpp Require Import relations.
From S2P Require Import Prelude Errors Endian TapeOps TapeDev TapeLoad.
Open Scope Z_scope.

Section spec.
Context {D : Type} (ops : tape_ops D) {tape_at : D -> medium -> tc_position -> Prop}.
Context `{!TapeOk ops tape_at}.
Implicit Types (dev : device_data D).

(** The device holds the medium [m] and its head is where [position] says. *)
Definition dev_at (dev : device_data D) (m : medium) : Prop :=
  tape_at (backend_data dev) m (position dev).

(** Everything that is not the space bookkeeping. *)
Definition same_but_space dev dev' : Prop :=
  position dev' = position dev /\ append_pos dev' = append_pos dev
  /\ backend_data dev' = backend_data dev /\ max_block_size dev' = max_block_size dev
  /\ write_protect dev' = write_protect dev /\ write_error dev' = write_error dev
  /\ append_only_mode dev' = append_only_mode dev /\ fence dev' = fence dev.

Lemma note_space_same dev : same_but_space dev (note_space dev).
Proof.
  unfold note_space, same_but_space. destruct (early_warning (position dev)); cbn;
    by case_match.
Qed.

Lemma note_space_at dev m : dev_at dev m -> dev_at (note_space dev) m.
Proof.
  destruct (note_space_same dev) as (Hp & _ & Hd & _). unfold dev_at. by rewrite Hp, Hd.
Qed.

(** ** Seeking *)

Definition dest_block (m : medium) (pos : tc_position) : Z :=
  if block pos =? TAPE_BLOCK_MAX then eod_at m (partition pos) else block pos.

Lemma tape_seek_ok pos dev m rc dev' :
  dev_at dev m -> valid_part (partition pos) -> 0 <= block pos < 2 ^ 64 ->
  tape_seek ops pos dev = (rc, dev') -> 0 <= rc ->
  rc = 0 /\ dev_at dev' m /\ partition (position dev') = partition pos
  /\ block (position dev') = dest_block m pos
  /\ append_pos dev' = append_pos dev /\ write_protect dev' = write_protect dev
  /\ write_error dev' = write_error dev /\ max_block_size dev' = max_block_size dev
  /\ append_only_mode dev' = append_only_mode dev.
Proof.
  intros Hat Hv Hb Hs Hrc. unfold tape_seek in Hs.
  destruct (tape_at_ok _ _ _ Hat) as (Hvp & Hbp & He0 & He1).
  assert (Hmax : forall p, valid_part p -> eod_at m p < 2 ^ 63) by (intros p [->| ->]; done).
  pose proof (Hmax _ Hv) as Hev. pose proof (Hmax _ Hvp) as Hevp.
  destruct ((partition pos =? partition (position dev)) && (block pos =? block (position dev))) eqn:E.
  - bool_to_prop. rewrite (proj2 (Z.eqb_eq (partition (position dev)) _)) in Hs by lia.
    rewrite (proj2 (Z.eqb_eq (block pos) (block (position dev)))) in Hs by done. cbn in Hs.
    rewrite andb_false_r in Hs. injection Hs as <- <-.
    unfold dest_block. rewrite (proj2 (Z.eqb_neq _ _)) by (unfold TAPE_BLOCK_MAX; lia). done.
  - destruct (op_locate ops pos (position dev) (backend_data dev)) as [[ret pos'] d'] eqn:Hl.
    destruct (ret <? 0) eqn:Hneg; bool_to_prop.
    { rewrite (proj2 (Z.eqb_neq ret 0)) in Hs by lia. cbn in Hs. injection Hs as <- _. lia. }
    destruct (locate_ok _ _ _ _ _ _ _ Hat Hv (proj1 Hb) Hl Hneg) as (-> & Hat' & Hp' & Hb').
    pose proof (note_space_same (set_backend pos' d' dev)) as (Hsp & Hsa & Hsd & Hsm & Hswp & Hswe & Hsao & _).
    rewrite Hsp in Hs. cbn [position set_backend] in Hs. rewrite Hp', (Z.eqb_refl (partition pos)) in Hs.
    cbn [negb orb andb Z.eqb] in Hs.
    destruct (negb (block pos =? TAPE_BLOCK_MAX) && negb (block pos =? block pos')) eqn:Hbad.
    { injection Hs as <- _. by unfold LTFS_BAD_LOCATE in Hrc. }
    injection Hs as <- <-. split; [done|]. split; [by apply note_space_at|].
    rewrite Hsp, Hsa, Hswp, Hswe, Hsm, Hsao. cbn. split; [done|]. split; [|done].
    unfold dest_block. destruct (Z.eqb_spec (block pos) TAPE_BLOCK_MAX) as [Hm|Hm].
    + rewrite Hb', Hm. unfold TAPE_BLOCK_MAX. lia.
    + cbn in Hbad. by apply negb_false_iff, Z.eqb_eq in Hbad.
Qed.

(** [tape_seek] answers 0 only when the head is at the requested block of the
    requested partition (at the end of data for [TAPE_BLOCK_MAX]), the medium
    unchanged; a block beyond the end of data is [-LTFS_BAD_LOCATE], and a seek to
    where the head already is does not touch the drive. *)
Theorem tape_seek_spec pos dev m rc dev' :
  dev_at dev m -> valid_part (partition pos) -> 0 <= block pos < 2 ^ 64 ->
  tape_seek ops pos dev = (rc, dev') ->
  (0 <= rc -> rc = 0 /\ dev_at dev' m /\ partition (position dev') = partition pos
     /\ block (position dev') = dest_block m pos /\ dest_block m pos <= eod_at m (partition pos))
  /\ (rc < 0 -> (op_locate ops pos (position dev) (backend_data dev)).1.1 < 0
       \/ (rc = - LTFS_BAD_LOCATE /\ eod_at m (partition pos) < block pos < TAPE_BLOCK_MAX
           /\ dev_at dev' m))
  /\ (partition pos = partition (position dev) -> block pos = block (position dev) ->
      rc = 0 /\ dev' = dev).
Proof.
  intros Hat Hv Hb Hs. split; [|split].
  - intros Hrc. destruct (tape_seek_ok _ _ _ _ _ Hat Hv Hb Hs Hrc) as (H0 & Hat' & Hp & Hbl & _).
    split; [done|]. split; [done|]. split; [done|]. split; [done|].
    destruct (tape_at_ok _ _ _ Hat') as (_ & Hle & _). rewrite Hp in Hle. lia.
  - intros Hrc. unfold tape_seek in Hs. destruct (_ && (block pos =? block (position dev))) eqn:E.
    + exfalso. bool_to_prop. rewrite (proj2 (Z.eqb_eq (partition (position dev)) _)) in Hs by lia.
      rewrite (proj2 (Z.eqb_eq (block pos) (block (position dev)))) in Hs by done. cbn in Hs.
      rewrite andb_false_r in Hs. injection Hs as <- _. lia.
    + destruct (op_locate ops pos (position dev) (backend_data dev)) as [[ret pos'] d'] eqn:Hl.
      destruct (ret <? 0) eqn:Hneg; bool_to_prop; [by left|]. right.
      destruct (locate_ok _ _ _ _ _ _ _ Hat Hv (proj1 Hb) Hl Hneg) as (-> & Hat' & Hp' & Hb').
      pose proof (note_space_same (set_backend pos' d' dev)) as (Hsp & _).
      rewrite Hsp in Hs. cbn [position set_backend] in Hs. rewrite Hp', (Z.eqb_refl (partition pos)) in Hs.
      cbn [negb orb andb Z.eqb] in Hs.
      destruct (negb (block pos =? TAPE_BLOCK_MAX) && negb (block pos =? block pos')) eqn:Hbad.
      2:{ injection Hs as <- _. lia. }
      injection Hs as <- <-. split; [done|]. bool_to_prop. unfold TAPE_BLOCK_MAX in *.
      split; [lia|]. by apply note_space_at.
  - intros Hp Hbl. unfold tape_seek in Hs.
    rewrite Hp, Hbl, (Z.eqb_refl (partition _)), (Z.eqb_refl (block _)) in Hs.
    cbn in Hs. rewrite ?Z.eqb_refl in Hs. cbn in Hs. rewrite ?andb_false_r in Hs.
    by injection Hs as <- <-.
Qed.

(** ** Writing *)

Lemma tape_set_ewstate_at e dev m :
  dev_at dev m -> dev_at (tape_set_ewstate ops e dev).2 m.
Proof.
  intros Hat. unfold tape_set_ewstate.
  destruct (op_write_attribute ops 0 _ _) as [rc d'] eqn:Hw. unfold dev_at. cbn.
  by eapply write_attribute_ok.
Qed.

(** What a write call that reaches the drive reports: the result of the drive, or
    the space warning the drive raised and the caller does not ignore. *)
Definition reported (ok : Z) (ignore_less ignore_nospc : bool) (pos : tc_position) : Z :=
  if early_warning pos then (if ignore_nospc then ok else - LTFS_NO_SPACE)
  else if programmable_early_warning pos then (if ignore_less then ok else - LTFS_LESS_SPACE)
  else ok.

Definition space_after (pos : tc_position) (sp : partition_status * partition_status) :=
  if early_warning pos then upd (partition pos) PART_NO_SPACE sp
  else if programmable_early_warning pos then upd (partition pos) PART_LESS_SPACE sp
  else sp.

Lemma write_refused_neg il ins dev : write_refused il ins dev <= 0.
Proof.
  unfold write_refused, LTFS_WRITE_PROTECT, LTFS_WRITE_ERROR, LTFS_NO_SPACE, LTFS_LESS_SPACE.
  repeat case_match; lia.
Qed.

(** [tape_write] once the drive has accepted the block. *)
Lemma tape_write_accepted buf il ins dev m bret pos' d' :
  dev_at dev m -> 0 < Z.of_nat (length buf) < 2 ^ 31 -> block (position dev) + 1 < 2 ^ 63 ->
  write_refused il ins dev = 0 -> Z.of_nat (length buf) <= max_block_size dev ->
  op_write ops buf (position dev) (backend_data dev) = (bret, pos', d') -> 0 <= bret ->
  exists dev', tape_write ops buf il ins dev = (reported (Z.of_nat (length buf)) il ins pos', dev')
  /\ dev_at dev' (write_at (partition (position dev)) (block (position dev)) [Data buf] m)
  /\ position dev' = pos' /\ partition pos' = partition (position dev)
  /\ block pos' = block (position dev) + 1
  /\ append_pos dev' = upd (partition pos') (block pos') (append_pos dev)
  /\ partition_space dev' = space_after pos' (partition_space dev)
  /\ write_error dev' = write_error dev /\ write_protect dev' = write_protect dev
  /\ max_block_size dev' = max_block_size dev.
Proof.
  intros Hat Hlen Hb Hr Hm Hw Hbret.
  destruct (write_ok _ _ _ _ _ _ _ Hat Hlen Hb Hw Hbret) as (Hp & Hbl & Hat').
  unfold tape_write. rewrite Hr. change (0 <? 0) with false. cbv iota zeta.
  rewrite Z.gtb_ltb, (proj2 (Z.ltb_ge (max_block_size dev) _)) by lia. change (0 <? 0) with false. cbv iota.
  rewrite Hw, (proj2 (Z.ltb_ge bret 0)) by lia. cbn [position set_backend].
  unfold reported, space_after. destruct (early_warning pos') eqn:Hew.
  - pose proof (tape_set_ewstate_at EWSTATE_SET (set_space (upd (partition pos') PART_NO_SPACE
      (partition_space dev)) (set_backend pos' d' dev)) _ Hat') as Hat2.
    unfold tape_set_ewstate, dev_at in Hat2 |- *. cbn in Hat2 |- *.
    destruct (op_write_attribute ops 0 _ d') as [st d2]. cbn in Hat2 |- *.
    eexists. split; [by destruct ins|]. cbn. by rewrite Hp, Hbl.
  - destruct (programmable_early_warning pos') eqn:Hpew.
    + eexists. split; [by destruct il|]. cbn. by rewrite Hp, Hbl.
    + eexists. split; [done|]. cbn. by rewrite Hp, Hbl.
Qed.

(** C27: Every way [tape_write] can end.  A write protected or failed device, an
    exhausted partition and an oversized block are refused before the drive is
    touched; a block the drive accepts is the last record of the partition,
    wherever the head was, and the append position is just behind it, even when a
    space warning turns the result into [-LTFS_NO_SPACE] or [-LTFS_LESS_SPACE]; an
    error of the drive latches [write_error] unless it asks for revalidation. *)
Theorem tape_write_spec buf il ins dev m rc dev' :
  dev_at dev m -> 0 < Z.of_nat (length buf) < 2 ^ 31 -> block (position dev) + 1 < 2 ^ 63 ->
  tape_write ops buf il ins dev = (rc, dev') ->
  let p := partition (position dev) in
  let b := block (position dev) in
  let '(bret, bpos, _) := op_write ops buf (position dev) (backend_data dev) in
  if write_refused il ins dev <? 0 then rc = write_refused il ins dev /\ dev' = dev
  else if Z.of_nat (length buf) >? max_block_size dev then rc = - LTFS_LARGE_BLOCKSIZE /\ dev' = dev
  else if bret <? 0 then rc = bret /\ write_error dev' = write_error dev || negb (NEED_REVAL bret)
  else rc = reported (Z.of_nat (length buf)) il ins bpos
       /\ dev_at dev' (write_at p b [Data buf] m)
       /\ sel p (append_pos dev') = b + 1
       /\ eod_at (write_at p b [Data buf] m) p = b + 1
       /\ partition_space dev' = space_after bpos (partition_space dev).
Proof.
  intros Hat Hlen Hb Hw p b.
  destruct (tape_at_ok _ _ _ Hat) as (Hvp & Hbp & _).
  destruct (op_write ops buf (position dev) (backend_data dev)) as [[bret bpos] d'] eqn:Hop.
  destruct (write_refused il ins dev <? 0) eqn:Hr.
  { unfold tape_write in Hw. rewrite Hr in Hw. cbv iota zeta in Hw. rewrite Hr in Hw.
    by injection Hw as <- <-. }
  pose proof (write_refused_neg il ins dev). bool_to_prop.
  assert (H0 : write_refused il ins dev = 0) by lia.
  destruct (Z.of_nat (length buf) >? max_block_size dev) eqn:Hm.
  { unfold tape_write in Hw. rewrite H0, Hm in Hw. by injection Hw as <- <-. }
  destruct (bret <? 0) eqn:Hneg.
  { unfold tape_write in Hw. rewrite H0, Hm, Hop, Hneg in Hw. injection Hw as <- <-.
    split; [done|]. destruct (NEED_REVAL bret); cbn; by rewrite ?orb_true_r, ?orb_false_r. }
  bool_to_prop.
  destruct (tape_write_accepted buf il ins dev m bret bpos d') as (dev2 & Hw2 & Hat2 & Hp2 & Hpp & Hpb & Ha & Hsp & _);
    [done|done|done|done|lia|done|done|].
  rewrite Hw2 in Hw. injection Hw as <- <-.
  split; [done|]. split; [done|]. split; [|split; [|done]].
  - rewrite Ha, sel_upd by (rewrite ?Hpp; done). unfold p. by rewrite Hpp, Z.eqb_refl.
  - unfold p, b. by rewrite eod_write_at.
Qed.

(** Where an append to partition [prt] goes. *)
Definition append_block (m : medium) (prt : Z) dev : Z :=
  if sel prt (append_pos dev) =? 0 then eod_at m prt else sel prt (append_pos dev).

Lemma tape_seek_append_ok prt unlock_write dev m rc dev' :
  dev_at dev m -> valid_part prt -> 0 <= sel prt (append_pos dev) < TAPE_BLOCK_MAX ->
  tape_seek_append_position ops prt unlock_write dev = (rc, dev') -> 0 <= rc ->
  dev_at dev' m /\ partition (position dev') = prt /\ block (position dev') = append_block m prt dev
  /\ append_block m prt dev <= eod_at m prt /\ max_block_size dev' = max_block_size dev
  /\ sel (1 - prt) (append_pos dev') = sel (1 - prt) (append_pos dev).
Proof.
  intros Hat Hv Ha Hseek Hrc. unfold append_block. unfold TAPE_BLOCK_MAX in Ha.
  unfold tape_seek_append_position in Hseek. set (a := sel prt (append_pos dev)) in *.
  set (b0 := if a =? 0 then TAPE_BLOCK_MAX else a) in Hseek.
  destruct (tape_seek ops (seek_pos prt b0) dev) as [rs ds] eqn:Hs.
  assert (Hb0 : 0 <= b0 < 2 ^ 64) by (unfold b0, TAPE_BLOCK_MAX; destruct (a =? 0); lia).
  destruct (rs <? 0) eqn:Hneg; [injection Hseek as <- <-; bool_to_prop; lia|]. bool_to_prop.
  destruct (tape_seek_ok (seek_pos prt b0) _ _ _ _ Hat Hv Hb0 Hs Hneg)
    as (-> & Hats & Hps & Hbs & Has & Hwp & Hwe & Hmx & _).
  cbn [partition seek_pos] in Hps.
  assert (Hbb : block (position ds) = if a =? 0 then eod_at m prt else a).
  { rewrite Hbs. unfold dest_block, b0. cbn. destruct (Z.eqb_spec a 0) as [E|E].
    - by rewrite (Z.eqb_refl TAPE_BLOCK_MAX).
    - by rewrite (proj2 (Z.eqb_neq _ _)) by (unfold TAPE_BLOCK_MAX; lia). }
  destruct (tape_at_ok _ _ _ Hats) as (_ & Hle & _). rewrite Hps, Hbb in Hle.
  assert (H1 : dev_at dev' m /\ position dev' = position ds /\ max_block_size dev' = max_block_size ds
    /\ sel (1 - prt) (append_pos dev') = sel (1 - prt) (append_pos ds)).
  { destruct (unlock_write && append_only_mode ds && negb (b0 =? TAPE_BLOCK_MAX)).
    - destruct (op_allow_overwrite ops (position ds) (backend_data ds)) as [ra da] eqn:Hal.
      injection Hseek as <- <-. unfold dev_at. cbn.
      destruct (sel prt (append_pos ds) =? 0); cbn; rewrite ?sel_upd_other by done;
        (split; [eapply allow_overwrite_ok; [exact Hats|exact Hal]|done]).
    - injection Hseek as <- <-. unfold dev_at.
      destruct (sel prt (append_pos ds) =? 0); [|done]. cbn. by rewrite sel_upd_other. }
  destruct H1 as (Hat1 & Hp1 & Hm1 & Ho1). rewrite Hp1, Hm1, Ho1, Has. split; [done|].
  split; [done|]. split; [done|]. split; [lia|done].
Qed.

(** A write that succeeds was not refused, and the drive accepted the block. *)
Lemma tape_write_success buf il ins dev rc dev' :
  tape_write ops buf il ins dev = (rc, dev') -> 0 <= rc ->
  write_refused il ins dev = 0 /\ Z.of_nat (length buf) <= max_block_size dev
  /\ exists bret pos' d', op_write ops buf (position dev) (backend_data dev) = (bret, pos', d') /\ 0 <= bret.
Proof.
  intros Hw Hrc. destruct (write_refused il ins dev <? 0) eqn:Hr.
  { unfold tape_write in Hw. rewrite Hr in Hw. cbv iota zeta in Hw. rewrite Hr in Hw.
    injection Hw as <- _. bool_to_prop. lia. }
  pose proof (write_refused_neg il ins dev). bool_to_prop.
  assert (H0 : write_refused il ins dev = 0) by lia. split; [done|].
  destruct (Z.of_nat (length buf) >? max_block_size dev) eqn:Hm.
  { unfold tape_write in Hw. rewrite H0, Hm in Hw. injection Hw as <- _.
    by unfold LTFS_LARGE_BLOCKSIZE in Hrc. }
  destruct (op_write ops buf (position dev) (backend_data dev)) as [[bret bpos] d'] eqn:Hop.
  destruct (bret <? 0) eqn:Hneg.
  { unfold tape_write in Hw. rewrite H0, Hm, Hop, Hneg in Hw. injection Hw as <- _.
    bool_to_prop. lia. }
  bool_to_prop. split; [lia|]. by exists bret, bpos, d'.
Qed.

(** C19: Seeking to the append position and writing a block appends it: behind the
    last record of the partition, or, where an append position was set, in place
    of whatever followed that block.  The new append position is the new end of
    data of the partition, so that the next append continues from there. *)
Theorem append_write prt unlock_write buf il ins dev m rc1 dev1 rc2 dev2 :
  dev_at dev m -> valid_part prt -> 0 <= sel prt (append_pos dev) < TAPE_BLOCK_MAX ->
  0 < Z.of_nat (length buf) < 2 ^ 31 -> eod_at m prt + 1 < 2 ^ 63 ->
  tape_seek_append_position ops prt unlock_write dev = (rc1, dev1) -> 0 <= rc1 ->
  tape_write ops buf il ins dev1 = (rc2, dev2) -> 0 <= rc2 ->
  let b := append_block m prt dev in
  let m' := write_at prt b [Data buf] m in
  b <= eod_at m prt /\ rc2 = Z.of_nat (length buf) /\ dev_at dev2 m'
  /\ sel prt (append_pos dev2) = eod_at m' prt
  /\ (forall q i, valid_part q -> q <> prt \/ i < b -> record_at m' q i = record_at m q i).
Proof.
  intros Hat Hv Ha Hlen He Hseek Hrc1 Hw Hrc2 b m'.
  destruct (tape_seek_append_ok _ _ _ _ _ _ Hat Hv Ha Hseek Hrc1) as (Hat1 & Hp1 & Hb1 & Hle & _).
  fold b in Hb1, Hle. pose proof (tape_at_ok _ _ _ Hat1) as (_ & Hr & _). rewrite Hp1, Hb1 in Hr.
  destruct (tape_write_success _ _ _ _ _ _ Hw Hrc2) as (H0 & Hm & bret & bpos & d' & Hop & Hbret).
  destruct (tape_write_accepted buf il ins dev1 m bret bpos d') as (dev3 & Hw3 & Hat3 & Hp3 & Hpp & Hpb & Ha3 & _);
    [done|done|rewrite Hb1; lia|done|done|done|done|].
  rewrite Hw3 in Hw. injection Hw as <- <-. rewrite Hp1, Hb1 in *.
  split; [lia|]. split; [|split; [exact Hat3|split]].
  - unfold reported in *. repeat case_match; try done;
      unfold LTFS_NO_SPACE, LTFS_LESS_SPACE in *; lia.
  - rewrite Ha3, sel_upd by (rewrite ?Hpp; done). rewrite Hpp, Z.eqb_refl, Hpb.
    unfold m'. by rewrite eod_write_at.
  - intros q i Hq Hqi. unfold m'. apply record_at_write_before; try done.
    destruct Hqi; [left; congruence|by right].
Qed.

(** ** Runs of calls *)

Context (lops : load_ops D).

(** The calls of the layer that do not load a cartridge: [tape_load_tape], and
    [tape_wait_device_ready] and [tape_recover_eod_status], which may call it, are left
    out.  Loops that wait for the drive take fuel.  [CBackend] stands for the calls
    that hand their arguments to the backend and keep nothing of the answer:
    attributes, coherency, tape alerts, dumps. *)
Inductive tape_call :=
  | CSeek (pos : tc_position)
  | CSeekEod (prt : Z)
  | CSeekAppend (prt : Z) (unlock_write : bool)
  | CSetAppend (prt b : Z)
  | CUpdatePosition (pos : tc_position)
  | CSpacefm (count : Z)
  | CRead (count : Z) (unusual_size : bool) (kmi : option (list Z -> Z * option (list Z)))
  | CWrite (buf : list Z) (ignore_less ignore_nospc : bool)
  | CWriteFilemark (count : Z) (ignore_less ignore_nospc immed : bool)
  | CSetKey (keyalias key : option (list Z))
  | CClearKey (kmi : bool)
  | CGetKeyalias
  | CForceReadOnly
  | CStartFence
  | CReleaseFence
  | CTestUnitReady (ts_now : Z * Z)
  | CIsLoadable
  | CReserve (fuel : nat)
  | CRelease (fuel : nat)
  | CPreventRemoval (fuel : nat)
  | CAllowRemoval (fuel : nat) (force_release : bool)
  | CUnload (fuel : nat)
  | CGetCapacity (cap : tc_remaining_cap)
  | CSetCompression (use_compression : bool)
  | CGetMaxBlocksize (junk : tc_drive_param)
  | CLogicallyReadOnly (junk : tc_drive_param)
  | CGetWorm (junk : bool)
  | CEodStatus (part : Z)
  | CRewind
  | CErase (long_erase : bool)
  | CGetPews
  | CSetPews (cap : tc_remaining_cap) (set_value : bool)
  | CGetAppendOnly
  | CEnableAppendOnly (enable : bool)
  | CResetCapacity
  | CFormat (index_part : Z)
  | CUnformat
  | CNextIndex
  | CPreviousIndex
  | CFirstIndex (part : Z)
  | CLastIndex (part : Z)
  | CBackend (op : D -> Z * D).

(** The device a call leaves; [None]: it does not return within its fuel. *)
Definition run_call (c : tape_call) (dev : device_data D) : option (device_data D) :=
  match c with
  | CSeek pos => Some (tape_seek ops pos dev).2
  | CSeekEod prt => Some (tape_seek_eod ops prt dev).2
  | CSeekAppend prt u => Some (tape_seek_append_position ops prt u dev).2
  | CSetAppend prt b => Some (tape_set_append_position prt b dev).2
  | CUpdatePosition pos => Some (tape_update_position ops pos dev).2
  | CSpacefm n => Some (tape_spacefm ops n dev).2
  | CRead n u kmi => Some (tape_read ops n u kmi dev).2
  | CWrite buf il ins => Some (tape_write ops buf il ins dev).2
  | CWriteFilemark n il ins immed => Some (tape_write_filemark ops n il ins immed dev).2
  | CSetKey ka key => Some (tape_set_key ops ka key dev).2
  | CClearKey kmi => Some (tape_clear_key ops kmi dev).2
  | CGetKeyalias => Some (tape_get_keyalias ops dev).2
  | CForceReadOnly => Some (tape_force_read_only dev).2
  | CStartFence => Some (tape_start_fence dev).2
  | CReleaseFence => Some (tape_release_fence dev).2
  | CTestUnitReady ts => Some (tape_test_unit_ready ops ts dev).2
  | CIsLoadable => Some (tape_is_cartridge_loadable ops dev).2
  | CReserve fuel => snd <$> tape_reserve_device lops fuel dev
  | CRelease fuel => tape_release_device lops fuel dev
  | CPreventRemoval fuel => snd <$> tape_prevent_medium_removal lops fuel dev
  | CAllowRemoval fuel force => tape_allow_medium_removal lops fuel force dev
  | CUnload fuel => snd <$> tape_unload_tape ops lops fuel dev
  | CGetCapacity cap => Some (tape_get_capacity lops cap dev).2
  | CSetCompression use => Some (tape_set_compression lops use dev).2
  | CGetMaxBlocksize junk => Some (tape_get_max_blocksize lops junk dev).2
  | CLogicallyReadOnly junk => Some (tape_logically_read_only lops junk dev).2
  | CGetWorm junk => Some (tape_get_worm_status lops junk dev).2
  | CEodStatus part => Some (tape_check_eod_status lops part dev).2
  | CRewind => Some (tape_rewind lops dev).2
  | CErase long => Some (tape_erase lops long dev).2
  | CGetPews => Some (tape_get_pews lops dev).2
  | CSetPews cap v => Some (tape_set_pews lops cap v dev).2
  | CGetAppendOnly => Some (tape_get_append_only_mode_setting lops dev).2
  | CEnableAppendOnly e => Some (tape_enable_append_only_mode ops lops e dev).2
  | CResetCapacity => Some (tape_reset_capacity ops lops dev).2
  | CFormat ip => snd <$> tape_format ops lops ip dev
  | CUnformat => Some (tape_unformat ops lops dev).2
  | CNextIndex => Some (tape_locate_next_index ops dev).2
  | CPreviousIndex => Some (tape_locate_previous_index ops dev).2
  | CFirstIndex part => Some (tape_locate_first_index ops part dev).2
  | CLastIndex part => Some (tape_locate_last_index ops part dev).2
  | CBackend op => Some (backend_op op dev).2
  end.

Inductive tape_step : device_data D -> device_data D -> Prop :=
  | step_call c dev dev' : run_call c dev = Some dev' -> tape_step dev dev'.

Definition read_only dev : bool := write_protect dev || write_error dev.

(** What is noted stays noted. *)
Definition flags_kept dev dev' : Prop :=
  (write_protect dev = true -> write_protect dev' = true) /\ (write_error dev = true -> write_error dev' = true).

#[local] Instance flags_kept_preorder : PreOrder flags_kept.
Proof. split; [by split|]. intros d1 d2 d3 [H1 H2] [H3 H4]. split; auto. Qed.

(** One definition that calls nothing with loops of its own *)
Ltac kept := unfold flags_kept; repeat case_match; simplify_eq/=; auto.

Lemma note_space_kept dev : flags_kept dev (note_space dev).
Proof. unfold note_space. kept. Qed.

Lemma backend_op_kept op dev : flags_kept dev (backend_op op dev).2.
Proof. unfold backend_op. kept. Qed.

Lemma moving_op_kept op dev : flags_kept dev (moving_op op dev).2.
Proof. unfold moving_op. kept. Qed.

Lemma while_reset_kept fuel op dev ret dev' :
  (forall dev, flags_kept dev (op dev).2) -> while_reset fuel op dev = Some (ret, dev') -> flags_kept dev dev'.
Proof.
  intros Hop. revert dev. induction fuel as [|fuel IH]; intros dev H; [done|]. cbn in H.
  pose proof (Hop dev) as H1. destruct (op dev) as [r d1]. cbn in H1.
  destruct (NEED_REVAL r); [|by injection H as _ <-]. etransitivity; [exact H1|by apply IH].
Qed.

Lemma tape_seek_kept pos dev : flags_kept dev (tape_seek ops pos dev).2.
Proof.
  unfold tape_seek. destruct ((partition pos =? _) && _); [by case_match|].
  destruct (op_locate ops pos _ _) as [[ret pos'] d'].
  pose proof (note_space_kept (set_backend pos' d' dev)) as Hk. destruct (ret <? 0); [by case_match|].
  by case_match.
Qed.

Lemma tape_seek_eod_kept prt dev : flags_kept dev (tape_seek_eod ops prt dev).2.
Proof.
  unfold tape_seek_eod. case_match; [done|].
  destruct (op_locate ops _ _ _) as [[ret pos'] d'].
  pose proof (note_space_kept (set_backend pos' d' dev)) as Hk. by repeat case_match.
Qed.

Lemma tape_seek_append_kept prt u dev : flags_kept dev (tape_seek_append_position ops prt u dev).2.
Proof.
  unfold tape_seek_append_position. set (q := seek_pos _ _). pose proof (tape_seek_kept q dev) as Hk.
  destruct (tape_seek ops q dev) as [r d1]. cbn in Hk. etransitivity; [exact Hk|]. kept.
Qed.

Lemma tape_spacefm_kept n dev : flags_kept dev (tape_spacefm ops n dev).2.
Proof. unfold tape_spacefm. kept. Qed.

Lemma tape_set_key_kept ka key dev : flags_kept dev (tape_set_key ops ka key dev).2.
Proof.
  unfold tape_set_key. destruct key as [k|].
  - destruct (op_readpos ops _ _) as [[r pos'] d']. destruct (r <? 0) eqn:E; [by rewrite E|].
    change (0 <? 0) with false. cbv iota. kept.
  - change (0 <? 0) with false. cbv iota. kept.
Qed.

Lemma tape_read_kept n u kmi dev : flags_kept dev (tape_read ops n u kmi dev).2.
Proof.
  unfold tape_read. destruct (op_read ops _ _ _ _) as [[[r b] p'] d'].
  destruct kmi as [get_key|]; [|done]. destruct ((r =? _) || (r =? _)); [|done].
  unfold tape_get_keyalias. destruct (op_get_keyalias ops _) as [[t ka] d2].
  destruct (t <? 0); [done|]. destruct (get_key ka) as [t2 [key|]]; destruct (t2 <? 0); [done| |done..].
  set (dk := set_backend _ d2 _). pose proof (tape_set_key_kept (Some ka) (Some key) dk) as Hk.
  destruct (tape_set_key ops (Some ka) (Some key) dk) as [t3 d3]. cbn in Hk.
  destruct (t3 <? 0); [exact Hk|]. by destruct (op_read ops _ _ _ _) as [[[r4 b4] p4] d4].
Qed.

Lemma tape_write_kept buf il ins dev : flags_kept dev (tape_write ops buf il ins dev).2.
Proof. unfold tape_write, tape_set_ewstate. kept. Qed.

Lemma tape_write_filemark_kept n il ins immed dev : flags_kept dev (tape_write_filemark ops n il ins immed dev).2.
Proof. unfold tape_write_filemark. kept. Qed.

Lemma test_unit_ready_kept dev : flags_kept dev (_tape_test_unit_ready ops dev).2.
Proof. unfold _tape_test_unit_ready. kept. Qed.

Lemma loadable_kept n ret dev : flags_kept dev (loadable_loop ops n ret dev).2.
Proof.
  revert ret dev. induction n as [|n IH]; intros ret dev; [done|]. cbn [loadable_loop].
  destruct (ret <? 0); [|done]. pose proof (test_unit_ready_kept dev) as Hk.
  destruct (_tape_test_unit_ready ops dev) as [r d]. cbn in Hk. etransitivity; [exact Hk|].
  repeat case_match; first [done | apply IH].
Qed.

Lemma test_ready_times_kept n ret dev : flags_kept dev (test_ready_times ops n ret dev).2.
Proof.
  revert ret dev. induction n as [|n IH]; intros ret dev; [done|]. cbn [test_ready_times].
  destruct (ret <? 0); [|done]. pose proof (test_unit_ready_kept dev) as Hk.
  destruct (_tape_test_unit_ready ops dev) as [r d]. cbn in Hk. etransitivity; [exact Hk|apply IH].
Qed.

Lemma sense_config_kept dev : flags_kept dev (sense_config lops dev).2.
Proof. unfold sense_config. kept. Qed.

Lemma capacity_kept cap dev : flags_kept dev (tape_get_capacity lops cap dev).2.
Proof. unfold tape_get_capacity. kept. Qed.

Lemma enable_append_only_kept enable dev : flags_kept dev (tape_enable_append_only_mode ops lops enable dev).2.
Proof.
  unfold tape_enable_append_only_mode. pose proof (test_ready_times_kept 3 (-1) dev) as H1.
  destruct (test_ready_times ops 3 (-1) dev) as [r1 d1]. cbn in H1. etransitivity; [exact H1|].
  pose proof (sense_config_kept d1) as H2. destruct (sense_config lops d1) as [[r2 buf] d2]. cbn in H2.
  etransitivity; [exact H2|]. destruct (r2 <? 0); [done|].
  set (reload := _ && _ && _). destruct (if reload then _ else _) as [r3 d3] eqn:E3.
  assert (H3 : flags_kept d2 d3).
  { pose proof (moving_op_kept (op_unload lops) d2) as Hu. pose proof (moving_op_kept (op_load lops) d2) as Hl.
    destruct reload; [by rewrite E3 in Hu|]. destruct (_ && enable); [|by injection E3 as _ <-].
    destruct (moving_op (op_load lops) d2) as [r d]. by injection E3 as _ <-. }
  etransitivity; [exact H3|]. destruct (r3 <? 0); [done|].
  pose proof (backend_op_kept (op_modeselect lops (select_append_only enable buf)) d3) as H4.
  destruct (backend_op _ d3) as [r4 d4]. cbn in H4. etransitivity; [exact H4|]. destruct (r4 <? 0); [done|].
  destruct (if reload then moving_op (op_load lops) d4 else _) as [r5 d5] eqn:E5.
  assert (H5 : flags_kept d4 d5).
  { pose proof (moving_op_kept (op_load lops) d4) as Hl. destruct reload; [by rewrite E5 in Hl|by injection E5 as _ <-]. }
  etransitivity; [exact H5|]. by destruct (r5 <? 0).
Qed.

Lemma allow_removal_kept fuel force dev dev' :
  tape_allow_medium_removal lops fuel force dev = Some dev' -> flags_kept dev dev'.
Proof.
  unfold tape_allow_medium_removal. intros Hrun. destruct (_ || force); [|by injection Hrun as <-].
  destruct (while_reset _ _ _) as [[r d]|] eqn:E; [|done]. injection Hrun as <-.
  exact (while_reset_kept _ _ _ _ _ (backend_op_kept _) E).
Qed.

Lemma unload_kept fuel dev ret dev' : tape_unload_tape ops lops fuel dev = Some (ret, dev') -> flags_kept dev dev'.
Proof.
  unfold tape_unload_tape. intros Hrun.
  destruct (tape_allow_medium_removal _ _ _ _) as [d1|] eqn:E1; [|done]. apply allow_removal_kept in E1.
  destruct (while_reset fuel (tape_rewind lops) d1) as [[r2 d2]|] eqn:E2; [|done].
  apply while_reset_kept in E2; [|apply moving_op_kept].
  destruct (while_reset fuel _ d2) as [[r3 d3]|] eqn:E3; [|done]. apply while_reset_kept in E3; [|apply moving_op_kept].
  pose proof (enable_append_only_kept false d3) as E4. injection Hrun as Hrun. rewrite Hrun in E4.
  transitivity d1; [exact E1|]. by transitivity d2; [|transitivity d3].
Qed.

Lemma set_pews_kept cap v dev : flags_kept dev (tape_set_pews lops cap v dev).2.
Proof.
  unfold tape_set_pews. pose proof (capacity_kept cap dev) as H1.
  destruct (tape_get_capacity lops cap dev) as [[r1 c1] d1]. cbn in H1. etransitivity; [exact H1|].
  destruct (r1 <? 0); [done|]. pose proof (sense_config_kept d1) as H2.
  destruct (sense_config lops d1) as [[r2 b2] d2]. cbn in H2. etransitivity; [exact H2|].
  destruct (r2 <? 0); [done|]. apply backend_op_kept.
Qed.

Lemma reset_capacity_kept dev : flags_kept dev (tape_reset_capacity ops lops dev).2.
Proof.
  unfold tape_reset_capacity. pose proof (moving_op_kept (op_locate ops bom) dev) as H1.
  destruct (moving_op _ dev) as [r1 d1]. cbn in H1. etransitivity; [exact H1|]. destruct (r1 <? 0); [done|].
  pose proof (backend_op_kept (op_setcap lops 0xFFFF) d1) as H2.
  destruct (backend_op _ d1) as [r2 d2]. cbn in H2. etransitivity; [exact H2|]. destruct (r2 <? 0); [done|].
  apply test_unit_ready_kept.
Qed.

Lemma unformat_kept dev : flags_kept dev (tape_unformat ops lops dev).2.
Proof.
  unfold tape_unformat. pose proof (moving_op_kept (op_load lops) dev) as H1.
  destruct (moving_op _ dev) as [r1 d1]. cbn in H1. etransitivity; [exact H1|]. destruct (r1 <? 0); [done|].
  pose proof (backend_op_kept (op_format lops TC_FORMAT_DEFAULT) d1) as H2.
  destruct (backend_op _ d1) as [r2 d2]. cbn in H2. etransitivity; [exact H2|]. destruct (r2 <? 0); [done|].
  pose proof (backend_op_kept (op_write_attribute ops 0 [TC_MAM_PAGE_EWSTATE / 256; TC_MAM_PAGE_EWSTATE mod 256; 0; 0; 0]) d2) as H3.
  unfold tape_remove_ewstate. by destruct (backend_op _ d2) as [r3 d3].
Qed.

Lemma format_kept index_part dev ret dev' : tape_format ops lops index_part dev = Some (ret, dev') -> flags_kept dev dev'.
Proof.
  unfold tape_format. intros Hrun. pose proof (moving_op_kept (op_load lops) dev) as H1.
  destruct (moving_op _ dev) as [r1 d1]. cbn in H1. etransitivity; [exact H1|].
  destruct (r1 <? 0); [by injection Hrun as _ <-|].
  destruct (op_modesense lops _ _ _ _ _) as [[r2 page] d2]. destruct (r2 <? 0); [by injection Hrun as _ <-|].
  destruct (_ <? _); [done|].
  match type of Hrun with context [backend_op ?o ?d] => pose proof (backend_op_kept o d) as H3; destruct (backend_op o d) as [r3 d3] end.
  cbn in H3. change (flags_kept d1 d3) in H3. etransitivity; [exact H3|].
  pose proof (backend_op_kept (op_format lops TC_FORMAT_DEST_PART) d3) as H4.
  destruct (backend_op _ d3) as [r4 d4]. cbn in H4. etransitivity; [exact H4|].
  destruct (r4 <? 0); [by injection Hrun as _ <-|].
  unfold tape_set_ewstate in Hrun. destruct (op_write_attribute ops _ _ _) as [r5 d5]. by injection Hrun as _ <-.
Qed.

Lemma then_space_kept dev1 dev n : flags_kept dev dev1 -> flags_kept dev (tape_spacefm ops n dev1).2.
Proof. intros H. etransitivity; [exact H|apply tape_spacefm_kept]. Qed.

Lemma call_kept c dev dev' : run_call c dev = Some dev' -> flags_kept dev dev'.
Proof.
  intros Hrun. destruct c; unfold run_call in Hrun; try (apply (inj Some) in Hrun; subst dev').
  - apply tape_seek_kept.
  - apply tape_seek_eod_kept.
  - apply tape_seek_append_kept.
  - unfold tape_set_append_position. kept.
  - unfold tape_update_position. kept.
  - apply tape_spacefm_kept.
  - apply tape_read_kept.
  - apply tape_write_kept.
  - apply tape_write_filemark_kept.
  - apply tape_set_key_kept.
  - unfold tape_clear_key. destruct (_ || _); [apply tape_set_key_kept|done].
  - unfold tape_get_keyalias. kept.
  - by split.
  - by split.
  - by split.
  - unfold tape_test_unit_ready. destruct (_ =? 0); [done|]. pose proof (test_unit_ready_kept dev).
    by destruct (_tape_test_unit_ready ops dev).
  - exact (loadable_kept 300 (- EDEV_UNKNOWN) dev).
  - unfold tape_reserve_device in Hrun. destruct (device_reserved dev); [by injection Hrun as <-|].
    destruct (while_reset _ _ _) as [[r d]|] eqn:E; [|done]. apply while_reset_kept in E; [|apply backend_op_kept].
    by destruct (negb _); injection Hrun as <-.
  - unfold tape_release_device in Hrun. destruct (device_reserved dev); [|by injection Hrun as <-].
    destruct (while_reset _ _ _) as [[r d]|] eqn:E; [|done]. apply while_reset_kept in E; [|apply backend_op_kept].
    by injection Hrun as <-.
  - unfold tape_prevent_medium_removal in Hrun. destruct (medium_locked dev); [by injection Hrun as <-|].
    destruct (while_reset _ _ _) as [[r d]|] eqn:E; [|done]. apply while_reset_kept in E; [|apply backend_op_kept].
    by destruct (negb _); injection Hrun as <-.
  - by apply allow_removal_kept in Hrun.
  - destruct (tape_unload_tape _ _ _ _) as [[r d]|] eqn:E; [|done]. injection Hrun as <-. by apply unload_kept in E.
  - apply capacity_kept.
  - apply moving_op_kept.
  - unfold tape_get_max_blocksize. kept.
  - unfold tape_logically_read_only. kept.
  - unfold tape_get_worm_status. kept.
  - unfold tape_check_eod_status. kept.
  - apply moving_op_kept.
  - apply moving_op_kept.
  - unfold tape_get_pews. pose proof (sense_config_kept dev). destruct (sense_config lops dev) as [[r b] d].
    by destruct (r <? 0).
  - apply set_pews_kept.
  - unfold tape_get_append_only_mode_setting. pose proof (sense_config_kept dev).
    destruct (sense_config lops dev) as [[r b] d]. by destruct (r <? 0).
  - apply enable_append_only_kept.
  - apply reset_capacity_kept.
  - destruct (tape_format _ _ _ _) as [[r d]|] eqn:E; [|done]. injection Hrun as <-. by apply format_kept in E.
  - apply unformat_kept.
  - apply tape_spacefm_kept.
  - unfold tape_locate_previous_index. pose proof (tape_spacefm_kept (-4) dev) as H.
    destruct (tape_spacefm ops (-4) dev) as [r d]. destruct (r =? 0); [by apply then_space_kept|done].
  - unfold tape_locate_first_index. pose proof (tape_seek_kept (seek_pos part 4) dev) as H.
    destruct (tape_seek ops _ dev) as [r d]. destruct (r =? 0); [by apply then_space_kept|done].
  - unfold tape_locate_last_index. pose proof (tape_seek_eod_kept part dev) as H.
    destruct (tape_seek_eod ops part dev) as [r d]. destruct (negb _); [done|].
    pose proof (then_space_kept d dev (-2) H) as H2. destruct (tape_spacefm ops (-2) d) as [r2 d2].
    destruct (r2 =? 0); [by apply then_space_kept|done].
  - apply backend_op_kept.
Qed.

(** Loading sets both flags anew: a load that succeeds forgets a write error. *)
Lemma load_forgets cap0 param0 junk fuel kmi dev ret dev' :
  tape_load_tape ops lops cap0 param0 junk fuel kmi dev = Some (ret, dev') -> 0 <= ret -> write_error dev' = false.
Proof.
  destruct fuel as [|fuel]; [done|]. cbn [tape_load_tape]. intros Hrun Hret.
  destruct (tape_is_cartridge_loadable ops dev) as [r1 d1]. destruct (r1 <? 0) eqn:E1; [simplify_eq; bool_to_prop; lia|].
  destruct (while_reset _ _ d1) as [[r2 d2]|]; [|done].
  destruct (r2 =? _); [injection Hrun as <- _; unfold LTFS_NO_MEDIUM in *; lia|].
  destruct (r2 <? 0) eqn:E2.
  { injection Hrun as <- _. bool_to_prop. unfold LTFS_UNSUPPORTED_MEDIUM in *. destruct (_ =? _); lia. }
  destruct (tape_wait_device_ready _ _ _ _ _) as [[r3 d3]|]; [|done].
  destruct (r3 <? 0); [injection Hrun as <- _; unfold LTFS_DEVICE_UNREADY in *; lia|].
  destruct (tape_prevent_medium_removal _ _ _) as [[r4 d4]|]; [|done].
  destruct (r4 <? 0) eqn:E4; [simplify_eq; bool_to_prop; lia|].
  injection Hrun as Hrun. unfold load_parameters in Hrun.
  repeat match type of Hrun with
  | (let '(_, _) := ?x in _) = _ => destruct x eqn:?
  | (if ?r <? 0 then _ else _) = _ => destruct (r <? 0) eqn:?; [simplify_eq; bool_to_prop; lia|]
  end.
  injection Hrun as _ <-. by case_match.
Qed.

(** C28: until a cartridge is loaded, write protection and a write error are final.
    Once either is noted, after any number of calls of the layer whatsoever other than
    [tape_load_tape] and the two functions that may call it, succeeding or failing,
    what was noted still is, and every block and file mark write is refused, with
    [-LTFS_WRITE_PROTECT] where the device is write protected and [-LTFS_WRITE_ERROR]
    otherwise, and refused without any effect; [tape_read_only] gives the same answer
    for each partition. *)
Theorem read_only_is_final dev dev' buf n il ins immed part :
  rtc tape_step dev dev' -> read_only dev = true ->
  let e := if write_protect dev' then - LTFS_WRITE_PROTECT else - LTFS_WRITE_ERROR in
  (write_protect dev = true -> write_protect dev' = true) /\
  (write_error dev = true -> write_error dev' = true) /\
  tape_write ops buf il ins dev' = (e, dev') /\
  tape_write_filemark ops n il ins immed dev' = (e, dev') /\
  tape_read_only part dev' = e.
Proof.
  intros Hrun Hro e.
  assert (Hk : flags_kept dev dev').
  { induction Hrun as [dev|d1 d2 d3 [c d1' d2' Hc] _ IH]; [done|]. apply call_kept in Hc.
    etransitivity; [exact Hc|]. apply IH. destruct Hc as [H1 H2]. unfold read_only in *.
    apply orb_prop in Hro as [E|E]; [by rewrite H1|by rewrite H2, orb_true_r]. }
  destruct Hk as [H1 H2]. split; [exact H1|]. split; [exact H2|].
  unfold e, tape_write, tape_write_filemark, write_refused, tape_read_only.
  destruct (write_protect dev') eqn:E; [done|].
  assert (Hwe : write_error dev' = true).
  { unfold read_only in Hro. apply orb_prop in Hro as [Hp|Hp]; [by specialize (H1 Hp)|by apply H2]. }
  by rewrite Hwe.
Qed.

End spec.
