(* ===== verification/Coherency.v ===== *)
(** * Cartridge coherency data

    The volume coherency attribute libltfs keeps in cartridge memory, one per
    partition ([struct tc_coherency] of [ltfs_types.h]; encoding and decoding in
    [tape.c]): which index was last written, at which generation, and the volume
    change reference it was written under. *)

From S2P Require Import Prelude Errors Endian TapeOps TapeDev.
Open Scope Z_scope.

Record tc_coherency := {
  volume_change_ref : Z;
  count : Z;
  set_id : Z;
  uuid : list Z;      (** 37 characters *)
  version : Z
}.

Section coherency.
Context {D : Type} (ops : tape_ops D).

(** "LTFS" and its terminating NUL. *)
Definition ltfs_id : list Z := cstr "LTFS" ++ [0].

Definition coh_data (coh : tc_coherency) : list Z :=
  ltfs_u16tobe TC_MAM_PAGE_COHERENCY ++ [0] ++ ltfs_u16tobe TC_MAM_PAGE_COHERENCY_SIZE ++ [8]
  ++ ltfs_u64tobe (volume_change_ref coh) ++ ltfs_u64tobe (count coh) ++ ltfs_u64tobe (set_id coh)
  ++ [0; 43] ++ ltfs_id ++ take 37 (uuid coh) ++ [version coh].

Definition tape_set_cart_coherency (part : Z) (coh : tc_coherency) (dev : device_data D)
    : Z * device_data D :=
  let '(ret, d') := op_write_attribute ops part (coh_data coh) (backend_data dev) in
  (ret, set_backend (position dev) d' dev).

(** The caller's structure [coh] is filled in as far as the code gets. *)
Definition tape_get_cart_coherency (junk : list Z) (part : Z) (coh : tc_coherency)
    (dev : device_data D) : Z * tc_coherency :=
  let '(ret, out) := op_read_attribute ops part TC_MAM_PAGE_COHERENCY
                       (TC_MAM_PAGE_COHERENCY_SIZE + TC_MAM_PAGE_HEADER_SIZE) (backend_data dev) in
  let data := filled 75 out junk in
  let be16 i := default 0 (ltfs_betou16 (drop i data)) in
  let be64 i := default 0 (ltfs_betou64 (drop i data)) in
  if ret =? 0 then
    if negb (be16 0%nat =? TC_MAM_PAGE_COHERENCY) then (- LTFS_UNEXPECTED_VALUE, coh)
    else if negb (be16 3%nat =? TC_MAM_PAGE_COHERENCY_SIZE) then (- LTFS_UNEXPECTED_VALUE, coh)
    else
      let coh1 := {| volume_change_ref := 0; count := count coh; set_id := 0;
                     uuid := uuid coh; version := version coh |} in
      if negb (default 0 (data !! 5%nat) =? 8) then (- LTFS_UNEXPECTED_VALUE, coh1)
      else
        let coh2 := {| volume_change_ref := be64 6%nat; count := be64 14%nat;
                       set_id := be64 22%nat; uuid := uuid coh; version := version coh |} in
        let ap_clent_specific_len := be16 30%nat in
        if negb (ap_clent_specific_len =? 42) && negb (ap_clent_specific_len =? 43)
        then (- LTFS_UNEXPECTED_VALUE, coh2)
        else if negb (bool_decide (take 5 (drop 32 data) = ltfs_id))
        then (- LTFS_UNEXPECTED_VALUE, coh2)
        else (0, {| volume_change_ref := be64 6%nat; count := be64 14%nat;
                    set_id := be64 22%nat; uuid := take 37 (drop 37 data);
                    version := default 0 (data !! 74%nat) |})
  else (ret, coh).

Definition UINT32_MAX : Z := 2 ^ 32 - 1.
Definition UINT64_MAX : Z := 2 ^ 64 - 1.

Definition tape_get_volume_change_reference (junk : list Z) (dev : device_data D) : Z * Z :=
  let '(ret, out) := op_read_attribute ops 0 TC_MAM_PAGE_VCR
                       (TC_MAM_PAGE_VCR_SIZE + TC_MAM_PAGE_HEADER_SIZE) (backend_data dev) in
  if ret =? 0 then
    let vcr := default 0 (ltfs_betou32 (drop 5 (filled 9 out junk))) in
    (ret, if vcr =? UINT32_MAX then UINT64_MAX else vcr)
  else (ret, UINT64_MAX).

End coherency.

(** ** Round trip *)

Record coherency_wf (coh : tc_coherency) : Prop := {
  wf_vcr : 0 <= volume_change_ref coh < 2 ^ 64;
  wf_count : 0 <= count coh < 2 ^ 64;
  wf_set_id : 0 <= set_id coh < 2 ^ 64;
  wf_uuid : length (uuid coh) = 37%nat
}.

(** The fields of the encoding, one after the other. *)
Lemma coh_data_fields coh :
  length (uuid coh) = 37%nat ->
  length (coh_data coh) = 75%nat
  /\ take 6 (coh_data coh) = [8; 12; 0; 0; 70; 8]
  /\ (exists r, drop 6 (coh_data coh) = ltfs_u64tobe (volume_change_ref coh) ++ r)
  /\ (exists r, drop 14 (coh_data coh) = ltfs_u64tobe (count coh) ++ r)
  /\ (exists r, drop 22 (coh_data coh) = ltfs_u64tobe (set_id coh) ++ r)
  /\ (exists r, drop 30 (coh_data coh) = 0 :: 43 :: r)
  /\ take 5 (drop 32 (coh_data coh)) = ltfs_id
  /\ drop 37 (coh_data coh) = uuid coh ++ [version coh].
Proof.
  intros Hu. assert (Ht : take 37 (uuid coh) = uuid coh) by (apply take_ge; lia).
  unfold coh_data. rewrite Ht. split.
  { rewrite !length_app, Hu. reflexivity. }
  split; [reflexivity|]. split; [by eexists|]. split; [by eexists|]. split; [by eexists|].
  split; [by eexists|]. split; [reflexivity|]. reflexivity.
Qed.

Section proofs.
Context {D : Type} (ops : tape_ops D) `{!AttributeOk ops}.

(** C31: What [tape_set_cart_coherency] stores is what [tape_get_cart_coherency]
    returns, field by field, for every coherency record whose fields fit their
    types, whatever the caller's structure and the stack held before. *)
Theorem cart_coherency_roundtrip junk part coh coh0 dev rc dev' :
  coherency_wf coh ->
  tape_set_cart_coherency ops part coh dev = (rc, dev') -> 0 <= rc ->
  tape_get_cart_coherency ops junk part coh0 dev' = (0, coh).
Proof.
  intros [Hv Hc Hs Hu] Hset Hrc. unfold tape_set_cart_coherency in Hset.
  destruct (op_write_attribute ops part _ _) as [ret d'] eqn:Hw. injection Hset as -> <-.
  pose proof (coh_data_fields coh Hu) as (Hlen & H6 & [r1 H1] & [r2 H2] & [r3 H3] & [r4 H4] & H32 & H37).
  assert (Hd : coh_data coh = [0x080C / 256; 0x080C mod 256; 0; 0x46 / 256; 0x46 mod 256]
                 ++ drop 5 (coh_data coh)).
  { by rewrite <- (take_drop 5 (coh_data coh)) at 1. }
  assert (Hl5 : Z.of_nat (length (drop 5 (coh_data coh))) = 0x46) by (rewrite length_drop; lia).
  rewrite Hd in Hw.
  pose proof (attribute_read_back part 0x080C 0x46 _ _ _ _ ltac:(lia) Hl5 ltac:(lia) Hw Hrc) as Hr.
  rewrite <- Hd in Hr. unfold tape_get_cart_coherency. cbn [backend_data set_backend].
  unfold TC_MAM_PAGE_COHERENCY, TC_MAM_PAGE_COHERENCY_SIZE. rewrite Hr.
  assert (Hf : filled 75 (coh_data coh) junk = coh_data coh).
  { unfold filled. by rewrite take_app_le, take_ge by lia. }
  rewrite Hf. change (0 =? 0) with true. cbv iota zeta.
  assert (Hh : forall i, (i < 6)%nat -> coh_data coh !! i = [8; 12; 0; 0; 70; 8] !! i).
  { intros i Hi. by rewrite <- (lookup_take_lt _ 6), H6. }
  rewrite (Hh 5%nat) by lia. rewrite H1, H2, H3, H4, H32, H37, !betou64_u64tobe by done.
  assert (H74 : coh_data coh !! 74%nat = Some (version coh)).
  { change 74%nat with (37 + 37)%nat. rewrite <- lookup_drop, H37, lookup_app_r by lia. by rewrite Hu. }
  rewrite H74, take_app_le, take_ge, bool_decide_true by (done || lia).
  rewrite Hd at 1. rewrite Hd at 1. cbn. destruct coh; reflexivity.
Qed.

End proofs.
