(* ===== verification/FileDebugLoad.v ===== *)
(** * The file-backed drive: loading

    The entries of [filedebug_handler] that [TapeLoad] uses. *)

From S2P Require Import Prelude Errors TapeOps FileDebug TapeLoad.
Open Scope Z_scope.

Definition FILE_DEBUG_MAX_BLOCK_SIZE : Z := 4 * (1024 * 1024).

(** Not ready: an error is logged, [cap] is left as it was and 0 is returned. *)
Definition filedebug_remaining_capacity (cap : tc_remaining_cap) (s : filedebug_data)
    : Z * tc_remaining_cap * filedebug_data :=
  (DEVICE_GOOD,
   if negb (ready s) then cap
   else if partitions s =? 2 then {| remaining_p0 := 6144; remaining_p1 := 6144; max_p0 := 6144; max_p1 := 6144 |}
   else {| remaining_p0 := 6144; remaining_p1 := 0; max_p0 := 6144; max_p1 := 0 |}, s).

Definition filedebug_get_tape_alert (tape_alert : Z) (s : filedebug_data) : Z * Z * filedebug_data :=
  (DEVICE_GOOD, 0, s).

Definition filedebug_modesense (page pc subpage : Z) (buf : list Z) (s : filedebug_data)
    : Z * list Z * filedebug_data :=
  (DEVICE_GOOD, replicate (length buf) 0, s).

Definition filedebug_modeselect (buf : list Z) (s : filedebug_data) : Z * filedebug_data := (DEVICE_GOOD, s).

Definition filedebug_set_compression (enable_compression : bool) (pos : tc_position) (s : filedebug_data)
    : Z * tc_position * filedebug_data :=
  if negb (ready s) then (- EDEV_NOT_READY, pos, s)
  else (DEVICE_GOOD, set_block (block (current_position s)) (set_filemarks (filemarks (current_position s)) pos), s).

Definition filedebug_set_default (s : filedebug_data) : Z * filedebug_data := (DEVICE_GOOD, s).

Definition filedebug_get_parameters (drive_param : tc_drive_param) (s : filedebug_data)
    : Z * tc_drive_param * filedebug_data :=
  (DEVICE_GOOD,
   {| max_blksize := FILE_DEBUG_MAX_BLOCK_SIZE; param_write_protect := emulate_readonly s;
      logical_write_protect := false |}, s).

Definition filedebug_get_worm_status (is_worm : bool) (s : filedebug_data) : Z * bool * filedebug_data :=
  (DEVICE_GOOD, false, s).

(** A load that would not end stands here as an error, as in [filedebug_handler]. *)
Definition filedebug_load_handler : load_ops filedebug_data := {|
  op_load := fun pos s => default (- EDEV_UNKNOWN, pos, s) (filedebug_load pos s);
  op_unload := filedebug_unload;
  op_rewind := filedebug_rewind;
  op_erase := filedebug_erase;
  op_set_default := filedebug_set_default;
  op_remaining_capacity := filedebug_remaining_capacity;
  op_get_parameters := filedebug_get_parameters;
  op_modesense := filedebug_modesense;
  op_modeselect := filedebug_modeselect;
  op_prevent_medium_removal := filedebug_prevent_medium_removal;
  op_allow_medium_removal := filedebug_allow_medium_removal;
  op_reserve_unit := filedebug_reserve_unit;
  op_release_unit := filedebug_release_unit;
  op_get_eod_status := fun part s => (filedebug_get_eod_status part s, s);
  op_set_compression := filedebug_set_compression;
  op_get_worm_status := filedebug_get_worm_status;
  op_get_tape_alert := filedebug_get_tape_alert;
  op_setcap := filedebug_setcap;
  op_format := filedebug_format
|}.
