(* ===== verification/TapeOnFile.v ===== *)
(** * The tape layer on the file-backed driver

    The properties of [TapeDevSpec] and [Coherency] at a concrete device: the
    driver of [FileDebug] on a directory that holds one block and one file mark. *)

From stdpp Require Import relations.
From S2P Require Import Prelude Errors Endian TapeOps FileDebug FileDebugOk FileDebugSpec.
From S2P Require Import TapeDev TapeLoad TapeDevSpec Coherency FileDebugLoad.
Open Scope Z_scope.

Definition sample_device (wp : bool) (append : Z * Z) : device_data filedebug_data :=
  {| position := sample_position; append_pos := append; max_block_size := 524288;
     partition_space := (PART_WRITABLE, PART_WRITABLE); write_protect := wp; write_error := false;
     device_reserved := false; medium_locked := false; physical_write_protect := false;
     previous_exist := (0, 0); fence := false; append_only_mode := false; is_key_set := false;
     backend_data := sample_drive |}.

Lemma sample_device_at wp append :
  dev_at (tape_at := filedebug_at) (sample_device wp append) sample_medium.
Proof. exact sample_drive_at. Qed.

Lemma sample_position_eq : sample_position = set_block 2 (set_filemarks 1 no_position).
Proof. vm_compute. reflexivity. Qed.

Lemma tape_seek_spec_witness :
  exists dev', tape_seek filedebug_handler (seek_pos 0 1) (sample_device false (0, 0)) = (0, dev')
  /\ dev_at (tape_at := filedebug_at) dev' sample_medium /\ block (position dev') = 1.
Proof.
  destruct (tape_seek filedebug_handler (seek_pos 0 1) (sample_device false (0, 0))) as [rc dev'] eqn:H.
  assert (Hrc : rc = 0).
  { replace rc with (tape_seek filedebug_handler (seek_pos 0 1) (sample_device false (0, 0))).1
      by (by rewrite H). vm_compute. reflexivity. }
  destruct (tape_seek_spec filedebug_handler (seek_pos 0 1) (sample_device false (0, 0)) sample_medium
              rc dev' (sample_device_at _ _) ltac:(by left) ltac:(cbn; lia) H) as (H1 & _ & _).
  destruct (H1 ltac:(lia)) as (_ & Hat & _ & Hb & _).
  subst rc. exists dev'. exact (conj eq_refl (conj Hat Hb)).
Defined.

Lemma tape_write_spec_witness :
  exists dev', tape_write filedebug_handler [9; 9] false false (sample_device false (0, 0)) = (2, dev')
  /\ dev_at (tape_at := filedebug_at) dev' (write_at 0 2 [Data [9; 9]] sample_medium).
Proof.
  destruct (tape_write filedebug_handler [9; 9] false false (sample_device false (0, 0)))
    as [rc dev'] eqn:H.
  assert (Hb : block (position (sample_device false (0, 0))) = 2) by (cbn; by rewrite sample_position_eq).
  assert (Hp : partition (position (sample_device false (0, 0))) = 0) by (cbn; by rewrite sample_position_eq).
  pose proof (tape_write_spec filedebug_handler [9; 9] false false (sample_device false (0, 0))
    sample_medium rc dev' (sample_device_at _ _) ltac:(cbn; lia) ltac:(rewrite Hb; lia) H) as Hspec.
  cbv zeta in Hspec. rewrite Hb, Hp in Hspec.
  destruct (op_write filedebug_handler [9; 9] (position (sample_device false (0, 0)))
    (backend_data (sample_device false (0, 0)))) as [[bret bpos] d'] eqn:Hop.
  assert (Hbr : bret = 2 /\ early_warning bpos = false /\ programmable_early_warning bpos = false).
  { change (bret = 2) with ((bret, bpos, d').1.1 = 2).
    change (early_warning bpos) with (early_warning (bret, bpos, d').1.2).
    change (programmable_early_warning bpos) with (programmable_early_warning (bret, bpos, d').1.2).
    rewrite <- Hop. vm_compute. split; [reflexivity|split; reflexivity]. }
  destruct Hbr as (-> & He1 & He2).
  assert (Hr : write_refused false false (sample_device false (0, 0)) = 0).
  { unfold write_refused. rewrite Hp. reflexivity. }
  rewrite Hr in Hspec. cbn [Z.ltb Z.compare] in Hspec.
  change (Z.of_nat (length [9; 9]) >? max_block_size (sample_device false (0, 0))) with false in Hspec.
  destruct Hspec as (Hrc & Hat & _). unfold reported in Hrc. rewrite He1, He2 in Hrc.
  subst rc. exists dev'. exact (conj eq_refl Hat).
Defined.

Lemma append_write_witness :
  exists dev2, dev_at (tape_at := filedebug_at) dev2 (write_at 0 2 [Data [7]] sample_medium)
  /\ sel 0 (append_pos dev2) = 3.
Proof.
  destruct (tape_seek_append_position filedebug_handler 0 true (sample_device false (0, 0)))
    as [rc1 dev1] eqn:H1.
  assert (Hr1 : 0 <= rc1).
  { replace rc1 with (tape_seek_append_position filedebug_handler 0 true (sample_device false (0, 0))).1
      by (by rewrite H1). vm_compute. discriminate. }
  destruct (tape_write filedebug_handler [7] false false dev1) as [rc2 dev2] eqn:H2.
  assert (Hr2 : 0 <= rc2).
  { replace rc2 with (tape_write filedebug_handler [7] false false
      (tape_seek_append_position filedebug_handler 0 true (sample_device false (0, 0))).2).1
      by (by rewrite H1; cbn [snd]; rewrite H2). vm_compute. discriminate. }
  assert (Ha0 : 0 <= sel 0 (append_pos (sample_device false (0, 0))) < TAPE_BLOCK_MAX)
    by (cbn; unfold TAPE_BLOCK_MAX; lia).
  assert (He : eod_at sample_medium 0 + 1 < 2 ^ 63) by (unfold eod_at; cbn; lia).
  destruct (append_write filedebug_handler 0 true [7] false false (sample_device false (0, 0))
    sample_medium rc1 dev1 rc2 dev2 (sample_device_at _ _) ltac:(by left) Ha0
    ltac:(cbn; lia) He H1 Hr1 H2 Hr2) as (_ & _ & Hat & Ha & _).
  exists dev2. exact (conj Hat Ha).
Defined.

(** A protected cartridge after a seek and an attempt to unload it with a budget of one *)
Definition seeked_device : device_data filedebug_data :=
  (tape_seek filedebug_handler (seek_pos 0 1) (sample_device true (0, 0))).2.

Lemma seeked_step : tape_step filedebug_handler filedebug_load_handler (sample_device true (0, 0)) seeked_device.
Proof. by apply (step_call _ _ (CSeek (seek_pos 0 1))). Qed.

Lemma unloaded_step dev' :
  snd <$> tape_unload_tape filedebug_handler filedebug_load_handler 1 seeked_device = Some dev' ->
  tape_step filedebug_handler filedebug_load_handler seeked_device dev'.
Proof. intros H. by apply (step_call _ _ (CUnload 1)). Qed.

Lemma read_only_is_final_witness :
  exists dev', rtc (tape_step filedebug_handler filedebug_load_handler) (sample_device true (0, 0)) dev'
  /\ tape_write filedebug_handler [7] true true dev' = (- LTFS_WRITE_PROTECT, dev').
Proof.
  destruct (snd <$> tape_unload_tape filedebug_handler filedebug_load_handler 1 seeked_device) as [dev'|] eqn:E.
  2:{ exfalso. assert (H : bool_decide (is_Some (snd <$> tape_unload_tape filedebug_handler filedebug_load_handler 1
        seeked_device)) = true) by (vm_compute; reflexivity). rewrite E in H. discriminate H. }
  assert (Hrtc : rtc (tape_step filedebug_handler filedebug_load_handler) (sample_device true (0, 0)) dev')
    by (eapply rtc_l; [exact seeked_step|]; apply rtc_once, unloaded_step; exact E).
  destruct (read_only_is_final filedebug_handler filedebug_load_handler (sample_device true (0, 0)) dev'
    [7] 1 true true false 0 Hrtc eq_refl) as (Hp & _ & Hw & _).
  exists dev'. split; [exact Hrtc|]. rewrite (Hp eq_refl) in Hw. exact Hw.
Defined.

Definition sample_coherency : tc_coherency :=
  {| volume_change_ref := 5; count := 2; set_id := 17;
     uuid := cstr "30a91a08-daae-48d1-ae75-69804e61d2ea" ++ [0]; version := 1 |}.

Lemma cart_coherency_roundtrip_witness :
  exists dev', tape_set_cart_coherency filedebug_handler 1 sample_coherency (sample_device false (0, 0))
      = (0, dev')
  /\ tape_get_cart_coherency filedebug_handler [] 1 sample_coherency dev' = (0, sample_coherency).
Proof.
  destruct (tape_set_cart_coherency filedebug_handler 1 sample_coherency (sample_device false (0, 0)))
    as [rc dev'] eqn:H.
  assert (Hrc : rc = 0).
  { replace rc with (tape_set_cart_coherency filedebug_handler 1 sample_coherency
      (sample_device false (0, 0))).1 by (by rewrite H). vm_compute. reflexivity. }
  subst rc. exists dev'. split; [reflexivity|].
  apply (cart_coherency_roundtrip filedebug_handler [] 1 sample_coherency sample_coherency
           (sample_device false (0, 0)) 0 dev'); [|exact H|lia].
  split; [cbn; lia|cbn; lia|cbn; lia|reflexivity].
Defined.
