(* ===== verification/Append.v ===== *)
(** * Appending records

    What a run of writes from one position leaves behind: the records written,
    the append position behind them, and nothing else.  The index writer and the
    file writer both work this way. *)

From S2P Require Import Prelude Errors TapeOps TapeDev TapeDevSpec.
Open Scope Z_scope.

(** The blocks of [data]: whole blocks and a last one that may be shorter. *)
Definition blocks_of (bs : Z) (data : list Z) (blocks : list (list Z)) : Prop :=
  concat blocks = data /\
  exists full last, blocks = full ++ last /\ Forall (fun k => Z.of_nat (length k) = bs) full
    /\ (last = [] \/ exists k, last = [k] /\ 0 < Z.of_nat (length k) <= bs).

Lemma length_concat_blocks bs (blocks : list (list Z)) :
  0 <= bs -> Forall (fun k => Z.of_nat (length k) = bs) blocks ->
  Z.of_nat (length (concat blocks)) = Z.of_nat (length blocks) * bs.
Proof.
  intros Hbs Hf. induction Hf as [|k ks Hk Hks IH]; cbn; [done|]. rewrite length_app. lia.
Qed.

(** The byte at [i] is in block [i / bs], at [i mod bs]. *)
Lemma blocks_of_lookup bs data blocks i :
  0 < bs -> blocks_of bs data blocks -> 0 <= i < Z.of_nat (length data) ->
  exists blk, blocks !! Z.to_nat (i / bs) = Some blk /\ blk !! Z.to_nat (i mod bs) = data !! Z.to_nat i.
Proof.
  intros Hbs (<- & full & last & -> & Hf & Hl). revert i.
  induction Hf as [|k ks Hk Hks IH]; intros i Hi.
  - cbn [app] in *. destruct Hl as [->|(k & -> & Hk)]; cbn [concat app] in *; [cbn in Hi; lia|].
    rewrite app_nil_r in *. rewrite Z.div_small, Z.mod_small by lia. by exists k.
  - cbn [app concat] in *. rewrite length_app in Hi. destruct (Z_lt_ge_dec i bs) as [Hlt|Hge].
    + rewrite Z.div_small, Z.mod_small by lia. exists k. split; [done|].
      by rewrite lookup_app_l by lia.
    + destruct (IH (i - bs) ltac:(lia)) as (blk & H1 & H2). exists blk.
      assert (Hd : i / bs = (i - bs) / bs + 1).
      { replace i with (i - bs + 1 * bs) at 1 by lia. rewrite Z.div_add by lia. lia. }
      assert (Hm : i mod bs = (i - bs) mod bs).
      { replace i with (i - bs + 1 * bs) at 1 by lia. by rewrite Z.mod_add by lia. }
      pose proof (Z.div_pos (i - bs) bs ltac:(lia) ltac:(lia)) as Hp.
      rewrite Hd, Hm. replace (Z.to_nat ((i - bs) / bs + 1)) with (S (Z.to_nat ((i - bs) / bs))) by lia.
      split; [exact H1|]. rewrite H2, lookup_app_r by lia. f_equal. lia.
Qed.

Lemma blocks_of_length bs data blocks :
  0 < bs -> blocks_of bs data blocks -> data <> [] ->
  0 < Z.of_nat (length blocks) <= Z.of_nat (length data).
Proof.
  intros Hbs Hb Hne. split.
  - destruct blocks; [|cbn; lia]. destruct Hb as [<- _]. by contradict Hne.
  - destruct Hb as (<- & full & last & -> & Hf & Hl). rewrite concat_app, !length_app.
    pose proof (length_concat_blocks bs full ltac:(lia) Hf) as Hc.
    assert (Z.of_nat (length full) <= Z.of_nat (length (concat full))) by (rewrite Hc; nia).
    destruct Hl as [->|(k & -> & Hk)]; cbn [concat length]; rewrite ?app_nil_r; lia.
Qed.

Section spec.
Context {D : Type} (ops : tape_ops D) {tape_at : D -> medium -> tc_position -> Prop}.
Context `{!TapeOk ops tape_at}.
Implicit Types (dev : device_data D).
Abbreviation dev_at := (dev_at (tape_at := tape_at)).

(** Since the head was at block [b] of partition [p] of the medium [m], exactly the
    records [rs] have been written; [ao] is what does not change: the append
    position of the other partition and the block size limit. *)
Definition appended (m : medium) (p b : Z) (ao : Z * Z) (rs : list tape_record) dev : Prop :=
  dev_at dev (match rs with [] => m | _ => write_at p b rs m end)
  /\ partition (position dev) = p /\ block (position dev) = b + Z.of_nat (length rs)
  /\ valid_part p /\ 0 <= b <= eod_at m p /\ (sel (1 - p) (append_pos dev), max_block_size dev) = ao
  /\ (rs = [] \/ sel p (append_pos dev) = b + Z.of_nat (length rs)).

Lemma appended_write m p b ao rs dev new :
  appended m p b ao rs dev -> new <> [] ->
  write_at p (b + Z.of_nat (length rs)) new (match rs with [] => m | _ => write_at p b rs m end)
  = write_at p b (rs ++ new) m.
Proof.
  intros (_ & _ & _ & Hv & Hb & _) Hne. destruct rs as [|r rs]; [by rewrite Z.add_0_r|].
  by rewrite write_at_write_at.
Qed.

Lemma appended_data m p b ao rs dev buf il ins rc dev' :
  appended m p b ao rs dev -> 0 < Z.of_nat (length buf) < 2 ^ 31 ->
  b + Z.of_nat (length rs) + 1 < 2 ^ 63 ->
  tape_write ops buf il ins dev = (rc, dev') -> 0 <= rc ->
  appended m p b ao (rs ++ [Data buf]) dev' /\ max_block_size dev' = max_block_size dev.
Proof.
  intros Hap Hlen Hmax Hw Hrc. pose proof Hap as (Hat & Hp & Hb & Hv & Hr & Hao & _).
  destruct (tape_write_success ops _ _ _ _ _ _ Hw Hrc) as (H0 & Hm & bret & bpos & d' & Hop & Hbret).
  destruct (tape_write_accepted ops buf il ins dev _ bret bpos d' Hat Hlen)
    as (dev2 & Hw2 & Hat2 & Hp2 & Hpp & Hpb & Hap2 & _ & _ & _ & Hmx); [lia|done|done|done|done|].
  rewrite Hw2 in Hw. injection Hw as <- <-. split; [|done].
  rewrite Hp, Hb, (appended_write _ _ _ _ _ _ _ Hap) in Hat2 by done.
  unfold appended. rewrite Hap2, Hmx, Hp2, Hpp, Hpb, Hp, Hb, sel_upd_other by done.
  split; [by destruct rs|]. split; [done|]. rewrite length_app. cbn [length]. split; [lia|].
  split; [done|]. split; [done|]. split; [done|]. right. rewrite sel_upd, Z.eqb_refl by done. lia.
Qed.

(** A write that fails for another reason than a revalidation leaves the device
    read-only. *)
Lemma tape_write_failed dev buf rc dev' :
  (forall pos d, NEED_REVAL (op_write ops buf pos d).1.1 = false) ->
  Z.of_nat (length buf) <= max_block_size dev ->
  tape_write ops buf true true dev = (rc, dev') -> rc < 0 -> read_only dev' = true.
Proof.
  intros Hnr Hm Hw Hrc. unfold tape_write, write_refused in Hw. unfold read_only.
  destruct (write_protect dev) eqn:E1; [cbn in Hw; injection Hw as _ <-; by rewrite E1|].
  destruct (write_error dev) eqn:E2; [cbn in Hw; injection Hw as _ <-; by rewrite E1, E2|].
  rewrite !andb_false_r in Hw. cbn [Z.ltb Z.compare] in Hw.
  rewrite Z.gtb_ltb, (proj2 (Z.ltb_ge (max_block_size dev) _)) in Hw by lia.
  change (0 <? 0) with false in Hw. cbv iota zeta in Hw.
  specialize (Hnr (position dev) (backend_data dev)).
  destruct (op_write ops buf _ _) as [[bret bpos] d']. cbn in Hnr.
  destruct (bret <? 0) eqn:Hneg.
  - rewrite Hnr in Hw. injection Hw as _ <-. apply orb_true_r.
  - bool_to_prop. exfalso. destruct (early_warning _); [|destruct (programmable_early_warning _)];
      cbn in Hw; injection Hw as <- _; lia.
Qed.

Lemma tape_write_read_only dev buf :
  read_only dev = true ->
  exists e, e < 0 /\ tape_write ops buf true true dev = (e, dev).
Proof.
  intros Hro. unfold tape_write, write_refused, read_only in *.
  destruct (write_protect dev); cbn.
  - by exists (- LTFS_WRITE_PROTECT).
  - cbn in Hro. rewrite Hro. by exists (- LTFS_WRITE_ERROR).
Qed.

Lemma tape_write_filemark_read_only dev n immed :
  read_only dev = true ->
  exists e, e < 0 /\ tape_write_filemark ops n true true immed dev = (e, dev).
Proof.
  intros Hro. unfold tape_write_filemark, write_refused, read_only in *.
  destruct (write_protect dev); cbn.
  - by exists (- LTFS_WRITE_PROTECT).
  - cbn in Hro. rewrite Hro. by exists (- LTFS_WRITE_ERROR).
Qed.

Lemma appended_marks il ins m p b ao rs dev n immed rc dev' :
  appended m p b ao rs dev -> 0 <= n < 256 -> b + Z.of_nat (length rs) + n < 2 ^ 63 ->
  tape_write_filemark ops n il ins immed dev = (rc, dev') -> 0 <= rc ->
  rc = 0 /\ appended m p b ao (rs ++ replicate (Z.to_nat n) Filemark) dev'
  /\ max_block_size dev' = max_block_size dev /\ sel p (append_pos dev') = b + Z.of_nat (length rs) + n.
Proof.
  intros Hap Hn Hmax Hw Hrc. pose proof Hap as (Hat & Hp & Hb & Hv & Hr & Hao & _).
  unfold tape_write_filemark in Hw.
  destruct (write_refused il ins dev <? 0) eqn:Hre.
  { injection Hw as <- _. bool_to_prop. lia. }
  destruct (op_writefm ops n immed (position dev) (backend_data dev)) as [[bret bpos] d'] eqn:Hop.
  destruct (bret <? 0) eqn:Hbneg.
  { injection Hw as <- _. bool_to_prop. lia. }
  bool_to_prop.
  destruct (writefm_ok _ _ _ _ _ _ _ _ Hat Hn ltac:(lia) Hop Hbneg) as (-> & Hpp & Hpb & Hat').
  assert (H : rc = 0 /\ position dev' = bpos /\ backend_data dev' = d'
              /\ max_block_size dev' = max_block_size dev
              /\ append_pos dev' = upd (partition bpos) (block bpos) (append_pos dev)).
  { cbn in Hw. destruct (early_warning bpos); [destruct ins|destruct (programmable_early_warning bpos); [destruct il|]];
      injection Hw as <- <-; try done; by unfold LTFS_NO_SPACE, LTFS_LESS_SPACE in Hrc. }
  destruct H as (-> & Hpos & Hdat & Hmx & Happ). split; [done|].
  split; [|split; [done|]].
  - unfold appended, TapeDevSpec.dev_at. rewrite Happ, Hmx, Hpos, Hdat, Hpp, Hpb, Hp, Hb, sel_upd_other by done.
    rewrite length_app, length_replicate.
    split; [|split; [done|split; [lia|split; [done|split; [done|split; [done|]]]]]].
    2:{ right. rewrite sel_upd, Z.eqb_refl by done. lia. }
    destruct (Z.eqb_spec n 0) as [->|Hn0]; [cbn; by rewrite app_nil_r|].
    rewrite Hp, Hb, (appended_write _ _ _ _ _ _ _ Hap) in Hat'.
    2:{ intros E. apply (f_equal length) in E. rewrite length_replicate in E. cbn in E. lia. }
    destruct rs; cbn; [|done]. destruct (Z.to_nat n) eqn:E; [lia|done].
  - rewrite Happ, sel_upd by (rewrite ?Hpp, ?Hp; done). rewrite Hpp, Hp, Z.eqb_refl. lia.
Qed.

Definition appended_filemark := appended_marks true true.

Lemma appended_start m p b ao dev :
  dev_at dev m -> partition (position dev) = p -> block (position dev) = b ->
  (sel (1 - p) (append_pos dev), max_block_size dev) = ao -> appended m p b ao [] dev.
Proof.
  intros Hat Hp Hb Hao. destruct (tape_at_ok _ _ _ Hat) as (Hv & Hr & _). rewrite Hp, Hb in *.
  unfold appended. cbn. rewrite Z.add_0_r. repeat (split; [done|]). by left.
Qed.

End spec.
