(* ===== verification/Extents.v ===== *)
(** * Extent lists

    The extent list of a file ([struct extent_info] of [libltfs/ltfs.h]) and the
    list surgery of [libltfs/ltfs_fsops_raw.c]: how a new extent replaces what it
    overlaps ([_ltfs_fsraw_add_extent_unlocked]) and how a file is cut
    ([ltfs_fsraw_truncate]).  The TAILQ is a list; a reverse traversal that removes
    and inserts around the current entry is a recursion on the reversed prefix
    that carries the part behind the entry. *)

From S2P Require Import Prelude Errors.
Open Scope Z_scope.

(** ** Data *)

Record tape_offset := { off_partition : Z; off_block : Z }.

#[global] Instance tape_offset_eq_dec : EqDecision tape_offset.
Proof. solve_decision. Defined.

Record extent_info := {
  start : tape_offset;
  byteoffset : Z;
  bytecount : Z;
  fileoffset : Z
}.

#[global] Instance extent_info_eq_dec : EqDecision extent_info.
Proof. solve_decision. Defined.

Definition set_bytecount (n : Z) (e : extent_info) : extent_info :=
  {| start := start e; byteoffset := byteoffset e; bytecount := n; fileoffset := fileoffset e |}.

Section extents.
Variable blocksize : Z.

Definition fileoffset_end (e : extent_info) : Z := u64 (fileoffset e + bytecount e).
Definition byteoffset_end (e : extent_info) : Z := u64 (byteoffset e + bytecount e).

(** The part of [entry] that begins [diff] bytes into it: block and byte offset of
    its first byte, and what is left of its length. *)
Definition drop_bytes (diff : Z) (entry : extent_info) : extent_info :=
  let entry_byteoffset_mod := u64 (diff + byteoffset entry) in
  {| start := {| off_partition := off_partition (start entry);
                 off_block := u64 (off_block (start entry) + entry_byteoffset_mod / blocksize) |};
     byteoffset := u32 (entry_byteoffset_mod mod blocksize);
     bytecount := u64 (bytecount entry - diff);
     fileoffset := u64 (fileoffset entry + diff) |}.

(** "Update existing entry by truncating, deleting, or splitting it": what is left
    of the entry, the extent split off behind it, and the bytes lost. *)
Definition update_entry (ext entry : extent_info)
    : option extent_info * option extent_info * Z :=
  let ext_end := fileoffset_end ext in
  let entry_end := fileoffset_end entry in
  if (fileoffset ext <=? fileoffset entry) && (ext_end >? fileoffset entry) then
    if entry_end <=? ext_end then
      (* Delete entry *)
      (None, None, bytecount entry)
    else
      (* Truncate entry from its beginning *)
      let fileoffset_diff := u64 (ext_end - fileoffset entry) in
      (Some (drop_bytes fileoffset_diff entry), None, fileoffset_diff)
  else if (fileoffset ext >? fileoffset entry) && (fileoffset ext <? entry_end) then
    if ext_end >=? entry_end then
      (* Truncate entry from its end *)
      (Some (set_bytecount (u64 (fileoffset ext - fileoffset entry)) entry), None,
       u64 (entry_end - fileoffset ext))
    else
      (* Split entry *)
      let fileoffset_diff := u64 (ext_end - fileoffset entry) in
      let splitentry := drop_bytes fileoffset_diff entry in
      (Some (set_bytecount (u64 (fileoffset ext - fileoffset entry)) entry),
       Some {| start := start splitentry; byteoffset := byteoffset splitentry;
               bytecount := bytecount splitentry; fileoffset := ext_end |},
       bytecount ext)
  else (Some entry, None, 0).

(** "Process ext's contents by appending to entry": the bytes follow, in the file
    and on the tape. *)
Definition can_append (entry ext : extent_info) : bool :=
  (fileoffset ext =? fileoffset_end entry)
  && (off_partition (start entry) =? off_partition (start ext))
  && (byteoffset_end entry mod blocksize =? 0)
  && (u64 (off_block (start entry) + byteoffset_end entry / blocksize) =? off_block (start ext))
  && (byteoffset ext =? 0).

(** The traversal: [rprefix] is the part not visited yet, last entry first, and
    [suffix] the part behind.  [split_ok] is whether the allocation of a split
    extent succeeds.  The result is the return code, the list, and
    [realsize_new]. *)
Fixpoint add_extent_loop (split_ok : bool) (ext : extent_info)
    (rprefix suffix : list extent_info) (realsize_new : Z) : Z * list extent_info * Z :=
  match rprefix with
  | [] => (0, ext :: suffix, u64 (realsize_new + bytecount ext))
  | entry :: rprefix' =>
      let '(entry', splitentry, lost) := update_entry ext entry in
      if bool_decide (is_Some splitentry) && negb split_ok
      then (- LTFS_NO_MEMORY, rev rprefix ++ suffix, realsize_new)
      else
        let suffix' := option_list splitentry ++ suffix in
        let realsize_new := u64 (realsize_new - lost) in
        match entry' with
        | None => add_extent_loop split_ok ext rprefix' suffix' realsize_new
        | Some e =>
            if can_append e ext then
              (0, rev rprefix' ++ set_bytecount (u64 (bytecount e + bytecount ext)) e :: suffix',
               u64 (realsize_new + bytecount ext))
            else if fileoffset ext >=? fileoffset_end e then
              (0, rev rprefix' ++ e :: ext :: suffix', u64 (realsize_new + bytecount ext))
            else add_extent_loop split_ok ext rprefix' (e :: suffix') realsize_new
        end
  end.

Definition add_extent (split_ok : bool) (ext : extent_info) (l : list extent_info) (realsize : Z)
    : Z * list extent_info * Z :=
  add_extent_loop split_ok ext (rev l) [] realsize.

(** The loop of [ltfs_fsraw_truncate], which leaves the list untouched unless the
    file becomes shorter. *)
Fixpoint truncate_loop (ulength : Z) (rprefix suffix : list extent_info) (new_realsize : Z)
    : list extent_info * Z :=
  match rprefix with
  | [] => (suffix, new_realsize)
  | entry :: rprefix' =>
      let entry_fileoffset_last := fileoffset_end entry in
      if (fileoffset entry >=? ulength) || (ulength =? 0) then
        truncate_loop ulength rprefix' suffix (u64 (new_realsize - bytecount entry))
      else if entry_fileoffset_last >? ulength then
        truncate_loop ulength rprefix' (set_bytecount (u64 (ulength - fileoffset entry)) entry :: suffix)
          (u64 (new_realsize - u64 (entry_fileoffset_last - ulength)))
      else (rev rprefix ++ suffix, new_realsize)
  end.

Definition truncate_extents (ulength size : Z) (l : list extent_info) (realsize : Z)
    : list extent_info * Z :=
  if (ulength <? size) && negb (bool_decide (l = [])) then truncate_loop ulength (rev l) [] realsize
  else (l, realsize).

(** ** Well-formed lists

    Extents are in file order and do not overlap.  Offsets fit [off_t], byte
    offsets their field, and no block number overflows. *)

Record extent_wf (e : extent_info) : Prop := {
  wf_fileoffset : 0 <= fileoffset e;
  wf_bytecount : 0 <= bytecount e;
  wf_end : fileoffset e + bytecount e < 2 ^ 63;
  wf_byteoffset : 0 <= byteoffset e < 2 ^ 32;
  wf_block : 0 <= off_block (start e);
  wf_last : off_block (start e) + (byteoffset e + bytecount e) / blocksize < 2 ^ 64
}.

(** The extents of [l] are in order from offset [lo] on. *)
Fixpoint sorted_from (lo : Z) (l : list extent_info) : Prop :=
  match l with
  | [] => True
  | e :: l' => lo <= fileoffset e /\ sorted_from (fileoffset e + bytecount e) l'
  end.

(** The end of the last extent. *)
Fixpoint last_end (lo : Z) (l : list extent_info) : Z :=
  match l with
  | [] => lo
  | e :: l' => last_end (fileoffset e + bytecount e) l'
  end.

(** The bytes of all extents. *)
Fixpoint total (l : list extent_info) : Z :=
  match l with
  | [] => 0
  | e :: l' => bytecount e + total l'
  end.

Definition extents_wf (l : list extent_info) : Prop := Forall extent_wf l /\ sorted_from 0 l.

(** ** What a list means

    The place on the tape of the file's byte at [off]: partition, block, and byte
    within the block; [None] in a hole. *)

Definition in_extent (e : extent_info) (off : Z) : bool :=
  (fileoffset e <=? off) && (off <? fileoffset e + bytecount e).

Definition place (e : extent_info) (off : Z) : Z * Z * Z :=
  let b := off - fileoffset e + byteoffset e in
  (off_partition (start e), off_block (start e) + b / blocksize, b mod blocksize).

Fixpoint locate (l : list extent_info) (off : Z) : option (Z * Z * Z) :=
  match l with
  | [] => None
  | e :: l' => if in_extent e off then Some (place e off) else locate l' off
  end.

End extents.
