(* ===== verification/ExtentsSpec.v ===== *)
(** * What the extent surgery does

    Adding an extent overlays its bytes on the file and touches nothing else;
    truncating forgets what lies behind the new end; both keep the list sorted,
    disjoint and within its integer ranges, and [realsize] equal to the bytes it
    holds. *)

From S2P Require Import Prelude Errors Extents.
Open Scope Z_scope.

Section spec.
Variable blocksize : Z.

Abbreviation extent_wf := (extent_wf blocksize).
Abbreviation extents_wf := (extents_wf blocksize).
Abbreviation locate := (locate blocksize).
Abbreviation place := (place blocksize).
Abbreviation add_extent_loop := (add_extent_loop blocksize).
Abbreviation update_entry := (update_entry blocksize).
Abbreviation drop_bytes := (drop_bytes blocksize).
Abbreviation can_append := (can_append blocksize).

(** ** Lists *)

Lemma sorted_from_app lo l1 l2 :
  sorted_from lo (l1 ++ l2) <-> sorted_from lo l1 /\ sorted_from (last_end lo l1) l2.
Proof. revert lo. induction l1 as [|e l1 IH]; intros lo; cbn; [tauto|]. rewrite IH. tauto. Qed.

Lemma last_end_app lo l1 l2 : last_end lo (l1 ++ l2) = last_end (last_end lo l1) l2.
Proof. revert lo. induction l1 as [|e l1 IH]; intros lo; cbn; [done|]. apply IH. Qed.

Lemma sorted_from_le lo lo' l : lo' <= lo -> sorted_from lo l -> sorted_from lo' l.
Proof. destruct l; cbn; intuition lia. Qed.

Lemma last_end_ge lo l : Forall extent_wf l -> sorted_from lo l -> lo <= last_end lo l.
Proof.
  intros Hwf. revert lo. induction Hwf as [|e l He Hl IH]; intros lo; cbn; [lia|].
  intros [H1 H2]. specialize (IH _ H2). pose proof (wf_bytecount _ _ He). lia.
Qed.

(** The end of a list that is extended does not depend on where it starts, as
    long as it is not empty; for bounds this is enough. *)
Lemma last_end_le lo lo' l : lo <= lo' -> last_end lo l <= last_end lo' l.
Proof. destruct l; cbn; lia. Qed.

Lemma last_end_bound lo l : lo < 2 ^ 63 -> Forall extent_wf l -> last_end lo l < 2 ^ 63.
Proof.
  intros Hlo Hwf. revert lo Hlo. induction Hwf as [|e l He Hl IH]; intros lo Hlo; cbn; [done|].
  apply IH. by apply wf_end in He.
Qed.

Lemma total_app l1 l2 : total (l1 ++ l2) = total l1 + total l2.
Proof. induction l1 as [|e l1 IH]; cbn; [done|]. rewrite IH. lia. Qed.

Lemma total_bound lo l : Forall extent_wf l -> sorted_from lo l -> 0 <= total l <= last_end lo l - lo.
Proof.
  intros Hwf. revert lo. induction Hwf as [|e l He Hl IH]; intros lo; cbn; [lia|].
  intros [H1 H2]. specialize (IH _ H2). pose proof (wf_bytecount _ _ He). lia.
Qed.

Lemma total_range l : extents_wf l -> 0 <= total l < 2 ^ 63.
Proof.
  intros [Hwf Hs]. pose proof (total_bound 0 l Hwf Hs). pose proof (last_end_bound 0 l ltac:(lia) Hwf). lia.
Qed.

Lemma locate_app l1 l2 off :
  locate (l1 ++ l2) off = match locate l1 off with Some x => Some x | None => locate l2 off end.
Proof. induction l1 as [|e l1 IH]; cbn; [done|]. by destruct (in_extent e off). Qed.

Lemma locate_before lo l off :
  Forall extent_wf l -> sorted_from lo l -> off < lo -> locate l off = None.
Proof.
  intros Hwf. revert lo. induction Hwf as [|e l He Hl IH]; intros lo; cbn; [done|].
  intros [H1 H2] Hoff. unfold in_extent. rewrite (proj2 (Z.leb_gt _ _)) by lia. cbn.
  apply (IH _ H2). pose proof (wf_bytecount _ _ He). lia.
Qed.

Lemma locate_after lo l off :
  Forall extent_wf l -> sorted_from lo l -> last_end lo l <= off -> locate l off = None.
Proof.
  intros Hwf. revert lo. induction Hwf as [|e l He Hl IH]; intros lo; cbn; [done|].
  intros [H1 H2] Hoff. pose proof (last_end_ge _ _ Hl H2).
  unfold in_extent. rewrite (proj2 (Z.ltb_ge _ (fileoffset e + bytecount e))) by lia.
  rewrite andb_false_r. by apply (IH _ H2).
Qed.

(** In a sorted list every extent speaks for its own bytes. *)
Lemma locate_own l1 e l2 off :
  extents_wf (l1 ++ e :: l2) -> in_extent e off = true -> locate (l1 ++ e :: l2) off = Some (place e off).
Proof.
  intros [Hw Hs] Hin. apply Forall_app in Hw as [Hw1 Hw2]. apply sorted_from_app in Hs as [Hs1 [Hlo _]].
  rewrite locate_app, (locate_after 0 l1); [|done|done|].
  - cbn. by rewrite Hin.
  - unfold in_extent in Hin. bool_to_prop. lia.
Qed.

Lemma locate_between l1 l2 lo off :
  extents_wf (l1 ++ l2) -> last_end 0 l1 <= off -> sorted_from lo l2 -> off < lo ->
  locate (l1 ++ l2) off = None.
Proof.
  intros [Hw Hs] H1 Hs2 H2. apply Forall_app in Hw as [Hw1 Hw2]. apply sorted_from_app in Hs as [Hs1 _].
  by rewrite locate_app, (locate_after 0 l1), (locate_before lo l2).
Qed.

Lemma end_le_last_end l1 e l2 :
  extents_wf (l1 ++ e :: l2) -> fileoffset e + bytecount e <= last_end 0 (l1 ++ e :: l2).
Proof.
  intros [Hw Hs]. apply Forall_app in Hw as [_ Hw]. apply Forall_cons_1 in Hw as [_ Hw].
  apply sorted_from_app in Hs as [_ [_ Hs]]. rewrite last_end_app. cbn. by apply last_end_ge.
Qed.

Hypothesis blocksize_range : 0 < blocksize < 2 ^ 32.

(** ** One entry *)

Lemma fileoffset_end_wf e : extent_wf e -> fileoffset_end e = fileoffset e + bytecount e.
Proof. intros [? ? ? ? ? ?]. apply u64_small. lia. Qed.

Lemma byteoffset_end_wf e : extent_wf e -> byteoffset_end e = byteoffset e + bytecount e.
Proof. intros [? ? ? ? ? ?]. apply u64_small. lia. Qed.

Lemma div_le_mono x y : x <= y -> x / blocksize <= y / blocksize.
Proof. intros. apply Z.div_le_mono; lia. Qed.

Lemma div_mod_split x d : (x / blocksize) + (x mod blocksize + d) / blocksize = (x + d) / blocksize.
Proof.
  pose proof (Z.div_mod x blocksize ltac:(lia)) as H.
  rewrite H at 3. replace (blocksize * (x / blocksize) + x mod blocksize + d)
    with (x mod blocksize + d + x / blocksize * blocksize) by lia.
  rewrite Z.div_add by lia. lia.
Qed.

Lemma drop_bytes_spec diff e :
  extent_wf e -> 0 <= diff <= bytecount e ->
  let e' := drop_bytes diff e in
  extent_wf e' /\ fileoffset e' = fileoffset e + diff /\ bytecount e' = bytecount e - diff
  /\ (forall off, place e' off = place e off).
Proof.
  intros [H1 H2 H3 H4 H5 H6] Hd. unfold drop_bytes. cbn.
  assert (Hm : 0 <= (diff + byteoffset e) / blocksize) by (apply Z.div_pos; lia).
  assert (Hle : (diff + byteoffset e) / blocksize <= (byteoffset e + bytecount e) / blocksize)
    by (apply div_le_mono; lia).
  pose proof (Z.mod_pos_bound (diff + byteoffset e) blocksize ltac:(lia)) as Hmod.
  rewrite (u64_small (diff + byteoffset e)) by lia.
  rewrite (u64_small (off_block (start e) + _)), u32_small by lia.
  rewrite (u64_small (bytecount e - diff)), (u64_small (fileoffset e + diff)) by lia.
  split; [|split; [done|split; [done|]]].
  - split; cbn; try lia. rewrite <- Z.add_assoc, div_mod_split.
    replace (diff + byteoffset e + (bytecount e - diff)) with (byteoffset e + bytecount e) by lia.
    lia.
  - intros off. unfold place. cbn. set (x := diff + byteoffset e) in *.
    replace (off - fileoffset e + byteoffset e) with (x + (off - (fileoffset e + diff))) by lia.
    rewrite (Z.add_comm (off - _) (x mod blocksize)), <- Z.add_assoc, div_mod_split.
    by rewrite Z.add_mod_idemp_l by lia.
Qed.

Lemma set_bytecount_spec n e :
  extent_wf e -> 0 <= n <= bytecount e ->
  extent_wf (set_bytecount n e) /\ (forall off, place (set_bytecount n e) off = place e off).
Proof.
  intros [H1 H2 H3 H4 H5 H6] Hn. split; [|done]. split; cbn; try lia.
  pose proof (div_le_mono (byteoffset e + n) (byteoffset e + bytecount e) ltac:(lia)). lia.
Qed.

(** Where nothing of [ext] is, the remains of an entry say what the entry said;
    they lie on either side of [ext], and together they lost what was counted. *)
Lemma update_entry_spec ext e e' sp lost :
  extent_wf ext -> extent_wf e -> update_entry ext e = (e', sp, lost) ->
  let a := fileoffset ext in
  let b := fileoffset ext + bytecount ext in
  let lo := fileoffset e in
  let rest := option_list e' ++ option_list sp in
  Forall extent_wf rest /\ sorted_from lo rest /\ last_end lo rest <= fileoffset e + bytecount e
  /\ total rest + lost = bytecount e
  /\ (forall off, in_extent ext off = false ->
      locate rest off = if in_extent e off then Some (place e off) else None)
  /\ (e' = None -> sp = None /\ a <= fileoffset e /\ fileoffset e < b)
  /\ (forall s, sp = Some s -> fileoffset s = b /\ fileoffset e < a
      /\ b < fileoffset e + bytecount e)
  /\ (forall x, e' = Some x -> (fileoffset x + bytecount x <= a /\ fileoffset x <= fileoffset e) \/
      (sp = None /\ b <= fileoffset x /\ fileoffset e <= fileoffset x
       /\ fileoffset x + bytecount x = fileoffset e + bytecount e
       /\ a < fileoffset e + bytecount e)).
Proof.
  intros Hext He Hu a b lo. unfold update_entry in Hu.
  rewrite !(fileoffset_end_wf _ Hext), !(fileoffset_end_wf _ He) in Hu.
  pose proof Hext as [? ? ? ? ? ?]. pose proof He as [? ? ? ? ? ?].
  assert (Hin : forall off x, fileoffset x = fileoffset e -> bytecount x = bytecount e ->
    in_extent x off = in_extent e off) by (intros off x Ho Hb; unfold in_extent; by rewrite Ho, Hb).
  destruct ((fileoffset ext <=? fileoffset e) && (fileoffset ext + bytecount ext >? fileoffset e)) eqn:C1.
  - bool_to_prop.
    destruct (fileoffset e + bytecount e <=? fileoffset ext + bytecount ext) eqn:C2; bool_to_prop;
      injection Hu as <- <- <-.
    + cbn. repeat (split; [first [done|lia]|]). split; [|by split].
      intros off Hoff. unfold in_extent in *.
      destruct ((fileoffset e <=? off) && (off <? fileoffset e + bytecount e)) eqn:E; [|done].
      bool_to_prop. destruct Hoff; bool_to_prop; lia.
    + rewrite u64_small by lia.
      pose proof (drop_bytes_spec (fileoffset ext + bytecount ext - fileoffset e) e He ltac:(lia))
        as (Hw & Hf & Hb & Hp).
      set (x := drop_bytes _ e) in *. clearbody x. cbn. rewrite Hf, Hb.
      split; [by constructor|]. split; [lia|]. split; [lia|]. split; [lia|]. split; [|split; [done|split; [done|]]].
      * intros off Hoff. unfold in_extent in *. rewrite Hf, Hb, Hp.
        destruct (_ && _)%bool eqn:E1 at 1; destruct (_ && _)%bool eqn:E2 at 1; try done; exfalso;
          bool_to_prop; destruct Hoff; bool_to_prop; lia.
      * intros y [= <-]. right. rewrite Hf, Hb. split; [done|]. unfold a, b. lia.
  - destruct ((fileoffset ext >? fileoffset e) && (fileoffset ext <? fileoffset e + bytecount e)) eqn:C2.
    + bool_to_prop.
      destruct (fileoffset ext + bytecount ext >=? fileoffset e + bytecount e) eqn:C3; bool_to_prop.
      * injection Hu as <- <- <-. rewrite !u64_small by lia. cbn.
        pose proof (set_bytecount_spec (fileoffset ext - fileoffset e) e He ltac:(lia)) as [Hw Hp].
        split; [by constructor|]. split; [lia|]. split; [lia|]. split; [lia|]. split; [|split; [done|split; [done|]]].
        -- intros off Hoff. unfold in_extent in *. cbn. rewrite Hp.
           repeat case_match; try done; exfalso; bool_to_prop; intuition (bool_to_prop; lia).
        -- intros y [= <-]. left. cbn. unfold a. lia.
      * rewrite (u64_small (fileoffset ext - fileoffset e)),
          (u64_small (fileoffset ext + bytecount ext - fileoffset e)) in Hu by lia.
        pose proof (set_bytecount_spec (fileoffset ext - fileoffset e) e He ltac:(lia)) as [Hw Hp].
        pose proof (drop_bytes_spec (fileoffset ext + bytecount ext - fileoffset e) e He ltac:(lia))
          as (Hw2 & Hf2 & Hb2 & Hp2).
        set (x := drop_bytes _ e) in *. clearbody x. injection Hu as <- <- <-. cbn.
        assert (Hx : {| start := start x; byteoffset := byteoffset x; bytecount := bytecount x;
                        fileoffset := fileoffset ext + bytecount ext |} = x).
        { destruct x as [? ? ? fo]. cbn in *. f_equal. lia. }
        rewrite Hx, ?Hf2, ?Hb2.
        split; [by constructor; [|constructor]|]. split; [lia|]. split; [lia|]. split; [lia|].
        split; [|split; [done|split]].
        -- intros off Hoff. unfold in_extent in *. cbn. rewrite Hf2, Hb2, Hp, Hp2.
           repeat case_match; try done; exfalso; bool_to_prop; intuition (bool_to_prop; lia).
        -- intros s [= <-]. rewrite Hf2. unfold a, b. lia.
        -- intros y [= <-]. left. cbn. unfold a. lia.
    + injection Hu as <- <- <-. cbn. split; [by constructor|]. split; [lia|]. split; [lia|]. split; [lia|].
      split; [by intros off _|]. split; [done|]. split; [done|].
      intros y [= <-]. unfold a, b. apply andb_false_iff in C1. apply andb_false_iff in C2.
      destruct (Z_le_gt_dec (fileoffset e + bytecount e) (fileoffset ext)); [left; lia|right].
      split; [done|]. destruct C1, C2; bool_to_prop; lia.
Qed.

Lemma can_append_spec e ext :
  extent_wf e -> extent_wf ext -> can_append e ext = true ->
  let e' := set_bytecount (bytecount e + bytecount ext) e in
  fileoffset ext = fileoffset e + bytecount e /\ extent_wf e'
  /\ (forall off, place e' off = place e off) /\ (forall off, place e' off = place ext off).
Proof.
  intros He Hext Hc. unfold can_append in Hc.
  rewrite (fileoffset_end_wf _ He), (byteoffset_end_wf _ He) in Hc.
  pose proof He as [? ? ? ? ? Hl]. pose proof Hext as [? ? ? ? ? Hl2]. bool_to_prop.
  pose proof (Z.div_mod (byteoffset e + bytecount e) blocksize ltac:(lia)) as Hd.
  set (k := (byteoffset e + bytecount e) / blocksize) in *.
  assert (Hk : 0 <= k) by (apply Z.div_pos; lia).
  rewrite u64_small in * by lia.
  assert (Hsum : forall t, byteoffset e + bytecount e + t = t + k * blocksize) by (intros; lia).
  split; [done|]. split; [|split; [done|]].
  - split; cbn; try lia. rewrite Z.add_assoc, Hsum, Z.div_add by lia.
    replace (byteoffset ext) with 0 in Hl2 by done. rewrite Z.add_0_l in Hl2. lia.
  - intros off. unfold place. cbn.
    replace (off - fileoffset e + byteoffset e)
      with (byteoffset e + bytecount e + (off - fileoffset ext + byteoffset ext)) by lia.
    rewrite Hsum, Z.div_add, Z.mod_add by lia. f_equal. f_equal; lia.
Qed.

(** ** The traversal *)

Lemma u64_sub_add a b c : u64 (u64 (a - b) + c) = u64 (a - b + c).
Proof. unfold u64. by rewrite Zplus_mod_idemp_l. Qed.

Lemma in_extent_cases e off :
  in_extent e off = true /\ fileoffset e <= off < fileoffset e + bytecount e \/
  in_extent e off = false /\ ~ fileoffset e <= off < fileoffset e + bytecount e.
Proof.
  unfold in_extent. destruct (Z.leb_spec (fileoffset e) off), (Z.ltb_spec off (fileoffset e + bytecount e));
    cbn; lia.
Qed.

Definition overlay (ext : extent_info) (l : list extent_info) (off : Z) : option (Z * Z * Z) :=
  if in_extent ext off then Some (place ext off) else locate l off.

(** What the loop has to do with the part it has not visited ([rev rprefix]) and
    the part behind. *)
Definition loop_post (ext : extent_info) (l : list extent_info) (rs : Z) (l' : list extent_info) (rs' : Z) : Prop :=
  extents_wf l' /\ (forall off, locate l' off = overlay ext l off)
  /\ rs' = u64 (rs + (total l' - total l))
  /\ (forall hi, last_end 0 l <= hi -> fileoffset ext + bytecount ext <= hi -> last_end 0 l' <= hi).

(** The two ways of ending at an entry: [x] is what is left of the entry, in front
    of [ext], [mid] what takes its place. *)
Lemma loop_end ext pre entry suffix x sp lost mid rs :
  extent_wf ext -> Forall extent_wf pre -> sorted_from 0 pre -> last_end 0 pre <= fileoffset entry ->
  extent_wf entry -> Forall extent_wf suffix ->
  sorted_from (fileoffset ext + bytecount ext) suffix ->
  sorted_from (fileoffset entry + bytecount entry) suffix ->
  update_entry ext entry = (Some x, sp, lost) ->
  fileoffset x + bytecount x <= fileoffset ext -> fileoffset x = fileoffset entry ->
  Forall extent_wf mid -> sorted_from (fileoffset x) mid ->
  last_end (fileoffset x) mid = fileoffset ext + bytecount ext ->
  total mid = bytecount x + bytecount ext ->
  (forall off, locate mid off = overlay ext [x] off) ->
  loop_post ext ((pre ++ [entry]) ++ suffix) rs
    (pre ++ mid ++ option_list sp ++ suffix) (u64 (u64 (rs - lost) + bytecount ext)).
Proof.
  intros Hext Hpre Hs Hlo He Hsuf Hsb Hse Hu Hxa Hfx Hmid Hsmid Hlmid Htot Hloc.
  destruct (update_entry_spec _ _ _ _ _ Hext He Hu) as (Hw & Hsr & Hlr & Ht & Hl & _ & Hsp & _).
  cbn in Hw, Hsr, Hlr, Ht. apply Forall_cons_1 in Hw as [Hwx Hwsp].
  pose proof (wf_bytecount _ _ Hext) as Hbc. pose proof (wf_bytecount _ _ Hwx) as Hbx.
  assert (Hsbs : sorted_from (fileoffset ext + bytecount ext) (option_list sp ++ suffix)).
  { destruct sp as [s|]; [|done]. destruct (Hsp s eq_refl) as (Hf & _ & Hb). cbn in *.
    split; [lia|]. eapply sorted_from_le; [|exact Hse]. lia. }
  assert (Hwall : Forall extent_wf (option_list sp ++ suffix)) by (by apply Forall_app).
  assert (Hsall : sorted_from (last_end 0 pre) (mid ++ option_list sp ++ suffix)).
  { apply sorted_from_app. split; [eapply sorted_from_le; [|exact Hsmid]; lia|].
    destruct mid as [|m mid]; [cbn in Htot, Hlmid|].
    - cbn. eapply sorted_from_le; [|exact Hsbs]. lia.
    - cbn in Hlmid |- *. by rewrite Hlmid. }
  split; [split|split; [|split]].
  - apply Forall_app. split; [done|]. by apply Forall_app.
  - by apply sorted_from_app.
  - intros off. unfold overlay. rewrite !locate_app, Hloc. unfold overlay.
    destruct (in_extent_cases ext off) as [[E Hin]|[E Hin]]; rewrite E.
    + rewrite (locate_after 0 pre) by (done || lia). done.
    + specialize (Hl off E). change (option_list (Some x) ++ option_list sp) with ([x] ++ option_list sp) in Hl.
      rewrite locate_app in Hl.
      change (locate [entry] off) with (if in_extent entry off then Some (place entry off) else None).
      rewrite <- Hl. by destruct (locate pre off), (locate [x] off).
  - rewrite u64_sub_add. f_equal. rewrite !total_app. cbn. rewrite Htot. cbn in Ht. lia.
  - intros hi Hhi Hhb. rewrite !last_end_app in *. cbn in Hhi.
    destruct suffix as [|s0 suf].
    + rewrite app_nil_r in *. cbn in Hhi. destruct sp as [s|]; cbn.
      * destruct (Hsp s eq_refl) as (Hf & _ & Hb). cbn in Hlr. lia.
      * destruct mid as [|m mid]; cbn in *; [lia|]. lia.
    + destruct sp as [s|]; cbn in *; done.
Qed.

(** The accounting of one step composes with the rest of the traversal. *)
Lemma loop_post_step ext pre entry suffix cur rs lost l' rs' :
  extent_wf entry ->
  total cur + lost = bytecount entry ->
  last_end (last_end 0 pre) cur <= fileoffset entry + bytecount entry ->
  last_end 0 pre <= fileoffset entry ->
  (forall off, in_extent ext off = false ->
    locate cur off = if in_extent entry off then Some (place entry off) else None) ->
  loop_post ext (pre ++ cur ++ suffix) (u64 (rs - lost)) l' rs' ->
  loop_post ext ((pre ++ [entry]) ++ suffix) rs l' rs'.
Proof.
  intros He Ht Hle Hlo Hl (Hwf & Hloc & Hrs & Hend). split; [done|]. split; [|split].
  - intros off. rewrite Hloc. unfold overlay. destruct (in_extent ext off) eqn:E; [done|].
    rewrite !locate_app, (Hl off E).
    change (locate [entry] off) with (if in_extent entry off then Some (place entry off) else None).
    by destruct (locate pre off), (in_extent entry off).
  - rewrite Hrs, u64_sub_add. f_equal. rewrite !total_app. cbn. lia.
  - intros hi Hhi Hb. apply Hend; [|done]. rewrite !last_end_app in *. cbn in Hhi.
    etrans; [apply last_end_le; exact Hle|done].
Qed.

Lemma add_extent_loop_ok split_ok ext rp suffix rs l' rs' :
  extent_wf ext -> Forall extent_wf (rev rp) -> Forall extent_wf suffix ->
  sorted_from 0 (rev rp) -> sorted_from (last_end 0 (rev rp)) suffix ->
  sorted_from (fileoffset ext + bytecount ext) suffix ->
  add_extent_loop split_ok ext rp suffix rs = (0, l', rs') ->
  loop_post ext (rev rp ++ suffix) rs l' rs'.
Proof.
  intros Hext. revert suffix rs. induction rp as [|entry rp IH]; intros suffix rs Hp Hsuf Hs Hs1 Hs2 Hrun.
  { cbn in Hrun. injection Hrun as <- <-. pose proof (wf_fileoffset _ _ Hext).
    split; [split; [by constructor|by split]|]. split; [done|]. split.
    - f_equal. cbn. lia.
    - intros hi Hhi Hb. cbn. destruct suffix; [done|]. exact Hhi. }
  cbn [rev] in Hp, Hs, Hs1. apply Forall_app in Hp as [Hp He]. apply Forall_cons_1 in He as [He _].
  apply sorted_from_app in Hs as [Hs [Hlo _]]. rewrite last_end_app in Hs1. cbn in Hs1.
  cbn [Extents.add_extent_loop] in Hrun.
  destruct (update_entry ext entry) as [[e' sp] lost] eqn:Hu.
  destruct (update_entry_spec _ _ _ _ _ Hext He Hu) as (Hw & Hsr & Hlr & Ht & Hl & Hnone & Hsp & Hcase).
  destruct (bool_decide (is_Some sp) && negb split_ok); [done|]. pose proof (wf_bytecount _ _ He).
  cbn [rev]. destruct e' as [x|].
  2:{ destruct (Hnone eq_refl) as (-> & _ & _). cbn in Hrun.
      eapply (loop_post_step ext (rev rp) entry suffix []); try done; [cbn in Ht |- *; lia..|].
      apply IH; try done. eapply sorted_from_le; [|exact Hs1]. lia. }
  cbn in Hw, Ht, Hsr, Hlr. apply Forall_cons_1 in Hw as [Hwx Hwsp].
  destruct (can_append x ext) eqn:Hca; [|destruct (fileoffset ext >=? fileoffset_end x) eqn:Hge].
  - destruct (can_append_spec _ _ Hwx Hext Hca) as (Hf & Hw' & Hp1 & Hp2).
    pose proof (wf_bytecount _ _ Hwx). pose proof (wf_bytecount _ _ Hext).
    pose proof Hwx as [? ? ? ? ? ?]. pose proof Hext as [? ? ? ? ? ?].
    destruct (Hcase x eq_refl) as [[Hxa Hxe]|(_ & _ & _ & Hbad & Hbad2)]; [|lia].
    injection Hrun as <- <-. rewrite (u64_small (bytecount x + bytecount ext)) by lia.
    change (set_bytecount (bytecount x + bytecount ext) x :: option_list sp ++ suffix)
      with ([set_bytecount (bytecount x + bytecount ext) x] ++ option_list sp ++ suffix).
    apply (loop_end ext (rev rp) entry suffix x sp lost); try done; cbn; try lia.
    + by constructor.
    + intros off. unfold overlay. cbn. rewrite Hp1.
      destruct (in_extent_cases ext off) as [[E Hin]|[E Hin]]; rewrite E.
      * rewrite <- (Hp2 off), Hp1. destruct (in_extent_cases (set_bytecount (bytecount x + bytecount ext) x) off)
          as [[-> _]|[_ Hno]]; [done|]. cbn in Hno. lia.
      * destruct (in_extent_cases (set_bytecount (bytecount x + bytecount ext) x) off) as [[-> Hy]|[-> Hn]],
          (in_extent_cases x off) as [[-> Hz]|[-> Hn2]]; try done; cbn in *; lia.
  - rewrite (fileoffset_end_wf _ Hwx) in Hge. bool_to_prop. pose proof (wf_bytecount _ _ Hwx).
    destruct (Hcase x eq_refl) as [[Hxa Hxe]|(_ & _ & _ & Hbad & Hbad2)]; [|lia].
    injection Hrun as <- <-.
    change (x :: ext :: option_list sp ++ suffix) with ([x; ext] ++ option_list sp ++ suffix).
    apply (loop_end ext (rev rp) entry suffix x sp lost); try done; cbn; try lia.
    + by constructor; [|constructor].
    + intros off. unfold overlay. cbn.
      destruct (in_extent_cases ext off) as [[E Hin]|[E Hin]], (in_extent_cases x off) as [[E2 Hx]|[E2 Hx]];
        rewrite ?E, ?E2; try done; lia.
  - rewrite (fileoffset_end_wf _ Hwx) in Hge. bool_to_prop.
    destruct (Hcase x eq_refl) as [[Hxa Hxe]|(-> & Hb & Hfx & Hend & _)]; [lia|]. cbn in Hrun, Hl, Ht.
    eapply (loop_post_step ext (rev rp) entry suffix [x]); try done; [cbn; lia..|].
    apply IH; try done.
    + by constructor.
    + cbn. split; [lia|]. by rewrite Hend.
    + cbn. split; [done|]. by rewrite Hend.
Qed.

(** An allocation failure for a split extent leaves the list as it was: no other
    entry has been changed by then. *)
Lemma add_extent_loop_no_split split_ok ext rp suffix rs :
  extent_wf ext -> Forall extent_wf (rev rp) -> sorted_from 0 (rev rp) ->
  last_end 0 (rev rp) <= fileoffset ext + bytecount ext ->
  (add_extent_loop split_ok ext rp suffix rs).1.1 = 0.
Proof.
  intros Hext. revert suffix rs. induction rp as [|entry rp IH]; intros suffix rs Hp Hs Hend; [done|].
  cbn [rev] in Hp, Hs, Hend. apply Forall_app in Hp as [Hp He]. apply Forall_cons_1 in He as [He _].
  apply sorted_from_app in Hs as [Hs [Hlo _]]. rewrite last_end_app in Hend. cbn in Hend.
  cbn [Extents.add_extent_loop].
  destruct (update_entry ext entry) as [[e' sp] lost] eqn:Hu.
  destruct (update_entry_spec _ _ _ _ _ Hext He Hu) as (_ & _ & _ & _ & _ & _ & Hsp & _).
  pose proof (wf_bytecount _ _ He).
  destruct sp as [s|]; [destruct (Hsp s eq_refl); lia|]. cbn.
  assert (IH' : forall suf r, (add_extent_loop split_ok ext rp suf r).1.1 = 0)
    by (intros; apply IH; try done; lia).
  destruct e' as [x|]; [|apply IH']. by repeat case_match.
Qed.

Lemma add_extent_loop_failed split_ok ext rp suffix rs ret l' rs' :
  extent_wf ext -> Forall extent_wf (rev rp) -> sorted_from 0 (rev rp) ->
  add_extent_loop split_ok ext rp suffix rs = (ret, l', rs') -> ret <> 0 ->
  ret = - LTFS_NO_MEMORY /\ split_ok = false /\ l' = rev rp ++ suffix.
Proof.
  intros Hext. revert suffix rs. induction rp as [|entry rp IH]; intros suffix rs Hp Hs Hrun Hret.
  { cbn in Hrun. by injection Hrun as <- _ _. }
  cbn [rev] in Hp, Hs. apply Forall_app in Hp as [Hp He]. apply Forall_cons_1 in He as [He _].
  apply sorted_from_app in Hs as [Hs [Hlo _]].
  cbn [Extents.add_extent_loop] in Hrun.
  destruct (update_entry ext entry) as [[e' sp] lost] eqn:Hu.
  destruct (update_entry_spec _ _ _ _ _ Hext He Hu) as (_ & _ & _ & _ & _ & Hnone & _ & Hcase).
  destruct (bool_decide (is_Some sp) && negb split_ok) eqn:Hsp.
  { injection Hrun as <- <- _. apply andb_prop in Hsp as [_ Hsp]. by apply negb_true_iff in Hsp. }
  pose proof (wf_bytecount _ _ He). pose proof (last_end_ge 0 (rev rp) Hp Hs).
  assert (Hno : forall suf r, last_end 0 (rev rp) <= fileoffset ext + bytecount ext ->
    add_extent_loop split_ok ext rp suf r = (ret, l', rs') -> False).
  { intros suf r Hle Hrun'. pose proof (add_extent_loop_no_split split_ok ext rp suf r Hext Hp Hs Hle) as H0'.
    rewrite Hrun' in H0'. by cbn in H0'. }
  destruct e' as [x|].
  2:{ destruct (Hnone eq_refl) as (_ & _ & ?). exfalso. eapply Hno; [|exact Hrun]. lia. }
  destruct (can_append x ext); [by injection Hrun as <- _ _|].
  destruct (fileoffset ext >=? fileoffset_end x) eqn:Hge; [by injection Hrun as <- _ _|].
  destruct (decide (last_end 0 (rev rp) <= fileoffset ext + bytecount ext)) as [Hle|Hgt].
  { exfalso. by eapply Hno. }
  assert (Hx : x = entry /\ sp = None).
  { unfold Extents.update_entry in Hu. rewrite !(fileoffset_end_wf _ Hext) in Hu.
    pose proof (wf_bytecount _ _ Hext).
    rewrite Z.gtb_ltb, (proj2 (Z.ltb_ge (fileoffset entry) _)), andb_false_r in Hu by lia.
    rewrite Z.gtb_ltb, (proj2 (Z.ltb_ge (fileoffset entry) _)) in Hu by lia. cbn in Hu.
    by injection Hu. }
  destruct Hx as [-> ->]. cbn in Hrun. destruct (IH _ _ Hp Hs Hrun Hret) as (H1 & H2 & ->).
  split; [done|]. split; [done|]. cbn. by rewrite <- app_assoc.
Qed.

(** ** Truncation *)

(** What is left of [l] when the file ends at [u]. *)
Definition cut_post (u : Z) (l l' : list extent_info) (rs' : Z) : Prop :=
  extents_wf l' /\ rs' = total l' /\ last_end 0 l' <= u
  /\ forall off, 0 <= off -> locate l' off = if off <? u then locate l off else None.

Lemma truncate_loop_ok u rp suffix rs l' rs' :
  0 <= u < 2 ^ 63 -> extents_wf (rev rp ++ suffix) -> rs = total (rev rp ++ suffix) ->
  suffix = [] \/ last_end 0 (rev rp ++ suffix) <= u ->
  truncate_loop u rp suffix rs = (l', rs') -> cut_post u (rev rp ++ suffix) l' rs'.
Proof.
  intros Hu. revert suffix rs. induction rp as [|entry rp IH]; intros suffix rs Hwf -> Hend Hrun.
  { cbn in Hrun. injection Hrun as <- <-. cbn in *. split; [done|]. split; [done|].
    assert (Hle : last_end 0 suffix <= u) by (destruct Hend as [->|]; cbn; lia). split; [done|].
    intros off Hoff. destruct (off <? u) eqn:E; [done|]. bool_to_prop.
    destruct Hwf as [Hw Hs]. apply (locate_after 0); try done. lia. }
  pose proof (total_range _ Hwf) as Htot. destruct Hwf as [Hw Hs]. cbn [rev] in *.
  rewrite <- app_assoc in *. cbn [app] in *.
  pose proof Hw as Hw0. pose proof Hs as Hs0.
  apply Forall_app in Hw as [Hp He]. apply Forall_cons_1 in He as [He Hsuf].
  apply sorted_from_app in Hs as [Hs [Hlo Hss]].
  rewrite last_end_app in Hend. cbn in Hend. rewrite total_app in Htot. cbn in Htot.
  pose proof (wf_bytecount _ _ He) as Hbc. pose proof (wf_end _ _ He) as Hfe.
  pose proof (wf_fileoffset _ _ He) as Hfo.
  pose proof (total_bound 0 (rev rp) Hp Hs) as Hb1. pose proof (total_bound _ suffix Hsuf Hss) as Hb2.
  cbn [truncate_loop] in Hrun. rewrite (fileoffset_end_wf _ He), total_app in Hrun. cbn [total] in Hrun.
  destruct ((fileoffset entry >=? u) || (u =? 0)) eqn:E1; [|destruct (_ >? u) eqn:E2].
  - (* the entry goes *)
    rewrite u64_small in Hrun by lia.
    assert (Hwf' : extents_wf (rev rp ++ suffix)).
    { split; [by apply Forall_app|]. apply sorted_from_app. split; [done|].
      eapply sorted_from_le; [|exact Hss]. lia. }
    assert (Hrs : total (rev rp) + (bytecount entry + total suffix) - bytecount entry
      = total (rev rp ++ suffix)) by (rewrite total_app; lia).
    destruct (IH suffix _ Hwf' Hrs) with (2 := Hrun) as (H1 & H2 & H3 & H4).
    { destruct Hend as [|Hend]; [by left|right]. rewrite last_end_app. etrans; [|exact Hend].
      apply last_end_le. lia. }
    split; [done|]. split; [done|]. split; [done|]. intros off Hoff. rewrite H4 by done.
    destruct (off <? u) eqn:E; [|done]. rewrite !locate_app. cbn.
    assert (Hin : in_extent entry off = false).
    { unfold in_extent. destruct (fileoffset entry <=? off) eqn:Ef; [|done]. exfalso.
      apply orb_prop in E1 as [E1|E1]; bool_to_prop; lia. }
    by rewrite Hin.
  - (* the entry is cut *)
    apply orb_false_elim in E1 as [E1 E1']. bool_to_prop.
    assert (suffix = []) as ->.
    { destruct Hend as [|Hend]; [done|]. pose proof (last_end_ge _ _ Hsuf Hss). lia. }
    rewrite (u64_small (_ - u)), (u64_small (total (rev rp) + _ - _)), (u64_small (u - _)) in Hrun by (cbn in *; lia).
    destruct (set_bytecount_spec (u - fileoffset entry) entry He ltac:(lia)) as [Hwe Hpl].
    set (e' := set_bytecount (u - fileoffset entry) entry) in *.
    assert (Hwf' : extents_wf (rev rp ++ [e'])).
    { split; [apply Forall_app; by split; [|constructor]|]. apply sorted_from_app. split; [done|].
      cbn. split; [exact Hlo|done]. }
    assert (Hrs : total (rev rp) + (bytecount entry + total []) - (fileoffset entry + bytecount entry - u)
      = total (rev rp ++ [e'])) by (rewrite total_app; cbn; lia).
    destruct (IH [e'] _ Hwf' Hrs) with (2 := Hrun) as (H1 & H2 & H3 & H4).
    { right. rewrite last_end_app. cbn. lia. }
    split; [done|]. split; [done|]. split; [done|]. intros off Hoff. rewrite H4 by done.
    destruct (off <? u) eqn:E; [|done]. bool_to_prop. rewrite !locate_app. cbn.
    assert (Hin : in_extent e' off = in_extent entry off).
    { unfold in_extent. cbn. rewrite (proj2 (Z.ltb_lt off (fileoffset entry + (u - _)))) by lia.
      by rewrite (proj2 (Z.ltb_lt off (fileoffset entry + bytecount entry))) by lia. }
    by rewrite Hin, Hpl.
  - (* the entry and what is in front of it stay *)
    bool_to_prop. injection Hrun as <- <-.
    cbn [rev]. rewrite <- app_assoc. cbn [app]. split; [done|].
    split; [rewrite total_app; cbn; done|].
    assert (Hle : last_end 0 (rev rp ++ entry :: suffix) <= u).
    { rewrite last_end_app. cbn. destruct Hend as [->|]; [cbn; lia|done]. }
    split; [done|]. intros off Hoff. destruct (off <? u) eqn:E; [done|]. bool_to_prop.
    apply (locate_after 0); try done. lia.
Qed.

Lemma truncate_extents_ok u sz l l' rs' :
  0 <= u < 2 ^ 63 -> extents_wf l -> last_end 0 l <= sz ->
  truncate_extents u sz l (total l) = (l', rs') -> cut_post u l l' rs'.
Proof.
  intros Hu Hwf Hsz Hrun. unfold truncate_extents in Hrun.
  destruct ((u <? sz) && negb (bool_decide (l = []))) eqn:E.
  - pose proof (truncate_loop_ok u (rev l) [] (total l) l' rs' Hu) as H.
    rewrite rev_involutive, app_nil_r in H. by apply H; [..|left|].
  - injection Hrun as <- <-. split; [done|]. split; [done|].
    assert (Hle : last_end 0 l <= u).
    { apply andb_false_iff in E as [E|E]; bool_to_prop; [lia|].
      apply bool_decide_eq_true in E as ->. cbn. lia. }
    split; [done|]. intros off Hoff. destruct (off <? u) eqn:Eo; [done|]. bool_to_prop.
    destruct Hwf as [Hw Hs]. apply (locate_after 0); try done. lia.
Qed.
End spec.
