(* ===== verification/Volume.v ===== *)
(** * The volume and its index

    The part of [libltfs/ltfs.c], [libltfs/ltfs_internal.c] and
    [libltfs/xml_writer.c] that decides when and where an index is written: the
    dirty flags, the read-only state, the output of the XML writer block by block,
    [ltfs_write_index] with its rollback, and the cartridge coherency update.

    Three things stand outside: the XML library, which turns the index into bytes
    and hands them over in pieces ([xml_lib]); the [update_mam_attr] entry of the
    backend, which only the drivers of real drives have; and the dentry cache
    plugin, taken as not loaded.  The directory tree of the index is what
    [xml_lib] serializes and has no field here. *)

From S2P Require Import Prelude Errors TapeOps TapeDev Coherency Extents.
Open Scope Z_scope.

(** ** Data *)

Definition LTFS_INDEX_VERSION : Z := 20200.

Record ltfs_label := {
  label_creator : option (list Z);
  label_version : Z;
  barcode : list Z;
  vol_uuid : list Z;
  format_time : Z * Z;
  blocksize : Z;
  enable_compression : bool;
  this_partition : Z;
  partid_dp : Z;
  partid_ip : Z;
  part_num2id : Z * Z
}.

(** Changes of the partitions and of the other fields of a label *)
Definition set_partition_ids (this dp ip : Z) (num2id : Z * Z) (l : ltfs_label) : ltfs_label :=
  {| label_creator := label_creator l; label_version := label_version l; barcode := barcode l;
     vol_uuid := vol_uuid l; format_time := format_time l; blocksize := blocksize l;
     enable_compression := enable_compression l; this_partition := this; partid_dp := dp; partid_ip := ip;
     part_num2id := num2id |}.

Definition set_label_data (creator : option (list Z)) (version : Z) (code uuid : list Z) (time : Z * Z)
    (bs : Z) (compress : bool) (l : ltfs_label) : ltfs_label :=
  {| label_creator := creator; label_version := version; barcode := code; vol_uuid := uuid; format_time := time;
     blocksize := bs; enable_compression := compress; this_partition := this_partition l;
     partid_dp := partid_dp l; partid_ip := partid_ip l; part_num2id := part_num2id l |}.

Record ltfs_index := {
  idx_creator : list Z;
  idx_vol_uuid : list Z;
  generation : Z;
  mod_time : Z * Z;
  selfptr : tape_offset;
  backptr : tape_offset;
  dirty : bool;
  atime_dirty : bool;
  use_atime : bool;
  idx_version : Z
}.

Record ltfs_volume (D : Type) := {
  vol_creator : list Z;
  label : ltfs_label;
  index : ltfs_index;
  device : device_data D;
  ip_coh : tc_coherency;
  dp_coh : tc_coherency;
  ip_index_file_end : bool;
  dp_index_file_end : bool;
  rollback_mount : bool;
  reval : Z;
  (** one-block read cache *)
  last_pos : tape_offset;
  last_size : Z;
  last_block : option (list Z)
}.

Arguments vol_creator {_}. Arguments label {_}. Arguments index {_}. Arguments device {_}.
Arguments ip_coh {_}. Arguments dp_coh {_}. Arguments ip_index_file_end {_}.
Arguments dp_index_file_end {_}. Arguments rollback_mount {_}. Arguments reval {_}.
Arguments last_pos {_}. Arguments last_size {_}. Arguments last_block {_}.

(** What libxml2 and the schema writer do with the index: the buffers handed to the
    write callback while the document is written, those left for when the writer
    is freed, and the result of [_xml_write_schema], which may depend on whether
    the write callback has failed. *)
Record xml_lib := {
  schema_chunks : list Z -> ltfs_index -> list (list Z);
  final_chunks : list Z -> ltfs_index -> list (list Z);
  schema_result : list Z -> ltfs_index -> bool -> Z
}.

(** ** The dirty flags *)

Definition ltfs_set_index_dirty (atime : bool) (idx : ltfs_index) : ltfs_index :=
  {| idx_creator := idx_creator idx; idx_vol_uuid := idx_vol_uuid idx; generation := generation idx; mod_time := mod_time idx;
     selfptr := selfptr idx; backptr := backptr idx;
     dirty := if atime then dirty idx else true;
     atime_dirty := if atime then true else atime_dirty idx;
     use_atime := use_atime idx;
     idx_version := if negb atime || (atime && use_atime idx) then LTFS_INDEX_VERSION
                    else idx_version idx |}.

Definition ltfs_unset_index_dirty (update_version : bool) (idx : ltfs_index) : ltfs_index :=
  {| idx_creator := idx_creator idx; idx_vol_uuid := idx_vol_uuid idx; generation := generation idx; mod_time := mod_time idx;
     selfptr := selfptr idx; backptr := backptr idx; dirty := false; atime_dirty := false;
     use_atime := use_atime idx;
     idx_version := if update_version then LTFS_INDEX_VERSION else idx_version idx |}.

Definition set_pointers (self back : tape_offset) (idx : ltfs_index) : ltfs_index :=
  {| idx_creator := idx_creator idx; idx_vol_uuid := idx_vol_uuid idx; generation := generation idx; mod_time := mod_time idx;
     selfptr := self; backptr := back; dirty := dirty idx; atime_dirty := atime_dirty idx;
     use_atime := use_atime idx; idx_version := idx_version idx |}.

Definition set_generation (g : Z) (t : Z * Z) (idx : ltfs_index) : ltfs_index :=
  {| idx_creator := idx_creator idx; idx_vol_uuid := idx_vol_uuid idx; generation := g; mod_time := t;
     selfptr := selfptr idx; backptr := backptr idx; dirty := dirty idx;
     atime_dirty := atime_dirty idx; use_atime := use_atime idx; idx_version := idx_version idx |}.

Definition set_creator (c : list Z) (idx : ltfs_index) : ltfs_index :=
  {| idx_creator := c; idx_vol_uuid := idx_vol_uuid idx; generation := generation idx; mod_time := mod_time idx;
     selfptr := selfptr idx; backptr := backptr idx; dirty := dirty idx;
     atime_dirty := atime_dirty idx; use_atime := use_atime idx; idx_version := idx_version idx |}.

Section volume.
Context {D : Type} (ops : tape_ops D).
Implicit Types (vol : ltfs_volume D).

Definition set_device (dev : device_data D) (vol : ltfs_volume D) : ltfs_volume D :=
  {| vol_creator := vol_creator vol; label := label vol; index := index vol; device := dev;
     ip_coh := ip_coh vol; dp_coh := dp_coh vol; ip_index_file_end := ip_index_file_end vol;
     dp_index_file_end := dp_index_file_end vol; rollback_mount := rollback_mount vol;
     reval := reval vol; last_pos := last_pos vol; last_size := last_size vol;
     last_block := last_block vol |}.

Definition set_index (idx : ltfs_index) (vol : ltfs_volume D) : ltfs_volume D :=
  {| vol_creator := vol_creator vol; label := label vol; index := idx; device := device vol;
     ip_coh := ip_coh vol; dp_coh := dp_coh vol; ip_index_file_end := ip_index_file_end vol;
     dp_index_file_end := dp_index_file_end vol; rollback_mount := rollback_mount vol;
     reval := reval vol; last_pos := last_pos vol; last_size := last_size vol;
     last_block := last_block vol |}.

Definition set_coherency (ip dp : tc_coherency) (vol : ltfs_volume D) : ltfs_volume D :=
  {| vol_creator := vol_creator vol; label := label vol; index := index vol; device := device vol;
     ip_coh := ip; dp_coh := dp; ip_index_file_end := ip_index_file_end vol;
     dp_index_file_end := dp_index_file_end vol; rollback_mount := rollback_mount vol;
     reval := reval vol; last_pos := last_pos vol; last_size := last_size vol;
     last_block := last_block vol |}.

Definition set_file_end (ip dp : bool) (vol : ltfs_volume D) : ltfs_volume D :=
  {| vol_creator := vol_creator vol; label := label vol; index := index vol; device := device vol;
     ip_coh := ip_coh vol; dp_coh := dp_coh vol; ip_index_file_end := ip;
     dp_index_file_end := dp; rollback_mount := rollback_mount vol;
     reval := reval vol; last_pos := last_pos vol; last_size := last_size vol;
     last_block := last_block vol |}.

Definition set_reval (r : Z) (vol : ltfs_volume D) : ltfs_volume D :=
  {| vol_creator := vol_creator vol; label := label vol; index := index vol; device := device vol;
     ip_coh := ip_coh vol; dp_coh := dp_coh vol; ip_index_file_end := ip_index_file_end vol;
     dp_index_file_end := dp_index_file_end vol; rollback_mount := rollback_mount vol;
     reval := r; last_pos := last_pos vol; last_size := last_size vol;
     last_block := last_block vol |}.

Definition set_cache (pos : tape_offset) (size : Z) (blk : option (list Z)) (vol : ltfs_volume D)
    : ltfs_volume D :=
  {| vol_creator := vol_creator vol; label := label vol; index := index vol; device := device vol;
     ip_coh := ip_coh vol; dp_coh := dp_coh vol; ip_index_file_end := ip_index_file_end vol;
     dp_index_file_end := dp_index_file_end vol; rollback_mount := rollback_mount vol;
     reval := reval vol; last_pos := pos; last_size := size; last_block := blk |}.

Definition ltfs_dp_id (vol : ltfs_volume D) : Z := partid_dp (label vol).
Definition ltfs_ip_id (vol : ltfs_volume D) : Z := partid_ip (label vol).

(** [(tape_partition_t)-1] for an unknown id. *)
Definition ltfs_part_id2num (id : Z) (vol : ltfs_volume D) : Z :=
  if (part_num2id (label vol)).1 =? id then 0
  else if (part_num2id (label vol)).2 =? id then 1
  else u32 (- 1).

Definition ltfs_set_partition_map (dp ip dp_num ip_num : Z) (vol : ltfs_volume D)
    : Z * ltfs_volume D :=
  if (dp_num =? ip_num) || (negb (dp_num =? 0) && negb (dp_num =? 1))
     || (negb (ip_num =? 0) && negb (ip_num =? 1)) then (- LTFS_BAD_PARTNUM, vol)
  else if (dp <? 97) || (dp >? 122) || (ip <? 97) || (ip >? 122) || (dp =? ip)
  then (- LTFS_BAD_PARTNUM, vol)
  else
    let lbl := set_partition_ids (this_partition (label vol)) dp ip
                 (upd ip_num ip (upd dp_num dp (part_num2id (label vol)))) (label vol) in
    (0, {| vol_creator := vol_creator vol; label := lbl; index := index vol; device := device vol;
           ip_coh := ip_coh vol; dp_coh := dp_coh vol; ip_index_file_end := ip_index_file_end vol;
           dp_index_file_end := dp_index_file_end vol; rollback_mount := rollback_mount vol;
           reval := reval vol; last_pos := last_pos vol; last_size := last_size vol;
           last_block := last_block vol |}).

Definition ltfs_is_dirty (vol : ltfs_volume D) : bool :=
  dirty (index vol) || (use_atime (index vol) && atime_dirty (index vol)).

(** ** Read-only state *)

Definition ltfs_get_partition_readonly (partition : Z) (vol : ltfs_volume D) : Z :=
  if negb (partition =? ltfs_dp_id vol) && negb (partition =? ltfs_ip_id vol) then - LTFS_BAD_PARTNUM
  else tape_read_only (ltfs_part_id2num partition vol) (device vol).

Definition ltfs_get_tape_readonly (vol : ltfs_volume D) : Z :=
  let ret := tape_read_only (ltfs_part_id2num (ltfs_ip_id vol) vol) (device vol) in
  if (ret =? 0) || (ret =? - LTFS_LESS_SPACE)
  then tape_read_only (ltfs_part_id2num (ltfs_dp_id vol) vol) (device vol)
  else ret.

(** ** XML output to tape *)

(** [struct xml_output_tape]: [buf] holds the [buf_used] bytes that wait. *)
Record xml_output_tape := { out_buf : list Z; out_buf_size : Z; out_device : device_data D }.

(** The [do] loop of the write callback: [rest] is what is left of the input, and
    the buffer has [out_buf_size - buf_used] bytes of room.  Each turn after the
    first consumes a whole block, so the length of the input is fuel enough. *)
Fixpoint write_blocks (fuel : nat) (rest : list Z) (ctx : xml_output_tape)
    : Z * list Z * xml_output_tape :=
  match fuel with
  | O => (0, rest, ctx)
  | S fuel' =>
      let copy_count := out_buf_size ctx - Z.of_nat (length (out_buf ctx)) in
      let full := out_buf ctx ++ take (Z.to_nat copy_count) rest in
      let '(ret, dev) := tape_write ops full true true (out_device ctx) in
      if ret <? 0
      then (-1, rest, {| out_buf := full; out_buf_size := out_buf_size ctx; out_device := dev |})
      else
        let ctx' := {| out_buf := []; out_buf_size := out_buf_size ctx; out_device := dev |} in
        let rest' := drop (Z.to_nat copy_count) rest in
        if Z.of_nat (length rest') >? out_buf_size ctx then write_blocks fuel' rest' ctx'
        else (0, rest', ctx')
  end.

Definition xml_output_tape_write_callback (buffer : list Z) (ctx : xml_output_tape)
    : Z * xml_output_tape :=
  let len := Z.of_nat (length buffer) in
  if len =? 0 then (0, ctx)
  else if Z.of_nat (length (out_buf ctx)) + len <? out_buf_size ctx then
    (len, {| out_buf := out_buf ctx ++ buffer; out_buf_size := out_buf_size ctx;
             out_device := out_device ctx |})
  else
    let '(ret, rest, ctx') := write_blocks (S (length buffer)) buffer ctx in
    if ret <? 0 then (-1, ctx')
    else (len, {| out_buf := rest; out_buf_size := out_buf_size ctx'; out_device := out_device ctx' |}).

Definition xml_output_tape_close_callback (ctx : xml_output_tape) : Z * device_data D :=
  let '(ret, dev) :=
    if Z.of_nat (length (out_buf ctx)) >? 0 then tape_write ops (out_buf ctx) true true (out_device ctx)
    else (0, out_device ctx) in
  (if ret <? 0 then -1 else 0, dev).

(** libxml2 hands its buffers to the callback until it fails. *)
Fixpoint write_chunks (chunks : list (list Z)) (ctx : xml_output_tape) : bool * xml_output_tape :=
  match chunks with
  | [] => (true, ctx)
  | c :: chunks' =>
      let '(ret, ctx') := xml_output_tape_write_callback c ctx in
      if ret <? 0 then (false, ctx') else write_chunks chunks' ctx'
  end.

Context (xml : xml_lib).

Definition dash : list Z := cstr " - ".

(** The allocations succeed.  Freeing the writer flushes the remaining buffers,
    unless the output has already failed, and closes the output; what that returns
    is not looked at. *)
Definition xml_schema_to_tape (reason : list Z) (vol : ltfs_volume D) : Z * ltfs_volume D :=
  let ctx := {| out_buf := []; out_buf_size := blocksize (label vol); out_device := device vol |} in
  let creator := vol_creator vol ++ dash ++ reason in
  let '(ok, ctx1) := write_chunks (schema_chunks xml creator (index vol)) ctx in
  let ret := schema_result xml creator (index vol) ok in
  let ctx2 := if ok then (write_chunks (final_chunks xml creator (index vol)) ctx1).2 else ctx1 in
  let '(_, dev) := xml_output_tape_close_callback ctx2 in
  (ret, set_index (set_creator (vol_creator vol) (index vol)) (set_device dev vol)).

(** ** Coherency *)

(** The 37-byte field after [strcpy]: what lies behind the NUL stays. *)
Definition strcpy_uuid (dst src : list Z) : list Z :=
  let s := src ++ [0] in s ++ drop (length s) dst.

Definition updated_coh (gen vcr : Z) (self : tape_offset) (is_self : bool) (uuid_src : list Z)
    (coh : tc_coherency) : tc_coherency :=
  {| volume_change_ref := vcr;
     count := if is_self then gen else count coh;
     set_id := if is_self then off_block self else set_id coh;
     uuid := if default 0 (head (uuid coh)) =? 0 then strcpy_uuid (uuid coh) uuid_src else uuid coh;
     version := 1 |}.

Definition ltfs_update_cart_coherency (junk : list Z) (vol : ltfs_volume D) : Z * ltfs_volume D :=
  let '(_, current_vcr) := tape_get_volume_change_reference ops junk (device vol) in
  if (current_vcr =? 0) || (current_vcr =? 0xffffffffffffffff) then (0, vol)
  else
    let idx := index vol in
    let vol1 :=
      if ip_index_file_end vol then
        let coh := updated_coh (generation idx) current_vcr (selfptr idx)
                     (off_partition (selfptr idx) =? ltfs_ip_id vol) (vol_uuid (label vol)) (ip_coh vol) in
        let '(_, dev) := tape_set_cart_coherency ops (ltfs_part_id2num (ltfs_ip_id vol) vol) coh (device vol) in
        set_coherency coh (dp_coh vol) (set_device dev vol)
      else vol in
    let vol2 :=
      if dp_index_file_end vol1 then
        let coh := updated_coh (generation idx) current_vcr (selfptr idx)
                     (off_partition (selfptr idx) =? ltfs_dp_id vol) (vol_uuid (label vol)) (dp_coh vol1) in
        let '(_, dev) := tape_set_cart_coherency ops (ltfs_part_id2num (ltfs_dp_id vol) vol) coh (device vol1) in
        set_coherency (ip_coh vol1) coh (set_device dev vol1)
      else vol1 in
    (0, vol2).

(** ** Writing the index *)

(** The backend's [update_mam_attr], as [tape_update_mam_attributes] calls it for
    the format version.  The attribute is then read back into [vol->mam_attr], which
    is not part of [volume]: only extended attributes report it.  Below, [now] is what [get_current_timespec] reports, and
    [junk] what the stack holds when an attribute is read. *)
Context (update_mam_attr : D -> Z * D).

Definition tape_update_mam_attributes (dev : device_data D) : Z * device_data D :=
  let '(ret, d') := update_mam_attr (backend_data dev) in (ret, set_backend (position dev) d' dev).

Definition SYNC_FORMAT : list Z := cstr "Format".
Definition SYNC_CASCHE_PRESSURE : list Z := cstr "Cache Pressure".

(** The rollback of the error paths. *)
Definition roll_back (generation_inc : bool) (modtime_old : Z * Z) (self back : tape_offset)
    (vol : ltfs_volume D) : ltfs_volume D :=
  let idx := set_pointers self back (index vol) in
  set_index (if generation_inc then set_generation (u32 (generation idx - 1)) modtime_old idx
             else idx) vol.

(** The part of [ltfs_write_index] that writes the index of this partition begins with
    the new generation and pointers, the append position and the file mark in front of
    the document. *)
Definition open_index (now : Z * Z) (partition : Z) (vol : ltfs_volume D) : Z * ltfs_volume D :=
  let pnum := ltfs_part_id2num partition vol in
  let is_ip := partition =? ltfs_ip_id vol in
  let old_selfptr := selfptr (index vol) in
  let old_backptr := backptr (index vol) in
  (* update index generation *)
  let vol := if ltfs_is_dirty vol
             then set_index (set_generation (u32 (generation (index vol) + 1)) now (index vol)) vol
             else vol in
  (* locate to append position *)
  let '(ret, dev) := tape_seek_append_position ops pnum (partition =? partid_ip (label vol)) (device vol) in
  let vol := set_device dev vol in
  if ret <? 0 then (ret, vol)
  else
  (* update back pointer and self pointer *)
  let new_backptr := if off_partition old_selfptr =? ltfs_dp_id vol then old_selfptr else old_backptr in
  let physical := position (device vol) in
  let new_selfptr := {| off_partition := sel (TapeOps.partition physical) (part_num2id (label vol));
                        off_block := u64 (TapeOps.block physical + 1) |} in
  let vol := set_index (set_pointers new_selfptr new_backptr (index vol)) vol in
  (* Write the Index. *)
  let '(ret, dev) := if is_ip && negb (ip_index_file_end vol)
                     then tape_write_filemark ops 0 true true false (device vol)
                     else (0, device vol) in
  let vol := set_device dev vol in
  if ret <? 0 then (ret, vol)
  else
  let '(ret, dev) := tape_write_filemark ops 1 true true true (device vol) in
  (ret, set_device dev vol).

(** [ltfs_write_index] behind the check and the nested call.  As in every OEM build, the
    last file mark is followed by a flush. *)
Definition write_index_here (now : Z * Z) (junk : list Z) (partition : Z) (reason : list Z)
    (vol : ltfs_volume D) : Z * ltfs_volume D :=
  let pnum := ltfs_part_id2num partition vol in
  let is_ip := partition =? ltfs_ip_id vol in
  let modtime_old := if ltfs_is_dirty vol then mod_time (index vol) else (0, 0) in
  let generation_inc := ltfs_is_dirty vol in
  let old_selfptr := selfptr (index vol) in
  let old_backptr := backptr (index vol) in
  let '(ret, vol) := open_index now partition vol in
  if ret <? 0 then (ret, roll_back generation_inc modtime_old old_selfptr old_backptr vol)
  else
  let '(ret, vol) := xml_schema_to_tape reason vol in
  if ret <? 0 then (ret, roll_back generation_inc modtime_old old_selfptr old_backptr vol)
  else
  let immed := bool_decide (reason = SYNC_FORMAT) in
  let '(ret, dev) := tape_write_filemark ops 1 true true immed (device vol) in
  let vol := set_device dev vol in
  let '(ret, dev) := if ret =? 0 then tape_write_filemark ops 0 true true immed (device vol)
                     else (ret, device vol) in
  let vol := set_device dev vol in
  if ret <? 0 then (ret, roll_back generation_inc modtime_old old_selfptr old_backptr vol)
  else
  (* Update MAM parameters; failures are ignored. *)
  let vol := set_file_end (is_ip || ip_index_file_end vol) (negb is_ip || dp_index_file_end vol) vol in
  let '(_, vol) := ltfs_update_cart_coherency junk vol in
  let '(_, dev) := tape_update_mam_attributes (device vol) in
  let vol := set_device dev vol in
  (* update append position *)
  let vol := if is_ip
             then set_device (tape_set_append_position pnum
                    (u64 (off_block (selfptr (index vol)) - 1)) (device vol)).2 vol
             else vol in
  (0, set_index (ltfs_unset_index_dirty true (index vol)) vol).

(** The index partition's index is preceded by one on the data partition where
    that one is missing or out of date.  The nested call does not nest again, as
    long as the two partitions have different ids; two levels are enough, and
    [None] is the infinite recursion of a label where they are equal. *)
Fixpoint ltfs_write_index (fuel : nat) (now : Z * Z) (junk : list Z) (partition : Z)
    (reason : list Z) (vol : ltfs_volume D) : option (Z * ltfs_volume D) :=
  match fuel with
  | O => None
  | S fuel' =>
      let ret := ltfs_get_partition_readonly (ltfs_ip_id vol) vol in
      let ret := if (ret =? 0) || (ret =? - LTFS_NO_SPACE) || (ret =? - LTFS_LESS_SPACE)
                 then ltfs_get_partition_readonly (ltfs_dp_id vol) vol else ret in
      if (ret <? 0) && negb (ret =? - LTFS_NO_SPACE) && negb (ret =? - LTFS_LESS_SPACE)
      then Some (ret, vol)
      else if (partition =? ltfs_ip_id vol)
              && (negb (dp_index_file_end vol)
                  || (ip_index_file_end vol
                      && (off_partition (selfptr (index vol)) =? ltfs_ip_id vol)))
      then
        match ltfs_write_index fuel' now junk (ltfs_dp_id vol) reason vol with
        | None => None
        | Some (ret, vol) =>
            if NEED_REVAL ret then Some (ret, vol)
            else if IS_UNEXPECTED_MOVE ret then Some (ret, set_reval (- LTFS_REVAL_FAILED) vol)
            else Some (write_index_here now junk partition reason vol)
        end
      else Some (write_index_here now junk partition reason vol)
  end.

Definition ltfs_write_index_conditional (now : Z * Z) (junk : list Z) (partition : Z)
    (vol : ltfs_volume D) : option (Z * ltfs_volume D) :=
  if (partition =? ltfs_ip_id vol) && negb (ip_index_file_end vol)
  then ltfs_write_index 2 now junk partition SYNC_CASCHE_PRESSURE vol
  else if (partition =? ltfs_dp_id vol)
          && (negb (dp_index_file_end vol)
              || (ip_index_file_end vol
                  && (off_partition (selfptr (index vol)) =? ltfs_ip_id vol)))
  then ltfs_write_index 2 now junk partition SYNC_CASCHE_PRESSURE vol
  else Some (0, vol).

End volume.

Arguments out_buf {_}. Arguments out_buf_size {_}. Arguments out_device {_}.
