(* ===== verification/VolumeSpec.v ===== *)
(** * What writing an index does

    The writer cuts the serialized index into blocks; an index that [ltfs_write_index]
    reports as written is on the tape between two file marks, where the self pointer
    says, unless its document was lost; one that could not be written leaves
    generation and pointers as they were.

    A document is lost ([document_lost]) when a write of it fails and leaves the
    device writable, which is what a reset of the drive does, and the failure comes
    in the part of the output whose result [xml_schema_to_tape] does not look at: the
    callback that closes the output.  [ltfs_write_index] then reports success over a
    truncated index ([VolumeOnFile.truncated_index]).  On a drive that never asks for
    a revalidation after a write no document is lost ([document_not_lost]). *)

From S2P Require Import Prelude Errors TapeOps TapeDev TapeDevSpec Append Coherency Extents Volume.
Open Scope Z_scope.

Section spec.
Context {D : Type} (ops : tape_ops D) {tape_at : D -> medium -> tc_position -> Prop}.
Context `{!TapeOk ops tape_at}.
Implicit Types (dev : device_data D) (vol : ltfs_volume D).
Abbreviation dev_at := (dev_at (tape_at := tape_at)).
Abbreviation appended := (appended (tape_at := tape_at)).

(** ** The XML writer *)

(** The output holds [data]: whole blocks on the tape behind the records [r0], the
    rest in the buffer. *)
Definition out_holds (m : medium) (p b : Z) (ao : Z * Z) (r0 : list tape_record) (bs : Z) (data : list Z)
    (ctx : xml_output_tape (D := D)) : Prop :=
  exists blocks, Forall (fun k => Z.of_nat (length k) = bs) blocks
  /\ appended m p b ao (r0 ++ (Data <$> blocks)) (out_device ctx)
  /\ concat blocks ++ out_buf ctx = data /\ Z.of_nat (length (out_buf ctx)) <= bs
  /\ out_buf_size ctx = bs /\ bs <= max_block_size (out_device ctx).

Lemma tape_write_max_block_size buf il ins dev :
  max_block_size (tape_write ops buf il ins dev).2 = max_block_size dev.
Proof.
  unfold tape_write. destruct (_ <? 0); [done|].
  destruct (op_write ops buf (position dev) (backend_data dev)) as [[rc pos] d].
  destruct (rc <? 0); [by destruct (NEED_REVAL rc)|].
  unfold tape_set_ewstate. destruct (early_warning _).
  - by destruct (op_write_attribute ops _ _ _).
  - by destruct (programmable_early_warning _).
Qed.

Lemma tape_write_filemark_max_block_size n il ins immed dev :
  max_block_size (tape_write_filemark ops n il ins immed dev).2 = max_block_size dev.
Proof.
  unfold tape_write_filemark. destruct (_ <? 0); [done|].
  destruct (op_writefm ops n immed (position dev) (backend_data dev)) as [[rc pos] d].
  destruct (rc <? 0); [by destruct (NEED_REVAL rc)|].
  cbv zeta. repeat case_match; simplify_eq; done.
Qed.

Lemma note_space_max_block_size dev : max_block_size (note_space dev) = max_block_size dev.
Proof. unfold note_space. repeat case_match; done. Qed.

Lemma tape_seek_max_block_size pos dev : max_block_size (tape_seek ops pos dev).2 = max_block_size dev.
Proof.
  unfold tape_seek. destruct ((partition pos =? _) && _); [by case_match|].
  destruct (op_locate ops pos (position dev) (backend_data dev)) as [[rc p] d].
  destruct (rc <? 0).
  - by case_match.
  - case_match; exact (note_space_max_block_size (set_backend p d dev)).
Qed.

Lemma tape_seek_append_max_block_size prt unlock dev :
  max_block_size (tape_seek_append_position ops prt unlock dev).2 = max_block_size dev.
Proof.
  unfold tape_seek_append_position. set (b := if _ : bool then _ else _).
  pose proof (tape_seek_max_block_size (seek_pos prt b) dev) as H.
  destruct (tape_seek ops (seek_pos prt b) dev) as [rc dev1]. cbn in H.
  destruct (rc <? 0); [done|].
  repeat case_match; simplify_eq; done.
Qed.

Section writer.
Context (m : medium) (p b : Z) (ao : Z * Z) (r0 : list tape_record) (bs : Z).
Hypothesis bs_range : 0 < bs < 2 ^ 31.

(** One full block goes out. *)
Lemma write_full_block data ctx rest rc dev :
  out_holds m p b ao r0 bs data ctx ->
  Z.of_nat (length (out_buf ctx ++ rest)) = bs ->
  b + Z.of_nat (length r0) + Z.of_nat (length (data ++ rest)) < 2 ^ 63 ->
  tape_write ops (out_buf ctx ++ rest) true true (out_device ctx) = (rc, dev) ->
  0 <= rc ->
  out_holds m p b ao r0 bs (data ++ rest) {| out_buf := []; out_buf_size := out_buf_size ctx; out_device := dev |}.
Proof.
  intros (blocks & Hbl & Hap & Hdata & Hle & Hsz & Hmx) Hlen Hmax Hw Hpos.
  pose proof (length_concat_blocks bs blocks ltac:(lia) Hbl) as Hc.
  assert (Hn : Z.of_nat (length blocks) < Z.of_nat (length (data ++ rest))).
  { rewrite <- Hdata, <- app_assoc, length_app. nia. }
  destruct (appended_data ops m p b ao (r0 ++ (Data <$> blocks)) (out_device ctx) (out_buf ctx ++ rest) true true rc dev
    Hap ltac:(lia) ltac:(rewrite length_app, length_fmap; lia) Hw Hpos) as [Hap' Hmx'].
  exists (blocks ++ [out_buf ctx ++ rest]). split; [|split; [|split; [|split; [|split]]]]; cbn.
  - by apply Forall_app; split; [|constructor].
  - by rewrite fmap_app, app_assoc.
  - rewrite concat_app. cbn. by rewrite !app_nil_r, <- Hdata, app_assoc.
  - lia.
  - done.
  - by rewrite Hmx'.
Qed.

Lemma write_blocks_ok fuel rest ctx data ret rest' ctx' :
  out_holds m p b ao r0 bs data ctx ->
  (length rest <= fuel)%nat -> out_buf ctx = [] \/ (length rest < fuel)%nat ->
  bs <= Z.of_nat (length (out_buf ctx ++ rest)) ->
  b + Z.of_nat (length r0) + Z.of_nat (length (data ++ rest)) < 2 ^ 63 ->
  write_blocks ops fuel rest ctx = (ret, rest', ctx') ->
  0 <= ret ->
  exists front, rest = front ++ rest' /\ out_holds m p b ao r0 bs (data ++ front) ctx'
       /\ out_buf ctx' = [] /\ Z.of_nat (length rest') <= bs.
Proof.
  revert rest ctx data. induction fuel as [|fuel IH]; intros rest ctx data Hh Hf1 Hf2 Hfull Hmax Hrun Hret.
  { exfalso. rewrite length_app in Hfull. destruct Hf2 as [E|]; [rewrite E in Hfull; cbn in Hfull|]; lia. }
  pose proof Hh as (_ & _ & _ & _ & Hle & Hsz & _). cbn [write_blocks] in Hrun. rewrite Hsz in Hrun.
  rewrite length_app in Hfull.
  set (k := Z.to_nat (bs - Z.of_nat (length (out_buf ctx)))) in *.
  assert (Hk : (k <= length rest)%nat) by lia.
  destruct (tape_write ops (out_buf ctx ++ take k rest) true true (out_device ctx)) as [rc dev] eqn:Hw.
  assert (Hsplit : rest = take k rest ++ drop k rest) by (symmetry; apply take_drop).
  pose proof (write_full_block data ctx (take k rest) rc dev Hh) as Hone.
  rewrite length_app, length_take in Hone. specialize (Hone ltac:(lia)).
  assert (Hm1 : b + Z.of_nat (length r0) + Z.of_nat (length (data ++ take k rest)) < 2 ^ 63)
    by (rewrite length_app in Hmax |- *; rewrite length_take; lia).
  specialize (Hone Hm1 Hw).
  destruct (rc <? 0) eqn:Hrc; [injection Hrun as <- _ <-; lia|]. bool_to_prop. specialize (Hone Hrc).
  rewrite Hsz in Hone.
  destruct (Z.of_nat (length (drop k rest)) >? bs) eqn:Hgt; bool_to_prop.
  - assert (Hlen : length (drop k rest) = (length rest - k)%nat) by apply length_drop.
    specialize (IH (drop k rest) _ (data ++ take k rest) Hone).
    cbn [out_buf out_buf_size] in *.
    assert (Hf : (length (drop k rest) <= fuel)%nat).
    { destruct Hf2 as [E|]; [|lia]. subst k. rewrite E in *. cbn in *. lia. }
    specialize (IH Hf (or_introl eq_refl) ltac:(cbn; lia)).
    rewrite <- app_assoc, <- Hsplit in IH. specialize (IH Hmax Hrun Hret). destruct IH as (front & E & H1 & H2 & H3).
    exists (take k rest ++ front). split; [by rewrite <- app_assoc, <- E|]. by rewrite app_assoc.
  - injection Hrun as <- <- <-.
    exists (take k rest). done.
Qed.

Lemma write_callback_ok buffer ctx data ret ctx' :
  out_holds m p b ao r0 bs data ctx ->
  b + Z.of_nat (length r0) + Z.of_nat (length (data ++ buffer)) < 2 ^ 63 ->
  xml_output_tape_write_callback ops buffer ctx = (ret, ctx') ->
  0 <= ret -> out_holds m p b ao r0 bs (data ++ buffer) ctx'.
Proof.
  intros Hh Hmax Hrun Hret. unfold xml_output_tape_write_callback in Hrun.
  destruct (Z.of_nat (length buffer) =? 0) eqn:H0; bool_to_prop.
  { injection Hrun as <- <-. destruct buffer; [|cbn in H0; lia]. by rewrite app_nil_r. }
  pose proof Hh as (blocks & Hbl & Hap & Hdata & Hle & Hsz & Hmx).
  destruct (Z.of_nat (length (out_buf ctx)) + Z.of_nat (length buffer) <? out_buf_size ctx) eqn:Hfit.
  { injection Hrun as <- <-. bool_to_prop.
    exists blocks. cbn. rewrite length_app, <- Hdata, app_assoc.
    split; [done|]. split; [done|]. split; [done|]. split; [lia|done]. }
  bool_to_prop.
  destruct (write_blocks ops (S (length buffer)) buffer ctx) as [[r rest] c] eqn:Hwb.
  pose proof (write_blocks_ok (S (length buffer)) buffer ctx data r rest c Hh ltac:(lia) ltac:(right; lia)
    ltac:(rewrite length_app; lia) Hmax Hwb) as Hok.
  destruct (r <? 0) eqn:Hr0; [injection Hrun as <- _; lia|]. bool_to_prop.
  injection Hrun as <- <-. destruct (Hok Hr0) as (front & -> & (bl & H1 & H2 & H3 & H4 & H5 & H6) & Hnil & Hr).
  exists bl. cbn. rewrite Hnil, app_nil_r in H3. rewrite H3, app_assoc.
  split; [done|]. split; [done|]. split; [done|]. split; [lia|done].
Qed.

Lemma write_chunks_ok chunks ctx data ok ctx' :
  out_holds m p b ao r0 bs data ctx ->
  b + Z.of_nat (length r0) + Z.of_nat (length (data ++ concat chunks)) < 2 ^ 63 ->
  write_chunks ops chunks ctx = (ok, ctx') ->
  ok = true -> out_holds m p b ao r0 bs (data ++ concat chunks) ctx'.
Proof.
  revert ctx data. induction chunks as [|c chunks IH]; intros ctx data Hh Hmax Hrun Hok; cbn in Hrun.
  { injection Hrun as <- <-. cbn. by rewrite app_nil_r. }
  destruct (xml_output_tape_write_callback ops c ctx) as [ret ctx1] eqn:Hw.
  assert (Hm1 : b + Z.of_nat (length r0) + Z.of_nat (length (data ++ c)) < 2 ^ 63)
    by (cbn in Hmax; rewrite !length_app in *; lia).
  pose proof (write_callback_ok c ctx data ret ctx1 Hh Hm1 Hw) as Hc.
  destruct (ret <? 0) eqn:Hret; [injection Hrun as <- _; done|]. bool_to_prop.
  cbn [concat] in *. rewrite app_assoc in *. by apply (IH ctx1); auto.
Qed.

Lemma close_callback_ok ctx data ret dev :
  out_holds m p b ao r0 bs data ctx ->
  b + Z.of_nat (length r0) + Z.of_nat (length data) < 2 ^ 63 ->
  xml_output_tape_close_callback ops ctx = (ret, dev) -> 0 <= ret ->
  exists blocks, blocks_of bs data blocks /\ appended m p b ao (r0 ++ (Data <$> blocks)) dev
    /\ bs <= max_block_size dev.
Proof.
  intros (blocks & Hbl & Hap & Hdata & Hle & Hsz & Hmx) Hmax Hrun Hret.
  unfold xml_output_tape_close_callback in Hrun.
  pose proof (length_concat_blocks bs blocks ltac:(lia) Hbl) as Hc.
  destruct (Z.of_nat (length (out_buf ctx)) >? 0) eqn:Hne; bool_to_prop.
  - destruct (tape_write ops (out_buf ctx) true true (out_device ctx)) as [rc dev1] eqn:Hw.
    injection Hrun as <- <-. destruct (rc <? 0) eqn:Hrc; [lia|]. bool_to_prop.
    assert (Hb : b + Z.of_nat (length (r0 ++ (Data <$> blocks))) + 1 < 2 ^ 63).
    { rewrite length_app, length_fmap. rewrite <- Hdata, length_app in Hmax. nia. }
    destruct (appended_data ops m p b ao (r0 ++ (Data <$> blocks)) (out_device ctx) (out_buf ctx) true true rc dev1
      Hap ltac:(lia) Hb Hw Hrc) as [Hap' Hmx'].
    exists (blocks ++ [out_buf ctx]). split; [split|split].
    + rewrite concat_app. cbn. by rewrite app_nil_r.
    + exists blocks, [out_buf ctx]. split; [done|]. split; [done|]. right. exists (out_buf ctx). split; [done|lia].
    + by rewrite fmap_app, app_assoc.
    + lia.
  - injection Hrun as _ <-. exists blocks.
    destruct (out_buf ctx); [|cbn in Hne; lia]. rewrite app_nil_r in Hdata.
    split; [|done]. split; [done|]. exists blocks, []. rewrite app_nil_r. split; [done|]. split; [done|by left].
Qed.
End writer.

(** ** The index *)

Context (xml : xml_lib) (update_mam_attr : D -> Z * D).
Hypothesis update_mam_attr_ok : forall d m pos, tape_at d m pos -> tape_at (update_mam_attr d).2 m pos.

(** The document of an index. *)
Definition index_bytes (reason : list Z) vol (idx : ltfs_index) : list Z :=
  concat (schema_chunks xml (vol_creator vol ++ dash ++ reason) idx)
  ++ concat (final_chunks xml (vol_creator vol ++ dash ++ reason) idx).

(** Everything the index writer leaves alone. *)
Definition same_volume vol vol' : Prop :=
  label vol' = label vol /\ vol_creator vol' = vol_creator vol
  /\ ip_index_file_end vol' = ip_index_file_end vol /\ dp_index_file_end vol' = dp_index_file_end vol.

(** The output of the document as [xml_schema_to_tape] makes it: whether every write
    succeeded, and the device. *)
Definition document_output (reason : list Z) vol : bool * device_data D :=
  let creator := vol_creator vol ++ dash ++ reason in
  let '(ok, ctx1) := write_chunks ops (schema_chunks xml creator (index vol))
    {| out_buf := []; out_buf_size := blocksize (label vol); out_device := device vol |} in
  let '(ok2, ctx2) := if ok then write_chunks ops (final_chunks xml creator (index vol)) ctx1 else (false, ctx1) in
  let '(ret, dev) := xml_output_tape_close_callback ops ctx2 in
  (ok && ok2 && (0 <=? ret), dev).

(** A write failed and the device takes further ones: the drive has asked for a
    revalidation, as after a reset, and nobody carries it out. *)
Definition output_lost (reason : list Z) vol : bool :=
  let '(complete, dev) := document_output reason vol in negb complete && negb (read_only dev).

Lemma xml_schema_to_tape_ok m p b ao r0 reason vol ret vol' :
  0 < blocksize (label vol) < 2 ^ 31 -> blocksize (label vol) <= max_block_size (device vol) ->
  appended m p b ao r0 (device vol) ->
  b + Z.of_nat (length r0) + Z.of_nat (length (index_bytes reason vol (index vol))) < 2 ^ 63 ->
  xml_schema_to_tape ops xml reason vol = (ret, vol') -> output_lost reason vol = false ->
  same_volume vol vol' /\ index vol' = set_creator (vol_creator vol) (index vol) /\
  (read_only (device vol') = true \/
   exists blocks, blocks_of (blocksize (label vol)) (index_bytes reason vol (index vol)) blocks
     /\ appended m p b ao (r0 ++ (Data <$> blocks)) (device vol')).
Proof.
  intros Hbs Hmx Hap Hmax Hrun Hlost. unfold xml_schema_to_tape in Hrun. unfold output_lost, document_output in Hlost.
  unfold index_bytes in *.
  set (creator := vol_creator vol ++ dash ++ reason) in *.
  set (ctx := {| out_buf := []; out_buf_size := blocksize (label vol); out_device := device vol |}) in *.
  assert (Hh : out_holds m p b ao r0 (blocksize (label vol)) [] ctx).
  { exists []. split; [done|]. cbn. rewrite app_nil_r. split; [done|]. split; [done|]. split; [lia|done]. }
  destruct (write_chunks ops (schema_chunks xml creator (index vol)) ctx) as [ok ctx1] eqn:H1.
  rewrite length_app in Hmax.
  pose proof (write_chunks_ok m p b ao r0 _ Hbs (schema_chunks xml creator (index vol)) ctx [] ok ctx1 Hh
    ltac:(cbn [app]; lia) H1) as Hok1. cbn [app] in Hok1.
  set (x2 := if ok then write_chunks ops (final_chunks xml creator (index vol)) ctx1 else (false, ctx1)) in *.
  assert (E2 : (if ok then (write_chunks ops (final_chunks xml creator (index vol)) ctx1).2 else ctx1) = x2.2)
    by (unfold x2; by destruct ok).
  rewrite E2 in Hrun. destruct x2 as [ok2 ctx2] eqn:H2. cbn [snd] in Hrun.
  destruct (xml_output_tape_close_callback ops ctx2) as [rc dev] eqn:H3.
  injection Hrun as _ <-. split; [done|]. split; [done|]. cbn [device set_index set_device].
  destruct (read_only dev) eqn:Hro; [by left|right]. rewrite andb_true_r in Hlost.
  apply negb_false_iff, andb_prop in Hlost as [Hoks Hrc]. apply andb_prop in Hoks as [-> ->]. bool_to_prop.
  unfold x2 in H2.
  pose proof (write_chunks_ok m p b ao r0 _ Hbs (final_chunks xml creator (index vol)) ctx1
    (concat (schema_chunks xml creator (index vol))) true ctx2 (Hok1 eq_refl) ltac:(rewrite length_app; lia) H2 eq_refl) as Hok2.
  destruct (close_callback_ok m p b ao r0 _ Hbs ctx2
    (concat (schema_chunks xml creator (index vol)) ++ concat (final_chunks xml creator (index vol))) rc dev Hok2
    ltac:(rewrite length_app; lia) H3 Hrc) as (blocks & Hb & Ha & _). by exists blocks.
Qed.

Lemma set_cart_coherency_at part coh dev m :
  dev_at dev m -> dev_at (tape_set_cart_coherency ops part coh dev).2 m.
Proof.
  intros Hat. unfold tape_set_cart_coherency, TapeDevSpec.dev_at in *.
  destruct (op_write_attribute ops part _ _) as [rc d'] eqn:Hw. by eapply write_attribute_ok.
Qed.

(** The coherency update is about cartridge memory only. *)
Lemma update_cart_coherency_frame junk vol m :
  dev_at (device vol) m ->
  let vol' := (ltfs_update_cart_coherency ops junk vol).2 in
  dev_at (device vol') m /\ index vol' = index vol /\ same_volume vol vol'
  /\ position (device vol') = position (device vol) /\ append_pos (device vol') = append_pos (device vol)
  /\ max_block_size (device vol') = max_block_size (device vol).
Proof.
  intros Hat vol'. subst vol'. unfold ltfs_update_cart_coherency.
  destruct (tape_get_volume_change_reference ops junk (device vol)) as [r vcr].
  destruct ((vcr =? 0) || (vcr =? _)); [done|]. cbn [snd].
  assert (Hstep : forall p coh dev, position (tape_set_cart_coherency ops p coh dev).2 = position dev
            /\ append_pos (tape_set_cart_coherency ops p coh dev).2 = append_pos dev
            /\ max_block_size (tape_set_cart_coherency ops p coh dev).2 = max_block_size dev).
  { intros p coh dev. unfold tape_set_cart_coherency. by destruct (op_write_attribute ops _ _ _). }
  set (vol1 := if ip_index_file_end vol then _ else vol).
  assert (H1 : dev_at (device vol1) m /\ index vol1 = index vol /\ same_volume vol vol1
            /\ position (device vol1) = position (device vol)
            /\ append_pos (device vol1) = append_pos (device vol)
            /\ max_block_size (device vol1) = max_block_size (device vol)).
  { unfold vol1. destruct (ip_index_file_end vol) eqn:E; [|done].
    set (p := ltfs_part_id2num _ _). set (coh := updated_coh _ _ _ _ _ _).
    pose proof (set_cart_coherency_at p coh _ _ Hat). destruct (Hstep p coh (device vol)) as (? & ? & ?).
    destruct (tape_set_cart_coherency ops p coh (device vol)). cbn in *.
    by repeat (split; [done|]). }
  clearbody vol1. destruct H1 as (Hat1 & Hi1 & Hs1 & Hp1 & Ha1 & Hx1).
  destruct (dp_index_file_end vol1) eqn:E2; [|done].
  set (p2 := ltfs_part_id2num _ _). set (coh2 := updated_coh _ _ _ _ _ _).
  pose proof (set_cart_coherency_at p2 coh2 _ _ Hat1). destruct (Hstep p2 coh2 (device vol1)) as (Hpp & Haa & Hxx).
  destruct (tape_set_cart_coherency ops p2 coh2 (device vol1)). cbn in *.
  destruct Hs1 as (? & ? & ? & ?). split; [done|]. split; [done|]. split; [done|].
  by rewrite Hpp, Haa, Hxx.
Qed.

(** A label with its two partitions, and a block size the drive can take. *)
Record label_ok vol : Prop := {
  ids_differ : partid_dp (label vol) <> partid_ip (label vol);
  id_map : part_num2id (label vol) = (partid_dp (label vol), partid_ip (label vol))
        \/ part_num2id (label vol) = (partid_ip (label vol), partid_dp (label vol));
  blocksize_ok : 0 < blocksize (label vol) < 2 ^ 31;
  blocksize_fits : blocksize (label vol) <= max_block_size (device vol)
}.

Lemma part_id2num_ok vol id :
  label_ok vol -> id = ltfs_dp_id vol \/ id = ltfs_ip_id vol ->
  valid_part (ltfs_part_id2num id vol)
  /\ sel (ltfs_part_id2num id vol) (part_num2id (label vol)) = id.
Proof.
  intros [Hne Hmap _ _] Hid. unfold ltfs_part_id2num, ltfs_dp_id, ltfs_ip_id in *.
  destruct Hmap as [E|E]; rewrite E; cbn [fst snd]; destruct Hid as [->| ->];
    rewrite ?Z.eqb_refl, ?(proj2 (Z.eqb_neq _ _)) by congruence;
    (split; [by (left + right)|done]).
Qed.

(** The index as it is serialized: pointers and generation already updated. *)
Definition index_to_write (now : Z * Z) (partition b : Z) vol : ltfs_index :=
  let idx := index vol in
  let idx1 := if ltfs_is_dirty vol then set_generation (u32 (generation idx + 1)) now idx else idx in
  set_pointers {| off_partition := partition; off_block := u64 (b + 1) |}
    (if off_partition (selfptr idx) =? ltfs_dp_id vol then selfptr idx else backptr idx) idx1.

(** What a successful index write has done. *)
Definition index_written (now : Z * Z) (partition : Z) (reason : list Z) (m : medium) vol vol' : Prop :=
  let p := ltfs_part_id2num partition vol in
  let b := append_block m p (device vol) in
  let idx := index_to_write now partition b vol in
  exists blocks, blocks_of (blocksize (label vol)) (index_bytes reason vol idx) blocks
    /\ dev_at (device vol') (write_at p b (Filemark :: (Data <$> blocks) ++ [Filemark]) m)
    /\ index vol' = ltfs_unset_index_dirty true (set_creator (vol_creator vol) idx)
    /\ ip_index_file_end vol' = (partition =? ltfs_ip_id vol) || ip_index_file_end vol
    /\ dp_index_file_end vol' = negb (partition =? ltfs_ip_id vol) || dp_index_file_end vol
    /\ sel p (append_pos (device vol')) =
         (if partition =? ltfs_ip_id vol then b else b + 2 + Z.of_nat (length blocks))
    /\ label vol' = label vol /\ vol_creator vol' = vol_creator vol /\ b <= eod_at m p
    /\ sel (1 - p) (append_pos (device vol')) = sel (1 - p) (append_pos (device vol))
    /\ max_block_size (device vol') = max_block_size (device vol).

(** The file marks and the document, on a device that has been positioned. *)
Lemma write_index_records m p b ao reason vol flush ret1 dev1 ret2 dev2 ret3 vol3 immed ret4 dev4 ret5 dev5 :
  0 < blocksize (label vol) < 2 ^ 31 -> blocksize (label vol) <= max_block_size (device vol) ->
  appended m p b ao [] (device vol) ->
  b + Z.of_nat (length (index_bytes reason vol (index vol))) + 3 < 2 ^ 63 ->
  (if (flush : bool) then tape_write_filemark ops 0 true true false (device vol)
   else (0, device vol)) = (ret1, dev1) -> 0 <= ret1 ->
  tape_write_filemark ops 1 true true true dev1 = (ret2, dev2) -> 0 <= ret2 ->
  xml_schema_to_tape ops xml reason (set_device dev2 vol) = (ret3, vol3) ->
  tape_write_filemark ops 1 true true immed (device vol3) = (ret4, dev4) ->
  (if ret4 =? 0 then tape_write_filemark ops 0 true true immed dev4 else (ret4, dev4)) = (ret5, dev5) ->
  0 <= ret5 -> output_lost reason (set_device dev2 vol) = false ->
  exists blocks, blocks_of (blocksize (label vol)) (index_bytes reason vol (index vol)) blocks
    /\ appended m p b ao (Filemark :: (Data <$> blocks) ++ [Filemark]) dev5
    /\ sel p (append_pos dev5) = b + 2 + Z.of_nat (length blocks)
    /\ same_volume vol vol3 /\ index vol3 = set_creator (vol_creator vol) (index vol).
Proof.
  intros Hbs Hmx Hap Hmax H1 Hr1 H2 Hr2 H3 H4 H5 Hr5 Hlost.
  assert (Hap1 : appended m p b ao [] dev1 /\ max_block_size dev1 = max_block_size (device vol)).
  { destruct flush; [|by injection H1 as _ <-].
    destruct (appended_filemark ops m p b ao [] _ 0 false _ _ Hap ltac:(lia) ltac:(cbn; lia) H1 Hr1)
      as (_ & Ha & Hm & _). done. }
  destruct Hap1 as [Hap1 Hm1].
  destruct (appended_filemark ops m p b ao [] _ 1 true _ _ Hap1 ltac:(lia) ltac:(cbn; lia) H2 Hr2)
    as (_ & Hap2 & Hm2 & _). cbn in Hap2.
  assert (Hmax3 : b + Z.of_nat (length [Filemark])
      + Z.of_nat (length (index_bytes reason (set_device dev2 vol) (index (set_device dev2 vol)))) < 2 ^ 63).
  { change (index_bytes reason (set_device dev2 vol) (index (set_device dev2 vol)))
      with (index_bytes reason vol (index vol)). cbn [length]. lia. }
  destruct (xml_schema_to_tape_ok m p b ao [Filemark] reason (set_device dev2 vol) ret3 vol3)
    as (Hs3 & Hi3 & Hx); [done|cbn [label device set_device]; lia|done|exact Hmax3|done|exact Hlost|].
  destruct Hx as [Hro|(blocks & Hb & Hap3)].
  { exfalso. destruct (tape_write_filemark_read_only ops (device vol3) 1 immed Hro) as (e & He & E).
    rewrite E in H4. injection H4 as <- <-. rewrite (proj2 (Z.eqb_neq e 0)) in H5 by lia.
    injection H5 as <- _. lia. }
  assert (Hn : Z.of_nat (length blocks) <= Z.of_nat (length (index_bytes reason vol (index vol)))).
  { destruct Hb as (Hc & full & last & -> & Hf & Hl).
    change (label (set_device dev2 vol)) with (label vol) in Hf, Hl.
    change (index_bytes reason (set_device dev2 vol) (index (set_device dev2 vol)))
      with (index_bytes reason vol (index vol)) in Hc.
    rewrite <- Hc, concat_app, !length_app.
    pose proof (length_concat_blocks (blocksize (label vol)) full ltac:(lia) Hf) as Hlc.
    assert (Z.of_nat (length full) <= Z.of_nat (length (concat full))) by (rewrite Hlc; nia).
    destruct Hl as [->|(k & -> & Hk)]; cbn [concat length]; rewrite ?app_nil_r; lia. }
  destruct (Z_lt_ge_dec ret4 0) as [Hneg|Hpos].
  { rewrite (proj2 (Z.eqb_neq ret4 0)) in H5 by lia. injection H5 as <- _. lia. }
  assert (Hlen : Z.of_nat (length ([Filemark] ++ (Data <$> blocks))) = 1 + Z.of_nat (length blocks))
    by (rewrite length_app, length_fmap; cbn; lia).
  destruct (appended_filemark ops m p b ao ([Filemark] ++ (Data <$> blocks)) _ 1 immed ret4 dev4 Hap3
    ltac:(lia) ltac:(lia) H4 ltac:(lia))
    as (-> & Hap4 & Hm4 & _).
  cbn [Z.eqb] in H5.
  assert (Hlen4 : Z.of_nat (length (([Filemark] ++ (Data <$> blocks)) ++ [Filemark])) = 2 + Z.of_nat (length blocks))
    by (rewrite length_app; cbn [length]; lia).
  change (replicate (Z.to_nat 1) Filemark) with [Filemark] in Hap4.
  destruct (appended_filemark ops m p b ao (([Filemark] ++ (Data <$> blocks)) ++ [Filemark]) _ 0 immed ret5 dev5 Hap4
    ltac:(lia) ltac:(lia) H5 Hr5)
    as (-> & Hap5 & _ & Ha5).
  change (replicate (Z.to_nat 0) Filemark) with (@nil tape_record) in Hap5. rewrite app_nil_r in Hap5.
  exists blocks. split; [done|]. split; [done|]. split; [lia|]. done.
Qed.

Lemma tape_update_mam_attributes_at dev m :
  dev_at dev m -> dev_at (tape_update_mam_attributes update_mam_attr dev).2 m
  /\ append_pos (tape_update_mam_attributes update_mam_attr dev).2 = append_pos dev
  /\ max_block_size (tape_update_mam_attributes update_mam_attr dev).2 = max_block_size dev.
Proof.
  intros Hat. unfold tape_update_mam_attributes, TapeDevSpec.dev_at in *.
  pose proof (update_mam_attr_ok _ _ _ Hat) as H. by destruct (update_mam_attr (backend_data dev)).
Qed.

(** The book-keeping after the last file mark. *)
Lemma write_index_finish junk partition vol m p b n ret vol1 :
  valid_part p -> 0 <= b < 2 ^ 63 -> p = ltfs_part_id2num partition vol ->
  dev_at (device vol) m -> sel p (append_pos (device vol)) = n ->
  selfptr (index vol) = {| off_partition := partition; off_block := u64 (b + 1) |} ->
  ltfs_update_cart_coherency ops junk
    (set_file_end ((partition =? ltfs_ip_id vol) || ip_index_file_end vol)
       (negb (partition =? ltfs_ip_id vol) || dp_index_file_end vol) vol) = (ret, vol1) ->
  let dev2 := (tape_update_mam_attributes update_mam_attr (device vol1)).2 in
  let vol2 := set_device dev2 vol1 in
  let vol3 := if partition =? ltfs_ip_id vol
              then set_device (tape_set_append_position p
                     (u64 (off_block (selfptr (index vol2)) - 1)) (device vol2)).2 vol2
              else vol2 in
  dev_at (device vol3) m /\ index vol3 = index vol /\ label vol3 = label vol
  /\ vol_creator vol3 = vol_creator vol
  /\ ip_index_file_end vol3 = (partition =? ltfs_ip_id vol) || ip_index_file_end vol
  /\ dp_index_file_end vol3 = negb (partition =? ltfs_ip_id vol) || dp_index_file_end vol
  /\ sel p (append_pos (device vol3)) = (if partition =? ltfs_ip_id vol then b else n)
  /\ sel (1 - p) (append_pos (device vol3)) = sel (1 - p) (append_pos (device vol))
  /\ max_block_size (device vol3) = max_block_size (device vol).
Proof.
  intros Hv Hb Hp Hat Hn Hself Hup dev2 vol2 vol3.
  set (volf := set_file_end _ _ vol) in Hup.
  pose proof (update_cart_coherency_frame junk volf m Hat) as (Hat1 & Hi1 & (Hl1 & Hc1 & Hip1 & Hdp1) & _ & Ha1 & Hx1).
  rewrite Hup in Hat1, Hi1, Hl1, Hc1, Hip1, Hdp1, Ha1, Hx1. cbn [snd] in *.
  destruct (tape_update_mam_attributes_at (device vol1) m Hat1) as (Hat2 & Ha2 & Hx2).
  fold dev2 in Hat2, Ha2, Hx2.
  assert (Hi2 : index vol2 = index vol) by exact Hi1.
  unfold vol3. destruct (partition =? ltfs_ip_id vol) eqn:E.
  - rewrite Hi2, Hself. cbn [off_block]. rewrite (u64_small (b + 1)), (u64_small (b + 1 - 1)) by lia.
    unfold tape_set_append_position.
    rewrite Z.gtb_ltb, (proj2 (Z.ltb_ge 1 p)) by (destruct Hv; lia).
    split; [exact Hat2|]. split; [exact Hi1|]. split; [exact Hl1|]. split; [exact Hc1|].
    split; [exact Hip1|]. split; [exact Hdp1|]. cbn [device set_device snd append_pos set_append_pos].
    rewrite sel_upd, Z.eqb_refl, sel_upd_other by done. split; [lia|].
    cbn [vol2 device set_device max_block_size set_append_pos append_pos]. by rewrite Ha2, Ha1, Hx2, Hx1.
  - split; [exact Hat2|]. split; [exact Hi1|]. split; [exact Hl1|]. split; [exact Hc1|].
    split; [exact Hip1|]. split; [exact Hdp1|]. cbn [vol2 device set_device]. by rewrite Ha2, Ha1, Hx2, Hx1.
Qed.

(** Whether the document of [write_index_here] is lost: the file mark in front of it is
    written, a write of the document fails, and the device takes what follows. *)
Definition document_lost (now : Z * Z) (partition : Z) (reason : list Z) vol : bool :=
  let '(ret, vol1) := open_index ops now partition vol in (0 <=? ret) && output_lost reason vol1.

(** Only a reset loses the document: on a drive that never asks for a revalidation
    after a write every failed write is remembered, and the next one is refused. *)
Section no_reset.
Hypothesis no_reset : forall buf pos d,
  Z.of_nat (length buf) < 2 ^ 31 -> NEED_REVAL (op_write ops buf pos d).1.1 = false.

(** The output buffer can be written, or the device takes no more. *)
Definition out_sound (bs : Z) (failed : bool) (ctx : xml_output_tape (D := D)) : Prop :=
  if failed then read_only (out_device ctx) = true
  else Z.of_nat (length (out_buf ctx)) <= bs /\ out_buf_size ctx = bs /\ bs <= max_block_size (out_device ctx).

Lemma tape_write_sound bs buf dev rc dev' :
  bs < 2 ^ 31 -> Z.of_nat (length buf) <= bs -> bs <= max_block_size dev ->
  tape_write ops buf true true dev = (rc, dev') ->
  if rc <? 0 then read_only dev' = true else bs <= max_block_size dev'.
Proof.
  intros Hbs Hlen Hmx Hw. destruct (rc <? 0) eqn:E.
  - bool_to_prop. refine (tape_write_failed ops dev buf rc dev' _ _ Hw E); [|lia].
    intros pos d. apply no_reset. lia.
  - pose proof (tape_write_max_block_size buf true true dev) as H. rewrite Hw in H. cbn in H. lia.
Qed.

Lemma write_blocks_sound bs fuel rest ctx ret rest' ctx' :
  0 < bs < 2 ^ 31 -> out_sound bs false ctx -> write_blocks ops fuel rest ctx = (ret, rest', ctx') ->
  out_sound bs (ret <? 0) ctx'.
Proof.
  intros Hbs. revert rest ctx. induction fuel as [|fuel IH]; intros rest ctx Hs Hrun; cbn [write_blocks] in Hrun.
  { by injection Hrun as <- _ <-. }
  destruct Hs as (Hle & Hsz & Hmx). rewrite Hsz in Hrun. set (k := Z.to_nat _) in Hrun.
  destruct (tape_write ops (out_buf ctx ++ take k rest) true true (out_device ctx)) as [rc dev] eqn:Hw.
  assert (Hk : Z.of_nat (length (out_buf ctx ++ take k rest)) <= bs) by (rewrite length_app, length_take; lia).
  pose proof (tape_write_sound bs _ _ _ _ ltac:(lia) Hk Hmx Hw) as H.
  destruct (rc <? 0) eqn:Hrc; [by injection Hrun as <- _ <-|].
  assert (Hs : out_sound bs false {| out_buf := []; out_buf_size := bs; out_device := dev |}) by (cbn; lia).
  destruct (_ >? _); [by apply IH in Hrun|by injection Hrun as <- _ <-].
Qed.

Lemma write_blocks_rest bs fuel rest ctx ret rest' ctx' :
  0 < bs -> out_buf_size ctx = bs -> Z.of_nat (length (out_buf ctx)) <= bs ->
  (length rest < fuel)%nat \/ out_buf ctx = [] /\ (length rest <= fuel)%nat ->
  write_blocks ops fuel rest ctx = (ret, rest', ctx') -> 0 <= ret -> Z.of_nat (length rest') <= bs.
Proof.
  intros Hbs. revert rest ctx. induction fuel as [|fuel IH]; intros rest ctx Hsz Hle Hf Hrun Hret; cbn [write_blocks] in Hrun.
  { injection Hrun as _ <- _. lia. }
  rewrite Hsz in Hrun. set (k := Z.to_nat _) in Hrun.
  destruct (tape_write ops (out_buf ctx ++ take k rest) true true (out_device ctx)) as [rc dev].
  destruct (rc <? 0); [injection Hrun as <- _ _; lia|].
  assert (Hlen : length (drop k rest) = (length rest - k)%nat) by apply length_drop.
  destruct (Z.of_nat (length (drop k rest)) >? bs) eqn:Hgt; bool_to_prop; [|by injection Hrun as _ <- _].
  eapply IH in Hrun; [done|done|cbn; lia| |done]. right. split; [done|].
  destruct Hf as [|[E Hf]]; [lia|]. unfold k in *. rewrite E in *. cbn [length] in *. lia.
Qed.

Lemma write_callback_sound bs buffer ctx ret ctx' :
  0 < bs < 2 ^ 31 -> out_sound bs false ctx -> xml_output_tape_write_callback ops buffer ctx = (ret, ctx') ->
  out_sound bs (ret <? 0) ctx'.
Proof.
  intros Hbs Hs Hrun. pose proof Hs as (Hle & Hsz & Hmx). unfold xml_output_tape_write_callback in Hrun.
  destruct (_ =? 0); [by injection Hrun as <- <-|].
  destruct (_ <? out_buf_size ctx) eqn:Hfit.
  { injection Hrun as <- <-. bool_to_prop. rewrite (proj2 (Z.ltb_ge _ 0)) by lia. cbn. rewrite length_app. lia. }
  destruct (write_blocks ops (S (length buffer)) buffer ctx) as [[r rest] c] eqn:Hwb.
  pose proof (write_blocks_sound bs _ _ _ _ _ _ Hbs Hs Hwb) as Hs'.
  pose proof (write_blocks_rest bs _ _ _ _ _ _ ltac:(lia) Hsz Hle (or_introl (Nat.lt_succ_diag_r _)) Hwb) as Hrest.
  destruct (r <? 0) eqn:Hr; injection Hrun as <- <-; [exact Hs'|]. bool_to_prop.
  rewrite (proj2 (Z.ltb_ge _ 0)) by lia. specialize (Hrest Hr). destruct Hs' as (_ & H2 & H3). cbn. lia.
Qed.

Lemma write_chunks_sound bs chunks ctx ok ctx' :
  0 < bs < 2 ^ 31 -> out_sound bs false ctx -> write_chunks ops chunks ctx = (ok, ctx') -> out_sound bs (negb ok) ctx'.
Proof.
  intros Hbs. revert ctx. induction chunks as [|c chunks IH]; intros ctx Hs Hrun; cbn in Hrun.
  { by injection Hrun as <- <-. }
  destruct (xml_output_tape_write_callback ops c ctx) as [ret ctx1] eqn:Hw.
  pose proof (write_callback_sound bs c ctx ret ctx1 Hbs Hs Hw) as H1.
  destruct (ret <? 0); [by injection Hrun as <- <-|by apply IH in Hrun].
Qed.

Lemma close_callback_sound bs ctx failed ret dev :
  0 < bs < 2 ^ 31 -> out_sound bs failed ctx -> xml_output_tape_close_callback ops ctx = (ret, dev) ->
  (if failed then read_only dev else (0 <=? ret) || read_only dev) = true.
Proof.
  intros Hbs Hs Hrun. unfold xml_output_tape_close_callback in Hrun. destruct (_ >? 0).
  2:{ injection Hrun as <- <-. by destruct failed. }
  destruct failed.
  - destruct (tape_write_read_only ops (out_device ctx) (out_buf ctx) Hs) as (e & _ & E). rewrite E in Hrun.
    by injection Hrun as _ <-.
  - destruct Hs as (Hle & _ & Hmx).
    destruct (tape_write ops (out_buf ctx) true true (out_device ctx)) as [rc dv] eqn:Hw.
    pose proof (tape_write_sound bs _ _ _ _ ltac:(lia) Hle Hmx Hw) as H. injection Hrun as <- <-.
    destruct (rc <? 0); [by rewrite H|done].
Qed.

Lemma output_not_lost reason vol :
  0 < blocksize (label vol) < 2 ^ 31 -> blocksize (label vol) <= max_block_size (device vol) ->
  output_lost reason vol = false.
Proof.
  intros Hbs Hmx. unfold output_lost, document_output. set (creator := vol_creator vol ++ dash ++ reason).
  set (ctx := {| out_buf := []; out_buf_size := _; out_device := _ |}).
  assert (Hs : out_sound (blocksize (label vol)) false ctx) by (cbn; lia).
  destruct (write_chunks ops (schema_chunks xml creator (index vol)) ctx) as [ok ctx1] eqn:H1.
  apply write_chunks_sound with (bs := blocksize (label vol)) in H1; [|done..].
  destruct (if ok then _ else _) as [ok2 ctx2] eqn:H2.
  assert (Hs2 : out_sound (blocksize (label vol)) (negb (ok && ok2)) ctx2).
  { destruct ok; [by apply write_chunks_sound with (bs := blocksize (label vol)) in H2|by injection H2 as <- <-]. }
  destruct (xml_output_tape_close_callback ops ctx2) as [rc dev] eqn:H3.
  apply close_callback_sound with (bs := blocksize (label vol)) (failed := negb (ok && ok2)) in H3; [|done..].
  destruct (ok && ok2); cbn in *; [by destruct (0 <=? rc), (read_only dev)|by rewrite H3].
Qed.

Lemma document_not_lost now partition reason vol :
  label_ok vol -> document_lost now partition reason vol = false.
Proof.
  intros [_ _ Hbs Hfits]. unfold document_lost.
  assert (H : label (open_index ops now partition vol).2 = label vol
     /\ max_block_size (device (open_index ops now partition vol).2) = max_block_size (device vol)).
  { unfold open_index. set (vol1 := if ltfs_is_dirty vol then _ else vol).
    assert (E : label vol1 = label vol /\ device vol1 = device vol) by (unfold vol1; by destruct (ltfs_is_dirty vol)).
    destruct E as [El Ed]. clearbody vol1.
    pose proof (tape_seek_append_max_block_size (ltfs_part_id2num partition vol) (partition =? partid_ip (label vol1))
      (device vol1)) as Hm.
    destruct (tape_seek_append_position ops _ _ _) as [r1 d1]. cbn [snd] in Hm. rewrite Ed in Hm.
    destruct (r1 <? 0); [by split|]. cbn [device set_device set_index label].
    destruct (if _ && negb _ then _ else _) as [r2 d2] eqn:E2.
    assert (Hm2 : max_block_size d2 = max_block_size d1).
    { destruct (_ && _); [|by injection E2 as _ <-].
      pose proof (tape_write_filemark_max_block_size 0 true true false d1) as H. by rewrite E2 in H. }
    destruct (r2 <? 0); [by split; [|cbn; rewrite Hm2]|]. cbn [device set_device].
    pose proof (tape_write_filemark_max_block_size 1 true true true d2) as Hm3.
    destruct (tape_write_filemark ops 1 true true true d2) as [r3 d3]. cbn in Hm3 |- *.
    by rewrite Hm3, Hm2, Hm. }
  destruct (open_index ops now partition vol) as [r v]. cbn [snd] in H. destruct H as [Hl Hm].
  rewrite output_not_lost by (by rewrite ?Hl, ?Hm). apply andb_false_r.
Qed.
End no_reset.

Lemma write_index_here_ok now junk partition reason vol m ret vol' :
  label_ok vol -> partition = ltfs_dp_id vol \/ partition = ltfs_ip_id vol ->
  dev_at (device vol) m ->
  let p := ltfs_part_id2num partition vol in
  let b := append_block m p (device vol) in
  0 <= sel p (append_pos (device vol)) < TAPE_BLOCK_MAX ->
  b + Z.of_nat (length (index_bytes reason vol (index_to_write now partition b vol))) + 3 < 2 ^ 63 ->
  write_index_here ops xml update_mam_attr now junk partition reason vol = (ret, vol') -> 0 <= ret ->
  document_lost now partition reason vol = false ->
  ret = 0 /\ index_written now partition reason m vol vol'.
Proof.
  intros Hlab Hpart Hat p b Ha Hmax Hrun Hret Hlost.
  destruct (part_id2num_ok vol partition Hlab Hpart) as [Hv Hsel]. fold p in Hv, Hsel.
  pose proof (blocksize_ok _ Hlab) as Hbs. pose proof (blocksize_fits _ Hlab) as Hfits.
  unfold write_index_here, open_index in Hrun. unfold document_lost, open_index in Hlost. fold p in Hrun, Hlost.
  set (is_ip := partition =? ltfs_ip_id vol) in *.
  set (vol1 := if ltfs_is_dirty vol then set_index _ vol else vol) in Hrun, Hlost.
  assert (Hv1 : device vol1 = device vol /\ label vol1 = label vol /\ vol_creator vol1 = vol_creator vol
     /\ ip_index_file_end vol1 = ip_index_file_end vol /\ dp_index_file_end vol1 = dp_index_file_end vol
     /\ index vol1 = (if ltfs_is_dirty vol then set_generation (u32 (generation (index vol) + 1)) now (index vol)
                      else index vol))
    by (unfold vol1; by destruct (ltfs_is_dirty vol)).
  destruct Hv1 as (Hd1 & Hl1 & Hc1 & Hip1 & Hdp1 & Hi1). clearbody vol1. rewrite Hd1, Hl1 in Hrun, Hlost.
  destruct (tape_seek_append_position ops p _ (device vol)) as [rs ds] eqn:Hseek.
  destruct (rs <? 0) eqn:Hrs; [rewrite Hrs in Hrun; injection Hrun as <- _; bool_to_prop; lia|]. bool_to_prop.
  destruct (tape_seek_append_ok ops _ _ _ _ _ _ Hat Hv Ha Hseek Hrs) as (Hats & Hps & Hbsd & Hle & Hmx & Hoth).
  fold b in Hbsd, Hle.
  set (ao := (sel (1 - p) (append_pos (device vol)), max_block_size (device vol))) in *. cbn [device set_device label index] in Hrun, Hlost.
  rewrite Hps, Hbsd, Hl1, Hsel in Hrun, Hlost.
  set (back := if off_partition (selfptr (index vol)) =? ltfs_dp_id _ then _ else _) in Hrun, Hlost.
  set (vol2 := set_index (set_pointers _ back (index vol1)) (set_device ds vol1)) in Hrun, Hlost.
  assert (Hi2 : index vol2 = index_to_write now partition b vol).
  { unfold vol2, index_to_write, back. cbn [index set_index set_device]. rewrite Hi1.
    unfold ltfs_dp_id. cbn [label set_device]. by rewrite Hl1. }
  assert (Hap : appended m p b ao [] (device vol2))
    by (apply (appended_start ops); try done; cbn; by rewrite Hoth, Hmx).
  assert (Hmax2 : b + Z.of_nat (length (index_bytes reason vol2 (index vol2))) + 3 < 2 ^ 63).
  { rewrite Hi2. unfold index_bytes in *. cbn [vol_creator vol2 set_index set_device]. by rewrite Hc1. }
  assert (Hbs2 : 0 < blocksize (label vol2) < 2 ^ 31) by (cbn; by rewrite Hl1).
  assert (Hfit2 : blocksize (label vol2) <= max_block_size (device vol2)) by (cbn; rewrite Hl1, Hmx; lia).
  destruct (if is_ip && _ then _ else _) as [r1 dv1] eqn:H1.
  destruct (r1 <? 0) eqn:Hr1; [rewrite Hr1 in Hrun; injection Hrun as <- _; bool_to_prop; lia|].
  cbn [device set_device] in Hrun, Hlost.
  destruct (tape_write_filemark ops 1 true true true dv1) as [r2 dv2] eqn:H2.
  destruct (r2 <? 0) eqn:Hr2; [injection Hrun as <- _; bool_to_prop; lia|].
  rewrite (proj2 (Z.leb_le 0 r2)) in Hlost by (bool_to_prop; lia). cbn [andb] in Hlost.
  change (set_device dv2 (set_device dv1 vol2)) with (set_device dv2 vol2) in Hlost.
  destruct (xml_schema_to_tape ops xml reason (set_device dv2 (set_device dv1 vol2))) as [r3 vol3] eqn:H3.
  change (set_device dv2 (set_device dv1 vol2)) with (set_device dv2 vol2) in H3.
  destruct (r3 <? 0) eqn:Hr3; [injection Hrun as <- _; bool_to_prop; lia|].
  set (immed := bool_decide (reason = SYNC_FORMAT)) in Hrun.
  destruct (tape_write_filemark ops 1 true true immed (device vol3)) as [r4 dv4] eqn:H4.
  cbn [device set_device] in Hrun.
  destruct (if r4 =? 0 then _ else _) as [r5 dv5] eqn:H5.
  destruct (r5 <? 0) eqn:Hr5; [injection Hrun as <- _; bool_to_prop; lia|]. bool_to_prop.
  destruct (write_index_records m p b ao reason vol2 (is_ip && negb (ip_index_file_end vol2))
    r1 dv1 r2 dv2 r3 vol3 immed r4 dv4 r5 dv5 Hbs2 Hfit2 Hap Hmax2 H1 Hr1 H2 Hr2 H3 H4 H5 Hr5 Hlost)
    as (blocks & Hblk & (Hat5 & _ & _ & _ & _ & Hao5 & _) & Ha5 & (Hl3 & Hc3 & Hip3 & Hdp3) & Hi3).
  set (vol5 := set_device dv5 (set_device dv4 vol3)) in Hrun.
  set (volf := set_file_end _ _ vol5) in Hrun.
  destruct (ltfs_update_cart_coherency ops junk volf) as [rc volc] eqn:Hup.
  destruct (tape_update_mam_attributes update_mam_attr (device volc)) as [rm dm] eqn:Hmam.
  set (v6 := if is_ip then _ else _) in Hrun.
  injection Hrun as <- <-. split; [done|].
  assert (Hip5 : ltfs_ip_id vol5 = ltfs_ip_id vol) by (unfold ltfs_ip_id; cbn; by rewrite Hl3; cbn; rewrite Hl1).
  destruct (write_index_finish junk partition vol5 (write_at p b (Filemark :: (Data <$> blocks) ++ [Filemark]) m)
    p b (b + 2 + Z.of_nat (length blocks)) rc volc) as (Hat6 & Hi6 & Hl6 & Hc6 & Hip6 & Hdp6 & Ha6 & Ho6 & Hx6).
  - done.
  - pose proof (tape_at_ok _ _ _ Hats) as (_ & Hr & ?). rewrite Hps, Hbsd in Hr. lia.
  - unfold p, ltfs_part_id2num. cbn. rewrite Hl3. cbn. by rewrite Hl1.
  - exact Hat5.
  - exact Ha5.
  - cbn [index vol5 set_device]. rewrite Hi3, Hi2. reflexivity.
  - unfold volf in Hup. rewrite Hip5. fold is_ip. exact Hup.
  - rewrite Hmam in *. rewrite Hip5 in *. fold is_ip in Hat6, Hi6, Hl6, Hip6, Hdp6, Ha6.
    change (dev_at (device v6) (write_at p b (Filemark :: (Data <$> blocks) ++ [Filemark]) m)) in Hat6.
    change (index v6 = index vol3) in Hi6. change (label v6 = label vol3) in Hl6.
    change (vol_creator v6 = vol_creator vol3) in Hc6. rewrite Hc3 in Hc6.
    change (ip_index_file_end v6 = is_ip || ip_index_file_end vol3) in Hip6.
    change (dp_index_file_end v6 = negb is_ip || dp_index_file_end vol3) in Hdp6.
    change (sel p (append_pos (device v6)) = if is_ip then b else b + 2 + Z.of_nat (length blocks)) in Ha6.
    change (sel (1 - p) (append_pos (device v6)) = sel (1 - p) (append_pos dv5)) in Ho6.
    change (max_block_size (device v6) = max_block_size dv5) in Hx6.
    clearbody v6. injection Hao5 as Hao5 Hmx5. rewrite Hao5 in Ho6. rewrite Hmx5 in Hx6. rewrite Hi3, Hi2 in Hi6. rewrite Hip3 in Hip6. rewrite Hdp3 in Hdp6. rewrite Hl3 in Hl6.
    cbn [vol_creator ip_index_file_end dp_index_file_end label vol2 set_index set_device] in Hi6, Hip6, Hdp6, Hl6.
    cbn [vol_creator vol2 set_index set_device] in Hc6. rewrite Hc1 in Hi6, Hc6. rewrite Hip1 in Hip6. rewrite Hdp1 in Hdp6. rewrite Hl1 in Hl6.
    exists blocks. fold p b. split.
    { rewrite Hi2 in Hblk. unfold index_bytes in *. cbn [vol_creator vol2 set_index set_device label] in Hblk.
      by rewrite Hc1, Hl1 in Hblk. }
    split; [exact Hat6|]. cbn [index set_index]. rewrite Hi6. done.
Qed.

(** The other partition. *)
Lemma part_ids_complementary vol :
  label_ok vol ->
  ltfs_part_id2num (ltfs_ip_id vol) vol = 1 - ltfs_part_id2num (ltfs_dp_id vol) vol.
Proof.
  intros [Hne Hmap _ _]. unfold ltfs_part_id2num, ltfs_dp_id, ltfs_ip_id.
  destruct Hmap as [E|E]; rewrite E; cbn [fst snd];
    rewrite ?Z.eqb_refl, ?(proj2 (Z.eqb_neq _ _)) by congruence; reflexivity.
Qed.

(** Room for whatever the index may become, and append positions that are
    block numbers. *)
Definition has_room (reason : list Z) (m : medium) vol : Prop :=
  exists n, (forall idx, Z.of_nat (length (index_bytes reason vol idx)) <= n)
  /\ (forall p, valid_part p -> 0 <= sel p (append_pos (device vol)) < TAPE_BLOCK_MAX
         /\ eod_at m p + n + 3 < 2 ^ 63 /\ append_block m p (device vol) + n + 3 < 2 ^ 63).

(** Whether the index partition's index has to wait for one on the data partition. *)
Definition dp_index_needed (partition : Z) vol : bool :=
  (partition =? ltfs_ip_id vol)
  && (negb (dp_index_file_end vol)
      || (ip_index_file_end vol && (off_partition (selfptr (index vol)) =? ltfs_ip_id vol))).

Lemma write_index_here_ret now junk partition reason vol :
  let ret := (write_index_here ops xml update_mam_attr now junk partition reason vol).1 in
  ret < 0 \/ ret = 0.
Proof.
  unfold write_index_here, open_index. destruct (tape_seek_append_position ops _ _ _) as [r1 d1].
  destruct (r1 <? 0) eqn:E1; [left; rewrite E1; cbn [fst]; bool_to_prop; done|].
  destruct (if _ && negb _ then _ else _) as [r2 d2].
  destruct (r2 <? 0) eqn:E2; [left; rewrite E2; cbn [fst]; bool_to_prop; done|].
  destruct (tape_write_filemark ops 1 true true true _) as [r3 d3].
  destruct (r3 <? 0) eqn:E3; [left; bool_to_prop; done|].
  destruct (xml_schema_to_tape ops xml reason _) as [r4 v4].
  destruct (r4 <? 0) eqn:E4; [left; bool_to_prop; done|].
  destruct (tape_write_filemark ops 1 true true _ _) as [r5 d5].
  destruct (if r5 =? 0 then _ else _) as [r6 d6].
  destruct (r6 <? 0) eqn:E6; [left; bool_to_prop; done|].
  destruct (ltfs_update_cart_coherency ops junk _) as [r7 v7].
  destruct (tape_update_mam_attributes update_mam_attr _) as [r8 d8]. by right.
Qed.

Lemma write_index_one now junk q reason vol m ret vol' :
  label_ok vol -> q = ltfs_dp_id vol \/ q = ltfs_ip_id vol -> dev_at (device vol) m ->
  has_room reason m vol ->
  write_index_here ops xml update_mam_attr now junk q reason vol = (ret, vol') -> 0 <= ret ->
  document_lost now q reason vol = false ->
  index_written now q reason m vol vol'.
Proof.
  intros Hlab Hq Hat (n & Hn & Hr) Hrun Hret Hlost.
  destruct (part_id2num_ok vol q Hlab Hq) as [Hv _]. destruct (Hr _ Hv) as (Ha & He & Hb).
  eapply write_index_here_ok; try done.
  specialize (Hn (index_to_write now q (append_block m (ltfs_part_id2num q vol) (device vol)) vol)). lia.
Qed.

(** Where no other index comes first, the call is refused or writes its index. *)
Lemma write_index_alone fuel now junk partition reason vol :
  dp_index_needed partition vol = false ->
  exists ret vol',
    ltfs_write_index ops xml update_mam_attr (S fuel) now junk partition reason vol = Some (ret, vol') /\
    (ret < 0 /\ vol' = vol \/
     write_index_here ops xml update_mam_attr now junk partition reason vol = (ret, vol')).
Proof.
  unfold dp_index_needed. intros Hnest. cbn [ltfs_write_index]. rewrite Hnest.
  set (ro := if _ || _ || _ then _ else _). destruct ((ro <? 0) && _ && _) eqn:Ero.
  - exists ro, vol. split; [done|]. left. apply andb_prop in Ero as [Ero _].
    apply andb_prop in Ero as [Ero _]. by bool_to_prop.
  - destruct (write_index_here _ _ _ _ _ _ _ _) as [ret vol']. exists ret, vol'. split; [done|]. by right.
Qed.

(** Writing the index of one partition leaves the other as it was. *)
Lemma index_written_other now partition reason m vol vol' :
  label_ok vol -> partition = ltfs_dp_id vol \/ partition = ltfs_ip_id vol -> has_room reason m vol ->
  index_written now partition reason m vol vol' ->
  exists m', dev_at (device vol') m' /\ label_ok vol'
    /\ forall other, ltfs_part_id2num other vol = 1 - ltfs_part_id2num partition vol ->
        let b := append_block m' (ltfs_part_id2num other vol') (device vol') in
        0 <= sel (ltfs_part_id2num other vol') (append_pos (device vol')) < TAPE_BLOCK_MAX
        /\ forall idx, b + Z.of_nat (length (index_bytes reason vol' idx)) + 3 < 2 ^ 63.
Proof.
  intros Hlab Hpart (n & Hn & Hroom) (blocks & Hblk & Hat & _ & _ & _ & _ & Hl & Hc & _ & Hoth & Hmx).
  destruct (part_id2num_ok vol partition Hlab Hpart) as [Hv _].
  set (p := ltfs_part_id2num partition vol) in *. set (m' := write_at _ _ _ m) in *.
  exists m'. split; [done|]. split.
  { destruct Hlab as [H1 H2 H3 H4]. split; rewrite ?Hl, ?Hmx; done. }
  intros other Ho. assert (Hp' : ltfs_part_id2num other vol' = 1 - p).
  { rewrite <- Ho. unfold ltfs_part_id2num. by rewrite Hl. }
  cbv zeta. rewrite Hp'. unfold append_block. rewrite Hoth.
  destruct (Hroom (1 - p) (valid_part_other _ Hv)) as (Ha & He & Hb). split; [done|].
  intros idx. specialize (Hn idx). unfold index_bytes in *. rewrite Hc.
  unfold append_block in Hb. unfold m'.
  rewrite (eod_write_at_ne p (1 - p)) by (done || (by apply valid_part_other) || lia). lia.
Qed.

(** The index of the index partition behind a fresh one on the data partition. *)
Lemma write_index_after now junk partition reason m vol vol0 vol' :
  label_ok vol -> has_room reason m vol -> dp_index_needed partition vol = true ->
  index_written now (ltfs_dp_id vol) reason m vol vol0 ->
  write_index_here ops xml update_mam_attr now junk partition reason vol0 = (0, vol') ->
  exists m0, index_written now (ltfs_dp_id vol) reason m vol vol0 /\ dev_at (device vol0) m0
    /\ (document_lost now partition reason vol0 = false ->
         index_written now partition reason m0 vol0 vol'
         /\ generation (index vol') = generation (index vol0)
         /\ backptr (index vol') = selfptr (index vol0)).
Proof.
  intros Hlab Hroom Hnest Hw0 Hrun.
  destruct (index_written_other _ _ _ _ _ _ Hlab (or_introl eq_refl) Hroom Hw0) as (m0 & Hat0 & Hlab0 & Hother).
  assert (Hip : partition = ltfs_ip_id vol) by (apply andb_prop in Hnest as [E _]; by apply Z.eqb_eq in E).
  pose proof Hw0 as (blocks & _ & _ & Hidx & _ & _ & _ & Hl & _).
  assert (Hips : ltfs_ip_id vol0 = ltfs_ip_id vol) by (unfold ltfs_ip_id; by rewrite Hl).
  assert (Hdps : ltfs_dp_id vol0 = ltfs_dp_id vol) by (unfold ltfs_dp_id; by rewrite Hl).
  destruct (Hother (ltfs_ip_id vol) (part_ids_complementary _ Hlab)) as [Ha0 Hb0].
  exists m0. split; [done|]. split; [done|]. intros Hlost.
  assert (Hw1 : index_written now partition reason m0 vol0 vol').
  { eapply write_index_here_ok; try done; [right; congruence|by rewrite Hip|rewrite Hip; apply Hb0]. }
  split; [done|].
  destruct Hw1 as (blocks1 & _ & _ & Hidx1 & _). rewrite Hidx1. unfold index_to_write.
  assert (Hclean : ltfs_is_dirty vol0 = false).
  { unfold ltfs_is_dirty. rewrite Hidx. cbn. by rewrite andb_false_r. }
  rewrite Hclean. cbn [generation backptr set_pointers set_creator ltfs_unset_index_dirty].
  split; [done|]. rewrite Hidx. cbn [selfptr off_partition set_pointers set_creator ltfs_unset_index_dirty index_to_write].
  by rewrite Hdps, Z.eqb_refl.
Qed.


(** C20: An index that could not be written leaves no trace in the volume's own
    index: generation, time, self pointer and back pointer are those of before, it
    is as dirty as it was, and what is known of the ends of the partitions is
    unchanged. *)
Theorem write_index_rolled_back now junk partition reason vol ret vol' :
  0 <= generation (index vol) < 2 ^ 32 ->
  write_index_here ops xml update_mam_attr now junk partition reason vol = (ret, vol') -> ret < 0 ->
  let idx := index vol in
  let idx' := index vol' in
  generation idx' = generation idx /\ mod_time idx' = mod_time idx /\ selfptr idx' = selfptr idx
  /\ backptr idx' = backptr idx /\ dirty idx' = dirty idx /\ atime_dirty idx' = atime_dirty idx
  /\ idx_version idx' = idx_version idx
  /\ ip_index_file_end vol' = ip_index_file_end vol /\ dp_index_file_end vol' = dp_index_file_end vol.
Proof.
  intros Hg Hrun Hneg.
  assert (Hgen : forall g, u32 (u32 (generation (index vol) + 1) - 1) = g -> g = generation (index vol)).
  { intros g <-. unfold u32. rewrite Zminus_mod_idemp_l. rewrite Z.mod_small; lia. }
  unfold write_index_here, open_index in Hrun. destruct (ltfs_is_dirty vol) eqn:Ed.
  all: destruct (tape_seek_append_position ops _ _ _) as [r1 d1]; cbn [device set_device] in Hrun;
    destruct (r1 <? 0) eqn:E1; [try rewrite E1 in Hrun; injection Hrun as <- <-; cbn; auto 20|];
    destruct (if _ && negb _ then _ else _) as [r2 d2]; cbn [device set_device] in Hrun;
    destruct (r2 <? 0) eqn:E2; [try rewrite E2 in Hrun; injection Hrun as <- <-; cbn; auto 20|];
    destruct (tape_write_filemark ops 1 true true true _) as [r3 d3];
    destruct (r3 <? 0) eqn:E3; [try rewrite E3 in Hrun; injection Hrun as <- <-; cbn; auto 20|].
  all: unfold xml_schema_to_tape in Hrun; destruct (write_chunks ops _ _) as [ok c1];
    destruct (xml_output_tape_close_callback ops _) as [rc dc];
    set (r4 := schema_result xml _ _ _) in Hrun; cbv zeta in Hrun; destruct (r4 <? 0) eqn:E4; [injection Hrun as <- <-; cbn; auto 20|];
    destruct (tape_write_filemark ops 1 true true _ _) as [r5 d5];
    destruct (if r5 =? 0 then _ else _) as [r6 d6];
    destruct (r6 <? 0) eqn:E6; [injection Hrun as <- <-; cbn; auto 20|];
    destruct (ltfs_update_cart_coherency ops junk _) as [r7 v7];
    destruct (tape_update_mam_attributes update_mam_attr _) as [r8 d8];
    injection Hrun as <- _; lia.
Qed.
End spec.
