(* ===== verification/VolumeOnFile.v ===== *)
(** * The index writer on the file-backed driver

    The properties of [VolumeSpec] at a concrete volume: partition [a] is the index
    partition and the first of the directory of [FileDebugSpec], partition [b] the
    data partition, still empty. *)

From S2P Require Import Prelude Errors TapeOps FileDebug FileDebugOk FileDebugSpec.
From S2P Require Import TapeDev TapeDevSpec Append Coherency TapeOnFile Extents Volume VolumeSpec.
Open Scope Z_scope.

(** The driver knows no reset: a failed write is no reason to revalidate, and no
    document is lost ([document_not_lost]). *)
Definition quiet (r : Z) : Prop := r = 0 \/ r = - EDEV_RW_PERM \/ r = - EDEV_CM_PERM.

Lemma quiet_no_reval r : quiet r -> NEED_REVAL r = false.
Proof. by intros [->|[->| ->]]. Qed.

Lemma remove_record_quiet s : quiet (_filedebug_remove_current_record s).1.
Proof. by left. Qed.

Lemma write_eod_quiet s : quiet (_filedebug_write_eod s).1.
Proof. by left. Qed.

Lemma bump_write_pass_quiet s : quiet (bump_write_pass s).1.
Proof.
  unfold bump_write_pass, _set_wp, filedebug_write_attribute.
  destruct (_ =? _); [|by left]. destruct (write_attributes _ _ _ _ _); [by left|by right; right].
Qed.

Lemma filedebug_no_reset buf pos d :
  Z.of_nat (length buf) < 2 ^ 31 -> NEED_REVAL (op_write filedebug_handler buf pos d).1.1 = false.
Proof.
  intros Hlen. cbn [op_write filedebug_handler]. unfold filedebug_write.
  destruct (negb (ready d)); [done|]. destruct (_ =? 0); [done|]. destruct (_ >? _); [done|].
  pose proof (remove_record_quiet d) as H1. destruct (_filedebug_remove_current_record d) as [r1 s1].
  destruct (r1 <? 0); [by apply quiet_no_reval|].
  pose proof (bump_write_pass_quiet s1) as H2. destruct (bump_write_pass s1) as [r2 s2].
  destruct (r2 <? 0); [by apply quiet_no_reval|]. unfold write_record.
  set (s3 := set_current _ _). pose proof (write_eod_quiet s3) as H3.
  destruct (_filedebug_write_eod s3) as [r4 s4]. destruct (r4 <? 0); [by apply quiet_no_reval|].
  cbn [fst snd]. rewrite s32_small by lia. destruct (NEED_REVAL _) eqn:E; [|done].
  apply need_reval_neg in E. lia.
Qed.

Definition no_mam (d : filedebug_data) : Z * filedebug_data := (0, d).

Lemma no_mam_ok d m pos : filedebug_at d m pos -> filedebug_at (no_mam d).2 m pos.
Proof. done. Qed.

Definition sample_xml : xml_lib :=
  {| schema_chunks := fun c _ => [cstr "<ltfsindex>"; c];
     final_chunks := fun _ _ => [cstr "</ltfsindex>"];
     schema_result := fun _ _ ok => if ok then 0 else -1 |}.

Definition sample_label : ltfs_label :=
  {| label_creator := None; label_version := 20200; barcode := cstr "      ";
     vol_uuid := cstr "30a91a08-daae-48d1-ae75-69804e61d2ea"; format_time := (0, 0); blocksize := 16;
     enable_compression := true; this_partition := 97;
     partid_dp := 98; partid_ip := 97; part_num2id := (97, 98) |}.

Definition sample_index : ltfs_index :=
  {| idx_creator := []; idx_vol_uuid := cstr "30a91a08-daae-48d1-ae75-69804e61d2ea";
     generation := 1; mod_time := (0, 0);
     selfptr := {| off_partition := 98; off_block := 5 |};
     backptr := {| off_partition := 0; off_block := 0 |};
     dirty := true; atime_dirty := false; use_atime := true; idx_version := LTFS_INDEX_VERSION |}.

Definition no_coherency : tc_coherency :=
  {| volume_change_ref := 0; count := 0; set_id := 0; uuid := replicate 37 0; version := 0 |}.

Definition sample_volume (wp : bool) : ltfs_volume filedebug_data :=
  {| vol_creator := cstr "ltfs"; label := sample_label; index := sample_index;
     device := sample_device wp (0, 0); ip_coh := no_coherency; dp_coh := no_coherency;
     ip_index_file_end := true; dp_index_file_end := false; rollback_mount := false; reval := 0;
     last_pos := {| off_partition := 0; off_block := 0 |}; last_size := 0; last_block := None |}.

Lemma sample_label_ok wp : label_ok (sample_volume wp).
Proof. split; cbn; [lia|by right|lia|lia]. Qed.

Lemma sample_append_block wp p :
  valid_part p -> 0 <= append_block sample_medium p (sample_device wp (0, 0)) <= 2.
Proof. intros [->| ->]; vm_compute; split; discriminate. Qed.

Lemma sample_has_room reason wp :
  Z.of_nat (length reason) < 2 ^ 40 -> has_room sample_xml reason sample_medium (sample_volume wp).
Proof.
  intros Hlen. exists (2 ^ 40 + 100). split.
  - intros idx. unfold index_bytes. cbn [schema_chunks final_chunks sample_xml concat].
    rewrite app_nil_r, !length_app. cbn. lia.
  - intros p Hp. pose proof (sample_append_block wp p Hp) as Hb.
    assert (He : 0 <= eod_at sample_medium p <= 2) by (destruct Hp as [->| ->]; vm_compute; split; discriminate).
    split; [|change (device (sample_volume wp)) with (sample_device wp (0, 0)); lia]. cbn. destruct Hp as [->| ->]; vm_compute; (split; [discriminate|reflexivity]).
Qed.

Definition write_sample_index (partition : Z) (wp : bool) :=
  ltfs_write_index filedebug_handler sample_xml no_mam 2 (7, 0) [] partition SYNC_FORMAT (sample_volume wp).


Lemma write_index_rolled_back_witness :
  exists ret vol', write_index_here filedebug_handler sample_xml no_mam (7, 0) [] 98 SYNC_FORMAT
      (sample_volume true) = (ret, vol') /\ ret = - LTFS_WRITE_PROTECT
  /\ generation (index vol') = 1.
Proof.
  destruct (write_index_here filedebug_handler sample_xml no_mam (7, 0) [] 98 SYNC_FORMAT
      (sample_volume true)) as [ret vol'] eqn:Hrun.
  assert (Hret : ret = - LTFS_WRITE_PROTECT).
  { change ret with (ret, vol').1. rewrite <- Hrun. vm_compute. reflexivity. }
  exists ret, vol'. split; [reflexivity|]. split; [exact Hret|].
  assert (Hg : 0 <= generation (index (sample_volume true)) < 2 ^ 32) by (cbn; lia).
  exact (proj1 (write_index_rolled_back filedebug_handler sample_xml no_mam (7, 0) [] 98 SYNC_FORMAT
    (sample_volume true) ret vol' Hg Hrun ltac:(rewrite Hret; reflexivity))).
Defined.

(** ** A drive that is reset

    The file-backed driver, but a block of fewer than [n] bytes meets a reset: nothing
    is written, and the answer asks for a revalidation. *)
Definition resetting_write (n : Z) (buf : list Z) (pos : tc_position) (s : filedebug_data)
    : Z * tc_position * filedebug_data :=
  if Z.of_nat (length buf) <? n then (- EDEV_POR_OR_BUS_RESET, pos, s) else filedebug_write buf pos s.

Definition resetting_handler (n : Z) : tape_ops filedebug_data := {|
  op_read := op_read filedebug_handler;
  op_write := resetting_write n;
  op_writefm := op_writefm filedebug_handler;
  op_locate := op_locate filedebug_handler;
  op_space := op_space filedebug_handler;
  op_readpos := op_readpos filedebug_handler;
  op_allow_overwrite := op_allow_overwrite filedebug_handler;
  op_read_attribute := op_read_attribute filedebug_handler;
  op_write_attribute := op_write_attribute filedebug_handler;
  op_get_keyalias := op_get_keyalias filedebug_handler;
  op_set_key := op_set_key filedebug_handler;
  op_test_unit_ready := op_test_unit_ready filedebug_handler
|}.

(** It is a device as the contract describes them. *)
#[export] Instance resetting_ok n : TapeOk (resetting_handler n) filedebug_at.
Proof.
  split; try apply filedebug_ok. intros buf pos d m rc pos' d' Hat Hlen Hblk Hw Hrc. cbn in Hw.
  unfold resetting_write in Hw. destruct (_ <? n).
  - injection Hw as <- _ _. unfold EDEV_POR_OR_BUS_RESET in Hrc. lia.
  - by apply (write_ok (ops := filedebug_handler) buf pos d m rc pos' d').
Qed.

(** The document is [<ltfsindex>ltfs - Format</ltfsindex>], two blocks and four bytes.
    The reset comes with the last of the three writes, which the callback that closes
    the output makes: [ltfs_write_index] reports success, the index is clean, and
    between the two file marks are the first two blocks alone. *)
Example truncated_index :
  document_lost (resetting_handler 16) sample_xml (7, 0) 98 SYNC_FORMAT (sample_volume false) = true /\
  match ltfs_write_index (resetting_handler 16) sample_xml no_mam 2 (7, 0) [] 98 SYNC_FORMAT (sample_volume false) with
  | Some (ret, vol') =>
      ret = 0 /\ ltfs_is_dirty vol' = false /\ generation (index vol') = 2
      /\ selfptr (index vol') = {| off_partition := 98; off_block := 1 |}
      /\ (fun b => files (backend_data (device vol')) !! (1, b, SUFFIX_RECORD)) <$> [0; 1; 2; 3; 4]
         = [None; Some (cstr "<ltfsindex>ltfs "); Some (cstr "- Format</ltfsin"); None; None]
      /\ (fun b => files (backend_data (device vol')) !! (1, b, SUFFIX_FILEMARK)) <$> [0; 1; 2; 3; 4]
         = [Some []; None; None; Some []; None]
  | None => False
  end.
Proof. vm_compute. repeat (split; [reflexivity|]). reflexivity. Qed.
