(* ===== verification/FsRaw.v ===== *)
(** * Reading and writing file data

    [libltfs/ltfs_fsops_raw.c]: blocks of data to tape, extents into the file, data
    back from tape through the one-block cache, truncation.  A call that finds the
    drive fenced or in need of revalidation waits or revalidates and starts over;
    those two procedures are arguments here ([wait_revalidation] and [revalidate]),
    and the number of attempts is the fuel.  Taking a lock is not a step of its
    own: each function is executed with the locks it takes.  The dentry cache
    plugin is taken as not loaded, and allocations other than that of a split
    extent succeed. *)

From S2P Require Import Prelude Errors TapeOps TapeDev Coherency Extents Volume.
Open Scope Z_scope.

(** ** The file part of [struct dentry] *)

Record dentry := {
  extentlist : list extent_info;
  realsize : Z;
  size : Z;
  extents_dirty : bool;
  modify_time : Z * Z;
  access_time : Z * Z;
  change_time : Z * Z
}.

Definition set_contents (l : list extent_info) (rs sz : Z) (ed : bool) (mt ct : Z * Z) (d : dentry)
    : dentry :=
  {| extentlist := l; realsize := rs; size := sz; extents_dirty := ed; modify_time := mt;
     access_time := access_time d; change_time := ct |}.

Definition set_access_time (t : Z * Z) (d : dentry) : dentry :=
  {| extentlist := extentlist d; realsize := realsize d; size := size d;
     extents_dirty := extents_dirty d; modify_time := modify_time d; access_time := t;
     change_time := change_time d |}.

Section fsraw.
Context {D : Type} (ops : tape_ops D) (xml : xml_lib) (update_mam_attr : D -> Z * D).
Context (wait_revalidation : ltfs_volume D -> Z * ltfs_volume D).
Context (revalidate : bool -> ltfs_volume D -> Z * ltfs_volume D).
Implicit Types (vol : ltfs_volume D) (d : dentry).

(** [ltfs_get_volume_lock] when no revalidation is running. *)
Definition ltfs_get_volume_lock (vol : ltfs_volume D) : Z := reval vol.

(** ** Writing blocks *)

(** The [while] loop: blocks of at most [blocksize] bytes.  Each turn consumes at
    least a byte when the block size is positive, so the length of the buffer is
    fuel enough. *)
Fixpoint write_loop (fuel : nat) (bs : Z) (rest : list Z) (dev : device_data D) : Z * device_data D :=
  match fuel, rest with
  | O, _ | _, [] => (0, dev)
  | S fuel', _ =>
      let to_write := Z.to_nat (if Z.of_nat (length rest) >? bs then bs else Z.of_nat (length rest)) in
      let '(ret, dev') := tape_write ops (take to_write rest) false true dev in
      if ret <? 0 then (ret, dev') else write_loop fuel' bs (drop to_write rest) dev'
  end.

Fixpoint write_repetitions (n : nat) (bs : Z) (buf : list Z) (dev : device_data D) : Z * device_data D :=
  match n with
  | O => (0, dev)
  | S n' =>
      let '(ret, dev') := write_loop (length buf) bs buf dev in
      if ret <? 0 then (ret, dev') else write_repetitions n' bs buf dev'
  end.

(** [out_unlock]: fencing after a reset, and the mark of an unexpected move. *)
Definition out_unlock (ret : Z) (vol : ltfs_volume D) : Z * ltfs_volume D :=
  if NEED_REVAL ret then (ret, set_device (tape_start_fence (device vol)).2 vol)
  else if IS_UNEXPECTED_MOVE ret then (ret, set_reval (- LTFS_REVAL_FAILED) vol)
  else (ret, vol).

(** The result carries [*startblock] where it has been set. *)
Definition _ltfs_fsraw_write_data_unlocked (now : Z * Z) (junk : list Z) (partition : Z)
    (buf : list Z) (repetitions : nat) (vol : ltfs_volume D)
    : option (Z * option Z * ltfs_volume D) :=
  let bs := blocksize (label vol) in
  let count := Z.of_nat (length buf) in
  (* Validate partition ID *)
  if negb (partition =? ltfs_dp_id vol) && negb (partition =? ltfs_ip_id vol)
  then Some (- LTFS_BAD_PARTNUM, None, vol)
  (* Exit immediately if no data will be written *)
  else if (count =? 0) || (repetitions =? 0)%nat then Some (0, None, vol)
  else if (1 <? repetitions)%nat && negb (count mod bs =? 0) then Some (- LTFS_BAD_ARG, None, vol)
  else
    let ret := tape_device_lock 0 (device vol) in
    if ret <? 0 then Some (ret, None, vol)
    else
      let ret := ltfs_get_partition_readonly partition vol in
      if (ret <? 0) && negb (ret =? - LTFS_NO_SPACE)
      then let '(ret, vol) := out_unlock ret vol in Some (ret, None, vol)
      else
        (* Write index to the other partition if necessary *)
        let other := if partition =? ltfs_ip_id vol then ltfs_dp_id vol else ltfs_ip_id vol in
        match ltfs_write_index_conditional ops xml update_mam_attr now junk other vol with
        | None => None
        | Some (ret, vol) =>
            if ret <? 0 then let '(ret, vol) := out_unlock ret vol in Some (ret, None, vol)
            else
              (* the target partition does not end in an index any more *)
              let vol := if partition =? ltfs_ip_id vol
                         then set_file_end false (dp_index_file_end vol) vol
                         else set_file_end (ip_index_file_end vol) false vol in
              let '(ret, dev) := tape_seek_append_position ops (ltfs_part_id2num partition vol)
                                   (partition =? partid_ip (label vol)) (device vol) in
              let vol := set_device dev vol in
              if ret <? 0 then let '(ret, vol) := out_unlock ret vol in Some (ret, None, vol)
              else
                let startblock := TapeOps.block (position (device vol)) in
                let '(ret, dev) := write_repetitions repetitions bs buf (device vol) in
                let '(ret, vol) := out_unlock ret (set_device dev vol) in
                Some (ret, Some startblock, vol)
        end.

Fixpoint ltfs_fsraw_write_data (fuel : nat) (now : Z * Z) (junk : list Z) (partition : Z)
    (buf : list Z) (repetitions : nat) (vol : ltfs_volume D)
    : option (Z * option Z * ltfs_volume D) :=
  match fuel with
  | O => None
  | S fuel' =>
      let ret := ltfs_get_volume_lock vol in
      if ret <? 0 then Some (ret, None, vol)
      else match _ltfs_fsraw_write_data_unlocked now junk partition buf repetitions vol with
      | None => None
      | Some (ret, start, vol) =>
          if (ret =? - LTFS_DEVICE_FENCED) || NEED_REVAL ret then
            let '(ret, vol) := if ret =? - LTFS_DEVICE_FENCED then wait_revalidation vol
                               else revalidate false vol in
            if ret =? 0 then ltfs_fsraw_write_data fuel' now junk partition buf repetitions vol
            else Some (ret, start, vol)
          else if IS_UNEXPECTED_MOVE ret then Some (ret, start, set_reval (- LTFS_REVAL_FAILED) vol)
          else Some (ret, start, vol)
      end
  end.

(** ** Extents *)

Definition _ltfs_fsraw_add_extent_unlocked (now : Z * Z) (split_ok : bool) (ext : extent_info)
    (update_time : bool) (d : dentry) (vol : ltfs_volume D) : Z * dentry * ltfs_volume D :=
  let '(ret, l, realsize_new) :=
    add_extent (blocksize (label vol)) split_ok ext (extentlist d) (realsize d) in
  if ret <? 0
  then (ret, set_contents l (realsize d) (size d) (extents_dirty d) (modify_time d) (change_time d) d, vol)
  else
    let ext_end := fileoffset_end ext in
    let sz := if ext_end >? size d then ext_end else size d in
    let mt := if update_time then now else modify_time d in
    let ct := if update_time then now else change_time d in
    (0, set_contents l realsize_new sz true mt ct d,
     set_index (ltfs_set_index_dirty false (index vol)) vol).

Definition ltfs_fsraw_add_extent (now : Z * Z) (split_ok : bool) (ext : extent_info)
    (update_time : bool) (d : dentry) (vol : ltfs_volume D) : Z * dentry * ltfs_volume D :=
  let ignored ret := negb (ret <? 0) || (ret =? - LTFS_NO_SPACE) || (ret =? - LTFS_LESS_SPACE) in
  let ret := ltfs_get_partition_readonly (ltfs_ip_id vol) vol in
  if negb (ignored ret) then (ret, d, vol)
  else
    let ret := ltfs_get_partition_readonly (ltfs_dp_id vol) vol in
    if negb (ignored ret) then (ret, d, vol)
    else
      let ret := ltfs_get_volume_lock vol in
      if ret <? 0 then (ret, d, vol)
      else _ltfs_fsraw_add_extent_unlocked now split_ok ext update_time d vol.

Fixpoint ltfs_fsraw_write (fuel : nat) (now : Z * Z) (junk : list Z) (split_ok : bool)
    (d : dentry) (buf : list Z) (offset partition : Z) (update_time : bool) (vol : ltfs_volume D)
    : option (Z * dentry * ltfs_volume D) :=
  match fuel with
  | O => None
  | S fuel' =>
      let ret := ltfs_get_volume_lock vol in
      if ret <? 0 then Some (ret, d, vol)
      else match _ltfs_fsraw_write_data_unlocked now junk partition buf 1 vol with
      | None => None
      | Some (ret, start_block, vol) =>
          if (ret =? - LTFS_DEVICE_FENCED) || NEED_REVAL ret then
            let '(ret, vol) := if ret =? - LTFS_DEVICE_FENCED then wait_revalidation vol
                               else revalidate false vol in
            if ret =? 0 then ltfs_fsraw_write fuel' now junk split_ok d buf offset partition update_time vol
            else Some (ret, d, vol)
          else if IS_UNEXPECTED_MOVE ret then Some (ret, d, set_reval (- LTFS_REVAL_FAILED) vol)
          else if ret <? 0 then Some (ret, d, vol)
          else
            (* Save extent to the file *)
            let tmpext := {| start := {| off_partition := partition;
                                         off_block := default 0 start_block |};
                             byteoffset := 0; bytecount := Z.of_nat (length buf);
                             fileoffset := u64 offset |} in
            Some (_ltfs_fsraw_add_extent_unlocked now split_ok tmpext update_time d vol)
      end
  end.

(** ** Reading *)

(** What the loops carry: the volume, the copy of the position taken when the
    extent was entered, the bytes delivered so far and the file offset of the next
    one.  [inl] is an error. *)
Record read_state := { rs_vol : ltfs_volume D; rs_cur : tc_position; rs_out : list Z; rs_next : Z }.

(** The test "is it the block of the last read, and is the head right behind it". *)
Definition cache_hit (pid pnum blk : Z) (vol : ltfs_volume D) (cur : tc_position) : bool :=
  (pid =? off_partition (last_pos vol)) && (blk =? off_block (last_pos vol))
  && ((pnum =? TapeOps.partition cur) && (u64 (blk + 1) =? TapeOps.block cur)).

(** What a read leaves in the cache buffer: its data, and behind them what was
    there before. *)
Definition read_into (data : list Z) (old : option (list Z)) : option (list Z) :=
  Some (data ++ drop (length data) (default [] old)).

(** The first half of the loop body: the block is in the cache, or read into it.  A
    read that fails has used the buffer all the same. *)
Definition fetch_block (bs : Z) (kmi : option (list Z -> Z * option (list Z))) (pid pnum blk blockbytes : Z)
    (vol : ltfs_volume D) (cur : tc_position) : Z * ltfs_volume D * tc_position :=
  if cache_hit pid pnum blk vol cur
  then (if last_size vol <? blockbytes then - LTFS_SMALL_BLOCK else 0, vol, cur)
  else
    let '(nread, data, dev) := tape_read ops bs (negb (bs =? blockbytes)) kmi (device vol) in
    let vol := set_cache (last_pos vol) (last_size vol) (read_into data (last_block vol))
                 (set_device dev vol) in
    if nread <? 0 then (nread, vol, cur)
    else if nread <? blockbytes then (- LTFS_SMALL_BLOCK, vol, cur)
    else (0, set_cache {| off_partition := pid; off_block := blk |} nread (last_block vol) vol,
          set_block (u64 (TapeOps.block cur + 1)) cur).

(** The [while] loop over the blocks of one extent.  Each turn delivers at least
    one byte, so the number of bytes asked for is fuel enough. *)
Fixpoint read_blocks (fuel : nat) (bs count last_off entry_end : Z)
    (kmi : option (list Z -> Z * option (list Z))) (pid pnum blk firstbyte : Z) (st : read_state)
    : Z * read_state :=
  let vol := rs_vol st in
  let cur := rs_cur st in
  let next_off := rs_next st in
  let read_count := Z.of_nat (length (rs_out st)) in
  match fuel with
  | O => (0, st)
  | S fuel' =>
      if (entry_end >? next_off) && (read_count <? count) then
        let lastbyte := if entry_end <? u64 (firstbyte + bs) then entry_end else u64 (firstbyte + bs) in
        let blockbytes := u64 (lastbyte - firstbyte) in
        let '(ret, vol, cur) := fetch_block bs kmi pid pnum blk blockbytes vol cur in
        if ret <? 0 then (ret, {| rs_vol := vol; rs_cur := cur; rs_out := rs_out st; rs_next := next_off |})
        else
          (* Copy data into output buffer *)
          let ncopy := u64 ((if lastbyte >? last_off then last_off else lastbyte) - next_off) in
          let bytes := take (Z.to_nat ncopy) (drop (Z.to_nat (u64 (next_off - firstbyte)))
                         (default [] (last_block vol))) in
          read_blocks fuel' bs count last_off entry_end kmi pid pnum (u64 (blk + 1))
            (u64 (firstbyte + bs))
            {| rs_vol := vol; rs_cur := cur; rs_out := rs_out st ++ bytes; rs_next := u64 (next_off + ncopy) |}
      else (0, st)
  end.

Definition zeros (n : Z) : list Z := replicate (Z.to_nat n) 0.

(** The body of the loop over the extents; the boolean is [break]. *)
Definition read_extent (count last_off : Z) (kmi : option (list Z -> Z * option (list Z)))
    (entry : extent_info) (st : read_state) : Z * bool * read_state :=
  let bs := blocksize (label (rs_vol st)) in
  let entry_end := fileoffset_end entry in
  (* Fill buffer with zeros if bytes are needed before this extent *)
  let '(stop, st) :=
    if rs_next st <? fileoffset entry then
      if fileoffset entry >? last_off
      then (true, {| rs_vol := rs_vol st; rs_cur := rs_cur st;
                     rs_out := rs_out st ++ zeros (u64 (last_off - rs_next st)); rs_next := rs_next st |})
      else (false, {| rs_vol := rs_vol st; rs_cur := rs_cur st;
                      rs_out := rs_out st ++ zeros (u64 (fileoffset entry - rs_next st));
                      rs_next := fileoffset entry |})
    else (false, st) in
  if stop then (0, true, st)
  else if entry_end >? rs_next st then
    (* Read any needed data from this extent *)
    let vol := rs_vol st in
    let cur := position (device vol) in
    let pid := off_partition (start entry) in
    let pnum := ltfs_part_id2num pid vol in
    let blk := u64 (off_block (start entry)
                    + u64 (u64 (rs_next st - fileoffset entry) + byteoffset entry) / bs) in
    (* Seek if required *)
    let '(ret, dev) :=
      if (negb (TapeOps.partition cur =? pnum) || negb (TapeOps.block cur =? blk))
         && negb ((TapeOps.partition cur =? pnum) && (TapeOps.block cur =? u64 (blk + 1))
                  && (pid =? off_partition (last_pos vol)) && (blk =? off_block (last_pos vol)))
      then tape_seek ops {| TapeOps.block := blk; filemarks := 0; TapeOps.partition := pnum;
                            early_warning := false; programmable_early_warning := false |} (device vol)
      else (0, device vol) in
    let vol := set_device dev vol in
    let st := {| rs_vol := vol; rs_cur := cur; rs_out := rs_out st; rs_next := rs_next st |} in
    if ret <? 0 then (ret, false, st)
    else
      let firstbyte := u64 (u64 (fileoffset entry - byteoffset entry)
                            + u64 (u64 (blk - off_block (start entry)) * bs)) in
      let '(ret, st) := read_blocks (Z.to_nat count) bs count last_off entry_end kmi pid pnum blk firstbyte st in
      (ret, false, st)
  else (0, false, st).

Fixpoint read_extents (count last_off : Z) (kmi : option (list Z -> Z * option (list Z)))
    (l : list extent_info) (st : read_state) : Z * read_state :=
  match l with
  | [] => (0, st)
  | entry :: l' =>
      if Z.of_nat (length (rs_out st)) =? count then (0, st)
      else
        let '(ret, stop, st) := read_extent count last_off kmi entry st in
        if ret <? 0 then (ret, st)
        else if stop then (0, st)
        else read_extents count last_off kmi l' st
  end.

(** "Handle sparse end-of-file". *)
Definition read_tail (count last_off sz : Z) (st : read_state) : list Z :=
  let read_count := Z.of_nat (length (rs_out st)) in
  if (count >? read_count) && (rs_next st <? sz)
  then rs_out st ++ zeros (u64 ((if last_off <? sz then last_off else sz) - rs_next st))
  else rs_out st.

(** The result is the return value, the bytes in the buffer, the dentry and the
    volume.  The [malloc] of the cache succeeds. *)
Fixpoint ltfs_fsraw_read (fuel : nat) (now : Z * Z) (kmi : option (list Z -> Z * option (list Z)))
    (d : dentry) (count offset : Z) (vol : ltfs_volume D)
    : option (Z * list Z * dentry * ltfs_volume D) :=
  if count =? 0 then Some (0, [], d, vol)
  else match fuel with
  | O => None
  | S fuel' =>
      let ret := ltfs_get_volume_lock vol in
      if ret <? 0 then Some (ret, [], d, vol)
      else
        let ret := tape_device_lock 0 (device vol) in
        if ret =? - LTFS_DEVICE_FENCED then
          let '(ret, vol) := wait_revalidation vol in
          if ret =? 0 then ltfs_fsraw_read fuel' now kmi d count offset vol else Some (ret, [], d, vol)
        else if ret <? 0 then Some (ret, [], d, vol)
        else
          let vol := match last_block vol with
                     | None => set_cache (last_pos vol) (last_size vol) (Some []) vol  (* malloc *)
                     | Some _ => vol
                     end in
          let next_off := u64 offset in
          let last_off := u64 (u64 offset + count) in
          let '(ret, st) := read_extents count last_off kmi (extentlist d)
             {| rs_vol := vol; rs_cur := position (device vol); rs_out := []; rs_next := next_off |} in
          if ret <? 0 then
            if NEED_REVAL ret then
              let vol := set_device (tape_start_fence (device (rs_vol st))).2 (rs_vol st) in
              let '(ret, vol) := revalidate false vol in
              if ret =? 0 then ltfs_fsraw_read fuel' now kmi d count offset vol
              else Some (ret, rs_out st, d, vol)
            else if IS_UNEXPECTED_MOVE ret
            then Some (ret, rs_out st, d, set_reval (- LTFS_REVAL_FAILED) (rs_vol st))
            else Some (ret, rs_out st, d, rs_vol st)
          else
            let out := read_tail count last_off (size d) st in
            (* update access time *)
            Some (Z.of_nat (length out), out, set_access_time now d,
                  set_index (ltfs_set_index_dirty true (index (rs_vol st))) (rs_vol st))
  end.

(** ** Truncation *)

Definition ltfs_fsraw_truncate (now : Z * Z) (length : Z) (d : dentry) (vol : ltfs_volume D)
    : Z * dentry * ltfs_volume D :=
  let ret := ltfs_get_volume_lock vol in
  if ret <? 0 then (ret, d, vol)
  else
    let ulength := u64 length in
    let '(l, new_realsize) := truncate_extents ulength (size d) (extentlist d) (realsize d) in
    (0, set_contents l new_realsize ulength (extents_dirty d) now now d,
     set_index (ltfs_set_index_dirty false (index vol)) vol).

End fsraw.

Arguments rs_vol {_}. Arguments rs_cur {_}. Arguments rs_out {_}. Arguments rs_next {_}.
