(* ===== verification/FsRawSpec.v ===== *)
(** * File contents

    What the extents of a file say about the tape ([file_byte]), the invariant of
    a volume between two calls ([volume_ok]), and the two operations that only
    change the list of extents: adding one and truncating. *)

From S2P Require Import Prelude Errors TapeOps TapeDev TapeDevSpec Coherency Extents ExtentsSpec.
From S2P Require Import Volume VolumeSpec FsRaw.
Open Scope Z_scope.

(** ** Files *)

Record dentry_wf (bs : Z) (d : dentry) : Prop := {
  dw_extents : extents_wf bs (extentlist d);
  dw_realsize : realsize d = total (extentlist d);
  dw_end : last_end 0 (extentlist d) <= size d;
  dw_size : size d < 2 ^ 63
}.

Section files.
Context {D : Type}.
Implicit Types (vol : ltfs_volume D) (d : dentry).

(** The place on tape of the byte at [off]: [None] in a hole. *)
Definition byte_place vol d (off : Z) : option (Z * Z * Z) :=
  locate (blocksize (label vol)) (extentlist d) off.

(** The byte at [off]: zero in a hole; [None] where the tape does not have it. *)
Definition place_byte (m : medium) vol (pl : option (Z * Z * Z)) : option Z :=
  match pl with
  | None => Some 0
  | Some (pid, blk, i) =>
      match record_at m (ltfs_part_id2num pid vol) blk with
      | Some (Data data) => data !! Z.to_nat i
      | _ => None
      end
  end.

Definition file_byte (m : medium) vol d (off : Z) : option Z := place_byte m vol (byte_place vol d off).

(** A block is settled when no append reaches it. *)
Definition block_settled (m : medium) vol (pid blk : Z) : Prop :=
  valid_part (ltfs_part_id2num pid vol)
  /\ 0 <= blk < append_block m (ltfs_part_id2num pid vol) (device vol).

(** All the data of the file is on settled blocks. *)
Definition file_settled (m : medium) vol d : Prop :=
  forall off pid blk i, byte_place vol d off = Some (pid, blk, i) -> block_settled m vol pid blk.

(** ** Extents and truncation *)

Lemma add_extent_ok now split_ok ext update_time d vol ret d' vol' :
  0 < blocksize (label vol) < 2 ^ 32 -> dentry_wf (blocksize (label vol)) d ->
  extent_wf (blocksize (label vol)) ext ->
  _ltfs_fsraw_add_extent_unlocked now split_ok ext update_time d vol = (ret, d', vol') ->
  ret = 0 /\ dentry_wf (blocksize (label vol)) d'
    /\ (forall off, byte_place vol d' off =
          if in_extent ext off then Some (place (blocksize (label vol)) ext off) else byte_place vol d off)
    /\ size d' = Z.max (size d) (fileoffset ext + bytecount ext)
    /\ vol' = set_index (ltfs_set_index_dirty false (index vol)) vol
    /\ ltfs_is_dirty vol' = true
  \/ ret = - LTFS_NO_MEMORY /\ split_ok = false /\ d' = d /\ vol' = vol.
Proof.
  intros Hbs [Hwf Hrs Hend Hsz] Hext Hrun. unfold _ltfs_fsraw_add_extent_unlocked, add_extent in Hrun.
  destruct (add_extent_loop _ _ _ _ _ _) as [[r l] rs] eqn:Hloop.
  pose proof Hwf as [Hw Hs]. pose proof Hext as [? ? ? ? ? ?].
  destruct (r <? 0) eqn:Hr.
  - right. bool_to_prop. destruct (add_extent_loop_failed _ Hbs _ _ _ _ _ _ _ _ Hext
      ltac:(by rewrite rev_involutive) ltac:(by rewrite rev_involutive) Hloop ltac:(lia)) as (E & Hsp & El).
    rewrite rev_involutive, app_nil_r in El. subst r l. injection Hrun as <- <- <-.
    split; [done|]. split; [done|]. split; [by destruct d|done].
  - left. assert (r = 0) as ->.
    { destruct (decide (r = 0)) as [|Hne]; [done|]. bool_to_prop.
      destruct (add_extent_loop_failed _ Hbs _ _ _ _ _ _ _ _ Hext
        ltac:(by rewrite rev_involutive) ltac:(by rewrite rev_involutive) Hloop Hne) as (E & _).
      by subst r. }
    destruct (add_extent_loop_ok _ Hbs split_ok ext (rev (extentlist d)) [] (realsize d) l rs Hext)
      as (Hwf' & Hloc & Hrs' & Hend'); try done; try (by rewrite rev_involutive).
    rewrite rev_involutive, app_nil_r in *. rewrite (fileoffset_end_wf _ _ Hext) in Hrun.
    injection Hrun as <- <- <-.
    assert (Hsize : size (set_contents l rs
        (if fileoffset ext + bytecount ext >? size d then fileoffset ext + bytecount ext else size d)
        true (if update_time then now else modify_time d) (if update_time then now else change_time d) d)
      = Z.max (size d) (fileoffset ext + bytecount ext)).
    { cbn. destruct (_ >? _) eqn:E; bool_to_prop; lia. }
    split; [done|]. split; [|split; [exact Hloc|split; [exact Hsize|done]]].
    pose proof (total_range _ _ Hwf') as Ht.
    split; rewrite ?Hsize; cbn [extentlist realsize set_contents]; [done| |apply Hend'; lia|lia].
    rewrite Hrs', Hrs. rewrite u64_small by lia. lia.
Qed.

(** C18: Adding an extent to a well-formed file makes the bytes of the extent those
    of the file in its range and leaves every other byte where it was; the file
    stays well formed, [realsize] is the sum of the lengths of its extents, the
    size grows to the end of the extent if that is further, and the index becomes
    dirty.  The only other outcome is a failed allocation while splitting, which
    changes nothing. *)
Theorem add_extent_spec now split_ok ext update_time d vol ret d' vol' :
  0 < blocksize (label vol) < 2 ^ 32 -> dentry_wf (blocksize (label vol)) d ->
  extent_wf (blocksize (label vol)) ext ->
  _ltfs_fsraw_add_extent_unlocked now split_ok ext update_time d vol = (ret, d', vol') ->
  ret = 0 /\ dentry_wf (blocksize (label vol)) d'
    /\ (forall off, byte_place vol d' off =
          if in_extent ext off then Some (place (blocksize (label vol)) ext off) else byte_place vol d off)
    /\ size d' = Z.max (size d) (fileoffset ext + bytecount ext)
    /\ vol' = set_index (ltfs_set_index_dirty false (index vol)) vol
    /\ ltfs_is_dirty vol' = true
  \/ ret = - LTFS_NO_MEMORY /\ split_ok = false /\ d' = d /\ vol' = vol.
Proof. apply add_extent_ok. Qed.

(** C21: Truncating a well-formed file to a length gives it that size, makes it
    forget where the bytes behind were and remember all the others; the file stays
    well formed, with [realsize] the sum of the lengths of its extents, and the
    index becomes dirty. *)
Theorem truncate_spec now len d vol ret d' vol' :
  0 < blocksize (label vol) < 2 ^ 32 -> dentry_wf (blocksize (label vol)) d -> 0 <= len < 2 ^ 63 ->
  reval vol = 0 ->
  ltfs_fsraw_truncate now len d vol = (ret, d', vol') ->
  ret = 0 /\ dentry_wf (blocksize (label vol)) d' /\ size d' = len
  /\ (forall off, 0 <= off -> byte_place vol d' off = if off <? len then byte_place vol d off else None)
  /\ vol' = set_index (ltfs_set_index_dirty false (index vol)) vol /\ ltfs_is_dirty vol' = true.
Proof.
  intros Hbs [Hwf Hrs Hend Hsz] Hlen Hre Hrun. unfold ltfs_fsraw_truncate, ltfs_get_volume_lock in Hrun.
  rewrite Hre, u64_small in Hrun by lia. change (0 <? 0) with false in Hrun. cbv iota in Hrun.
  destruct (truncate_extents len (size d) (extentlist d) (realsize d)) as [l rs] eqn:Ht.
  rewrite Hrs in Ht.
  destruct (truncate_extents_ok _ Hbs _ _ _ _ _ Hlen Hwf Hend Ht) as (Hwf' & -> & Hend' & Hloc).
  injection Hrun as <- <- <-. split; [done|]. split; [|done].
  split; cbn; [done|done|lia|lia].
Qed.
End files.

(** ** Witnesses *)

Definition sample_extent (blk bo n fo : Z) : extent_info :=
  {| start := {| off_partition := 98; off_block := blk |}; byteoffset := bo; bytecount := n; fileoffset := fo |}.

(** Two extents, the first of them two blocks and a half of sixteen bytes. *)
Definition sample_dentry : dentry :=
  {| extentlist := [sample_extent 3 0 40 0; sample_extent 9 4 20 50]; realsize := 60; size := 80;
     extents_dirty := false; modify_time := (0, 0); access_time := (0, 0); change_time := (0, 0) |}.

Lemma sample_extent_wf blk bo n fo :
  0 <= blk < 2 ^ 32 -> 0 <= bo < 2 ^ 31 -> 0 <= n < 2 ^ 31 -> 0 <= fo < 2 ^ 62 ->
  extent_wf 16 (sample_extent blk bo n fo).
Proof.
  intros. split; cbn; try lia. pose proof (Z.div_le_upper_bound (bo + n) 16 (2 ^ 32) ltac:(lia) ltac:(lia)). lia.
Qed.

Lemma sample_dentry_wf : dentry_wf 16 sample_dentry.
Proof.
  split; [|cbn; lia..]. split; [|cbn; lia].
  repeat constructor; apply sample_extent_wf; lia.
Qed.
