(* ===== verification/FsRawWriteSpec.v ===== *)
(** * Writing file data

    A write puts its bytes behind everything that is settled, records them in the
    file, and keeps the invariant of the volume: every other byte of this file and
    all bytes of the others read as before. *)

From S2P Require Import Prelude Errors TapeOps TapeDev TapeDevSpec Append Coherency Extents ExtentsSpec.
From S2P Require Import Volume VolumeSpec FsRaw FsRawSpec.
Open Scope Z_scope.

Section spec.
Context {D : Type} (ops : tape_ops D) {tape_at : D -> medium -> tc_position -> Prop}.
Context `{!TapeOk ops tape_at}.
Implicit Types (dev : device_data D) (vol : ltfs_volume D) (d : dentry).
Abbreviation dev_at := (dev_at (tape_at := tape_at)).
Abbreviation appended := (appended (tape_at := tape_at)).

(** ** The invariant *)

(** The read cache designates no block of the volume, or holds what the tape has
    there. *)
Definition cache_ok (m : medium) vol : Prop :=
  ~ valid_part (ltfs_part_id2num (off_partition (last_pos vol)) vol) \/
  exists full rest, record_at m (ltfs_part_id2num (off_partition (last_pos vol)) vol) (off_block (last_pos vol))
      = Some (Data full)
    /\ last_block vol = Some (take (Z.to_nat (blocksize (label vol))) full ++ rest)
    /\ last_size vol = Z.of_nat (length (take (Z.to_nat (blocksize (label vol))) full))
    /\ block_settled m vol (off_partition (last_pos vol)) (off_block (last_pos vol)).

(** Between two calls: the label is sound, the tape is [m], append positions are
    block numbers, one of the partitions ends in an index, and the read cache is
    not stale. *)
Record volume_ok (m : medium) vol : Prop := {
  vo_label : label_ok vol;
  vo_at : dev_at (device vol) m;
  vo_append : forall p, valid_part p -> 0 <= sel p (append_pos (device vol)) < TAPE_BLOCK_MAX;
  vo_ends : ip_index_file_end vol = true \/ dp_index_file_end vol = true;
  vo_cache : cache_ok m vol
}.

(** ** What appending preserves *)

Definition keeps (m : medium) vol (m' : medium) vol' : Prop :=
  label vol' = label vol /\
  forall p, valid_part p ->
    append_block m p (device vol) <= append_block m' p (device vol')
    /\ forall i, i < append_block m p (device vol) -> record_at m' p i = record_at m p i.

Lemma keeps_refl m vol : keeps m vol m vol.
Proof. split; [done|]. intros p _. split; [lia|done]. Qed.

Lemma keeps_trans m1 v1 m2 v2 m3 v3 : keeps m1 v1 m2 v2 -> keeps m2 v2 m3 v3 -> keeps m1 v1 m3 v3.
Proof.
  intros [L1 H1] [L2 H2]. split; [congruence|]. intros p Hp.
  destruct (H1 p Hp) as [A1 B1], (H2 p Hp) as [A2 B2]. split; [lia|].
  intros i Hi. rewrite B2 by lia. by apply B1.
Qed.

Lemma keeps_part m vol m' vol' pid :
  keeps m vol m' vol' -> ltfs_part_id2num pid vol' = ltfs_part_id2num pid vol.
Proof. intros [L _]. unfold ltfs_part_id2num. by rewrite L. Qed.

Lemma keeps_block m vol m' vol' pid blk :
  keeps m vol m' vol' -> block_settled m vol pid blk ->
  block_settled m' vol' pid blk
  /\ record_at m' (ltfs_part_id2num pid vol') blk = record_at m (ltfs_part_id2num pid vol) blk.
Proof.
  intros Hk [Hv Hb]. unfold block_settled. rewrite (keeps_part _ _ _ _ pid Hk).
  destruct Hk as [_ Hk]. destruct (Hk _ Hv) as [Hle Hrec]. split; [split; [done|lia]|]. apply Hrec. lia.
Qed.

Lemma keeps_place m vol m' vol' d off :
  keeps m vol m' vol' -> byte_place vol' d off = byte_place vol d off.
Proof. intros [L _]. unfold byte_place. by rewrite L. Qed.

Lemma keeps_file m vol m' vol' d :
  keeps m vol m' vol' -> file_settled m vol d ->
  file_settled m' vol' d /\ forall off, file_byte m' vol' d off = file_byte m vol d off.
Proof.
  intros Hk Hd. split.
  - intros off pid blk i Hpl. rewrite (keeps_place _ _ _ _ _ _ Hk) in Hpl.
    by destruct (keeps_block _ _ _ _ pid blk Hk (Hd _ _ _ _ Hpl)).
  - intros off. unfold file_byte. rewrite (keeps_place _ _ _ _ _ _ Hk).
    destruct (byte_place vol d off) as [[[pid blk] i]|] eqn:E; [|done]. cbn.
    by destruct (keeps_block _ _ _ _ pid blk Hk (Hd _ _ _ _ E)) as [_ ->].
Qed.

Definition same_cache vol vol' : Prop :=
  last_pos vol' = last_pos vol /\ last_size vol' = last_size vol /\ last_block vol' = last_block vol.

Lemma keeps_cache m vol m' vol' :
  keeps m vol m' vol' -> same_cache vol vol' -> cache_ok m vol -> cache_ok m' vol'.
Proof.
  intros Hk (Hp & Hs & Hb) Hc. unfold cache_ok. rewrite Hp, Hs, Hb, (keeps_part _ _ _ _ _ Hk).
  destruct Hc as [|(full & rest & Hr & Hl & Hz & Hset)]; [by left|right]. exists full, rest.
  destruct (keeps_block _ _ _ _ _ _ Hk Hset) as [Hset' Hr']. rewrite (keeps_part _ _ _ _ _ Hk) in Hr'.
  rewrite Hr'. by destruct Hk as [-> _].
Qed.

(** Appending at one partition. *)
Lemma append_keeps m vol m' vol' p rs :
  label vol' = label vol -> valid_part p ->
  append_block m p (device vol) <= eod_at m p -> 0 <= sel p (append_pos (device vol)) ->
  rs <> [] -> m' = write_at p (append_block m p (device vol)) rs m ->
  append_block m p (device vol) <= append_block m' p (device vol') ->
  sel (1 - p) (append_pos (device vol')) = sel (1 - p) (append_pos (device vol)) ->
  keeps m vol m' vol'.
Proof.
  intros L Hp Hle Ha Hrs -> Happ Hoth. split; [done|]. intros q Hq.
  set (b := append_block m p (device vol)) in *.
  assert (Hb : 0 <= b <= eod_at m p).
  { split; [|done]. unfold b, append_block. destruct (_ =? 0); [unfold eod_at; lia|done]. }
  destruct (decide (q = p)) as [->|Hne].
  - fold b. split; [done|]. intros i Hi. apply record_at_write_before; try done. by right.
  - assert (q = 1 - p) as -> by (destruct Hq as [->| ->], Hp as [->| ->]; lia).
    split.
    + unfold append_block. rewrite Hoth. rewrite eod_write_at_ne by (done || lia). lia.
    + intros i _. apply record_at_write_before; try done. left. lia.
Qed.

(** ** The index before the data *)

Context (xml : xml_lib) (update_mam_attr : D -> Z * D).
Hypothesis update_mam_attr_ok : forall (d : D) m pos, tape_at d m pos -> tape_at (update_mam_attr d).2 m pos.

Lemma update_cart_coherency_cache junk vol :
  same_cache vol (ltfs_update_cart_coherency ops junk vol).2.
Proof.
  unfold ltfs_update_cart_coherency. destruct (tape_get_volume_change_reference ops junk (device vol)) as [r vcr].
  destruct ((vcr =? 0) || _); [done|]. cbn [snd].
  set (vol1 := if ip_index_file_end vol then _ else vol).
  assert (H1 : same_cache vol vol1).
  { unfold vol1. destruct (ip_index_file_end vol); [|done].
    by destruct (tape_set_cart_coherency ops _ _ (device vol)). }
  clearbody vol1. destruct (dp_index_file_end vol1); [|done].
  by destruct (tape_set_cart_coherency ops _ _ (device vol1)).
Qed.

Lemma write_index_here_cache now junk partition reason vol :
  same_cache vol (write_index_here ops xml update_mam_attr now junk partition reason vol).2.
Proof.
  unfold write_index_here, open_index. destruct (ltfs_is_dirty vol).
  all: destruct (tape_seek_append_position ops _ _ _) as [r1 d1];
    destruct (r1 <? 0) eqn:E1; [by rewrite E1|];
    destruct (if _ && negb _ then _ else _) as [r2 d2]; destruct (r2 <? 0) eqn:E2; [by rewrite E2|];
    destruct (tape_write_filemark ops 1 true true true _) as [r3 d3]; destruct (r3 <? 0); [done|];
    unfold xml_schema_to_tape; destruct (write_chunks ops _ _) as [ok c1];
    destruct (xml_output_tape_close_callback ops _) as [rc dc];
    set (r4 := schema_result xml _ _ _); cbv zeta; destruct (r4 <? 0); [done|];
    destruct (tape_write_filemark ops 1 true true _ _) as [r5 d5];
    destruct (if r5 =? 0 then _ else _) as [r6 d6]; destruct (r6 <? 0); [done|];
    set (v0 := set_file_end _ _ _); pose proof (update_cart_coherency_cache junk v0) as Hc;
    destruct (ltfs_update_cart_coherency ops junk v0) as [r7 v7];
    destruct (tape_update_mam_attributes update_mam_attr _) as [r8 d8]; cbv zeta;
    by destruct (partition =? ltfs_ip_id _).
Qed.

Lemma index_written_keeps now q reason m vol vol' :
  volume_ok m vol -> q = ltfs_dp_id vol \/ q = ltfs_ip_id vol -> same_cache vol vol' ->
  append_block m (ltfs_part_id2num q vol) (device vol) + 1 < 2 ^ 63 ->
  index_written (tape_at := tape_at) xml now q reason m vol vol' ->
  exists m', volume_ok m' vol' /\ keeps m vol m' vol'
    /\ (q = ltfs_ip_id vol -> ip_index_file_end vol' = true)
    /\ (q = ltfs_dp_id vol -> dp_index_file_end vol' = true)
    /\ append_block m' (1 - ltfs_part_id2num q vol) (device vol')
       = append_block m (1 - ltfs_part_id2num q vol) (device vol)
    /\ eod_at m' (1 - ltfs_part_id2num q vol) = eod_at m (1 - ltfs_part_id2num q vol).
Proof.
  intros [Hlab Hat Happ Hends Hcache] Hq Hsc Hmax
    (blocks & Hblk & Hat' & Hidx & Hip & Hdp & Ha & Hl & Hc & Hle & Hoth & Hmx).
  destruct (part_id2num_ok vol q Hlab Hq) as [Hv _]. set (p := ltfs_part_id2num q vol) in *.
  set (b := append_block m p (device vol)) in *.
  set (m' := write_at p b _ m) in *.
  assert (Hb : 0 <= b) by (unfold b, append_block; destruct (_ =? 0); [unfold eod_at; lia|by apply Happ]).
  assert (Hlab' : label_ok vol') by (destruct Hlab as [H1 H2 H3 H4]; split; rewrite ?Hl, ?Hmx; done).
  assert (Heod : eod_at m' p = b + 2 + Z.of_nat (length blocks)).
  { unfold m'. rewrite eod_write_at by done. cbn [length].
    rewrite length_app, length_fmap. cbn [length]. lia. }
  assert (Hk : keeps m vol m' vol').
  { eapply (append_keeps m vol m' vol' p); try done; [by apply Happ|done|].
    fold b. unfold append_block. destruct (_ =? 0); [rewrite Heod; lia|].
    rewrite Ha. destruct (q =? _); lia. }
  destruct (tape_at_ok _ _ _ Hat') as (_ & _ & He0 & He1). fold m' in He0, He1.
  assert (Hep : eod_at m' p < 2 ^ 63) by (destruct Hv as [->| ->]; done).
  exists m'. split; [|split; [done|]].
  - split; [done|exact Hat'| | |by apply (keeps_cache m vol)].
    + intros r Hr. unfold TAPE_BLOCK_MAX. destruct (decide (r = p)) as [->|Hne].
      * rewrite Ha. destruct (q =? _); lia.
      * assert (r = 1 - p) as -> by (destruct Hr as [->| ->], Hv as [->| ->]; lia).
        rewrite Hoth. by apply Happ, valid_part_other.
    + rewrite Hip, Hdp. destruct (q =? ltfs_ip_id vol); [by left|by right].
  - split; [intros ->; by rewrite Hip, Z.eqb_refl|]. split.
    { intros ->. pose proof (ids_differ _ Hlab). by rewrite Hdp, (proj2 (Z.eqb_neq _ _)). }
    assert (Hv' : valid_part (1 - p)) by (by apply valid_part_other).
    unfold append_block. rewrite Hoth. unfold m'. rewrite eod_write_at_ne by (done || lia). done.
Qed.

(** [ltfs_write_index_conditional] on the partition that is not written to. *)
Definition other_partition (partition : Z) vol : Z :=
  if partition =? ltfs_ip_id vol then ltfs_dp_id vol else ltfs_ip_id vol.

(** Whether it has an index to write *)
Definition index_due (q : Z) vol : bool :=
  (q =? ltfs_ip_id vol) && negb (ip_index_file_end vol)
  || (q =? ltfs_dp_id vol) && (negb (dp_index_file_end vol)
        || (ip_index_file_end vol && (off_partition (selfptr (index vol)) =? ltfs_ip_id vol))).

(** and a reset costs it the document. *)
Definition due_index_lost (now : Z * Z) (partition : Z) vol : bool :=
  let q := other_partition partition vol in
  index_due q vol && document_lost ops xml now q SYNC_CASCHE_PRESSURE vol.

Lemma write_index_conditional_ok now junk partition m vol :
  volume_ok m vol -> partition = ltfs_dp_id vol \/ partition = ltfs_ip_id vol ->
  has_room xml SYNC_CASCHE_PRESSURE m vol ->
  exists ret vol', ltfs_write_index_conditional ops xml update_mam_attr now junk (other_partition partition vol) vol
      = Some (ret, vol') /\
    (0 <= ret -> due_index_lost now partition vol = false -> exists m', volume_ok m' vol' /\ keeps m vol m' vol'
      /\ (if partition =? ltfs_ip_id vol then dp_index_file_end vol' else ip_index_file_end vol') = true
      /\ append_block m' (ltfs_part_id2num partition vol) (device vol')
         = append_block m (ltfs_part_id2num partition vol) (device vol)
      /\ eod_at m' (ltfs_part_id2num partition vol) = eod_at m (ltfs_part_id2num partition vol)).
Proof.
  intros Hvol Hpart Hroom. pose proof Hvol as [Hlab Hat Happ Hends Hcache].
  assert (Hne : ltfs_dp_id vol <> ltfs_ip_id vol) by apply (ids_differ _ Hlab). set (q := other_partition partition vol).
  assert (Hq : q = ltfs_dp_id vol \/ q = ltfs_ip_id vol)
    by (unfold q, other_partition; destruct (partition =? _); auto).
  assert (Hpq : ltfs_part_id2num partition vol = 1 - ltfs_part_id2num q vol).
  { pose proof (part_ids_complementary _ Hlab) as Hc. unfold q, other_partition.
    destruct Hpart as [->| ->]; rewrite ?Z.eqb_refl, ?(proj2 (Z.eqb_neq _ _)) by congruence; lia. }
  assert (Hwrite : dp_index_needed q vol = false -> index_due q vol = true ->
    exists ret vol', ltfs_write_index ops xml update_mam_attr 2 now junk q SYNC_CASCHE_PRESSURE vol = Some (ret, vol') /\
    (0 <= ret -> due_index_lost now partition vol = false -> exists m', volume_ok m' vol' /\ keeps m vol m' vol'
      /\ (if partition =? ltfs_ip_id vol then dp_index_file_end vol' else ip_index_file_end vol') = true
      /\ append_block m' (ltfs_part_id2num partition vol) (device vol')
         = append_block m (ltfs_part_id2num partition vol) (device vol)
      /\ eod_at m' (ltfs_part_id2num partition vol) = eod_at m (ltfs_part_id2num partition vol))).
  { intros Hnest Hdue.
    destruct (write_index_alone ops xml update_mam_attr 1 now junk q SYNC_CASCHE_PRESSURE vol Hnest)
      as (ret & vol' & Hrun & Hcase).
    exists ret, vol'. split; [exact Hrun|]. intros Hpos Hlost.
    unfold due_index_lost in Hlost. fold q in Hlost. rewrite Hdue in Hlost. cbn [andb] in Hlost.
    destruct Hcase as [[? _]|Hhere]; [lia|].
    assert (Hsc : same_cache vol vol').
    { pose proof (write_index_here_cache now junk q SYNC_CASCHE_PRESSURE vol) as H. by rewrite Hhere in H. }
    pose proof (write_index_one ops xml update_mam_attr update_mam_attr_ok _ _ _ _ _ _ _ _
      Hlab Hq Hat Hroom Hhere Hpos Hlost) as Hw.
    destruct (part_id2num_ok vol q Hlab Hq) as [Hv _]. destruct Hroom as (n & Hn & Hr).
    destruct (Hr _ Hv) as (_ & _ & Hb). specialize (Hn (index vol)).
    assert (Hmax : append_block m (ltfs_part_id2num q vol) (device vol) + 1 < 2 ^ 63) by lia.
    destruct (index_written_keeps now q _ m vol vol' Hvol Hq Hsc Hmax Hw)
      as (m' & Hvol' & Hk & Hip & Hdp & Ha & He).
    exists m'. rewrite Hpq. split; [done|]. split; [done|]. split; [|done].
    unfold q, other_partition in Hip, Hdp. destruct (partition =? ltfs_ip_id vol); auto. }
  assert (Hskip : (if partition =? ltfs_ip_id vol then dp_index_file_end vol else ip_index_file_end vol) = true ->
    exists ret vol', Some (0, vol) = Some (ret, vol') /\
    (0 <= ret -> due_index_lost now partition vol = false -> exists m', volume_ok m' vol' /\ keeps m vol m' vol'
      /\ (if partition =? ltfs_ip_id vol then dp_index_file_end vol' else ip_index_file_end vol') = true
      /\ append_block m' (ltfs_part_id2num partition vol) (device vol')
         = append_block m (ltfs_part_id2num partition vol) (device vol)
      /\ eod_at m' (ltfs_part_id2num partition vol) = eod_at m (ltfs_part_id2num partition vol))).
  { intros He. exists 0, vol. split; [done|]. intros _ _. exists m. split; [done|].
    split; [apply keeps_refl|done]. }
  unfold ltfs_write_index_conditional. fold q.
  unfold dp_index_needed, index_due in Hwrite. unfold q, other_partition in *.
  destruct (partition =? ltfs_ip_id vol) eqn:Ep.
  - rewrite (proj2 (Z.eqb_neq (ltfs_dp_id vol) (ltfs_ip_id vol))) in * by congruence.
    cbn [andb] in *. rewrite Z.eqb_refl. cbn [andb].
    destruct (dp_index_file_end vol) eqn:Ed; cbn [negb orb].
    + destruct (ip_index_file_end vol && _) eqn:Ei; [|by apply Hskip].
      apply Hwrite; [done|by rewrite Z.eqb_refl].
    + apply Hwrite; [done|by rewrite Z.eqb_refl].
  - rewrite Z.eqb_refl in *. cbn [andb] in *.
    rewrite (proj2 (Z.eqb_neq (ltfs_ip_id vol) (ltfs_dp_id vol))) by congruence. cbn [andb].
    destruct (ip_index_file_end vol) eqn:Ei; cbn [negb] in *; [by apply Hskip|].
    apply Hwrite; [|done]. destruct Hends as [E| ->]; done.
Qed.

(** ** The data *)

Lemma write_loop_ok fuel m p b ao bs rest rs dev ret dev' :
  0 < bs < 2 ^ 31 -> (length rest <= fuel)%nat ->
  b + Z.of_nat (length rs) + Z.of_nat (length rest) + 1 < 2 ^ 63 ->
  appended m p b ao rs dev ->
  write_loop ops fuel bs rest dev = (ret, dev') -> 0 <= ret ->
  ret = 0 /\ exists blocks, blocks_of bs rest blocks
    /\ appended m p b ao (rs ++ (Data <$> blocks)) dev' /\ max_block_size dev' = max_block_size dev.
Proof.
  intros Hbs. revert rest rs dev. induction fuel as [|fuel IH]; intros rest rs dev Hf Hmax Hap Hrun Hret.
  all: destruct rest as [|x rest0]; [|try (cbn in Hf; lia)].
  1,2: cbn in Hrun; injection Hrun as <- <-; split; [done|]; exists [];
    cbn; rewrite app_nil_r; split; [|done]; split; [done|]; exists [], []; auto.
  cbn [write_loop] in Hrun. set (rest := x :: rest0) in *.
  set (n := Z.to_nat (if _ >? bs then bs else _)) in Hrun.
  assert (Hn : (0 < n <= length rest)%nat /\ Z.of_nat n <= bs
     /\ (Z.of_nat n = bs \/ n = length rest)).
  { unfold n. assert (0 < Z.of_nat (length rest)) by (unfold rest; cbn; lia).
    destruct (_ >? bs) eqn:E; bool_to_prop; lia. }
  destruct (tape_write ops (take n rest) false true dev) as [r dev1] eqn:Hw.
  destruct (r <? 0) eqn:Hr; [injection Hrun as <- _; bool_to_prop; lia|]. bool_to_prop.
  assert (Hlt : length (take n rest) = n) by (rewrite length_take; lia).
  destruct (appended_data ops m p b ao rs dev (take n rest) false true r dev1 Hap ltac:(lia) ltac:(lia) Hw Hr)
    as [Hap1 Hm1].
  destruct (IH (drop n rest) (rs ++ [Data (take n rest)]) dev1) with (4 := Hrun)
    as (-> & blocks & Hb & Hap2 & Hm2); [rewrite length_drop; lia| |done|done|].
  { rewrite length_app, length_drop. cbn [length]. lia. }
  split; [done|]. exists (take n rest :: blocks). rewrite Hm2, Hm1. split; [|split; [|done]].
  2:{ cbn. by rewrite <- app_assoc in Hap2. }
  destruct Hb as (Hc & full & last & -> & Hfull & Hlast). split.
  { cbn. by rewrite Hc, take_drop. }
  destruct Hn as (Hn1 & Hn2 & [Hn3|Hn3]).
  - exists (take n rest :: full), last. split; [done|]. split; [|done]. constructor; [lia|done].
  - rewrite Hn3, drop_all in Hc. exists [], [take n rest]. split; [|split; [done|]].
    + assert (full ++ last = []) as ->; [|done].
      destruct full as [|f full].
      * destruct Hlast as [->|(k & -> & Hk)]; [done|]. cbn in Hc. rewrite app_nil_r in Hc.
        subst k. cbn in Hk. lia.
      * exfalso. apply Forall_cons_1 in Hfull as [Hf1 _]. cbn in Hc.
        apply app_eq_nil in Hc as [-> _]. cbn in Hf1. lia.
    + right. exists (take n rest). split; [done|]. rewrite Hlt. lia.
Qed.

(** What a write that succeeds has done to the volume: the blocks of [buf] are on
    the partition from the append position on. *)
Definition data_written (partition : Z) (buf : list Z) (m : medium) vol (startblock : Z) (m' : medium) vol' : Prop :=
  let p := ltfs_part_id2num partition vol in
  startblock = append_block m p (device vol) /\ 0 <= startblock
  /\ volume_ok m' vol' /\ keeps m vol m' vol'
  /\ exists blocks, blocks_of (blocksize (label vol)) buf blocks
     /\ append_block m' p (device vol') = startblock + Z.of_nat (length blocks)
     /\ forall i, 0 <= i < Z.of_nat (length blocks) ->
          record_at m' p (startblock + i) = Data <$> blocks !! Z.to_nat i.

Lemma write_repetitions_one n bs buf dev :
  n = 1%nat -> write_repetitions ops n bs buf dev
  = let '(ret, dev') := write_loop ops (length buf) bs buf dev in
    if ret <? 0 then (ret, dev') else (0, dev').
Proof. intros ->. reflexivity. Qed.

(** The last part of the function: blocks appended on a volume that is ready. *)
Lemma append_blocks_ok partition buf m vol unlock ret dev ret' dev' :
  volume_ok m vol -> partition = ltfs_dp_id vol \/ partition = ltfs_ip_id vol -> buf <> [] ->
  (if partition =? ltfs_ip_id vol then dp_index_file_end vol else ip_index_file_end vol) = true ->
  let p := ltfs_part_id2num partition vol in
  append_block m p (device vol) + Z.of_nat (length buf) + 1 < 2 ^ 63 ->
  let vol1 := if partition =? ltfs_ip_id vol then set_file_end false (dp_index_file_end vol) vol
              else set_file_end (ip_index_file_end vol) false vol in
  tape_seek_append_position ops p unlock (device vol) = (ret, dev) -> 0 <= ret ->
  write_repetitions ops 1 (blocksize (label vol)) buf dev = (ret', dev') -> 0 <= ret' ->
  exists m', data_written partition buf m vol (TapeOps.block (position dev)) m' (set_device dev' vol1).
Proof.
  intros Hvol Hpart Hbuf Hother p Hmax vol1 Hseek Hret Hrep Hret'.
  pose proof Hvol as [Hlab Hat Happ Hends Hcache].
  destruct (part_id2num_ok vol partition Hlab Hpart) as [Hv _]. fold p in Hv.
  destruct (tape_seek_append_ok ops _ _ _ _ _ _ Hat Hv (Happ _ Hv) Hseek Hret)
    as (Hats & Hps & Hb & Hle & Hmx & Hoth).
  set (b := append_block m p (device vol)) in *.
  assert (Hb0 : 0 <= b) by (unfold b, append_block; destruct (_ =? 0); [unfold eod_at; lia|by apply Happ]).
  rewrite write_repetitions_one in Hrep by done.
  destruct (write_loop ops (length buf) (blocksize (label vol)) buf dev) as [r d1] eqn:Hloop.
  destruct (r <? 0) eqn:Hr; [injection Hrep as <- _; bool_to_prop; lia|]. bool_to_prop.
  injection Hrep as <- <-. pose proof (blocksize_ok _ Hlab) as Hbs.
  destruct (write_loop_ok (length buf) m p b (sel (1 - p) (append_pos dev), max_block_size dev) _ buf [] dev r d1
    Hbs ltac:(lia) ltac:(cbn; lia)) with (3 := Hr) as (-> & blocks & Hblk & Hap & Hmx1).
  { by apply (appended_start ops). }
  { exact Hloop. }
  destruct (blocks_of_length _ _ _ (proj1 Hbs) Hblk Hbuf) as [Hn0 Hn1].
  destruct blocks as [|k0 ks] eqn:Eb; [cbn in Hn0; lia|]. rewrite <- Eb in *. clear k0 ks Eb.
  assert (Hrs : Data <$> blocks <> []) by (intros E; apply (f_equal length) in E; rewrite length_fmap in E; cbn in E; lia).
  cbn [app] in Hap. destruct Hap as (Hat1 & Hpp & Hpb & _ & Hbe & Hao & Hap).
  destruct Hap as [|Hap]; [done|]. rewrite length_fmap in Hap, Hpb.
  injection Hao as Hao Hmx2. rewrite Hoth in Hao.
  set (m' := write_at p b (Data <$> blocks) m) in *.
  assert (Hatm : dev_at d1 m') by (by destruct (Data <$> blocks)).
  exists m'. unfold data_written. fold p b. rewrite Hb. split; [done|]. split; [done|].
  assert (Hl1 : label (set_device d1 vol1) = label vol) by (unfold vol1; by destruct (_ =? _)).
  assert (Hdev : device (set_device d1 vol1) = d1) by done.
  assert (Ha1 : append_block m' p d1 = b + Z.of_nat (length blocks)).
  { unfold append_block. rewrite Hap. by rewrite (proj2 (Z.eqb_neq _ _)) by lia. }
  assert (Hk : keeps m vol m' (set_device d1 vol1)).
  { apply (append_keeps m vol m' _ p (Data <$> blocks)); try done; rewrite ?Hdev; [by apply Happ|].
    rewrite Ha1. fold b. lia. }
  split; [|split; [exact Hk|]].
  - split.
    + destruct Hlab as [H1 H2 H3 H4]. split; rewrite ?Hl1, ?Hdev, ?Hmx2, ?Hmx; done.
    + by rewrite Hdev.
    + intros q Hq. rewrite Hdev. unfold TAPE_BLOCK_MAX.
      destruct (decide (q = p)) as [->|Hne]; [rewrite Hap; lia|].
      assert (q = 1 - p) as -> by (destruct Hq as [->| ->], Hv as [->| ->]; lia).
      rewrite Hao. by apply Happ, valid_part_other.
    + unfold vol1. destruct (partition =? ltfs_ip_id vol); cbn; auto.
    + apply (keeps_cache m vol); [done| |done]. unfold vol1. by destruct (_ =? _).
  - exists blocks. split; [done|]. split; [by rewrite Hdev|]. intros i Hi. unfold m'.
    rewrite record_at_write_new by (done || lia). rewrite list_lookup_fmap. f_equal. f_equal. lia.
Qed.

Lemma out_unlock_ok ret vol : 0 <= ret -> out_unlock ret vol = (ret, vol).
Proof.
  intros Hret. unfold out_unlock.
  destruct (NEED_REVAL ret) eqn:E1; [apply need_reval_neg in E1; lia|].
  destruct (IS_UNEXPECTED_MOVE ret) eqn:E2; [apply unexpected_move_neg in E2; lia|done].
Qed.

Lemma out_unlock_neg ret vol : ret < 0 -> exists vol', out_unlock ret vol = (ret, vol').
Proof.
  intros _. unfold out_unlock. destruct (NEED_REVAL ret); [by eexists|].
  destruct (IS_UNEXPECTED_MOVE ret); by eexists.
Qed.

Lemma data_written_keeps partition buf m vol start m1 vol1 m' vol' :
  keeps m vol m1 vol1 ->
  append_block m1 (ltfs_part_id2num partition vol) (device vol1)
    = append_block m (ltfs_part_id2num partition vol) (device vol) ->
  data_written partition buf m1 vol1 start m' vol' -> data_written partition buf m vol start m' vol'.
Proof.
  intros Hk Ha (Hst & H0 & Hvol & Hk' & Hblk). unfold data_written.
  rewrite (keeps_part _ _ _ _ partition Hk) in *. destruct Hk as [L Hk0] eqn:E.
  rewrite L in Hblk. rewrite <- Ha. split; [done|]. split; [done|]. split; [done|].
  split; [|done]. by eapply keeps_trans.
Qed.

(** The call always returns; if it reports success, the blocks are there. *)
Lemma write_data_ok now junk partition buf m vol :
  volume_ok m vol -> partition = ltfs_dp_id vol \/ partition = ltfs_ip_id vol ->
  has_room xml SYNC_CASCHE_PRESSURE m vol -> buf <> [] ->
  append_block m (ltfs_part_id2num partition vol) (device vol) + Z.of_nat (length buf) + 1 < 2 ^ 63 ->
  exists rc sb vol',
    _ltfs_fsraw_write_data_unlocked ops xml update_mam_attr now junk partition buf 1 vol = Some (rc, sb, vol')
    /\ (0 <= rc -> due_index_lost now partition vol = false ->
          exists start m', sb = Some start /\ data_written partition buf m vol start m' vol').
Proof.
  intros Hvol Hpart Hroom Hbuf Hmax. unfold _ltfs_fsraw_write_data_unlocked.
  assert (Hid : negb (partition =? ltfs_dp_id vol) && negb (partition =? ltfs_ip_id vol) = false).
  { destruct Hpart as [->| ->]; rewrite Z.eqb_refl; [done|apply andb_false_r]. }
  rewrite Hid. assert (Hlen : (Z.of_nat (length buf) =? 0) = false).
  { apply Z.eqb_neq. destruct buf; [done|cbn; lia]. }
  rewrite Hlen. cbn [orb Nat.eqb Nat.ltb Nat.leb andb].
  destruct (tape_device_lock 0 (device vol) <? 0) eqn:El.
  { do 3 eexists. split; [done|]. bool_to_prop. lia. }
  set (ro := ltfs_get_partition_readonly partition vol).
  destruct ((ro <? 0) && negb (ro =? _)) eqn:Ero.
  { apply andb_prop in Ero as [Ero _]. bool_to_prop. destruct (out_unlock_neg ro vol Ero) as [v E].
    rewrite E. do 3 eexists. split; [done|]. lia. }
  destruct (write_index_conditional_ok now junk partition m vol Hvol Hpart Hroom)
    as (r1 & vol1 & Hidx & Hok). unfold other_partition in Hidx. rewrite Hidx.
  destruct (r1 <? 0) eqn:Er1.
  { bool_to_prop. destruct (out_unlock_neg r1 vol1 Er1) as [v E].
    rewrite E. do 3 eexists. split; [done|]. lia. }
  bool_to_prop.
  destruct (due_index_lost now partition vol) eqn:Hlost.
  { set (vol2 := if partition =? ltfs_ip_id vol1 then _ else _).
    destruct (tape_seek_append_position ops _ _ (device vol2)) as [r3 d3].
    destruct (r3 <? 0); [|destruct (write_repetitions ops 1 _ buf _) as [r4 d4]];
      destruct (out_unlock _ _) as [r5 vol5]; do 3 eexists; (split; [done|discriminate 2]). }
  destruct (Hok Er1 eq_refl) as (m1 & Hvol1 & Hk & Hend & Ha & He).
  pose proof (keeps_part _ _ _ _ partition Hk) as Hpn. pose proof Hk as [L _].
  assert (Hip : ltfs_ip_id vol1 = ltfs_ip_id vol) by (unfold ltfs_ip_id; by rewrite L).
  assert (Hdp : ltfs_dp_id vol1 = ltfs_dp_id vol) by (unfold ltfs_dp_id; by rewrite L).
  rewrite Hip. set (vol2 := if partition =? ltfs_ip_id vol then _ else _).
  assert (Hd2 : device vol2 = device vol1) by (unfold vol2; by destruct (partition =? ltfs_ip_id vol)).
  assert (Hl2 : label vol2 = label vol1) by (unfold vol2; by destruct (partition =? ltfs_ip_id vol)).
  assert (Hp2 : ltfs_part_id2num partition vol2 = ltfs_part_id2num partition vol1)
    by (unfold ltfs_part_id2num; by rewrite Hl2).
  rewrite Hd2, Hp2.
  destruct (tape_seek_append_position ops _ _ (device vol1)) as [r3 d3] eqn:Hseek.
  destruct (r3 <? 0) eqn:Er3.
  { bool_to_prop. destruct (out_unlock_neg r3 (set_device d3 vol2) Er3) as [v E].
    rewrite E. do 3 eexists. split; [done|]. lia. }
  cbn [device set_device].
  destruct (write_repetitions ops 1 _ buf d3) as [r4 d4] eqn:Hrep.
  destruct (Z_lt_ge_dec r4 0) as [Hneg|Hpos].
  { destruct (out_unlock_neg r4 (set_device d4 (set_device d3 vol2)) Hneg) as [v E].
    rewrite E. do 3 eexists. split; [done|]. lia. }
  rewrite out_unlock_ok by lia. do 3 eexists. split; [done|]. intros _ _.
  eexists. rewrite <- L in Hrep. bool_to_prop.
  destruct (append_blocks_ok partition buf m1 vol1 _ r3 d3 r4 d4 Hvol1 ltac:(by rewrite Hip, Hdp) Hbuf
    ltac:(by rewrite Hip) ltac:(rewrite Hpn, Ha; lia) Hseek Er3 Hrep ltac:(lia)) as [m' Hw].
  exists m'. split; [done|]. rewrite Hip in Hw.
  exact (data_written_keeps _ _ _ _ _ _ _ _ _ Hk Ha Hw).
Qed.

Lemma volume_ok_set_index m vol idx : volume_ok m vol -> volume_ok m (set_index idx vol).
Proof. intros [[? ? ? ?] ? ? ? ?]. by split. Qed.

(** The bytes of the new extent are those of the buffer. *)
Lemma written_bytes partition buf offset m vol start m' vol' off :
  volume_ok m vol -> partition = ltfs_dp_id vol \/ partition = ltfs_ip_id vol ->
  data_written partition buf m vol start m' vol' ->
  offset <= off < offset + Z.of_nat (length buf) ->
  let ext := {| start := {| off_partition := partition; off_block := start |}; byteoffset := 0;
                bytecount := Z.of_nat (length buf); fileoffset := offset |} in
  let pl := place (blocksize (label vol)) ext off in
  block_settled m' vol' pl.1.1 pl.1.2
  /\ place_byte m' vol' (Some pl) = buf !! Z.to_nat (off - offset).
Proof.
  intros Hvol Hpart (Hst & H0 & Hvol' & Hk & blocks & Hblk & Happ & Hrec) Hoff ext pl.
  pose proof (vo_label _ _ Hvol) as Hlab. pose proof (blocksize_ok _ Hlab) as Hbs.
  destruct (part_id2num_ok vol partition Hlab Hpart) as [Hv _].
  subst pl. unfold place. subst ext. cbn [off_partition off_block Extents.start byteoffset fileoffset fst snd].
  rewrite Z.add_0_r. set (i := off - offset) in *.
  destruct (blocks_of_lookup _ _ _ i (proj1 Hbs) Hblk ltac:(lia)) as (blk & Hl & Hb).
  pose proof (Z.div_pos i (blocksize (label vol)) ltac:(lia) ltac:(lia)) as Hd.
  pose proof (lookup_lt_Some _ _ _ Hl) as Hlt.
  unfold block_settled, place_byte. rewrite (keeps_part _ _ _ _ partition Hk), Happ.
  split; [split; [done|lia]|]. by rewrite Hrec, Hl by lia.
Qed.

(** The extent of a write, put into the file. *)
Lemma extent_added now split_ok d buf offset partition update_time m vol start m' vol1 :
  volume_ok m vol -> partition = ltfs_dp_id vol \/ partition = ltfs_ip_id vol ->
  dentry_wf (blocksize (label vol)) d -> file_settled m vol d ->
  0 <= offset -> offset + Z.of_nat (length buf) < 2 ^ 63 -> start < 2 ^ 63 ->
  data_written partition buf m vol start m' vol1 ->
  let ext := {| start := {| off_partition := partition; off_block := start |}; byteoffset := 0;
                bytecount := Z.of_nat (length buf); fileoffset := u64 offset |} in
  let '(ret, d', vol') := _ltfs_fsraw_add_extent_unlocked now split_ok ext update_time d vol1 in
  volume_ok m' vol' /\ keeps m vol m' vol' /\
  (ret = 0 /\ dentry_wf (blocksize (label vol)) d' /\ file_settled m' vol' d'
     /\ size d' = Z.max (size d) (offset + Z.of_nat (length buf)) /\ ltfs_is_dirty vol' = true
     /\ (forall off, file_byte m' vol' d' off =
           if (offset <=? off) && (off <? offset + Z.of_nat (length buf))
           then buf !! Z.to_nat (off - offset) else file_byte m vol d off)
   \/ ret = - LTFS_NO_MEMORY /\ split_ok = false /\ d' = d).
Proof.
  intros Hvol Hpart Hd Hset Ho Hmax Hst Hw. rewrite u64_small by lia. cbv zeta.
  set (ext := {| start := _ |}).
  pose proof Hw as (_ & H0 & Hvol1 & Hk & _). pose proof Hk as [L _].
  pose proof (blocksize_ok _ (vo_label _ _ Hvol)) as Hbs.
  assert (Hext : extent_wf (blocksize (label vol)) ext).
  { pose proof (Z.div_le_upper_bound (Z.of_nat (length buf)) (blocksize (label vol)) (2 ^ 63) ltac:(lia) ltac:(nia)).
    split; cbn [ext fileoffset bytecount byteoffset Extents.start off_block]; try rewrite Z.add_0_l; lia. }
  destruct (_ltfs_fsraw_add_extent_unlocked now split_ok ext update_time d vol1) as [[ret d'] vol'] eqn:Hadd.
  rewrite <- L in Hd, Hext, Hbs.
  destruct (add_extent_ok now split_ok ext update_time d vol1 ret d' vol' ltac:(lia) Hd Hext Hadd)
    as [(-> & Hd' & Hpl & Hsz & Hv' & Hdirty)|(-> & Hsp & -> & ->)].
  2:{ split; [done|]. split; [done|]. right. done. }
  assert (Hk' : keeps m vol m' vol') by (subst vol'; exact Hk).
  split; [subst vol'; by apply volume_ok_set_index|]. split; [exact Hk'|]. left.
  rewrite L in Hd'. split; [done|]. split; [exact Hd'|].
  assert (Hpl' : forall off, byte_place vol' d' off =
    if in_extent ext off then Some (place (blocksize (label vol)) ext off) else byte_place vol d off).
  { intros off. subst vol'. specialize (Hpl off). unfold byte_place in *. cbn [label set_index].
    by rewrite Hpl, L. }
  destruct (keeps_file m vol m' vol' d Hk' Hset) as [Hset' Hold].
  assert (Hnew : forall off, in_extent ext off = true ->
    block_settled m' vol' (place (blocksize (label vol)) ext off).1.1 (place (blocksize (label vol)) ext off).1.2
    /\ place_byte m' vol' (Some (place (blocksize (label vol)) ext off)) = buf !! Z.to_nat (off - offset)).
  { intros off Hin. unfold in_extent in Hin. cbn [ext fileoffset bytecount] in Hin. bool_to_prop. subst vol'.
    apply (written_bytes partition buf offset m vol start m' vol1 off Hvol Hpart Hw). lia. }
  split; [|split; [exact Hsz|split; [exact Hdirty|]]].
  - intros off pid blk i. rewrite Hpl'. destruct (in_extent ext off) eqn:E.
    + destruct (Hnew off E) as [Hs _]. intros Hpe. injection Hpe as <- <- _. exact Hs.
    + intros Hp. rewrite <- (keeps_place _ _ _ _ d off Hk') in Hp. by eapply Hset'.
  - intros off. unfold file_byte at 1. rewrite Hpl'.
    change ((offset <=? off) && (off <? offset + Z.of_nat (length buf))) with (in_extent ext off).
    destruct (in_extent ext off) eqn:E; [by apply Hnew|].
    rewrite <- (Hold off). unfold file_byte. by rewrite (keeps_place _ _ _ _ d off Hk').
Qed.

Context (wait_revalidation : ltfs_volume D -> Z * ltfs_volume D).
Context (revalidate : bool -> ltfs_volume D -> Z * ltfs_volume D).

(** C1: Writing to a file returns.  If the data reached the tape, the bytes written
    read back from the file in their range, every other byte of the file and all
    bytes of all other files are what they were, the size has grown to the end of
    the write if that is further, the file is well formed, and the volume is fit
    for the next call; only the allocation for a split extent can still fail, and
    then the file is as before.  If the data did not reach the tape, for another
    reason than a fence or a reset, the file is as before.  Not covered is a drive
    that is reset while the index of the other partition is written, which comes
    first when it is due, and whose reset the index writer does not notice
    ([due_index_lost]). *)
Theorem fsraw_write_spec fuel now junk split_ok d buf offset partition update_time m vol :
  volume_ok m vol -> partition = ltfs_dp_id vol \/ partition = ltfs_ip_id vol ->
  has_room xml SYNC_CASCHE_PRESSURE m vol -> buf <> [] ->
  append_block m (ltfs_part_id2num partition vol) (device vol) + Z.of_nat (length buf) + 1 < 2 ^ 63 ->
  dentry_wf (blocksize (label vol)) d -> file_settled m vol d ->
  0 <= offset -> offset + Z.of_nat (length buf) < 2 ^ 63 -> reval vol = 0 ->
  exists rc sb vol1,
    _ltfs_fsraw_write_data_unlocked ops xml update_mam_attr now junk partition buf 1 vol = Some (rc, sb, vol1) /\
    (rc < 0 -> rc <> - LTFS_DEVICE_FENCED -> NEED_REVAL rc = false ->
      exists vol', ltfs_fsraw_write ops xml update_mam_attr wait_revalidation revalidate (S fuel) now junk
        split_ok d buf offset partition update_time vol = Some (rc, d, vol')) /\
    (0 <= rc -> due_index_lost now partition vol = false -> exists ret d' m' vol',
      ltfs_fsraw_write ops xml update_mam_attr wait_revalidation revalidate (S fuel) now junk
        split_ok d buf offset partition update_time vol = Some (ret, d', vol')
      /\ volume_ok m' vol'
      /\ (forall e, file_settled m vol e ->
            file_settled m' vol' e /\ forall off, file_byte m' vol' e off = file_byte m vol e off)
      /\ (ret = 0 /\ dentry_wf (blocksize (label vol)) d' /\ file_settled m' vol' d'
            /\ size d' = Z.max (size d) (offset + Z.of_nat (length buf)) /\ ltfs_is_dirty vol' = true
            /\ (forall off, file_byte m' vol' d' off =
                  if (offset <=? off) && (off <? offset + Z.of_nat (length buf))
                  then buf !! Z.to_nat (off - offset) else file_byte m vol d off)
          \/ ret = - LTFS_NO_MEMORY /\ split_ok = false /\ d' = d)).
Proof.
  intros Hvol Hpart Hroom Hbuf Hmax Hd Hset Ho Hend Hre.
  destruct (write_data_ok now junk partition buf m vol Hvol Hpart Hroom Hbuf Hmax) as (rc & sb & vol1 & Hrun & Hok).
  exists rc, sb, vol1. split; [done|]. cbn [ltfs_fsraw_write]. unfold ltfs_get_volume_lock.
  rewrite Hre, Hrun. change (0 <? 0) with false. cbv iota. split.
  - intros Hneg Hf Hr. rewrite (proj2 (Z.eqb_neq _ _)) by done. rewrite Hr. cbn [orb].
    rewrite (proj2 (Z.ltb_lt rc 0)) by done. destruct (IS_UNEXPECTED_MOVE rc); by eexists.
  - intros Hpos Hlost. destruct (Hok Hpos Hlost) as (start & m' & -> & Hw).
    assert (Hcodes : NEED_REVAL rc = false /\ IS_UNEXPECTED_MOVE rc = false).
    { split; [destruct (NEED_REVAL rc) eqn:E; [apply need_reval_neg in E; lia|done]|].
      destruct (IS_UNEXPECTED_MOVE rc) eqn:E; [apply unexpected_move_neg in E; lia|done]. }
    destruct Hcodes as [-> ->].
    rewrite (proj2 (Z.eqb_neq _ _)), (proj2 (Z.ltb_ge rc 0)) by (unfold LTFS_DEVICE_FENCED; lia).
    cbn [orb default]. pose proof Hw as (Hst & _).
    pose proof (extent_added now split_ok d buf offset partition update_time m vol start m' vol1
      Hvol Hpart Hd Hset Ho Hend ltac:(lia) Hw) as Hadd. cbv zeta in Hadd.
    unfold default. cbn [id].
    destruct (_ltfs_fsraw_add_extent_unlocked now split_ok _ update_time d vol1) as [[ret d'] vol'] eqn:E.
    destruct Hadd as (Hv & Hk & Hcase). exists ret, d', m', vol'. split; [done|]. split; [done|].
    split; [|exact Hcase]. intros e He. exact (keeps_file _ _ _ _ _ Hk He).
Qed.
End spec.
