(* ===== verification/FsRawReadSpec.v ===== *)
(** * Reading file data

    A read that succeeds delivers the bytes of the file, zeros for its holes, up
    to the end of the file, whatever the position of the head and the contents of
    the read cache were. *)

From S2P Require Import Prelude Errors TapeOps TapeDev TapeDevSpec Append Coherency Extents ExtentsSpec.
From S2P Require Import Volume VolumeSpec FsRaw FsRawSpec FsRawWriteSpec.
Open Scope Z_scope.

(** [out] is what [content] has from [lo] on. *)
Definition delivers (content : Z -> option Z) (lo : Z) (out : list Z) : Prop :=
  forall i x, out !! i = Some x -> content (lo + Z.of_nat i) = Some x.

Lemma delivers_app content lo out more :
  delivers content lo out -> delivers content (lo + Z.of_nat (length out)) more ->
  delivers content lo (out ++ more).
Proof.
  intros H1 H2 i x Hi. apply lookup_app_Some in Hi as [Hi|[Hge Hi]]; [by apply H1|].
  specialize (H2 _ _ Hi). by replace (lo + Z.of_nat i) with (lo + Z.of_nat (length out) + Z.of_nat (i - length out)) by lia.
Qed.

Lemma delivers_zeros content lo n :
  (forall off, lo <= off < lo + n -> content off = Some 0) -> delivers content lo (zeros n).
Proof.
  intros H i x Hi. unfold zeros in Hi. apply lookup_replicate in Hi as [-> Hi]. apply H. lia.
Qed.

Lemma length_zeros n : 0 <= n -> Z.of_nat (length (zeros n)) = n.
Proof. intros. unfold zeros. rewrite length_replicate. lia. Qed.

(** A drive on which nothing goes wrong: it finds the blocks it has and reads its
    data records. *)
Record reads_reliably {D : Type} (ops : tape_ops D) (tape_at : D -> medium -> tc_position -> Prop) : Prop := {
  locate_reliable : forall dest pos d m, tape_at d m pos -> valid_part (partition dest) ->
    0 <= block dest <= eod_at m (partition dest) -> 0 <= (op_locate ops dest pos d).1.1;
  read_reliable : forall count u pos d m bytes, tape_at d m pos -> 0 <= count < 2 ^ 31 ->
    record_at m (partition pos) (block pos) = Some (Data bytes) -> 0 <= (op_read ops count u pos d).1.1.1
}.

Section spec.
Context {D : Type} (ops : tape_ops D) {tape_at : D -> medium -> tc_position -> Prop}.
Context `{!TapeOk ops tape_at}.
Implicit Types (dev : device_data D) (vol : ltfs_volume D) (d : dentry).
Abbreviation dev_at := (dev_at (tape_at := tape_at)).
Abbreviation volume_ok := (volume_ok (tape_at := tape_at)).

(** ** What reading leaves alone *)

Definition same_for_readers vol vol' : Prop :=
  label vol' = label vol /\ append_pos (device vol') = append_pos (device vol)
  /\ max_block_size (device vol') = max_block_size (device vol)
  /\ ip_index_file_end vol' = ip_index_file_end vol /\ dp_index_file_end vol' = dp_index_file_end vol.

Lemma same_for_readers_refl vol : same_for_readers vol vol.
Proof. done. Qed.

Lemma same_for_readers_trans v1 v2 v3 :
  same_for_readers v1 v2 -> same_for_readers v2 v3 -> same_for_readers v1 v3.
Proof. unfold same_for_readers. intuition congruence. Qed.

Lemma same_for_readers_settled m vol vol' pid blk :
  same_for_readers vol vol' -> block_settled m vol pid blk -> block_settled m vol' pid blk.
Proof.
  intros (L & A & _). unfold block_settled, append_block, ltfs_part_id2num. by rewrite L, A.
Qed.

Lemma same_for_readers_byte m vol vol' pl :
  same_for_readers vol vol' -> place_byte m vol' pl = place_byte m vol pl.
Proof. intros (L & _). unfold place_byte, ltfs_part_id2num. by rewrite L. Qed.

Lemma same_for_readers_ok m vol vol' :
  same_for_readers vol vol' -> volume_ok m vol -> dev_at (device vol') m -> cache_ok m vol' ->
  volume_ok m vol'.
Proof.
  intros (L & A & M & I & J) [[? ? ? ?] Hat Ha He _] Hat' Hc.
  split; [split| | | |]; unfold ltfs_ip_id, ltfs_dp_id in *; rewrite ?L, ?A, ?M, ?I, ?J; try done.
Qed.

(** ** The tape *)

Lemma tape_read_ok m count' u dev n data dev' :
  dev_at dev m -> 0 <= count' < 2 ^ 31 -> tape_read ops count' u None dev = (n, data, dev') -> 0 <= n ->
  dev_at dev' m /\ append_pos dev' = append_pos dev /\ max_block_size dev' = max_block_size dev
  /\ partition (position dev') = partition (position dev)
  /\ block (position dev') = block (position dev) + 1 /\ n = Z.of_nat (length data)
  /\ match record_at m (partition (position dev)) (block (position dev)) with
     | Some (Data bytes) => data = take (Z.to_nat count') bytes
     | Some Filemark => data = []
     | None => False
     end.
Proof.
  intros Hat Hc Hr Hn. unfold tape_read in Hr.
  destruct (op_read ops count' u (position dev) (backend_data dev)) as [[[rc buf] pos'] d'] eqn:Hop.
  injection Hr as <- <- <-.
  destruct (read_ok _ _ _ _ _ _ _ _ _ Hat Hc Hop Hn) as (H1 & H2 & H3 & H4 & H5). done.
Qed.

Lemma tape_seek_reaches m prt blk dev :
  reads_reliably ops tape_at -> dev_at dev m -> valid_part prt -> 0 <= blk <= eod_at m prt ->
  0 <= (tape_seek ops (seek_pos prt blk) dev).1.
Proof.
  intros Hrel Hat Hv Hb. unfold tape_seek. cbn [partition block seek_pos].
  destruct ((prt =? partition (position dev)) && (blk =? block (position dev))) eqn:E.
  - bool_to_prop. subst. rewrite !Z.eqb_refl. cbn. by rewrite andb_false_r.
  - pose proof (locate_reliable _ _ Hrel (seek_pos prt blk) _ _ _ Hat Hv Hb) as Hn.
    destruct (op_locate ops (seek_pos prt blk) (position dev) (backend_data dev)) as [[r pos'] d'] eqn:Hl.
    cbn [fst] in Hn. rewrite (proj2 (Z.ltb_ge r 0)) by done.
    destruct (locate_ok (seek_pos prt blk) _ _ _ _ _ _ Hat Hv (proj1 Hb) Hl Hn) as (-> & _ & Hp & Hbk).
    cbn [partition block seek_pos] in Hp, Hbk.
    destruct (note_space_same (set_backend pos' d' dev)) as (-> & _). cbn [position set_backend].
    rewrite Hp, Hbk, Z.min_l, !Z.eqb_refl by lia. cbn. by rewrite andb_false_r.
Qed.

Lemma u64_sub_r a b : u64 (a - u64 b) = u64 (a - b).
Proof. unfold u64. by rewrite Zminus_mod_idemp_r. Qed.

(** ** One block *)

(** The state of the loops: what has been delivered since [lo], and where the next
    byte is. *)
Definition reading (m : medium) (content : Z -> option Z) vol (lo : Z) (st : read_state (D := D)) : Prop :=
  same_for_readers vol (rs_vol st) /\ dev_at (device (rs_vol st)) m /\ cache_ok m (rs_vol st)
  /\ delivers content lo (rs_out st) /\ rs_next st = lo + Z.of_nat (length (rs_out st)).

(** Where the bytes of block [blk] begin in the file. *)
Definition block_begin (bs : Z) (entry : extent_info) (blk : Z) : Z :=
  fileoffset entry - byteoffset entry + (blk - off_block (start entry)) * bs.

Section blocks.
Context (m : medium) (content : Z -> option Z) vol0 (entry : extent_info) (lo count bs : Z).
Let pid : Z := off_partition (start entry).
Let pnum : Z := ltfs_part_id2num pid vol0.
Hypothesis bs_range : 0 < bs < 2 ^ 31.
Hypothesis bs_label : blocksize (label vol0) = bs.
Hypothesis vol0_append : forall p, valid_part p -> append_block m p (device vol0) < 2 ^ 64 - 1.
Hypothesis entry_ok : extent_wf bs entry.
Hypothesis lo_range : 0 <= lo.
Hypothesis count_range : 0 < count.
Hypothesis end_range : lo + count < 2 ^ 63.

Hypothesis entry_content : forall off, fileoffset entry <= off < fileoffset entry + bytecount entry ->
  content off = place_byte m vol0 (Some (place bs entry off))
  /\ block_settled m vol0 (place bs entry off).1.1 (place bs entry off).1.2.

Lemma place_in_block blk off :
  block_begin bs entry blk <= off < block_begin bs entry blk + bs ->
  place bs entry off = (pid, blk, off - block_begin bs entry blk).
Proof.
  intros Hoff. unfold place, block_begin in *.
  replace (off - fileoffset entry + byteoffset entry)
    with (off - (fileoffset entry - byteoffset entry + (blk - off_block (start entry)) * bs)
          + (blk - off_block (start entry)) * bs) by lia.
  rewrite Z.div_add, Z.mod_add, Z.div_small, Z.mod_small by lia. f_equal. f_equal; unfold pid; lia.
Qed.

(** What is copied out of a block. *)
Lemma block_bytes blk full rest next n :
  record_at m pnum blk = Some (Data full) ->
  fileoffset entry <= next -> block_begin bs entry blk <= next ->
  next + n <= fileoffset entry + bytecount entry -> 0 <= n ->
  next + n - block_begin bs entry blk <= Z.of_nat (length (take (Z.to_nat bs) full)) ->
  let bytes := take (Z.to_nat n) (drop (Z.to_nat (next - block_begin bs entry blk)) (take (Z.to_nat bs) full ++ rest)) in
  Z.of_nat (length bytes) = n /\ delivers content next bytes.
Proof.
  intros Hrec H1 H2 H3 Hn Hlen bytes. rewrite length_take in Hlen. split.
  { unfold bytes. rewrite length_take, length_drop, length_app, length_take. lia. }
  intros i x Hi. pose proof Hi as Hlt. apply lookup_lt_Some in Hlt. unfold bytes in *.
  rewrite length_take, length_drop, length_app, length_take in Hlt.
  rewrite lookup_take_lt in Hi by lia.
  rewrite lookup_drop, lookup_app_l, lookup_take_lt in Hi by (rewrite ?length_take; lia).
  destruct (entry_content (next + Z.of_nat i) ltac:(lia)) as [Hc _]. rewrite Hc.
  rewrite (place_in_block blk) by lia. cbn [place_byte]. fold pnum. rewrite Hrec. rewrite <- Hi. f_equal. lia.
Qed.

(** The head, and what the cache test says about it. *)
Definition head_at (blk : Z) vol (cur : tc_position) : Prop :=
  partition (position (device vol)) = pnum
  /\ block (position (device vol)) = if cache_hit pid pnum blk vol cur then blk + 1 else blk.

Lemma fetch_block_ok blk blockbytes vol cur ret vol' cur' :
  same_for_readers vol0 vol -> dev_at (device vol) m -> cache_ok m vol ->
  block_settled m vol0 pid blk -> 0 < blockbytes -> head_at blk vol cur ->
  fetch_block ops bs None pid pnum blk blockbytes vol cur = (ret, vol', cur') -> 0 <= ret ->
  same_for_readers vol0 vol' /\ dev_at (device vol') m /\ cache_ok m vol'
  /\ partition (position (device vol')) = pnum /\ block (position (device vol')) = blk + 1
  /\ off_block (last_pos vol') = blk
  /\ exists full rest, record_at m pnum blk = Some (Data full)
       /\ last_block vol' = Some (take (Z.to_nat bs) full ++ rest)
       /\ blockbytes <= Z.of_nat (length (take (Z.to_nat bs) full)).
Proof.
  intros Hs Hat Hc Hset Hbb [Hp Hb] Hf Hret. unfold fetch_block in Hf.
  assert (Hpn : forall v, same_for_readers vol0 v -> ltfs_part_id2num pid v = pnum).
  { intros v (L & _). unfold ltfs_part_id2num, pnum, ltfs_part_id2num. by rewrite L. }
  assert (Hbl : forall v, same_for_readers vol0 v -> blocksize (label v) = bs) by (intros v (L & _); by rewrite L).
  destruct (cache_hit pid pnum blk vol cur) eqn:Hhit.
  - injection Hf as <- <- _. destruct (last_size vol <? blockbytes) eqn:Hsz; bool_to_prop; [done|].
    unfold cache_hit in Hhit. bool_to_prop.
    split; [done|]. split; [done|]. split; [done|]. split; [done|]. split; [done|]. split; [done|].
    destruct Hc as [Hno|(full & rest & Hr & Hl & Hn & _)].
    { contradict Hno. replace (off_partition (last_pos vol)) with pid by done. rewrite Hpn by done. apply Hset. }
    replace (off_partition (last_pos vol)) with pid in Hr by done.
    replace (off_block (last_pos vol)) with blk in Hr by done. rewrite Hpn in Hr by done.
    rewrite Hbl in Hl, Hn by done. exists full, rest. split; [done|]. split; [done|]. lia.
  - destruct (tape_read ops bs _ None (device vol)) as [[nread data] dev] eqn:Hr.
    destruct (nread <? 0) eqn:Hn; [injection Hf as <- _ _; bool_to_prop; lia|].
    destruct (nread <? blockbytes) eqn:Hn2; [injection Hf as <- _ _; done|]. bool_to_prop.
    injection Hf as <- <- <-.
    destruct (tape_read_ok m bs _ (device vol) nread data dev Hat ltac:(lia) Hr Hn)
      as (Hat' & Ha & Hmx & Hpp & Hbb' & Hlen & Hrec). rewrite Hp, Hb in *.
    set (vol2 := set_cache {| off_partition := pid; off_block := blk |} _ _ _).
    assert (Hs2 : same_for_readers vol0 vol2).
    { apply (same_for_readers_trans _ vol); [done|]. unfold same_for_readers, vol2. cbn. by rewrite Ha, Hmx. }
    assert (Hfull : exists full, record_at m pnum blk = Some (Data full) /\ data = take (Z.to_nat bs) full).
    { destruct (record_at m pnum blk) as [[full|]|]; [|subst data; cbn in Hlen; lia|done]. by exists full. }
    destruct Hfull as (full & Hrec' & ->).
    split; [done|]. split; [exact Hat'|]. split; [|split; [done|split; [exact Hbb'|split; [done|]]]].
    + right. exists full, (drop (length (take (Z.to_nat bs) full)) (default [] (last_block vol))). rewrite (Hbl _ Hs2). cbn [vol2 last_pos last_block last_size set_cache off_partition off_block].
      rewrite (Hpn vol2 Hs2). split; [done|]. split; [done|]. split; [done|].
      by apply (same_for_readers_settled m vol0).
    + exists full, (drop (length (take (Z.to_nat bs) full)) (default [] (last_block vol))).
      split; [done|]. split; [done|]. lia.
Qed.

Lemma fetch_block_reads blk blockbytes vol cur full :
  reads_reliably ops tape_at ->
  same_for_readers vol0 vol -> dev_at (device vol) m -> cache_ok m vol ->
  block_settled m vol0 pid blk -> head_at blk vol cur ->
  record_at m pnum blk = Some (Data full) -> blockbytes <= Z.of_nat (length (take (Z.to_nat bs) full)) ->
  0 <= (fetch_block ops bs None pid pnum blk blockbytes vol cur).1.1.
Proof.
  intros Hrel Hs Hat Hc Hset [Hp Hb] Hrec Hlen. unfold fetch_block.
  destruct (cache_hit pid pnum blk vol cur) eqn:Hhit.
  - unfold cache_hit in Hhit. bool_to_prop. cbn [fst].
    destruct Hs as (L & _). unfold cache_ok in Hc. rewrite L, bs_label in Hc.
    replace (off_partition (last_pos vol)) with pid in Hc by done.
    replace (off_block (last_pos vol)) with blk in Hc by done.
    assert (Hpn : ltfs_part_id2num pid vol = pnum) by (unfold pnum, ltfs_part_id2num; by rewrite L).
    rewrite Hpn in Hc. destruct Hc as [Hno|(full' & rest & Hr & _ & Hn & _)]; [by destruct Hset|].
    rewrite Hrec in Hr. injection Hr as <-. by rewrite (proj2 (Z.ltb_ge _ _)) by lia.
  - destruct (tape_read ops bs _ None (device vol)) as [[nread data] dev] eqn:Hr.
    assert (Hn : 0 <= nread).
    { unfold tape_read in Hr. rewrite <- Hp, <- Hb in Hrec.
      pose proof (read_reliable _ _ Hrel bs (negb (bs =? blockbytes)) _ _ _ _ Hat ltac:(lia) Hrec) as H.
      destruct (op_read ops _ _ _ _) as [[[rc buf] pos'] d']. by injection Hr as <- _ _. }
    rewrite (proj2 (Z.ltb_ge nread 0)) by done.
    destruct (tape_read_ok m bs _ (device vol) nread data dev Hat ltac:(lia) Hr Hn)
      as (_ & _ & _ & _ & _ & Hl & Hd). rewrite Hp, Hb, Hrec in Hd. subst data.
    by rewrite (proj2 (Z.ltb_ge nread _)) by lia.
Qed.

(** ** The blocks of one extent *)

Let entry_end : Z := fileoffset entry + bytecount entry.

(** Every byte of the extent is on the tape. *)
Definition entry_backed : Prop :=
  forall off, fileoffset entry <= off < entry_end -> is_Some (content off).

Lemma block_present blk off :
  entry_backed -> block_begin bs entry blk <= off < block_begin bs entry blk + bs ->
  fileoffset entry <= off < entry_end ->
  exists full, record_at m pnum blk = Some (Data full)
    /\ off - block_begin bs entry blk < Z.of_nat (length (take (Z.to_nat bs) full)).
Proof.
  intros Hback Hb Hoff. destruct (entry_content off Hoff) as [Hc _].
  destruct (Hback off Hoff) as [x Hx]. rewrite Hc, (place_in_block blk off Hb) in Hx. cbn [place_byte] in Hx.
  fold pnum in Hx. destruct (record_at m pnum blk) as [[full|]|]; [|done|done].
  exists full. split; [done|]. apply lookup_lt_Some in Hx. rewrite length_take. lia.
Qed.

(** Where the loop stops. *)
Definition next_after (next : Z) : Z :=
  if (next <? entry_end) && (next <? lo + count) then Z.min entry_end (lo + count) else next.

Lemma read_blocks_ok fuel blk st ret st' :
  reading m content vol0 lo st ->
  (rs_next st < entry_end -> rs_next st < lo + count ->
    fileoffset entry <= rs_next st /\ 0 <= blk
    /\ block_begin bs entry blk <= rs_next st < block_begin bs entry blk + bs
    /\ head_at blk (rs_vol st) (rs_cur st)) ->
  count - Z.of_nat (length (rs_out st)) <= Z.of_nat fuel ->
  read_blocks ops fuel bs count (lo + count) entry_end None pid pnum blk (u64 (block_begin bs entry blk)) st
    = (ret, st') ->
  (reads_reliably ops tape_at -> entry_backed -> 0 <= ret) /\
  (0 <= ret -> ret = 0 /\ reading m content vol0 lo st' /\ rs_next st' = next_after (rs_next st)).
Proof.
  revert blk st. induction fuel as [|fuel IH]; intros blk st Hst Hin Hfuel Hrun.
  { cbn in Hrun. injection Hrun as <- <-. split; [done|]. intros _. split; [done|]. split; [done|]. unfold next_after.
    destruct Hst as (_ & _ & _ & _ & Hn). rewrite (proj2 (Z.ltb_ge _ (lo + count))) by lia.
    by rewrite andb_false_r. }
  pose proof Hst as (Hs & Hat & Hc & Hdel & Hn). cbn [read_blocks] in Hrun.
  destruct ((entry_end >? rs_next st) && _) eqn:Hcond.
  2:{ injection Hrun as <- <-. split; [done|]. intros _. split; [done|]. split; [done|]. unfold next_after.
      apply andb_false_iff in Hcond as [E|E]; bool_to_prop.
      - by rewrite (proj2 (Z.ltb_ge _ entry_end)) by lia.
      - rewrite (proj2 (Z.ltb_ge _ (lo + count))) by lia. by rewrite andb_false_r. }
  bool_to_prop. destruct (Hin ltac:(lia) ltac:(lia)) as (Hfo & Hblk & Hfb & Hhead).
  set (fb := block_begin bs entry blk) in *. set (next := rs_next st) in *.
  pose proof (wf_end _ _ entry_ok) as Hee. fold entry_end in Hee. pose proof (wf_fileoffset _ _ entry_ok).
  rewrite !u64_add_l, (u64_small (fb + bs)) in Hrun by lia.
  set (lastbyte := if entry_end <? fb + bs then entry_end else fb + bs) in *.
  assert (Hlast : lastbyte = Z.min entry_end (fb + bs)).
  { unfold lastbyte. destruct (entry_end <? fb + bs) eqn:E; bool_to_prop; lia. }
  clearbody lastbyte. rewrite !u64_sub_r, (u64_small (lastbyte - fb)), (u64_small (next - fb)) in Hrun by lia.
  destruct (entry_content next ltac:(lia)) as [_ Hset].
  rewrite (place_in_block blk next ltac:(lia)) in Hset. cbn [fst snd] in Hset.
  assert (Hprog : reads_reliably ops tape_at -> entry_backed ->
    0 <= (fetch_block ops bs None pid pnum blk (lastbyte - fb) (rs_vol st) (rs_cur st)).1.1).
  { intros Hrel Hback. destruct (block_present blk (lastbyte - 1) Hback ltac:(fold fb; lia) ltac:(fold entry_end; lia))
      as (full & Hrec & Hl). fold fb in Hl.
    apply (fetch_block_reads blk (lastbyte - fb) (rs_vol st) (rs_cur st) full); try done. lia. }
  destruct (fetch_block ops bs None pid pnum blk (lastbyte - fb) (rs_vol st) (rs_cur st)) as [[r vol1] cur1] eqn:Hf.
  cbn [fst] in Hprog.
  destruct (r <? 0) eqn:Hr; [injection Hrun as <- _; bool_to_prop; split; [done|lia]|]. bool_to_prop. clear Hprog.
  destruct (fetch_block_ok blk (lastbyte - fb) _ _ _ _ _ Hs Hat Hc Hset ltac:(lia) Hhead Hf Hr)
    as (Hs1 & Hat1 & Hc1 & Hp1 & Hb1 & Hlp & full & rest & Hrec & Hlb & Hlen).
  set (ncopy := u64 ((if lastbyte >? lo + count then lo + count else lastbyte) - next)) in *.
  assert (Hnc : ncopy = Z.min lastbyte (lo + count) - next).
  { unfold ncopy. destruct (lastbyte >? lo + count) eqn:E; bool_to_prop; rewrite u64_small; lia. }
  clearbody ncopy. rewrite Hlb in Hrun. cbn [default] in Hrun.
  destruct (block_bytes blk full rest next ncopy Hrec Hfo ltac:(fold fb; lia) ltac:(fold entry_end; lia) ltac:(lia) ltac:(fold fb; lia))
    as [Hbl Hbd]. fold fb in Hbl, Hbd.
  rewrite (u64_small (next + ncopy)) in Hrun by lia.
  assert (Hblk1 : blk + 1 < 2 ^ 64).
  { destruct Hset as [Hv Hlt]. pose proof (vol0_append _ Hv). lia. }
  rewrite (u64_small (blk + 1)) in Hrun by lia.
  assert (Hfb1 : block_begin bs entry (blk + 1) = fb + bs) by (unfold fb, block_begin; lia).
  replace (u64 (fb + bs)) with (u64 (block_begin bs entry (blk + 1))) in Hrun by (by rewrite Hfb1).
  rewrite <- (u64_small (fb + bs)) in Hrun by lia. rewrite <- Hfb1 in Hrun.
  set (st1 := {| rs_vol := vol1; rs_cur := cur1; rs_out := _; rs_next := next + ncopy |}) in Hrun.
  assert (Hst1 : reading m content vol0 lo st1).
  { split; [exact Hs1|]. split; [exact Hat1|]. split; [exact Hc1|]. cbn [rs_out rs_next st1].
    rewrite length_app. split; [|unfold id; lia]. apply delivers_app; [done|]. rewrite <- Hn. exact Hbd. }
  destruct (IH (blk + 1) st1 Hst1) with (3 := Hrun) as (Hprog & Hpost).
  - cbn [rs_next rs_vol st1]. intros L1 L2. split; [lia|]. split; [lia|]. split; [rewrite Hfb1; lia|].
    split; [exact Hp1|]. rewrite Hb1. unfold cache_hit. cbn [rs_vol rs_cur].
    rewrite Hlp, (proj2 (Z.eqb_neq (blk + 1) blk)) by lia. by rewrite andb_false_r.
  - cbn [rs_out st1]. rewrite length_app. unfold id. lia.
  - split; [exact Hprog|]. intros Hret. destruct (Hpost Hret) as (-> & Hst' & Hnext).
    split; [done|]. split; [exact Hst'|]. rewrite Hnext. unfold next_after. cbn [rs_next st1].
    fold next. rewrite (proj2 (Z.ltb_lt next entry_end)), (proj2 (Z.ltb_lt next (lo + count))) by lia. cbn [andb].
    destruct (next + ncopy <? entry_end) eqn:E1, (next + ncopy <? lo + count) eqn:E2; cbn [andb]; bool_to_prop; lia.
Qed.

(** ** One extent *)

(** The seek before the loop, unless the head is there or the cache has the block. *)
Lemma position_for_block blk vol ret dev :
  same_for_readers vol0 vol -> dev_at (device vol) m -> cache_ok m vol ->
  block_settled m vol0 pid blk -> blk + 1 < 2 ^ 64 ->
  (if (negb (partition (position (device vol)) =? pnum) || negb (block (position (device vol)) =? blk))
      && negb ((partition (position (device vol)) =? pnum) && (block (position (device vol)) =? u64 (blk + 1))
               && (pid =? off_partition (last_pos vol)) && (blk =? off_block (last_pos vol)))
   then tape_seek ops (seek_pos pnum blk) (device vol) else (0, device vol)) = (ret, dev) ->
  (reads_reliably ops tape_at -> blk <= eod_at m pnum -> 0 <= ret) /\
  (0 <= ret -> same_for_readers vol0 (set_device dev vol) /\ dev_at dev m /\ cache_ok m (set_device dev vol)
     /\ head_at blk (set_device dev vol) (position (device vol))).
Proof.
  intros Hs Hat Hc Hset Hmax Hseek. pose proof Hset as [Hv Hb]. fold pnum in Hv, Hb.
  set (cur := position (device vol)) in *.
  assert (Hhit : (partition cur =? pnum) && (block cur =? u64 (blk + 1))
      && (pid =? off_partition (last_pos vol)) && (blk =? off_block (last_pos vol))
    = cache_hit pid pnum blk vol cur).
  { unfold cache_hit. rewrite (Z.eqb_sym (partition cur)), (Z.eqb_sym (block cur)).
    by destruct (pnum =? _), (u64 _ =? _), (pid =? _), (blk =? _). }
  rewrite Hhit in Hseek. destruct ((negb _ || negb _) && negb _) eqn:E.
  - apply andb_prop in E as [E Eh]. apply negb_true_iff in Eh. split.
    + intros Hrel He. pose proof (tape_seek_reaches m pnum blk _ Hrel Hat Hv ltac:(lia)) as H.
      by rewrite Hseek in H.
    + intros Hret.
      destruct (tape_seek_ok ops (seek_pos pnum blk) _ m _ _ Hat Hv ltac:(cbn; lia) Hseek Hret)
        as (_ & Hat' & Hp & Hbk & Ha & _ & _ & Hmx & _).
      cbn [partition seek_pos] in Hp. unfold dest_block in Hbk. cbn [block seek_pos partition] in Hbk.
      rewrite (proj2 (Z.eqb_neq _ _)) in Hbk by (unfold TAPE_BLOCK_MAX; lia).
      split; [|split; [done|split]].
      * apply (same_for_readers_trans _ vol); [done|]. unfold same_for_readers. cbn. by rewrite Ha, Hmx.
      * destruct Hc as [Hc|(full & rest & Hr & Hl & Hn & Hst)]; [by left|right]. exists full, rest.
        split; [done|]. split; [done|]. split; [done|].
        apply (same_for_readers_settled m vol); [|done]. unfold same_for_readers. cbn. by rewrite Ha, Hmx.
      * split; [done|]. cbn [device set_device]. rewrite Hbk.
        change (cache_hit pid pnum blk (set_device dev vol) cur) with (cache_hit pid pnum blk vol cur). by rewrite Eh.
  - injection Hseek as <- <-. split; [done|]. intros _.
    assert (set_device (device vol) vol = vol) as -> by (by destruct vol).
    split; [done|]. split; [done|]. split; [done|]. unfold head_at. fold cur.
    destruct (cache_hit pid pnum blk vol cur) eqn:Eh.
    + unfold cache_hit in Eh. bool_to_prop. rewrite (u64_small (blk + 1)) in * by lia. done.
    + rewrite andb_true_r in E. bool_to_prop. done.
Qed.

(** The part behind the hole, where the next byte is not in front of the extent. *)
Lemma read_from_extent st ret stop st' :
  reading m content vol0 lo st -> fileoffset entry <= rs_next st -> rs_next st <= lo + count ->
  (if entry_end >? rs_next st then
    let vol := rs_vol st in
    let cur := position (device vol) in
    let pid := off_partition (start entry) in
    let pnum := ltfs_part_id2num pid vol in
    let blk := u64 (off_block (start entry) + u64 (u64 (rs_next st - fileoffset entry) + byteoffset entry) / bs) in
    let '(ret, dev) :=
      if (negb (TapeOps.partition cur =? pnum) || negb (TapeOps.block cur =? blk))
         && negb ((TapeOps.partition cur =? pnum) && (TapeOps.block cur =? u64 (blk + 1))
                  && (pid =? off_partition (last_pos vol)) && (blk =? off_block (last_pos vol)))
      then tape_seek ops {| TapeOps.block := blk; filemarks := 0; TapeOps.partition := pnum;
                            early_warning := false; programmable_early_warning := false |} (device vol)
      else (0, device vol) in
    let vol := set_device dev vol in
    let st := {| rs_vol := vol; rs_cur := cur; rs_out := rs_out st; rs_next := rs_next st |} in
    if ret <? 0 then (ret, false, st)
    else
      let firstbyte := u64 (u64 (fileoffset entry - byteoffset entry)
                            + u64 (u64 (blk - off_block (start entry)) * bs)) in
      let '(ret, st) := read_blocks ops (Z.to_nat count) bs count (lo + count) entry_end None pid pnum blk firstbyte st in
      (ret, false, st)
   else (0, false, st)) = (ret, stop, st') ->
  (reads_reliably ops tape_at -> entry_backed -> 0 <= ret) /\
  (0 <= ret -> ret = 0 /\ stop = false /\ reading m content vol0 lo st' /\ rs_next st' = next_after (rs_next st)).
Proof.
  intros Hst Hfo Hle Hrun. pose proof Hst as (Hs & Hat & Hc & Hdel & Hn).
  pose proof entry_ok as [Hw1 Hw2 Hee Hw4 Hw5 Hw6]. fold entry_end in Hee.
  destruct (entry_end >? rs_next st) eqn:E; bool_to_prop.
  2:{ injection Hrun as <- <- <-. split; [done|]. intros _. split; [done|]. split; [done|]. split; [done|].
      unfold next_after. by rewrite (proj2 (Z.ltb_ge _ entry_end)) by lia. }
  set (x := rs_next st - fileoffset entry + byteoffset entry).
  assert (Hx : 0 <= x / bs <= (byteoffset entry + bytecount entry) / bs)
    by (split; [apply Z.div_pos|apply Z.div_le_mono]; unfold x, entry_end in *; lia).
  rewrite u64_add_l in Hrun. fold x in Hrun. rewrite (u64_small x) in Hrun by (unfold x, entry_end in *; lia).
  rewrite (u64_small (off_block (start entry) + x / bs)) in Hrun by lia.
  set (blk := off_block (start entry) + x / bs) in *. cbv zeta in Hrun.
  replace (ltfs_part_id2num (off_partition (start entry)) (rs_vol st)) with pnum in Hrun
    by (destruct Hs as (L & _); unfold pnum, ltfs_part_id2num; by rewrite L).
  pose proof (Z.div_mod x bs ltac:(lia)) as Hdm. pose proof (Z.mod_pos_bound x bs ltac:(lia)) as Hmb.
  assert (Hbb : block_begin bs entry blk = rs_next st - x mod bs).
  { unfold block_begin, blk. rewrite (Z.mul_comm _ bs). unfold x in *. lia. }
  destruct (entry_content (rs_next st) ltac:(fold entry_end; lia)) as [_ Hset].
  rewrite (place_in_block blk) in Hset by lia. cbn [fst snd] in Hset.
  assert (Hblk1 : blk + 1 < 2 ^ 64) by (destruct Hset as [Hv Hlt]; pose proof (vol0_append _ Hv); lia).
  destruct (if _ && negb _ then tape_seek ops _ _ else _) as [r dev] eqn:Hseek.
  destruct (position_for_block blk (rs_vol st) r dev Hs Hat Hc Hset Hblk1 Hseek) as [Hprog Hpost].
  assert (Hprog' : reads_reliably ops tape_at -> entry_backed -> 0 <= r).
  { intros Hrel Hback. apply Hprog; [done|].
    destruct (block_present blk (rs_next st) Hback ltac:(lia) ltac:(lia)) as (full & Hrec & _).
    apply record_at_lt_eod in Hrec. lia. }
  destruct (r <? 0) eqn:Er; [injection Hrun as <- <- _; bool_to_prop; split; [done|lia]|]. bool_to_prop.
  destruct (Hpost Er) as (Hs1 & Hat1 & Hc1 & Hhead).
  assert (Hfirst : u64 (u64 (fileoffset entry - byteoffset entry) + u64 (u64 (blk - off_block (start entry)) * bs))
    = u64 (block_begin bs entry blk)).
  { rewrite u64_add_l, Z.add_comm, u64_add_l. unfold block_begin. unfold u64.
    rewrite <- Zplus_mod_idemp_l, Zmult_mod_idemp_l, Zplus_mod_idemp_l. f_equal. lia. }
  rewrite Hfirst in Hrun.
  set (st1 := {| rs_vol := set_device dev (rs_vol st); rs_cur := _; rs_out := _; rs_next := _ |}) in Hrun.
  destruct (read_blocks ops _ bs count _ _ None _ pnum blk _ st1) as [r2 st2] eqn:Hrb.
  injection Hrun as <- <- <-.
  destruct (read_blocks_ok (Z.to_nat count) blk st1 r2 st2) with (4 := Hrb) as [Hp2 Hq2].
  - by split.
  - intros _ _. cbn [rs_next rs_vol rs_cur st1]. split; [done|]. split; [lia|]. split; [lia|exact Hhead].
  - cbn [rs_out st1]. lia.
  - split; [exact Hp2|]. intros Hret. destruct (Hq2 Hret) as (-> & H1 & H2). done.
Qed.

Lemma read_extent_ok st ret stop st' :
  reading m content vol0 lo st ->
  (forall off, rs_next st <= off < fileoffset entry -> content off = Some 0) ->
  rs_next st <= lo + count ->
  read_extent ops count (lo + count) None entry st = (ret, stop, st') ->
  (reads_reliably ops tape_at -> entry_backed -> 0 <= ret) /\
  (0 <= ret -> ret = 0 /\
     if stop then same_for_readers vol0 (rs_vol st') /\ dev_at (device (rs_vol st')) m /\ cache_ok m (rs_vol st')
       /\ delivers content lo (rs_out st') /\ Z.of_nat (length (rs_out st')) = count
       /\ lo + count < fileoffset entry
     else reading m content vol0 lo st' /\ Z.min entry_end (lo + count) <= rs_next st'
       /\ rs_next st' <= Z.min (lo + count) (Z.max (rs_next st) entry_end)).
Proof.
  intros Hst Hhole Hle Hrun. pose proof Hst as (Hs & Hat & Hc & Hdel & Hn).
  pose proof (wf_end _ _ entry_ok) as Hee. fold entry_end in Hee. pose proof (wf_fileoffset _ _ entry_ok) as Hfo0.
  pose proof (wf_bytecount _ _ entry_ok) as Hbc.
  unfold read_extent in Hrun. pose proof Hs as (L & _). rewrite L, bs_label in Hrun.
  rewrite (fileoffset_end_wf _ _ entry_ok) in Hrun. fold entry_end in Hrun.
  destruct (rs_next st <? fileoffset entry) eqn:Eh; bool_to_prop.
  1: destruct (fileoffset entry >? lo + count) eqn:Eb; bool_to_prop.
  - (* nothing but the hole is needed *)
    rewrite u64_small in Hrun by lia. injection Hrun as <- <- <-. split; [done|]. intros _. split; [done|].
    cbn [rs_vol rs_out]. rewrite length_app, Nat2Z.inj_add, length_zeros by lia.
    split; [done|]. split; [done|]. split; [done|]. split; [|unfold id; lia].
    apply delivers_app; [done|]. rewrite <- Hn. apply delivers_zeros. intros off Hoff. apply Hhole. lia.
  - rewrite u64_small in Hrun by lia.
    set (st1 := {| rs_vol := rs_vol st; rs_cur := _; rs_out := _; rs_next := fileoffset entry |}) in Hrun.
    assert (Hst1 : reading m content vol0 lo st1).
    { split; [done|]. split; [done|]. split; [done|]. cbn [rs_out rs_next st1].
      rewrite length_app, Nat2Z.inj_add, length_zeros by lia. split; [|lia].
      apply delivers_app; [done|]. rewrite <- Hn. apply delivers_zeros. intros off Hoff. apply Hhole. lia. }
    destruct (read_from_extent st1 ret stop st' Hst1 ltac:(cbn; lia) ltac:(cbn; lia) Hrun) as [Hprog Hpost].
    split; [done|]. intros Hret. destruct (Hpost Hret) as (-> & -> & Hst' & Hn').
    split; [done|]. split; [done|]. rewrite Hn'. unfold next_after. cbn [rs_next st1].
    destruct (fileoffset entry <? entry_end) eqn:E1, (fileoffset entry <? lo + count) eqn:E2; cbn [andb];
      bool_to_prop; lia.
  - destruct (read_from_extent st ret stop st' Hst ltac:(lia) ltac:(lia) Hrun) as [Hprog Hpost].
    split; [done|]. intros Hret. destruct (Hpost Hret) as (-> & -> & Hst' & Hn').
    split; [done|]. split; [done|]. rewrite Hn'. unfold next_after.
    destruct (rs_next st <? entry_end) eqn:E1, (rs_next st <? lo + count) eqn:E2; cbn [andb];
      bool_to_prop; lia.
Qed.
End blocks.

(** ** The whole file *)

(** Every byte of the file is on the tape. *)
Definition file_backed (m : medium) vol d : Prop :=
  forall off, 0 <= off < size d -> is_Some (file_byte m vol d off).

Section whole.
Context (m : medium) vol0 (d : dentry) (lo count : Z).
Hypothesis vol0_ok : volume_ok m vol0.
Hypothesis d_wf : dentry_wf (blocksize (label vol0)) d.
Hypothesis d_settled : file_settled m vol0 d.
Hypothesis lo_range : 0 <= lo.
Hypothesis count_range : 0 < count.
Hypothesis end_range : lo + count < 2 ^ 63.
Let content : Z -> option Z := file_byte m vol0 d.

Lemma vol0_append p : valid_part p -> append_block m p (device vol0) < 2 ^ 64 - 1.
Proof.
  intros Hp. pose proof (vo_append _ _ vol0_ok p Hp) as H. destruct (tape_at_ok _ _ _ (vo_at _ _ vol0_ok)) as (_ & _ & H0 & H1).
  unfold append_block. destruct (_ =? 0); [|unfold TAPE_BLOCK_MAX in H; lia].
  destruct Hp as [->| ->]; lia.
Qed.

(** What is known when the loop over the extents is over. *)
Definition read_done (st : read_state (D := D)) : Prop :=
  same_for_readers vol0 (rs_vol st) /\ dev_at (device (rs_vol st)) m /\ cache_ok m (rs_vol st)
  /\ delivers content lo (rs_out st)
  /\ (Z.of_nat (length (rs_out st)) = count /\ lo + count <= size d
      \/ rs_next st = lo + Z.of_nat (length (rs_out st)) /\ rs_next st <= lo + count
         /\ rs_next st <= Z.max lo (size d)
         /\ (forall off, rs_next st <= off -> content off = Some 0)).

Lemma read_extents_ok done l st ret st' :
  extentlist d = done ++ l -> last_end 0 done <= rs_next st ->
  reading m content vol0 lo st -> rs_next st <= lo + count -> rs_next st <= Z.max lo (size d) ->
  read_extents ops count (lo + count) None l st = (ret, st') ->
  (reads_reliably ops tape_at -> file_backed m vol0 d -> 0 <= ret) /\
  (0 <= ret -> ret = 0 /\ read_done st').
Proof.
  revert done st. induction l as [|entry l IH]; intros done st Hl Hdone Hst Hle Hsz Hrun.
  - cbn in Hrun. injection Hrun as <- <-. split; [done|]. intros _. split; [done|].
    destruct Hst as (Hs & Hat & Hc & Hdel & Hn). split; [done|]. split; [done|]. split; [done|]. split; [done|].
    right. split; [done|]. split; [done|]. split; [done|]. intros off Hoff. unfold content, file_byte, byte_place.
    destruct (dw_extents _ _ d_wf) as [Hw Hsort].
    rewrite (locate_after _ 0); [done|done|done|]. rewrite Hl, app_nil_r. lia.
  - cbn [read_extents] in Hrun. pose proof Hst as (Hs & Hat & Hc & Hdel & Hn).
    destruct (Z.of_nat (length (rs_out st)) =? count) eqn:Ec.
    { bool_to_prop. injection Hrun as <- <-. split; [done|]. intros _. split; [done|].
      split; [done|]. split; [done|]. split; [done|]. split; [done|]. left. lia. }
    pose proof (dw_extents _ _ d_wf) as Hwf. pose proof (dw_end _ _ d_wf) as Hend. rewrite Hl in Hwf, Hend.
    pose proof (blocksize_ok _ (vo_label _ _ vol0_ok)) as Hbs.
    pose proof (end_le_last_end _ _ _ _ Hwf) as Hee.
    pose proof Hwf as [Hw Hsort]. apply Forall_app in Hw as [_ Hw]. apply Forall_cons_1 in Hw as [Hw _].
    apply sorted_from_app in Hsort as [_ Hsort]. pose proof Hsort as [Hlo Hsort'].
    assert (Hcont : forall off, fileoffset entry <= off < fileoffset entry + bytecount entry ->
      content off = place_byte m vol0 (Some (place (blocksize (label vol0)) entry off))
      /\ block_settled m vol0 (place (blocksize (label vol0)) entry off).1.1 (place (blocksize (label vol0)) entry off).1.2).
    { intros off Hoff. assert (Hpl : byte_place vol0 d off = Some (place (blocksize (label vol0)) entry off)).
      { unfold byte_place. rewrite Hl. apply locate_own; [done|]. unfold in_extent.
        rewrite (proj2 (Z.leb_le _ _)), (proj2 (Z.ltb_lt _ _)) by lia. done. }
      split; [unfold content, file_byte; by rewrite Hpl|]. exact (d_settled off _ _ _ Hpl). }
    assert (Hhole : forall off, rs_next st <= off < fileoffset entry -> content off = Some 0).
    { intros off Hoff. unfold content, file_byte, byte_place. rewrite Hl.
      rewrite (locate_between _ _ _ (fileoffset entry)); [done|done|lia| |lia].
      split; [lia|by destruct Hsort]. }
    destruct (read_extent ops count (lo + count) None entry st) as [[r stop] st1] eqn:Hrd.
    destruct (read_extent_ok m content vol0 entry lo count (blocksize (label vol0)) Hbs eq_refl vol0_append Hw
      lo_range count_range end_range Hcont st r stop st1 Hst Hhole Hle Hrd) as [Hprog Hpost].
    assert (Hprog' : reads_reliably ops tape_at -> file_backed m vol0 d -> 0 <= r).
    { intros Hrel Hback. apply Hprog; [done|]. intros off Hoff. apply Hback.
      pose proof (wf_fileoffset _ _ Hw). lia. }
    destruct (r <? 0) eqn:Er; [injection Hrun as <- _; bool_to_prop; split; [done|lia]|]. bool_to_prop.
    destruct (Hpost Er) as [-> Hstop]. destruct stop.
    + injection Hrun as <- <-. split; [done|]. intros _. split; [done|].
      destruct Hstop as (H1 & H2 & H3 & H4 & H5 & H6). split; [done|]. split; [done|]. split; [done|].
      split; [done|]. left. pose proof (wf_bytecount _ _ Hw). lia.
    + destruct Hstop as (Hst1 & Hge & Hlt). pose proof Hst1 as (Hs1 & Hat1 & Hc1 & Hdel1 & Hn1).
      destruct (decide (rs_next st1 = lo + count)) as [Hfull|Hnf].
      * (* the buffer is full *)
        assert (Hlen : Z.of_nat (length (rs_out st1)) = count) by lia.
        assert (Hex : read_extents ops count (lo + count) None l st1 = (0, st1)).
        { destruct l; [done|]. cbn [read_extents]. by rewrite (proj2 (Z.eqb_eq _ _) Hlen). }
        rewrite Hex in Hrun. injection Hrun as <- <-. split; [done|]. intros _. split; [done|].
        split; [done|]. split; [done|]. split; [done|]. split; [done|]. left. lia.
      * apply (IH (done ++ [entry]) st1); try done; [by rewrite <- app_assoc|rewrite last_end_app; cbn; lia|lia|lia].
Qed.

Lemma read_tail_ok st :
  read_done st ->
  let out := read_tail count (lo + count) (size d) st in
  delivers content lo out /\ Z.of_nat (length out) = Z.min count (Z.max 0 (size d - lo)).
Proof.
  intros (_ & _ & _ & Hdel & Hcase). pose proof (dw_size _ _ d_wf) as Hsz. cbv zeta. unfold read_tail.
  destruct Hcase as [[Hfull Hle]|(Hn & Hle & Hmax & Hhole)].
  - rewrite Z.gtb_ltb, (proj2 (Z.ltb_ge _ count)) by lia. cbn [andb]. split; [done|]. lia.
  - destruct ((count >? _) && _) eqn:E.
    + bool_to_prop. rewrite u64_small by (destruct (lo + count <? size d); lia).
      rewrite length_app, Nat2Z.inj_add, length_zeros by (destruct (lo + count <? size d) eqn:E2; bool_to_prop; lia).
      split.
      * apply delivers_app; [done|]. apply delivers_zeros. intros off Hoff. apply Hhole. lia.
      * destruct (lo + count <? size d) eqn:E2; bool_to_prop; lia.
    + split; [done|]. apply andb_false_iff in E as [E|E]; bool_to_prop; lia.
Qed.
End whole.

Context (wait_revalidation : ltfs_volume D -> Z * ltfs_volume D).
Context (revalidate : bool -> ltfs_volume D -> Z * ltfs_volume D).
Hypothesis revalidate_neg : forall keep vol, (revalidate keep vol).1 <= 0.

(** C2: A read delivers the file.  When it reports success without having had to
    revalidate the drive, it returns the number of bytes delivered, which is what
    was asked for or what is left of the file, and these bytes are those of the
    file from the offset on, zeros for its holes; the volume is fit for the next
    call.  And it does report success where the file is on the tape and the drive
    finds its blocks and reads them. *)
Theorem fsraw_read_spec fuel now d count offset m vol :
  volume_ok m vol -> dentry_wf (blocksize (label vol)) d -> file_settled m vol d ->
  0 <= offset -> 0 < count -> offset + count < 2 ^ 63 ->
  reval vol = 0 -> tape_device_lock 0 (device vol) = 0 ->
  let read n := ltfs_fsraw_read ops wait_revalidation revalidate n now None d count offset vol in
  (forall ret out d' vol', read 1%nat = Some (ret, out, d', vol') -> 0 <= ret ->
     read (S fuel) = read 1%nat
     /\ ret = Z.of_nat (length out) /\ ret = Z.min count (Z.max 0 (size d - offset))
     /\ (forall i x, out !! i = Some x -> file_byte m vol d (offset + Z.of_nat i) = Some x)
     /\ volume_ok m vol' /\ keeps m vol m vol' /\ d' = set_access_time now d)
  /\ (reads_reliably ops tape_at -> file_backed m vol d ->
      exists ret out d' vol', read 1%nat = Some (ret, out, d', vol') /\ 0 <= ret).
Proof.
  intros Hvol Hd Hset Ho Hc Hend Hre Hlock read. subst read. cbn [ltfs_fsraw_read].
  rewrite (proj2 (Z.eqb_neq count 0)) by lia. unfold ltfs_get_volume_lock. rewrite Hre, Hlock.
  change (0 <? 0) with false. change (0 =? - LTFS_DEVICE_FENCED) with false. cbv iota zeta.
  set (vol1 := match last_block vol with None => _ | Some _ => _ end).
  assert (H1 : same_for_readers vol vol1 /\ dev_at (device vol1) m /\ cache_ok m vol1).
  { pose proof (vo_at _ _ Hvol). pose proof (vo_cache _ _ Hvol) as Hca.
    unfold vol1. destruct (last_block vol) eqn:El; [done|]. split; [done|]. split; [done|].
    left. destruct Hca as [Hca|(full & rest & _ & E & _)]; [exact Hca|congruence]. }
  destruct H1 as (Hs & Hat & Hca). clearbody vol1.
  rewrite (u64_small offset), (u64_small (offset + count)) by lia.
  destruct (read_extents ops count (offset + count) None (extentlist d) _) as [r st] eqn:Hrd.
  match type of Hrd with read_extents _ _ _ _ _ ?s = _ => set (st0 := s) in Hrd end.
  destruct (read_extents_ok m vol d offset count Hvol Hd Hset Ho Hc Hend [] (extentlist d) st0 r st eq_refl)
    with (5 := Hrd) as [Hprog Hpost]; [cbn; lia| |cbn; lia|cbn; lia|].
  { split; [exact Hs|]. split; [exact Hat|]. split; [exact Hca|]. cbn. split; [done|lia]. }
  split.
  - intros ret out d' vol' Hrun Hret. destruct (r <? 0) eqn:Er.
    { bool_to_prop. exfalso. destruct (NEED_REVAL r).
      - set (vf := set_device _ (rs_vol st)) in Hrun. pose proof (revalidate_neg false vf) as Hneg.
        destruct (revalidate false vf) as [r2 v2]. cbn [fst] in Hneg. destruct (r2 =? 0) eqn:E2; [done|].
        injection Hrun as <- _ _ _. bool_to_prop. lia.
      - destruct (IS_UNEXPECTED_MOVE r); injection Hrun as <- _ _ _; lia. }
    bool_to_prop. destruct (Hpost Er) as [-> Hdone].
    destruct (read_tail_ok m vol d offset count Hd Ho Hc Hend st Hdone) as [Hdel Hlen].
    destruct Hdone as (Hs1 & Hat1 & Hc1 & _).
    injection Hrun as <- <- <- <-. split; [done|]. split; [done|]. split; [done|]. split; [exact Hdel|].
    split; [|split; [|done]].
    + apply volume_ok_set_index. by apply (same_for_readers_ok m vol).
    + destruct Hs1 as (L & A & _). split; [exact L|]. intros p Hp. cbn [device set_index].
      unfold append_block. rewrite A. split; [lia|done].
  - intros Hrel Hback. rewrite (proj2 (Z.ltb_ge r 0)) by (by apply Hprog). do 4 eexists. split; [done|].
    apply Nat2Z.is_nonneg.
Qed.
End spec.
