(* ===== verification/FsRawOnFile.v ===== *)
(** * File data on the file-backed driver

    The properties of the file layer at concrete files of the volume of
    [VolumeOnFile]. *)

From S2P Require Import Prelude Errors TapeOps FileDebug FileDebugOk FileDebugSpec.
From S2P Require Import TapeDev TapeDevSpec Append Coherency TapeOnFile Extents Volume VolumeSpec VolumeOnFile.
From S2P Require Import FsRaw FsRawSpec FsRawWriteSpec FsRawReadSpec.
Open Scope Z_scope.

Lemma filedebug_reliable : reads_reliably filedebug_handler filedebug_at.
Proof.
  split.
  - intros dest pos d m Hat Hv Hb. cbn [op_locate filedebug_handler].
    rewrite filedebug_locate_succeeds; [done|by destruct Hat|done].
  - intros count u pos d m bytes Hat Hc Hrec. cbn [op_read filedebug_handler].
    by apply (filedebug_read_succeeds count u pos d m (Data bytes)).
Qed.

Lemma sample_volume_ok wp : volume_ok (tape_at := filedebug_at) sample_medium (sample_volume wp).
Proof.
  split.
  - apply sample_label_ok.
  - apply (sample_device_at wp (0, 0)).
  - intros p [->| ->]; vm_compute; (split; [discriminate|reflexivity]).
  - by left.
  - left. intros [H|H]; vm_compute in H; discriminate.
Qed.

(** ** Extents *)

Lemma add_extent_spec_witness :
  exists d' vol', _ltfs_fsraw_add_extent_unlocked (9, 0) true (sample_extent 20 0 20 30) true sample_dentry
      (sample_volume false) = (0, d', vol')
  /\ byte_place vol' d' 35 = Some (98, 20, 5) /\ size d' = 80.
Proof.
  destruct (_ltfs_fsraw_add_extent_unlocked (9, 0) true (sample_extent 20 0 20 30) true sample_dentry
      (sample_volume false)) as [[ret d'] vol'] eqn:H.
  destruct (add_extent_spec (9, 0) true (sample_extent 20 0 20 30) true sample_dentry (sample_volume false)
    ret d' vol' ltac:(cbn; lia) sample_dentry_wf (sample_extent_wf 20 0 20 30 ltac:(lia) ltac:(lia) ltac:(lia) ltac:(lia)) H)
    as [(-> & _ & Hpl & Hsz & Hv & _)|(_ & E & _)]; [|discriminate E].
  exists d', vol'. split; [reflexivity|]. split; [|exact Hsz].
  subst vol'. exact (Hpl 35).
Defined.

Lemma truncate_spec_witness :
  exists d' vol', ltfs_fsraw_truncate (9, 0) 55 sample_dentry (sample_volume false) = (0, d', vol')
  /\ size d' = 55 /\ byte_place (sample_volume false) d' 54 = Some (98, 9, 8)
  /\ byte_place (sample_volume false) d' 60 = None.
Proof.
  destruct (ltfs_fsraw_truncate (9, 0) 55 sample_dentry (sample_volume false)) as [[ret d'] vol'] eqn:H.
  destruct (truncate_spec (9, 0) 55 sample_dentry (sample_volume false) ret d' vol' ltac:(cbn; lia)
    sample_dentry_wf ltac:(lia) eq_refl H) as (-> & _ & Hsz & Hpl & _).
  exists d', vol'. split; [reflexivity|]. split; [exact Hsz|].
  split; [exact (Hpl 54 ltac:(lia))|exact (Hpl 60 ltac:(lia))].
Defined.

(** ** Writing *)

Definition empty_file : dentry :=
  {| extentlist := []; realsize := 0; size := 0; extents_dirty := false; modify_time := (0, 0);
     access_time := (0, 0); change_time := (0, 0) |}.

Lemma empty_file_wf bs : dentry_wf bs empty_file.
Proof. split; cbn; try lia. by split. Qed.

Lemma empty_file_settled m vol : file_settled (D := filedebug_data) m vol empty_file.
Proof. intros off pid blk i H. discriminate. Qed.

(** Two and a half blocks. *)
Definition sample_data : list Z := replicate 40 7.

Definition no_wait (vol : ltfs_volume filedebug_data) : Z * ltfs_volume filedebug_data := (-1, vol).
Definition no_revalidation (keep : bool) (vol : ltfs_volume filedebug_data) : Z * ltfs_volume filedebug_data :=
  (-1, vol).

Lemma fsraw_write_spec_witness :
  exists d' m' vol',
    ltfs_fsraw_write filedebug_handler sample_xml no_mam no_wait no_revalidation 1 (9, 0) [] true
      empty_file sample_data 100 98 true (sample_volume false) = Some (0, d', vol')
    /\ size d' = 140 /\ file_byte m' vol' d' 120 = Some 7 /\ file_byte m' vol' d' 50 = Some 0.
Proof.
  assert (Hlen : Z.of_nat (length SYNC_CASCHE_PRESSURE) < 2 ^ 40) by (vm_compute; reflexivity).
  assert (Hroom : append_block sample_medium (ltfs_part_id2num 98 (sample_volume false))
      (device (sample_volume false)) + Z.of_nat (length sample_data) + 1 < 2 ^ 63) by (vm_compute; reflexivity).
  assert (Hne : sample_data <> []) by discriminate.
  destruct (fsraw_write_spec filedebug_handler sample_xml no_mam no_mam_ok no_wait no_revalidation
    0 (9, 0) [] true empty_file sample_data 100 98 true sample_medium (sample_volume false) (sample_volume_ok false)
    (or_introl eq_refl) (sample_has_room SYNC_CASCHE_PRESSURE false Hlen) Hne Hroom (empty_file_wf _)
    (empty_file_settled _ _) ltac:(lia) ltac:(cbn; lia) eq_refl) as (rc & sb & vol1 & Hrun & _ & Hok).
  assert (Hrc : 0 <= rc).
  { assert (E : (fun r => fst (fst r)) <$> _ltfs_fsraw_write_data_unlocked filedebug_handler sample_xml no_mam (9, 0) [] 98
      sample_data 1 (sample_volume false) = Some 0) by (vm_compute; reflexivity).
    rewrite Hrun in E. injection E as ->. lia. }
  assert (Hlost : due_index_lost filedebug_handler sample_xml (9, 0) 98 (sample_volume false) = false)
    by (vm_compute; reflexivity).
  destruct (Hok Hrc Hlost) as (ret & d' & m' & vol' & Hw & _ & _ & [(-> & _ & _ & Hsz & _ & Hb)|(_ & E & _)]);
    [|discriminate E].
  exists d', m', vol'. split; [exact Hw|]. split; [exact Hsz|]. split; [exact (Hb 120)|].
  exact (Hb 50).
Defined.

(** ** Reading *)

(** Four bytes on the first block of the tape, and a hole behind. *)
Definition sample_file : dentry :=
  {| extentlist := [ {| start := {| off_partition := 97; off_block := 0 |}; byteoffset := 0; bytecount := 4;
                        fileoffset := 0 |} ];
     realsize := 4; size := 6; extents_dirty := false; modify_time := (0, 0);
     access_time := (0, 0); change_time := (0, 0) |}.

Lemma sample_file_wf : dentry_wf 16 sample_file.
Proof.
  split; [|cbn; lia..]. split; [|cbn; lia]. constructor; [|constructor].
  split; vm_compute; try (split; [discriminate|reflexivity]); first [discriminate|reflexivity].
Qed.

Lemma sample_file_place wp off :
  byte_place (sample_volume wp) sample_file off = if (0 <=? off) && (off <? 4) then Some (97, 0, off) else None.
Proof.
  unfold byte_place. cbn -[Z.div Z.modulo]. unfold in_extent. cbn [fileoffset bytecount].
  destruct ((0 <=? off) && (off <? 0 + 4)) eqn:E; change (0 + 4) with 4 in E; rewrite E; [|done].
  bool_to_prop. unfold place. cbn [fileoffset byteoffset off_partition off_block start].
  rewrite Z.div_small, Z.mod_small by lia. f_equal. f_equal. lia.
Qed.

Lemma sample_file_settled wp : file_settled sample_medium (sample_volume wp) sample_file.
Proof.
  intros off pid blk i H. rewrite sample_file_place in H. destruct ((0 <=? off) && _); [|discriminate].
  injection H as <- <- _. split; [by left|]. vm_compute. split; [discriminate|reflexivity].
Qed.

Lemma sample_file_backed wp : file_backed sample_medium (sample_volume wp) sample_file.
Proof.
  intros off Hoff. unfold file_byte. rewrite sample_file_place.
  destruct ((0 <=? off) && (off <? 4)) eqn:E; [|by eexists]. bool_to_prop.
  change (place_byte sample_medium (sample_volume wp) (Some (97, 0, off))) with (sample_block !! Z.to_nat off).
  apply lookup_lt_is_Some. cbn. lia.
Qed.

Lemma fsraw_read_spec_witness :
  exists out d' vol', ltfs_fsraw_read filedebug_handler no_wait no_revalidation 1 (9, 0) None sample_file 10 1
      (sample_volume false) = Some (5, out, d', vol')
  /\ length out = 5%nat
  /\ forall i x, out !! i = Some x -> file_byte sample_medium (sample_volume false) sample_file (1 + Z.of_nat i) = Some x.
Proof.
  assert (Hneg : forall keep vol, (no_revalidation keep vol).1 <= 0) by (intros; cbn; lia).
  destruct (fsraw_read_spec filedebug_handler no_wait no_revalidation Hneg 0 (9, 0) sample_file 10 1
    sample_medium (sample_volume false) (sample_volume_ok false) sample_file_wf (sample_file_settled false)
    ltac:(lia) ltac:(lia) ltac:(lia) eq_refl eq_refl) as [Hall Hok].
  destruct (Hok filedebug_reliable (sample_file_backed false)) as (ret & out & d' & vol' & Hrun & Hret).
  destruct (Hall ret out d' vol' Hrun Hret) as (_ & Hlen & Hmin & Hb & _).
  assert (ret = 5) as -> by exact Hmin.
  exists out, d', vol'. split; [exact Hrun|]. split; [lia|]. exact Hb.
Defined.

(** ** A read error and the cache

    The buffer of the cache is handed to the drive before the cache is declared
    empty: after a failed read it may hold other bytes, while [last_pos] still
    names the block it held before. *)
Lemma failed_read_keeps_last_pos {D} (ops : tape_ops D) bs pid pnum blk blockbytes vol cur n data dev :
  cache_hit pid pnum blk vol cur = false ->
  tape_read ops bs (negb (bs =? blockbytes)) None (device vol) = (n, data, dev) -> n < 0 ->
  exists vol', fetch_block ops bs None pid pnum blk blockbytes vol cur = (n, vol', cur)
    /\ last_pos vol' = last_pos vol /\ last_size vol' = last_size vol
    /\ last_block vol' = Some (data ++ drop (length data) (default [] (last_block vol))).
Proof.
  intros Hhit Hr Hn. unfold fetch_block. rewrite Hhit, Hr, (proj2 (Z.ltb_lt n 0)) by done.
  eexists. split; [reflexivity|]. done.
Qed.
