(* ===== verification/IndexRead.v ===== *)
(** * Reading an index

    [xml_input_tape_read_callback] of [libltfs/xml_reader.c], [xml_schema_from_tape]
    of [libltfs/xml_reader_libltfs.c], and [ltfs_read_index] and [ltfs_seek_index] of
    [libltfs/ltfs_internal.c].

    The XML parser asks the callback for bytes and makes an index of them: that is
    libxml2 and the schema reader, a parameter ([xml_reader]).  So is the repair of
    conflicting symbolic links, which works on the directory tree.  Allocations and
    the creation of the reader succeed. *)

From S2P Require Import Prelude Errors TapeOps TapeDev Coherency Extents Volume.
Open Scope Z_scope.

(** ** The parser *)

(** What [_xml_parse_schema] leaves: its result, the index, the number of symbolic
    links in conflict. *)
Record parsed := { p_ret : Z; p_index : ltfs_index; p_symerr_count : Z }.

(** [next_request bytes]: how much the parser asks for after it has had [bytes]; nothing
    when it is done.  [parse bytes failed]: what it makes of them, the input having
    failed or not. *)
Record xml_reader := {
  next_request : list Z -> option Z;
  parse : list Z -> bool -> parsed
}.

(** ** Input from tape *)

(** [struct xml_input_tape]; [vol->device] is [in_device]. *)
Record xml_input_tape (D : Type) := {
  in_device : device_data D;
  current_pos : Z;
  eod_pos : Z;
  saw_small_block : bool;
  saw_file_mark : bool;
  in_buf : list Z;
  in_buf_size : Z;
  buf_start : Z;
  buf_used : Z
}.

Arguments in_device {_}. Arguments current_pos {_}. Arguments eod_pos {_}. Arguments saw_small_block {_}.
Arguments saw_file_mark {_}. Arguments in_buf {_}. Arguments in_buf_size {_}. Arguments buf_start {_}.
Arguments buf_used {_}.

Section read.
Context {D : Type} (ops : tape_ops D).
Context (kmi : option (list Z -> Z * option (list Z))).
Implicit Types (ctx : xml_input_tape D) (vol : ltfs_volume D).

Definition set_buffer (start used : Z) ctx : xml_input_tape D :=
  {| in_device := in_device ctx; current_pos := current_pos ctx; eod_pos := eod_pos ctx;
     saw_small_block := saw_small_block ctx; saw_file_mark := saw_file_mark ctx; in_buf := in_buf ctx;
     in_buf_size := in_buf_size ctx; buf_start := start; buf_used := used |}.

(** A block has been read into the buffer. *)
Definition block_read (dev : device_data D) (data : list Z) ctx : xml_input_tape D :=
  {| in_device := dev; current_pos := u64 (current_pos ctx + 1); eod_pos := eod_pos ctx;
     saw_small_block := saw_small_block ctx; saw_file_mark := saw_file_mark ctx; in_buf := data;
     in_buf_size := in_buf_size ctx; buf_start := buf_start ctx; buf_used := buf_used ctx |}.

Definition set_seen (dev : device_data D) (small mark : bool) ctx : xml_input_tape D :=
  {| in_device := dev; current_pos := current_pos ctx; eod_pos := eod_pos ctx;
     saw_small_block := small; saw_file_mark := mark; in_buf := in_buf ctx;
     in_buf_size := in_buf_size ctx; buf_start := buf_start ctx; buf_used := buf_used ctx |}.

(** A file mark has been read: position before it. *)
Definition before_mark ctx : Z * xml_input_tape D :=
  let '(ret, dev) := tape_spacefm ops (-1) (in_device ctx) in
  (if ret <? 0 then -1 else 0, set_seen dev true true ctx).

(** A read of [nread] bytes, less than a block: a file mark, or a record that one may
    follow. *)
Definition small_block (nread : Z) ctx : Z * xml_input_tape D :=
  let ctx := set_seen (in_device ctx) true (saw_file_mark ctx) ctx in
  if nread =? 0 then before_mark ctx
  else if (eod_pos ctx =? 0) || ((eod_pos ctx >? 0) && (current_pos ctx <? eod_pos ctx)) then
    let '(nr2, _, dev) := tape_read ops (in_buf_size ctx) false kmi (in_device ctx) in
    let ctx := set_seen dev true (saw_file_mark ctx) ctx in
    if nr2 <? 0 then (-1, ctx)
    else if nr2 =? 0 then before_mark ctx
    else (0, ctx)
  else (0, ctx).

(** The [while] loop: [saved] has been copied to the output.  Every turn but two takes
    a whole block, so the number of bytes wanted and two more turns are enough. *)
Fixpoint fill_loop (fuel : nat) (len bytes_remaining : Z) (saved : list Z) ctx
    : option (Z * list Z * xml_input_tape D) :=
  if negb (bytes_remaining >? 0) then Some (len, saved, ctx)
  else match fuel with
  | O => None
  | S fuel' =>
      let bytes_saved := Z.of_nat (length saved) in
      if (eod_pos ctx >? 0) && (current_pos ctx =? eod_pos ctx) then Some (bytes_saved, saved, ctx)
      else if saw_small_block ctx then Some (bytes_saved, saved, ctx)
      else
        let '(nread, data, dev) := tape_read ops (in_buf_size ctx) false kmi (in_device ctx) in
        let ctx := block_read dev data ctx in
        if nread <? 0 then Some (-1, saved, ctx)
        else
          let '(ret, ctx) := if nread <? in_buf_size ctx then small_block nread ctx else (0, ctx) in
          if ret <? 0 then Some (-1, saved, ctx)
          else if bytes_remaining >? nread
          then fill_loop fuel' len (bytes_remaining - nread) (saved ++ take (Z.to_nat nread) data) ctx
          else Some (len, saved ++ take (Z.to_nat bytes_remaining) data,
                     set_buffer bytes_remaining (nread - bytes_remaining) ctx)
  end.

(** The number of bytes delivered, or -1, and the bytes. *)
Definition xml_input_tape_read_callback (len : Z) ctx : option (Z * list Z * xml_input_tape D) :=
  if len =? 0 then Some (0, [], ctx)
  else
    let cached := drop (Z.to_nat (buf_start ctx)) (in_buf ctx) in
    if len <=? s32 (buf_used ctx) then
      let used := buf_used ctx - len in
      Some (len, take (Z.to_nat len) cached, set_buffer (if used >? 0 then buf_start ctx + len else 0) used ctx)
    else
      let saved := if buf_used ctx >? 0 then take (Z.to_nat (buf_used ctx)) cached else [] in
      let ctx := if buf_used ctx >? 0 then set_buffer 0 0 ctx else ctx in
      let bytes_remaining := len - Z.of_nat (length saved) in
      fill_loop (S (S (Z.to_nat bytes_remaining))) len bytes_remaining saved ctx.

(** The parser reads until it is done or the callback delivers nothing more.  The
    bytes it has had, and whether the input failed. *)
Fixpoint feed (reader : xml_reader) (fuel : nat) (bytes : list Z) ctx
    : option (list Z * bool * xml_input_tape D) :=
  match next_request reader bytes with
  | None => Some (bytes, false, ctx)
  | Some len =>
      match fuel with
      | O => None
      | S fuel' =>
          match xml_input_tape_read_callback len ctx with
          | None => None
          | Some (ret, data, ctx) =>
              if ret <? 0 then Some (bytes, true, ctx)
              else if ret =? 0 then Some (bytes, false, ctx)
              else feed reader fuel' (bytes ++ data) ctx
          end
      end
  end.

Context (reader : xml_reader).

(** The result, and the volume with the index and the number of conflicts. *)
Definition xml_schema_from_tape (fuel : nat) (eod : Z) vol : option (Z * ltfs_volume D * Z) :=
  let '(_, pos) := tape_get_position (device vol) in
  let ctx := {| in_device := device vol; current_pos := block pos; eod_pos := eod;
                saw_small_block := false; saw_file_mark := false; in_buf := [];
                in_buf_size := blocksize (label vol); buf_start := 0; buf_used := 0 |} in
  match feed reader fuel [] ctx with
  | None => None
  | Some (bytes, failed, ctx) =>
      let r := parse reader bytes failed in
      let ret := p_ret r in
      let ret :=
        if ret <? 0 then
          if negb (ret =? - LTFS_UNSUPPORTED_INDEX_VERSION) && negb (ret =? - LTFS_SYMLINK_CONFLICT)
          then if ret =? - LTFS_NO_MEMORY then - LTFS_NO_MEMORY else - LTFS_INDEX_INVALID
          else ret
        else if ret =? 0 then if negb (saw_file_mark ctx) then 1 else ret
        else ret in
      Some (ret, set_index (p_index r) (set_device (in_device ctx) vol), p_symerr_count r)
  end.

(** ** [ltfs_read_index] *)

Context (ltfs_split_symlink : ltfs_volume D -> Z * ltfs_volume D).

(** [strncmp] of identifiers of 36 characters. *)
Definition same_uuid (a b : list Z) : bool := bool_decide (take 36 a = take 36 b).

(** The checks of the self and back pointers, [pos] being where the index starts. *)
Definition pointers_valid (pos : tc_position) vol : bool :=
  let self := selfptr (index vol) in let back := backptr (index vol) in
  if negb (off_partition self =? sel (partition pos) (part_num2id (label vol)))
     || negb (off_block self =? block pos) then false
  else if negb (off_partition back =? 0) && negb (off_partition back =? partid_dp (label vol)) then false
  else if (off_partition back =? off_partition self) && negb (off_block self =? 5)
          && negb (off_block back =? off_block self) && (off_block back >=? u64 (off_block self - 2)) then false
  else if negb (off_partition back =? 0) && (off_block back <? 5) then false
  else true.

Definition ltfs_read_index (fuel : nat) (eod : Z) (recover_symlink : bool) vol : option (Z * ltfs_volume D) :=
  let '(_, pos) := tape_get_position (device vol) in
  match xml_schema_from_tape fuel eod vol with
  | None => None
  | Some (ret, vol, symerr_count) =>
      let '(ret, vol) :=
        if negb (symerr_count =? 0) && recover_symlink then
          let '(rc, vol) := ltfs_split_symlink vol in
          (if rc <? 0 then rc else if ret =? - LTFS_SYMLINK_CONFLICT then 0 else ret, vol)
        else (ret, vol) in
      if ret <? 0 then Some (ret, vol)
      else
        let end_fm := negb (ret =? 1) in
        if negb (same_uuid (idx_vol_uuid (index vol)) (vol_uuid (label vol))) then Some (- LTFS_INDEX_INVALID, vol)
        else if negb (pointers_valid pos vol) then Some (- LTFS_INDEX_INVALID, vol)
        else if end_fm then
          let '(ret, dev) := tape_spacefm ops 1 (device vol) in
          let vol := set_device dev vol in
          Some (if ret <? 0 then ret else 0, vol)
        else Some (1, vol)
  end.

(** ** [ltfs_seek_index] *)

(** What the search reports besides its result. *)
Record seek_result := { r_eod : Z; index_end_pos : Z; fm_after : bool; blocks_after : bool }.

Definition with_end (pos eod : Z) (fm blocks : bool) : seek_result :=
  {| r_eod := eod; index_end_pos := pos; fm_after := fm; blocks_after := blocks |}.

(** No index was found.  The caller's other variables are as they were; the one for the
    end of the index was 0. *)
Definition no_index (eod : Z) : seek_result := with_end 0 eod false false.

(** The [while] loop.  [inl]: the function returns this; [inr]: an index was found. *)
Fixpoint seek_loop (fuel rfuel : nat) (ignore_wrong_version recover_symlink : bool) (eod : Z) vol
    : option ((Z + seek_result) * ltfs_volume D) :=
  match fuel with
  | O => None
  | S fuel' =>
      if block (position (device vol)) =? 3 then Some (inl 1, vol)
      else
        let '(ret, dev) := tape_spacefm ops 1 (device vol) in
        let vol := set_device dev vol in
        if ret <? 0 then Some (inl ret, vol)
        else match ltfs_read_index rfuel eod recover_symlink vol with
        | None => None
        | Some (ret, vol) =>
            if (ret =? 0) || (ret =? 1) then
              let pos := block (position (device vol)) in
              Some (inr (with_end pos eod (ret =? 0) (negb (pos =? eod))), vol)
            else if negb ignore_wrong_version && (ret =? - LTFS_UNSUPPORTED_INDEX_VERSION)
            then Some (inl ret, vol)
            else
              let '(ret, dev) := tape_spacefm ops (-2) (device vol) in
              let vol := set_device dev vol in
              if ret <? 0 then Some (inl ret, vol)
              else seek_loop fuel' rfuel ignore_wrong_version recover_symlink eod vol
        end
  end.

(** [strcpy] of the volume's identifier into the coherency data of the partition. *)
Definition note_index (partition : Z) vol : ltfs_volume D :=
  let coh := if partition =? ltfs_ip_id vol then ip_coh vol else dp_coh vol in
  let coh := {| volume_change_ref := volume_change_ref coh; count := generation (index vol);
                set_id := off_block (selfptr (index vol));
                uuid := strcpy_uuid (uuid coh) (vol_uuid (label vol)); version := version coh |} in
  if partition =? ltfs_ip_id vol then set_coherency coh (dp_coh vol) vol else set_coherency (ip_coh vol) coh vol.

(** The fuel is for the number of file marks passed and for the parser's requests. *)
Definition ltfs_seek_index (fuel rfuel : nat) (ignore_wrong_version : bool) (partition : Z)
    (recover_symlink : bool) vol : option (Z * option seek_result * ltfs_volume D) :=
  let '(ret, dev) := tape_seek_eod ops (ltfs_part_id2num partition vol) (device vol) in
  let vol := set_device dev vol in
  if ret <? 0 then Some (ret, None, vol)
  else
    let eod := block (position (device vol)) in
    if eod <=? 4 then Some (1, Some (no_index eod), vol)
    else
      let '(ret, dev) := tape_spacefm ops (-1) (device vol) in
      let vol := set_device dev vol in
      if ret <? 0 then Some (ret, Some (no_index eod), vol)
      else if block (position (device vol)) =? 3 then Some (1, Some (no_index eod), vol)
      else
        let '(ret, dev) := if block (position (device vol)) =? eod - 1
                           then tape_spacefm ops (-1) (device vol) else (0, device vol) in
        let vol := set_device dev vol in
        if ret <? 0 then Some (ret, Some (no_index eod), vol)
        else match seek_loop fuel rfuel ignore_wrong_version recover_symlink eod vol with
        | None => None
        | Some (inl ret, vol) => Some (ret, Some (no_index eod), vol)
        | Some (inr res, vol) =>
            if negb (partition =? off_partition (selfptr (index vol)))
            then Some (- LTFS_INDEX_INVALID, Some res, vol)
            else Some (0, Some res, note_index partition vol)
        end.

End read.
