(* ===== verification/IndexReadSpec.v ===== *)
(** * What reading an index does

    From an index file on tape, blocks between two file marks, the parser gets exactly
    the document, in whatever portions it asks for it; [ltfs_read_index] ends behind
    the closing file mark; and an index that [ltfs_write_index] has written is what
    [ltfs_seek_index] finds again. *)

From S2P Require Import Prelude Errors TapeOps TapeDev TapeDevSpec Append Coherency Extents Volume VolumeSpec FsRawReadSpec IndexRead.
Open Scope Z_scope.

(** A drive that reads what is there and finds the file marks there are. *)
Record tape_reliable {D : Type} (ops : tape_ops D) (tape_at : D -> medium -> tc_position -> Prop) : Prop := {
  data_reliable : reads_reliably ops tape_at;
  mark_reliable : forall count u pos d m, tape_at d m pos -> 0 <= count < 2 ^ 31 ->
    record_at m (partition pos) (block pos) = Some Filemark -> 0 <= (op_read ops count u pos d).1.1.1;
  space_reliable : spaces_reliably ops tape_at;
  eod_reliable : forall prt pos d m, tape_at d m pos -> valid_part prt ->
    0 <= (op_locate ops (seek_pos prt TAPE_BLOCK_MAX) pos d).1.1
}.

Section spec.
Context {D : Type} (ops : tape_ops D) {tape_at : D -> medium -> tc_position -> Prop}.
Context `{!TapeOk ops tape_at, !SpaceOk ops tape_at}.
Context (kmi : option (list Z -> Z * option (list Z))).
Hypothesis reliable : tape_reliable ops tape_at.
Implicit Types (dev : device_data D) (ctx : xml_input_tape D) (vol : ltfs_volume D).
Abbreviation dev_at := (dev_at (tape_at := tape_at)).

(** ** Single operations *)

Lemma read_record_any dev m count u r :
  dev_at dev m -> 0 <= count < 2 ^ 31 ->
  record_at m (partition (position dev)) (block (position dev)) = Some r ->
  let data := match r with Data bytes => take (Z.to_nat count) bytes | Filemark => [] end in
  exists pos' d', tape_read ops count u kmi dev = (Z.of_nat (length data), data, set_backend pos' d' dev)
  /\ dev_at (set_backend pos' d' dev) m /\ partition pos' = partition (position dev)
  /\ block pos' = block (position dev) + 1.
Proof.
  intros Hat Hc Hrec data.
  assert (Hge : 0 <= (op_read ops count u (position dev) (backend_data dev)).1.1.1).
  { destruct r as [bytes|]; [by apply (read_reliable _ _ (data_reliable _ _ reliable) _ _ _ _ m bytes)
                            |by apply (mark_reliable _ _ reliable _ _ _ _ m)]. }
  unfold tape_read. destruct (op_read ops count u (position dev) (backend_data dev)) as [[[rc buf] pos'] d'] eqn:Hop.
  cbn [fst] in Hge. destruct (read_ok _ _ _ _ _ _ _ _ _ Hat Hc Hop Hge) as (Hat' & Hp & Hb & Hn & Hbuf).
  rewrite Hrec in Hbuf. assert (Hdata : buf = data) by (by destruct r). subst buf.
  exists pos', d'. split; [|done].
  destruct kmi as [get_key|]; [|by rewrite Hn].
  unfold EDEV_CRYPTO_ERROR, EDEV_KEY_REQUIRED. rewrite !(proj2 (Z.eqb_neq rc _)) by lia. by rewrite Hn.
Qed.

Lemma read_record dev m count r :
  dev_at dev m -> 0 <= count < 2 ^ 31 ->
  record_at m (partition (position dev)) (block (position dev)) = Some r ->
  let data := match r with Data bytes => take (Z.to_nat count) bytes | Filemark => [] end in
  exists dev', tape_read ops count false kmi dev = (Z.of_nat (length data), data, dev')
  /\ dev_at dev' m /\ partition (position dev') = partition (position dev)
  /\ block (position dev') = block (position dev) + 1.
Proof.
  intros Hat Hc Hrec. destruct (read_record_any dev m count false r Hat Hc Hrec) as (pos' & d' & H).
  by exists (set_backend pos' d' dev).
Qed.

Lemma space_back dev m n b' :
  dev_at dev m -> 0 < n -> 0 < block (position dev) ->
  back_fm (reverse (take (Z.to_nat (block (position dev))) (part_of m (partition (position dev)))))
    (block (position dev) - 1) n = Some b' ->
  exists dev', tape_spacefm ops (- n) dev = (0, dev') /\ dev_at dev' m
  /\ partition (position dev') = partition (position dev) /\ block (position dev') = b'.
Proof.
  intros Hat Hn Hb Hfm. unfold tape_spacefm.
  replace (- n >? 0) with false by (symmetry; rewrite Z.gtb_ltb; apply Z.ltb_ge; lia). rewrite Z.opp_involutive.
  pose proof (space_back_reliable _ _ (space_reliable _ _ reliable) n _ _ m Hat Hn Hb ltac:(by rewrite Hfm)) as Hge.
  destruct (op_space ops n TC_SPACE_FM_B (position dev) (backend_data dev)) as [[rc pos'] d'] eqn:Hop. cbn [fst] in Hge.
  destruct (space_fm_back_ok _ _ _ _ _ _ _ Hat Hn Hb Hop Hge) as (-> & Hat' & Hp & Hf). rewrite Hfm in Hf.
  injection Hf as ->. by exists (set_backend pos' d' dev).
Qed.

Lemma space_fwd dev m n b' :
  dev_at dev m -> 0 < n ->
  fwd_fm (drop (Z.to_nat (block (position dev))) (part_of m (partition (position dev)))) (block (position dev)) n = Some b' ->
  exists dev', tape_spacefm ops n dev = (0, dev') /\ dev_at dev' m
  /\ partition (position dev') = partition (position dev) /\ block (position dev') = b'.
Proof.
  intros Hat Hn Hfm. unfold tape_spacefm.
  replace (n >? 0) with true by (symmetry; rewrite Z.gtb_ltb; by apply Z.ltb_lt).
  pose proof (space_fwd_reliable _ _ (space_reliable _ _ reliable) n _ _ m Hat Hn ltac:(by rewrite Hfm)) as Hge.
  destruct (op_space ops n TC_SPACE_FM_F (position dev) (backend_data dev)) as [[rc pos'] d'] eqn:Hop. cbn [fst] in Hge.
  destruct (space_fm_fwd_ok _ _ _ _ _ _ _ Hat Hn Hop Hge) as (-> & Hat' & Hp & Hf). rewrite Hfm in Hf.
  injection Hf as ->. by exists (set_backend pos' d' dev).
Qed.

(** ** What reading leaves alone *)

(** The append positions and the block size limit *)
Definition same_places dev dev' : Prop :=
  append_pos dev' = append_pos dev /\ max_block_size dev' = max_block_size dev.

Lemma same_places_trans dev1 dev2 dev3 : same_places dev1 dev2 -> same_places dev2 dev3 -> same_places dev1 dev3.
Proof. unfold same_places. intros [-> ->] [-> ->]. done. Qed.

Lemma spacefm_places n dev : same_places dev (tape_spacefm ops n dev).2.
Proof. unfold tape_spacefm. by destruct (n >? 0); destruct (op_space ops _ _ _ _) as [[ret pos] d]. Qed.

Lemma set_key_places keyalias key dev : same_places dev (tape_set_key ops keyalias key dev).2.
Proof.
  assert (Hset : forall ka k pos dev1, same_places dev dev1 -> same_places dev
    (let '(ret, d') := op_set_key ops ka k (backend_data dev1) in
     let dev2 := set_backend (position dev1) d' dev1 in
     if (0 <=? ret) && negb (block pos =? 0) then (ret, (tape_force_read_only dev2).2) else (ret, dev2)).2).
  { intros ka k pos dev1 H. destruct (op_set_key ops ka k _) as [ret d]. by destruct ((0 <=? ret) && _). }
  unfold tape_set_key. destruct key as [key|]; [|by apply Hset].
  destruct (op_readpos ops _ _) as [[ret pos] d]. destruct (ret <? 0) eqn:E; [by rewrite E|].
  cbn [Z.ltb Z.compare]. by apply Hset.
Qed.

Lemma read_places count u dev : same_places dev (tape_read ops count u kmi dev).2.
Proof.
  unfold tape_read, tape_get_keyalias. destruct (op_read ops count u _ _) as [[[ret buf] pos] d].
  destruct kmi as [get_key|]; [|done]. destruct (_ || _); [|done].
  destruct (op_get_keyalias ops _) as [[tmp ka] d2]. destruct (tmp <? 0); [done|].
  destruct (get_key ka) as [tmp2 key]. destruct (tmp2 <? 0); [done|]. destruct key as [key|]; [|done].
  match goal with |- context [tape_set_key ops ?a ?b ?c] => pose proof (set_key_places a b c) as Hk; destruct (tape_set_key ops a b c) as [tmp3 dev3] end.
  cbn [snd] in Hk. destruct (tmp3 <? 0); [done|]. by destruct (op_read ops count u _ _) as [[[ret2 buf2] pos2] d3].
Qed.

Lemma mark_places ctx : same_places (in_device ctx) (in_device (before_mark ops ctx).2).
Proof.
  unfold before_mark. pose proof (spacefm_places (-1) (in_device ctx)) as H.
  by destruct (tape_spacefm ops (-1) (in_device ctx)) as [ret dev].
Qed.

Lemma small_places nread ctx : same_places (in_device ctx) (in_device (small_block ops kmi nread ctx).2).
Proof.
  unfold small_block. destruct (nread =? 0); [exact (mark_places (set_seen _ true _ ctx))|]. cbn [in_device set_seen].
  destruct (_ || _); [|done]. pose proof (read_places (in_buf_size (set_seen (in_device ctx) true (saw_file_mark ctx) ctx)) false (in_device ctx)) as H.
  destruct (tape_read ops _ false kmi (in_device ctx)) as [[nr2 buf] dev]. cbn [snd] in H.
  destruct (nr2 <? 0); [done|]. destruct (nr2 =? 0); [|done].
  eapply same_places_trans; [exact H|]. exact (mark_places (set_seen dev true _ _)).
Qed.

Lemma fill_places fuel : forall len rem saved ctx r out ctx',
  fill_loop ops kmi fuel len rem saved ctx = Some (r, out, ctx') -> same_places (in_device ctx) (in_device ctx').
Proof.
  induction fuel as [|fuel IH]; intros len rem saved ctx r out ctx'; cbn [fill_loop].
  { destruct (negb _); [|done]. intros [= _ _ <-]. done. }
  destruct (negb (rem >? 0)); [intros [= _ _ <-]; done|]. destruct (_ && _); [intros [= _ _ <-]; done|].
  destruct (saw_small_block ctx); [intros [= _ _ <-]; done|].
  pose proof (read_places (in_buf_size ctx) false (in_device ctx)) as H.
  destruct (tape_read ops _ false kmi (in_device ctx)) as [[nread data] dev]. cbn [snd] in H.
  destruct (nread <? 0); [intros [= _ _ <-]; exact H|].
  set (c2 := if nread <? _ then _ else _).
  assert (H2 : same_places (in_device ctx) (in_device c2.2)).
  { unfold c2. destruct (_ <? _); [|exact H]. eapply same_places_trans; [exact H|]. apply (small_places nread (block_read dev data ctx)). }
  clearbody c2. destruct c2 as [ret c2]. cbn [snd] in H2.
  destruct (ret <? 0); [intros [= _ _ <-]; exact H2|]. destruct (rem >? nread); [|intros [= _ _ <-]; exact H2].
  intros Hrun. eapply same_places_trans; [exact H2|]. by eapply IH.
Qed.

Lemma callback_places len ctx r out ctx' :
  xml_input_tape_read_callback ops kmi len ctx = Some (r, out, ctx') -> same_places (in_device ctx) (in_device ctx').
Proof.
  unfold xml_input_tape_read_callback. destruct (len =? 0); [intros [= _ _ <-]; done|].
  destruct (len <=? _); [intros [= _ _ <-]; done|]. intros Hrun. apply fill_places in Hrun. by destruct (_ >? 0).
Qed.

Lemma feed_places reader fuel : forall bytes ctx bytes' failed ctx',
  feed ops kmi reader fuel bytes ctx = Some (bytes', failed, ctx') -> same_places (in_device ctx) (in_device ctx').
Proof.
  induction fuel as [|fuel IH]; intros bytes ctx bytes' failed ctx'; cbn [feed];
    (destruct (next_request reader bytes); [|intros [= _ _ <-]; done]); [done|].
  destruct (xml_input_tape_read_callback ops kmi _ ctx) as [[[ret data] c2]|] eqn:E; [|done].
  apply callback_places in E. destruct (ret <? 0); [intros [= _ _ <-]; exact E|].
  destruct (ret =? 0); [intros [= _ _ <-]; exact E|]. intros Hrun. eapply same_places_trans; [exact E|]. by eapply IH.
Qed.

(** ** The index file *)

Section input.
Context (m : medium) (p b bs eod : Z) (blocks : list (list Z)) (doc : list Z).

(** From block [b] of partition [p] on: the blocks of the document and a file mark. *)
Definition index_file : Prop :=
  valid_part p /\ 0 <= b /\ exists pre post,
    part_of m p = pre ++ (Data <$> blocks) ++ Filemark :: post /\ Z.of_nat (length pre) = b.

Hypothesis file : index_file.
Hypothesis doc_blocks : blocks_of bs doc blocks.
Hypothesis bs_range : 0 < bs < 2 ^ 31.
Hypothesis room : b + Z.of_nat (length blocks) + 1 < 2 ^ 63.
Hypothesis eod_behind : eod = 0 \/ b + Z.of_nat (length blocks) < eod.

Lemma file_block i k : blocks !! i = Some k -> record_at m p (b + Z.of_nat i) = Some (Data k).
Proof.
  intros Hk. destruct file as (_ & Hb & pre & post & E & Hpre). unfold record_at.
  rewrite (proj2 (Z.ltb_ge _ 0)), E by lia. rewrite lookup_app_r by lia.
  replace (Z.to_nat (b + Z.of_nat i) - length pre)%nat with i by lia.
  apply lookup_app_l_Some. by rewrite list_lookup_fmap, Hk.
Qed.

Lemma file_mark : record_at m p (b + Z.of_nat (length blocks)) = Some Filemark.
Proof.
  destruct file as (_ & Hb & pre & post & E & Hpre). unfold record_at.
  rewrite (proj2 (Z.ltb_ge _ 0)), E by lia. rewrite lookup_app_r by lia.
  replace (Z.to_nat (b + Z.of_nat (length blocks)) - length pre)%nat with (length blocks) by lia.
  rewrite lookup_app_r by (rewrite length_fmap; lia). by rewrite length_fmap, Nat.sub_diag.
Qed.

Lemma block_size i k : blocks !! i = Some k -> 0 < Z.of_nat (length k) <= bs /\ (i + 1 < length blocks -> Z.of_nat (length k) = bs)%nat.
Proof.
  intros Hk. destruct doc_blocks as (_ & full & last & -> & Hfull & Hlast).
  rewrite Forall_lookup in Hfull. rewrite length_app.
  destruct (decide (i < length full)%nat) as [Hi|Hi].
  - rewrite lookup_app_l in Hk by done. rewrite (Hfull _ _ Hk). lia.
  - rewrite lookup_app_r in Hk by lia. destruct Hlast as [->|(x & -> & Hx)]; [done|].
    apply list_lookup_singleton_Some in Hk as [Hi0 ->]. cbn. lia.
Qed.

(** ** The input *)

Definition pending ctx : list Z := take (Z.to_nat (buf_used ctx)) (drop (Z.to_nat (buf_start ctx)) (in_buf ctx)).

(** The parser has had [del], [todo] is still on tape, and [small] says whether the
    file mark has been seen. *)
Record input_ok (del : list Z) (todo : list (list Z)) (small : bool) ctx : Prop := {
  i_at : dev_at (in_device ctx) m;
  i_part : partition (position (in_device ctx)) = p;
  i_block : block (position (in_device ctx)) = b + Z.of_nat (length blocks) - Z.of_nat (length todo);
  i_todo : exists front, blocks = front ++ todo;
  i_small : saw_small_block ctx = small /\ saw_file_mark ctx = small;
  i_end : small = true -> todo = [];
  i_full : small = false -> todo = [] -> forall front k, blocks = front ++ [k] -> Z.of_nat (length k) = bs;
  i_pos : small = false -> current_pos ctx = b + Z.of_nat (length blocks) - Z.of_nat (length todo);
  i_eod : eod_pos ctx = eod;
  i_size : in_buf_size ctx = bs;
  i_used : 0 <= buf_used ctx <= bs /\ 0 <= buf_start ctx;
  i_pending : Z.of_nat (length (pending ctx)) = buf_used ctx;
  i_doc : del ++ pending ctx ++ concat todo = doc
}.

(** Stepping back over the closing file mark. *)
Lemma before_mark_ok ctx :
  dev_at (in_device ctx) m -> partition (position (in_device ctx)) = p ->
  block (position (in_device ctx)) = b + Z.of_nat (length blocks) + 1 ->
  exists dev, before_mark ops ctx = (0, set_seen dev true true ctx) /\ dev_at dev m
  /\ partition (position dev) = p /\ block (position dev) = b + Z.of_nat (length blocks).
Proof.
  intros Hat Hp Hb. unfold before_mark.
  destruct (space_back (in_device ctx) m 1 (b + Z.of_nat (length blocks)) Hat ltac:(lia)) as (dev & E & Hat' & Hp' & Hb').
  - destruct file as (_ & H0 & _). lia.
  - rewrite Hp, Hb. destruct file as (_ & H0 & pre & post & E & Hpre). rewrite E.
    replace (Z.to_nat (b + Z.of_nat (length blocks) + 1)) with (length ((pre ++ (Data <$> blocks)) ++ [Filemark])).
    2: { rewrite !length_app, length_fmap. cbn. lia. }
    replace (pre ++ (Data <$> blocks) ++ Filemark :: post) with (((pre ++ (Data <$> blocks)) ++ [Filemark]) ++ post).
    2: { by rewrite <- !app_assoc. }
    rewrite take_app_length, reverse_snoc. cbn. f_equal. lia.
  - change (- (1)) with (-1) in E. exists dev. rewrite E. cbn. by rewrite Hp'.
Qed.

(** ** One turn of the loop *)

Lemma unread_nil ctx : buf_used ctx = 0 -> pending ctx = [].
Proof. intros E. unfold pending. by rewrite E. Qed.

(** Reading the file mark. *)
Lemma read_the_mark d ctx :
  input_ok d [] false ctx -> buf_used ctx = 0 ->
  exists data dev ctx',
    tape_read ops bs false kmi (in_device ctx) = (0, data, dev)
    /\ small_block ops kmi 0 (block_read dev data ctx) = (0, ctx')
    /\ take 0 data = [] /\ input_ok d [] true ctx' /\ buf_used ctx' = 0.
Proof.
  intros [Hat Hp Hb [front Hf] Hs He Hfl Hpos Heod Hsz Hu Hpe Hdoc] H0. cbn [length] in *. rewrite Z.sub_0_r in *.
  destruct (read_record (in_device ctx) m bs Filemark Hat ltac:(lia)) as (dev & Hr & Hat' & Hp' & Hb').
  { rewrite Hp, Hb. exact file_mark. }
  set (ctx1 := set_seen dev true (saw_file_mark ctx) (block_read dev [] ctx)).
  destruct (before_mark_ok ctx1) as (dev2 & Hbm & Hat2 & Hp2 & Hb2); [exact Hat'|cbn; by rewrite Hp'|cbn; rewrite Hb'; lia|].
  exists [], dev, (set_seen dev2 true true ctx1). split; [exact Hr|]. split; [exact Hbm|]. split; [done|]. split; [|done].
  rewrite (unread_nil ctx H0) in Hdoc.
  split; cbn; try done.
  - cbn. lia.
  - by exists front.
  - by rewrite unread_nil.
  - by rewrite unread_nil.
Qed.

(** Reading a block, and looking for the file mark when it is a short one. *)
Lemma read_a_block d k todo ctx :
  input_ok d (k :: todo) false ctx -> buf_used ctx = 0 ->
  exists dev ctx',
    tape_read ops bs false kmi (in_device ctx) = (Z.of_nat (length k), k, dev)
    /\ (if Z.of_nat (length k) <? bs then small_block ops kmi (Z.of_nat (length k)) (block_read dev k ctx)
        else (0, block_read dev k ctx)) = (0, ctx')
    /\ input_ok (d ++ k) todo (Z.of_nat (length k) <? bs) ctx' /\ buf_used ctx' = 0 /\ in_buf ctx' = k.
Proof.
  intros [Hat Hp Hb [front Hf] Hs He Hfl Hpos Heod Hsz Hu Hpe Hdoc] H0.
  assert (Hlen : length blocks = (length front + S (length todo))%nat) by (rewrite Hf, length_app; done).
  assert (Hk : blocks !! length front = Some k) by (by rewrite Hf, list_lookup_middle).
  destruct (block_size _ _ Hk) as [Hsize Hfull].
  assert (Hbk : block (position (in_device ctx)) = b + Z.of_nat (length front)) by (rewrite Hb, Hlen; cbn [length]; lia).
  destruct (read_record (in_device ctx) m bs (Data k) Hat ltac:(lia)) as (dev & Hr & Hat' & Hp' & Hb').
  { rewrite Hp, Hbk. by apply file_block. }
  rewrite take_ge in Hr by lia. rewrite (unread_nil ctx H0) in Hdoc. cbn [app concat] in Hdoc.
  assert (Hdoc' : (d ++ k) ++ concat todo = doc) by (by rewrite <- app_assoc).
  specialize (Hpos eq_refl). assert (Hf' : blocks = (front ++ [k]) ++ todo) by (by rewrite <- app_assoc).
  assert (Hcur : u64 (current_pos ctx + 1) = b + Z.of_nat (length blocks) - Z.of_nat (length todo)).
  { rewrite Hpos, u64_small; destruct file as (_ & ? & _); cbn [length] in *; lia. }
  destruct (Z.ltb_spec (Z.of_nat (length k)) bs) as [Hshort|Hfulls].
  - assert (Htodo : todo = []) by (destruct todo; [done|cbn [length] in *; rewrite Hfull in Hshort by lia; lia]).
    subst todo. cbn [length] in *. unfold small_block.
    rewrite (proj2 (Z.eqb_neq (Z.of_nat (length k)) 0)) by lia.
    assert (Hcond : (eod_pos ctx =? 0) || ((eod_pos ctx >? 0) && (u64 (current_pos ctx + 1) <? eod_pos ctx)) = true).
    { rewrite Heod, Hcur. destruct eod_behind as [->|He2]; [done|].
      apply orb_true_iff. right. apply andb_true_intro. split; [rewrite Z.gtb_ltb|]; apply Z.ltb_lt; destruct file as (_ & ? & _); lia. }
    cbn [set_seen block_read in_device in_buf_size eod_pos current_pos saw_file_mark]. rewrite Hcond, Hsz.
    destruct (read_record dev m bs Filemark Hat' ltac:(lia)) as (dev1 & Hr1 & Hat1 & Hp1 & Hb1).
    { rewrite Hp', Hp, Hb', Hb. replace (b + Z.of_nat (length blocks) - Z.of_nat 1 + 1) with (b + Z.of_nat (length blocks)) by lia. exact file_mark. }
    set (ctx1 := set_seen dev1 true (saw_file_mark ctx) (set_seen dev true (saw_file_mark ctx) (block_read dev k ctx))).
    destruct (before_mark_ok ctx1) as (dev2 & Hbm & Hat2 & Hp2 & Hb2); [exact Hat1|cbn; by rewrite Hp1, Hp'|cbn; lia|].
    exists dev, (set_seen dev2 true true ctx1). split; [exact Hr|]. rewrite Hr1. split; [exact Hbm|]. split; [|split; [exact H0|done]].
    split; cbn; try done.
    + lia.
    + by exists (front ++ [k]).
    + by rewrite unread_nil.
    + rewrite unread_nil by done. exact Hdoc'.
  - exists dev, (block_read dev k ctx). split; [exact Hr|]. split; [done|]. split; [|split; [exact H0|done]].
    split; cbn; try done.
    + by rewrite Hp'.
    + rewrite Hb', Hb. cbn [length]. lia.
    + by exists (front ++ [k]).
    + intros _ -> f2 k2 E. rewrite E, app_nil_r in Hf'. apply app_inj_tail in Hf' as [_ ->]. lia.
    + by rewrite unread_nil.
    + by rewrite unread_nil.
Qed.

(** Part of the block just read is delivered, the rest is kept. *)
Lemma keep_rest d k todo small ctx rem :
  input_ok (d ++ k) todo small ctx -> in_buf ctx = k -> buf_used ctx = 0 -> 0 <= rem <= Z.of_nat (length k) ->
  Z.of_nat (length k) <= bs ->
  input_ok (d ++ take (Z.to_nat rem) k) todo small (set_buffer rem (Z.of_nat (length k) - rem) ctx).
Proof.
  intros [Hat Hp Hb Hf Hs He Hfl Hpos Heod Hsz Hu Hpe Hdoc] Hk H0 Hrem Hkb.
  assert (E : pending (set_buffer rem (Z.of_nat (length k) - rem) ctx) = drop (Z.to_nat rem) k).
  { unfold pending. cbn. rewrite Hk. apply take_ge. rewrite length_drop. lia. }
  split; try done; [cbn; lia|rewrite E, length_drop; cbn; lia|].
  rewrite E, <- app_assoc, (app_assoc (take _ _)), take_drop.
  rewrite (unread_nil ctx H0) in Hdoc. by rewrite <- app_assoc in Hdoc.
Qed.

(** ** The callback *)

(** [out] was delivered of [rem] bytes wanted: all of them, or all there are. *)
Definition delivered (rem : Z) (out : list Z) (todo : list (list Z)) (small : bool) ctx : Prop :=
  Z.of_nat (length out) = rem
  \/ Z.of_nat (length out) < rem /\ todo = [] /\ small = true /\ pending ctx = [].

Lemma fill_loop_small fuel len rem saved ctx :
  saw_small_block ctx = true -> 0 < rem ->
  fill_loop ops kmi (S fuel) len rem saved ctx = Some (Z.of_nat (length saved), saved, ctx).
Proof.
  intros Hs Hr. cbn [fill_loop]. rewrite Z.gtb_ltb, (proj2 (Z.ltb_lt 0 rem)) by done. cbn [negb].
  rewrite Hs. by destruct (_ && _).
Qed.

Lemma not_at_eod d todo ctx : input_ok d todo false ctx -> (eod_pos ctx >? 0) && (current_pos ctx =? eod_pos ctx) = false.
Proof.
  intros H. rewrite (i_pos _ _ _ _ H eq_refl), (i_eod _ _ _ _ H).
  destruct eod_behind as [->|He]; [done|]. apply andb_false_iff. right. apply Z.eqb_neq. lia.
Qed.

Lemma fill_loop_ok fuel d todo small ctx len rem saved :
  input_ok (d ++ saved) todo small ctx -> buf_used ctx = 0 -> 0 <= rem -> rem + 2 <= Z.of_nat fuel ->
  len = Z.of_nat (length saved) + rem ->
  exists out todo' small' ctx',
    fill_loop ops kmi fuel len rem saved ctx = Some (Z.of_nat (length (saved ++ out)), saved ++ out, ctx')
    /\ input_ok (d ++ saved ++ out) todo' small' ctx' /\ delivered rem out todo' small' ctx'.
Proof.
  revert todo small ctx rem saved. induction fuel as [|fuel IH]; intros todo small ctx rem saved Hin H0 Hrem Hfuel Hlen; [lia|].
  destruct (Z.eqb_spec rem 0) as [->|Hne].
  { exists [], todo, small, ctx. cbn. rewrite !app_nil_r. split; [by rewrite Hlen, Z.add_0_r|]. split; [done|by left]. }
  destruct small.
  { exists [], todo, true, ctx. rewrite !app_nil_r. destruct (i_small _ _ _ _ Hin) as [Hs _].
    rewrite fill_loop_small by (done || lia). split; [done|]. split; [done|]. right. cbn.
    split; [lia|]. split; [by apply (i_end _ _ _ _ Hin)|]. split; [done|by apply unread_nil]. }
  cbn [fill_loop]. rewrite Z.gtb_ltb, (proj2 (Z.ltb_lt 0 rem)) by lia. cbn [negb].
  rewrite (not_at_eod _ _ _ Hin). destruct (i_small _ _ _ _ Hin) as [Hs _]. rewrite Hs, (i_size _ _ _ _ Hin).
  destruct todo as [|k todo].
  - destruct (read_the_mark (d ++ saved) ctx Hin H0) as (data & dev & ctx1 & Hr & Hsb & Hd & Hin1 & H1). rewrite Hr.
    cbn [Z.ltb Z.compare]. change (in_buf_size (block_read dev data ctx)) with (in_buf_size ctx).
    rewrite (i_size _ _ _ _ Hin). replace (0 <? bs) with true by (symmetry; apply Z.ltb_lt; lia). rewrite Hsb. cbn [Z.ltb Z.compare].
    rewrite Z.gtb_ltb, (proj2 (Z.ltb_lt 0 rem)) by lia. change (Z.to_nat 0) with 0%nat. rewrite Hd, app_nil_r, Z.sub_0_r.
    destruct fuel as [|fuel]; [lia|]. destruct (i_small _ _ _ _ Hin1) as [Hs1 _].
    rewrite fill_loop_small by (done || lia). exists [], [], true, ctx1. rewrite !app_nil_r. split; [done|]. split; [done|].
    right. cbn. split; [lia|]. split; [done|]. split; [done|by apply unread_nil].
  - destruct (read_a_block (d ++ saved) k todo ctx Hin H0) as (dev & ctx1 & Hr & Hsb & Hin1 & H1 & Hbuf). rewrite Hr.
    rewrite (proj2 (Z.ltb_ge (Z.of_nat (length k)) 0)) by lia.
    change (in_buf_size (block_read dev k ctx)) with (in_buf_size ctx). rewrite (i_size _ _ _ _ Hin), Hsb. cbn [Z.ltb Z.compare].
    assert (Hk : 0 < Z.of_nat (length k) <= bs).
    { destruct (i_todo _ _ _ _ Hin) as [front E]. apply (block_size (length front)). by rewrite E, list_lookup_middle. }
    rewrite Z.gtb_ltb. destruct (Z.ltb_spec (Z.of_nat (length k)) rem) as [Hlt|Hge].
    + rewrite take_ge by lia. rewrite <- app_assoc in Hin1.
      destruct (IH todo _ ctx1 (rem - Z.of_nat (length k)) (saved ++ k) Hin1 H1 ltac:(lia) ltac:(lia))
        as (out & todo' & small' & ctx' & Hrun & Hin' & Hdel); [rewrite length_app; lia|].
      exists (k ++ out), todo', small', ctx'. rewrite Hrun, <- !app_assoc. split; [done|].
      split; [by rewrite <- !app_assoc in Hin'|].
      destruct Hdel as [Hd|(Hd & Hrest)]; [left|right]; rewrite length_app; [lia|]. split; [lia|done].
    + exists (take (Z.to_nat rem) k), todo, (Z.of_nat (length k) <? bs), (set_buffer rem (Z.of_nat (length k) - rem) ctx1).
      assert (Ht : length (take (Z.to_nat rem) k) = Z.to_nat rem) by (rewrite length_take; lia).
      assert (Hlo : Z.of_nat (length (saved ++ take (Z.to_nat rem) k)) = len) by (rewrite length_app, Ht; lia).
      split; [by rewrite Hlo|]. rewrite app_assoc.
      split; [by apply keep_rest; [..|lia|lia]|]. left. rewrite Ht. lia.
Qed.

Lemma callback_ok len d todo small ctx :
  input_ok d todo small ctx -> 0 < len < 2 ^ 31 ->
  exists out todo' small' ctx',
    xml_input_tape_read_callback ops kmi len ctx = Some (Z.of_nat (length out), out, ctx')
    /\ input_ok (d ++ out) todo' small' ctx' /\ delivered len out todo' small' ctx'.
Proof.
  intros Hin Hlen. pose proof (i_used _ _ _ _ Hin) as [Hu Hst]. pose proof (i_pending _ _ _ _ Hin) as Hpe.
  unfold xml_input_tape_read_callback. rewrite (proj2 (Z.eqb_neq len 0)) by lia. rewrite s32_small by lia.
  set (cached := drop (Z.to_nat (buf_start ctx)) (in_buf ctx)) in *.
  assert (Hcl : Z.of_nat (length (take (Z.to_nat (buf_used ctx)) cached)) = buf_used ctx) by exact Hpe.
  rewrite length_take in Hcl.
  destruct (Z.leb_spec len (buf_used ctx)) as [Hc|Hc].
  - set (start := if buf_used ctx - len >? 0 then buf_start ctx + len else 0).
    set (ctx' := set_buffer start (buf_used ctx - len) ctx).
    assert (Hp : pending ctx = take (Z.to_nat len) cached ++ pending ctx').
    { unfold pending, ctx'. cbn. fold cached. subst start. rewrite Z.gtb_ltb.
      destruct (Z.ltb_spec 0 (buf_used ctx - len)).
      - replace (Z.to_nat (buf_used ctx)) with (Z.to_nat len + Z.to_nat (buf_used ctx - len))%nat by lia.
        rewrite <- take_take_drop. unfold cached. rewrite drop_drop. do 3 f_equal. lia.
      - replace (buf_used ctx - len) with 0 by lia. rewrite app_nil_r. f_equal. lia. }
    exists (take (Z.to_nat len) cached), todo, small, ctx'.
    assert (Ht : Z.of_nat (length (take (Z.to_nat len) cached)) = len) by (rewrite length_take; lia).
    split; [by rewrite Ht|]. split; [|by left].
    destruct Hin as [Hat Hpt Hb Hf Hs He Hfl Hpos Heod Hsz _ _ Hdoc]. split; try done.
    + cbn. subst start. destruct (_ >? 0); lia.
    + rewrite Hp, length_app in Hpe. cbn. lia.
    + by rewrite <- app_assoc, (app_assoc (take _ _)), <- Hp.
  - set (saved := if buf_used ctx >? 0 then take (Z.to_nat (buf_used ctx)) cached else []).
    set (ctx0 := if buf_used ctx >? 0 then set_buffer 0 0 ctx else ctx).
    assert (Hsaved : saved = pending ctx).
    { unfold saved, pending. fold cached. rewrite Z.gtb_ltb. destruct (Z.ltb_spec 0 (buf_used ctx)); [done|].
      by replace (buf_used ctx) with 0 by lia. }
    assert (Hin0 : input_ok (d ++ saved) todo small ctx0 /\ buf_used ctx0 = 0).
    { rewrite Hsaved. unfold ctx0. rewrite Z.gtb_ltb. destruct (Z.ltb_spec 0 (buf_used ctx)).
      - split; [|done]. destruct Hin as [Hat Hpt Hb Hf Hs He Hfl Hpos Heod Hsz _ _ Hdoc]. split; try done; [cbn; lia|].
        rewrite <- app_assoc. exact Hdoc.
      - split; [|lia]. rewrite unread_nil, app_nil_r by lia. done. }
    destruct Hin0 as [Hin0 Hu0]. assert (Hsl : Z.of_nat (length saved) = buf_used ctx) by (by rewrite Hsaved).
    destruct (fill_loop_ok (S (S (Z.to_nat (len - Z.of_nat (length saved))))) d todo small ctx0 len
      (len - Z.of_nat (length saved)) saved Hin0 Hu0 ltac:(lia) ltac:(lia) ltac:(lia))
      as (out & todo' & small' & ctx' & Hrun & Hin' & Hdel).
    exists (saved ++ out), todo', small', ctx'. rewrite Hrun. split; [done|]. split; [done|].
    destruct Hdel as [Hd|(Hd & Hrest)]; [left|right]; rewrite length_app; [lia|]. split; [lia|done].
Qed.

(** ** The parser *)

Context (reader : xml_reader).

(** The parser asks for more until it has had the document. *)
Definition reads_document : Prop :=
  (forall x y, doc = x ++ y -> y <> [] -> exists n, next_request reader x = Some n)
  /\ forall x n, next_request reader x = Some n -> 0 < n < 2 ^ 31.

(** The file mark is seen: the last block is a short one, or the parser asks on. *)
Definition sees_mark : Prop :=
  next_request reader doc <> None \/ exists front k, blocks = front ++ [k] /\ Z.of_nat (length k) < bs.

Lemma blocks_not_empty todo : (exists front, blocks = front ++ todo) -> concat todo = [] -> todo = [].
Proof.
  intros [front E] Hc. destruct todo as [|k todo]; [done|]. cbn in Hc. apply app_eq_nil in Hc as [-> _].
  destruct (block_size (length front) []) as [H _]; [by rewrite E, list_lookup_middle|]. cbn in H. lia.
Qed.

Lemma feed_ok fuel d todo small ctx :
  reads_document -> input_ok d todo small ctx -> Z.of_nat (length doc) - Z.of_nat (length d) < Z.of_nat fuel ->
  exists small' ctx', feed ops kmi reader fuel d ctx = Some (doc, false, ctx')
  /\ input_ok doc [] small' ctx' /\ (sees_mark -> small' = true).
Proof.
  intros [Hask Hreq]. revert d todo small ctx. induction fuel as [|fuel IH]; intros d todo small ctx Hin Hfuel.
  { pose proof (i_doc _ _ _ _ Hin) as Hd. apply (f_equal length) in Hd. rewrite length_app in Hd. lia. }
  pose proof (i_doc _ _ _ _ Hin) as Hd.
  assert (Hend : d = doc -> todo = [] /\ pending ctx = []).
  { intros E. rewrite <- (app_nil_r doc), E in Hd. apply app_inv_head, app_eq_nil in Hd as [Hp Hc].
    split; [by apply blocks_not_empty; [apply (i_todo _ _ _ _ Hin)|]|done]. }
  cbn [feed]. destruct (next_request reader d) as [len|] eqn:Hn.
  - destruct (callback_ok len d todo small ctx Hin (Hreq _ _ Hn)) as (out & todo' & small' & ctx' & Hrun & Hin' & Hdel).
    rewrite Hrun, (proj2 (Z.ltb_ge (Z.of_nat (length out)) 0)) by lia.
    destruct (Z.eqb_spec (Z.of_nat (length out)) 0) as [Hz|Hz].
    + destruct out; [|cbn in Hz; lia]. rewrite app_nil_r in Hin'. pose proof (Hreq _ _ Hn).
      destruct Hdel as [Hdel|(_ & -> & -> & Hp)]; [cbn in Hdel; lia|].
      pose proof (i_doc _ _ _ _ Hin') as Hd'. rewrite Hp in Hd'. cbn in Hd'. rewrite app_nil_r in Hd'. subst d.
      exists true, ctx'. by split_and!.
    + destruct (IH (d ++ out) todo' small' ctx' Hin') as (s2 & c2 & Hf & H2); [rewrite length_app; lia|].
      exists s2, c2. by rewrite Hf.
  - assert (E : d = doc).
    { rewrite <- Hd. destruct (pending ctx ++ concat todo) as [|x l] eqn:El; [by rewrite app_nil_r|].
      destruct (Hask d (x :: l)) as [n Hn']; [done|done|congruence]. }
    destruct (Hend E) as [-> Hp]. subst d. exists small, ctx. split; [done|]. split; [done|].
    intros [Hm|(front & k & Hb & Hk)]; [congruence|]. destruct small; [done|].
    rewrite (i_full _ _ _ _ Hin eq_refl eq_refl front k Hb) in Hk. lia.
Qed.

(** ** [ltfs_read_index] *)

Context (ltfs_split_symlink : ltfs_volume D -> Z * ltfs_volume D).
Context (vol : ltfs_volume D) (idx : ltfs_index).
Hypothesis head : dev_at (device vol) m /\ partition (position (device vol)) = p /\ block (position (device vol)) = b.
Hypothesis size : blocksize (label vol) = bs.
Hypothesis reads : reads_document.
Hypothesis parses : parse reader doc false = {| p_ret := 0; p_index := idx; p_symerr_count := 0 |}.

Lemma schema_from_tape_ok fuel :
  Z.of_nat (length doc) < Z.of_nat fuel ->
  exists ret dev, xml_schema_from_tape ops kmi reader fuel eod vol = Some (ret, set_index idx (set_device dev vol), 0)
  /\ dev_at dev m /\ partition (position dev) = p /\ block (position dev) = b + Z.of_nat (length blocks)
  /\ (ret = 0 \/ ret = 1) /\ (sees_mark -> ret = 0) /\ same_places (device vol) dev.
Proof.
  intros Hfuel. destruct head as (Hat & Hp & Hb). unfold xml_schema_from_tape. cbn [tape_get_position].
  set (ctx := {| in_device := device vol; current_pos := _ |}).
  assert (Hin : input_ok [] blocks false ctx).
  { split; cbn; try done.
    - lia.
    - by exists [].
    - intros _ E f k E2. rewrite E in E2. by destruct f.
    - intros _. lia.
    - lia.
    - destruct doc_blocks as [Hd _]. exact Hd. }
  destruct (feed_ok fuel [] blocks false ctx reads Hin) as (small & ctx' & Hrun & Hin' & Hsees); [cbn; lia|].
  rewrite Hrun, parses. cbn [p_ret p_index p_symerr_count Z.ltb Z.eqb Z.compare].
  destruct Hin' as [Hat' Hp' Hb' _ [_ Hs] _ _ _ _ _ _ _ _]. cbn [length] in Hb'.
  exists (if negb (saw_file_mark ctx') then 1 else 0), (in_device ctx'). rewrite Hs.
  split; [done|]. split; [done|]. split; [done|]. split; [lia|].
  split; [destruct small; auto|]. split; [intros Hm; by rewrite (Hsees Hm)|].
  apply feed_places in Hrun. exact Hrun.
Qed.

Hypothesis uuid_matches : same_uuid (idx_vol_uuid idx) (vol_uuid (label vol)) = true.
Hypothesis pointers : pointers_valid (position (device vol)) (set_index idx vol) = true.

Lemma read_index_ok fuel recover :
  Z.of_nat (length doc) < Z.of_nat fuel ->
  exists ret dev, ltfs_read_index ops kmi reader ltfs_split_symlink fuel eod recover vol = Some (ret, set_index idx (set_device dev vol))
  /\ dev_at dev m /\ partition (position dev) = p
  /\ (ret = 0 /\ block (position dev) = b + Z.of_nat (length blocks) + 1
      \/ ret = 1 /\ block (position dev) = b + Z.of_nat (length blocks))
  /\ (sees_mark -> ret = 0) /\ same_places (device vol) dev.
Proof.
  intros Hfuel. destruct (schema_from_tape_ok fuel Hfuel) as (ret & dev & Hrun & Hat & Hp & Hb & Hret & Hsees & Hpl).
  unfold ltfs_read_index. cbn [tape_get_position]. rewrite Hrun. cbn [Z.eqb negb andb].
  assert (Hnn : (ret <? 0) = false) by (apply Z.ltb_ge; lia). rewrite Hnn.
  change (index (set_index idx (set_device dev vol))) with idx.
  change (label (set_index idx (set_device dev vol))) with (label vol). rewrite uuid_matches. cbn [negb].
  change (pointers_valid (position (device vol)) (set_index idx (set_device dev vol)))
    with (pointers_valid (position (device vol)) (set_index idx vol)). rewrite pointers. cbn [negb].
  destruct Hret as [->| ->]; cbn [Z.eqb Pos.eqb negb].
  - change (device (set_index idx (set_device dev vol))) with dev.
    destruct (space_fwd dev m 1 (b + Z.of_nat (length blocks) + 1) Hat ltac:(lia)) as (dev' & E & Hat' & Hp' & Hb').
    { rewrite Hp, Hb. pose proof file_mark as Hm. unfold record_at in Hm. destruct (_ <? 0) in Hm; [done|].
      rewrite (drop_S _ _ _ Hm). done. }
    pose proof (spacefm_places 1 dev) as Hpl2. rewrite E in Hpl2 |- *. cbn [Z.ltb Z.compare]. exists 0, dev'.
    split; [done|]. split; [done|]. split; [congruence|]. split; [by left|]. split; [done|]. by eapply same_places_trans.
  - exists 1, dev. split; [done|]. split; [done|]. split; [done|]. split; [by right|done].
Qed.

End input.
(** ** [ltfs_seek_index] *)

Lemma seek_eod_ok dev m prt :
  dev_at dev m -> valid_part prt ->
  exists dev', tape_seek_eod ops prt dev = (0, dev') /\ dev_at dev' m
  /\ partition (position dev') = prt /\ block (position dev') = eod_at m prt
  /\ append_pos dev' = upd prt (eod_at m prt) (append_pos dev) /\ max_block_size dev' = max_block_size dev.
Proof.
  intros Hat Hv. unfold tape_seek_eod.
  replace (prt >? 1) with false by (symmetry; by destruct Hv as [->| ->]).
  pose proof (eod_reliable _ _ reliable prt _ _ m Hat Hv) as Hge.
  destruct (op_locate ops (seek_pos prt TAPE_BLOCK_MAX) (position dev) (backend_data dev)) as [[rc pos'] d'] eqn:Hop.
  cbn [fst] in Hge.
  destruct (locate_ok (seek_pos prt TAPE_BLOCK_MAX) _ _ _ _ _ _ Hat Hv ltac:(done) Hop Hge) as (-> & Hat' & Hp & Hb).
  cbn [Z.ltb Z.compare]. cbn [partition block seek_pos] in Hp, Hb.
  destruct (tape_at_ok _ _ _ Hat') as (_ & Hbk & H0 & H1).
  rewrite Z.min_r in Hb by (unfold TAPE_BLOCK_MAX; destruct Hv as [->| ->]; lia).
  change (position (set_backend pos' d' dev)) with pos'. rewrite Hp, Z.eqb_refl. cbn [negb].
  destruct (note_space_same (set_backend pos' d' dev)) as (Epos & Eap & Ebk & Emx & _).
  eexists. split; [reflexivity|]. unfold TapeDevSpec.dev_at. cbn [set_append_pos position backend_data append_pos max_block_size].
  rewrite Epos, Ebk, Eap, Emx. cbn [position append_pos max_block_size set_backend]. rewrite Hb. by split_and!.
Qed.

Section seek.
Context (m : medium) (p : Z) (pre : list tape_record) (blocks : list (list Z)) (doc : list Z).

(** The partition ends in an index file behind the label. *)
Hypothesis tape : part_of m p = pre ++ Filemark :: (Data <$> blocks) ++ [Filemark].
Hypothesis behind_label : (3 < length pre)%nat.
Hypothesis part_ok : valid_part p.

Let start : Z := Z.of_nat (length pre) + 1.
Let eod : Z := eod_at m p.

Lemma eod_of_file : eod = start + Z.of_nat (length blocks) + 1.
Proof. unfold eod, eod_at, start. rewrite tape, !length_app. cbn [length]. rewrite length_app, length_fmap. cbn. lia. Qed.

Lemma ends_in_file : index_file m p start blocks.
Proof.
  split; [done|]. split; [unfold start; lia|]. exists (pre ++ [Filemark]), []. split; [by rewrite <- app_assoc|].
  rewrite length_app. cbn. unfold start. lia.
Qed.

(** Back over the closing mark, and over the opening one. *)
Lemma over_closing : back_fm (reverse (take (Z.to_nat eod) (part_of m p))) (eod - 1) 1 = Some (eod - 1).
Proof.
  rewrite take_ge by (unfold eod, eod_at; lia). rewrite tape.
  replace (pre ++ Filemark :: (Data <$> blocks) ++ [Filemark]) with ((pre ++ Filemark :: (Data <$> blocks)) ++ [Filemark]) by (by rewrite <- app_assoc).
  by rewrite reverse_snoc.
Qed.

Lemma over_opening :
  back_fm (reverse (take (Z.to_nat (eod - 1)) (part_of m p))) (eod - 1 - 1) 1 = Some (start - 1).
Proof.
  replace (Z.to_nat (eod - 1)) with (length (pre ++ Filemark :: (Data <$> blocks))).
  2: { rewrite eod_of_file, length_app. cbn [length]. rewrite length_fmap. unfold start. lia. }
  rewrite tape. replace (pre ++ Filemark :: (Data <$> blocks) ++ [Filemark]) with ((pre ++ Filemark :: (Data <$> blocks)) ++ [Filemark]) by (by rewrite <- app_assoc).
  rewrite take_app_length, reverse_app, reverse_cons, <- fmap_reverse, <- app_assoc, back_fm_data, length_reverse.
  cbn. f_equal. rewrite eod_of_file. lia.
Qed.

Lemma from_opening : fwd_fm (drop (Z.to_nat (start - 1)) (part_of m p)) (start - 1) 1 = Some start.
Proof.
  replace (Z.to_nat (start - 1)) with (length pre) by (unfold start; lia). rewrite tape, drop_app_length. cbn. f_equal. lia.
Qed.

Context (bs : Z) (reader : xml_reader) (ltfs_split_symlink : ltfs_volume D -> Z * ltfs_volume D) (idx : ltfs_index).
Hypothesis doc_blocks : blocks_of bs doc blocks.
Hypothesis reads : reads_document doc reader.
Hypothesis sees : sees_mark bs blocks doc reader.
Hypothesis parses : parse reader doc false = {| p_ret := 0; p_index := idx; p_symerr_count := 0 |}.

Lemma seek_finds vol partition fuel rfuel ignore recover :
  dev_at (device vol) m -> ltfs_part_id2num partition vol = p ->
  blocksize (label vol) = bs -> 0 < bs < 2 ^ 31 -> eod < 2 ^ 63 ->
  same_uuid (idx_vol_uuid idx) (vol_uuid (label vol)) = true ->
  (forall pos, TapeOps.partition pos = p -> block pos = start -> pointers_valid pos (set_index idx vol) = true) ->
  off_partition (selfptr idx) = partition ->
  (0 < fuel)%nat -> Z.of_nat (length doc) < Z.of_nat rfuel ->
  exists dev,
    ltfs_seek_index ops kmi reader ltfs_split_symlink fuel rfuel ignore partition recover vol
    = Some (0, Some (with_end eod eod true false), note_index partition (set_index idx (set_device dev vol)))
  /\ dev_at dev m /\ TapeOps.partition (position dev) = p /\ block (position dev) = eod
  /\ append_pos dev = upd p eod (append_pos (device vol)) /\ max_block_size dev = max_block_size (device vol).
Proof.
  intros Hat Hpart Hbs Hbsr Heod Huuid Hptr Hself Hfuel Hrfuel. unfold ltfs_seek_index. rewrite Hpart.
  pose proof eod_of_file as He. assert (Hstart : 4 < start) by (unfold start; lia).
  destruct (seek_eod_ok (device vol) m p Hat part_ok) as (d1 & E1 & A1 & P1 & B1 & U1 & X1). fold eod in B1, U1. rewrite E1. cbn [Z.ltb Z.compare].
  change (device (set_device d1 vol)) with d1. rewrite B1, (proj2 (Z.leb_gt eod 4)) by lia.
  destruct (space_back d1 m 1 (eod - 1) A1 ltac:(lia) ltac:(lia)) as (d2 & E2 & A2 & P2 & B2); [rewrite P1, B1; exact over_closing|].
  change (- (1)) with (-1) in E2. rewrite E2. cbn [Z.ltb Z.compare].
  change (device (set_device d2 (set_device d1 vol))) with d2.
  rewrite B2, (proj2 (Z.eqb_neq (eod - 1) 3)), Z.eqb_refl by lia.
  destruct (space_back d2 m 1 (start - 1) A2 ltac:(lia) ltac:(lia)) as (d3 & E3 & A3 & P3 & B3); [rewrite P2, P1, B2; exact over_opening|].
  change (- (1)) with (-1) in E3. rewrite E3. cbn [Z.ltb Z.compare].
  change (set_device d3 (set_device d2 (set_device d1 vol))) with (set_device d3 vol).
  destruct fuel as [|fuel]; [lia|]. cbn [seek_loop]. change (device (set_device d3 vol)) with d3.
  rewrite B3, (proj2 (Z.eqb_neq (start - 1) 3)) by lia.
  destruct (space_fwd d3 m 1 start A3 ltac:(lia)) as (d4 & E4 & A4 & P4 & B4); [rewrite P3, P2, P1, B3; exact from_opening|].
  rewrite E4. cbn [Z.ltb Z.compare]. change (set_device d4 (set_device d3 vol)) with (set_device d4 vol).
  assert (Hp4 : TapeOps.partition (position d4) = p) by congruence.
  destruct (read_index_ok m p start bs eod blocks doc ends_in_file doc_blocks Hbsr ltac:(lia) ltac:(lia) reader
    ltfs_split_symlink (set_device d4 vol) idx (conj A4 (conj Hp4 B4)) Hbs reads parses Huuid (Hptr _ Hp4 B4) rfuel recover Hrfuel)
    as (ret & dev & Hrun & Hat' & Hp' & Hret & Hsees & Hpl).
  rewrite Hrun, (Hsees sees). cbn [Z.eqb orb]. destruct Hret as [[_ Hb']|[E _]]; [|rewrite (Hsees sees) in E; discriminate].
  change (device (set_index idx (set_device dev (set_device d4 vol)))) with dev.
  rewrite Hb', <- He, Z.eqb_refl. cbn [negb].
  change (index (set_index idx (set_device dev (set_device d4 vol)))) with idx. rewrite Hself, Z.eqb_refl. cbn [negb].
  exists dev. split; [done|]. split; [done|]. split; [done|]. split; [by rewrite Hb', He|].
  pose proof (spacefm_places (-1) d1) as S1. rewrite E2 in S1.
  pose proof (spacefm_places (-1) d2) as S2. rewrite E3 in S2.
  pose proof (spacefm_places 1 d3) as S3. rewrite E4 in S3. cbn [snd] in S1, S2, S3.
  destruct (same_places_trans _ _ _ S1 (same_places_trans _ _ _ S2 (same_places_trans _ _ _ S3 Hpl))) as [Eap Emx].
  by rewrite Eap, Emx, U1, X1.
Qed.

End seek.

(** ** The properties *)

(** Reading an index.  From the first block of an index file, whatever the portions
    the parser asks for, [ltfs_read_index] gives it exactly the bytes of the file's
    blocks and nothing behind them; the index the parser makes of them becomes that of
    the volume, and the head is left behind the closing file mark, or, where the
    parser stopped before the mark was seen, in front of it and the result is 1. *)
Theorem read_index_spec m p b bs eod blocks doc reader split vol idx fuel recover :
  index_file m p b blocks -> blocks_of bs doc blocks -> 0 < bs < 2 ^ 31 ->
  b + Z.of_nat (length blocks) + 1 < 2 ^ 63 -> eod = 0 \/ b + Z.of_nat (length blocks) < eod ->
  dev_at (device vol) m -> partition (position (device vol)) = p -> block (position (device vol)) = b ->
  blocksize (label vol) = bs -> reads_document doc reader ->
  parse reader doc false = {| p_ret := 0; p_index := idx; p_symerr_count := 0 |} ->
  same_uuid (idx_vol_uuid idx) (vol_uuid (label vol)) = true ->
  pointers_valid (position (device vol)) (set_index idx vol) = true ->
  Z.of_nat (length doc) < Z.of_nat fuel ->
  exists ret dev, ltfs_read_index ops kmi reader split fuel eod recover vol = Some (ret, set_index idx (set_device dev vol))
  /\ dev_at dev m /\ partition (position dev) = p
  /\ (ret = 0 /\ block (position dev) = b + Z.of_nat (length blocks) + 1
      \/ ret = 1 /\ block (position dev) = b + Z.of_nat (length blocks))
  /\ (sees_mark bs blocks doc reader -> ret = 0).
Proof.
  intros Hf Hb Hbs Hroom Heod Hat Hp Hblk Hsz Hr Hpa Hu Hpt Hfuel.
  destruct (read_index_ok m p b bs eod blocks doc Hf Hb Hbs Hroom Heod reader split vol idx (conj Hat (conj Hp Hblk)) Hsz Hr Hpa
    Hu Hpt fuel recover Hfuel) as (ret & dev & H1 & H2 & H3 & H4 & H5 & _).
  by exists ret, dev.
Qed.

End spec.
