(* ===== verification/IndexRoundTrip.v ===== *)
(** * An index that was written is found again

    [ltfs_write_index] and [ltfs_seek_index] together, for any backend, any serializer
    and any parser that agree on the documents; then the file-backed drive. *)

From S2P Require Import Prelude Errors TapeOps TapeDev TapeDevSpec Append Coherency Extents Volume VolumeSpec FsRawReadSpec.
From S2P Require Import IndexRead IndexReadSpec.
Open Scope Z_scope.

Section roundtrip.
Context {D : Type} (ops : tape_ops D) {tape_at : D -> medium -> tc_position -> Prop}.
Context `{!TapeOk ops tape_at, !SpaceOk ops tape_at}.
Implicit Types (vol : ltfs_volume D).
Abbreviation dev_at := (dev_at (tape_at := tape_at)).

Context (kmi : option (list Z -> Z * option (list Z))) (xml : xml_lib) (update_mam_attr : D -> Z * D).
Context (reader : xml_reader) (split : ltfs_volume D -> Z * ltfs_volume D).
Hypothesis reliable : tape_reliable ops tape_at.
Hypothesis update_mam_attr_ok : forall d m pos, tape_at d m pos -> tape_at (update_mam_attr d).2 m pos.

(** What is asked of the parser: it asks for input until it has had the document [doc];
    it asks once more where the last block is a whole one, so that the code sees the
    file mark behind; and it gets back from the document the index [parsed]. *)
Record reads_back (bs : Z) (doc : list Z) (parsed : ltfs_index) : Prop := {
  rb_reads : reads_document doc reader;
  rb_sees : forall blocks, blocks_of bs doc blocks -> sees_mark bs blocks doc reader;
  rb_parses : parse reader doc false = {| p_ret := 0; p_index := parsed; p_symerr_count := 0 |}
}.

(** The back pointer of an index at block [b + 1]: none, or to a place of the data
    partition behind the label and in front of this index. *)
Definition backptr_ok (partition b : Z) vol (back : tape_offset) : Prop :=
  off_partition back = 0
  \/ off_partition back = ltfs_dp_id vol /\ 5 <= off_block back /\ (partition = ltfs_dp_id vol -> off_block back + 1 < b).

Lemma written_pointers_valid vol partition b parsed pos :
  label_ok vol -> 0 < partition -> partition = ltfs_dp_id vol \/ partition = ltfs_ip_id vol -> 3 < b -> b + 1 < 2 ^ 64 ->
  selfptr parsed = {| off_partition := partition; off_block := u64 (b + 1) |} ->
  backptr_ok partition b vol (backptr parsed) ->
  TapeOps.partition pos = ltfs_part_id2num partition vol -> block pos = b + 1 ->
  pointers_valid pos (set_index parsed vol) = true.
Proof.
  intros Hlab Hpos Hpart Hb Hb2 Hself Hback Hp Hblk. destruct (part_id2num_ok vol partition Hlab Hpart) as [_ Hsel].
  unfold pointers_valid. change (index (set_index parsed vol)) with parsed. change (label (set_index parsed vol)) with (label vol).
  rewrite Hself, Hp, Hsel, Hblk. cbn [off_partition off_block]. rewrite (u64_small (b + 1)) by lia. rewrite !Z.eqb_refl. cbn [negb orb].
  destruct Hback as [E|(E & H5 & Hbefore)]; rewrite E.
  - rewrite Z.eqb_refl, (proj2 (Z.eqb_neq 0 partition)) by lia. done.
  - fold (ltfs_dp_id vol). rewrite Z.eqb_refl, andb_false_r. rewrite (proj2 (Z.ltb_ge (off_block (backptr parsed)) 5)), andb_false_r by lia.
    destruct (Z.eqb_spec (ltfs_dp_id vol) partition) as [Ed|]; [|done]. cbn [andb]. rewrite u64_small by lia.
    specialize (Hbefore (eq_sym Ed)). replace (_ >=? _) with false; [by rewrite andb_false_r|].
    symmetry. rewrite Z.geb_leb. apply Z.leb_gt. lia.
Qed.

(** The coherency data of a partition. *)
Definition coherency_of (partition : Z) vol : tc_coherency :=
  if partition =? ltfs_ip_id vol then ip_coh vol else dp_coh vol.

(** Those of [partition] now name the generation and the place of the index [idx]; those
    of the other partition are what they were. *)
Definition coherency_noted (partition : Z) (idx : ltfs_index) vol vol2 : Prop :=
  count (coherency_of partition vol2) = generation idx
  /\ set_id (coherency_of partition vol2) = off_block (selfptr idx)
  /\ volume_change_ref (coherency_of partition vol2) = volume_change_ref (coherency_of partition vol)
  /\ if partition =? ltfs_ip_id vol then dp_coh vol2 = dp_coh vol else ip_coh vol2 = ip_coh vol.

Lemma note_index_noted partition vol1 vol :
  label vol1 = label vol -> ip_coh vol1 = ip_coh vol -> dp_coh vol1 = dp_coh vol ->
  let vol2 := note_index partition vol1 in
  device vol2 = device vol1 /\ index vol2 = index vol1 /\ label vol2 = label vol1
  /\ coherency_noted partition (index vol1) vol vol2.
Proof.
  intros Hl Hi Hd. unfold note_index, coherency_noted, coherency_of.
  assert (Hid : ltfs_ip_id vol1 = ltfs_ip_id vol) by (unfold ltfs_ip_id; by rewrite Hl).
  assert (Hid2 : forall i d, ltfs_ip_id (set_coherency i d vol1) = ltfs_ip_id vol) by (intros; exact Hid).
  rewrite Hid. destruct (partition =? ltfs_ip_id vol) eqn:E; rewrite Hid2, E; cbn; rewrite ?Hi, ?Hd; by split_and!.
Qed.


End roundtrip.
