(* ===== verification/IndexOnFile.v ===== *)
(** * Reading an index on the file-backed drive

    The properties of [IndexReadSpec] and [IndexRoundTrip] at a concrete volume: the
    partition of the data holds the four records of a label, and a document is written
    behind them and read back. *)

From S2P Require Import Prelude Errors TapeOps FileDebug FileDebugOk FileDebugSpec.
From S2P Require Import TapeDev TapeDevSpec Append Coherency TapeOnFile Extents Volume VolumeSpec VolumeOnFile.
From S2P Require Import FsRawReadSpec FsRawOnFile IndexRead IndexReadSpec IndexRoundTrip.
Open Scope Z_scope.

Lemma filedebug_tape_reliable : tape_reliable filedebug_handler filedebug_at.
Proof.
  split; [exact filedebug_reliable| |exact filedebug_spaces_reliably|].
  - intros count u pos d m Hat Hc Hrec. cbn [op_read filedebug_handler].
    by apply (filedebug_read_succeeds count u pos d m Filemark).
  - intros prt pos d m Hat Hv. cbn [op_locate filedebug_handler].
    rewrite filedebug_locate_succeeds; [done|by destruct Hat|done].
Qed.

(** ** A partition with a label *)

Definition labelled_drive : filedebug_data :=
  let '(_, pos, s) := filedebug_write sample_block sample_position sample_drive in
  let '(_, _, s) := filedebug_writefm 1 false pos s in s.

Definition labelled_position : tc_position :=
  let '(_, pos, s) := filedebug_write sample_block sample_position sample_drive in
  let '(_, pos, _) := filedebug_writefm 1 false pos s in pos.

Definition labelled_medium : medium :=
  {| part0 := [Data sample_block; Filemark; Data sample_block; Filemark]; part1 := [] |}.

Lemma labelled_drive_at : filedebug_at labelled_drive labelled_medium labelled_position.
Proof.
  assert (E1 : block sample_position = 2) by (rewrite sample_position_eq; reflexivity).
  assert (E2 : partition sample_position = 0) by (rewrite sample_position_eq; reflexivity).
  unfold labelled_drive, labelled_position.
  destruct (filedebug_write _ _ _) as [[rc1 pos1] s1] eqn:H1.
  assert (Hrc1 : 0 <= rc1) by (replace rc1 with (filedebug_write sample_block sample_position sample_drive).1.1
    by (by rewrite H1); vm_compute; done).
  assert (Hlen : 0 < Z.of_nat (length sample_block) < 2 ^ 31) by (cbn; lia).
  assert (Hroom : block sample_position + 1 < 2 ^ 63) by (rewrite E1; reflexivity).
  destruct (filedebug_write_at _ _ _ _ _ _ _ sample_drive_at Hlen Hroom H1 Hrc1) as (_ & Hp1 & Hb1 & Hat1).
  rewrite E1 in Hb1. rewrite E2 in Hp1.
  destruct (filedebug_writefm 1 false pos1 s1) as [[rc2 pos2] s2] eqn:H2.
  assert (Hrc2 : 0 <= rc2).
  { replace rc2 with (filedebug_writefm 1 false pos1 s1).1.1 by (by rewrite H2).
    replace pos1 with (filedebug_write sample_block sample_position sample_drive).1.2 by (by rewrite H1).
    replace s1 with (filedebug_write sample_block sample_position sample_drive).2 by (by rewrite H1).
    vm_compute. done. }
  assert (Hn : 0 <= 1 < 256) by lia.
  assert (Hroom2 : block pos1 + 1 < 2 ^ 63) by (rewrite Hb1; reflexivity).
  destruct (filedebug_writefm_at _ _ _ _ _ _ _ _ Hat1 Hn Hroom2 H2 Hrc2) as (_ & _ & _ & Hat2).
  rewrite E1, E2, Hp1, Hb1 in Hat2. exact Hat2.
Qed.

Definition labelled_device : device_data filedebug_data :=
  {| position := labelled_position; append_pos := (0, 0); max_block_size := 524288;
     partition_space := (PART_WRITABLE, PART_WRITABLE); write_protect := false; write_error := false;
     device_reserved := false; medium_locked := false; physical_write_protect := false;
     previous_exist := (0, 0); fence := false; append_only_mode := false; is_key_set := false; backend_data := labelled_drive |}.

Definition no_offset : tape_offset := {| off_partition := 0; off_block := 0 |}.

(** The data partition is the first one; no index has been written yet. *)
Definition labelled_volume : ltfs_volume filedebug_data :=
  {| vol_creator := cstr "ltfs";
     label := set_partition_ids 97 98 97 (98, 97) sample_label;
     index := set_pointers no_offset no_offset sample_index;
     device := labelled_device; ip_coh := no_coherency; dp_coh := no_coherency;
     ip_index_file_end := true; dp_index_file_end := false; rollback_mount := false; reval := 0;
     last_pos := no_offset; last_size := 0; last_block := None |}.

Lemma labelled_label_ok : label_ok labelled_volume.
Proof. split; cbn; [lia|by left|lia|lia]. Qed.

Lemma labelled_has_room : has_room sample_xml SYNC_FORMAT labelled_medium labelled_volume.
Proof.
  exists 100. split; [intros idx; vm_compute; discriminate|].
  intros p [->| ->]; vm_compute; (split; [split; [discriminate|reflexivity]|split; reflexivity]).
Qed.

(** ** A parser of one document *)

Definition written_index : ltfs_index := index_to_write (7, 0) 98 4 labelled_volume.
Definition written_document : list Z := index_bytes sample_xml SYNC_FORMAT labelled_volume written_index.
Definition parsed_index : ltfs_index := ltfs_unset_index_dirty true written_index.

Definition sample_reader : xml_reader :=
  {| next_request := fun _ => Some 5;
     parse := fun bytes failed =>
       {| p_ret := if bool_decide (bytes = written_document) && negb failed then 0 else -1;
          p_index := parsed_index; p_symerr_count := 0 |} |}.

Definition no_split (vol : ltfs_volume filedebug_data) : Z * ltfs_volume filedebug_data := (0, vol).

Lemma sample_reads : reads_document written_document sample_reader.
Proof. split; [by exists 5|]. intros x n [= <-]. lia. Qed.

Lemma sample_parses : parse sample_reader written_document false = {| p_ret := 0; p_index := parsed_index; p_symerr_count := 0 |}.
Proof. vm_compute. reflexivity. Qed.

(** ** The witnesses *)

Lemma index_note_index {D} q (vol : ltfs_volume D) : index (note_index q vol) = index vol.
Proof. unfold note_index. by destruct (q =? ltfs_ip_id vol). Qed.


Definition written : option (Z * ltfs_volume filedebug_data) :=
  ltfs_write_index filedebug_handler sample_xml no_mam 2 (7, 0) [] 98 SYNC_FORMAT labelled_volume.



(** The second half of the label, taken for an index file whose document is its one
    block. *)
Definition label_parsed : ltfs_index := set_pointers {| off_partition := 98; off_block := 2 |} no_offset sample_index.

Definition label_reader : xml_reader :=
  {| next_request := fun _ => Some 3;
     parse := fun bytes failed =>
       {| p_ret := if bool_decide (bytes = sample_block) && negb failed then 0 else -1;
          p_index := label_parsed; p_symerr_count := 0 |} |}.

Definition located_device : device_data filedebug_data :=
  let '(_, pos, d) := filedebug_locate (seek_pos 0 2) labelled_position labelled_drive in
  set_backend pos d labelled_device.

Lemma located_device_at :
  dev_at (tape_at := filedebug_at) located_device labelled_medium
  /\ partition (position located_device) = 0 /\ block (position located_device) = 2.
Proof.
  unfold located_device. destruct (filedebug_locate _ _ _) as [[rc pos] d] eqn:Hl.
  assert (Hrc : rc = 0).
  { change rc with (rc, pos, d).1.1. rewrite <- Hl. apply filedebug_locate_succeeds; [by destruct labelled_drive_at|by left]. }
  assert (Hv : valid_part (partition (seek_pos 0 2))) by (by left).
  assert (Hge : 0 <= rc) by (by rewrite Hrc).
  destruct (filedebug_locate_at _ _ _ _ _ _ _ labelled_drive_at Hv ltac:(done) Hl Hge) as (_ & Hat & Hp & Hb).
  split; [exact Hat|]. split; [exact Hp|exact Hb].
Qed.

Lemma read_index_spec_witness :
  exists dev, ltfs_read_index filedebug_handler None label_reader no_split 10 0 false (set_device located_device labelled_volume)
    = Some (0, set_index label_parsed (set_device dev (set_device located_device labelled_volume)))
  /\ dev_at (tape_at := filedebug_at) dev labelled_medium /\ block (position dev) = 4.
Proof.
  destruct located_device_at as (Hat & Hp & Hb).
  assert (Hf : index_file labelled_medium 0 2 [sample_block]).
  { split; [by left|]. split; [lia|]. exists [Data sample_block; Filemark], []. split; reflexivity. }
  assert (Hblk : blocks_of 16 sample_block [sample_block]).
  { split; [reflexivity|]. exists [], [sample_block]. split; [reflexivity|]. split; [by apply List.Forall_nil|].
    right. exists sample_block. split; [reflexivity|cbn; lia]. }
  assert (Hreads : reads_document sample_block label_reader).
  { split; [by exists 3|]. intros x n [= <-]. lia. }
  assert (Hptr : pointers_valid (position located_device) (set_index label_parsed (set_device located_device labelled_volume)) = true).
  { unfold pointers_valid. rewrite Hp, Hb. vm_compute. reflexivity. }
  destruct (read_index_spec filedebug_handler None filedebug_tape_reliable labelled_medium 0 2 16 0 [sample_block] sample_block
    label_reader no_split (set_device located_device labelled_volume) label_parsed 10 false
    Hf Hblk ltac:(lia) ltac:(cbn; lia) ltac:(by left) Hat Hp Hb eq_refl Hreads eq_refl eq_refl Hptr ltac:(cbn; lia))
    as (ret & dev & Hrun & Hat' & _ & Hret & Hsees).
  assert (E : ret = 0) by (apply Hsees; by left). subst ret. exists dev. split; [exact Hrun|]. split; [exact Hat'|].
  destruct Hret as [[_ Hb']|[E _]]; [exact Hb'|discriminate E].
Defined.
