(* ===== verification/FsTree.v ===== *)
(** * The directory tree

    [fs.c]: dentries, their reference counts, the lookups and the release of
    dentries nobody holds.  A dentry lives in a heap; a pointer to one is its
    address, and an operation on an address that has been freed is undefined
    ([None]).  The per-dentry locks are left out: an operation is one step.
    The child table is a hash table of a vendored header; it is the list of its
    entries, the one added last first, so that a search finds what
    [HASH_FIND_STR] finds.  [malloc] succeeds. *)

From S2P Require Import Prelude Errors Extents FsRaw Pathname IndexCriteria.
Open Scope Z_scope.

(** [struct name_list]: the key of an entry and the dentry it leads to. *)
Definition name_list : Type := list (cstring * Z).

(** [struct xattr_info]: key and value; [None]: a NULL value, of size 0. *)
Definition xattr_info : Type := cstring * option (list Z).

(** [struct dentry]; what the data path keeps in it is [file]. *)
Record fsnode := {
  ino : Z;
  uid : Z;
  isdir : bool;
  isslink : bool;
  target : option cstring;
  out_of_sync : bool;
  file : dentry;
  used_blocks : Z;
  name : option cstring;
  platform_safe_name : option cstring;
  parent : option Z;
  readonly : bool;
  creation_time : Z * Z;
  backup_time : Z * Z;
  numhandles : Z;
  link_count : Z;
  deleted : bool;
  matches_name_criteria : bool;
  need_update_time : bool;
  child_list : name_list;
  xattrlist : list xattr_info;
  preserved_tags : list cstring
}.

Definition set_file (f : dentry) (d : fsnode) : fsnode :=
  {| ino := ino d; uid := uid d; isdir := isdir d; isslink := isslink d; target := target d; out_of_sync :=
     out_of_sync d; file := f; used_blocks := used_blocks d; name := name d;
     platform_safe_name := platform_safe_name d; parent := parent d; readonly := readonly d;
     creation_time := creation_time d; backup_time := backup_time d; numhandles :=
     numhandles d; link_count := link_count d; deleted := deleted d; matches_name_criteria
     := matches_name_criteria d; need_update_time := need_update_time d; child_list :=
     child_list d; xattrlist := xattrlist d; preserved_tags := preserved_tags d |}.

Definition set_used_blocks (n : Z) (d : fsnode) : fsnode :=
  {| ino := ino d; uid := uid d; isdir := isdir d; isslink := isslink d; target := target d; out_of_sync :=
     out_of_sync d; file := file d; used_blocks := n; name := name d; platform_safe_name :=
     platform_safe_name d; parent := parent d; readonly := readonly d; creation_time :=
     creation_time d; backup_time := backup_time d; numhandles := numhandles d; link_count
     := link_count d; deleted := deleted d; matches_name_criteria := matches_name_criteria
     d; need_update_time := need_update_time d; child_list := child_list d; xattrlist := xattrlist d; preserved_tags := preserved_tags d |}.

Definition set_names (n : option cstring) (d : fsnode) : fsnode :=
  {| ino := ino d; uid := uid d; isdir := isdir d; isslink := isslink d; target := target d; out_of_sync :=
     out_of_sync d; file := file d; used_blocks := used_blocks d; name := n;
     platform_safe_name := n; parent := parent d; readonly := readonly d; creation_time :=
     creation_time d; backup_time := backup_time d; numhandles := numhandles d; link_count
     := link_count d; deleted := deleted d; matches_name_criteria := matches_name_criteria
     d; need_update_time := need_update_time d; child_list := child_list d; xattrlist := xattrlist d; preserved_tags := preserved_tags d |}.

Definition set_parent (p : option Z) (d : fsnode) : fsnode :=
  {| ino := ino d; uid := uid d; isdir := isdir d; isslink := isslink d; target := target d; out_of_sync :=
     out_of_sync d; file := file d; used_blocks := used_blocks d; name := name d;
     platform_safe_name := platform_safe_name d; parent := p; readonly := readonly d;
     creation_time := creation_time d; backup_time := backup_time d; numhandles :=
     numhandles d; link_count := link_count d; deleted := deleted d; matches_name_criteria
     := matches_name_criteria d; need_update_time := need_update_time d; child_list :=
     child_list d; xattrlist := xattrlist d; preserved_tags := preserved_tags d |}.

Definition set_numhandles (n : Z) (d : fsnode) : fsnode :=
  {| ino := ino d; uid := uid d; isdir := isdir d; isslink := isslink d; target := target d; out_of_sync :=
     out_of_sync d; file := file d; used_blocks := used_blocks d; name := name d;
     platform_safe_name := platform_safe_name d; parent := parent d; readonly := readonly d;
     creation_time := creation_time d; backup_time := backup_time d; numhandles := n;
     link_count := link_count d; deleted := deleted d; matches_name_criteria :=
     matches_name_criteria d; need_update_time := need_update_time d; child_list :=
     child_list d; xattrlist := xattrlist d; preserved_tags := preserved_tags d |}.

Definition set_link_count (n : Z) (d : fsnode) : fsnode :=
  {| ino := ino d; uid := uid d; isdir := isdir d; isslink := isslink d; target := target d; out_of_sync :=
     out_of_sync d; file := file d; used_blocks := used_blocks d; name := name d;
     platform_safe_name := platform_safe_name d; parent := parent d; readonly := readonly d;
     creation_time := creation_time d; backup_time := backup_time d; numhandles :=
     numhandles d; link_count := n; deleted := deleted d; matches_name_criteria :=
     matches_name_criteria d; need_update_time := need_update_time d; child_list :=
     child_list d; xattrlist := xattrlist d; preserved_tags := preserved_tags d |}.

Definition set_deleted (b : bool) (d : fsnode) : fsnode :=
  {| ino := ino d; uid := uid d; isdir := isdir d; isslink := isslink d; target := target d; out_of_sync :=
     out_of_sync d; file := file d; used_blocks := used_blocks d; name := name d;
     platform_safe_name := platform_safe_name d; parent := parent d; readonly := readonly d;
     creation_time := creation_time d; backup_time := backup_time d; numhandles :=
     numhandles d; link_count := link_count d; deleted := b; matches_name_criteria :=
     matches_name_criteria d; need_update_time := need_update_time d; child_list :=
     child_list d; xattrlist := xattrlist d; preserved_tags := preserved_tags d |}.

Definition set_matches (b : bool) (d : fsnode) : fsnode :=
  {| ino := ino d; uid := uid d; isdir := isdir d; isslink := isslink d; target := target d; out_of_sync :=
     out_of_sync d; file := file d; used_blocks := used_blocks d; name := name d;
     platform_safe_name := platform_safe_name d; parent := parent d; readonly := readonly d;
     creation_time := creation_time d; backup_time := backup_time d; numhandles :=
     numhandles d; link_count := link_count d; deleted := deleted d; matches_name_criteria
     := b; need_update_time := need_update_time d; child_list := child_list d; xattrlist := xattrlist d; preserved_tags := preserved_tags d |}.

Definition set_need_update_time (b : bool) (d : fsnode) : fsnode :=
  {| ino := ino d; uid := uid d; isdir := isdir d; isslink := isslink d; target := target d; out_of_sync :=
     out_of_sync d; file := file d; used_blocks := used_blocks d; name := name d;
     platform_safe_name := platform_safe_name d; parent := parent d; readonly := readonly d;
     creation_time := creation_time d; backup_time := backup_time d; numhandles :=
     numhandles d; link_count := link_count d; deleted := deleted d; matches_name_criteria
     := matches_name_criteria d; need_update_time := b; child_list := child_list d; xattrlist := xattrlist d; preserved_tags := preserved_tags d |}.

Definition set_readonly_flag (b : bool) (d : fsnode) : fsnode :=
  {|ino := ino d; uid := uid d; isdir := isdir d; isslink := isslink d; target := target d;
     out_of_sync := out_of_sync d; file := file d; used_blocks := used_blocks d; name := name d;
     platform_safe_name := platform_safe_name d; parent := parent d; readonly := b;
     creation_time := creation_time d; backup_time := backup_time d; numhandles := numhandles d;
     link_count := link_count d; deleted := deleted d; matches_name_criteria :=
     matches_name_criteria d; need_update_time := need_update_time d; child_list := child_list d; xattrlist := xattrlist d; preserved_tags := preserved_tags d |}.

Definition set_creation_time (t : Z * Z) (d : fsnode) : fsnode :=
  {|ino := ino d; uid := uid d; isdir := isdir d; isslink := isslink d; target := target d;
     out_of_sync := out_of_sync d; file := file d; used_blocks := used_blocks d; name := name d;
     platform_safe_name := platform_safe_name d; parent := parent d; readonly := readonly d;
     creation_time := t; backup_time := backup_time d; numhandles := numhandles d; link_count :=
     link_count d; deleted := deleted d; matches_name_criteria := matches_name_criteria d;
     need_update_time := need_update_time d; child_list := child_list d; xattrlist := xattrlist d; preserved_tags := preserved_tags d |}.

Definition set_link_target (t : cstring) (d : fsnode) : fsnode :=
  {|ino := ino d; uid := uid d; isdir := isdir d; isslink := true; target := Some t; out_of_sync
     := out_of_sync d; file := file d; used_blocks := used_blocks d; name := name d;
     platform_safe_name := platform_safe_name d; parent := parent d; readonly := readonly d;
     creation_time := creation_time d; backup_time := backup_time d; numhandles := numhandles d;
     link_count := link_count d; deleted := deleted d; matches_name_criteria :=
     matches_name_criteria d; need_update_time := need_update_time d; child_list := child_list d; xattrlist := xattrlist d; preserved_tags := preserved_tags d |}.

Definition set_child_list (l : name_list) (d : fsnode) : fsnode :=
  {| ino := ino d; uid := uid d; isdir := isdir d; isslink := isslink d; target := target d; out_of_sync :=
     out_of_sync d; file := file d; used_blocks := used_blocks d; name := name d;
     platform_safe_name := platform_safe_name d; parent := parent d; readonly := readonly d;
     creation_time := creation_time d; backup_time := backup_time d; numhandles :=
     numhandles d; link_count := link_count d; deleted := deleted d; matches_name_criteria
     := matches_name_criteria d; need_update_time := need_update_time d; child_list := l; xattrlist := xattrlist d; preserved_tags := preserved_tags d |}.

Definition set_xattrs (l : list xattr_info) (d : fsnode) : fsnode :=
  {| ino := ino d; uid := uid d; isdir := isdir d; isslink := isslink d; target := target d; out_of_sync :=
     out_of_sync d; file := file d; used_blocks := used_blocks d; name := name d; platform_safe_name :=
     platform_safe_name d; parent := parent d; readonly := readonly d; creation_time :=
     creation_time d; backup_time := backup_time d; numhandles := numhandles d; link_count
     := link_count d; deleted := deleted d; matches_name_criteria := matches_name_criteria
     d; need_update_time := need_update_time d; child_list := child_list d;
     xattrlist := l; preserved_tags := preserved_tags d |}.

Definition set_tags (l : list cstring) (d : fsnode) : fsnode :=
  {| ino := ino d; uid := uid d; isdir := isdir d; isslink := isslink d; target := target d; out_of_sync :=
     out_of_sync d; file := file d; used_blocks := used_blocks d; name := name d; platform_safe_name :=
     platform_safe_name d; parent := parent d; readonly := readonly d; creation_time :=
     creation_time d; backup_time := backup_time d; numhandles := numhandles d; link_count
     := link_count d; deleted := deleted d; matches_name_criteria := matches_name_criteria
     d; need_update_time := need_update_time d; child_list := child_list d;
     xattrlist := xattrlist d; preserved_tags := l |}.

Definition set_birth (t : Z * Z) (d : fsnode) : fsnode :=
  {| ino := ino d; uid := uid d; isdir := isdir d; isslink := isslink d; target := target d; out_of_sync :=
     out_of_sync d; file := file d; used_blocks := used_blocks d; name := name d;
     platform_safe_name := platform_safe_name d; parent := parent d; readonly := readonly d;
     creation_time := t; backup_time := t; numhandles := numhandles d; link_count :=
     link_count d; deleted := deleted d; matches_name_criteria := matches_name_criteria d;
     need_update_time := need_update_time d; child_list := child_list d; xattrlist := xattrlist d; preserved_tags := preserved_tags d |}.

Definition set_name (nm : cstring) (d : fsnode) : fsnode :=
  {| ino := ino d; uid := uid d; isdir := isdir d; isslink := isslink d; target := target d; out_of_sync :=
     out_of_sync d; file := file d; used_blocks := used_blocks d; name := Some nm; platform_safe_name :=
     platform_safe_name d; parent := parent d; readonly := readonly d; creation_time :=
     creation_time d; backup_time := backup_time d; numhandles := numhandles d; link_count
     := link_count d; deleted := deleted d; matches_name_criteria := matches_name_criteria
     d; need_update_time := need_update_time d; child_list := child_list d;
     xattrlist := xattrlist d; preserved_tags := preserved_tags d |}.

Definition set_safe_name (nm : cstring) (d : fsnode) : fsnode :=
  {| ino := ino d; uid := uid d; isdir := isdir d; isslink := isslink d; target := target d; out_of_sync :=
     out_of_sync d; file := file d; used_blocks := used_blocks d; name := name d; platform_safe_name :=
     Some nm; parent := parent d; readonly := readonly d; creation_time :=
     creation_time d; backup_time := backup_time d; numhandles := numhandles d; link_count
     := link_count d; deleted := deleted d; matches_name_criteria := matches_name_criteria
     d; need_update_time := need_update_time d; child_list := child_list d;
     xattrlist := xattrlist d; preserved_tags := preserved_tags d |}.

Definition set_uid (u : Z) (d : fsnode) : fsnode :=
  {| ino := ino d; uid := u; isdir := isdir d; isslink := isslink d; target := target d; out_of_sync :=
     out_of_sync d; file := file d; used_blocks := used_blocks d; name := name d; platform_safe_name :=
     platform_safe_name d; parent := parent d; readonly := readonly d; creation_time :=
     creation_time d; backup_time := backup_time d; numhandles := numhandles d; link_count
     := link_count d; deleted := deleted d; matches_name_criteria := matches_name_criteria
     d; need_update_time := need_update_time d; child_list := child_list d;
     xattrlist := xattrlist d; preserved_tags := preserved_tags d |}.

Definition set_backup_time (t : Z * Z) (d : fsnode) : fsnode :=
  {| ino := ino d; uid := uid d; isdir := isdir d; isslink := isslink d; target := target d; out_of_sync :=
     out_of_sync d; file := file d; used_blocks := used_blocks d; name := name d; platform_safe_name :=
     platform_safe_name d; parent := parent d; readonly := readonly d; creation_time :=
     creation_time d; backup_time := t; numhandles := numhandles d; link_count
     := link_count d; deleted := deleted d; matches_name_criteria := matches_name_criteria
     d; need_update_time := need_update_time d; child_list := child_list d;
     xattrlist := xattrlist d; preserved_tags := preserved_tags d |}.

(** ** Times of a dentry *)

Definition set_all_times (t : Z * Z) (f : dentry) : dentry :=
  set_access_time t (set_contents (extentlist f) (realsize f) (size f) (extents_dirty f) t t f).
Definition set_modify_change (t : Z * Z) (f : dentry) : dentry :=
  set_contents (extentlist f) (realsize f) (size f) (extents_dirty f) t t f.
Definition set_modify_time (t : Z * Z) (f : dentry) : dentry :=
  set_contents (extentlist f) (realsize f) (size f) (extents_dirty f) t (change_time f) f.
Definition set_change_time (t : Z * Z) (f : dentry) : dentry :=
  set_contents (extentlist f) (realsize f) (size f) (extents_dirty f) (modify_time f) t f.

(** Assignments through [struct dentry] that are about one field. *)
Definition on_file (f : dentry -> dentry) (n : fsnode) : fsnode := set_file (f (file n)) n.

(** The part of [struct ltfs_index] the tree uses, the memory, and the inode
    counter.  [fresh] is the address [malloc] gives next. *)
Record fs_state := {
  heap : gmap Z fsnode;
  fresh : Z;
  root : Z;
  inode_number : Z;
  uid_number : Z;
  file_count : Z;
  valid_blocks : Z;
  criteria_of : index_criteria
}.

Definition set_heap (h : gmap Z fsnode) (s : fs_state) : fs_state :=
  {| heap := h; fresh := fresh s; root := root s; inode_number := inode_number s;
     uid_number := uid_number s; file_count := file_count s; valid_blocks := valid_blocks s;
     criteria_of := criteria_of s |}.

Definition set_counters (next ino uid : Z) (s : fs_state) : fs_state :=
  {| heap := heap s; fresh := next; root := root s; inode_number := ino; uid_number := uid;
     file_count := file_count s; valid_blocks := valid_blocks s; criteria_of := criteria_of s |}.

Definition set_counts (files blocks : Z) (s : fs_state) : fs_state :=
  {| heap := heap s; fresh := fresh s; root := root s; inode_number := inode_number s;
     uid_number := uid_number s; file_count := files; valid_blocks := blocks;
     criteria_of := criteria_of s |}.

Definition set_criteria (ic : index_criteria) (s : fs_state) : fs_state :=
  {| heap := heap s; fresh := fresh s; root := root s; inode_number := inode_number s;
     uid_number := uid_number s; file_count := file_count s; valid_blocks := valid_blocks s;
     criteria_of := ic |}.

(** ** Operations on the heap *)

(** Programs over a state; [None] is undefined behaviour. *)
Definition op (S A : Type) : Type := S -> option (A * S).

Definition ret_op {S A} (x : A) : op S A := fun s => Some (x, s).
Definition undefined {S A} : op S A := fun _ => None.
Definition bind_op {S A B} (m : op S A) (k : A -> op S B) : op S B :=
  fun s => match m s with Some (x, s') => k x s' | None => None end.
Definition get_state {S} : op S S := fun s => Some (s, s).
Definition update_state {S} (f : S -> S) : op S unit := fun s => Some (tt, f s).

Definition fs_op : Type -> Type := op fs_state.

Notation "'let*' x := m 'in' k" := (bind_op m (fun x => k))
  (at level 10, x name, m at level 100, k at level 200) : ltfs_scope.
Notation "'let*' ' p := m 'in' k" := (bind_op m (fun x => match x with p => k end))
  (at level 10, p pattern, m at level 100, k at level 200) : ltfs_scope.
Notation "m ;;; k" := (bind_op m (fun _ => k)) (at level 199, right associativity) : ltfs_scope.
Open Scope ltfs_scope.

(** [*d] *)
Definition deref (d : Z) : fs_op fsnode :=
  fun s => match heap s !! d with Some n => Some (n, s) | None => None end.
(** Assignment to fields of [*d] *)
Definition update (d : Z) (f : fsnode -> fsnode) : fs_op unit :=
  fun s => match heap s !! d with
           | Some n => Some (tt, set_heap (<[d := f n]> (heap s)) s)
           | None => None
           end.
Definition free (d : Z) : fs_op unit :=
  fun s => match heap s !! d with
           | Some n => Some (tt, set_heap (delete d (heap s)) s)
           | None => None
           end.
Definition malloc (n : fsnode) : fs_op Z :=
  fun s => Some (fresh s, set_counters (fresh s + 1) (inode_number s) (uid_number s)
                            (set_heap (<[fresh s := n]> (heap s)) s)).

(** [strdup] of a NULL pointer is undefined. *)
Definition the_name (n : option cstring) : fs_op cstring :=
  match n with Some s => ret_op s | None => undefined end.

Fixpoint repeat_op {A} (f : A -> fs_op unit) (l : list A) : fs_op unit :=
  match l with [] => ret_op tt | x :: l' => f x ;;; repeat_op f l' end.

(** ** The hash table *)

(** [HASH_FIND_STR] *)
Fixpoint hash_find (list : name_list) (key : cstring) : option Z :=
  match list with
  | [] => None
  | (k, d) :: rest => if decide (k = key) then Some d else hash_find rest key
  end.

(** [HASH_DEL] of the entry [HASH_FIND_STR] gives *)
Fixpoint hash_del (list : name_list) (key : cstring) : name_list :=
  match list with
  | [] => []
  | (k, d) :: rest => if decide (k = key) then rest else (k, d) :: hash_del rest key
  end.

Definition hash_count (list : name_list) : Z := Z.of_nat (length list).

(** [generate_hash_key_name] outside Windows: the name itself. *)
Definition generate_hash_key_name (src_str : cstring) : cstring := src_str.

Definition fs_add_key_to_hash_table (list : name_list) (add_entry : Z) : fs_op name_list :=
  let* e := deref add_entry in
  let* nm := the_name (platform_safe_name e) in
  ret_op ((generate_hash_key_name nm, add_entry) :: list).

Definition fs_find_key_from_hash_table (list : name_list) (nm : cstring) : option Z :=
  hash_find list (generate_hash_key_name nm).

(** ** Allocation *)

Definition fs_increment_file_count (s : fs_state) : fs_state :=
  set_counts (u64 (file_count s + 1)) (valid_blocks s) s.
Definition fs_decrement_file_count (s : fs_state) : fs_state :=
  set_counts (u64 (file_count s - 1)) (valid_blocks s) s.

(** 0: the space of unique ids is used up. *)
Definition fs_allocate_uid : fs_op Z := fun s =>
  if uid_number s =? 0 then Some (0, s)
  else let uid := u64 (uid_number s + 1) in
       Some (uid, set_counters (fresh s) (inode_number s) uid s).

Definition empty_file : dentry :=
  {| extentlist := []; realsize := 0; size := 0; extents_dirty := false; modify_time := (0, 0);
     access_time := (0, 0); change_time := (0, 0) |}.

Definition new_dentry (parent : option Z) (name psn : option cstring) (isdir readonly : bool)
    (ino uid : Z) : fsnode :=
  {| ino := ino; uid := uid; isdir := isdir; isslink := false; target := None; out_of_sync := false;
     file := empty_file; used_blocks := 0; name := name; platform_safe_name := psn;
     parent := parent; readonly := readonly; creation_time := (0, 0); backup_time := (0, 0);
     numhandles := 1; link_count := if isdir then 1 else 0; deleted := false;
     matches_name_criteria := false; need_update_time := false; child_list := []; xattrlist := []; preserved_tags := [] |}.

(** The two names: each defaults to the other one. *)
Definition names_of (name psn : option cstring) : option cstring * option cstring :=
  match name, psn with
  | None, Some p => (Some p, Some p)
  | Some n, None => (Some n, Some n)   (* update_platform_safe_name outside Windows *)
  | _, _ => (name, psn)
  end.

Definition link_to_parent (d p : Z) (isdir : bool) : fs_op unit :=
  let* n := deref d in
  let* pn := deref p in
  (if platform_safe_name n is Some _
   then let* l := fs_add_key_to_hash_table (child_list pn) d in update p (set_child_list l)
   else ret_op tt) ;;;
  update d (fun n => set_link_count (u32 (link_count n + 1)) n) ;;;
  (if isdir then update p (fun n => set_link_count (u32 (link_count n + 1)) n) else ret_op tt) ;;;
  (if isdir then ret_op tt else update_state fs_increment_file_count).

(** [None]: NULL, the unique ids have run out. *)
Definition fs_allocate_dentry (par : option Z) (nm psn : option cstring)
    (isdir readonly allocate_uid : bool) : fs_op (option Z) :=
  let '(nm, psn) := names_of nm psn in
  let* s := get_state in
  let inode := u64 (inode_number s + 1) in
  update_state (fun s => set_counters (fresh s) inode (uid_number s) s) ;;;
  let* uid := (if allocate_uid then fs_allocate_uid else ret_op 1) in
  if uid =? 0 then ret_op None
  else
    let* d := malloc (new_dentry par nm psn isdir readonly inode uid) in
    match par with
    | None => ret_op (Some d)
    | Some p => link_to_parent d p isdir ;;; ret_op (Some d)
    end.

(** ** Releasing *)

(** Take [dentry] out of its parent's table. *)
Definition unlink_entry (dentry : Z) : fs_op unit :=
  let* n := deref dentry in
  match parent n with
  | None => ret_op tt
  | Some p =>
      let* pn := deref p in
      let* nm := the_name (platform_safe_name n) in
      (if fs_find_key_from_hash_table (child_list pn) nm is Some _
       then update p (set_child_list (hash_del (child_list pn) nm)) else ret_op tt) ;;;
      update dentry (set_parent None)
  end.

(** The recursion follows the tree down; [fuel] bounds its depth.  The iterator
    of the children visits the oldest entry first. *)
Fixpoint _fs_dispose_dentry_contents (fuel : nat) (dentry : Z) (gc : bool) : fs_op unit :=
  match fuel with
  | O => undefined
  | S fuel =>
      let* n := deref dentry in
      repeat_op (fun e =>
        let child := snd e in
        let* c := deref child in
        if negb (numhandles c =? (if gc then 0 else 1)) then update child (set_parent None)
        else (if gc then ret_op tt
              else update child (fun c => set_numhandles (u32 (numhandles c - 1)) c)) ;;;
             _fs_dispose_dentry_contents fuel child gc) (rev (child_list n)) ;;;
      unlink_entry dentry ;;;
      free dentry
  end.

(** As deep as there are dentries. *)
Definition dispose (dentry : Z) (gc : bool) : fs_op unit :=
  let* s := get_state in _fs_dispose_dentry_contents (S (base.size (heap s))) dentry gc.

Definition fs_release_dentry_unlocked (d : Z) : fs_op unit :=
  update d (fun n => set_numhandles (u32 (numhandles n - 1)) n) ;;;
  let* n := deref d in
  if negb (numhandles n =? 0) || out_of_sync n then ret_op tt else dispose d false.

Definition fs_release_dentry (d : Z) : fs_op unit := fs_release_dentry_unlocked d.

Fixpoint gc_dentry (fuel : nat) (d : Z) : fs_op unit :=
  match fuel with
  | O => undefined
  | S fuel =>
      let* n := deref d in
      if (numhandles n =? 0) && negb (out_of_sync n) then dispose d true
      else repeat_op (fun e => gc_dentry fuel (snd e)) (rev (child_list n))
  end.

Definition fs_gc_dentry (d : Z) : fs_op unit :=
  let* s := get_state in gc_dentry (S (base.size (heap s))) d.

Definition hold (d : Z) : fs_op unit := update d (fun n => set_numhandles (u32 (numhandles n + 1)) n).
Definition drop_handle (d : Z) : fs_op unit :=
  update d (fun n => set_numhandles (u32 (numhandles n - 1)) n).

(** ** Lookup *)

(** The dentries from [d] up to the root; [fuel] bounds the depth. *)
Fixpoint ancestors (fuel : nat) (d : Z) : fs_op (list (Z * fsnode)) :=
  match fuel with
  | O => undefined
  | S fuel =>
      let* n := deref d in
      match parent n with
      | None => ret_op [(d, n)]
      | Some p => let* l := ancestors fuel p in ret_op ((d, n) :: l)
      end
  end.

Definition all_ancestors (d : Z) : fs_op (list (Z * fsnode)) :=
  let* s := get_state in ancestors (S (base.size (heap s))) d.

(** The loop from the dentry to the root that collects the names, root first. *)
Fixpoint collect_names (l : list (Z * fsnode)) (acc : list cstring) : Z + list cstring :=
  match l with
  | [] => inr acc
  | (_, n) :: rest =>
      match platform_safe_name n with
      | Some nm => collect_names rest (nm :: acc)
      | None =>
          if deleted n || (if parent n is Some _ then true else false) then inl (- LTFS_NO_DENTRY)
          else collect_names rest ([SLASH] :: acc)
      end
  end.

(** [strcat] of the names, with a '/' after every one but the first and the last. *)
Fixpoint join_slash (names : list cstring) : cstring :=
  match names with
  | [] => []
  | [n] => n
  | n :: rest => n ++ SLASH :: join_slash rest
  end.
Definition concat_names (names : list cstring) : cstring :=
  match names with
  | [] => []
  | first :: rest => first ++ join_slash rest
  end.

Definition fs_dentry_lookup (dentry : Z) : fs_op (Z + cstring) :=
  let* l := all_ancestors dentry in
  match collect_names l [] with
  | inl ret => ret_op (inl ret)
  | inr names => ret_op (inr (concat_names names))
  end.

(** [inr None]: not found, which is a success. *)
Definition fs_directory_lookup (basedir : Z) (nm : cstring) : fs_op (Z + option Z) :=
  if pathname_strlen nm >? LTFS_FILENAME_MAX then ret_op (inl (- LTFS_NAMETOOLONG))
  else
    let* b := deref basedir in
    if hash_count (child_list b) =? 0 then ret_op (inr None)
    else match fs_find_key_from_hash_table (child_list b) nm with
         | Some d => hold d ;;; ret_op (inr (Some d))
         | None => ret_op (inr None)
         end.

Definition LOCK_PARENT_CONTENTS_R : Z := 1.
Definition LOCK_PARENT_CONTENTS_W : Z := 2.
Definition LOCK_PARENT_META_R : Z := 4.
Definition LOCK_PARENT_META_W : Z := 8.
Definition LOCK_DENTRY_CONTENTS_W : Z := 32.

(** [flags & (LOCK_PARENT_CONTENTS_W | ... | LOCK_PARENT_META_R)] *)
Definition keeps_parent (flags : Z) : bool :=
  negb (Z.land flags (Z.lor (Z.lor LOCK_PARENT_CONTENTS_W LOCK_PARENT_CONTENTS_R)
                            (Z.lor LOCK_PARENT_META_W LOCK_PARENT_META_R)) =? 0).

(** A string cut at every '/': the first part, and the others. *)
Fixpoint split_slash (s : cstring) : cstring * list cstring :=
  match s with
  | [] => ([], [])
  | b :: s' =>
      let '(w, ws) := split_slash s' in
      if b =? SLASH then ([], w :: ws) else (b :: w, ws)
  end.

(** The loop over the components of the path; [par] is held. *)
Fixpoint path_loop (flags : Z) (par : Z) (start : cstring) (rest : list cstring) : fs_op (Z + Z) :=
  let* r := fs_directory_lookup par start in
  match r with
  | inl ret => fs_release_dentry par ;;; ret_op (inl ret)
  | inr None => fs_release_dentry par ;;; ret_op (inl (- LTFS_NO_DENTRY))
  | inr (Some d) =>
      match rest with
      | [] => (if keeps_parent flags then ret_op tt else drop_handle par) ;;; ret_op (inr d)
      | start' :: rest' => drop_handle par ;;; path_loop flags d start' rest'
      end
  end.

Definition fs_path_lookup (path : cstring) (flags : Z) : fs_op (Z + Z) :=
  let* s := get_state in
  hold (root s) ;;;
  if bool_decide (path = [] \/ path = [SLASH]) then ret_op (inr (root s))
  else let '(start, rest) := split_slash (tail path) in path_loop flags (root s) start rest.

(** The directory and the file name of a path; [None]: there is no '/' in it and
    [*filename] is left as it was. *)
Fixpoint fs_split_path (path : cstring) : option (cstring * cstring) :=
  match path with
  | [] => None
  | b :: s =>
      match fs_split_path s with
      | Some (dir, filename) => Some (b :: dir, filename)
      | None => if b =? SLASH then Some ([], s) else None
      end
  end.

Definition fs_is_predecessor (d1 d2 : Z) : fs_op bool :=
  let* l := all_ancestors d2 in ret_op (existsb (fun e => fst e =? d1) l).

(** [uint64_t] sums of whole and partial blocks *)
Definition fs_get_used_blocks (bs : Z) (d : fsnode) : Z :=
  fold_left (fun used e =>
    let last := u64 (byteoffset e + bytecount e) in
    let used := u64 (used + last / bs) in
    if last mod bs =? 0 then used else u64 (used + 1)) (extentlist (file d)) 0.

(** ** A new index *)

(** [calloc], [refcount] and [version] aside; a NULL root is the address 0. *)
Definition new_index (s : fs_state) : fs_state :=
  {| heap := heap s; fresh := fresh s; root := 0; inode_number := inode_number s; uid_number := 1;
     file_count := 0; valid_blocks := 0;
     criteria_of := {| have_criteria := false; max_filesize_criteria := 0; glob_patterns := None;
                       glob_cache := None |} |}.

Definition set_root (d : Z) (s : fs_state) : fs_state :=
  {| heap := heap s; fresh := fresh s; root := d; inode_number := inode_number s;
     uid_number := uid_number s; file_count := file_count s; valid_blocks := valid_blocks s;
     criteria_of := criteria_of s |}.

Definition ltfs_index_alloc : fs_op Z :=
  update_state new_index ;;;
  let* root := fs_allocate_dentry None (Some [SLASH]) None true false false in
  match root with
  | None => ret_op (- LTFS_NO_MEMORY)
  | Some d =>
      update_state (set_root d) ;;;
      update d (fun n => set_link_count (u32 (link_count n + 1)) n) ;;;
      ret_op 0
  end.

(** ** Names of the entries of a directory that was read *)

(** [update_platform_safe_name] outside Windows: [strdup] of the name. *)
Definition update_platform_safe_name (dentry : Z) : fs_op unit :=
  let* n := deref dentry in
  let* nm := the_name (name n) in
  update dentry (set_safe_name nm).

Definition add_valid_blocks (n : Z) (s : fs_state) : fs_state :=
  set_counts (file_count s) (u64 (valid_blocks s + n)) s.

(** One pass over the entries that were read, in the order of the document; the
    entries it leaves for the next pass.  Outside Windows no name is refused, and
    [handle_invalid_char] makes no difference. *)
Fixpoint fs_update_platform_safe_names_and_hash_table (basedir : Z) (handle_dup_name : bool)
    (list : name_list) : fs_op name_list :=
  match list with
  | [] => ret_op []
  | (nm, d) :: rest =>
      let* b := deref basedir in
      if negb handle_dup_name && bool_decide (is_Some (fs_find_key_from_hash_table (child_list b) nm))
      then let* left := fs_update_platform_safe_names_and_hash_table basedir handle_dup_name rest in
           ret_op ((nm, d) :: left)
      else
        update_platform_safe_name d ;;;
        let* b := deref basedir in
        let* l := fs_add_key_to_hash_table (child_list b) d in
        update basedir (set_child_list l) ;;;
        let* n := deref d in
        update_state (add_valid_blocks (used_blocks n)) ;;;
        fs_update_platform_safe_names_and_hash_table basedir handle_dup_name rest
  end.

Definition fs_update_platform_safe_names (basedir : Z) (list : name_list) : fs_op Z :=
  let* list := fs_update_platform_safe_names_and_hash_table basedir false list in
  let* list := fs_update_platform_safe_names_and_hash_table basedir true list in
  let* list := fs_update_platform_safe_names_and_hash_table basedir true list in
  ret_op (if hash_count list =? 0 then 0 else -1).

(** ** The order of the entries *)

(** [int] of the difference of two [uint64_t] *)
Definition fs_hash_sort_by_uid (a b : Z) : Z := s32 (u64 (a - b)).

(** [HASH_SRT], a bottom-up merge sort of the list of entries: runs of [insize]
    entries are merged in pairs, [insize] is doubled until one run is left. *)
Section hash_sort.
Context {A : Type} (cmpfcn : A -> A -> Z).

Fixpoint merge_runs (p : list A) : list A -> list A :=
  fix merge_q (q : list A) : list A :=
    match p, q with
    | [], _ => q
    | _, [] => p
    | x :: p', y :: q' => if cmpfcn x y <=? 0 then x :: merge_runs p' q else y :: merge_q q'
    end.

Fixpoint merge_pass (fuel insize : nat) (l : list A) : list A :=
  match fuel, l with
  | O, _ | _, [] => l
  | S fuel, _ =>
      merge_runs (take insize l) (take insize (drop insize l))
      ++ merge_pass fuel insize (drop (insize + insize) l)
  end.

(** [_hs_nmerges] of a pass is at most 1 when the two runs hold everything.  A pass
    has at most as many merges as there are entries, and there are at most as
    many passes. *)
Fixpoint sort_passes (fuel insize : nat) (l : list A) : list A :=
  match fuel with
  | O => l
  | S fuel =>
      let l' := merge_pass (length l) insize l in
      if (length l <=? insize + insize)%nat then l' else sort_passes fuel (insize + insize) l'
  end.

Definition HASH_SORT (l : list A) : list A := sort_passes (length l) 1 l.
End hash_sort.
