(* ===== verification/FsOps.v ===== *)
(** * File system operations

    [ltfs_fsops.c]: what the FUSE layer calls, on the tree ([FsTree]) and the
    volume ([Volume], [FsRaw]).  The dentry cache and the I/O scheduler are
    optional plugins and are taken as not loaded.  The clock is the argument
    [now] of each operation. *)

From S2P Require Import Prelude Errors TapeOps TapeDev Append Coherency Extents Volume FsRaw.
From S2P Require Import TimeInternal Pathname IndexCriteria FsTree.
Open Scope Z_scope.
Open Scope ltfs_scope.

(** The mounted file system. *)
Record mount (D : Type) := { tree : fs_state; volume : ltfs_volume D }.
Arguments tree {_}. Arguments volume {_}.

Definition set_tree {D} (t : fs_state) (m : mount D) : mount D := {| tree := t; volume := volume m |}.
Definition set_volume {D} (v : ltfs_volume D) (m : mount D) : mount D := {| tree := tree m; volume := v |}.

Definition on_tree {D A} (f : fs_op A) : op (mount D) A :=
  fun m => match f (tree m) with Some (x, t) => Some (x, set_tree t m) | None => None end.
Definition on_volume {D A} (f : ltfs_volume D -> A * ltfs_volume D) : op (mount D) A :=
  fun m => let '(x, v) := f (volume m) in Some (x, set_volume v m).
Definition the_volume {D} : op (mount D) (ltfs_volume D) := fun m => Some (volume m, m).

Section fsops.
Context {D : Type} (ops : tape_ops D) (xml : xml_lib) (update_mam_attr : D -> Z * D).
Context (wait_revalidation : ltfs_volume D -> Z * ltfs_volume D).
Context (revalidate : bool -> ltfs_volume D -> Z * ltfs_volume D).
Context (icu : icu_lib) (graphemes : list Z -> option (list (list Z))).
(** How often an operation starts over after a revalidation. *)
Context (retries : nat).

Implicit Types (m : mount D) (vol : ltfs_volume D).

(** ** Gates *)

Fixpoint test_unit_ready_loop (fuel : nat) (now : Z * Z) (vol : ltfs_volume D)
    : option (Z * ltfs_volume D) :=
  match fuel with
  | O => None
  | S fuel =>
      if ltfs_get_volume_lock vol <? 0 then Some (ltfs_get_volume_lock vol, vol)
      else
        let ret := tape_device_lock 0 (device vol) in
        if ret =? - LTFS_DEVICE_FENCED then
          let '(ret, vol') := wait_revalidation vol in
          if ret =? 0 then test_unit_ready_loop fuel now vol' else Some (ret, vol')
        else if ret <? 0 then Some (ret, vol)
        else
          let '(ret, dev) := tape_test_unit_ready ops now (device vol) in
          let vol := set_device dev vol in
          if NEED_REVAL ret then
            let '(ret, vol') := revalidate false (set_device (tape_start_fence (device vol)).2 vol) in
            if ret =? 0 then test_unit_ready_loop fuel now vol' else Some (ret, vol')
          else if IS_UNEXPECTED_MOVE ret then Some (ret, set_reval (- LTFS_REVAL_FAILED) vol)
          else Some (if ret <=? - EDEV_ERR_MIN then - LTFS_DEVICE_UNREADY else ret, vol)
  end.

Definition ltfs_test_unit_ready (now : Z * Z) : op (mount D) Z :=
  fun m => match test_unit_ready_loop (S retries) now (volume m) with
           | Some (ret, v) => Some (ret, set_volume v m)
           | None => None
           end.

(** "Make sure the device is online and writable." *)
Definition check_writable (allow_less_space : bool) (now : Z * Z) : op (mount D) Z :=
  let* vol := the_volume in
  let ret := ltfs_get_tape_readonly vol in
  if (ret <? 0) && negb (allow_less_space && (ret =? - LTFS_LESS_SPACE)) then ret_op ret
  else ltfs_test_unit_ready now.

Definition get_volume_lock : op (mount D) Z :=
  let* vol := the_volume in ret_op (ltfs_get_volume_lock vol).

Definition mark_dirty (atime : bool) : op (mount D) unit :=
  update_state (fun m => set_volume (set_index (ltfs_set_index_dirty atime (index (volume m))) (volume m)) m).

Definition fs_update (d : Z) (f : fsnode -> fsnode) : op (mount D) unit := on_tree (update d f).
Definition fs_deref (d : Z) : op (mount D) fsnode := on_tree (deref d).

(** [ltfs_update_valid_block_count_unlocked] *)
Definition ltfs_update_valid_block_count_unlocked (c : Z) : fs_op Z :=
  update_state (fun s => set_counts (file_count s) (u64 (valid_blocks s + c)) s) ;;; ret_op 0.

Definition ltfs_update_valid_block_count (c : Z) : op (mount D) Z :=
  let* ret := get_volume_lock in
  if ret <? 0 then ret_op ret else on_tree (ltfs_update_valid_block_count_unlocked c).

(** [index_criteria_match(d, vol)] *)
Definition match_criteria (d : Z) : fs_op bool :=
  let* n := deref d in
  let* nm := the_name (name n) in
  let* s := get_state in
  match index_criteria_match icu graphemes nm (criteria_of s) with
  | None => undefined
  | Some (b, ic) => update_state (set_criteria ic) ;;; ret_op b
  end.

Definition format_src_path (path : cstring) : Z + cstring :=
  match pathname_format icu path true true with
  | inl ret => inl (if ret =? - LTFS_INVALID_PATH then - LTFS_INVALID_SRC_PATH else ret)
  | inr p => inr p
  end.

(** ** Create *)

(** Set up the new dentry and put it into the parent's table. *)
Definition set_up_entry (now : Z * Z) (par d : Z) (isdir : bool) : fs_op unit :=
  update d (fun n => set_birth now (on_file (set_all_times now) n)) ;;;
  update par (on_file (set_modify_change now)) ;;;
  let* s := get_state in
  (if negb isdir && negb (index_criteria_get_max_filesize (criteria_of s) =? 0)
   then let* b := match_criteria d in update d (set_matches b) else ret_op tt) ;;;
  update d (fun n => set_numhandles (u32 (numhandles n + 1))
                       (set_link_count (u32 (link_count n + 1)) (set_parent (Some par) n))) ;;;
  (if isdir then update par (fun n => set_link_count (u32 (link_count n + 1)) n) else ret_op tt) ;;;
  update d (set_child_list []) ;;;
  let* pn := deref par in
  let* l := fs_add_key_to_hash_table (child_list pn) d in
  update par (set_child_list l) ;;;
  (if isdir then ret_op tt else update_state fs_increment_file_count).

(** From the lookup of the name in the parent, which is held, to [out_dispose]. *)
Definition create_entry (now : Z * Z) (par : Z) (filename : cstring) (isdir readonly : bool)
    : fs_op (Z + Z) :=
  let* r := fs_directory_lookup par filename in
  match r with
  | inl ret => fs_release_dentry par ;;; ret_op (inl ret)
  | inr (Some d) =>
      fs_release_dentry d ;;; fs_release_dentry par ;;; ret_op (inl (- LTFS_DENTRY_EXISTS))
  | inr None =>
      let* od := fs_allocate_dentry None None (Some filename) isdir readonly true in
      match od with
      | None => fs_release_dentry par ;;; ret_op (inl (- LTFS_NO_MEMORY))
      | Some d =>
          set_up_entry now par d isdir ;;; fs_release_dentry par ;;; ret_op (inr d)
      end
  end.

(** From the lookup of the parent directory on. *)
Definition create_at (now : Z * Z) (dir filename : cstring) (isdir readonly : bool) : fs_op (Z + Z) :=
  let* r := fs_path_lookup dir LOCK_DENTRY_CONTENTS_W in
  match r with
  | inl ret => ret_op (inl ret)
  | inr par => create_entry now par filename isdir readonly
  end.

(** [inr d]: success, with [*dentry = d]. *)
Definition ltfs_fsops_create (now : Z * Z) (path : cstring) (isdir readonly : bool)
    : op (mount D) (Z + Z) :=
  let* ret := check_writable false now in
  if ret <? 0 then ret_op (inl ret)
  else match pathname_format icu path true true with
  | inl ret => ret_op (inl ret)
  | inr path_norm =>
      let* ret := get_volume_lock in
      if ret <? 0 then ret_op (inl ret)
      else match fs_split_path path_norm with
      | None => undefined
      | Some (dir, filename) =>
          let* r := on_tree (create_at now dir filename isdir readonly) in
          match r with
          | inl ret => ret_op (inl ret)
          | inr d => mark_dirty false ;;; ret_op (inr d)
          end
      end
  end.

(** ** Unlink *)

(** [ltfs_file_id]: uid and inode number *)
Definition no_id : Z * Z := (0, 0).

(** From the parent's change to [out], when the entry has been found. *)
Definition unlink_found (par d : Z) (n pn : fsnode) (nm : cstring) : fs_op (Z * Z) :=
  update par (set_child_list (hash_del (child_list pn) nm)) ;;;
  update d (fun n => set_numhandles (u32 (numhandles n - 1)) (set_link_count (u32 (link_count n - 1))
                       (set_parent None (set_deleted true n)))) ;;;
  (if isdir n then update par (fun n => set_link_count (u32 (link_count n - 1)) n)
   else update_state fs_decrement_file_count) ;;;
  let* _ := ltfs_update_valid_block_count_unlocked (- used_blocks n) in
  ret_op (uid n, ino n).

(** The handles on the parent and on the dentry are given back. *)
Definition unlink_out {A} (par d : Z) (x : A) : fs_op A :=
  fs_release_dentry_unlocked par ;;; fs_release_dentry d ;;; ret_op x.

(** From the lookup of the path to the end; the id is that of the dentry taken out
    of the tree. *)
Definition unlink_entry_at (now : Z * Z) (path_norm : cstring) : fs_op (Z * option (Z * Z)) :=
  let* r := fs_path_lookup path_norm LOCK_PARENT_CONTENTS_W in
  match r with
  | inl ret => ret_op (ret, None)
  | inr d =>
      let* n := deref d in
      match parent n with
      | None => undefined
      | Some par =>
          if isdir n && negb (hash_count (child_list n) =? 0)
          then unlink_out par d (- LTFS_DIRNOTEMPTY, None)
          else
            update par (on_file (set_modify_change now)) ;;;
            let* pn := deref par in
            let* nm := the_name (platform_safe_name n) in
            match fs_find_key_from_hash_table (child_list pn) nm with
            | None => unlink_out par d (0, None)
            | Some _ => let* id := unlink_found par d n pn nm in unlink_out par d (0, Some id)
            end
      end
  end.

Definition ltfs_fsops_unlink (now : Z * Z) (path : cstring) : op (mount D) (Z * (Z * Z)) :=
  let* ret := check_writable true now in
  if ret <? 0 then ret_op (ret, no_id)
  else match format_src_path path with
  | inl ret => ret_op (ret, no_id)
  | inr [] => undefined
  | inr [_] => ret_op (- LTFS_UNLINKROOT, no_id)
  | inr path_norm =>
      let* ret := get_volume_lock in
      if ret <? 0 then ret_op (ret, no_id)
      else
        let* '(ret, id) := on_tree (unlink_entry_at now path_norm) in
        match id with
        | Some id => mark_dirty false ;;; ret_op (ret, id)
        | None => ret_op (ret, no_id)
        end
  end.

(** ** Rename *)

(** The lookup that goes wrong gives back the dentry found before it, which may be
    one of the two directories. *)
Definition give_back (d keep : Z) : fs_op unit :=
  if d =? keep then drop_handle d else fs_release_dentry d.

Definition give_back_opt (od : option Z) (keep : Z) : fs_op unit :=
  match od with None => ret_op tt | Some d => give_back d keep end.

(** The two dentries, looked up from the upper directory down: [inr (from, to)]; or
    the error and [fromdentry] as it is left. *)
Definition rename_lookup (fromdir : Z) (from_filename : cstring) (todir : Z) (to_filename : cstring)
    : fs_op ((Z * option Z) + Z * option Z) :=
  let* above := (if todir =? fromdir then ret_op true else fs_is_predecessor todir fromdir) in
  if above then
    let* rt := fs_directory_lookup todir to_filename in
    match rt with
    | inl ret => ret_op (inl (ret, None))
    | inr todentry =>
        let* rf := fs_directory_lookup fromdir from_filename in
        match rf with
        | inr (Some fromdentry) => ret_op (inr (fromdentry, todentry))
        | _ => give_back_opt todentry fromdir ;;; ret_op (inl (- LTFS_NO_DENTRY, None))
        end
    end
  else
    let* rf := fs_directory_lookup fromdir from_filename in
    match rf with
    | inl ret => ret_op (inl (ret, None))
    | inr None => ret_op (inl (- LTFS_NO_DENTRY, None))
    | inr (Some fromdentry) =>
        let* rt := fs_directory_lookup todir to_filename in
        match rt with
        | inl ret => give_back fromdentry todir ;;; ret_op (inl (ret, Some fromdentry))
        | inr todentry => ret_op (inr (fromdentry, todentry))
        end
    end.

(** "Validate some extra failure cases." *)
Definition rename_allowed (fromdir todir fromdentry : Z) (todentry : option Z) : fs_op Z :=
  let* loop := (if fromdentry =? todir then ret_op true else fs_is_predecessor fromdentry todir) in
  if loop then ret_op (- LTFS_RENAMELOOP)
  else match todentry with
  | None => ret_op 0
  | Some t =>
      let* over := (if t =? fromdir then ret_op true else fs_is_predecessor t fromdir) in
      if over then
        let* n := deref fromdentry in
        ret_op (if isdir n then - LTFS_DIRNOTEMPTY else - LTFS_ISFILE)
      else ret_op 0
  end.

(** Unlink the dentry that has the new name.  [Some ret]: go to [out_unlock]. *)
Definition rename_replace (todir fromdentry t : Z) : fs_op (option Z) :=
  let* n := deref t in
  if isdir n && negb (hash_count (child_list n) =? 0)
  then fs_release_dentry fromdentry ;;; fs_release_dentry t ;;; ret_op (Some (- LTFS_DIRNOTEMPTY))
  else
    (if isdir n then update todir (fun p => set_link_count (u32 (link_count p - 1)) p)
     else ret_op tt) ;;;
    update t (fun n => set_deleted true (set_parent None (set_link_count (u32 (link_count n - 1))
                         (set_numhandles (u32 (numhandles n - 1)) n)))) ;;;
    let* pn := deref todir in
    let* nm := the_name (platform_safe_name n) in
    match fs_find_key_from_hash_table (child_list pn) nm with
    | None => ret_op (Some 0)
    | Some _ =>
        update todir (set_child_list (hash_del (child_list pn) nm)) ;;;
        (if isdir pn then ret_op tt else update_state fs_decrement_file_count) ;;;
        fs_release_dentry_unlocked t ;;; ret_op None
    end.

(** Move [fromdentry], which is held, to its new place; false: it is not in the old
    one. *)
Definition rename_move (now : Z * Z) (fromdir todir fromdentry : Z) (to_filename : cstring) : fs_op bool :=
  let* n := deref fromdentry in
  let* pn := deref fromdir in
  let* nm := the_name (platform_safe_name n) in
  match fs_find_key_from_hash_table (child_list pn) nm with
  | None => ret_op false
  | Some _ =>
      update fromdir (set_child_list (hash_del (child_list pn) nm)) ;;;
      (if isdir n
       then update fromdir (fun p => set_link_count (u32 (link_count p - 1)) p) ;;;
            update todir (fun p => set_link_count (u32 (link_count p + 1)) p)
       else ret_op tt) ;;;
      update fromdir (on_file (set_modify_change now)) ;;;
      update todir (on_file (set_modify_change now)) ;;;
      update fromdentry (fun n => set_names (Some to_filename)
                           (set_parent (Some todir) (on_file (set_change_time now) n))) ;;;
      let* b := match_criteria fromdentry in
      update fromdentry (set_matches b) ;;;
      let* tn := deref todir in
      let* l := fs_add_key_to_hash_table (child_list tn) fromdentry in
      update todir (set_child_list l) ;;;
      fs_release_dentry_unlocked fromdentry ;;; ret_op true
  end.

(** Between the lookup of the directories and [out_release]: the result,
    [fromdentry], and whether the index becomes dirty. *)
Definition rename_entry (now : Z * Z) (fromdir : Z) (from_filename : cstring) (todir : Z)
    (to_filename : cstring) : fs_op (Z * option Z * bool) :=
  let* r := rename_lookup fromdir from_filename todir to_filename in
  match r with
  | inl (ret, fromdentry) => ret_op (ret, fromdentry, false)
  | inr (fromdentry, todentry) =>
      let* ret := rename_allowed fromdir todir fromdentry todentry in
      if ret <? 0 then
        give_back fromdentry todir ;;; give_back_opt todentry fromdir ;;;
        ret_op (ret, Some fromdentry, false)
      else
        let* stop := (match todentry with
                      | None => ret_op None
                      | Some t => if t =? fromdentry then fs_release_dentry t ;;; ret_op None
                                  else rename_replace todir fromdentry t
                      end) in
        match stop with
        | Some ret => ret_op (ret, Some fromdentry, false)
        | None => let* moved := rename_move now fromdir todir fromdentry to_filename in
                  ret_op (0, Some fromdentry, moved)
        end
  end.

(** Under the rename lock. *)
Definition rename_paths (now : Z * Z) (from_dir from_filename to_dir to_filename : cstring)
    : fs_op (Z * (Z * Z) * bool) :=
  let* rf := fs_path_lookup from_dir 0 in
  match rf with
  | inl ret => ret_op (ret, no_id, false)
  | inr fromdir =>
      let* rt := fs_path_lookup to_dir 0 in
      match rt with
      | inl ret => fs_release_dentry_unlocked fromdir ;;; ret_op (ret, no_id, false)
      | inr todir =>
          let* '(ret, fromdentry, moved) := rename_entry now fromdir from_filename todir to_filename in
          fs_release_dentry_unlocked fromdir ;;; fs_release_dentry_unlocked todir ;;;
          match fromdentry with
          | None => ret_op (ret, no_id, moved)
          | Some d => let* n := deref d in ret_op (ret, (uid n, ino n), moved)
          end
      end
  end.

Definition ltfs_fsops_rename (now : Z * Z) (from to : cstring) : op (mount D) (Z * (Z * Z)) :=
  let* ret := check_writable true now in
  if ret <? 0 then ret_op (ret, no_id)
  else match format_src_path from, pathname_format icu to true true with
  | inl ret, _ => ret_op (ret, no_id)
  | _, inl ret => ret_op (ret, no_id)
  | inr from_norm, inr to_norm =>
      match fs_split_path from_norm, fs_split_path to_norm with
      | Some (from_dir, from_filename), Some (to_dir, to_filename) =>
          let* ret := get_volume_lock in
          if ret <? 0 then ret_op (ret, no_id)
          else
            let* '(ret, id, moved) :=
              on_tree (rename_paths now from_dir from_filename to_dir to_filename) in
            (if moved then mark_dirty false else ret_op tt) ;;; ret_op (ret, id)
      | _, _ => undefined
      end
  end.

(** ** Open and close *)

Definition ltfs_fsraw_open (path : cstring) (open_write : bool) : op (mount D) (Z + Z) :=
  let* ret := get_volume_lock in
  if ret <? 0 then ret_op (inl ret)
  else
    let* r := on_tree (fs_path_lookup path 0) in
    match r with
    | inl ret => ret_op (inl ret)
    | inr dtmp =>
        let* n := fs_deref dtmp in
        let* m := get_state in
        let max_filesize := index_criteria_get_max_filesize (criteria_of (tree m)) in
        (if open_write && negb (isdir n) && negb (matches_name_criteria n)
            && (max_filesize >? 0) && (size (file n) <=? max_filesize)
         then let* b := on_tree (match_criteria dtmp) in fs_update dtmp (set_matches b)
         else ret_op tt) ;;;
        ret_op (inr dtmp)
    end.

Definition ltfs_fsraw_close (d : Z) : op (mount D) Z := on_tree (fs_release_dentry d) ;;; ret_op 0.

Definition ltfs_fsops_update_used_blocks (d : Z) : op (mount D) Z :=
  let* n := fs_deref d in
  let* vol := the_volume in
  let used := fs_get_used_blocks (blocksize (label vol)) n in
  fs_update d (set_used_blocks used) ;;;
  ltfs_update_valid_block_count (s64 (used - used_blocks n)).

Definition ltfs_fsops_close (now : Z * Z) (d : Z) (dirty open_write : bool) : op (mount D) Z :=
  let* n := fs_deref d in
  (if need_update_time n
   then fs_update d (fun n => set_need_update_time false (on_file (set_modify_change now) n))
   else ret_op tt) ;;;
  let* ret_u := (if open_write then ltfs_fsops_update_used_blocks d else ret_op 0) in
  let* ret := ltfs_fsraw_close d in
  ret_op (if (ret =? 0) && negb (ret_u =? 0) then ret_u else ret).

Definition ltfs_fsops_open (now : Z * Z) (path : cstring) (open_write : bool) : op (mount D) (Z + Z) :=
  let* vol := the_volume in
  let ret := ltfs_get_tape_readonly vol in
  if open_write && (ret <? 0) && (negb (ret =? - LTFS_LESS_SPACE) || negb (ret =? - LTFS_NO_SPACE))
  then ret_op (inl ret)
  else match format_src_path path with
  | inl ret => ret_op (inl ret)
  | inr path_norm =>
      let* r := ltfs_fsraw_open path_norm open_write in
      match r with
      | inl ret => ret_op (inl ret)
      | inr d =>
          let* n := fs_deref d in
          if open_write && isslink n
          then let* _ := ltfs_fsops_close now d false open_write in ret_op (inl (- LTFS_RDONLY_VOLUME))
          else ret_op (inr d)
      end
  end.

(** [inr (d, readonly)] *)
Definition ltfs_fsops_open_combo (path : cstring) (open_write isopendir : bool)
    : op (mount D) (Z + Z * bool) :=
  let* vol := the_volume in
  let ret := ltfs_get_tape_readonly vol in
  if open_write && (ret <? 0) && negb (ret =? - LTFS_LESS_SPACE) then ret_op (inl ret)
  else match format_src_path path with
  | inl ret => ret_op (inl ret)
  | inr path_norm =>
      let* ret := get_volume_lock in
      if ret <? 0 then ret_op (inl ret)
      else
        let* r := on_tree (fs_path_lookup path_norm 0) in
        match r with
        | inl ret => ret_op (inl ret)
        | inr dtmp =>
            let* n := fs_deref dtmp in
            on_tree (fs_release_dentry dtmp) ;;;
            if xorb isopendir (isdir n) then ret_op (inl (- LTFS_NO_DENTRY))
            else
              let* r := ltfs_fsraw_open path_norm open_write in
              match r with
              | inl ret => ret_op (inl ret)
              | inr d => let* n := fs_deref d in ret_op (inr (d, readonly n))
              end
        end
  end.

(** ** Attributes *)

(** [struct dentry_attr] *)
Record dentry_attr := {
  attr_size : Z; alloc_size : Z; attr_blocksize : Z; attr_uid : Z; nlink : Z;
  create_time : Z * Z; attr_access_time : Z * Z; attr_modify_time : Z * Z;
  attr_change_time : Z * Z; attr_backup_time : Z * Z;
  attr_readonly : bool; attr_isdir : bool; attr_isslink : bool
}.

Definition ltfs_fsops_getattr (d : Z) : op (mount D) (Z + dentry_attr) :=
  let* ret := get_volume_lock in
  if ret <? 0 then ret_op (inl ret)
  else
    let* n := fs_deref d in
    let* vol := the_volume in
    let* sz := (if isslink n then let* t := on_tree (the_name (target n)) in ret_op (Z.of_nat (length t))
                else ret_op (size (file n))) in
    ret_op (inr {| attr_size := sz; alloc_size := realsize (file n);
                   attr_blocksize := blocksize (label vol); attr_uid := uid n; nlink := link_count n;
                   create_time := creation_time n; attr_access_time := access_time (file n);
                   attr_modify_time := modify_time (file n); attr_change_time := change_time (file n);
                   attr_backup_time := backup_time n; attr_readonly := readonly n;
                   attr_isdir := isdir n; attr_isslink := isslink n |}).

(** The [_path] operations: open, act on the dentry, note its id, close. *)
Definition by_path {A} (now : Z * Z) (path : cstring) (open_write : bool)
    (act : Z -> op (mount D) (Z + A)) : op (mount D) ((Z + A) * (Z * Z)) :=
  let* r := ltfs_fsops_open now path open_write in
  match r with
  | inl ret => ret_op (inl ret, no_id)
  | inr d =>
      let* x := act d in
      let* n := fs_deref d in
      let* _ := ltfs_fsops_close now d false open_write in
      ret_op (x, (uid n, ino n))
  end.

Definition ltfs_fsops_getattr_path (now : Z * Z) (path : cstring) :=
  by_path now path false ltfs_fsops_getattr.

Definition to_timespec (t : Z * Z) : ltfs_timespec := {| tv_sec := fst t; tv_nsec := snd t |}.
Definition normalized (t : Z * Z) : Z * Z :=
  let t' := snd (normalize_ltfs_time (to_timespec t)) in (tv_sec t', tv_nsec t').
Definition same_time (a b : Z * Z) : bool := (fst a =? fst b) && (snd a =? snd b).

(** Set one of the times, and the change time unless it has been given. *)
Definition touch (now : Z * Z) (keep_ctime : bool) (set : Z * Z -> fsnode -> fsnode) (t : Z * Z)
    (atime : bool) (d : Z) : op (mount D) unit :=
  fs_update d (set (normalized t)) ;;;
  (if keep_ctime then ret_op tt else fs_update d (on_file (set_change_time now))) ;;;
  mark_dirty atime.

Definition ltfs_fsops_utimens (now : Z * Z) (d : Z) (atime mtime : Z * Z) : op (mount D) (Z + unit) :=
  let* ret := check_writable true now in
  if ret <? 0 then ret_op (inl ret)
  else
    let* ret := get_volume_lock in
    if ret <? 0 then ret_op (inl ret)
    else
      let* n := fs_deref d in
      (if same_time (access_time (file n)) atime then ret_op tt
       else touch now false (fun t => on_file (set_access_time t)) atime true d) ;;;
      (if same_time (modify_time (file n)) mtime then ret_op tt
       else touch now false (fun t => on_file (set_modify_time t)) mtime false d) ;;;
      ret_op (inr tt).

Definition ltfs_fsops_utimens_path (now : Z * Z) (path : cstring) (atime mtime : Z * Z) :=
  by_path now path false (fun d => ltfs_fsops_utimens now d atime mtime).

(** A time that is all zeros is left alone. *)
Definition is_zero (t : Z * Z) : bool := same_time t (0, 0).

Definition ltfs_fsops_utimens_all (now : Z * Z) (d : Z) (atime mtime crtime ctime : Z * Z)
    : op (mount D) (Z + unit) :=
  let* ret := check_writable true now in
  if ret <? 0 then ret_op (inl ret)
  else
    let* ret := get_volume_lock in
    if ret <? 0 then ret_op (inl ret)
    else
      let isctime := negb (is_zero ctime) in
      (if isctime then touch now true (fun t => on_file (set_change_time t)) ctime false d
       else ret_op tt) ;;;
      (if is_zero atime then ret_op tt
       else touch now isctime (fun t => on_file (set_access_time t)) atime true d) ;;;
      (if is_zero mtime then ret_op tt
       else touch now isctime (fun t => on_file (set_modify_time t)) mtime false d) ;;;
      (if is_zero crtime then ret_op tt
       else touch now isctime set_creation_time crtime false d) ;;;
      ret_op (inr tt).

Definition ltfs_fsops_set_readonly (now : Z * Z) (d : Z) (ro : bool) : op (mount D) (Z + unit) :=
  let* ret := check_writable true now in
  if ret <? 0 then ret_op (inl ret)
  else
    let* ret := get_volume_lock in
    if ret <? 0 then ret_op (inl ret)
    else
      let* n := fs_deref d in
      (if Bool.eqb ro (readonly n) then ret_op tt
       else fs_update d (fun n => on_file (set_change_time now) (set_readonly_flag ro n)) ;;;
            mark_dirty false) ;;;
      ret_op (inr tt).

Definition ltfs_fsops_set_readonly_path (now : Z * Z) (path : cstring) (ro : bool) :=
  by_path now path false (fun d => ltfs_fsops_set_readonly now d ro).

(** ** Data *)

Definition ltfs_fsops_write (now : Z * Z) (junk : list Z) (split_ok : bool) (d : Z) (buf : list Z)
    (offset : Z) (isupdatetime : bool) : op (mount D) Z :=
  let* n := fs_deref d in
  if isdir n then ret_op (- LTFS_ISDIRECTORY)
  else
    let* vol := the_volume in
    match ltfs_fsraw_write ops xml update_mam_attr wait_revalidation revalidate (S retries) now junk
            split_ok (file n) buf offset (ltfs_dp_id vol) isupdatetime vol with
    | None => undefined
    | Some (ret, f, vol) =>
        update_state (set_volume vol) ;;; fs_update d (set_file f) ;;;
        (if negb isupdatetime && (0 <=? ret) then fs_update d (set_need_update_time true)
         else ret_op tt) ;;;
        ret_op (if ret <? 0 then ret else 0)
    end.

Definition ltfs_fsops_read (now : Z * Z) (kmi : option (list Z -> Z * option (list Z))) (d : Z)
    (count offset : Z) : op (mount D) (Z * list Z) :=
  let* n := fs_deref d in
  if isdir n then ret_op (- LTFS_ISDIRECTORY, [])
  else
    let* vol := the_volume in
    match ltfs_fsraw_read ops wait_revalidation revalidate (S retries) now kmi
            (file n) count offset vol with
    | None => undefined
    | Some (ret, out, f, vol) =>
        update_state (set_volume vol) ;;; fs_update d (set_file f) ;;; ret_op (ret, out)
    end.

(** The result of [ltfs_fsraw_truncate] is overwritten by that of
    [ltfs_fsops_update_used_blocks]. *)
Definition ltfs_fsops_truncate (now : Z * Z) (d : Z) (length : Z) : op (mount D) (Z + unit) :=
  let* n := fs_deref d in
  if length <? 0 then ret_op (inl (- LTFS_BAD_ARG))
  else if isdir n then ret_op (inl (- LTFS_ISDIRECTORY))
  else
    let* ret := check_writable false now in
    if ret <? 0 then ret_op (inl ret)
    else
      let* vol := the_volume in
      let '(_, f, vol) := ltfs_fsraw_truncate now length (file n) vol in
      update_state (set_volume vol) ;;; fs_update d (set_file f) ;;;
      let* ret := ltfs_fsops_update_used_blocks d in
      ret_op (if ret <? 0 then inl ret else inr tt).

Definition ltfs_fsops_truncate_path (now : Z * Z) (path : cstring) (length : Z) :=
  by_path now path true (fun d => ltfs_fsops_truncate now d length).

(** Without an I/O scheduler or a dentry cache there is nothing to flush. *)
Definition ltfs_fsops_flush (d : option Z) : op (mount D) Z :=
  match d with
  | Some d => let* n := fs_deref d in ret_op (if isdir n then - LTFS_ISDIRECTORY else 0)
  | None => ret_op 0
  end.

Definition ltfs_fsops_set_write_protected : op (mount D) Z :=
  update_state (fun m => let dev := device (volume m) in
    set_volume (set_device (set_flags true (write_error dev) (fence dev) (is_key_set dev) dev) (volume m)) m) ;;;
  ret_op 0.

End fsops.
