(* ===== verification/FsGraph.v ===== *)
(** * The directory tree as a graph

    What the tree operations maintain, stated on the part of a dentry that
    matters to it: parent pointer, key, child table, reference and link
    counts.  [hs] counts the handles callers hold on each dentry. *)

From S2P Require Import Prelude FsRaw FsTree.
Open Scope Z_scope.

Record core := {
  up : option Z;
  key : option cstring;
  kids : name_list;
  dir : bool;
  gone : bool;
  refs : Z;
  links : Z
}.

Definition core_of (n : fsnode) : core :=
  {| up := parent n; key := platform_safe_name n; kids := child_list n; dir := isdir n;
     gone := deleted n; refs := numhandles n; links := link_count n |}.

(** The graph of a state. *)
Definition graph (s : fs_state) : gmap Z core := core_of <$> heap s.

Definition is_dir (g : gmap Z core) (a : Z) : bool :=
  match g !! a with Some n => dir n | None => false end.

Definition b2z (b : bool) : Z := if b then 1 else 0.

(** How many children are directories: each has a ".." *)
Fixpoint subdirs (g : gmap Z core) (l : name_list) : Z :=
  match l with
  | [] => 0
  | (_, d) :: l' => b2z (is_dir g d) + subdirs g l'
  end.

Definition linked (r a : Z) (n : core) : bool := (a =? r) || bool_decide (is_Some (up n)).

Lemma linked_false r a n : linked r a n = false <-> a <> r /\ up n = None.
Proof.
  unfold linked. rewrite orb_false_iff, Z.eqb_neq, bool_decide_eq_false.
  rewrite eq_None_not_Some. tauto.
Qed.

(** The invariant.  [loose] is a directory that has been taken out of the tree and
    is about to be put back elsewhere, with what is below it. *)
Record graph_ok (hs : Z -> Z) (r : Z) (loose : option Z) (g : gmap Z core) : Prop := {
  (** the root is a directory without a parent *)
  ok_root : exists n, g !! r = Some n /\ up n = None /\ dir n = true;
  (** an entry of a child table leads to a dentry with that key and that parent *)
  ok_child p pn k c : g !! p = Some pn -> (k, c) ∈ kids pn ->
    exists cn, g !! c = Some cn /\ up cn = Some p /\ key cn = Some k;
  (** a dentry with a parent is in its parent's table, under its key *)
  ok_parent d n p : g !! d = Some n -> up n = Some p ->
    exists pn k, g !! p = Some pn /\ key n = Some k /\ (k, d) ∈ kids pn /\ gone n = false;
  ok_keys p pn : g !! p = Some pn -> NoDup (kids pn).*1;
  (** only directories that are in the tree have children *)
  ok_dirs p pn : g !! p = Some pn -> kids pn <> [] ->
    dir pn = true /\ (linked r p pn = true \/ loose = Some p);
  (** no dentry is above itself *)
  ok_rank : exists rank : Z -> nat, forall d n p, g !! d = Some n -> up n = Some p ->
    (rank p < rank d)%nat;
  (** the reference count: the handles, and one for being in the tree *)
  ok_refs d n : g !! d = Some n -> refs n = hs d + b2z (linked r d n);
  (** a dentry exists as long as someone can reach it, and no longer *)
  ok_live d n : g !! d = Some n -> 0 < refs n;
  ok_held d : 0 < hs d -> is_Some (g !! d);
  ok_handles d : 0 <= hs d;
  (** the link count: ".", the entry in the parent (which the root counts too),
      and the ".." of each subdirectory *)
  ok_links d n : g !! d = Some n ->
    links n = u32 (b2z (dir n) + b2z (linked r d n) + subdirs g (kids n))
}.

(** The handles, with [x] more on [d]. *)
Definition bump (d x : Z) (hs : Z -> Z) : Z -> Z := fun a => if a =? d then hs a + x else hs a.

Lemma bump_eq d x hs : bump d x hs d = hs d + x.
Proof. unfold bump. by rewrite Z.eqb_refl. Qed.

Lemma bump_ne d x hs a : a <> d -> bump d x hs a = hs a.
Proof. intros H. unfold bump. by apply Z.eqb_neq in H as ->. Qed.

(** ** Changes of one dentry that keep the shape *)

Definition set_refs (x : Z) (n : core) : core :=
  {| up := up n; key := key n; kids := kids n; dir := dir n; gone := gone n; refs := x;
     links := links n |}.

Lemma is_dir_alter g d f a :
  (forall n, dir (f n) = dir n) -> is_dir (alter f d g) a = is_dir g a.
Proof.
  intros Hf. unfold is_dir. destruct (decide (a = d)) as [->|Hne].
  - rewrite lookup_alter_eq. destruct (g !! d); cbn; auto.
  - by rewrite lookup_alter_ne.
Qed.

Lemma subdirs_ext g g' l :
  (forall a, is_dir g' a = is_dir g a) -> subdirs g' l = subdirs g l.
Proof.
  intros H. induction l as [|[k d] l IH]; cbn; [done|]. by rewrite H, IH.
Qed.

(** ** Child tables *)

Lemma hash_find_in l k d : hash_find l k = Some d -> (k, d) ∈ l.
Proof.
  induction l as [|[k' d'] l IH]; cbn; [done|].
  destruct (decide (k' = k)) as [->|_]; [intros [= ->]; by left|]. intros H. right. auto.
Qed.

Lemma in_hash_find l k d : NoDup l.*1 -> (k, d) ∈ l -> hash_find l k = Some d.
Proof.
  induction l as [|[k' d'] l IH]; cbn; intros Hnd Hin; [by apply elem_of_nil in Hin|].
  apply list.NoDup_cons in Hnd as [Hn Hnd]. apply elem_of_cons in Hin as [[= -> ->]|Hin].
  - by rewrite decide_True.
  - rewrite decide_False; [by apply IH|]. intros ->. apply Hn.
    apply list_elem_of_fmap. by exists (k, d).
Qed.

Lemma hash_find_None l k : hash_find l k = None <-> k ∉ l.*1.
Proof.
  induction l as [|[k' d'] l IH]; cbn; [split; [intros _; apply not_elem_of_nil|done]|].
  rewrite not_elem_of_cons. destruct (decide (k' = k)) as [->|Hne].
  - split; [done|]. by intros [? _].
  - rewrite IH. split; [intros; split; [congruence|done]|tauto].
Qed.

Lemma in_hash_del l k k' c :
  NoDup l.*1 -> (k', c) ∈ hash_del l k <-> k' <> k /\ (k', c) ∈ l.
Proof.
  induction l as [|[k0 c0] l IH]; cbn; intros Hnd.
  - split; [intros H|intros [_ H]]; by apply elem_of_nil in H.
  - apply list.NoDup_cons in Hnd as [Hn Hnd]. specialize (IH Hnd). destruct (decide (k0 = k)) as [->|Hne].
    + rewrite elem_of_cons. split.
      * intros H. split; [|by right]. intros ->. apply Hn, list_elem_of_fmap. by exists (k, c).
      * intros [Hk [[= ? ?]|H]]; [congruence|done].
    + rewrite !elem_of_cons, IH. split.
      * intros [[= -> ->]|[? ?]]; auto.
      * intros [? [?|?]]; auto.
Qed.

Lemma hash_del_sublist l k : sublist (hash_del l k) l.
Proof.
  induction l as [|[k' c] l IH]; cbn; [done|]. destruct (decide (k' = k)); by constructor.
Qed.

Lemma NoDup_hash_del l k : NoDup l.*1 -> NoDup (hash_del l k).*1.
Proof. intros H. eapply sublist_NoDup; [exact H|]. apply fmap_sublist, hash_del_sublist. Qed.

Lemma hash_find_del l k k' :
  NoDup l.*1 -> hash_find (hash_del l k) k' = if decide (k' = k) then None else hash_find l k'.
Proof.
  intros Hnd. destruct (decide (k' = k)) as [->|Hne].
  - apply hash_find_None. intros H. apply list_elem_of_fmap in H as ([k0 c] & -> & H).
    apply in_hash_del in H as [? _]; [|done]. done.
  - destruct (hash_find l k') as [c|] eqn:E.
    + apply in_hash_find; [by apply NoDup_hash_del|]. apply in_hash_del; [done|].
      split; [done|]. by apply hash_find_in.
    + apply hash_find_None. rewrite hash_find_None in E. intros H. apply E.
      apply list_elem_of_fmap in H as ([k0 c] & -> & H). apply in_hash_del in H as [_ H]; [|done].
      apply list_elem_of_fmap. by exists (k0, c).
Qed.

Lemma subdirs_del g l k d :
  NoDup l.*1 -> (k, d) ∈ l -> subdirs g (hash_del l k) = subdirs g l - b2z (is_dir g d).
Proof.
  induction l as [|[k' c] l IH]; intros Hnd Hin; [by apply elem_of_nil in Hin|].
  cbn [hash_del subdirs]. apply list.NoDup_cons in Hnd as [Hn Hnd].
  apply elem_of_cons in Hin as [[= <- <-]|Hin].
  - rewrite decide_True by done. lia.
  - rewrite decide_False; [cbn [subdirs]; rewrite (IH Hnd Hin); lia|].
    intros ->. apply Hn, list_elem_of_fmap. by exists (k, d).
Qed.

Lemma u32_pred x y : u32 x = y -> u32 (y - 1) = u32 (x - 1).
Proof. intros <-. unfold u32. apply Zminus_mod_idemp_l. Qed.

Lemma u32_succ x y : u32 x = y -> u32 (y + 1) = u32 (x + 1).
Proof. intros <-. unfold u32. apply Zplus_mod_idemp_l. Qed.

Lemma u32_u32 x : u32 (u32 x) = u32 x.
Proof. unfold u32. by rewrite Zmod_mod. Qed.

(** ** Who is above whom *)

Inductive below (g : gmap Z core) (d : Z) : Z -> Prop :=
| below_refl : below g d d
| below_up a n p : g !! a = Some n -> up n = Some p -> below g d p -> below g d a.

(** The same, decided by going up at most [fuel] times. *)
Fixpoint belowb (fuel : nat) (g : gmap Z core) (a d : Z) : bool :=
  (a =? d) ||
  match fuel with
  | O => false
  | S fuel => match g !! a with
              | Some n => match up n with Some p => belowb fuel g p d | None => false end
              | None => false
              end
  end.

Lemma belowb_below fuel g a d : belowb fuel g a d = true -> below g d a.
Proof.
  revert a. induction fuel as [|fuel IH]; intros a; cbn; intros H.
  all: destruct (Z.eqb_spec a d) as [E|_]; [rewrite E; constructor|]; cbn in H; try done.
  destruct (g !! a) as [n|] eqn:Ea; [|done]. destruct (up n) as [p|] eqn:Eu; [|done].
  eapply below_up; eauto.
Qed.

Lemma belowb_fuel g rank d a fuel fuel' :
  (forall a n p, g !! a = Some n -> up n = Some p -> (rank p < rank a)%nat) ->
  (rank a <= fuel)%nat -> (rank a <= fuel')%nat -> belowb fuel g a d = belowb fuel' g a d.
Proof.
  intros Hrank. revert a fuel'. induction fuel as [|fuel IH]; intros a fuel' H1 H2.
  - destruct fuel' as [|fuel']; [done|]. cbn. f_equal. destruct (g !! a) as [n|] eqn:Ea; [|done].
    destruct (up n) as [p|] eqn:Eu; [|done]. specialize (Hrank _ _ _ Ea Eu). lia.
  - destruct fuel' as [|fuel'].
    + cbn. f_equal. destruct (g !! a) as [n|] eqn:Ea; [|done].
      destruct (up n) as [p|] eqn:Eu; [|done]. specialize (Hrank _ _ _ Ea Eu). lia.
    + cbn. f_equal. destruct (g !! a) as [n|] eqn:Ea; [|done].
      destruct (up n) as [p|] eqn:Eu; [|done]. specialize (Hrank _ _ _ Ea Eu) as Hr.
      apply IH; lia.
Qed.

(** Ranks for a graph where [d], with what is below it, moves under [p]. *)
Lemma rank_attach g rank d p :
  (forall a n q, g !! a = Some n -> up n = Some q -> (rank q < rank a)%nat) ->
  ~ below g d p ->
  exists rank' : Z -> nat,
    (forall a n q, g !! a = Some n -> up n = Some q -> a <> d -> (rank' q < rank' a)%nat)
    /\ (rank' p < rank' d)%nat.
Proof.
  intros Hrank Hp.
  exists (fun a => if belowb (rank a) g a d then rank a + rank p + 1 else rank a)%nat. split.
  - intros a n q Ha Hu Hne. pose proof (Hrank _ _ _ Ha Hu) as Hlt.
    assert (E : belowb (rank a) g a d = belowb (rank q) g q d).
    { destruct (rank a) as [|k] eqn:Ek; [lia|]. cbn. rewrite Ha, Hu.
      rewrite (proj2 (Z.eqb_neq a d) Hne). cbn. apply belowb_fuel with rank; [done|lia|lia]. }
    rewrite E. destruct (belowb (rank q) g q d); lia.
  - destruct (belowb (rank p) g p d) eqn:E; [by apply belowb_below in E|].
    replace (belowb (rank d) g d d) with true; [lia|].
    destruct (rank d); cbn; by rewrite Z.eqb_refl.
Qed.

(** ** Changes of the graph *)

(** Every dentry changed by a function of its address. *)
Definition remap (f : Z -> core -> core) (g : gmap Z core) : gmap Z core :=
  map_imap (fun a n => Some (f a n)) g.

Lemma lookup_remap f g a : remap f g !! a = f a <$> g !! a.
Proof. unfold remap. rewrite map_lookup_imap. by destruct (g !! a). Qed.

Lemma remap_Some f g a n' : remap f g !! a = Some n' <-> exists n, g !! a = Some n /\ n' = f a n.
Proof.
  rewrite lookup_remap. destruct (g !! a) as [n|]; cbn.
  - split; [intros [= <-]; by exists n|intros (? & [= <-] & ->); done].
  - split; [done|by intros (? & ? & _)].
Qed.

Lemma is_dir_remap f g a : (forall a n, dir (f a n) = dir n) -> is_dir (remap f g) a = is_dir g a.
Proof. intros H. unfold is_dir. rewrite lookup_remap. destruct (g !! a); cbn; auto. Qed.

Lemma subdirs_remap f g l : (forall a n, dir (f a n) = dir n) -> subdirs (remap f g) l = subdirs g l.
Proof. intros H. apply subdirs_ext. intros a. by apply is_dir_remap. Qed.

Lemma is_dir_lookup g a n : g !! a = Some n -> is_dir g a = dir n.
Proof. intros H. unfold is_dir. by rewrite H. Qed.

(** *** Handles *)

Definition recount (d x : Z) : Z -> core -> core :=
  fun a n => if a =? d then set_refs (refs n + x) n else n.

Lemma recount_shape d x a n :
  up (recount d x a n) = up n /\ key (recount d x a n) = key n /\ kids (recount d x a n) = kids n
  /\ dir (recount d x a n) = dir n /\ gone (recount d x a n) = gone n
  /\ links (recount d x a n) = links n
  /\ refs (recount d x a n) = if a =? d then refs n + x else refs n.
Proof. unfold recount. by destruct (a =? d). Qed.

Ltac remap_inv H := apply remap_Some in H as (? & H & ->).

Lemma graph_ok_recount hs r lo g d n x :
  graph_ok hs r lo g -> g !! d = Some n -> 0 <= hs d + x -> 0 < refs n + x ->
  graph_ok (bump d x hs) r lo (remap (recount d x) g).
Proof.
  intros [Hroot Hc Hp Hk Hd [rank Hrank] Hr Hl Hheld Hpos Hli] Hn Hx Hpos'.
  pose proof (recount_shape d x) as Hs.
  constructor.
  - destruct Hroot as (rn & E & ? & ?). exists (recount d x r rn). rewrite lookup_remap, E.
    destruct (Hs r rn) as (-> & _ & _ & -> & _). auto.
  - intros p pn k c E Hin. remap_inv E. destruct (Hs p x0) as (_ & _ & Ek & _). rewrite Ek in Hin.
    destruct (Hc _ _ _ _ E Hin) as (cn & Ec & ? & ?). exists (recount d x c cn).
    rewrite lookup_remap, Ec. destruct (Hs c cn) as (-> & -> & _). auto.
  - intros a an p E Hu. remap_inv E. destruct (Hs a x0) as (Eu & Ek & _ & _ & Eg & _).
    rewrite Eu in Hu. rewrite Ek, Eg. destruct (Hp _ _ _ E Hu) as (pn & k & Epn & ? & ? & ?).
    exists (recount d x p pn), k. rewrite lookup_remap, Epn.
    destruct (Hs p pn) as (_ & _ & -> & _). auto.
  - intros p pn E. remap_inv E. destruct (Hs p x0) as (_ & _ & -> & _). eauto.
  - intros p pn E. remap_inv E. destruct (Hs p x0) as (Eu & _ & -> & -> & _).
    intros Hne. unfold linked. rewrite Eu. apply (Hd _ _ E Hne).
  - exists rank. intros a an p E Hu. remap_inv E. destruct (Hs a x0) as (Eu & _).
    rewrite Eu in Hu. eauto.
  - intros a an E. remap_inv E. destruct (Hs a x0) as (Eu & _ & _ & _ & _ & _ & Er).
    unfold linked in *. rewrite Eu, Er. specialize (Hr _ _ E). unfold bump.
    destruct (a =? d); lia.
  - intros a an E. remap_inv E. destruct (Hs a x0) as (_ & _ & _ & _ & _ & _ & ->).
    destruct (Z.eqb_spec a d) as [->|_]; [|eauto]. congruence.
  - intros a. unfold bump. rewrite lookup_remap, fmap_is_Some.
    destruct (Z.eqb_spec a d) as [->|_]; [intros _; by exists n|apply Hheld].
  - intros a. unfold bump. destruct (Z.eqb_spec a d) as [->|_]; [lia|apply Hpos].
  - intros a an E. remap_inv E. unfold linked. destruct (Hs a x0) as (-> & _ & -> & -> & _ & -> & _).
    rewrite subdirs_remap by (intros; apply Hs). by apply Hli.
Qed.

(** *** Taking a dentry out of its parent's table *)

(** [mark] is what becomes of the [deleted] flag. *)
Definition detached (g : gmap Z core) (p d : Z) (k : cstring) (mark : bool) : Z -> core -> core :=
  fun a n =>
    if a =? d
    then {| up := None; key := key n; kids := kids n; dir := dir n; gone := mark;
            refs := refs n - 1; links := u32 (links n - 1) |}
    else if a =? p
    then {| up := up n; key := key n; kids := hash_del (kids n) k; dir := dir n; gone := gone n;
            refs := refs n; links := if is_dir g d then u32 (links n - 1) else links n |}
    else n.

(** *** Putting a dentry into a table *)

Definition attached (g : gmap Z core) (p d : Z) (k : cstring) : Z -> core -> core :=
  fun a n =>
    if a =? d
    then {| up := Some p; key := Some k; kids := kids n; dir := dir n; gone := gone n;
            refs := refs n + 1; links := u32 (links n + 1) |}
    else if a =? p
    then {| up := up n; key := key n; kids := (k, d) :: kids n; dir := dir n; gone := gone n;
            refs := refs n; links := if is_dir g d then u32 (links n + 1) else links n |}
    else n.

Lemma dir_detached g p d k m a n : dir (detached g p d k m a n) = dir n.
Proof. unfold detached. by destruct (a =? d), (a =? p). Qed.

Lemma dir_attached g p d k a n : dir (attached g p d k a n) = dir n.
Proof. unfold attached. by destruct (a =? d), (a =? p). Qed.

Lemma up_neq hs r lo g d n p : graph_ok hs r lo g -> g !! d = Some n -> up n = Some p -> p <> d.
Proof. intros Hok Hn Hu ->. destruct (ok_rank _ _ _ _ Hok) as [rank H]. specialize (H _ _ _ Hn Hu). lia. Qed.

Lemma root_not_up hs r lo g d n p : graph_ok hs r lo g -> g !! d = Some n -> up n = Some p -> d <> r.
Proof. intros Hok Hn Hu ->. destruct (ok_root _ _ _ _ Hok) as (? & ? & ? & _). congruence. Qed.

Section detach.
Context (hs : Z -> Z) (r : Z) (loose : option Z) (g : gmap Z core) (p d : Z) (n : core).
Context (k : cstring) (mark : bool).
Context (Hok : graph_ok hs r None g) (Hn : g !! d = Some n) (Hup : up n = Some p).
Context (Hkey : key n = Some k) (Hheld : 0 < hs d).
Context (Hloose : kids n = [] \/ loose = Some d).

Let f := detached g p d k mark.
Let Hpd : p <> d := up_neq _ _ _ _ _ _ _ Hok Hn Hup.
Let Hdr : d <> r := root_not_up _ _ _ _ _ _ _ Hok Hn Hup.

Lemma up_detach a m : up (f a m) = if a =? d then None else up m.
Proof. unfold f, detached. by destruct (a =? d), (a =? p). Qed.

Lemma key_detach a m : key (f a m) = key m.
Proof. unfold f, detached. by destruct (a =? d), (a =? p). Qed.

Lemma kids_detach a m : kids (f a m) = if a =? p then hash_del (kids m) k else kids m.
Proof.
  unfold f, detached. destruct (Z.eqb_spec a d) as [E|_], (Z.eqb_spec a p) as [E'|_]; try done. congruence.
Qed.

Lemma linked_detach a m : g !! a = Some m -> linked r a (f a m) = negb (a =? d) && linked r a m.
Proof.
  intros Ha. unfold linked. rewrite up_detach. destruct (Z.eqb_spec a d) as [E|_]; cbn; [|done].
  rewrite (proj2 (Z.eqb_neq a r)) by congruence. cbn. done.
Qed.

Lemma detach_entry q qn k' c :
  g !! q = Some qn -> (k', c) ∈ kids (f q qn) <-> (k', c) ∈ kids qn /\ c <> d.
Proof.
  intros Hq. rewrite kids_detach. destruct (Z.eqb_spec q p) as [E|Hne].
  - rewrite E in *. rewrite in_hash_del by (by eapply ok_keys).
    split; [intros [H1 H2]; split; [done|]|intros [H1 H2]; split; [|done]].
    + intros ->. destruct (ok_child _ _ _ _ Hok _ _ _ _ Hq H2) as (cn & Hc & _ & Hk). congruence.
    + intros ->. destruct (ok_parent _ _ _ _ Hok _ _ _ Hn Hup) as (pn & k' & Hpn & Hk & Hin & _).
      assert (k' = k) as -> by congruence. assert (pn = qn) as -> by congruence.
      pose proof (in_hash_find _ _ _ (ok_keys _ _ _ _ Hok _ _ Hq) Hin).
      pose proof (in_hash_find _ _ _ (ok_keys _ _ _ _ Hok _ _ Hq) H1). congruence.
  - split; [|tauto]. intros H. split; [done|]. intros ->.
    destruct (ok_child _ _ _ _ Hok _ _ _ _ Hq H) as (cn & Hc & Hu & _). congruence.
Qed.

Lemma links_detach a m :
  g !! a = Some m -> links (f a m) =
  u32 (b2z (dir m) + b2z (linked r a (f a m)) + subdirs g (kids (f a m))).
Proof.
  intros Ha. pose proof (ok_links _ _ _ _ Hok _ _ Ha) as Hl. rewrite linked_detach, kids_detach by done.
  unfold f, detached. destruct (Z.eqb_spec a d) as [E|Hne].
  - rewrite (proj2 (Z.eqb_neq a p)) by congruence. assert (m = n) as -> by congruence.
    assert (Hlk : linked r a n = true) by (unfold linked; rewrite Hup; apply orb_true_r).
    rewrite Hlk in Hl. cbn in *. rewrite (u32_pred _ _ (eq_sym Hl)). f_equal. lia.
  - destruct (Z.eqb_spec a p) as [E|_]; [|done]. cbn. rewrite E in *.
    destruct (ok_parent _ _ _ _ Hok _ _ _ Hn Hup) as (pn & k' & Hpn & Hk & Hin & _).
    assert (k' = k) as -> by congruence. assert (pn = m) as -> by congruence.
    rewrite (subdirs_del g _ k d) by (done || by eapply ok_keys).
    destruct (is_dir g d); cbn; [rewrite (u32_pred _ _ (eq_sym Hl)); f_equal; lia|].
    rewrite Hl. f_equal. lia.
Qed.

Lemma detach_ok : graph_ok hs r loose (remap f g).
Proof.
  destruct (ok_rank _ _ _ _ Hok) as [rank Hrank]. constructor.
  - destruct (ok_root _ _ _ _ Hok) as (rn & E & Eu & Ed). exists (f r rn).
    rewrite lookup_remap, E. rewrite up_detach, (proj2 (Z.eqb_neq r d)) by congruence.
    unfold f. rewrite dir_detached. auto.
  - intros q qn k' c E Hin. remap_inv E. apply detach_entry in Hin as [Hin Hc]; [|done].
    destruct (ok_child _ _ _ _ Hok _ _ _ _ E Hin) as (cn & Ec & Eu & Ek). exists (f c cn).
    rewrite lookup_remap, Ec, up_detach, key_detach, (proj2 (Z.eqb_neq c d)) by done. auto.
  - intros a an q E Hu. remap_inv E. rewrite up_detach in Hu.
    destruct (Z.eqb_spec a d) as [|Hne]; [done|].
    destruct (ok_parent _ _ _ _ Hok _ _ _ E Hu) as (qn & k' & Eq & Ek & Hin & Eg).
    exists (f q qn), k'. rewrite lookup_remap, Eq, key_detach. split_and!; auto.
    + apply detach_entry; auto.
    + unfold f, detached. rewrite (proj2 (Z.eqb_neq a d)) by done. by destruct (a =? p).
  - intros q qn E. remap_inv E. rewrite kids_detach. pose proof (ok_keys _ _ _ _ Hok _ _ E).
    destruct (q =? p); auto using NoDup_hash_del.
  - intros q qn E Hne. remap_inv E. unfold f at 1. rewrite dir_detached.
    assert (Hk : kids x <> []).
    { intros Hk. rewrite kids_detach, Hk in Hne. by destruct (q =? p). }
    destruct (ok_dirs _ _ _ _ Hok _ _ E Hk) as [Hdir [Hl|]]; [|done]. split; [done|].
    rewrite linked_detach by done. destruct (Z.eqb_spec q d) as [->|_]; [right|by left].
    destruct Hloose as [Hnil|]; [congruence|done].
  - exists rank. intros a an q E Hu. remap_inv E. rewrite up_detach in Hu.
    destruct (a =? d); [done|]. eauto.
  - intros a an E. remap_inv E. rewrite linked_detach by done.
    pose proof (ok_refs _ _ _ _ Hok _ _ E) as Hr. unfold f, detached.
    destruct (Z.eqb_spec a d) as [Ea|Hne]; cbn; [|by destruct (a =? p)].
    assert (x = n) as -> by congruence. unfold linked in Hr. rewrite Hup in Hr. cbn in Hr.
    rewrite orb_true_r in Hr. cbn in Hr. rewrite Ea in Hr |- *. lia.
  - intros a an E. remap_inv E. pose proof (ok_refs _ _ _ _ Hok _ _ E) as Hr.
    pose proof (ok_live _ _ _ _ Hok _ _ E). unfold f, detached.
    destruct (Z.eqb_spec a d) as [Ea|Hne]; cbn; [|by destruct (a =? p)].
    assert (x = n) as -> by congruence. unfold linked in Hr. rewrite Hup in Hr. cbn in Hr.
    rewrite orb_true_r in Hr. cbn in Hr. rewrite Ea in Hr. lia.
  - intros a Ha. rewrite lookup_remap, fmap_is_Some. by apply (ok_held _ _ _ _ Hok).
  - apply (ok_handles _ _ _ _ Hok).
  - intros a an E. remap_inv E. rewrite subdirs_remap by apply dir_detached.
    unfold f at 2. rewrite dir_detached. by apply links_detach.
Qed.

End detach.

Section attach.
Context (hs : Z -> Z) (r : Z) (loose : option Z) (g : gmap Z core) (p d : Z) (n pn : core).
Context (k : cstring).
Context (Hok : graph_ok hs r loose g) (Hn : g !! d = Some n) (Hp : g !! p = Some pn).
Context (Hup : up n = None) (Hdr : d <> r) (Hgone : gone n = false).
Context (Hdir : dir pn = true) (Hlink : linked r p pn = true) (Hfree : k ∉ (kids pn).*1).
Context (Hnotbelow : ~ below g d p) (Hloose : loose = None \/ loose = Some d).

Let f := attached g p d k.
Let Hpd : p <> d.
Proof. intros E. apply Hnotbelow. rewrite E. constructor. Qed.

Lemma up_attach a m : up (f a m) = if a =? d then Some p else up m.
Proof. unfold f, attached. by destruct (a =? d), (a =? p). Qed.

Lemma key_attach a m : key (f a m) = if a =? d then Some k else key m.
Proof. unfold f, attached. by destruct (a =? d), (a =? p). Qed.

Lemma kids_attach a m : kids (f a m) = if a =? p then (k, d) :: kids m else kids m.
Proof.
  unfold f, attached. destruct (Z.eqb_spec a d) as [E|_], (Z.eqb_spec a p) as [E'|_]; try done.
  congruence.
Qed.

Lemma linked_attach a m : linked r a (f a m) = (a =? d) || linked r a m.
Proof.
  unfold linked. rewrite up_attach. destruct (a =? d); cbn; [|done]. apply orb_true_r.
Qed.

Lemma attach_entry q qn k' c :
  g !! q = Some qn ->
  (k', c) ∈ kids (f q qn) <-> (k', c) ∈ kids qn \/ q = p /\ k' = k /\ c = d.
Proof.
  intros Hq. rewrite kids_attach. destruct (Z.eqb_spec q p) as [E|Hne].
  - rewrite elem_of_cons. split; [intros [[= -> ->]|?]; auto|intros [?|(_ & -> & ->)]; auto].
  - split; [auto|]. by intros [?|(? & _)].
Qed.

Lemma not_a_child q qn k' : g !! q = Some qn -> (k', d) ∉ kids qn.
Proof. intros Hq Hin. destruct (ok_child _ _ _ _ Hok _ _ _ _ Hq Hin) as (cn & ? & ? & _). congruence. Qed.

Lemma links_attach a m :
  g !! a = Some m -> links (f a m) =
  u32 (b2z (dir m) + b2z (linked r a (f a m)) + subdirs g (kids (f a m))).
Proof.
  intros Ha. pose proof (ok_links _ _ _ _ Hok _ _ Ha) as Hl. rewrite linked_attach, kids_attach.
  unfold f, attached. destruct (Z.eqb_spec a d) as [E|Hne].
  - rewrite (proj2 (Z.eqb_neq a p)) by congruence. assert (m = n) as -> by congruence.
    assert (Hlk : linked r a n = false) by (apply linked_false; split; congruence).
    rewrite Hlk in Hl. cbn in *. rewrite (u32_succ _ _ (eq_sym Hl)). f_equal. lia.
  - destruct (Z.eqb_spec a p) as [E|_]; [|done]. cbn.
    destruct (is_dir g d); cbn; [rewrite (u32_succ _ _ (eq_sym Hl)); f_equal; lia|].
    by rewrite Hl.
Qed.

Lemma attach_ok : graph_ok hs r None (remap f g).
Proof.
  destruct (ok_rank _ _ _ _ Hok) as [rank Hrank]. constructor.
  - destruct (ok_root _ _ _ _ Hok) as (rn & E & Eu & Ed). exists (f r rn).
    rewrite lookup_remap, E. rewrite up_attach, (proj2 (Z.eqb_neq r d)) by congruence.
    unfold f. rewrite dir_attached. auto.
  - intros q qn k' c E Hin. remap_inv E. apply attach_entry in Hin as [Hin|(-> & -> & ->)]; [| |done].
    + destruct (ok_child _ _ _ _ Hok _ _ _ _ E Hin) as (cn & Ec & Eu & Ek). exists (f c cn).
      assert (c <> d) by (intros ->; by apply (not_a_child _ _ _ E) in Hin).
      rewrite lookup_remap, Ec, up_attach, key_attach, (proj2 (Z.eqb_neq c d)) by done. auto.
    + exists (f d n). by rewrite lookup_remap, Hn, up_attach, key_attach, Z.eqb_refl.
  - intros a an q E Hu. remap_inv E. rewrite up_attach in Hu. rewrite key_attach.
    destruct (Z.eqb_spec a d) as [->|Hne].
    + injection Hu as <-. exists (f p pn), k. rewrite lookup_remap, Hp. split_and!; [done|done| |].
      * apply attach_entry; auto.
      * unfold f, attached. rewrite Z.eqb_refl. by assert (x = n) as -> by congruence.
    + destruct (ok_parent _ _ _ _ Hok _ _ _ E Hu) as (qn & k' & Eq & Ek & Hin & Eg).
      exists (f q qn), k'. rewrite lookup_remap, Eq. split_and!; [done|done| |].
      * apply attach_entry; auto.
      * unfold f, attached. rewrite (proj2 (Z.eqb_neq a d)) by done. by destruct (a =? p).
  - intros q qn E. remap_inv E. rewrite kids_attach. pose proof (ok_keys _ _ _ _ Hok _ _ E).
    destruct (Z.eqb_spec q p) as [Eq|_]; [|done]. cbn. apply list.NoDup_cons. split; [|done]. congruence.
  - intros q qn E Hne. remap_inv E. rewrite linked_attach. unfold f. rewrite dir_attached. fold f.
    rewrite kids_attach in Hne. destruct (Z.eqb_spec q p) as [Eq|Hqp].
    + assert (x = pn) as -> by congruence. rewrite Eq, Hlink, orb_true_r. auto.
    + destruct (ok_dirs _ _ _ _ Hok _ _ E Hne) as [? [->|Hl]]; [rewrite orb_true_r; auto|].
      destruct Hloose as [|Hl']; [congruence|]. assert (q = d) as -> by congruence.
      rewrite Z.eqb_refl. auto.
  - destruct (rank_attach g rank d p Hrank Hnotbelow) as (rank' & H1 & H2). exists rank'.
    intros a an q E Hu. remap_inv E. rewrite up_attach in Hu.
    destruct (Z.eqb_spec a d) as [->|Hne]; [by injection Hu as <-|]. eauto.
  - intros a an E. remap_inv E. rewrite linked_attach.
    pose proof (ok_refs _ _ _ _ Hok _ _ E) as Hr. unfold f, attached.
    destruct (Z.eqb_spec a d) as [Ea|Hne]; cbn; [|by destruct (a =? p)].
    assert (x = n) as -> by congruence. unfold linked in Hr. rewrite Hup, Ea in Hr.
    rewrite (proj2 (Z.eqb_neq d r)) in Hr by done. cbn in Hr. rewrite Ea. lia.
  - intros a an E. remap_inv E. pose proof (ok_live _ _ _ _ Hok _ _ E). unfold f, attached.
    destruct (a =? d), (a =? p); cbn; lia.
  - intros a Ha. rewrite lookup_remap, fmap_is_Some. by apply (ok_held _ _ _ _ Hok).
  - apply (ok_handles _ _ _ _ Hok).
  - intros a an E. remap_inv E. rewrite subdirs_remap by apply dir_attached.
    unfold f at 2. rewrite dir_attached. by apply links_attach.
Qed.

End attach.

(** *** The end of a dentry, and the beginning of one *)

Lemma subdirs_agree g g' l :
  (forall k c, (k, c) ∈ l -> is_dir g' c = is_dir g c) -> subdirs g' l = subdirs g l.
Proof.
  induction l as [|[k c] l IH]; cbn; [done|]. intros H. rewrite (H k c) by (by left).
  rewrite IH; [done|]. intros k' c' Hin. apply (H k' c'). by right.
Qed.

(** The last handle on a dentry outside the tree is given back. *)
Lemma free_ok hs r g d n :
  graph_ok hs r None g -> g !! d = Some n -> linked r d n = false -> hs d = 1 ->
  graph_ok (bump d (-1) hs) r None (delete d g).
Proof.
  intros Hok Hn Hl Hh.
  pose proof (proj1 (linked_false _ _ _) Hl) as [Hdr Hup].
  assert (Hnokids : kids n = []).
  { destruct (kids n) eqn:E; [done|]. destruct (ok_dirs _ _ _ _ Hok _ _ Hn) as [_ [?|?]]; congruence. }
  assert (Hnot : forall q qn k, g !! q = Some qn -> (k, d) ∉ kids qn).
  { intros q qn k Hq Hin. destruct (ok_child _ _ _ _ Hok _ _ _ _ Hq Hin) as (? & ? & ? & _). congruence. }
  destruct (ok_rank _ _ _ _ Hok) as [rank Hrank].
  constructor.
  - destruct (ok_root _ _ _ _ Hok) as (rn & E & ?). exists rn. by rewrite lookup_delete_ne.
  - intros q qn k c [Hqd E]%lookup_delete_Some Hin.
    destruct (ok_child _ _ _ _ Hok _ _ _ _ E Hin) as (cn & Ec & ?). exists cn.
    rewrite lookup_delete_ne; [done|]. intros ->. by apply (Hnot _ _ _ E) in Hin.
  - intros a an q [Had E]%lookup_delete_Some Hu.
    destruct (ok_parent _ _ _ _ Hok _ _ _ E Hu) as (qn & k & Eq & ? & Hin & ?). exists qn, k.
    rewrite lookup_delete_ne; [done|]. intros <-. assert (qn = n) as -> by congruence.
    rewrite Hnokids in Hin. by apply elem_of_nil in Hin.
  - intros q qn [_ E]%lookup_delete_Some. by eapply ok_keys.
  - intros q qn [_ E]%lookup_delete_Some. by eapply ok_dirs.
  - exists rank. intros a an q [_ E]%lookup_delete_Some. eauto.
  - intros a an [Hne E]%lookup_delete_Some. rewrite bump_ne by congruence. by eapply ok_refs.
  - intros a an [_ E]%lookup_delete_Some. by eapply ok_live.
  - intros a Ha. destruct (decide (a = d)) as [->|Hne].
    + rewrite bump_eq in Ha. lia.
    + rewrite bump_ne in Ha by done. rewrite lookup_delete_ne by done. by eapply ok_held.
  - intros a. unfold bump. pose proof (ok_handles _ _ _ _ Hok a).
    destruct (Z.eqb_spec a d) as [->|_]; lia.
  - intros a an [_ E]%lookup_delete_Some. rewrite (subdirs_agree g); [by eapply ok_links|].
    intros k c Hin. unfold is_dir. rewrite lookup_delete_ne; [done|].
    intros ->. by apply (Hnot _ _ _ E) in Hin.
Qed.

Definition fresh_core (k : option cstring) (isdir : bool) : core :=
  {| up := None; key := k; kids := []; dir := isdir; gone := false; refs := 1; links := b2z isdir |}.

(** A new dentry, held by its creator and not in the tree yet. *)
Lemma new_ok hs r g d k isdir :
  graph_ok hs r None g -> g !! d = None ->
  graph_ok (bump d 1 hs) r None (<[d := fresh_core k isdir]> g).
Proof.
  intros Hok Hd.
  assert (Hh : hs d = 0).
  { pose proof (ok_handles _ _ _ _ Hok d). destruct (decide (0 < hs d)) as [Hlt|]; [|lia].
    apply (ok_held _ _ _ _ Hok) in Hlt. rewrite Hd in Hlt. by destruct Hlt. }
  assert (Hdr : d <> r) by (intros ->; destruct (ok_root _ _ _ _ Hok) as (? & ? & _); congruence).
  destruct (ok_rank _ _ _ _ Hok) as [rank Hrank].
  constructor.
  - destruct (ok_root _ _ _ _ Hok) as (rn & E & ?). exists rn. by rewrite lookup_insert_ne.
  - intros q qn k' c [[<- <-]|[Hqd E]]%lookup_insert_Some Hin; [by apply elem_of_nil in Hin|].
    destruct (ok_child _ _ _ _ Hok _ _ _ _ E Hin) as (cn & Ec & ?). exists cn.
    rewrite lookup_insert_ne; [done|]. congruence.
  - intros a an q [[<- <-]|[Had E]]%lookup_insert_Some Hu; [done|].
    destruct (ok_parent _ _ _ _ Hok _ _ _ E Hu) as (qn & k' & Eq & ?). exists qn, k'.
    rewrite lookup_insert_ne; [done|]. congruence.
  - intros q qn [[<- <-]|[_ E]]%lookup_insert_Some; [by apply list.NoDup_nil|by eapply ok_keys].
  - intros q qn [[<- <-]|[_ E]]%lookup_insert_Some; [done|by eapply ok_dirs].
  - exists rank. intros a an q [[<- <-]|[_ E]]%lookup_insert_Some; [done|eauto].
  - intros a an [[<- <-]|[Hne E]]%lookup_insert_Some.
    + rewrite bump_eq, Hh. unfold linked. cbn. by rewrite (proj2 (Z.eqb_neq d r)).
    + rewrite bump_ne by congruence. by eapply ok_refs.
  - intros a an [[<- <-]|[_ E]]%lookup_insert_Some; [done|by eapply ok_live].
  - intros a Ha. destruct (decide (a = d)) as [->|Hne].
    + rewrite lookup_insert_eq. by eexists.
    + rewrite bump_ne in Ha by done. rewrite lookup_insert_ne by done. by eapply ok_held.
  - intros a. unfold bump. pose proof (ok_handles _ _ _ _ Hok a). destruct (a =? d); lia.
  - intros a an [[<- <-]|[_ E]]%lookup_insert_Some.
    { unfold linked. cbn. rewrite (proj2 (Z.eqb_neq d r)) by done. by destruct isdir. }
    rewrite (subdirs_agree g); [by eapply ok_links|].
    intros k' c Hin. unfold is_dir. rewrite lookup_insert_ne; [done|].
    destruct (ok_child _ _ _ _ Hok _ _ _ _ E Hin) as (? & ? & _). congruence.
Qed.
