(* ===== verification/FsTreeSpec.v ===== *)
(** * What the tree operations promise

    [tree_ok] is the invariant of the tree: the graph of its dentries is well
    formed, with [hs d] handles held on each dentry [d].  Every operation is
    shown to be free of undefined behaviour (no freed dentry is touched) and to
    change the graph in one way only. *)

From S2P Require Import Prelude Errors Extents FsRaw Pathname IndexCriteria FsTree FsGraph.
Open Scope Z_scope.
Open Scope ltfs_scope.

(** ** Total correctness: [m] is defined on [s] and its outcome satisfies [Q] *)

Definition wp {S A} (m : op S A) (s : S) (Q : A -> S -> Prop) : Prop :=
  match m s with Some (x, s') => Q x s' | None => False end.

Section wp.
Context {S : Type}.
Implicit Types s : S.

Lemma wp_mono {A} (m : op S A) s (Q Q' : A -> S -> Prop) :
  wp m s Q -> (forall x s', Q x s' -> Q' x s') -> wp m s Q'.
Proof. unfold wp. destruct (m s) as [[x s']|]; auto. Qed.

Lemma wp_bind {A B} (m : op S A) (k : A -> op S B) s Q :
  wp m s (fun x s' => wp (k x) s' Q) -> wp (bind_op m k) s Q.
Proof. unfold wp, bind_op. destruct (m s) as [[x s']|]; auto. Qed.

Lemma wp_seq {A B} (m : op S A) (k : A -> op S B) s P Q :
  wp m s P -> (forall x s', P x s' -> wp (k x) s' Q) -> wp (bind_op m k) s Q.
Proof. intros Hm Hk. apply wp_bind. by eapply wp_mono. Qed.

Lemma wp_ret {A} (x : A) s (Q : A -> S -> Prop) : Q x s -> wp (ret_op x) s Q.
Proof. done. Qed.

Lemma wp_get s Q : Q s s -> wp get_state s Q.
Proof. done. Qed.

Lemma wp_update_state f s (Q : unit -> S -> Prop) : Q tt (f s) -> wp (update_state f) s Q.
Proof. done. Qed.

Lemma wp_run {A} (m : op S A) s Q : wp m s Q -> exists x s', m s = Some (x, s') /\ Q x s'.
Proof. unfold wp. destruct (m s) as [[x s']|]; [|done]. intros H. by exists x, s'. Qed.
End wp.

Lemma wp_deref d s n Q : heap s !! d = Some n -> Q n s -> wp (deref d) s Q.
Proof. unfold wp, deref. by intros ->. Qed.

Lemma wp_update d f s n (Q : unit -> fs_state -> Prop) :
  heap s !! d = Some n -> Q tt (set_heap (<[d := f n]> (heap s)) s) -> wp (update d f) s Q.
Proof. unfold wp, update. by intros ->. Qed.

Lemma wp_free d s n (Q : unit -> fs_state -> Prop) :
  heap s !! d = Some n -> Q tt (set_heap (delete d (heap s)) s) -> wp (free d) s Q.
Proof. unfold wp, free. by intros ->. Qed.

Lemma wp_name nm s (Q : cstring -> fs_state -> Prop) : Q nm s -> wp (the_name (Some nm)) s Q.
Proof. done. Qed.

(** ** The invariant *)

(** A name the file system can hold: a component of a path. *)
Definition name_ok (k : cstring) : Prop :=
  k <> [] /\ Forall (fun b => b <> SLASH) k /\ pathname_strlen k <= LTFS_FILENAME_MAX.

Record node_ok (n : fsnode) : Prop := {
  node_synced : out_of_sync n = false;
  node_names : name n = platform_safe_name n;
  node_key k : parent n <> None -> platform_safe_name n = Some k -> name_ok k
}.

Record tree_ok (hs : Z -> Z) (s : fs_state) : Prop := {
  t_graph : graph_ok hs (root s) None (graph s);
  t_node d n : heap s !! d = Some n -> node_ok n;
  t_fresh d : is_Some (heap s !! d) -> d < fresh s;
  t_root n : heap s !! root s = Some n -> platform_safe_name n = Some [SLASH]
}.

(** Callers hold so few handles that the 32-bit count cannot overflow: in between
    operations, and inside one, which takes a few more. *)
Definition few (hs : Z -> Z) : Prop := forall d, hs d < 2 ^ 31.
Definition bounded (hs : Z -> Z) : Prop := forall d, hs d < 2 ^ 31 + 8.

Lemma few_bounded hs hs' : few hs -> (forall d, hs' d <= hs d + 8) -> bounded hs'.
Proof. intros H1 H2 d. specialize (H1 d). specialize (H2 d). lia. Qed.

(** What an operation on the tree never changes in a dentry. *)
Definition payload (n : fsnode) :=
  (ino n, uid n, isdir n, isslink n, target n, used_blocks n,
   (extentlist (file n), realsize (file n), size (file n), extents_dirty (file n), xattrlist n)).

(** The graph becomes [g']. *)
Record becomes (s : fs_state) (g' : gmap Z core) (s' : fs_state) : Prop := {
  b_graph : graph s' = g';
  b_root : root s' = root s;
  b_fresh : fresh s <= fresh s';
  b_payload d n' : heap s' !! d = Some n' -> d < fresh s ->
    exists n, heap s !! d = Some n /\ payload n' = payload n
}.

(** The counters and the policy are as they were. *)
Definition counters_kept (s s' : fs_state) : Prop :=
  inode_number s' = inode_number s /\ uid_number s' = uid_number s
  /\ file_count s' = file_count s /\ valid_blocks s' = valid_blocks s
  /\ criteria_of s' = criteria_of s /\ fresh s' = fresh s.

Lemma lookup_graph s d n : heap s !! d = Some n -> graph s !! d = Some (core_of n).
Proof. unfold graph. rewrite lookup_fmap. by intros ->. Qed.

Lemma graph_lookup s d c : graph s !! d = Some c -> exists n, heap s !! d = Some n /\ c = core_of n.
Proof.
  unfold graph. rewrite lookup_fmap. destruct (heap s !! d) as [n|]; [|done].
  intros [= <-]. by exists n.
Qed.

Lemma graph_set_heap d n s : graph (set_heap (<[d := n]> (heap s)) s) = <[d := core_of n]> (graph s).
Proof. unfold graph. cbn. by rewrite fmap_insert. Qed.

Lemma remap_insert (F : Z -> core -> core) g d c :
  g !! d = Some c -> (forall a x, a <> d -> F a x = x) -> <[d := F d c]> g = remap F g.
Proof.
  intros Hd HF. apply map_eq. intros a. rewrite lookup_remap. destruct (decide (a = d)) as [->|Hne].
  - by rewrite lookup_insert_eq, Hd.
  - rewrite lookup_insert_ne by done. destruct (g !! a) as [x|]; cbn; [|done]. by rewrite HF.
Qed.

(** An update that keeps the graph part of a dentry. *)
Lemma graph_update_same d n n' s :
  heap s !! d = Some n -> core_of n' = core_of n ->
  graph (set_heap (<[d := n']> (heap s)) s) = graph s.
Proof.
  intros Hn Hc. rewrite graph_set_heap, Hc. apply insert_id. by apply lookup_graph.
Qed.

Lemma becomes_refl s : becomes s (graph s) s.
Proof. constructor; auto; [lia|]. intros d n' ? _. by exists n'. Qed.

Lemma becomes_trans s1 g2 s2 g3 s3 : becomes s1 g2 s2 -> becomes s2 g3 s3 -> becomes s1 g3 s3.
Proof.
  intros [A1 A2 A3 A4] [B1 B2 B3 B4]. constructor; [done|congruence|lia|].
  intros d n3 H3 Hlt. destruct (B4 _ _ H3 ltac:(lia)) as (n2 & H2 & ->). by apply A4.
Qed.

(** One dentry is rewritten. *)
Lemma becomes_update s d n n' :
  heap s !! d = Some n -> payload n' = payload n ->
  becomes s (<[d := core_of n']> (graph s)) (set_heap (<[d := n']> (heap s)) s).
Proof.
  intros Hn Hp. constructor; [apply graph_set_heap|done|cbn; lia|].
  intros a m Ha _. cbn in Ha. apply lookup_insert_Some in Ha as [[<- <-]|[_ Ha]]; eauto.
Qed.

(** One dentry is freed. *)
Lemma becomes_delete s d : becomes s (delete d (graph s)) (set_heap (delete d (heap s)) s).
Proof.
  constructor; [unfold graph; cbn; by rewrite fmap_delete|done|cbn; lia|].
  intros a m Ha _. cbn in Ha. apply lookup_delete_Some in Ha as [_ Ha]. eauto.
Qed.

(** ** Handles *)

Lemma refs_bound hs s d n :
  tree_ok hs s -> bounded hs -> heap s !! d = Some n -> 0 < numhandles n < 2 ^ 31 + 9.
Proof.
  intros Hok Hfew Hn. apply lookup_graph in Hn as Hg.
  pose proof (ok_refs _ _ _ _ (t_graph _ _ Hok) _ _ Hg) as Hr.
  pose proof (ok_live _ _ _ _ (t_graph _ _ Hok) _ _ Hg) as Hl. cbn in *.
  specialize (Hfew d). destruct (linked _ _ _); cbn in Hr; lia.
Qed.

(** The graph when the handles are [hs'] instead of [hs]. *)
Definition rehandle (hs hs' : Z -> Z) (g : gmap Z core) : gmap Z core :=
  remap (fun a n => set_refs (refs n + (hs' a - hs a)) n) g.

Lemma core_eta n : set_refs (refs n) n = n.
Proof. by destruct n. Qed.

Lemma rehandle_same hs hs' g : (forall a, hs' a = hs a) -> rehandle hs hs' g = g.
Proof.
  intros H. apply map_eq. intros a. unfold rehandle. rewrite lookup_remap, H.
  destruct (g !! a) as [n|]; cbn; [|done]. by rewrite Z.sub_diag, Z.add_0_r, core_eta.
Qed.

Lemma rehandle_trans hs1 hs2 hs3 g : rehandle hs2 hs3 (rehandle hs1 hs2 g) = rehandle hs1 hs3 g.
Proof.
  apply map_eq. intros a. unfold rehandle. rewrite !lookup_remap.
  destruct (g !! a) as [n|]; cbn; [|done]. unfold set_refs; cbn. do 2 f_equal. lia.
Qed.

Lemma rehandle_bump d x hs g : rehandle hs (bump d x hs) g = remap (recount d x) g.
Proof.
  apply map_eq. intros a. unfold rehandle. rewrite !lookup_remap.
  destruct (g !! a) as [n|]; cbn; [|done]. unfold recount, bump. destruct (a =? d).
  - do 3 f_equal. lia.
  - by rewrite Z.sub_diag, Z.add_0_r, core_eta.
Qed.

Lemma rehandle_ext hs hs1 hs2 g : (forall a, hs1 a = hs2 a) -> rehandle hs hs1 g = rehandle hs hs2 g.
Proof. intros H. rewrite <- (rehandle_trans hs hs2 hs1). by apply rehandle_same. Qed.

Lemma graph_ok_ext hs hs' r lo g : (forall a, hs a = hs' a) -> graph_ok hs r lo g -> graph_ok hs' r lo g.
Proof.
  intros H [H1 H2 H3 H4 H5 H6 H7 H8 H9 H10 H11]. constructor; auto.
  - intros d n Hd. rewrite <- H. auto.
  - intros d. rewrite <- H. auto.
  - intros d. rewrite <- H. auto.
Qed.

Lemma tree_ok_ext hs hs' s : (forall a, hs a = hs' a) -> tree_ok hs s -> tree_ok hs' s.
Proof. intros H [H1 H2 H3 H4]. constructor; auto. by eapply graph_ok_ext. Qed.

(** The state after the count of [d] has changed by [x]. *)
Lemma recount_ok hs s d n x :
  tree_ok hs s -> heap s !! d = Some n -> 0 <= hs d + x -> 0 < numhandles n + x ->
  let s' := set_heap (<[d := set_numhandles (numhandles n + x) n]> (heap s)) s in
  tree_ok (bump d x hs) s' /\ becomes s (remap (recount d x) (graph s)) s' /\ counters_kept s s'.
Proof.
  intros Hok Hn Hx Hpos. apply lookup_graph in Hn as Hg.
  assert (Hs : graph (set_heap (<[d := set_numhandles (numhandles n + x) n]> (heap s)) s)
               = remap (recount d x) (graph s)).
  { rewrite graph_set_heap. rewrite <- (remap_insert _ _ _ _ Hg).
    - unfold recount. by rewrite Z.eqb_refl.
    - intros a c Hne. unfold recount. by rewrite (proj2 (Z.eqb_neq a d) Hne). }
  cbv zeta. split_and!.
  - constructor.
    + rewrite Hs. eapply graph_ok_recount; eauto. apply (t_graph _ _ Hok).
    + cbn. intros a m [[<- <-]|[_ Ha]]%lookup_insert_Some; [|by eapply t_node].
      by destruct (t_node _ _ Hok _ _ Hn).
    + cbn. intros a. rewrite lookup_insert_is_Some'. intros [<-|Ha]; apply (t_fresh _ _ Hok); eauto.
    + cbn. intros m [[E <-]|[_ Ha]]%lookup_insert_Some; [|by eapply t_root].
      apply (t_root _ _ Hok n). by rewrite <- E.
  - rewrite <- Hs, graph_set_heap. by apply (becomes_update _ _ n).
  - done.
Qed.

(** What an operation that only counts handles leaves. *)
Definition counted (hs hs' : Z -> Z) (s s' : fs_state) : Prop :=
  tree_ok hs' s' /\ becomes s (rehandle hs hs' (graph s)) s' /\ counters_kept s s'.

Lemma counters_kept_trans s1 s2 s3 : counters_kept s1 s2 -> counters_kept s2 s3 -> counters_kept s1 s3.
Proof. unfold counters_kept. intuition congruence. Qed.

Lemma counted_trans hs1 hs2 hs3 s1 s2 s3 :
  counted hs1 hs2 s1 s2 -> counted hs2 hs3 s2 s3 -> counted hs1 hs3 s1 s3.
Proof.
  intros (A1 & A2 & A3) (B1 & B2 & B3). split; [done|]. split.
  - rewrite (b_graph _ _ _ A2), rehandle_trans in B2. by eapply becomes_trans.
  - by eapply counters_kept_trans.
Qed.

Lemma counted_ext hs hs1 hs2 s s' :
  (forall a, hs1 a = hs2 a) -> counted hs hs1 s s' -> counted hs hs2 s s'.
Proof.
  intros H (A1 & A2 & A3). split; [by eapply tree_ok_ext|]. split; [|done].
  by rewrite <- (rehandle_ext hs hs1 hs2).
Qed.

Lemma counted_refl hs s : tree_ok hs s -> counted hs hs s s.
Proof. intros H. split; [done|]. split; [|done]. rewrite rehandle_same by done. apply becomes_refl. Qed.

Lemma hold_ok hs s d n :
  tree_ok hs s -> bounded hs -> heap s !! d = Some n -> wp (hold d) s (fun _ => counted hs (bump d 1 hs) s).
Proof.
  intros Hok Hfew Hn. pose proof (refs_bound _ _ _ _ Hok Hfew Hn).
  eapply wp_update; [done|]. rewrite u32_small by lia. unfold counted. rewrite rehandle_bump.
  eapply recount_ok; eauto; [|lia]. pose proof (ok_handles _ _ _ _ (t_graph _ _ Hok) d). lia.
Qed.

Lemma drop_handle_ok hs s d n :
  tree_ok hs s -> bounded hs -> heap s !! d = Some n -> 0 < hs d -> 1 < numhandles n ->
  wp (drop_handle d) s (fun _ => counted hs (bump d (-1) hs) s).
Proof.
  intros Hok Hfew Hn Hh Hr. pose proof (refs_bound _ _ _ _ Hok Hfew Hn).
  eapply wp_update; [done|]. replace (numhandles n - 1) with (numhandles n + -1) by lia.
  rewrite u32_small by lia. unfold counted. rewrite rehandle_bump. eapply recount_ok; eauto; lia.
Qed.

(** What giving back a handle does: the dentry is freed if nothing else refers to
    it. *)
Definition released (d : Z) (hs : Z -> Z) (s s' : fs_state) : Prop :=
  tree_ok (bump d (-1) hs) s' /\ counters_kept s s'
  /\ becomes s (match graph s !! d with
                | Some c => if refs c =? 1 then delete d (graph s)
                            else rehandle hs (bump d (-1) hs) (graph s)
                | None => graph s
                end) s'.

Lemma tree_ok_delete hs s d n :
  tree_ok hs s -> heap s !! d = Some n -> linked (root s) d (core_of n) = false -> hs d = 1 ->
  tree_ok (bump d (-1) hs) (set_heap (delete d (heap s)) s).
Proof.
  intros Hok Hn Hl Hh. constructor.
  - unfold graph. cbn. rewrite fmap_delete. eapply free_ok; eauto; [apply t_graph, Hok|].
    by apply lookup_graph.
  - cbn. intros a m [_ Ha]%lookup_delete_Some. by eapply t_node.
  - cbn. intros a [m [_ Ha]%lookup_delete_Some]. apply (t_fresh _ _ Hok). by exists m.
  - cbn. intros m [_ Ha]%lookup_delete_Some. by eapply t_root.
Qed.

(** The last reference to a dentry outside the tree, which has no children. *)
Lemma dispose_ok s d n fuel :
  heap s !! d = Some n -> parent n = None -> child_list n = [] ->
  wp (_fs_dispose_dentry_contents (Datatypes.S fuel) d false) s
     (fun _ s' => s' = set_heap (delete d (heap s)) s).
Proof.
  intros Hn Hp Hc. cbn [_fs_dispose_dentry_contents].
  apply wp_bind, (wp_deref _ _ _ _ Hn). rewrite Hc. cbn [rev repeat_op].
  apply wp_bind, wp_ret, wp_bind. unfold unlink_entry. apply wp_bind, (wp_deref _ _ _ _ Hn).
  rewrite Hp. apply wp_ret, (wp_free _ _ _ _ Hn). done.
Qed.

Lemma set_heap_twice h1 h2 s : set_heap h2 (set_heap h1 s) = set_heap h2 s.
Proof. done. Qed.

Lemma release_ok hs s d n :
  tree_ok hs s -> bounded hs -> heap s !! d = Some n -> 0 < hs d ->
  wp (fs_release_dentry d) s (fun _ => released d hs s).
Proof.
  intros Hok Hfew Hn Hh. pose proof (refs_bound _ _ _ _ Hok Hfew Hn) as Hb.
  apply lookup_graph in Hn as Hg. unfold fs_release_dentry, fs_release_dentry_unlocked.
  apply wp_bind. eapply wp_update; [done|]. replace (numhandles n - 1) with (numhandles n + -1) by lia.
  rewrite u32_small by lia. apply wp_bind. eapply wp_deref; [cbn; apply lookup_insert_eq|].
  unfold released. rewrite Hg, rehandle_bump. cbn [refs core_of].
  destruct (t_node _ _ Hok _ _ Hn) as [Hsync _ _]. cbn [numhandles set_numhandles out_of_sync].
  rewrite Hsync, orb_false_r. destruct (Z.eqb_spec (numhandles n) 1) as [E|Hne].
  - rewrite E.
    pose proof (ok_refs _ _ _ _ (t_graph _ _ Hok) _ _ Hg) as Hr. cbn in Hr.
    assert (Hl : linked (root s) d (core_of n) = false /\ hs d = 1)
      by (destruct (linked (root s) d (core_of n)); cbn in Hr; [lia|split; [done|lia]]).
    destruct Hl as [Hl Hh1].
    pose proof (proj1 (linked_false _ _ _) Hl) as [_ Hp]. cbn in Hp.
    assert (Hc : child_list n = []).
    { destruct (child_list n) eqn:Ec; [done|]. exfalso.
      destruct (ok_dirs _ _ _ _ (t_graph _ _ Hok) _ _ Hg) as [_ [?|?]]; [cbn; by rewrite Ec|congruence|done]. }
    unfold dispose. apply wp_bind, wp_get.
    eapply wp_mono; [eapply dispose_ok; [cbn; apply lookup_insert_eq|done|done]|].
    intros _ s' ->. cbn [heap set_heap]. rewrite set_heap_twice, delete_insert_eq.
    split; [by apply (tree_ok_delete _ _ _ n)|]. split; [done|apply becomes_delete].
  - rewrite (proj2 (Z.eqb_neq _ _)) by lia. apply wp_ret.
    destruct (recount_ok hs s d n (-1)) as (? & ? & ?); done || lia.
Qed.

(** Giving back a handle on a dentry that stays: one that is in the tree, or one
    somebody else holds as well. *)
Lemma release_counted hs s d n :
  tree_ok hs s -> bounded hs -> heap s !! d = Some n -> 0 < hs d -> numhandles n <> 1 ->
  wp (fs_release_dentry d) s (fun _ => counted hs (bump d (-1) hs) s).
Proof.
  intros Hok Hfew Hn Hh Hr. eapply wp_mono; [by apply (release_ok hs s d n)|].
  intros _ s' (H1 & H2 & H3). rewrite (lookup_graph _ _ _ Hn) in H3. cbn in H3.
  rewrite (proj2 (Z.eqb_neq _ _) Hr) in H3. split; [done|]. split; done.
Qed.

Lemma linked_refs hs s d n :
  tree_ok hs s -> heap s !! d = Some n -> 0 < hs d -> linked (root s) d (core_of n) = true ->
  1 < numhandles n.
Proof.
  intros Hok Hn Hh Hl. pose proof (ok_refs _ _ _ _ (t_graph _ _ Hok) _ _ (lookup_graph _ _ _ Hn)) as Hr.
  rewrite Hl in Hr. cbn in Hr. lia.
Qed.

(** ** Lookup *)

Definition find_child (g : gmap Z core) (a : Z) (nm : cstring) : option Z :=
  match g !! a with Some c => hash_find (kids c) nm | None => None end.

(** Where a path leads from [a], or why it leads nowhere. *)
Fixpoint follow (g : gmap Z core) (a : Z) (path : list cstring) : Z + Z :=
  match path with
  | [] => inr a
  | nm :: rest =>
      if pathname_strlen nm >? LTFS_FILENAME_MAX then inl (- LTFS_NAMETOOLONG)
      else match find_child g a nm with
           | None => inl (- LTFS_NO_DENTRY)
           | Some c => follow g c rest
           end
  end.

Lemma find_child_rehandle hs hs' g a nm : find_child (rehandle hs hs' g) a nm = find_child g a nm.
Proof. unfold find_child, rehandle. rewrite lookup_remap. by destruct (g !! a). Qed.

Lemma follow_rehandle hs hs' g a path : follow (rehandle hs hs' g) a path = follow g a path.
Proof.
  revert a. induction path as [|nm rest IH]; intros a; cbn; [done|].
  rewrite find_child_rehandle. destruct (_ >? _); [done|]. destruct (find_child g a nm); auto.
Qed.

Lemma find_child_up hs r lo g a nm c :
  graph_ok hs r lo g -> find_child g a nm = Some c ->
  exists cn, g !! c = Some cn /\ up cn = Some a /\ key cn = Some nm.
Proof.
  unfold find_child. intros Hok H. destruct (g !! a) as [n|] eqn:E; [|done].
  apply hash_find_in in H. by eapply ok_child.
Qed.

(** What [fs_directory_lookup] gives. *)
Definition child_result (g : gmap Z core) (a : Z) (nm : cstring) : Z + option Z :=
  if pathname_strlen nm >? LTFS_FILENAME_MAX then inl (- LTFS_NAMETOOLONG) else inr (find_child g a nm).

(** The handle it takes. *)
Definition hold_result (r : Z + option Z) (hs : Z -> Z) : Z -> Z :=
  match r with inr (Some d) => bump d 1 hs | _ => hs end.

Lemma directory_lookup_ok hs s b bn nm :
  tree_ok hs s -> bounded hs -> heap s !! b = Some bn ->
  wp (fs_directory_lookup b nm) s (fun r s' =>
    r = child_result (graph s) b nm /\ counted hs (hold_result r hs) s s').
Proof.
  intros Hok Hfew Hb. unfold fs_directory_lookup, child_result, find_child.
  rewrite (lookup_graph _ _ _ Hb). cbn [kids core_of].
  destruct (_ >? _); [apply wp_ret; split; [done|by apply counted_refl]|].
  apply wp_bind, (wp_deref _ _ _ _ Hb).
  destruct (Z.eqb_spec (hash_count (child_list bn)) 0) as [E|_].
  { unfold hash_count in E. destruct (child_list bn); [|cbn in E; lia].
    apply wp_ret. split; [done|]. by apply counted_refl. }
  unfold fs_find_key_from_hash_table, generate_hash_key_name.
  destruct (hash_find (child_list bn) nm) as [d|] eqn:E.
  - apply hash_find_in in E.
    destruct (ok_child _ _ _ _ (t_graph _ _ Hok) _ _ _ _ (lookup_graph _ _ _ Hb) E) as (cn & Hc & _).
    apply graph_lookup in Hc as (dn & Hd & _).
    eapply wp_seq; [by apply (hold_ok hs s d dn)|]. intros [] s1 H1. by apply wp_ret.
  - apply wp_ret. split; [done|]. by apply counted_refl.
Qed.

(** The handles a path lookup leaves: one on the dentry found and, if the flags ask
    for it, one on its parent. *)
Definition lookup_handles (keep : bool) (g : gmap Z core) (r : Z + Z) (hs : Z -> Z) : Z -> Z :=
  match r with
  | inl _ => hs
  | inr d => match g !! d with
             | Some c => match up c with
                         | Some p => if keep then bump p 1 (bump d 1 hs) else bump d 1 hs
                         | None => bump d 1 hs
                         end
             | None => hs
             end
  end.

(** A counted state has the same dentries. *)
Lemma counted_lookup hs hs' s s' d n :
  counted hs hs' s s' -> heap s !! d = Some n ->
  exists n', heap s' !! d = Some n'
    /\ core_of n' = set_refs (numhandles n + (hs' d - hs d)) (core_of n).
Proof.
  intros (_ & Hb & _) Hn. pose proof (b_graph _ _ _ Hb) as Hg.
  apply (f_equal (fun m => m !! d)) in Hg. unfold rehandle in Hg.
  rewrite lookup_remap, (lookup_graph _ _ _ Hn) in Hg.
  apply graph_lookup in Hg as (n' & H' & E). exists n'. by rewrite <- E.
Qed.

Lemma counted_payload hs hs' s s' d n n' :
  tree_ok hs s -> counted hs hs' s s' -> heap s !! d = Some n -> heap s' !! d = Some n' ->
  payload n' = payload n.
Proof.
  intros Hok (_ & Hb & _) Hn Hn'.
  destruct (b_payload _ _ _ Hb d n' Hn') as (m & Hm & ->); [|congruence].
  apply (t_fresh _ _ Hok). by exists n.
Qed.

Lemma counted_linked hs hs' s s' d n n' :
  counted hs hs' s s' -> heap s !! d = Some n -> heap s' !! d = Some n' ->
  linked (root s') d (core_of n') = linked (root s) d (core_of n).
Proof.
  intros Hc Hn Hn'. destruct (counted_lookup _ _ _ _ _ _ Hc Hn) as (n2 & H2 & E).
  assert (n2 = n') as -> by congruence. rewrite E. unfold linked.
  destruct Hc as (_ & Hb & _). by rewrite (b_root _ _ _ Hb).
Qed.

Lemma counted_follow hs hs' s s' a path :
  counted hs hs' s s' -> follow (graph s') a path = follow (graph s) a path.
Proof. intros (_ & Hb & _). by rewrite (b_graph _ _ _ Hb), follow_rehandle. Qed.

(** Giving back a handle on a dentry of the tree. *)
Lemma release_linked_ok hs s d n :
  tree_ok hs s -> bounded hs -> heap s !! d = Some n -> 0 < hs d ->
  linked (root s) d (core_of n) = true ->
  wp (fs_release_dentry d) s (fun _ => counted hs (bump d (-1) hs) s).
Proof.
  intros Hok Hb Hn Hh Hl. pose proof (linked_refs _ _ _ _ Hok Hn Hh Hl).
  apply (release_counted _ _ _ n); auto. lia.
Qed.

Lemma drop_linked_ok hs s d n :
  tree_ok hs s -> bounded hs -> heap s !! d = Some n -> 0 < hs d ->
  linked (root s) d (core_of n) = true ->
  wp (drop_handle d) s (fun _ => counted hs (bump d (-1) hs) s).
Proof. intros Hok Hb Hn Hh Hl. apply (drop_handle_ok _ _ _ n); auto. by eapply linked_refs. Qed.

(** The dentry a lookup in a directory of the tree gives is in the tree. *)
Lemma child_linked hs s a nm c :
  tree_ok hs s -> find_child (graph s) a nm = Some c ->
  exists n, heap s !! c = Some n /\ parent n = Some a /\ linked (root s) c (core_of n) = true
    /\ graph s !! c = Some (core_of n).
Proof.
  intros Hok H. destruct (find_child_up _ _ _ _ _ _ _ (t_graph _ _ Hok) H) as (cn & Hc & Hu & _).
  apply graph_lookup in Hc as Hn. destruct Hn as (n & Hn & ->). cbn in Hu.
  exists n. split_and!; auto. unfold linked. cbn. rewrite Hu. by rewrite bool_decide_true, orb_true_r.
Qed.

Lemma bump_bump d x y hs a : bump d x (bump d y hs) a = hs a + (if a =? d then x + y else 0).
Proof. unfold bump. destruct (a =? d); lia. Qed.

(** Sums of handles are compared pointwise. *)
Ltac handles := intros; cbn [lookup_handles hold_result]; unfold bump; repeat case_match; lia.

Lemma lookup_handles_counted keep hs hs' s s' r h0 :
  counted hs hs' s s' -> lookup_handles keep (graph s') r h0 = lookup_handles keep (graph s) r h0.
Proof.
  intros (_ & Hb & _). rewrite (b_graph _ _ _ Hb). unfold lookup_handles, rehandle. destruct r as [|d]; [done|].
  rewrite lookup_remap. by destruct (graph s !! d).
Qed.

(** *** Steps that only count handles, seen from an earlier state *)

Section counted.
Context (hs hs1 : Z -> Z) (s s1 : fs_state) (d : Z) (n : fsnode).
Context (Hc : counted hs hs1 s s1) (Hb : bounded hs1) (Hn : heap s !! d = Some n).

Lemma counted_hold : wp (hold d) s1 (fun _ => counted hs (bump d 1 hs1) s).
Proof.
  destruct (counted_lookup _ _ _ _ _ _ Hc Hn) as (n' & Hn' & _).
  eapply wp_mono; [apply (hold_ok hs1 s1 d n'); [apply Hc|done|done]|].
  intros ? s2 H. by eapply counted_trans.
Qed.

Lemma counted_directory_lookup nm :
  wp (fs_directory_lookup d nm) s1 (fun r s2 =>
    r = child_result (graph s) d nm /\ counted hs (hold_result r hs1) s s2).
Proof.
  destruct (counted_lookup _ _ _ _ _ _ Hc Hn) as (n' & Hn' & _).
  eapply wp_mono; [apply (directory_lookup_ok hs1 s1 d n'); [apply Hc|done|done]|].
  intros r s2 [-> H]. split; [|by eapply counted_trans].
  unfold child_result. destruct Hc as (_ & Hbec & _).
  by rewrite (b_graph _ _ _ Hbec), find_child_rehandle.
Qed.

Context (Hh : 0 < hs1 d) (Hl : linked (root s) d (core_of n) = true).

Lemma counted_release : wp (fs_release_dentry d) s1 (fun _ => counted hs (bump d (-1) hs1) s).
Proof.
  destruct (counted_lookup _ _ _ _ _ _ Hc Hn) as (n' & Hn' & _).
  eapply wp_mono; [apply (release_linked_ok hs1 s1 d n'); [apply Hc|done|done|done|]|].
  - by rewrite (counted_linked _ _ _ _ _ _ _ Hc Hn Hn').
  - intros ? s2 H. by eapply counted_trans.
Qed.

Lemma counted_drop : wp (drop_handle d) s1 (fun _ => counted hs (bump d (-1) hs1) s).
Proof.
  destruct (counted_lookup _ _ _ _ _ _ Hc Hn) as (n' & Hn' & _).
  eapply wp_mono; [apply (drop_linked_ok hs1 s1 d n'); [apply Hc|done|done|done|]|].
  - by rewrite (counted_linked _ _ _ _ _ _ _ Hc Hn Hn').
  - intros ? s2 H. by eapply counted_trans.
Qed.
End counted.

(** The loop starts with a handle on [par], beyond [h1], and ends without it. *)
Lemma path_loop_ok flags hs s : forall rest h1 s1 par pn start,
  tree_ok hs s -> counted hs (bump par 1 h1) s s1 -> (forall a, 0 <= h1 a < 2 ^ 31 + 4) ->
  heap s !! par = Some pn -> linked (root s) par (core_of pn) = true ->
  wp (path_loop flags par start rest) s1 (fun r s' =>
    r = follow (graph s) par (start :: rest)
    /\ counted hs (lookup_handles (keeps_parent flags) (graph s) r h1) s s').
Proof.
  induction rest as [|start' rest IH]; intros h1 s1 par pn start Hok Hc Hfew Hpar Hl.
  all: assert (Hb : forall d, bounded (bump d 1 (bump par 1 h1)))
    by (intros d a; specialize (Hfew a); unfold bump; repeat case_match; lia).
  all: assert (Hb1 : bounded (bump par 1 h1))
    by (intros a; specialize (Hfew a); unfold bump; repeat case_match; lia).
  all: pose proof (Hfew par) as Hfewp; cbn [path_loop];
    eapply wp_seq; [by apply (counted_directory_lookup _ _ _ _ _ _ Hc Hb1 Hpar)|];
    intros r s2 [-> Hc2]; cbn [follow]; unfold child_result in *; destruct (_ >? _); cbn [hold_result] in *.
  all: try (eapply wp_seq; [apply (counted_release _ _ _ _ _ _ Hc2 Hb1 Hpar); [rewrite bump_eq; lia|done]|];
    intros [] s3 Hc3; apply wp_ret; split; [done|]; eapply counted_ext; [|exact Hc3]; handles).
  all: destruct (find_child (graph s) par start) as [c|] eqn:Ec; cbn [hold_result] in *.
  all: try (eapply wp_seq; [apply (counted_release _ _ _ _ _ _ Hc2 Hb1 Hpar); [rewrite bump_eq; lia|done]|];
    intros [] s3 Hc3; apply wp_ret; split; [done|]; eapply counted_ext; [|exact Hc3]; handles).
  all: destruct (child_linked _ _ _ _ _ Hok Ec) as (cn & Hcn & Hup & Hcl & Hcg).
  - destruct (keeps_parent flags).
    + apply wp_bind, wp_ret, wp_ret. split; [done|].
      cbn [lookup_handles]. rewrite Hcg. cbn [up core_of]. rewrite Hup.
      eapply counted_ext; [|exact Hc2]. handles.
    + eapply wp_seq; [apply (counted_drop _ _ _ _ _ _ Hc2 (Hb c) Hpar); [|done]; unfold bump; rewrite Z.eqb_refl; case_match; lia|].
      intros [] s3 Hc3. apply wp_ret. split; [done|].
      cbn [lookup_handles]. rewrite Hcg. cbn [up core_of]. rewrite Hup.
      eapply counted_ext; [|exact Hc3]. handles.
  - eapply wp_seq; [apply (counted_drop _ _ _ _ _ _ Hc2 (Hb c) Hpar); [|done]; unfold bump; rewrite Z.eqb_refl; case_match; lia|].
    intros [] s3 Hc3. eapply IH; eauto.
    eapply counted_ext; [|exact Hc3]. handles.
Qed.

(** The components of a path. *)
Definition path_components (path : cstring) : list cstring :=
  if bool_decide (path = [] \/ path = [SLASH]) then []
  else let '(w, ws) := split_slash (tail path) in w :: ws.

Lemma root_present hs s :
  tree_ok hs s -> exists n, heap s !! root s = Some n /\ isdir n = true /\ parent n = None
    /\ linked (root s) (root s) (core_of n) = true.
Proof.
  intros Hok. destruct (ok_root _ _ _ _ (t_graph _ _ Hok)) as (c & Hc & Hu & Hd).
  apply graph_lookup in Hc as (n & Hn & ->). exists n. unfold linked. rewrite Z.eqb_refl. auto.
Qed.

(** Looking a path up, in the middle of an operation. *)
Lemma counted_path_lookup hs hs1 s s1 path flags :
  tree_ok hs s -> counted hs hs1 s s1 -> (forall a, 0 <= hs1 a < 2 ^ 31 + 4) ->
  wp (fs_path_lookup path flags) s1 (fun r s' =>
    r = follow (graph s) (root s) (path_components path)
    /\ counted hs (lookup_handles (keeps_parent flags) (graph s) r hs1) s s').
Proof.
  intros Hok Hc Hfew. destruct (root_present _ _ Hok) as (rn & Hrn & _ & Hrp & Hrl).
  assert (Hb : bounded hs1) by (intros a; specialize (Hfew a); lia).
  unfold fs_path_lookup, path_components. apply wp_bind, wp_get.
  assert (Hroot : root s1 = root s) by (destruct Hc as (_ & Hbec & _); apply (b_root _ _ _ Hbec)).
  rewrite Hroot. eapply wp_seq; [apply (counted_hold _ _ _ _ _ _ Hc Hb Hrn)|]. intros [] s2 Hc2.
  case_bool_decide as Hp.
  - apply wp_ret. split; [done|]. cbn [lookup_handles]. rewrite (lookup_graph _ _ _ Hrn).
    cbn [up core_of]. by rewrite Hrp.
  - destruct (split_slash (tail path)) as [w ws]. by apply (path_loop_ok _ _ _ ws hs1 s2 (root s) rn).
Qed.

(** Where a path leads stays in the tree. *)
Lemma follow_linked hs s path : forall a d n,
  tree_ok hs s -> heap s !! a = Some n -> linked (root s) a (core_of n) = true ->
  follow (graph s) a path = inr d ->
  exists m, heap s !! d = Some m /\ linked (root s) d (core_of m) = true.
Proof.
  induction path as [|nm rest IH]; intros a d n Hok Hn Hl; cbn [follow].
  - intros [= <-]. by exists n.
  - destruct (_ >? _); [done|]. destruct (find_child (graph s) a nm) as [c|] eqn:Ec; [|done].
    destruct (child_linked _ _ _ _ _ Hok Ec) as (cn & Hcn & _ & Hcl & _). by apply (IH c d cn).
Qed.

Lemma follow_root_linked hs s path d :
  tree_ok hs s -> follow (graph s) (root s) path = inr d ->
  exists n, heap s !! d = Some n /\ linked (root s) d (core_of n) = true.
Proof.
  intros Hok H. destruct (root_present _ _ Hok) as (rn & Hrn & _ & _ & Hrl).
  by apply (follow_linked hs s path (root s) d rn).
Qed.

(** ** Ancestors *)

(** The dentries from [d] up to the one without a parent. *)
Inductive chain (s : fs_state) : Z -> list (Z * fsnode) -> Prop :=
| chain_top d n : heap s !! d = Some n -> parent n = None -> chain s d [(d, n)]
| chain_up d n p l : heap s !! d = Some n -> parent n = Some p -> chain s p l ->
    chain s d ((d, n) :: l).

Section chains.
Context (hs : Z -> Z) (s : fs_state) (rank : Z -> nat).
Context (Hrank : forall d n p, graph s !! d = Some n -> up n = Some p -> (rank p < rank d)%nat).
Context (Hok : tree_ok hs s).

Lemma chain_rank k : forall d n, (rank d < k)%nat -> heap s !! d = Some n -> exists l, chain s d l.
Proof.
  induction k as [|k IH]; intros d n Hk Hn; [lia|]. destruct (parent n) as [p|] eqn:Hp.
  - pose proof (Hrank _ _ _ (lookup_graph _ _ _ Hn) Hp) as Hlt.
    destruct (ok_parent _ _ _ _ (t_graph _ _ Hok) _ _ _ (lookup_graph _ _ _ Hn) Hp) as (pc & _ & Hpc & _).
    apply graph_lookup in Hpc as (pn & Hpn & _).
    destruct (IH p pn ltac:(lia) Hpn) as [l Hl]. exists ((d, n) :: l). by eapply chain_up.
  - exists [(d, n)]. by constructor.
Qed.

Lemma chain_members d l : chain s d l ->
  Forall (fun e => heap s !! e.1 = Some e.2 /\ (rank e.1 <= rank d)%nat) l /\ NoDup l.*1.
Proof.
  induction 1 as [d n Hn Hp|d n p l Hn Hp Hl [IH1 IH2]]; cbn.
  - split; [by repeat constructor|]. apply NoDup_singleton.
  - pose proof (Hrank _ _ _ (lookup_graph _ _ _ Hn) Hp) as Hlt. split.
    + constructor; [auto|]. revert IH1. apply Forall_impl. cbn. intros e [? ?]. split; [done|lia].
    + apply list.NoDup_cons. split; [|done]. intros Hin.
      apply list_elem_of_fmap in Hin as ([a m] & -> & Hin).
      apply list_elem_of_In in Hin. rewrite Forall_forall in IH1. destruct (IH1 _ Hin) as [_ Hle]. cbn in *. lia.
Qed.

Lemma chain_length d l : chain s d l -> (length l <= base.size (heap s))%nat.
Proof.
  intros H. destruct (chain_members _ _ H) as [H1 H2].
  rewrite <- (length_fmap fst l), <- size_dom.
  rewrite <- (size_list_to_set (C := gset Z) l.*1) by done. apply subseteq_size.
  intros a Ha. apply elem_of_list_to_set, list_elem_of_fmap in Ha as (e & -> & He).
  apply list_elem_of_In in He. rewrite Forall_forall in H1. destruct (H1 _ He) as [? _]. by eapply elem_of_dom_2.
Qed.
End chains.

Lemma chain_ancestors s d l fuel : chain s d l -> (length l <= fuel)%nat -> ancestors fuel d s = Some (l, s).
Proof.
  intros H. revert fuel. induction H as [d n Hn Hp|d n p l Hn Hp _ IH]; intros [|fuel] Hf; cbn in Hf; try lia.
  all: cbn [ancestors]; unfold bind_op, deref; rewrite Hn, Hp.
  - done.
  - by rewrite IH by lia.
Qed.

Lemma all_ancestors_ok hs s d n :
  tree_ok hs s -> heap s !! d = Some n -> exists l, chain s d l /\ all_ancestors d s = Some (l, s).
Proof.
  intros Hok Hn. destruct (ok_rank _ _ _ _ (t_graph _ _ Hok)) as [rank Hrank].
  destruct (chain_rank hs s rank Hrank Hok (S (rank d)) d n ltac:(lia) Hn) as [l Hl]. exists l.
  split; [done|]. unfold all_ancestors, bind_op, get_state. apply chain_ancestors; [done|].
  pose proof (chain_length s rank Hrank _ _ Hl). lia.
Qed.

Lemma chain_below s d l a :
  chain s d l -> existsb (fun e => fst e =? a) l = true <-> below (graph s) a d.
Proof.
  induction 1 as [d n Hn Hp|d n p l Hn Hp Hl IH]; cbn.
  - rewrite orb_false_r, Z.eqb_eq. split; [intros ->; constructor|].
    inversion 1 as [|? m q Hm Hq]; subst; [done|]. rewrite (lookup_graph _ _ _ Hn) in Hm.
    injection Hm as <-. cbn in Hq. congruence.
  - rewrite orb_true_iff, Z.eqb_eq, IH. split.
    + intros [->|H]; [constructor|]. eapply below_up; [by apply lookup_graph|done|done].
    + inversion 1 as [|? m q Hm Hq Hbel]; subst; [by left|right].
      rewrite (lookup_graph _ _ _ Hn) in Hm. injection Hm as <-. cbn in Hq. congruence.
Qed.

Lemma is_predecessor_ok hs s d1 d2 n :
  tree_ok hs s -> heap s !! d2 = Some n ->
  wp (fs_is_predecessor d1 d2) s (fun b s' => s' = s /\ (b = true <-> below (graph s) d1 d2)).
Proof.
  intros Hok Hn. destruct (all_ancestors_ok _ _ _ _ Hok Hn) as (l & Hl & Ha).
  unfold fs_is_predecessor. apply wp_bind. unfold wp. rewrite Ha. cbn. split; [done|].
  by apply chain_below.
Qed.

Lemma below_rehandle hs hs' g a d : below (rehandle hs hs' g) a d <-> below g a d.
Proof.
  split; induction 1 as [|d n p Hd Hu _ IH]; try constructor.
  - unfold rehandle in Hd. rewrite lookup_remap in Hd. destruct (g !! d) as [m|] eqn:E; [|done].
    injection Hd as <-. by eapply below_up.
  - apply (below_up _ _ _ (set_refs (refs n + (hs' d - hs d)) n) p); [|done|done].
    unfold rehandle. by rewrite lookup_remap, Hd.
Qed.

Lemma counted_is_predecessor hs hs1 s s1 d1 d2 n :
  counted hs hs1 s s1 -> heap s !! d2 = Some n ->
  wp (fs_is_predecessor d1 d2) s1 (fun b s2 =>
    (b = true <-> below (graph s) d1 d2) /\ counted hs hs1 s s2).
Proof.
  intros Hc Hn. destruct (counted_lookup _ _ _ _ _ _ Hc Hn) as (n' & Hn' & _).
  eapply wp_mono; [apply (is_predecessor_ok hs1 s1 d1 d2 n'); [apply Hc|done]|].
  intros b s2 [-> H]. split; [|done]. destruct Hc as (_ & Hb & _).
  by rewrite H, (b_graph _ _ _ Hb), below_rehandle.
Qed.

(** ** Paths and changes of the tree *)

Lemma follow_snoc g a p nm b :
  follow g a (p ++ [nm]) = inr b <->
  exists x, follow g a p = inr x /\ pathname_strlen nm <= LTFS_FILENAME_MAX /\ find_child g x nm = Some b.
Proof.
  revert a. induction p as [|k p IH]; intros a; cbn.
  - destruct (_ >? _) eqn:E; bool_to_prop.
    + split; [done|]. intros (x & [= <-] & H & _). lia.
    + destruct (find_child g a nm) as [c|] eqn:Ec; split; intros H.
      * injection H as ->. exists a. split_and!; [done|lia|done].
      * destruct H as (x & [= <-] & _ & H). congruence.
      * done.
      * destruct H as (x & [= <-] & _ & H). congruence.
  - destruct (_ >? _); [split; [done|by intros (? & ? & _)]|].
    destruct (find_child g a k); [apply IH|split; [done|by intros (? & ? & _)]].
Qed.

(** Only one path leads to a dentry. *)
Lemma follow_unique hs s p q a :
  tree_ok hs s -> follow (graph s) (root s) p = inr a -> follow (graph s) (root s) q = inr a -> p = q.
Proof.
  intros Hok. assert (Hroot : forall p k, follow (graph s) (root s) (p ++ [k]) <> inr (root s)).
  { intros p' k (x & _ & _ & Hc)%follow_snoc.
    destruct (find_child_up _ _ _ _ _ _ _ (t_graph _ _ Hok) Hc) as (c & Hg & Hu & _).
    by apply (root_not_up _ _ _ _ _ _ _ (t_graph _ _ Hok) Hg Hu). }
  revert a q. induction p as [|k p IH] using rev_ind; intros a q Hp Hq.
  - injection Hp as <-. destruct q as [|k q _] using rev_ind; [done|]. by apply Hroot in Hq.
  - destruct q as [|k' q _] using rev_ind; [injection Hq as <-; by apply Hroot in Hp|].
    apply follow_snoc in Hp as (x & Hx & _ & Hc), Hq as (x' & Hx' & _ & Hc').
    destruct (find_child_up _ _ _ _ _ _ _ (t_graph _ _ Hok) Hc) as (c & Hg & Hu & Hk).
    destruct (find_child_up _ _ _ _ _ _ _ (t_graph _ _ Hok) Hc') as (c' & Hg' & Hu' & Hk').
    assert (x' = x) as -> by congruence. assert (k' = k) as -> by congruence. f_equal. by eapply IH.
Qed.

(** A path that never comes by a changed entry leads where it led. *)
Lemma follow_outside g g' (C : Z -> cstring -> Prop) `{!forall x nm, Decision (C x nm)} a q :
  (forall x nm, ~ C x nm -> find_child g' x nm = find_child g x nm) ->
  follow g' a q = follow g a q
  \/ exists q1 nm rest x, q = q1 ++ nm :: rest /\ follow g a q1 = inr x /\ C x nm.
Proof.
  intros Hs. revert a. induction q as [|nm q IH]; intros a; [by left|]. cbn.
  destruct (_ >? _) eqn:El; [by left|]. destruct (decide (C a nm)) as [Hc|Hn].
  - right. by exists [], nm, q, a.
  - rewrite (Hs a nm Hn). destruct (find_child g a nm) as [c|] eqn:Ec; [|by left].
    destruct (IH c) as [->|(q1 & k & rest & x & -> & Hq & Hx)]; [by left|]. right.
    exists (nm :: q1), k, rest, x. split; [done|]. cbn. by rewrite El, Ec.
Qed.

Lemma follow_other hs s g' p par k q :
  tree_ok hs s -> follow (graph s) (root s) p = inr par ->
  (forall x nm, ~ (x = par /\ nm = k) -> find_child g' x nm = find_child (graph s) x nm) ->
  ~ (p ++ [k]) `prefix_of` q -> follow g' (root s) q = follow (graph s) (root s) q.
Proof.
  intros Hok Hp H Hq.
  destruct (follow_outside (graph s) g' (fun x nm => x = par /\ nm = k) (root s) q H)
    as [|(q1 & nm & rest & x & -> & Hq1 & -> & ->)]; [done|].
  destruct Hq. rewrite (follow_unique _ _ _ _ _ Hok Hp Hq1). exists rest. by rewrite <- app_assoc.
Qed.

Lemma follow_split g a p q b :
  follow g a (p ++ q) = inr b -> exists x, follow g a p = inr x /\ follow g x q = inr b.
Proof.
  revert a. induction p as [|k p IH]; intros a; cbn; [by exists a|].
  destruct (_ >? _); [done|]. destruct (find_child g a k); [apply IH|done].
Qed.

Lemma follow_cons g a k q b :
  follow g a (k :: q) = inr b <->
  exists c, pathname_strlen k <= LTFS_FILENAME_MAX /\ find_child g a k = Some c /\ follow g c q = inr b.
Proof.
  cbn. destruct (_ >? _) eqn:E; bool_to_prop.
  - split; [done|]. intros (? & ? & _). lia.
  - destruct (find_child g a k) as [c|]; split.
    + intros H. exists c. split_and!; [lia|done|done].
    + by intros (? & _ & [= ->] & H).
    + done.
    + by intros (? & _ & ? & _).
Qed.

(** The way down to [b] goes by dentries above it. *)
Lemma follow_below hs s a p b :
  tree_ok hs s -> follow (graph s) a p = inr b -> below (graph s) a b.
Proof.
  intros Hok. revert b. induction p as [|k p IH] using rev_ind; intros b H.
  - injection H as <-. constructor.
  - apply follow_snoc in H as (x & Hx & _ & Hc).
    destruct (find_child_up _ _ _ _ _ _ _ (t_graph _ _ Hok) Hc) as (c & Hg & Hu & _).
    eapply below_up; eauto.
Qed.

Lemma below_trans g a b c : below g a b -> below g b c -> below g a c.
Proof. intros H1 H2. induction H2; [done|]. by eapply below_up; eauto. Qed.

(** A dentry is not below its own child. *)
Lemma not_below_child hs s a k c :
  tree_ok hs s -> find_child (graph s) a k = Some c -> ~ below (graph s) c a.
Proof.
  intros Hok Hc H. destruct (find_child_up _ _ _ _ _ _ _ (t_graph _ _ Hok) Hc) as (cn & Hg & Hu & _).
  destruct (ok_rank _ _ _ _ (t_graph _ _ Hok)) as [rank Hr]. pose proof (Hr _ _ _ Hg Hu) as Hlt.
  assert (Hle : forall x y, below (graph s) x y -> (rank x <= rank y)%nat).
  { intros x y. induction 1 as [|y n p Hy Hp _ IH]; [done|]. specialize (Hr _ _ _ Hy Hp). lia. }
  specialize (Hle _ _ H). lia.
Qed.

(** ** The path of a dentry *)

Lemma follow_app g a p1 p2 b : follow g a p1 = inr b -> follow g a (p1 ++ p2) = follow g b p2.
Proof.
  revert a. induction p1 as [|nm rest IH]; intros a; cbn; [by intros [= ->]|].
  destruct (_ >? _); [done|]. destruct (find_child g a nm); [apply IH|done].
Qed.

Lemma linked_parent hs s d n p :
  tree_ok hs s -> heap s !! d = Some n -> parent n = Some p ->
  exists pn k, heap s !! p = Some pn /\ linked (root s) p (core_of pn) = true
    /\ platform_safe_name n = Some k /\ name_ok k /\ find_child (graph s) p k = Some d.
Proof.
  intros Hok Hn Hp. pose proof (t_graph _ _ Hok) as Hg.
  destruct (ok_parent _ _ _ _ Hg _ _ _ (lookup_graph _ _ _ Hn) Hp) as (pc & k & Hpc & Hk & Hin & _).
  apply graph_lookup in Hpc as Hpn. destruct Hpn as (pn & Hpn & ->). exists pn, k. split_and!; auto.
  - destruct (ok_dirs _ _ _ _ Hg _ _ Hpc) as [_ [?|?]]; [|done|done].
    intros E. rewrite E in Hin. by apply elem_of_nil in Hin.
  - apply (node_key _ (t_node _ _ Hok _ _ Hn)); [congruence|done].
  - unfold find_child. rewrite Hpc. apply in_hash_find; [|done]. by eapply ok_keys.
Qed.

Lemma collect_names_ok hs s d l :
  tree_ok hs s -> chain s d l -> forall n acc, heap s !! d = Some n ->
  linked (root s) d (core_of n) = true ->
  exists ks, collect_names l acc = inr ([SLASH] :: ks ++ acc) /\ Forall name_ok ks
    /\ follow (graph s) (root s) ks = inr d.
Proof.
  intros Hok H. induction H as [d m Hm Hp|d m p l Hm Hp Hl IH]; intros n acc Hn Hlk.
  all: assert (m = n) as -> by congruence; cbn [collect_names].
  - assert (d = root s) as -> by (apply not_false_iff_true in Hlk; rewrite linked_false in Hlk;
      destruct (decide (d = root s)); [done|]; exfalso; by apply Hlk).
    rewrite (t_root _ _ Hok n Hn). by exists [].
  - destruct (linked_parent _ _ _ _ _ Hok Hn Hp) as (pn & k & Hpn & Hpl & -> & Hk & Hc).
    destruct (IH pn (k :: acc) Hpn Hpl) as (ks & -> & Hks & Hf). exists (ks ++ [k]).
    rewrite <- app_assoc. split_and!; [done|by apply Forall_app_2; [|apply Forall_singleton]|].
    rewrite (follow_app _ _ _ _ _ Hf). cbn. rewrite Hc.
    destruct Hk as (_ & _ & Hlen). by replace (_ >? _) with false by (rewrite Z.gtb_ltb; symmetry; by apply Z.ltb_ge).
Qed.

Lemma split_slash_word k : Forall (fun b => b <> SLASH) k -> split_slash k = (k, []).
Proof. induction 1 as [|b k Hb _ IH]; cbn; [done|]. by rewrite IH, (proj2 (Z.eqb_neq _ _) Hb). Qed.

Lemma split_slash_cons k s :
  Forall (fun b => b <> SLASH) k ->
  split_slash (k ++ SLASH :: s) = (k, let '(w, ws) := split_slash s in w :: ws).
Proof.
  induction 1 as [|b k Hb _ IH]; cbn.
  - by destruct (split_slash s).
  - by rewrite IH, (proj2 (Z.eqb_neq _ _) Hb).
Qed.

Lemma split_join k ks :
  Forall name_ok (k :: ks) -> split_slash (join_slash (k :: ks)) = (k, ks).
Proof.
  revert k. induction ks as [|k' ks IH]; intros k [(_ & Hk & _) Hks]%Forall_cons_1.
  - by apply split_slash_word.
  - change (join_slash (k :: k' :: ks)) with (k ++ SLASH :: join_slash (k' :: ks)).
    by rewrite split_slash_cons, IH.
Qed.

Lemma components_of_names ks :
  Forall name_ok ks -> path_components (concat_names ([SLASH] :: ks)) = ks.
Proof.
  intros Hks. unfold path_components. destruct ks as [|k ks]; [done|].
  cbn [concat_names]. rewrite bool_decide_false.
  - cbn [app tail]. by rewrite split_join.
  - apply Forall_cons_1 in Hks as [(Hne & _) _]. cbn [app]. intros [?|[= E]]; [done|].
    destruct k; [done|]. by destruct ks.
Qed.

(** C29: the path of a dentry leads back to it.  For every dentry of the tree,
    [fs_dentry_lookup] gives a path, and looking that path up ends at the same
    dentry, holding it once more. *)
Theorem dentry_path_roundtrip hs s d n :
  tree_ok hs s -> few hs -> heap s !! d = Some n -> linked (root s) d (core_of n) = true ->
  exists path, fs_dentry_lookup d s = Some (inr path, s)
    /\ wp (fs_path_lookup path 0) s (fun r s' => r = inr d /\ counted hs (bump d 1 hs) s s').
Proof.
  intros Hok Hfew Hn Hl. destruct (all_ancestors_ok _ _ _ _ Hok Hn) as (l & Hch & Ha).
  destruct (collect_names_ok _ _ _ _ Hok Hch n [] Hn Hl) as (ks & Hks & Hnames & Hf).
  exists (concat_names ([SLASH] :: ks)). rewrite app_nil_r in Hks. split.
  - unfold fs_dentry_lookup, bind_op. rewrite Ha, Hks. done.
  - pose proof (ok_handles _ _ _ _ (t_graph _ _ Hok)) as Hpos.
    eapply wp_mono; [apply (counted_path_lookup hs hs s s); [done|by apply counted_refl|]|].
    + intros a. specialize (Hfew a). specialize (Hpos a). lia.
    + intros r s' [-> Hc]. rewrite components_of_names, Hf in * by done. split; [done|].
      cbn [lookup_handles keeps_parent] in Hc. rewrite (lookup_graph _ _ _ Hn) in Hc.
      by destruct (up (core_of n)).
Qed.
