(* ===== verification/FsOpsSpec.v ===== *)
(** * What the file system operations promise

    Creating, removing and renaming entries of the tree: what each does to the
    graph of dentries, on success and on every error, and that the invariant of
    the tree survives any sequence of them. *)

From S2P Require Import Prelude Errors Extents FsRaw Pathname IndexCriteria IndexCriteriaSpec.
From S2P Require Import FsTree FsOps FsGraph FsTreeSpec.
Open Scope Z_scope.
Open Scope ltfs_scope.

(** ** Stepping through an operation *)

(** The lookup of a dentry after a few updates. *)
Ltac find_dentry :=
  cbn [heap set_heap set_counters set_counts set_criteria fs_increment_file_count fs_decrement_file_count];
  repeat first
    [ eassumption
    | rewrite lookup_insert_eq; reflexivity
    | rewrite lookup_insert_ne by (congruence || lia) ].

Ltac step_update := apply wp_bind; eapply wp_update; [find_dentry|].
Ltac step_deref := apply wp_bind; eapply wp_deref; [find_dentry|].

Section ops.
Context (icu : icu_lib) (graphemes : list Z -> option (list (list Z))).

Lemma match_criteria_ok s d n nm :
  heap s !! d = Some n -> name n = Some nm ->
  wp (match_criteria icu graphemes d) s (fun _ s' => exists ic, s' = set_criteria ic s).
Proof.
  intros Hn Hnm. unfold match_criteria. apply wp_bind, (wp_deref _ _ _ _ Hn).
  rewrite Hnm. apply wp_bind, wp_name, wp_bind, wp_get.
  destruct (index_criteria_match_total graphemes icu nm (criteria_of s)) as (b & ic & ->).
  apply wp_bind, wp_update_state, wp_ret. by exists ic.
Qed.

(** Two states with the same dentries. *)
Lemma becomes_same_heap s s' g' s'' :
  heap s'' = heap s' -> root s'' = root s' -> fresh s'' = fresh s' -> becomes s g' s' -> becomes s g' s''.
Proof. intros H1 H2 H3 [A1 A2 A3 A4]. constructor; unfold graph in *; rewrite ?H1, ?H2, ?H3; auto. Qed.

Lemma tree_ok_same_heap hs s s' :
  heap s' = heap s -> root s' = root s -> fresh s' = fresh s -> tree_ok hs s -> tree_ok hs s'.
Proof. intros H1 H2 H3 [A1 A2 A3 A4]. constructor; unfold graph in *; rewrite ?H1, ?H2, ?H3; auto. Qed.

Lemma set_heap_same s : set_heap (heap s) s = s.
Proof. by destruct s. Qed.

Lemma maybe_match_ok (c : bool) s d n nm :
  heap s !! d = Some n -> name n = Some nm ->
  wp (if c then let* b := match_criteria icu graphemes d in update d (set_matches b) else ret_op tt) s
     (fun _ s' => exists b ic, s' = set_criteria ic (set_heap (<[d := set_matches b n]> (heap s)) s)).
Proof.
  intros Hn Hnm. destruct c.
  - eapply wp_seq; [by apply (match_criteria_ok s d n nm)|]. intros b s1 [ic ->].
    eapply wp_update; [exact Hn|]. by exists b, ic.
  - apply wp_ret. exists (matches_name_criteria n), (criteria_of s).
    replace (set_matches (matches_name_criteria n) n) with n by (by destruct n).
    rewrite insert_id by done. rewrite set_heap_same. by destruct s.
Qed.

(** *** Create *)

(** What setting up the entry leaves, dentry by dentry. *)
Record set_up (s : fs_state) (par d : Z) (n pn : fsnode) (k : cstring) (isdir : bool)
    (s' : fs_state) : Prop := {
  su_new : exists n', heap s' !! d = Some n' /\ node_ok n'
    /\ core_of n' = {| up := Some par; key := Some k; kids := []; dir := isdir; gone := false;
                       refs := 2; links := u32 (b2z isdir + 1) |};
  su_parent : exists pn', heap s' !! par = Some pn' /\ node_ok pn' /\ payload pn' = payload pn
    /\ core_of pn' = {| up := parent pn; key := platform_safe_name pn; kids := (k, d) :: child_list pn;
                        dir := FsTree.isdir pn; gone := deleted pn; refs := numhandles pn;
                        links := if isdir then u32 (link_count pn + 1) else link_count pn |};
  su_other a : a <> d -> a <> par -> heap s' !! a = heap s !! a;
  su_root : root s' = root s;
  su_fresh : fresh s' = fresh s;
  su_counters : inode_number s' = inode_number s /\ uid_number s' = uid_number s
    /\ valid_blocks s' = valid_blocks s
    /\ file_count s' = if isdir then file_count s else u64 (file_count s + 1)
}.

Lemma set_up_entry_ok now s par d isdir ro ino uid k pn :
  heap s !! d = Some (new_dentry None (Some k) (Some k) isdir ro ino uid) ->
  heap s !! par = Some pn -> par <> d -> node_ok pn -> name_ok k ->
  wp (set_up_entry icu graphemes now par d isdir) s (fun _ =>
    set_up s par d (new_dentry None (Some k) (Some k) isdir ro ino uid) pn k isdir).
Proof.
  intros Hd Hp Hne Hpn Hk. unfold set_up_entry.
  step_update. step_update. apply wp_bind, wp_get.
  eapply wp_seq; [eapply maybe_match_ok; [find_dentry|reflexivity]|]. intros [] s2 (b & ic & ->).
  step_update. apply wp_bind.
  destruct isdir.
  - eapply wp_update; [find_dentry|]. step_update. step_deref.
    apply wp_bind. unfold fs_add_key_to_hash_table. step_deref. apply wp_bind, wp_name, wp_ret.
    step_update. apply wp_ret. constructor; [| | |reflexivity|reflexivity|done].
    + eexists. split; [find_dentry|]. split; [|reflexivity]. constructor; [done|done|]. by intros ? _ [= <-].
    + eexists. split; [find_dentry|]. destruct Hpn. split; [by constructor|]. split; reflexivity.
    + intros a Ha1 Ha2. find_dentry. reflexivity.
  - apply wp_ret. step_update. step_deref.
    apply wp_bind. unfold fs_add_key_to_hash_table. step_deref. apply wp_bind, wp_name, wp_ret.
    step_update. apply wp_update_state. constructor; [| | |reflexivity|reflexivity|done].
    + eexists. split; [find_dentry|]. split; [|reflexivity]. constructor; [done|done|]. by intros ? _ [= <-].
    + eexists. split; [find_dentry|]. destruct Hpn. split; [by constructor|]. split; reflexivity.
    + intros a Ha1 Ha2. find_dentry. reflexivity.
Qed.

Lemma allocate_ok s k isdir ro :
  wp (fs_allocate_dentry None None (Some k) isdir ro true) s (fun r s' =>
    root s' = root s /\ file_count s' = file_count s /\ valid_blocks s' = valid_blocks s
    /\ match r with
       | None => heap s' = heap s /\ fresh s' = fresh s
                 /\ (uid_number s = 0 \/ u64 (uid_number s + 1) = 0)
       | Some d => d = fresh s /\ fresh s' = fresh s + 1
                   /\ exists ino uid, heap s' =
                        <[d := new_dentry None (Some k) (Some k) isdir ro ino uid]> (heap s)
       end).
Proof.
  unfold fs_allocate_dentry. cbn [names_of]. apply wp_bind, wp_get, wp_bind, wp_update_state, wp_bind.
  unfold wp, fs_allocate_uid. cbn [uid_number set_counters].
  destruct (Z.eqb_spec (uid_number s) 0) as [E|_]; [cbn; auto 10|].
  destruct (Z.eqb_spec (u64 (uid_number s + 1)) 0) as [E|_]; cbn; [auto 10|].
  do 5 (split; [reflexivity|]). by eexists _, _.
Qed.

(** The graph after [d] has been made and put under [par] as [k]. *)
Definition with_entry (g : gmap Z core) (par d : Z) (k : cstring) (isdir : bool) : gmap Z core :=
  let g1 := <[d := fresh_core (Some k) isdir]> g in remap (attached g1 par d k) g1.

Lemma set_up_graph s s0 s' par d k isdir ro ino uid pn :
  heap s = <[d := new_dentry None (Some k) (Some k) isdir ro ino uid]> (heap s0) ->
  heap s0 !! par = Some pn -> par <> d -> heap s0 !! d = None ->
  set_up s par d (new_dentry None (Some k) (Some k) isdir ro ino uid) pn k isdir s' ->
  graph s' = with_entry (graph s0) par d k isdir.
Proof.
  intros Hh Hp Hne Hd [(n' & Hn' & _ & Hc) (pn' & Hpn' & _ & _ & Hpc) Ho _ _ _].
  apply map_eq. intros a. unfold with_entry, graph. rewrite lookup_remap, lookup_fmap.
  destruct (decide (a = d)) as [->|Had].
  - rewrite Hn', lookup_insert_eq. cbn. rewrite Hc. unfold attached. by rewrite Z.eqb_refl.
  - rewrite lookup_insert_ne, lookup_fmap by done. destruct (decide (a = par)) as [->|Hap].
    + rewrite Hpn', Hp. cbn. rewrite Hpc. unfold attached, is_dir.
      by rewrite (proj2 (Z.eqb_neq _ _) Had), Z.eqb_refl, lookup_insert_eq.
    + rewrite Ho, Hh, lookup_insert_ne by done. destruct (heap s0 !! a) as [x|]; [|done]. cbn.
      unfold attached. by rewrite (proj2 (Z.eqb_neq _ _) Had), (proj2 (Z.eqb_neq _ _) Hap).
Qed.

Lemma with_entry_ok hs r g par d k isdir pn :
  graph_ok hs r None g -> g !! d = None -> g !! par = Some pn -> dir pn = true ->
  linked r par pn = true -> hash_find (kids pn) k = None ->
  graph_ok (bump d 1 hs) r None (with_entry g par d k isdir).
Proof.
  intros Hok Hd Hp Hdir Hl Hfree. assert (Hne : par <> d) by congruence.
  apply (attach_ok _ _ None _ _ _ (fresh_core (Some k) isdir) pn); auto.
  - by apply new_ok.
  - apply lookup_insert_eq.
  - by rewrite lookup_insert_ne.
  - intros ->. destruct (ok_root _ _ _ _ Hok) as (? & ? & _). congruence.
  - by apply hash_find_None.
  - intros H. assert (Hb : forall a, a <> d -> ~ below (<[d := fresh_core (Some k) isdir]> g) d a).
    { clear - Hok Hd. intros a Hne H. induction H as [|a n p Ha Hu Hb IH]; [done|].
      apply lookup_insert_Some in Ha as [[<- <-]|[_ Ha]]; [done|].
      destruct (ok_parent _ _ _ _ Hok _ _ _ Ha Hu) as (? & ? & ? & _). apply IH. congruence. }
    by apply (Hb par).
Qed.

Lemma fresh_free hs s : tree_ok hs s -> heap s !! fresh s = None.
Proof.
  intros Hok. destruct (heap s !! fresh s) as [n|] eqn:E; [|done].
  pose proof (t_fresh _ _ Hok (fresh s) (ex_intro _ n E)). lia.
Qed.

Lemma set_up_tree hs s0 s s' par k isdir ro ino uid pn :
  let d := fresh s0 in
  tree_ok hs s0 -> heap s0 !! par = Some pn -> FsTree.isdir pn = true ->
  linked (root s0) par (core_of pn) = true -> find_child (graph s0) par k = None ->
  heap s = <[d := new_dentry None (Some k) (Some k) isdir ro ino uid]> (heap s0) ->
  root s = root s0 -> fresh s = fresh s0 + 1 ->
  set_up s par d (new_dentry None (Some k) (Some k) isdir ro ino uid) pn k isdir s' ->
  tree_ok (bump d 1 hs) s' /\ becomes s0 (with_entry (graph s0) par d k isdir) s'.
Proof.
  cbv zeta. intros Hok Hp Hdir Hl Hfree Hh Hroot Hfresh Hsu.
  pose proof (fresh_free _ _ Hok) as Hnew. assert (Hne : par <> fresh s0) by congruence.
  pose proof (set_up_graph s s0 s' par _ k isdir ro ino uid pn Hh Hp Hne Hnew Hsu) as Hg.
  destruct Hsu as [(n' & Hn' & Hno & Hc) (pn' & Hpn' & Hpo & Hpay & Hpc) Ho Hr Hf _].
  assert (Hold : forall a m, heap s' !! a = Some m -> a <> fresh s0 -> a <> par -> heap s0 !! a = Some m).
  { intros a m Ha H1 H2. rewrite Ho, Hh, lookup_insert_ne in Ha by done. done. }
  split.
  - constructor.
    + rewrite Hg, Hr, Hroot. apply (with_entry_ok _ _ _ _ _ _ _ (core_of pn)); auto.
      * apply (t_graph _ _ Hok).
      * unfold graph. by rewrite lookup_fmap, Hnew.
      * by apply lookup_graph.
      * unfold find_child in Hfree. by rewrite (lookup_graph _ _ _ Hp) in Hfree.
    + intros a m Ha. destruct (decide (a = fresh s0)) as [->|H1]; [congruence|].
      destruct (decide (a = par)) as [->|H2]; [congruence|]. by eapply t_node, Hold.
    + intros a [m Ha]. rewrite Hf, Hfresh. destruct (decide (a = fresh s0)) as [->|H1]; [lia|].
      assert (a < fresh s0); [|lia]. apply (t_fresh _ _ Hok).
      destruct (decide (a = par)) as [->|H2]; [by exists pn|]. exists m. by apply Hold.
    + intros m. rewrite Hr, Hroot. intros Hm. destruct (decide (root s0 = par)) as [E|H2].
      * rewrite E in Hm. assert (m = pn') as -> by congruence.
        change (key (core_of pn') = Some [SLASH]). rewrite Hpc. cbn.
        apply (t_root _ _ Hok). by rewrite E.
      * apply (t_root _ _ Hok), Hold; [done| |done].
        destruct (root_present _ _ Hok) as (rn & Hrn & _). congruence.
  - constructor; [exact Hg|congruence|lia|].
    intros a m Ha Hlt. destruct (decide (a = par)) as [->|H2].
    + exists pn. split; [done|]. congruence.
    + exists m. split; [|done]. apply Hold; [done|lia|done].
Qed.

(** What [create_entry] does with a handle on the parent, and without it at the end. *)
Definition create_result (hs : Z -> Z) (s : fs_state) (par : Z) (k : cstring) (isdir : bool)
    (r : Z + Z) (s' : fs_state) : Prop :=
  valid_blocks s' = valid_blocks s
  /\ match r with
     | inl e =>
         tree_ok hs s' /\ becomes s (graph s) s' /\ file_count s' = file_count s
         /\ (child_result (graph s) par k = inl e
             \/ e = - LTFS_DENTRY_EXISTS /\ (exists c, child_result (graph s) par k = inr (Some c))
             \/ e = - LTFS_NO_MEMORY /\ (uid_number s = 0 \/ u64 (uid_number s + 1) = 0))
     | inr d =>
         d = fresh s /\ child_result (graph s) par k = inr None
         /\ tree_ok (bump d 1 hs) s' /\ becomes s (with_entry (graph s) par d k isdir) s'
         /\ file_count s' = if isdir then file_count s else u64 (file_count s + 1)
     end.

(** Handles taken before an entry is made and given back after. *)
Lemma with_entry_rehandle hs hs1 g par d k isdir x :
  hs1 d = hs d -> g !! d = None ->
  rehandle (bump d x hs1) (bump d x hs) (with_entry (rehandle hs hs1 g) par d k isdir)
  = with_entry g par d k isdir.
Proof.
  intros Hd Hg. apply map_eq. intros a. unfold with_entry, rehandle. rewrite !lookup_remap.
  destruct (decide (a = d)) as [->|Hne].
  - rewrite !lookup_insert_eq. cbn. unfold attached. rewrite Z.eqb_refl. cbn.
    rewrite !bump_eq, Hd. f_equal. unfold set_refs. cbn. f_equal. lia.
  - rewrite !lookup_insert_ne, lookup_remap by done. destruct (g !! a) as [n|]; [|done]. cbn.
    rewrite !bump_ne by done. f_equal. unfold attached, is_dir. rewrite !lookup_insert_eq.
    rewrite (proj2 (Z.eqb_neq _ _) Hne). destruct (a =? par); unfold set_refs; cbn; [f_equal; lia|].
    destruct n; cbn. f_equal. lia.
Qed.

(** The directory of the lookup, seen later. *)
Lemma counted_dir hs hs1 s s1 d n :
  counted hs hs1 s s1 -> heap s !! d = Some n -> isdir n = true ->
  linked (root s) d (core_of n) = true ->
  exists n', heap s1 !! d = Some n' /\ isdir n' = true /\ linked (root s1) d (core_of n') = true.
Proof.
  intros Hc Hn Hdir Hl. destruct (counted_lookup _ _ _ _ _ _ Hc Hn) as (n' & Hn' & E).
  exists n'. split; [done|]. split.
  - change (dir (core_of n') = true). by rewrite E.
  - by rewrite (counted_linked _ _ _ _ _ _ _ Hc Hn Hn').
Qed.

Lemma counted_child hs hs1 s s1 a k : counted hs hs1 s s1 -> find_child (graph s1) a k = find_child (graph s) a k.
Proof. intros (_ & Hb & _). by rewrite (b_graph _ _ _ Hb), find_child_rehandle. Qed.

Section create.
Context (now : Z * Z) (hs : Z -> Z) (s s1 : fs_state) (par : Z) (pn : fsnode) (k : cstring).
Context (Hok : tree_ok hs s) (Hfew : few hs) (Hp : heap s !! par = Some pn).
Context (Hdir : isdir pn = true) (Hl : linked (root s) par (core_of pn) = true).
Context (Hname : k <> [] /\ Forall (fun b => b <> SLASH) k).
Let hsp := bump par 1 hs.

Let Hpos : forall a, 0 <= hs a := ok_handles _ _ _ _ (t_graph _ _ Hok).
Let Hb : bounded hsp.
Proof. apply (few_bounded hs); [done|]. unfold hsp. handles. Qed.

Let Hheld : 0 < hsp par.
Proof. unfold hsp. rewrite bump_eq. specialize (Hpos par). lia. Qed.

(** The directory is let go of, and nothing has changed. *)
Lemma create_give_up e s2 isdir :
  counted hs hsp s s2 ->
  child_result (graph s) par k = inl e \/
  e = - LTFS_DENTRY_EXISTS /\ (exists c, child_result (graph s) par k = inr (Some c)) ->
  wp (fs_release_dentry par ;;; ret_op (inl e)) s2 (create_result hs s par k isdir).
Proof.
  intros Hc He. eapply wp_seq; [apply (counted_release _ _ _ _ _ _ Hc Hb Hp Hheld Hl)|].
  intros [] s3 Hc3. apply wp_ret.
  apply (counted_ext _ _ hs) in Hc3; [|unfold hsp; handles].
  destruct Hc3 as (H1 & H2 & _ & _ & H3 & H4 & _). rewrite rehandle_same in H2 by done.
  split; [done|]. split_and!; try done. tauto.
Qed.

Lemma create_no_memory s2 s3 isdir :
  counted hs hsp s s2 -> heap s3 = heap s2 -> root s3 = root s2 -> fresh s3 = fresh s2 ->
  file_count s3 = file_count s2 -> valid_blocks s3 = valid_blocks s2 ->
  uid_number s2 = 0 \/ u64 (uid_number s2 + 1) = 0 ->
  wp (fs_release_dentry par ;;; ret_op (inl (- LTFS_NO_MEMORY))) s3 (create_result hs s par k isdir).
Proof.
  intros Hc Hh Hr Hf Hfc Hvb Hu. pose proof Hc as (Hok2 & Hbec2 & Hcnt).
  assert (Hok3 : tree_ok hsp s3) by (by apply (tree_ok_same_heap _ s2)).
  destruct (counted_dir _ _ _ _ _ _ Hc Hp Hdir Hl) as (pn2 & Hp2 & _ & Hl2).
  assert (Hg3 : graph s3 = graph s2) by (unfold graph; by rewrite Hh).
  eapply wp_seq; [apply (release_linked_ok hsp s3 par pn2); [done|done| |done|]|].
  - by rewrite Hh.
  - by rewrite Hr.
  - intros [] s4 (H1 & H2 & H3). apply wp_ret. destruct Hcnt as (_ & Hun & Hfc2 & Hvb2 & _).
    destruct H3 as (_ & _ & H3 & H4 & _). split; [congruence|]. split_and!.
    + eapply tree_ok_ext; [|exact H1]. unfold hsp. handles.
    + rewrite Hg3, (b_graph _ _ _ Hbec2), rehandle_trans in H2.
      rewrite <- (rehandle_same hs hs (graph s)) by done.
      rewrite (rehandle_ext hs hs (bump par (-1) hsp)) by (unfold hsp; handles).
      eapply becomes_trans; [|exact H2]. by apply (becomes_same_heap s s2).
    + congruence.
    + right. right. split; [done|]. by rewrite <- Hun.
Qed.

(** The entry is made, then the directory is let go of. *)
Lemma create_made s2 s3 isdir ro ino uid :
  counted hs hsp s s2 -> child_result (graph s) par k = inr None ->
  root s3 = root s2 -> fresh s3 = fresh s2 + 1 ->
  file_count s3 = file_count s2 -> valid_blocks s3 = valid_blocks s2 ->
  heap s3 = <[fresh s2 := new_dentry None (Some k) (Some k) isdir ro ino uid]> (heap s2) ->
  wp (set_up_entry icu graphemes now par (fresh s2) isdir ;;;
      fs_release_dentry par ;;; ret_op (inr (fresh s2))) s3 (create_result hs s par k isdir).
Proof.
  intros Hc Hr Hroot Hfresh Hfc Hvb Hh. pose proof Hc as (Hok2 & Hbec2 & Hcnt).
  destruct (counted_dir _ _ _ _ _ _ Hc Hp Hdir Hl) as (pn2 & Hp2 & Hdir2 & Hl2).
  pose proof (fresh_free _ _ Hok2) as Hnew. assert (Hne : par <> fresh s2) by congruence.
  assert (Hk : name_ok k).
  { split_and!; [apply Hname|apply Hname|]. unfold child_result in Hr.
    destruct (pathname_strlen k >? LTFS_FILENAME_MAX) eqn:E; [done|]. bool_to_prop. lia. }
  assert (Hfree : find_child (graph s2) par k = None).
  { rewrite (counted_child _ _ _ _ _ _ Hc). unfold child_result in Hr. by destruct (_ >? _); simplify_eq. }
  eapply wp_seq; [apply (set_up_entry_ok now s3 par (fresh s2) isdir ro ino uid k pn2)|]; auto.
  { by rewrite Hh, lookup_insert_eq. }
  { by rewrite Hh, lookup_insert_ne. }
  { by eapply t_node. }
  intros [] s4 Hsu.
  destruct (set_up_tree hsp s2 s3 s4 par k isdir ro ino uid pn2) as [Hok4 Hbec4]; auto.
  pose proof Hsu as [_ (pn4 & Hp4 & _ & _ & Hc4) _ Hr4 Hf4 (_ & _ & Hvb4 & Hfc4)].
  assert (Hl4 : linked (root s4) par (core_of pn4) = true).
  { rewrite Hr4, Hroot, Hc4. exact Hl2. }
  assert (Hfs : fresh s2 = fresh s) by apply Hcnt.
  assert (Hd : heap s !! fresh s2 = None) by (rewrite Hfs; by eapply fresh_free).
  eapply wp_seq; [apply (release_linked_ok (bump (fresh s2) 1 hsp) s4 par pn4); [exact Hok4| |done| |done]|].
  { apply (few_bounded hs); [done|]. unfold hsp. handles. }
  { rewrite bump_ne by done. exact Hheld. }
  intros [] s5 (H1 & H2 & (_ & _ & Hfc5 & Hvb5 & _)). apply wp_ret.
  destruct Hcnt as (_ & _ & Hfc2 & Hvb2 & _). split; [congruence|]. split_and!; [congruence|done| | |].
  - eapply tree_ok_ext; [|exact H1]. unfold hsp. handles.
  - assert (E : with_entry (graph s) par (fresh s2) k isdir
                = rehandle (bump (fresh s2) 1 hsp) (bump par (-1) (bump (fresh s2) 1 hsp)) (graph s4)).
    { rewrite (b_graph _ _ _ Hbec4), (b_graph _ _ _ Hbec2).
      rewrite (rehandle_ext _ _ (bump (fresh s2) 1 hs)) by (unfold hsp; handles).
      symmetry. apply with_entry_rehandle.
      - unfold hsp. by rewrite bump_ne.
      - unfold graph. by rewrite lookup_fmap, Hd. }
    rewrite E. eapply becomes_trans; [exact Hbec2|]. eapply becomes_trans; [exact Hbec4|exact H2].
  - destruct isdir; congruence.
Qed.

Lemma create_entry_ok isdir ro :
  counted hs hsp s s1 ->
  wp (create_entry icu graphemes now par k isdir ro) s1 (create_result hs s par k isdir).
Proof.
  intros Hc. unfold create_entry.
  eapply wp_seq; [apply (counted_directory_lookup _ _ _ _ _ _ Hc Hb Hp)|]. intros r s2 [-> Hc2].
  destruct (child_result (graph s) par k) as [e|[c|]] eqn:E; cbn [hold_result] in Hc2.
  - apply create_give_up; auto.
  - assert (Hch : find_child (graph s) par k = Some c)
      by (unfold child_result in E; by destruct (_ >? _); simplify_eq).
    destruct (child_linked _ _ _ _ _ Hok Hch) as (cn & Hcn & _ & Hcl & _).
    eapply wp_seq; [apply (counted_release _ _ _ _ c cn Hc2); [|exact Hcn| |exact Hcl]|].
    + apply (few_bounded hs); [done|]. unfold hsp. handles.
    + pose proof (Hpos c). unfold hsp. handles.
    + intros [] s3 Hc3. apply create_give_up; [|rewrite E; eauto].
      eapply counted_ext; [|exact Hc3]. unfold hsp. handles.
  - eapply wp_seq; [apply allocate_ok|]. intros [d|] s3 (Hr & Hfc & Hvb & H).
    + destruct H as (-> & Hf & ino & uid & Hh). by eapply create_made.
    + destruct H as (Hh & Hf & Hu). by apply (create_no_memory s2).
Qed.

End create.

(** The lookups after an entry has been made. *)
Lemma find_child_with_entry hs r g par d k isdir pn a nm :
  graph_ok hs r None g -> g !! d = None -> g !! par = Some pn ->
  find_child (with_entry g par d k isdir) a nm =
  if decide (a = par /\ nm = k) then Some d else find_child g a nm.
Proof.
  intros Hok Hd Hp. assert (Hne : par <> d) by congruence.
  unfold find_child, with_entry. rewrite lookup_remap.
  destruct (decide (a = d)) as [->|Had].
  - rewrite lookup_insert_eq, Hd. cbn. unfold attached. rewrite Z.eqb_refl. cbn.
    rewrite decide_False; [done|]. intros [? _]. congruence.
  - rewrite lookup_insert_ne by done. destruct (decide (a = par)) as [->|Hap].
    + rewrite Hp. cbn. unfold attached. rewrite (proj2 (Z.eqb_neq _ _) Had), Z.eqb_refl. cbn.
      destruct (decide (k = nm)) as [->|Hk]; [by rewrite decide_True|].
      rewrite decide_False; [done|]. intros [_ ?]. congruence.
    + rewrite decide_False by tauto. destruct (g !! a) as [n|]; [|done]. cbn. unfold attached.
      by rewrite (proj2 (Z.eqb_neq _ _) Had), (proj2 (Z.eqb_neq _ _) Hap).
Qed.

(** The outcome of a creation, entry by entry. *)
Lemma create_at_ok now hs s dir k isdir ro :
  tree_ok hs s -> few hs -> k <> [] /\ Forall (fun b => b <> SLASH) k ->
  (forall par n, follow (graph s) (root s) (path_components dir) = inr par ->
     heap s !! par = Some n -> FsTree.isdir n = true) ->
  wp (create_at icu graphemes now dir k isdir ro) s (fun r s' =>
    match follow (graph s) (root s) (path_components dir) with
    | inl e => r = inl e /\ tree_ok hs s' /\ becomes s (graph s) s' /\ counters_kept s s'
    | inr par =>
        create_result hs s par k isdir r s'
        /\ forall d, r = inr d -> forall a nm, find_child (graph s') a nm =
             if decide (a = par /\ nm = k) then Some d else find_child (graph s) a nm
    end).
Proof.
  intros Hok Hfew Hk Hdir. unfold create_at.
  pose proof (ok_handles _ _ _ _ (t_graph _ _ Hok)) as Hpos.
  eapply wp_seq; [apply (counted_path_lookup hs hs s s); [done|by apply counted_refl|]|].
  { intros a. specialize (Hfew a). specialize (Hpos a). lia. }
  intros r s1 [-> Hc]. destruct (follow _ _ _) as [e|par] eqn:E; cbn [lookup_handles] in Hc.
  - apply wp_ret. destruct Hc as (H1 & H2 & H3). rewrite rehandle_same in H2 by done. auto.
  - destruct (follow_root_linked _ _ _ _ Hok E) as (pn & Hp & Hl).
    pose proof (lookup_graph _ _ _ Hp) as Hg. rewrite Hg in Hc.
    assert (Hc' : counted hs (bump par 1 hs) s s1) by (by destruct (up (core_of pn))).
    eapply wp_mono; [by apply (create_entry_ok now hs s s1 par pn k Hok Hfew Hp (Hdir _ _ eq_refl Hp) Hl Hk)|].
    intros r s' Hr. split; [done|]. intros d -> a nm.
    destruct Hr as (_ & -> & _ & _ & Hbec & _). rewrite (b_graph _ _ _ Hbec).
    apply (find_child_with_entry hs (root s) _ _ _ _ _ (core_of pn)); [apply (t_graph _ _ Hok)| |done].
    unfold graph. by rewrite lookup_fmap, (fresh_free _ _ Hok).
Qed.

(** C14: creating a file or directory.  The outcome is determined by the tree: the
    error of the path lookup, a name that is too long, an existing entry, or
    exhausted unique ids, and then nothing in the tree has changed; otherwise a
    new dentry is in the directory under its name, held once, its path leads to
    it, every path that does not begin with that path leads where it led before, and
    no other dentry has lost anything.  In every case the invariant holds again and no freed dentry has been
    touched. *)
Theorem create_at_spec now hs s dir k isdir ro :
  tree_ok hs s -> few hs -> k <> [] /\ Forall (fun b => b <> SLASH) k ->
  (forall par n, follow (graph s) (root s) (path_components dir) = inr par ->
     heap s !! par = Some n -> FsTree.isdir n = true) ->
  wp (create_at icu graphemes now dir k isdir ro) s (fun r s' =>
    match follow (graph s) (root s) (path_components dir) with
    | inl e => r = inl e /\ tree_ok hs s' /\ becomes s (graph s) s' /\ counters_kept s s'
    | inr par =>
        create_result hs s par k isdir r s'
        /\ forall d, r = inr d ->
             let path := path_components dir ++ [k] in
             follow (graph s') (root s) path = inr d
             /\ forall q, ~ path `prefix_of` q ->
                  follow (graph s') (root s) q = follow (graph s) (root s) q
    end).
Proof.
  intros Hok Hfew Hk Hdir. eapply wp_mono; [by apply (create_at_ok now hs)|]. intros r s' Hr.
  destruct (follow _ _ _) as [e|par] eqn:E; [done|]. destruct Hr as [Hr Hch]. split; [done|].
  intros d Hd path. specialize (Hch d Hd). subst r. destruct Hr as (_ & _ & Hc & _).
  assert (Hother : forall a nm, ~ (a = par /\ nm = k) -> find_child (graph s') a nm = find_child (graph s) a nm)
    by (intros a nm Hn; by rewrite Hch, decide_False).
  split.
  - apply follow_snoc. exists par. split_and!.
    + rewrite (follow_other hs s (graph s') (path_components dir) par k); [done|done|done|done|].
      intros [x Hx]. apply (f_equal length) in Hx. rewrite !length_app in Hx. cbn in Hx. lia.
    + unfold child_result in Hc. destruct (_ >? _) eqn:El; [done|]. bool_to_prop. lia.
    + by rewrite Hch, decide_True.
  - intros q Hq. by apply (follow_other hs s (graph s') (path_components dir) par k).
Qed.

End ops.

(** *** Unlink *)

(** The dentries have been rewritten as [F] says. *)
Record rewritten (s : fs_state) (F : Z -> core -> core) (s' : fs_state) : Prop := {
  rw_graph : graph s' = remap F (graph s);
  rw_node a n' : heap s' !! a = Some n' ->
    exists n, heap s !! a = Some n /\ payload n' = payload n /\ (node_ok n -> node_ok n');
  rw_root : root s' = root s;
  rw_fresh : fresh s' = fresh s
}.

Lemma rewritten_becomes s F s' : rewritten s F s' -> becomes s (remap F (graph s)) s'.
Proof.
  intros [H1 H2 H3 H4]. constructor; [done|done|lia|].
  intros a n' Ha _. destruct (H2 _ _ Ha) as (n & ? & ? & _). eauto.
Qed.

Lemma rewritten_tree_ok hs hs' s F s' :
  tree_ok hs s -> rewritten s F s' -> graph_ok hs' (root s) None (remap F (graph s)) ->
  (forall c, key (F (root s) c) = key c) -> tree_ok hs' s'.
Proof.
  intros Hok [H1 H2 H3 H4] Hg Hk. constructor.
  - by rewrite H1, H3.
  - intros a n' Ha. destruct (H2 _ _ Ha) as (n & Hn & _ & Hno). by eapply Hno, t_node.
  - intros a [n' Ha]. rewrite H4. destruct (H2 _ _ Ha) as (n & Hn & _). apply (t_fresh _ _ Hok). by exists n.
  - intros n' Hn'. rewrite H3 in Hn'. pose proof (lookup_graph _ _ _ Hn') as Hl.
    rewrite H1 in Hl. apply remap_Some in Hl as (c & Hc & E). apply graph_lookup in Hc as (n & Hn & ->).
    change (key (core_of n') = Some [SLASH]). rewrite E, Hk. by apply (t_root _ _ Hok).
Qed.

(** Two dentries replaced in the heap. *)
Lemma rewritten_two s s' F x y nx ny nx' ny' :
  heap s !! x = Some nx -> heap s !! y = Some ny -> x <> y ->
  heap s' !! x = Some nx' -> heap s' !! y = Some ny' ->
  (forall a, a <> x -> a <> y -> heap s' !! a = heap s !! a) ->
  root s' = root s -> fresh s' = fresh s ->
  core_of nx' = F x (core_of nx) -> core_of ny' = F y (core_of ny) ->
  (forall a c, a <> x -> a <> y -> F a c = c) ->
  payload nx' = payload nx -> payload ny' = payload ny ->
  (node_ok nx -> node_ok nx') -> (node_ok ny -> node_ok ny') ->
  rewritten s F s'.
Proof.
  intros Hx Hy Hne Hx' Hy' Ho Hr Hf Hcx Hcy HF Hpx Hpy Hnx Hny. constructor; auto.
  - apply map_eq. intros a. unfold graph. rewrite lookup_remap, !lookup_fmap.
    destruct (decide (a = x)) as [->|Hax]; [by rewrite Hx, Hx'; cbn; rewrite Hcx|].
    destruct (decide (a = y)) as [->|Hay]; [by rewrite Hy, Hy'; cbn; rewrite Hcy|].
    rewrite Ho by done. destruct (heap s !! a); cbn; [|done]. by rewrite HF.
  - intros a n' Ha. destruct (decide (a = x)) as [->|Hax]; [assert (n' = nx') as -> by congruence; by exists nx|].
    destruct (decide (a = y)) as [->|Hay]; [assert (n' = ny') as -> by congruence; by exists ny|].
    rewrite Ho in Ha by done. by exists n'.
Qed.

(** The directory entry goes, and the dentry is on its own. *)
Lemma unlink_found_ok now s par d n pn k :
  heap s !! d = Some n -> heap s !! par = Some pn -> par <> d -> 0 < numhandles n < 2 ^ 32 ->
  let pn1 := on_file (set_modify_change now) pn in
  wp (unlink_found par d n pn1 k) (set_heap (<[par := pn1]> (heap s)) s)
    (fun id s' => id = (uid n, ino n)
       /\ rewritten s (detached (graph s) par d k true) s'
       /\ file_count s' = (if isdir n then file_count s else u64 (file_count s - 1))
       /\ valid_blocks s' = u64 (valid_blocks s - used_blocks n)).
Proof.
  intros Hd Hp Hne Hrefs pn1. unfold unlink_found.
  step_update. step_update. apply wp_bind.
  assert (Hdir : is_dir (graph s) d = isdir n)
    by (by rewrite (is_dir_lookup _ _ _ (lookup_graph _ _ _ Hd))).
  destruct (isdir n) eqn:Ed; [eapply wp_update; [find_dentry|]|apply wp_update_state].
  all: apply wp_bind, wp_bind, wp_update_state, wp_ret, wp_ret.
  all: (split; [reflexivity|]; split; [|split; reflexivity]).
  all: eapply (rewritten_two _ _ _ par d pn n); [done|done|done|find_dentry|find_dentry|..];
    try reflexivity.
  all: try (intros a Ha1 Ha2; find_dentry; reflexivity).
  all: try (by intros [? ? ?]; constructor).
  all: try (intros a c Ha1 Ha2; unfold detached; by rewrite (proj2 (Z.eqb_neq _ _) Ha1), (proj2 (Z.eqb_neq _ _) Ha2)).
  all: unfold detached; rewrite ?Z.eqb_refl, ?(proj2 (Z.eqb_neq _ _) Hne), ?Hdir; cbn; try reflexivity.
  all: rewrite u32_small by lia; unfold core_of; cbn; rewrite Ed; reflexivity.
Qed.

Lemma detached_rehandle hs hs1 g p d k m :
  remap (detached (rehandle hs hs1 g) p d k m) (rehandle hs hs1 g)
  = rehandle hs hs1 (remap (detached g p d k m) g).
Proof.
  apply map_eq. intros a. unfold rehandle at 2 3. rewrite !lookup_remap.
  destruct (g !! a) as [n|]; [|done]. cbn. f_equal. unfold detached.
  assert (E : is_dir (rehandle hs hs1 g) d = is_dir g d) by (by apply is_dir_remap).
  rewrite E. destruct (a =? d); [|destruct (a =? p)]; cbn; unfold set_refs; cbn; f_equal; lia.
Qed.

(** An entry without children has gone from the table, and its dentry is held. *)
Lemma entry_gone hs h s s1 s2 par d n k :
  heap s !! d = Some n -> parent n = Some par -> platform_safe_name n = Some k -> child_list n = [] ->
  0 < h d -> counted hs h s s1 -> rewritten s1 (detached (graph s1) par d k true) s2 ->
  tree_ok h s2 /\ graph s2 = rehandle hs h (remap (detached (graph s) par d k true) (graph s))
  /\ becomes s (graph s2) s2.
Proof.
  intros Hd Hup Hkey Hempty Hh Hc Hrw. pose proof Hc as (Hok1 & Hbec1 & _).
  assert (Hg2 : graph s2 = rehandle hs h (remap (detached (graph s) par d k true) (graph s))).
  { rewrite (rw_graph _ _ _ Hrw), (b_graph _ _ _ Hbec1). apply detached_rehandle. }
  destruct (counted_lookup _ _ _ _ _ _ Hc Hd) as (n1 & Hn1 & En1).
  split; [|split; [exact Hg2|]].
  - apply (rewritten_tree_ok h h s1 _ s2 Hok1 Hrw).
    + apply (detach_ok h (root s1) None (graph s1) par d (core_of n1) k true).
      * apply (t_graph _ _ Hok1).
      * by apply lookup_graph.
      * by rewrite En1.
      * by rewrite En1.
      * done.
      * left. by rewrite En1.
    + intros c. unfold detached. by destruct (root s1 =? d), (root s1 =? par).
  - eapply becomes_trans; [exact Hbec1|]. rewrite (rw_graph _ _ _ Hrw). by eapply rewritten_becomes.
Qed.

(** The graph without the entry [k] of [par]: the dentry itself stays as long as it
    is open. *)
Definition without_entry (hs : Z -> Z) (g : gmap Z core) (par d : Z) (k : cstring) : gmap Z core :=
  let g1 := remap (detached g par d k true) g in if hs d =? 0 then delete d g1 else g1.

Lemma delete_rehandle hs h d g : delete d (rehandle hs h g) = rehandle hs (bump d (-1) h) (delete d g).
Proof.
  apply map_eq. intros a. unfold rehandle. rewrite lookup_remap. destruct (decide (a = d)) as [->|Hne].
  - by rewrite !lookup_delete_eq.
  - rewrite !lookup_delete_ne, lookup_remap by done. destruct (g !! a); cbn; [|done].
    by rewrite bump_ne.
Qed.

(** The last handle of the operation on the dentry whose entry has gone. *)
Lemma entry_released hs h s s2 par d n k :
  tree_ok hs s -> heap s !! d = Some n -> parent n = Some par ->
  tree_ok h s2 -> becomes s (rehandle hs h (remap (detached (graph s) par d k true) (graph s))) s2 ->
  bounded h -> h d = hs d + 1 ->
  wp (fs_release_dentry d) s2 (fun _ s3 =>
    tree_ok (bump d (-1) h) s3
    /\ becomes s (rehandle hs (bump d (-1) h) (without_entry hs (graph s) par d k)) s3
    /\ counters_kept s2 s3).
Proof.
  intros Hok Hd Hup Hok2 Hb2 Hbound Hh. pose proof (ok_handles _ _ _ _ (t_graph _ _ Hok) d) as Hpos.
  pose proof (ok_refs _ _ _ _ (t_graph _ _ Hok) _ _ (lookup_graph _ _ _ Hd)) as Hr.
  unfold linked in Hr. cbn in Hr. rewrite Hup, bool_decide_true, orb_true_r in Hr by (by eexists). cbn in Hr.
  assert (Hg : exists c, graph s2 !! d = Some c /\ refs c = hs d + 1).
  { rewrite (b_graph _ _ _ Hb2). unfold rehandle. rewrite !lookup_remap, (lookup_graph _ _ _ Hd). cbn.
    eexists. split; [reflexivity|]. cbn. unfold detached. rewrite Z.eqb_refl. cbn. lia. }
  destruct Hg as (c & Hc & Hrc). destruct (graph_lookup _ _ _ Hc) as (n2 & Hn2 & ->).
  eapply wp_mono; [apply (release_ok h s2 d n2); auto; lia|].
  intros [] s3 (H1 & H2 & H3). split_and!; [done| |done].
  rewrite Hc, Hrc in H3. unfold without_entry. destruct (Z.eqb_spec (hs d) 0) as [E|Hnz].
  - rewrite E in H3. cbn [Z.add Z.eqb Pos.eqb] in H3. rewrite (b_graph _ _ _ Hb2), delete_rehandle in H3.
    by eapply becomes_trans.
  - rewrite (proj2 (Z.eqb_neq _ _)) in H3 by lia. rewrite (b_graph _ _ _ Hb2), rehandle_trans in H3.
    by eapply becomes_trans.
Qed.

Section unlink.
Context (now : Z * Z) (hs : Z -> Z) (s : fs_state) (par d : Z) (pn n : fsnode) (k : cstring).
Context (Hok : tree_ok hs s) (Hfew : few hs) (Hd : heap s !! d = Some n) (Hp : heap s !! par = Some pn).
Context (Hup : parent n = Some par) (Hkey : platform_safe_name n = Some k) (Hempty : child_list n = []).
Let hs2 := bump par 1 (bump d 1 hs).

Let Hpos : forall a, 0 <= hs a := ok_handles _ _ _ _ (t_graph _ _ Hok).
Let Hne : par <> d := up_neq _ _ _ _ _ _ _ (t_graph _ _ Hok) (lookup_graph _ _ _ Hd) Hup.
Let Hb : bounded hs2.
Proof. apply (few_bounded hs); [done|]. unfold hs2. handles. Qed.

Let G := remap (detached (graph s) par d k true) (graph s).

(** The state in between: the entry is gone, both dentries are still held. *)
Lemma unlinked_ok s1 s2 :
  counted hs hs2 s s1 -> rewritten s1 (detached (graph s1) par d k true) s2 ->
  tree_ok hs2 s2 /\ graph s2 = rehandle hs hs2 G /\ becomes s (graph s2) s2.
Proof.
  intros Hc Hrw. apply (entry_gone _ _ s s1 s2 par d n k); auto.
  unfold hs2. rewrite bump_ne, bump_eq by congruence. specialize (Hpos d). lia.
Qed.

Lemma unlinked_parent s2 :
  graph s2 = rehandle hs hs2 G -> root s2 = root s ->
  exists pn2, heap s2 !! par = Some pn2 /\ linked (root s2) par (core_of pn2) = true.
Proof.
  intros Hg2 Hroot2. destruct (linked_parent _ _ _ _ _ Hok Hd Hup) as (pn' & k' & Hp' & Hlp & _).
  assert (pn' = pn) as -> by congruence.
  destruct (graph_lookup s2 par (set_refs (numhandles pn + 1) {| up := parent pn;
      key := platform_safe_name pn; kids := hash_del (child_list pn) k; dir := isdir pn;
      gone := deleted pn; refs := 0;
      links := if isdir n then u32 (link_count pn - 1) else link_count pn |})) as (pn2 & Hpn2 & Ep2).
  - rewrite Hg2. unfold rehandle, G. rewrite !lookup_remap, (lookup_graph _ _ _ Hp). cbn.
    unfold detached. rewrite (is_dir_lookup _ _ _ (lookup_graph _ _ _ Hd)).
    rewrite (proj2 (Z.eqb_neq _ _) Hne), Z.eqb_refl. unfold set_refs. cbn.
    unfold hs2. rewrite bump_eq, bump_ne by done. do 2 f_equal. lia.
  - exists pn2. split; [done|]. rewrite <- Ep2, Hroot2. exact Hlp.
Qed.

(** The handles on both are given back after the entry has gone. *)
Lemma unlink_out_ok {A} (x : A) s1 s2 :
  counted hs hs2 s s1 -> rewritten s1 (detached (graph s1) par d k true) s2 ->
  wp (unlink_out par d x) s2 (fun r s' =>
    r = x /\ tree_ok hs s' /\ becomes s (without_entry hs (graph s) par d k) s'
    /\ file_count s' = file_count s2 /\ valid_blocks s' = valid_blocks s2).
Proof.
  intros Hc Hrw. destruct (unlinked_ok s1 s2 Hc Hrw) as (Hok2 & Hg2 & Hb2).
  destruct (unlinked_parent s2 Hg2 (b_root _ _ _ Hb2)) as (pn2 & Hpn2 & Hlp).
  eapply wp_seq; [apply (release_linked_ok hs2 s2 par pn2); [done|done|done| |done]|].
  { unfold hs2. rewrite bump_eq, bump_ne by done. specialize (Hpos par). lia. }
  intros [] s3 (Hok3 & Hbec3 & (_ & _ & Hfc3 & Hvb3 & _)).
  rewrite Hg2, rehandle_trans in Hbec3. pose proof (becomes_trans _ _ _ _ _ Hb2 Hbec3) as Hb3.
  eapply wp_seq; [apply (entry_released hs (bump par (-1) hs2) s s3 par d n k); auto|].
  { apply (few_bounded hs); [done|]. unfold hs2. handles. }
  { unfold hs2. rewrite !bump_ne, bump_eq by congruence. done. }
  intros [] s4 (Hok4 & Hbec4 & (_ & _ & Hfc4 & Hvb4 & _)). apply wp_ret. split; [done|].
  split_and!; [|rewrite rehandle_same in Hbec4; [done|]|congruence|congruence].
  - eapply tree_ok_ext; [|exact Hok4]. unfold hs2. handles.
  - unfold hs2. handles.
Qed.
End unlink.

(** The lookups after an entry has gone. *)
Lemma find_child_without_entry hs r g par d k n a nm :
  graph_ok hs r None g -> g !! d = Some n -> up n = Some par -> key n = Some k -> kids n = [] ->
  find_child (without_entry hs g par d k) a nm =
  if decide (a = par /\ nm = k) then None else find_child g a nm.
Proof.
  intros Hok Hd Hu Hk Hnil. pose proof (up_neq _ _ _ _ _ _ _ Hok Hd Hu) as Hne.
  assert (H : find_child (remap (detached g par d k true) g) a nm =
              if decide (a = par /\ nm = k) then None else find_child g a nm).
  { unfold find_child. rewrite lookup_remap. destruct (g !! a) as [m|] eqn:Ea; cbn; [|by case_decide].
    unfold detached. destruct (Z.eqb_spec a d) as [->|Had]; cbn.
    - rewrite decide_False by (intros [? _]; congruence). done.
    - destruct (Z.eqb_spec a par) as [->|Hap]; cbn; [|repeat case_decide; tauto].
      rewrite hash_find_del by (by eapply ok_keys). repeat case_decide; tauto || done. }
  unfold without_entry. destruct (hs d =? 0); [|exact H].
  destruct (decide (a = d)) as [->|Had].
  - unfold find_child. rewrite lookup_delete_eq, Hd, Hnil. by case_decide.
  - rewrite <- H. unfold find_child. by rewrite lookup_delete_ne.
Qed.

Lemma hash_count_zero l : (hash_count l =? 0) = match l with [] => true | _ => false end.
Proof. unfold hash_count. destruct l; [done|]. apply Z.eqb_neq. cbn. lia. Qed.

Lemma follow_up hs s path d :
  tree_ok hs s -> path <> [] -> follow (graph s) (root s) path = inr d ->
  exists n par, heap s !! d = Some n /\ parent n = Some par.
Proof.
  intros Hok. generalize (root s) as a. induction path as [|nm rest IH]; intros a Hne; [done|].
  cbn [follow]. destruct (_ >? _); [done|].
  destruct (find_child (graph s) a nm) as [c|] eqn:Ec; [|done]. intros H.
  destruct (child_linked _ _ _ _ _ Hok Ec) as (cn & Hcn & Hup & _).
  destruct rest as [|nm' rest]; [injection H as <-; eauto|]. by apply (IH c).
Qed.

Lemma follow_nonzero g a p e : follow g a p = inl e -> e <> 0.
Proof.
  revert a. induction p as [|k p IH]; intros a; cbn; [done|].
  destruct (_ >? _); [by intros [= <-]|]. destruct (find_child g a k); [apply IH|by intros [= <-]].
Qed.

Lemma two_held hs par d : few hs -> bounded (bump par 1 (bump d 1 hs)).
Proof. intros H. apply (few_bounded hs); [done|]. handles. Qed.

(** What removing the entry at a path does. *)
Definition unlink_result (hs : Z -> Z) (s : fs_state) (path : list cstring)
    (r : Z * option (Z * Z)) (s' : fs_state) : Prop :=
  tree_ok hs s' /\
  match follow (graph s) (root s) path with
  | inl e => r = (e, None) /\ becomes s (graph s) s' /\ counters_kept s s'
  | inr d => exists n par k, heap s !! d = Some n /\ parent n = Some par
      /\ find_child (graph s) par k = Some d
      /\ match child_list n with
         | _ :: _ => r = (- LTFS_DIRNOTEMPTY, None) /\ becomes s (graph s) s' /\ counters_kept s s'
         | [] => r = (0, Some (uid n, ino n)) /\ becomes s (without_entry hs (graph s) par d k) s'
             /\ file_count s' = (if isdir n then file_count s else u64 (file_count s - 1))
             /\ valid_blocks s' = u64 (valid_blocks s - used_blocks n)
             /\ forall a nm, find_child (graph s') a nm =
                  if decide (a = par /\ nm = k) then None else find_child (graph s) a nm
         end
  end.

Lemma unlink_entry_at_ok now hs s path :
  tree_ok hs s -> few hs -> path_components path <> [] ->
  wp (unlink_entry_at now path) s (unlink_result hs s (path_components path)).
Proof.
  intros Hok Hfew Hroot. pose proof (ok_handles _ _ _ _ (t_graph _ _ Hok)) as Hpos. unfold unlink_entry_at.
  eapply wp_seq; [apply (counted_path_lookup hs hs s s); [done|by apply counted_refl|]|].
  { intros a. specialize (Hfew a). specialize (Hpos a). lia. }
  intros r s1 [-> Hc]. unfold unlink_result. destruct (follow _ _ _) as [e|d] eqn:E; cbn [lookup_handles] in Hc.
  { apply wp_ret. destruct Hc as (H1 & H2 & H3). rewrite rehandle_same in H2 by done. auto. }
  destruct (follow_up _ _ _ _ Hok Hroot E) as (n & par & Hd & Hup).
  destruct (linked_parent _ _ _ _ _ Hok Hd Hup) as (pn & k & Hp & Hlp & Hk & _ & Hchild).
  rewrite (lookup_graph _ _ _ Hd) in Hc. cbn [up core_of] in Hc. rewrite Hup in Hc.
  change (keeps_parent LOCK_PARENT_CONTENTS_W) with true in Hc. cbv iota in Hc.
  destruct (counted_lookup _ _ _ _ _ _ Hc Hd) as (n1 & Hn1 & En1).
  pose proof (counted_payload _ _ _ _ _ _ _ Hok Hc Hd Hn1) as Hpay.
  injection En1 as Eup Ekey Ekids Edir _ Erefs _. injection Hpay as Eino Euid _ _ _ Eused _ _ _ _.
  apply wp_bind, (wp_deref _ _ _ _ Hn1). rewrite Eup, Hup, Ekids, Edir, hash_count_zero.
  pose proof (ok_dirs _ _ _ _ (t_graph _ _ Hok) _ _ (lookup_graph _ _ _ Hd)) as Hdirs. cbn in Hdirs.
  destruct (child_list n) as [|e l] eqn:Ekid.
  - rewrite andb_false_r. destruct (counted_lookup _ _ _ _ _ _ Hc Hp) as (pn1 & Hpn1 & Epn1).
    injection Epn1 as _ _ Epk _ _ _ _. pose proof Hc as (Hok1 & Hb1 & _ & _ & Hfc & Hvb & _).
    pose proof (up_neq _ _ _ _ _ _ _ (t_graph _ _ Hok) (lookup_graph _ _ _ Hd) Hup) as Hne.
    apply wp_bind. eapply wp_update; [exact Hpn1|]. step_deref. rewrite Ekey, Hk.
    apply wp_bind, wp_name. cbn [child_list on_file set_file].
    unfold fs_find_key_from_hash_table. rewrite Epk.
    pose proof Hchild as Hentry. unfold find_child in Hchild. rewrite (lookup_graph _ _ _ Hp) in Hchild. cbn in Hchild.
    change (generate_hash_key_name k) with k. rewrite Hchild.
    eapply wp_seq; [apply (unlink_found_ok now s1 par d n1 pn1 k Hn1 Hpn1 Hne)|].
    { pose proof (refs_bound _ _ _ _ Hok1 (two_held _ _ _ Hfew) Hn1). lia. }
    cbn. intros id s2 (-> & Hrw & Hf2 & Hv2).
    eapply wp_mono; [apply (unlink_out_ok hs s par d pn n k Hok Hfew Hd Hp Hup Hk Ekid _ s1 s2 Hc Hrw)|].
    intros r s' (-> & Hok' & Hbec & Hf' & Hv'). split; [done|]. exists n, par, k.
    rewrite Ekid, Euid, Eino, Hf', Hv', Hf2, Hv2, Edir, Eused, Hfc, Hvb. split_and!; try done.
    intros a nm. rewrite (b_graph _ _ _ Hbec).
    apply (find_child_without_entry hs (root s) _ _ _ _ (core_of n)); try done; [apply (t_graph _ _ Hok)|].
    by apply lookup_graph.
  - destruct Hdirs as [-> _]; [done|]. cbn [andb negb]. unfold unlink_out.
    assert (Hld : linked (root s) d (core_of n) = true).
    { unfold linked. cbn. rewrite Hup, bool_decide_true, orb_true_r by (by eexists). done. }
    eapply wp_seq; [apply (counted_release _ _ _ _ par pn Hc); [by apply two_held|done| |done]|].
    { specialize (Hpos par). handles. }
    intros [] s2 Hc2.
    eapply wp_seq; [apply (counted_release _ _ _ _ d n Hc2); [|done| |done]|].
    { apply (few_bounded hs); [done|]. handles. }
    { specialize (Hpos d). handles. }
    intros [] s3 (H1 & H2 & H3). apply wp_ret. split.
    + eapply tree_ok_ext; [|exact H1]. handles.
    + exists n, par, k. rewrite Ekid. split_and!; try done. rewrite rehandle_same in H2; [done|]. handles.
Qed.

(** C15: removing an entry.  A path that leads nowhere gives the error of the lookup
    and a directory with entries is refused, and then nothing has changed.
    Otherwise exactly that entry is gone from its directory: its path leads
    nowhere and every path that does not begin with it leads where it led before;
    the dentry itself is freed at once if nobody has it open and kept, unlinked,
    if somebody has; the caller gets its id and the file and block counts go
    down.  No freed dentry is touched. *)
Theorem unlink_entry_at_spec now hs s path :
  tree_ok hs s -> few hs -> path_components path <> [] ->
  wp (unlink_entry_at now path) s (fun r s' =>
    unlink_result hs s (path_components path) r s'
    /\ (r.1 = 0 ->
        follow (graph s') (root s) (path_components path) = inl (- LTFS_NO_DENTRY)
        /\ forall q, ~ path_components path `prefix_of` q ->
             follow (graph s') (root s) q = follow (graph s) (root s) q)).
Proof.
  intros Hok Hfew Hne. eapply wp_mono; [by apply (unlink_entry_at_ok now hs)|]. intros r s' Hr.
  split; [done|]. intros E0. destruct Hr as [_ Hr]. destruct (follow _ _ _) as [e|d] eqn:E.
  { destruct Hr as [-> _]. cbn in E0. rewrite E0 in E. by apply follow_nonzero in E. }
  destruct Hr as (n & par & k & _ & _ & Hk & Hr). destruct (child_list n); [|by destruct Hr as [-> _]].
  destruct Hr as (_ & _ & _ & _ & Hch).
  destruct (path_components path) as [|k' p _] using rev_ind; [done|].
  apply follow_snoc in E as (x & Hx & Hlen & Hf).
  destruct (find_child_up _ _ _ _ _ _ _ (t_graph _ _ Hok) Hf) as (c & Hg & Hu & Hkey).
  destruct (find_child_up _ _ _ _ _ _ _ (t_graph _ _ Hok) Hk) as (c' & Hg' & Hu' & Hkey').
  assert (x = par) as -> by congruence. assert (k' = k) as -> by congruence.
  assert (Hother : forall a nm, ~ (a = par /\ nm = k) -> find_child (graph s') a nm = find_child (graph s) a nm)
    by (intros a nm Hn; by rewrite Hch, decide_False).
  split.
  - rewrite (follow_app _ _ _ _ par).
    + cbn. rewrite Hch, decide_True by done. by rewrite Z.gtb_ltb, (proj2 (Z.ltb_ge _ _)).
    + rewrite (follow_other hs s (graph s') p par k); [done|done|done|done|].
      intros [y Hy]. apply (f_equal length) in Hy. rewrite !length_app in Hy. cbn in Hy. lia.
  - intros q Hq. by apply (follow_other hs s (graph s') p par k).
Qed.
