(* ===== verification/RenameSpec.v ===== *)
(** * What renaming promises

    An entry moves from one directory of the tree to another, with everything
    below it, and replaces what has the new name there. *)

From S2P Require Import Prelude Errors Extents FsRaw Pathname IndexCriteria IndexCriteriaSpec.
From S2P Require Import FsTree FsOps FsGraph FsTreeSpec FsOpsSpec.
Open Scope Z_scope.
Open Scope ltfs_scope.

(** ** Counting handles beside a change of the graph *)

(** The counters of the index; only the cache of the name criteria may differ. *)
Definition counts_kept (s s' : fs_state) : Prop :=
  inode_number s' = inode_number s /\ uid_number s' = uid_number s
  /\ file_count s' = file_count s /\ valid_blocks s' = valid_blocks s /\ fresh s' = fresh s.

Lemma counters_counts s s' : counters_kept s s' -> counts_kept s s'.
Proof. unfold counters_kept, counts_kept. tauto. Qed.

Lemma counts_kept_trans s1 s2 s3 : counts_kept s1 s2 -> counts_kept s2 s3 -> counts_kept s1 s3.
Proof. unfold counts_kept. intuition congruence. Qed.

(** The graph has become [g], in which [h] counts the handles instead of [hs]. *)
Definition handled (hs h : Z -> Z) (s : fs_state) (g : gmap Z core) (s' : fs_state) : Prop :=
  tree_ok h s' /\ becomes s (rehandle hs h g) s' /\ counts_kept s s'.

Lemma handled_ext hs h h' s g s' : handled hs h s g s' -> (forall a, h a = h' a) -> handled hs h' s g s'.
Proof.
  intros (H1 & H2 & H3) E. split; [by eapply tree_ok_ext|]. by rewrite (rehandle_ext hs h' h).
Qed.

Lemma handled_lookup hs h s g s' a c :
  handled hs h s g s' -> g !! a = Some c ->
  exists n, heap s' !! a = Some n /\ core_of n = set_refs (refs c + (h a - hs a)) c.
Proof.
  intros (_ & Hb & _) Hc. destruct (graph_lookup s' a (set_refs (refs c + (h a - hs a)) c)) as (n & Hn & E).
  - rewrite (b_graph _ _ _ Hb). unfold rehandle. by rewrite lookup_remap, Hc.
  - by exists n.
Qed.

Lemma handled_release hs h s g s' a c :
  handled hs h s g s' -> bounded h -> g !! a = Some c -> linked (root s) a c = true -> 0 < h a ->
  wp (fs_release_dentry a) s' (fun _ => handled hs (bump a (-1) h) s g).
Proof.
  intros Hh Hb Hc Hl Hpos. destruct (handled_lookup _ _ _ _ _ _ _ Hh Hc) as (n & Hn & E).
  destruct Hh as (Hok & Hbec & Hk).
  eapply wp_mono; [apply (release_linked_ok h s' a n); auto|].
  - rewrite (b_root _ _ _ Hbec), E. exact Hl.
  - intros [] s2 (H1 & H2 & H3). split_and!; [done| |by eapply counts_kept_trans, counters_counts].
    rewrite (b_graph _ _ _ Hbec), rehandle_trans in H2. by eapply becomes_trans.
Qed.

(** Any number of dentries rewritten in the heap. *)
Lemma rewritten_nodes (xs : list Z) s s' F :
  (forall a, a ∈ xs -> exists n n', heap s !! a = Some n /\ heap s' !! a = Some n'
     /\ core_of n' = F a (core_of n) /\ payload n' = payload n /\ (node_ok n -> node_ok n')) ->
  (forall a, a ∉ xs -> heap s' !! a = heap s !! a) ->
  (forall a c, a ∉ xs -> F a c = c) ->
  root s' = root s -> fresh s' = fresh s -> rewritten s F s'.
Proof.
  intros Hin Hout HF Hr Hf. constructor; auto.
  - apply map_eq. intros a. unfold graph. rewrite lookup_remap, !lookup_fmap.
    destruct (decide (a ∈ xs)) as [Ha|Ha].
    + destruct (Hin a Ha) as (n & n' & -> & -> & E & _). cbn. by rewrite E.
    + rewrite (Hout a Ha). destruct (heap s !! a); cbn; [|done]. by rewrite HF.
  - intros a n' Hn'. destruct (decide (a ∈ xs)) as [Ha|Ha].
    + destruct (Hin a Ha) as (n & m & Hn & Hm & _ & ? & ?). assert (m = n') as -> by congruence. by exists n.
    + rewrite (Hout a Ha) in Hn'. by exists n'.
Qed.

(** ** Moving an entry, as a change of the graph *)

Definition moved_core (g : gmap Z core) (fd td d : Z) (k k' : cstring) (a : Z) (n : core) : core :=
  attached g td d k' a (detached g fd d k false a n).

Definition relinked (g : gmap Z core) (fd td d : Z) (k k' : cstring) : gmap Z core :=
  remap (moved_core g fd td d k k') g.

Lemma relinked_remap g fd td d k k' :
  relinked g fd td d k k' =
  remap (attached (remap (detached g fd d k false) g) td d k') (remap (detached g fd d k false) g).
Proof.
  apply map_eq. intros a. unfold relinked. rewrite !lookup_remap. destruct (g !! a); [|done]. cbn.
  unfold moved_core, attached. by rewrite is_dir_remap by apply dir_detached.
Qed.

Lemma below_detached g fd d k m x a :
  below (remap (detached g fd d k m) g) x a -> below g x a.
Proof.
  induction 1 as [|a n p Ha Hu _ IH]; [constructor|].
  apply remap_Some in Ha as (c & Ha & ->). apply (below_up _ _ _ c p); [done| |done].
  unfold detached in Hu. destruct (a =? d); [done|]. by destruct (a =? fd).
Qed.

Lemma relinked_ok h r g fd td d c tc k k' :
  graph_ok h r None g -> g !! d = Some c -> up c = Some fd -> key c = Some k -> 0 < h d ->
  g !! td = Some tc -> dir tc = true -> linked r td tc = true -> ~ below g d td ->
  (hash_find (kids tc) k' = None \/ td = fd /\ k' = k) ->
  graph_ok h r None (relinked g fd td d k k').
Proof.
  intros Hok Hd Hup Hkey Hh Htd Hdir Hl Hnb Hfree. rewrite relinked_remap.
  assert (Hne : td <> d) by (intros ->; apply Hnb; constructor).
  set (f := detached g fd d k false).
  apply (attach_ok h r (Some d) _ td d (f d c) (f td tc)).
  - apply (detach_ok h r (Some d) g fd d c k false); auto.
  - by rewrite lookup_remap, Hd.
  - by rewrite lookup_remap, Htd.
  - unfold f, detached. by rewrite Z.eqb_refl.
  - by eapply root_not_up.
  - unfold f, detached. by rewrite Z.eqb_refl.
  - unfold f. by rewrite dir_detached.
  - unfold linked, f, detached. rewrite (proj2 (Z.eqb_neq _ _) Hne). destruct (td =? fd); exact Hl.
  - apply hash_find_None. unfold f, detached. rewrite (proj2 (Z.eqb_neq _ _) Hne).
    destruct (Z.eqb_spec td fd) as [->|Hn]; [|destruct Hfree as [?|[? _]]; done].
    cbn. rewrite hash_find_del by (by eapply ok_keys). case_decide; [done|]. destruct Hfree as [?|[_ ?]]; done.
  - intros H. by apply below_detached in H.
  - by right.
Qed.

Lemma find_child_relinked hs r g fd td d c k k' a nm :
  graph_ok hs r None g -> g !! d = Some c -> up c = Some fd -> td <> d -> is_Some (g !! td) ->
  find_child (relinked g fd td d k k') a nm =
  if decide (a = td /\ nm = k') then Some d
  else if decide (a = fd /\ nm = k) then None else find_child g a nm.
Proof.
  intros Hok Hd Hup Htd [tc Htc]. pose proof (up_neq _ _ _ _ _ _ _ Hok Hd Hup) as Hfd.
  unfold find_child, relinked. rewrite lookup_remap.
  destruct (g !! a) as [m|] eqn:Ea; cbn.
  2: { rewrite decide_False by (intros [-> _]; congruence). by case_decide. }
  unfold moved_core, attached, detached. destruct (Z.eqb_spec a d) as [->|Had]; cbn.
  { rewrite !decide_False by (intros [? _]; congruence). done. }
  assert (Hdel : hash_find (kids (if a =? fd
              then {| up := up m; key := key m; kids := hash_del (kids m) k; dir := dir m; gone := gone m;
                      refs := refs m; links := if is_dir g d then u32 (links m - 1) else links m |}
              else m)) nm = if decide (a = fd /\ nm = k) then None else hash_find (kids m) nm).
  { destruct (Z.eqb_spec a fd) as [->|Haf]; cbn.
    - rewrite hash_find_del by (by eapply ok_keys). repeat case_decide; tauto || done.
    - rewrite decide_False by tauto. done. }
  destruct (Z.eqb_spec a td) as [->|Hat]; cbn.
  - destruct (decide (k' = nm)) as [->|Hk]; [by rewrite decide_True|].
    rewrite (decide_False (P := td = td /\ nm = k')) by (intros [_ ?]; congruence). exact Hdel.
  - rewrite (decide_False (P := a = td /\ nm = k')) by tauto. exact Hdel.
Qed.

Lemma relinked_rehandle hs h g fd td d k k' :
  relinked (rehandle hs h g) fd td d k k' = rehandle hs h (relinked g fd td d k k').
Proof.
  apply map_eq. intros a. unfold relinked, rehandle. rewrite !lookup_remap.
  destruct (g !! a) as [n|]; [|done]. cbn. f_equal. unfold moved_core, attached, detached.
  rewrite is_dir_remap by done.
  destruct (a =? d); [|destruct (a =? fd), (a =? td)]; cbn; unfold set_refs; cbn; f_equal; lia.
Qed.

Lemma without_entry_lookup hs g par t k a :
  a <> t -> without_entry hs g par t k !! a = detached g par t k true a <$> g !! a.
Proof.
  intros Ha. unfold without_entry. destruct (hs t =? 0); [rewrite lookup_delete_ne by done|]; apply lookup_remap.
Qed.

Lemma below_without_entry hs g par t k x a : below (without_entry hs g par t k) x a -> below g x a.
Proof.
  unfold without_entry. destruct (hs t =? 0); [|apply below_detached]. intros H.
  apply (below_detached g par t k true). induction H as [|a n p [_ Ha]%lookup_delete_Some Hu _ IH]; [constructor|].
  by eapply below_up.
Qed.

(** ** Steps of [rename_replace] *)

Lemma replace_steps s1 td t n1 pn1 k (Q : option Z -> fs_state -> Prop) :
  heap s1 !! t = Some n1 -> heap s1 !! td = Some pn1 -> td <> t -> 0 < numhandles n1 < 2 ^ 32 ->
  platform_safe_name n1 = Some k -> isdir pn1 = true -> hash_find (child_list pn1) k = Some t ->
  (forall s2, rewritten s1 (detached (graph s1) td t k true) s2 -> counters_kept s1 s2 ->
     wp (fs_release_dentry t ;;; ret_op None) s2 Q) ->
  wp ((if isdir n1 then update td (fun p => set_link_count (u32 (link_count p - 1)) p) else ret_op tt) ;;;
      update t (fun n => set_deleted true (set_parent None (set_link_count (u32 (link_count n - 1))
                           (set_numhandles (u32 (numhandles n - 1)) n)))) ;;;
      let* pn := deref td in
      let* nm := the_name (platform_safe_name n1) in
      match fs_find_key_from_hash_table (child_list pn) nm with
      | None => ret_op (Some 0)
      | Some _ =>
          update td (set_child_list (hash_del (child_list pn) nm)) ;;;
          (if isdir pn then ret_op tt else update_state fs_decrement_file_count) ;;;
          fs_release_dentry_unlocked t ;;; ret_op None
      end) s1 Q.
Proof.
  intros Ht Hp Hne Hrefs Hk Hpdir Hfind HQ.
  assert (Hdir : is_dir (graph s1) t = isdir n1)
    by (by rewrite (is_dir_lookup _ _ _ (lookup_graph _ _ _ Ht))).
  rewrite Hk. unfold fs_find_key_from_hash_table, generate_hash_key_name.
  apply wp_bind. destruct (isdir n1) eqn:Ed; [eapply wp_update; [find_dentry|]|apply wp_ret].
  all: step_update; step_deref; apply wp_bind, wp_name; cbn [child_list set_link_count]; rewrite Hfind.
  all: step_update; cbn [isdir set_link_count]; rewrite Hpdir; apply wp_bind, wp_ret, HQ; [|done].
  all: eapply (rewritten_two _ _ _ td t pn1 n1); [done|done|done|find_dentry|find_dentry|..];
    try reflexivity.
  all: try (intros a Ha1 Ha2; find_dentry; reflexivity).
  all: try (by intros [? ? ?]; constructor).
  all: try (intros a c Ha1 Ha2; unfold detached; by rewrite (proj2 (Z.eqb_neq _ _) Ha1), (proj2 (Z.eqb_neq _ _) Ha2)).
  all: unfold detached; rewrite ?Z.eqb_refl, ?(proj2 (Z.eqb_neq _ _) Hne), ?Hdir; cbn; try reflexivity.
  all: unfold core_of; cbn; by rewrite (u32_small (numhandles n1 - 1)) by lia.
Qed.

(** ** Steps of [rename_move] *)

Lemma u32_pred_succ x : u32 (u32 (u32 x - 1) + 1) = u32 x.
Proof. rewrite (u32_succ (u32 x - 1)) by done. replace (u32 x - 1 + 1) with (u32 x) by lia. apply u32_u32. Qed.

Lemma rename_move_steps icu graphemes now s fd td d n fn tn k k' x (Q : bool -> fs_state -> Prop) :
  heap s !! d = Some n -> heap s !! fd = Some fn -> heap s !! td = Some tn -> fd <> d -> td <> d ->
  platform_safe_name n = Some k -> hash_find (child_list fn) k = Some d -> name_ok k' ->
  link_count n = u32 x -> deleted n = false ->
  (forall s2, rewritten s (moved_core (graph s) fd td d k k') s2 -> counts_kept s s2 ->
     wp (fs_release_dentry d ;;; ret_op true) s2 Q) ->
  wp (rename_move icu graphemes now fd td d k') s Q.
Proof.
  intros Hd Hf Ht Hfd Htd Hk Hfind Hk' Hlinks Hgone HQ.
  assert (Hdir : is_dir (graph s) d = isdir n)
    by (by rewrite (is_dir_lookup _ _ _ (lookup_graph _ _ _ Hd))).
  unfold rename_move. apply wp_bind, (wp_deref _ _ _ _ Hd), wp_bind, (wp_deref _ _ _ _ Hf).
  rewrite Hk. apply wp_bind, wp_name. unfold fs_find_key_from_hash_table, generate_hash_key_name.
  rewrite Hfind. step_update. apply wp_bind.
  destruct (decide (td = fd)) as [->|Hne]; [assert (tn = fn) as -> by congruence|].
  all: destruct (isdir n) eqn:Ed; [step_update; eapply wp_update; [find_dentry|]|apply wp_ret].
  all: step_update; step_update; step_update.
  all: eapply wp_seq; [eapply match_criteria_ok; [find_dentry|reflexivity]|]; intros b s1 [ic ->].
  all: step_update; step_deref; unfold fs_add_key_to_hash_table.
  all: apply wp_bind; step_deref; apply wp_bind, wp_name, wp_ret; step_update; apply HQ; [|done].
  1, 2: apply (rewritten_nodes [fd; d]).
  11, 12: apply (rewritten_nodes [fd; td; d]).
  all: try reflexivity.
  all: try (intros a Ha; rewrite !not_elem_of_cons in Ha; destruct_and! Ha; find_dentry; reflexivity).
  all: try (intros a c Ha; rewrite !not_elem_of_cons in Ha; destruct_and! Ha;
    unfold moved_core, attached, detached; rewrite !(proj2 (Z.eqb_neq _ _)) by done; done).
  all: intros a Ha; repeat (apply elem_of_cons in Ha as [->|Ha]); try by apply elem_of_nil in Ha.
  all: eexists _, _; split; [eassumption|]; split; [find_dentry|]; split; [|split; [reflexivity|]].
  all: try (intros [H1 H2 H3]; constructor; cbn; [done|done|]; intros ? ?; solve [congruence|auto]).
  all: unfold moved_core, attached, detached; rewrite ?Z.eqb_refl, ?is_dir_remap, ?Hdir by apply dir_detached.
  all: rewrite ?(proj2 (Z.eqb_neq fd d)), ?(proj2 (Z.eqb_neq td d)), ?(proj2 (Z.eqb_neq fd td)),
         ?(proj2 (Z.eqb_neq td fd)), ?Z.eqb_refl by done.
  all: unfold core_of; cbn; rewrite ?Hlinks, ?u32_pred_succ, ?Hgone; try reflexivity.
  all: f_equal; lia.
Qed.

(** ** The lookups *)

Definition hold_opt (o : option Z) (h : Z -> Z) : Z -> Z :=
  match o with Some d => bump d 1 h | None => h end.

(** Why nothing is renamed: the first three are the lookups. *)
Definition rename_refused (g : gmap Z core) (fd : Z) (fnm : cstring) (td : Z) (tnm : cstring) (ret : Z) : Prop :=
  child_result g fd fnm = inl ret
  \/ child_result g td tnm = inl ret
  \/ ret = - LTFS_NO_DENTRY /\ (forall d, child_result g fd fnm <> inr (Some d))
  \/ exists d to, child_result g fd fnm = inr (Some d) /\ child_result g td tnm = inr to
     /\ (ret = - LTFS_RENAMELOOP /\ below g d td
         \/ exists t, to = Some t
            /\ (ret = (if is_dir g d then - LTFS_DIRNOTEMPTY else - LTFS_ISFILE)
                /\ ~ below g d td /\ below g t fd
                \/ ret = - LTFS_DIRNOTEMPTY /\ t <> d
                   /\ exists tc, g !! t = Some tc /\ kids tc <> [])).

(** When [d] can be renamed. *)
Definition rename_possible (g : gmap Z core) (fd : Z) (fnm : cstring) (td : Z) (tnm : cstring)
    (d : Z) (to : option Z) : Prop :=
  child_result g fd fnm = inr (Some d) /\ child_result g td tnm = inr to /\ ~ below g d td
  /\ forall t, to = Some t -> ~ below g t fd.

Lemma child_result_found g a nm d : child_result g a nm = inr (Some d) -> find_child g a nm = Some d.
Proof. unfold child_result. destruct (_ >? _); congruence. Qed.

Lemma child_result_negative g a nm e : child_result g a nm = inl e -> e < 0.
Proof. unfold child_result. destruct (_ >? _); [|done]. by intros [= <-]. Qed.

Section rename.
Context (icu : icu_lib) (graphemes : list Z -> option (list (list Z))).
Context (now : Z * Z) (hs : Z -> Z) (s : fs_state) (fd td : Z) (fn tn : fsnode).
Context (fnm tnm : cstring).
Context (Hok : tree_ok hs s) (Hfew : few hs).
Context (Hfd : heap s !! fd = Some fn) (Htd : heap s !! td = Some tn).
Context (Hfl : linked (root s) fd (core_of fn) = true) (Htl : linked (root s) td (core_of tn) = true).
Context (Htdir : isdir tn = true) (Hname : tnm <> [] /\ Forall (fun b => b <> SLASH) tnm).

Let h := bump td 1 (bump fd 1 hs).
Let g := graph s.
Let Hpos : forall a, 0 <= hs a := ok_handles _ _ _ _ (t_graph _ _ Hok).

Lemma rename_bounded h' : (forall a, h' a <= hs a + 8) -> bounded h'.
Proof. by apply few_bounded. Qed.

Ltac in_bounds := apply rename_bounded; unfold h, hold_opt; handles.

Lemma found_linked a nm d :
  child_result g a nm = inr (Some d) ->
  exists n, heap s !! d = Some n /\ parent n = Some a /\ linked (root s) d (core_of n) = true.
Proof.
  intros H. destruct (child_linked _ _ _ _ _ Hok (child_result_found _ _ _ _ H)) as (n & ? & ? & ? & _).
  by exists n.
Qed.

(** Giving a dentry back, whichever way. *)
Lemma give_back_ok h1 s1 d n keep :
  counted hs h1 s s1 -> bounded h1 -> heap s !! d = Some n -> linked (root s) d (core_of n) = true ->
  0 < h1 d ->
  wp (give_back d keep) s1 (fun _ => counted hs (bump d (-1) h1) s).
Proof.
  intros Hc Hb Hn Hl Hh. unfold give_back. destruct (d =? keep).
  - by apply (counted_drop _ _ _ _ _ n Hc).
  - by apply (counted_release _ _ _ _ _ n Hc).
Qed.

Lemma give_back_opt_ok h1 s1 a nm to keep :
  counted hs (hold_opt to h1) s s1 -> (forall b, hs b <= h1 b <= hs b + 7) ->
  child_result g a nm = inr to ->
  wp (give_back_opt to keep) s1 (fun _ => counted hs h1 s).
Proof.
  intros Hc Hb Hto. destruct to as [t|]; cbn [give_back_opt hold_opt] in *; [|by apply wp_ret].
  destruct (found_linked _ _ _ Hto) as (n & Hn & _ & Hl).
  eapply wp_mono; [apply (give_back_ok _ _ t n keep Hc)|]; auto.
  - apply rename_bounded. intros b. specialize (Hb b). handles.
  - specialize (Hpos t). specialize (Hb t). handles.
  - intros [] s2 Hc2. eapply counted_ext; [|exact Hc2]. handles.
Qed.

(** The id that is reported with an error. *)
Definition seen (od : option Z) : Prop := forall d, od = Some d -> is_Some (g !! d).

Lemma found_seen a nm d : child_result g a nm = inr (Some d) -> seen (Some d).
Proof.
  intros H ? [= <-]. destruct (found_linked _ _ _ H) as (n & Hn & _). exists (core_of n).
  by apply lookup_graph.
Qed.

Lemma rename_lookup_ok s1 :
  counted hs h s s1 ->
  wp (rename_lookup fd fnm td tnm) s1 (fun r s2 =>
    match r with
    | inl (e, od) => counted hs h s s2 /\ e < 0 /\ rename_refused g fd fnm td tnm e /\ seen od
    | inr (d, to) => child_result g fd fnm = inr (Some d) /\ child_result g td tnm = inr to
                     /\ counted hs (hold_opt to (bump d 1 h)) s s2
    end).
Proof.
  intros Hc. unfold rename_lookup. assert (Hnone : seen None) by (by intros ?).
  eapply wp_seq with (P := fun _ s2 => counted hs h s s2).
  { destruct (td =? fd); [by apply wp_ret|].
    eapply wp_mono; [by apply (counted_is_predecessor hs h s s1 td fd fn)|]. by intros b s2 [_ H]. }
  intros [|] s2 Hc2.
  - eapply wp_seq; [apply (counted_directory_lookup _ _ _ _ td tn Hc2); [in_bounds|done]|].
    intros rt s3 [-> Hc3]. fold g in Hc3 |- *.
    destruct (child_result g td tnm) as [e|to] eqn:Et.
    { apply wp_ret. split_and!; [exact Hc3|by eapply child_result_negative|right; by left|done]. }
    assert (Hc3' : counted hs (hold_opt to h) s s3) by (by destruct to). clear Hc3.
    eapply wp_seq; [apply (counted_directory_lookup _ _ _ _ fd fn Hc3'); [|done]|].
    { destruct to; in_bounds. }
    intros rf s4 [-> Hc4]. fold g in Hc4 |- *. destruct (child_result g fd fnm) as [e|[d|]] eqn:Ef.
    1, 3: eapply wp_seq; [eapply (give_back_opt_ok h s4 td tnm to fd); [exact Hc4| |done];
            intros b; unfold h; specialize (Hpos b); handles|].
    1, 2: intros [] s5 Hc5; apply wp_ret; split_and!; [exact Hc5|done|right; right; left; split; [done|]; congruence|done].
    apply wp_ret. split_and!; [done|done|]. eapply counted_ext; [|exact Hc4].
    destruct to as [t|]; cbn [hold_opt hold_result]; handles.
  - eapply wp_seq; [apply (counted_directory_lookup _ _ _ _ fd fn Hc2); [in_bounds|done]|].
    intros rf s3 [-> Hc3]. fold g in Hc3 |- *. destruct (child_result g fd fnm) as [e|[d|]] eqn:Ef.
    { apply wp_ret. split_and!; [exact Hc3|by eapply child_result_negative|by left|done]. }
    2: { apply wp_ret. split_and!; [exact Hc3|done|right; right; left; split; [done|]; congruence|done]. }
    cbn [hold_result] in Hc3.
    eapply wp_seq; [apply (counted_directory_lookup _ _ _ _ td tn Hc3); [in_bounds|done]|].
    intros rt s4 [-> Hc4]. fold g in Hc4 |- *. destruct (found_linked _ _ _ Ef) as (n & Hn & _ & Hl).
    destruct (child_result g td tnm) as [e|to] eqn:Et; cbn [hold_result] in Hc4.
    + eapply wp_seq; [apply (give_back_ok _ _ d n td Hc4)|]; auto; [in_bounds| |].
      { specialize (Hpos d). unfold h. handles. }
      intros [] s5 Hc5. apply wp_ret. split_and!.
      * eapply counted_ext; [|exact Hc5]. handles.
      * by eapply child_result_negative.
      * right. by left.
      * by eapply found_seen.
    + apply wp_ret. split_and!; [done|done|]. by destruct to.
Qed.

(** ** The extra failure cases *)

Lemma rename_allowed_ok s1 h1 d to :
  counted hs h1 s s1 -> child_result g fd fnm = inr (Some d) -> child_result g td tnm = inr to ->
  wp (rename_allowed fd td d to) s1 (fun ret s2 =>
    counted hs h1 s s2
    /\ (ret = 0 /\ rename_possible g fd fnm td tnm d to
        \/ ret < 0 /\ rename_refused g fd fnm td tnm ret)).
Proof.
  intros Hc Hd Hto. unfold rename_allowed. destruct (found_linked _ _ _ Hd) as (n & Hn & _).
  eapply wp_seq with (P := fun b s2 => (b = true <-> below g d td) /\ counted hs h1 s s2).
  { destruct (Z.eqb_spec d td) as [->|_]; [apply wp_ret; split; [split; [constructor|done]|done]|].
    by apply (counted_is_predecessor hs h1 s s1 d td tn). }
  intros loop s2 [Hloop Hc2]. destruct loop.
  { apply wp_ret. split; [done|]. right. split; [done|]. right. right. right.
    exists d, to. split_and!; [done|done|]. left. split; [done|]. by apply Hloop. }
  assert (Hnl : ~ below g d td) by (rewrite <- Hloop; done).
  destruct to as [t|].
  2: { apply wp_ret. split; [done|]. left. split; [done|]. by split_and!. }
  eapply wp_seq with (P := fun b s3 => (b = true <-> below g t fd) /\ counted hs h1 s s3).
  { destruct (Z.eqb_spec t fd) as [->|_]; [apply wp_ret; split; [split; [constructor|done]|done]|].
    by apply (counted_is_predecessor hs h1 s s2 t fd fn). }
  intros over s3 [Hover Hc3]. destruct over.
  - destruct (counted_lookup _ _ _ _ _ _ Hc3 Hn) as (n3 & Hn3 & E).
    apply wp_bind, (wp_deref _ _ _ _ Hn3), wp_ret. split; [done|]. right.
    assert (Hdir : isdir n3 = is_dir g d).
    { unfold g. rewrite (is_dir_lookup _ _ _ (lookup_graph _ _ _ Hn)).
      change (dir (core_of n3) = dir (core_of n)). by rewrite E. }
    split; [by destruct (isdir n3)|]. right. right. right. exists d, (Some t). split_and!; [done|done|].
    right. exists t. split; [done|]. left. rewrite Hdir. split_and!; [done|done|by apply Hover].
  - apply wp_ret. split; [done|]. left. split; [done|]. split_and!; [done|done|done|].
    intros ? [= <-]. rewrite <- Hover. done.
Qed.

(** ** Replacing what has the new name *)

Lemma rename_replace_ok s1 d t :
  counted hs (bump t 1 (bump d 1 h)) s s1 ->
  child_result g fd fnm = inr (Some d) -> child_result g td tnm = inr (Some t) -> t <> d ->
  ~ below g t fd ->
  wp (rename_replace td d t) s1 (fun stop s2 =>
    match stop with
    | Some ret => ret < 0 /\ rename_refused g fd fnm td tnm ret /\ counted hs h s s2
    | None => (exists tc, g !! t = Some tc /\ kids tc = [])
              /\ handled hs (bump d 1 h) s (without_entry hs g td t tnm) s2
    end).
Proof.
  intros Hc Hd Ht Hne Hover. destruct (found_linked _ _ _ Hd) as (n & Hn & Hup & Hl).
  destruct (found_linked _ _ _ Ht) as (nt & Hnt & Hupt & Hlt).
  pose proof (up_neq _ _ _ _ _ _ _ (t_graph _ _ Hok) (lookup_graph _ _ _ Hnt) Hupt) as Hnt_td.
  destruct (find_child_up _ _ _ _ _ _ _ (t_graph _ _ Hok) (child_result_found _ _ _ _ Ht)) as (tc & Htc & _ & Hkey).
  rewrite (lookup_graph _ _ _ Hnt) in Htc. injection Htc as <-. cbn in Hkey.
  destruct (counted_lookup _ _ _ _ _ _ Hc Hnt) as (nt1 & Hnt1 & Et).
  injection Et as Eup Ekey Ekids Edir _ Erefs _.
  destruct (counted_dir _ _ _ _ _ _ Hc Htd Htdir Htl) as (tn1 & Htn1 & Htdir1 & _).
  assert (Hsmall : forall a, bump t 1 (bump d 1 h) a <= hs a + 8) by (unfold h; handles).
  unfold rename_replace. apply wp_bind, (wp_deref _ _ _ _ Hnt1). rewrite Edir, Ekids, hash_count_zero.
  destruct (child_list nt) as [|e l] eqn:Ekid.
  - rewrite andb_false_r. rewrite <- Edir. eapply (replace_steps s1 td t nt1 tn1 tnm); auto.
    + pose proof (refs_bound _ _ _ _ (proj1 Hc) (rename_bounded _ Hsmall) Hnt1). lia.
    + congruence.
    + pose proof (child_result_found _ _ _ _ Ht) as Hf. unfold g in Hf.
      rewrite <- (counted_child _ _ _ _ _ _ Hc) in Hf. unfold find_child in Hf.
      by rewrite (lookup_graph _ _ _ Htn1) in Hf.
    + intros s2 Hrw Hk2. destruct (entry_gone hs (bump t 1 (bump d 1 h)) s s1 s2 td t nt tnm Hnt Hupt Hkey Ekid) as (H1 & H2 & H3); auto.
      { specialize (Hpos t). unfold h. handles. }
      rewrite H2 in H3.
      eapply wp_seq; [apply (entry_released hs (bump t 1 (bump d 1 h)) s s2 td t nt tnm Hok Hnt Hupt H1 H3)|].
      * by apply rename_bounded.
      * unfold h. rewrite bump_eq, !bump_ne; [done|..]; try congruence.
        intros ->. apply Hover. constructor.
      * intros [] s3 (Ho & Hb & Hk3). apply wp_ret. split.
        -- exists (core_of nt). split; [by apply lookup_graph|done].
        -- apply (handled_ext _ (bump t (-1) (bump t 1 (bump d 1 h)))); [|handles].
           split_and!; [done|done|]. eapply counts_kept_trans; [apply counters_counts, Hc|].
           by eapply counters_counts, counters_kept_trans.
  - destruct (ok_dirs _ _ _ _ (t_graph _ _ Hok) _ _ (lookup_graph _ _ _ Hnt)) as [Hdirt _]; [by cbn; rewrite Ekid|].
    cbn in Hdirt. rewrite Hdirt. cbn [andb negb].
    eapply wp_seq; [apply (counted_release _ _ _ _ d n Hc); [by apply rename_bounded|done| |done]|].
    { specialize (Hpos d). unfold h. handles. }
    intros [] s2 Hc2.
    eapply wp_seq; [apply (counted_release _ _ _ _ t nt Hc2); [in_bounds|done| |done]|].
    { specialize (Hpos t). unfold h. handles. }
    intros [] s3 Hc3. apply wp_ret. split_and!; [done| |eapply counted_ext; [|exact Hc3]; handles].
    right. right. right. exists d, (Some t). split_and!; [done|done|]. right. exists t. split; [done|].
    right. split_and!; [done|done|]. exists (core_of nt). split; [by apply lookup_graph|].
    cbn. by rewrite Ekid.
Qed.

(** ** Moving the entry *)

Lemma rename_move_ok s3 g0 d c tc :
  handled hs (bump d 1 h) s g0 s3 ->
  g0 !! d = Some c -> up c = Some fd -> key c = Some fnm -> find_child g0 fd fnm = Some d ->
  g0 !! td = Some tc -> dir tc = true -> linked (root s) td tc = true -> ~ below g0 d td ->
  find_child g0 td tnm = None \/ td = fd /\ tnm = fnm -> name_ok tnm ->
  wp (rename_move icu graphemes now fd td d tnm) s3 (fun moved s4 =>
    moved = true /\ handled hs h s (relinked g0 fd td d fnm tnm) s4
    /\ forall a nm, find_child (relinked g0 fd td d fnm tnm) a nm =
         if decide (a = td /\ nm = tnm) then Some d
         else if decide (a = fd /\ nm = fnm) then None else find_child g0 a nm).
Proof.
  intros Hh Hd Hup Hkey Hfind Ht Hdir Hl Hnb Hfree Hnm.
  assert (Htd_d : td <> d) by (intros ->; apply Hnb; constructor).
  destruct (handled_lookup _ _ _ _ _ _ _ Hh Hd) as (n & Hn & En).
  destruct (handled_lookup _ _ _ _ _ _ _ Hh Ht) as (tn3 & Htn3 & Et).
  destruct (g0 !! fd) as [fc|] eqn:Ef; [|unfold find_child in Hfind; by rewrite Ef in Hfind].
  destruct (handled_lookup _ _ _ _ _ _ _ Hh Ef) as (fn3 & Hfn3 & Ef3).
  pose proof Hh as (Hok3 & Hbec & Hkept). pose proof (t_graph _ _ Hok3) as Hg3.
  pose proof (lookup_graph _ _ _ Hn) as Hgn. pose proof Hgn as Hgn'. rewrite En in Hgn'.
  pose proof (up_neq _ _ _ _ _ _ _ Hg3 Hgn' Hup) as Hfd_d.
  destruct (ok_parent _ _ _ _ Hg3 _ _ _ Hgn' Hup) as (_ & _ & _ & _ & _ & Hgone).
  pose proof (ok_links _ _ _ _ Hg3 _ _ Hgn) as Hlinks. rewrite En in Hlinks at 1.
  assert (Hdn : 0 < bump d 1 h d) by (specialize (Hpos d); unfold h; handles).
  injection En as Eup Ekey _ _ Egone _ Elinks. injection Ef3 as _ _ Efk _ _ _ _.
  cbn in Hlinks, Hgone.
  eapply (rename_move_steps _ _ _ s3 fd td d n fn3 tn3 fnm tnm); try done; try congruence.
  { rewrite Efk. unfold find_child in Hfind. by rewrite Ef in Hfind. }
  { rewrite Elinks. exact Hlinks. }
  intros s4 Hrw Hk4. set (h3 := bump d 1 h) in *.
  assert (Hg4 : graph s4 = rehandle hs h3 (relinked g0 fd td d fnm tnm)).
  { rewrite (rw_graph _ _ _ Hrw), <- relinked_rehandle, (b_graph _ _ _ Hbec). done. }
  assert (Hh4 : handled hs h3 s (relinked g0 fd td d fnm tnm) s4).
  { split_and!; [| |by eapply counts_kept_trans].
    - apply (rewritten_tree_ok h3 h3 s3 _ s4 Hok3 Hrw).
      + apply (relinked_ok h3 (root s3) (graph s3) fd td d (core_of n) (core_of tn3)); try done; try (cbn; congruence).
        * by apply lookup_graph.
        * rewrite Et. exact Hdir.
        * rewrite Et, (b_root _ _ _ Hbec). exact Hl.
        * by rewrite (b_graph _ _ _ Hbec), below_rehandle.
        * destruct Hfree as [Hfree|?]; [left|by right]. rewrite Et. unfold find_child in Hfree.
          by rewrite Ht in Hfree.
      + intros x. unfold moved_core, attached, detached.
        rewrite (proj2 (Z.eqb_neq _ _)); [by destruct (_ =? fd), (_ =? td)|].
        intros E. symmetry in E. by eapply root_not_up.
    - rewrite <- Hg4. eapply becomes_trans; [exact Hbec|]. rewrite (rw_graph _ _ _ Hrw).
      by eapply rewritten_becomes. }
  eapply wp_seq; [eapply (handled_release _ _ _ _ _ d _ Hh4)|].
  - apply rename_bounded. unfold h3, h. handles.
  - unfold relinked. by rewrite lookup_remap, Hd.
  - unfold linked, moved_core, attached. rewrite Z.eqb_refl. apply orb_true_r.
  - done.
  - intros [] s5 Hh5. apply wp_ret. split; [done|].
    split; [eapply handled_ext; [exact Hh5|]; unfold h3; handles|]. intros a nm.
    rewrite <- (find_child_rehandle hs h3), <- relinked_rehandle, <- (find_child_rehandle hs h3 g0).
    rewrite <- (b_graph _ _ _ Hbec).
    apply (find_child_relinked h3 (root s3) _ _ _ _ (core_of n)); try done; try (cbn; congruence).
    exists (core_of tn3). by apply lookup_graph.
Qed.

(** The graph after the renaming. *)
Definition renamed (d : Z) (to : option Z) : gmap Z core :=
  relinked (match to with
            | Some t => if t =? d then g else without_entry hs g td t tnm
            | None => g
            end) fd td d fnm tnm.

(** What renaming leaves, with [h'] handles. *)
Definition rename_result (h' : Z -> Z) (ret : Z) (od : option Z) (moved : bool) (s' : fs_state) : Prop :=
  if moved then
    ret = 0 /\ exists d to, od = Some d /\ rename_possible g fd fnm td tnm d to
    /\ (forall t, to = Some t -> t <> d -> exists tc, g !! t = Some tc /\ kids tc = [])
    /\ handled hs h' s (renamed d to) s'
    /\ (forall a nm, find_child (renamed d to) a nm =
         if decide (a = td /\ nm = tnm) then Some d
         else if decide (a = fd /\ nm = fnm) then None else find_child g a nm)
  else ret < 0 /\ rename_refused g fd fnm td tnm ret /\ counted hs h' s s' /\ seen od.

Lemma counted_handled h1 s1 : counted hs h1 s s1 -> handled hs h1 s g s1.
Proof. intros (H1 & H2 & H3). split_and!; [done|done|by apply counters_counts]. Qed.

Lemma new_name_ok to : child_result g td tnm = inr to -> name_ok tnm.
Proof.
  unfold child_result. destruct (_ >? _) eqn:E; [done|]. intros _. bool_to_prop.
  split_and!; [apply Hname|apply Hname|lia].
Qed.

(** Nothing has to be replaced. *)
Lemma rename_move_only s3 d to :
  counted hs (bump d 1 h) s s3 -> rename_possible g fd fnm td tnm d to -> to = None \/ to = Some d ->
  wp (rename_move icu graphemes now fd td d tnm) s3 (fun moved s4 =>
    moved = true /\ rename_result h 0 (Some d) true s4).
Proof.
  intros Hc Hposs Hto. pose proof Hposs as (Hd & Ht & Hnb & _). pose proof (child_result_found _ _ _ _ Hd) as Hfc.
  destruct (find_child_up _ _ _ _ _ _ _ (t_graph _ _ Hok) Hfc) as (c & Hdc & Hup & Hkey).
  assert (Hsame : renamed d to = relinked g fd td d fnm tnm).
  { unfold renamed. destruct Hto as [-> | ->]; [done|]. by rewrite Z.eqb_refl. }
  eapply wp_mono; [apply (rename_move_ok s3 g d c (core_of tn)); try done|].
  - by apply counted_handled.
  - by apply lookup_graph.
  - destruct Hto as [-> | ->]; [left|right]; unfold child_result in Ht; destruct (_ >? _); try congruence.
    injection Ht as Ht. destruct (find_child_up _ _ _ _ _ _ _ (t_graph _ _ Hok) Ht) as (c' & H1 & H2 & H3).
    split; congruence.
  - by eapply new_name_ok.
  - intros moved s4 (-> & Hh & Hl). split; [done|]. split; [done|]. exists d, to.
    rewrite Hsame. split_and!; try done; try apply Hposs. intros t -> Hne. destruct Hto as [?|?]; congruence.
Qed.

(** After something has been replaced. *)
Lemma rename_move_over s3 d t :
  handled hs (bump d 1 h) s (without_entry hs g td t tnm) s3 ->
  rename_possible g fd fnm td tnm d (Some t) -> t <> d -> (exists tc, g !! t = Some tc /\ kids tc = []) ->
  wp (rename_move icu graphemes now fd td d tnm) s3 (fun moved s4 =>
    moved = true /\ rename_result h 0 (Some d) true s4).
Proof.
  intros Hh Hposs Hne Hnil. pose proof Hposs as (Hd & Ht & Hnb & Hnt).
  pose proof (child_result_found _ _ _ _ Hd) as Hfd'. pose proof (child_result_found _ _ _ _ Ht) as Hft.
  destruct (find_child_up _ _ _ _ _ _ _ (t_graph _ _ Hok) Hfd') as (c & Hdc & Hup & Hkey).
  destruct (find_child_up _ _ _ _ _ _ _ (t_graph _ _ Hok) Hft) as (tc & Htc & Htup & Htkey).
  assert (Hnil' : kids tc = []) by (destruct Hnil as (tc' & H1 & H2); unfold g in H1; congruence).
  pose proof (up_neq _ _ _ _ _ _ _ (t_graph _ _ Hok) Htc Htup) as Htd_t.
  assert (Hd_td : d <> td) by (intros <-; apply Hnb; constructor).
  pose proof (fun a nm => find_child_without_entry hs (root s) g td t tnm tc a nm (t_graph _ _ Hok) Htc Htup Htkey Hnil') as Hfcw.
  assert (Hsame : renamed d (Some t) = relinked (without_entry hs g td t tnm) fd td d fnm tnm).
  { unfold renamed. by rewrite (proj2 (Z.eqb_neq t d)). }
  eapply wp_mono; [apply (rename_move_ok s3 (without_entry hs g td t tnm) d c
    (detached g td t tnm true td (core_of tn))); try done|].
  - rewrite without_entry_lookup by congruence. unfold g at 2. rewrite Hdc. cbn. unfold detached.
    by rewrite (proj2 (Z.eqb_neq d t)), (proj2 (Z.eqb_neq d td)) by congruence.
  - rewrite Hfcw. rewrite decide_False; [done|].
    intros [-> ->]. congruence.
  - rewrite without_entry_lookup by done. unfold g at 2. by rewrite (lookup_graph _ _ _ Htd).
  - rewrite dir_detached. exact Htdir.
  - unfold linked, detached. rewrite (proj2 (Z.eqb_neq td t)), Z.eqb_refl by done. exact Htl.
  - intros H. by apply below_without_entry in H.
  - left. rewrite Hfcw. by rewrite decide_True.
  - by eapply new_name_ok.
  - intros moved s4 (-> & Hh4 & Hl). split; [done|]. split; [done|]. exists d, (Some t).
    rewrite Hsame. split_and!; try done.
    + intros t' [= <-] _. done.
    + intros a nm. rewrite Hl, Hfcw. repeat case_decide; tauto || done.
Qed.

(** ** The whole operation between the directories *)

Lemma rename_refused_ok s2 d to ret :
  counted hs (hold_opt to (bump d 1 h)) s s2 ->
  child_result g fd fnm = inr (Some d) -> child_result g td tnm = inr to ->
  ret < 0 -> rename_refused g fd fnm td tnm ret ->
  wp (give_back d td ;;; give_back_opt to fd ;;; ret_op (ret, Some d, false)) s2
     (fun '(r, od, moved) => rename_result h r od moved).
Proof.
  intros Hc Hd Ht Hneg Hr. destruct (found_linked _ _ _ Hd) as (n & Hn & _ & Hl).
  eapply wp_seq; [apply (give_back_ok _ _ d n td Hc)|]; auto.
  { destruct to; in_bounds. }
  { specialize (Hpos d). unfold h. unfold hold_opt; handles. }
  intros [] s3 Hc3. apply (counted_ext _ _ (hold_opt to h)) in Hc3; [|unfold hold_opt; handles].
  eapply wp_seq; [eapply (give_back_opt_ok h s3 td tnm to fd); [exact Hc3| |done]|].
  { intros b. specialize (Hpos b). unfold h. handles. }
  intros [] s4 Hc4. apply wp_ret. split_and!; [done|done|done|by eapply found_seen].
Qed.

Lemma rename_entry_ok s1 :
  counted hs h s s1 ->
  wp (rename_entry icu graphemes now fd fnm td tnm) s1 (fun '(ret, od, moved) => rename_result h ret od moved).
Proof.
  intros Hc. unfold rename_entry. eapply wp_seq; [by apply rename_lookup_ok|].
  intros [[e od]|[d to]] s2.
  { intros (Hc2 & He & Hr & Hs). apply wp_ret. by split_and!. }
  intros (Hd & Ht & Hc2). eapply wp_seq; [by eapply rename_allowed_ok|].
  intros ret s3 [Hc3 [[-> Hposs]|[Hneg Hr]]].
  2: { rewrite (proj2 (Z.ltb_lt _ _) Hneg). by apply rename_refused_ok. }
  change (0 <? 0) with false. cbv iota. pose proof Hposs as (_ & _ & _ & Hover).
  destruct to as [t|]; cbn [hold_opt] in Hc3.
  2: { apply wp_bind, wp_ret. eapply wp_seq; [eapply rename_move_only; eauto|].
       intros moved s4 [-> H4]. by apply wp_ret. }
  destruct (Z.eqb_spec t d) as [->|Hne].
  - destruct (found_linked _ _ _ Hd) as (n & Hn & _ & Hl). apply wp_bind.
    eapply wp_seq; [apply (counted_release _ _ _ _ d n Hc3); [in_bounds|done| |done]|].
    { specialize (Hpos d). unfold h. handles. }
    intros [] s4 Hc4. apply wp_ret. eapply wp_seq; [eapply rename_move_only; [|exact Hposs|by right]|].
    { eapply counted_ext; [|exact Hc4]. handles. }
    intros moved s5 [-> H5]. by apply wp_ret.
  - eapply wp_seq; [apply rename_replace_ok; eauto|]. intros [ret|] s4.
    + intros (Hneg & Hr & Hc4). apply wp_ret. split_and!; [done|done|done|by eapply found_seen].
    + intros [Hnil Hh4]. eapply wp_seq; [by eapply rename_move_over|].
      intros moved s5 [-> H5]. by apply wp_ret.
Qed.

(** ** Letting go of the directories *)

Lemma renamed_dir d to a c :
  g !! a = Some c -> a <> d -> (forall t, to = Some t -> t <> a) ->
  exists c', renamed d to !! a = Some c' /\ up c' = up c.
Proof.
  intros Hc Had Ht. unfold renamed, relinked. rewrite lookup_remap.
  assert (Hg : exists c1, (match to with
              | Some t => if t =? d then g else without_entry hs g td t tnm
              | None => g
              end) !! a = Some c1 /\ up c1 = up c).
  { destruct to as [t|]; [|by exists c]. destruct (t =? d); [by exists c|].
    rewrite without_entry_lookup, Hc by (intros ->; by apply (Ht t)). cbn. eexists. split; [done|].
    unfold detached. rewrite (proj2 (Z.eqb_neq a t)) by (intros ->; by apply (Ht t)). by destruct (a =? td). }
  destruct Hg as (c1 & -> & Hup). cbn. eexists. split; [done|]. rewrite <- Hup.
  unfold moved_core, attached, detached. rewrite (proj2 (Z.eqb_neq _ _) Had). by destruct (a =? fd), (a =? td).
Qed.

Lemma rename_result_release h1 s1 a ret od moved :
  rename_result h1 ret od moved s1 -> a = fd \/ a = td -> bounded h1 -> 0 < h1 a ->
  wp (fs_release_dentry a) s1 (fun _ s2 => rename_result (bump a (-1) h1) ret od moved s2).
Proof.
  intros Hr Ha Hb Hh.
  assert (Hin : exists n, heap s !! a = Some n /\ linked (root s) a (core_of n) = true)
    by (destruct Ha as [-> | ->]; eauto). destruct Hin as (n & Hn & Hl).
  destruct moved.
  - destruct Hr as (-> & d & to & -> & Hposs & Hnil & Hh1 & Hch). pose proof Hposs as (Hd & Ht & Hnb & Hover).
    destruct (found_linked _ _ _ Hd) as (dn & Hdn & Hdu & _).
    destruct (renamed_dir d to a (core_of n)) as (c' & Hc' & Hup'); [by apply lookup_graph|..].
    { destruct Ha as [-> | ->]; [by eapply up_neq; [apply (t_graph _ _ Hok)|apply lookup_graph, Hdn|]|].
      intros ->. apply Hnb. constructor. }
    { intros t -> ->. destruct Ha as [-> | ->]; [apply (Hover fd eq_refl); constructor|].
      destruct (found_linked _ _ _ Ht) as (tn' & Htn' & Htu & _).
      by eapply up_neq; [apply (t_graph _ _ Hok)|apply lookup_graph, Htn'|done|]. }
    eapply wp_mono; [apply (handled_release _ _ _ _ _ a c' Hh1 Hb Hc')|]; [|done|].
    + unfold linked in *. by rewrite Hup'.
    + intros [] s2 Hh2. split; [done|]. exists d, to. split_and!; done || apply Hposs.
  - destruct Hr as (Hneg & Href & Hc & Hseen).
    eapply wp_mono; [by apply (counted_release _ _ _ _ a n Hc)|]. intros [] s2 Hc2. by split_and!.
Qed.

Lemma rename_result_ext h1 h2 s1 ret od moved :
  (forall a, h1 a = h2 a) -> rename_result h1 ret od moved s1 -> rename_result h2 ret od moved s1.
Proof.
  intros E. destruct moved; cbn.
  - intros (-> & d & to & -> & H1 & H2 & H3 & H4). split; [done|]. exists d, to. split_and!; try done.
    by eapply handled_ext.
  - intros (H1 & H2 & H3 & H4). split_and!; try done. by eapply counted_ext.
Qed.

(** The dentry the id is taken from is still there. *)
Lemma rename_result_seen h1 s1 ret d moved :
  rename_result h1 ret (Some d) moved s1 -> (forall a, h1 a = hs a) ->
  exists n, heap s1 !! d = Some n /\ forall n0, heap s !! d = Some n0 -> (uid n, ino n) = (uid n0, ino n0).
Proof.
  intros Hr Hh. assert (Hb : exists n, heap s1 !! d = Some n /\ is_Some (heap s !! d)
    /\ exists g', becomes s g' s1).
  { destruct moved.
    - destruct Hr as (_ & ? & to & [= <-] & (Hd & _ & Hnb & _) & _ & Hh1 & Hch).
      destruct (found_linked _ _ _ Hd) as (dn & Hdn & _ & _).
      pose proof (Hch td tnm) as Hf. rewrite decide_True in Hf by done.
      rewrite <- (find_child_rehandle hs h1) in Hf. destruct Hh1 as (H1 & H2 & _).
      rewrite <- (b_graph _ _ _ H2) in Hf. destruct (child_linked _ _ _ _ _ H1 Hf) as (n & Hn & _).
      exists n. split_and!; [done|by eexists|by eexists].
    - destruct Hr as (_ & _ & Hc & Hs). destruct (Hs d eq_refl) as [c Hg].
      apply graph_lookup in Hg as (n0 & Hn0 & _). destruct (counted_lookup _ _ _ _ _ _ Hc Hn0) as (n & Hn & _).
      exists n. split_and!; [done|by eexists|]. destruct Hc as (_ & Hbec & _). by eexists. }
  destruct Hb as (n & Hn & Hpres & g' & Hbec). exists n. split; [done|]. intros n0 Hn0.
  destruct (b_payload _ _ _ Hbec d n Hn (t_fresh _ _ Hok _ Hpres)) as (m & Hm & Hpay).
  assert (m = n0) as -> by congruence. unfold payload in Hpay. congruence.
Qed.
End rename.


(** ** Renaming by paths *)

Lemma rename_paths_ok icu graphemes now hs s from_dir fnm to_dir tnm :
  tree_ok hs s -> few hs -> tnm <> [] /\ Forall (fun b => b <> SLASH) tnm ->
  (forall td n, follow (graph s) (root s) (path_components to_dir) = inr td ->
     heap s !! td = Some n -> FsTree.isdir n = true) ->
  wp (rename_paths icu graphemes now from_dir fnm to_dir tnm) s (fun '(ret, id, moved) s' =>
    match follow (graph s) (root s) (path_components from_dir),
          follow (graph s) (root s) (path_components to_dir) with
    | inl e, _ | inr _, inl e =>
        ret = e /\ moved = false /\ tree_ok hs s' /\ becomes s (graph s) s' /\ counters_kept s s'
    | inr fd, inr td => exists od,
        rename_result hs s fd td fnm tnm hs ret od moved s'
        /\ (forall d n, od = Some d -> heap s !! d = Some n -> id = (uid n, ino n))
    end).
Proof.
  intros Hok Hfew Hname Hdir. pose proof (ok_handles _ _ _ _ (t_graph _ _ Hok)) as Hpos. unfold rename_paths.
  eapply wp_seq; [apply (counted_path_lookup hs hs s s); [done|by apply counted_refl|]|].
  { intros a. specialize (Hfew a). specialize (Hpos a). lia. }
  intros rf s1 [-> Hc1]. destruct (follow _ _ (path_components from_dir)) as [e|fd] eqn:Ef.
  { cbn [lookup_handles] in Hc1. apply wp_ret. destruct Hc1 as (H1 & H2 & H3). by rewrite rehandle_same in H2. }
  assert (Hc1' : counted hs (bump fd 1 hs) s s1).
  { eapply counted_ext; [|exact Hc1]. intros a. cbn [lookup_handles]. destruct (follow_root_linked _ _ _ _ Hok Ef) as (n & Hn & _).
    rewrite (lookup_graph _ _ _ Hn). change (keeps_parent 0) with false. by destruct (up (core_of n)). }
  clear Hc1. destruct (follow_root_linked _ _ _ _ Hok Ef) as (fn & Hfn & Hfl).
  eapply wp_seq; [apply (counted_path_lookup hs (bump fd 1 hs) s s1); [done|done|]|].
  { intros a. specialize (Hfew a). specialize (Hpos a). handles. }
  intros rt s2 [-> Hc2]. destruct (follow _ _ (path_components to_dir)) as [e|td] eqn:Et.
  { cbn [lookup_handles] in Hc2. eapply wp_seq; [apply (counted_release _ _ _ _ fd fn Hc2); [|done| |done]|].
    - apply (few_bounded hs); [done|]. handles.
    - specialize (Hpos fd). handles.
    - intros [] s3 Hc3. apply wp_ret. apply (counted_ext _ _ hs) in Hc3; [|handles].
      destruct Hc3 as (H1 & H2 & H3). by rewrite rehandle_same in H2. }
  destruct (follow_root_linked _ _ _ _ Hok Et) as (tn & Htn & Htl).
  assert (Hc2' : counted hs (bump td 1 (bump fd 1 hs)) s s2).
  { eapply counted_ext; [|exact Hc2]. intros a. cbn [lookup_handles].
    rewrite (lookup_graph _ _ _ Htn). change (keeps_parent 0) with false. by destruct (up (core_of tn)). }
  eapply wp_seq; [apply (rename_entry_ok icu graphemes now hs s fd td fn tn fnm tnm); auto; by eapply Hdir|].
  intros [[ret od] moved] s3 Hr. cbn [fst snd] in Hr.
  eapply wp_seq; [eapply (rename_result_release _ s fd td fn tn); eauto|].
  { apply (few_bounded hs); [done|]. handles. }
  { specialize (Hpos fd). handles. }
  intros [] s4 Hr4. eapply wp_seq; [eapply (rename_result_release _ s fd td fn tn); eauto|].
  { apply (few_bounded hs); [done|]. handles. }
  { specialize (Hpos td). handles. }
  intros [] s5 Hr5.
  apply (rename_result_ext _ _ _ _ _ _ _ hs) in Hr5; [|handles].
  destruct od as [d|].
  - destruct (rename_result_seen hs s fd td fnm tnm Hok hs s5 ret d moved Hr5) as (n & Hn & Hid); [done|].
    apply wp_bind, (wp_deref _ _ _ _ Hn), wp_ret. exists (Some d). split; [done|].
    intros ? n0 [= <-] Hn0. by apply Hid.
  - apply wp_ret. by exists None.
Qed.

(** ** What has moved, seen by paths *)

Section moved.
Context (hs : Z -> Z) (s : fs_state) (g' : gmap Z core) (fd td d : Z) (fnm tnm : cstring) (to : option Z).
Context (pf pt : list cstring).
Context (Hok : tree_ok hs s) (Hpf : follow (graph s) (root s) pf = inr fd).
Context (Hpt : follow (graph s) (root s) pt = inr td).
Context (Hposs : rename_possible (graph s) fd fnm td tnm d to).
Context (Hch : forall a nm, find_child g' a nm =
           if decide (a = td /\ nm = tnm) then Some d
           else if decide (a = fd /\ nm = fnm) then None else find_child (graph s) a nm).

Let changed (a : Z) (nm : cstring) : Prop := a = td /\ nm = tnm \/ a = fd /\ nm = fnm.

Let Hsame : forall a nm, ~ changed a nm -> find_child g' a nm = find_child (graph s) a nm.
Proof. intros a nm Hn. rewrite Hch. unfold changed in Hn. repeat case_decide; tauto || done. Qed.

Let Hd : find_child (graph s) fd fnm = Some d.
Proof. apply child_result_found, Hposs. Qed.

Lemma name_fits a nm o : child_result (graph s) a nm = inr o -> pathname_strlen nm <= LTFS_FILENAME_MAX.
Proof. unfold child_result. destruct (_ >? _) eqn:E; [done|]. bool_to_prop. lia. Qed.

Lemma moved_to_dir : follow g' (root s) pt = inr td.
Proof.
  destruct (follow_outside (graph s) g' changed (root s) pt Hsame) as [->|(q1 & nm & rest & x & E & Hq & Hc)]; [done|].
  pose proof Hpt as Hpt'. rewrite E in Hpt'. apply follow_split in Hpt' as (y & Hy & Hr). assert (y = x) as -> by congruence.
  destruct Hc as [[-> ->]|[-> ->]].
  - pose proof (follow_unique _ _ _ _ _ Hok Hpt Hq) as ->.
    apply (f_equal length) in E. rewrite length_app in E. cbn in E. lia.
  - apply follow_cons in Hr as (c & _ & Hc & Hr). assert (c = d) as -> by congruence.
    destruct Hposs as (_ & _ & Hnb & _). destruct Hnb. by eapply follow_below.
Qed.

Lemma moved_below ks x : follow (graph s) d ks = inr x -> follow g' d ks = inr x.
Proof.
  intros H. destruct (follow_outside (graph s) g' changed d ks Hsame) as [->|(q1 & nm & rest & y & -> & Hq & Hc)]; [done|].
  pose proof (follow_below _ _ _ _ _ Hok Hq) as Hb. destruct Hc as [[-> ->]|[-> ->]].
  - by destruct Hposs as (_ & _ & Hnb & _).
  - by destruct (not_below_child _ _ _ _ _ Hok Hd).
Qed.

Lemma moved_tree ks x :
  follow (graph s) (root s) (pf ++ fnm :: ks) = inr x -> follow g' (root s) (pt ++ tnm :: ks) = inr x.
Proof.
  intros (y & Hy & Hr)%follow_split. assert (y = fd) as -> by congruence.
  apply follow_cons in Hr as (c & _ & Hc & Hr). assert (c = d) as -> by congruence.
  rewrite (follow_app _ _ _ _ _ moved_to_dir). apply follow_cons. exists d. split_and!.
  - destruct Hposs as (_ & Ht & _). by eapply name_fits.
  - by rewrite Hch, decide_True.
  - by apply moved_below.
Qed.

Lemma moved_others q :
  ~ (pf ++ [fnm]) `prefix_of` q -> ~ (pt ++ [tnm]) `prefix_of` q ->
  follow g' (root s) q = follow (graph s) (root s) q.
Proof.
  intros H1 H2. destruct (follow_outside (graph s) g' changed (root s) q Hsame)
    as [|(q1 & nm & rest & x & -> & Hq & [[-> ->]|[-> ->]])]; [done|..].
  - destruct H2. rewrite (follow_unique _ _ _ _ _ Hok Hpt Hq). exists rest. by rewrite <- app_assoc.
  - destruct H1. rewrite (follow_unique _ _ _ _ _ Hok Hpf Hq). exists rest. by rewrite <- app_assoc.
Qed.

Lemma moved_away : pf ++ [fnm] <> pt ++ [tnm] -> follow g' (root s) (pf ++ [fnm]) = inl (- LTFS_NO_DENTRY).
Proof.
  intros Hne. assert (Hf : follow g' (root s) pf = inr fd).
  { destruct (follow_outside (graph s) g' changed (root s) pf Hsame) as [->|(q1 & nm & rest & x & E & Hq & Hc)]; [done|].
    pose proof Hpf as Hpf'. rewrite E in Hpf'. apply follow_split in Hpf' as (y & Hy & Hr). assert (y = x) as -> by congruence.
    destruct Hc as [[-> ->]|[-> ->]].
    - apply follow_cons in Hr as (t & Hl & Hc & Hr). destruct Hposs as (_ & Ht & _ & Hover).
      unfold child_result in Ht. destruct (_ >? _); [done|]. injection Ht as <-.
      destruct (Hover t Hc). by eapply follow_below.
    - pose proof (follow_unique _ _ _ _ _ Hok Hpf Hq) as ->.
      apply (f_equal length) in E. rewrite length_app in E. cbn in E. lia. }
  rewrite (follow_app _ _ _ _ _ Hf). cbn. rewrite Hch.
  destruct Hposs as (Hc & _). apply name_fits in Hc. rewrite Z.gtb_ltb, (proj2 (Z.ltb_ge _ _)) by done.
  rewrite decide_False, decide_True; [done|done|]. intros [-> ->]. apply Hne.
  by rewrite (follow_unique _ _ _ _ _ Hok Hpf Hpt).
Qed.
End moved.

(** C6: renaming.  The outcome is determined by the tree.  Nothing has changed when
    the path of a directory leads nowhere, when a name is too long or the old
    one does not exist, when the entry would be moved below itself, onto a
    dentry above it, or onto a directory with entries.  Otherwise whatever was at
    the old path or below it is now at the new path or below it, the old path leads
    nowhere (if it is another one), and every path that begins with neither leads
    where it led before; what had the new name is gone, and freed unless somebody
    holds it.  The counters of the index stay as they are, no freed dentry is
    touched, no cycle arises, and all handles are given back. *)
Theorem rename_paths_spec icu graphemes now hs s from_dir fnm to_dir tnm :
  tree_ok hs s -> few hs -> tnm <> [] /\ Forall (fun b => b <> SLASH) tnm ->
  (forall td n, follow (graph s) (root s) (path_components to_dir) = inr td ->
     heap s !! td = Some n -> FsTree.isdir n = true) ->
  wp (rename_paths icu graphemes now from_dir fnm to_dir tnm) s (fun '(ret, id, moved) s' =>
    match follow (graph s) (root s) (path_components from_dir),
          follow (graph s) (root s) (path_components to_dir) with
    | inl e, _ | inr _, inl e =>
        ret = e /\ moved = false /\ tree_ok hs s' /\ becomes s (graph s) s' /\ counters_kept s s'
    | inr fd, inr td =>
        let old := path_components from_dir ++ [fnm] in
        let new := path_components to_dir ++ [tnm] in
        (exists od, rename_result hs s fd td fnm tnm hs ret od moved s'
           /\ (forall d n, od = Some d -> heap s !! d = Some n -> id = (uid n, ino n)))
        /\ (moved = true ->
            (forall ks x, follow (graph s) (root s) (old ++ ks) = inr x ->
               follow (graph s') (root s) (new ++ ks) = inr x)
            /\ (old <> new -> follow (graph s') (root s) old = inl (- LTFS_NO_DENTRY))
            /\ (forall q, ~ old `prefix_of` q -> ~ new `prefix_of` q ->
                 follow (graph s') (root s) q = follow (graph s) (root s) q))
    end).
Proof.
  intros Hok Hfew Hname Hdir. eapply wp_mono; [by apply (rename_paths_ok icu graphemes now hs)|].
  intros [[ret id] moved] s' Hr. destruct (follow _ _ (path_components from_dir)) as [e|fd] eqn:Ef; [done|].
  destruct (follow _ _ (path_components to_dir)) as [e|td] eqn:Et; [done|]. cbv zeta.
  destruct Hr as (od & Hr & Hid). split; [by exists od|]. intros ->.
  destruct Hr as (_ & d & to & _ & Hposs & _ & (_ & Hbec & _) & Hch).
  assert (Hch' : forall a nm, find_child (graph s') a nm =
    if decide (a = td /\ nm = tnm) then Some d
    else if decide (a = fd /\ nm = fnm) then None else find_child (graph s) a nm).
  { intros a nm. by rewrite (b_graph _ _ _ Hbec), find_child_rehandle. }
  split_and!.
  - intros ks x. rewrite <- !app_assoc. by apply (moved_tree hs s (graph s') fd td d fnm tnm to).
  - by apply (moved_away hs s (graph s') fd td d fnm tnm to).
  - intros q. by apply (moved_others hs s (graph s') fd td d fnm tnm).
Qed.
