(* ===== verification/FsHistory.v ===== *)
(** * Any sequence of operations

    The tree from a new index on: whatever entries are made, removed, renamed,
    looked up and let go of, in any order, the invariant holds and no operation
    is undefined. *)

From S2P Require Import Prelude Errors Extents FsRaw Pathname IndexCriteria IndexCriteriaSpec.
From S2P Require Import FsTree FsOps FsGraph FsTreeSpec FsOpsSpec RenameSpec.
Open Scope Z_scope.
Open Scope ltfs_scope.

(** A call of an operation on the tree. *)
Inductive fs_call :=
| Create (dir filename : cstring) (isdir readonly : bool)
| Unlink (path : cstring)
| Rename (from_dir from_filename to_dir to_filename : cstring)
| Open (path : cstring)
| Close (d : Z).

Definition no_slash (k : cstring) : Prop := k <> [] /\ Forall (fun b => b <> SLASH) k.

(** A path that leads somewhere leads to a directory. *)
Definition leads_to_dir (s : fs_state) (path : cstring) : Prop :=
  forall a n, follow (graph s) (root s) (path_components path) = inr a ->
    heap s !! a = Some n -> isdir n = true.

(** What the callers see to: a new entry goes into a directory and its name is the
    last component of a path, the root is not removed, and only a handle that is
    held is given back. *)
Definition allowed (hs : Z -> Z) (s : fs_state) (c : fs_call) : Prop :=
  match c with
  | Create dir k _ _ => no_slash k /\ leads_to_dir s dir
  | Unlink path => path_components path <> []
  | Rename _ _ to_dir to_filename => no_slash to_filename /\ leads_to_dir s to_dir
  | Open _ => True
  | Close d => 0 < hs d
  end.

Section history.
Context (icu : icu_lib) (graphemes : list Z -> option (list (list Z))).

(** The call, and what it does to the handles. *)
Definition perform (now : Z * Z) (c : fs_call) : fs_op ((Z -> Z) -> (Z -> Z)) :=
  match c with
  | Create dir k isdir ro =>
      let* r := create_at icu graphemes now dir k isdir ro in
      ret_op (match r with inr d => bump d 1 | inl _ => id end)
  | Unlink path => let* _ := unlink_entry_at now path in ret_op id
  | Rename from_dir from_filename to_dir to_filename =>
      let* _ := rename_paths icu graphemes now from_dir from_filename to_dir to_filename in ret_op id
  | Open path =>
      let* r := fs_path_lookup path 0 in
      ret_op (match r with inr d => bump d 1 | inl _ => id end)
  | Close d => fs_release_dentry d ;;; ret_op (bump d (-1))
  end.

(** The states that come about, with the handles held in each. *)
Inductive reachable : (Z -> Z) -> fs_state -> Prop :=
| reachable_new s0 s :
    heap s0 = ∅ -> ltfs_index_alloc s0 = Some (0, s) -> reachable (fun _ => 0) s
| reachable_call hs s now c f s' :
    reachable hs s -> few hs -> allowed hs s c -> perform now c s = Some (f, s') ->
    reachable (f hs) s'.

(** ** A new tree *)

Lemma new_tree_ok s0 s :
  heap s0 = ∅ -> ltfs_index_alloc s0 = Some (0, s) -> tree_ok (fun _ => 0) s.
Proof.
  intros Hh H. unfold ltfs_index_alloc, bind_op, update_state, fs_allocate_dentry, names_of in H.
  cbn [get_state ret_op bind_op] in H. unfold bind_op, get_state, update_state, ret_op, malloc, update in H.
  cbn in H. rewrite Hh in H. cbn in H.
  rewrite lookup_insert_eq in H. injection H as <-. rewrite insert_insert_eq.
  set (d := fresh s0). set (ino := u64 (inode_number s0 + 1)).
  set (n := set_link_count (u32 (1 + 1)) (new_dentry None (Some [SLASH]) (Some [SLASH]) true false ino 1)).
  match goal with |- tree_ok _ ?s1 => set (s := s1) end.
  assert (Hg : graph s = {[d := core_of n]}) by (unfold graph, s; cbn; by rewrite fmap_insert, fmap_empty).
  assert (Hn : forall a c, graph s !! a = Some c -> a = d /\ c = core_of n)
    by (intros a c; rewrite Hg; by intros [<- <-]%lookup_singleton_Some).
  assert (Hh1 : forall a m, heap s !! a = Some m -> a = d /\ m = n)
    by (intros a m; unfold s; cbn; by intros [<- <-]%lookup_singleton_Some).
  constructor.
  - constructor.
    + exists (core_of n). rewrite Hg. split_and!; [apply lookup_singleton_eq|done|done].
    + intros p pn k c [_ ->]%Hn Hin. by apply elem_of_nil in Hin.
    + by intros a c p [_ ->]%Hn Hup.
    + intros p pn [_ ->]%Hn. apply list.NoDup_nil. done.
    + intros p pn [_ ->]%Hn. done.
    + exists (fun _ => O). by intros a c p [_ ->]%Hn Hup.
    + intros a c [-> ->]%Hn. unfold linked. cbn. by rewrite Z.eqb_refl.
    + by intros a c [-> ->]%Hn.
    + lia.
    + done.
    + intros a c [-> ->]%Hn. unfold linked. cbn. by rewrite Z.eqb_refl.
  - intros a m [_ ->]%Hh1. constructor; [done|done|]. intros k Hp _. by destruct Hp.
  - intros a [m [-> _]%Hh1]. cbn. unfold d. lia.
  - by intros m [_ ->]%Hh1.
Qed.

(** ** Every call *)

Lemma perform_ok hs s now c :
  tree_ok hs s -> few hs -> allowed hs s c -> wp (perform now c) s (fun f s' => tree_ok (f hs) s').
Proof.
  intros Hok Hfew Hal. destruct c as [dir k isdir ro|path|fdir fnm tdir tnm|path|d]; cbn [perform allowed] in *.
  - destruct Hal as [Hk Hdir]. eapply wp_seq; [by apply (create_at_ok icu graphemes now hs)|].
    intros r s' Hr. apply wp_ret. destruct (follow _ _ _) as [e|par]; [destruct Hr as (-> & H & _); exact H|].
    destruct Hr as [[_ Hr] _]. destruct r as [e|d]; [exact (proj1 Hr)|].
    by destruct Hr as (_ & _ & H & _).
  - eapply wp_seq; [by apply (unlink_entry_at_ok now hs)|]. intros r s' [H _]. by apply wp_ret.
  - destruct Hal as [Hk Hdir]. eapply wp_seq; [by apply (rename_paths_ok icu graphemes now hs)|].
    intros [[ret id] moved] s' Hr. apply wp_ret.
    destruct (follow _ _ (path_components fdir)) as [e|fd]; [by destruct Hr as (_ & _ & H & _)|].
    destruct (follow _ _ (path_components tdir)) as [e|td]; [by destruct Hr as (_ & _ & H & _)|].
    destruct Hr as (od & Hr & _). destruct moved; cbn in Hr.
    + destruct Hr as (_ & d & to & _ & _ & _ & (H & _) & _). exact H.
    + destruct Hr as (_ & _ & (H & _) & _). exact H.
  - eapply wp_seq; [apply (counted_path_lookup hs hs s s path 0 Hok); [by apply counted_refl|]|].
    { intros a. specialize (Hfew a). pose proof (ok_handles _ _ _ _ (t_graph _ _ Hok) a). lia. }
    intros r s' [-> (H & _ & _)]. apply wp_ret. destruct (follow _ _ _) as [e|d] eqn:E; [exact H|].
    destruct (follow_root_linked _ _ _ _ Hok E) as (n & Hn & _). cbn [lookup_handles] in H.
    rewrite (lookup_graph _ _ _ Hn) in H. change (keeps_parent 0) with false in H.
    by destruct (up (core_of n)).
  - destruct (ok_held _ _ _ _ (t_graph _ _ Hok) _ Hal) as [c Hg]. apply graph_lookup in Hg as (n & Hn & _).
    eapply wp_seq; [apply (release_ok hs s d n); auto|].
    { apply (few_bounded hs); [done|]. intros a. lia. }
    intros [] s' (H & _). by apply wp_ret.
Qed.

(** C3: every sequence of operations.  In every state that comes about from a new
    index by making, removing, renaming, looking up and letting go of entries,
    the tree is well formed: it has no cycle, a dentry is in exactly the table of
    its parent under its name, its reference count is the number of handles on
    it and one for its entry, its link count fits its subdirectories, and it
    exists exactly as long as somebody can reach it.  And no allowed call is
    undefined: none touches a freed dentry. *)
Theorem reachable_tree_ok hs s :
  reachable hs s ->
  tree_ok hs s
  /\ forall now c, few hs -> allowed hs s c -> exists f s', perform now c s = Some (f, s').
Proof.
  intros Hr. assert (Hok : tree_ok hs s).
  { induction Hr as [s0 s Hh Ha|hs s now c f s' Hr IH Hfew Hal Hp]; [by eapply new_tree_ok|].
    pose proof (perform_ok hs s now c IH Hfew Hal) as H. unfold wp in H. by rewrite Hp in H. }
  split; [done|]. intros now c Hfew Hal.
  destruct (wp_run _ _ _ (perform_ok hs s now c Hok Hfew Hal)) as (f & s' & H & _). by exists f, s'.
Qed.

End history.

(** ** A small tree *)

Definition blank_state : fs_state :=
  {| heap := ∅; fresh := 1; root := 0; inode_number := 0; uid_number := 0; file_count := 0;
     valid_blocks := 0;
     criteria_of := {| have_criteria := false; max_filesize_criteria := 0; glob_patterns := None;
                       glob_cache := None |} |}.

Definition run_state {A} (m : fs_op A) (s : fs_state) : fs_state :=
  match m s with Some (_, s') => s' | None => blank_state end.

Definition call (c : fs_call) : fs_op ((Z -> Z) -> (Z -> Z)) := perform ascii_icu ascii_graphemes (0, 0) c.

Definition tree0 : fs_state := run_state ltfs_index_alloc blank_state.
Definition tree1 : fs_state := run_state (call (Create (cstr "") (cstr "docs") true false)) tree0.
Definition tree2 : fs_state := run_state (call (Create (cstr "/docs") (cstr "a.txt") false false)) tree1.
Definition tree3 : fs_state := run_state (call (Create (cstr "") (cstr "tmp") true false)) tree2.

(** Three entries, each held by whoever made it: the root is 1, [/docs] 2,
    [/docs/a.txt] 3, [/tmp] 4. *)
Definition held3 : Z -> Z := bump 4 1 (bump 3 1 (bump 2 1 (fun _ => 0))).

Lemma few_held3 : few held3.
Proof. intros d. unfold held3. handles. Qed.

Lemma no_slash_sample k : forallb (fun b => negb (b =? SLASH)) k && negb (bool_decide (k = [])) = true -> no_slash k.
Proof.
  intros [H1 H2]%andb_true_iff. split; [by destruct k|].
  apply Forall_forall. intros b Hb. rewrite forallb_forall in H1. specialize (H1 b Hb).
  by apply negb_true_iff, Z.eqb_neq in H1.
Qed.

(** A call that succeeds, evaluated. *)
Lemma call_ok hs s c f :
  tree_ok hs s -> few hs -> allowed hs s c -> call c s = Some (f, run_state (call c) s) ->
  tree_ok (f hs) (run_state (call c) s).
Proof.
  intros Hok Hfew Hal E. pose proof (perform_ok ascii_icu ascii_graphemes hs s (0, 0) c Hok Hfew Hal) as H.
  unfold wp in H. unfold call in E at 1. by rewrite E in H.
Qed.

Ltac leads_to_dir :=
  let Hf := fresh in let Hn := fresh in
  intros ? ? Hf Hn; vm_compute in Hf; injection Hf as <-; vm_compute in Hn; injection Hn as <-; reflexivity.

Lemma tree3_ok : tree_ok held3 tree3.
Proof.
  assert (H0 : tree_ok (fun _ => 0) tree0) by (by apply (new_tree_ok blank_state)).
  assert (H1 : tree_ok (bump 2 1 (fun _ => 0)) tree1).
  { apply (call_ok _ tree0 _ (bump 2 1)); [done|done| |by vm_compute].
    split; [by apply no_slash_sample|leads_to_dir]. }
  assert (H2 : tree_ok (bump 3 1 (bump 2 1 (fun _ => 0))) tree2).
  { apply (call_ok _ tree1 _ (bump 3 1)); [done| | |by vm_compute]; [intros d; handles|].
    split; [by apply no_slash_sample|leads_to_dir]. }
  apply (call_ok _ tree2 _ (bump 4 1)); [done| | |by vm_compute]; [intros d; handles|].
  split; [by apply no_slash_sample|leads_to_dir].
Qed.

(** ** The theorems on the small tree *)

Lemma dentry_path_roundtrip_witness :
  exists path, fs_dentry_lookup 3 tree3 = Some (inr path, tree3)
    /\ wp (fs_path_lookup path 0) tree3 (fun r s' => r = inr 3 /\ counted held3 (bump 3 1 held3) tree3 s').
Proof.
  destruct (heap tree3 !! 3) as [n|] eqn:E; [|by vm_compute in E].
  apply (dentry_path_roundtrip held3 tree3 3 n); [apply tree3_ok|apply few_held3|exact E|].
  vm_compute in E. injection E as <-. by vm_compute.
Defined.

Lemma create_at_spec_witness :
  exists d s', create_at ascii_icu ascii_graphemes (0, 0) (cstr "/docs") (cstr "b.txt") false false tree3
                 = Some (inr d, s')
    /\ follow (graph s') (root tree3) (path_components (cstr "/docs") ++ [cstr "b.txt"]) = inr d
    /\ forall q, ~ (path_components (cstr "/docs") ++ [cstr "b.txt"]) `prefix_of` q ->
         follow (graph s') (root tree3) q = follow (graph tree3) (root tree3) q.
Proof.
  assert (Hf : follow (graph tree3) (root tree3) (path_components (cstr "/docs")) = inr 2) by (by vm_compute).
  destruct (wp_run _ _ _ (create_at_spec ascii_icu ascii_graphemes (0, 0) held3 tree3 (cstr "/docs")
    (cstr "b.txt") false false tree3_ok few_held3 (no_slash_sample (cstr "b.txt") eq_refl) ltac:(leads_to_dir)))
    as (r & s' & E & H).
  rewrite Hf in H. destruct H as [_ H]. destruct r as [e|d]; [by vm_compute in E|].
  exists d, s'. split; [exact E|]. exact (H d eq_refl).
Defined.

Lemma unlink_entry_at_spec_witness :
  exists r s', unlink_entry_at (0, 0) (cstr "/docs/a.txt") tree3 = Some (r, s')
    /\ follow (graph s') (root tree3) (path_components (cstr "/docs/a.txt")) = inl (- LTFS_NO_DENTRY)
    /\ forall q, ~ path_components (cstr "/docs/a.txt") `prefix_of` q ->
         follow (graph s') (root tree3) q = follow (graph tree3) (root tree3) q.
Proof.
  assert (Hne : path_components (cstr "/docs/a.txt") <> []) by (by vm_compute).
  destruct (wp_run _ _ _ (unlink_entry_at_spec (0, 0) held3 tree3 (cstr "/docs/a.txt") tree3_ok few_held3 Hne))
    as (r & s' & E & _ & H).
  exists r, s'. split; [exact E|]. apply H. vm_compute in E. by injection E as <- _.
Defined.

Lemma rename_paths_spec_witness :
  exists id s', rename_paths ascii_icu ascii_graphemes (0, 0) (cstr "") (cstr "docs") (cstr "/tmp") (cstr "old")
                  tree3 = Some (0, id, true, s')
    /\ follow (graph s') (root tree3) (path_components (cstr "/tmp") ++ [cstr "old"] ++ [cstr "a.txt"]) = inr 3
    /\ follow (graph s') (root tree3) (path_components (cstr "") ++ [cstr "docs"]) = inl (- LTFS_NO_DENTRY).
Proof.
  assert (Hfd : follow (graph tree3) (root tree3) (path_components (cstr "")) = inr 1) by (by vm_compute).
  assert (Htd : follow (graph tree3) (root tree3) (path_components (cstr "/tmp")) = inr 4) by (by vm_compute).
  destruct (wp_run _ _ _ (rename_paths_spec ascii_icu ascii_graphemes (0, 0) held3 tree3 (cstr "") (cstr "docs")
    (cstr "/tmp") (cstr "old") tree3_ok few_held3 (no_slash_sample (cstr "old") eq_refl) ltac:(leads_to_dir)))
    as ([[ret id] moved] & s' & E & H).
  rewrite Hfd, Htd in H. destruct H as [_ H].
  pose proof (f_equal (fun o => match o with Some (r, _) => Some (r.1.1, r.2) | None => None end) E) as Hr.
  vm_compute in Hr. injection Hr as <- <-. exists id, s'. split; [exact E|]. destruct (H eq_refl) as (H1 & H2 & _). split.
  - rewrite app_assoc. apply (H1 [cstr "a.txt"] 3). by vm_compute.
  - apply H2. by vm_compute.
Defined.

Lemma reachable_tree_ok_witness :
  exists f s', perform ascii_icu ascii_graphemes (0, 0) (Create (cstr "") (cstr "docs") true false) tree0 = Some (f, s').
Proof.
  apply (reachable_tree_ok ascii_icu ascii_graphemes (fun _ => 0) tree0).
  - apply (reachable_new _ _ blank_state); by vm_compute.
  - by intros d.
  - split; [by apply no_slash_sample|leads_to_dir].
Defined.
