(* ===== verification/XmlLib.v ===== *)
(** * The XML layer

    [libltfs/xml.h] and the library-independent half of [libltfs/xml_reader.c]:
    stepping through the nodes a reader reports, the parser macros, and the
    conversions of values.

    libxml2 itself is not modelled.  A reader ([xmlTextReader]) is what can be
    observed of it: the node it stands on and what the next calls of
    [xmlTextReaderRead] will report.  A writer ([xmlTextWriter]) is an argument that
    answers calls. *)

From S2P Require Import Prelude Errors TimeInternal Pathname IndexCriteria.
From S2P Require Import FsTree.
Open Scope Z_scope.

#[global] Arguments cstr : simpl never.

(** ** The reader of libxml2 *)

Definition XML_ELEMENT_NODE : Z := 1.
Definition XML_TEXT_NODE : Z := 3.
Definition XML_DTD_NODE : Z := 14.
Definition XML_ELEMENT_DECL : Z := 15.

(** What the reader's accessors report at a node; a NULL string is [None]. *)
Record xml_node := {
  node_type : Z;
  node_name : cstring;
  node_value : option cstring;
  node_empty : Z;
  node_depth : Z;
  node_attributes : list (cstring * cstring);
  node_outer : option cstring
}.

(** [ahead]: the nodes to come; [None]: [xmlTextReaderRead] fails there; at the
    end it returns 0. *)
Record text_reader := {
  encoding : option cstring;
  here : xml_node;
  ahead : list (option xml_node)
}.

Definition set_place (h : xml_node) (l : list (option xml_node)) (r : text_reader) : text_reader :=
  {| encoding := encoding r; here := h; ahead := l |}.

Definition xmlTextReaderGetAttribute (key : cstring) (n : xml_node) : option cstring :=
  match List.find (fun a => bool_decide (a.1 = key)) (node_attributes n) with
  | Some a => Some a.2
  | None => None
  end.

(** ** Parsers

    A parser works on a state [S] that contains the reader; [inl e] is an early
    [return e] of an error code. *)

Class HasReader (S : Type) := {
  get_reader : S -> text_reader;
  put_reader : text_reader -> S -> S
}.

Definition xop (S A : Type) : Type := op S (Z + A).

Section monad.
Context {S : Type}.
Definition ret_x {A} (x : A) : xop S A := ret_op (inr x).
Definition fail_x {A} (e : Z) : xop S A := ret_op (inl e).
Definition bind_x {A B} (m : xop S A) (k : A -> xop S B) : xop S B :=
  bind_op m (fun r => match r with inl e => ret_op (inl e) | inr x => k x end).
Definition of_sum {A} (r : Z + A) : xop S A := ret_op r.
(** [if (f(...) < 0) return -1;] *)
Definition or_minus_1 {A} (m : xop S A) : xop S A :=
  bind_op m (fun r => ret_op (match r with inl _ => inl (-1) | inr x => inr x end)).
Definition guard_x (b : bool) : xop S unit := if b then ret_x tt else fail_x (-1).
Definition get_x : xop S S := fun s => Some (inr s, s).
Definition modify_x (f : S -> S) : xop S unit := fun s => Some (inr tt, f s).
End monad.

Notation "'let!' x := m 'in' k" := (bind_x m (fun x => k))
  (at level 10, x name, m at level 100, k at level 200) : ltfs_scope.
Notation "'let!' ' p := m 'in' k" := (bind_x m (fun x => match x with p => k end))
  (at level 10, p pattern, m at level 100, k at level 200) : ltfs_scope.
Notation "m >>! k" := (bind_x m (fun _ => k)) (at level 199, right associativity) : ltfs_scope.
Open Scope ltfs_scope.

Section reader.
Context {S : Type} `{HasReader S}.

Definition at_node : xop S xml_node := fun s => Some (inr (here (get_reader s)), s).
Definition go (h : xml_node) (l : list (option xml_node)) : xop S unit :=
  modify_x (fun s => put_reader (set_place h l (get_reader s)) s).

(** [xmlTextReaderRead] *)
Definition xml_reader_read : xop S unit :=
  let! s := get_x in
  match ahead (get_reader s) with
  | [] => fail_x (-1)
  | None :: rest => go (here (get_reader s)) rest >>! fail_x (-1)
  | Some n :: rest => go n rest
  end.

Definition xml_scan_text : xop S cstring :=
  xml_reader_read >>!
  let! n := at_node in
  let type := node_type n in
  if type =? XML_ELEMENT_DECL then ret_x []
  else if (type =? XML_TEXT_NODE) || (type =? XML_DTD_NODE)
  then match node_value n with Some v => ret_x v | None => fail_x (-1) end
  else fail_x (-1).

(** The node the loop ends on and what is ahead of it; [None]: the input ends. *)
Fixpoint next_tag_loop (containing_name : cstring) (l : list (option xml_node))
    : option (xml_node * list (option xml_node)) :=
  match l with
  | [] | None :: _ => None
  | Some n :: rest =>
      if negb (bool_decide (node_name n = containing_name)) && negb (node_type n =? XML_ELEMENT_NODE)
      then next_tag_loop containing_name rest
      else Some (n, rest)
  end.

Definition xml_next_tag (containing_name : cstring) : xop S (cstring * Z) :=
  let! s := get_x in
  match next_tag_loop containing_name (ahead (get_reader s)) with
  | None => fail_x (-1)
  | Some (n, rest) => go n rest >>! ret_x (node_name n, node_type n)
  end.

Definition check_empty : xop S Z :=
  let! n := at_node in
  if node_empty n <? 0 then fail_x (-1) else ret_x (node_empty n).

Fixpoint skip_loop (start_depth : Z) (l : list (option xml_node))
    : option (xml_node * list (option xml_node)) :=
  match l with
  | [] | None :: _ => None
  | Some n :: rest =>
      if (node_type n <? 0) || (node_depth n <? 0) then None
      else if negb (node_type n =? XML_ELEMENT_DECL) || (node_depth n >? start_depth)
      then skip_loop start_depth rest
      else Some (n, rest)
  end.

Definition xml_skip_tag : xop S unit :=
  let! n := at_node in
  if node_depth n <? 0 then fail_x (-1)
  else
    let! empty := check_empty in
    if negb (empty =? 0) then ret_x tt
    else
      let! s := get_x in
      match skip_loop (node_depth n) (ahead (get_reader s)) with
      | None => fail_x (-1)
      | Some (n, rest) => go n rest
      end.

(** [tag_list] with the text of the tag the reader stands on at the end. *)
Definition xml_save_tag (tag_list : list cstring) : xop S (list cstring) :=
  let! n := at_node in
  match node_outer n with
  | None => fail_x (-1)
  | Some tag_value => ret_x (tag_list ++ [tag_value])
  end.

(** ** The macros of [xml.h] *)

(** [Some name]: the next tag; [None]: [break], the containing tag ends. *)
Definition get_next_tag (parent_tag : cstring) : xop S (option cstring) :=
  let! '(name, type) := or_minus_1 (xml_next_tag parent_tag) in
  ret_x (if type =? XML_ELEMENT_DECL then None else Some name).

Record tracking := { have_required_tags : list bool; have_optional_tags : list bool }.

Definition declare_tracking_arrays (num_req num_opt : nat) : tracking :=
  {| have_required_tags := replicate num_req false; have_optional_tags := replicate num_opt false |}.

Definition check_required_tag (i : nat) (tr : tracking) : xop S tracking :=
  match have_required_tags tr !! i with
  | None => undefined
  | Some true => fail_x (-1)
  | Some false => ret_x {| have_required_tags := <[i := true]> (have_required_tags tr);
                           have_optional_tags := have_optional_tags tr |}
  end.

Definition check_optional_tag (i : nat) (tr : tracking) : xop S tracking :=
  match have_optional_tags tr !! i with
  | None => undefined
  | Some true => fail_x (-1)
  | Some false => ret_x {| have_required_tags := have_required_tags tr;
                           have_optional_tags := <[i := true]> (have_optional_tags tr) |}
  end.

Definition check_required_tags (tr : tracking) : xop S unit :=
  guard_x (forallb id (have_required_tags tr)).

Definition assert_not_empty : xop S unit :=
  let! n := at_node in guard_x (node_empty n =? 0).

Definition check_tag_end (tagname : cstring) : xop S unit :=
  let! '(_, type) := or_minus_1 (xml_next_tag tagname) in guard_x (type =? XML_ELEMENT_DECL).

Definition get_tag_text : xop S cstring :=
  assert_not_empty >>!
  let! value := or_minus_1 xml_scan_text in
  if Z.of_nat (length value) =? 0 then fail_x (-1) else ret_x value.

Definition ignore_unrecognized_tag : xop S unit := or_minus_1 xml_skip_tag.

Definition preserve_unrecognized_tag (tag_list : list cstring) : xop S (list cstring) :=
  let! tag_list := or_minus_1 (xml_save_tag tag_list) in
  or_minus_1 xml_skip_tag >>!
  ret_x tag_list.

(** The loop of every parser, [while (true) { get_next_tag(); ... }]: [body] treats
    one tag, with the parser's variables [l].  Each turn reads a node, so one more
    turn than there are nodes ahead is enough. *)
Fixpoint tag_loop {L} (fuel : nat) (parent_tag : cstring) (body : cstring -> L -> xop S L) (l : L)
    : xop S L :=
  match fuel with
  | O => undefined
  | Datatypes.S fuel =>
      let! name := get_next_tag parent_tag in
      match name with
      | None => ret_x l
      | Some name => let! l := body name l in tag_loop fuel parent_tag body l
      end
  end.

Definition parse_tags {L} (parent_tag : cstring) (body : cstring -> L -> xop S L) (l : L) : xop S L :=
  let! s := get_x in
  tag_loop (Datatypes.S (length (ahead (get_reader s)))) parent_tag body l.

End reader.

(** ** Values *)

Definition is_hex (b : Z) : bool :=
  ((48 <=? b) && (b <=? 57)) || ((97 <=? b) && (b <=? 102)) || ((65 <=? b) && (b <=? 70)).

Definition lower_hex (b : Z) : Z := if (65 <=? b) && (b <=? 70) then b + 32 else b.

(** The loop over the 36 characters. *)
Fixpoint uuid_loop (i : Z) (val : cstring) : bool :=
  match val with
  | [] => true
  | b :: rest =>
      (if (i =? 8) || (i =? 13) || (i =? 18) || (i =? 23) then b =? 45 else is_hex b)
      && uuid_loop (i + 1) rest
  end.

Definition xml_parse_uuid (val : cstring) : Z + cstring :=
  if negb (Z.of_nat (length val) =? 36) then inl (-1)
  else if uuid_loop 0 val then inr (map lower_hex val) else inl (-1).

Definition xml_parse_filename (icu : icu_lib) (value : cstring) : Z + cstring :=
  match pathname_normalize icu value with
  | inl ret => inl ret
  | inr out_val => if pathname_validate_file icu out_val <? 0 then inl (-1) else inr out_val
  end.

Fixpoint digits_value (acc : Z) (s : cstring) : Z * cstring :=
  match s with
  | [] => (acc, [])
  | b :: rest => if isdigit b then digits_value (10 * acc + (b - 48)) rest else (acc, s)
  end.

(** [strtoull(s, &endptr, 10)]: the value and the string at [endptr]; [s] itself
    when there is no number. *)
Definition strtoull (s : cstring) : Z * cstring :=
  let body := skip_spaces s in
  let '(negative, body) := match body with
                           | 45 :: rest => (true, rest)
                           | 43 :: rest => (false, rest)
                           | _ => (false, body)
                           end in
  match body with
  | b :: _ =>
      if isdigit b then
        let '(v, rest) := digits_value 0 body in
        (if v >? ULLONG_MAX then ULLONG_MAX else if negative then u64 (- v) else v, rest)
      else (0, s)
  | [] => (0, s)
  end.

Definition xml_parse_ull (val : cstring) : Z + Z :=
  if Z.of_nat (length val) =? 0 then inl (-1)
  else let '(v, invalid_start) := strtoull val in
       match invalid_start with [] => inr v | _ => inl (-1) end.

Definition xml_parse_bool (value : cstring) : Z + bool :=
  if bool_decide (value = cstr "true" \/ value = cstr "1") then inr true
  else if bool_decide (value = cstr "false" \/ value = cstr "0") then inr false
  else inl (-1).

(** [xml_parse_time] as the schema parsers use it: they stop at a negative result
    and only warn about a time that was replaced. *)
Definition parse_time_value (value : cstring) : Z + (Z * Z) :=
  match xml_parse_time value with
  | (ret, Some t) => if ret <? 0 then inl (-1) else inr (tv_sec t, tv_nsec t)
  | (_, None) => inl (-1)
  end.

(** ** The writer of libxml2 *)

(** A call of the writer, with its strings; the formatted variants with the string
    that is formatted. *)
Inductive xml_call :=
  | xmlTextWriterStartDocument (encoding : cstring)
  | xmlTextWriterSetIndent (indent : Z)
  | xmlTextWriterSetIndentString (str : cstring)
  | xmlTextWriterStartElement (name : cstring)
  | xmlTextWriterWriteAttribute (name content : cstring)
  | xmlTextWriterWriteElement (name : cstring) (content : option cstring)
  | xmlTextWriterWriteBase64 (data : list Z)
  | xmlTextWriterWriteRaw (content : cstring)
  | xmlTextWriterEndElement
  | xmlTextWriterEndDocument.

Definition xmlTextWriterWriteFormatElement (name content : cstring) : xml_call :=
  xmlTextWriterWriteElement name (Some content).

Section writer.
Context {W : Type} (write : xml_call -> W -> Z * W).

(** A writing function: its result, over the state of the writer. *)
Definition wop : Type := op W Z.

Definition emit (c : xml_call) : wop := fun w => Some (write c w).
Definition done : wop := ret_op 0.

(** [xml_mktag(val, -1)] and what follows it *)
Definition xml_mktag (val next : wop) : wop :=
  bind_op val (fun r => if r <? 0 then ret_op (-1) else next).

(** A call whose result is not looked at. *)
Definition ignoring (val next : wop) : wop := bind_op val (fun _ => next).

(** [xml_mktag] of one call per element of a list *)
Fixpoint for_each {A} (f : A -> wop) (l : list A) (next : wop) : wop :=
  match l with [] => next | x :: l' => xml_mktag (f x) (for_each f l' next) end.

End writer.

Notation "m ;! k" := (xml_mktag m k) (at level 199, right associativity) : ltfs_scope.

(** The formats "%u" and "%PRIu64". *)
Fixpoint print_dec_loop (fuel : nat) (n : Z) (acc : cstring) : cstring :=
  match fuel with
  | O => acc
  | S fuel => if n <? 10 then (48 + n) :: acc else print_dec_loop fuel (n / 10) (48 + n mod 10 :: acc)
  end.

(** One digit at least takes away a factor of eight. *)
Definition print_dec (n : Z) : cstring := print_dec_loop (S (Z.to_nat (Z.log2 n))) n [].

(** "%ld" of an [unsigned long] *)
Definition print_long (n : Z) : cstring :=
  if n <? 2 ^ 63 then print_dec n else 45 :: print_dec (2 ^ 64 - n).

(** "%c": a NUL ends the string. *)
Definition print_char (c : Z) : cstring := if c =? 0 then [] else [c].

(** [b ? "true" : "false"] *)
Definition print_bool (b : bool) : cstring := cstr (if b then "true" else "false").
