(* ===== verification/XmlRead.v ===== *)
(** * Reading the Index document

    [libltfs/xml_reader_libltfs.c]: the parser of the Index schema, which fills
    [struct ltfs_index] and builds the tree of dentries, and the parsers of extent
    lists and symbolic links kept in files of their own.

    A parser fills what its C counterpart fills, and leaves it so when it fails.
    [blocksize] is that of the volume the index belongs to; [None]: there is none
    ([vol] is NULL).  An out parameter that a failed conversion would leave undefined
    is left as it was: nobody looks at it. *)

From S2P Require Import Prelude Errors TapeOps TapeDev Coherency Extents Volume FsRaw.
From S2P Require Import TimeInternal Base64 Pathname IndexCriteria FsTree XmlLib.
Open Scope Z_scope.
Open Scope ltfs_scope.

(** ** State *)

Definition MAKE_LTFS_VERSION (x y z : Z) : Z := s32 (10000 * x + 100 * y + z).
Definition LTFS_INDEX_VERSION_MIN : Z := 10000.
Definition LTFS_INDEX_VERSION_MAX : Z := 29999.
Definition IDX_VERSION_SPARSE : Z := 20000.
Definition IDX_VERSION_BACKUPTIME : Z := 20000.
Definition IDX_VERSION_UID : Z := 20000.
Definition INDEX_MAX_COMMENT_LEN : Z := 65536.

(** [struct ltfs_index]: [base] has the part the volume uses, and the tree with its
    counters and the active criteria is in [fs_state]. *)
Record schema_index := {
  base : ltfs_index;
  volume_name : option cstring;
  criteria_allow_update : bool;
  original_criteria : index_criteria;
  commit_message : option cstring;
  index_tags : list cstring;
  symlink_conflict : list Z
}.

Definition no_policy : index_criteria :=
  {| have_criteria := false; max_filesize_criteria := 0; glob_patterns := None; glob_cache := None |}.

(** [ltfs_index_alloc]: [calloc] and the version; the tree is [FsTree.ltfs_index_alloc]. *)
Definition new_schema_index : schema_index :=
  {| base := {| idx_creator := []; idx_vol_uuid := []; generation := 0; mod_time := (0, 0);
                selfptr := {| off_partition := 0; off_block := 0 |};
                backptr := {| off_partition := 0; off_block := 0 |};
                dirty := false; atime_dirty := false; use_atime := false; idx_version := LTFS_INDEX_VERSION |};
     volume_name := None; criteria_allow_update := false;
     original_criteria := no_policy; commit_message := None; index_tags := []; symlink_conflict := [] |}.

Definition set_base (b : ltfs_index) (i : schema_index) : schema_index :=
  {| base := b; volume_name := volume_name i; criteria_allow_update := criteria_allow_update i;
     original_criteria := original_criteria i; commit_message := commit_message i;
     index_tags := index_tags i; symlink_conflict := symlink_conflict i |}.
Definition set_volume_name (n : option cstring) (i : schema_index) : schema_index :=
  {| base := base i; volume_name := n; criteria_allow_update := criteria_allow_update i;
     original_criteria := original_criteria i; commit_message := commit_message i;
     index_tags := index_tags i; symlink_conflict := symlink_conflict i |}.
Definition set_allow_update (b : bool) (i : schema_index) : schema_index :=
  {| base := base i; volume_name := volume_name i; criteria_allow_update := b;
     original_criteria := original_criteria i; commit_message := commit_message i;
     index_tags := index_tags i; symlink_conflict := symlink_conflict i |}.
Definition set_original_criteria (ic : index_criteria) (i : schema_index) : schema_index :=
  {| base := base i; volume_name := volume_name i; criteria_allow_update := criteria_allow_update i;
     original_criteria := ic; commit_message := commit_message i;
     index_tags := index_tags i; symlink_conflict := symlink_conflict i |}.
Definition set_commit_message (m : option cstring) (i : schema_index) : schema_index :=
  {| base := base i; volume_name := volume_name i; criteria_allow_update := criteria_allow_update i;
     original_criteria := original_criteria i; commit_message := m;
     index_tags := index_tags i; symlink_conflict := symlink_conflict i |}.
Definition set_index_tags (l : list cstring) (i : schema_index) : schema_index :=
  {| base := base i; volume_name := volume_name i; criteria_allow_update := criteria_allow_update i;
     original_criteria := original_criteria i; commit_message := commit_message i;
     index_tags := l; symlink_conflict := symlink_conflict i |}.
Definition set_symlink_conflict (l : list Z) (i : schema_index) : schema_index :=
  {| base := base i; volume_name := volume_name i; criteria_allow_update := criteria_allow_update i;
     original_criteria := original_criteria i; commit_message := commit_message i;
     index_tags := index_tags i; symlink_conflict := l |}.

Definition set_idx_vol_uuid (u : cstring) (idx : ltfs_index) : ltfs_index :=
  {| idx_creator := idx_creator idx; idx_vol_uuid := u; generation := generation idx;
     mod_time := mod_time idx; selfptr := selfptr idx; backptr := backptr idx; dirty := dirty idx;
     atime_dirty := atime_dirty idx; use_atime := use_atime idx; idx_version := idx_version idx |}.
Definition set_idx_version (v : Z) (idx : ltfs_index) : ltfs_index :=
  {| idx_creator := idx_creator idx; idx_vol_uuid := idx_vol_uuid idx; generation := generation idx;
     mod_time := mod_time idx; selfptr := selfptr idx; backptr := backptr idx; dirty := dirty idx;
     atime_dirty := atime_dirty idx; use_atime := use_atime idx; idx_version := v |}.

Record parse_state := { ps_reader : text_reader; ps_index : schema_index; ps_tree : fs_state }.

Definition set_ps_index (i : schema_index) (s : parse_state) : parse_state :=
  {| ps_reader := ps_reader s; ps_index := i; ps_tree := ps_tree s |}.
Definition set_ps_tree (t : fs_state) (s : parse_state) : parse_state :=
  {| ps_reader := ps_reader s; ps_index := ps_index s; ps_tree := t |}.

#[global] Instance parse_state_reader : HasReader parse_state := {
  get_reader := ps_reader;
  put_reader r s := {| ps_reader := r; ps_index := ps_index s; ps_tree := ps_tree s |}
}.

Definition parser : Type -> Type := xop parse_state.

(** An operation on the tree. *)
Definition on_nodes {A} (m : fs_op A) : parser A := fun s =>
  match m (ps_tree s) with Some (x, t) => Some (inr x, set_ps_tree t s) | None => None end.
Definition on_index (f : schema_index -> schema_index) : parser unit :=
  modify_x (fun s => set_ps_index (f (ps_index s)) s).
Definition on_base (f : ltfs_index -> ltfs_index) : parser unit :=
  on_index (fun i => set_base (f (base i)) i).
Definition the_version : parser Z := fun s => Some (inr (idx_version (base (ps_index s))), s).

Definition update_node (d : Z) (f : fsnode -> fsnode) : parser unit := on_nodes (update d f).

(** [if (uid > idx->uid_number) idx->uid_number = uid;] *)
Definition raise_uid_number (u : Z) : parser unit :=
  on_nodes (update_state (fun t =>
    if u >? uid_number t then set_counters (fresh t) (inode_number t) u t else t)).

(** The text of the required tag [i], converted and stored. *)
Definition required_text {S A} `{HasReader S} (i : nat) (name : cstring) (conv : cstring -> Z + A)
    (store : A -> xop S unit) (tr : tracking) : xop S tracking :=
  let! tr := check_required_tag i tr in
  let! value := get_tag_text in
  let! x := or_minus_1 (of_sum (conv value)) in
  store x >>!
  check_tag_end name >>!
  ret_x tr.

(** ** Values *)

Fixpoint skip_digits (s : cstring) : cstring :=
  match s with
  | [] => []
  | b :: rest => if (48 <=? b) && (b <=? 57) then skip_digits rest else s
  end.

(** [atoi] of a string that begins with a digit: [strtol] and a conversion *)
Definition atoi (s : cstring) : Z := s32 (Z.min (2 ^ 63 - 1) (fst (digits_value 0 s))).

(** Digits, at least one, and a dot; what follows. *)
Definition version_part (s : cstring) : option cstring :=
  match skip_digits s with
  | 46 :: rest => if decide (skip_digits s = s) then None else Some rest
  | _ => None
  end.

Definition _xml_parse_version (version_str : cstring) : Z + Z :=
  if bool_decide (version_str = cstr "1.0") then inr (MAKE_LTFS_VERSION 1 0 0)
  else match version_part version_str with
       | None => inl (- LTFS_BAD_ARG)
       | Some y_str =>
           match version_part y_str with
           | None => inl (- LTFS_BAD_ARG)
           | Some z_str =>
               if bool_decide (z_str <> []) && bool_decide (skip_digits z_str = [])
               then inr (MAKE_LTFS_VERSION (atoi version_str) (atoi y_str) (atoi z_str))
               else inl (- LTFS_BAD_ARG)
           end
       end.

Definition _xml_parse_partition (val : cstring) : Z + Z :=
  match val with
  | [b] => if (b <? 97) || (b >? 122) then inl (-1) else inr b
  | _ => inl (-1)
  end.

(** The version of the document; the caller stores it. *)
Definition _xml_parser_init {S} `{HasReader S} (top_name : cstring) (min_version max_version : Z)
    : xop S Z :=
  let! '(name, _) := or_minus_1 (xml_next_tag []) in
  if negb (bool_decide (name = top_name)) then fail_x (-1)
  else
    let! s := get_x in
    if negb (bool_decide (encoding (get_reader s) = Some (cstr "UTF-8"))) then fail_x (-1)
    else match xmlTextReaderGetAttribute (cstr "version") (here (get_reader s)) with
         | None => fail_x (-1)
         | Some value =>
             match _xml_parse_version value with
             | inl _ => fail_x (- LTFS_UNSUPPORTED_INDEX_VERSION)
             | inr ver =>
                 if (ver <? min_version) || (ver >? max_version)
                 then fail_x (- LTFS_UNSUPPORTED_INDEX_VERSION)
                 else ret_x ver
             end
         end.

(** ** Tape positions *)

Definition set_pos_block (b : Z) (p : tape_offset) : tape_offset :=
  {| off_partition := off_partition p; off_block := b |}.
Definition set_pos_partition (q : Z) (p : tape_offset) : tape_offset :=
  {| off_partition := q; off_block := off_block p |}.

Definition tapepos_tag {S} `{HasReader S} (name : cstring) (l : tracking * tape_offset)
    : xop S (tracking * tape_offset) :=
  let '(tr, pos) := l in
  if bool_decide (name = cstr "partition") then
    let! tr := check_required_tag 0 tr in
    let! value := get_tag_text in
    let! p := or_minus_1 (of_sum (_xml_parse_partition value)) in
    check_tag_end (cstr "partition") >>!
    ret_x (tr, set_pos_partition p pos)
  else if bool_decide (name = cstr "startblock") then
    let! tr := check_required_tag 1 tr in
    let! value := get_tag_text in
    let! b := or_minus_1 (of_sum (xml_parse_ull value)) in
    check_tag_end (cstr "startblock") >>!
    ret_x (tr, set_pos_block b pos)
  else ignore_unrecognized_tag >>! ret_x l.

Definition _xml_scan_tapepos {S} `{HasReader S} (tag : cstring) (pos : tape_offset) : xop S tape_offset :=
  let! '(tr, pos) := parse_tags tag tapepos_tag (declare_tracking_arrays 2 0, pos) in
  check_required_tags tr >>!
  ret_x pos.

(** ** Extents *)

(** The insertion, from the last extent on; [None]: it overlaps one. *)
Fixpoint insert_extent (xt : extent_info) (reversed : list extent_info) : option (list extent_info) :=
  match reversed with
  | [] => Some [xt]
  | xt_last :: before =>
      if fileoffset_end xt_last <=? fileoffset xt then Some (xt :: xt_last :: before)
      else if fileoffset_end xt >? fileoffset xt_last then None
      else match insert_extent xt before with
           | Some l => Some (xt_last :: l)
           | None => None
           end
  end.

Definition extent_tag {S} `{HasReader S} (idx_version : Z) (name : cstring) (l : tracking * extent_info)
    : xop S (tracking * extent_info) :=
  let '(tr, xt) := l in
  let number i tag (store : Z -> extent_info) :=
    let! tr := check_required_tag i tr in
    let! value := get_tag_text in
    let! v := or_minus_1 (of_sum (xml_parse_ull value)) in
    check_tag_end tag >>!
    ret_x (tr, store v) in
  if bool_decide (name = cstr "partition") then
    let! tr := check_required_tag 0 tr in
    let! value := get_tag_text in
    let! p := or_minus_1 (of_sum (_xml_parse_partition value)) in
    check_tag_end (cstr "partition") >>!
    ret_x (tr, {| start := set_pos_partition p (start xt); byteoffset := byteoffset xt;
                  bytecount := bytecount xt; fileoffset := fileoffset xt |})
  else if bool_decide (name = cstr "startblock") then
    number 1%nat (cstr "startblock") (fun v =>
      {| start := set_pos_block v (start xt); byteoffset := byteoffset xt;
         bytecount := bytecount xt; fileoffset := fileoffset xt |})
  else if bool_decide (name = cstr "byteoffset") then
    number 2%nat (cstr "byteoffset") (fun v =>
      {| start := start xt; byteoffset := u32 v; bytecount := bytecount xt; fileoffset := fileoffset xt |})
  else if bool_decide (name = cstr "bytecount") then
    number 3%nat (cstr "bytecount") (fun v =>
      {| start := start xt; byteoffset := byteoffset xt; bytecount := v; fileoffset := fileoffset xt |})
  else if (idx_version >=? IDX_VERSION_SPARSE) && bool_decide (name = cstr "fileoffset") then
    number 4%nat (cstr "fileoffset") (fun v =>
      {| start := start xt; byteoffset := byteoffset xt; bytecount := bytecount xt; fileoffset := v |})
  else ignore_unrecognized_tag >>! ret_x l.

Definition no_extent : extent_info :=
  {| start := {| off_partition := 0; off_block := 0 |}; byteoffset := 0; bytecount := 0; fileoffset := 0 |}.

(** Blocks an extent occupies *)
Definition extent_blocks (bs : Z) (xt : extent_info) : Z :=
  byteoffset_end xt / bs + (if byteoffset_end xt mod bs =? 0 then 0 else 1).

Definition add_extent_to (blocksize : option Z) (xt : extent_info) (l : list extent_info) (d : fsnode)
    : fsnode :=
  let f := file d in
  let d := set_file (set_contents l (u64 (realsize f + bytecount xt)) (size f) (extents_dirty f)
                       (modify_time f) (change_time f) f) d in
  match blocksize with
  | None => d
  | Some bs => set_used_blocks (u64 (used_blocks d + extent_blocks bs xt)) d
  end.

Definition _xml_parse_one_extent (blocksize : option Z) (idx_version : Z) (d : Z) : parser unit :=
  let! '(tr, xt) := parse_tags (cstr "extent") (extent_tag idx_version)
                      (declare_tracking_arrays 5 0, no_extent) in
  let! n := on_nodes (deref d) in
  let! '(tr, xt) :=
    (if idx_version <? IDX_VERSION_SPARSE then
       let! tr := check_required_tag 4 tr in
       ret_x (tr, {| start := start xt; byteoffset := byteoffset xt; bytecount := bytecount xt;
                     fileoffset := match list.last (extentlist (file n)) with
                                   | None => 0
                                   | Some xt_last => fileoffset_end xt_last
                                   end |})
     else ret_x (tr, xt)) in
  check_required_tags tr >>!
  match insert_extent xt (rev (extentlist (file n))) with
  | None => fail_x (-1)
  | Some l => update_node d (add_extent_to blocksize xt (rev l))
  end.

Definition extents_tag (blocksize : option Z) (idx_version d : Z) (name : cstring) (l : unit)
    : parser unit :=
  if bool_decide (name = cstr "extent") then
    assert_not_empty >>!
    or_minus_1 (_xml_parse_one_extent blocksize idx_version d)
  else ignore_unrecognized_tag.

Definition _xml_parse_extents (blocksize : option Z) (idx_version d : Z) : parser unit :=
  parse_tags (cstr "extentinfo") (extents_tag blocksize idx_version d) tt.

(** ** Extended attributes *)

Record xattr_locals := { xl_tr : tracking; xl_key : option cstring; xl_value : option (list Z) }.

(** The bytes [base64_decode] has put into its buffer. *)
Definition decoded_bytes (size : Z) (buffer : option (gmap Z Z)) : list Z :=
  match buffer with
  | None => []
  | Some b => map (fun i => default 0 (b !! Z.of_nat i)) (seq 0 (Z.to_nat size))
  end.

(** [before]: the byte in front of the text, which [base64_decode] may look at. *)
Definition xattr_value (before : Z) (xattr_type : option cstring) (value : cstring) : Z + list Z :=
  if bool_decide (xattr_type = None \/ xattr_type = Some (cstr "text")) then inr value
  else let '(size, out) := base64_decode before value in
       if size =? 0 then inl (-1) else inr (decoded_bytes size out).

Definition one_xattr_tag (icu : icu_lib) (before : Z) (name : cstring) (l : xattr_locals)
    : parser xattr_locals :=
  if bool_decide (name = cstr "key") then
    let! tr := check_required_tag 0 (xl_tr l) in
    let! value := get_tag_text in
    let! key := or_minus_1 (of_sum (xml_parse_filename icu value)) in
    check_tag_end (cstr "key") >>!
    ret_x {| xl_tr := tr; xl_key := Some key; xl_value := xl_value l |}
  else if bool_decide (name = cstr "value") then
    let! tr := check_required_tag 1 (xl_tr l) in
    let! n := at_node in
    let xattr_type := xmlTextReaderGetAttribute (cstr "type") n in
    if bool_decide (xattr_type <> None /\ xattr_type <> Some (cstr "text")
                    /\ xattr_type <> Some (cstr "base64"))
    then fail_x (-1)
    else
      let! empty := check_empty in
      if empty =? 0 then
        let! value := or_minus_1 xml_scan_text in
        let! v := of_sum (xattr_value before xattr_type value) in
        (if 0 <? Z.of_nat (length value) then check_tag_end (cstr "value") else ret_x tt) >>!
        ret_x {| xl_tr := tr; xl_key := xl_key l; xl_value := Some v |}
      else ret_x {| xl_tr := tr; xl_key := xl_key l; xl_value := None |}
  else ignore_unrecognized_tag >>! ret_x l.

Definition _xml_parse_one_xattr (icu : icu_lib) (before : Z) (d : Z) : parser unit :=
  let! l := parse_tags (cstr "xattr") (one_xattr_tag icu before)
              {| xl_tr := declare_tracking_arrays 2 0; xl_key := None; xl_value := None |} in
  check_required_tags (xl_tr l) >>!
  match xl_key l with
  | None => undefined
  | Some key => update_node d (fun n => set_xattrs (xattrlist n ++ [(key, xl_value l)]) n)
  end.

Definition xattrs_tag (icu : icu_lib) (before : Z) (d : Z) (name : cstring) (l : unit) : parser unit :=
  if bool_decide (name = cstr "xattr") then
    assert_not_empty >>!
    or_minus_1 (_xml_parse_one_xattr icu before d)
  else ignore_unrecognized_tag.

Definition _xml_parse_xattrs (icu : icu_lib) (before : Z) (d : Z) : parser unit :=
  parse_tags (cstr "extendedattributes") (xattrs_tag icu before d) tt.

(** ** The data placement policy *)

Definition with_patterns (l : option (list cstring)) (i : schema_index) : schema_index :=
  set_original_criteria (set_patterns l (original_criteria i)) i.

Definition ip_criteria_tag (icu : icu_lib) (name : cstring) (tr : tracking) : parser tracking :=
  if bool_decide (name = cstr "size") then
    required_text 0 (cstr "size") xml_parse_ull (fun v =>
      on_index (fun i => set_original_criteria (set_max_filesize v (original_criteria i)) i)) tr
  else if bool_decide (name = cstr "name") then
    let! value := get_tag_text in
    if pathname_validate_file icu value <? 0 then fail_x (-1)
    else
      let! glob_norm := of_sum (pathname_normalize icu value) in
      on_index (fun i =>
        with_patterns (Some (default [] (glob_patterns (original_criteria i)) ++ [glob_norm])) i) >>!
      check_tag_end (cstr "name") >>!
      ret_x tr
  else ignore_unrecognized_tag >>! ret_x tr.

Definition _xml_parse_ip_criteria (icu : icu_lib) : parser unit :=
  on_index (fun i => set_original_criteria
    (set_have true (index_criteria_free (original_criteria i))) i) >>!
  on_nodes (update_state (fun t => set_criteria (index_criteria_free (criteria_of t)) t)) >>!
  let! tr := parse_tags (cstr "indexpartitioncriteria") (ip_criteria_tag icu)
               (declare_tracking_arrays 1 0) in
  let! s := get_x in
  on_nodes (update_state
    (set_criteria (index_criteria_dup_rules (original_criteria (ps_index s))))) >>!
  check_required_tags tr.

Definition policy_tag (icu : icu_lib) (name : cstring) (tr : tracking) : parser tracking :=
  if bool_decide (name = cstr "indexpartitioncriteria") then
    let! tr := check_required_tag 0 tr in
    assert_not_empty >>!
    or_minus_1 (_xml_parse_ip_criteria icu) >>!
    ret_x tr
  else ignore_unrecognized_tag >>! ret_x tr.

Definition _xml_parse_policy (icu : icu_lib) : parser unit :=
  let! tr := parse_tags (cstr "dataplacementpolicy") (policy_tag icu) (declare_tracking_arrays 1 0) in
  check_required_tags tr.

(** ** Files *)

Definition BACKUPTIME_TAGNAME : cstring := cstr "backuptime".
Definition NEXTUID_TAGNAME : cstring := cstr "highestfileuid".
Definition UID_TAGNAME : cstring := cstr "fileuid".

(** [if (ret == -LTFS_NO_MEMORY) return ret; else return -1;] *)
Definition or_no_memory {A} (m : parser A) : parser A :=
  bind_op m (fun r => ret_op (match r with
    | inl e => inl (if e =? - LTFS_NO_MEMORY then - LTFS_NO_MEMORY else -1)
    | inr x => inr x
    end)).

(** The entry of the [struct name_list] the caller passes: its name and dentry, once
    the name has been read. *)
Definition entry : Type := option (cstring * Z).

(** The tags files and directories have in common, by the numbers of their required
    tags; [None]: it is none of these. *)
Definition dentry_tag (icu : icu_lib) (before : Z) (version : Z) (readonly_i modify_i creation_i access_i change_i : nat)
    (d : Z) (name : cstring) (tr : tracking) : option (parser tracking) :=
  if bool_decide (name = cstr "readonly") then
    Some (required_text readonly_i (cstr "readonly") xml_parse_bool (fun b =>
            update_node d (set_readonly_flag b)) tr)
  else if bool_decide (name = cstr "modifytime") then
    Some (required_text modify_i (cstr "modifytime") parse_time_value (fun t =>
            update_node d (on_file (set_modify_time t))) tr)
  else if bool_decide (name = cstr "creationtime") then
    Some (required_text creation_i (cstr "creationtime") parse_time_value (fun t =>
            update_node d (set_creation_time t)) tr)
  else if bool_decide (name = cstr "accesstime") then
    Some (required_text access_i (cstr "accesstime") parse_time_value (fun t =>
            update_node d (on_file (set_access_time t))) tr)
  else if bool_decide (name = cstr "changetime") then
    Some (required_text change_i (cstr "changetime") parse_time_value (fun t =>
            update_node d (on_file (set_change_time t))) tr)
  else if bool_decide (name = cstr "extendedattributes") then
    Some (let! tr := check_optional_tag 0 tr in
          let! empty := check_empty in
          (if empty =? 0 then or_minus_1 (_xml_parse_xattrs icu before d) else ret_x tt) >>!
          ret_x tr)
  else if (version >=? IDX_VERSION_UID) && bool_decide (name = UID_TAGNAME) then
    Some (required_text 7 UID_TAGNAME xml_parse_ull (fun u =>
            update_node d (set_uid u) >>! raise_uid_number u) tr)
  else if bool_decide (name = UID_TAGNAME) then
    Some (ignore_unrecognized_tag >>! ret_x tr)
  else if (version >=? IDX_VERSION_BACKUPTIME) && bool_decide (name = BACKUPTIME_TAGNAME) then
    Some (required_text 8 BACKUPTIME_TAGNAME parse_time_value (fun t =>
            update_node d (set_backup_time t)) tr)
  else if bool_decide (name = BACKUPTIME_TAGNAME) then
    Some (ignore_unrecognized_tag >>! ret_x tr)
  else None.

Definition preserve_in_dentry (d : Z) : parser unit :=
  let! n := on_nodes (deref d) in
  let! tags := preserve_unrecognized_tag (preserved_tags n) in
  update_node d (set_tags tags).

(** What both kinds of dentry do behind the loop: old versions have no unique ids
    and no backup times. *)
Definition old_uid (d : Z) (allocate : bool) (version : Z) (tr : tracking) : parser tracking :=
  if version <? IDX_VERSION_UID then
    let! tr := check_required_tag 7 tr in
    (if allocate then
       let! u := on_nodes fs_allocate_uid in
       update_node d (set_uid u) >>!
       raise_uid_number u
     else ret_x tt) >>!
    ret_x tr
  else ret_x tr.

Definition old_backup_time (d : Z) (version : Z) (tr : tracking) : parser tracking :=
  if version <? IDX_VERSION_BACKUPTIME then
    let! tr := check_required_tag 8 tr in
    update_node d (fun n => set_backup_time (creation_time n) n) >>!
    ret_x tr
  else ret_x tr.

Record file_locals := {
  fl_tr : tracking;
  fl_entry : entry;
  symlink_flag : bool;
  extent_flag : bool
}.

Definition set_fl_tr (tr : tracking) (l : file_locals) : file_locals :=
  {| fl_tr := tr; fl_entry := fl_entry l; symlink_flag := symlink_flag l; extent_flag := extent_flag l |}.

Section schema.
Context (icu : icu_lib) (before : Z) (blocksize : option Z).

Definition file_tag (file : Z) (name : cstring) (l : file_locals) : parser file_locals :=
  let! version := the_version in
  if bool_decide (name = cstr "name") then
    let! tr := check_required_tag 0 (fl_tr l) in
    let! value := get_tag_text in
    let! nm := or_minus_1 (of_sum (xml_parse_filename icu value)) in
    update_node file (set_name nm) >>!
    check_tag_end (cstr "name") >>!
    ret_x {| fl_tr := tr; fl_entry := Some (nm, file); symlink_flag := symlink_flag l;
             extent_flag := extent_flag l |}
  else if bool_decide (name = cstr "length") then
    let! tr := required_text 1 (cstr "length") xml_parse_ull (fun v =>
      update_node file (on_file (fun f =>
        set_contents (extentlist f) (realsize f) v (extents_dirty f) (modify_time f) (change_time f) f)))
      (fl_tr l) in
    ret_x (set_fl_tr tr l)
  else if bool_decide (name = cstr "extentinfo") then
    let! tr := check_optional_tag 1 (fl_tr l) in
    let! empty := check_empty in
    (if empty =? 0 then or_minus_1 (_xml_parse_extents blocksize version file) else ret_x tt) >>!
    ret_x {| fl_tr := tr; fl_entry := fl_entry l; symlink_flag := symlink_flag l; extent_flag := true |}
  else if bool_decide (name = cstr "symlink") then
    let! tr := check_optional_tag 2 (fl_tr l) in
    let! value := get_tag_text in
    update_node file (set_link_target value) >>!
    ret_x {| fl_tr := tr; fl_entry := fl_entry l; symlink_flag := true; extent_flag := extent_flag l |}
  else match dentry_tag icu before version 2 3 4 5 6 file name (fl_tr l) with
       | Some m => let! tr := m in ret_x (set_fl_tr tr l)
       | None => preserve_in_dentry file >>! ret_x l
       end.

(** The file must not end before its last extent does. *)
Definition extents_fit (n : fsnode) : bool :=
  match list.last (extentlist (file n)) with
  | None => true
  | Some xt_last => fileoffset_end xt_last <=? size (file n)
  end.

Definition _xml_save_symlink_conflict (d : Z) : parser unit :=
  on_index (fun i => set_symlink_conflict (symlink_conflict i ++ [d]) i).

Definition _xml_parse_file (dir : Z) : parser (cstring * Z) :=
  let! file := on_nodes (fs_allocate_dentry (Some dir) None None false false false) in
  match file with
  | None => fail_x (- LTFS_NO_MEMORY)
  | Some file =>
      let! l := parse_tags (cstr "file") (file_tag file)
                  {| fl_tr := declare_tracking_arrays 9 3; fl_entry := None; symlink_flag := false;
                     extent_flag := false |} in
      let! version := the_version in
      let! tr := old_uid file true version (fl_tr l) in
      let! tr := old_backup_time file version tr in
      check_required_tags tr >>!
      let! n := on_nodes (deref file) in
      if negb (extents_fit n) then fail_x (-1)
      else if uid n =? 0 then fail_x (-1)
      else
        (if symlink_flag l && extent_flag l then _xml_save_symlink_conflict file else ret_x tt) >>!
        match fl_entry l with
        | None => undefined
        | Some e => ret_x e
        end
  end.

(** ** Directories *)

(** One entry of a directory; [list] is the temporary table, in the order of the
    document. *)
Definition contents_tag (parse_dirtree : option Z -> parser entry) (dir : Z) (name : cstring)
    (list : name_list) : parser name_list :=
  if bool_decide (name = cstr "file") then
    assert_not_empty >>!
    let! e := or_no_memory (_xml_parse_file dir) in
    ret_x (list ++ [e])
  else if bool_decide (name = cstr "directory") then
    assert_not_empty >>!
    let! e := or_no_memory (parse_dirtree (Some dir)) in
    match e with
    | None => undefined
    | Some e => ret_x (list ++ [e])
    end
  else ignore_unrecognized_tag >>! ret_x list.

Definition _xml_parse_dir_contents (parse_dirtree : option Z -> parser entry) (dir : Z) : parser unit :=
  let! list := parse_tags (cstr "contents") (contents_tag parse_dirtree dir) [] in
  let! ret := on_nodes (fs_update_platform_safe_names dir list) in
  guard_x (ret =? 0).

(** [xml_scan_text] of the volume name, which may be empty; [value && strlen(value) > 0]. *)
Definition scan_volume_name : parser (option cstring) :=
  let! empty := check_empty in
  if 0 <? empty then ret_x None
  else
    let! value := or_minus_1 xml_scan_text in
    ret_x (if 0 <? Z.of_nat (length value) then Some value else None).

Definition dirtree_tag (parse_dirtree : option Z -> parser entry) (parent : option Z) (dir : Z)
    (name : cstring) (l : tracking * entry) : parser (tracking * entry) :=
  let '(tr, e) := l in
  let! version := the_version in
  if bool_decide (name = cstr "name") then
    let! tr := check_required_tag 0 tr in
    if decide (is_Some parent) then
      let! value := get_tag_text in
      let! nm := or_minus_1 (of_sum (xml_parse_filename icu value)) in
      update_node dir (set_name nm) >>!
      check_tag_end (cstr "name") >>!
      ret_x (tr, Some (nm, dir))
    else
      let! value := scan_volume_name in
      match value with
      | Some value =>
          let! nm := or_minus_1 (of_sum (xml_parse_filename icu value)) in
          on_index (set_volume_name (Some nm)) >>!
          check_tag_end (cstr "name") >>!
          ret_x (tr, e)
      | None => on_index (set_volume_name None) >>! ret_x (tr, e)
      end
  else if bool_decide (name = cstr "contents") then
    let! tr := check_required_tag 6 tr in
    let! empty := check_empty in
    (if empty =? 0 then or_no_memory (_xml_parse_dir_contents parse_dirtree dir) else ret_x tt) >>!
    ret_x (tr, e)
  else match dentry_tag icu before version 1 2 3 4 5 dir name tr with
       | Some m => let! tr := m in ret_x (tr, e)
       | None => preserve_in_dentry dir >>! ret_x l
       end.

(** The dentry to fill: the root if there is one, or a new one. *)
Definition dirtree_dentry (parent : option Z) : parser (option Z) :=
  let! s := get_x in
  if negb (bool_decide (is_Some parent)) && negb (root (ps_tree s) =? 0)
  then ret_x (Some (root (ps_tree s)))
  else
    let! d := on_nodes (fs_allocate_dentry parent None None true false false) in
    match d, parent with
    | Some dir, None =>
        on_nodes (update_state (set_root dir)) >>!
        update_node dir (fun n => set_link_count (u32 (link_count n + 1)) n) >>!
        ret_x (Some dir)
    | _, _ => ret_x d
    end.

(** Every level of the tree is inside a tag of its own: one more than the nodes that
    are ahead is fuel enough. *)
Fixpoint parse_dirtree (fuel : nat) (parent : option Z) : parser entry :=
  match fuel with
  | O => undefined
  | S fuel =>
      let! d := dirtree_dentry parent in
      match d with
      | None => fail_x (- LTFS_NO_MEMORY)
      | Some dir =>
          let! '(tr, e) := parse_tags (cstr "directory") (dirtree_tag (parse_dirtree fuel) parent dir)
                             (declare_tracking_arrays 9 1, None) in
          let! version := the_version in
          let! tr := old_uid dir (bool_decide (is_Some parent)) version tr in
          let! tr := old_backup_time dir version tr in
          check_required_tags tr >>!
          let! n := on_nodes (deref dir) in
          if bool_decide (is_Some parent) && (uid n =? 1) then fail_x (-1)
          else if negb (bool_decide (is_Some parent)) && negb (uid n =? 1) then fail_x (-1)
          else if uid n =? 0 then fail_x (-1)
          else ret_x e
      end
  end.

Definition _xml_parse_dirtree (parent : option Z) : parser entry :=
  let! s := get_x in parse_dirtree (S (length (ahead (ps_reader s)))) parent.

(** ** The Index *)

Definition schema_tag (name : cstring) (tr : tracking) : parser tracking :=
  let! version := the_version in
  if bool_decide (name = cstr "creator") then
    required_text 0 (cstr "creator") inr (fun v => on_base (set_creator v)) tr
  else if bool_decide (name = cstr "volumeuuid") then
    required_text 1 (cstr "volumeuuid") xml_parse_uuid (fun v => on_base (set_idx_vol_uuid v)) tr
  else if bool_decide (name = cstr "generationnumber") then
    required_text 2 (cstr "generationnumber") xml_parse_ull (fun v =>
      on_base (fun b => set_generation (u32 v) (mod_time b) b)) tr
  else if bool_decide (name = cstr "updatetime") then
    required_text 3 (cstr "updatetime") parse_time_value (fun t =>
      on_base (fun b => set_generation (generation b) t b)) tr
  else if bool_decide (name = cstr "location") then
    let! tr := check_required_tag 4 tr in
    assert_not_empty >>!
    let! s := get_x in
    let! pos := or_minus_1 (_xml_scan_tapepos (cstr "location") (selfptr (base (ps_index s)))) in
    on_base (fun b => set_pointers pos (backptr b) b) >>!
    ret_x tr
  else if bool_decide (name = cstr "allowpolicyupdate") then
    required_text 5 (cstr "allowpolicyupdate") xml_parse_bool (fun b => on_index (set_allow_update b)) tr
  else if bool_decide (name = cstr "directory") then
    let! tr := check_required_tag 6 tr in
    assert_not_empty >>!
    or_no_memory (_xml_parse_dirtree None) >>!
    ret_x tr
  else if bool_decide (name = cstr "previousgenerationlocation") then
    let! tr := check_optional_tag 0 tr in
    assert_not_empty >>!
    let! s := get_x in
    let! pos := or_minus_1 (_xml_scan_tapepos (cstr "previousgenerationlocation")
                              (backptr (base (ps_index s)))) in
    on_base (fun b => set_pointers (selfptr b) pos b) >>!
    ret_x tr
  else if bool_decide (name = cstr "dataplacementpolicy") then
    let! tr := check_optional_tag 1 tr in
    assert_not_empty >>!
    or_minus_1 (_xml_parse_policy icu) >>!
    ret_x tr
  else if bool_decide (name = cstr "comment") then
    let! tr := check_optional_tag 2 tr in
    let! value := get_tag_text in
    if Z.of_nat (length value) >? INDEX_MAX_COMMENT_LEN then fail_x (-1)
    else
      on_index (set_commit_message (Some value)) >>!
      check_tag_end (cstr "comment") >>!
      ret_x tr
  else if (version >=? IDX_VERSION_UID) && bool_decide (name = NEXTUID_TAGNAME) then
    required_text 7 NEXTUID_TAGNAME xml_parse_ull raise_uid_number tr
  else if bool_decide (name = NEXTUID_TAGNAME) then ignore_unrecognized_tag >>! ret_x tr
  else
    let! s := get_x in
    let! tags := preserve_unrecognized_tag (index_tags (ps_index s)) in
    on_index (set_index_tags tags) >>!
    ret_x tr.

Definition _xml_parse_schema : parser unit :=
  let! version := _xml_parser_init (cstr "ltfsindex") LTFS_INDEX_VERSION_MIN LTFS_INDEX_VERSION_MAX in
  on_base (set_idx_version version) >>!
  on_index (set_commit_message None) >>!
  let! tr := parse_tags (cstr "ltfsindex") schema_tag (declare_tracking_arrays 8 3) in
  let! tr := (if version <? IDX_VERSION_UID then check_required_tag 7 tr else ret_x tr) in
  check_required_tags tr >>!
  let! s := get_x in
  if negb (bool_decide (symlink_conflict (ps_index s) = [])) then fail_x (- LTFS_SYMLINK_CONFLICT)
  else ret_x tt.

(** ** Extents and links kept in a file of their own *)

Definition symlink_target_tag (d : Z) (name : cstring) (l : unit) : parser unit :=
  if bool_decide (name = cstr "target") then
    let! value := get_tag_text in update_node d (set_link_target value)
  else ignore_unrecognized_tag.

Definition _xml_parse_symlink_target (d : Z) : parser unit :=
  parse_tags (cstr "symlink") (symlink_target_tag d) tt.

(** [sub] on the first tag if it is [top]; the loop of the code is left after one
    turn. *)
Definition from_first_tag (top : cstring) (sub : parser unit) : parser unit :=
  let! name := get_next_tag top in
  match name with
  | Some name => if bool_decide (name = top) then sub else ret_x tt
  | None => ret_x tt
  end.

Definition xml_symlinkinfo_from_file (d : Z) : parser unit :=
  from_first_tag (cstr "symlink") (_xml_parse_symlink_target d).

Definition xml_extentlist_from_file (d : Z) : parser unit :=
  from_first_tag (cstr "extentinfo") (_xml_parse_extents blocksize IDX_VERSION_SPARSE d).

End schema.
