(* ===== verification/XmlWrite.v ===== *)
(** * Writing the Index document

    [libltfs/xml_writer_libltfs.c]: the sequence of calls that turns the index and
    its tree into a document.  The writer of libxml2 is the argument [write] over
    a state [W].  The tree is only read: the code also leaves the table of a
    directory in the order it was sorted to, which no lookup depends on. *)

From S2P Require Import Prelude Errors Extents Volume FsRaw TimeInternal Pathname IndexCriteria.
From S2P Require Import FsTree XmlLib XmlRead.
Open Scope Z_scope.
Open Scope ltfs_scope.

Definition LTFS_INDEX_VERSION_STR : cstring := cstr "2.2.0".

Section writer.
Context {W : Type} (write : xml_call -> W -> Z * W) (icu : icu_lib).

Abbreviation emit := (emit write).

(** The element [name] with the time [t]; a time that had to be replaced is only
    warned about. *)
Definition write_time (name : cstring) (t : Z * Z) : wop :=
  let '(_, text) := xml_format_time {| tv_sec := t.1; tv_nsec := t.2 |} in
  emit (xmlTextWriterWriteElement name (Some text)).

Definition _xml_write_dentry_times (d : fsnode) : wop :=
  write_time (cstr "creationtime") (creation_time d) ;!
  write_time (cstr "changetime") (change_time (file d)) ;!
  write_time (cstr "modifytime") (modify_time (file d)) ;!
  write_time (cstr "accesstime") (access_time (file d)) ;!
  write_time (cstr "backuptime") (backup_time d) ;!
  done.

(** A value that is no text is encoded; an empty one is an element all the same. *)
Definition write_xattr_value (value : option (list Z)) : wop :=
  match value with
  | None =>
      emit (xmlTextWriterStartElement (cstr "value")) ;!
      emit xmlTextWriterEndElement ;!
      done
  | Some v =>
      let ret := pathname_validate_xattr_value icu v in
      if ret <? 0 then ret_op (-1)
      else if ret >? 0 then
        emit (xmlTextWriterStartElement (cstr "value")) ;!
        emit (xmlTextWriterWriteAttribute (cstr "type") (cstr "base64")) ;!
        emit (xmlTextWriterWriteBase64 v) ;!
        emit xmlTextWriterEndElement ;!
        done
      else
        emit (xmlTextWriterWriteFormatElement (cstr "value") v) ;!
        done
  end.

Definition write_one_xattr (x : xattr_info) : wop :=
  emit (xmlTextWriterStartElement (cstr "xattr")) ;!
  emit (xmlTextWriterWriteElement (cstr "key") (Some x.1)) ;!
  write_xattr_value x.2 ;!
  emit xmlTextWriterEndElement.

Definition _xml_write_xattr (d : fsnode) : wop :=
  if bool_decide (xattrlist d = []) then done
  else
    emit (xmlTextWriterStartElement (cstr "extendedattributes")) ;!
    for_each write_one_xattr (xattrlist d) (
    emit xmlTextWriterEndElement ;!
    done).

Definition write_extent (extent : extent_info) : wop :=
  emit (xmlTextWriterStartElement (cstr "extent")) ;!
  emit (xmlTextWriterWriteFormatElement (cstr "fileoffset") (print_dec (fileoffset extent))) ;!
  emit (xmlTextWriterWriteFormatElement (cstr "partition") (print_char (off_partition (start extent)))) ;!
  emit (xmlTextWriterWriteFormatElement (cstr "startblock") (print_dec (off_block (start extent)))) ;!
  emit (xmlTextWriterWriteFormatElement (cstr "byteoffset") (print_dec (byteoffset extent))) ;!
  emit (xmlTextWriterWriteFormatElement (cstr "bytecount") (print_dec (bytecount extent))) ;!
  emit xmlTextWriterEndElement.

(** "Save unrecognized tags" *)
Definition write_tags (tags : list cstring) (next : wop) : wop :=
  for_each (fun t => emit (xmlTextWriterWriteRaw t)) tags next.

Definition write_contents (file : fsnode) (next : wop) : wop :=
  if isslink file then
    emit (xmlTextWriterWriteElement (cstr "symlink") (target file)) ;! next
  else if bool_decide (extentlist (FsTree.file file) = []) then next
  else
    emit (xmlTextWriterStartElement (cstr "extentinfo")) ;!
    for_each write_extent (extentlist (FsTree.file file)) (
    emit xmlTextWriterEndElement ;!
    next).

Definition _xml_write_file (file : fsnode) : wop :=
  if isdir file then ret_op (-1)
  else
    emit (xmlTextWriterStartElement (cstr "file")) ;!
    emit (xmlTextWriterWriteElement (cstr "name") (name file)) ;!
    emit (xmlTextWriterWriteFormatElement (cstr "length") (print_dec (size (FsTree.file file)))) ;!
    emit (xmlTextWriterWriteElement (cstr "readonly") (Some (print_bool (readonly file)))) ;!
    _xml_write_dentry_times file ;!
    emit (xmlTextWriterWriteFormatElement UID_TAGNAME (print_dec (uid file))) ;!
    _xml_write_xattr file ;!
    write_contents file (
    write_tags (preserved_tags file) (
    emit xmlTextWriterEndElement ;!
    done)).

(** The entries of a directory in the order they are written: [HASH_SORT] of the
    table, whose first entry is the oldest one. *)
Definition sorted_children (s : fs_state) (d : fsnode) : list Z :=
  let uid_of c := match heap s !! c with Some n => uid n | None => 0 end in
  HASH_SORT (fun a b => fs_hash_sort_by_uid (uid_of a) (uid_of b)) (rev (child_list d)).*2.

Definition write_name (idx : schema_index) (is_root : bool) (d : fsnode) : wop :=
  if is_root then
    match volume_name idx with
    | Some _ => emit (xmlTextWriterWriteElement (cstr "name") (volume_name idx))
    | None =>
        emit (xmlTextWriterStartElement (cstr "name")) ;!
        emit xmlTextWriterEndElement
    end
  else emit (xmlTextWriterWriteElement (cstr "name") (name d)).

(** As deep as there are dentries.  [None]: a freed dentry is read. *)
Fixpoint _xml_write_dirtree (fuel : nat) (s : fs_state) (idx : schema_index) (dir : Z) : wop :=
  match fuel with
  | O => undefined
  | S fuel =>
      match heap s !! dir with
      | None => undefined
      | Some d =>
          emit (xmlTextWriterStartElement (cstr "directory")) ;!
          write_name idx (dir =? root s) d ;!
          emit (xmlTextWriterWriteElement (cstr "readonly") (Some (print_bool (readonly d)))) ;!
          _xml_write_dentry_times d ;!
          emit (xmlTextWriterWriteFormatElement UID_TAGNAME (print_dec (uid d))) ;!
          _xml_write_xattr d ;!
          emit (xmlTextWriterStartElement (cstr "contents")) ;!
          for_each (fun c =>
            match heap s !! c with
            | None => undefined
            | Some n => if isdir n then _xml_write_dirtree fuel s idx c else _xml_write_file n
            end) (sorted_children s d) (
          emit xmlTextWriterEndElement ;!
          write_tags (preserved_tags d) (
          emit xmlTextWriterEndElement ;!
          done))
      end
  end.

Definition write_root (s : fs_state) (idx : schema_index) : wop :=
  if root s =? 0 then done
  else _xml_write_dirtree (S (base.size (heap s))) s idx (root s).

Definition write_tapepos (tag : cstring) (pos : tape_offset) (next : wop) : wop :=
  emit (xmlTextWriterStartElement tag) ;!
  emit (xmlTextWriterWriteFormatElement (cstr "partition") (print_char (off_partition pos))) ;!
  emit (xmlTextWriterWriteFormatElement (cstr "startblock") (print_dec (off_block pos))) ;!
  emit xmlTextWriterEndElement ;!
  next.

(** The patterns up to the first empty one. *)
Fixpoint name_criteria (patterns : list cstring) : list cstring :=
  match patterns with
  | [] | [] :: _ => []
  | p :: rest => p :: name_criteria rest
  end.

Definition write_policy (ic : index_criteria) (next : wop) : wop :=
  if have_criteria ic then
    emit (xmlTextWriterStartElement (cstr "dataplacementpolicy")) ;!
    emit (xmlTextWriterStartElement (cstr "indexpartitioncriteria")) ;!
    emit (xmlTextWriterWriteFormatElement (cstr "size") (print_dec (max_filesize_criteria ic))) ;!
    for_each (fun p => emit (xmlTextWriterWriteElement (cstr "name") (Some p)))
      (name_criteria (default [] (glob_patterns ic))) (
    emit xmlTextWriterEndElement ;!
    emit xmlTextWriterEndElement ;!
    next)
  else next.

Definition write_comment (message : option cstring) (next : wop) : wop :=
  match message with
  | Some m => if bool_decide (m = []) then next
              else emit (xmlTextWriterWriteFormatElement (cstr "comment") m) ;! next
  | None => next
  end.

Definition _xml_write_schema (creator : cstring) (s : fs_state) (idx : schema_index) : wop :=
  let b := base idx in
  let '(_, update_time) := xml_format_time {| tv_sec := (mod_time b).1; tv_nsec := (mod_time b).2 |} in
  emit (xmlTextWriterStartDocument (cstr "UTF-8")) ;!
  ignoring (emit (xmlTextWriterSetIndent 1)) (
  ignoring (emit (xmlTextWriterSetIndentString [])) (
  emit (xmlTextWriterStartElement (cstr "ltfsindex")) ;!
  emit (xmlTextWriterWriteAttribute (cstr "version") LTFS_INDEX_VERSION_STR) ;!
  emit (xmlTextWriterWriteElement (cstr "creator") (Some creator)) ;!
  write_comment (commit_message idx) (
  emit (xmlTextWriterWriteElement (cstr "volumeuuid") (Some (idx_vol_uuid b))) ;!
  emit (xmlTextWriterWriteFormatElement (cstr "generationnumber") (print_dec (generation b))) ;!
  emit (xmlTextWriterWriteElement (cstr "updatetime") (Some update_time)) ;!
  write_tapepos (cstr "location") (selfptr b) (
  (if off_block (backptr b) =? 0 then id
   else write_tapepos (cstr "previousgenerationlocation") (backptr b)) (
  emit (xmlTextWriterWriteElement (cstr "allowpolicyupdate")
         (Some (print_bool (criteria_allow_update idx)))) ;!
  write_policy (original_criteria idx) (
  emit (xmlTextWriterWriteFormatElement NEXTUID_TAGNAME (print_dec (uid_number s))) ;!
  write_root s idx ;!
  write_tags (index_tags idx) (
  emit xmlTextWriterEndElement ;!
  emit xmlTextWriterEndDocument ;!
  done))))))).

End writer.
