(* ===== verification/HashSort.v ===== *)
(** * The order of the entries of a directory

    [HASH_SORT] of uthash.h, a merge sort from the bottom up, with the comparison of
    unique ids that the writer of the Index uses. *)

From S2P Require Import Prelude FsRaw Pathname IndexCriteria FsTree FsGraph XmlRead XmlWrite.
From Stdlib Require Import Sorting.Sorted Permutation.
Open Scope Z_scope.

Lemma StronglySorted_on {A} (R R' : A -> A -> Prop) l :
  (forall x y, x ∈ l -> y ∈ l -> R x y -> R' x y) -> StronglySorted R l -> StronglySorted R' l.
Proof.
  intros H Hs. induction Hs as [|x l Hs IH Hx]; constructor.
  - apply IH. intros y z Hy Hz. apply H; by right.
  - rewrite list.Forall_forall in Hx |- *. intros y Hy. apply H; [by left|by right|by apply Hx].
Qed.

Section hash_sort.
Context {A : Type} (cmp : A -> A -> Z).

Definition precedes (x y : A) : Prop := cmp x y <= 0.
Abbreviation sorted := (StronglySorted precedes).

(** The comparison is a total preorder on the elements that are sorted. *)
Definition orders (l : list A) : Prop :=
  (forall x y, x ∈ l -> y ∈ l -> precedes x y \/ precedes y x)
  /\ forall x y z, x ∈ l -> y ∈ l -> z ∈ l -> precedes x y -> precedes y z -> precedes x z.

Lemma orders_sub l l' : orders l -> (forall x, x ∈ l' -> x ∈ l) -> orders l'.
Proof. intros [H1 H2] Hs. split; [auto|]. intros x y z Hx Hy Hz. apply H2; auto. Qed.

(** ** Merging *)

Lemma merge_runs_cons x p y q :
  merge_runs cmp (x :: p) (y :: q)
  = if cmp x y <=? 0 then x :: merge_runs cmp p (y :: q) else y :: merge_runs cmp (x :: p) q.
Proof. done. Qed.

Lemma merge_runs_perm p q : Permutation (merge_runs cmp p q) (p ++ q).
Proof.
  revert q. induction p as [|x p IHp]; intros q; [by destruct q|].
  induction q as [|y q IHq]; [by rewrite app_nil_r|]. rewrite merge_runs_cons. destruct (cmp x y <=? 0).
  - cbn. by rewrite IHp.
  - rewrite IHq. apply Permutation_middle.
Qed.

Lemma precedes_all x l : sorted (x :: l) -> Forall (precedes x) l.
Proof. by inversion 1. Qed.

Lemma merge_runs_sorted p q : orders (p ++ q) -> sorted p -> sorted q -> sorted (merge_runs cmp p q).
Proof.
  revert q. induction p as [|x p IHp]; intros q Ho Hp Hq; [by destruct q|].
  induction q as [|y q IHq]; [done|]. rewrite merge_runs_cons. destruct (Z.leb_spec (cmp x y) 0) as [Hc|Hc].
  - apply SSorted_cons.
    + apply IHp; [|by inversion Hp|done]. eapply orders_sub; [exact Ho|]. intros z Hz. by right.
    + rewrite merge_runs_perm. apply Forall_app_2; [by apply precedes_all|].
      assert (Hy : Forall (precedes y) q) by (by apply precedes_all). constructor; [done|].
      apply list.Forall_forall. intros z Hz. rewrite list.Forall_forall in Hy.
      apply (proj2 Ho x y z); [by left|set_solver|set_solver|done|by apply Hy].
  - assert (Hyx : precedes y x) by (destruct (proj1 Ho x y) as [H|H]; [by left|set_solver|unfold precedes in H; lia|done]).
    apply SSorted_cons.
    + apply IHq; [|by inversion Hq]. eapply orders_sub; [exact Ho|]. intros z Hz. set_solver.
    + rewrite merge_runs_perm. apply Forall_app_2; [|by apply precedes_all]. constructor; [done|].
      assert (Hx : Forall (precedes x) p) by (by apply precedes_all). apply list.Forall_forall.
      intros z Hz. rewrite list.Forall_forall in Hx. apply (proj2 Ho y x z); [set_solver|by left|set_solver|done|by apply Hx].
Qed.

(** ** Passes *)

Lemma drop_twice (a l : list A) : drop (length a + length a) (a ++ l) = drop (length a) l.
Proof. by rewrite <- drop_drop, drop_app_length. Qed.

(** A list of sorted runs of [k] elements; the last one may be shorter. *)
Inductive runs (k : nat) : list A -> Prop :=
  | runs_last l : (length l <= k)%nat -> sorted l -> runs k l
  | runs_more a l : length a = k -> sorted a -> runs k l -> runs k (a ++ l).

Lemma merge_pass_ok k fuel l :
  (0 < k)%nat -> (length l <= fuel)%nat -> orders l -> runs k l ->
  runs (k + k) (merge_pass cmp fuel k l) /\ Permutation (merge_pass cmp fuel k l) l.
Proof.
  intros Hk. revert l. induction fuel as [|fuel IH]; intros l Hf Ho Hr.
  { destruct l; [|cbn in Hf; lia]. split; [|done]. apply runs_last; [cbn; lia|constructor]. }
  destruct (decide (l = [])) as [->|Hne]; [split; [|done]; apply runs_last; [cbn; lia|constructor]|].
  assert (E : merge_pass cmp (S fuel) k l = merge_runs cmp (take k l) (take k (drop k l)) ++ merge_pass cmp fuel k (drop (k + k) l))
    by (by destruct l).
  rewrite E. clear E. destruct Hr as [l Hl Hs|a l Ha Hs Hr].
  - rewrite (take_ge l k), (drop_ge l k), (drop_ge l (k + k)) by lia. rewrite take_nil.
    assert (E : merge_runs cmp l [] = l) by (by destruct l). assert (E' : merge_pass cmp fuel k [] = []) by (by destruct fuel).
    rewrite E, E', app_nil_r. split; [|done]. apply runs_last; [lia|done].
  - rewrite <- Ha, drop_twice, take_app_length, drop_app_length. rewrite Ha.
    destruct Hr as [l Hl Hs'|b l Hb Hs' Hr].
    + rewrite (take_ge l k), (drop_ge l k) by lia. assert (E' : merge_pass cmp fuel k [] = []) by (by destruct fuel).
      rewrite E', app_nil_r. split; [|apply merge_runs_perm].
      apply runs_last; [rewrite merge_runs_perm, length_app; lia|by apply merge_runs_sorted].
    + rewrite <- Hb, take_app_length, drop_app_length. rewrite Hb.
      assert (Hsub : orders l) by (eapply orders_sub; [exact Ho|]; intros x Hx; set_solver).
      destruct (IH l) as [H1 H2]; [rewrite !length_app in Hf; lia|done|done|]. split.
      * apply runs_more; [rewrite merge_runs_perm, length_app; lia| |done].
        apply merge_runs_sorted; [|done|done]. eapply orders_sub; [exact Ho|]. intros x Hx. set_solver.
      * rewrite merge_runs_perm, H2. by rewrite app_assoc.
Qed.

Lemma runs_one k l : runs k l -> (length l <= k)%nat -> sorted l.
Proof.
  intros Hr Hl. destruct Hr as [l _ Hs|a l Ha Hs _]; [done|]. rewrite length_app in Hl.
  destruct l; [by rewrite app_nil_r|cbn in Hl; lia].
Qed.

Lemma sort_passes_ok fuel k l :
  (0 < k)%nat -> (length l <= k * 2 ^ fuel)%nat -> orders l -> runs k l ->
  sorted (sort_passes cmp fuel k l) /\ Permutation (sort_passes cmp fuel k l) l.
Proof.
  revert k l. induction fuel as [|fuel IH]; intros k l Hk Hl Ho Hr; cbn [sort_passes].
  - split; [|done]. apply (runs_one k); [done|]. cbn in Hl. lia.
  - destruct (merge_pass_ok k (length l) l Hk (le_n _) Ho Hr) as [H1 H2].
    destruct (Nat.leb_spec (length l) (k + k)).
    + split; [|done]. apply (runs_one (k + k)); [done|]. by rewrite H2.
    + destruct (IH (k + k)%nat (merge_pass cmp (length l) k l)) as [H3 H4]; [lia| | |done|].
      * rewrite H2. cbn in Hl. lia.
      * eapply orders_sub; [exact Ho|]. intros x Hx. by rewrite H2 in Hx.
      * split; [done|]. by rewrite H4.
Qed.

Lemma runs_single l : runs 1 l.
Proof.
  induction l as [|x l IH]; [apply runs_last; [cbn; lia|constructor]|].
  apply (runs_more 1 [x] l); [done|by repeat constructor|done].
Qed.

Lemma HASH_SORT_ok l : orders l -> sorted (HASH_SORT cmp l) /\ Permutation (HASH_SORT cmp l) l.
Proof.
  intros Ho. apply sort_passes_ok; [lia| |done|apply runs_single].
  pose proof (Nat.pow_gt_lin_r 2 (length l)). lia.
Qed.

End hash_sort.

(** ** The entries of a directory *)

Lemma uid_order a b :
  0 <= a < 2 ^ 64 -> 0 <= b < 2 ^ 64 -> Z.abs (a - b) < 2 ^ 31 -> fs_hash_sort_by_uid a b <= 0 <-> a <= b.
Proof.
  intros Ha Hb Hd. unfold fs_hash_sort_by_uid.
  assert (E : s32 (u64 (a - b)) = a - b); [|lia].
  unfold s32, u64. replace 18446744073709551616 with (2 ^ 32 * 2 ^ 32) by done.
  destruct (Z.le_gt_cases b a).
  - rewrite (Z.mod_small (a - b)) by lia. rewrite Z.mod_small; lia.
  - rewrite <- (Z.mod_unique (a - b) (2 ^ 64) (-1) (a - b + 2 ^ 64)) by lia.
    rewrite <- (Z.mod_unique (a - b + 2 ^ 64 + 2 ^ 31) (2 ^ 32) (2 ^ 32) (a - b + 2 ^ 31)) by lia. lia.
Qed.

Definition uid_in (s : fs_state) (c : Z) : Z := match heap s !! c with Some n => uid n | None => 0 end.

(** [HASH_SORT] with [fs_hash_sort_by_uid] orders the entries of a directory by
    unique id before the writer of the Index visits them: the result holds the same
    entries, each as often as the table, and every entry comes before those with a
    greater id.  The ids of the entries must lie within 2^31 of each other, since
    the comparison returns the [int] part of their 64-bit difference. *)
Theorem entries_sorted_by_uid s d :
  let entries := (child_list d).*2 in
  (forall c, In c entries -> 0 <= uid_in s c < 2 ^ 64) ->
  (forall c c', In c entries -> In c' entries -> Z.abs (uid_in s c - uid_in s c') < 2 ^ 31) ->
  Permutation (sorted_children s d) entries
  /\ StronglySorted (fun c c' => uid_in s c <= uid_in s c') (sorted_children s d).
Proof.
  intros entries Hr Hd.
  assert (Hin : forall c, c ∈ (rev (child_list d)).*2 -> In c entries).
  { intros c Hc. apply list_elem_of_In in Hc. change (In c (map snd (rev (child_list d)))) in Hc.
    by rewrite map_rev, <- in_rev in Hc. }
  set (cmp a b := fs_hash_sort_by_uid (uid_in s a) (uid_in s b)).
  assert (Ho : forall a b, In a entries -> In b entries -> precedes cmp a b <-> uid_in s a <= uid_in s b).
  { intros a b Ha Hb. apply uid_order; auto. }
  destruct (HASH_SORT_ok cmp (rev (child_list d)).*2) as [Hs Hp].
  { split.
    - intros x y Hx%Hin Hy%Hin. rewrite !Ho by done. lia.
    - intros x y z Hx%Hin Hy%Hin Hz%Hin. rewrite !Ho by done. lia. }
  assert (Hp' : Permutation (sorted_children s d) entries).
  { etransitivity; [exact Hp|]. change (Permutation (map snd (rev (child_list d))) entries).
    rewrite map_rev. symmetry. apply Permutation_rev. }
  split; [done|]. eapply StronglySorted_on; [|exact Hs]. intros x y Hx Hy. apply Ho.
  all: apply Hin; by rewrite <- Hp.
Qed.

(** A directory with the ids 7, 9 and 3 *)
Definition three_files : fsnode :=
  set_child_list [(cstr "c", 13); (cstr "b", 12); (cstr "a", 11)]
    (new_dentry None (Some [SLASH]) (Some [SLASH]) true false 1 1).
Definition tree_of (u : Z * Z * Z) : fs_state :=
  let file u := new_dentry (Some 1) None None false false u u in
  {| heap := <[11 := file u.1.1]> (<[12 := file u.1.2]> {[13 := file u.2]}); fresh := 14; root := 1; inode_number := 9;
     uid_number := 9; file_count := 3; valid_blocks := 0; criteria_of := no_policy |}.

Lemma entries_sorted_by_uid_witness :
  sorted_children (tree_of (7, 9, 3)) three_files = [13; 11; 12]
  /\ StronglySorted (fun c c' => uid_in (tree_of (7, 9, 3)) c <= uid_in (tree_of (7, 9, 3)) c') [13; 11; 12].
Proof.
  assert (E : sorted_children (tree_of (7, 9, 3)) three_files = [13; 11; 12]) by by vm_compute.
  split; [exact E|]. rewrite <- E. apply (entries_sorted_by_uid (tree_of (7, 9, 3)) three_files).
  - intros c [<- | [<- | [<- | []]]]; split; by vm_compute.
  - intros c c' [<- | [<- | [<- | []]]] [<- | [<- | [<- | []]]]; by vm_compute.
Defined.

(** Further apart, the order can be the other one. *)
Example uid_difference_truncated : sorted_children (tree_of (2 ^ 31 + 6, 5, 3)) three_files = [11; 13; 12].
Proof. by vm_compute. Qed.
