(* ===== verification/XmlSpec.v ===== *)
(** * Documents

    What the XML library documents about a document that was written: [reads]
    relates the calls made to a writer to the nodes a reader reports.  Then the rules
    to execute a parser on a document known by the calls that wrote it.

    [raw_name s] is the name of the element whose text is [s]. *)

From S2P Require Import Prelude Errors TimeInternal Base64 Pathname IndexCriteria FsTree XmlLib.
Open Scope Z_scope.
Open Scope ltfs_scope.

(** ** Nodes *)

Record is_start (t : cstring) (attrs : list (cstring * cstring)) (empty : Z) (depth : nat) (n : xml_node)
    : Prop := {
  start_type : node_type n = XML_ELEMENT_NODE;
  start_name : node_name n = t;
  start_attributes : node_attributes n = attrs;
  start_empty : node_empty n = empty;
  start_depth : node_depth n = Z.of_nat depth
}.

Record is_end (t : cstring) (n : xml_node) : Prop := {
  end_type : node_type n = XML_ELEMENT_DECL;
  end_name : node_name n = t
}.

(** White space between tags, which the writer puts there when it indents. *)
Definition is_blank_node (n : xml_node) : Prop :=
  node_type n = XML_DTD_NODE /\ node_name n = cstr "#text".

(** The text [c] of an element: no node when there is none. *)
Inductive text_nodes : cstring -> list xml_node -> Prop :=
  | no_text : text_nodes [] []
  | one_text c n :
      c <> [] -> node_type n = XML_TEXT_NODE \/ node_type n = XML_DTD_NODE -> node_value n = Some c ->
      text_nodes c [n].

(** The text of encoded data: the digits, cut into lines. *)
Definition base64_text (data : list Z) (v : cstring) : Prop :=
  exists body, v = body ++ replicate (padding (length data)) 61
  /\ strip body = map enc_digit (base64_digits data) /\ Z.of_nat (length body) < 2 ^ 61.

Section document.
Context (raw_name : cstring -> cstring).

(** An element that is written as the text [s]. *)
Inductive raw_nodes (s : cstring) (depth : nat) : list xml_node -> Prop :=
  | raw_empty n :
      is_start (raw_name s) (node_attributes n) 1 depth n -> node_outer n = Some s -> raw_nodes s depth [n]
  | raw_element n body e :
      is_start (raw_name s) (node_attributes n) 0 depth n -> node_outer n = Some s ->
      Forall (fun x => 0 <= node_type x /\ Z.of_nat depth < node_depth x) body ->
      node_type e = XML_ELEMENT_DECL -> node_depth e = Z.of_nat depth ->
      raw_nodes s depth (n :: body ++ [e]).

(** Calls that go on with the start tag or close it as empty. *)
Definition in_start_tag (c : xml_call) : bool :=
  match c with
  | xmlTextWriterWriteAttribute _ _ | xmlTextWriterEndElement | xmlTextWriterWriteBase64 _ => true
  | _ => false
  end.

(** Calls that write no node. *)
Definition no_node (c : xml_call) : bool :=
  match c with
  | xmlTextWriterStartDocument _ | xmlTextWriterSetIndent _ | xmlTextWriterSetIndentString _
  | xmlTextWriterEndDocument => true
  | _ => false
  end.

Definition attribute_calls (attrs : list (cstring * cstring)) : list xml_call :=
  map (fun a => xmlTextWriterWriteAttribute a.1 a.2) attrs.

(** [reads open calls l]: inside the elements [open], what [calls] write is read as
    the nodes [l]: blanks, and what the first of the calls writes. *)
Inductive reads : list cstring -> list xml_call -> list (option xml_node) -> Prop :=
  | reads_blanks open calls blanks l :
      Forall is_blank_node blanks -> reads_call open calls l ->
      reads open calls (map Some blanks ++ l)
with reads_call : list cstring -> list xml_call -> list (option xml_node) -> Prop :=
  | reads_end open l : reads_call open [] l
  | reads_no_node open c calls l :
      no_node c = true -> reads open calls l -> reads_call open (c :: calls) l
  | reads_empty open t attrs calls n l :
      is_start t attrs 1 (length open) n -> reads open calls l ->
      reads_call open
        (xmlTextWriterStartElement t :: attribute_calls attrs ++ xmlTextWriterEndElement :: calls)
        (Some n :: l)
  | reads_open open t attrs c calls n l :
      is_start t attrs 0 (length open) n -> in_start_tag c = false -> reads (t :: open) (c :: calls) l ->
      reads_call open (xmlTextWriterStartElement t :: attribute_calls attrs ++ c :: calls) (Some n :: l)
  | reads_close open t calls n l :
      is_end t n -> reads open calls l ->
      reads_call (t :: open) (xmlTextWriterEndElement :: calls) (Some n :: l)
  | reads_null open t calls n l :
      is_start t [] 1 (length open) n -> reads open calls l ->
      reads_call open (xmlTextWriterWriteElement t None :: calls) (Some n :: l)
  | reads_element open t c calls n text e l :
      is_start t [] 0 (length open) n -> text_nodes c text -> is_end t e -> reads open calls l ->
      reads_call open (xmlTextWriterWriteElement t (Some c) :: calls)
        (Some n :: map Some text ++ Some e :: l)
  | reads_base64 open t attrs data v calls n text e l :
      data <> [] -> base64_text data v ->
      is_start t attrs 0 (length open) n -> text_nodes v text -> is_end t e -> reads open calls l ->
      reads_call open (xmlTextWriterStartElement t :: attribute_calls attrs
                         ++ xmlTextWriterWriteBase64 data :: xmlTextWriterEndElement :: calls)
        (Some n :: map Some text ++ Some e :: l)
  | reads_raw open s calls nodes l :
      raw_nodes s (length open) nodes -> reads open calls l ->
      reads_call open (xmlTextWriterWriteRaw s :: calls) (map Some nodes ++ l).

(** ** What is read next

    Nodes that [xml_next_tag] passes over come first. *)

Definition skipped (parent_tag : cstring) (o : option xml_node) : Prop :=
  exists n, o = Some n /\ node_name n <> parent_tag /\ node_type n <> XML_ELEMENT_NODE.

Definition coming (parent_tag : cstring) (open : list cstring) (calls : list xml_call)
    (l : list (option xml_node)) : Prop :=
  exists junk l', l = junk ++ l' /\ Forall (skipped parent_tag) junk /\ reads open calls l'.

Lemma reads_coming parent_tag open calls l : reads open calls l -> coming parent_tag open calls l.
Proof. intros H. by exists [], l. Qed.

Lemma blank_skipped parent_tag n :
  parent_tag <> cstr "#text" -> is_blank_node n -> skipped parent_tag (Some n).
Proof. intros Hp [Ht Hn]. exists n. rewrite Hn, Ht. repeat split; [congruence|done]. Qed.

Lemma coming_call parent_tag open calls l :
  parent_tag <> cstr "#text" -> coming parent_tag open calls l ->
  exists junk l', l = junk ++ l' /\ Forall (skipped parent_tag) junk /\ reads_call open calls l'.
Proof.
  intros Hp (junk & l' & -> & Hj & H). destruct H as [open calls blanks l' Hb H].
  exists (junk ++ map Some blanks), l'. split; [by rewrite <- app_assoc|]. split; [|done].
  apply Forall_app_2; [done|]. apply Forall_map. eapply Forall_impl; [|exact Hb].
  intros n Hn. by apply blank_skipped.
Qed.

Definition is_attribute (c : xml_call) : bool :=
  match c with xmlTextWriterWriteAttribute _ _ => true | _ => false end.

Lemma attributes_inj attrs c calls attrs' c' calls' :
  attribute_calls attrs ++ c :: calls = attribute_calls attrs' ++ c' :: calls' ->
  is_attribute c = false -> is_attribute c' = false ->
  attrs = attrs' /\ c = c' /\ calls = calls'.
Proof.
  revert attrs'. induction attrs as [|[k v] attrs IH]; intros [|[k' v'] attrs'] E Hc Hc';
    cbn in E; injection E.
  - intros -> ->. done.
  - intros _ ->. done.
  - intros _ <-. done.
  - intros E' -> ->. destruct (IH attrs' E' Hc Hc') as (-> & -> & ->). done.
Qed.

(** ** The first node of what is read *)

Ltac first_call Hp H :=
  destruct (coming_call _ _ _ _ Hp H) as (junk & l' & -> & Hj & Hr); inversion Hr; subst; try done.

Lemma not_attribute c : in_start_tag c = false -> is_attribute c = false.
Proof. by destruct c. Qed.

Ltac same_attributes :=
  match goal with
  | E : attribute_calls _ ++ _ :: _ = attribute_calls _ ++ _ :: _ |- _ =>
      apply attributes_inj in E as (? & ? & ?);
        [subst; simplify_eq; try done | try done; by apply not_attribute..]
  end.

Ltac found :=
  repeat lazymatch goal with |- exists _, _ => eexists end; split_and!; [reflexivity|eassumption..].

Lemma coming_close parent_tag t open calls l :
  parent_tag <> cstr "#text" -> coming parent_tag (t :: open) (xmlTextWriterEndElement :: calls) l ->
  exists junk n l', l = junk ++ Some n :: l' /\ Forall (skipped parent_tag) junk
  /\ is_end t n /\ reads open calls l'.
Proof. intros Hp H. first_call Hp H. found. Qed.

Lemma coming_element parent_tag t c open calls l :
  parent_tag <> cstr "#text" -> coming parent_tag open (xmlTextWriterWriteElement t (Some c) :: calls) l ->
  exists junk n text e l', l = junk ++ Some n :: map Some text ++ Some e :: l'
  /\ Forall (skipped parent_tag) junk
  /\ is_start t [] 0 (length open) n /\ text_nodes c text /\ is_end t e /\ reads open calls l'.
Proof.
  intros Hp H. first_call Hp H. found. Qed.

Lemma coming_empty parent_tag t attrs open calls l :
  parent_tag <> cstr "#text" ->
  coming parent_tag open
    (xmlTextWriterStartElement t :: attribute_calls attrs ++ xmlTextWriterEndElement :: calls) l ->
  exists junk n l', l = junk ++ Some n :: l' /\ Forall (skipped parent_tag) junk
  /\ is_start t attrs 1 (length open) n /\ reads open calls l'.
Proof. intros Hp H. first_call Hp H; same_attributes. found. Qed.

Lemma coming_open parent_tag t attrs c open calls l :
  parent_tag <> cstr "#text" -> in_start_tag c = false ->
  coming parent_tag open (xmlTextWriterStartElement t :: attribute_calls attrs ++ c :: calls) l ->
  exists junk n l', l = junk ++ Some n :: l' /\ Forall (skipped parent_tag) junk
  /\ is_start t attrs 0 (length open) n /\ reads (t :: open) (c :: calls) l'.
Proof. intros Hp Hc H. first_call Hp H; same_attributes. found. Qed.

Lemma coming_base64 parent_tag t attrs data open calls l :
  parent_tag <> cstr "#text" ->
  coming parent_tag open (xmlTextWriterStartElement t :: attribute_calls attrs
    ++ xmlTextWriterWriteBase64 data :: xmlTextWriterEndElement :: calls) l ->
  exists junk n v text e l', l = junk ++ Some n :: map Some text ++ Some e :: l'
  /\ Forall (skipped parent_tag) junk /\ data <> [] /\ base64_text data v
  /\ is_start t attrs 0 (length open) n /\ text_nodes v text /\ is_end t e /\ reads open calls l'.
Proof. intros Hp H. first_call Hp H; same_attributes. found. Qed.

Lemma coming_raw parent_tag t open calls l :
  parent_tag <> cstr "#text" -> coming parent_tag open (xmlTextWriterWriteRaw t :: calls) l ->
  exists junk nodes l', l = junk ++ map Some nodes ++ l' /\ Forall (skipped parent_tag) junk
  /\ raw_nodes t (length open) nodes /\ reads open calls l'.
Proof. intros Hp H. first_call Hp H. found. Qed.

Lemma reads_no_node_inv open c calls l :
  no_node c = true -> reads open (c :: calls) l ->
  exists blanks l', l = map Some blanks ++ l' /\ Forall is_blank_node blanks /\ reads open calls l'.
Proof.
  intros Hc H. inversion H; subst. exists blanks. match goal with H : reads_call _ _ _ |- _ => inversion H end; subst; try done.
  found.
Qed.

(** ** How long a document is *)

Definition is_open (c : xml_call) : bool := match c with xmlTextWriterStartElement _ => true | _ => false end.

(** The elements that are opened. *)
Fixpoint starts (calls : list xml_call) : nat :=
  match calls with [] => 0 | c :: calls => (if is_open c then 1 else 0) + starts calls end.

Lemma starts_app a b : starts (a ++ b) = (starts a + starts b)%nat.
Proof. induction a as [|c a IH]; cbn; [done|]. rewrite IH. lia. Qed.

Lemma starts_attributes attrs : starts (attribute_calls attrs) = 0%nat.
Proof. by induction attrs. Qed.

Scheme reads_minimal := Minimality for reads Sort Prop
  with reads_call_minimal := Minimality for reads_call Sort Prop.

(** Every element is a node at least. *)
Lemma reads_starts open calls l : reads open calls l -> (starts calls <= length l)%nat.
Proof.
  apply (reads_minimal (fun _ calls l => (starts calls <= length l)%nat)
                       (fun _ calls l => (starts calls <= length l)%nat)); intros; cbn [starts is_open] in *;
    repeat rewrite ?starts_app, ?starts_attributes, ?length_app, ?length_map; cbn in *;
    repeat rewrite ?length_app; cbn in *; try lia.
  by destruct c.
Qed.

End document.
