(* ===== verification/XmlWp.v ===== *)
(** * Executing parsers

    Rules for [okp m s Q]: the parser [m], started in [s], reads no further back than
    it was, fails nowhere, and its value and final state satisfy [Q].  [okl] is the same
    for the loop over the tags of an element, whatever fuel it has left. *)

From S2P Require Import Prelude Errors TimeInternal Base64 Pathname IndexCriteria FsTree XmlLib XmlSpec.
Open Scope Z_scope.
Open Scope ltfs_scope.

Class ReaderLaws (S : Type) `{HasReader S} := {
  get_put r s : get_reader (put_reader r s) = r;
  put_put r r' s : put_reader r (put_reader r' s) = put_reader r s;
  put_get s : put_reader (get_reader s) s = s
}.

Section wp.
Context {S : Type} `{ReaderLaws S}.
Implicit Types s : S.

Definition coming_nodes s : list (option xml_node) := ahead (get_reader s).
Definition left s : nat := length (coming_nodes s).

(** The reader stands on [n], [l] is to come. *)
Definition moved (n : xml_node) (l : list (option xml_node)) s : S :=
  put_reader (set_place n l (get_reader s)) s.

Lemma moved_nodes n l s : coming_nodes (moved n l s) = l.
Proof. unfold coming_nodes, moved. by rewrite get_put. Qed.
Lemma moved_here n l s : here (get_reader (moved n l s)) = n.
Proof. unfold moved. by rewrite get_put. Qed.
Lemma moved_moved n l n' l' s : moved n l (moved n' l' s) = moved n l s.
Proof. unfold moved. by rewrite get_put, put_put. Qed.

Definition okp {A} (m : xop S A) s (Q : A -> S -> Prop) : Prop :=
  match m s with Some (inr x, s') => (left s' <= left s)%nat /\ Q x s' | _ => False end.

Lemma ok_run {A} (m : xop S A) s Q : okp m s Q -> exists x s', m s = Some (inr x, s') /\ Q x s'.
Proof. unfold okp. destruct (m s) as [[[e|x] s']|]; [done| |done]. intros [_ HQ]. by exists x, s'. Qed.

Lemma ok_mono {A} (m : xop S A) s (Q Q' : A -> S -> Prop) :
  okp m s Q -> (forall x s', Q x s' -> Q' x s') -> okp m s Q'.
Proof. unfold okp. destruct (m s) as [[[e|x] s']|]; naive_solver. Qed.

Lemma ok_bind {A B} (m : xop S A) (k : A -> xop S B) s Q :
  okp m s (fun x s' => okp (k x) s' Q) -> okp (bind_x m k) s Q.
Proof.
  unfold okp, bind_x, bind_op. destruct (m s) as [[[e|x] s1]|]; [done| |done]. cbn. intros [Hl Hk].
  destruct (k x s1) as [[[e|y] s2]|]; [done| |done]. destruct Hk. split; [lia|done].
Qed.

Lemma ok_ret {A} (x : A) s (Q : A -> S -> Prop) : Q x s -> okp (ret_x x) s Q.
Proof. done. Qed.

Lemma ok_get s Q : Q s s -> okp get_x s Q.
Proof. done. Qed.

Lemma ok_modify f s (Q : unit -> S -> Prop) :
  (left (f s) <= left s)%nat -> Q tt (f s) -> okp (modify_x f) s Q.
Proof. done. Qed.

Lemma ok_guard b s (Q : unit -> S -> Prop) : b = true -> Q tt s -> okp (guard_x b) s Q.
Proof. by intros ->. Qed.

Lemma ok_sum {A} (r : Z + A) x s (Q : A -> S -> Prop) : r = inr x -> Q x s -> okp (of_sum r) s Q.
Proof. by intros ->. Qed.

Lemma ok_or {A} (m : xop S A) s Q : okp m s Q -> okp (or_minus_1 m) s Q.
Proof.
  unfold okp, or_minus_1, bind_op. by destruct (m s) as [[[e|x] s']|].
Qed.

Lemma ok_node s (Q : xml_node -> S -> Prop) : Q (here (get_reader s)) s -> okp at_node s Q.
Proof. done. Qed.

Lemma ok_go n l s (Q : unit -> S -> Prop) :
  (length l <= left s)%nat -> Q tt (moved n l s) -> okp (go n l) s Q.
Proof.
  intros Hl HQ. apply ok_modify; [|done]. unfold left, coming_nodes. by rewrite get_put.
Qed.

(** ** Tags *)

Lemma ok_read n l s (Q : unit -> S -> Prop) :
  coming_nodes s = Some n :: l -> Q tt (moved n l s) -> okp xml_reader_read s Q.
Proof.
  intros Hs HQ. apply ok_bind, ok_get. fold (coming_nodes s). rewrite Hs. apply ok_go; [|done].
  unfold left. rewrite Hs. cbn. lia.
Qed.

Lemma next_tag_found p junk n l :
  Forall (skipped p) junk -> node_name n = p \/ node_type n = XML_ELEMENT_NODE ->
  next_tag_loop p (junk ++ Some n :: l) = Some (n, l).
Proof.
  intros Hj Hn. induction Hj as [|o junk (m & -> & Hm1 & Hm2) Hj IH].
  - cbn. destruct Hn as [Hn|Hn].
    + by rewrite bool_decide_eq_true_2.
    + by rewrite Hn, andb_false_r.
  - cbn. rewrite bool_decide_eq_false_2 by done. by rewrite (proj2 (Z.eqb_neq _ _)).
Qed.

Lemma ok_next_tag p junk n l s Q :
  coming_nodes s = junk ++ Some n :: l -> Forall (skipped p) junk ->
  node_name n = p \/ node_type n = XML_ELEMENT_NODE ->
  Q (node_name n, node_type n) (moved n l s) -> okp (xml_next_tag p) s Q.
Proof.
  intros Hs Hj Hn HQ. apply ok_bind, ok_get. fold (coming_nodes s).
  rewrite Hs, next_tag_found by done. apply ok_bind, ok_go; [|by apply ok_ret].
  unfold left. rewrite Hs, length_app. cbn. lia.
Qed.

(** The loop over the tags *)

Definition okl {L} (p : cstring) (body : cstring -> L -> xop S L) (x : L) s (Q : L -> S -> Prop) : Prop :=
  forall fuel, (left s < fuel)%nat -> okp (tag_loop fuel p body x) s Q.

Lemma ok_parse_tags {L} p body (x : L) s Q : okl p body x s Q -> okp (parse_tags p body x) s Q.
Proof. intros Hl. apply ok_bind, ok_get, Hl. unfold left, coming_nodes. lia. Qed.

Lemma okl_mono {L} p body (x : L) s (Q Q' : L -> S -> Prop) :
  okl p body x s Q -> (forall x s', Q x s' -> Q' x s') -> okl p body x s Q'.
Proof. intros Hl HQ fuel Hf. eapply ok_mono; [by apply Hl|done]. Qed.

Lemma left_strict {A} (m : xop S A) s0 s Q :
  okp m s Q -> (left s < left s0)%nat -> okp m s (fun x s' => (left s' < left s0)%nat /\ Q x s').
Proof.
  unfold okp. destruct (m s) as [[[e|x] s']|]; [done| |done]. intros [Hl HQ] Hs. split; [done|]. split; [lia|done].
Qed.

Lemma okl_start {L} p body (x : L) junk n l s Q :
  coming_nodes s = junk ++ Some n :: l -> Forall (skipped p) junk -> node_type n = XML_ELEMENT_NODE ->
  okp (body (node_name n) x) (moved n l s) (fun x' s' => okl p body x' s' Q) ->
  okl p body x s Q.
Proof.
  intros Hs Hj Hn Hb [|fuel] Hf; [lia|]. cbn [tag_loop].
  apply ok_bind, ok_bind, ok_or. eapply ok_next_tag; [done|done|by right|]. apply ok_ret. rewrite Hn. cbn.
  assert (Hlt : (left (moved n l s) < left s)%nat).
  { unfold left. rewrite moved_nodes, Hs, length_app. cbn. lia. }
  apply ok_bind. eapply ok_mono; [by apply (left_strict _ s)|]. cbn.
  intros x' s' [Hl' HQ]. apply HQ. lia.
Qed.

Lemma okl_stop {L} p body (x : L) junk n l s (Q : L -> S -> Prop) :
  coming_nodes s = junk ++ Some n :: l -> Forall (skipped p) junk -> is_end p n ->
  Q x (moved n l s) -> okl p body x s Q.
Proof.
  intros Hs Hj [Ht Hn] HQ [|fuel] Hf; [lia|]. cbn [tag_loop].
  apply ok_bind, ok_bind, ok_or. eapply ok_next_tag; [done|done|by left|]. apply ok_ret. rewrite Ht. cbn.
  by apply ok_ret.
Qed.

(** ** Documents *)

Context (raw_name : cstring -> cstring).
Abbreviation coming := (coming raw_name).
Abbreviation reads := (reads raw_name).

(** The reader stands on the start tag of an element with the text [c]. *)
Definition inside (t c : cstring) (attrs : list (cstring * cstring)) (open : list cstring)
    (calls : list xml_call) s : Prop :=
  node_empty (here (get_reader s)) = 0 /\ node_attributes (here (get_reader s)) = attrs
  /\ exists text e l, coming_nodes s = map Some text ++ Some e :: l
     /\ text_nodes c text /\ is_end t e /\ reads open calls l.

(** The end tag of an element comes next. *)
Definition closing (t : cstring) (open : list cstring) (calls : list xml_call) s : Prop :=
  exists e l, coming_nodes s = Some e :: l /\ is_end t e /\ reads open calls l.

(** The reader stands on a start tag; what is in the element comes next. *)
Definition opened (empty : Z) (attrs : list (cstring * cstring)) (open : list cstring)
    (calls : list xml_call) s : Prop :=
  node_empty (here (get_reader s)) = empty /\ node_attributes (here (get_reader s)) = attrs
  /\ reads open calls (coming_nodes s).

Lemma ok_not_empty s (Q : unit -> S -> Prop) :
  node_empty (here (get_reader s)) = 0 -> Q tt s -> okp assert_not_empty s Q.
Proof. intros He HQ. apply ok_bind, ok_node, ok_guard; [|done]. by rewrite He. Qed.

Lemma ok_check_empty s (Q : Z -> S -> Prop) :
  0 <= node_empty (here (get_reader s)) -> Q (node_empty (here (get_reader s))) s -> okp check_empty s Q.
Proof.
  intros He HQ. apply ok_bind, ok_node. rewrite (proj2 (Z.ltb_ge _ _)) by done. by apply ok_ret.
Qed.

Lemma ok_scan t c attrs open calls s (Q : cstring -> S -> Prop) :
  inside t c attrs open calls s ->
  (forall n l, c <> [] -> closing t open calls (moved n l s) -> Q c (moved n l s)) ->
  (forall n l, c = [] -> reads open calls l -> Q c (moved n l s)) ->
  okp xml_scan_text s Q.
Proof.
  intros (_ & _ & text & e & l & Hs & Ht & [He1 He2] & Hr) HQ1 HQ2.
  apply ok_bind. destruct Ht as [|c n Hc Hn Hv].
  - eapply ok_read; [exact Hs|]. apply ok_bind, ok_node. rewrite moved_here, He1. apply ok_ret. by apply HQ2.
  - eapply ok_read; [exact Hs|]. apply ok_bind, ok_node. rewrite moved_here.
    rewrite Hv. destruct Hn as [-> | ->]; apply ok_ret, HQ1; try done;
      exists e, l; rewrite moved_nodes; done.
Qed.

Lemma ok_text t c attrs open calls s (Q : cstring -> S -> Prop) :
  inside t c attrs open calls s -> c <> [] ->
  (forall n l, closing t open calls (moved n l s) -> Q c (moved n l s)) ->
  okp get_tag_text s Q.
Proof.
  intros Hi Hc HQ. pose proof Hi as (He & _). apply ok_bind, ok_not_empty; [done|].
  apply ok_bind, ok_or. eapply ok_scan; [exact Hi| |done].
  intros n l _ Hcl. rewrite (proj2 (Z.eqb_neq _ _)) by (destruct c; cbn; [done|lia]). apply ok_ret. by apply HQ.
Qed.

Lemma ok_tag_end t open calls s (Q : unit -> S -> Prop) :
  closing t open calls s ->
  (forall n l, reads open calls l -> Q tt (moved n l s)) -> okp (check_tag_end t) s Q.
Proof.
  intros (e & l & Hs & [He1 He2] & Hr) HQ. apply ok_bind, ok_or.
  eapply (ok_next_tag _ []); [exact Hs|done|by left|]. rewrite He1. apply ok_guard; [done|]. by apply HQ.
Qed.

(** An element with text in the loop *)
Lemma okl_element {L} p body (x : L) t c open calls s Q :
  p <> cstr "#text" ->
  coming p open (xmlTextWriterWriteElement t (Some c) :: calls) (coming_nodes s) ->
  (forall n l, inside t c [] open calls (moved n l s) ->
    okp (body t x) (moved n l s) (fun x' s' => okl p body x' s' Q)) ->
  okl p body x s Q.
Proof.
  intros Hp Hc Hb. apply coming_element in Hc as (junk & n & text & e & l & Hs & Hj & Hn & Ht & He & Hr); [|done].
  eapply okl_start; [exact Hs|done|apply Hn|]. rewrite (start_name _ _ _ _ _ Hn). apply Hb.
  split_and!; [rewrite moved_here; apply Hn..|]. exists text, e, l. by rewrite moved_nodes.
Qed.

Lemma okl_base64 {L} p body (x : L) t attrs data open calls s Q :
  p <> cstr "#text" ->
  coming p open (xmlTextWriterStartElement t :: attribute_calls attrs
    ++ xmlTextWriterWriteBase64 data :: xmlTextWriterEndElement :: calls) (coming_nodes s) ->
  (forall n l v, data <> [] -> base64_text data v -> inside t v attrs open calls (moved n l s) ->
    okp (body t x) (moved n l s) (fun x' s' => okl p body x' s' Q)) ->
  okl p body x s Q.
Proof.
  intros Hp Hc Hb.
  apply coming_base64 in Hc as (junk & n & v & text & e & l & Hs & Hj & Hd & Hv & Hn & Ht & He & Hr); [|done].
  eapply okl_start; [exact Hs|done|apply Hn|]. rewrite (start_name _ _ _ _ _ Hn). eapply Hb; [done..|].
  split_and!; [rewrite moved_here; apply Hn..|]. exists text, e, l. by rewrite moved_nodes.
Qed.

Lemma okl_open {L} p body (x : L) t attrs c open calls s Q :
  p <> cstr "#text" -> in_start_tag c = false ->
  coming p open (xmlTextWriterStartElement t :: attribute_calls attrs ++ c :: calls) (coming_nodes s) ->
  (forall n l, opened 0 attrs (t :: open) (c :: calls) (moved n l s) ->
    okp (body t x) (moved n l s) (fun x' s' => okl p body x' s' Q)) ->
  okl p body x s Q.
Proof.
  intros Hp Hi Hc Hb. apply coming_open in Hc as (junk & n & l & Hs & Hj & Hn & Hr); [|done..].
  eapply okl_start; [exact Hs|done|apply Hn|]. rewrite (start_name _ _ _ _ _ Hn). apply Hb.
  split_and!; [rewrite moved_here; apply Hn..|]. by rewrite moved_nodes.
Qed.

Lemma okl_empty {L} p body (x : L) t attrs open calls s Q :
  p <> cstr "#text" ->
  coming p open (xmlTextWriterStartElement t :: attribute_calls attrs ++ xmlTextWriterEndElement :: calls)
    (coming_nodes s) ->
  (forall n l, opened 1 attrs open calls (moved n l s) ->
    okp (body t x) (moved n l s) (fun x' s' => okl p body x' s' Q)) ->
  okl p body x s Q.
Proof.
  intros Hp Hc Hb. apply coming_empty in Hc as (junk & n & l & Hs & Hj & Hn & Hr); [|done].
  eapply okl_start; [exact Hs|done|apply Hn|]. rewrite (start_name _ _ _ _ _ Hn). apply Hb.
  split_and!; [rewrite moved_here; apply Hn..|]. by rewrite moved_nodes.
Qed.

Lemma okl_close {L} p body (x : L) open calls s (Q : L -> S -> Prop) :
  p <> cstr "#text" -> coming p (p :: open) (xmlTextWriterEndElement :: calls) (coming_nodes s) ->
  (forall n l, reads open calls l -> Q x (moved n l s)) ->
  okl p body x s Q.
Proof.
  intros Hp Hc HQ. apply coming_close in Hc as (junk & n & l & Hs & Hj & Hn & Hr); [|done].
  eapply okl_stop; [exact Hs|done|done|]. by apply HQ.
Qed.

(** ** Tags that are kept *)

(** The reader stands on the first node of an element written as [t]. *)
Definition at_raw (t : cstring) (open : list cstring) (calls : list xml_call) s : Prop :=
  node_outer (here (get_reader s)) = Some t
  /\ exists inner l, coming_nodes s = map Some inner ++ l
     /\ raw_nodes raw_name t (length open) (here (get_reader s) :: inner) /\ reads open calls l.

Lemma okl_raw {L} p body (x : L) t open calls s Q :
  p <> cstr "#text" ->
  coming p open (xmlTextWriterWriteRaw t :: calls) (coming_nodes s) ->
  (forall n l, at_raw t open calls (moved n l s) ->
    okp (body (raw_name t) x) (moved n l s) (fun x' s' => okl p body x' s' Q)) ->
  okl p body x s Q.
Proof.
  intros Hp Hc Hb. apply coming_raw in Hc as (junk & nodes & l & Hs & Hj & Hn & Hr); [|done].
  pose proof Hn as Hn'. destruct Hn as [n Hst Ho|n nodes e Hst Ho Hbody He1 He2];
    (eapply okl_start; [exact Hs|done|apply Hst|]); rewrite (start_name _ _ _ _ _ Hst); apply Hb;
    (split; [by rewrite moved_here|]); rewrite moved_here, moved_nodes.
  - by exists [], l.
  - by exists (nodes ++ [e]), l.
Qed.

Lemma skip_body depth body e l :
  Forall (fun x => 0 <= node_type x /\ Z.of_nat depth < node_depth x) body ->
  node_type e = XML_ELEMENT_DECL -> node_depth e = Z.of_nat depth ->
  skip_loop (Z.of_nat depth) (map Some (body ++ [e]) ++ l) = Some (e, l).
Proof.
  intros Hb He1 He2. induction Hb as [|x body [Hx1 Hx2] Hb IH]; cbn.
  - rewrite He1, He2. replace (Z.of_nat depth <? 0) with false by lia. cbn.
    by replace (Z.of_nat depth >? Z.of_nat depth) with false by lia.
  - replace (node_type x <? 0) with false by lia. replace (node_depth x <? 0) with false by lia.
    replace (node_depth x >? Z.of_nat depth) with true by lia. cbn [orb]. rewrite orb_true_r. exact IH.
Qed.

Lemma ok_skip_raw t open calls s (Q : unit -> S -> Prop) :
  at_raw t open calls s ->
  (forall n l, reads open calls l -> Q tt (moved n l s)) -> okp xml_skip_tag s Q.
Proof.
  intros (Ho & inner & l & Hs & Hn & Hr) HQ. apply ok_bind, ok_node.
  assert (Hm : coming_nodes s = l -> s = moved (here (get_reader s)) l s).
  { intros <-. unfold moved, coming_nodes, set_place. rewrite <- (put_get s) at 1. f_equal. by destruct (get_reader s). }
  inversion Hn as [n Hst Ho' E|n body e Hst Ho' Hbody He1 He2 E]; subst;
    (rewrite (proj2 (Z.ltb_ge _ _)) by (rewrite (start_depth _ _ _ _ _ Hst); lia));
    (apply ok_bind, ok_check_empty; rewrite (start_empty _ _ _ _ _ Hst); [lia|]); cbn [negb Z.eqb].
  - apply ok_ret. rewrite (Hm Hs). by apply HQ.
  - apply ok_bind, ok_get. rewrite (start_depth _ _ _ _ _ Hst).
    change (ahead (get_reader s)) with (coming_nodes s). rewrite Hs, skip_body by done.
    apply ok_go; [|by apply HQ]. unfold left. rewrite Hs, length_app. lia.
Qed.

Lemma ok_preserve t tags open calls s (Q : list cstring -> S -> Prop) :
  at_raw t open calls s ->
  (forall n l, reads open calls l -> Q (tags ++ [t]) (moved n l s)) ->
  okp (preserve_unrecognized_tag tags) s Q.
Proof.
  intros Hr HQ. pose proof Hr as (Ho & _). apply ok_bind, ok_or, ok_bind, ok_node. rewrite Ho.
  apply ok_ret, ok_bind, ok_or. eapply ok_skip_raw; [exact Hr|]. intros n l Hl. apply ok_ret. by apply HQ.
Qed.

(** ** Tracking *)

Lemma ok_required i tr s (Q : tracking -> S -> Prop) :
  have_required_tags tr !! i = Some false ->
  Q {| have_required_tags := <[i := true]> (have_required_tags tr);
       have_optional_tags := have_optional_tags tr |} s ->
  okp (check_required_tag i tr) s Q.
Proof. unfold check_required_tag. intros ->. by intros HQ. Qed.

Lemma ok_optional i tr s (Q : tracking -> S -> Prop) :
  have_optional_tags tr !! i = Some false ->
  Q {| have_required_tags := have_required_tags tr;
       have_optional_tags := <[i := true]> (have_optional_tags tr) |} s ->
  okp (check_optional_tag i tr) s Q.
Proof. unfold check_optional_tag. intros ->. by intros HQ. Qed.

End wp.
