(* ===== verification/XmlValues.v ===== *)
(** * Values in a document

    The value parsers of [XmlLib] and [XmlRead] undo the formats of the writer. *)

From S2P Require Import Prelude Errors TapeOps TapeDev Coherency Extents Volume FsRaw.
From S2P Require Import TimeInternal TimeSpec Base64 Pathname IndexCriteria FsTree XmlLib XmlRead XmlWrite XmlSpec.
Open Scope Z_scope.
Open Scope ltfs_scope.

(** ** Numbers *)

Definition all_digits (s : cstring) : Prop := Forall (fun b => 48 <= b <= 57) s.

Lemma isdigit_ok b : 48 <= b <= 57 -> isdigit b = true.
Proof. intros Hb. unfold isdigit. apply andb_true_iff. split; apply Z.leb_le; lia. Qed.

Lemma digits_value_app acc a b :
  all_digits a -> digits_value acc (a ++ b) = digits_value (fst (digits_value acc a)) b.
Proof.
  intros Ha. revert acc. induction Ha as [|d a Hd Ha IH]; intros acc; cbn; [done|].
  by rewrite isdigit_ok.
Qed.

Lemma print_dec_loop_ok fuel n acc :
  0 <= n -> Z.log2 n < Z.of_nat fuel ->
  exists ds, print_dec_loop fuel n acc = ds ++ acc /\ ds <> [] /\ all_digits ds
  /\ forall a, digits_value a ds = (a * 10 ^ Z.of_nat (length ds) + n, []).
Proof.
  revert n acc. induction fuel as [|fuel IH]; intros n acc Hn Hf; [pose proof (Z.log2_nonneg n); lia|].
  cbn [print_dec_loop]. destruct (Z.ltb_spec n 10) as [Hlt|Hge].
  - exists [48 + n]. split; [done|]. split; [done|]. split.
    + constructor; [lia|constructor].
    + intros a. cbn [digits_value]. rewrite isdigit_ok by lia. cbn. f_equal. lia.
  - assert (Hlog : Z.log2 (n / 10) < Z.of_nat fuel).
    { apply Z.lt_le_trans with (Z.log2 n); [|lia]. apply Z.log2_lt_pow2; [apply Z.div_str_pos; lia|].
      pose proof (Z.log2_spec n ltac:(lia)) as [_ Hs]. rewrite Z.pow_succ_r in Hs by apply Z.log2_nonneg.
      apply Z.div_lt_upper_bound; lia. }
    assert (Hm := Z.mod_pos_bound n 10 ltac:(lia)).
    destruct (IH (n / 10) (48 + n mod 10 :: acc) ltac:(apply Z.div_pos; lia) Hlog) as (ds & -> & Hne & Hd & Hv).
    exists (ds ++ [48 + n mod 10]). split; [by rewrite <- app_assoc|]. split; [by destruct ds|]. split.
    + apply Forall_app_2; [done|]. constructor; [lia|constructor].
    + intros a. rewrite digits_value_app by done. rewrite Hv. cbn [fst digits_value]. rewrite isdigit_ok by lia.
      f_equal. rewrite length_app, Nat2Z.inj_add, Z.pow_add_r by lia. cbn [length Z.of_nat].
      pose proof (Z.div_mod n 10 ltac:(lia)). change (10 ^ Z.of_nat 1) with 10. lia.
Qed.

Lemma print_dec_ok n :
  0 <= n -> exists b ds, print_dec n = b :: ds /\ all_digits (b :: ds) /\ digits_value 0 (b :: ds) = (n, []).
Proof.
  intros Hn. pose proof (Z.log2_nonneg n).
  destruct (print_dec_loop_ok (S (Z.to_nat (Z.log2 n))) n [] Hn ltac:(lia)) as (ds & E & Hne & Hd & Hv).
  unfold print_dec. rewrite E, app_nil_r. destruct ds as [|b ds]; [done|]. exists b, ds.
  rewrite Hv. split_and!; [done..|]. by rewrite Z.mul_0_l.
Qed.

Lemma print_dec_not_empty n : 0 <= n -> print_dec n <> [].
Proof. intros Hn. by destruct (print_dec_ok n Hn) as (b & ds & -> & _). Qed.

Lemma digit_not_space b rest : 48 <= b <= 57 -> skip_spaces (b :: rest) = b :: rest.
Proof. intros Hb. cbn. unfold is_space. by destruct (Z.eqb_spec b 32), (Z.leb_spec 9 b), (Z.leb_spec b 13); try lia. Qed.

Lemma parse_print n : 0 <= n < 2 ^ 64 -> xml_parse_ull (print_dec n) = inr n.
Proof.
  intros Hn. destruct (print_dec_ok n (proj1 Hn)) as (b & ds & -> & Hd & Hv).
  assert (Hb : 48 <= b <= 57) by (by inversion Hd).
  unfold xml_parse_ull. cbn [length]. rewrite (proj2 (Z.eqb_neq _ 0)) by lia.
  unfold strtoull. rewrite digit_not_space by done.
  assert (Hbody : match b :: ds with 45 :: rest => (true, rest) | 43 :: rest => (false, rest) | _ => (false, b :: ds) end
                  = (false, b :: ds)).
  { assert (Hc : b = 48 \/ b = 49 \/ b = 50 \/ b = 51 \/ b = 52 \/ b = 53 \/ b = 54 \/ b = 55 \/ b = 56
      \/ b = 57) by lia.
    by destruct_or! Hc; subst. }
  rewrite Hbody, isdigit_ok, Hv by done. unfold ULLONG_MAX.
  destruct (Z.gtb_spec n (2 ^ 64 - 1)); [lia|done].
Qed.

Lemma parse_print_bool b : xml_parse_bool (print_bool b) = inr b.
Proof. by destruct b. Qed.

Lemma print_bool_not_empty b : print_bool b <> [].
Proof. by destruct b. Qed.

(** ** Partitions *)

Definition partition_ok (p : Z) : Prop := 97 <= p <= 122.

Lemma parse_print_partition p : partition_ok p -> _xml_parse_partition (print_char p) = inr p.
Proof.
  unfold partition_ok. intros Hp. unfold print_char. rewrite (proj2 (Z.eqb_neq _ _)) by lia. cbn.
  rewrite (proj2 (Z.ltb_ge _ _)) by lia. by destruct (Z.gtb_spec p 122); [lia|].
Qed.

Lemma print_partition_not_empty p : partition_ok p -> print_char p <> [].
Proof. unfold partition_ok. intros Hp. unfold print_char. by rewrite (proj2 (Z.eqb_neq _ _)) by lia. Qed.

(** ** Times *)

Definition time_ok (t : Z * Z) : Prop := in_time_range t.1 /\ 0 <= t.2 <= LTFS_NSEC_MAX.

Definition print_time (t : Z * Z) : cstring := (xml_format_time {| tv_sec := t.1; tv_nsec := t.2 |}).2.

Lemma parse_print_time t : time_ok t -> parse_time_value (print_time t) = inr t.
Proof.
  intros [Ht Hn]. pose proof (format_parse {| tv_sec := t.1; tv_nsec := t.2 |} Hn) as H.
  unfold parse_time_value, print_time. destruct (xml_format_time _) as [ret text].
  cbn [snd]. destruct H as (_ & _ & ->).
  rewrite normalize_id by done. cbn. by destruct t.
Qed.

Lemma print_time_not_empty t : time_ok t -> print_time t <> [].
Proof.
  intros [Ht Hn]. pose proof (format_parse {| tv_sec := t.1; tv_nsec := t.2 |} Hn) as H.
  unfold print_time. destruct (xml_format_time _) as [ret text]. destruct H as (_ & Hl & _). by destruct text.
Qed.

(** ** Unique identifiers *)

(** 36 characters, lower case. *)
Definition uuid_ok (u : cstring) : Prop := xml_parse_uuid u = inr u.

Lemma uuid_not_empty u : uuid_ok u -> u <> [].
Proof. by intros Hu ->. Qed.

(** ** Names *)

(** A name as the file system keeps it. *)
Definition stored_name (icu : icu_lib) (nm : cstring) : Prop := xml_parse_filename icu nm = inr nm.

(** ** Values of extended attributes *)

Lemma decoded_buffer dec bs : buffer_is dec bs -> decoded_bytes (Z.of_nat (length bs)) (Some dec) = bs.
Proof.
  intros Hd. unfold decoded_bytes. rewrite Nat2Z.id. apply list_eq. intros i.
  destruct (decide (i < length bs)%nat) as [Hi|Hi].
  - rewrite list_lookup_fmap, lookup_seq_lt by done. cbn. rewrite Hd, (proj2 (Z.leb_le _ _)) by lia.
    rewrite Nat2Z.id. destruct (lookup_lt_is_Some_2 bs i Hi) as [x Hx]. by rewrite Hx.
  - rewrite (lookup_ge_None_2 bs) by lia. apply lookup_ge_None_2. rewrite length_fmap, length_seq. lia.
Qed.

Lemma parse_base64 before bs v :
  Forall is_byte bs -> bs <> [] -> base64_text bs v ->
  xattr_value before (Some (cstr "base64")) v = inr bs.
Proof.
  intros Hb Hne (body & -> & Hs & Hl). destruct (decode_encoded before bs body Hb Hne Hs Hl) as (dec & E & Hd).
  unfold xattr_value. change (bool_decide (Some (cstr "base64") = None \/ Some (cstr "base64") = Some (cstr "text"))) with false.
  cbv iota.
  rewrite E, (proj2 (Z.eqb_neq _ _)) by (destruct bs; cbn; [done|lia]). by rewrite decoded_buffer.
Qed.

Lemma parse_text before v : xattr_value before None v = inr v.
Proof. unfold xattr_value. by rewrite bool_decide_eq_true_2 by (by left). Qed.

Lemma base64_text_not_empty bs v : bs <> [] -> base64_text bs v -> v <> [].
Proof.
  intros Hne (body & -> & Hs & _) E. apply app_nil in E as [-> _].
  destruct bs as [|a [|b [|c bs]]]; [done|discriminate Hs..].
Qed.
