(* ===== verification/XmlTree.v ===== *)
(** * What an Index document says

    The contents of a tree, apart from where its dentries are in memory ([xtree]); the
    calls that write it; and that [_xml_write_schema] makes these calls, up to the
    first one that fails. *)

From S2P Require Import Prelude Errors Extents Volume FsRaw TimeInternal Pathname IndexCriteria.
From S2P Require Import FsTree XmlLib XmlRead XmlWrite XmlValues.
Open Scope Z_scope.
Open Scope ltfs_scope.

(** ** The contents of a tree *)

Record common := {
  c_name : cstring;
  c_readonly : bool;
  c_creation : Z * Z;
  c_change : Z * Z;
  c_modify : Z * Z;
  c_access : Z * Z;
  c_backup : Z * Z;
  c_uid : Z;
  c_xattrs : list xattr_info;
  c_tags : list cstring
}.

(** A file is a symbolic link ([link]) or has extents. *)
#[warnings="-register-all"] Inductive xtree :=
  | XFile (c : common) (len : Z) (link : option cstring) (extents : list extent_info)
  | XDir (c : common) (children : list xtree).

Definition common_of (nm : cstring) (n : fsnode) : common :=
  {| c_name := nm; c_readonly := readonly n; c_creation := creation_time n;
     c_change := change_time (file n); c_modify := modify_time (file n);
     c_access := access_time (file n); c_backup := backup_time n; c_uid := uid n;
     c_xattrs := xattrlist n; c_tags := preserved_tags n |}.

(** The contents below [d], the children of a directory in the order [order] gives. *)
Fixpoint view (fuel : nat) (order : fsnode -> list Z) (h : gmap Z fsnode) (d : Z) : option xtree :=
  match fuel with
  | O => None
  | S fuel =>
      n ← h !! d;
      nm ← name n;
      if isdir n then XDir (common_of nm n) <$> mapM (view fuel order h) (order n)
      else if isslink n then (fun t => XFile (common_of nm n) (size (file n)) (Some t) []) <$> target n
      else Some (XFile (common_of nm n) (size (file n)) None (extentlist (file n)))
  end.

Definition tree_common (t : xtree) : common := match t with XFile c _ _ _ | XDir c _ => c end.

Section xtree_ind.
Variable P : xtree -> Prop.
Hypothesis Hfile : forall c len link extents, P (XFile c len link extents).
Hypothesis Hdir : forall c children, Forall P children -> P (XDir c children).

(** Induction over the directories below. *)
Fixpoint xtree_nested (t : xtree) : P t :=
  match t with
  | XFile c len link extents => Hfile c len link extents
  | XDir c children =>
      Hdir c children
        ((fix all (l : list xtree) : Forall P l :=
            match l with
            | [] => @List.Forall_nil xtree P
            | t :: l => @List.Forall_cons xtree P t l (xtree_nested t) (all l)
            end) children)
  end.
End xtree_ind.

(** ** The calls that write it *)

Abbreviation Start t := (xmlTextWriterStartElement t).
Abbreviation Leaf t c := (xmlTextWriterWriteElement t (Some c)).
Abbreviation End' := xmlTextWriterEndElement.

Section calls.
Context (icu : icu_lib).

Definition time_calls (c : common) : list xml_call :=
  [Leaf (cstr "creationtime") (print_time (c_creation c));
   Leaf (cstr "changetime") (print_time (c_change c));
   Leaf (cstr "modifytime") (print_time (c_modify c));
   Leaf (cstr "accesstime") (print_time (c_access c));
   Leaf (cstr "backuptime") (print_time (c_backup c))].

Definition value_calls (value : option (list Z)) : list xml_call :=
  match value with
  | None => [Start (cstr "value"); End']
  | Some v =>
      if pathname_validate_xattr_value icu v >? 0
      then [Start (cstr "value"); xmlTextWriterWriteAttribute (cstr "type") (cstr "base64");
            xmlTextWriterWriteBase64 v; End']
      else [Leaf (cstr "value") v]
  end.

Definition xattr_calls (x : xattr_info) : list xml_call :=
  Start (cstr "xattr") :: Leaf (cstr "key") x.1 :: value_calls x.2 ++ [End'].

Definition xattrs_calls (l : list xattr_info) : list xml_call :=
  if bool_decide (l = []) then []
  else Start (cstr "extendedattributes") :: flat_map xattr_calls l ++ [End'].

Definition extent_calls (e : extent_info) : list xml_call :=
  [Start (cstr "extent");
   Leaf (cstr "fileoffset") (print_dec (fileoffset e));
   Leaf (cstr "partition") (print_char (off_partition (start e)));
   Leaf (cstr "startblock") (print_dec (off_block (start e)));
   Leaf (cstr "byteoffset") (print_dec (byteoffset e));
   Leaf (cstr "bytecount") (print_dec (bytecount e));
   End'].

Definition contents_calls (link : option cstring) (extents : list extent_info) : list xml_call :=
  match link with
  | Some t => [Leaf (cstr "symlink") t]
  | None =>
      if bool_decide (extents = []) then []
      else Start (cstr "extentinfo") :: flat_map extent_calls extents ++ [End']
  end.

Definition tag_calls (tags : list cstring) : list xml_call := map xmlTextWriterWriteRaw tags.

Definition file_calls (c : common) (len : Z) (link : option cstring) (extents : list extent_info)
    : list xml_call :=
  Start (cstr "file") :: Leaf (cstr "name") (c_name c) :: Leaf (cstr "length") (print_dec len)
  :: Leaf (cstr "readonly") (print_bool (c_readonly c)) :: time_calls c
  ++ Leaf UID_TAGNAME (print_dec (c_uid c)) :: xattrs_calls (c_xattrs c)
  ++ contents_calls link extents ++ tag_calls (c_tags c) ++ [End'].

(** [nm]: what is written for the name; [body]: for the children. *)
Definition dir_calls (nm : list xml_call) (c : common) (body : list xml_call) : list xml_call :=
  Start (cstr "directory") :: nm
  ++ Leaf (cstr "readonly") (print_bool (c_readonly c)) :: time_calls c
  ++ Leaf UID_TAGNAME (print_dec (c_uid c)) :: xattrs_calls (c_xattrs c)
  ++ Start (cstr "contents") :: body ++ End' :: tag_calls (c_tags c) ++ [End'].

Fixpoint entry_calls (t : xtree) : list xml_call :=
  match t with
  | XFile c len link extents => file_calls c len link extents
  | XDir c children => dir_calls [Leaf (cstr "name") (c_name c)] c (flat_map entry_calls children)
  end.

(** The root carries the name of the volume. *)
Definition volume_name_calls (volume_name : option cstring) : list xml_call :=
  match volume_name with
  | Some v => [Leaf (cstr "name") v]
  | None => [Start (cstr "name"); End']
  end.

Definition root_calls (volume_name : option cstring) (t : xtree) : list xml_call :=
  match t with
  | XFile _ _ _ _ => []
  | XDir c children => dir_calls (volume_name_calls volume_name) c (flat_map entry_calls children)
  end.

Definition tapepos_calls (tag : cstring) (pos : tape_offset) : list xml_call :=
  [Start tag; Leaf (cstr "partition") (print_char (off_partition pos));
   Leaf (cstr "startblock") (print_dec (off_block pos)); End'].

Definition policy_calls (ic : index_criteria) : list xml_call :=
  if have_criteria ic then
    Start (cstr "dataplacementpolicy") :: Start (cstr "indexpartitioncriteria")
    :: Leaf (cstr "size") (print_dec (max_filesize_criteria ic))
    :: map (fun p => Leaf (cstr "name") p) (name_criteria (default [] (glob_patterns ic)))
    ++ [End'; End']
  else [].

Definition comment_calls (message : option cstring) : list xml_call :=
  match message with
  | Some m => if bool_decide (m = []) then [] else [Leaf (cstr "comment") m]
  | None => []
  end.

Definition backptr_calls (pos : tape_offset) : list xml_call :=
  if off_block pos =? 0 then [] else tapepos_calls (cstr "previousgenerationlocation") pos.

Definition schema_calls (creator : cstring) (highest_uid : Z) (idx : schema_index) (t : xtree)
    : list xml_call :=
  let b := base idx in
  xmlTextWriterStartDocument (cstr "UTF-8") :: xmlTextWriterSetIndent 1 :: xmlTextWriterSetIndentString []
  :: Start (cstr "ltfsindex") :: xmlTextWriterWriteAttribute (cstr "version") LTFS_INDEX_VERSION_STR
  :: Leaf (cstr "creator") creator
  :: comment_calls (commit_message idx)
  ++ Leaf (cstr "volumeuuid") (idx_vol_uuid b)
  :: Leaf (cstr "generationnumber") (print_dec (generation b))
  :: Leaf (cstr "updatetime") (print_time (mod_time b))
  :: tapepos_calls (cstr "location") (selfptr b)
  ++ backptr_calls (backptr b)
  ++ Leaf (cstr "allowpolicyupdate") (print_bool (criteria_allow_update idx))
  :: policy_calls (original_criteria idx)
  ++ Leaf NEXTUID_TAGNAME (print_dec highest_uid)
  :: root_calls (volume_name idx) t
  ++ tag_calls (index_tags idx)
  ++ [End'; xmlTextWriterEndDocument].

End calls.

(** ** The writer makes these calls *)

(** Calls whose result is not looked at. *)
Definition unchecked (c : xml_call) : bool :=
  match c with xmlTextWriterSetIndent _ | xmlTextWriterSetIndentString _ => true | _ => false end.

Section writer.
Context {W : Type} (write : xml_call -> W -> Z * W).

(** The calls in order, up to the first one that fails. *)
Fixpoint play (calls : list xml_call) (w : W) : Z * W :=
  match calls with
  | [] => (0, w)
  | c :: calls =>
      let '(r, w) := write c w in
      if negb (unchecked c) && (r <? 0) then (-1, w) else play calls w
  end.

Definition yields (m : wop) (calls : list xml_call) : Prop := forall w, m w = Some (play calls w).

(** [m] and then something else *)
Definition steps (m : wop) (calls : list xml_call) : Prop :=
  forall k cs, yields k cs -> yields (m ;! k) (calls ++ cs).

Lemma yields_done : yields done [].
Proof. done. Qed.

Lemma steps_emit c : unchecked c = false -> steps (emit write c) [c].
Proof.
  intros Hc k cs Hk w. unfold xml_mktag, bind_op, emit. cbn. destruct (write c w) as [r w']. rewrite Hc. cbn.
  destruct (r <? 0); [done|apply Hk].
Qed.

Lemma yields_ignoring c k cs : unchecked c = true -> yields k cs -> yields (ignoring (emit write c) k) (c :: cs).
Proof.
  intros Hc Hk w. unfold ignoring, bind_op, emit. cbn. destruct (write c w) as [r w']. rewrite Hc. apply Hk.
Qed.

Lemma play_app a b w :
  play (a ++ b) w = let '(r, w') := play a w in if r <? 0 then (-1, w') else play b w'.
Proof.
  revert w. induction a as [|c a IH]; intros w; cbn; [done|]. destruct (write c w) as [r w'].
  destruct (negb (unchecked c) && (r <? 0)); [done|apply IH].
Qed.

Lemma yields_steps m calls : yields m calls -> steps m calls.
Proof.
  intros Hm k cs Hk w. unfold xml_mktag, bind_op. rewrite (Hm w), play_app.
  destruct (play calls w) as [r w']. destruct (r <? 0); [done|apply Hk].
Qed.

Lemma yields_then m a k b : steps m a -> yields k b -> yields (m ;! k) (a ++ b).
Proof. intros Hm. apply Hm. Qed.

Lemma yields_emit c k b : unchecked c = false -> yields k b -> yields (emit write c ;! k) (c :: b).
Proof. intros Hc. by apply (steps_emit c Hc). Qed.

Lemma steps_then m a k b : steps m a -> steps k b -> steps (m ;! k) (a ++ b).
Proof.
  intros Hm Hk k' cs Hk' w. rewrite <- app_assoc, <- (Hm (k ;! k') (b ++ cs)); [|by apply Hk].
  unfold xml_mktag, bind_op, ret_op. destruct (m w) as [[r w']|]; [|done]. by destruct (r <? 0).
Qed.

Lemma steps_call c k b : unchecked c = false -> steps k b -> steps (emit write c ;! k) (c :: b).
Proof. intros Hc Hk. apply (steps_then _ [c]); [by apply steps_emit|done]. Qed.

Lemma yields_for_each {A} (f : A -> wop) (g : A -> list xml_call) l next cs :
  Forall (fun x => steps (f x) (g x)) l -> yields next cs ->
  yields (for_each f l next) (flat_map g l ++ cs).
Proof.
  intros Hl Hn. induction Hl as [|x l Hx Hl IH]; cbn; [done|]. rewrite <- app_assoc. by apply Hx.
Qed.

End writer.

Create HintDb xml.
#[export] Hint Resolve yields_done steps_emit yields_emit steps_call yields_steps yields_ignoring : xml.

(** ** Counting *)

(** How many dentries a tree has. *)
Fixpoint nodes (t : xtree) : nat :=
  match t with XFile _ _ _ _ => 1 | XDir _ children => S (sum_list_with nodes children) end.

Definition all_nodes (l : list xtree) : nat := sum_list_with nodes l.

Lemma nodes_pos t : (0 < nodes t)%nat.
Proof. destruct t; cbn; lia. Qed.

Lemma nodes_child t l : t ∈ l -> (nodes t <= all_nodes l)%nat.
Proof.
  unfold all_nodes. induction l as [|x l IH]; intros Ht; [by apply elem_of_nil in Ht|].
  cbn. apply elem_of_cons in Ht as [-> | Ht]; [lia|]. specialize (IH Ht).
  lia.
Qed.

(** ** Views *)

Lemma mapM_mono {A B} (f g : A -> option B) l ys :
  (forall x y, x ∈ l -> f x = Some y -> g x = Some y) -> mapM f l = Some ys -> mapM g l = Some ys.
Proof.
  revert ys. induction l as [|x l IH]; intros ys Hfg; cbn; [done|].
  destruct (f x) as [y|] eqn:E; [|done]. cbn. destruct (mapM f l) as [ys'|] eqn:E'; [|done]. cbn.
  intros [= <-]. rewrite (Hfg x y); [|by left|done]. cbn. rewrite (IH ys'); [done| |done].
  intros x' y' Hx'. apply Hfg. by right.
Qed.

Lemma view_mono order h fuel fuel' d t :
  view fuel order h d = Some t -> (fuel <= fuel')%nat -> view fuel' order h d = Some t.
Proof.
  revert fuel' d t. induction fuel as [|fuel IH]; intros [|fuel'] d t; cbn; [done|done|lia|].
  intros Hv Hf. destruct (h !! d) as [n|]; [|done]. cbn in *. destruct (name n) as [nm|]; [|done]. cbn in *.
  destruct (isdir n); [|done]. destruct (mapM _ _) as [ts|] eqn:E in Hv; [|done].
  erewrite mapM_mono; [exact Hv| |exact E]. intros x y _ Hx. eapply IH; [done|lia].
Qed.

Lemma view_fun order h f f' d t t' :
  view f order h d = Some t -> view f' order h d = Some t' -> t = t'.
Proof.
  intros H1 H2. eapply view_mono in H1; [|apply (Nat.le_max_l f f')].
  eapply view_mono in H2; [|apply (Nat.le_max_r f f')]. congruence.
Qed.
