(* ===== verification/XmlWriteSpec.v ===== *)
(** * What the writer of the Index document does

    [_xml_write_schema] writes the document of the tree it is given, every directory
    sorted, and stops at the first call of the XML writer that fails. *)

From S2P Require Import Prelude Errors Extents Volume FsRaw TimeInternal Pathname IndexCriteria IndexCriteriaSpec.
From S2P Require Import FsTree XmlLib XmlRead XmlWrite XmlValues XmlTree.
Open Scope Z_scope.
Open Scope ltfs_scope.

(** [pathname_validate_xattr_value] accepts the values: their characters can be
    decoded where they are text. *)
Definition values_ok (icu : icu_lib) (l : list xattr_info) : Prop :=
  Forall (fun x => forall v, x.2 = Some v -> 0 <= pathname_validate_xattr_value icu v) l.

Fixpoint tree_values_ok (icu : icu_lib) (t : xtree) : Prop :=
  values_ok icu (c_xattrs (tree_common t))
  /\ match t with
     | XFile _ _ _ _ => True
     | XDir _ children => fold_right (fun t P => tree_values_ok icu t /\ P) True children
     end.

Lemma fold_right_and {A} (P : A -> Prop) l : fold_right (fun x Q => P x /\ Q) True l <-> Forall P l.
Proof.
  induction l as [|x l IH]; cbn; [split; [by constructor|done]|]. rewrite IH. split.
  - intros [? ?]. by constructor.
  - intros H. by inversion H.
Qed.

Lemma flat_map_single {A B} (f : A -> B) l : flat_map (fun x => [f x]) l = map f l.
Proof. induction l as [|x l IH]; cbn; congruence. Qed.

Section writer.
Context {W : Type} (write : xml_call -> W -> Z * W) (icu : icu_lib).
Abbreviation yields := (yields write).
Abbreviation steps := (steps write).

Lemma write_time_emit nm t : write_time write nm t = emit write (xmlTextWriterWriteElement nm (Some (print_time t))).
Proof. unfold write_time, print_time. by destruct (xml_format_time _). Qed.

Lemma times_yields nm n : yields (_xml_write_dentry_times write n) (time_calls (common_of nm n)).
Proof. unfold _xml_write_dentry_times. rewrite !write_time_emit. repeat (apply yields_emit; [done|]). done. Qed.

Lemma value_yields v :
  (forall x, v = Some x -> 0 <= pathname_validate_xattr_value icu x) ->
  yields (write_xattr_value write icu v) (value_calls icu v).
Proof.
  intros Hv. destruct v as [v|]; cbn.
  - specialize (Hv v eq_refl). rewrite (proj2 (Z.ltb_ge _ _)) by done.
    destruct (_ >? 0); repeat (apply yields_emit; [done|]); done.
  - repeat (apply yields_emit; [done|]); done.
Qed.

Lemma xattr_steps x :
  (forall v, x.2 = Some v -> 0 <= pathname_validate_xattr_value icu v) ->
  steps (write_one_xattr write icu x) (xattr_calls icu x).
Proof.
  intros Hx. apply steps_call; [done|]. apply steps_call; [done|].
  apply steps_then; [by apply yields_steps, value_yields|by apply steps_emit].
Qed.

Lemma xattrs_yields n :
  values_ok icu (xattrlist n) -> yields (_xml_write_xattr write icu n) (xattrs_calls icu (xattrlist n)).
Proof.
  intros Hv. unfold _xml_write_xattr, xattrs_calls. case_bool_decide; [done|].
  apply yields_emit; [done|]. apply yields_for_each.
  - eapply List.Forall_impl; [|exact Hv]. intros x Hx. by apply xattr_steps.
  - apply yields_emit; done.
Qed.

Lemma extent_steps e : steps (write_extent write e) (extent_calls e).
Proof. repeat (apply steps_call; [done|]). by apply steps_emit. Qed.

Lemma tags_yields tags next cs :
  yields next cs -> yields (write_tags write tags next) (tag_calls tags ++ cs).
Proof.
  intros Hn. unfold write_tags, tag_calls.
  rewrite <- flat_map_single. apply yields_for_each; [|done].
  apply List.Forall_forall. intros t _. by apply steps_emit.
Qed.

Lemma contents_yields n next cs link extents :
  (if isslink n then target n = link /\ is_Some link else link = None /\ extentlist (file n) = extents) ->
  yields next cs ->
  yields (write_contents write n next) (contents_calls link extents ++ cs).
Proof.
  intros Hl Hn. unfold write_contents, contents_calls. destruct (isslink n).
  - destruct Hl as [-> [t ->]]. by apply yields_emit.
  - destruct Hl as [-> <-]. case_bool_decide; [done|]. cbn. apply yields_emit; [done|].
    rewrite <- app_assoc. apply yields_for_each; [|by apply yields_emit].
    apply List.Forall_forall. intros e _. apply extent_steps.
Qed.

Lemma file_yields n nm link extents :
  isdir n = false -> name n = Some nm -> values_ok icu (xattrlist n) ->
  (if isslink n then target n = link /\ is_Some link else link = None /\ extentlist (file n) = extents) ->
  yields (_xml_write_file write icu n) (file_calls icu (common_of nm n) (size (file n)) link extents).
Proof.
  intros Hd Hn Hv Hl. unfold _xml_write_file, file_calls. rewrite Hd, Hn.
  do 4 (apply yields_emit; [done|]). apply yields_then; [by apply yields_steps, times_yields|].
  apply yields_emit; [done|]. apply yields_then; [by apply yields_steps, xattrs_yields|].
  apply contents_yields; [done|]. apply tags_yields, yields_emit; [done|apply yields_done].
Qed.

(** ** Directories *)

Context (s : fs_state) (idx : schema_index).

Definition children_calls (fuel : nat) (c : Z) : wop :=
  match heap s !! c with
  | None => undefined
  | Some n => if isdir n then _xml_write_dirtree write icu fuel s idx c else _xml_write_file write icu n
  end.

Lemma dir_yields fuel d n nm_calls nm cs children :
  heap s !! d = Some n -> values_ok icu (xattrlist n) ->
  steps (write_name write idx (d =? root s) n) nm_calls ->
  Forall2 (fun c cs => steps (children_calls fuel c) cs) (sorted_children s n) children ->
  concat children = cs ->
  yields (_xml_write_dirtree write icu (S fuel) s idx d) (dir_calls icu nm_calls (common_of nm n) cs).
Proof.
  intros Hd Hv Hnm Hc <-. cbn [_xml_write_dirtree]. rewrite Hd. unfold dir_calls.
  apply yields_emit; [done|]. apply yields_then; [exact Hnm|].
  apply yields_emit; [done|]. apply yields_then; [by apply yields_steps, times_yields|].
  apply yields_emit; [done|]. apply yields_then; [by apply yields_steps, xattrs_yields|].
  apply yields_emit; [done|]. fold (children_calls fuel).
  assert (Hend : yields (emit write xmlTextWriterEndElement ;!
      write_tags write (preserved_tags n) (emit write xmlTextWriterEndElement ;! done))
      (xmlTextWriterEndElement :: tag_calls (preserved_tags n) ++ [xmlTextWriterEndElement])).
  { apply yields_emit; [done|]. apply tags_yields, yields_emit; [done|apply yields_done]. }
  induction Hc as [|c cs l children Hc Hl IH]; cbn; [exact Hend|]. rewrite <- app_assoc. by apply Hc.
Qed.

Lemma tree_values_children c children :
  tree_values_ok icu (XDir c children) -> Forall (tree_values_ok icu) children.
Proof. intros [_ H]. by apply fold_right_and. Qed.

(** [T] is the whole tree, so the root is not below itself. *)
Context (F : nat) (T : xtree) (HT : view F (sorted_children s) (heap s) (root s) = Some T).

Lemma entry_steps fuel d t :
  view fuel (sorted_children s) (heap s) d = Some t -> (nodes t < nodes T)%nat -> tree_values_ok icu t ->
  steps (children_calls fuel d) (entry_calls icu t).
Proof.
  revert d t. induction fuel as [|fuel IH]; intros d t Ht Hlt Hv; [done|].
  assert (Hroot : (d =? root s) = false).
  { apply Z.eqb_neq. intros ->. pose proof (view_fun _ _ _ _ _ _ _ Ht HT). subst. lia. }
  unfold children_calls. cbn [view] in Ht. destruct (heap s !! d) as [n|] eqn:Hd; [|done]. cbn in Ht.
  destruct (name n) as [nm|] eqn:Hnm; [|done]. cbn in Ht. destruct (isdir n) eqn:Hdir.
  - destruct (mapM _ _) as [ts|] eqn:Hts in Ht; [|done]. injection Ht as <-. apply yields_steps.
    apply tree_values_children in Hv as Hvs. destruct Hv as [Hv _]. cbn [tree_common c_xattrs common_of] in Hv.
    eapply (dir_yields _ _ _ _ _ _ (map (entry_calls icu) ts)); [done|done| | |by rewrite flat_map_concat_map].
    + rewrite Hroot. cbn [write_name]. rewrite Hnm. by apply steps_emit.
    + apply mapM_Some_1 in Hts. cbn [nodes] in Hlt. fold all_nodes in Hlt.
      assert (Hle : Forall (fun t => (nodes t < nodes T)%nat) ts).
      { apply List.Forall_forall. intros t Ht. apply list_elem_of_In, nodes_child in Ht.
        unfold all_nodes in *. lia. }
      clear Hlt. induction Hts as [|c t l ts Hc Hts IHts]; [constructor|].
      inversion Hle; inversion Hvs; subst. constructor; [by apply IH|]. by apply IHts.
  - apply yields_steps. destruct (isslink n) eqn:Hl.
    + destruct (target n) as [tg|] eqn:Htg; [|done]. injection Ht as <-. destruct Hv as [Hv _].
      apply file_yields; [done..|]. rewrite Hl. by eauto.
    + injection Ht as <-. destruct Hv as [Hv _]. apply file_yields; [done..|]. by rewrite Hl.
Qed.

Lemma root_yields :
  root s <> 0 -> (F <= S (base.size (heap s)))%nat -> tree_values_ok icu T ->
  (exists c children, T = XDir c children) ->
  steps (write_root write icu s idx) (root_calls icu (volume_name idx) T).
Proof.
  intros Hr HF Hv (c & children & ET). unfold write_root. rewrite (proj2 (Z.eqb_neq _ _)) by done.
  pose proof (view_mono _ _ _ _ _ _ HT HF) as Hview. rewrite ET in Hview, Hv |- *. cbn [root_calls].
  apply yields_steps. cbn [view] in Hview. destruct (heap s !! root s) as [n|] eqn:Hd; [|done]. cbn in Hview.
  destruct (name n) as [nm|] eqn:Hnm; [|done]. cbn in Hview. destruct (isdir n) eqn:Hdir.
  2:{ destruct (isslink n); [destruct (target n)|]; discriminate Hview. }
  destruct (mapM _ _) as [ts|] eqn:Hts in Hview; [|done]. injection Hview as <- <-.
  apply tree_values_children in Hv as Hvs. destruct Hv as [Hv _].
  eapply (dir_yields _ _ _ _ _ _ (map (entry_calls icu) ts)); [done|done| | |by rewrite flat_map_concat_map].
  - rewrite Z.eqb_refl. cbn [write_name]. unfold volume_name_calls.
    destruct (volume_name idx) as [v|] eqn:Ev; [by apply steps_emit|].
    apply steps_call; [done|]. by apply steps_emit.
  - apply mapM_Some_1 in Hts.
    assert (Hle : Forall (fun t => (nodes t < nodes T)%nat) ts).
    { apply List.Forall_forall. intros t Ht. apply list_elem_of_In, nodes_child in Ht.
      rewrite ET. cbn [nodes]. unfold all_nodes in *. lia. }
    clear ET. induction Hts as [|c t l ts Hc Hts IHts]; [constructor|].
    inversion Hle; inversion Hvs; subst. constructor; [by apply entry_steps|]. by apply IHts.
Qed.

(** ** The whole document *)

Lemma tapepos_steps tag pos next cs :
  yields next cs -> yields (write_tapepos write tag pos next) (tapepos_calls tag pos ++ cs).
Proof. intros Hn. unfold write_tapepos, tapepos_calls. cbn. by repeat (apply yields_emit; [done|]). Qed.

Lemma policy_yields ic next cs :
  yields next cs -> yields (write_policy write ic next) (policy_calls ic ++ cs).
Proof.
  intros Hn. unfold write_policy, policy_calls. destruct (have_criteria ic); [|done]. cbn.
  do 3 (apply yields_emit; [done|]). rewrite <- app_assoc.
  rewrite <- (flat_map_single (fun p => Leaf (cstr "name") p)).
  apply yields_for_each; [|by repeat (apply yields_emit; [done|])].
  apply List.Forall_forall. intros t _. by apply steps_emit.
Qed.

Lemma comment_yields m next cs :
  yields next cs -> yields (write_comment write m next) (comment_calls m ++ cs).
Proof.
  intros Hn. unfold write_comment, comment_calls. destruct m as [m|]; [|done].
  case_bool_decide; [done|]. by apply yields_emit.
Qed.

Lemma schema_yields creator :
  root s <> 0 -> (F <= S (base.size (heap s)))%nat -> tree_values_ok icu T ->
  (exists c children, T = XDir c children) ->
  yields (_xml_write_schema write icu creator s idx) (schema_calls icu creator (uid_number s) idx T).
Proof.
  intros Hr HF Hv HD. unfold _xml_write_schema, schema_calls, print_time.
  destruct (xml_format_time _) as [? text]. cbn [snd].
  apply yields_emit; [done|]. do 2 (apply yields_ignoring; [done|]). do 3 (apply yields_emit; [done|]).
  apply comment_yields. do 3 (apply yields_emit; [done|]). apply tapepos_steps.
  match goal with |- yields (_ ?k) (backptr_calls _ ++ ?cs) => assert (Hk : yields k cs) end.
  { apply yields_emit; [done|]. apply policy_yields, yields_emit; [done|].
    apply yields_then; [by apply root_yields|]. apply tags_yields. repeat (apply yields_emit; [done|]). done. }
  unfold backptr_calls. destruct (_ =? 0); [exact Hk|]. by apply tapepos_steps.
Qed.

End writer.

(** ** Errors of the writer *)

Section errors.
Context {W : Type} (write : xml_call -> W -> Z * W).

(** The calls were made one after the other and none of those that are looked at failed. *)
Inductive issued : list xml_call -> W -> W -> Prop :=
  | issued_none w : issued [] w w
  | issued_call c calls w w' :
      unchecked c = true \/ 0 <= (write c w).1 ->
      issued calls (write c w).2 w' -> issued (c :: calls) w w'.

Lemma play_cases calls w :
  (exists w', play write calls w = (0, w') /\ issued calls w w')
  \/ exists pre c post w1, calls = pre ++ c :: post /\ unchecked c = false /\ issued pre w w1
       /\ (write c w1).1 < 0 /\ play write calls w = (-1, (write c w1).2).
Proof.
  revert w. induction calls as [|c calls IH]; intros w; [left; exists w; split; [done|constructor]|].
  cbn [play]. destruct (write c w) as [r w1] eqn:Ec.
  destruct (unchecked c) eqn:Hu; [|destruct (Z.ltb_spec r 0) as [Hr|Hr]]; cbn [negb andb].
  2:{ right. exists [], c, calls, w. rewrite Ec. split_and!; [done..|constructor|done|done]. }
  all: assert (Hc : unchecked c = true \/ 0 <= (write c w).1) by (rewrite Ec; auto).
  all: destruct (IH w1) as [(w' & Hp & Hi)|(pre & c' & post & w2 & -> & Hu' & Hi & Hr' & Hp)]; rewrite Hp;
    [left; exists w'; split; [done|]; constructor; rewrite ?Ec; auto
    |right; exists (c :: pre), c', post, w2; split_and!; try done; constructor; rewrite ?Ec; auto].
Qed.

End errors.

(** The first call of the XML writer that fails ends the writing of an Index.  For
    any writer, [_xml_write_schema] of an index with a tree whose attribute values can
    be decoded makes the calls of its document in order; it returns 0 when all of them
    succeeded, and -1 at once after the first one that failed (the two calls that set
    the indentation are not looked at). *)
Theorem write_schema_stops {W} (write : xml_call -> W -> Z * W) (icu : icu_lib) creator s idx c ts w :
  root s <> 0 -> view (S (base.size (heap s))) (sorted_children s) (heap s) (root s) = Some (XDir c ts) ->
  tree_values_ok icu (XDir c ts) ->
  let calls := schema_calls icu creator (uid_number s) idx (XDir c ts) in
  (exists w', _xml_write_schema write icu creator s idx w = Some (0, w') /\ issued write calls w w')
  \/ exists pre k post w1, calls = pre ++ k :: post /\ unchecked k = false /\ issued write pre w w1
       /\ (write k w1).1 < 0 /\ _xml_write_schema write icu creator s idx w = Some (-1, (write k w1).2).
Proof.
  intros Hr Hv Ht calls.
  rewrite (schema_yields write icu s idx _ _ Hv creator Hr (le_n _) Ht) by by eexists _, _.
  fold calls. destruct (play_cases write calls w) as [(w' & -> & Hi)|(pre & k & post & w1 & E & Hu & Hi & Hk & ->)].
  - left. by exists w'.
  - right. by exists pre, k, post, w1.
Qed.

(** A disk that takes [n] calls *)
Definition full_after (n : nat) (c : xml_call) (w : nat) : Z * nat := (if (w <? n)%nat then 0 else -1, S w).

Definition bare_root : fsnode := new_dentry None (Some [SLASH]) (Some [SLASH]) true false 1 1.
Definition bare_tree : fs_state :=
  {| heap := {[1 := bare_root]}; fresh := 2; root := 1; inode_number := 1; uid_number := 1; file_count := 0;
     valid_blocks := 0; criteria_of := no_policy |}.
Definition bare_index : schema_index :=
  {| base := {| idx_creator := []; idx_vol_uuid := []; generation := 1; mod_time := (0, 0);
                selfptr := {| off_partition := 97; off_block := 5 |};
                backptr := {| off_partition := 0; off_block := 0 |};
                dirty := true; atime_dirty := false; use_atime := false; idx_version := LTFS_INDEX_VERSION |};
     volume_name := None; criteria_allow_update := true; original_criteria := no_policy; commit_message := None;
     index_tags := []; symlink_conflict := [] |}.

Lemma write_schema_stops_witness :
  exists pre k post,
    _xml_write_schema (full_after 7) ascii_icu (cstr "LTFS") bare_tree bare_index 0%nat = Some (-1, 8%nat)
    /\ schema_calls ascii_icu (cstr "LTFS") 1 bare_index (XDir (common_of [SLASH] bare_root) []) = pre ++ k :: post
    /\ issued (full_after 7) pre 0%nat 7%nat.
Proof.
  destruct (write_schema_stops (full_after 7) ascii_icu (cstr "LTFS") bare_tree bare_index
              (common_of [SLASH] bare_root) [] 0%nat)
    as [(w' & E & _)|(pre & k & post & w1 & Hc & _ & Hi & _ & E)].
  - done.
  - by vm_compute.
  - split; [constructor|done].
  - exfalso. vm_compute in E. discriminate.
  - exists pre, k, post. assert (Hw : w1 = 7%nat).
    { vm_compute in E. by injection E. }
    subst w1. split_and!; [by vm_compute|exact Hc|exact Hi].
Defined.
