(* ===== verification/XmlReadOk.v ===== *)
(** * Reading a document that was written: files

    The parsers of [XmlRead] on the calls of [XmlTree]: extents, extended attributes
    and files. *)

From S2P Require Import Prelude Errors TapeOps TapeDev Coherency Extents ExtentsSpec Volume FsRaw FsRawSpec.
From S2P Require Import TimeInternal TimeSpec Base64 Pathname IndexCriteria FsTree XmlLib XmlRead XmlWrite XmlSpec.
From S2P Require Import XmlWp XmlValues XmlTree.
Open Scope Z_scope.
Open Scope ltfs_scope.

#[global] Instance parse_state_laws : ReaderLaws parse_state.
Proof. by split; [..|intros []]. Qed.

(** ** What can be stored

    The contents the parsers accept.  Unknown tags keep the name they had, which
    was none of those the parsers know. *)

Definition dentry_tags : list cstring :=
  map cstr ["name"; "length"; "readonly"; "modifytime"; "creationtime"; "accesstime"; "changetime";
            "extendedattributes"; "extentinfo"; "symlink"; "contents"; "fileuid"; "backuptime"].

Section ok.
Context (icu : icu_lib) (raw_name : cstring -> cstring) (bs : Z).

Definition xattr_ok (x : xattr_info) : Prop :=
  stored_name icu x.1 /\ x.1 <> []
  /\ match x.2 with
     | None => True
     | Some v => pathname_validate_xattr_value icu v = 0
                 \/ 0 < pathname_validate_xattr_value icu v /\ Forall is_byte v /\ v <> []
     end.

(** The root has no name of its own in the document. *)
Definition named (c : common) : Prop := stored_name icu (c_name c) /\ c_name c <> [].

Record common_ok (c : common) : Prop := {
  fine_creation : time_ok (c_creation c);
  fine_change : time_ok (c_change c);
  fine_modify : time_ok (c_modify c);
  fine_access : time_ok (c_access c);
  fine_backup : time_ok (c_backup c);
  fine_uid : 0 < c_uid c < 2 ^ 64;
  fine_xattrs : Forall xattr_ok (c_xattrs c);
  fine_tags : Forall (fun t => raw_name t ∉ dentry_tags) (c_tags c)
}.

Definition file_ok (len : Z) (link : option cstring) (extents : list extent_info) : Prop :=
  0 <= len < 2 ^ 63
  /\ match link with
     | Some t => t <> [] /\ extents = []
     | None => extents_wf bs extents /\ Forall (fun e => partition_ok (off_partition (start e))) extents
               /\ last_end 0 extents <= len
     end.

End ok.

(** ** Rules for the state of the parsers *)

Definition pstate (r : text_reader) (i : schema_index) (t : fs_state) : parse_state :=
  {| ps_reader := r; ps_index := i; ps_tree := t |}.

Lemma moved_pstate n l r i t : moved n l (pstate r i t) = pstate (set_place n l r) i t.
Proof. done. Qed.

(** The tree [t] with [n] at [d]. *)
Definition with_node (d : Z) (n : fsnode) (t : fs_state) : fs_state := set_heap (<[d := n]> (heap t)) t.

Lemma with_node_lookup d n t : heap (with_node d n t) !! d = Some n.
Proof. apply lookup_insert_eq. Qed.

Lemma with_node_twice d n n' t : with_node d n (with_node d n' t) = with_node d n t.
Proof. unfold with_node, set_heap. cbn. by rewrite insert_insert_eq. Qed.

Lemma ok_update_node d f n r i t (Q : unit -> parse_state -> Prop) :
  Q tt (pstate r i (with_node d (f n) t)) -> okp (update_node d f) (pstate r i (with_node d n t)) Q.
Proof.
  intros HQ. unfold okp, update_node, on_nodes, update. cbn [ps_tree pstate].
  rewrite with_node_lookup. split; [done|].
  match goal with |- Q _ ?s => replace s with (pstate r i (with_node d (f n) t)); [done|] end.
  unfold pstate, set_ps_tree. cbn. f_equal. symmetry. apply with_node_twice.
Qed.

Lemma ok_deref_node d n r i t (Q : fsnode -> parse_state -> Prop) :
  Q n (pstate r i (with_node d n t)) -> okp (on_nodes (deref d)) (pstate r i (with_node d n t)) Q.
Proof.
  intros HQ. unfold okp, on_nodes, deref. cbn [ps_tree pstate]. rewrite with_node_lookup. by split.
Qed.

Lemma ok_on_index f r i t (Q : unit -> parse_state -> Prop) :
  Q tt (pstate r (f i) t) -> okp (on_index f) (pstate r i t) Q.
Proof. intros HQ. apply ok_modify; [done|exact HQ]. Qed.

Lemma ok_version v r i t (Q : Z -> parse_state -> Prop) :
  idx_version (base i) = v -> Q v (pstate r i t) -> okp the_version (pstate r i t) Q.
Proof. intros <- HQ. by split. Qed.

Lemma ok_raise u d n r i t (Q : unit -> parse_state -> Prop) :
  u <= uid_number t -> Q tt (pstate r i (with_node d n t)) ->
  okp (raise_uid_number u) (pstate r i (with_node d n t)) Q.
Proof.
  intros Hu HQ. split; [done|]. cbn. by destruct (Z.gtb_spec u (uid_number t)); [lia|].
Qed.

(** Choices between tag names that are known. *)
Ltac dispatch :=
  repeat match goal with
  | |- context [@bool_decide ?P ?d] =>
      let v := eval vm_compute in (@bool_decide P d) in
      match v with true => idtac | false => idtac end;
      change (@bool_decide P d) with v; cbv iota beta
  end.

(** ** The top of a document *)

Lemma ok_document_start {S} `{ReaderLaws S} raw_name top indent version vmin vmax ver calls c (s : S) (Q : Z -> S -> Prop) :
  encoding (get_reader s) = Some (cstr "UTF-8") -> in_start_tag c = false ->
  reads raw_name [] (xmlTextWriterStartDocument (cstr "UTF-8") :: xmlTextWriterSetIndent 1
    :: xmlTextWriterSetIndentString indent
    :: Start top :: xmlTextWriterWriteAttribute (cstr "version") version :: c :: calls) (coming_nodes s) ->
  _xml_parse_version version = inr ver -> (ver <? vmin) || (ver >? vmax) = false ->
  (forall n l, reads raw_name [top] (c :: calls) l -> Q ver (moved n l s)) ->
  okp (_xml_parser_init top vmin vmax) s Q.
Proof.
  intros Henc Hc Hr Hver Hrange HQ.
  apply (reads_no_node_inv raw_name) in Hr as (b1 & l1 & E1 & Hb1 & Hr); [|done].
  apply (reads_no_node_inv raw_name) in Hr as (b2 & l2 & E2 & Hb2 & Hr); [|done].
  apply (reads_no_node_inv raw_name) in Hr as (b3 & l3 & E3 & Hb3 & Hr); [|done].
  apply (reads_coming raw_name []) in Hr.
  apply (coming_open raw_name [] top [(cstr "version", version)] c [] calls) in Hr
    as (junk & n & l' & E4 & Hj & Hn & Hr); [|done..].
  apply ok_bind, ok_or.
  assert (Hblank : forall b, Forall is_blank_node b -> Forall (skipped []) (map Some b)).
  { intros b Hb. apply Forall_map. eapply Forall_impl; [|exact Hb]. intros x Hx. by apply blank_skipped. }
  eapply (ok_next_tag [] ((map Some b1 ++ map Some b2 ++ map Some b3) ++ junk) n l').
  { rewrite E1, E2, E3, E4. by rewrite <- !app_assoc. }
  { repeat apply Forall_app_2; auto. }
  { right. apply Hn. }
  rewrite (start_name _ _ _ _ _ Hn). rewrite bool_decide_eq_true_2 by done. cbn [negb].
  apply ok_bind, ok_get. unfold moved at 1 2. rewrite get_put. cbn [encoding set_place here].
  rewrite bool_decide_eq_true_2 by exact Henc. cbn [negb].
  rewrite moved_here. unfold xmlTextReaderGetAttribute. rewrite (start_attributes _ _ _ _ _ Hn).
  cbn [List.find fst snd]. dispatch.
  cbn [snd]. rewrite Hver, Hrange. apply ok_ret. by apply HQ.
Qed.

(** Text of a required tag that is stored by a change of the state which leaves the
    reader alone *)
Lemma ok_text_into {S} `{ReaderLaws S} {A} raw_name i name (conv : cstring -> Z + A) (store : A -> xop S unit) f tr c x
    open calls (s : S) (Q : tracking -> S -> Prop) :
  inside raw_name name c [] open calls s -> c <> [] -> have_required_tags tr !! i = Some false ->
  conv c = inr x -> (forall s, store x s = Some (inr tt, f s)) ->
  (forall s, get_reader (f s) = get_reader s) ->
  (forall n n' l l', reads raw_name open calls l -> Q {| have_required_tags := <[i := true]> (have_required_tags tr);
                                 have_optional_tags := have_optional_tags tr |} (moved n l (f (moved n' l' s)))) ->
  okp (required_text i name conv store tr) s Q.
Proof.
  intros Hin Hc Hi Hx Hstore Hf HQ. apply ok_bind, ok_required; [done|].
  apply ok_bind. eapply ok_text; [exact Hin|done|]. intros n l Hcl.
  apply ok_bind, ok_or. apply (ok_sum _ x); [done|]. apply ok_bind.
  unfold okp at 1. rewrite Hstore. split; [unfold left, coming_nodes; by rewrite Hf|].
  apply ok_bind. eapply (ok_tag_end raw_name name open calls).
  { destruct Hcl as (e & l' & Hl & He & Hr). exists e, l'. unfold coming_nodes. rewrite Hf. done. }
  intros n' l' Hl'. apply ok_ret. by apply HQ.
Qed.

(** ** Extents in order *)

Lemma last_of_end l lo : last_end lo l = match list.last l with None => lo | Some e => fileoffset e + bytecount e end.
Proof.
  revert lo. induction l as [|e l IH]; intros lo; [done|]. cbn [last_end]. rewrite IH, last_cons. by destruct (list.last l).
Qed.

Lemma insert_at_end bs e l :
  Forall (extent_wf bs) l -> last_end 0 l <= fileoffset e ->
  insert_extent e (rev l) = Some (e :: rev l).
Proof.
  intros Hwf Hl. rewrite last_of_end in Hl. induction l as [|x l _] using rev_ind; [done|].
  rewrite last_snoc in Hl. apply Forall_app in Hwf as [_ Hx]. apply Forall_cons_1 in Hx as [Hx _].
  rewrite rev_unit. cbn [insert_extent]. rewrite (fileoffset_end_wf bs) by done.
  by rewrite (proj2 (Z.leb_le _ _)).
Qed.

Section read.
Context (icu : icu_lib) (raw_name : cstring -> cstring) (before : Z) (bs : Z).
Hypothesis Hbs : 0 < bs.
Abbreviation reads := (reads raw_name).
Abbreviation coming := (coming raw_name).
Abbreviation inside := (inside raw_name).
Abbreviation closing := (closing raw_name).

(** Text of a required tag, stored in the state [s'] that [store] makes. *)
Lemma ok_required_text {A} i name (conv : cstring -> Z + A) store tr c x open calls r ix t
    (Q : tracking -> parse_state -> Prop) :
  inside name c [] open calls (pstate r ix t) -> c <> [] -> have_required_tags tr !! i = Some false ->
  conv c = inr x ->
  (forall r', closing name open calls (pstate r' ix t) ->
    okp (store x) (pstate r' ix t) (fun _ s => exists ix' t', s = pstate r' ix' t' /\
      forall r'', reads open calls (ahead r'') ->
        Q {| have_required_tags := <[i := true]> (have_required_tags tr);
             have_optional_tags := have_optional_tags tr |} (pstate r'' ix' t'))) ->
  okp (required_text i name conv store tr) (pstate r ix t) Q.
Proof.
  intros Hin Hc Hi Hx Hstore. apply ok_bind, ok_required; [done|].
  apply ok_bind. eapply ok_text; [exact Hin|done|]. intros n l Hcl. rewrite moved_pstate in *.
  apply ok_bind, ok_or. apply (ok_sum _ x); [done|]. apply ok_bind.
  eapply ok_mono; [by apply Hstore|]. intros _ s (ix' & t' & -> & HQ). cbv beta.
  apply ok_bind. eapply (ok_tag_end raw_name name open calls).
  { destruct Hcl as (e & l' & Hl & He & Hr). by exists e, l'. }
  intros n' l' Hl'. rewrite moved_pstate. apply ok_ret. by apply HQ.
Qed.

(** The same where the value goes into a variable of the parser. *)
Lemma ok_value {A B} i name (conv : cstring -> Z + A) (f : tracking -> A -> B) tr c x open calls r ix t
    (Q : B -> parse_state -> Prop) :
  inside name c [] open calls (pstate r ix t) -> c <> [] -> have_required_tags tr !! i = Some false ->
  conv c = inr x ->
  (forall r'', reads open calls (ahead r'') ->
    Q (f {| have_required_tags := <[i := true]> (have_required_tags tr);
            have_optional_tags := have_optional_tags tr |} x) (pstate r'' ix t)) ->
  okp (let! tr := check_required_tag i tr in
       let! value := get_tag_text in
       let! x := or_minus_1 (of_sum (conv value)) in
       check_tag_end name >>! ret_x (f tr x)) (pstate r ix t) Q.
Proof.
  intros Hin Hc Hi Hx HQ. apply ok_bind, ok_required; [done|].
  apply ok_bind. eapply ok_text; [exact Hin|done|]. intros n l Hcl. rewrite moved_pstate in *.
  apply ok_bind, ok_or. apply (ok_sum _ x); [done|]. apply ok_bind.
  eapply (ok_tag_end raw_name name open calls); [exact Hcl|].
  intros n' l' Hl'. rewrite moved_pstate. apply ok_ret. by apply HQ.
Qed.

(** ** The loop over the tags *)

Lemma leaf_step {L} p body (x : L) t c open calls r i T Q :
  p <> cstr "#text" -> coming p open (Leaf t c :: calls) (ahead r) ->
  (forall r', inside t c [] open calls (pstate r' i T) ->
    okp (body t x) (pstate r' i T) (fun x' s' => okl p body x' s' Q)) ->
  okl p body x (pstate r i T) Q.
Proof. intros Hp Hc Hb. eapply okl_element; [done|exact Hc|]. intros n l. rewrite moved_pstate. apply Hb. Qed.

Lemma open_step {L} p body (x : L) t c open calls r i T Q :
  p <> cstr "#text" -> in_start_tag c = false -> reads open (Start t :: c :: calls) (ahead r) ->
  (forall r', opened raw_name 0 [] (t :: open) (c :: calls) (pstate r' i T) ->
    okp (body t x) (pstate r' i T) (fun x' s' => okl p body x' s' Q)) ->
  okl p body x (pstate r i T) Q.
Proof.
  intros Hp Hi Hc Hb. eapply (okl_open raw_name _ _ _ _ [] c _ calls); [done|done|exact (reads_coming _ _ _ _ _ Hc)|].
  intros n l. rewrite moved_pstate. apply Hb.
Qed.

Lemma close_step {L} p body (x : L) open calls r i T (Q : L -> parse_state -> Prop) :
  p <> cstr "#text" -> coming p (p :: open) (End' :: calls) (ahead r) ->
  (forall r', reads open calls (ahead r') -> Q x (pstate r' i T)) ->
  okl p body x (pstate r i T) Q.
Proof.
  intros Hp Hc HQ. eapply okl_close; [done|exact Hc|]. intros n l Hl. rewrite moved_pstate. by apply HQ.
Qed.

(** A tag with a number, in the loop whose body is [body]. *)
Tactic Notation "number_tag" ident(Hr) reference(body) :=
  eapply leaf_step; [done|apply reads_coming, Hr|]; clear Hr;
  let r := fresh "q" in let Hin := fresh "Hin" in
  intros r Hin; unfold body at 1; dispatch;
  eapply (ok_value _ _ _ (fun tr v => (tr, _)));
    [exact Hin|apply print_dec_not_empty; lia|done|apply parse_print; lia|];
  clear r Hin; intros r Hr.

(** ** Tape positions *)

Lemma ok_tapepos tag pos0 pos open calls r i T Q :
  tag <> cstr "#text" -> partition_ok (off_partition pos) -> 0 <= off_block pos < 2 ^ 64 ->
  opened raw_name 0 [] (tag :: open)
    (tail (tapepos_calls tag pos) ++ calls) (pstate r i T) ->
  (forall r', reads open calls (ahead r') -> Q pos (pstate r' i T)) ->
  okp (_xml_scan_tapepos tag pos0) (pstate r i T) Q.
Proof.
  intros Htag Hp Hb (_ & _ & Hr) HQ. unfold tapepos_calls in Hr. cbn [tail app] in Hr.
  apply ok_bind, ok_parse_tags.
  eapply leaf_step; [done|apply reads_coming, Hr|]. intros r1 Hin.
  unfold tapepos_tag at 1. dispatch.
  eapply (ok_value _ _ _ (fun tr p => (tr, set_pos_partition p pos0)));
    [exact Hin|by apply print_partition_not_empty|done|by apply parse_print_partition|].
  clear Hin. intros r2 Hr2. eapply leaf_step; [done|apply reads_coming, Hr2|]. intros r3 Hin.
  unfold tapepos_tag at 1. dispatch.
  eapply (ok_value _ _ _ (fun tr b => (tr, set_pos_block b _)));
    [exact Hin|apply print_dec_not_empty; lia|done|by apply parse_print|].
  intros r4 Hr4. eapply close_step; [done|apply reads_coming, Hr4|]. intros r5 Hr5.
  apply ok_bind, ok_guard; [done|]. apply ok_ret.
  unfold set_pos_block, set_pos_partition. cbn. destruct pos. by apply HQ.
Qed.

(** ** Extents *)

Lemma ok_one_extent e d n open calls r i T (Q : unit -> parse_state -> Prop) :
  extent_wf bs e -> partition_ok (off_partition (start e)) ->
  last_end 0 (extentlist (file n)) <= fileoffset e ->
  Forall (extent_wf bs) (extentlist (file n)) ->
  opened raw_name 0 [] (cstr "extent" :: open) (tail (extent_calls e) ++ calls)
    (pstate r i (with_node d n T)) ->
  (forall r', reads open calls (ahead r') ->
    Q tt (pstate r' i (with_node d (add_extent_to (Some bs) e (extentlist (file n) ++ [e]) n) T))) ->
  okp (_xml_parse_one_extent (Some bs) LTFS_INDEX_VERSION d) (pstate r i (with_node d n T)) Q.
Proof.
  intros He Hp Hlast Hwf (_ & _ & Hr) HQ. pose proof He as [H1 H2 H3 H4 H5 H6].
  assert (Hblock : off_block (start e) < 2 ^ 64).
  { pose proof (Z.div_pos (byteoffset e + bytecount e) bs ltac:(lia) Hbs). lia. }
  unfold extent_calls in Hr. cbn [tail app] in Hr. apply ok_bind, ok_parse_tags.
  number_tag Hr extent_tag.
  eapply leaf_step; [done|apply reads_coming, Hr|]. clear Hr. intros r2 Hin. unfold extent_tag at 1. dispatch.
  eapply (ok_value _ _ _ (fun tr v => (tr, _)));
    [exact Hin|by apply print_partition_not_empty|done|by apply parse_print_partition|]. clear Hin. intros r3 Hr.
  do 3 number_tag Hr extent_tag.
  eapply close_step; [done|apply reads_coming, Hr|]. clear Hr. intros r9 Hr.
  apply ok_bind, ok_deref_node. apply ok_bind, ok_ret. apply ok_bind, ok_guard; [done|].
  match goal with |- context [insert_extent ?x _] => replace x with e end.
  2:{ cbn. rewrite u32_small by done. by destruct e as [[]]. }
  rewrite (insert_at_end bs) by done. cbn [rev]. rewrite rev_involutive.
  apply ok_update_node. by apply HQ.
Qed.

(** What a file looks like with these extents. *)
Definition extents_added (es : list extent_info) (n : fsnode) : fsnode :=
  fold_left (fun n e => add_extent_to (Some bs) e (extentlist (file n) ++ [e]) n) es n.

Lemma ok_extents es d n open calls r i T (Q : unit -> parse_state -> Prop) :
  extents_wf bs (extentlist (file n) ++ es) ->
  Forall (fun e => partition_ok (off_partition (start e))) es -> es <> [] ->
  opened raw_name 0 [] (cstr "extentinfo" :: open) (flat_map extent_calls es ++ End' :: calls)
    (pstate r i (with_node d n T)) ->
  (forall r', reads open calls (ahead r') -> Q tt (pstate r' i (with_node d (extents_added es n) T))) ->
  okp (_xml_parse_extents (Some bs) LTFS_INDEX_VERSION d) (pstate r i (with_node d n T)) Q.
Proof.
  intros Hwf Hp _ (_ & _ & Hr) HQ. apply ok_parse_tags. cbn [pstate coming_nodes get_reader] in Hr.
  assert (Hr' : reads (cstr "extentinfo" :: open) (flat_map extent_calls es ++ End' :: calls) (ahead r)) by exact Hr.
  clear Hr. revert n r Hwf Hr' HQ. induction Hp as [|e es He Hp IH]; intros n r Hwf Hr HQ.
  - eapply close_step; [done|apply reads_coming, Hr|]. exact HQ.
  - cbn [flat_map] in Hr. rewrite <- app_assoc in Hr.
    assert (Hw : extent_wf bs e /\ last_end 0 (extentlist (file n)) <= fileoffset e
                 /\ Forall (extent_wf bs) (extentlist (file n))).
    { destruct Hwf as [Hw Hs]. apply Forall_app in Hw as [Hw1 Hw2]. apply Forall_cons_1 in Hw2 as [Hw2 _].
      apply sorted_from_app in Hs as [_ [Hs _]]. done. }
    destruct Hw as (Hw1 & Hw2 & Hw3).
    eapply open_step; [done| |exact Hr|]; [done|]. intros r1 Hin. unfold extents_tag at 1. dispatch.
    apply ok_bind, ok_not_empty; [apply Hin|]. apply ok_or. eapply ok_one_extent; [done..|exact Hin|].
    intros r2 Hr2. apply (IH _ r2).
    + cbn. by rewrite <- app_assoc.
    + exact Hr2.
    + exact HQ.
Qed.

(** ** Extended attributes *)

Lemma attribute_of k attrs n :
  node_attributes n = attrs ->
  xmlTextReaderGetAttribute k n
  = match List.find (fun a => bool_decide (a.1 = k)) attrs with Some a => Some a.2 | None => None end.
Proof. by intros <-. Qed.

Lemma ok_value_tag l v open calls r i T (Q : xattr_locals -> parse_state -> Prop) c attrs :
  have_required_tags (xl_tr l) !! 1%nat = Some false ->
  attrs = [] \/ attrs = [(cstr "type", cstr "base64")] ->
  xattr_value before (snd <$> head attrs) c = inr v ->
  inside (cstr "value") c attrs open calls (pstate r i T) ->
  (forall r', reads open calls (ahead r') ->
    Q {| xl_tr := {| have_required_tags := <[1%nat := true]> (have_required_tags (xl_tr l));
                     have_optional_tags := have_optional_tags (xl_tr l) |};
         xl_key := xl_key l; xl_value := Some v |} (pstate r' i T)) ->
  okp (one_xattr_tag icu before (cstr "value") l) (pstate r i T) Q.
Proof.
  intros Htr Ha Hv Hin HQ. pose proof Hin as (He & Hattr & _). unfold one_xattr_tag. dispatch.
  apply ok_bind, ok_required; [done|]. apply ok_bind, ok_node. rewrite (attribute_of _ _ _ Hattr).
  assert (Hty : match List.find (fun a => bool_decide (a.1 = cstr "type")) attrs with Some a => Some a.2 | None => None end
                = snd <$> head attrs) by (by destruct Ha as [-> | ->]).
  rewrite Hty. assert (Hok : bool_decide ((snd <$> head attrs) <> None /\ (snd <$> head attrs) <> Some (cstr "text")
                             /\ (snd <$> head attrs) <> Some (cstr "base64")) = false)
    by (by destruct Ha as [-> | ->]).
  rewrite Hok. apply ok_bind, ok_check_empty; [by rewrite He|]. rewrite He. cbv iota beta. change (0 =? 0) with true. cbv iota.
  apply ok_bind, ok_or. eapply ok_scan; [exact Hin| |].
  - intros n' l' Hc Hcl. apply ok_bind, (ok_sum _ v); [done|]. apply ok_bind.
    rewrite (proj2 (Z.ltb_lt _ _)) by (destruct c; cbn; [done|lia]).
    eapply ok_tag_end; [exact Hcl|]. intros n2 l2 Hr. apply ok_ret. by apply HQ.
  - intros n' l' -> Hr. apply ok_bind, (ok_sum _ v); [done|]. apply ok_bind, ok_ret, ok_ret. by apply HQ.
Qed.

Lemma ok_one_xattr x d n open calls r i T (Q : unit -> parse_state -> Prop) :
  xattr_ok icu x ->
  opened raw_name 0 [] (cstr "xattr" :: open) (tail (xattr_calls icu x) ++ calls)
    (pstate r i (with_node d n T)) ->
  (forall r', reads open calls (ahead r') ->
    Q tt (pstate r' i (with_node d (set_xattrs (xattrlist n ++ [x]) n) T))) ->
  okp (_xml_parse_one_xattr icu before d) (pstate r i (with_node d n T)) Q.
Proof.
  intros (Hkey & Hne & Hval) (_ & _ & Hr) HQ. unfold xattr_calls in Hr. cbn [tail app] in Hr.
  rewrite <- app_assoc in Hr. apply ok_bind, ok_parse_tags.
  eapply leaf_step; [done|apply reads_coming, Hr|]. clear Hr. intros r1 Hin. unfold one_xattr_tag at 1. dispatch.
  eapply (ok_value _ _ _ (fun tr key => {| xl_tr := tr; xl_key := Some key; xl_value := _ |}));
    [exact Hin|done|done|exact Hkey|].
  clear Hin. intros r2 Hr.
  assert (Hend : forall v r3, reads (cstr "xattr" :: open) (End' :: calls) (ahead r3) -> v = x.2 ->
    okl (cstr "xattr") (one_xattr_tag icu before)
      {| xl_tr := {| have_required_tags := [true; true]; have_optional_tags := [] |}; xl_key := Some x.1; xl_value := v |}
      (pstate r3 i (with_node d n T))
      (fun l s' => okp (check_required_tags (xl_tr l) >>!
         match xl_key l with
         | None => undefined
         | Some key => update_node d (fun n => set_xattrs (xattrlist n ++ [(key, xl_value l)]) n)
         end) s' Q)).
  { intros v r3 Hr3 ->. eapply close_step; [done|apply reads_coming, Hr3|]. intros r4 Hr4.
    apply ok_bind, ok_guard; [done|]. cbn. apply ok_update_node. destruct x as [k v]. by apply HQ. }
  destruct x as [k [v|]]; cbn [fst snd] in *.
  - unfold value_calls in Hr. destruct Hval as [Hval|(Hval & Hbytes & Hvne)].
    + rewrite Hval in Hr. cbn in Hr. eapply leaf_step; [done|apply reads_coming, Hr|]. intros r3 Hin.
      eapply ok_value_tag; [done|by left|apply parse_text|exact Hin|]. intros r4 Hr4. by apply Hend.
    + rewrite (proj2 (Z.gtb_lt _ _)) in Hr by done. cbn in Hr.
      eapply (okl_base64 raw_name _ _ _ _ [(cstr "type", cstr "base64")]); [done|apply reads_coming, Hr|].
      intros n' l' t Hd Ht Hin. rewrite moved_pstate in *.
      eapply ok_value_tag; [done|by right|by apply parse_base64|exact Hin|]. intros r4 Hr4. by apply Hend.
  - cbn in Hr. eapply (okl_empty raw_name _ _ _ _ []); [done|apply reads_coming, Hr|].
    intros n' l' (He & Ha & Hr'). rewrite moved_pstate in *. unfold one_xattr_tag at 1. dispatch.
    apply ok_bind, ok_required; [done|]. apply ok_bind, ok_node. rewrite (attribute_of _ _ _ Ha). cbn [List.find]. dispatch.
    apply ok_bind, ok_check_empty; [by rewrite He|]. rewrite He. apply ok_ret. by apply Hend.
Qed.

Lemma ok_xattrs xs d n open calls r i T (Q : unit -> parse_state -> Prop) :
  Forall (xattr_ok icu) xs ->
  opened raw_name 0 [] (cstr "extendedattributes" :: open) (flat_map (xattr_calls icu) xs ++ End' :: calls)
    (pstate r i (with_node d n T)) ->
  (forall r', reads open calls (ahead r') ->
    Q tt (pstate r' i (with_node d (set_xattrs (xattrlist n ++ xs) n) T))) ->
  okp (_xml_parse_xattrs icu before d) (pstate r i (with_node d n T)) Q.
Proof.
  intros Hx (_ & _ & Hr0) HQ. apply ok_parse_tags.
  assert (Hr : reads (cstr "extendedattributes" :: open) (flat_map (xattr_calls icu) xs ++ End' :: calls) (ahead r))
    by exact Hr0. clear Hr0.
  revert n r Hr HQ. induction Hx as [|x xs Hx Hxs IH]; intros n r Hr HQ.
  - eapply close_step; [done|apply reads_coming, Hr|]. intros r' Hr'. specialize (HQ r' Hr').
    rewrite app_nil_r in HQ. by destruct n.
  - cbn [flat_map] in Hr. rewrite <- app_assoc in Hr.
    eapply open_step; [done| |exact Hr|]; [done|]. intros r1 Hin. unfold xattrs_tag at 1. dispatch.
    apply ok_bind, ok_not_empty; [apply Hin|]. apply ok_or. eapply ok_one_xattr; [done|exact Hin|].
    intros r2 Hr2. apply (IH _ r2); [exact Hr2|]. cbn. by rewrite <- app_assoc.
Qed.

(** ** Unknown tags *)

Lemma ok_preserved t d n open calls r i T (Q : unit -> parse_state -> Prop) :
  at_raw raw_name t open calls (pstate r i (with_node d n T)) ->
  (forall r', reads open calls (ahead r') ->
    Q tt (pstate r' i (with_node d (set_tags (preserved_tags n ++ [t]) n) T))) ->
  okp (preserve_in_dentry d) (pstate r i (with_node d n T)) Q.
Proof.
  intros Hr HQ. apply ok_bind, ok_deref_node. apply ok_bind. eapply ok_preserve; [exact Hr|].
  intros n' l' Hl'. rewrite moved_pstate. apply ok_update_node. by apply HQ.
Qed.

(** The loop over unknown tags, at the end of an element. *)
Lemma tags_step {L} p (body : cstring -> L -> parser L) (x : L) tags d n open calls r i T Q :
  p <> cstr "#text" ->
  Forall (fun t => raw_name t ∉ dentry_tags) tags ->
  (forall t r' n', raw_name t ∉ dentry_tags ->
    okp (preserve_in_dentry d) (pstate r' i (with_node d n' T)) (fun _ s' => okl p body x s' Q) ->
    okp (body (raw_name t) x) (pstate r' i (with_node d n' T)) (fun x' s' => okl p body x' s' Q)) ->
  coming p (p :: open) (tag_calls tags ++ End' :: calls) (ahead r) ->
  (forall r', reads open calls (ahead r') ->
    Q x (pstate r' i (with_node d (set_tags (preserved_tags n ++ tags) n) T))) ->
  okl p body x (pstate r i (with_node d n T)) Q.
Proof.
  intros Hp Ht Hbody. revert n r. induction Ht as [|t tags Ht Hts IH]; intros n r Hr HQ.
  - eapply close_step; [done|exact Hr|]. intros r' Hr'. specialize (HQ r' Hr').
    rewrite app_nil_r in HQ. by destruct n.
  - eapply okl_raw; [done|exact Hr|]. intros n' l' Hraw. rewrite moved_pstate in *.
    apply Hbody; [done|]. eapply ok_preserved; [exact Hraw|]. intros r2 Hr2.
    apply IH; [apply reads_coming, Hr2|]. intros r3 Hr3. cbn. rewrite <- app_assoc. by apply HQ.
Qed.

Lemma closing_coming p t open calls s :
  t <> p -> closing t open calls s -> coming p open calls (coming_nodes s).
Proof.
  intros Hne (e & l & Hs & [He1 He2] & Hr). exists [Some e], l. rewrite Hs. split; [done|]. split; [|done].
  constructor; [|constructor]. exists e. rewrite He1, He2. done.
Qed.

End read.
