(* ===== verification/XmlFileOk.v ===== *)
(** * Reading a document that was written: files

    The tags that files and directories share, and the parser of a file on the calls
    that write one. *)

From S2P Require Import Prelude Errors TapeOps TapeDev Coherency Extents ExtentsSpec Volume FsRaw FsRawSpec.
From S2P Require Import TimeInternal TimeSpec Base64 Pathname IndexCriteria FsTree XmlLib XmlRead XmlWrite XmlSpec.
From S2P Require Import XmlWp XmlValues XmlTree XmlReadOk.
Open Scope Z_scope.
Open Scope ltfs_scope.

(** Tags that the parser of the element keeps for itself. *)
Ltac not_these H :=
  repeat match goal with
  | |- context [bool_decide (?name = cstr ?k)] =>
      rewrite (bool_decide_eq_false_2 (name = cstr k)) by (intros ->; discriminate H); cbv iota
  end.

Section file.
Context (icu : icu_lib) (raw_name : cstring -> cstring) (before : Z) (bs : Z).
Hypothesis Hbs : 0 < bs.
Abbreviation reads := (reads raw_name).
Abbreviation coming := (coming raw_name).
Abbreviation inside := (inside raw_name).
Abbreviation closing := (closing raw_name).
Abbreviation extents_added := (extents_added bs).

(** ** Files *)

(** A dentry as the parsers leave it; [psn] is set when its directory is complete. *)
Definition node_of (is_dir : bool) (par : option Z) (psn : option cstring) (inode links : Z)
    (kids : name_list) (f : dentry) (blocks : Z) (link : option cstring) (c : common) : fsnode :=
  {| ino := inode; uid := c_uid c; isdir := is_dir;
     isslink := match link with Some _ => true | None => false end; target := link;
     out_of_sync := false; file := f; used_blocks := blocks; name := Some (c_name c);
     platform_safe_name := psn; parent := par; readonly := c_readonly c;
     creation_time := c_creation c; backup_time := c_backup c; numhandles := 1; link_count := links;
     deleted := false; matches_name_criteria := false; need_update_time := false; child_list := kids;
     xattrlist := c_xattrs c; preserved_tags := c_tags c |}.

Definition file_of (es : list extent_info) (real len : Z) (c : common) : dentry :=
  {| extentlist := es; realsize := real; size := len; extents_dirty := false;
     modify_time := c_modify c; access_time := c_access c; change_time := c_change c |}.

Definition blocks_of_extents (es : list extent_info) : Z :=
  fold_left (fun u e => u64 (u + extent_blocks bs e)) es 0.

Lemma extents_added_ok es n :
  extents_added es n
  = set_used_blocks (fold_left (fun u e => u64 (u + extent_blocks bs e)) es (used_blocks n))
      (on_file (fun f => set_contents (extentlist f ++ es) (fold_left (fun x e => u64 (x + bytecount e)) es (realsize f))
                           (size f) (extents_dirty f) (modify_time f) (change_time f) f) n).
Proof.
  revert n. induction es as [|e es IH]; intros n.
  - cbn. destruct n as [? ? ? ? ? ? f]; cbn. unfold set_used_blocks, on_file, set_file. cbn.
    f_equal. rewrite app_nil_r. by destruct f.
  - change (extents_added (e :: es) n) with (extents_added es (add_extent_to (Some bs) e (extentlist (file n) ++ [e]) n)).
    rewrite IH. cbn.
    unfold set_used_blocks, on_file, set_file. cbn. by rewrite <- app_assoc.
Qed.

Lemma sum_of_total es x :
  Forall (extent_wf bs) es -> 0 <= x -> x + total es < 2 ^ 64 ->
  fold_left (fun x e => u64 (x + bytecount e)) es x = x + total es.
Proof.
  intros Hwf. revert x. induction Hwf as [|e es He Hes IH]; intros x Hx Ht; cbn in *; [lia|].
  pose proof (wf_bytecount _ _ He).
  assert (Hpos : 0 <= total es).
  { clear -Hes. induction Hes as [|e es He Hes IH]; cbn; [lia|]. pose proof (wf_bytecount _ _ He). lia. }
  rewrite u64_small by lia. rewrite IH by lia. lia.
Qed.

(** The dentry of a file that was read. *)
Definition file_node (p inode : Z) (psn : option cstring) (c : common) (len : Z) (link : option cstring)
    (es : list extent_info) : fsnode :=
  node_of false (Some p) psn inode 1 [] (file_of es (total es) len c) (blocks_of_extents es) link c.

(** The counters when a dentry has been made. *)
Definition bump_counters (is_dir : bool) (t : fs_state) : fs_state :=
  let t := set_counters (fresh t + 1) (u64 (inode_number t + 1)) (uid_number t) t in
  if is_dir then t else fs_increment_file_count t.

Lemma ok_alloc_file p pn r i T (Q : option Z -> parse_state -> Prop) :
  heap T !! p = Some pn -> heap T !! fresh T = None ->
  Q (Some (fresh T)) (pstate r i (with_node (fresh T)
     (set_link_count 1 (new_dentry (Some p) None None false false (u64 (inode_number T + 1)) 1))
     (bump_counters false T))) ->
  okp (on_nodes (fs_allocate_dentry (Some p) None None false false false)) (pstate r i T) Q.
Proof.
  intros Hp Hf HQ. assert (Hne : fresh T <> p) by (intros E; congruence).
  unfold okp, on_nodes, fs_allocate_dentry, link_to_parent, malloc, deref, update, bind_op, update_state, get_state, ret_op.
  cbn -[lookup insert new_dentry]. rewrite lookup_insert_eq. cbn -[lookup insert new_dentry].
  rewrite (lookup_insert_ne _ _ _ _ Hne), Hp.
  cbn -[lookup insert]. rewrite lookup_insert_eq. cbn -[lookup insert]. split; [done|].
  unfold pstate, with_node, bump_counters, fs_increment_file_count, set_counts, set_counters, set_heap in HQ.
  cbn -[lookup insert] in HQ. unfold set_ps_tree, fs_increment_file_count, set_counts. cbn -[lookup insert].
  rewrite insert_insert_eq. exact HQ.
Qed.

Lemma readable_ok es len :
  extents_wf bs es -> last_end 0 es <= len ->
  match list.last es with None => true | Some xt_last => fileoffset_end xt_last <=? len end = true.
Proof.
  intros [Hwf _] Hl. rewrite last_of_end in Hl. destruct (list.last es) as [e|] eqn:E; [|done].
  apply last_Some in E as [l' ->]. apply Forall_app in Hwf as [_ He]. apply Forall_cons_1 in He as [He _].
  rewrite (fileoffset_end_wf bs) by done. by apply Z.leb_le.
Qed.

Lemma tag_unknown t k : raw_name t ∉ dentry_tags -> k ∈ dentry_tags -> bool_decide (raw_name t = k) = false.
Proof. intros Ht Hk. apply bool_decide_eq_false_2. congruence. Qed.

Lemma unknown_dentry_tag version ro mo cr ac ch d name tr :
  name ∉ dentry_tags -> dentry_tag icu before version ro mo cr ac ch d name tr = None.
Proof.
  intros Hn. unfold dentry_tag.
  assert (Hk : forall k, k ∈ dentry_tags -> bool_decide (name = k) = false)
    by (intros k Hk; apply bool_decide_eq_false_2; congruence).
  repeat (rewrite Hk by (apply (bool_decide_unpack _); vm_compute; exact I)). by rewrite !andb_false_r.
Qed.

(** ** The tags of files and directories

    The body of the loop hands these tags to [dentry_tag]; the locals but for the
    tracking arrays are in [mk]. *)

Section common.
Context {L : Type} (p : cstring) (body : cstring -> L -> parser L) (mk : tracking -> L)
        (ro mo cr ac ch : nat) (d : Z) (i : schema_index) (T : fs_state).
Hypothesis Hp : p <> cstr "#text".
Hypothesis Hbody : forall name tr m r n Q,
  dentry_tag icu before LTFS_INDEX_VERSION ro mo cr ac ch d name tr = Some m -> name ∈ dentry_tags ->
  okp m (pstate r i (with_node d n T)) (fun tr' s' => Q (mk tr') s') ->
  okp (body name (mk tr)) (pstate r i (with_node d n T)) Q.

(** The required tag [k] was seen. *)
Definition seen (k : nat) (tr : tracking) : tracking :=
  {| have_required_tags := <[k := true]> (have_required_tags tr);
     have_optional_tags := have_optional_tags tr |}.
Definition seen_optional (k : nat) (tr : tracking) : tracking :=
  {| have_required_tags := have_required_tags tr;
     have_optional_tags := <[k := true]> (have_optional_tags tr) |}.

Lemma dentry_leaf {A} name k (conv : cstring -> Z + A) store f c x open calls r n tr Q :
  (forall tr, dentry_tag icu before LTFS_INDEX_VERSION ro mo cr ac ch d name tr
              = Some (required_text k name conv store tr)) ->
  name ∈ dentry_tags -> have_required_tags tr !! k = Some false -> c <> [] -> conv c = inr x ->
  (forall r Q, Q tt (pstate r i (with_node d (f n) T)) -> okp (store x) (pstate r i (with_node d n T)) Q) ->
  coming p open (Leaf name c :: calls) (ahead r) ->
  (forall r', reads open calls (ahead r') ->
    okl p body (mk (seen k tr)) (pstate r' i (with_node d (f n) T)) Q) ->
  okl p body (mk tr) (pstate r i (with_node d n T)) Q.
Proof.
  intros Htag Hname Htr Hc Hx Hstore Hr Hk. eapply leaf_step; [done|exact Hr|]. intros r1 Hin.
  eapply Hbody; [apply Htag|done|]. eapply ok_required_text; [exact Hin|done|done|exact Hx|].
  intros r2 _. apply Hstore. eexists _, _. split; [reflexivity|]. intros r3 Hr3. by apply Hk.
Qed.

(** What [time_calls] and their neighbours leave. *)
Definition with_common (c : common) (n : fsnode) : fsnode :=
  set_uid (c_uid c) (set_backup_time (c_backup c) (on_file (set_access_time (c_access c))
    (on_file (set_modify_time (c_modify c)) (on_file (set_change_time (c_change c))
      (set_creation_time (c_creation c) (set_readonly_flag (c_readonly c) n)))))).

Definition seen_common (tr : tracking) : tracking :=
  seen 7 (seen 8 (seen ac (seen mo (seen ch (seen cr (seen ro tr)))))).

Lemma ok_common c open calls r n tr Q :
  common_ok icu raw_name c -> c_uid c <= uid_number T ->
  have_required_tags tr !! ro = Some false -> have_required_tags tr !! cr = Some false ->
  have_required_tags tr !! ch = Some false -> have_required_tags tr !! mo = Some false ->
  have_required_tags tr !! ac = Some false -> have_required_tags tr !! 8%nat = Some false ->
  have_required_tags tr !! 7%nat = Some false -> NoDup [ro; cr; ch; mo; ac; 8; 7]%nat ->
  reads open (Leaf (cstr "readonly") (print_bool (c_readonly c)) :: time_calls c
              ++ Leaf UID_TAGNAME (print_dec (c_uid c)) :: calls) (ahead r) ->
  (forall r', reads open calls (ahead r') ->
    okl p body (mk (seen_common tr)) (pstate r' i (with_node d (with_common c n) T)) Q) ->
  okl p body (mk tr) (pstate r i (with_node d n T)) Q.
Proof.
  intros Hc Huid H1 H2 H3 H4 H5 H6 H7 Hnd Hr HQ. destruct Hc as [Hcr Hch Hmo Hac Hba Hu _ _].
  rewrite !list.NoDup_cons, !not_elem_of_cons in Hnd. destruct_and!.
  assert (Hs : forall k tr, have_required_tags tr !! k = Some false ->
    forall j, j <> k -> have_required_tags (seen j tr) !! k = Some false).
  { intros k tr' Hk j Hj. cbn. by rewrite list_lookup_insert_ne. }
  unfold time_calls in Hr. cbn [app] in Hr.
  assert (Htime : forall name k t f open calls r n tr,
    (forall tr, dentry_tag icu before LTFS_INDEX_VERSION ro mo cr ac ch d name tr
      = Some (required_text k name parse_time_value (fun t => update_node d (f t)) tr)) ->
    name ∈ dentry_tags -> have_required_tags tr !! k = Some false -> time_ok t ->
    reads open (Leaf name (print_time t) :: calls) (ahead r) ->
    (forall r', reads open calls (ahead r') ->
      okl p body (mk (seen k tr)) (pstate r' i (with_node d (f t n) T)) Q) ->
    okl p body (mk tr) (pstate r i (with_node d n T)) Q).
  { intros name k t f op cs r0 n0 tr0 Htag Hname Htr Ht Hr0 Hk.
    eapply (dentry_leaf name k parse_time_value _ (f t)); [exact Htag|done|done|by apply print_time_not_empty
      |by apply parse_print_time|by intros; apply ok_update_node|by apply reads_coming|exact Hk]. }
  assert (Hin : forall name, bool_decide (name ∈ dentry_tags) = true -> name ∈ dentry_tags)
    by (intros name; apply bool_decide_eq_true_1).
  eapply (dentry_leaf (cstr "readonly") ro xml_parse_bool _ (set_readonly_flag (c_readonly c)));
    [intros; reflexivity|by apply Hin|done|apply print_bool_not_empty|apply parse_print_bool
    |by intros; apply ok_update_node|apply reads_coming, Hr|].
  clear Hr. intros r1 Hr.
  eapply (Htime (cstr "creationtime") cr (c_creation c) set_creation_time); [intros; reflexivity|by apply Hin|repeat apply Hs; done|done|exact Hr|]. clear Hr. intros r2 Hr.
  eapply (Htime (cstr "changetime") ch (c_change c) (fun t => on_file (set_change_time t))); [intros; reflexivity|by apply Hin|repeat apply Hs; done|done|exact Hr|]. clear Hr. intros r3 Hr.
  eapply (Htime (cstr "modifytime") mo (c_modify c) (fun t => on_file (set_modify_time t))); [intros; reflexivity|by apply Hin|repeat apply Hs; done|done|exact Hr|]. clear Hr. intros r4 Hr.
  eapply (Htime (cstr "accesstime") ac (c_access c) (fun t => on_file (set_access_time t))); [intros; reflexivity|by apply Hin|repeat apply Hs; done|done|exact Hr|]. clear Hr. intros r5 Hr.
  eapply (Htime BACKUPTIME_TAGNAME 8%nat (c_backup c) set_backup_time); [intros; reflexivity|by apply Hin|repeat apply Hs; done|done|exact Hr|]. clear Hr. intros r6 Hr.
  eapply (dentry_leaf UID_TAGNAME 7 xml_parse_ull _ (set_uid (c_uid c)));
    [intros; reflexivity|by apply Hin|repeat apply Hs; done|by apply print_dec_not_empty, Z.lt_le_incl|by apply parse_print; split; [apply Z.lt_le_incl|]
    | |apply reads_coming, Hr|exact HQ].
  intros r7 Q7 HQ7. by apply ok_bind, ok_update_node, ok_raise.
Qed.

(** *** Extended attributes *)

Lemma ok_xattrs_tag xs open calls r n tr Q :
  Forall (xattr_ok icu) xs -> have_optional_tags tr !! 0%nat = Some false -> xattrlist n = [] ->
  reads open (xattrs_calls icu xs ++ calls) (ahead r) ->
  (forall r' b, reads open calls (ahead r') ->
    okl p body (mk (if b : bool then seen_optional 0 tr else tr)) (pstate r' i (with_node d (set_xattrs xs n) T)) Q) ->
  okl p body (mk tr) (pstate r i (with_node d n T)) Q.
Proof.
  intros Hxs Htr Hn Hr HQ. unfold xattrs_calls in Hr. case_bool_decide as He.
  - subst. specialize (HQ r false Hr). rewrite <- Hn in HQ. by destruct n.
  - cbn [app] in Hr. rewrite <- app_assoc in Hr.
    destruct xs as [|x xs]; [done|]. eapply open_step; [done| |exact Hr|]; [done|].
    intros r1 Ho. eapply Hbody; [reflexivity|by apply (bool_decide_eq_true_1 _)|].
    apply ok_bind, ok_optional; [done|]. destruct Ho as (Hempty & Hattr & Hr1).
    apply ok_bind, ok_check_empty; [by rewrite Hempty|]. rewrite Hempty. cbn [Z.eqb].
    apply ok_bind, ok_or. eapply (ok_xattrs icu raw_name before (x :: xs) d n open calls); [done|exact (conj Hempty (conj Hattr Hr1))|].
    intros r2 Hr2. apply ok_ret. rewrite Hn. by apply (HQ r2 true).
Qed.

(** *** The end of the element *)

Lemma ok_tags_end tags open calls r n l Q :
  Forall (fun t => raw_name t ∉ dentry_tags) tags ->
  (forall t r' n', raw_name t ∉ dentry_tags ->
    okp (preserve_in_dentry d) (pstate r' i (with_node d n' T)) (fun _ s' => okl p body l s' Q) ->
    okp (body (raw_name t) l) (pstate r' i (with_node d n' T)) (fun x' s' => okl p body x' s' Q)) ->
  preserved_tags n = [] ->
  coming p (p :: open) (tag_calls tags ++ End' :: calls) (ahead r) ->
  (forall r', reads open calls (ahead r') -> Q l (pstate r' i (with_node d (set_tags tags n) T))) ->
  okl p body l (pstate r i (with_node d n T)) Q.
Proof.
  intros Ht Hb Hn Hr HQ. eapply (tags_step raw_name p body l tags); [done|exact Ht|exact Hb|exact Hr|].
  intros r' Hr'. rewrite Hn. by apply HQ.
Qed.

End common.

(** ** Files *)

Definition file_locals_of (nm : cstring) (d : Z) (link ext : bool) (tr : tracking) : file_locals :=
  {| fl_tr := tr; fl_entry := Some (nm, d); symlink_flag := link; extent_flag := ext |}.

Lemma file_body nm d link ext name tr m r i n T Q :
  idx_version (base i) = LTFS_INDEX_VERSION ->
  dentry_tag icu before LTFS_INDEX_VERSION 2 3 4 5 6 d name tr = Some m ->
  okp m (pstate r i (with_node d n T)) (fun tr' s' => Q (file_locals_of nm d link ext tr') s') ->
  okp (file_tag icu before (Some bs) d name (file_locals_of nm d link ext tr)) (pstate r i (with_node d n T)) Q.
Proof.
  intros Hver Hm HQ. unfold file_tag. apply ok_bind; eapply ok_version; [exact Hver|]. not_these Hm.
  cbn [fl_tr file_locals_of]. rewrite Hm. apply ok_bind. eapply ok_mono; [exact HQ|]. intros tr' s' Hs. by apply ok_ret.
Qed.

Lemma file_unknown l d name r i n T Q :
  idx_version (base i) = LTFS_INDEX_VERSION -> name ∉ dentry_tags ->
  okp (preserve_in_dentry d) (pstate r i (with_node d n T)) (fun _ s' => Q l s') ->
  okp (file_tag icu before (Some bs) d name l) (pstate r i (with_node d n T)) Q.
Proof.
  intros Hver Hm HQ. unfold file_tag. apply ok_bind; eapply ok_version; [exact Hver|].
  assert (Hk : forall k, k ∈ dentry_tags -> bool_decide (name = k) = false)
    by (intros k Hk; apply bool_decide_eq_false_2; congruence).
  repeat (rewrite (Hk (cstr _)) by (by apply (bool_decide_eq_true_1 _)); cbv iota).
  rewrite unknown_dentry_tag by done. apply ok_bind. eapply ok_mono; [exact HQ|]. intros [] s' Hs. by apply ok_ret.
Qed.

(** The link or the extents. *)
Lemma ok_contents nm d link es tags open calls r i n T tr Q :
  idx_version (base i) = LTFS_INDEX_VERSION ->
  match link with
  | Some t => t <> [] /\ es = []
  | None => extents_wf bs es /\ Forall (fun e => partition_ok (off_partition (start e))) es
  end ->
  have_optional_tags tr !! 1%nat = Some false -> have_optional_tags tr !! 2%nat = Some false ->
  extentlist (file n) = [] -> target n = None -> isslink n = false ->
  reads (cstr "file" :: open) (contents_calls link es ++ tag_calls tags ++ End' :: calls) (ahead r) ->
  (forall r' ext tr', coming (cstr "file") (cstr "file" :: open) (tag_calls tags ++ End' :: calls) (ahead r') ->
    have_required_tags tr' = have_required_tags tr ->
    let is_link := match link with Some _ => true | None => false end in
    is_link && ext = false ->
    okl (cstr "file") (file_tag icu before (Some bs) d)
      (file_locals_of nm d is_link ext tr')
      (pstate r' i (with_node d
        (match link with Some t => set_link_target t n | None => extents_added es n end) T)) Q) ->
  okl (cstr "file") (file_tag icu before (Some bs) d) (file_locals_of nm d false false tr)
    (pstate r i (with_node d n T)) Q.
Proof.
  intros Hver Hl Htr1 Htr2 He Htg Hsl Hr HQ. unfold contents_calls in Hr. destruct link as [t|].
  - destruct Hl as [Ht ->]. cbn [app] in Hr. eapply leaf_step; [done|apply reads_coming, Hr|].
    intros r1 Hin. unfold file_tag at 1. apply ok_bind; eapply ok_version; [exact Hver|]. dispatch.
    apply ok_bind, ok_optional; [done|]. apply ok_bind. eapply ok_text; [exact Hin|done|].
    intros n1 l1 Hcl. rewrite moved_pstate in *. apply ok_bind, ok_update_node, ok_ret.
    cbn zeta in HQ. apply HQ; [|done..].
    by apply (closing_coming raw_name _ (cstr "symlink") _ _ (pstate (set_place n1 l1 r1) i (with_node d n T))).
  - destruct Hl as [Hwf Hpart]. case_bool_decide as Hes.
    + subst. apply (HQ r false tr); [apply reads_coming, Hr|done..].
    + cbn [app] in Hr. rewrite <- app_assoc in Hr. destruct es as [|e es]; [done|].
      eapply open_step; [done| |exact Hr|]; [done|].
      intros r1 (Hempty & Hattr & Hr1). unfold file_tag at 1. apply ok_bind; eapply ok_version; [exact Hver|]. dispatch.
      apply ok_bind, ok_optional; [done|].
      apply ok_bind, ok_check_empty; [by rewrite Hempty|]. rewrite Hempty. cbn [Z.eqb].
      apply ok_bind, ok_or. eapply (ok_extents raw_name bs Hbs (e :: es) d n _ (tag_calls tags ++ End' :: calls)); [by rewrite He|done..|exact (conj Hempty (conj Hattr Hr1))|].
      intros r2 Hr2. apply ok_ret. apply HQ; [by apply reads_coming|done..].
Qed.

(** All required tags were there. *)
Definition all_seen (tr : tracking) : Prop := have_required_tags tr = replicate 9 true.

Lemma ok_file_tags p pn c len link es open calls r i T (Q : file_locals -> parse_state -> Prop) :
  idx_version (base i) = LTFS_INDEX_VERSION ->
  named icu c -> common_ok icu raw_name c -> file_ok bs len link es -> c_uid c <= uid_number T ->
  let d := fresh T in let inode := u64 (inode_number T + 1) in
  let T' := bump_counters false T in
  heap T !! p = Some pn -> heap T !! fresh T = None ->
  reads (cstr "file" :: open) (tail (file_calls icu c len link es) ++ calls) (ahead r) ->
  (forall r' tr ext, reads open calls (ahead r') -> all_seen tr ->
    let is_link := match link with Some _ => true | None => false end in
    is_link && ext = false ->
    Q (file_locals_of (c_name c) d is_link ext tr)
      (pstate r' i (with_node d (file_node p inode None c len link es) T'))) ->
  okl (cstr "file") (file_tag icu before (Some bs) d)
    {| fl_tr := declare_tracking_arrays 9 3; fl_entry := None; symlink_flag := false; extent_flag := false |}
    (pstate r i (with_node d (set_link_count 1 (new_dentry (Some p) None None false false inode 1)) T')) Q.
Proof.
  intros Hver Hname Hc [Hlen Hfile] Huid d inode T' Hp Hfresh Hr HQ. destruct Hname as [Hnm Hne]. pose proof Hc as [_ _ _ _ _ _ Hxs Hts].
  unfold file_calls in Hr. cbn [tail app] in Hr. rewrite <- !app_assoc in Hr. cbn [app] in Hr. rewrite <- !app_assoc in Hr.
  eapply leaf_step; [done|apply reads_coming, Hr|]. clear Hr. intros r1 Hin.
  unfold file_tag at 1. apply ok_bind; eapply ok_version; [exact Hver|]. dispatch.
  apply ok_bind, ok_required; [done|]. apply ok_bind. eapply ok_text; [exact Hin|done|].
  intros n1 l1 Hcl. rewrite moved_pstate in *. apply ok_bind, ok_or, (ok_sum _ (c_name c)); [exact Hnm|].
  apply ok_bind, ok_update_node. apply ok_bind. eapply ok_tag_end; [exact Hcl|]. intros n2 l2 Hr.
  rewrite moved_pstate in *. apply ok_ret. clear Hin Hcl.
  eapply leaf_step; [done|apply reads_coming, Hr|]. clear Hr. intros r2 Hin.
  unfold file_tag at 1. apply ok_bind; eapply ok_version; [exact Hver|]. dispatch.
  apply ok_bind. eapply ok_required_text; [exact Hin|apply print_dec_not_empty; lia|done|apply parse_print; lia|].
  intros r3 Hcl. eapply ok_update_node; eexists _, _; (split; [reflexivity|]). clear Hin Hcl. intros r4 Hr.
  apply ok_ret.
  match goal with |- okl _ _ _ (pstate _ _ (with_node _ ?n _)) _ => set (n0 := n) end.
  pose (tr0 := {| have_required_tags := [true; true; false; false; false; false; false; false; false];
                  have_optional_tags := [false; false; false] |}).
  match goal with |- okl _ _ ?l _ _ => change l with (file_locals_of (c_name c) d false false tr0) end.
  eapply (ok_common (cstr "file") (file_tag icu before (Some bs) d) (file_locals_of (c_name c) d false false) 2 3 4 5 6);
    [done|intros; by eapply file_body|done|done|done..| |exact Hr|].
  { by apply (bool_decide_eq_true_1 _). }
  clear Hr r1 r2 r3 r4. intros r1 Hr.
  eapply (ok_xattrs_tag (cstr "file") (file_tag icu before (Some bs) d) (file_locals_of (c_name c) d false false) 2 3 4 5 6);
    [done|intros; by eapply file_body|exact Hxs|done|done|exact Hr|].
  clear Hr r1. intros r1 b Hr.
  eapply (ok_contents _ _ link es (c_tags c)); [done|by destruct link; [|destruct Hfile as (?&?&?)]|by destruct b..|exact Hr|].
  clear Hr r1. intros r1 ext tr' Hr Htr'. cbn zeta. intros Hboth.
  eapply (ok_tags_end (cstr "file") (file_tag icu before (Some bs) d)); [done|exact Hts| | |exact Hr|].
  - intros t r' n' Ht Hok. by apply file_unknown.
  - destruct link; [done|by rewrite extents_added_ok].
  - intros r' Hr'.
    assert (Hn : set_tags (c_tags c) (match link with
                   | Some t => set_link_target t (set_xattrs (c_xattrs c) (with_common c n0))
                   | None => extents_added es (set_xattrs (c_xattrs c) (with_common c n0)) end)
                 = file_node p inode None c len link es).
    { destruct link as [t|]; [by destruct Hfile as [_ ->]; destruct c|].
      destruct Hfile as (Hwf & _ & Hlast). rewrite extents_added_ok. pose proof (total_range bs es Hwf) as Ht.
      unfold file_node, file_of. replace (total es) with (0 + total es) by lia.
      rewrite <- (sum_of_total es 0 (proj1 Hwf)) by lia.
      by destruct c. }
    rewrite Hn. apply (HQ r' tr' ext Hr'); [|done]. unfold all_seen. rewrite Htr'. by destruct b.
Qed.

Lemma ok_parse_file p pn c len link es open calls r i T (Q : cstring * Z -> parse_state -> Prop) :
  idx_version (base i) = LTFS_INDEX_VERSION ->
  heap T !! p = Some pn -> heap T !! fresh T = None ->
  named icu c -> common_ok icu raw_name c -> file_ok bs len link es -> c_uid c <= uid_number T ->
  opened raw_name 0 [] (cstr "file" :: open) (tail (file_calls icu c len link es) ++ calls) (pstate r i T) ->
  (forall r', reads open calls (ahead r') ->
    Q (c_name c, fresh T) (pstate r' i (with_node (fresh T)
      (file_node p (u64 (inode_number T + 1)) None c len link es) (bump_counters false T)))) ->
  okp (_xml_parse_file icu before (Some bs) p) (pstate r i T) Q.
Proof.
  intros Hver Hp Hfresh Hname Hc Hfile Huid (_ & _ & Hr) HQ. pose proof Hfile as [Hlen Hcontents].
  apply ok_bind. eapply ok_alloc_file; [exact Hp|done|]. apply ok_bind, ok_parse_tags.
  eapply ok_file_tags; [done|exact Hname|done|exact Hfile|done|exact Hp|done|exact Hr|].
  intros r' tr ext Hr' Htr is_link Hboth. apply ok_bind; eapply ok_version; [done|].
  apply ok_bind, ok_ret, ok_bind, ok_ret, ok_bind, ok_guard; [by cbn; rewrite Htr|].
  apply ok_bind, ok_deref_node.
  assert (Hfit : extents_fit (file_node p (u64 (inode_number T + 1)) None c len link es) = true).
  { unfold extents_fit. cbn. destruct link as [t|]; [by destruct Hcontents as [_ ->]|].
    destruct Hcontents as (Hwf & _ & Hlast). by apply readable_ok. }
  rewrite Hfit. cbn [negb uid file_node node_of symlink_flag extent_flag file_locals_of fl_entry].
  rewrite (proj2 (Z.eqb_neq _ _)) by (destruct (fine_uid _ _ _ Hc); lia).
  subst is_link. rewrite Hboth. apply ok_bind, ok_ret, ok_ret. by apply HQ.
Qed.

End file.
