(* ===== verification/XmlDirOk.v ===== *)
(** * Reading a document that was written: directories

    What the parser of a directory leaves: the dentries of what is below it in one
    piece of memory, in the order of the document ([placed]), the rest of the tree as
    it was ([grown]). *)

From S2P Require Import Prelude Errors TapeOps TapeDev Coherency Extents ExtentsSpec Volume FsRaw FsRawSpec.
From S2P Require Import TimeInternal TimeSpec Base64 Pathname IndexCriteria FsTree FsGraph XmlLib XmlRead XmlWrite XmlSpec.
From S2P Require Import XmlWp XmlValues XmlTree XmlReadOk XmlFileOk.
Open Scope Z_scope.
Open Scope ltfs_scope.

(** ** Where the dentries are *)

Definition tree_name (t : xtree) : cstring := c_name (tree_common t).

Definition is_directory (t : xtree) : bool := match t with XFile _ _ _ _ => false | XDir _ _ => true end.

Definition subdir_count (ts : list xtree) : Z := Z.of_nat (length (filter (fun t => is_directory t = true) ts)).

(** The entries of a directory whose dentries start at [d]. *)
Fixpoint entries (d : Z) (ts : list xtree) : name_list :=
  match ts with
  | [] => []
  | t :: ts => (tree_name t, d) :: entries (d + Z.of_nat (nodes t)) ts
  end.

Definition sum_Z (l : list Z) : Z := fold_right Z.add 0 l.

Section placed.
Context (bs : Z).

Definition dir_node (par : option Z) (psn : option cstring) (inode d : Z) (c : common) (ts : list xtree) : fsnode :=
  node_of true par psn inode (u32 (2 + subdir_count ts)) (rev (entries (d + 1) ts)) (file_of [] 0 0 c) 0 None c.

(** [t] is at [d], below [p], with what is below it behind it. *)
Inductive placed (h : gmap Z fsnode) : Z -> option cstring -> Z -> xtree -> Prop :=
  | placed_file p psn d inode c len link es :
      h !! d = Some (file_node bs p inode psn c len link es) -> placed h p psn d (XFile c len link es)
  | placed_dir p psn d inode c ts :
      h !! d = Some (dir_node (Some p) psn inode d c ts) -> placed_all h d true (d + 1) ts ->
      placed h p psn d (XDir c ts)
(** [ts] from [d] on; [named]: they are in the table of [p]. *)
with placed_all (h : gmap Z fsnode) : Z -> bool -> Z -> list xtree -> Prop :=
  | placed_nil p named d : placed_all h p named d []
  | placed_cons p (named : bool) d t ts :
      placed h p (if named then Some (tree_name t) else None) d t ->
      placed_all h p named (d + Z.of_nat (nodes t)) ts -> placed_all h p named d (t :: ts).

Lemma all_nodes_cons t ts : all_nodes (t :: ts) = (nodes t + all_nodes ts)%nat.
Proof. done. Qed.

Lemma placed_frame h h' t : forall p psn d,
  placed h p psn d t -> (forall x, d <= x < d + Z.of_nat (nodes t) -> h' !! x = h !! x) -> placed h' p psn d t.
Proof.
  induction t as [c len link es|c ts IH] using xtree_nested; intros p psn d Hpl Hh; inversion Hpl; subst.
  - eapply placed_file. rewrite Hh; [done|cbn; lia].
  - eapply placed_dir; [rewrite Hh; [done|cbn; lia]|]. cbn [nodes] in Hh.
    match goal with H : placed_all _ _ _ _ _ |- _ => rename H into Ha end.
    match goal with H : h !! d = _ |- _ => clear H end. clear Hpl.
    assert (Hh' : forall x, d + 1 <= x < d + 1 + Z.of_nat (sum_list_with nodes ts) -> h' !! x = h !! x)
      by (intros x Hx; apply Hh; lia). clear Hh. revert Ha Hh'. generalize (d + 1) as a.
    induction IH as [|t ts Ht _ IHts]; intros a Ha Hh'; inversion Ha; subst; constructor.
    + eapply Ht; [done|]. intros x Hx. apply Hh'. cbn. lia.
    + apply IHts; [done|]. intros x Hx. apply Hh'. cbn. lia.
Qed.

Lemma placed_all_frame h h' p named ts : forall d,
  placed_all h p named d ts -> (forall x, d <= x < d + Z.of_nat (all_nodes ts) -> h' !! x = h !! x) ->
  placed_all h' p named d ts.
Proof.
  induction ts as [|t ts IH]; intros d Ha Hh; inversion Ha; subst; constructor.
  - eapply placed_frame; [done|]. intros x Hx. apply Hh. rewrite all_nodes_cons. lia.
  - apply IH; [done|]. intros x Hx. apply Hh. rewrite all_nodes_cons. lia.
Qed.

Lemma placed_all_snoc h p named t ts : forall d,
  placed_all h p named d ts ->
  placed h p (if named then Some (tree_name t) else None) (d + Z.of_nat (all_nodes ts)) t ->
  placed_all h p named d (ts ++ [t]).
Proof.
  induction ts as [|x ts IH]; intros d Ha Ht; inversion Ha; subst.
  - rewrite Z.add_0_r in Ht. constructor; [done|constructor].
  - rewrite all_nodes_cons in Ht. constructor; [done|]. apply IH; [done|]. by replace (d + _ + _) with (d + Z.of_nat (nodes x + all_nodes ts)) by lia.
Qed.

(** What the table of the parent takes from an entry. *)
Definition own_blocks (t : xtree) : Z := match t with XFile _ _ _ es => blocks_of_extents bs es | XDir _ _ => 0 end.

Lemma placed_entry h p psn d t :
  placed h p psn d t ->
  exists n, h !! d = Some n /\ name n = Some (tree_name t) /\ used_blocks n = own_blocks t
  /\ forall nm h', h' !! d = Some (set_safe_name nm n) ->
       (forall x, d < x < d + Z.of_nat (nodes t) -> h' !! x = h !! x) -> placed h' p (Some nm) d t.
Proof.
  intros Hp. inversion Hp; subst; eexists; (split; [eassumption|]);
    (split; [done|]); (split; [done|]); intros nm h' Hd' Hh.
  - by eapply placed_file.
  - eapply placed_dir; [done|]. eapply placed_all_frame; [eassumption|].
    intros x Hx. apply Hh. cbn [nodes]. unfold all_nodes in Hx. lia.
Qed.

(** ** The rest of the tree

    How many files are in a tree, and the blocks that the tables below its top
    account for. *)

Fixpoint files (t : xtree) : Z :=
  match t with XFile _ _ _ _ => 1 | XDir _ ts => sum_Z (map files ts) end.

Fixpoint below_blocks (t : xtree) : Z :=
  match t with
  | XFile _ _ _ _ => 0
  | XDir _ ts => sum_Z (map (fun t => own_blocks t + below_blocks t) ts)
  end.

Definition with_links (k : Z) (n : fsnode) : fsnode := set_link_count (u32 (link_count n + k)) n.

(** From [T] to [T'], [k] dentries have been added, and otherwise only the one at [d]
    was touched. *)
Record grown (d : Z) (k : nat) (nfiles blocks : Z) (T T' : fs_state) : Prop := {
  grown_fresh : fresh T' = fresh T + Z.of_nat k;
  grown_same x : x < fresh T -> x <> d -> heap T' !! x = heap T !! x;
  grown_above x : fresh T' <= x -> heap T' !! x = None;
  grown_root : root T' = root T;
  grown_inodes : inode_number T' = u64 (inode_number T + Z.of_nat k);
  grown_uids : uid_number T' = uid_number T;
  grown_files : file_count T' = u64 (file_count T + nfiles);
  grown_blocks : valid_blocks T' = u64 (valid_blocks T + blocks);
  grown_criteria : criteria_of T' = criteria_of T
}.

(** What has to hold before dentries can be added. *)
Record ready (T : fs_state) : Prop := {
  ready_above x : fresh T <= x -> heap T !! x = None;
  ready_inodes : 0 <= inode_number T < 2 ^ 64;
  ready_files : 0 <= file_count T < 2 ^ 64;
  ready_blocks : 0 <= valid_blocks T < 2 ^ 64
}.

Lemma grown_refl d T : ready T -> grown d 0 0 0 T T.
Proof. intros [Ha Hi Hf Hb]. constructor; try done; rewrite ?Z.add_0_r, ?u64_small; done. Qed.

Lemma grown_trans d k k' f f' b b' T T' T'' :
  grown d k f b T T' -> grown d k' f' b' T' T'' -> grown d (k + k') (f + f') (b + b') T T''.
Proof.
  intros [G1 G2 G3 G4 G5 G6 G7 G8 G9] [H1 H2 H3 H4 H5 H6 H7 H8 H9]. constructor; try congruence.
  - lia.
  - intros x Hx Hd. rewrite H2, G2 by (try done; lia). done.
  - exact H3.
  - rewrite H5, G5, u64_add_l. f_equal. lia.
  - rewrite H7, G7, u64_add_l. f_equal. lia.
  - rewrite H8, G8, u64_add_l. f_equal. lia.
Qed.

Lemma grown_ready d k f b T T' : grown d k f b T T' -> ready T'.
Proof.
  intros [G1 G2 G3 G4 G5 G6 G7 G8 G9]. constructor; [done| | |]; rewrite ?G5, ?G7, ?G8; apply u64_range.
Qed.

(** ** The table of a directory *)

Definition entry_blocks (ts : list xtree) : Z := sum_Z (map own_blocks ts).

Definition in_table (h : gmap Z fsnode) (blocks : Z) (T : fs_state) : fs_state :=
  set_heap h (set_counts (file_count T) (u64 (valid_blocks T + blocks)) T).

(** One entry *)
Lemma add_entry p d n t rest dup T :
  heap T !! p = Some n -> p < d -> placed (heap T) p None d t -> tree_name t ∉ (child_list n).*1 ->
  exists cn h, heap T !! d = Some cn
  /\ h = <[p := set_child_list ((tree_name t, d) :: child_list n) n]>
           (<[d := set_safe_name (tree_name t) cn]> (heap T))
  /\ fs_update_platform_safe_names_and_hash_table p dup ((tree_name t, d) :: rest) T
    = fs_update_platform_safe_names_and_hash_table p dup rest (in_table h (own_blocks t) T)
  /\ placed h p (Some (tree_name t)) d t.
Proof.
  intros Hp Hlt Hpl Hn. destruct (placed_entry _ _ _ _ _ Hpl) as (cn & Hd & Hnm & Hub & Hpl').
  eexists cn, _. split; [done|]. split; [reflexivity|]. split.
  - cbn [fs_update_platform_safe_names_and_hash_table].
    unfold update_platform_safe_name, fs_add_key_to_hash_table, fs_find_key_from_hash_table, generate_hash_key_name,
      deref, update, the_name, update_state, bind_op, ret_op.
    rewrite Hp. cbn -[lookup insert in_table set_heap]. rewrite (proj2 (hash_find_None _ _)) by done.
    rewrite andb_false_r. rewrite Hd, Hnm. cbn -[lookup insert in_table]. rewrite Hd. cbn -[lookup insert in_table].
    rewrite lookup_insert_ne by lia. rewrite Hp. cbn -[lookup insert in_table].
    rewrite lookup_insert_eq. cbn -[lookup insert in_table].
    rewrite lookup_insert_ne by lia. rewrite Hp. cbn -[lookup insert in_table].
    rewrite lookup_insert_ne, lookup_insert_eq by lia. cbn -[lookup insert in_table]. rewrite Hub. reflexivity.
  - apply Hpl'.
    + by rewrite lookup_insert_ne, lookup_insert_eq by lia.
    + intros x Hx. by rewrite !lookup_insert_ne by lia.
Qed.

Lemma entries_app d ts us : entries d (ts ++ us) = entries d ts ++ entries (d + Z.of_nat (all_nodes ts)) us.
Proof.
  revert d. induction ts as [|t ts IH]; intros d; cbn [app entries]; [by rewrite Z.add_0_r|].
  rewrite IH, all_nodes_cons. cbn. by replace (d + Z.of_nat (nodes t + all_nodes ts)) with (d + Z.of_nat (nodes t) + Z.of_nat (all_nodes ts)) by lia.
Qed.

Lemma entries_names d ts : (entries d ts).*1 = map tree_name ts.
Proof. revert d. induction ts as [|t ts IH]; intros d; cbn; [done|]. by rewrite IH. Qed.

Lemma in_table_twice h h' b b' T : in_table h' b' (in_table h b T) = in_table h' (b + b') T.
Proof. unfold in_table, set_heap, set_counts. cbn. by rewrite u64_add_l, Z.add_assoc. Qed.

(** All entries, when their names are different. *)
Lemma add_entries p ts dup d n T :
  heap T !! p = Some n -> p < d -> placed_all (heap T) p false d ts ->
  NoDup ((child_list n).*1 ++ map tree_name ts) -> 0 <= valid_blocks T < 2 ^ 64 ->
  exists h,
    fs_update_platform_safe_names_and_hash_table p dup (entries d ts) T = Some ([], in_table h (entry_blocks ts) T)
    /\ placed_all h p true d ts
    /\ h !! p = Some (set_child_list (rev (entries d ts) ++ child_list n) n)
    /\ (forall x, x <> p -> x < d \/ d + Z.of_nat (all_nodes ts) <= x -> h !! x = heap T !! x).
Proof.
  revert d n T. induction ts as [|t ts IH]; intros d n T Hp Hlt Hpl Hnd Hb.
  - exists (heap T). split; [|split; [constructor|split; [|done]]].
    + cbn. unfold ret_op, in_table, set_heap, set_counts. cbn. rewrite Z.add_0_r, u64_small by done. by destruct T.
    + cbn. rewrite Hp. by destruct n.
  - inversion Hpl; subst. pose proof (nodes_pos t) as Hpos.
    apply list.NoDup_app in Hnd as Hnd'. destruct Hnd' as (Hnd1 & Hdis & Hnd2).
    cbn [map] in Hnd2. apply list.NoDup_cons in Hnd2 as [Ht Hnd2].
    match goal with H : placed (heap T) p _ d t |- _ => rename H into Hhd end.
    match goal with H : placed_all (heap T) p _ _ ts |- _ => rename H into Htl end.
    destruct (add_entry p d n t (entries (d + Z.of_nat (nodes t)) ts) dup T) as (cn & h & Hd & Hh & Heq & Hpl1);
      [done..| |].
    { intros Hin. apply (Hdis _ Hin). by left. }
    cbn [entries]. rewrite Heq. clear Heq.
    destruct (IH (d + Z.of_nat (nodes t)) (set_child_list ((tree_name t, d) :: child_list n) n)
                 (in_table h (own_blocks t) T)) as (h' & Heq & Hall & Hp' & Hframe).
    + cbn. subst h. apply lookup_insert_eq.
    + lia.
    + eapply placed_all_frame; [exact Htl|]. intros x Hx. cbn. subst h. by rewrite !lookup_insert_ne by lia.
    + cbn. rewrite list.NoDup_cons. split.
      * rewrite elem_of_app. intros [Hin|Hin]; [apply (Hdis _ Hin); by left|done].
      * apply list.NoDup_app. split_and!; [done| |done]. intros x Hx Hx'. apply (Hdis _ Hx). by right.
    + cbn. apply u64_range.
    + exists h'. split_and!.
      * rewrite Heq, in_table_twice. done.
      * constructor; [|done]. eapply placed_frame; [exact Hpl1|]. intros x Hx. apply Hframe; lia.
      * rewrite Hp'. cbn. f_equal. by rewrite <- app_assoc.
      * intros x Hxp Hx. rewrite all_nodes_cons in Hx. rewrite Hframe by (try done; lia). cbn. subst h. by rewrite !lookup_insert_ne by lia.
Qed.

Lemma names_ok p ts d n T :
  heap T !! p = Some n -> p < d -> placed_all (heap T) p false d ts -> child_list n = [] ->
  NoDup (map tree_name ts) -> 0 <= valid_blocks T < 2 ^ 64 ->
  exists h,
    fs_update_platform_safe_names p (entries d ts) T = Some (0, in_table h (entry_blocks ts) T)
    /\ placed_all h p true d ts /\ h !! p = Some (set_child_list (rev (entries d ts)) n)
    /\ (forall x, x <> p -> x < d \/ d + Z.of_nat (all_nodes ts) <= x -> h !! x = heap T !! x).
Proof.
  intros Hp Hlt Hpl Hn Hnd Hb. destruct (add_entries p ts false d n T) as (h & Heq & Hall & Hp' & Hframe);
    [done..|by rewrite Hn|done|].
  exists h. rewrite Hn, app_nil_r in Hp'. split_and!; [|done..].
  unfold fs_update_platform_safe_names, bind_op. by rewrite Heq.
Qed.

End placed.
