(* ===== verification/XmlTreeOk.v ===== *)
(** * Reading a document that was written: the tree *)

From S2P Require Import Prelude Errors TapeOps TapeDev Coherency Extents ExtentsSpec Volume FsRaw FsRawSpec.
From S2P Require Import TimeInternal TimeSpec Base64 Pathname IndexCriteria FsTree FsGraph XmlLib XmlRead XmlWrite XmlSpec.
From S2P Require Import XmlWp XmlValues XmlTree XmlWriteSpec XmlReadOk XmlFileOk XmlDirOk.
Open Scope Z_scope.
Open Scope ltfs_scope.

(** Levels of directories *)
Fixpoint height (t : xtree) : nat :=
  match t with XFile _ _ _ _ => 0 | XDir _ ts => S (max_list_with height ts) end.

Lemma height_starts icu t : (height t <= starts (entry_calls icu t))%nat.
Proof.
  induction t as [c len link es|c ts IH] using xtree_nested; [cbn; lia|].
  assert (Hts : (max_list_with height ts <= starts (flat_map (entry_calls icu) ts))%nat).
  { induction IH as [|t ts Ht _ IHts]; cbn; [lia|]. rewrite starts_app. lia. }
  cbn [height entry_calls]. unfold dir_calls. cbn [starts app is_open]. rewrite !starts_app. cbn [starts is_open app].
  rewrite !starts_app. cbn [starts is_open]. rewrite !starts_app. lia.
Qed.

Section read.
Context (icu : icu_lib) (raw_name : cstring -> cstring) (before : Z) (bs : Z).
Hypothesis Hbs : 0 < bs.
Abbreviation reads := (reads raw_name).
Abbreviation opened := (opened raw_name).

(** What can be written and read again; [m] is the highest unique id. *)
Fixpoint storable (m : Z) (t : xtree) : Prop :=
  named icu (tree_common t) /\ common_ok icu raw_name (tree_common t) /\ c_uid (tree_common t) <= m
  /\ match t with
     | XFile _ len link es => file_ok bs len link es
     | XDir c ts =>
         c_uid c <> 1 /\ NoDup (map tree_name ts) /\ fold_right (fun t P => storable m t /\ P) True ts
     end.

Definition tag_of (t : xtree) : cstring := if is_directory t then cstr "directory" else cstr "file".

Abbreviation parse_dirtree := (parse_dirtree icu before (Some bs)).
Abbreviation contents_tag := (contents_tag icu before (Some bs)).
Abbreviation dirtree_tag := (dirtree_tag icu before (Some bs)).

Lemma ok_no_memory {A} (m : parser A) s Q : okp m s Q -> okp (or_no_memory m) s Q.
Proof. unfold okp, or_no_memory, bind_op. by destruct (m s) as [[[e|x] s']|]. Qed.

(** *** A new directory *)

Definition new_dir (p : Z) (T : fs_state) : fsnode :=
  set_link_count 2 (new_dentry (Some p) None None true false (u64 (inode_number T + 1)) 1).

Lemma ok_alloc_dir p pn r i T (Q : option Z -> parse_state -> Prop) :
  heap T !! p = Some pn -> heap T !! fresh T = None ->
  Q (Some (fresh T)) (pstate r i (with_node (fresh T) (new_dir p T)
     (with_node p (with_links 1 pn) (bump_counters true T)))) ->
  okp (dirtree_dentry (Some p)) (pstate r i T) Q.
Proof.
  intros Hp Hf HQ. assert (Hne : fresh T <> p) by (intros E; congruence).
  unfold dirtree_dentry. apply ok_bind, ok_get. cbn [negb andb].
  rewrite (bool_decide_eq_true_2 (is_Some (Some p))) by eauto. cbn [negb andb]. apply ok_bind.
  match goal with |- okp ?m _ _ => enough (Hm : okp m (pstate r i T) (fun d s => d = Some (fresh T) /\ s = pstate r i (with_node (fresh T) (new_dir p T)
     (with_node p (with_links 1 pn) (bump_counters true T))))) end.
  { eapply ok_mono; [exact Hm|]. intros d s [-> ->]. apply ok_ret, HQ. }
  clear HQ. unfold okp, on_nodes, fs_allocate_dentry, link_to_parent, malloc, deref, update, bind_op, update_state, get_state, ret_op.
  cbn -[lookup insert new_dentry]. rewrite lookup_insert_eq. cbn -[lookup insert new_dentry].
  rewrite (lookup_insert_ne _ _ _ _ Hne), Hp.
  cbn -[lookup insert]. rewrite lookup_insert_eq. cbn -[lookup insert].
  rewrite insert_insert_eq, (lookup_insert_ne _ _ _ _ Hne), Hp. cbn -[lookup insert]. split; [done|]. split; [done|].
  unfold pstate, with_node, bump_counters, set_counters, set_heap, set_ps_tree. cbn -[lookup insert].
  by rewrite insert_insert_ne.
Qed.

(** *** Entries of a directory *)

Definition sum_files (ts : list xtree) : Z := sum_Z (map files ts).
Definition sum_below (ts : list xtree) : Z := sum_Z (map (below_blocks bs) ts).

Definition with_entry (t : xtree) (pn : fsnode) : fsnode := if is_directory t then with_links 1 pn else pn.

(** The parser of an entry does its work on [t] when [fuel] levels may follow. *)
Definition entry_ok (fuel : nat) (t : xtree) : Prop :=
  forall p pn acc open calls r i T (Q : name_list -> parse_state -> Prop),
  idx_version (base i) = LTFS_INDEX_VERSION ->
  heap T !! p = Some pn -> p < fresh T -> ready T -> storable (uid_number T) t ->
  opened 0 [] (tag_of t :: open) (tail (entry_calls icu t) ++ calls) (pstate r i T) ->
  (forall r' T', reads open calls (ahead r') ->
    grown p (nodes t) (files t) (below_blocks bs t) T T' -> placed bs (heap T') p None (fresh T) t ->
    heap T' !! p = Some (with_entry t pn) ->
    Q (acc ++ [(tree_name t, fresh T)]) (pstate r' i T')) ->
  okp (contents_tag (parse_dirtree fuel) p (tag_of t) acc) (pstate r i T) Q.

Lemma entry_file fuel c len link es : entry_ok fuel (XFile c len link es).
Proof.
  intros p pn acc open calls r i T Q Hver Hp Hlt HT (Hname & Hc & Hu & Hf) Ho HQ.
  pose proof (ready_above T HT (fresh T) ltac:(lia)) as Hfree.
  unfold contents_tag, tag_of. cbn [is_directory]. dispatch.
  apply ok_bind, ok_not_empty; [apply Ho|]. apply ok_bind, ok_no_memory.
  eapply ok_parse_file; [exact Hbs|exact Hver|exact Hp|exact Hfree|exact Hname|exact Hc|exact Hf|exact Hu|exact Ho|].
  intros r' Hr'. apply ok_ret, HQ.
  - exact Hr'.
  - constructor; cbn; try done.
    + intros x Hx _. by rewrite lookup_insert_ne by lia.
    + intros x Hx. rewrite lookup_insert_ne by lia. apply HT. lia.
    + rewrite Z.add_0_r, u64_small; [done|apply HT].
  - eapply placed_file. apply lookup_insert_eq.
  - cbn. rewrite lookup_insert_ne by lia. exact Hp.
Qed.

Lemma with_links_more a b n : with_links b (with_links a n) = with_links (a + b) n.
Proof. unfold with_links, set_link_count. cbn. by rewrite u32_add_l, Z.add_assoc. Qed.

Lemma with_entry_links t pn : 0 <= link_count pn < 2 ^ 32 -> with_entry t pn = with_links (b2z (is_directory t)) pn.
Proof.
  intros Hl. unfold with_entry. destruct (is_directory t); [done|]. unfold with_links. cbn.
  rewrite Z.add_0_r, u32_small by done. by destruct pn.
Qed.

Lemma subdir_count_cons t ts : subdir_count (t :: ts) = b2z (is_directory t) + subdir_count ts.
Proof.
  unfold subdir_count. rewrite filter_cons.
  case_decide as H; [rewrite H|apply not_true_is_false in H; rewrite H]; cbn [length b2z]; lia.
Qed.

(** The loop over the entries *)
Lemma ok_entries fuel p ts open calls i Q :
  Forall (entry_ok fuel) ts -> forall pn acc r T,
  idx_version (base i) = LTFS_INDEX_VERSION ->
  heap T !! p = Some pn -> p < fresh T -> ready T -> Forall (storable (uid_number T)) ts ->
  0 <= link_count pn < 2 ^ 32 ->
  reads (cstr "contents" :: open) (flat_map (entry_calls icu) ts ++ End' :: calls) (ahead r) ->
  (forall r' T', reads open calls (ahead r') ->
    grown p (all_nodes ts) (sum_files ts) (sum_below ts) T T' -> placed_all bs (heap T') p false (fresh T) ts ->
    heap T' !! p = Some (with_links (subdir_count ts) pn) ->
    Q (acc ++ entries (fresh T) ts) (pstate r' i T')) ->
  okl (cstr "contents") (contents_tag (parse_dirtree fuel) p) acc (pstate r i T) Q.
Proof.
  intros Hts. induction Hts as [|t ts Ht _ IH]; intros pn acc r T Hver Hp Hlt HT Hst Hl Hr HQ.
  - eapply close_step; [done|apply reads_coming, Hr|]. intros r' Hr'. rewrite <- (app_nil_r acc). apply HQ.
    + exact Hr'.
    + by apply grown_refl.
    + constructor.
    + rewrite Hp. f_equal. unfold with_links, subdir_count. cbn. rewrite Z.add_0_r, u32_small by done. by destruct pn.
  - apply Forall_cons_1 in Hst as [Hst Hsts]. cbn [flat_map] in Hr. rewrite <- app_assoc in Hr.
    assert (Hcalls : exists c cs, in_start_tag c = false /\ entry_calls icu t = Start (tag_of t) :: c :: cs).
    { destruct t; (eexists _, _; split; [|reflexivity]); done. }
    destruct Hcalls as (c & cs & Hc & Hcs). rewrite Hcs in Hr. cbn [app] in Hr.
    eapply open_step; [done|exact Hc|exact Hr|]. intros r1 Ho.
    eapply (Ht p pn acc); [done..|rewrite Hcs; exact Ho|].
    intros r2 T2 Hr2 Hg Hpl Hp2. rewrite with_entry_links in Hp2 by done.
    pose proof (nodes_pos t) as Hpos.
    eapply IH; [done|exact Hp2|rewrite (grown_fresh _ _ _ _ _ _ Hg); lia|by eapply grown_ready
      |by rewrite (grown_uids _ _ _ _ _ _ Hg)|apply u32_range|exact Hr2|].
    intros r3 T3 Hr3 Hg3 Hall Hp3. rewrite <- app_assoc. rewrite with_links_more, <- subdir_count_cons in Hp3.
    rewrite (grown_fresh _ _ _ _ _ _ Hg) in Hall |- *. apply (HQ r3 T3).
    + exact Hr3.
    + by apply (grown_trans _ _ _ _ _ _ _ _ _ _ Hg Hg3).
    + constructor; [|done]. eapply placed_frame; [exact Hpl|]. intros x Hx.
      apply (grown_same _ _ _ _ _ _ Hg3); [rewrite (grown_fresh _ _ _ _ _ _ Hg); lia|lia].
    + exact Hp3.
Qed.

(** *** The tags of a directory *)

Lemma ok_on_nodes {A} (m : fs_op A) x T' r i T (Q : A -> parse_state -> Prop) :
  m T = Some (x, T') -> Q x (pstate r i T') -> okp (on_nodes m) (pstate r i T) Q.
Proof. intros Hm HQ. unfold okp, on_nodes. cbn [ps_tree pstate]. rewrite Hm. by split. Qed.

Lemma with_node_id d n T : heap T !! d = Some n -> with_node d n T = T.
Proof. intros Hd. unfold with_node, set_heap. rewrite insert_id by done. by destruct T. Qed.

Lemma dir_body fuel parent d e name tr m r i n T Q :
  idx_version (base i) = LTFS_INDEX_VERSION ->
  dentry_tag icu before LTFS_INDEX_VERSION 1 2 3 4 5 d name tr = Some m ->
  okp m (pstate r i (with_node d n T)) (fun tr' s' => Q (tr', e) s') ->
  okp (dirtree_tag (parse_dirtree fuel) parent d name (tr, e)) (pstate r i (with_node d n T)) Q.
Proof.
  intros Hver Hm HQ. unfold dirtree_tag. apply ok_bind; eapply ok_version; [exact Hver|]. not_these Hm.
  rewrite Hm. apply ok_bind. eapply ok_mono; [exact HQ|]. intros tr' s' Hs. by apply ok_ret.
Qed.

Lemma dir_unknown fuel parent d name l r i n T Q :
  idx_version (base i) = LTFS_INDEX_VERSION -> name ∉ dentry_tags ->
  okp (preserve_in_dentry d) (pstate r i (with_node d n T)) (fun _ s' => Q l s') ->
  okp (dirtree_tag (parse_dirtree fuel) parent d name l) (pstate r i (with_node d n T)) Q.
Proof.
  intros Hver Hm HQ. unfold dirtree_tag. destruct l as [tr e]. apply ok_bind; eapply ok_version; [exact Hver|].
  assert (Hk : forall k, k ∈ dentry_tags -> bool_decide (name = k) = false)
    by (intros k Hk; apply bool_decide_eq_false_2; congruence).
  repeat (rewrite (Hk (cstr _)) by (by apply (bool_decide_eq_true_1 _)); cbv iota).
  rewrite unknown_dentry_tag by done. apply ok_bind. eapply ok_mono; [exact HQ|]. intros [] s' Hs. by apply ok_ret.
Qed.

Lemma grown_with_node d k f b n T T' :
  grown d k f b T T' -> d < fresh T -> grown d k f b T (with_node d n T').
Proof.
  intros [G1 G2 G3 G4 G5 G6 G7 G8 G9] Hd. constructor; try done.
  - intros x Hx Hne. cbn. rewrite lookup_insert_ne by done. by apply G2.
  - intros x Hx. cbn in *. rewrite lookup_insert_ne by lia. by apply G3.
Qed.

Lemma grown_from_node d k f b n T T' : grown d k f b (with_node d n T) T' -> grown d k f b T T'.
Proof.
  intros [G1 G2 G3 G4 G5 G6 G7 G8 G9]. constructor; try done.
  intros x Hx Hne. rewrite G2 by done. cbn. by rewrite lookup_insert_ne by done.
Qed.

Lemma ready_with_node d n T : ready T -> d < fresh T -> ready (with_node d n T).
Proof. intros [Ha Hi Hf Hb] Hd. constructor; try done. intros x Hx. cbn in *. rewrite lookup_insert_ne by lia. by apply Ha. Qed.

Lemma grown_table d k f b b' h T T' :
  grown d k f b T T' -> (forall x, x <> d -> x < fresh T \/ fresh T' <= x -> h !! x = heap T' !! x) -> d < fresh T ->
  grown d k f (b + b') T (in_table h b' T').
Proof.
  intros [G1 G2 G3 G4 G5 G6 G7 G8 G9] Hh Hd. constructor; try done.
  - intros x Hx Hne. cbn. rewrite Hh by auto. by apply G2.
  - intros x Hx. cbn in *. rewrite Hh by (try right; lia). by apply G3.
  - cbn. rewrite G8, u64_add_l. f_equal. lia.
Qed.

Definition with_entries (d : Z) (ts : list xtree) (n : fsnode) : fsnode :=
  set_child_list (rev (entries d ts)) (with_links (subdir_count ts) n).

(** The entries of a directory, and its table *)
Lemma ok_contents_tag fuel parent d e ts n tr open calls r i T Q :
  Forall (entry_ok fuel) ts ->
  idx_version (base i) = LTFS_INDEX_VERSION -> ready T -> d < fresh T ->
  Forall (storable (uid_number T)) ts -> NoDup (map tree_name ts) ->
  child_list n = [] -> 0 <= link_count n < 2 ^ 32 ->
  have_required_tags tr !! 6%nat = Some false ->
  reads open (Start (cstr "contents") :: flat_map (entry_calls icu) ts ++ End' :: calls) (ahead r) ->
  (forall r' T', reads open calls (ahead r') ->
    grown d (all_nodes ts) (sum_files ts) (sum_below ts + entry_blocks bs ts) T (with_node d (with_entries (fresh T) ts n) T') ->
    placed_all bs (heap T') d true (fresh T) ts ->
    okl (cstr "directory") (dirtree_tag (parse_dirtree fuel) parent d) (seen 6 tr, e)
      (pstate r' i (with_node d (with_entries (fresh T) ts n) T')) Q) ->
  okl (cstr "directory") (dirtree_tag (parse_dirtree fuel) parent d) (tr, e) (pstate r i (with_node d n T)) Q.
Proof.
  intros Hok Hver HT Hd Hst Hnd Hkids Hl Htr Hr HQ. destruct ts as [|t ts].
  - cbn [flat_map app] in Hr. eapply (okl_empty raw_name _ _ _ _ []); [done|apply reads_coming, Hr|].
    intros n' l' (He & _ & Hr'). rewrite moved_pstate in *. unfold dirtree_tag at 1.
    apply ok_bind; eapply ok_version; [exact Hver|]. dispatch. apply ok_bind, ok_required; [done|].
    apply ok_bind, ok_check_empty; [by rewrite He|]. rewrite He. apply ok_bind, ok_ret, ok_ret.
    assert (Hn : with_entries (fresh T) [] n = n).
    { unfold with_entries, with_links, subdir_count. cbn. rewrite Z.add_0_r, u32_small by done. destruct n. cbn in *. by subst. }
    specialize (HQ (set_place n' l' r) T Hr'). rewrite Hn in HQ. apply HQ; [|constructor].
    apply grown_with_node; [|done]. by apply (grown_refl d).
  - assert (Hcalls : exists c cs, in_start_tag c = false /\
      flat_map (entry_calls icu) (t :: ts) ++ End' :: calls = c :: cs).
    { destruct t; (eexists _, _; split; [|reflexivity]); done. }
    destruct Hcalls as (c & cs & Hc & Hcs). rewrite Hcs in Hr. eapply open_step; [done|exact Hc|exact Hr|].
    intros r1 (He & Ha & Hr1). rewrite <- Hcs in Hr1. clear Hr Hc Hcs c cs. unfold dirtree_tag at 1.
    apply ok_bind; eapply ok_version; [exact Hver|]. dispatch. apply ok_bind, ok_required; [done|].
    apply ok_bind, ok_check_empty; [by rewrite He|]. rewrite He. apply ok_bind, ok_no_memory.
    apply ok_bind, ok_parse_tags.
    eapply (ok_entries fuel d (t :: ts)); [exact Hok|exact Hver|apply with_node_lookup|done|by apply ready_with_node|exact Hst|done|exact Hr1|].
    intros r2 T2 Hr2 Hg Hall Hd2. apply grown_from_node in Hg. cbn [app].
    destruct (names_ok bs d (t :: ts) (fresh T) (with_links (subdir_count (t :: ts)) n) T2)
      as (h & Hrun & Hall' & Hd' & Hframe); [done..|apply (grown_ready _ _ _ _ _ _ Hg)|].
    apply ok_bind. eapply ok_on_nodes; [exact Hrun|]. apply ok_guard; [done|]. apply ok_ret.
    assert (Hid : with_node d (with_entries (fresh T) (t :: ts) n) (in_table h (entry_blocks bs (t :: ts)) T2)
                  = in_table h (entry_blocks bs (t :: ts)) T2) by (by apply with_node_id).
    rewrite <- Hid. apply HQ; [exact Hr2| |done].
    apply grown_with_node; [|done]. eapply grown_table; [exact Hg| |done].
    intros x Hne Hx. apply Hframe; [done|]. rewrite (grown_fresh _ _ _ _ _ _ Hg) in Hx. lia.
Qed.

Definition dir_tracking : tracking :=
  {| have_required_tags := [true; false; false; false; false; false; false; false; false];
     have_optional_tags := [false] |}.

(** What the tags after the name leave of a directory *)
Definition with_dir (d : Z) (c : common) (ts : list xtree) (n : fsnode) : fsnode :=
  set_tags (c_tags c) (with_entries d ts (set_xattrs (c_xattrs c) (with_common c n))).

Lemma ok_dir_tags fuel parent d e c ts n open calls r i T Q :
  Forall (entry_ok fuel) ts ->
  idx_version (base i) = LTFS_INDEX_VERSION -> ready T -> d < fresh T ->
  common_ok icu raw_name c -> c_uid c <= uid_number T ->
  Forall (storable (uid_number T)) ts -> NoDup (map tree_name ts) ->
  xattrlist n = [] -> preserved_tags n = [] -> child_list n = [] -> 0 <= link_count n < 2 ^ 32 ->
  reads (cstr "directory" :: open)
    ((Leaf (cstr "readonly") (print_bool (c_readonly c)) :: time_calls c
      ++ Leaf UID_TAGNAME (print_dec (c_uid c)) :: xattrs_calls icu (c_xattrs c)
      ++ Start (cstr "contents") :: flat_map (entry_calls icu) ts ++ End' :: tag_calls (c_tags c) ++ [End']) ++ calls)
    (ahead r) ->
  (forall r' T' tr', reads open calls (ahead r') -> all_seen tr' ->
    let n' := with_dir (fresh T) c ts n in
    grown d (all_nodes ts) (sum_files ts) (sum_below ts + entry_blocks bs ts) T (with_node d n' T') ->
    placed_all bs (heap (with_node d n' T')) d true (fresh T) ts ->
    Q (tr', e) (pstate r' i (with_node d n' T'))) ->
  okl (cstr "directory") (dirtree_tag (parse_dirtree fuel) parent d) (dir_tracking, e) (pstate r i (with_node d n T)) Q.
Proof.
  intros Hok Hver HT Hd Hc Hu Hst Hnd Hx Ht Hk Hl Hr HQ. cbn [app] in Hr.
  repeat (rewrite <- app_assoc in Hr; cbn [app] in Hr).
  eapply (ok_common icu raw_name before (cstr "directory") (dirtree_tag (parse_dirtree fuel) parent d) (fun tr => (tr, e)) 1 2 3 4 5);
    [done|intros; by eapply dir_body|done|done|done..| |exact Hr|].
  { by apply (bool_decide_eq_true_1 _). }
  clear Hr r. intros r Hr.
  eapply (ok_xattrs_tag icu raw_name before (cstr "directory") (dirtree_tag (parse_dirtree fuel) parent d) (fun tr => (tr, e)) 1 2 3 4 5);
    [done|intros; by eapply dir_body|apply Hc|done|done|exact Hr|].
  clear Hr r. intros r b Hr. cbn [app] in Hr.
  eapply ok_contents_tag; [exact Hok|done..|by destruct b|exact Hr|].
  clear Hr r. intros r T' Hr Hg Hall.
  eapply (ok_tags_end raw_name (cstr "directory") (dirtree_tag (parse_dirtree fuel) parent d));
    [done|apply Hc| |done|apply reads_coming, Hr|].
  - intros t r' n' Hraw Hp. by apply dir_unknown.
  - intros r' Hr'. apply HQ; [exact Hr'|by destruct b| |].
    + rewrite <- with_node_twice with (n' := with_entries (fresh T) ts (set_xattrs (c_xattrs c) (with_common c n))).
      by apply grown_with_node.
    + eapply placed_all_frame; [exact Hall|]. intros x Hlt. cbn. by rewrite lookup_insert_ne by lia.
Qed.

(** *** Directories *)

(** Behind the loop nothing is left to do for an index of this version. *)
Lemma ok_dirtree_end (parent : option Z) dir tr (e : entry) n r i T Q :
  idx_version (base i) = LTFS_INDEX_VERSION -> all_seen tr -> heap T !! dir = Some n -> uid n <> 0 ->
  (if bool_decide (is_Some parent) then uid n <> 1 else uid n = 1) -> Q e (pstate r i T) ->
  okp (let! version := the_version in
       let! tr := old_uid dir (bool_decide (is_Some parent)) version tr in
       let! tr := old_backup_time dir version tr in
       check_required_tags tr >>!
       let! n := on_nodes (deref dir) in
       if bool_decide (is_Some parent) && (uid n =? 1) then fail_x (-1)
       else if negb (bool_decide (is_Some parent)) && negb (uid n =? 1) then fail_x (-1)
       else if uid n =? 0 then fail_x (-1)
       else ret_x e) (pstate r i T) Q.
Proof.
  intros Hver Htr Hd H0 H1 HQ. apply ok_bind; eapply ok_version; [exact Hver|].
  apply ok_bind, ok_ret, ok_bind, ok_ret, ok_bind, ok_guard; [by rewrite Htr|].
  apply ok_bind. rewrite <- (with_node_id dir n T) by done. apply ok_deref_node. rewrite (with_node_id dir n T) by done.
  apply Z.eqb_neq in H0. rewrite H0. destruct (bool_decide (is_Some parent)).
  - apply Z.eqb_neq in H1. rewrite H1. by apply ok_ret.
  - rewrite H1. by apply ok_ret.
Qed.

Lemma sum_Z_add {A} (f g : A -> Z) l : sum_Z (map (fun x => f x + g x) l) = sum_Z (map g l) + sum_Z (map f l).
Proof. induction l as [|x l IH]; [done|]. unfold sum_Z in *. cbn in *. lia. Qed.

(** The directory before its tags *)
Definition under (p : Z) (pn : fsnode) (T : fs_state) : fs_state :=
  with_node p (with_links 1 pn) (bump_counters true T).

Lemma under_ready p pn T : ready T -> p < fresh T -> ready (under p pn T).
Proof.
  intros HT Hlt. constructor; [|apply u64_range|apply HT..].
  intros x Hx. cbn in *. rewrite lookup_insert_ne by lia. apply HT. lia.
Qed.

Lemma new_dir_done p c ts T d :
  with_dir (d + 1) c ts (set_name (c_name c) (new_dir p T))
  = dir_node (Some p) None (u64 (inode_number T + 1)) d c ts.
Proof. by destruct c. Qed.

Lemma dir_grown p pn c ts T T' n' :
  heap T !! p = Some pn -> p < fresh T ->
  grown (fresh T) (all_nodes ts) (sum_files ts) (sum_below ts + entry_blocks bs ts) (under p pn T)
    (with_node (fresh T) n' T') ->
  placed_all bs (heap (with_node (fresh T) n' T')) (fresh T) true (fresh (under p pn T)) ts ->
  n' = with_dir (fresh (under p pn T)) c ts (set_name (c_name c) (new_dir p T)) ->
  let T2 := with_node (fresh T) n' T' in
  grown p (nodes (XDir c ts)) (files (XDir c ts)) (below_blocks bs (XDir c ts)) T T2
  /\ placed bs (heap T2) p None (fresh T) (XDir c ts)
  /\ heap T2 !! p = Some (with_entry (XDir c ts) pn).
Proof.
  intros Hp Hlt Hg Hall Hn T2. subst T2. change (fresh (under p pn T)) with (fresh T + 1) in *. split_and!.
  - destruct Hg as [G1 G2 G3 G4 G5 G6 G7 G8 G9]. constructor; [|intros x Hx Hne|done..| |done|done| |done].
    + rewrite G1. cbn [nodes]. unfold all_nodes. change (fresh (under p pn T)) with (fresh T + 1). lia.
    + rewrite G2; [|change (fresh (under p pn T)) with (fresh T + 1); lia|lia].
      cbn. by rewrite lookup_insert_ne by done.
    + rewrite G5. cbn [nodes]. change (inode_number (under p pn T)) with (u64 (inode_number T + 1)).
      rewrite u64_add_l. f_equal. unfold all_nodes. lia.
    + rewrite G8. cbn [below_blocks]. by rewrite sum_Z_add.
  - eapply placed_dir; [|exact Hall]. rewrite with_node_lookup, Hn.
    exact (f_equal Some (new_dir_done p c ts T (fresh T))).
  - rewrite (grown_same _ _ _ _ _ _ Hg); [apply lookup_insert_eq| |lia].
    change (fresh (under p pn T)) with (fresh T + 1). lia.
Qed.

Lemma entry_dir fuel c ts : Forall (entry_ok fuel) ts -> entry_ok (S fuel) (XDir c ts).
Proof.
  intros Hok p pn acc open calls r i T Q Hver Hp Hlt HT (Hname & Hc & Hu & Hu1 & Hnd & Hst) Ho HQ.
  apply fold_right_and in Hst. pose proof (ready_above T HT (fresh T) ltac:(lia)) as Hfree.
  unfold contents_tag, tag_of. cbn [is_directory]. dispatch.
  apply ok_bind, ok_not_empty; [apply Ho|]. destruct Ho as (_ & _ & Hr). cbn [tree_common] in *.
  apply ok_bind, ok_no_memory. cbn [XmlRead.parse_dirtree]. apply ok_bind. eapply ok_alloc_dir; [exact Hp|exact Hfree|].
  fold (under p pn T). pose proof (under_ready p pn T HT Hlt) as HT1.
  apply ok_bind, ok_parse_tags. cbn [entry_calls] in Hr. unfold dir_calls in Hr. cbn [tail app] in Hr.
  eapply leaf_step; [done|apply reads_coming, Hr|]. clear Hr. intros r1 Hin.
  unfold dirtree_tag at 1. apply ok_bind; eapply ok_version; [exact Hver|]. dispatch.
  apply ok_bind, ok_required; [done|]. rewrite decide_True by eauto.
  apply ok_bind. eapply ok_text; [exact Hin|apply Hname|].
  intros n1 l1 Hcl. rewrite moved_pstate in *. apply ok_bind, ok_or, (ok_sum _ (c_name c)); [apply Hname|].
  apply ok_bind, ok_update_node. apply ok_bind. eapply ok_tag_end; [exact Hcl|]. intros n2 l2 Hr.
  rewrite moved_pstate in *. apply ok_ret. clear Hin Hcl.
  match goal with |- okl _ _ (?tr, _) _ _ => change tr with dir_tracking end.
  eapply ok_dir_tags; [exact Hok|done|exact HT1|cbn; lia|exact Hc|exact Hu|exact Hst|exact Hnd|done..|exact Hr|].
  clear Hr. intros r' T' tr Hr Htr n' Hg Hall.
  eapply (ok_dirtree_end (Some p)); [exact Hver|exact Htr|apply with_node_lookup| | |].
  { destruct (fine_uid _ _ _ Hc). cbn. lia. }
  { rewrite bool_decide_eq_true_2 by eauto. exact Hu1. }
  destruct (dir_grown p pn c ts T T' n' Hp Hlt Hg Hall eq_refl) as (Hg' & Hpl & Hp').
  apply ok_ret. exact (HQ r' _ Hr Hg' Hpl Hp').
Qed.

Lemma entries_ok t : forall fuel, (height t <= fuel)%nat -> entry_ok fuel t.
Proof.
  induction t as [c len link es|c ts IH] using xtree_nested; intros fuel Hf; [apply entry_file|].
  destruct fuel as [|fuel]; [cbn in Hf; lia|]. apply entry_dir. cbn [height] in Hf.
  assert (Hts : (max_list_with height ts <= fuel)%nat) by lia. clear Hf.
  induction IH as [|t ts Ht _ IHts]; constructor; cbn in Hts; [apply Ht; lia|apply IHts; lia].
Qed.

(** *** The root *)

Definition volume_name_ok (v : option cstring) : Prop :=
  match v with Some v => v <> [] /\ stored_name icu v | None => True end.

Lemma ok_volume_name fuel d vn n open calls r i T Q :
  idx_version (base i) = LTFS_INDEX_VERSION -> volume_name_ok vn ->
  reads open (volume_name_calls vn ++ calls) (ahead r) ->
  (forall r', reads open calls (ahead r') ->
    okl (cstr "directory") (dirtree_tag (parse_dirtree fuel) None d) (dir_tracking, None)
      (pstate r' (set_volume_name vn i) (with_node d n T)) Q) ->
  okl (cstr "directory") (dirtree_tag (parse_dirtree fuel) None d) (declare_tracking_arrays 9 1, None)
    (pstate r i (with_node d n T)) Q.
Proof.
  intros Hver Hvn Hr HQ. assert (Hnone : ~ is_Some (@None Z)) by (intros [? ?]; done).
  destruct vn as [v|]; cbn [volume_name_calls app] in Hr.
  - destruct Hvn as [Hne Hv]. eapply leaf_step; [done|apply reads_coming, Hr|]. intros r1 Hin.
    pose proof Hin as (He & _).
    unfold dirtree_tag at 1. apply ok_bind; eapply ok_version; [exact Hver|]. dispatch.
    apply ok_bind, ok_required; [done|]. rewrite decide_False by done.
    apply ok_bind, ok_bind, ok_check_empty; [by rewrite He|]. rewrite He. cbn [Z.ltb Z.compare].
    apply ok_bind, ok_or. eapply ok_scan; [exact Hin| |done].
    intros n1 l1 _ Hcl. rewrite moved_pstate in *. apply ok_ret.
    rewrite (proj2 (Z.ltb_lt _ _)) by (destruct v; [done|cbn; lia]).
    apply ok_bind, ok_or, (ok_sum _ v); [exact Hv|]. apply ok_bind, ok_on_index, ok_bind.
    eapply ok_tag_end; [exact Hcl|]. intros n2 l2 Hr2. rewrite moved_pstate. apply ok_ret. by apply HQ.
  - eapply (okl_empty raw_name _ _ _ _ []); [done|apply reads_coming, Hr|].
    intros n' l' (He & _ & Hr'). rewrite moved_pstate in *. unfold dirtree_tag at 1.
    apply ok_bind; eapply ok_version; [exact Hver|]. dispatch.
    apply ok_bind, ok_required; [done|]. rewrite decide_False by done.
    apply ok_bind, ok_bind, ok_check_empty; [by rewrite He|]. rewrite He. cbn [Z.ltb Z.compare].
    apply ok_ret, ok_bind, ok_on_index, ok_ret. by apply HQ.
Qed.

(** The tree below the root, in the place of the root that is there. *)
Lemma ok_root c ts vn n open calls r i T (Q : entry -> parse_state -> Prop) :
  idx_version (base i) = LTFS_INDEX_VERSION -> volume_name_ok vn ->
  ready T -> root T <> 0 -> root T < fresh T -> heap T !! root T = Some n ->
  common_ok icu raw_name c -> c_uid c = 1 -> 1 <= uid_number T ->
  Forall (storable (uid_number T)) ts -> NoDup (map tree_name ts) ->
  xattrlist n = [] -> preserved_tags n = [] -> child_list n = [] -> 0 <= link_count n < 2 ^ 32 ->
  opened 0 [] (cstr "directory" :: open) (tail (root_calls icu vn (XDir c ts)) ++ calls) (pstate r i T) ->
  (forall r' T', reads open calls (ahead r') ->
    let n' := with_dir (fresh T) c ts n in
    grown (root T) (all_nodes ts) (sum_files ts) (sum_below ts + entry_blocks bs ts) T (with_node (root T) n' T') ->
    placed_all bs (heap (with_node (root T) n' T')) (root T) true (fresh T) ts ->
    Q None (pstate r' (set_volume_name vn i) (with_node (root T) n' T'))) ->
  okp (_xml_parse_dirtree icu before (Some bs) None) (pstate r i T) Q.
Proof.
  intros Hver Hvn HT H0 Hlt Hroot Hc Hu Hu' Hst Hnd Hx Ht Hk Hl (_ & _ & Hr) HQ.
  apply ok_bind, ok_get. set (fuel := length (ahead (ps_reader (pstate r i T)))).
  assert (Hok : Forall (entry_ok fuel) ts).
  { assert (Hf : (max_list_with height ts <= fuel)%nat).
    { apply reads_starts in Hr. cbn [pstate get_reader coming_nodes ahead] in Hr.
      assert (Hts : (max_list_with height ts <= starts (flat_map (entry_calls icu) ts))%nat).
      { clear. induction ts as [|t ts IH]; cbn; [lia|]. rewrite starts_app. pose proof (height_starts icu t). lia. }
      unfold coming_nodes in Hr. cbn in Hr. subst fuel. cbn. etransitivity; [exact Hts|]. etransitivity; [|exact Hr].
      rewrite !starts_app. cbn. rewrite !starts_app. cbn. rewrite !starts_app. cbn. rewrite !starts_app. lia. }
    clear -Hf Hbs. induction ts as [|t ts IH]; constructor; cbn in Hf; [apply entries_ok; lia|apply IH; lia]. }
  cbn [XmlRead.parse_dirtree]. unfold dirtree_dentry. apply ok_bind, ok_bind, ok_get.
  cbn [pstate ps_tree]. rewrite (proj2 (Z.eqb_neq _ _) H0). cbn [negb andb].
  rewrite bool_decide_eq_false_2 by (intros [? ?]; done). cbn [negb andb]. apply ok_ret.
  apply ok_bind, ok_parse_tags. cbn [root_calls] in Hr. unfold dir_calls in Hr. cbn [tail app] in Hr.
  rewrite <- app_assoc in Hr. change (coming_nodes (pstate r i T)) with (ahead r) in Hr.
  rewrite <- (with_node_id (root T) n T Hroot) at 2.
  eapply ok_volume_name; [exact Hver|exact Hvn|exact Hr|]. clear Hr. intros r1 Hr.
  eapply ok_dir_tags; [exact Hok|done|exact HT|exact Hlt|exact Hc|lia|exact Hst|exact Hnd|done..|exact Hr|].
  clear Hr. intros r' T' tr Hr Htr n' Hg Hall.
  eapply (ok_dirtree_end None); [exact Hver|exact Htr|apply with_node_lookup| | |].
  { cbn. lia. }
  { exact Hu. }
  exact (HQ r' T' Hr Hg Hall).
Qed.

End read.
