(* ===== verification/XmlSchemaOk.v ===== *)
(** * Reading a document that was written: the Index

    The parser of the schema on the calls of [schema_calls]. *)

From S2P Require Import Prelude Errors TapeOps TapeDev Coherency Extents ExtentsSpec Volume FsRaw FsRawSpec.
From S2P Require Import TimeInternal TimeSpec Base64 Pathname IndexCriteria FsTree FsGraph XmlLib XmlRead XmlWrite XmlSpec.
From S2P Require Import XmlWp XmlValues XmlTree XmlWriteSpec XmlReadOk XmlFileOk XmlDirOk XmlTreeOk.
Open Scope Z_scope.
Open Scope ltfs_scope.

Definition schema_tags : list cstring :=
  map cstr ["creator"; "volumeuuid"; "generationnumber"; "updatetime"; "location"; "allowpolicyupdate";
            "directory"; "previousgenerationlocation"; "dataplacementpolicy"; "comment"; "highestfileuid"].

Section read.
Context (icu : icu_lib) (raw_name : cstring -> cstring) (before : Z) (bs : Z).
Hypothesis Hbs : 0 < bs.
Abbreviation reads := (reads raw_name).
Abbreviation opened := (opened raw_name).
Abbreviation schema_tag := (schema_tag icu before (Some bs)).
Abbreviation top := (cstr "ltfsindex").

(** ** Tags with text *)

Lemma schema_leaf {A} name k (conv : cstring -> Z + A) store x c open calls r i i' T T' tr Q :
  reads open (Leaf name c :: calls) (ahead r) ->
  (forall s Q, okp (required_text k name conv store tr) s Q -> idx_version (base (ps_index s)) = LTFS_INDEX_VERSION ->
     okp (schema_tag name tr) s Q) ->
  have_required_tags tr !! k = Some false -> c <> [] -> conv c = inr x ->
  idx_version (base i) = LTFS_INDEX_VERSION ->
  (forall r Q, Q tt (pstate r i' T') -> okp (store x) (pstate r i T) Q) ->
  (forall r', reads open calls (ahead r') -> okl top schema_tag (seen k tr) (pstate r' i' T') Q) ->
  okl top schema_tag tr (pstate r i T) Q.
Proof.
  intros Hr Htag Htr Hc Hx Hver Hstore Hk. eapply leaf_step; [done|apply reads_coming, Hr|]. intros r1 Hin.
  apply Htag; [|exact Hver]. eapply ok_required_text; [exact Hin|done|done|exact Hx|].
  intros r2 _. apply Hstore. eexists _, _. split; [reflexivity|]. intros r3 Hr3. by apply Hk.
Qed.

(** [schema_tag] on a tag it takes to [required_text]. *)
Ltac this_tag :=
  let Hok := fresh in let Hver := fresh in
  intros [] ? Hok Hver; unfold schema_tag; apply ok_bind; (eapply ok_version; [exact Hver|]); dispatch;
  try (change (LTFS_INDEX_VERSION >=? IDX_VERSION_UID) with true; cbn [andb]; cbv iota); exact Hok.

Lemma ok_on_base f r i T (Q : unit -> parse_state -> Prop) :
  Q tt (pstate r (set_base (f (base i)) i) T) -> okp (on_base f) (pstate r i T) Q.
Proof. intros HQ. by apply ok_on_index. Qed.

Lemma ok_raise_uids u r i T (Q : unit -> parse_state -> Prop) :
  Q tt (pstate r i (if u >? uid_number T then set_counters (fresh T) (inode_number T) u T else T)) ->
  okp (raise_uid_number u) (pstate r i T) Q.
Proof. intros HQ. by split. Qed.

Lemma ok_comment m open calls r i T tr Q :
  idx_version (base i) = LTFS_INDEX_VERSION ->
  (forall t, m = Some t -> Z.of_nat (length t) <= INDEX_MAX_COMMENT_LEN) ->
  commit_message i = None -> have_optional_tags tr !! 2%nat = Some false ->
  reads open (comment_calls m ++ calls) (ahead r) ->
  (forall r' tr', reads open calls (ahead r') -> have_required_tags tr' = have_required_tags tr ->
    take 2 (have_optional_tags tr') = take 2 (have_optional_tags tr) ->
    okl top schema_tag tr' (pstate r' (set_commit_message (match m with Some [] => None | _ => m end) i) T) Q) ->
  okl top schema_tag tr (pstate r i T) Q.
Proof.
  intros Hver Hm Hi Htr Hr HQ. assert (Hid : set_commit_message None i = i) by (destruct i; cbn in *; by subst).
  destruct m as [t|]; cbn [comment_calls] in Hr.
  2:{ specialize (HQ r tr Hr). cbv iota in HQ. rewrite Hid in HQ. by apply HQ. }
  case_bool_decide as Ht; [subst; specialize (HQ r tr Hr); cbv iota in HQ; rewrite Hid in HQ; by apply HQ|].
  eapply leaf_step; [done|apply reads_coming, Hr|]. intros r1 Hin. unfold schema_tag at 1.
  apply ok_bind; (eapply ok_version; [exact Hver|]). dispatch. apply ok_bind, ok_optional; [done|].
  apply ok_bind. eapply ok_text; [exact Hin|done|]. intros n l Hcl. rewrite moved_pstate in *.
  specialize (Hm t eq_refl). rewrite Z.gtb_ltb, (proj2 (Z.ltb_ge _ _)) by done.
  apply ok_bind, ok_on_index, ok_bind. eapply ok_tag_end; [exact Hcl|]. intros n2 l2 Hr2. rewrite moved_pstate.
  apply ok_ret. destruct t as [|b t]; [done|]. apply HQ; [exact Hr2|done|].
  cbn. by destruct (have_optional_tags tr) as [|? [|? [|? ?]]].
Qed.

(** ** The policy *)

Definition policy_ok (ic : index_criteria) : Prop :=
  have_criteria ic = true ->
  0 <= max_filesize_criteria ic < 2 ^ 64
  /\ Forall (fun p => 0 <= pathname_validate_file icu p /\ pathname_normalize icu p = inr p)
       (name_criteria (default [] (glob_patterns ic))).

(** The policy as it is read *)
Definition policy_read (ic : index_criteria) : index_criteria :=
  if have_criteria ic then
    {| have_criteria := true; max_filesize_criteria := max_filesize_criteria ic;
       glob_patterns := match name_criteria (default [] (glob_patterns ic)) with [] => None | l => Some l end;
       glob_cache := None |}
  else {| have_criteria := false; max_filesize_criteria := 0; glob_patterns := None; glob_cache := None |}.

Lemma name_criteria_not_empty l : Forall (fun p => p <> []) (name_criteria l).
Proof. induction l as [|[|b p] l IH]; cbn; by constructor. Qed.

Lemma ok_names names acc open calls r i T tr (Q : tracking -> parse_state -> Prop) :
  Forall (fun p => p <> []) names ->
  Forall (fun p => 0 <= pathname_validate_file icu p /\ pathname_normalize icu p = inr p) names ->
  glob_patterns (original_criteria i) = (match acc with [] => None | _ => Some acc end) ->
  reads (cstr "indexpartitioncriteria" :: open) (map (fun p => Leaf (cstr "name") p) names ++ End' :: calls) (ahead r) ->
  (forall r', reads open calls (ahead r') ->
    Q tr (pstate r' (with_patterns (match acc ++ names with [] => None | l => Some l end) i) T)) ->
  okl (cstr "indexpartitioncriteria") (ip_criteria_tag icu) tr (pstate r i T) Q.
Proof.
  intros Hne. revert acc r i. induction Hne as [|p names Hp _ IH]; intros acc r i Hok Hg Hr HQ.
  - eapply close_step; [done|apply reads_coming, Hr|]. intros r' Hr'. specialize (HQ r' Hr').
    rewrite app_nil_r in HQ. unfold with_patterns in HQ.
    assert (Hid : set_original_criteria (set_patterns (match acc with [] => None | _ => Some acc end) (original_criteria i)) i = i).
    { destruct i as [? ? ? [] ? ? ?]; cbn in *. by subst. }
    destruct acc; cbn in Hid, HQ; by rewrite Hid in HQ.
  - apply Forall_cons_1 in Hok as [[Hv Hn] Hok]. cbn [map app] in Hr.
    eapply leaf_step; [done|apply reads_coming, Hr|]. intros r1 Hin. unfold ip_criteria_tag at 1. dispatch.
    apply ok_bind. eapply ok_text; [exact Hin|done|]. intros n l Hcl. rewrite moved_pstate in *.
    rewrite (proj2 (Z.ltb_ge _ _)) by done. apply ok_bind, (ok_sum _ p); [exact Hn|].
    apply ok_bind, ok_on_index, ok_bind. eapply ok_tag_end; [exact Hcl|]. intros n2 l2 Hr2. rewrite moved_pstate.
    apply ok_ret. eapply (IH (acc ++ [p])); [exact Hok| |exact Hr2|].
    + cbn. rewrite Hg. by destruct acc.
    + intros r' Hr'. rewrite <- app_assoc. unfold with_patterns. cbn. specialize (HQ r' Hr'). unfold with_patterns in HQ.
      cbn in HQ. exact HQ.
Qed.

Lemma ok_policy ic open calls r i T tr Q :
  idx_version (base i) = LTFS_INDEX_VERSION -> policy_ok ic ->
  original_criteria i = no_policy -> criteria_of T = no_policy ->
  have_optional_tags tr !! 1%nat = Some false ->
  reads open (policy_calls ic ++ calls) (ahead r) ->
  (forall r' tr', reads open calls (ahead r') -> have_required_tags tr' = have_required_tags tr ->
    okl top schema_tag tr' (pstate r' (set_original_criteria (policy_read ic) i) (set_criteria (policy_read ic) T)) Q) ->
  okl top schema_tag tr (pstate r i T) Q.
Proof.
  intros Hver Hok Hi HT Htr Hr HQ. unfold policy_calls in Hr. unfold policy_read in HQ. unfold policy_ok in Hok.
  destruct (have_criteria ic).
  2:{ specialize (HQ r tr Hr eq_refl). assert (Hid : set_original_criteria no_policy i = i) by (destruct i; cbn in *; by subst).
      assert (HidT : set_criteria no_policy T = T) by (destruct T; cbn in *; by subst).
      fold no_policy in HQ. by rewrite Hid, HidT in HQ. }
  destruct (Hok eq_refl) as [Hsize Hnames]. clear Hok. cbn [app] in Hr.
  eapply open_step; [done| |exact Hr|]; [done|]. intros r1 (He & _ & Hr1). unfold schema_tag at 1.
  apply ok_bind; (eapply ok_version; [exact Hver|]). dispatch. apply ok_bind, ok_optional; [done|].
  apply ok_bind, ok_not_empty; [done|]. apply ok_bind, ok_or. unfold _xml_parse_policy. apply ok_bind, ok_parse_tags.
  eapply open_step; [done| |exact Hr1|]; [done|]. intros r2 (He2 & _ & Hr2). unfold policy_tag at 1. dispatch.
  apply ok_bind, ok_required; [done|]. apply ok_bind, ok_not_empty; [done|]. apply ok_bind, ok_or.
  unfold _xml_parse_ip_criteria. apply ok_bind, ok_on_index. apply ok_bind.
  eapply ok_on_nodes; [reflexivity|]. apply ok_bind, ok_parse_tags. rewrite Hi.
  eapply leaf_step; [done|apply reads_coming, Hr2|]. intros r3 Hin. unfold ip_criteria_tag at 1. dispatch.
  eapply ok_required_text; [exact Hin|apply print_dec_not_empty; lia|done|by apply parse_print|].
  intros r4 _. eapply ok_on_index. eexists _, _. split; [reflexivity|]. intros r5 Hr5. rewrite <- app_assoc in Hr5. cbn [app] in Hr5.
  eapply (ok_names _ []); [apply name_criteria_not_empty|exact Hnames|done|exact Hr5|]. intros r6 Hr6. cbn [app].
  apply ok_bind, ok_get, ok_bind. eapply ok_on_nodes; [reflexivity|]. apply ok_guard; [done|]. apply ok_ret.
  eapply close_step; [done|apply reads_coming, Hr6|]. intros r7 Hr7. apply ok_guard; [done|]. apply ok_ret.
  specialize (HQ r7 {| have_required_tags := have_required_tags tr; have_optional_tags := <[1%nat := true]> (have_optional_tags tr) |} Hr7 eq_refl).
  match goal with H : okl _ _ _ ?s _ |- okl _ _ _ ?s' _ => replace s' with s; [exact H|] end.
  unfold pstate, with_patterns. cbn. destruct T. cbn in *. subst. by destruct i.
Qed.

(** ** Positions *)

Definition position_ok (pos : tape_offset) : Prop :=
  partition_ok (off_partition pos) /\ 0 <= off_block pos < 2 ^ 64.

Lemma ok_location pos open calls r i T tr Q :
  idx_version (base i) = LTFS_INDEX_VERSION -> position_ok pos -> have_required_tags tr !! 4%nat = Some false ->
  reads open (tapepos_calls (cstr "location") pos ++ calls) (ahead r) ->
  (forall r', reads open calls (ahead r') ->
    okl top schema_tag (seen 4 tr) (pstate r' (set_base (set_pointers pos (backptr (base i)) (base i)) i) T) Q) ->
  okl top schema_tag tr (pstate r i T) Q.
Proof.
  intros Hver [Hp Hb] Htr Hr HQ. eapply open_step; [done| |exact Hr|]; [done|]. intros r1 Ho. pose proof Ho as (He & _).
  unfold schema_tag at 1. apply ok_bind; (eapply ok_version; [exact Hver|]). dispatch. apply ok_bind, ok_required; [done|].
  apply ok_bind, ok_not_empty; [done|]. apply ok_bind, ok_get. apply ok_bind, ok_or.
  eapply (ok_tapepos _ _ _ pos); [done|done|done|exact Ho|]. intros r2 Hr2. apply ok_bind, ok_on_base, ok_ret. by apply HQ.
Qed.

Lemma ok_backptr pos open calls r i T tr Q :
  idx_version (base i) = LTFS_INDEX_VERSION -> (off_block pos <> 0 -> position_ok pos) ->
  backptr (base i) = {| off_partition := 0; off_block := 0 |} ->
  have_optional_tags tr !! 0%nat = Some false ->
  reads open (backptr_calls pos ++ calls) (ahead r) ->
  (forall r' tr', reads open calls (ahead r') -> have_required_tags tr' = have_required_tags tr ->
    have_optional_tags tr' !! 1%nat = have_optional_tags tr !! 1%nat ->
    okl top schema_tag tr'
      (pstate r' (set_base (set_pointers (selfptr (base i))
         (if off_block pos =? 0 then {| off_partition := 0; off_block := 0 |} else pos) (base i)) i) T) Q) ->
  okl top schema_tag tr (pstate r i T) Q.
Proof.
  intros Hver Hok Hi Htr Hr HQ. unfold backptr_calls in Hr. destruct (Z.eqb_spec (off_block pos) 0) as [E|E].
  - specialize (HQ r tr Hr eq_refl eq_refl). rewrite <- Hi in HQ.
    assert (Hid : set_base (set_pointers (selfptr (base i)) (backptr (base i)) (base i)) i = i) by (by destruct i as [[]]).
    by rewrite Hid in HQ.
  - destruct (Hok E) as [Hp Hb]. eapply open_step; [done| |exact Hr|]; [done|]. intros r1 Ho. pose proof Ho as (He & _).
    unfold schema_tag at 1. apply ok_bind; (eapply ok_version; [exact Hver|]). dispatch. apply ok_bind, ok_optional; [done|].
    apply ok_bind, ok_not_empty; [done|]. apply ok_bind, ok_get. apply ok_bind, ok_or.
    eapply (ok_tapepos _ _ _ pos); [done|done|done|exact Ho|]. intros r2 Hr2. apply ok_bind, ok_on_base, ok_ret.
    apply HQ; [exact Hr2|done|]. by destruct (have_optional_tags tr) as [|? [|? ?]].
Qed.

(** ** Unknown tags *)

Lemma ok_index_tags tags open calls r i T tr (Q : tracking -> parse_state -> Prop) :
  idx_version (base i) = LTFS_INDEX_VERSION -> Forall (fun t => raw_name t ∉ schema_tags) tags ->
  reads (top :: open) (tag_calls tags ++ End' :: calls) (ahead r) ->
  (forall r', reads open calls (ahead r') -> Q tr (pstate r' (set_index_tags (index_tags i ++ tags) i) T)) ->
  okl top schema_tag tr (pstate r i T) Q.
Proof.
  intros Hver Ht. revert r i Hver. induction Ht as [|t tags Ht _ IH]; intros r i Hver Hr HQ.
  - eapply close_step; [done|apply reads_coming, Hr|]. intros r' Hr'. specialize (HQ r' Hr').
    rewrite app_nil_r in HQ. by destruct i.
  - eapply okl_raw; [done|apply reads_coming, Hr|]. intros n l Hraw. rewrite moved_pstate in *.
    unfold schema_tag at 1. apply ok_bind; (eapply ok_version; [exact Hver|]).
    assert (Hk : forall k, k ∈ schema_tags -> bool_decide (raw_name t = k) = false)
      by (intros k Hk; apply bool_decide_eq_false_2; congruence).
    repeat (rewrite Hk by (by apply (bool_decide_eq_true_1 _)); cbv iota). rewrite andb_false_r.
    apply ok_bind, ok_get, ok_bind. eapply ok_preserve; [exact Hraw|]. intros n2 l2 Hl2. rewrite moved_pstate.
    apply ok_bind, ok_on_index, ok_ret. apply IH; [exact Hver|exact Hl2|]. intros r' Hr'. cbn. rewrite <- app_assoc.
    by apply HQ.
Qed.

(** ** The top of the document *)

Lemma ok_parser_init calls r i T (Q : Z -> parse_state -> Prop) c :
  encoding r = Some (cstr "UTF-8") -> in_start_tag c = false ->
  reads [] (xmlTextWriterStartDocument (cstr "UTF-8") :: xmlTextWriterSetIndent 1 :: xmlTextWriterSetIndentString []
    :: Start top :: xmlTextWriterWriteAttribute (cstr "version") LTFS_INDEX_VERSION_STR :: c :: calls) (ahead r) ->
  (forall r', reads [top] (c :: calls) (ahead r') -> Q LTFS_INDEX_VERSION (pstate r' i T)) ->
  okp (_xml_parser_init top LTFS_INDEX_VERSION_MIN LTFS_INDEX_VERSION_MAX) (pstate r i T) Q.
Proof.
  intros Henc Hc Hr HQ. eapply (ok_document_start raw_name top [] LTFS_INDEX_VERSION_STR);
    [exact Henc|done|exact Hr|done|done|]. intros n l Hl. rewrite moved_pstate. by apply HQ.
Qed.

(** ** The whole Index *)

Record header_ok (creator : cstring) (idx : schema_index) : Prop := {
  header_creator : creator <> [];
  header_uuid : uuid_ok (idx_vol_uuid (base idx));
  header_generation : 0 <= generation (base idx) < 2 ^ 32;
  header_time : time_ok (mod_time (base idx));
  header_self : position_ok (selfptr (base idx));
  header_back : off_block (backptr (base idx)) <> 0 -> position_ok (backptr (base idx));
  header_name : volume_name_ok icu (volume_name idx);
  header_policy : policy_ok (original_criteria idx);
  header_comment t : commit_message idx = Some t -> Z.of_nat (length t) <= INDEX_MAX_COMMENT_LEN;
  header_tags : Forall (fun t => raw_name t ∉ schema_tags) (index_tags idx)
}.

(** What is read of the Index, apart from the tree: nothing is written of its flags,
    and an empty comment and the position 0 are not written. *)
Definition index_read (creator : cstring) (idx : schema_index) : schema_index :=
  let b := base idx in
  {| base := {| idx_creator := creator; idx_vol_uuid := idx_vol_uuid b; generation := generation b;
                mod_time := mod_time b; selfptr := selfptr b;
                backptr := if off_block (backptr b) =? 0 then {| off_partition := 0; off_block := 0 |} else backptr b;
                dirty := false; atime_dirty := false; use_atime := false; idx_version := LTFS_INDEX_VERSION |};
     volume_name := volume_name idx; criteria_allow_update := criteria_allow_update idx;
     original_criteria := policy_read (original_criteria idx);
     commit_message := match commit_message idx with Some [] => None | _ => commit_message idx end;
     index_tags := index_tags idx; symlink_conflict := [] |}.

(** The tree when the root directory is reached *)
Definition before_root (u : Z) (idx : schema_index) (T : fs_state) : fs_state :=
  let T := set_criteria (policy_read (original_criteria idx)) T in
  set_counters (fresh T) (inode_number T) u T.

Lemma ok_directory u c ts vn n open calls r i T tr Q :
  idx_version (base i) = LTFS_INDEX_VERSION -> volume_name_ok icu vn ->
  ready T -> root T <> 0 -> root T < fresh T -> heap T !! root T = Some n ->
  common_ok icu raw_name c -> c_uid c = 1 -> 1 <= u -> uid_number T = u ->
  Forall (storable icu raw_name bs u) ts -> NoDup (map tree_name ts) ->
  xattrlist n = [] -> preserved_tags n = [] -> child_list n = [] -> 0 <= link_count n < 2 ^ 32 ->
  have_required_tags tr !! 6%nat = Some false ->
  reads open (root_calls icu vn (XDir c ts) ++ calls) (ahead r) ->
  (forall r' T', reads open calls (ahead r') ->
    let n' := with_dir (fresh T) c ts n in
    grown (root T) (all_nodes ts) (sum_files ts) (sum_below bs ts + entry_blocks bs ts) T (with_node (root T) n' T') ->
    placed_all bs (heap (with_node (root T) n' T')) (root T) true (fresh T) ts ->
    okl top schema_tag (seen 6 tr) (pstate r' (set_volume_name vn i) (with_node (root T) n' T')) Q) ->
  okl top schema_tag tr (pstate r i T) Q.
Proof.
  intros Hver Hvn HT H0 Hlt Hroot Hc Hu Hu' HU Hst Hnd Hx Ht Hk Hl Htr Hr HQ.
  assert (Hd : exists k ks, in_start_tag k = false /\ root_calls icu vn (XDir c ts) = Start (cstr "directory") :: k :: ks).
  { destruct vn; (eexists _, _; split; [|reflexivity]; done). }
  destruct Hd as (k & ks & Hks & Hcalls). rewrite Hcalls in Hr. cbn [app] in Hr.
  eapply open_step; [done|exact Hks|exact Hr|]. intros r1 Ho. pose proof Ho as (He & _). clear Hr.
  unfold schema_tag at 1. apply ok_bind; (eapply ok_version; [exact Hver|]). dispatch. apply ok_bind, ok_required; [done|].
  apply ok_bind, ok_not_empty; [done|]. apply ok_bind, ok_no_memory.
  eapply (ok_root icu raw_name before bs Hbs c ts vn n); [exact Hver|exact Hvn|exact HT|exact H0|exact Hlt|exact Hroot|exact Hc|exact Hu|lia
    |by rewrite HU|exact Hnd|exact Hx|exact Ht|exact Hk|exact Hl|rewrite Hcalls; exact Ho|].
  intros r' T' Hr' n' Hg Hall. apply ok_ret. exact (HQ r' T' Hr' Hg Hall).
Qed.

(** The calls as one list *)
Ltac flat Hr := repeat first [rewrite <- app_assoc in Hr | rewrite <- app_comm_cons in Hr].

(** The index as a record *)
Ltac tidy :=
  match goal with |- context [pstate _ ?i _] => let j := eval cbn in i in change i with j end.

Lemma ok_schema creator u idx c ts n calls r T (Q : unit -> parse_state -> Prop) :
  encoding r = Some (cstr "UTF-8") -> header_ok creator idx ->
  ready T -> root T <> 0 -> root T < fresh T -> heap T !! root T = Some n ->
  criteria_of T = no_policy -> uid_number T = 1 ->
  common_ok icu raw_name c -> c_uid c = 1 -> 1 <= u < 2 ^ 64 ->
  Forall (storable icu raw_name bs u) ts -> NoDup (map tree_name ts) ->
  xattrlist n = [] -> preserved_tags n = [] -> child_list n = [] -> 0 <= link_count n < 2 ^ 32 ->
  reads [] (schema_calls icu creator u idx (XDir c ts) ++ calls) (ahead r) ->
  (forall r' T',
    let n' := with_dir (fresh T) c ts n in
    grown (root T) (all_nodes ts) (sum_files ts) (sum_below bs ts + entry_blocks bs ts) (before_root u idx T)
      (with_node (root T) n' T') ->
    placed_all bs (heap (with_node (root T) n' T')) (root T) true (fresh T) ts ->
    Q tt (pstate r' (index_read creator idx) (with_node (root T) n' T'))) ->
  okp (_xml_parse_schema icu before (Some bs)) (pstate r new_schema_index T) Q.
Proof.
  intros Henc [Hcr Huu Hge Hti Hse Hba Hna Hpo Hco Hta] HT H0 Hlt Hroot Hcrit HU Hc Hu Hur Hst Hnd Hx Ht Hk Hl Hr HQ.
  unfold schema_calls in Hr. flat Hr.
  apply ok_bind. eapply (ok_parser_init _ r _ T _ (Leaf (cstr "creator") creator)); [exact Henc|done|exact Hr|].
  clear Hr. intros r1 Hr. apply ok_bind, ok_on_base, ok_bind, ok_on_index, ok_bind, ok_parse_tags.
  tidy. eapply (schema_leaf (cstr "creator")); [exact Hr|this_tag|done|exact Hcr|reflexivity|reflexivity
    |intros ? ? HQ1; apply ok_on_base, HQ1|]. clear Hr r1. intros r1 Hr.
  flat Hr. tidy.
  eapply (ok_comment (commit_message idx)); [reflexivity|exact Hco|reflexivity|reflexivity|exact Hr|].
  clear Hr r1. intros r1 tr1 Hr Htr1 Hopt1. tidy.
  eapply (schema_leaf (cstr "volumeuuid")); [exact Hr|this_tag|by rewrite Htr1|by apply uuid_not_empty|exact Huu|reflexivity
    |intros ? ? HQ1; apply ok_on_base, HQ1|]. clear Hr r1. intros r1 Hr. tidy.
  eapply (schema_leaf (cstr "generationnumber")); [exact Hr|this_tag|cbn; by rewrite Htr1|apply print_dec_not_empty; lia|apply parse_print; lia|reflexivity
    |intros ? ? HQ1; apply ok_on_base, HQ1|]. clear Hr r1. intros r1 Hr. tidy. rewrite (u32_small (generation (base idx))) by done.
  eapply (schema_leaf (cstr "updatetime")); [exact Hr|this_tag|cbn; by rewrite Htr1|by apply print_time_not_empty|by apply parse_print_time|reflexivity
    |intros ? ? HQ1; apply ok_on_base, HQ1|]. clear Hr r1. intros r1 Hr. tidy.
  flat Hr.
  eapply ok_location; [reflexivity|exact Hse|cbn; by rewrite Htr1|exact Hr|]. clear Hr r1. intros r1 Hr. tidy.
  eapply ok_backptr; [reflexivity|exact Hba|reflexivity| |exact Hr|].
  { cbn. by destruct (have_optional_tags tr1) as [|? [|? ?]]; inversion Hopt1. }
  clear Hr r1. intros r1 tr2 Hr Htr2 Hopt2. tidy.
  eapply (schema_leaf (cstr "allowpolicyupdate")); [exact Hr|this_tag|rewrite Htr2; cbn; by rewrite Htr1|apply print_bool_not_empty|apply parse_print_bool|reflexivity
    |intros ? ? HQ1; apply ok_on_index, HQ1|]. clear Hr r1. intros r1 Hr. tidy.
  flat Hr.
  eapply ok_policy; [reflexivity|exact Hpo|reflexivity|exact Hcrit| |exact Hr|].
  { cbn. rewrite Hopt2. cbn. by destruct (have_optional_tags tr1) as [|? [|? ?]]; inversion Hopt1. }
  clear Hr r1. intros r1 tr3 Hr Htr3. tidy.
  eapply (schema_leaf NEXTUID_TAGNAME); [exact Hr|this_tag|rewrite Htr3; cbn; rewrite Htr2; cbn; by rewrite Htr1|apply print_dec_not_empty; lia|apply parse_print; lia|reflexivity
    |intros ? ? HQ1; apply ok_raise_uids, HQ1|]. clear Hr r1. intros r1 Hr. tidy.
  match goal with |- okl _ _ _ (pstate _ _ ?t) _ => assert (HTu : t = before_root u idx T) end.
  { unfold before_root. destruct T. cbn in *. subst. destruct (Z.gtb_spec u 1); [done|]. by replace u with 1 by lia. }
  rewrite HTu. clear HTu. flat Hr.
  eapply (ok_directory u c ts (volume_name idx) n); [reflexivity|exact Hna| |exact H0|exact Hlt|exact Hroot|exact Hc|exact Hu|apply Hur|done
    |exact Hst|exact Hnd|exact Hx|exact Ht|exact Hk|exact Hl| |exact Hr|].
  { by destruct HT. }
  { cbn. rewrite Htr3. cbn. rewrite Htr2. cbn. by rewrite Htr1. }
  clear Hr r1. intros r1 T' Hr n' Hg Hall. tidy.
  eapply (ok_index_tags (index_tags idx)); [reflexivity|exact Hta|exact Hr|]. clear Hr r1. intros r1 Hr. tidy.
  apply ok_bind, ok_ret, ok_bind, ok_guard.
  { cbn. rewrite Htr3. cbn. rewrite Htr2. cbn. by rewrite Htr1. }
  apply ok_bind, ok_get, ok_ret. exact (HQ r1 T' Hg Hall).
Qed.

End read.
