(* ===== verification/XmlRoundTrip.v ===== *)
(** * The Index document: what is written is what is read

    The writer of the schema and its parser together: an index that can be stored,
    written by [_xml_write_schema] and read by [_xml_parse_schema] into an index just
    allocated, is the same index. *)

From S2P Require Import Prelude Errors TapeOps TapeDev Coherency Extents ExtentsSpec Volume FsRaw FsRawSpec.
From S2P Require Import TimeInternal TimeSpec Base64 Pathname IndexCriteria IndexCriteriaSpec FsTree FsGraph XmlLib XmlRead XmlWrite XmlSpec.
From S2P Require Import XmlWp XmlValues XmlTree XmlWriteSpec XmlReadOk XmlFileOk XmlDirOk XmlTreeOk XmlSchemaOk.
Open Scope Z_scope.
Open Scope ltfs_scope.

(** The entries of a directory, the oldest first. *)
Definition table_order (n : fsnode) : list Z := (rev (child_list n)).*2.

Lemma view_dir fuel order h d n nm :
  h !! d = Some n -> name n = Some nm -> isdir n = true ->
  view (S fuel) order h d = XDir (common_of nm n) <$> mapM (view fuel order h) (order n).
Proof. intros H1 H2 H3. cbn [view]. rewrite H1. cbn. rewrite H2. cbn. by rewrite H3. Qed.

Section view.
Context (icu : icu_lib) (raw_name : cstring -> cstring) (bs m : Z).

Lemma mapM_entries {A} (f : Z -> option A) ts ys :
  Forall2 (fun d y => f d = Some y) ts ys -> mapM f ts = Some ys.
Proof. intros H. by apply mapM_Some_2. Qed.

Lemma placed_views_of h p ts :
  Forall (fun t => forall p psn d, storable icu raw_name bs m t -> placed bs h p psn d t ->
            view (S (height t)) table_order h d = Some t) ts ->
  forall k a, (max_list_with height ts <= k)%nat -> Forall (storable icu raw_name bs m) ts ->
  placed_all bs h p true a ts ->
  Forall2 (fun x y => view (S k) table_order h x = Some y) (entries a ts).*2 ts.
Proof.
  intros IH k. induction IH as [|t ts Ht _ IHts]; intros a Hk Hst Hall; [constructor|].
  inversion Hall; subst. apply Forall_cons_1 in Hst as [Hst Hsts]. cbn in Hk. constructor.
  - eapply view_mono; [by eapply Ht|lia].
  - apply IHts; [lia|done|done].
Qed.

Lemma placed_view h t : forall p psn d,
  storable icu raw_name bs m t -> placed bs h p psn d t -> view (S (height t)) table_order h d = Some t.
Proof.
  induction t as [c len link es|c ts IH] using xtree_nested; intros p psn d Hst Hpl; inversion Hpl; subst; cbn [height].
  - cbn [view]. match goal with H : h !! d = _ |- _ => rewrite H end. cbn. destruct link as [t|]; cbn; [|by destruct c].
    destruct Hst as (_ & _ & _ & _ & _ & ->). by destruct c.
  - destruct Hst as (_ & _ & _ & _ & _ & Hst). apply fold_right_and in Hst.
    match goal with H : placed_all _ _ _ _ _ _ |- _ => rename H into Hall end.
    match goal with H : h !! d = _ |- _ => rewrite (view_dir _ _ _ _ _ _ H eq_refl eq_refl); clear H end.
    match goal with |- ?f <$> ?x = _ => enough (E : x = Some ts) by (rewrite E; by destruct c) end.
    unfold table_order. cbn [child_list dir_node node_of]. rewrite rev_involutive.
    apply mapM_entries. by eapply placed_views_of.
Qed.

Lemma placed_views h p ts : forall k a, (max_list_with height ts <= k)%nat ->
  Forall (storable icu raw_name bs m) ts -> placed_all bs h p true a ts ->
  Forall2 (fun x y => view (S k) table_order h x = Some y) (entries a ts).*2 ts.
Proof.
  intros k a Hk Hst Hall. eapply placed_views_of; [|done..]. apply List.Forall_forall. intros t _. apply placed_view.
Qed.

Lemma storable_values t : storable icu raw_name bs m t -> tree_values_ok icu t.
Proof.
  induction t as [c len link es|c ts IH] using xtree_nested; intros (_ & Hc & _ & Hst); (split; [|]); [|done| |].
  1,2: eapply List.Forall_impl; [|apply Hc]; intros x (_ & _ & Hx) v E; rewrite E in Hx; destruct Hx as [Hx|[Hx _]]; lia.
  destruct Hst as (_ & _ & Hst). apply fold_right_and in Hst. apply fold_right_and.
  induction IH as [|t ts Ht _ IHts]; [constructor|]. apply Forall_cons_1 in Hst as [H1 H2]. constructor; auto.
Qed.

End view.

(** A writer that makes no error and keeps the calls *)
Definition record (c : xml_call) (w : list xml_call) : Z * list xml_call := (0, w ++ [c]).

Lemma play_record calls w : play record calls w = (0, w ++ calls).
Proof.
  revert w. induction calls as [|c calls IH]; intros w; cbn; [by rewrite app_nil_r|].
  rewrite andb_false_r, IH, <- app_assoc. done.
Qed.

(** ** An index just allocated *)

Definition new_root (S0 : fs_state) : fsnode :=
  set_link_count 2 (new_dentry None (Some [SLASH]) (Some [SLASH]) true false (u64 (inode_number S0 + 1)) 1).

Definition new_tree (S0 : fs_state) : fs_state :=
  {| heap := <[fresh S0 := new_root S0]> (heap S0); fresh := fresh S0 + 1; root := fresh S0;
     inode_number := u64 (inode_number S0 + 1); uid_number := 1; file_count := 0; valid_blocks := 0;
     criteria_of := no_policy |}.

Lemma index_alloc S0 : ltfs_index_alloc S0 = Some (0, new_tree S0).
Proof.
  unfold ltfs_index_alloc, fs_allocate_dentry, malloc, update, update_state, get_state, bind_op, ret_op.
  cbn -[lookup insert new_dentry]. rewrite lookup_insert_eq. cbn -[lookup insert].
  unfold set_root, set_heap, new_tree. cbn -[lookup insert]. by rewrite insert_insert_eq.
Qed.

Lemma new_tree_ready S0 : (forall x, fresh S0 <= x -> heap S0 !! x = None) -> ready (new_tree S0).
Proof.
  intros Ha. constructor; [|apply u64_range|cbn; lia..]. intros x Hx. cbn in *. rewrite lookup_insert_ne by lia. apply Ha. lia.
Qed.

(** ** The round trip *)

Section roundtrip.
Context (icu : icu_lib) (raw_name : cstring -> cstring) (before : Z) (bs : Z).

(** An index that can be stored: [c] and [ts] are what is below its root. *)
Record index_storable (creator : cstring) (s : fs_state) (idx : schema_index) (c : common) (ts : list xtree) : Prop := {
  store_root : root s <> 0;
  store_view : view (S (base.size (heap s))) (sorted_children s) (heap s) (root s) = Some (XDir c ts);
  store_name : c_name c = [SLASH];
  store_common : common_ok icu raw_name c;
  store_uid : c_uid c = 1;
  store_uids : 1 <= uid_number s < 2 ^ 64;
  store_entries : Forall (storable icu raw_name bs (uid_number s)) ts;
  store_names : NoDup (map tree_name ts);
  store_header : header_ok icu raw_name creator idx
}.

Lemma writer_plays creator s idx c ts :
  index_storable creator s idx c ts ->
  _xml_write_schema record icu creator s idx [] = Some (0, schema_calls icu creator (uid_number s) idx (XDir c ts)).
Proof.
  intros [Hr Hv Hn Hc Hu Hus Hst Hnd Hh].
  rewrite (schema_yields record icu s idx (S (base.size (heap s))) (XDir c ts) Hv creator Hr (le_n _)).
  - by rewrite play_record.
  - split.
    + eapply List.Forall_impl; [|apply Hc]. intros x (_ & _ & Hx) v E. rewrite E in Hx. destruct Hx as [Hx|[Hx _]]; lia.
    + apply fold_right_and. eapply List.Forall_impl; [|exact Hst]. apply storable_values.
  - by eexists _, _.
Qed.

Lemma root_view c ts n T T' d :
  let n' := with_dir (fresh T) c ts n in
  Forall (storable icu raw_name bs (uid_number T)) ts -> name n = Some (c_name c) -> isdir n = true ->
  placed_all bs (heap (with_node d n' T')) d true (fresh T) ts ->
  view (S (height (XDir c ts))) table_order (heap (with_node d n' T')) d = Some (XDir c ts).
Proof.
  intros n' Hst Hn Hd Hall. rewrite (view_dir _ _ _ _ n' (c_name c)); [|apply with_node_lookup|exact Hn|exact Hd].
  assert (Hc : common_of (c_name c) n' = c) by (by destruct c). rewrite Hc.
  assert (E : mapM (view (height (XDir c ts)) table_order (heap (with_node d n' T'))) (table_order n') = Some ts).
  2:{ by rewrite E. }
  unfold table_order at 2. cbn [child_list n' with_dir with_entries]. cbn [height].
  unfold n' at 2. cbn. rewrite rev_involutive. apply mapM_entries. by eapply placed_views.
Qed.

(** The tree that is read, as the parser leaves it *)
Lemma document_read creator s idx c ts S0 r :
  0 < bs -> index_storable creator s idx c ts ->
  (forall x, fresh S0 <= x -> heap S0 !! x = None) -> 0 < fresh S0 ->
  encoding r = Some (cstr "UTF-8") ->
  reads raw_name [] (schema_calls icu creator (uid_number s) idx (XDir c ts)) (ahead r) ->
  let T := before_root (uid_number s) idx (new_tree S0) in
  exists s' T',
    _xml_parse_schema icu before (Some bs) {| ps_reader := r; ps_index := new_schema_index; ps_tree := new_tree S0 |}
      = Some (inr tt, s')
    /\ ps_index s' = index_read creator idx
    /\ ps_tree s' = with_node (fresh S0) (with_dir (fresh T) c ts (new_root S0)) T'
    /\ grown (fresh S0) (all_nodes ts) (sum_files ts) (sum_below bs ts + entry_blocks bs ts) T (ps_tree s')
    /\ placed_all bs (heap (ps_tree s')) (fresh S0) true (fresh T) ts.
Proof.
  intros Hbs [Hroot Hv Hn Hc Hu Hus Hst Hnd Hh] Hfree Hpos Henc Hr T.
  pose proof (new_tree_ready S0 Hfree) as HT.
  assert (Hok : okp (_xml_parse_schema icu before (Some bs)) (pstate r new_schema_index (new_tree S0)) (fun _ s' =>
    exists T', ps_index s' = index_read creator idx
    /\ ps_tree s' = with_node (fresh S0) (with_dir (fresh T) c ts (new_root S0)) T'
    /\ grown (fresh S0) (all_nodes ts) (sum_files ts) (sum_below bs ts + entry_blocks bs ts) T (ps_tree s')
    /\ placed_all bs (heap (ps_tree s')) (fresh S0) true (fresh T) ts)).
  { eapply (ok_schema icu raw_name before bs Hbs creator (uid_number s) idx c ts (new_root S0) []);
      [exact Henc|exact Hh|exact HT|cbn; lia|cbn; lia|apply lookup_insert_eq|done|done|exact Hc|exact Hu|exact Hus|exact Hst|exact Hnd
      |done..|by rewrite app_nil_r|].
    intros r' T' n' Hg Hall. by exists T'. }
  apply ok_run in Hok as ([] & s' & Hrun & T' & Hpost). by exists s', T'.
Qed.

(** C4: an index that can be stored survives being written and read.
    [_xml_write_schema] succeeds, and whatever nodes the reader of the XML library
    makes of the document, [_xml_parse_schema] accepts them and fills an index that
    was just allocated with the same identity, generation, positions, policy, comment
    and unknown tags ([index_read]); the tree it builds has the same contents in the
    same order, every name, time stamp, unique id, extent, link target, extended
    attribute and unknown tag included; and its counters are those of the tree that was
    written. *)
Theorem index_document_roundtrip creator s idx c ts S0 T0 :
  0 < bs -> index_storable creator s idx c ts ->
  (forall x, fresh S0 <= x -> heap S0 !! x = None) -> 0 < fresh S0 -> ltfs_index_alloc S0 = Some (0, T0) ->
  exists calls,
    _xml_write_schema record icu creator s idx [] = Some (0, calls)
    /\ forall r, encoding r = Some (cstr "UTF-8") -> reads raw_name [] calls (ahead r) ->
       exists s',
         _xml_parse_schema icu before (Some bs) {| ps_reader := r; ps_index := new_schema_index; ps_tree := T0 |}
           = Some (inr tt, s')
         /\ ps_index s' = index_read creator idx
         /\ view (S (height (XDir c ts))) table_order (heap (ps_tree s')) (root (ps_tree s')) = Some (XDir c ts)
         /\ uid_number (ps_tree s') = uid_number s
         /\ file_count (ps_tree s') = u64 (sum_files ts)
         /\ valid_blocks (ps_tree s') = u64 (below_blocks bs (XDir c ts))
         /\ criteria_of (ps_tree s') = policy_read (original_criteria idx).
Proof.
  intros Hbs Hs Hfree Hpos Halloc. eexists. split; [by apply writer_plays|]. intros r Henc Hr.
  rewrite index_alloc in Halloc. injection Halloc as <-.
  destruct (document_read _ _ _ _ _ S0 r Hbs Hs Hfree Hpos Henc Hr) as (s' & T' & Hrun & Hi & Ht & Hg & Hall).
  exists s'. destruct Hg as [G1 G2 G3 G4 G5 G6 G7 G8 G9]. split; [exact Hrun|]. rewrite G4, G6, G7, G8, G9.
  split_and!; try done.
  - rewrite Ht in Hall |- *.
    eapply (root_view c ts (new_root S0) (before_root (uid_number s) idx (new_tree S0)));
      [apply Hs|by rewrite (store_name _ _ _ _ _ Hs)|done|exact Hall].
  - cbn. by rewrite sum_Z_add.
Qed.

End roundtrip.

(** ** An example

    A root with a directory, a file in the directory, a file with an extent, two
    extended attributes and an unknown tag, and a symbolic link. *)

Definition sample_common (nm : string) (u : Z) : common :=
  {| c_name := cstr nm; c_readonly := false; c_creation := (1000000000, 5); c_change := (1000000001, 0);
     c_modify := (1000000002, 999999999); c_access := (1000000003, 0); c_backup := (1000000000, 5); c_uid := u;
     c_xattrs := []; c_tags := [] |}.

Definition sample_attributes (c : common) : common :=
  {| c_name := c_name c; c_readonly := true; c_creation := c_creation c; c_change := c_change c;
     c_modify := c_modify c; c_access := c_access c; c_backup := c_backup c; c_uid := c_uid c;
     c_xattrs := [(cstr "user.text", Some (cstr "value")); (cstr "user.raw", Some [1; 2; 3]); (cstr "user.none", None)];
     c_tags := [cstr "<vendor:note xmlns:vendor=''>x</vendor:note>"] |}.

Definition sample_extent : extent_info :=
  {| start := {| off_partition := 98; off_block := 7 |}; byteoffset := 0; bytecount := 600; fileoffset := 0 |}.

Definition sample_below : list xtree :=
  [XDir (sample_common "docs" 2) [XFile (sample_common "empty" 3) 0 None []];
   XFile (sample_attributes (sample_common "data" 4)) 600 None [sample_extent];
   XFile (sample_common "link" 5) 0 (Some (cstr "docs/empty")) []].

Definition sample_heap : gmap Z fsnode :=
  <[1 := dir_node None (Some [SLASH]) 1 1 (sample_common "/" 1) sample_below]> (
  <[2 := dir_node (Some 1) (Some (cstr "docs")) 2 2 (sample_common "docs" 2) [XFile (sample_common "empty" 3) 0 None []]]> (
  <[3 := file_node 512 2 3 (Some (cstr "empty")) (sample_common "empty" 3) 0 None []]> (
  <[4 := file_node 512 1 4 (Some (cstr "data")) (sample_attributes (sample_common "data" 4)) 600 None [sample_extent]]> (
  <[5 := file_node 512 1 5 (Some (cstr "link")) (sample_common "link" 5) 0 (Some (cstr "docs/empty")) []]> ∅)))).

Definition sample_tree : fs_state :=
  {| heap := sample_heap; fresh := 6; root := 1; inode_number := 5; uid_number := 5; file_count := 3; valid_blocks := 2;
     criteria_of := no_policy |}.

Definition sample_index : schema_index :=
  {| base := {| idx_creator := cstr "LTFS"; idx_vol_uuid := cstr "01234567-89ab-cdef-0123-456789abcdef";
                generation := 3; mod_time := (1000000004, 0);
                selfptr := {| off_partition := 97; off_block := 5 |};
                backptr := {| off_partition := 98; off_block := 9 |};
                dirty := true; atime_dirty := false; use_atime := false; idx_version := LTFS_INDEX_VERSION |};
     volume_name := Some (cstr "tape"); criteria_allow_update := true;
     original_criteria := {| have_criteria := true; max_filesize_criteria := 1048576;
                             glob_patterns := Some [cstr "*.jpg"; cstr "*.txt"]; glob_cache := None |};
     commit_message := Some (cstr "a comment"); index_tags := [cstr "<extra/>"]; symlink_conflict := [] |}.

(** The name of the element at the start of a text *)
Definition sample_raw_name (s : cstring) : cstring :=
  if bool_decide (s = cstr "<extra/>") then cstr "extra" else cstr "vendor:note".

Lemma sample_storable :
  index_storable ascii_icu sample_raw_name 512 (cstr "LTFS") sample_tree sample_index (sample_common "/" 1) sample_below.
Proof.
  assert (Ht : forall a b, 0 <= a < 2 ^ 31 -> 0 <= b <= 999999999 -> time_ok (a, b)).
  { intros a b Ha Hb. split; unfold in_time_range, LTFS_TIME_T_MIN, LTFS_TIME_T_MAX, LTFS_NSEC_MAX; cbn; lia. }
  assert (Hc : forall nm u, 0 < u < 2 ^ 64 -> common_ok ascii_icu sample_raw_name (sample_common nm u)).
  { intros nm u Hu. constructor; cbn; first [apply Ht; lia|lia|constructor]. }
  constructor.
  - done.
  - vm_compute. reflexivity.
  - done.
  - apply Hc. lia.
  - done.
  - cbn. lia.
  - assert (Hn : forall nm u, bool_decide (xml_parse_filename ascii_icu (cstr nm) = inr (cstr nm)) = true ->
      cstr nm <> [] -> named ascii_icu (sample_common nm u)).
    { intros nm u H1 H2. split; [by apply bool_decide_eq_true_1 in H1|done]. }
    assert (Hempty : file_ok 512 0 None []).
    { split; [lia|]. split; [split; [constructor|done]|]. split; [constructor|cbn; lia]. }
    assert (Hlink : file_ok 512 0 (Some (cstr "docs/empty")) []) by (split; [lia|done]).
    assert (Hdata : file_ok 512 600 None [sample_extent]).
    { split; [lia|]. split; [split|split]; repeat constructor; cbn; lia. }
    constructor; [|constructor; [|constructor; [|constructor]]].
    + refine (conj _ (conj _ (conj _ (conj _ (conj _ (conj (conj _ (conj _ (conj _ _))) I)))))); try exact Hempty;
        try (by apply Hn); try (apply Hc; lia); try (cbn; lia).
      repeat constructor. set_solver.
    + refine (conj _ (conj _ (conj _ Hdata))); [by apply Hn| |cbn; lia].
      constructor; cbn; try (apply Ht; lia); [lia| |].
      * constructor; [|constructor; [|constructor; [|constructor]]]; (split; [done|]; split; [done|]).
        -- by left.
        -- right. split; [done|]. split; [|done]. repeat constructor; lia.
        -- done.
      * repeat constructor. intros H. by apply (bool_decide_eq_true_2 _) in H.
    + refine (conj _ (conj _ (conj _ Hlink))); [by apply Hn|apply Hc; lia|cbn; lia].
  - apply (bool_decide_eq_true_1 _). by vm_compute.
  - assert (Hpos : forall p b, 97 <= p <= 122 -> 0 <= b < 2 ^ 64 -> position_ok {| off_partition := p; off_block := b |})
      by (intros; by split).
    constructor.
    + done.
    + by vm_compute.
    + cbn. lia.
    + apply Ht; lia.
    + apply Hpos; lia.
    + intros _. apply Hpos; lia.
    + split; [done|]. by vm_compute.
    + intros _. split; [cbn; lia|]. repeat constructor; by vm_compute.
    + intros t [= <-]. by vm_compute.
    + repeat constructor. intros H. by apply (bool_decide_eq_true_2 _) in H.
Qed.

(** A document as a reader reports it, without white space between the tags *)
Definition start_node (t : cstring) (attrs : list (cstring * cstring)) (empty : Z) (depth : nat)
    (outer : option cstring) : xml_node :=
  {| node_type := XML_ELEMENT_NODE; node_name := t; node_value := None; node_empty := empty;
     node_depth := Z.of_nat depth; node_attributes := attrs; node_outer := outer |}.
Definition text_node (v : cstring) (depth : nat) : xml_node :=
  {| node_type := XML_TEXT_NODE; node_name := cstr "#text"; node_value := Some v; node_empty := 0;
     node_depth := Z.of_nat depth; node_attributes := []; node_outer := None |}.
Definition end_node (t : cstring) (depth : nat) : xml_node :=
  {| node_type := XML_ELEMENT_DECL; node_name := t; node_value := None; node_empty := 0;
     node_depth := Z.of_nat depth; node_attributes := []; node_outer := None |}.

Definition sample_reader (l : list (option xml_node)) : text_reader :=
  {| encoding := Some (cstr "UTF-8"); here := start_node [] [] 0 0 None; ahead := l |}.

Ltac read_call :=
  eapply (reads_blanks _ _ _ [] _); [constructor|];
  lazymatch goal with
  | |- reads_call _ ?open (xmlTextWriterWriteElement ?t (Some ?c) :: _) _ =>
      eapply (reads_element _ open t c _ (start_node t [] 0 (length open) None) [text_node c (S (length open))]
                (end_node t (length open)));
        [by constructor|by constructor; [|left|]|by constructor|]
  | |- reads_call _ ?open (xmlTextWriterWriteRaw ?s :: _) _ =>
      first [eapply (reads_raw _ open s _ [start_node (cstr "extra") [] 1 (length open) (Some s)]);
               [by apply raw_empty|]
            |eapply (reads_raw _ open s _ (start_node (cstr "vendor:note") [] 0 (length open) (Some s) ::
                       [text_node (cstr "x") (S (length open))] ++ [end_node (cstr "vendor:note") (length open)]));
               [apply raw_element; [by constructor|done|by constructor; [split; by vm_compute|]|done|done]|]]
  | |- reads_call _ ?open (xmlTextWriterStartElement ?t :: xmlTextWriterEndElement :: _) _ =>
      eapply (reads_empty _ open t [] _ (start_node t [] 1 (length open) None)); [by constructor|]
  | |- reads_call _ ?open (xmlTextWriterStartElement ?t :: xmlTextWriterWriteAttribute ?k ?v
                           :: xmlTextWriterWriteBase64 ?d :: xmlTextWriterEndElement :: _) _ =>
      eapply (reads_base64 _ open t [(k, v)] d (cstr "AQID") _ (start_node t [(k, v)] 0 (length open) None)
                [text_node (cstr "AQID") (S (length open))] (end_node t (length open)));
        [done|by exists (cstr "AQID")|by constructor|by constructor; [|left|]|by constructor|]
  | |- reads_call _ ?open (xmlTextWriterStartElement ?t :: xmlTextWriterWriteAttribute ?k ?v :: ?c :: ?calls) _ =>
      eapply (reads_open _ open t [(k, v)] c calls (start_node t [(k, v)] 0 (length open) None)); [by constructor|done|]
  | |- reads_call _ ?open (xmlTextWriterStartElement ?t :: ?c :: ?calls) _ =>
      eapply (reads_open _ open t [] c calls (start_node t [] 0 (length open) None)); [by constructor|done|]
  | |- reads_call _ (?t :: ?open) (xmlTextWriterEndElement :: _) _ =>
      eapply (reads_close _ open t _ (end_node t (length open))); [by constructor|]
  | |- reads_call _ _ [] _ => apply (reads_end _ _ [])
  | |- reads_call _ _ (_ :: _) _ => eapply reads_no_node; [done|]
  end.

Lemma sample_document_reads calls :
  calls = schema_calls ascii_icu (cstr "LTFS") 5 sample_index (XDir (sample_common "/" 1) sample_below) ->
  exists l, reads sample_raw_name [] calls l.
Proof.
  intros E. vm_compute in E. subst calls. eexists. repeat read_call.
Qed.

Lemma index_document_roundtrip_witness :
  exists T0 calls r s',
    ltfs_index_alloc {| heap := ∅; fresh := 1; root := 0; inode_number := 0; uid_number := 0; file_count := 0;
                        valid_blocks := 0; criteria_of := no_policy |} = Some (0, T0)
    /\ _xml_write_schema record ascii_icu (cstr "LTFS") sample_tree sample_index [] = Some (0, calls)
    /\ reads sample_raw_name [] calls (ahead r)
    /\ _xml_parse_schema ascii_icu 0 (Some 512) {| ps_reader := r; ps_index := new_schema_index; ps_tree := T0 |}
       = Some (inr tt, s')
    /\ view 4 table_order (heap (ps_tree s')) (root (ps_tree s')) = Some (XDir (sample_common "/" 1) sample_below)
    /\ file_count (ps_tree s') = 3.
Proof.
  destruct (index_document_roundtrip ascii_icu sample_raw_name 0 512 _ _ _ _ _
              {| heap := ∅; fresh := 1; root := 0; inode_number := 0; uid_number := 0; file_count := 0;
                 valid_blocks := 0; criteria_of := no_policy |} _
              ltac:(lia) sample_storable ltac:(intros; apply lookup_empty) ltac:(cbn; lia) (index_alloc _))
    as (calls & Hw & Hread).
  destruct (sample_document_reads calls) as [l Hl].
  { pose proof (writer_plays _ _ _ _ _ _ _ _ sample_storable) as E. rewrite Hw in E. by injection E. }
  destruct (Hread (sample_reader l) eq_refl Hl)
    as (s' & Hp & Hi & Hv & Hu & Hf & _).
  eexists _, calls, (sample_reader l), s'. split; [apply index_alloc|]. split; [exact Hw|]. split; [exact Hl|]. split; [exact Hp|].
  split; [|rewrite Hf; reflexivity]. eapply view_mono; [exact Hv|cbn; lia].
Defined.
