(* ===== verification/XmlLoaded.v ===== *)
(** * A tree that was read is well formed

    The tree [_xml_parse_schema] builds from a document that was written satisfies the
    invariant of the tree operations, so everything proved of them holds of a
    mounted volume. *)

From S2P Require Import Prelude Errors TapeOps TapeDev Coherency Extents ExtentsSpec Volume FsRaw FsRawSpec.
From S2P Require Import TimeInternal TimeSpec Base64 Pathname IndexCriteria IndexCriteriaSpec FsTree FsGraph FsTreeSpec.
From S2P Require Import XmlLib XmlRead XmlWrite XmlSpec XmlValues XmlTree XmlWriteSpec XmlReadOk XmlFileOk XmlDirOk.
From S2P Require Import XmlTreeOk XmlSchemaOk XmlRoundTrip FsHistory.
Open Scope Z_scope.
Open Scope ltfs_scope.

(** ** Names *)

(** What ICU documents of [U8_NEXT]: an ASCII character is one byte, and the bytes of
    any other code point are not ASCII. *)
Class IcuAscii (icu : icu_lib) : Prop := {
  u8_next_ascii b s : b < 128 -> U8_NEXT icu b s = (b, s);
  u8_next_other b s c rest : 128 <= b -> U8_NEXT icu b s = (c, rest) -> 0 <= c ->
    exists t, s = t ++ rest /\ Forall (fun x => 128 <= x) t
}.

Lemma validate_no_slash icu `{IcuAscii icu} fuel s :
  0 <= validate_loop icu fuel s false -> Forall (fun b => b <> SLASH) s.
Proof.
  revert s. induction fuel as [|fuel IH]; intros [|b s] Hv; try constructor; cbn [validate_loop] in Hv; try done;
    destruct (Z.lt_ge_cases b 128) as [Hb|Hb].
  1,3: rewrite u8_next_ascii in Hv by done; destruct (Z.ltb_spec b 0); [done|].
  - intros ->. by rewrite orb_true_r in Hv.
  - apply IH. by destruct (_ || _).
  - unfold SLASH. lia.
  - destruct (U8_NEXT icu b s) as [c rest] eqn:E. destruct (Z.ltb_spec c 0); [done|].
    destruct (u8_next_other b s c rest Hb E) as (t & -> & Ht); [done|]. apply Forall_app_2.
    + eapply List.Forall_impl; [|exact Ht]. unfold SLASH. intros x Hx. lia.
    + apply IH. by destruct (_ || _).
Qed.

Lemma stored_name_ok icu `{IcuAscii icu} k : stored_name icu k -> k <> [] -> name_ok k.
Proof.
  intros Hk Hne. unfold stored_name, xml_parse_filename in Hk. destruct (pathname_normalize icu k) as [e|k']; [done|].
  destruct (Z.ltb_spec (pathname_validate_file icu k') 0) as [Hv|Hv]; [done|]. injection Hk as ->.
  unfold pathname_validate_file in Hv. destruct (Z.gtb_spec (pathname_strlen k) LTFS_FILENAME_MAX); [done|].
  split; [done|]. split; [|done]. by apply (validate_no_slash icu (length k)).
Qed.

Section loaded.
Context (icu : icu_lib) (raw_name : cstring -> cstring) (bs m : Z).

(** ** What is at an address *)

Lemma entry_in ts : forall a nm x, (nm, x) ∈ entries a ts -> forall h p, placed_all bs h p true a ts ->
  a <= x < a + Z.of_nat (all_nodes ts) /\ exists t, t ∈ ts /\ tree_name t = nm /\ placed bs h p (Some nm) x t
  /\ x + Z.of_nat (nodes t) <= a + Z.of_nat (all_nodes ts).
Proof.
  induction ts as [|t ts IH]; intros a nm x Hin h p Hall; cbn [entries] in Hin; [by apply elem_of_nil in Hin|].
  inversion Hall; subst. rewrite all_nodes_cons. pose proof (nodes_pos t).
  apply elem_of_cons in Hin as [[= -> ->]|Hin].
  - split; [lia|]. exists t. split_and!; [by left|done|done|lia].
  - destruct (IH _ _ _ Hin h p) as (Hx & t' & Ht & Hn & Hp & Hl); [done|]. split; [lia|].
    exists t'. split_and!; [by right|done|done|lia].
Qed.

(** [x] is an entry of the directory at [par]. *)
Definition entry_of (h : gmap Z fsnode) (lo par x : Z) (t : xtree) : Prop :=
  exists psn pp c us, lo <= par < x /\ placed bs h pp psn par (XDir c us) /\ (tree_name t, x) ∈ entries (par + 1) us.

Definition cells (h : gmap Z fsnode) (t : xtree) : Prop :=
  forall p psn d x, placed bs h p psn d t -> storable icu raw_name bs m t -> d < x < d + Z.of_nat (nodes t) ->
  exists par t', placed bs h par (Some (tree_name t')) x t' /\ storable icu raw_name bs m t' /\ entry_of h d par x t'.

Lemma cell_list h ts : Forall (cells h) ts -> forall p a x,
  placed_all bs h p true a ts -> Forall (storable icu raw_name bs m) ts -> a <= x < a + Z.of_nat (all_nodes ts) ->
  exists par t, placed bs h par (Some (tree_name t)) x t /\ storable icu raw_name bs m t
  /\ (par = p /\ (tree_name t, x) ∈ entries a ts \/ entry_of h a par x t).
Proof.
  intros Hts. induction Hts as [|t ts Ht _ IH]; intros p a x Hall Hst Hx; [unfold all_nodes in Hx; cbn in Hx; lia|].
  inversion Hall; subst. apply Forall_cons_1 in Hst as [Hst Hsts]. rewrite all_nodes_cons in Hx.
  destruct (decide (x = a)) as [->|Hne]; [exists p, t; split_and!; [done|done|left; split; [done|by left]]|].
  destruct (decide (x < a + Z.of_nat (nodes t))) as [Hlt|Hge].
  - destruct (Ht p (Some (tree_name t)) a x) as (par & t' & Hp & Hs & He); [done|done|lia|].
    exists par, t'. split_and!; [done|done|by right].
  - destruct (IH p (a + Z.of_nat (nodes t)) x) as (par & t' & Hp & Hs & He); [done|done|lia|].
    exists par, t'. split_and!; [done|done|]. destruct He as [[-> Hin]|(psn & pp & c & us & Hpar & Hrest)].
    + left. split; [done|by right].
    + right. exists psn, pp, c, us. split; [lia|done].
Qed.

Lemma cells_of h t : cells h t.
Proof.
  induction t as [c len link es|c ts IH] using xtree_nested; intros p psn d x Hp Hst Hx; [cbn in Hx; lia|].
  pose proof Hp as Hp'. inversion Hp; subst. destruct Hst as (_ & _ & _ & _ & _ & Hst). apply fold_right_and in Hst.
  cbn [nodes] in Hx. fold (all_nodes ts) in Hx.
  destruct (cell_list h ts IH d (d + 1) x) as (par & t' & Hp1 & Hs & He); [done|done|lia|].
  exists par, t'. split_and!; [done|done|]. destruct He as [[-> Hin]|(psn' & pp & c' & us & Hpar & Hrest)].
  - exists psn, p, c, ts. split; [lia|done].
  - exists psn', pp, c', us. split; [lia|done].
Qed.

(** Every address in between is a dentry below [p]: an entry of the table of [p] or of
    a directory in front of it. *)
Lemma cell h ts p a x :
  placed_all bs h p true a ts -> Forall (storable icu raw_name bs m) ts -> a <= x < a + Z.of_nat (all_nodes ts) ->
  exists par t, placed bs h par (Some (tree_name t)) x t /\ storable icu raw_name bs m t
  /\ (par = p /\ (tree_name t, x) ∈ entries a ts \/ entry_of h a par x t).
Proof. apply cell_list. apply List.Forall_forall. intros t _. apply cells_of. Qed.

(** ** Link counts *)

Lemma elem_of_rev {A} (x : A) l : x ∈ rev l <-> x ∈ l.
Proof. by rewrite !list_elem_of_In, <- in_rev. Qed.

Lemma subdirs_app g l l' : subdirs g (l ++ l') = subdirs g l + subdirs g l'.
Proof. induction l as [|[k d] l IH]; cbn; [done|]. rewrite IH. lia. Qed.

Lemma subdirs_rev g l : subdirs g (rev l) = subdirs g l.
Proof. induction l as [|[k d] l IH]; cbn; [done|]. rewrite subdirs_app, IH. cbn. lia. Qed.

Lemma subdirs_entries h p ts : forall a,
  placed_all bs h p true a ts -> subdirs (core_of <$> h) (entries a ts) = subdir_count ts.
Proof.
  induction ts as [|t ts IH]; intros a Hall; [done|]. inversion Hall; subst. cbn [entries subdirs].
  rewrite IH, subdir_count_cons by done. f_equal. unfold is_dir. rewrite lookup_fmap.
  match goal with H : placed _ _ _ _ _ t |- _ => inversion H; subst end;
    match goal with H : h !! a = _ |- _ => by rewrite H end.
Qed.

(** ** The graph *)

(** [h] holds the tree [ts] below the directory [r], from [a] on, and nothing else. *)
Record loaded (h : gmap Z fsnode) (r a : Z) (rn : fsnode) (ts : list xtree) : Prop := {
  load_root : h !! r = Some rn;
  load_first : 0 < r < a;
  load_placed : placed_all bs h r true a ts;
  load_storable : Forall (storable icu raw_name bs m) ts;
  load_names : NoDup (map tree_name ts);
  load_only x n : h !! x = Some n -> x = r \/ a <= x < a + Z.of_nat (all_nodes ts);
  root_kids : child_list rn = rev (entries a ts);
  root_up : parent rn = None;
  root_dir : isdir rn = true;
  root_refs : numhandles rn = 1;
  root_links : link_count rn = u32 (2 + subdir_count ts)
}.

Section graph.
Context (h : gmap Z fsnode) (r a : Z) (rn : fsnode) (ts : list xtree) (Hl : loaded h r a rn ts).

(** Below the root *)
Lemma loaded_cell x n : h !! x = Some n -> x <> r ->
  exists par t, placed bs h par (Some (tree_name t)) x t /\ storable icu raw_name bs m t /\ r <= par < x
  /\ exists pn, h !! par = Some pn /\ (tree_name t, x) ∈ child_list pn.
Proof.
  intros Hx Hne. destruct (load_only _ _ _ _ _ Hl x n Hx) as [->|Hr]; [done|].
  pose proof (load_first _ _ _ _ _ Hl) as Hf.
  destruct (cell h ts r a x) as (par & t & Hp & Hst & He); [apply Hl|apply Hl|done|].
  exists par, t. split; [done|]. split; [done|]. destruct He as [[-> Hin]|(psn & pp & c & us & Hpar & Hpl & Hin)].
  - split; [lia|]. exists rn. split; [apply Hl|]. rewrite (root_kids _ _ _ _ _ Hl). by apply elem_of_rev.
  - split; [lia|]. inversion Hpl; subst. eexists. split; [done|]. by apply elem_of_rev.
Qed.

(** The table of a dentry *)
Lemma loaded_table x n : h !! x = Some n ->
  exists b us, child_list n = rev (entries b us) /\ placed_all bs h x true b us /\ NoDup (map tree_name us)
  /\ (us <> [] -> isdir n = true) /\ numhandles n = 1
  /\ link_count n = u32 (b2z (isdir n) + 1 + subdir_count us).
Proof.
  intros Hx. destruct (decide (x = r)) as [->|Hne].
  - rewrite (load_root _ _ _ _ _ Hl) in Hx. injection Hx as <-. exists a, ts. destruct Hl as [H1 H2 H3 H4 H5 H6 H7 H8 H9 H10 H11].
    split_and!; try done. rewrite H11, H9. done.
  - destruct (loaded_cell x n Hx Hne) as (par & t & Hp & Hst & _).
    inversion Hp; subst; match goal with H : h !! x = Some ?n' |- _ => rewrite Hx in H; injection H as -> end.
    + exists 0, []. split_and!; [done|constructor|constructor|done|done|done].
    + destruct Hst as (_ & _ & _ & _ & Hnd & _). eexists _, _. split_and!; [reflexivity|done|done|done|done|done].
Qed.

(** Parent and name *)
Lemma loaded_up x n : h !! x = Some n -> x <> r ->
  exists par pn k, parent n = Some par /\ r <= par < x /\ h !! par = Some pn /\ name n = Some k
  /\ platform_safe_name n = Some k /\ (k, x) ∈ child_list pn /\ deleted n = false
  /\ stored_name icu k /\ k <> [].
Proof.
  intros Hx Hne. destruct (loaded_cell x n Hx Hne) as (par & t & Hp & Hst & Hpar & pn & Hpn & Hin).
  exists par, pn, (tree_name t). assert (Hname : named icu (tree_common t)) by (destruct t; apply Hst).
  inversion Hp; subst; match goal with H : h !! x = Some ?n' |- _ => rewrite Hx in H; injection H as -> end;
    destruct Hname; split_and!; (done || lia || apply Hin).
Qed.

Lemma loaded_graph : graph_ok (fun _ => 0) r None (core_of <$> h).
Proof.
  pose proof (load_first _ _ _ _ _ Hl) as Hf.
  assert (Hcore : forall x k, (core_of <$> h) !! x = Some k -> exists n, h !! x = Some n /\ k = core_of n).
  { intros x k Hx. rewrite lookup_fmap in Hx. destruct (h !! x) as [n|]; [|done]. injection Hx as <-. by exists n. }
  assert (Hup : forall x n, h !! x = Some n -> x <> r -> parent n <> None).
  { intros x n Hx Hne. destruct (loaded_up x n Hx Hne) as (par & _ & _ & -> & _). done. }
  assert (Hlinked : forall x n, h !! x = Some n -> linked r x (core_of n) = true).
  { intros x n Hx. unfold linked. destruct (Z.eqb_spec x r) as [->|Hne]; [done|]. cbn.
    apply bool_decide_eq_true_2. specialize (Hup x n Hx Hne). by destruct (parent n). }
  constructor.
  - exists (core_of rn). rewrite lookup_fmap, (load_root _ _ _ _ _ Hl). split; [done|]. split; [apply Hl|apply Hl].
  - intros p pn k c Hp Hin. apply Hcore in Hp as (n & Hp & ->). destruct (loaded_table p n Hp) as (b & us & Hk & Hall & _).
    cbn in Hin. rewrite Hk in Hin. rewrite elem_of_rev in Hin. destruct (entry_in _ _ _ _ Hin _ _ Hall) as (_ & t & _ & <- & Hpl & _).
    inversion Hpl; subst; eexists; (split; [rewrite lookup_fmap; match goal with H : h !! c = _ |- _ => rewrite H end; reflexivity|done]).
  - intros d n p Hd Hpar. apply Hcore in Hd as (n' & Hd & ->). destruct (decide (d = r)) as [->|Hne].
    { rewrite (load_root _ _ _ _ _ Hl) in Hd. injection Hd as <-. cbn in Hpar. by rewrite (root_up _ _ _ _ _ Hl) in Hpar. }
    destruct (loaded_up d n' Hd Hne) as (par & pn & k & H1 & _ & H2 & _ & H3 & H4 & H5 & _). cbn in Hpar. simplify_eq.
    exists (core_of pn), k. rewrite lookup_fmap, H2. done.
  - intros p pn Hp. apply Hcore in Hp as (n & Hp & ->). destruct (loaded_table p n Hp) as (b & us & Hk & _ & Hnd & _).
    cbn. rewrite Hk. change (NoDup (map fst (rev (entries b us)))). rewrite map_rev, <- Permutation_rev.
    change (NoDup (entries b us).*1). by rewrite entries_names.
  - intros p pn Hp Hkids. apply Hcore in Hp as (n & Hp & ->). destruct (loaded_table p n Hp) as (b & us & Hk & _ & _ & Hd & _).
    split; [|left; by apply Hlinked]. cbn in *. apply Hd. intros ->. by rewrite Hk in Hkids.
  - exists Z.to_nat. intros d n p Hd Hpar. apply Hcore in Hd as (n' & Hd & ->). destruct (decide (d = r)) as [->|Hne].
    { rewrite (load_root _ _ _ _ _ Hl) in Hd. injection Hd as <-. cbn in Hpar. by rewrite (root_up _ _ _ _ _ Hl) in Hpar. }
    destruct (loaded_up d n' Hd Hne) as (par & pn & k & H1 & H2 & _). cbn in Hpar. simplify_eq. lia.
  - intros d n Hd. apply Hcore in Hd as (n' & Hd & ->). rewrite Hlinked by done.
    destruct (loaded_table d n' Hd) as (b & us & _ & _ & _ & _ & Hr & _). cbn. by rewrite Hr.
  - intros d n Hd. apply Hcore in Hd as (n' & Hd & ->). destruct (loaded_table d n' Hd) as (b & us & _ & _ & _ & _ & Hr & _).
    cbn. rewrite Hr. lia.
  - intros d Hd. lia.
  - intros d. lia.
  - intros d n Hd. apply Hcore in Hd as (n' & Hd & ->). rewrite Hlinked by done.
    destruct (loaded_table d n' Hd) as (b & us & Hk & Hall & _ & _ & _ & Hc). cbn. rewrite Hk, subdirs_rev.
    by rewrite (subdirs_entries h d).
Qed.

Lemma loaded_node `{IcuAscii icu} x n :
  platform_safe_name rn = name rn -> out_of_sync rn = false -> h !! x = Some n -> node_ok n.
Proof.
  intros Hr Hs Hx. destruct (decide (x = r)) as [->|Hne].
  - rewrite (load_root _ _ _ _ _ Hl) in Hx. injection Hx as <-. constructor; [done|done|].
    by rewrite (root_up _ _ _ _ _ Hl).
  - destruct (loaded_up x n Hx Hne) as (par & pn & k & Hp & _ & _ & Hn & Hk & _ & _ & Hst & Hne').
    constructor; [|congruence|].
    + destruct (loaded_cell x n Hx Hne) as (? & t & Hpl & _). inversion Hpl; subst;
        match goal with H : h !! x = Some ?n' |- _ => rewrite Hx in H; by injection H as -> end.
    + intros k' _ Hk'. rewrite Hk in Hk'. injection Hk' as <-. by apply (stored_name_ok icu).
Qed.

End graph.
End loaded.

(** ** The tree that is read *)

Section document.
Context (icu : icu_lib) (raw_name : cstring -> cstring) (before bs : Z).

(** C5: the tree that is read is well formed.  When a document that was written is read
    into an index that was just allocated, the result has the invariant of the tree
    operations: no cycles, every dentry in the table of its parent under its name and
    once only, reference counts and link counts that fit, valid names.  So whatever is
    done to the volume after it was mounted, no operation of the tree is undefined and
    the invariant is kept. *)
Theorem document_tree_ok `{IcuAscii icu} creator s idx c ts S0 r :
  0 < bs -> index_storable icu raw_name bs creator s idx c ts ->
  heap S0 = ∅ -> 0 < fresh S0 -> encoding r = Some (cstr "UTF-8") ->
  reads raw_name [] (schema_calls icu creator (uid_number s) idx (XDir c ts)) (ahead r) ->
  exists s',
    _xml_parse_schema icu before (Some bs) {| ps_reader := r; ps_index := new_schema_index; ps_tree := new_tree S0 |}
      = Some (inr tt, s')
    /\ tree_ok (fun _ => 0) (ps_tree s')
    /\ forall graphemes now call, allowed (fun _ => 0) (ps_tree s') call ->
       exists f t, perform icu graphemes now call (ps_tree s') = Some (f, t) /\ tree_ok (f (fun _ => 0)) t.
Proof.
  intros Hbs Hs Hempty Hpos Henc Hr.
  destruct (document_read icu raw_name before bs creator s idx c ts S0 r Hbs Hs) as (s' & T' & Hrun & _ & Ht & Hg & Hall);
    [intros x _; by rewrite Hempty|done..|].
  exists s'. split; [exact Hrun|].
  enough (Hok : tree_ok (fun _ => 0) (ps_tree s')).
  { split; [exact Hok|]. intros graphemes now call Hal.
    apply wp_run, (perform_ok icu graphemes (fun _ => 0) _ now call Hok); [by intros d|exact Hal]. }
  cbn [fresh before_root set_counters set_criteria new_tree] in Hg, Hall, Ht.
  assert (Hroot : heap (ps_tree s') !! fresh S0 = Some (with_dir (fresh S0 + 1) c ts (new_root S0))).
  { rewrite Ht. apply with_node_lookup. }
  assert (Hl : loaded icu raw_name bs (uid_number s) (heap (ps_tree s')) (fresh S0) (fresh S0 + 1) (with_dir (fresh S0 + 1) c ts (new_root S0)) ts).
  { constructor; try done; [lia|apply Hs|apply Hs|]. intros x n Hx. destruct (decide (x = fresh S0)); [by left|right].
    destruct (Z.lt_ge_cases x (fresh S0 + 1)) as [Hlt|Hge].
    - rewrite (grown_same _ _ _ _ _ _ Hg) in Hx by (cbn; lia). cbn in Hx. rewrite lookup_insert_ne in Hx by lia. by rewrite Hempty in Hx.
    - split; [done|]. destruct (Z.lt_ge_cases x (fresh S0 + 1 + Z.of_nat (all_nodes ts))) as [|Hge']; [done|].
      rewrite (grown_above _ _ _ _ _ _ Hg) in Hx; [done|]. rewrite (grown_fresh _ _ _ _ _ _ Hg). cbn. lia. }
  assert (Hrt : root (ps_tree s') = fresh S0) by (by rewrite (grown_root _ _ _ _ _ _ Hg)).
  constructor.
  - rewrite Hrt. eapply loaded_graph, Hl.
  - intros d n Hd. eapply loaded_node; [exact Hl|done..|exact Hd].
  - intros d [n Hd]. rewrite (grown_fresh _ _ _ _ _ _ Hg). cbn.
    assert (Hx : d = fresh S0 \/ fresh S0 + 1 <= d < fresh S0 + 1 + Z.of_nat (all_nodes ts)) by (by eapply load_only).
    lia.
  - intros n Hn. rewrite Hrt, Hroot in Hn. by injection Hn as <-.
Qed.

End document.

#[export] Instance ascii_icu_ascii : IcuAscii ascii_icu.
Proof.
  split; cbn.
  - intros b s Hb. by rewrite (proj2 (Z.ltb_lt _ _)).
  - intros b s c rest Hb [= <- <-] Hc. destruct (Z.ltb_spec b 128); lia.
Qed.

Lemma document_tree_ok_witness :
  exists r s' f t,
    _xml_parse_schema ascii_icu 0 (Some 512) {| ps_reader := r; ps_index := new_schema_index; ps_tree := new_tree blank_state |}
      = Some (inr tt, s')
    /\ tree_ok (fun _ => 0) (ps_tree s')
    /\ perform ascii_icu ascii_graphemes (0, 0) (Open (cstr "/docs/empty")) (ps_tree s') = Some (f, t).
Proof.
  destruct (sample_document_reads _ eq_refl) as [l Hl].
  destruct (document_tree_ok ascii_icu sample_raw_name 0 512 _ _ _ _ _ blank_state (sample_reader l)
    ltac:(lia) sample_storable eq_refl ltac:(cbn; lia) eq_refl Hl) as (s' & Hrun & Hok & Hcalls).
  destruct (Hcalls ascii_graphemes (0, 0) (Open (cstr "/docs/empty")) I) as (f & t & Hp & _).
  exists (sample_reader l), s', f, t. split_and!; [exact Hrun|exact Hok|exact Hp].
Defined.
