(* ===== verification/Label.v ===== *)
(** * Labels

    [libltfs/label.c]; the label document, read by [xml_reader_libltfs.c] and written by
    [xml_writer_libltfs.c]; [ltfs_read_labels] of [ltfs_internal.c] and
    [ltfs_write_label] of [ltfs.c].

    Every partition starts with an ANSI label, a file mark, the label document and a
    file mark.  A string in a [char] array is the list of its characters before the
    first NUL. *)

From S2P Require Import Prelude Errors TimeInternal TapeOps TapeDev Coherency Volume XmlLib XmlRead XmlWrite TapeLoad.
Open Scope Z_scope.
Open Scope ltfs_scope.

Definition LTFS_LABEL_MAX : Z := 4096.
Definition LTFS_LABEL_VERSION_MIN : Z := MAKE_LTFS_VERSION 1 0 0.
Definition LTFS_LABEL_VERSION_MAX : Z := MAKE_LTFS_VERSION 2 99 99.
Definition LTFS_LABEL_VERSION : Z := MAKE_LTFS_VERSION 2 2 0.
Definition LTFS_LABEL_VERSION_STR : cstring := cstr "2.2.0".

(** ** [label.c] *)

Definition label_alloc : ltfs_label :=
  {| label_creator := None; label_version := LTFS_LABEL_VERSION; barcode := []; vol_uuid := [];
     format_time := (0, 0); blocksize := 0; enable_compression := false; this_partition := 0; partid_dp := 0;
     partid_ip := 0; part_num2id := (0, 0) |}.

Definition ltfs_is_valid_partid (id : Z) : bool := (97 <=? id) && (id <=? 122).

(** A digit or a capital letter *)
Definition barcode_char (c : Z) : bool := ((48 <=? c) && (c <=? 57)) || ((65 <=? c) && (c <=? 90)).

(** [strncmp(a, b, n) == 0] *)
Definition same_prefix (n : nat) (a b : cstring) : bool := bool_decide (take n a = take n b).

Definition label_compare (label1 label2 : ltfs_label) : Z :=
  if negb (same_prefix 6 (barcode label1) (barcode label2)) then - LTFS_LABEL_MISMATCH
  else if negb (same_prefix 36 (vol_uuid label1) (vol_uuid label2)) then - LTFS_LABEL_MISMATCH
  else if negb ((format_time label1).1 =? (format_time label2).1)
          || negb ((format_time label1).2 =? (format_time label2).2) then - LTFS_LABEL_MISMATCH
  else if negb (blocksize label1 =? blocksize label2) then - LTFS_LABEL_MISMATCH
  else if negb (Bool.eqb (enable_compression label1) (enable_compression label2)) then - LTFS_LABEL_MISMATCH
  else if negb (ltfs_is_valid_partid (partid_dp label1)) || negb (ltfs_is_valid_partid (partid_ip label1))
  then - LTFS_LABEL_MISMATCH
  else if partid_dp label1 =? partid_ip label1 then - LTFS_LABEL_MISMATCH
  else if negb (partid_dp label2 =? partid_dp label1) || negb (partid_ip label2 =? partid_ip label1)
  then - LTFS_LABEL_MISMATCH
  else if (negb (this_partition label1 =? partid_dp label1) && negb (this_partition label1 =? partid_ip label1))
          || (negb (this_partition label2 =? partid_dp label1) && negb (this_partition label2 =? partid_ip label1))
  then - LTFS_LABEL_MISMATCH
  else if this_partition label1 =? this_partition label2 then - LTFS_LABEL_MISMATCH
  else if negb (label_version label1 =? label_version label2) then - LTFS_LABEL_MISMATCH
  else if negb (default 0 (head (barcode label1)) =? 32) && negb (forallb barcode_char (barcode label1))
  then - LTFS_LABEL_MISMATCH
  else 0.

(** [memcpy(label + at, bytes, length bytes)] *)
Definition put_bytes (at_ : nat) (bytes l : list Z) : list Z :=
  take at_ l ++ bytes ++ drop (at_ + length bytes) l.

(** [size] is at least 29, or the buffer is written past its end. *)
Definition label_make_ansi_label (code : cstring) (size : nat) : list Z :=
  let label := put_bytes 0 (cstr "VOL1") (replicate size 32) in
  let label := if bool_decide (code = []) then label else put_bytes 4 (take 6 code) label in
  let label := put_bytes 10 (cstr "L") label in
  let label := put_bytes 24 (cstr "LTFS") label in
  put_bytes (size - 1) (cstr "4") label.

(** ** Checks of [ltfs.c] *)

Definition LTFS_MIN_BLOCKSIZE : Z := 4096.

(** [None]: NULL *)
Definition ltfs_validate_barcode (code : option cstring) : Z :=
  match code with
  | None => - LTFS_BARCODE_LENGTH
  | Some code =>
      let n := Z.of_nat (length code) in
      if (n =? 0) || (n <? 6) || (n >? 32) then - LTFS_BARCODE_LENGTH
      else if forallb barcode_char code then 0 else - LTFS_BARCODE_INVALID
  end.

Definition ltfs_string_toupper (code : cstring) : Z * cstring :=
  if bool_decide (code = []) then (- LTFS_BARCODE_LENGTH, code)
  else (0, map (fun c => if (97 <=? c) && (c <=? 122) then c - 32 else c) code).

(** ** The label document: reading *)

Record label_state := { lr_reader : text_reader; lr_label : ltfs_label }.

#[global] Instance label_state_reader : HasReader label_state := {
  get_reader := lr_reader;
  put_reader r s := {| lr_reader := r; lr_label := lr_label s |}
}.

Definition on_label (f : ltfs_label -> ltfs_label) : xop label_state unit :=
  modify_x (fun s => {| lr_reader := lr_reader s; lr_label := f (lr_label s) |}).

(** Changes of single fields *)
Definition set_label_creator (c : cstring) (l : ltfs_label) : ltfs_label :=
  set_label_data (Some c) (label_version l) (barcode l) (vol_uuid l) (format_time l) (blocksize l)
    (enable_compression l) l.
Definition set_label_version (v : Z) (l : ltfs_label) : ltfs_label :=
  set_label_data (label_creator l) v (barcode l) (vol_uuid l) (format_time l) (blocksize l)
    (enable_compression l) l.
Definition set_barcode (c : cstring) (l : ltfs_label) : ltfs_label :=
  set_label_data (label_creator l) (label_version l) c (vol_uuid l) (format_time l) (blocksize l)
    (enable_compression l) l.
Definition set_vol_uuid (u : cstring) (l : ltfs_label) : ltfs_label :=
  set_label_data (label_creator l) (label_version l) (barcode l) u (format_time l) (blocksize l)
    (enable_compression l) l.
Definition set_format_time (t : Z * Z) (l : ltfs_label) : ltfs_label :=
  set_label_data (label_creator l) (label_version l) (barcode l) (vol_uuid l) t (blocksize l)
    (enable_compression l) l.
Definition set_blocksize (b : Z) (l : ltfs_label) : ltfs_label :=
  set_label_data (label_creator l) (label_version l) (barcode l) (vol_uuid l) (format_time l) b
    (enable_compression l) l.
Definition set_enable_compression (c : bool) (l : ltfs_label) : ltfs_label :=
  set_label_data (label_creator l) (label_version l) (barcode l) (vol_uuid l) (format_time l) (blocksize l) c l.
Definition set_this_partition (p : Z) (l : ltfs_label) : ltfs_label :=
  set_partition_ids p (partid_dp l) (partid_ip l) (part_num2id l) l.
Definition set_partid_ip (p : Z) (l : ltfs_label) : ltfs_label :=
  set_partition_ids (this_partition l) (partid_dp l) p (part_num2id l) l.
Definition set_partid_dp (p : Z) (l : ltfs_label) : ltfs_label :=
  set_partition_ids (this_partition l) p (partid_ip l) (part_num2id l) l.

Definition location_tag (name : cstring) (tr : tracking) : xop label_state tracking :=
  if bool_decide (name = cstr "partition") then
    required_text 0 (cstr "partition") _xml_parse_partition (fun p => on_label (set_this_partition p)) tr
  else ignore_unrecognized_tag >>! ret_x tr.

Definition _xml_parse_label_location : xop label_state unit :=
  let! tr := parse_tags (cstr "location") location_tag (declare_tracking_arrays 1 0) in
  check_required_tags tr.

Definition partition_map_tag (name : cstring) (tr : tracking) : xop label_state tracking :=
  if bool_decide (name = cstr "index") then
    required_text 0 (cstr "index") _xml_parse_partition (fun p => on_label (set_partid_ip p)) tr
  else if bool_decide (name = cstr "data") then
    required_text 1 (cstr "data") _xml_parse_partition (fun p => on_label (set_partid_dp p)) tr
  else ignore_unrecognized_tag >>! ret_x tr.

Definition _xml_parse_partition_map : xop label_state unit :=
  let! tr := parse_tags (cstr "partitions") partition_map_tag (declare_tracking_arrays 2 0) in
  check_required_tags tr.

(** [xml_parse_ull(...) < 0 || value_int == 0] *)
Definition parse_blocksize (value : cstring) : Z + Z :=
  match xml_parse_ull value with
  | inl e => inl e
  | inr v => if v =? 0 then inl (-1) else inr v
  end.

Definition label_tag (name : cstring) (tr : tracking) : xop label_state tracking :=
  if bool_decide (name = cstr "creator") then
    required_text 0 (cstr "creator") inr (fun v => on_label (set_label_creator v)) tr
  else if bool_decide (name = cstr "formattime") then
    required_text 1 (cstr "formattime") parse_time_value (fun t => on_label (set_format_time t)) tr
  else if bool_decide (name = cstr "volumeuuid") then
    required_text 2 (cstr "volumeuuid") xml_parse_uuid (fun u => on_label (set_vol_uuid u)) tr
  else if bool_decide (name = cstr "location") then
    let! tr := check_required_tag 3 tr in
    assert_not_empty >>!
    or_minus_1 _xml_parse_label_location >>!
    ret_x tr
  else if bool_decide (name = cstr "partitions") then
    let! tr := check_required_tag 4 tr in
    assert_not_empty >>!
    or_minus_1 _xml_parse_partition_map >>!
    ret_x tr
  else if bool_decide (name = cstr "blocksize") then
    required_text 5 (cstr "blocksize") parse_blocksize (fun b => on_label (set_blocksize b)) tr
  else if bool_decide (name = cstr "compression") then
    required_text 6 (cstr "compression") xml_parse_bool (fun c => on_label (set_enable_compression c)) tr
  else ignore_unrecognized_tag >>! ret_x tr.

Definition _xml_parse_label : xop label_state unit :=
  let! version := or_minus_1 (_xml_parser_init (cstr "ltfslabel") LTFS_LABEL_VERSION_MIN LTFS_LABEL_VERSION_MAX) in
  on_label (set_label_version version) >>!
  let! tr := parse_tags (cstr "ltfslabel") label_tag (declare_tracking_arrays 7 0) in
  check_required_tags tr.

(** ** The label document: writing *)

Section writer.
Context {W : Type} (write : xml_call -> W -> Z * W).
Abbreviation emit := (emit write).

Definition write_label_document (creator : cstring) (partition : Z) (label : ltfs_label) : wop :=
  let '(_, fmt_time) := xml_format_time {| tv_sec := (format_time label).1; tv_nsec := (format_time label).2 |} in
  emit (xmlTextWriterStartDocument (cstr "UTF-8")) ;!
  ignoring (emit (xmlTextWriterSetIndent 1)) (
  ignoring (emit (xmlTextWriterSetIndentString (cstr "    "))) (
  emit (xmlTextWriterStartElement (cstr "ltfslabel")) ;!
  emit (xmlTextWriterWriteAttribute (cstr "version") LTFS_LABEL_VERSION_STR) ;!
  emit (xmlTextWriterWriteElement (cstr "creator") (Some creator)) ;!
  emit (xmlTextWriterWriteElement (cstr "formattime") (Some fmt_time)) ;!
  emit (xmlTextWriterWriteElement (cstr "volumeuuid") (Some (vol_uuid label))) ;!
  emit (xmlTextWriterStartElement (cstr "location")) ;!
  emit (xmlTextWriterWriteFormatElement (cstr "partition") (print_char (sel partition (part_num2id label)))) ;!
  emit xmlTextWriterEndElement ;!
  emit (xmlTextWriterStartElement (cstr "partitions")) ;!
  emit (xmlTextWriterWriteFormatElement (cstr "index") (print_char (partid_ip label))) ;!
  emit (xmlTextWriterWriteFormatElement (cstr "data") (print_char (partid_dp label))) ;!
  emit xmlTextWriterEndElement ;!
  emit (xmlTextWriterWriteFormatElement (cstr "blocksize") (print_long (blocksize label))) ;!
  emit (xmlTextWriterWriteElement (cstr "compression") (Some (print_bool (enable_compression label)))) ;!
  emit xmlTextWriterEndElement ;!
  emit xmlTextWriterEndDocument ;!
  done)).

End writer.

(** What the program uses of the XML library for labels: documents in memory.
    [new_document] is the writer over an empty buffer, [write_call] makes a call of
    it, [buffer_content] is what its buffer holds when it is freed; [reader_for] is
    [xmlReaderForMemory], [None] where it fails. *)
Record xml_memory := {
  document : Type;
  new_document : document;
  write_call : xml_call -> document -> Z * document;
  buffer_content : document -> list Z;
  reader_for : list Z -> option text_reader
}.

Section label.
Context (xmem : xml_memory).

(** [None]: NULL *)
Definition xml_make_label (creator : cstring) (partition : Z) (label : ltfs_label) : option (list Z) :=
  match write_label_document (write_call xmem) creator partition label (new_document xmem) with
  | Some (ret, doc) => if ret <? 0 then None else Some (buffer_content xmem doc)
  | None => None
  end.

(** The result and the label, which is filled as far as the document could be read *)
Definition xml_label_from_mem (buf : list Z) (label : ltfs_label) : option (Z * ltfs_label) :=
  match reader_for xmem buf with
  | None => Some (- LTFS_LIBXML2_FAILURE, label)
  | Some reader =>
      match _xml_parse_label {| lr_reader := reader; lr_label := label |} with
      | None => None
      | Some (inl _, s) => Some (- LTFS_LABEL_INVALID, lr_label s)
      | Some (inr _, s) => Some (0, lr_label s)
      end
  end.

(** ** Labels on tape *)

Context {D : Type} (ops : tape_ops D) (lops : load_ops D) (param0 : tc_drive_param).
Context (kmi : option (list Z -> Z * option (list Z))).
Implicit Types (vol : ltfs_volume D) (dev : device_data D).

(** [strcpy] of bytes that may hold a NUL *)
Fixpoint until_nul (l : list Z) : cstring :=
  match l with
  | [] => []
  | c :: l => if c =? 0 then [] else c :: until_nul l
  end.

(** A read that has to answer a file mark *)
Definition expect_filemark dev : (Z + unit) * device_data D :=
  let '(nread, _, dev) := tape_read ops LTFS_LABEL_MAX true kmi dev in
  (if nread <? 0 then inl (if nread =? - EDEV_EOD_DETECTED then - LTFS_LABEL_INVALID else nread)
   else if 0 <? nread then inl (- LTFS_LABEL_INVALID)
   else inr tt, dev).

(** The ANSI label; what it says of the barcode *)
Definition read_ansi_label dev : (Z + cstring) * device_data D :=
  let '(nread, buf, dev) := tape_read ops LTFS_LABEL_MAX true kmi dev in
  (if nread <? 0 then
     inl (if (nread =? - EDEV_EOD_DETECTED) || (nread =? - EDEV_RECORD_NOT_FOUND) then - LTFS_LABEL_INVALID else nread)
   else if negb (nread =? 80) then inl (- LTFS_LABEL_INVALID)
   else if negb (bool_decide (until_nul (take 4 (drop 24 buf)) = cstr "LTFS")) then inl (- LTFS_LABEL_INVALID)
   else inr (until_nul (take 6 (drop 4 buf))), dev).

(** From the label document on *)
Definition read_label_document (label : ltfs_label) dev : option (Z * ltfs_label * device_data D) :=
  let '(nread, buf, dev) := tape_read ops LTFS_LABEL_MAX true kmi dev in
  if nread <? 0
  then Some (if nread =? - EDEV_EOD_DETECTED then - LTFS_LABEL_INVALID else nread, label, dev)
  else match xml_label_from_mem buf label with
  | None => None
  | Some (ret, label) =>
      if ret <? 0 then Some (ret, label, dev)
      else match expect_filemark dev with
      | (inl ret, dev) => Some (ret, label, dev)
      | (inr _, dev) => Some (0, label, dev)
      end
  end.

(** [label] is what the code has in the structure before the call; the callers do not
    look at it when the read fails. *)
Definition ltfs_read_one_label (partition : Z) (label : ltfs_label) dev
    : option (Z * ltfs_label * device_data D) :=
  let '(ret, bufsize, dev) := tape_get_max_blocksize lops param0 dev in
  if ret <? 0 then Some (ret, label, dev)
  else if bufsize <? LTFS_LABEL_MAX then Some (- LTFS_SMALL_BLOCKSIZE, label, dev)
  else
    let '(ret, dev) := tape_seek ops (seek_pos partition 0) dev in
    if ret <? 0 then
      Some (if (ret <=? - LTFS_ERR_MIN) && (partition =? 1) then - LTFS_NOT_PARTITIONED else ret, label, dev)
    else match read_ansi_label dev with
    | (inl ret, dev) => Some (ret, label, dev)
    | (inr code, dev) =>
        let label := set_barcode code label in
        match expect_filemark dev with
        | (inl ret, dev) => Some (ret, label, dev)
        | (inr _, dev) => read_label_document label dev
        end
    end.

Definition set_label (l : ltfs_label) vol : ltfs_volume D :=
  {| vol_creator := vol_creator vol; label := l; index := index vol; device := device vol;
     ip_coh := ip_coh vol; dp_coh := dp_coh vol; ip_index_file_end := ip_index_file_end vol;
     dp_index_file_end := dp_index_file_end vol; rollback_mount := rollback_mount vol;
     reval := reval vol; last_pos := last_pos vol; last_size := last_size vol;
     last_block := last_block vol |}.

Definition ltfs_set_blocksize (bs : Z) vol : Z * ltfs_volume D :=
  if bs <? LTFS_MIN_BLOCKSIZE then (- LTFS_SMALL_BLOCKSIZE, vol)
  else (0, set_label (set_blocksize bs (label vol)) vol).

Definition ltfs_set_compression (enable : bool) vol : Z * ltfs_volume D :=
  (0, set_label (set_enable_compression enable (label vol)) vol).

(** Without a barcode, six blanks *)
Definition ltfs_set_barcode (code : option cstring) vol : Z * ltfs_volume D :=
  match code with
  | Some (_ :: _ as code) =>
      if negb (length code =? 6)%nat then (- LTFS_BARCODE_LENGTH, vol)
      else if negb (forallb barcode_char code) then (- LTFS_BARCODE_INVALID, vol)
      else (0, set_label (set_barcode code (label vol)) vol)
  | _ => (0, set_label (set_barcode (replicate 6 32) (label vol)) vol)
  end.

(** The label of a volume whose partitions carry these labels *)
Definition joined_label (label0 label1 old : ltfs_label) : ltfs_label :=
  set_partition_ids (this_partition old) (partid_dp label0) (partid_ip label0)
    (this_partition label0, this_partition label1)
    (set_label_data (label_creator label0) (label_version label0) (take 6 (barcode label0)) (take 36 (vol_uuid label0))
       (format_time label0) (blocksize label0) (enable_compression label0) old).

Definition ltfs_read_labels vol : option (Z * ltfs_volume D) :=
  match ltfs_read_one_label 0 label_alloc (device vol) with
  | None => None
  | Some (ret, label0, dev) =>
      let vol := set_device dev vol in
      if ret <? 0 then Some (ret, vol)
      else match ltfs_read_one_label 1 label_alloc (device vol) with
      | None => None
      | Some (ret, label1, dev) =>
          let vol := set_device dev vol in
          if ret <? 0 then Some (ret, vol)
          else
            let ret := label_compare label0 label1 in
            if ret <? 0 then Some (ret, vol)
            else Some (ret, set_label (joined_label label0 label1 (label vol)) vol)
      end
  end.

(** When the document cannot be written to tape, the sign of the error is lost. *)
Definition ltfs_write_label (partition : Z) vol : Z * ltfs_volume D :=
  let '(ret, dev) := tape_seek ops (seek_pos partition 0) (device vol) in
  if ret <? 0 then (ret, set_device dev vol)
  else
    let '(nw, dev) := tape_write ops (label_make_ansi_label (barcode (label vol)) 80) true false dev in
    if nw <? 0 then (nw, set_device dev vol)
    else
      let '(ret, dev) := tape_write_filemark ops 1 true false true dev in
      if ret <? 0 then (ret, set_device dev vol)
      else match xml_make_label (vol_creator vol) partition (label vol) with
      | None => (- LTFS_NO_MEMORY, set_device dev vol)
      | Some buf =>
          let '(nw, dev) := tape_write ops buf true false dev in
          if nw <? 0 then (- nw, set_device dev vol)
          else
            let '(ret, dev) := tape_write_filemark ops 1 true false true dev in
            (if ret <? 0 then ret else 0, set_device dev vol)
      end.

End label.
