(* ===== verification/LabelSpec.v ===== *)
(** * Labels: what is written is what is read

    The parser of the label document on the calls that wrote it; what
    [ltfs_write_label] leaves on a partition; and that [ltfs_read_labels] gets the
    label back from two partitions that begin this way. *)

From S2P Require Import Prelude Errors TimeInternal TapeOps TapeDev TapeDevSpec Append Coherency Volume FsRawReadSpec IndexReadSpec.
From S2P Require Import XmlLib XmlRead XmlWrite XmlSpec XmlWp XmlValues XmlTree XmlReadOk TapeLoad Label.
Open Scope Z_scope.
Open Scope ltfs_scope.

#[export] Instance label_reader_laws : ReaderLaws label_state.
Proof. split; by intros; destruct s. Qed.

(** ** The document *)

Definition label_calls (creator : cstring) (partition : Z) (l : ltfs_label) : list xml_call :=
  [ xmlTextWriterStartDocument (cstr "UTF-8"); xmlTextWriterSetIndent 1; xmlTextWriterSetIndentString (cstr "    ");
    Start (cstr "ltfslabel"); xmlTextWriterWriteAttribute (cstr "version") LTFS_LABEL_VERSION_STR;
    Leaf (cstr "creator") creator;
    Leaf (cstr "formattime") (print_time (format_time l));
    Leaf (cstr "volumeuuid") (vol_uuid l);
    Start (cstr "location"); Leaf (cstr "partition") (print_char (sel partition (part_num2id l))); End';
    Start (cstr "partitions"); Leaf (cstr "index") (print_char (partid_ip l));
    Leaf (cstr "data") (print_char (partid_dp l)); End';
    Leaf (cstr "blocksize") (print_long (blocksize l));
    Leaf (cstr "compression") (print_bool (enable_compression l));
    End'; xmlTextWriterEndDocument ].

Lemma label_yields {W} (write : xml_call -> W -> Z * W) creator partition l :
  yields write (write_label_document write creator partition l) (label_calls creator partition l).
Proof.
  unfold write_label_document, label_calls, print_time. destruct (xml_format_time _) as [? text]. cbn [snd].
  apply yields_emit; [done|]. do 2 (apply yields_ignoring; [done|]). repeat (apply yields_emit; [done|]). done.
Qed.

(** None, six blanks, or six digits and capital letters *)
Definition barcode_fine (code : cstring) : Prop :=
  code = [] \/ code = replicate 6 32 \/ length code = 6%nat /\ forallb barcode_char code = true.

(** A label that can be stored *)
Record label_fine (l : ltfs_label) : Prop := {
  fine_barcode : barcode_fine (barcode l);
  fine_uuid : uuid_ok (vol_uuid l);
  fine_uuid_length : length (vol_uuid l) = 36%nat;
  fine_time : time_ok (format_time l);
  fine_blocksize : 0 < blocksize l < 2 ^ 63;
  fine_dp : partition_ok (partid_dp l);
  fine_ip : partition_ok (partid_ip l);
  fine_differ : partid_dp l <> partid_ip l;
  fine_map : part_num2id l = (partid_dp l, partid_ip l) \/ part_num2id l = (partid_ip l, partid_dp l)
}.

Lemma fine_partition l p : label_fine l -> valid_part p -> partition_ok (sel p (part_num2id l)).
Proof. intros [_ _ _ _ _ Hd Hi _ [-> | ->]] [-> | ->]; done. Qed.

Definition lstate (r : text_reader) (l : ltfs_label) : label_state := {| lr_reader := r; lr_label := l |}.

Lemma moved_lstate n l r x : moved n l (lstate r x) = lstate (set_place n l r) x.
Proof. done. Qed.

(** What the document of [l] makes of the label [old] *)
Definition document_label (creator : cstring) (partition : Z) (l old : ltfs_label) : ltfs_label :=
  set_partition_ids (sel partition (part_num2id l)) (partid_dp l) (partid_ip l) (part_num2id old)
    (set_label_data (Some creator) LTFS_LABEL_VERSION (barcode old) (vol_uuid l) (format_time l) (blocksize l)
       (enable_compression l) old).

Section document.
Context (raw_name : cstring -> cstring).
Abbreviation reads := (reads raw_name).

(** A tag with text in the loop, stored in the label *)
Lemma text_tag {A} p body i name (conv : cstring -> Z + A) (f : A -> ltfs_label -> ltfs_label) tr c x
    open calls r l Q :
  reads open (Leaf name c :: calls) (ahead r) ->
  p <> cstr "#text" -> c <> [] -> have_required_tags tr !! i = Some false -> conv c = inr x ->
  (forall s, body name tr s = required_text i name conv (fun a => on_label (f a)) tr s) ->
  (forall r', reads open calls (ahead r') ->
    okl p body {| have_required_tags := <[i := true]> (have_required_tags tr); have_optional_tags := have_optional_tags tr |}
      (lstate r' (f x l)) Q) ->
  okl p body tr (lstate r l) Q.
Proof.
  intros Hr Hp Hc Hi Hx Hbody HQ. eapply (okl_element raw_name); [done|apply reads_coming, Hr|]. intros n k Hin.
  unfold okp at 1. rewrite Hbody. fold (okp (required_text i name conv (fun a => on_label (f a)) tr) (moved n k (lstate r l))
    (fun x' s' => okl p body x' s' Q)).
  eapply (ok_text_into raw_name i name conv _ (fun s => lstate (lr_reader s) (f x (lr_label s)))); [exact Hin|done|done|exact Hx|done|done|].
  intros n1 n2 l1 l2 Hl. rewrite !moved_lstate. cbn [lr_reader lr_label lstate]. apply HQ, Hl.
Qed.

Ltac same_tag := intros s; unfold label_tag, location_tag, partition_map_tag; dispatch; reflexivity.

(** Tags with tags in them *)
Lemma open_tag p body i name (m : xop label_state unit) tr t c calls open r l Q :
  reads open (Start name :: c :: calls) (ahead r) ->
  p <> cstr "#text" -> in_start_tag c = false -> have_required_tags tr !! i = Some false ->
  (forall s, body name tr s = (let! tr := check_required_tag i tr in assert_not_empty >>! or_minus_1 m >>! ret_x tr) s) ->
  (forall r', reads (name :: open) (c :: calls) (ahead r') ->
    okp m (lstate r' l) (fun _ s' => okl p body t s' Q)) ->
  t = {| have_required_tags := <[i := true]> (have_required_tags tr); have_optional_tags := have_optional_tags tr |} ->
  okl p body tr (lstate r l) Q.
Proof.
  intros Hr Hp Hc Hi Hbody Hm ->.
  eapply (okl_open raw_name _ _ _ _ [] c _ calls); [done|done|exact (reads_coming _ _ _ _ _ Hr)|].
  intros n k (He & _ & Ho). rewrite moved_lstate in *. unfold okp at 1. rewrite Hbody.
  match goal with |- match ?m' _ with _ => _ end =>
    change (okp m' (lstate (set_place n k r) l) (fun x' s' => okl p body x' s' Q)) end.
  apply ok_bind, ok_required; [done|]. apply ok_bind, ok_not_empty; [done|]. apply ok_bind, ok_or.
  eapply ok_mono; [apply Hm, Ho|]. intros [] s' HQ. apply ok_ret, HQ.
Qed.

Lemma close_tag {L} p body (x : L) open calls r l (Q : L -> label_state -> Prop) :
  p <> cstr "#text" -> reads (p :: open) (End' :: calls) (ahead r) ->
  (forall r', reads open calls (ahead r') -> Q x (lstate r' l)) ->
  okl p body x (lstate r l) Q.
Proof.
  intros Hp Hr HQ. eapply (okl_close raw_name); [done|exact (reads_coming _ _ _ _ _ Hr)|]. intros n k Hk. by apply HQ.
Qed.

Lemma ok_label creator partition l old r (Q : unit -> label_state -> Prop) :
  encoding r = Some (cstr "UTF-8") -> creator <> [] -> label_fine l -> valid_part partition ->
  reads [] (label_calls creator partition l) (ahead r) ->
  (forall r', Q tt (lstate r' (document_label creator partition l old))) ->
  okp _xml_parse_label (lstate r old) Q.
Proof.
  intros Henc Hcr Hl Hp Hr HQ. pose proof (fine_partition l partition Hl Hp) as Hpart.
  destruct Hl as [_ Hu _ Ht Hb Hd Hi _ _]. unfold label_calls in Hr.
  apply ok_bind, ok_or. eapply (ok_document_start raw_name _ _ _ _ _ LTFS_LABEL_VERSION); [exact Henc| |exact Hr|..];
    [done|vm_compute; reflexivity|done|].
  clear Hr. intros n k Hr. rewrite moved_lstate. set (r1 := set_place n k r). change k with (ahead r1) in Hr. clearbody r1.
  apply ok_bind. split; [done|]. apply ok_bind, ok_parse_tags. cbn [lr_reader lr_label lstate].
  eapply (text_tag _ _ 0); [exact Hr|done|exact Hcr|done|reflexivity|same_tag|]. clear Hr r1. intros r1 Hr.
  eapply (text_tag _ _ 1); [exact Hr|done|by apply print_time_not_empty|done|by apply parse_print_time|same_tag|].
  clear Hr r1. intros r1 Hr.
  eapply (text_tag _ _ 2); [exact Hr|done|by apply uuid_not_empty|done|exact Hu|same_tag|]. clear Hr r1. intros r1 Hr.
  eapply (open_tag _ _ 3); [exact Hr|done|done|done|same_tag| |reflexivity]. clear Hr r1. intros r1 Hr.
  apply ok_bind, ok_parse_tags.
  eapply (text_tag _ _ 0); [exact Hr|done|by apply print_partition_not_empty|done|by apply parse_print_partition|same_tag|].
  clear Hr r1. intros r1 Hr. eapply close_tag; [done|exact Hr|]. clear Hr r1. intros r1 Hr. apply ok_guard; [done|].
  eapply (open_tag _ _ 4); [exact Hr|done|done|done|same_tag| |reflexivity]. clear Hr r1. intros r1 Hr.
  apply ok_bind, ok_parse_tags.
  eapply (text_tag _ _ 0); [exact Hr|done|by apply print_partition_not_empty|done|by apply parse_print_partition|same_tag|].
  clear Hr r1. intros r1 Hr.
  eapply (text_tag _ _ 1); [exact Hr|done|by apply print_partition_not_empty|done|by apply parse_print_partition|same_tag|].
  clear Hr r1. intros r1 Hr. eapply close_tag; [done|exact Hr|]. clear Hr r1. intros r1 Hr. apply ok_guard; [done|].
  assert (Hsize : parse_blocksize (print_long (blocksize l)) = inr (blocksize l)).
  { unfold parse_blocksize, print_long. rewrite (proj2 (Z.ltb_lt _ _)), parse_print by lia.
    by rewrite (proj2 (Z.eqb_neq _ _)) by lia. }
  assert (Hne : print_long (blocksize l) <> []).
  { unfold print_long. rewrite (proj2 (Z.ltb_lt _ _)) by lia. apply print_dec_not_empty. lia. }
  eapply (text_tag _ _ 5); [exact Hr|done|exact Hne|done|exact Hsize|same_tag|]. clear Hr r1. intros r1 Hr.
  eapply (text_tag _ _ 6); [exact Hr|done|apply print_bool_not_empty|done|apply parse_print_bool|same_tag|].
  clear Hr r1. intros r1 Hr. eapply close_tag; [done|exact Hr|]. clear Hr r1. intros r1 Hr. apply ok_guard; [done|].
  apply HQ.
Qed.

End document.

(** ** On tape *)

(** The XML library on one document: the calls succeed, what they leave in memory is
    not longer than a label may be and is read back as [reads] says. *)
Record document_kept (raw_name : cstring -> cstring) (xmem : xml_memory) (calls : list xml_call) (doc : list Z) : Prop := {
  kept_calls : exists d, play (write_call xmem) calls (new_document xmem) = (0, d) /\ buffer_content xmem d = doc;
  kept_length : 0 < Z.of_nat (length doc) <= LTFS_LABEL_MAX;
  kept_reader : exists r, reader_for xmem doc = Some r /\ encoding r = Some (cstr "UTF-8") /\ reads raw_name [] calls (ahead r)
}.

Lemma make_label_kept raw_name xmem creator partition l doc :
  document_kept raw_name xmem (label_calls creator partition l) doc ->
  xml_make_label xmem creator partition l = Some doc.
Proof.
  intros [(d & Hd & <-) _ _]. unfold xml_make_label. rewrite (label_yields (write_call xmem) creator partition l _), Hd. done.
Qed.

Lemma label_from_mem_kept raw_name xmem creator partition l old doc :
  creator <> [] -> label_fine l -> valid_part partition ->
  document_kept raw_name xmem (label_calls creator partition l) doc ->
  xml_label_from_mem xmem doc old = Some (0, document_label creator partition l old).
Proof.
  intros Hcr Hl Hp [_ _ (r & Hr & Henc & Hreads)]. unfold xml_label_from_mem. rewrite Hr.
  pose proof (ok_label raw_name creator partition l old r
    (fun _ s => lr_label s = document_label creator partition l old) Henc Hcr Hl Hp Hreads ltac:(done)) as Hok.
  apply ok_run in Hok as ([] & s & Hrun & Hs). unfold lstate in Hrun. by rewrite Hrun, Hs.
Qed.

(** The six characters of a barcode on tape *)
Definition printed_barcode (code : cstring) : cstring :=
  if bool_decide (code = []) then replicate 6 32 else code.

Lemma ansi_label_reads code :
  barcode_fine code ->
  let buf := label_make_ansi_label code 80 in
  length buf = 80%nat /\ until_nul (take 4 (drop 24 buf)) = cstr "LTFS"
  /\ until_nul (take 6 (drop 4 buf)) = printed_barcode code.
Proof.
  intros [->|[->|[Hlen Hc]]]; [by vm_compute..|].
  do 6 (destruct code as [|? code]; [done|]). destruct code; [|done].
  split; [reflexivity|]. split; [reflexivity|].
  change (take 6 (drop 4 _)) with [z; z0; z1; z2; z3; z4]. cbn in Hc. bool_to_prop. unfold barcode_char in *.
  cbn [until_nul]. repeat (rewrite (proj2 (Z.eqb_neq _ _)) by (intros ->; done)). reflexivity.
Qed.

Section tape.
Context {D : Type} (ops : tape_ops D) {tape_at : D -> medium -> tc_position -> Prop}.
Context `{!TapeOk ops tape_at}.
Context (raw_name : cstring -> cstring) (xmem : xml_memory).
Implicit Types (vol : ltfs_volume D) (dev : device_data D).
Abbreviation dev_at := (dev_at (tape_at := tape_at)).

(** The records at the start of a partition *)
Definition label_records (l : ltfs_label) (doc : list Z) : list tape_record :=
  [Data (label_make_ansi_label (barcode l) 80); Filemark; Data doc; Filemark].

(** A label that was written is alone on its partition. *)
Lemma write_label_ok partition vol vol' m doc :
  dev_at (device vol) m -> valid_part partition ->
  barcode_fine (barcode (label vol)) ->
  xml_make_label xmem (vol_creator vol) partition (label vol) = Some doc -> 0 < Z.of_nat (length doc) <= LTFS_LABEL_MAX ->
  ltfs_write_label xmem ops partition vol = (0, vol') ->
  exists dev, vol' = set_device dev vol
  /\ dev_at dev (write_at partition 0 (label_records (label vol) doc) m).
Proof.
  intros Hat Hv Hcode Hdoc Hlen Hrun. unfold ltfs_write_label in Hrun.
  destruct (ansi_label_reads _ Hcode) as [Hansi _].
  destruct (tape_seek ops (seek_pos partition 0) (device vol)) as [ret d1] eqn:Hseek.
  destruct (Z.ltb_spec ret 0) as [Hn|Hn]; [injection Hrun as -> _; lia|].
  destruct (tape_seek_ok ops (seek_pos partition 0) (device vol) m ret d1 Hat Hv ltac:(cbn; lia) Hseek Hn)
    as (-> & A1 & P1 & B1 & _).
  assert (B1' : block (position d1) = 0).
  { rewrite B1. unfold dest_block. reflexivity. }
  pose proof (appended_start ops m partition 0 _ d1 A1 P1 B1' eq_refl) as Ap1.
  destruct (tape_write ops _ true false d1) as [nw d2] eqn:Hw.
  destruct (Z.ltb_spec nw 0) as [Hn2|Hn2]; [injection Hrun as -> _; lia|].
  destruct (appended_data ops _ _ _ _ _ _ _ _ _ _ _ Ap1 ltac:(rewrite Hansi; lia) ltac:(cbn; lia) Hw Hn2) as [Ap2 _].
  destruct (tape_write_filemark ops 1 true false true d2) as [r3 d3] eqn:Hf.
  destruct (Z.ltb_spec r3 0) as [Hn3|Hn3]; [injection Hrun as -> _; lia|].
  destruct (appended_marks ops _ _ _ _ _ _ _ _ 1 _ _ _ Ap2 ltac:(lia) ltac:(cbn; lia) Hf Hn3) as (_ & Ap3 & _).
  change (replicate (Z.to_nat 1) Filemark) with [Filemark] in Ap3.
  rewrite Hdoc in Hrun.
  destruct (tape_write ops doc true false d3) as [nw4 d4] eqn:Hw4.
  destruct (Z.ltb_spec nw4 0) as [Hn4|Hn4]; [injection Hrun as E _; lia|].
  assert (Hl31 : 0 < Z.of_nat (length doc) < 2 ^ 31) by (unfold LTFS_LABEL_MAX in Hlen; lia).
  destruct (appended_data ops _ _ _ _ _ _ _ _ _ _ _ Ap3 Hl31 ltac:(cbn; lia) Hw4 Hn4) as [Ap4 _].
  destruct (tape_write_filemark ops 1 true false true d4) as [r5 d5] eqn:Hf5.
  destruct (Z.ltb_spec r5 0) as [Hn5|Hn5]; [injection Hrun as -> _; lia|].
  destruct (appended_marks ops _ _ _ _ _ _ _ _ 1 _ _ _ Ap4 ltac:(lia) ltac:(cbn; lia) Hf5 Hn5) as (_ & (A5 & _) & _).
  injection Hrun as <-. exists d5. split; [done|]. exact A5.
Qed.

(** ** Reading *)

Context (lops : load_ops D) (kmi : option (list Z -> Z * option (list Z))).
Hypothesis reliable : tape_reliable ops tape_at.

(** The drive tells its block size, and a label fits. *)
Hypothesis parameters : forall junk d m pos, tape_at d m pos ->
  let '(ret, param, d') := op_get_parameters lops junk d in
  0 <= ret /\ LTFS_LABEL_MAX <= max_blksize param /\ tape_at d' m pos.

Lemma max_blocksize_ok junk dev m :
  dev_at dev m -> exists bs d', tape_get_max_blocksize lops junk dev = (0, bs, set_backend (position dev) d' dev)
  /\ LTFS_LABEL_MAX <= bs /\ dev_at (set_backend (position dev) d' dev) m.
Proof.
  intros Hat. pose proof (parameters junk _ _ _ Hat) as Hp. unfold tape_get_max_blocksize.
  destruct (op_get_parameters lops junk (backend_data dev)) as [[ret param] d']. destruct Hp as (Hr & Hb & Hat').
  rewrite (proj2 (Z.ltb_ge _ _)) by done. by exists (max_blksize param), d'.
Qed.

(** The partition begins with a label. *)
Definition begins_with (m : medium) (partition : Z) (l : ltfs_label) (doc : list Z) : Prop :=
  label_records l doc `prefix_of` part_of m partition.

Lemma begins_record m partition l doc i r :
  begins_with m partition l doc -> label_records l doc !! i = Some r -> record_at m partition (Z.of_nat i) = Some r.
Proof.
  intros [rest Hm] Hr. unfold record_at. rewrite (proj2 (Z.ltb_ge _ _)), Nat2Z.id, Hm by lia. by apply lookup_app_l_Some.
Qed.

Lemma expect_filemark_ok dev m :
  dev_at dev m -> record_at m (TapeOps.partition (position dev)) (block (position dev)) = Some Filemark ->
  exists dev', expect_filemark ops kmi dev = (inr tt, dev') /\ dev_at dev' m
  /\ TapeOps.partition (position dev') = TapeOps.partition (position dev)
  /\ block (position dev') = block (position dev) + 1.
Proof.
  intros Hat Hrec. unfold expect_filemark.
  destruct (read_record_any ops kmi reliable dev m LTFS_LABEL_MAX true _ Hat ltac:(done) Hrec) as (p2 & b2 & -> & H).
  by exists (set_backend p2 b2 dev).
Qed.

(** The label of a partition as it is read *)
Definition partition_label (creator : cstring) (partition : Z) (l : ltfs_label) : ltfs_label :=
  document_label creator partition l (set_barcode (printed_barcode (barcode l)) label_alloc).

Lemma read_one_label_ok junk creator partition l doc dev m :
  dev_at dev m -> valid_part partition -> creator <> [] -> label_fine l ->
  document_kept raw_name xmem (label_calls creator partition l) doc -> begins_with m partition l doc ->
  exists dev', ltfs_read_one_label xmem ops lops junk kmi partition label_alloc dev
    = Some (0, partition_label creator partition l, dev') /\ dev_at dev' m.
Proof.
  intros Hat Hv Hcr Hl Hdoc Hm. unfold ltfs_read_one_label.
  destruct (max_blocksize_ok junk dev m Hat) as (bs & d0 & -> & Hbs & A0). set (dev0 := set_backend _ d0 dev) in *.
  rewrite (proj2 (Z.ltb_ge bs _)) by done. cbn [Z.ltb Z.compare].
  assert (Heod : 0 <= 0 <= eod_at m partition) by (unfold eod_at; lia).
  pose proof (tape_seek_reaches ops m partition 0 dev0 (data_reliable _ _ reliable) A0 Hv Heod) as Hreach.
  destruct (tape_seek ops (seek_pos partition 0) dev0) as [ret d1] eqn:Hseek. cbn [fst] in Hreach.
  destruct (tape_seek_ok ops (seek_pos partition 0) _ _ _ _ A0 Hv ltac:(cbn; lia) Hseek Hreach) as (-> & A1 & P1 & B1 & _).
  change (dest_block m (seek_pos partition 0)) with 0 in B1. cbn [TapeOps.partition seek_pos] in P1.
  cbn [Z.ltb Z.compare].
  destruct (ansi_label_reads _ (fine_barcode _ Hl)) as (Hansi & Hltfs & Hcode).
  assert (Hrec : forall i r dev', label_records l doc !! i = Some r -> TapeOps.partition (position dev') = partition ->
    block (position dev') = Z.of_nat i -> record_at m (TapeOps.partition (position dev')) (block (position dev')) = Some r).
  { intros i r dev' Hi -> ->. by eapply begins_record. }
  unfold read_ansi_label.
  destruct (read_record_any ops kmi reliable d1 m LTFS_LABEL_MAX true _ A1 ltac:(done) (Hrec 0%nat _ _ eq_refl P1 B1))
    as (p2 & b2 & -> & A2 & P2 & B2). set (d2 := set_backend p2 b2 d1) in *.
  rewrite take_ge by (rewrite Hansi; vm_compute; lia). rewrite Hansi, Hltfs, Hcode.
  rewrite bool_decide_eq_true_2 by done. change (Z.of_nat 80 <? 0) with false.
  change (Z.of_nat 80 =? 80) with true. cbn [negb].
  destruct (expect_filemark_ok d2 m A2) as (d3 & -> & A3 & P3 & B3).
  { apply (Hrec 1%nat); cbn [position d2 set_backend]; [done|by rewrite P2|]. by rewrite B2, B1. }
  unfold read_label_document.
  destruct (read_record_any ops kmi reliable d3 m LTFS_LABEL_MAX true (Data doc) A3 ltac:(done)) as (p4 & b4 & -> & A4 & P4 & B4).
  { apply (Hrec 2%nat); [done|rewrite P3; cbn [position d2 set_backend]; by rewrite P2|].
    rewrite B3; cbn [position d2 set_backend]. by rewrite B2, B1. }
  destruct (kept_length _ _ _ _ Hdoc) as [Hd0 Hd1]. rewrite take_ge by lia. rewrite (proj2 (Z.ltb_ge _ _)) by lia.
  rewrite (label_from_mem_kept raw_name xmem creator partition l _ doc Hcr Hl Hv Hdoc). cbn [Z.ltb Z.compare].
  destruct (expect_filemark_ok (set_backend p4 b4 d3) m A4) as (d5 & -> & A5 & _).
  { apply (Hrec 3%nat); cbn [position set_backend]; [done|rewrite P4, P3; cbn [position d2 set_backend]; by rewrite P2|].
    rewrite B4, B3; cbn [position d2 set_backend]. by rewrite B2, B1. }
  by exists d5.
Qed.

(** ** Both partitions *)

Lemma same_prefix_refl n a : same_prefix n a a = true.
Proof. by apply bool_decide_eq_true_2. Qed.

Lemma partition_ok_valid p : partition_ok p -> ltfs_is_valid_partid p = true.
Proof. intros [H1 H2]. unfold ltfs_is_valid_partid. by rewrite !(proj2 (Z.leb_le _ _)). Qed.

Lemma partition_labels_agree creator l :
  label_fine l -> label_compare (partition_label creator 0 l) (partition_label creator 1 l) = 0.
Proof.
  intros Hl. unfold label_compare. cbn -[same_prefix head forallb]. rewrite !same_prefix_refl, !Z.eqb_refl, eqb_reflx.
  rewrite !partition_ok_valid by apply Hl. rewrite (proj2 (Z.eqb_neq _ _) (fine_differ _ Hl)). cbn [negb andb orb].
  assert (Hb : negb (default 0 (head (printed_barcode (barcode l))) =? 32)
               && negb (forallb barcode_char (printed_barcode (barcode l))) = false).
  { unfold printed_barcode. case_bool_decide as E; [done|].
    destruct (fine_barcode _ Hl) as [?|[->|[_ ->]]]; [done..|]. apply andb_false_r. }
  rewrite Hb. pose proof (fine_differ _ Hl) as Hne.
  destruct (fine_map _ Hl) as [-> | ->]; cbn [sel fst snd]; rewrite ?Z.eqb_refl; cbn [negb andb orb].
  all: rewrite ?andb_false_r; cbn [orb andb]; by rewrite (proj2 (Z.eqb_neq _ _)) by congruence.
Qed.

(** The label [l] of a volume, with its creator, read into [old] *)
Definition label_read (creator : cstring) (l old : ltfs_label) : ltfs_label :=
  set_partition_ids (this_partition old) (partid_dp l) (partid_ip l) (part_num2id l)
    (set_label_data (Some creator) LTFS_LABEL_VERSION (printed_barcode (barcode l)) (vol_uuid l)
       (format_time l) (blocksize l) (enable_compression l) old).

Lemma labels_joined creator l old :
  label_fine l -> joined_label (partition_label creator 0 l) (partition_label creator 1 l) old = label_read creator l old.
Proof.
  intros Hl. unfold joined_label, label_read, partition_label, document_label.
  cbn -[take]. rewrite !take_ge.
  - by destruct (part_num2id l).
  - by rewrite (fine_uuid_length _ Hl).
  - unfold printed_barcode. case_bool_decide; [done|]. by destruct (fine_barcode _ Hl) as [?|[->|[-> _]]].
Qed.

(** C22: labels round trip.  When [ltfs_write_label] has returned 0 for both partitions of
    a tape, each of them holds the ANSI label, a file mark, the label document and a
    file mark, and nothing else.  From any tape whose partitions begin with what is
    there then, whatever has been written behind, [ltfs_read_labels] gets the label
    back: it returns 0, the labels of the two partitions are found to agree, and the
    volume has the creator, UUID, format time, block size, compression and partition
    map that were written, and the barcode, or six blanks where there was none. *)
Theorem labels_roundtrip vol m vol1 vol2 doc0 doc1 :
  dev_at (device vol) m -> label_fine (label vol) -> vol_creator vol <> [] ->
  document_kept raw_name xmem (label_calls (vol_creator vol) 0 (label vol)) doc0 ->
  document_kept raw_name xmem (label_calls (vol_creator vol) 1 (label vol)) doc1 ->
  ltfs_write_label xmem ops 0 vol = (0, vol1) -> ltfs_write_label xmem ops 1 vol1 = (0, vol2) ->
  exists m2, dev_at (device vol2) m2
  /\ part_of m2 0 = label_records (label vol) doc0 /\ part_of m2 1 = label_records (label vol) doc1
  /\ forall junk reading m3, dev_at (device reading) m3 ->
       part_of m2 0 `prefix_of` part_of m3 0 -> part_of m2 1 `prefix_of` part_of m3 1 ->
       exists dev, ltfs_read_labels xmem ops lops junk kmi reading
         = Some (0, set_label (label_read (vol_creator vol) (label vol) (label reading)) (set_device dev reading))
       /\ dev_at dev m3.
Proof.
  intros Hat Hl Hcr Hd0 Hd1 Hw0 Hw1.
  assert (V0 : valid_part 0) by by left. assert (V1 : valid_part 1) by by right.
  destruct (write_label_ok 0 vol vol1 m doc0 Hat V0 (fine_barcode _ Hl) (make_label_kept _ _ _ _ _ _ Hd0)
    (kept_length _ _ _ _ Hd0) Hw0) as (dev1 & -> & A1).
  destruct (write_label_ok 1 (set_device dev1 vol) vol2 _ doc1 A1 V1 (fine_barcode _ Hl) (make_label_kept _ _ _ _ _ _ Hd1)
    (kept_length _ _ _ _ Hd1) Hw1) as (dev2 & -> & A2).
  eexists. split; [exact A2|]. rewrite !part_of_write_at by done. cbn [Z.eqb].
  split; [reflexivity|]. split; [reflexivity|]. intros junk reading m3 A3 M0 M1.
  unfold ltfs_read_labels.
  destruct (read_one_label_ok junk (vol_creator vol) 0 (label vol) doc0 _ m3 A3 V0 Hcr Hl Hd0 M0) as (d4 & -> & A4).
  cbn [Z.ltb Z.compare].
  destruct (read_one_label_ok junk (vol_creator vol) 1 (label vol) doc1 d4 m3 A4 V1 Hcr Hl Hd1 M1) as (d5 & E5 & A5).
  change (device (set_device d4 reading)) with d4. rewrite E5. cbn [Z.ltb Z.compare].
  rewrite partition_labels_agree by done. cbn [Z.ltb Z.compare]. exists d5. split; [|exact A5].
  change (label (set_device d5 (set_device d4 reading))) with (label reading).
  by rewrite labels_joined.
Qed.

End tape.
