(* ===== verification/LabelOnFile.v ===== *)
(** * Labels on the file-backed drive

    The round trip of [LabelSpec] at a concrete volume, and an XML library for the two
    documents of its labels. *)

From S2P Require Import Prelude Errors TimeInternal TimeSpec TapeOps FileDebug FileDebugOk FileDebugSpec.
From S2P Require Import TapeDev TapeDevSpec Append Coherency TapeOnFile Volume VolumeOnFile IndexReadSpec IndexOnFile.
From S2P Require Import XmlLib XmlRead XmlWrite XmlSpec XmlValues XmlTree XmlRoundTrip TapeLoad FileDebugLoad Label LabelSpec.
Open Scope Z_scope.

Definition labels_volume : ltfs_volume filedebug_data :=
  set_label (set_barcode (cstr "TAPE01") (label labelled_volume)) (sample_volume false).

(** The texts of a document, one to a line *)
Definition print_call (c : xml_call) : list Z :=
  match c with
  | xmlTextWriterStartElement t => t ++ [10]
  | xmlTextWriterWriteElement t (Some v) => t ++ [58] ++ v ++ [10]
  | _ => []
  end.

Definition labels_calls (partition : Z) : list xml_call := label_calls (cstr "ltfs") partition (label labels_volume).
Definition labels_doc (partition : Z) : list Z := flat_map print_call (labels_calls partition).

(** The two documents as they are reported *)
Definition leaf_nodes (depth : nat) (t v : cstring) : list (option xml_node) :=
  [Some (start_node t [] 0 depth None); Some (text_node v (S depth)); Some (end_node t depth)].

Definition labels_nodes (partition : Z) : list (option xml_node) :=
  [Some (start_node (cstr "ltfslabel") [(cstr "version", LTFS_LABEL_VERSION_STR)] 0 0 None)]
  ++ leaf_nodes 1 (cstr "creator") (cstr "ltfs")
  ++ leaf_nodes 1 (cstr "formattime") (print_time (0, 0))
  ++ leaf_nodes 1 (cstr "volumeuuid") (vol_uuid (label labels_volume))
  ++ [Some (start_node (cstr "location") [] 0 1 None)]
  ++ leaf_nodes 2 (cstr "partition") (print_char (sel partition (98, 97)))
  ++ [Some (end_node (cstr "location") 1); Some (start_node (cstr "partitions") [] 0 1 None)]
  ++ leaf_nodes 2 (cstr "index") (cstr "a") ++ leaf_nodes 2 (cstr "data") (cstr "b")
  ++ [Some (end_node (cstr "partitions") 1)]
  ++ leaf_nodes 1 (cstr "blocksize") (cstr "16") ++ leaf_nodes 1 (cstr "compression") (cstr "true")
  ++ [Some (end_node (cstr "ltfslabel") 0)].

Definition labels_xmem : xml_memory := {|
  document := list xml_call;
  new_document := [];
  write_call := record;
  buffer_content := flat_map print_call;
  reader_for := fun buf =>
    if bool_decide (buf = labels_doc 0) then Some (sample_reader (labels_nodes 0))
    else if bool_decide (buf = labels_doc 1) then Some (sample_reader (labels_nodes 1))
    else None
|}.

Lemma labels_read partition :
  valid_part partition -> reads sample_raw_name [] (labels_calls partition) (labels_nodes partition).
Proof.
  intros [-> | ->]; unfold labels_calls, label_calls; cbn [label_calls].
  all: match goal with |- reads _ _ ?c _ => let c' := eval vm_compute in c in change c with c' end.
  all: match goal with |- reads _ _ _ ?l => let l' := eval vm_compute in l in change l with l' end.
  all: repeat read_call.
Qed.

Lemma labels_kept partition :
  valid_part partition -> document_kept sample_raw_name labels_xmem (labels_calls partition) (labels_doc partition).
Proof.
  intros Hp. split.
  - exists (labels_calls partition). split; [|done]. exact (play_record (labels_calls partition) []).
  - destruct Hp as [-> | ->]; vm_compute; split; [reflexivity|discriminate|reflexivity|discriminate].
  - exists (sample_reader (labels_nodes partition)). split; [|split; [done|by apply labels_read]].
    destruct Hp as [-> | ->]; vm_compute; reflexivity.
Qed.

Lemma labels_fine : label_fine (label labels_volume).
Proof.
  split; cbn.
  - right. right. by vm_compute.
  - by vm_compute.
  - done.
  - split; unfold in_time_range, LTFS_TIME_T_MIN, LTFS_TIME_T_MAX, LTFS_NSEC_MAX; cbn; lia.
  - lia.
  - unfold partition_ok. lia.
  - unfold partition_ok. lia.
  - done.
  - by left.
Qed.

Lemma filedebug_parameters junk d m pos :
  filedebug_at d m pos ->
  let '(ret, param, d') := op_get_parameters filedebug_load_handler junk d in
  0 <= ret /\ LTFS_LABEL_MAX <= max_blksize param /\ filedebug_at d' m pos.
Proof. intros Hat. cbn. split_and!; [done|by vm_compute|done]. Qed.

Definition write_labels : option (ltfs_volume filedebug_data * ltfs_volume filedebug_data) :=
  match ltfs_write_label labels_xmem filedebug_handler 0 labels_volume with
  | (ret, vol1) =>
      match ltfs_write_label labels_xmem filedebug_handler 1 vol1 with
      | (ret2, vol2) => if (ret =? 0) && (ret2 =? 0) then Some (vol1, vol2) else None
      end
  end.

Lemma write_labels_done : exists vol1 vol2,
  ltfs_write_label labels_xmem filedebug_handler 0 labels_volume = (0, vol1)
  /\ ltfs_write_label labels_xmem filedebug_handler 1 vol1 = (0, vol2).
Proof.
  assert (E : match write_labels with Some _ => true | None => false end = true) by (vm_compute; reflexivity). unfold write_labels in E.
  destruct (ltfs_write_label labels_xmem filedebug_handler 0 labels_volume) as [r1 vol1].
  destruct (ltfs_write_label labels_xmem filedebug_handler 1 vol1) as [r2 vol2] eqn:E2.
  destruct (Z.eqb_spec r1 0) as [->|]; [|done]. destruct (Z.eqb_spec r2 0) as [->|]; [|done]. by exists vol1, vol2.
Qed.

(** The labels are read into the volume itself, whose own label had no creator and
    another partition map. *)
Lemma labels_roundtrip_witness :
  exists vol1 vol2, ltfs_write_label labels_xmem filedebug_handler 0 labels_volume = (0, vol1)
  /\ ltfs_write_label labels_xmem filedebug_handler 1 vol1 = (0, vol2)
  /\ exists vol3, ltfs_read_labels labels_xmem filedebug_handler filedebug_load_handler
       {| max_blksize := 0; param_write_protect := false; logical_write_protect := false |} None
       (set_label label_alloc vol2) = Some (0, vol3)
  /\ barcode (label vol3) = cstr "TAPE01" /\ part_num2id (label vol3) = (98, 97)
  /\ label_creator (label vol3) = Some (cstr "ltfs").
Proof.
  destruct write_labels_done as (vol1 & vol2 & H1 & H2). exists vol1, vol2. split; [exact H1|]. split; [exact H2|].
  destruct (labels_roundtrip filedebug_handler sample_raw_name labels_xmem filedebug_load_handler None
    filedebug_tape_reliable filedebug_parameters labels_volume sample_medium vol1 vol2 (labels_doc 0) (labels_doc 1)
    (sample_device_at false (0, 0)) labels_fine ltac:(done) (labels_kept 0 ltac:(by left)) (labels_kept 1 ltac:(by right)) H1 H2)
    as (m2 & Hat & _ & _ & Hread).
  destruct (Hread {| max_blksize := 0; param_write_protect := false; logical_write_protect := false |}
    (set_label label_alloc vol2) m2 Hat) as (dev & Hr & _); [done..|].
  eexists. split; [exact Hr|]. split; [|split]; vm_compute; reflexivity.
Defined.
