(* ===== verification/CheckMedium.v ===== *)
(** * The consistency check

    [ltfs_check_medium] of [libltfs/ltfs_internal.c] and what it calls: it looks for the
    last index of each partition, decides which one is the newer, and makes the
    cartridge consistent again by writing indexes, where it is allowed to.

    The volume and the tree of its index are a [mount].  The record of an index has no
    tree in it: [tree_at] says which tree the parser made of the index that is at a
    place of the tape, and [xml] is the serializer, given the tree.  After an error the
    index of the volume is not looked at: the code leaves there what was read last, or
    none.  The dentry cache is not loaded and memory does not run out. *)

From S2P Require Import Prelude Errors TapeOps TapeDev Coherency Extents Volume FsRaw Pathname IndexCriteria FsTree FsOps IndexRead XmlLib.
Open Scope Z_scope.
Open Scope ltfs_scope.

Definition SYNC_RECOVERY : list Z := cstr "Recovery".
Definition LTFS_LOSTANDFOUND_DIR : cstring := cstr "_ltfs_lostandfound".

(** ** Extents *)

(** One behind the last block of an extent *)
Definition ext_lastblock (bs : Z) (e : extent_info) : Z :=
  u64 (u64 (off_block (start e) + bytecount e / bs) + (if bytecount e mod bs >? 0 then 1 else 0)).

Definition extent_misplaced (lbl : ltfs_label) (ip_eod dp_eod : Z) (e : extent_info) : bool :=
  (off_block (start e) <? 4)
  || ((off_partition (start e) =? partid_ip lbl) && (ext_lastblock (blocksize lbl) e >=? ip_eod))
  || ((off_partition (start e) =? partid_dp lbl) && (ext_lastblock (blocksize lbl) e >=? dp_eod)).

(** The two maxima, of the data and of the index partition *)
Definition extent_reaches (lbl : ltfs_label) (last : Z * Z) (e : extent_info) : Z * Z :=
  let b := ext_lastblock (blocksize lbl) e in
  if (off_partition (start e) =? partid_ip lbl) && (b >? last.2) then (last.1, b)
  else if (off_partition (start e) =? partid_dp lbl) && (b >? last.1) then (b, last.2)
  else last.

(** The entries of a directory in the order of the iterator *)
Definition entries_of (n : fsnode) : list Z := map snd (rev (child_list n)).

(** [fuel] bounds the depth; [None]: a pointer to no dentry. *)
Fixpoint _ltfs_check_extents (fuel : nat) (lbl : ltfs_label) (ip_eod dp_eod : Z) (h : gmap Z fsnode) (d : Z)
    : option Z :=
  match fuel with
  | O => None
  | S fuel =>
      match h !! d with
      | None => None
      | Some n =>
          if isdir n && negb (bool_decide (child_list n = [])) then
            fold_left (fun acc c =>
              match acc with
              | Some ret => if ret <? 0 then Some ret else _ltfs_check_extents fuel lbl ip_eod dp_eod h c
              | None => None
              end) (entries_of n) (Some 0)
          else Some (if existsb (extent_misplaced lbl ip_eod dp_eod) (extentlist (file n)) then - LTFS_INDEX_INVALID else 0)
      end
  end.

Fixpoint _ltfs_last_ref (fuel : nat) (lbl : ltfs_label) (h : gmap Z fsnode) (d : Z) (last : Z * Z) : option (Z * Z) :=
  match fuel with
  | O => None
  | S fuel =>
      match h !! d with
      | None => None
      | Some n =>
          if isdir n && negb (bool_decide (child_list n = [])) then
            fold_left (fun acc c =>
              match acc with Some last => _ltfs_last_ref fuel lbl h c last | None => None end) (entries_of n) (Some last)
          else Some (fold_left (extent_reaches lbl) (extentlist (file n)) last)
      end
  end.

Definition check_extents (lbl : ltfs_label) (ip_eod dp_eod : Z) (t : fs_state) : option Z :=
  _ltfs_check_extents (S (base.size (heap t))) lbl ip_eod dp_eod (heap t) (root t).

(** From nothing referenced *)
Definition last_ref (lbl : ltfs_label) (t : fs_state) : option (Z * Z) :=
  _ltfs_last_ref (S (base.size (heap t))) lbl (heap t) (root t) (0, 0).

Section check.
Context {D : Type} (ops : tape_ops D) (kmi : option (list Z -> Z * option (list Z))).
Context (reader : xml_reader) (ltfs_split_symlink : ltfs_volume D -> Z * ltfs_volume D).
Context (tree_at : tape_offset -> fs_state) (xml : fs_state -> xml_lib) (update_mam_attr : D -> Z * D).
(** [fuel]: file marks passed in a search; [rfuel]: requests of the parser.
    [ignore_wrong_version]: the field of the volume. *)
Context (fuel rfuel : nat) (ignore_wrong_version : bool) (now : Z * Z) (junk : list Z).
Implicit Types (m : mount D) (vol : ltfs_volume D).

(** ** Steps *)

Definition on_device (f : device_data D -> Z * device_data D) vol : Z * ltfs_volume D :=
  let '(ret, dev) := f (device vol) in (ret, set_device dev vol).

(** The macro: what fails ends the check. *)
Definition check_err (f : ltfs_volume D -> Z * ltfs_volume D) : xop (mount D) Z :=
  fun m => let '(ret, v) := f (volume m) in Some (if ret <? 0 then inl ret else inr ret, set_volume v m).

(** The volume *)
Definition the_vol : xop (mount D) (ltfs_volume D) := fun m => Some (inr (volume m), m).
Definition on_vol (f : ltfs_volume D -> ltfs_volume D) : xop (mount D) unit :=
  fun m => Some (inr tt, set_volume (f (volume m)) m).

(** [vol->index = idx] *)
Definition use_index (idx : ltfs_index) : xop (mount D) unit :=
  fun m => Some (inr tt, {| tree := tree_at (selfptr idx); volume := set_index idx (volume m) |}).

Definition dirty_index : xop (mount D) unit :=
  on_vol (fun vol => set_index (ltfs_set_index_dirty false (index vol)) vol).

(** ** Looking for the indexes *)

(** The last index of a partition, if it has one *)
Definition find_index (partition : Z) (recover_symlink : bool)
    : xop (mount D) (option ltfs_index * seek_result) :=
  fun m =>
    match ltfs_seek_index ops kmi reader ltfs_split_symlink fuel rfuel ignore_wrong_version partition
            recover_symlink (volume m) with
    | None => None
    | Some (ret, res, vol) =>
        Some (if ret <? 0 then inl ret
              else inr (if ret =? 0 then Some (index vol) else None, default (no_index 0) res), set_volume vol m)
    end.

(** The missing file mark behind an index at the end of a partition *)
Definition close_index (idx : option ltfs_index) (pnum : Z) (r : seek_result) : xop (mount D) seek_result :=
  match idx with
  | Some _ =>
      if negb (blocks_after r) && negb (fm_after r) then
        check_err (on_device (tape_seek_eod ops pnum)) >>!
        check_err (on_device (tape_write_filemark ops 1 true true false)) >>!
        ret_x (with_end (index_end_pos r) (u64 (r_eod r + 1)) true (blocks_after r))
      else ret_x r
  | None => ret_x r
  end.

(** Blocks of a partition that are in no index *)
Definition has_extra_blocks (idx : option ltfs_index) (r : seek_result) : bool :=
  match idx with Some _ => blocks_after r | None => negb (r_eod r =? 4) end.

(** ** Which index is the newer *)

Definition _ltfs_check_pointers (ip_index dp_index : option ltfs_index) vol : option (Z * ltfs_volume D) :=
  match ip_index, dp_index with
  | None, Some _ => Some (1, vol)
  | None, None => Some (2, vol)
  | Some ip, None =>
      Some (if negb (off_partition (backptr ip) =? 0) then - LTFS_INDEX_INVALID else 0, vol)
  | Some ip, Some dp =>
      if (generation ip >=? generation dp)
         && (off_partition (backptr ip) =? off_partition (selfptr dp))
         && (off_block (backptr ip) =? off_block (selfptr dp))
      then Some (0, vol)
      else if generation ip >? generation dp then Some (- LTFS_INDEX_INVALID, vol)
      else if (generation ip =? generation dp) && (off_partition (backptr ip) =? 0) then Some (1, vol)
      else if off_block (backptr dp) >? off_block (backptr ip) then
        let pos := seek_pos (ltfs_part_id2num (partid_dp (label vol)) vol) (off_block (backptr dp)) in
        let '(ret, vol) := on_device (tape_seek ops pos) vol in
        if ret <? 0 then Some (ret, vol)
        else match ltfs_read_index ops kmi reader ltfs_split_symlink rfuel 0 false vol with
        | None => None
        | Some (ret, vol) =>
            if ret <? 0 then Some (ret, vol)
            else if (off_partition (backptr ip) =? 0) && (generation (index vol) <? generation ip)
            then Some (- LTFS_INDEX_INVALID, vol)
            else Some (1, vol)
        end
      else Some (1, vol)
  end.

Definition check_pointers (ip_index dp_index : option ltfs_index) : xop (mount D) Z :=
  fun m => match _ltfs_check_pointers ip_index dp_index (volume m) with
           | None => None
           | Some (ret, vol) => Some (if ret <? 0 then inl ret else inr ret, set_volume vol m)
           end.

Definition run_opt {A} (x : option A) : xop (mount D) A :=
  fun m => match x with Some a => Some (inr a, m) | None => None end.

(** An index whose other partition has none: its extents are checked. *)
Definition use_only_index (idx : ltfs_index) (ip_eod dp_eod : Z) : xop (mount D) unit :=
  let! vol := the_vol in
  let! ret := run_opt (check_extents (label vol) ip_eod dp_eod (tree_at (selfptr idx))) in
  if ret <? 0 then fail_x ret else use_index idx >>! dirty_index.

(** [ret]: what [_ltfs_check_pointers] says.  With no index at all the check has ended
    before. *)
Definition choose_index (ret : Z) (ip_index dp_index : option ltfs_index) (ip_eod dp_eod : Z) : xop (mount D) unit :=
  match ip_index, dp_index with
  | Some ip, Some dp => if ret =? 0 then use_index ip else use_index dp >>! dirty_index
  | Some idx, None | None, Some idx => use_only_index idx ip_eod dp_eod
  | None, None => fun _ => None
  end.

(** ** Lost and found *)

(** What is set up for a new entry of the lost and found directory *)
Definition set_up_lost (n : fsnode) : fsnode := set_birth now (on_file (set_all_times now) n).

(** The directory, which is held *)
Definition lost_found_dir : op (mount D) (Z + Z) :=
  let* m := get_state in
  let* r := on_tree (fs_path_lookup (SLASH :: LTFS_LOSTANDFOUND_DIR) 0) in
  match r with
  | inr lf_dir => ret_op (inr lf_dir)
  | inl ret =>
      if ret =? - LTFS_NO_DENTRY then
        let* od := on_tree (fs_allocate_dentry (Some (root (tree m))) (Some LTFS_LOSTANDFOUND_DIR) None true false true) in
        match od with
        | None => ret_op (inl (- LTFS_NO_MEMORY))
        | Some lf_dir =>
            on_tree (hold lf_dir) ;;;
            fs_update lf_dir (fun n => set_readonly_flag true (set_up_lost n)) ;;;
            mark_dirty false ;;;
            ret_op (inr lf_dir)
        end
      else ret_op (inl ret)
  end.

(** "partitionN_blockM_Bbytes" *)
Definition lost_name (pnum blk nr : Z) : cstring :=
  cstr "partition" ++ print_dec pnum ++ cstr "_block" ++ print_dec blk ++ cstr "_" ++ print_dec nr ++ cstr "bytes".

(** The file of a record of [nr] bytes at block [blk] *)
Definition set_lost_contents (partition blk nr : Z) (n : fsnode) : fsnode :=
  let e := {| start := {| off_partition := partition; off_block := blk |}; byteoffset := 0; bytecount := nr;
              fileoffset := 0 |} in
  let n := set_readonly_flag true (set_matches false (set_up_lost n)) in
  on_file (fun f => set_contents (extentlist f ++ [e]) nr nr (extents_dirty f) (modify_time f) (change_time f) f) n.

Definition lost_file (partition pnum lf_dir blk nr : Z) : op (mount D) Z :=
  let* r := on_tree (fs_directory_lookup lf_dir (lost_name pnum blk nr)) in
  match r with
  | inl ret => ret_op ret
  | inr (Some d) => on_tree (fs_release_dentry d) ;;; ret_op 0
  | inr None =>
      let* od := on_tree (fs_allocate_dentry (Some lf_dir) (Some (lost_name pnum blk nr)) None false true true) in
      match od with
      | None => ret_op (- LTFS_NO_MEMORY)
      | Some d =>
          on_tree (hold d) ;;;
          fs_update lf_dir (on_file (set_modify_change now)) ;;;
          mark_dirty false ;;;
          fs_update d (set_lost_contents partition blk nr) ;;;
          on_tree (fs_release_dentry_unlocked d) ;;;
          ret_op 0
      end
  end.

(** The [while] loop: [n] blocks up to the end of data.  A read that fails ends it. *)
Fixpoint lost_loop (n : nat) (partition pnum lf_dir blk : Z) : op (mount D) Z :=
  match n with
  | O => ret_op 0
  | S n =>
      let* nr := on_volume (fun vol =>
        let '(nr, _, dev) := tape_read ops (blocksize (label vol)) true kmi (device vol) in (nr, set_device dev vol)) in
      if nr <? 0 then ret_op 0
      else
        let* ret := (if nr =? 0 then ret_op 0 else lost_file partition pnum lf_dir blk nr) in
        if ret <? 0 then ret_op ret else lost_loop n partition pnum lf_dir (blk + 1)
  end.

Definition _ltfs_populate_lost_found (partition part_lastref part_eod : Z) : op (mount D) Z :=
  let* r := lost_found_dir in
  match r with
  | inl ret => ret_op ret
  | inr lf_dir =>
      let* vol := the_volume in
      let pnum := ltfs_part_id2num partition vol in
      let blk := if part_lastref >? 4 then part_lastref else 4 in
      let* ret := on_volume (on_device (tape_seek ops (seek_pos pnum blk))) in
      let* ret := (if ret <? 0 then ret_op ret
                   else lost_loop (Z.to_nat (part_eod - blk)) partition pnum lf_dir blk) in
      on_tree (fs_release_dentry lf_dir) ;;;
      ret_op ret
  end.

(** A step of the check that is an operation on the file system *)
Definition check_op (f : op (mount D) Z) : xop (mount D) unit :=
  let* ret := f in if ret <? 0 then fail_x ret else ret_x tt.

(** One partition: from the last block that is referenced, or the end of its index *)
Definition recover_partition (partition last endofidx eod : Z) : xop (mount D) unit :=
  if endofidx <? eod
  then check_op (_ltfs_populate_lost_found partition (if last >=? endofidx then u64 (last + 1) else endofidx) eod)
  else ret_x tt.

Definition the_last_ref : xop (mount D) (Z * Z) :=
  fun m => match last_ref (label (volume m)) (tree m) with Some last => Some (inr last, m) | None => None end.

Definition _ltfs_make_lost_found (ip dp : seek_result) : xop (mount D) unit :=
  let! '(lastblock_d, lastblock_i) := the_last_ref in
  let! vol := the_vol in
  recover_partition (ltfs_ip_id vol) lastblock_i (index_end_pos ip) (r_eod ip) >>!
  recover_partition (ltfs_dp_id vol) lastblock_d (index_end_pos dp) (r_eod dp) >>!
  dirty_index.

(** ** Making the cartridge consistent *)

Definition set_append (pnum b : Z) : xop (mount D) Z :=
  check_err (on_device (tape_set_append_position pnum b)).

(** Blocks that are not recovered will be written over: from the last block that is
    referenced, or from [from], or, with no index on the partition, from its label. *)
Definition drop_extra (idx : option ltfs_index) (r : seek_result) (pnum last from : Z) : xop (mount D) Z :=
  match idx with
  | Some _ =>
      if blocks_after r then
        if (last >=? index_end_pos r) && (last <? r_eod r) then set_append pnum last
        else if last <? index_end_pos r then set_append pnum from
        else ret_x 0
      else ret_x 0
  | None => if r_eod r >? 4 then set_append pnum 4 else ret_x 0
  end.

Definition drop_extra_blocks (ip_index dp_index : option ltfs_index) (ip dp : seek_result) (ip_num dp_num : Z)
    : xop (mount D) unit :=
  let! '(lastblock_d, lastblock_i) := the_last_ref in
  drop_extra ip_index ip ip_num lastblock_i
    (match ip_index with Some i => u64 (off_block (selfptr i) - 1) | None => 0 end) >>!
  drop_extra dp_index dp dp_num lastblock_d (index_end_pos dp) >>!
  ret_x tt.

Definition write_index (partition : Z) : op (mount D) Z :=
  fun m => match ltfs_write_index ops (xml (tree m)) update_mam_attr 2 now junk partition SYNC_RECOVERY (volume m) with
           | Some (ret, vol) => Some (ret, set_volume vol m)
           | None => None
           end.

(** An index for the data partition, where it does not end in one, and one for the
    index partition.  The result of the first is not looked at. *)
Definition write_indexes (dp_ends : bool) (dp_num : Z) : xop (mount D) Z :=
  let! '(lastblock_d, _) := the_last_ref in
  let! vol := the_vol in
  let append := sel dp_num (append_pos (device vol)) in
  if negb (append =? 0) && (lastblock_d >? append) then fail_x (- LTFS_INDEX_INVALID)
  else
    let* _ := (if dp_ends then ret_op 0 else write_index (ltfs_dp_id vol)) in
    let* ret := write_index (ltfs_ip_id vol) in
    if ret <? 0 then fail_x ret else ret_x ret.

(** The last steps: whether both partitions end in an index, and writing them if not *)
Definition finish_check (fix_ : bool) (ip_index dp_index : option ltfs_index) (ip dp : seek_result) (dp_num : Z)
    : xop (mount D) Z :=
  let ends (idx : option ltfs_index) r := match idx with Some _ => negb (blocks_after r) | None => false end in
  on_vol (fun vol => set_file_end (ends ip_index ip || ip_index_file_end vol) (ends dp_index dp || dp_index_file_end vol) vol) >>!
  let! vol := the_vol in
  if dirty (index vol) then
    if fix_ then write_indexes (ends dp_index dp) dp_num else fail_x (- LTFS_INCONSISTENT)
  else on_vol (fun vol => (ltfs_update_cart_coherency ops junk vol).2) >>! ret_x 0.

(** The rest of the check, when an index has been found *)
Definition check_found (fix_ deep recover_extra : bool) (ip_index dp_index : option ltfs_index)
    (ip dp : seek_result) (ip_num dp_num : Z) : xop (mount D) Z :=
  (* fill in missing file marks *)
  let! dp := close_index dp_index dp_num dp in
  let! ip := close_index ip_index ip_num ip in
  let extra_blocks := has_extra_blocks dp_index dp || has_extra_blocks ip_index ip in
  if negb deep && extra_blocks then fail_x (- LTFS_INCONSISTENT)
  else
    (* decide which index file to use *)
    let! ret := check_pointers ip_index dp_index in
    choose_index ret ip_index dp_index (r_eod ip) (r_eod dp) >>!
    (* set the append position of the index partition *)
    (match ip_index with
     | Some i => if negb (blocks_after ip) then set_append ip_num (u64 (off_block (selfptr i) - 1)) else ret_x 0
     | None => ret_x 0
     end) >>!
    (* recover extra blocks or schedule them to be erased *)
    (if deep && extra_blocks then
       (if recover_extra then _ltfs_make_lost_found ip dp
        else drop_extra_blocks ip_index dp_index ip dp ip_num dp_num) >>! dirty_index
     else ret_x tt) >>!
    finish_check fix_ ip_index dp_index ip dp dp_num.

Definition check_steps (fix_ deep recover_extra recover_symlink : bool) : xop (mount D) Z :=
  let! vol := the_vol in
  let ip_num := ltfs_part_id2num (ltfs_ip_id vol) vol in
  let dp_num := ltfs_part_id2num (ltfs_dp_id vol) vol in
  let! '(ip_index, ip) := find_index (ltfs_ip_id vol) recover_symlink in
  let! '(dp_index, dp) := find_index (ltfs_dp_id vol) recover_symlink in
  match ip_index, dp_index with
  | None, None => fail_x (- LTFS_NO_INDEX)
  | _, _ => check_found fix_ deep recover_extra ip_index dp_index ip dp ip_num dp_num
  end.

Definition ltfs_check_medium (fix_ deep recover_extra recover_symlink : bool) : op (mount D) Z :=
  let* r := check_steps fix_ deep recover_extra recover_symlink in
  ret_op (match r with inl ret => ret | inr ret => ret end).

End check.
