(* ===== verification/Mount.v ===== *)
(** * Mounting, unmounting and formatting

    [ltfs_start_mount], [ltfs_mount], [ltfs_unmount], [ltfs_check_eod_status], the
    searches for an index of a given generation, [ltfs_format_tape] and
    [ltfs_unformat_tape] of [libltfs/ltfs.c].

    As in [CheckMedium], [tree_at] gives the tree of an index that was read, and [xml] the
    serializer for a tree.  Signals that interrupt an operation, and what only is
    reported (the attributes of the medium, the commit message, the health of the
    cartridge), are not modelled. *)

From S2P Require Import Prelude Errors TapeOps TapeDev Coherency Extents Volume FsRaw Pathname IndexCriteria FsTree FsOps.
From S2P Require Import IndexRead XmlLib TapeLoad Label CheckMedium.
Open Scope Z_scope.
Open Scope ltfs_scope.

(** Fields of the volume that say how to mount *)
Record mount_options := {
  skip_eod_check : bool;
  ignore_wrong_version : bool;
  traverse_forward : bool
}.

Definition zero_coherency : tc_coherency :=
  {| volume_change_ref := 0; count := 0; set_id := 0; uuid := replicate 37 0; version := 0 |}.

Definition set_idx_uuid (u : list Z) (idx : ltfs_index) : ltfs_index :=
  {| idx_creator := idx_creator idx; idx_vol_uuid := u; generation := generation idx; mod_time := mod_time idx;
     selfptr := selfptr idx; backptr := backptr idx; dirty := dirty idx; atime_dirty := atime_dirty idx;
     use_atime := use_atime idx; idx_version := idx_version idx |}.

Section mount.
Context {D : Type} (ops : tape_ops D) (lops : load_ops D) (kmi : option (list Z -> Z * option (list Z))).
Context (reader : xml_reader) (ltfs_split_symlink : ltfs_volume D -> Z * ltfs_volume D).
Context (tree_at : tape_offset -> fs_state) (xml : fs_state -> xml_lib) (update_mam_attr : D -> Z * D).
Context (xmem : xml_memory) (cap0 : tc_remaining_cap) (param0 : tc_drive_param).
Context (fuel rfuel : nat) (opts : mount_options) (now : Z * Z) (junk : list Z).
Implicit Types (m : mount D) (vol : ltfs_volume D).

Definition has_kmi : bool := match kmi with Some _ => true | None => false end.

(** A step that may run for ever *)
Definition check_err_opt (f : ltfs_volume D -> option (Z * ltfs_volume D)) : xop (mount D) Z :=
  fun m => match f (volume m) with
           | Some (ret, v) => Some (if ret <? 0 then inl ret else inr ret, set_volume v m)
           | None => None
           end.

Definition on_device_opt (f : device_data D -> option (Z * device_data D)) vol : option (Z * ltfs_volume D) :=
  match f (device vol) with Some (ret, dev) => Some (ret, set_device dev vol) | None => None end.

(** The result of an operation of the volume, not looked at *)
Definition run_vol {A} (f : ltfs_volume D -> A * ltfs_volume D) : xop (mount D) A :=
  fun m => let '(x, v) := f (volume m) in Some (inr x, set_volume v m).

(** ** Loading *)

Definition ltfs_start_mount : xop (mount D) Z :=
  check_err_opt (on_device_opt (tape_load_tape ops lops cap0 param0 junk fuel has_kmi)) >>!
  let! '(ret, cap) := run_vol (fun vol =>
    let '(ret, cap, dev) := tape_get_capacity lops {| remaining_p0 := 0; remaining_p1 := 0; max_p0 := 0; max_p1 := 0 |} (device vol) in
    ((ret, cap), set_device dev vol)) in
  if ret <? 0 then fail_x ret
  else if (max_p0 cap =? 0) || (max_p1 cap =? 0) then fail_x (- LTFS_NOT_PARTITIONED)
  else
    check_err_opt (ltfs_read_labels xmem ops lops param0 kmi) >>!
    check_err (fun vol => on_device (tape_set_compression lops (enable_compression (label vol))) vol) >>!
    let! '(ret, tape_maxblk) := run_vol (fun vol =>
      let '(ret, n, dev) := tape_get_max_blocksize lops param0 (device vol) in ((ret, n), set_device dev vol)) in
    let! vol := the_vol in
    if ret <? 0 then fail_x ret
    else if tape_maxblk <? blocksize (label vol) then fail_x (- LTFS_LARGE_BLOCKSIZE)
    else ret_x 0.

(** With one end of data missing the drive is asked whether the medium is a WORM, only
    to say so. *)
Definition ltfs_check_eod_status vol : Z * ltfs_volume D :=
  let '(eod_status_ip, dev) := tape_check_eod_status lops (ltfs_part_id2num (ltfs_ip_id vol) vol) (device vol) in
  let '(eod_status_dp, dev) := tape_check_eod_status lops (ltfs_part_id2num (ltfs_dp_id vol) vol) dev in
  if (eod_status_ip =? EOD_UNKNOWN) || (eod_status_dp =? EOD_UNKNOWN) then (0, set_device dev vol)
  else if (eod_status_ip =? EOD_MISSING) || (eod_status_dp =? EOD_MISSING) then
    let '(_, _, dev) := tape_get_worm_status lops false dev in
    (if (eod_status_ip =? EOD_MISSING) && (eod_status_dp =? EOD_MISSING) then - LTFS_BOTH_EOD_MISSING
     else - LTFS_EOD_MISSING_MEDIUM, set_device dev vol)
  else (0, set_device dev vol).

(** ** Searching a generation *)

(** The index under the head.  One of a version that is not supported is passed over, its
    generation taken to be the largest there is. *)
Definition traverse_read vol : option (Z * ltfs_volume D) :=
  match ltfs_read_index ops kmi reader ltfs_split_symlink rfuel 0 false vol with
  | None => None
  | Some (ret, vol) =>
      if (ret <? 0) && negb (ret =? - LTFS_UNSUPPORTED_INDEX_VERSION) then Some (ret, vol)
      else if ret =? - LTFS_UNSUPPORTED_INDEX_VERSION then
        let '(ret, dev) := tape_spacefm ops 1 (device vol) in
        let vol := set_device dev vol in
        if ret <? 0 then Some (ret, vol)
        else
          let pos := position (device vol) in
          let self := {| off_partition := sel (partition pos) (part_num2id (label vol)); off_block := u64 (block pos - 1) |} in
          Some (0, set_index (set_pointers self (backptr (index vol))
                     (set_generation (u32 (-1)) (mod_time (index vol)) (index vol))) vol)
      else Some (ret, vol)
  end.

Definition known_generation vol : bool := negb (generation (index vol) =? u32 (-1)).

(** The end of a search for [gen], which is not 0 here *)
Definition traverse_result (gen : Z) vol : Z * ltfs_volume D :=
  (if negb (generation (index vol) =? gen) then - LTFS_NO_INDEX else 0, vol).

(** The [while] loops of the searches: [fuel] indexes are read at most. *)
Fixpoint forward_loop (fuel : nat) (gen last_index : Z) vol : option (Z * ltfs_volume D) :=
  if last_index <? block (position (device vol)) then Some (traverse_result gen vol)
  else match fuel with
  | O => None
  | S fuel =>
      match traverse_read vol with
      | None => None
      | Some (ret, vol) =>
          if ret <? 0 then Some (ret, vol)
          else if known_generation vol && (generation (index vol) >=? gen) then Some (traverse_result gen vol)
          else if last_index >? block (position (device vol)) then
            let '(ret, dev) := tape_locate_next_index ops (device vol) in
            let vol := set_device dev vol in
            if ret <? 0 then Some (ret, vol) else forward_loop fuel gen last_index vol
          else forward_loop fuel gen last_index vol
      end
  end.

Definition ltfs_traverse_index_forward (partition gen : Z) vol : option (Z * ltfs_volume D) :=
  let '(ret, dev) := tape_locate_last_index ops (ltfs_part_id2num partition vol) (device vol) in
  if ret <? 0 then Some (ret, set_device dev vol)
  else
    let last_index := block (position dev) in
    let '(ret, dev) := tape_locate_first_index ops (ltfs_part_id2num partition vol) dev in
    let vol := set_device dev vol in
    if ret <? 0 then Some (ret, vol) else forward_loop fuel gen last_index vol.

Fixpoint backward_loop (fuel : nat) (gen : Z) vol : option (Z * ltfs_volume D) :=
  if block (position (device vol)) <=? 4 then Some (traverse_result gen vol)
  else match fuel with
  | O => None
  | S fuel =>
      match traverse_read vol with
      | None => None
      | Some (ret, vol) =>
          if ret <? 0 then Some (ret, vol)
          else if known_generation vol && (generation (index vol) <=? gen) then Some (traverse_result gen vol)
          else
            let '(ret, dev) := tape_locate_previous_index ops (device vol) in
            let vol := set_device dev vol in
            if ret <? 0 then Some (ret, vol) else backward_loop fuel gen vol
      end
  end.

Definition ltfs_traverse_index_backward (partition gen : Z) vol : option (Z * ltfs_volume D) :=
  let '(ret, dev) := tape_locate_last_index ops (ltfs_part_id2num partition vol) (device vol) in
  let vol := set_device dev vol in
  if ret <? 0 then Some (ret, vol) else backward_loop fuel gen vol.

Definition traverse (partition gen : Z) vol : option (Z * ltfs_volume D) :=
  if traverse_forward opts then ltfs_traverse_index_forward partition gen vol
  else ltfs_traverse_index_backward partition gen vol.

(** First the index partition, then the data partition *)
Definition find_generation (gen : Z) vol : option (Z * ltfs_volume D) :=
  match traverse (ltfs_ip_id vol) gen vol with
  | None => None
  | Some (ret, vol) => if ret <? 0 then traverse (ltfs_dp_id vol) gen vol else Some (ret, vol)
  end.

(** ** Mounting *)

(** What the cartridge memory says of a partition; nothing where it cannot be read or is
    of another volume *)
Definition read_coherency (partition : Z) (coh : tc_coherency) vol : tc_coherency :=
  let '(ret, coh) := tape_get_cart_coherency ops junk (ltfs_part_id2num partition vol) coh (device vol) in
  if negb (ret =? 0) || negb (bool_decide (until_nul (uuid coh) = vol_uuid (label vol))) then zero_coherency else coh.

(** The volume change reference and the volume with its coherency data *)
Definition read_mam vol : Z * ltfs_volume D :=
  let ip := read_coherency (ltfs_ip_id vol) (ip_coh vol) vol in
  let dp := read_coherency (ltfs_dp_id vol) (dp_coh vol) vol in
  let '(ret, vcr) := tape_get_volume_change_reference ops junk (device vol) in
  if (ret <? 0) || (vcr =? 0) || (vcr =? UINT64_MAX)
  then (vcr, set_coherency zero_coherency zero_coherency vol)
  else (vcr, set_coherency ip dp vol).

(** The tree of an index that has just been read *)
Definition load_tree : xop (mount D) unit :=
  fun m => Some (inr tt, {| tree := tree_at (selfptr (index (volume m))); volume := volume m |}).

Section full.
Context (deep_recovery recover_extra recover_symlink : bool).

Definition full_check : xop (mount D) Z :=
  let* ret := ltfs_check_medium ops kmi reader ltfs_split_symlink tree_at xml update_mam_attr fuel rfuel
                (ignore_wrong_version opts) now junk true deep_recovery recover_extra recover_symlink in
  if ret <? 0 then fail_x ret else ret_x ret.

(** The index at the place the cartridge memory gives; [next] is what is done with it.
    Where the tape ends before that, the medium is checked in full. *)
Definition mount_from (partition set_id : Z) (next : xop (mount D) Z) : xop (mount D) Z :=
  let! ret := run_vol (fun vol => on_device (tape_seek ops (seek_pos (ltfs_part_id2num partition vol) set_id)) vol) in
  if ret =? - EDEV_EOD_DETECTED then full_check
  else if ret <? 0 then fail_x ret
  else
    check_err_opt (ltfs_read_index ops kmi reader ltfs_split_symlink rfuel 0 false) >>!
    load_tree >>!
    next.

(** The index of the volume, from the newer of the partitions *)
Definition mount_index (force_full : bool) (vcr : Z) : xop (mount D) Z :=
  let! vol := the_vol in
  let force_full := force_full || (version (ip_coh vol) =? 0) || (version (dp_coh vol) =? 0) in
  if negb force_full && (vcr >? 0) && (vcr =? volume_change_ref (ip_coh vol)) && (vcr =? volume_change_ref (dp_coh vol))
  then
    if count (ip_coh vol) <? count (dp_coh vol) then
      mount_from (ltfs_dp_id vol) (set_id (dp_coh vol))
        (let* ret := write_index ops xml update_mam_attr now junk (ltfs_ip_id vol) in
         if ret <? 0 then fail_x ret else ret_x ret)
    else mount_from (ltfs_ip_id vol) (set_id (ip_coh vol)) (ret_x 0)
  else full_check.

Definition set_rollback (b : bool) vol : ltfs_volume D :=
  {| vol_creator := vol_creator vol; label := label vol; index := index vol; device := device vol;
     ip_coh := ip_coh vol; dp_coh := dp_coh vol; ip_index_file_end := ip_index_file_end vol;
     dp_index_file_end := dp_index_file_end vol; rollback_mount := b;
     reval := reval vol; last_pos := last_pos vol; last_size := last_size vol;
     last_block := last_block vol |}.

(** The volume as it was at an older generation: read-only *)
Definition roll_back_to (gen : Z) : xop (mount D) Z :=
  let! ret := check_err_opt (find_generation gen) in
  load_tree >>!
  on_vol (fun vol =>
    let vol := set_rollback true (set_index (ltfs_unset_index_dirty false (index vol)) vol) in
    set_device (tape_force_read_only (device vol)).2 vol) >>!
  ret_x ret.

(** The append position of the index partition: none on a WORM *)
Definition set_ip_append : xop (mount D) Z :=
  let! '(ret, is_worm) := run_vol (fun vol =>
    let '(ret, is_worm, dev) := tape_get_worm_status lops false (device vol) in ((ret, is_worm), set_device dev vol)) in
  check_err (fun vol =>
    on_device (tape_set_append_position (ltfs_part_id2num (ltfs_ip_id vol) vol)
      (if (ret =? 0) && is_worm then 0 else u64 (off_block (selfptr (index vol)) - 1))) vol).

Definition mount_steps (force_full : bool) (gen : Z) : xop (mount D) Z :=
  ltfs_start_mount >>!
  let! ret := run_vol ltfs_check_eod_status in
  if negb (skip_eod_check opts) && (ret <? 0) then fail_x ret
  else
    let! vcr := run_vol read_mam in
    mount_index force_full vcr >>!
    on_vol (set_rollback false) >>!
    let! vol := the_vol in
    if negb (gen =? 0) && negb (gen =? generation (index vol)) then roll_back_to gen
    else
      let! ret := set_ip_append in
      on_vol (set_file_end true true) >>!
      ret_x ret.

End full.

Definition ltfs_mount (force_full deep_recovery recover_extra recover_symlink : bool) (gen : Z) : op (mount D) Z :=
  let* r := mount_steps deep_recovery recover_extra recover_symlink force_full gen in
  ret_op (match r with inl ret => ret | inr ret => ret end).

(** ** Unmounting *)

Context (revalidate : bool -> ltfs_volume D -> Z * ltfs_volume D).
(** The cartridge's health, which is cached *)
Context (get_cartridge_health : ltfs_volume D -> Z * ltfs_volume D).

(** [fuel]: how often the index is written again after a revalidation *)
Fixpoint ltfs_unmount (fuel : nat) (reason : list Z) : op (mount D) Z :=
  match fuel with
  | O => fun _ => None
  | S fuel =>
      let* ret := get_volume_lock in
      if negb (ret =? 0) then ret_op ret
      else
        let* vol := the_volume in
        let finish :=
          on_volume (fun vol => (tt, set_reval 0 vol)) ;;;
          let* ret := on_volume get_cartridge_health in
          on_volume (fun vol => (tt, if NEED_REVAL ret then set_device (tape_release_fence (device vol)).2 vol else vol)) ;;;
          ret_op 0 in
        if negb (rollback_mount vol) && (ltfs_is_dirty vol || negb (off_partition (selfptr (index vol)) =? ltfs_ip_id vol))
        then
          let* ret := (fun m =>
            match ltfs_write_index ops (xml (tree m)) update_mam_attr 2 now junk (ltfs_ip_id vol) reason (volume m) with
            | Some (ret, v) => Some (ret, set_volume v m)
            | None => None
            end) in
          if NEED_REVAL ret then
            let* ret := on_volume (revalidate true) in
            if ret =? 0 then ltfs_unmount fuel reason
            else on_volume (fun vol => (ret, set_reval 0 vol))
          else if ret <? 0 then
            on_volume (fun vol => (ret, if IS_UNEXPECTED_MOVE ret then set_reval (- LTFS_REVAL_FAILED) vol else vol))
          else finish
        else finish
  end.

(** ** Formatting *)

(** The label of a new volume, and its index: the root directory is as old as the volume. *)
Definition new_volume (new_uuid : cstring) : op (mount D) unit :=
  on_volume (fun vol =>
    let vol := set_label (set_format_time now (set_vol_uuid new_uuid (label vol))) vol in
    let vol := set_label (set_label_creator (vol_creator vol) (label vol)) vol in
    (tt, set_index (set_idx_uuid new_uuid (set_generation (generation (index vol)) now (index vol))) vol)) ;;;
  let* m := get_state in
  fs_update (root (tree m)) (fun n => set_birth now (on_file (set_all_times now) n)) ;;;
  mark_dirty false.

(** What refuses a write to either partition *)
Definition medium_readonly vol : Z :=
  let ret := ltfs_get_partition_readonly (ltfs_ip_id vol) vol in
  let ret := if (ret =? 0) || (ret =? - LTFS_NO_SPACE) || (ret =? - LTFS_LESS_SPACE)
             then ltfs_get_partition_readonly (ltfs_dp_id vol) vol else ret in
  if (ret <? 0) && negb (ret =? - LTFS_NO_SPACE) && negb (ret =? - LTFS_LESS_SPACE) then ret else 0.

(** The label and the index of a partition *)
Definition format_partition (partition : Z) : xop (mount D) Z :=
  check_err (fun vol => ltfs_write_label xmem ops (ltfs_part_id2num partition vol) vol) >>!
  let* ret := (fun m =>
    match ltfs_write_index ops (xml (tree m)) update_mam_attr 2 now junk partition SYNC_FORMAT (volume m) with
    | Some (ret, v) => Some (ret, set_volume v m)
    | None => None
    end) in
  if ret <? 0 then fail_x ret else ret_x ret.

(** [format_key]: what the key manager gives, where there is one *)
Definition set_format_key (format_key : option (Z * option (list Z) * option (list Z))) : xop (mount D) Z :=
  match format_key with
  | None => ret_x 0
  | Some (ret, keyalias, key) => if ret <? 0 then fail_x ret else check_err (on_device (tape_set_key ops keyalias key))
  end.

Definition format_steps (reset_capacity : bool) (new_uuid : cstring)
    (format_key : option (Z * option (list Z) * option (list Z))) : xop (mount D) Z :=
  let! vol := the_vol in
  if medium_readonly vol <? 0 then fail_x (medium_readonly vol)
  else
    let! '(ret, tape_maxblk) := run_vol (fun vol =>
      let '(ret, n, dev) := tape_get_max_blocksize lops param0 (device vol) in ((ret, n), set_device dev vol)) in
    if ret <? 0 then fail_x ret
    else if tape_maxblk <? blocksize (label vol) then fail_x (- LTFS_LARGE_BLOCKSIZE)
    else
      let* _ := new_volume new_uuid in
      (if reset_capacity then check_err (on_device (tape_reset_capacity ops lops)) else ret_x 0) >>!
      check_err_opt (on_device_opt (tape_format ops lops (ltfs_part_id2num (ltfs_ip_id vol) vol))) >>!
      check_err (fun vol => on_device (tape_set_compression lops (enable_compression (label vol))) vol) >>!
      set_format_key format_key >>!
      format_partition (ltfs_dp_id vol) >>!
      format_partition (ltfs_ip_id vol) >>!
      ret_x 0.

Definition ltfs_format_tape (reset_capacity : bool) (new_uuid : cstring)
    (format_key : option (Z * option (list Z) * option (list Z))) : op (mount D) Z :=
  let* r := format_steps reset_capacity new_uuid format_key in
  ret_op (match r with inl ret => ret | inr ret => ret end).

Definition ltfs_unformat_tape (long_wipe : bool) vol : option (Z * ltfs_volume D) :=
  match on_device_opt (tape_load_tape ops lops cap0 param0 junk fuel has_kmi) vol with
  | None => None
  | Some (ret, vol) =>
      if ret <? 0 then Some (ret, vol)
      else
        let '(ret, vol) := on_device (tape_logically_read_only lops param0) vol in
        if ret =? - LTFS_LOGICAL_WRITE_PROTECT then Some (ret, vol)
        else if medium_readonly vol <? 0 then Some (medium_readonly vol, vol)
        else
          let '(ret, vol) := on_device (tape_unformat ops lops) vol in
          if ret <? 0 then Some (ret, vol)
          else if long_wipe then
            let '(ret, vol) := on_device (tape_erase lops true) vol in
            Some (if ret <? 0 then ret else 0, vol)
          else Some (0, vol)
  end.

(** ** Giving the medium back *)

Definition ltfs_release_medium vol : option (Z * ltfs_volume D) :=
  let '(ret, dev) := test_ready_times ops 3 (- EDEV_UNKNOWN) (device vol) in
  if ret =? 0 then
    match tape_unload_tape ops lops fuel dev with
    | Some (_, dev) => Some (0, set_device dev vol)
    | None => None
    end
  else Some (0, set_device dev vol).

(** In this build the cartridge is not unloaded first. *)
Definition ltfs_recover_eod_simple vol : option (ltfs_volume D) :=
  let seek_missing partition (dev : device_data D) :=
    let pnum := ltfs_part_id2num partition vol in
    let '(status, dev) := tape_check_eod_status lops pnum dev in
    if status =? EOD_MISSING then (true, (tape_seek_eod ops pnum dev).2) else (false, dev) in
  let '(ip, dev) := seek_missing (ltfs_ip_id vol) (device vol) in
  let '(dp, dev) := seek_missing (ltfs_dp_id vol) dev in
  if ip || dp then
    match tape_load_tape ops lops cap0 param0 junk fuel has_kmi dev with
    | Some (_, dev) => Some (set_device dev vol)
    | None => None
    end
  else Some (set_device dev vol).

End mount.
