(* ===== verification/MountSpec.v ===== *)
(** * Checking and mounting

    On a cartridge both of whose partitions end in an index, [ltfs_check_medium] takes the
    newer of the two.  It writes nothing when that is the one of the index partition;
    when the data partition has a newer one, as after an interruption between the two
    writes of a synchronisation, it rewrites the index partition.  [ltfs_mount] ends
    with the index of the index partition, by whichever way it looks for it. *)

From S2P Require Import Prelude Errors TapeOps TapeDev TapeDevSpec Append Coherency Extents Volume VolumeSpec FsRaw FsRawReadSpec.
From S2P Require Import Pathname IndexCriteria FsTree FsOps IndexRead IndexReadSpec IndexRoundTrip XmlLib TapeLoad Label CheckMedium Mount.
Open Scope Z_scope.
Open Scope ltfs_scope.

(** ** Steps that succeed *)

Section steps.
Context {S : Type}.
Implicit Types s : S.

Lemma bind_x_ok {A B} (f : xop S A) (k : A -> xop S B) s x s' :
  f s = Some (inr x, s') -> bind_x f k s = k x s'.
Proof. intros H. unfold bind_x, bind_op. by rewrite H. Qed.

Lemma bind_x_fails {A B} (f : xop S A) (k : A -> xop S B) s e s' :
  f s = Some (inl e, s') -> bind_x f k s = Some (inl e, s').
Proof. intros H. unfold bind_x, bind_op. by rewrite H. Qed.
End steps.

Section spec.
Context {D : Type} (ops : tape_ops D) {tape_at : D -> medium -> tc_position -> Prop}.
Context `{!TapeOk ops tape_at, !SpaceOk ops tape_at}.
Context (kmi : option (list Z -> Z * option (list Z))).
Hypothesis reliable : tape_reliable ops tape_at.
Context (reader : xml_reader) (split : ltfs_volume D -> Z * ltfs_volume D).
Context (tree_at : tape_offset -> fs_state) (xml : fs_state -> xml_lib) (update_mam_attr : D -> Z * D).
Context (fuel rfuel : nat) (ignore : bool) (now : Z * Z) (junk : list Z).
Hypothesis fuel_positive : (0 < fuel)%nat.
Implicit Types (m : mount D) (vol : ltfs_volume D) (dev : device_data D) (med : medium).
Abbreviation dev_at := (dev_at (tape_at := tape_at)).

(** The index [idx] on the partition [partition], with [post] behind it: between two file
    marks, the document that the parser makes [idx] of.  The pointers of [idx] are right,
    and the parser is not asked more often than [rfuel] times. *)
Record index_on_tape (post : list tape_record) (vol : ltfs_volume D) (med : medium) (partition : Z) (idx : ltfs_index)
    : Prop := {
  end_file : exists pre blocks doc,
    part_of med (ltfs_part_id2num partition vol) = pre ++ Filemark :: (Data <$> blocks) ++ Filemark :: post
    /\ off_block (selfptr idx) = Z.of_nat (length pre) + 1 /\ blocks_of (blocksize (label vol)) doc blocks
    /\ Z.of_nat (length doc) < Z.of_nat rfuel
    /\ reads_document doc reader /\ sees_mark (blocksize (label vol)) blocks doc reader
    /\ parse reader doc false = {| p_ret := 0; p_index := idx; p_symerr_count := 0 |};
  end_behind : 4 < off_block (selfptr idx);
  end_partition : off_partition (selfptr idx) = partition;
  end_uuid : same_uuid (idx_vol_uuid idx) (vol_uuid (label vol)) = true;
  end_back : backptr_ok partition (off_block (selfptr idx) - 1) vol (backptr idx);
  end_clean : dirty idx = false
}.

Abbreviation ends_in_index := (index_on_tape []).

(** The partitions of the volume *)
Definition ids_positive vol : Prop := 0 < ltfs_ip_id vol /\ 0 < ltfs_dp_id vol.

Lemma ends_in_index_label post vol vol' med partition idx :
  label vol' = label vol -> index_on_tape post vol med partition idx -> index_on_tape post vol' med partition idx.
Proof.
  intros Hl [H1 H2 H3 H4 H5 H6]. split; [|done|done|by rewrite Hl| |done].
  - unfold ltfs_part_id2num in *. by rewrite Hl.
  - unfold backptr_ok, ltfs_dp_id in *. by rewrite Hl.
Qed.

Lemma label_ok_same vol vol' :
  label vol' = label vol -> max_block_size (device vol') = max_block_size (device vol) -> label_ok vol -> label_ok vol'.
Proof. intros Hl Hm [H1 H2 H3 H4]. by split; rewrite ?Hl, ?Hm. Qed.

Lemma end_pointers post vol med partition idx pos :
  label_ok vol -> 0 < partition -> partition = ltfs_dp_id vol \/ partition = ltfs_ip_id vol ->
  index_on_tape post vol med partition idx -> off_block (selfptr idx) < 2 ^ 63 ->
  TapeOps.partition pos = ltfs_part_id2num partition vol -> block pos = off_block (selfptr idx) ->
  pointers_valid pos (set_index idx vol) = true.
Proof.
  intros Hlab Hpos Hpart [_ Hb Hself _ Hback _] Hlt Hp Hblk.
  apply (written_pointers_valid vol partition (off_block (selfptr idx) - 1)); try done; try lia.
  rewrite u64_small by lia. destruct (selfptr idx). cbn in *. subst. f_equal. lia.
Qed.

Lemma part_eod_range dev med p : dev_at dev med -> valid_part p -> 0 <= eod_at med p < 2 ^ 63.
Proof.
  intros Hat Hv. destruct (tape_at_ok _ _ _ Hat) as (_ & _ & H0 & H1). split; [unfold eod_at; lia|].
  by destruct Hv as [-> | ->].
Qed.

(** What the search finds of a partition that ends in an index *)
Definition at_the_end (med : medium) (p : Z) : seek_result := with_end (eod_at med p) (eod_at med p) true false.

Lemma find_ok m med partition idx recover :
  label_ok (volume m) -> 0 < partition -> partition = ltfs_dp_id (volume m) \/ partition = ltfs_ip_id (volume m) ->
  dev_at (device (volume m)) med -> ends_in_index (volume m) med partition idx ->
  let p := ltfs_part_id2num partition (volume m) in
  exists vol, find_index ops kmi reader split fuel rfuel ignore partition recover m
    = Some (inr (Some idx, at_the_end med p), set_volume vol m)
  /\ dev_at (device vol) med /\ label vol = label (volume m) /\ vol_creator vol = vol_creator (volume m)
  /\ append_pos (device vol) = upd p (eod_at med p) (append_pos (device (volume m)))
  /\ max_block_size (device vol) = max_block_size (device (volume m))
  /\ ip_index_file_end vol = ip_index_file_end (volume m) /\ dp_index_file_end vol = dp_index_file_end (volume m)
  /\ off_block (selfptr idx) < eod_at med p.
Proof.
  intros Hlab Hpos Hpart Hat Hend p. destruct (part_id2num_ok _ _ Hlab Hpart) as [Hv _]. fold p in Hv.
  pose proof Hend as [(pre & blocks & doc & Htape & Hself & Hblocks & Hlen & Hr & Hs & Hp) H2 H3 H4 H5 H6]. fold p in Htape.
  destruct (part_eod_range _ _ _ Hat Hv) as [_ Heod].
  pose proof (eod_of_file med p pre blocks Htape) as He.
  destruct (seek_finds ops kmi reliable med p pre blocks doc Htape ltac:(lia) Hv (blocksize (label (volume m))) reader split idx
    Hblocks Hr Hs Hp (volume m) partition fuel rfuel ignore recover Hat eq_refl eq_refl (blocksize_ok _ Hlab) Heod H4) as
    (dev & Hrun & Hat' & _ & _ & Hap & Hmx).
  - intros pos Hpp Hpb. eapply end_pointers; try done; [lia|by rewrite Hpb].
  - done.
  - exact fuel_positive.
  - exact Hlen.
  - destruct (note_index_noted partition (set_index idx (set_device dev (volume m))) (volume m)) as (N1 & N2 & N3 & N4); [done..|].
    exists (note_index partition (set_index idx (set_device dev (volume m)))).
    unfold find_index. rewrite Hrun. cbn [Z.ltb Z.compare Z.eqb default]. rewrite N2. split; [done|].
    rewrite N1, N3. cbn [device set_index set_device]. split_and!; try done.
    all: try (unfold note_index; by destruct (_ =? _)).
    lia.
Qed.

(** A volume that differs from another one in its index, its device and its coherency data *)
Record same_label vol vol' : Prop := {
  sl_label : label vol' = label vol;
  sl_creator : vol_creator vol' = vol_creator vol;
  sl_max : max_block_size (device vol') = max_block_size (device vol);
  sl_ip_end : ip_index_file_end vol' = ip_index_file_end vol;
  sl_dp_end : dp_index_file_end vol' = dp_index_file_end vol
}.

Lemma part_num_same vol vol' partition :
  label vol' = label vol -> ltfs_part_id2num partition vol' = ltfs_part_id2num partition vol.
Proof. intros Hl. unfold ltfs_part_id2num. by rewrite Hl. Qed.

Lemma parts_differ vol : label_ok vol -> ltfs_part_id2num (ltfs_dp_id vol) vol = 1 - ltfs_part_id2num (ltfs_ip_id vol) vol.
Proof.
  intros [Hne Hmap _ _]. unfold ltfs_part_id2num, ltfs_dp_id, ltfs_ip_id.
  destruct Hmap as [-> | ->]; cbn [fst snd]; by rewrite ?Z.eqb_refl, ?(proj2 (Z.eqb_neq _ _)) by congruence.
Qed.

(** Both partitions end in an index: the state in which the newer is looked for *)
Lemma both_found m med ip dp fix_ deep extra recover :
  label_ok (volume m) -> ids_positive (volume m) -> dev_at (device (volume m)) med ->
  ends_in_index (volume m) med (ltfs_ip_id (volume m)) ip -> ends_in_index (volume m) med (ltfs_dp_id (volume m)) dp ->
  let ip_num := ltfs_part_id2num (ltfs_ip_id (volume m)) (volume m) in
  let dp_num := ltfs_part_id2num (ltfs_dp_id (volume m)) (volume m) in
  exists vol, check_steps ops kmi reader split tree_at xml update_mam_attr fuel rfuel ignore now junk fix_ deep extra recover m
    = check_found ops kmi reader split tree_at xml update_mam_attr rfuel now junk fix_ deep extra (Some ip) (Some dp)
        (at_the_end med ip_num) (at_the_end med dp_num) ip_num dp_num (set_volume vol m)
  /\ dev_at (device vol) med /\ same_label (volume m) vol
  /\ append_pos (device vol) = upd dp_num (eod_at med dp_num) (upd ip_num (eod_at med ip_num) (append_pos (device (volume m))))
  /\ off_block (selfptr ip) < eod_at med ip_num /\ off_block (selfptr dp) < eod_at med dp_num.
Proof.
  intros Hlab [Hi Hd] Hat Hip Hdp ip_num dp_num. unfold check_steps.
  rewrite (bind_x_ok _ _ m (volume m) m eq_refl). fold ip_num dp_num.
  destruct (find_ok m med _ ip recover Hlab Hi (or_intror eq_refl) Hat Hip)
    as (v1 & E1 & A1 & L1 & C1 & P1 & M1 & I1 & D1 & B1).
  rewrite (bind_x_ok _ _ _ _ _ E1). cbv beta iota.
  assert (Hid : ltfs_dp_id v1 = ltfs_dp_id (volume m)) by (unfold ltfs_dp_id; by rewrite L1).
  assert (Hdp1 : ends_in_index v1 med (ltfs_dp_id v1) dp) by (rewrite Hid; by apply (ends_in_index_label [] (volume m))).
  destruct (find_ok (set_volume v1 m) med (ltfs_dp_id v1) dp recover (label_ok_same _ _ L1 M1 Hlab) ltac:(cbn; by rewrite Hid) (or_introl eq_refl) A1 Hdp1)
    as (v2 & E2 & A2 & L2 & C2 & P2 & M2 & I2 & D2 & B2).
  cbn [volume set_volume] in *. rewrite Hid in *. rewrite (part_num_same (volume m) v1 _ L1) in *.
  change (ltfs_dp_id (volume m)) with (ltfs_dp_id (volume m)) in E2.
  rewrite (bind_x_ok _ _ _ _ _ E2). cbv beta iota.
  exists v2. fold dp_num in E2, P2, B2 |- *. split; [done|]. split; [exact A2|]. split; [|by rewrite P2, P1].
  split; congruence.
Qed.

(** The index that is chosen: [r] is what [_ltfs_check_pointers] says. *)
Definition chosen (r : Z) (ip dp : ltfs_index) : ltfs_index :=
  if r =? 0 then ip else ltfs_set_index_dirty false dp.

(** The volume with it, and the index partition's append position at its last index *)
Definition with_chosen (r : Z) (ip dp : ltfs_index) (ip_num : Z) vol : ltfs_volume D :=
  set_device (set_append_pos (upd ip_num (off_block (selfptr ip) - 1) (append_pos (device vol))) (device vol))
    (set_index (chosen r ip dp) vol).

Lemma check_found_steps vol vol2 t r ip dp ip_num dp_num med fix_ deep extra :
  _ltfs_check_pointers ops kmi reader split rfuel (Some ip) (Some dp) vol = Some (r, vol2) -> r = 0 \/ r = 1 ->
  valid_part ip_num -> 1 <= off_block (selfptr ip) < 2 ^ 63 ->
  check_found ops kmi reader split tree_at xml update_mam_attr rfuel now junk fix_ deep extra (Some ip) (Some dp)
    (at_the_end med ip_num) (at_the_end med dp_num) ip_num dp_num {| tree := t; volume := vol |}
  = finish_check ops xml update_mam_attr now junk fix_ (Some ip) (Some dp) (at_the_end med ip_num) (at_the_end med dp_num) dp_num
      {| tree := tree_at (selfptr (chosen r ip dp)); volume := with_chosen r ip dp ip_num vol2 |}.
Proof.
  intros Hptr Hr Hv Hb. unfold check_found. cbn [close_index at_the_end with_end blocks_after fm_after negb andb].
  rewrite (bind_x_ok _ _ _ _ _ eq_refl). cbv beta iota. rewrite (bind_x_ok _ _ _ _ _ eq_refl). cbv beta iota zeta.
  cbn [has_extra_blocks at_the_end with_end blocks_after orb]. rewrite !andb_false_r.
  assert (Hc : check_pointers ops kmi reader split rfuel (Some ip) (Some dp) {| tree := t; volume := vol |}
               = Some (inr r, {| tree := t; volume := vol2 |})).
  { unfold check_pointers. cbn [volume]. rewrite Hptr. rewrite (proj2 (Z.ltb_ge r 0)) by lia. done. }
  rewrite (bind_x_ok _ _ _ _ _ Hc). cbv beta.
  assert (Hch : choose_index tree_at r (Some ip) (Some dp) (r_eod (at_the_end med ip_num)) (r_eod (at_the_end med dp_num))
                  {| tree := t; volume := vol2 |}
                = Some (inr tt, {| tree := tree_at (selfptr (chosen r ip dp)); volume := set_index (chosen r ip dp) vol2 |})).
  { unfold choose_index, chosen. by destruct (r =? 0). }
  rewrite (bind_x_ok _ _ _ _ _ Hch). cbv beta. cbn [negb].
  rewrite (bind_x_ok (set_append ip_num _) _ _ 0
    {| tree := tree_at (selfptr (chosen r ip dp)); volume := with_chosen r ip dp ip_num vol2 |}).
  2:{ unfold set_append, check_err, on_device, tape_set_append_position. cbn [volume].
      rewrite u64_small by lia. by destruct Hv as [-> | ->]. }
  cbv beta. rewrite (bind_x_ok _ _ _ _ _ eq_refl). reflexivity.
Qed.

(** ** Reading an index at its place *)

Lemma read_at vol med partition post idx recover :
  label_ok vol -> 0 < partition -> partition = ltfs_dp_id vol \/ partition = ltfs_ip_id vol ->
  dev_at (device vol) med -> index_on_tape post vol med partition idx ->
  TapeOps.partition (position (device vol)) = ltfs_part_id2num partition vol ->
  block (position (device vol)) = off_block (selfptr idx) ->
  exists dev, ltfs_read_index ops kmi reader split rfuel 0 recover vol = Some (0, set_index idx (set_device dev vol))
  /\ dev_at dev med /\ same_places (device vol) dev.
Proof.
  intros Hlab Hpos Hpart Hat Hend Hp Hb. destruct (part_id2num_ok _ _ Hlab Hpart) as [Hv _].
  set (p := ltfs_part_id2num partition vol) in *.
  pose proof Hend as [(pre & blocks & doc & Htape & Hself & Hblocks & Hlen & Hr & Hs & Hpa) H2 H3 H4 H5 H6]. fold p in Htape.
  destruct (part_eod_range _ _ _ Hat Hv) as [_ Heod].
  assert (Hroom : off_block (selfptr idx) + Z.of_nat (length blocks) + 1 < 2 ^ 63).
  { unfold eod_at in Heod. rewrite Htape, !length_app in Heod. cbn [length] in Heod. rewrite length_app, length_fmap in Heod.
    cbn [length] in Heod. lia. }
  assert (Hfile : index_file med p (off_block (selfptr idx)) blocks).
  { split; [done|]. split; [lia|]. exists (pre ++ [Filemark]), post. split; [by rewrite Htape, <- app_assoc|].
    rewrite length_app. cbn. lia. }
  destruct (read_index_ok ops kmi reliable med p (off_block (selfptr idx)) (blocksize (label vol)) 0 blocks doc Hfile Hblocks
    (blocksize_ok _ Hlab) Hroom (or_introl eq_refl) reader split vol idx (conj Hat (conj Hp Hb)) eq_refl Hr Hpa H4
    (end_pointers _ _ _ _ _ _ Hlab Hpos Hpart Hend ltac:(lia) Hp Hb) rfuel recover Hlen)
    as (ret & dev & Hrun & Hat' & _ & _ & Hsees & Hpl).
  exists dev. rewrite Hrun, (Hsees Hs). done.
Qed.

(** A seek to the first block of an index that is there *)
Lemma seek_at vol med partition post idx :
  label_ok vol -> partition = ltfs_dp_id vol \/ partition = ltfs_ip_id vol ->
  dev_at (device vol) med -> index_on_tape post vol med partition idx ->
  exists dev, on_device (tape_seek ops (seek_pos (ltfs_part_id2num partition vol) (off_block (selfptr idx)))) vol = (0, set_device dev vol)
  /\ dev_at dev med /\ same_places (device vol) dev
  /\ TapeOps.partition (position dev) = ltfs_part_id2num partition vol /\ block (position dev) = off_block (selfptr idx).
Proof.
  intros Hlab Hpart Hat Hend. destruct (part_id2num_ok _ _ Hlab Hpart) as [Hv _].
  set (p := ltfs_part_id2num partition vol) in *.
  pose proof Hend as [(pre & blocks & doc & Htape & Hself & _) H2 _ _ _ _]. fold p in Htape.
  destruct (part_eod_range _ _ _ Hat Hv) as [_ Heod].
  assert (Hle : 0 <= off_block (selfptr idx) <= eod_at med p).
  { unfold eod_at. rewrite Htape, length_app. cbn [length]. lia. }
  pose proof (tape_seek_reaches ops med p _ (device vol) (data_reliable _ _ reliable) Hat Hv Hle) as Hge.
  unfold on_device. destruct (tape_seek ops (seek_pos p _) (device vol)) as [ret dev] eqn:Hs. cbn [fst] in Hge.
  destruct (tape_seek_ok ops (seek_pos p (off_block (selfptr idx))) _ _ _ _ Hat Hv ltac:(cbn; lia) Hs Hge)
    as (-> & A1 & P1 & B1 & U1 & _ & _ & M1 & _).
  exists dev. split; [done|]. split; [done|]. split; [done|]. split; [done|]. rewrite B1. unfold dest_block. cbn [block seek_pos].
  rewrite (proj2 (Z.eqb_neq _ _)); [done|]. unfold TAPE_BLOCK_MAX. lia.
Qed.

(** ** The index of the index partition is the newer one *)

Definition index_current (ip dp : ltfs_index) : Prop :=
  generation dp <= generation ip /\ backptr ip = selfptr dp.

Lemma pointers_current vol ip dp :
  index_current ip dp -> _ltfs_check_pointers ops kmi reader split rfuel (Some ip) (Some dp) vol = Some (0, vol).
Proof.
  intros [Hg Hb]. unfold _ltfs_check_pointers. rewrite Hb, !Z.eqb_refl.
  replace (generation ip >=? generation dp) with true; [done|]. symmetry. rewrite Z.geb_leb. by apply Z.leb_le.
Qed.

(** The volume after a check that found nothing to do *)
Definition mounted_at (ip : ltfs_index) (med : medium) vol vol' : Prop :=
  dev_at (device vol') med /\ index vol' = ip /\ label vol' = label vol
  /\ sel (ltfs_part_id2num (ltfs_ip_id vol) vol) (append_pos (device vol')) = off_block (selfptr ip) - 1.

Lemma check_consistent m med ip dp fix_ deep extra recover :
  label_ok (volume m) -> ids_positive (volume m) -> dev_at (device (volume m)) med ->
  ends_in_index (volume m) med (ltfs_ip_id (volume m)) ip -> ends_in_index (volume m) med (ltfs_dp_id (volume m)) dp ->
  index_current ip dp ->
  exists vol', ltfs_check_medium ops kmi reader split tree_at xml update_mam_attr fuel rfuel ignore now junk fix_ deep extra recover m
    = Some (0, {| tree := tree_at (selfptr ip); volume := vol' |})
  /\ mounted_at ip med (volume m) vol' /\ ip_index_file_end vol' = true /\ dp_index_file_end vol' = true.
Proof.
  intros Hlab Hids Hat Hip Hdp Hcur.
  destruct (both_found m med ip dp fix_ deep extra recover Hlab Hids Hat Hip Hdp)
    as (v & E & A & [L C M I Dd] & P & Bi & Bd).
  set (ip_num := ltfs_part_id2num (ltfs_ip_id (volume m)) (volume m)) in *.
  set (dp_num := ltfs_part_id2num (ltfs_dp_id (volume m)) (volume m)) in *.
  destruct (part_id2num_ok _ _ Hlab (or_intror eq_refl)) as [Hv _]. fold ip_num in Hv.
  pose proof (part_eod_range _ _ _ Hat Hv) as He. pose proof (end_behind _ _ _ _ _ Hip) as Hb.
  pose proof (check_found_steps v v (tree m) 0 ip dp ip_num dp_num med fix_ deep extra (pointers_current v ip dp Hcur)
    ltac:(by left) Hv ltac:(lia)) as Hf.
  unfold ltfs_check_medium, bind_op. rewrite E. unfold set_volume. rewrite Hf. cbn [chosen Z.eqb].
  set (v2 := with_chosen 0 ip dp ip_num v).
  set (v3 := set_file_end true true v2).
  assert (A3 : dev_at (device v3) med) by exact A.
  destruct (update_cart_coherency_frame ops junk v3 med A3) as (A4 & I4 & (L4 & _ & F4 & G4) & _ & P4 & _).
  assert (Hrun : finish_check ops xml update_mam_attr now junk fix_ (Some ip) (Some dp) (at_the_end med ip_num) (at_the_end med dp_num) dp_num
    {| tree := tree_at (selfptr ip); volume := v2 |}
    = Some (inr 0, {| tree := tree_at (selfptr ip); volume := (ltfs_update_cart_coherency ops junk v3).2 |})).
  { unfold finish_check. rewrite (bind_x_ok _ _ _ _ _ eq_refl). cbn [at_the_end with_end blocks_after negb orb volume set_volume].
    rewrite (bind_x_ok _ _ _ _ _ eq_refl). cbv beta. fold v3.
    change (dirty (index (volume (set_volume v3 _)))) with (dirty ip). rewrite (end_clean _ _ _ _ _ Hip).
    rewrite (bind_x_ok _ _ _ _ _ eq_refl). reflexivity. }
  rewrite Hrun. eexists. split; [reflexivity|]. split; [|by rewrite F4, G4]. split_and!.
  - exact A4.
  - by rewrite I4.
  - by rewrite L4.
  - rewrite P4. fold ip_num. cbn [v3 v2 with_chosen device set_file_end set_device append_pos set_append_pos].
    by rewrite sel_upd, Z.eqb_refl.
Qed.

(** ** The index of the data partition is the newer one *)

(** [dp] was written after [ip].  Either it is the first one since, or the one before it
    is where its back pointer says, and [ip] has a back pointer or is not newer than
    that one. *)
Definition data_newer vol med (ip dp : ltfs_index) : Prop :=
  generation ip < generation dp
  /\ (off_block (backptr dp) <= off_block (backptr ip)
      \/ exists prev post, index_on_tape post vol med (ltfs_dp_id vol) prev /\ selfptr prev = backptr dp
         /\ (off_partition (backptr ip) <> 0 \/ generation ip <= generation prev)).

Lemma pointers_newer vol med ip dp :
  label_ok vol -> 0 < ltfs_dp_id vol -> dev_at (device vol) med -> data_newer vol med ip dp ->
  exists vol2, _ltfs_check_pointers ops kmi reader split rfuel (Some ip) (Some dp) vol = Some (1, vol2)
  /\ dev_at (device vol2) med /\ same_label vol vol2 /\ append_pos (device vol2) = append_pos (device vol).
Proof.
  intros Hlab Hd Hat [Hg Hprev]. unfold _ltfs_check_pointers.
  replace (generation ip >=? generation dp) with false by (symmetry; rewrite Z.geb_leb; apply Z.leb_gt; lia).
  rewrite Z.gtb_ltb, (proj2 (Z.ltb_ge (generation dp) _)) by lia.
  rewrite (proj2 (Z.eqb_neq (generation ip) _)) by lia. cbn [andb]. rewrite Z.gtb_ltb.
  destruct (Z.ltb_spec (off_block (backptr ip)) (off_block (backptr dp))) as [Hlt|Hle]; [|by exists vol].
  destruct Hprev as [?|(prev & post & Hon & Hself & Hgen)]; [lia|]. change (partid_dp (label vol)) with (ltfs_dp_id vol).
  rewrite <- Hself.
  destruct (seek_at vol med _ post prev Hlab (or_introl eq_refl) Hat Hon) as (d1 & E1 & A1 & [U1 M1] & P1 & B1). rewrite E1.
  cbn [Z.ltb Z.compare].
  assert (Hl1 : label_ok (set_device d1 vol)) by (by apply (label_ok_same vol)).
  destruct (read_at (set_device d1 vol) med (ltfs_dp_id vol) post prev false Hl1 Hd (or_introl eq_refl) A1
    (ends_in_index_label post vol (set_device d1 vol) _ _ _ eq_refl Hon) P1 B1) as (d2 & E2 & A2 & [U2 M2]).
  rewrite E2. cbn [Z.ltb Z.compare index set_index].
  assert (Hback : (off_partition (backptr ip) =? 0) && (generation prev <? generation ip) = false).
  { destruct Hgen as [Hgen|Hgen]; [by rewrite (proj2 (Z.eqb_neq _ _))|]. rewrite (proj2 (Z.ltb_ge _ _)) by done. apply andb_false_r. }
  rewrite Hback. eexists. split; [reflexivity|]. cbn [device set_index set_device] in *. split; [exact A2|].
  split; [|by rewrite U2, U1]. split; cbn; congruence.
Qed.

(** The check up to its last steps *)
Lemma newer_found m med ip dp fix_ deep extra recover :
  label_ok (volume m) -> ids_positive (volume m) -> dev_at (device (volume m)) med ->
  ends_in_index (volume m) med (ltfs_ip_id (volume m)) ip -> ends_in_index (volume m) med (ltfs_dp_id (volume m)) dp ->
  data_newer (volume m) med ip dp ->
  let ip_num := ltfs_part_id2num (ltfs_ip_id (volume m)) (volume m) in
  let dp_num := ltfs_part_id2num (ltfs_dp_id (volume m)) (volume m) in
  exists vol, check_steps ops kmi reader split tree_at xml update_mam_attr fuel rfuel ignore now junk fix_ deep extra recover m
    = finish_check ops xml update_mam_attr now junk fix_ (Some ip) (Some dp) (at_the_end med ip_num) (at_the_end med dp_num) dp_num
        {| tree := tree_at (selfptr dp); volume := with_chosen 1 ip dp ip_num vol |}
  /\ dev_at (device vol) med /\ same_label (volume m) vol
  /\ sel dp_num (append_pos (device vol)) = eod_at med dp_num /\ off_block (selfptr ip) < eod_at med ip_num.
Proof.
  intros Hlab Hids Hat Hip Hdp Hnew ip_num dp_num.
  destruct (both_found m med ip dp fix_ deep extra recover Hlab Hids Hat Hip Hdp) as (v & E & A & S1 & P & Bi & Bd).
  fold ip_num dp_num in E, P, Bi, Bd.
  assert (Hl1 : label_ok v) by (apply (label_ok_same (volume m)); [apply S1|apply S1|done]).
  assert (Hid : ltfs_dp_id v = ltfs_dp_id (volume m)) by (unfold ltfs_dp_id; by rewrite (sl_label _ _ S1)).
  assert (Hnew1 : data_newer v med ip dp).
  { destruct Hnew as [Hg [Hb|(prev & post & Hon & H)]]; (split; [done|]); [by left|right; exists prev, post].
    split; [|done]. rewrite Hid. by apply (ends_in_index_label post (volume m)); [apply S1|]. }
  destruct (pointers_newer v med ip dp Hl1 ltac:(rewrite Hid; apply Hids) A Hnew1) as (v2 & Ep & A2 & S2 & P2).
  destruct (part_id2num_ok _ _ Hlab (or_intror eq_refl)) as [Hv _]. fold ip_num in Hv.
  destruct (part_id2num_ok _ _ Hlab (or_introl eq_refl)) as [Hvd _]. fold dp_num in Hvd.
  pose proof (part_eod_range _ _ _ Hat Hv) as He. pose proof (end_behind _ _ _ _ _ Hip) as Hb.
  exists v2. rewrite E. split; [|split; [exact A2|split; [|split; [|exact Bi]]]].
  - exact (check_found_steps v v2 (tree m) 1 ip dp ip_num dp_num med fix_ deep extra Ep ltac:(by right) Hv ltac:(lia)).
  - destruct S1, S2. split; congruence.
  - rewrite P2, P, sel_upd by done. by rewrite Z.eqb_refl.
Qed.

(** The index [dp] as it is written to the index partition in the place of [ip] *)
Definition recovered_index (ip dp : ltfs_index) : ltfs_index :=
  set_pointers (selfptr ip) (selfptr dp) (set_generation (u32 (generation dp + 1)) now (ltfs_set_index_dirty false dp)).

Hypothesis update_mam_attr_ok : forall d med pos, tape_at d med pos -> tape_at (update_mam_attr d).2 med pos.

(** The index fits behind what there is. *)
Definition room_for_index (x : xml_lib) vol med : Prop :=
  exists n, (forall idx, Z.of_nat (length (index_bytes x SYNC_RECOVERY vol idx)) <= n)
  /\ forall p, valid_part p -> eod_at med p + n + 3 < 2 ^ 63.

(** The volume before the index is written *)
Definition ready_to_recover (ip dp : ltfs_index) (ip_num : Z) vol : ltfs_volume D :=
  set_file_end true true (with_chosen 1 ip dp ip_num vol).

Section recover.
Context (vol : ltfs_volume D) (med : medium) (ip dp : ltfs_index).
Hypothesis Hlab : label_ok vol.
Hypothesis Hat : dev_at (device vol) med.
Let ip_num : Z := ltfs_part_id2num (ltfs_ip_id vol) vol.
Let dp_num : Z := ltfs_part_id2num (ltfs_dp_id vol) vol.
Hypothesis Hself : off_partition (selfptr ip) = ltfs_ip_id vol /\ off_partition (selfptr dp) = ltfs_dp_id vol.
Hypothesis Hblock : 4 < off_block (selfptr ip) < eod_at med ip_num.
Hypothesis Happend : sel dp_num (append_pos (device vol)) = eod_at med dp_num.
Let v3 : ltfs_volume D := ready_to_recover ip dp ip_num vol.

Lemma recover_append p :
  valid_part p -> sel p (append_pos (device v3)) = if p =? ip_num then off_block (selfptr ip) - 1 else eod_at med p.
Proof.
  intros Hv. destruct (part_id2num_ok _ _ Hlab (or_intror eq_refl)) as [Hvi _]. fold ip_num in Hvi.
  pose proof (parts_differ _ Hlab) as Hd. fold ip_num dp_num in Hd.
  cbn [v3 ready_to_recover with_chosen device set_file_end set_device append_pos set_append_pos].
  rewrite sel_upd, (Z.eqb_sym ip_num) by done. destruct (Z.eqb_spec p ip_num) as [|Hne]; [done|].
  assert (E : p = dp_num) by (destruct Hv, Hvi; lia). by rewrite E.
Qed.

Lemma recover_room x : room_for_index x vol med -> has_room x SYNC_RECOVERY med v3.
Proof.
  intros (n & Hn & Hr). exists n. split; [exact Hn|]. intros p Hv. specialize (Hr p Hv).
  pose proof (part_eod_range _ _ p Hat Hv) as He. unfold append_block. rewrite recover_append by done.
  unfold TAPE_BLOCK_MAX. destruct (Z.eqb_spec p ip_num) as [->|]; [|destruct (_ =? 0); lia].
  rewrite (proj2 (Z.eqb_neq _ _)) by lia. lia.
Qed.

Lemma recover_index :
  index_to_write now (ltfs_ip_id vol) (append_block med ip_num (device v3)) v3 = recovered_index ip dp
  /\ append_block med ip_num (device v3) = off_block (selfptr ip) - 1.
Proof.
  destruct (part_id2num_ok _ _ Hlab (or_intror eq_refl)) as [Hv _]. fold ip_num in Hv.
  pose proof (part_eod_range _ _ _ Hat Hv) as He.
  assert (Hb : append_block med ip_num (device v3) = off_block (selfptr ip) - 1).
  { unfold append_block. rewrite recover_append, Z.eqb_refl by done. by rewrite (proj2 (Z.eqb_neq _ _)) by lia. }
  split; [|exact Hb]. rewrite Hb. destruct Hself as [H1 H2]. unfold index_to_write, recovered_index.
  change (index v3) with (ltfs_set_index_dirty false dp). change (ltfs_is_dirty v3) with true.
  change (selfptr (ltfs_set_index_dirty false dp)) with (selfptr dp). change (ltfs_dp_id v3) with (ltfs_dp_id vol).
  rewrite H2, Z.eqb_refl, u64_small by lia. f_equal. destruct (selfptr ip). cbn in *. subst. f_equal. lia.
Qed.

Lemma recover_needs_no_other : dp_index_needed (ltfs_ip_id vol) v3 = false.
Proof.
  unfold dp_index_needed. change (ltfs_ip_id v3) with (ltfs_ip_id vol). rewrite Z.eqb_refl.
  change (index v3) with (ltfs_set_index_dirty false dp). cbn [v3 ready_to_recover dp_index_file_end ip_index_file_end set_file_end negb orb andb].
  change (selfptr (ltfs_set_index_dirty false dp)) with (selfptr dp). destruct Hself as [_ ->].
  apply Z.eqb_neq, (ids_differ _ Hlab).
Qed.

(** The last steps of the check: one index is written. *)
Lemma recover_finish last :
  last_ref (label vol) (tree_at (selfptr dp)) = Some last -> last.1 <= eod_at med dp_num ->
  finish_check ops xml update_mam_attr now junk true (Some ip) (Some dp) (at_the_end med ip_num) (at_the_end med dp_num) dp_num
    {| tree := tree_at (selfptr dp); volume := with_chosen 1 ip dp ip_num vol |}
  = (let* ret := write_index ops xml update_mam_attr now junk (ltfs_ip_id vol) in
     if ret <? 0 then fail_x ret else ret_x ret) {| tree := tree_at (selfptr dp); volume := v3 |}.
Proof.
  intros Hlast Hle. unfold finish_check. rewrite (bind_x_ok _ _ _ _ _ eq_refl).
  cbn [at_the_end with_end blocks_after negb orb volume set_volume tree].
  rewrite (bind_x_ok _ _ _ _ _ eq_refl). cbv beta. cbn [volume set_volume]. change (dirty (index _)) with true. cbv iota.
  unfold write_indexes. change (set_volume _ _) with {| tree := tree_at (selfptr dp); volume := v3 |}.
  assert (Hlr : the_last_ref {| tree := tree_at (selfptr dp); volume := v3 |}
                = Some (inr last, {| tree := tree_at (selfptr dp); volume := v3 |})).
  { unfold the_last_ref. cbn [volume tree]. change (label v3) with (label vol). by rewrite Hlast. }
  rewrite (bind_x_ok _ _ _ _ _ Hlr). destruct last as [ld li]. cbn [fst] in Hle. cbv beta iota.
  rewrite (bind_x_ok _ _ _ _ _ eq_refl). cbv beta iota zeta. cbn [volume].
  destruct (part_id2num_ok _ _ Hlab (or_introl eq_refl)) as [Hvd _]. fold dp_num in Hvd.
  pose proof (parts_differ _ Hlab) as Hdiff. fold ip_num dp_num in Hdiff.
  rewrite (recover_append dp_num Hvd), (proj2 (Z.eqb_neq dp_num ip_num)) by lia.
  rewrite Z.gtb_ltb, (proj2 (Z.ltb_ge _ _)) by exact Hle. rewrite andb_false_r. reflexivity.
Qed.

(** What a write that succeeds leaves *)
Lemma recover_written vol' :
  room_for_index (xml (tree_at (selfptr dp))) vol med ->
  write_index_here ops (xml (tree_at (selfptr dp))) update_mam_attr now junk (ltfs_ip_id vol) SYNC_RECOVERY v3 = (0, vol') ->
  document_lost ops (xml (tree_at (selfptr dp))) now (ltfs_ip_id vol) SYNC_RECOVERY v3 = false ->
  exists blocks, blocks_of (blocksize (label vol))
      (index_bytes (xml (tree_at (selfptr dp))) SYNC_RECOVERY vol (recovered_index ip dp)) blocks
  /\ dev_at (device vol') (write_at ip_num (off_block (selfptr ip) - 1) (Filemark :: (Data <$> blocks) ++ [Filemark]) med)
  /\ index vol' = ltfs_unset_index_dirty true (set_creator (vol_creator vol) (recovered_index ip dp))
  /\ label vol' = label vol /\ ip_index_file_end vol' = true /\ dp_index_file_end vol' = true.
Proof.
  intros Hroom Hhere Hlost.
  assert (Hl3 : label_ok v3) by (by apply (label_ok_same vol)).
  destruct (write_index_one ops (xml (tree_at (selfptr dp))) update_mam_attr update_mam_attr_ok now junk (ltfs_ip_id v3)
    SYNC_RECOVERY v3 med 0 vol' Hl3 (or_intror eq_refl) Hat (recover_room _ Hroom) Hhere ltac:(lia) Hlost)
    as (blocks & Hbl & Hat' & Hi & Hie & Hde & _ & Hlab' & _).
  change (ltfs_ip_id v3) with (ltfs_ip_id vol) in *. change (ltfs_part_id2num (ltfs_ip_id vol) v3) with ip_num in *.
  destruct recover_index as [Hidx Happ]. rewrite Hidx in Hbl, Hi. rewrite Happ in Hat'.
  exists blocks. split_and!; [exact Hbl|exact Hat'|exact Hi|exact Hlab'| |].
  - rewrite Hie. apply orb_true_r.
  - rewrite Hde. apply orb_true_r.
Qed.

End recover.

(** C9: a synchronisation that was interrupted.  Both partitions end in an index, and the
    one of the data partition was written after that of the index partition.  Where it
    may not write, [ltfs_check_medium] says that the cartridge is inconsistent and leaves
    it as it is.  Where it may, it takes the newer index and its tree, hands them to
    [ltfs_write_index] for the index partition, over an unchanged cartridge, and its
    answer and the volume it leaves are those of that call, so that an error is returned
    as such.  A call that reports success, and whose document no reset of the drive has
    cost ([document_lost]), has written the newer index in place of the old one, the next
    generation, pointing back to the one on the data partition, which stays.  No other
    recovery is needed, whatever is allowed. *)
Theorem check_medium_recovers m med ip dp deep extra recover last :
  label_ok (volume m) -> ids_positive (volume m) -> dev_at (device (volume m)) med ->
  ends_in_index (volume m) med (ltfs_ip_id (volume m)) ip -> ends_in_index (volume m) med (ltfs_dp_id (volume m)) dp ->
  data_newer (volume m) med ip dp ->
  last_ref (label (volume m)) (tree_at (selfptr dp)) = Some last ->
  last.1 <= eod_at med (ltfs_part_id2num (ltfs_dp_id (volume m)) (volume m)) ->
  room_for_index (xml (tree_at (selfptr dp))) (volume m) med ->
  let check fix_ := ltfs_check_medium ops kmi reader split tree_at xml update_mam_attr fuel rfuel ignore now junk
                      fix_ deep extra recover m in
  let ip_num := ltfs_part_id2num (ltfs_ip_id (volume m)) (volume m) in
  (exists m', check false = Some (- LTFS_INCONSISTENT, m') /\ dev_at (device (volume m')) med)
  /\ exists vol3 ret m',
     dev_at (device vol3) med /\ index vol3 = ltfs_set_index_dirty false dp /\ label vol3 = label (volume m) /\ label_ok vol3
     /\ ltfs_write_index ops (xml (tree_at (selfptr dp))) update_mam_attr 2 now junk (ltfs_ip_id (volume m)) SYNC_RECOVERY vol3
        = Some (ret, volume m')
     /\ check true = Some (ret, m') /\ (ret < 0 \/ ret = 0)
     /\ (ret = 0 ->
          document_lost ops (xml (tree_at (selfptr dp))) now (ltfs_ip_id (volume m)) SYNC_RECOVERY vol3 = false ->
          exists blocks,
          let idx := recovered_index ip dp in
          blocks_of (blocksize (label (volume m)))
            (index_bytes (xml (tree_at (selfptr dp))) SYNC_RECOVERY (volume m) idx) blocks
          /\ dev_at (device (volume m'))
               (write_at ip_num (off_block (selfptr ip) - 1) (Filemark :: (Data <$> blocks) ++ [Filemark]) med)
          /\ index (volume m') = ltfs_unset_index_dirty true (set_creator (vol_creator (volume m)) idx)
          /\ tree m' = tree_at (selfptr dp) /\ label (volume m') = label (volume m)
          /\ ip_index_file_end (volume m') = true /\ dp_index_file_end (volume m') = true).
Proof.
  intros Hlab Hids Hat Hip Hdp Hnew Hlast Hle Hroom check ip_num.
  set (dp_num := ltfs_part_id2num (ltfs_dp_id (volume m)) (volume m)) in *.
  split.
  - destruct (newer_found m med ip dp false deep extra recover Hlab Hids Hat Hip Hdp Hnew) as (v & E & A & _).
    unfold check, ltfs_check_medium, bind_op. rewrite E. eexists. split; [reflexivity|exact A].
  - destruct (newer_found m med ip dp true deep extra recover Hlab Hids Hat Hip Hdp Hnew) as (v & E & A & S1 & P & B).
    pose proof (sl_label _ _ S1) as Hl. pose proof (sl_creator _ _ S1) as Hc.
    assert (Hlv : label_ok v) by (apply (label_ok_same (volume m)); [exact Hl|apply S1|done]).
    assert (Hidi : ltfs_ip_id (volume m) = ltfs_ip_id v) by (unfold ltfs_ip_id; by rewrite Hl).
    assert (Hidd : ltfs_dp_id (volume m) = ltfs_dp_id v) by (unfold ltfs_dp_id; by rewrite Hl).
    assert (Hself : off_partition (selfptr ip) = ltfs_ip_id v /\ off_partition (selfptr dp) = ltfs_dp_id v)
      by (rewrite <- Hidi, <- Hidd; split; [apply Hip|apply Hdp]).
    assert (Hix : forall idx, index_bytes (xml (tree_at (selfptr dp))) SYNC_RECOVERY (volume m) idx
                              = index_bytes (xml (tree_at (selfptr dp))) SYNC_RECOVERY v idx)
      by (intros; unfold index_bytes; by rewrite Hc).
    assert (Hrv : room_for_index (xml (tree_at (selfptr dp))) v med).
    { destruct Hroom as (n & Hn & Hr). exists n. split; [|exact Hr]. intros idx. by rewrite <- Hix. }
    pose proof (end_behind _ _ _ _ _ Hip) as Hb.
    unfold check, ltfs_check_medium, bind_op. rewrite E. subst ip_num dp_num. rewrite Hidi, Hidd in *.
    rewrite !(part_num_same v (volume m)) in * by done. rewrite <- Hl in Hlast.
    rewrite (recover_finish v med ip dp Hlv P last Hlast Hle). unfold bind_op, write_index. cbn [volume tree].
    destruct (write_index_alone ops (xml (tree_at (selfptr dp))) update_mam_attr 1 now junk (ltfs_ip_id v) SYNC_RECOVERY _
      (recover_needs_no_other v ip dp Hlv Hself)) as (ret & vol' & Hrun & Hcase).
    exists (ready_to_recover ip dp (ltfs_part_id2num (ltfs_ip_id v) v) v), ret, {| tree := tree_at (selfptr dp); volume := vol' |}.
    split; [exact A|]. split; [reflexivity|]. split; [exact Hl|]. split; [by apply (label_ok_same v)|]. split; [exact Hrun|].
    rewrite Hrun. split; [by destruct (ret <? 0)|]. split.
    { destruct Hcase as [[Hneg _]|Hhere]; [by left|].
      pose proof (write_index_here_ret ops (xml (tree_at (selfptr dp))) update_mam_attr now junk (ltfs_ip_id v) SYNC_RECOVERY
        (ready_to_recover ip dp (ltfs_part_id2num (ltfs_ip_id v) v) v)) as H. cbv zeta in H. by rewrite Hhere in H. }
    intros -> Hlost. destruct Hcase as [[Hneg _]|Hhere]; [lia|].
    destruct (recover_written v med ip dp Hlv A Hself ltac:(lia) P vol' Hrv Hhere Hlost) as (blocks & H).
    exists blocks. cbn [volume set_volume tree]. rewrite Hix, <- Hl, <- Hc. by destruct H as (? & ? & ? & ? & ? & ?).
Qed.

(** ** Mounting *)

Section mount.
Context (lops : load_ops D) (xmem : xml_memory) (cap0 : tc_remaining_cap) (param0 : tc_drive_param) (opts : mount_options).
Hypothesis same_ignore : ignore_wrong_version opts = ignore.

(** Asking for the end of data and for the kind of the medium leaves it as it is; it is
    not a WORM. *)
Hypothesis eod_status_ok : forall part d med pos, tape_at d med pos -> tape_at (op_get_eod_status lops part d).2 med pos.
Hypothesis not_worm : forall w d med pos, tape_at d med pos ->
  let '(ret, is_worm, d') := op_get_worm_status lops w d in tape_at d' med pos /\ (ret =? 0) && is_worm = false.

Lemma eod_status_frame vol med :
  dev_at (device vol) med ->
  let vol' := (ltfs_check_eod_status lops vol).2 in
  dev_at (device vol') med /\ same_label vol vol' /\ vol' = set_device (device vol') vol.
Proof.
  intros Hat. unfold ltfs_check_eod_status, tape_check_eod_status.
  pose proof (eod_status_ok (ltfs_part_id2num (ltfs_ip_id vol) vol) _ _ _ Hat) as A1.
  destruct (op_get_eod_status lops _ (backend_data (device vol))) as [s1 d1]. cbn [snd] in A1. cbn [backend_data set_backend].
  pose proof (eod_status_ok (ltfs_part_id2num (ltfs_dp_id vol) vol) _ _ _ A1) as A2.
  destruct (op_get_eod_status lops _ d1) as [s2 d2]. cbn [snd] in A2.
  destruct (_ || _); [by split_and!|]. destruct (_ || _); [|by split_and!].
  unfold tape_get_worm_status. cbn [backend_data set_backend].
  pose proof (not_worm false _ _ _ A2) as A3. destruct (op_get_worm_status lops false d2) as [[r w] d3].
  destruct A3 as [A3 _]. destruct (_ && _); by split_and!.
Qed.

Lemma read_mam_frame vol :
  let vol' := (read_mam ops junk vol).2 in
  device vol' = device vol /\ label vol' = label vol /\ index vol' = index vol /\ vol_creator vol' = vol_creator vol.
Proof. unfold read_mam. destruct (tape_get_volume_change_reference _ _ _) as [ret vcr]. by destruct (_ || _). Qed.

(** What the cartridge memory says, where it is up to date, is that the index [ip] is the
    last one. *)
Definition mam_current vol (ip : ltfs_index) : Prop :=
  let '(vcr, v) := read_mam ops junk vol in
  version (ip_coh v) <> 0 -> version (dp_coh v) <> 0 ->
  vcr = volume_change_ref (ip_coh v) -> vcr = volume_change_ref (dp_coh v) ->
  count (dp_coh v) <= count (ip_coh v) /\ set_id (ip_coh v) = off_block (selfptr ip).

Abbreviation mount_index := (mount_index ops kmi reader split tree_at xml update_mam_attr fuel rfuel opts now junk).

Lemma mount_index_ok m med ip dp deep extra recover force vcr :
  label_ok (volume m) -> ids_positive (volume m) -> dev_at (device (volume m)) med ->
  ends_in_index (volume m) med (ltfs_ip_id (volume m)) ip -> ends_in_index (volume m) med (ltfs_dp_id (volume m)) dp ->
  index_current ip dp ->
  (version (ip_coh (volume m)) <> 0 -> version (dp_coh (volume m)) <> 0 ->
   vcr = volume_change_ref (ip_coh (volume m)) -> vcr = volume_change_ref (dp_coh (volume m)) ->
   count (dp_coh (volume m)) <= count (ip_coh (volume m)) /\ set_id (ip_coh (volume m)) = off_block (selfptr ip)) ->
  exists vol', mount_index deep extra recover force vcr m = Some (inr 0, {| tree := tree_at (selfptr ip); volume := vol' |})
  /\ dev_at (device vol') med /\ index vol' = ip /\ label vol' = label (volume m).
Proof.
  intros Hlab Hids Hat Hip Hdp Hcur Hmam. unfold Mount.mount_index. rewrite (bind_x_ok _ _ _ _ _ eq_refl).
  destruct (_ && _ && _ && _) eqn:Hq.
  - bool_to_prop. destruct Hmam as [Hc Hs]; [lia..|]. rewrite (proj2 (Z.ltb_ge _ _)) by done. unfold mount_from. rewrite Hs.
    destruct (seek_at (volume m) med _ [] ip Hlab (or_intror eq_refl) Hat Hip) as (d1 & E1 & A1 & [U1 M1] & P1 & B1).
    unfold run_vol. erewrite (bind_x_ok _ _ m 0); [|by rewrite E1].
    change (0 =? - EDEV_EOD_DETECTED) with false. cbn [Z.ltb Z.compare].
    destruct (read_at (set_device d1 (volume m)) med (ltfs_ip_id (volume m)) [] ip false (label_ok_same (volume m) (set_device d1 (volume m)) eq_refl M1 Hlab)
      (proj1 Hids) (or_intror eq_refl) A1 (ends_in_index_label [] (volume m) (set_device d1 (volume m)) _ _ _ eq_refl Hip) P1 B1)
      as (d2 & E2 & A2 & _).
    rewrite (bind_x_ok (check_err_opt _) _ _ 0 (set_volume (set_index ip (set_device d2 (set_device d1 (volume m)))) m)).
    2:{ unfold check_err_opt. cbn [volume set_volume]. by rewrite E2. }
    rewrite (bind_x_ok _ _ _ _ _ eq_refl). eexists. split; [reflexivity|]. by split_and!.
  - unfold full_check. rewrite same_ignore.
    destruct (check_consistent m med ip dp true deep extra recover Hlab Hids Hat Hip Hdp Hcur) as (vol' & E & (A & I & L & _) & _).
    unfold bind_op. rewrite E. exists vol'. split; [reflexivity|]. by split_and!.
Qed.

(** The append position of the index partition, in front of its last index *)
Lemma ip_append_ok m med :
  valid_part (ltfs_part_id2num (ltfs_ip_id (volume m)) (volume m)) -> dev_at (device (volume m)) med ->
  1 <= off_block (selfptr (index (volume m))) < 2 ^ 63 ->
  exists dev, set_ip_append lops m = Some (inr 0, set_volume (set_device dev (volume m)) m)
  /\ dev_at dev med
  /\ sel (ltfs_part_id2num (ltfs_ip_id (volume m)) (volume m)) (append_pos dev) = off_block (selfptr (index (volume m))) - 1.
Proof.
  intros Hv Hat Hb. unfold set_ip_append, run_vol, tape_get_worm_status. pose proof (not_worm false _ _ _ Hat) as Hw.
  destruct (op_get_worm_status lops false (backend_data (device (volume m)))) as [[ret w] d] eqn:E. destruct Hw as [A Hw].
  erewrite (bind_x_ok _ _ m (ret, w)); [|by rewrite E]. cbv beta iota. rewrite Hw. unfold check_err, on_device, tape_set_append_position.
  cbn [volume set_volume]. change (index (set_device _ (volume m))) with (index (volume m)). rewrite u64_small by lia.
  change (ltfs_part_id2num _ (set_device _ (volume m))) with (ltfs_part_id2num (ltfs_ip_id (volume m)) (volume m)).
  set (p := ltfs_part_id2num _ _) in *. destruct (p >? 1) eqn:Hp; [by destruct Hv as [Hz|Hz]; rewrite Hz in Hp|].
  eexists. split; [reflexivity|]. split; [exact A|]. cbn [append_pos set_append_pos device set_device set_backend].
  by rewrite sel_upd, Z.eqb_refl.
Qed.

(** C10: mounting a consistent cartridge.  Once the cartridge is loaded and its labels are
    read, with both partitions ending in an index and that of the index partition the
    newer one, pointing to that of the data partition, [ltfs_mount] returns 0: whether it
    trusts the cartridge memory and seeks to the index, or checks the medium in full,
    the volume has the index of the index partition, with its tree; nothing has been
    written to the tape; and the next index of the index partition will take its
    place. *)
Theorem mount_consistent m0 m r med ip dp force deep extra recover gen :
  ltfs_start_mount ops lops kmi xmem cap0 param0 fuel junk m0 = Some (inr r, m) ->
  label_ok (volume m) -> ids_positive (volume m) -> dev_at (device (volume m)) med ->
  ends_in_index (volume m) med (ltfs_ip_id (volume m)) ip -> ends_in_index (volume m) med (ltfs_dp_id (volume m)) dp ->
  index_current ip dp ->
  skip_eod_check opts = true \/ 0 <= (ltfs_check_eod_status lops (volume m)).1 ->
  mam_current (ltfs_check_eod_status lops (volume m)).2 ip ->
  gen = 0 \/ gen = generation ip ->
  exists vol', ltfs_mount ops lops kmi reader split tree_at xml update_mam_attr xmem cap0 param0 fuel rfuel opts now junk
      force deep extra recover gen m0
    = Some (0, {| tree := tree_at (selfptr ip); volume := vol' |})
  /\ mounted_at ip med (volume m) vol'
  /\ ip_index_file_end vol' = true /\ dp_index_file_end vol' = true /\ rollback_mount vol' = false.
Proof.
  intros Hstart Hlab Hids Hat Hip Hdp Hcur Heod Hmam Hgen.
  destruct (eod_status_frame (volume m) med Hat) as (A1 & S1 & V1).
  unfold ltfs_mount, bind_op, mount_steps. rewrite (bind_x_ok _ _ _ _ _ Hstart). cbv beta.
  unfold run_vol. destruct (ltfs_check_eod_status lops (volume m)) as [ret vol1] eqn:Ee. cbn [fst snd] in *.
  erewrite (bind_x_ok _ _ m ret); [|by rewrite Ee]. cbv beta.
  replace (negb (skip_eod_check opts) && (ret <? 0)) with false
    by (symmetry; destruct Heod as [-> | Hr]; [done|rewrite (proj2 (Z.ltb_ge _ _)) by done; apply andb_false_r]).
  unfold mam_current in Hmam. pose proof (read_mam_frame vol1) as (Dm & Lm & Im & _).
  destruct (read_mam ops junk vol1) as [vcr vol2] eqn:Em. cbn [snd] in *.
  erewrite (bind_x_ok _ _ _ vcr); [|cbn [volume set_volume]; by rewrite Em]. cbv beta.
  set (m2 := set_volume vol2 (set_volume vol1 m)).
  assert (L2 : label vol2 = label (volume m)) by (rewrite Lm; apply S1).
  assert (Hlab2 : label_ok vol2) by (apply (label_ok_same (volume m)); [done|rewrite Dm; apply S1|done]).
  assert (Hidi : ltfs_ip_id vol2 = ltfs_ip_id (volume m)) by (unfold ltfs_ip_id; by rewrite L2).
  assert (Hidd : ltfs_dp_id vol2 = ltfs_dp_id (volume m)) by (unfold ltfs_dp_id; by rewrite L2).
  destruct (mount_index_ok m2 med ip dp deep extra recover force vcr Hlab2) as (vol3 & E3 & A3 & I3 & L3); try done.
  { unfold ids_positive. cbn. by rewrite Hidi, Hidd. }
  { cbn. by rewrite Dm. }
  { cbn. rewrite Hidi. by apply (ends_in_index_label [] (volume m)). }
  { cbn. rewrite Hidd. by apply (ends_in_index_label [] (volume m)). }
  rewrite (bind_x_ok _ _ _ _ _ E3). rewrite (bind_x_ok _ _ _ _ _ eq_refl). rewrite (bind_x_ok _ _ _ _ _ eq_refl).
  cbn [volume set_volume tree]. change (index (set_rollback false vol3)) with (index vol3). rewrite I3.
  replace (negb (gen =? 0) && negb (gen =? generation ip)) with false
    by (symmetry; destruct Hgen as [-> | ->]; [done|rewrite (Z.eqb_refl (generation ip)); apply andb_false_r]).
  set (vol4 := set_rollback false vol3).
  assert (L4 : label vol4 = label (volume m)) by (change (label vol4) with (label vol3); by rewrite L3).
  destruct (part_id2num_ok _ _ Hlab (or_intror eq_refl)) as [Hv _].
  pose proof (part_eod_range _ _ _ Hat Hv) as He. pose proof (end_behind _ _ _ _ _ Hip) as Hb.
  assert (Hlt : off_block (selfptr ip) < 2 ^ 63).
  { pose proof Hip as [(pre & blocks & doc & Htape & Hself & _) _ _ _ _ _]. unfold eod_at in He. rewrite Htape, length_app in He.
    cbn [length] in He. lia. }
  assert (Hp4 : ltfs_part_id2num (ltfs_ip_id vol4) vol4 = ltfs_part_id2num (ltfs_ip_id (volume m)) (volume m)).
  { rewrite (part_num_same (volume m) vol4) by done. f_equal. unfold ltfs_ip_id. by rewrite L4. }
  destruct (ip_append_ok (set_volume vol4 {| tree := tree_at (selfptr ip); volume := vol3 |}) med) as (d5 & E5 & A5 & U5).
  { cbn [volume set_volume]. by rewrite Hp4. }
  { exact A3. }
  { cbn [volume set_volume]. change (index vol4) with (index vol3). rewrite I3. lia. }
  rewrite (bind_x_ok _ _ _ _ _ E5). rewrite (bind_x_ok _ _ _ _ _ eq_refl). eexists. split; [reflexivity|].
  cbn [volume set_volume] in *. rewrite Hp4 in U5. change (index vol4) with (index vol3) in U5. rewrite I3 in U5.
  split; [|done]. split_and!; [exact A5|exact I3|exact L4|exact U5].
Qed.

End mount.
End spec.
