(* ===== verification/MountOnFile.v ===== *)
(** * Checking and mounting on the file-backed drive

    The properties of [MountSpec] at a concrete cartridge: both partitions have a label and,
    behind it, one index. *)

From S2P Require Import Prelude Errors TapeOps FileDebug FileDebugOk FileDebugSpec.
From S2P Require Import TapeDev TapeDevSpec Append Coherency TapeOnFile Volume VolumeSpec VolumeOnFile FsRaw FsRawReadSpec IndexReadSpec IndexRoundTrip IndexOnFile.
From S2P Require Import Extents FsTree FsOps FsHistory IndexRead XmlLib TapeLoad FileDebugLoad Label LabelSpec LabelOnFile CheckMedium Mount MountSpec.
Open Scope Z_scope.

(** ** The directory of a medium *)

Definition file_of (r : tape_record) : Z * list Z :=
  match r with Data bs => (SUFFIX_RECORD, bs) | Filemark => (SUFFIX_FILEMARK, []) end.

Fixpoint partition_files (p i : Z) (l : list tape_record) (fs : gmap (Z * Z * Z) (list Z)) : gmap (Z * Z * Z) (list Z) :=
  match l with
  | [] => <[(p, i, SUFFIX_EOD) := []]> fs
  | r :: l => <[(p, i, (file_of r).1) := (file_of r).2]> (partition_files p (i + 1) l fs)
  end.

Definition medium_files (m : medium) : gmap (Z * Z * Z) (list Z) :=
  partition_files 0 0 (part0 m) (partition_files 1 0 (part1 m) ∅).

Lemma partition_files_elsewhere p q i l fs j x :
  p <> q -> partition_files p i l fs !! (q, j, x) = fs !! (q, j, x).
Proof.
  intros Hne. revert i. induction l as [|r l IH]; intros i; cbn [partition_files]; rewrite lookup_insert_ne by congruence; [done|apply IH].
Qed.

Lemma partition_files_holds p i l fs j x :
  0 <= i -> (forall k y, fs !! (p, k, y) = None) -> partition_files p i l fs !! (p, j, x) = expected l (j - i) x.
Proof.
  intros Hi Hfs. revert i Hi. induction l as [|r l IH]; intros i Hi; cbn [partition_files].
  - destruct (Z.eq_dec j i) as [-> |Hj].
    + rewrite Z.sub_diag. change 0 with (Z.of_nat (length (@nil tape_record))). rewrite expected_eod.
      destruct (Z.eqb_spec x SUFFIX_EOD) as [-> |]; [by rewrite lookup_insert_eq|].
      by rewrite lookup_insert_ne by congruence.
    + rewrite lookup_insert_ne by congruence. rewrite Hfs. unfold expected. destruct (_ <? 0); [done|].
      rewrite (proj2 (Z.eqb_neq _ _)) by (cbn; lia). by rewrite lookup_nil.
  - destruct (Z.eq_dec j i) as [-> |Hj].
    + rewrite Z.sub_diag. rewrite (expected_record _ _ _ r) by done.
      assert (Hnext : partition_files p (i + 1) l fs !! (p, i, x) = None).
      { rewrite IH by lia. unfold expected. by rewrite (proj2 (Z.ltb_lt _ _)) by lia. }
      destruct r as [bs|]; cbn [file_of fst snd record_file].
      * destruct (Z.eqb_spec x SUFFIX_RECORD) as [-> |]; [by rewrite lookup_insert_eq|]. by rewrite lookup_insert_ne by congruence.
      * destruct (Z.eqb_spec x SUFFIX_FILEMARK) as [-> |]; [by rewrite lookup_insert_eq|]. by rewrite lookup_insert_ne by congruence.
    + rewrite lookup_insert_ne by congruence. rewrite IH by lia. unfold expected.
      destruct (Z.ltb_spec (j - i) 0) as [Hn|Hn]; [by rewrite (proj2 (Z.ltb_lt _ _)) by lia|].
      rewrite (proj2 (Z.ltb_ge _ _)) by lia. cbn [length]. rewrite Nat2Z.inj_succ.
      destruct (Z.eqb_spec (j - i) (Z.succ (Z.of_nat (length l)))) as [He|He]; [by rewrite (proj2 (Z.eqb_eq _ _)) by lia|].
      rewrite (proj2 (Z.eqb_neq _ _)) by lia. replace (Z.to_nat (j - i)) with (S (Z.to_nat (j - (i + 1)))) by lia. done.
Qed.

(** A drive whose directory is that of [m] *)
Lemma drive_at s m pos :
  files s = medium_files m -> ready s = true -> FileDebug.max_block_size s < 2 ^ 31 ->
  eod s = (Z.of_nat (length (part0 m)), Z.of_nat (length (part1 m))) ->
  FileDebug.last_block s = (u64 (Z.of_nat (length (part0 m)) - 1), u64 (Z.of_nat (length (part1 m)) - 1)) ->
  valid_part (cur_part s) -> 0 <= cur_block s <= eod_at m (cur_part s) ->
  Z.of_nat (length (part0 m)) < 2 ^ 63 -> Z.of_nat (length (part1 m)) < 2 ^ 63 ->
  partition pos = cur_part s -> block pos = cur_block s ->
  filedebug_at s m pos.
Proof.
  intros Hf Hr Hm He Hl Hv Hb H0 H1 Hp Hpb. split; [done|]. split; [done|]. split.
  { split; [|rewrite He, Hl; done]. intros j x. rewrite Hf. unfold medium_files. rewrite partition_files_holds; [by rewrite Z.sub_0_r|done|].
    intros k y. rewrite partition_files_elsewhere by done. by rewrite lookup_empty. }
  split; [|destruct Hb; by split_and!].
  split; [|rewrite He, Hl; done]. intros j x. rewrite Hf. unfold medium_files. rewrite partition_files_elsewhere by done.
  rewrite partition_files_holds; [by rewrite Z.sub_0_r|done|]. intros k y. by rewrite lookup_empty.
Qed.

(** ** The cartridge *)

Definition ip_doc : list Z := [1].
Definition dp_doc : list Z := [2].

Definition cartridge_part (partition : Z) (doc : list Z) : list tape_record :=
  label_records (label labels_volume) (labels_doc partition) ++ [Filemark; Data doc; Filemark].

(** The data partition is the first one. *)
Definition cartridge : medium := {| part0 := cartridge_part 0 dp_doc; part1 := cartridge_part 1 ip_doc |}.

Definition cartridge_drive : filedebug_data := filedebug_open (medium_files cartridge) ∅.

Definition at_block (q b : Z) : tape_offset := {| off_partition := q; off_block := b |}.

Definition cartridge_index (gen : Z) (self back : tape_offset) : ltfs_index :=
  {| idx_creator := cstr "ltfs"; idx_vol_uuid := vol_uuid (label labels_volume); generation := gen; mod_time := (0, 0);
     selfptr := self; backptr := back; dirty := false; atime_dirty := false; use_atime := true;
     idx_version := LTFS_INDEX_VERSION |}.

Definition dp_index (gen : Z) : ltfs_index := cartridge_index gen (at_block 98 5) (at_block 0 0).
Definition ip_index (gen : Z) (back : tape_offset) : ltfs_index := cartridge_index gen (at_block 97 5) back.

(** A parser of the two documents *)
Definition two_readers (ip dp : ltfs_index) : xml_reader :=
  {| next_request := fun _ => Some 5;
     parse := fun bytes failed =>
       {| p_ret := if (bool_decide (bytes = ip_doc) || bool_decide (bytes = dp_doc)) && negb failed then 0 else -1;
          p_index := if bool_decide (bytes = dp_doc) then dp else ip; p_symerr_count := 0 |} |}.

Definition no_cap : tc_remaining_cap := {| remaining_p0 := 0; remaining_p1 := 0; max_p0 := 0; max_p1 := 0 |}.
Definition no_param : tc_drive_param := {| max_blksize := 0; param_write_protect := false; logical_write_protect := false |}.

(** A volume that has not been mounted, and its cartridge, not loaded *)
Definition unmounted : mount filedebug_data :=
  {| tree := tree0; volume := set_device (set_backend no_position cartridge_drive labelled_device) (set_label label_alloc labels_volume) |}.

Definition started : option ((Z + Z) * mount filedebug_data) :=
  ltfs_start_mount filedebug_handler filedebug_load_handler None labels_xmem no_cap no_param 5 [] unmounted.

Definition started_mount : mount filedebug_data :=
  match started with Some (_, m) => m | None => unmounted end.

Definition started_label : ltfs_label := Eval vm_compute in label (volume started_mount).

Lemma started_ok : started = Some (inr 0, started_mount).
Proof.
  assert (E : match started with Some (inr r, _) => r =? 0 | _ => false end = true) by (vm_compute; reflexivity).
  unfold started_mount. destruct started as [[[e|r] m]|]; [done| |done]. by rewrite (proj1 (Z.eqb_eq _ _) E).
Qed.

Lemma started_labelled : label (volume started_mount) = started_label.
Proof. vm_compute. reflexivity. Qed.

Lemma started_at : dev_at (tape_at := filedebug_at) (device (volume started_mount)) cartridge.
Proof.
  apply drive_at; [vm_compute; reflexivity..|by right| | | | |].
  all: vm_compute; try reflexivity; split; discriminate.
Qed.

Lemma started_label_ok : label_ok (volume started_mount).
Proof. split; rewrite ?started_labelled; vm_compute; try (by left); try (split; reflexivity); discriminate. Qed.

Lemma started_ids : ids_positive (volume started_mount).
Proof. unfold ids_positive, ltfs_ip_id, ltfs_dp_id. rewrite started_labelled. done. Qed.

Lemma started_ip : ltfs_ip_id (volume started_mount) = 97.
Proof. unfold ltfs_ip_id. by rewrite started_labelled. Qed.

Lemma started_dp : ltfs_dp_id (volume started_mount) = 98.
Proof. unfold ltfs_dp_id. by rewrite started_labelled. Qed.

(** One of the two documents, behind the label of its partition *)
Lemma one_block doc x : doc = [x] -> blocks_of 16 doc [doc].
Proof.
  intros ->. split; [done|]. exists [], [[x]]. split; [done|]. split; [by apply List.Forall_nil|].
  right. exists [x]. split; [done|cbn; lia].
Qed.

Lemma cartridge_ends ip dp partition idx doc :
  partition = 97 /\ idx = ip /\ doc = ip_doc \/ partition = 98 /\ idx = dp /\ doc = dp_doc ->
  selfptr idx = at_block partition 5 -> idx_vol_uuid idx = vol_uuid started_label -> dirty idx = false ->
  backptr_ok partition 4 (volume started_mount) (backptr idx) ->
  index_on_tape (two_readers ip dp) 20 [] (volume started_mount) cartridge partition idx.
Proof.
  intros Hwhich Hself Huuid Hdirty Hback.
  assert (Hpart : part_of cartridge (ltfs_part_id2num partition (volume started_mount))
                  = cartridge_part (ltfs_part_id2num partition (volume started_mount)) doc
                  /\ exists x, doc = [x]).
  { unfold ltfs_part_id2num. rewrite started_labelled. destruct Hwhich as [(-> & _ & ->)|(-> & _ & ->)]; (split; [done|by eexists]). }
  destruct Hpart as [Hpart [x Hx]]. split.
  - rewrite Hpart. eexists _, [doc], doc. split; [reflexivity|]. rewrite Hself. split; [done|].
    rewrite started_labelled. split; [by apply (one_block doc x)|]. split; [subst doc; cbn; lia|].
    assert (Hreads : reads_document doc (two_readers ip dp)) by (split; [by exists 5|]; intros y n [= <-]; lia).
    split; [exact Hreads|]. split; [by left|].
    destruct Hwhich as [(-> & -> & ->)|(-> & -> & ->)]; vm_compute; reflexivity.
  - by rewrite Hself.
  - by rewrite Hself.
  - rewrite started_labelled, Huuid. by vm_compute.
  - by rewrite Hself.
  - done.
Qed.

Lemma filedebug_eod_status part d m pos :
  filedebug_at d m pos -> filedebug_at (op_get_eod_status filedebug_load_handler part d).2 m pos.
Proof. done. Qed.

Lemma filedebug_not_worm w d m pos :
  filedebug_at d m pos ->
  let '(ret, is_worm, d') := op_get_worm_status filedebug_load_handler w d in filedebug_at d' m pos /\ (ret =? 0) && is_worm = false.
Proof. done. Qed.

(** ** The witnesses *)

Definition sample_tree (self : tape_offset) : fs_state := tree3.

(** The index partition points to the index of the data partition; the cartridge memory
    has nothing to say. *)
Definition last_ip : ltfs_index := ip_index 2 (at_block 98 5).
Definition last_dp : ltfs_index := dp_index 1.

Definition mount_opts : mount_options := {| skip_eod_check := false; ignore_wrong_version := false; traverse_forward := false |}.

Lemma mount_consistent_witness : exists vol',
  ltfs_mount filedebug_handler filedebug_load_handler None (two_readers last_ip last_dp) no_split sample_tree (fun _ => sample_xml)
    no_mam labels_xmem no_cap no_param 5 20 mount_opts (7, 0) [] false false false false 0 unmounted
  = Some (0, {| tree := tree3; volume := vol' |})
  /\ mounted_at (tape_at := filedebug_at) last_ip cartridge (volume started_mount) vol'.
Proof.
  destruct (mount_consistent filedebug_handler None filedebug_tape_reliable (two_readers last_ip last_dp) no_split sample_tree
    (fun _ => sample_xml) no_mam 5 20 false (7, 0) [] ltac:(lia) filedebug_load_handler labels_xmem no_cap no_param mount_opts eq_refl
    filedebug_eod_status filedebug_not_worm unmounted started_mount 0 cartridge last_ip last_dp false false false false 0
    started_ok started_label_ok started_ids started_at) as (vol' & Hrun & Hat & _).
  - rewrite started_ip. apply (cartridge_ends _ _ _ _ ip_doc); [by left|done..|]. right. rewrite started_dp. split_and!; cbn; lia.
  - rewrite started_dp. apply (cartridge_ends _ _ _ _ dp_doc); [by right|done..|]. by left.
  - split; [cbn; lia|done].
  - right. vm_compute. discriminate.
  - unfold mam_current. match goal with |- context [read_mam ?o ?j ?v] =>
      assert (Hv : version (ip_coh (read_mam o j v).2) = 0) by (vm_compute; reflexivity); destruct (read_mam o j v) as [vcr v'] end.
    intros Hne. destruct (Hne Hv).
  - by left.
  - exists vol'. split; [exact Hrun|exact Hat].
Defined.

(** The index partition has the first index only. *)
Definition old_ip : ltfs_index := ip_index 1 (at_block 0 0).
Definition new_dp : ltfs_index := cartridge_index 2 (at_block 98 5) (at_block 0 0).

Definition check_cartridge (fix_ : bool) :=
  ltfs_check_medium filedebug_handler None (two_readers old_ip new_dp) no_split sample_tree (fun _ => sample_xml) no_mam 5 20 false
    (7, 0) [] fix_ false false false started_mount.

Lemma check_cartridge_returns : fst <$> check_cartridge true = Some 0.
Proof. vm_compute. reflexivity. Qed.

Lemma returned {A B} (o : option (A * B)) (x y : A) (m : B) : o = Some (x, m) -> fst <$> o = Some y -> x = y.
Proof. intros -> H. by injection H. Qed.

Lemma check_medium_recovers_witness :
  (exists m', check_cartridge false = Some (- LTFS_INCONSISTENT, m'))
  /\ exists m' blocks, check_cartridge true = Some (0, m')
     /\ dev_at (tape_at := filedebug_at) (device (volume m')) (write_at 1 4 (Filemark :: (Data <$> blocks) ++ [Filemark]) cartridge)
     /\ generation (index (volume m')) = 3.
Proof.
  destruct (check_medium_recovers filedebug_handler None filedebug_tape_reliable (two_readers old_ip new_dp) no_split sample_tree
    (fun _ => sample_xml) no_mam 5 20 false (7, 0) [] ltac:(lia) no_mam_ok started_mount cartridge old_ip new_dp
    false false false (0, 0) started_label_ok started_ids started_at) as [[m1 [H1 _]] (vol3 & ret & m2 & _ & _ & _ & Hl3 & _ & H2 & _ & Hok)].
  - rewrite started_ip. apply (cartridge_ends _ _ _ _ ip_doc); [by left|done..|]. by left.
  - rewrite started_dp. apply (cartridge_ends _ _ _ _ dp_doc); [by right|done..|]. by left.
  - split; [cbn; lia|]. left. cbn. lia.
  - vm_compute. reflexivity.
  - vm_compute. discriminate.
  - exists 1000. split; [intros idx; vm_compute; discriminate|]. intros p [-> | ->]; vm_compute; reflexivity.
  - split; [by exists m1|].
    pose proof (returned (check_cartridge true) ret 0 m2 H2 check_cartridge_returns) as Hret.
    subst ret.
    destruct (Hok eq_refl (document_not_lost filedebug_handler _ filedebug_no_reset _ _ _ _ Hl3)) as (blocks & _ & Hat & Hidx & _). exists m2, blocks. split; [exact H2|]. split; [exact Hat|].
    by rewrite Hidx.
Defined.
