(* ===== verification/ChecksumSpec.v ===== *)
(** * What the checksums promise

    [crc32c_equals_division]: the table and the instructions of the processor compute the
    same remainder as the division of the message, bit by bit.  [checksums_detect_bursts]:
    what was protected passes the check, and no longer does when up to four
    neighbouring bytes are changed, the checksum's own included. *)

From S2P Require Import Prelude Endian Checksum.
Open Scope Z_scope.

(** ** Bits *)

Lemma in_range_bits n x : 0 <= n -> 0 <= x -> (forall i, n <= i -> Z.testbit x i = false) -> x < 2 ^ n.
Proof.
  intros Hn Hx Hb. destruct (Z.eq_dec x 0) as [-> |H0]; [lia|].
  assert (Hl : Z.log2 x < n).
  { destruct (Z.lt_ge_cases (Z.log2 x) n) as [|Hge]; [done|]. specialize (Hb _ Hge). by rewrite Z.bit_log2 in Hb by lia. }
  apply Z.log2_lt_pow2; lia.
Qed.

Lemma bits_above n x i : 0 <= x < 2 ^ n -> n <= i -> Z.testbit x i = false.
Proof.
  intros Hx Hi. destruct (Z.eq_dec x 0) as [-> |H0]; [apply Z.testbit_0_l|].
  apply Z.bits_above_log2; [lia|]. assert (Z.log2 x < n); [|lia]. apply Z.log2_lt_pow2; lia.
Qed.

Lemma lxor_range n x y : 0 <= n -> 0 <= x < 2 ^ n -> 0 <= y < 2 ^ n -> 0 <= Z.lxor x y < 2 ^ n.
Proof.
  intros Hn Hx Hy. assert (H0 : 0 <= Z.lxor x y) by (apply Z.lxor_nonneg; lia). split; [done|].
  apply in_range_bits; [done..|]. intros i Hi. by rewrite Z.lxor_spec, (bits_above n x), (bits_above n y).
Qed.

Lemma shiftr_range m n x : 0 <= m -> 0 <= n -> 0 <= x < 2 ^ (m + n) -> 0 <= Z.shiftr x n < 2 ^ m.
Proof.
  intros Hm Hn Hx. rewrite Z.shiftr_div_pow2 by done. rewrite Z.pow_add_r in Hx by done.
  pose proof (Z.pow_pos_nonneg 2 n ltac:(lia) Hn). split; [apply Z.div_pos; lia|apply Z.div_lt_upper_bound; lia].
Qed.

Lemma land_byte r : Z.land r 0xff = r mod 256.
Proof. change 0xff with (Z.ones 8). by rewrite Z.land_ones by lia. Qed.

Lemma lxor_cancel_l x y z : Z.lxor x y = Z.lxor x z -> y = z.
Proof.
  intros H. rewrite <- (Z.lxor_0_l y), <- (Z.lxor_0_l z), <- (Z.lxor_nilpotent x), !Z.lxor_assoc. by rewrite H.
Qed.

Lemma lxor_cancel_r x y z : Z.lxor y x = Z.lxor z x -> y = z.
Proof. rewrite !(Z.lxor_comm _ x). apply lxor_cancel_l. Qed.

(** ** Tables *)

Definition all_bytes : list Z := Z.of_nat <$> seq 0 256.

Lemma byte_in_all b : is_byte b -> b ∈ all_bytes.
Proof. intros Hb. apply list_elem_of_fmap. exists (Z.to_nat b). split; [unfold is_byte in Hb; lia|]. apply elem_of_seq. unfold is_byte in Hb. lia. Qed.

Lemma for_all_bytes (P : Z -> bool) b : forallb P all_bytes = true -> is_byte b -> P b = true.
Proof. intros H Hb. rewrite forallb_forall in H. apply H, list_elem_of_In, byte_in_all, Hb. Qed.

(** ** The interface

    A register of 32 bits into which bytes are fed.  [agree k]: two registers agree but
    for the [k] bytes that were shifted in last; the table entry that is used tells the
    one before. *)
Inductive checksum := CRC32C | ReedSolomon.

Class ByteRegister (c : checksum) := {
  step : Z -> Z -> Z;
  entry : Z -> Z -> Z;
  agree : nat -> Z -> Z -> Prop;
  start : Z;
  check_bytes : Z -> list Z;
  residue : Z;
  start_range : 0 <= start < 2 ^ 32;
  step_range b r : is_byte b -> 0 <= r < 2 ^ 32 -> 0 <= step b r < 2 ^ 32;
  agree_eq r r' : 0 <= r < 2 ^ 32 -> 0 <= r' < 2 ^ 32 -> agree 0 r r' <-> r = r';
  agree_back k b b' r r' : (k < 4)%nat -> is_byte b -> is_byte b' -> 0 <= r < 2 ^ 32 -> 0 <= r' < 2 ^ 32 ->
    agree k (step b r) (step b' r') -> entry b r = entry b' r' /\ agree (S k) r r';
  entry_byte b b' r : entry b r = entry b' r -> b = b';
  entry_register b r r' : 0 <= r < 2 ^ 32 -> 0 <= r' < 2 ^ 32 -> entry b r = entry b r' -> agree 1 r r' -> r = r';
  check_bytes_ok r : 0 <= r < 2 ^ 32 -> length (check_bytes r) = 4%nat /\ Forall is_byte (check_bytes r);
  check_bytes_residue r : 0 <= r < 2 ^ 32 -> fold_left (fun r b => step b r) (check_bytes r) r = residue
}.

Arguments start _ {_}.
Arguments check_bytes _ {_}.
Arguments residue _ {_}.

Section register.
Context {kind : checksum} `{!ByteRegister kind}.

Definition feed (bytes : list Z) (r : Z) : Z := fold_left (fun r b => step b r) bytes r.

Lemma feed_app x y r : feed (x ++ y) r = feed y (feed x r).
Proof. apply fold_left_app. Qed.

Lemma feed_range bytes r : Forall is_byte bytes -> 0 <= r < 2 ^ 32 -> 0 <= feed bytes r < 2 ^ 32.
Proof. intros Hb. revert r. induction Hb as [|b l Hb Hl IH]; intros r Hr; [done|]. cbn. by apply IH, step_range. Qed.

(** Feeding the same bytes loses nothing of the register. *)
Lemma feed_register bytes r r' :
  Forall is_byte bytes -> 0 <= r < 2 ^ 32 -> 0 <= r' < 2 ^ 32 -> feed bytes r = feed bytes r' -> r = r'.
Proof.
  intros Hb. revert r r'. induction Hb as [|b l Hb Hl IH]; intros r r' Hr Hr' E; [done|].
  assert (Hs : step b r = step b r') by (apply IH; [by apply step_range..|done]).
  assert (Ha : agree 0 (step b r) (step b r')) by (apply agree_eq; [by apply step_range..|done]).
  apply agree_back in Ha as [He Ha]; [|lia|done..]. by apply (entry_register b).
Qed.

(** The entries that are used *)
Fixpoint entries (bytes : list Z) (r : Z) : list Z :=
  match bytes with [] => [] | b :: l => entry b r :: entries l (step b r) end.

Lemma fed_entries_app x y r : entries (x ++ y) r = entries x r ++ entries y (feed x r).
Proof. revert r. induction x as [|b x IH]; intros r; [done|]. cbn. by rewrite IH. Qed.

Lemma entries_bytes x y r : entries x r = entries y r -> x = y.
Proof.
  revert y r. induction x as [|b x IH]; intros [|c y] r E; try done. cbn in E. injection E as E1 E2.
  apply entry_byte in E1 as ->. f_equal. by apply (IH _ _ E2).
Qed.

(** Up to four bytes can be told from the register they lead to. *)
Lemma feed_entries k x y r r' :
  (k + length x <= 4)%nat -> length x = length y -> Forall is_byte x -> Forall is_byte y ->
  0 <= r < 2 ^ 32 -> 0 <= r' < 2 ^ 32 -> agree k (feed x r) (feed y r') -> entries x r = entries y r'.
Proof.
  revert k y. induction x as [|b x IH] using rev_ind; intros k y Hk Hlen Hx Hy Hr Hr' Ha; [by destruct y|].
  destruct y as [|c y _] using rev_ind; [by rewrite length_app, Nat.add_comm in Hlen|].
  rewrite !length_app in *. cbn in Hk, Hlen. apply list.Forall_app in Hx as [Hx Hb], Hy as [Hy Hc].
  rewrite list.Forall_singleton in Hb, Hc. rewrite !feed_app in Ha. cbn in Ha.
  apply agree_back in Ha as [He Ha]; try done; [|lia|by apply feed_range..].
  rewrite !fed_entries_app. cbn. rewrite (IH (S k) y) by (done || lia). by rewrite He.
Qed.

Lemma feed_bytes x y r :
  (length x <= 4)%nat -> length x = length y -> Forall is_byte x -> Forall is_byte y -> 0 <= r < 2 ^ 32 ->
  feed x r = feed y r -> x = y.
Proof.
  intros Hlen Hl Hx Hy Hr E. apply (entries_bytes x y r), (feed_entries 0); try done.
  apply agree_eq; [by apply feed_range..|done].
Qed.

(** A block and its checksum *)
Definition protected (bytes : list Z) : Prop := exists data, bytes = data ++ check_bytes kind (feed data (start kind)).

Lemma protected_residue bytes : Forall is_byte bytes -> protected bytes -> feed bytes (start kind) = residue kind.
Proof.
  intros Hb [data ->]. apply list.Forall_app in Hb as [Hb _]. rewrite feed_app. apply check_bytes_residue.
  apply feed_range; [done|apply start_range].
Qed.

Lemma protected_burst p m m' s :
  Forall is_byte (p ++ m ++ s) -> Forall is_byte m' -> length m = length m' -> (length m <= 4)%nat ->
  protected (p ++ m ++ s) -> protected (p ++ m' ++ s) -> m = m'.
Proof.
  intros Hb Hm' Hlen Hle H1 H2. pose proof Hb as Hb1. rewrite !list.Forall_app in Hb1. destruct Hb1 as (Hp & Hm & Hs).
  apply protected_residue in H1; [|done]. apply protected_residue in H2; [|rewrite !list.Forall_app; by split_and!].
  rewrite <- H2, !feed_app in H1. pose proof (feed_range p (start kind) Hp start_range) as Hr.
  apply feed_register in H1; [|done|by apply feed_range..]. by apply (feed_bytes m m' (feed p (start kind))).
Qed.

End register.

Arguments feed _ {_} _ _.
Arguments protected _ {_} _.


(** ** CRC32C is such a register *)

Lemma table_range table b :
  forallb (fun i => (0 <=? table_at table i) && (table_at table i <? 2 ^ 32)) all_bytes = true -> is_byte b ->
  0 <= table_at table b < 2 ^ 32.
Proof. intros H Hb. pose proof (for_all_bytes _ b H Hb). cbn beta in *. bool_to_prop. lia. Qed.

Lemma lxor_byte b c : is_byte b -> is_byte c -> is_byte (Z.lxor b c).
Proof. unfold is_byte. change 256 with (2 ^ 8). apply lxor_range. lia. Qed.

Lemma low_byte r : is_byte (Z.land r 0xff).
Proof. rewrite land_byte. apply Z.mod_pos_bound. lia. Qed.

(** The entry is found again by its highest byte. *)
Definition crc_entry_of (top : Z) : Z :=
  default 0 (head (filter (fun i => Z.shiftr (table_at crc32c_table i) 24 = top) all_bytes)).

Lemma crc_table_top b : is_byte b -> crc_entry_of (Z.shiftr (table_at crc32c_table b) 24) = b.
Proof.
  intros Hb. apply Z.eqb_eq, (for_all_bytes (fun b => crc_entry_of (Z.shiftr (table_at crc32c_table b) 24) =? b)); [|done].
  vm_compute. reflexivity.
Qed.

Definition crc_agree (k : nat) (r r' : Z) : Prop := Z.shiftr r (8 * Z.of_nat k) = Z.shiftr r' (8 * Z.of_nat k).

Lemma crc_step_range b r : is_byte b -> 0 <= r < 2 ^ 32 -> 0 <= crc32c_calc b r < 2 ^ 32.
Proof.
  intros Hb Hr. apply lxor_range; [lia| |].
  - pose proof (shiftr_range 24 8 r ltac:(lia) ltac:(lia) Hr). lia.
  - apply table_range; [vm_compute; reflexivity|]. apply lxor_byte; [done|apply low_byte].
Qed.

Lemma crc_step_top b r : is_byte b -> 0 <= r < 2 ^ 32 ->
  Z.shiftr (crc32c_calc b r) 24 = Z.shiftr (table_at crc32c_table (Z.lxor b (Z.land r 0xff))) 24.
Proof.
  intros Hb Hr. unfold crc32c_calc. rewrite Z.shiftr_lxor, Z.shiftr_shiftr by lia.
  rewrite (Z.shiftr_div_pow2 r), Z.div_small by lia. apply Z.lxor_0_l.
Qed.

Lemma crc_agree_back k b b' r r' : (k < 4)%nat -> is_byte b -> is_byte b' -> 0 <= r < 2 ^ 32 -> 0 <= r' < 2 ^ 32 ->
  crc_agree k (crc32c_calc b r) (crc32c_calc b' r') ->
  Z.lxor b (Z.land r 0xff) = Z.lxor b' (Z.land r' 0xff) /\ crc_agree (S k) r r'.
Proof.
  intros Hk Hb Hb' Hr Hr' Ha. unfold crc_agree in *.
  assert (He : Z.lxor b (Z.land r 0xff) = Z.lxor b' (Z.land r' 0xff)).
  { assert (Ht : Z.shiftr (crc32c_calc b r) 24 = Z.shiftr (crc32c_calc b' r') 24).
    { replace 24 with (8 * Z.of_nat k + (24 - 8 * Z.of_nat k)) by lia. rewrite <- !Z.shiftr_shiftr by lia. by rewrite Ha. }
    rewrite !crc_step_top in Ht by done.
    rewrite <- (crc_table_top (Z.lxor b _)), <- (crc_table_top (Z.lxor b' _)) by (apply lxor_byte; [done|apply low_byte]).
    by rewrite Ht. }
  split; [done|]. unfold crc32c_calc in Ha. rewrite He, !Z.shiftr_lxor in Ha. apply lxor_cancel_r in Ha.
  rewrite !Z.shiftr_shiftr in Ha by lia. by replace (8 * Z.of_nat (S k)) with (8 + 8 * Z.of_nat k) by lia.
Qed.

Lemma byte_split r : r = Z.lor (Z.shiftl (Z.shiftr r 8) 8) (Z.land r 0xff).
Proof.
  apply Z.bits_inj'. intros i Hi. rewrite Z.lor_spec, Z.land_spec, Z.shiftl_spec by done. change 0xff with (Z.ones 8).
  rewrite Z.testbit_ones_nonneg by lia. destruct (Z.ltb_spec i 8) as [Hl|Hl].
  - by rewrite (Z.testbit_neg_r _ (i - 8)), andb_true_r by lia.
  - rewrite Z.shiftr_spec, andb_false_r, orb_false_r by lia. f_equal. lia.
Qed.

(** The four bytes behind the data *)
Definition le_bytes (x : Z) : list Z :=
  [Z.land x 0xff; Z.land (Z.shiftr x 8) 0xff; Z.land (Z.shiftr x 16) 0xff; Z.land (Z.shiftr x 24) 0xff].

Lemma complement_byte r n : 0 <= n <= 24 -> Z.land (Z.shiftr (u32 (Z.lnot r)) n) 0xff = Z.lxor (Z.land (Z.shiftr r n) 0xff) 0xff.
Proof.
  intros Hn. apply Z.bits_inj'. intros i Hi. unfold u32. rewrite <- Z.land_ones by lia. change 0xff with (Z.ones 8).
  rewrite Z.lxor_spec, !Z.land_spec, !Z.shiftr_spec, Z.land_spec, Z.lnot_spec, !Z.testbit_ones_nonneg by lia.
  destruct (Z.ltb_spec i 8); [|by rewrite !andb_false_r]. rewrite (proj2 (Z.ltb_lt _ 32)) by lia.
  rewrite !andb_true_r. by rewrite xorb_true_r.
Qed.

Lemma crc_feed_complement x t :
  crc32c_calc (Z.lxor (Z.land x 0xff) 0xff) (Z.lxor x t) = Z.lxor (Z.shiftr x 8) (crc32c_calc 0xff t).
Proof.
  unfold crc32c_calc. rewrite Z.shiftr_lxor, Z.lxor_assoc. do 3 f_equal. apply Z.bits_inj'. intros i Hi. rewrite !Z.lxor_spec, !Z.land_spec, Z.lxor_spec.
  by destruct (Z.testbit x i), (Z.testbit t i), (Z.testbit 255 i).
Qed.

Definition crc_residue : Z := fold_left (fun r b => crc32c_calc b r) [0xff; 0xff; 0xff; 0xff] 0.

Lemma crc_check_residue r :
  0 <= r < 2 ^ 32 -> fold_left (fun r b => crc32c_calc b r) (le_bytes (u32 (Z.lnot r))) r = crc_residue.
Proof.
  intros Hr. unfold le_bytes, crc_residue. rewrite !complement_byte by lia.
  rewrite <- (Z.shiftr_0_r (u32 (Z.lnot r))), complement_byte, Z.shiftr_0_r by lia. cbn [fold_left].
  replace (crc32c_calc (Z.lxor (Z.land r 0xff) 0xff) r) with (crc32c_calc (Z.lxor (Z.land r 0xff) 0xff) (Z.lxor r 0)) by (by rewrite Z.lxor_0_r).
  rewrite crc_feed_complement. change 16 with (8 + 8). change 24 with (8 + 8 + 8). rewrite <- !Z.shiftr_shiftr by lia.
  rewrite !crc_feed_complement, !Z.shiftr_shiftr by lia. rewrite (Z.shiftr_div_pow2 r), Z.div_small by lia. apply Z.lxor_0_l.
Qed.

#[export, refine] Instance crc32c_byte_register : ByteRegister CRC32C := {
  step := crc32c_calc;
  entry := fun b r => Z.lxor b (Z.land r 0xff);
  agree := crc_agree;
  start := 0xffffffff;
  check_bytes := fun r => le_bytes (u32 (Z.lnot r));
  residue := crc_residue
}.
Proof.
  - done.
  - apply crc_step_range.
  - intros r r' _ _. unfold crc_agree. by rewrite !Z.shiftr_0_r.
  - apply crc_agree_back.
  - intros b b' r. apply lxor_cancel_r.
  - intros b r r' _ _ He Ha. apply lxor_cancel_l in He. rewrite (byte_split r), (byte_split r'), He.
    unfold crc_agree in Ha. change (8 * Z.of_nat 1) with 8 in Ha. by rewrite Ha.
  - intros r Hr. split; [done|]. unfold le_bytes. repeat constructor; apply low_byte.
  - apply crc_check_residue.
Defined.

(** ** Reed-Solomon is one *)

Lemma rs_table_low b : is_byte b -> Z.land (table_at rs_gf256_table b) 0xff = b.
Proof.
  intros Hb. apply Z.eqb_eq, (for_all_bytes (fun b => Z.land (table_at rs_gf256_table b) 0xff =? b)); [|done].
  vm_compute. reflexivity.
Qed.

(** The [4 - k] lower bytes *)
Definition rs_agree (k : nat) (r r' : Z) : Prop :=
  forall i, 0 <= i < 32 - 8 * Z.of_nat k -> Z.testbit r i = Z.testbit r' i.

Lemma top_byte r : 0 <= r < 2 ^ 32 -> is_byte (Z.shiftr r 24).
Proof. intros Hr. apply (shiftr_range 8 24 r); lia. Qed.

Lemma shifted_range r : 0 <= u32 (Z.shiftl r 8) < 2 ^ 32.
Proof. apply u32_range. Qed.

Lemma shifted_bit r i : 0 <= i < 32 -> Z.testbit (u32 (Z.shiftl r 8)) i = (8 <=? i) && Z.testbit r (i - 8).
Proof.
  intros Hi. unfold u32. rewrite <- Z.land_ones, Z.land_spec, Z.testbit_ones_nonneg, Z.shiftl_spec by lia.
  rewrite (proj2 (Z.ltb_lt i 32)), andb_true_r by lia. destruct (Z.leb_spec 8 i); [done|]. by apply Z.testbit_neg_r; lia.
Qed.

Lemma rs_step_range b r : is_byte b -> 0 <= r < 2 ^ 32 -> 0 <= enc4 b r < 2 ^ 32.
Proof.
  intros Hb Hr. apply lxor_range; [lia|apply u32_range|]. apply table_range; [vm_compute; reflexivity|].
  by apply lxor_byte, top_byte.
Qed.

Lemma rs_step_low b r : is_byte b -> 0 <= r < 2 ^ 32 -> Z.land (enc4 b r) 0xff = Z.lxor b (Z.shiftr r 24).
Proof.
  intros Hb Hr. rewrite <- (rs_table_low (Z.lxor b (Z.shiftr r 24))) at 1 by (by apply lxor_byte, top_byte).
  unfold enc4. apply Z.bits_inj'. intros i Hi. change 0xff with (Z.ones 8).
  rewrite !Z.land_spec, Z.lxor_spec, Z.testbit_ones_nonneg by lia. destruct (Z.ltb_spec i 8); [|by rewrite !andb_false_r].
  rewrite shifted_bit, (proj2 (Z.leb_gt 8 i)) by lia. by rewrite !andb_true_r.
Qed.

Lemma rs_agree_back k b b' r r' : (k < 4)%nat -> is_byte b -> is_byte b' -> 0 <= r < 2 ^ 32 -> 0 <= r' < 2 ^ 32 ->
  rs_agree k (enc4 b r) (enc4 b' r') ->
  Z.lxor b (Z.shiftr r 24) = Z.lxor b' (Z.shiftr r' 24) /\ rs_agree (S k) r r'.
Proof.
  intros Hk Hb Hb' Hr Hr' Ha.
  assert (He : Z.lxor b (Z.shiftr r 24) = Z.lxor b' (Z.shiftr r' 24)).
  { rewrite <- !rs_step_low by done. apply Z.bits_inj'. intros i Hi. change 0xff with (Z.ones 8).
    rewrite !Z.land_spec, Z.testbit_ones_nonneg by lia. destruct (Z.ltb_spec i 8); [|by rewrite !andb_false_r].
    rewrite Ha by lia. done. }
  split; [done|]. intros i Hi. specialize (Ha (i + 8) ltac:(lia)). unfold enc4 in Ha.
  rewrite He, !Z.lxor_spec, !shifted_bit, (proj2 (Z.leb_le 8 (i + 8))) in Ha by lia. cbn [andb] in Ha.
  replace (i + 8 - 8) with i in Ha by lia.
  by destruct (Z.testbit r i), (Z.testbit r' i), (Z.testbit (table_at _ _) (i + 8)).
Qed.

Lemma rs_feed_own r n : 0 <= n <= 24 ->
  enc4 (u8 (Z.shiftr r (24 - n))) (u32 (Z.shiftl r n)) = u32 (Z.shiftl r (n + 8)).
Proof.
  intros Hn. unfold enc4.
  assert (He : Z.shiftr (u32 (Z.shiftl r n)) 24 = u8 (Z.shiftr r (24 - n))).
  { apply Z.bits_inj'. intros i Hi. unfold u32, u8. rewrite <- !Z.land_ones by lia.
    rewrite Z.shiftr_spec, !Z.land_spec, Z.shiftl_spec, Z.shiftr_spec, !Z.testbit_ones_nonneg by lia.
    replace (i + 24 - n) with (i + (24 - n)) by lia. f_equal. by apply eq_true_iff_eq; rewrite !Z.ltb_lt; lia. }
  rewrite He, Z.lxor_nilpotent. change (table_at rs_gf256_table 0) with 0. rewrite Z.lxor_0_r.
  apply Z.bits_inj'. intros i Hi. unfold u32. rewrite <- !Z.land_ones by lia.
  rewrite !Z.land_spec, !Z.shiftl_spec by lia. destruct (Z.lt_ge_cases i 8) as [H8|H8].
  { by rewrite (Z.testbit_neg_r _ (i - 8)), (Z.testbit_neg_r _ (i - (n + 8))) by lia. }
  rewrite Z.land_spec, Z.shiftl_spec, !Z.testbit_ones_nonneg by lia. replace (i - 8 - n) with (i - (n + 8)) by lia.
  destruct (Z.ltb_spec i 32); [|by rewrite !andb_false_r]. rewrite (proj2 (Z.ltb_lt (i - 8) 32)) by lia. by rewrite !andb_true_r.
Qed.

Lemma rs_check_residue r : 0 <= r < 2 ^ 32 -> fold_left (fun r b => enc4 b r) (ltfs_u32tobe r) r = 0.
Proof.
  intros Hr. unfold ltfs_u32tobe. cbn [fold_left].
  assert (E0 : enc4 (u8 (r ≫ 24)) r = u32 (Z.shiftl r 8)).
  { pose proof (rs_feed_own r 0 ltac:(lia)) as H0. rewrite Z.shiftl_0_r, (u32_small r) in H0 by done. exact H0. }
  assert (E8 : enc4 (u8 (r ≫ 16)) (u32 (r ≪ 8)) = u32 (r ≪ 16)) by exact (rs_feed_own r 8 ltac:(lia)).
  assert (E16 : enc4 (u8 (r ≫ 8)) (u32 (r ≪ 16)) = u32 (r ≪ 24)) by exact (rs_feed_own r 16 ltac:(lia)).
  pose proof (rs_feed_own r 24 ltac:(lia)) as E24. change (24 - 24) with 0 in E24. rewrite Z.shiftr_0_r in E24.
  rewrite E0, E8, E16, E24. unfold u32. rewrite Z.shiftl_mul_pow2 by lia. by apply Z.mod_mul.
Qed.

Lemma u32tobe_of_bytes b0 b1 b2 b3 :
  is_byte b0 -> is_byte b1 -> is_byte b2 -> is_byte b3 ->
  ltfs_u32tobe (b0 * 2 ^ 24 + b1 * 2 ^ 16 + b2 * 2 ^ 8 + b3) = [b0; b1; b2; b3].
Proof.
  unfold is_byte. intros H0 H1 H2 H3. unfold ltfs_u32tobe, u8. rewrite !Z.shiftr_div_pow2 by lia.
  change (2 ^ 24) with 16777216. change (2 ^ 16) with 65536. change (2 ^ 8) with 256.
  repeat f_equal; Z.div_mod_to_equations; lia.
Qed.

#[export, refine] Instance rs_byte_register : ByteRegister ReedSolomon := {
  step := enc4;
  entry := fun b r => Z.lxor b (Z.shiftr r 24);
  agree := rs_agree;
  start := 0;
  check_bytes := ltfs_u32tobe;
  residue := 0
}.
Proof.
  - done.
  - apply rs_step_range.
  - intros r r' Hr Hr'. split; [|by intros ->]. intros Ha. apply Z.bits_inj'. intros i Hi.
    destruct (Z.lt_ge_cases i 32); [apply Ha; lia|]. by rewrite (bits_above 32 r), (bits_above 32 r').
  - apply rs_agree_back.
  - intros b b' r. apply lxor_cancel_r.
  - intros b r r' Hr Hr' He Ha. apply lxor_cancel_l in He. apply Z.bits_inj'. intros i Hi.
    destruct (Z.lt_ge_cases i 24); [apply Ha; lia|]. replace i with (i - 24 + 24) by lia.
    rewrite <- !Z.shiftr_spec by lia. by rewrite He.
  - intros r _. split; [apply length_u32tobe|apply u32tobe_bytes].
  - apply rs_check_residue.
Defined.

(** ** Division, bit by bit

    The register of CRC32C is reflected: the divisor 1EDC6F41 with its bits reversed *)

Definition divide_bit (r : Z) : Z :=
  if Z.odd r then Z.lxor (Z.shiftr r 1) 0x82F63B78 else Z.shiftr r 1.

Definition divide_byte (b r : Z) : Z := Nat.iter 8 divide_bit (Z.lxor b r).

Lemma divide_bit_lxor x y : divide_bit (Z.lxor x y) = Z.lxor (divide_bit x) (divide_bit y).
Proof.
  unfold divide_bit. rewrite <- !Z.bit0_odd, Z.lxor_spec, Z.shiftr_lxor. apply Z.bits_inj'. intros i Hi.
  destruct (Z.testbit x 0), (Z.testbit y 0); cbn [xorb]; rewrite !Z.lxor_spec.
  all: by destruct (Z.testbit (Z.shiftr x 1) i), (Z.testbit (Z.shiftr y 1) i), (Z.testbit 0x82F63B78 i).
Qed.

Lemma divide_bits_lxor n x y : Nat.iter n divide_bit (Z.lxor x y) = Z.lxor (Nat.iter n divide_bit x) (Nat.iter n divide_bit y).
Proof. induction n as [|n IH]; [done|]. by rewrite !Nat.iter_succ, IH, divide_bit_lxor. Qed.

Lemma divide_zeros n x : Nat.iter n divide_bit (Z.shiftl x (Z.of_nat n)) = x.
Proof.
  revert x. induction n as [|n IH]; intros x; [apply Z.shiftl_0_r|]. rewrite Nat.iter_succ_r.
  replace (divide_bit (x ≪ Z.of_nat (S n))) with (x ≪ Z.of_nat n); [apply IH|]. unfold divide_bit.
  rewrite <- Z.bit0_odd, Z.shiftl_spec, Z.testbit_neg_r by lia. rewrite Z.shiftr_shiftl_l by lia. f_equal. lia.
Qed.

Lemma crc_table_division b : is_byte b -> table_at crc32c_table b = Nat.iter 8 divide_bit b.
Proof.
  intros Hb. apply Z.eqb_eq, (for_all_bytes (fun b => table_at crc32c_table b =? Nat.iter 8 divide_bit b)); [|done].
  vm_compute. reflexivity.
Qed.

Lemma crc_step_division b r : is_byte b -> crc32c_calc b r = divide_byte b r.
Proof.
  intros Hb. unfold crc32c_calc, divide_byte. rewrite crc_table_division by (apply lxor_byte; [done|apply low_byte]).
  assert (Hs : Z.lxor b r = Z.lxor (Z.lxor b (Z.land r 0xff)) (Z.shiftl (Z.shiftr r 8) 8)).
  { rewrite Z.lxor_assoc. f_equal. rewrite (byte_split r) at 1. rewrite Z.lxor_comm. symmetry. apply Z.lxor_lor.
    apply Z.bits_inj'. intros i Hi. rewrite Z.land_spec, Z.land_spec, Z.bits_0. change 0xff with (Z.ones 8).
    rewrite Z.testbit_ones_nonneg, Z.shiftl_spec by lia. destruct (Z.ltb_spec i 8); [|by rewrite andb_false_r, andb_false_r].
    by rewrite (Z.testbit_neg_r _ (i - 8)) by lia. }
  pose proof (divide_zeros 8 (Z.shiftr r 8)) as Hz. change (Z.of_nat 8) with 8 in Hz.
  rewrite Hs, (divide_bits_lxor 8 (Z.lxor b _)), Hz. apply Z.lxor_comm.
Qed.

Definition divide (bytes : list Z) (r : Z) : Z := fold_left (fun r b => divide_byte b r) bytes r.

Lemma crc_feed_division bytes r : Forall is_byte bytes -> fold_left (fun r b => crc32c_calc b r) bytes r = divide bytes r.
Proof.
  intros Hb. revert r. induction Hb as [|b l Hb Hl IH]; intros r; [done|]. cbn. by rewrite crc_step_division.
Qed.

Lemma divide_range bytes r : Forall is_byte bytes -> 0 <= r < 2 ^ 32 -> 0 <= divide bytes r < 2 ^ 32.
Proof. intros Hb Hr. rewrite <- crc_feed_division by done. exact (feed_range (kind := CRC32C) bytes r Hb Hr). Qed.

Lemma divide_app x y r : divide (x ++ y) r = divide y (divide x r).
Proof. apply fold_left_app. Qed.

(** What the processor's manual says of the instructions *)
Record sse_ok (s : sse4_2) : Prop := {
  sse_size : calc_size s = 4%nat \/ calc_size s = 8%nat;
  sse_byte : forall r b, is_byte b -> 0 <= r < 2 ^ 32 -> mm_crc32_u8 s r b = divide_byte b r;
  sse_word : forall r l, length l = calc_size s -> Forall is_byte l -> 0 <= r < 2 ^ 32 ->
    mm_crc32_word s r (le_word l) = divide l r
}.

Section sse.
Context (s : sse4_2) (ok : sse_ok s).

Lemma sse_bytes bytes r : Forall is_byte bytes -> 0 <= r < 2 ^ 32 -> fold_left (mm_crc32_u8 s) bytes r = divide bytes r.
Proof.
  intros Hb. revert r. induction Hb as [|b l Hb Hl IH]; intros r Hr; [done|]. cbn. rewrite (sse_byte s ok) by done.
  apply IH,  (divide_range [b]); [by constructor|done].
Qed.

Lemma align_loop_divides addr buf r :
  Forall is_byte buf -> 0 <= r < 2 ^ 32 ->
  exists front rest, buf = front ++ rest /\ align_loop s addr buf r = (rest, divide front r).
Proof.
  intros Hb. revert addr r. induction Hb as [|b l Hb Hl IH]; intros addr r Hr; [by exists [], []|]. cbn [align_loop].
  destruct (_ >? _); [|by exists [], (b :: l)]. rewrite (sse_byte s ok) by done.
  destruct (IH (addr + 1) (divide_byte b r)) as (front & rest & -> & ->); [apply (divide_range [b]); [by constructor|done]|].
  by exists (b :: front), rest.
Qed.

Lemma word_loop_divides n buf r :
  Forall is_byte buf -> 0 <= r < 2 ^ 32 ->
  exists front rest, buf = front ++ rest /\ word_loop n s buf r = (rest, divide front r).
Proof.
  revert buf r. induction n as [|n IH]; intros buf r Hb Hr; [by exists [], buf|]. cbn [word_loop].
  destruct (Nat.leb_spec (calc_size s) (length buf)) as [Hle|]; [|by exists [], buf].
  rewrite (sse_word s ok); [|rewrite length_take; lia|by apply list.Forall_take|done].
  destruct (IH (drop (calc_size s) buf) (divide (take (calc_size s) buf) r)) as (front & rest & E & ->);
    [by apply list.Forall_drop|by apply divide_range; [apply list.Forall_take|]|].
  exists (take (calc_size s) buf ++ front), rest. split; [by rewrite <- app_assoc, <- E, take_drop|]. by rewrite divide_app.
Qed.

Lemma sse_register addr buf : Forall is_byte buf -> crc32c_register (Some s) addr buf = divide buf 0xffffffff.
Proof.
  intros Hb. unfold crc32c_register. assert (Hs : 0 <= 0xffffffff < 2 ^ 32) by lia.
  destruct (align_loop_divides addr buf 0xffffffff Hb Hs) as (f1 & r1 & -> & ->). apply list.Forall_app in Hb as [Hf1 Hr1].
  pose proof (divide_range f1 _ Hf1 Hs) as R1.
  destruct (word_loop_divides (length r1) r1 _ Hr1 R1) as (f2 & r2 & -> & ->). apply list.Forall_app in Hr1 as [Hf2 Hr2].
  pose proof (divide_range f2 _ Hf2 R1) as R2. rewrite u32_small by done. by rewrite sse_bytes, !divide_app.
Qed.
End sse.

Definition processor_ok (sse : option sse4_2) : Prop := match sse with Some s => sse_ok s | None => True end.

Lemma register_divides sse addr buf :
  processor_ok sse -> Forall is_byte buf -> crc32c_register sse addr buf = divide buf 0xffffffff.
Proof. intros Hs Hb. destruct sse as [s|]; [by apply sse_register|by apply crc_feed_division]. Qed.

(** ** Division over the field of 256 elements

    Bytes are polynomials modulo 11D; the divisor is x^4 + 38 x^3 + CF x^2 + 38 x + 1. *)

Definition gf_double (a : Z) : Z := if 2 * a <? 256 then 2 * a else Z.lxor (2 * a) 0x11D.

Definition gf_mul (a b : Z) : Z :=
  fold_left (fun acc i => if Z.testbit b (Z.of_nat i) then Z.lxor acc (Nat.iter i gf_double a) else acc) (seq 0 8) 0.

(** The remainder, highest coefficient first *)
Definition remainder : Type := Z * Z * Z * Z.

Definition gf_divide (b : Z) (r : remainder) : remainder :=
  let '(r3, r2, r1, r0) := r in
  let f := Z.lxor b r3 in (Z.lxor r2 (gf_mul f 0x38), Z.lxor r1 (gf_mul f 0xCF), Z.lxor r0 (gf_mul f 0x38), f).

Definition word (r : remainder) : Z :=
  let '(r3, r2, r1, r0) := r in Z.lor (Z.shiftl r3 24) (Z.lor (Z.shiftl r2 16) (Z.lor (Z.shiftl r1 8) r0)).

Definition remainder_ok (r : remainder) : Prop :=
  let '(r3, r2, r1, r0) := r in is_byte r3 /\ is_byte r2 /\ is_byte r1 /\ is_byte r0.

Lemma byte_bit_out b i : is_byte b -> i < 0 \/ 8 <= i -> Z.testbit b i = false.
Proof. intros Hb [Hi|Hi]; [by apply Z.testbit_neg_r|]. by apply (bits_above 8 b). Qed.

Lemma word_bit r i : remainder_ok r -> 0 <= i ->
  Z.testbit (word r) i =
    let '(r3, r2, r1, r0) := r in
    if i <? 8 then Z.testbit r0 i else if i <? 16 then Z.testbit r1 (i - 8)
    else if i <? 24 then Z.testbit r2 (i - 16) else Z.testbit r3 (i - 24).
Proof.
  destruct r as [[[r3 r2] r1] r0]. intros (H3 & H2 & H1 & H0) Hi. unfold word. rewrite !Z.lor_spec, !Z.shiftl_spec by done.
  destruct (Z.ltb_spec i 8); [|destruct (Z.ltb_spec i 16); [|destruct (Z.ltb_spec i 24)]].
  - rewrite (byte_bit_out r3), (byte_bit_out r2), (byte_bit_out r1) by (done || lia). done.
  - rewrite (byte_bit_out r3), (byte_bit_out r2), (byte_bit_out r0) by (done || lia). by rewrite orb_false_r.
  - rewrite (byte_bit_out r3), (byte_bit_out r1), (byte_bit_out r0) by (done || lia). by rewrite !orb_false_r.
  - rewrite (byte_bit_out r2), (byte_bit_out r1), (byte_bit_out r0) by (done || lia). by rewrite !orb_false_r.
Qed.

Lemma gf_mul_byte a c : is_byte a -> (c = 0x38 \/ c = 0xCF) -> is_byte (gf_mul a c).
Proof.
  intros Ha Hc.
  assert (H : forallb (fun b => (0 <=? gf_mul b c) && (gf_mul b c <? 256)) all_bytes = true) by (destruct Hc as [-> | ->]; vm_compute; reflexivity).
  pose proof (for_all_bytes _ a H Ha) as Hb. cbn beta in Hb. bool_to_prop. unfold is_byte. lia.
Qed.

Lemma gf_divide_ok b r : is_byte b -> remainder_ok r -> remainder_ok (gf_divide b r).
Proof.
  destruct r as [[[r3 r2] r1] r0]. intros Hb (H3 & H2 & H1 & H0). pose proof (lxor_byte b r3 Hb H3) as Hf.
  unfold gf_divide. split_and!; try done; apply lxor_byte; try done; apply gf_mul_byte; auto.
Qed.

Lemma rs_table_division f : is_byte f -> table_at rs_gf256_table f = word (gf_mul f 0x38, gf_mul f 0xCF, gf_mul f 0x38, f).
Proof.
  intros Hf. apply Z.eqb_eq.
  apply (for_all_bytes (fun f => table_at rs_gf256_table f =? word (gf_mul f 0x38, gf_mul f 0xCF, gf_mul f 0x38, f))); [|done].
  vm_compute. reflexivity.
Qed.

Lemma word_range r : remainder_ok r -> 0 <= word r < 2 ^ 32.
Proof.
  intros Hr. assert (H0 : 0 <= word r).
  { destruct r as [[[r3 r2] r1] r0]. destruct Hr as (H3 & H2 & H1 & H0). unfold is_byte in *. unfold word.
    rewrite !Z.lor_nonneg, !Z.shiftl_nonneg. lia. }
  split; [done|]. apply in_range_bits; [done..|]. intros i Hi. rewrite word_bit by (done || lia).
  destruct r as [[[r3 r2] r1] r0]. destruct Hr as (H3 & _).
  rewrite (proj2 (Z.ltb_ge i 8)), (proj2 (Z.ltb_ge i 16)), (proj2 (Z.ltb_ge i 24)) by lia. apply byte_bit_out; [done|lia].
Qed.

Lemma word_top r : remainder_ok r -> Z.shiftr (word r) 24 = let '(r3, _, _, _) := r in r3.
Proof.
  intros Hr. apply Z.bits_inj'. intros i Hi. rewrite Z.shiftr_spec, word_bit by (done || lia).
  destruct r as [[[r3 r2] r1] r0]. rewrite (proj2 (Z.ltb_ge _ 8)), (proj2 (Z.ltb_ge _ 16)), (proj2 (Z.ltb_ge _ 24)) by lia.
  f_equal. lia.
Qed.

Lemma rs_step_division b r : is_byte b -> remainder_ok r -> enc4 b (word r) = word (gf_divide b r).
Proof.
  intros Hb Hr. pose proof (gf_divide_ok b r Hb Hr) as Hd. unfold enc4. rewrite word_top by done.
  destruct r as [[[r3 r2] r1] r0]. pose proof Hr as (H3 & H2 & H1 & H0). pose proof (lxor_byte b r3 Hb H3) as Hf.
  rewrite rs_table_division by done. set (f := Z.lxor b r3) in *. unfold gf_divide in Hd |- *. fold f in Hd |- *.
  assert (Ht : remainder_ok (gf_mul f 0x38, gf_mul f 0xCF, gf_mul f 0x38, f)) by (split_and!; try done; apply gf_mul_byte; auto).
  apply Z.bits_inj'. intros i Hi. rewrite Z.lxor_spec, (word_bit _ _ Ht Hi), (word_bit _ _ Hd Hi).
  destruct (Z.lt_ge_cases i 32) as [Hl|Hg].
  2:{ rewrite (bits_above 32 (u32 _)) by (apply u32_range || done). rewrite !(proj2 (Z.ltb_ge i _)) by lia.
      by rewrite (byte_bit_out (gf_mul f 0x38)), (byte_bit_out (Z.lxor r2 _)) by (apply Ht || apply Hd || lia). }
  rewrite shifted_bit by lia. destruct (Z.leb_spec 8 i).
  - rewrite word_bit by (done || lia). rewrite (proj2 (Z.ltb_ge i 8)) by lia.
    destruct (Z.ltb_spec (i - 8) 8); [|destruct (Z.ltb_spec (i - 8) 16); [|destruct (Z.ltb_spec (i - 8) 24)]]; cbn [andb].
    + rewrite (proj2 (Z.ltb_lt i 16)) by lia. by rewrite Z.lxor_spec.
    + rewrite (proj2 (Z.ltb_ge i 16)), (proj2 (Z.ltb_lt i 24)) by lia. rewrite Z.lxor_spec. f_equal. f_equal. lia.
    + rewrite (proj2 (Z.ltb_ge i 16)), (proj2 (Z.ltb_ge i 24)) by lia. rewrite Z.lxor_spec. f_equal. f_equal. lia.
    + lia.
  - rewrite (proj2 (Z.ltb_lt i 8)) by lia. done.
Qed.

Definition gf_remainder (bytes : list Z) : remainder := fold_left (fun r b => gf_divide b r) bytes (0, 0, 0, 0).

Lemma rs_register_division bytes : Forall is_byte bytes -> rs_register bytes = word (gf_remainder bytes).
Proof.
  intros Hb. unfold rs_register, gf_remainder.
  assert (H : forall r, remainder_ok r -> fold_left (fun reg b => enc4 b reg) bytes (word r)
                                         = word (fold_left (fun r b => gf_divide b r) bytes r)).
  { induction Hb as [|b l Hb Hl IH]; intros r Hr; [done|]. cbn. rewrite rs_step_division by done. by apply IH, gf_divide_ok. }
  apply (H (0, 0, 0, 0)). unfold remainder_ok, is_byte. lia.
Qed.

(** ** Checking *)

(** What [get_le32] reads of what [put_le32] writes *)
Definition le32 (b0 b1 b2 b3 : Z) : Z := u32 (Z.lor (Z.lor (Z.lor b0 (Z.shiftl b1 8)) (Z.shiftl b2 16)) (Z.shiftl b3 24)).

Lemma le32_bit b0 b1 b2 b3 i :
  is_byte b0 -> is_byte b1 -> is_byte b2 -> is_byte b3 -> 0 <= i ->
  Z.testbit (le32 b0 b1 b2 b3) i = Z.testbit (word (b3, b2, b1, b0)) i.
Proof.
  intros H0 H1 H2 H3 Hi. unfold le32, u32. rewrite <- Z.land_ones, Z.land_spec, Z.testbit_ones_nonneg by lia.
  assert (E : Z.lor (Z.lor (Z.lor b0 (b1 ≪ 8)) (b2 ≪ 16)) (b3 ≪ 24) = word (b3, b2, b1, b0)).
  { unfold word. rewrite (Z.lor_comm _ (b3 ≪ 24)), (Z.lor_comm _ (b2 ≪ 16)), (Z.lor_comm b0). by rewrite ?Z.lor_assoc. }
  rewrite E. destruct (Z.ltb_spec i 32); [apply andb_true_r|]. rewrite andb_false_r. symmetry. apply (bits_above 32); [|done].
  by apply word_range.
Qed.

Lemma le32_word b0 b1 b2 b3 :
  is_byte b0 -> is_byte b1 -> is_byte b2 -> is_byte b3 -> le32 b0 b1 b2 b3 = word (b3, b2, b1, b0).
Proof. intros. apply Z.bits_inj'. intros i Hi. by apply le32_bit. Qed.

Lemma le_bytes_word b0 b1 b2 b3 :
  is_byte b0 -> is_byte b1 -> is_byte b2 -> is_byte b3 -> le_bytes (word (b3, b2, b1, b0)) = [b0; b1; b2; b3].
Proof.
  intros H0 H1 H2 H3. assert (Hr : remainder_ok (b3, b2, b1, b0)) by (by split_and!).
  assert (E : forall n b, 0 <= n -> is_byte b -> (forall i, 0 <= i < 8 -> Z.testbit (word (b3, b2, b1, b0)) (i + n) = Z.testbit b i) ->
    Z.land (Z.shiftr (word (b3, b2, b1, b0)) n) 0xff = b).
  { intros n b Hn Hb Hbits. apply Z.bits_inj'. intros i Hi. change 0xff with (Z.ones 8).
    rewrite Z.land_spec, Z.shiftr_spec, Z.testbit_ones_nonneg by lia. destruct (Z.ltb_spec i 8).
    - rewrite andb_true_r. by apply Hbits.
    - rewrite andb_false_r. symmetry. apply byte_bit_out; [done|lia]. }
  unfold le_bytes. pose proof (E 0 b0) as E0. rewrite Z.shiftr_0_r in E0.
  rewrite E0, (E 8 b1), (E 16 b2), (E 24 b3); try done; try lia; intros i Hi; rewrite word_bit by (done || lia).
  - rewrite (proj2 (Z.ltb_ge _ 8)), (proj2 (Z.ltb_ge _ 16)), (proj2 (Z.ltb_ge _ 24)) by lia. f_equal. lia.
  - rewrite (proj2 (Z.ltb_ge _ 8)), (proj2 (Z.ltb_ge _ 16)), (proj2 (Z.ltb_lt _ 24)) by lia. f_equal. lia.
  - rewrite (proj2 (Z.ltb_ge _ 8)), (proj2 (Z.ltb_lt _ 16)) by lia. f_equal. lia.
  - rewrite (proj2 (Z.ltb_lt _ 8)) by lia. f_equal. lia.
Qed.

Lemma word_of_le_bytes x : 0 <= x < 2 ^ 32 -> forall b0 b1 b2 b3, le_bytes x = [b0; b1; b2; b3] -> word (b3, b2, b1, b0) = x.
Proof.
  intros Hx b0 b1 b2 b3 [= <- <- <- <-]. apply Z.bits_inj'. intros i Hi. rewrite word_bit by (done || split_and!; apply low_byte).
  change 0xff with (Z.ones 8). destruct (Z.ltb_spec i 8); [|destruct (Z.ltb_spec i 16); [|destruct (Z.ltb_spec i 24)]].
  all: rewrite Z.land_spec, ?Z.shiftr_spec, Z.testbit_ones_nonneg by lia.
  - rewrite (proj2 (Z.ltb_lt _ 8)) by lia. apply andb_true_r.
  - rewrite (proj2 (Z.ltb_lt _ 8)), andb_true_r by lia. f_equal. lia.
  - rewrite (proj2 (Z.ltb_lt _ 8)), andb_true_r by lia. f_equal. lia.
  - destruct (Z.ltb_spec (i - 24) 8); [rewrite andb_true_r; f_equal; lia|]. rewrite andb_false_r. symmetry. apply (bits_above 32); [done|lia].
Qed.

(** The checksum behind the first [n] bytes is theirs. *)
Definition checked (kind : checksum) `{!ByteRegister kind} (n : nat) (buf : list Z) : Prop :=
  take 4 (drop n buf) = check_bytes kind (feed kind (take n buf) (start kind)).

Lemma checked_protected kind `{!ByteRegister kind} n buf :
  (n + 4 <= length buf)%nat -> Forall is_byte buf -> checked kind n buf <-> protected kind (take (n + 4) buf).
Proof.
  intros Hlen Hb. unfold checked, protected.
  assert (Hsplit : take (n + 4) buf = take n buf ++ take 4 (drop n buf)) by (by rewrite take_take_drop).
  assert (Hr : 0 <= feed kind (take n buf) (start kind) < 2 ^ 32) by (apply feed_range; [by apply list.Forall_take|apply start_range]).
  split.
  - intros E. exists (take n buf). by rewrite Hsplit, E.
  - intros [data E]. assert (Hd : Forall is_byte data).
    { pose proof (list.Forall_take _ (n + 4) _ Hb) as Ht. rewrite E in Ht. by apply list.Forall_app in Ht as [? _]. }
    destruct (check_bytes_ok (feed kind data (start kind))) as [H4 _]; [by apply feed_range, start_range|].
    rewrite Hsplit in E. apply app_inj_2 in E as [-> E]; [done|]. rewrite H4, length_take, length_drop. lia.
Qed.

Lemma drop_four n (buf : list Z) : (n + 4 <= length buf)%nat ->
  exists b0 b1 b2 b3 rest, drop n buf = b0 :: b1 :: b2 :: b3 :: rest.
Proof.
  intros Hlen. pose proof (length_drop buf n) as Hd. destruct (drop n buf) as [|b0 [|b1 [|b2 [|b3 rest]]]]; cbn in Hd; try lia.
  by exists b0, b1, b2, b3, rest.
Qed.

Lemma crc_register_feed sse addr buf :
  processor_ok sse -> Forall is_byte buf -> crc32c_register sse addr buf = feed CRC32C buf (start CRC32C).
Proof. intros Hs Hb. rewrite register_divides by done. symmetry. by apply crc_feed_division. Qed.

Lemma crc_check_value sse addr buf n :
  processor_ok sse -> Forall is_byte buf -> (n + 4 <= length buf)%nat ->
  checked CRC32C n buf /\ crc32c_check sse addr buf n = Some (s32 (Z.of_nat n))
  \/ ~ checked CRC32C n buf /\ crc32c_check sse addr buf n = Some (-1).
Proof.
  intros Hs Hb Hlen. unfold crc32c_check, crc32c, get_le32. rewrite (proj2 (Nat.leb_le _ _)) by lia.
  rewrite crc_register_feed by (done || by apply list.Forall_take).
  assert (Hr : 0 <= feed CRC32C (take n buf) (start CRC32C) < 2 ^ 32) by (apply feed_range; [by apply list.Forall_take|apply start_range]).
  set (reg := feed _ _ _) in *. destruct (drop_four n buf Hlen) as (b0 & b1 & b2 & b3 & rest & E).
  pose proof (list.Forall_drop _ n _ Hb) as Hd. rewrite E in Hd. inversion_clear Hd as [|? ? H0 Hd1].
  inversion_clear Hd1 as [|? ? H1 Hd2]. inversion_clear Hd2 as [|? ? H2 Hd3]. inversion_clear Hd3 as [|? ? H3 _].
  unfold checked. rewrite E. cbn [take check_bytes crc32c_byte_register]. fold reg. fold (le32 b0 b1 b2 b3).
  rewrite le32_word by done. destruct (Z.eqb_spec (word (b3, b2, b1, b0)) (u32 (Z.lnot reg))) as [Ew|Ew]; cbn [negb].
  - left. split; [|done]. by rewrite <- Ew, le_bytes_word.
  - right. split; [|done]. intros El. apply Ew, word_of_le_bytes; [apply u32_range|]. by rewrite <- El.
Qed.

Lemma crc_enc_value sse addr buf n :
  processor_ok sse -> Forall is_byte buf -> (n + 4 <= length buf)%nat ->
  crc32c_enc sse addr buf n
  = Some (take n buf ++ check_bytes CRC32C (feed CRC32C (take n buf) (start CRC32C)) ++ drop (n + 4) buf).
Proof.
  intros Hs Hb Hlen. unfold crc32c_enc, crc32c, put_le32. rewrite (proj2 (Nat.leb_le n _)) by lia.
  rewrite (proj2 (Nat.leb_le (n + 4) _)) by done. by rewrite crc_register_feed by (done || by apply list.Forall_take).
Qed.

Lemma rs_check_value buf n :
  Forall is_byte buf -> (n + 4 <= length buf)%nat ->
  checked ReedSolomon n buf /\ rs_gf256_check buf n = Some (s32 (Z.of_nat n))
  \/ ~ checked ReedSolomon n buf /\ rs_gf256_check buf n = Some (-1).
Proof.
  intros Hb Hlen. unfold rs_gf256_check. rewrite (proj2 (Nat.leb_le _ _)) by lia.
  assert (Hr : 0 <= feed ReedSolomon (take n buf) (start ReedSolomon) < 2 ^ 32) by (apply feed_range; [by apply list.Forall_take|apply start_range]).
  change (rs_register (take n buf)) with (feed ReedSolomon (take n buf) (start ReedSolomon)). set (reg := feed _ _ _) in *.
  destruct (drop_four n buf Hlen) as (b0 & b1 & b2 & b3 & rest & E).
  pose proof (list.Forall_drop _ n _ Hb) as Hd. rewrite E in Hd. inversion_clear Hd as [|? ? H0 Hd1].
  inversion_clear Hd1 as [|? ? H1 Hd2]. inversion_clear Hd2 as [|? ? H2 Hd3]. inversion_clear Hd3 as [|? ? H3 _].
  unfold checked. rewrite E. cbn [take check_bytes rs_byte_register ltfs_betou32]. fold reg.
  destruct (Z.eqb_spec (b0 * 2 ^ 24 + b1 * 2 ^ 16 + b2 * 2 ^ 8 + b3) reg) as [Ew|Ew]; cbn [negb].
  - left. split; [|done]. rewrite <- Ew, u32tobe_of_bytes by done. by rewrite take_0.
  - right. split; [|done]. intros El. apply Ew. pose proof (betou32_u32tobe reg [] Hr) as Hrt. rewrite app_nil_r, <- El in Hrt.
    by injection Hrt.
Qed.

Lemma rs_enc_value buf n :
  (n + 4 <= length buf)%nat ->
  rs_gf256_enc buf n = Some (take n buf ++ check_bytes ReedSolomon (feed ReedSolomon (take n buf) (start ReedSolomon)) ++ drop (n + 4) buf).
Proof.
  intros Hlen. unfold rs_gf256_enc, put_be32. by rewrite (proj2 (Nat.leb_le n _)), (proj2 (Nat.leb_le (n + 4) _)) by lia.
Qed.

(** Two blocks that differ in at most four neighbouring bytes *)
Definition burst (x y : list Z) : Prop :=
  exists p m m' s, x = p ++ m ++ s /\ y = p ++ m' ++ s /\ length m = length m' /\ (length m <= 4)%nat /\ m <> m'.

(** [enc] puts four bytes behind the first [n] of [buf] and changes nothing else; [check]
    accepts the result, and refuses it after a burst. *)
Definition guards (enc : list Z -> option (list Z)) (check : list Z -> option Z) (n : nat) (buf : list Z) : Prop :=
  exists buf', enc buf = Some buf' /\ length buf' = length buf
  /\ take n buf' = take n buf /\ drop (n + 4) buf' = drop (n + 4) buf
  /\ check buf' = Some (Z.of_nat n)
  /\ forall bad, Forall is_byte bad -> length bad = length buf' ->
     burst (take (n + 4) buf') (take (n + 4) bad) -> check bad = Some (-1).

Lemma guarded kind `{!ByteRegister kind} enc check n buf :
  Forall is_byte buf -> (n + 4 <= length buf)%nat -> Z.of_nat n < 2 ^ 31 ->
  enc buf = Some (take n buf ++ check_bytes kind (feed kind (take n buf) (start kind)) ++ drop (n + 4) buf) ->
  (forall b, Forall is_byte b -> (n + 4 <= length b)%nat ->
     checked kind n b /\ check b = Some (s32 (Z.of_nat n)) \/ ~ checked kind n b /\ check b = Some (-1)) ->
  guards enc check n buf.
Proof.
  intros Hb Hlen Hn Henc Hcheck. set (crc := check_bytes kind _) in Henc.
  destruct (check_bytes_ok (feed kind (take n buf) (start kind))) as [H4 Hcb];
    [by apply feed_range; [apply list.Forall_take|apply start_range]|]. fold crc in H4, Hcb.
  set (buf' := take n buf ++ crc ++ drop (n + 4) buf) in *.
  assert (Ht : length (take n buf) = n) by (rewrite length_take; lia).
  assert (Hl : length buf' = length buf) by (unfold buf'; rewrite !length_app, Ht, H4, length_drop; lia).
  assert (Hb' : Forall is_byte buf').
  { unfold buf'. rewrite !list.Forall_app. split; [by apply list.Forall_take|]. split; [done|by apply list.Forall_drop]. }
  assert (Htake : take n buf' = take n buf) by (unfold buf'; by rewrite take_app_length').
  assert (Hchk : checked kind n buf').
  { unfold checked. rewrite Htake. fold crc. unfold buf'. rewrite drop_app_length', take_app_length' by done. done. }
  exists buf'. split; [done|]. split; [done|]. split; [done|]. split.
  { unfold buf'. rewrite app_assoc, drop_app_length'; [done|]. rewrite length_app. lia. }
  split.
  { destruct (Hcheck buf' Hb' ltac:(lia)) as [[_ E]|[Hno _]]; [|done]. rewrite E. f_equal. apply s32_small. lia. }
  intros bad Hbad Hlb (p & m & m' & s & E1 & E2 & Hm & Hm4 & Hne).
  destruct (Hcheck bad Hbad ltac:(lia)) as [[Hyes _]|[_ E]]; [|done]. exfalso. apply Hne.
  apply checked_protected in Hchk; [|lia|done]. apply checked_protected in Hyes; [|lia|done].
  pose proof (list.Forall_take _ (n + 4) _ Hb') as F1. pose proof (list.Forall_take _ (n + 4) _ Hbad) as F2.
  rewrite E1 in Hchk, F1. rewrite E2 in Hyes, F2. rewrite !list.Forall_app in F2. destruct F2 as (_ & F2 & _).
  by apply (protected_burst p m m' s).
Qed.

(** ** The copying variants *)

Lemma take_copy n (x y : list Z) : (n <= length x)%nat -> take n (take n x ++ y) = take n x.
Proof. intros Hn. apply take_app_length'. rewrite length_take. lia. Qed.

Lemma memcpy_encodes sse addr dest src n :
  (n <= length src)%nat -> (n <= length dest)%nat ->
  memcpy_crc32c_enc sse addr dest src n = crc32c_enc sse addr (take n src ++ drop n dest) n
  /\ memcpy_rs_gf256_enc dest src n = rs_gf256_enc (take n src ++ drop n dest) n.
Proof.
  intros Hs Hd. unfold memcpy_crc32c_enc, memcpy_crc32c, crc32c_enc, crc32c, memcpy_rs_gf256_enc, rs_gf256_enc.
  assert (Hl : (n <= length (take n src ++ drop n dest))%nat) by (rewrite length_app, length_take; lia).
  rewrite !(proj2 (Nat.leb_le _ _)) by done. by rewrite take_copy.
Qed.

Lemma memcpy_checks sse addr dest src n :
  (n <= length src)%nat -> (n <= length dest)%nat ->
  memcpy_crc32c_check sse addr dest src n
    = match crc32c_check sse addr src n with Some ret => Some (ret, take n src ++ drop n dest) | None => None end
  /\ memcpy_rs_gf256_check dest src n
    = match rs_gf256_check src n with Some ret => Some (ret, take n src ++ drop n dest) | None => None end.
Proof.
  intros Hs Hd. unfold memcpy_crc32c_check, memcpy_crc32c, crc32c_check, crc32c, memcpy_rs_gf256_check, rs_gf256_check.
  rewrite !(proj2 (Nat.leb_le _ _)) by done. cbn [andb].
  split; [by destruct (get_le32 n src)|by destruct (ltfs_betou32 _)].
Qed.

(** ** The properties *)

(** C39: the checksums are remainders.  Whether CRC32C is computed with the table or, on
    any alignment of the buffer, with the instructions of the processor, it is the
    complement of the remainder of the division of the message bit by bit; the
    Reed-Solomon checksum is the remainder of the division over the field of 256
    elements.  The variants that copy compute the same and copy exactly the message. *)
Theorem checksum_equals_division sse addr buf n :
  processor_ok sse -> Forall is_byte buf -> (n <= length buf)%nat ->
  crc32c sse addr buf n = Some (u32 (Z.lnot (divide (take n buf) 0xffffffff)))
  /\ rs_register (take n buf) = word (gf_remainder (take n buf))
  /\ forall dest, (n <= length dest)%nat ->
     memcpy_crc32c_enc sse addr dest buf n = crc32c_enc sse addr (take n buf ++ drop n dest) n
     /\ memcpy_rs_gf256_enc dest buf n = rs_gf256_enc (take n buf ++ drop n dest) n
     /\ memcpy_crc32c_check sse addr dest buf n
        = match crc32c_check sse addr buf n with Some ret => Some (ret, take n buf ++ drop n dest) | None => None end
     /\ memcpy_rs_gf256_check dest buf n
        = match rs_gf256_check buf n with Some ret => Some (ret, take n buf ++ drop n dest) | None => None end.
Proof.
  intros Hs Hb Hn. pose proof (list.Forall_take _ n _ Hb) as Ht. split; [|split].
  - unfold crc32c. rewrite (proj2 (Nat.leb_le _ _)) by done. by rewrite register_divides.
  - by apply rs_register_division.
  - intros dest Hd. destruct (memcpy_encodes sse addr dest buf n Hn Hd), (memcpy_checks sse addr dest buf n Hn Hd). by split_and!.
Qed.

(** C38: the checksums detect bursts.  Both put four bytes behind a block and touch nothing
    else; the check then accepts the block, wherever it is in memory, and once up to four
    neighbouring bytes of block and checksum have been changed, it refuses it. *)
Theorem checksums_detect_bursts sse addr addr' buf n :
  processor_ok sse -> Forall is_byte buf -> (n + 4 <= length buf)%nat -> Z.of_nat n < 2 ^ 31 ->
  guards (fun b => crc32c_enc sse addr b n) (fun b => crc32c_check sse addr' b n) n buf
  /\ guards (fun b => rs_gf256_enc b n) (fun b => rs_gf256_check b n) n buf.
Proof.
  intros Hs Hb Hlen Hn. split.
  - apply (guarded CRC32C); [done..|by apply crc_enc_value|]. intros b. by apply crc_check_value.
  - apply (guarded ReedSolomon); [done..|by apply rs_enc_value|]. intros b. apply rs_check_value.
Qed.

(** ** A block *)

(** The instructions, as they are documented, for words of eight bytes *)
Fixpoint word_bytes (k : nat) (w : Z) : list Z :=
  match k with O => [] | S k => w mod 256 :: word_bytes k (w / 256) end.

Definition documented_sse : sse4_2 :=
  {| calc_size := 8; mm_crc32_u8 := fun r b => divide_byte b r; mm_crc32_word := fun r w => divide (word_bytes 8 w) r |}.

Lemma word_bytes_le l : Forall is_byte l -> word_bytes (length l) (le_word l) = l.
Proof.
  intros Hl. induction Hl as [|b l Hb Hl IH]; [done|]. cbn [length word_bytes le_word]. unfold is_byte in Hb.
  rewrite (Z.mul_comm 256), Z.mod_add, Z.mod_small, Z.div_add, Z.div_small by lia. by rewrite Z.add_0_l, IH.
Qed.

Lemma documented_ok : processor_ok (Some documented_sse).
Proof.
  split; [by right|done|]. intros r l Hl Hb _. cbn [mm_crc32_word documented_sse calc_size] in *. by rewrite <- Hl, word_bytes_le.
Qed.

Definition nine_digits : list Z := cstr "123456789".

Lemma nine_digits_bytes rest : Forall is_byte rest -> Forall is_byte (nine_digits ++ rest).
Proof. intros Hr. apply list.Forall_app. split; [|done]. repeat constructor; unfold is_byte; cbn; lia. Qed.

(** The check value of the literature is E3069283. *)
Lemma checksum_equals_division_witness :
  crc32c (Some documented_sse) 5 nine_digits 9 = Some 0xE3069283
  /\ rs_register nine_digits = word (gf_remainder nine_digits).
Proof.
  pose proof (nine_digits_bytes [] ltac:(by apply List.Forall_nil)) as Hb. rewrite app_nil_r in Hb.
  destruct (checksum_equals_division (Some documented_sse) 5 nine_digits 9 documented_ok Hb ltac:(cbn; lia)) as (H1 & H2 & _).
  split; [|exact H2]. rewrite H1. vm_compute. reflexivity.
Defined.

Lemma checksums_detect_bursts_witness :
  crc32c_enc (Some documented_sse) 0 (nine_digits ++ [0; 0; 0; 0]) 9 = Some (nine_digits ++ [0x83; 0x92; 0x06; 0xE3])
  /\ crc32c_check None 3 (nine_digits ++ [0x83; 0x92; 0x07; 0xE3]) 9 = Some (-1).
Proof.
  assert (Hz : Forall is_byte (nine_digits ++ [0; 0; 0; 0])).
  { apply nine_digits_bytes. repeat constructor; unfold is_byte; lia. }
  destruct (checksums_detect_bursts None 0 3 (nine_digits ++ [0; 0; 0; 0]) 9 I Hz ltac:(cbn; lia) ltac:(cbn; lia))
    as [(b & Henc & Hlen & _ & _ & _ & Hbad) _].
  split; [vm_compute; reflexivity|].
  assert (Hb : b = nine_digits ++ [0x83; 0x92; 0x06; 0xE3]).
  { assert (E : crc32c_enc None 0 (nine_digits ++ [0; 0; 0; 0]) 9 = Some (nine_digits ++ [0x83; 0x92; 0x06; 0xE3])) by (vm_compute; reflexivity).
    rewrite E in Henc. by injection Henc. }
  apply Hbad; [apply nine_digits_bytes; repeat constructor; unfold is_byte; lia|by rewrite Hlen|].
  rewrite Hb. exists (nine_digits ++ [0x83; 0x92]), [0x06], [0x07], [0xE3]. split_and!; [reflexivity..|cbn; lia|congruence].
Defined.
