(* ===== verification/KeyFormat.v ===== *)
(** * Key management

    [kmi/key_format_ltfs.c], the key list the two plugins share; [kmi/flatfile.c] and
    [kmi/simple.c], the plugins; and [libltfs/kmi.c], through which the tape layer asks
    a plugin for the key of a cartridge.

    A string argument is [None] for a null pointer.  The addresses [keyalias] and [key]
    are those of variables of the caller; what they hold goes in and comes out.  An
    access outside a string or to memory that was freed is [None] as the result of the
    whole call.  Characters are classified as in the locales C and UTF-8; allocation
    succeeds, and strings are short enough for an [int] to count what is in them. *)

From S2P Require Import Prelude Errors Base64.
Open Scope Z_scope.

(** ** The format *)

Definition DK_LENGTH : nat := 32.
Definition DKI_LENGTH : nat := 12.
Definition DKI_ASCII_LENGTH : nat := 3.
Definition SEPARATOR_LENGTH : nat := 1.

(** The lengths the functions compute from them, 43, 44 and 21 *)
Definition key_digits : nat := (DK_LENGTH * 8 + 5) / 6.
Definition key_length : nat := ((DK_LENGTH * 8 + 5) / 6 + 3) / 4 * 4.
Definition keyalias_length : nat := DKI_ASCII_LENGTH + (DKI_LENGTH - DKI_ASCII_LENGTH) * 2.

Inductive kfl_state :=
  | KFL_UNINITIALIZED | KFL_INITIALIZED | KFL_SET | KFL_CLEARED | KFL_DESTROYED.

#[export] Instance kfl_state_eq_dec : EqDecision kfl_state.
Proof. solve_decision. Defined.

Record key := { dk : list Z; dki : list Z }.
Record key_format_ltfs := { num_of_keys : Z; dk_list : option (list key) }.
Record key_format_ltfs_data := { vol : Z; data : option key_format_ltfs }.

Definition isdigit (c : Z) : bool := (48 <=? c) && (c <=? 57).
Definition isalnum (c : Z) : bool := isdigit c || ((65 <=? c) && (c <=? 90)) || ((97 <=? c) && (c <=? 122)).
Definition isprint (c : Z) : bool := (32 <=? c) && (c <=? 126).
Definition isxdigit (c : Z) : bool := isdigit c || ((65 <=? c) && (c <=? 70)) || ((97 <=? c) && (c <=? 102)).
Definition isspace (c : Z) : bool := (c =? 32) || ((9 <=? c) && (c <=? 13)).

(** A character of a string, the terminator included *)
Definition char_at (s : cstring) (i : nat) : Z := nth i s 0.

Definition is_key (key : cstring) : Z :=
  if negb (forallb (fun i => isalnum (char_at key i) || (char_at key i =? 43) || (char_at key i =? 47)) (seq 0 key_digits))
  then - LTFS_BAD_ARG
  else if negb (forallb (fun i => char_at key i =? 61) (seq key_digits (key_length - key_digits)))
  then - LTFS_BAD_ARG
  else 0.

Definition is_keyalias (keyalias : cstring) : Z :=
  if negb (forallb (fun i => isprint (char_at keyalias i)) (seq 0 DKI_ASCII_LENGTH)) then - LTFS_BAD_ARG
  else if negb (forallb (fun i => isxdigit (char_at keyalias i)) (seq DKI_ASCII_LENGTH (keyalias_length - DKI_ASCII_LENGTH)))
  then - LTFS_BAD_ARG
  else 0.

(** The loop over the pairs: their number and the position behind them, or the error *)
Fixpoint count_keys (fuel : nat) (dk_list : cstring) (i : nat) (num_of_keys : Z) : Z + Z * nat :=
  match fuel with
  | O => inr (num_of_keys, i)
  | S fuel =>
      let i := if negb (num_of_keys =? 0) then (i + SEPARATOR_LENGTH)%nat else i in
      if is_key (drop i dk_list) <? 0 then inl (- LTFS_BAD_ARG)
      else
        let i := (i + key_length)%nat in
        if negb (char_at dk_list i =? 58) then inl (- LTFS_BAD_ARG)
        else
          let i := (i + SEPARATOR_LENGTH)%nat in
          if is_keyalias (drop i dk_list) <? 0 then inl (- LTFS_BAD_ARG)
          else
            let i := (i + keyalias_length)%nat in
            let num_of_keys := num_of_keys + 1 in
            if (i + SEPARATOR_LENGTH + key_length + SEPARATOR_LENGTH + keyalias_length <=? length dk_list)%nat
               && (char_at dk_list i =? 47)
            then count_keys fuel dk_list i num_of_keys
            else inr (num_of_keys, i)
  end.

Definition get_num_of_keys (dk_list : cstring) : Z :=
  if (key_length + SEPARATOR_LENGTH + keyalias_length <=? length dk_list)%nat then
    match count_keys (length dk_list) dk_list 0 0 with
    | inl err => err
    | inr (num_of_keys, i) => if negb (i =? length dk_list)%nat then - LTFS_BAD_ARG else num_of_keys
    end
  else 0.

(** The key where it was zero; [before] is the character in front of [enc]. *)
Definition convert_key (before : Z) (enc : cstring) : list Z :=
  match base64_decode before (take key_length enc) with
  | (size, Some dec) =>
      if size =? Z.of_nat DK_LENGTH
      then map (fun i => default 0 (dec !! Z.of_nat i)) (seq 0 DK_LENGTH)
      else replicate DK_LENGTH 0
  | (_, None) => replicate DK_LENGTH 0
  end.

(** [strtoul] with base 16, for strings too short to overflow *)
Definition hex_value (c : Z) : Z :=
  if isdigit c then c - 48 else if c <? 97 then c - 55 else c - 87.

Fixpoint hex_digits (s : cstring) (v : Z) : Z :=
  match s with
  | c :: s => if isxdigit c then hex_digits s (v * 16 + hex_value c) else v
  | [] => v
  end.

Fixpoint skip_spaces (s : cstring) : cstring :=
  match s with c :: s' => if isspace c then skip_spaces s' else s | [] => [] end.

Definition hex_number (s : cstring) : Z :=
  match s with
  | 48 :: x :: c :: s' => if ((x =? 120) || (x =? 88)) && isxdigit c then hex_digits (c :: s') 0 else hex_digits s 0
  | _ => hex_digits s 0
  end.

Definition strtoul16 (s : cstring) : Z :=
  match skip_spaces s with
  | 43 :: s => hex_number s
  | 45 :: s => u64 (- hex_number s)
  | s => hex_number s
  end.

(** The string of at most two characters in the buffer [tmp] *)
Definition tmp_string (c0 c1 : Z) : cstring :=
  if c0 =? 0 then [] else if c1 =? 0 then [c0] else [c0; c1].

Definition convert_keyalias (ascii_and_hex : cstring) : option (list Z) :=
  if (keyalias_length <=? length ascii_and_hex + 1)%nat then
    Some (take DKI_ASCII_LENGTH ascii_and_hex
          ++ map (fun i => u8 (strtoul16 (tmp_string (char_at ascii_and_hex (DKI_ASCII_LENGTH + i * 2))
                                                     (char_at ascii_and_hex (DKI_ASCII_LENGTH + i * 2 + 1)))))
                 (seq 0 (DKI_LENGTH - DKI_ASCII_LENGTH)))
  else None.

(** ** The handle *)

Definition key_format_ltfs_init (state : kfl_state) (vol : option Z) : option key_format_ltfs_data * kfl_state :=
  match vol with
  | None => (None, state)
  | Some vol =>
      if negb (bool_decide (state = KFL_UNINITIALIZED)) then (None, state)
      else (Some {| vol := vol; data := Some {| num_of_keys := 0; dk_list := None |} |}, KFL_INITIALIZED)
  end.

Definition key_format_ltfs_destroy (state : kfl_state) (kmi_handle : option key_format_ltfs_data) : Z * kfl_state :=
  match kmi_handle with
  | None => (- LTFS_NULL_ARG, state)
  | Some _ => (0, KFL_DESTROYED)
  end.

(** The pairs at [offset] and behind it *)
Fixpoint convert_pairs (n : nat) (dk_list : cstring) (offset : nat) : option (list key) :=
  match n with
  | O => Some []
  | S n =>
      let k := convert_key (char_at dk_list (offset - 1)) (drop offset dk_list) in
      let offset := (offset + (key_length + 1))%nat in
      match convert_keyalias (drop offset dk_list) with
      | None => None
      | Some a =>
          match convert_pairs n dk_list (offset + (keyalias_length + 1)) with
          | None => None
          | Some rest => Some ({| dk := k; dki := a |} :: rest)
          end
      end
  end.

Definition set_dk_list (dk_list : option cstring) (data : option key_format_ltfs) (state : kfl_state)
  : option (Z * option key_format_ltfs * kfl_state) :=
  match data with
  | None => Some (- LTFS_NULL_ARG, data, state)
  | Some priv =>
      if negb (bool_decide (state = KFL_INITIALIZED)) && negb (bool_decide (state = KFL_CLEARED))
      then Some (- LTFS_INVALID_SEQUENCE, data, state)
      else
        let text := default [] dk_list in
        let num := match dk_list with Some text => get_num_of_keys text | None => 0 end in
        if num <? 0 then Some (num, data, state)
        else if negb (num =? 0) then
          match convert_pairs (Z.to_nat num) text 0 with
          | None => None
          | Some keys => Some (0, Some {| num_of_keys := num; dk_list := Some keys |}, KFL_SET)
          end
        else Some (0, Some priv, KFL_SET)
  end.

(** The first of [n] keys with the alias; [None] if the list is shorter *)
Fixpoint find_key (n : nat) (keyalias : list Z) (keys : list key) : option (option (list Z)) :=
  match n, keys with
  | O, _ => Some None
  | S _, [] => None
  | S n, k :: keys => if bool_decide (take DKI_LENGTH keyalias = dki k) then Some (Some (dk k)) else find_key n keyalias keys
  end.

(** Status, [*keyalias] and [*key] *)
Definition get_key (keyalias : option (list Z)) (data : option key_format_ltfs) (dki_for_format : option cstring)
  : option (Z * option (list Z) * option (list Z)) :=
  match data with
  | None => Some (0, keyalias, None)
  | Some priv =>
      match keyalias, dki_for_format with
      | None, None => Some (0, None, None)
      | _, _ =>
          let alias := match keyalias with
                       | Some a => Some a
                       | None => convert_keyalias (default [] dki_for_format)
                       end in
          match alias with
          | None => None
          | Some a =>
              match find_key (Z.to_nat (num_of_keys priv)) a (default [] (dk_list priv)) with
              | None => None
              | Some None => Some (- LTFS_KEY_NOT_FOUND, Some a, None)
              | Some (Some k) => Some (0, Some a, Some k)
              end
          end
      end
  end.

Definition clear (data : option key_format_ltfs) (state : kfl_state) : Z * option key_format_ltfs * kfl_state :=
  (0, match data with Some _ => Some {| num_of_keys := 0; dk_list := None |} | None => None end,
   if bool_decide (state = KFL_SET) then KFL_CLEARED else state).

(** What a call leaves behind: status, [*keyalias], [*key], the data of the handle, the
    state *)
Record key_result := {
  ret : Z; alias_out : option (list Z); key_out : option (list Z);
  handle_out : option key_format_ltfs_data; state_out : kfl_state
}.

Definition key_format_ltfs_get_key (keyalias key : option (list Z)) (kmi_handle : option key_format_ltfs_data)
    (dk_list dki_for_format : option cstring) (state : kfl_state) : option key_result :=
  match kmi_handle with
  | None => Some {| ret := - LTFS_NULL_ARG; alias_out := keyalias; key_out := key; handle_out := None; state_out := state |}
  | Some priv =>
      match set_dk_list dk_list (data priv) state with
      | None => None
      | Some (r, d, state) =>
          if r <? 0 then
            Some {| ret := r; alias_out := keyalias; key_out := key;
                    handle_out := Some {| vol := vol priv; data := d |}; state_out := state |}
          else
            match get_key keyalias d dki_for_format with
            | None => None
            | Some (r, a, k) =>
                let '(rc, d, state) := clear d state in
                Some {| ret := if r <? 0 then r else rc; alias_out := a; key_out := k;
                        handle_out := Some {| vol := vol priv; data := d |}; state_out := state |}
            end
      end
  end.

(** ** The plugin for a flat file *)

(** What [fopen] finds: the error or the contents *)
Abbreviation file := (Z + list Z)%type.

(** [fgets] with a buffer of [size] bytes: the bytes read, and the rest *)
Fixpoint fgets (size : nat) (text : list Z) : list Z * list Z :=
  match size, text with
  | S (S size), c :: text =>
      if c =? 10 then ([c], text) else let '(line, rest) := fgets (S size) text in (c :: line, rest)
  | _, _ => ([], text)
  end.

(** The string at the start of a buffer *)
Fixpoint string_in (buf : list Z) : cstring :=
  match buf with c :: buf => if c =? 0 then [] else c :: string_in buf | [] => [] end.

(** The tag of a line and the separator in front of its value *)
Definition tag (i : Z) : cstring * Z := if i =? 0 then (cstr "DK=", 47) else (cstr "DKi=", 58).

(** Without the line break at its end *)
Definition chomp (s : cstring) : cstring := if char_at s (length s - 1) =? 10 then removelast s else s.

(** [text]: what is in [*dk_list], of which [dk_list_length] bytes are allocated *)
Record converted := { num_of_lines : Z; dk_list_length : Z; text : cstring }.

(** One line; [inl] when it is not accepted, [None] for a write behind the buffer *)
Definition convert_line (buf : cstring) (c : converted) : option (Z + converted) :=
  let i := num_of_lines c mod 2 in
  let '(name, separetor) := tag i in
  if bool_decide (take (length name) buf = name) then
    let value := drop (length name) (chomp buf) in
    let len := dk_list_length c
               + (if num_of_lines c =? 0 then Z.of_nat (length value)
                  else Z.of_nat SEPARATOR_LENGTH + Z.of_nat (length value)) in
    let text := text c ++ (if negb (num_of_lines c =? 0) then [separetor] else []) ++ value in
    if len <? Z.of_nat (length text) + 1 then None
    else Some (inr {| num_of_lines := u32 (num_of_lines c + 1); dk_list_length := len; text := text |})
  else if char_at buf 0 =? 10 then Some (inr c)
  else Some (inl (-1)).

(** Until [fgets] reads nothing; the buffer in any case *)
Fixpoint convert_lines (fuel : nat) (contents : list Z) (c : converted) : option (Z * cstring) :=
  match fuel with
  | O => None
  | S fuel =>
      match fgets 1024 contents with
      | ([], _) => Some (0, text c)
      | (line, rest) =>
          match convert_line (string_in line) c with
          | None => None
          | Some (inl ret) => Some (ret, text c)
          | Some (inr c) => convert_lines fuel rest c
          end
      end
  end.

Definition convert_option (path : file) : option (Z * cstring) :=
  match path with
  | inl errno => Some (- errno, [])
  | inr contents => convert_lines (S (length contents)) contents {| num_of_lines := 0; dk_list_length := 1; text := [] |}
  end.

(** The static pointer of [flatfile_get_key] *)
Inductive static_list := NotConverted | Converted (s : cstring) | Freed.

Record kmi_flatfile_options_data := { file_dk_list : option file; file_dki_for_format : option cstring }.

(** The state of the plugin *)
Record flatfile := { options : kmi_flatfile_options_data; list_read : static_list; format_state : kfl_state }.

Definition flatfile_init (p : flatfile) (vol : option Z) : option key_format_ltfs_data * flatfile :=
  let '(h, s) := key_format_ltfs_init (format_state p) vol in
  (h, {| options := options p; list_read := list_read p; format_state := s |}).

Definition flatfile_destroy (p : flatfile) (h : option key_format_ltfs_data) : Z * flatfile :=
  let '(r, s) := key_format_ltfs_destroy (format_state p) h in
  (r, {| options := options p; list_read := list_read p; format_state := s |}).

(** The list that is used, or the status of a conversion that failed *)
Definition flatfile_list (p : flatfile) : option (static_list * (Z + option cstring)) :=
  match file_dk_list (options p), list_read p with
  | Some path, NotConverted =>
      match convert_option path with
      | None => None
      | Some (r, s) => Some (if r <? 0 then (Freed, inl r) else (Converted s, inr (Some s)))
      end
  | _, NotConverted => Some (NotConverted, inr None)
  | _, Converted s => Some (Converted s, inr (Some s))
  | _, Freed => None
  end.

Definition flatfile_get_key (p : flatfile) (keyalias key : option (list Z)) (h : option key_format_ltfs_data)
  : option (Z * option (list Z) * option (list Z) * option key_format_ltfs_data * flatfile) :=
  match flatfile_list p with
  | None => None
  | Some (l, inl r) =>
      Some (r, keyalias, key, h, {| options := options p; list_read := l; format_state := format_state p |})
  | Some (l, inr dk_list) =>
      match key_format_ltfs_get_key keyalias key h dk_list (file_dki_for_format (options p)) (format_state p) with
      | None => None
      | Some r => Some (ret r, alias_out r, key_out r, handle_out r,
                        {| options := options p; list_read := l; format_state := state_out r |})
      end
  end.

(** ** The plugin for keys in options *)

Record kmi_simple_options_data := {
  opt_dk : option cstring; opt_dki : option cstring;
  opt_dk_for_format : option cstring; opt_dki_for_format : option cstring;
  opt_dk_list : option cstring
}.

Record simple := { simple_options : kmi_simple_options_data; simple_state : kfl_state }.

Definition simple_init (p : simple) (vol : option Z) : option key_format_ltfs_data * simple :=
  let '(h, s) := key_format_ltfs_init (simple_state p) vol in
  (h, {| simple_options := simple_options p; simple_state := s |}).

Definition simple_destroy (p : simple) (h : option key_format_ltfs_data) : Z * simple :=
  let '(r, s) := key_format_ltfs_destroy (simple_state p) h in
  (r, {| simple_options := simple_options p; simple_state := s |}).

Definition simple_get_key (p : simple) (keyalias key : option (list Z)) (h : option key_format_ltfs_data)
  : option (Z * option (list Z) * option (list Z) * option key_format_ltfs_data * simple) :=
  match key_format_ltfs_get_key keyalias key h (opt_dk_list (simple_options p)) (opt_dki_for_format (simple_options p))
          (simple_state p) with
  | None => None
  | Some r => Some (ret r, alias_out r, key_out r, handle_out r,
                    {| simple_options := simple_options p; simple_state := state_out r |})
  end.

Definition is_set (s : option cstring) : bool := match s with Some _ => true | None => false end.

(** A pair put behind the list *)
Definition append_pair (dk dki : option cstring) (list : option cstring) : option cstring :=
  match dk with
  | None => list
  | Some dk =>
      let original := default [] list in
      Some (original ++ (if negb (length original =? 0)%nat then [47] else []) ++ dk ++ [58] ++ default [] dki)
  end.

(** [fuse_opt_parse]: its status and the options as it leaves them *)
Definition simple_parse_opts (parsed : Z * kmi_simple_options_data) : Z * kmi_simple_options_data :=
  let '(r, p) := parsed in
  if r <? 0 then (r, p)
  else if xorb (is_set (opt_dk p)) (is_set (opt_dki p)) || (is_set (opt_dk_for_format p) && negb (is_set (opt_dki_for_format p)))
  then (-1, p)
  else if is_set (opt_dk p) && is_set (opt_dki p) && is_set (opt_dk_for_format p) && is_set (opt_dki_for_format p)
          && xorb (bool_decide (opt_dk p = opt_dk_for_format p)) (bool_decide (opt_dki p = opt_dki_for_format p))
  then (-1, p)
  else
    (0, {| opt_dk := opt_dk p; opt_dki := opt_dki p;
           opt_dk_for_format := opt_dk_for_format p; opt_dki_for_format := opt_dki_for_format p;
           opt_dk_list := append_pair (opt_dk_for_format p) (opt_dki_for_format p)
                            (append_pair (opt_dk p) (opt_dki p) (opt_dk_list p)) |}).

(** ** The interface *)

(** The operations of a plugin with state [P], handles [H] and arguments [A]; an entry
    may be missing. *)
Record kmi_ops (P H A : Type) := {
  init : option (P -> option Z -> option H * P);
  destroy : option (P -> option H -> Z * P);
  get_key_op : option (P -> option (list Z) -> option (list Z) -> option H
                       -> option (Z * option (list Z) * option (list Z) * option H * P));
  help_message : option (P -> Z * P);
  parse_opts : option (P -> A -> Z * P)
}.
Arguments init {P H A}.
Arguments destroy {P H A}.
Arguments get_key_op {P H A}.
Arguments help_message {P H A}.
Arguments parse_opts {P H A}.

Record kmi_priv (P H A : Type) := { ops : kmi_ops P H A; backend_handle : option H }.
Arguments ops {P H A}.
Arguments backend_handle {P H A}.

Section kmi.
Context {P H A : Type}.
Implicit Types (plugin : P) (o : kmi_ops P H A) (priv : kmi_priv P H A).

Definition set_backend_handle priv (h : option H) : kmi_priv P H A := {| ops := ops priv; backend_handle := h |}.

Definition complete o : bool :=
  match init o, destroy o, get_key_op o, help_message o, parse_opts o with
  | Some _, Some _, Some _, Some _, Some _ => true
  | _, _, _, _, _ => false
  end.

(** Status and the [kmi_handle] of the volume *)
Definition kmi_init plugin o (vol : Z) (kmi_handle : option (kmi_priv P H A)) : Z * option (kmi_priv P H A) * P :=
  if negb (complete o) then (- LTFS_PLUGIN_INCOMPLETE, kmi_handle, plugin)
  else match init o with
       | None => (- LTFS_PLUGIN_INCOMPLETE, kmi_handle, plugin)
       | Some f =>
           match f plugin (Some vol) with
           | (None, plugin) => (-1, kmi_handle, plugin)
           | (Some h, plugin) => (0, Some {| ops := o; backend_handle := Some h |}, plugin)
           end
       end.

Definition kmi_destroy plugin (kmi_handle : option (kmi_priv P H A)) : Z * option (kmi_priv P H A) * P :=
  match kmi_handle with
  | None => (- LTFS_NULL_ARG, kmi_handle, plugin)
  | Some priv =>
      match destroy (ops priv) with
      | None => (- LTFS_NULL_ARG, kmi_handle, plugin)
      | Some f => let '(r, plugin) := f plugin (backend_handle priv) in (r, None, plugin)
      end
  end.

Definition kmi_initialized (kmi_handle : option (kmi_priv P H A)) : bool :=
  match kmi_handle with Some _ => true | None => false end.

Definition kmi_get_key plugin (keyalias key : option (list Z)) (kmi_handle : option (kmi_priv P H A))
  : option (Z * option (list Z) * option (list Z) * option (kmi_priv P H A) * P) :=
  match kmi_handle with
  | None => Some (- LTFS_NULL_ARG, keyalias, key, kmi_handle, plugin)
  | Some priv =>
      match get_key_op (ops priv) with
      | None => Some (- LTFS_NULL_ARG, keyalias, key, kmi_handle, plugin)
      | Some f =>
          match f plugin keyalias key (backend_handle priv) with
          | None => None
          | Some (r, a, k, h, plugin) => Some (r, a, k, Some (set_backend_handle priv h), plugin)
          end
      end
  end.

Definition kmi_print_help_message plugin (ops : option (kmi_ops P H A)) : Z * P :=
  match ops with
  | None => (- LTFS_NULL_ARG, plugin)
  | Some ops => match help_message ops with Some f => f plugin | None => (0, plugin) end
  end.

Definition kmi_parse_opts plugin (kmi_handle : option (kmi_priv P H A)) (opt_args : option A) : Z * P :=
  match kmi_handle, opt_args with
  | Some priv, Some args =>
      match parse_opts (ops priv) with Some f => f plugin args | None => (- LTFS_NULL_ARG, plugin) end
  | _, _ => (- LTFS_NULL_ARG, plugin)
  end.

End kmi.

(** The arguments of the parsers: what [fuse_opt_parse] makes of the options *)
Definition flatfile_parse_opts (p : flatfile) (parsed : Z * kmi_flatfile_options_data) : Z * flatfile :=
  let '(r, o) := parsed in
  (if r <? 0 then r else 0, {| options := o; list_read := list_read p; format_state := format_state p |}).

Definition flatfile_ops : kmi_ops flatfile key_format_ltfs_data (Z * kmi_flatfile_options_data) :=
  {| init := Some flatfile_init; destroy := Some flatfile_destroy; get_key_op := Some flatfile_get_key;
     help_message := Some (fun p => (0, p)); parse_opts := Some flatfile_parse_opts |}.

Definition simple_ops : kmi_ops simple key_format_ltfs_data (Z * kmi_simple_options_data) :=
  {| init := Some simple_init; destroy := Some simple_destroy; get_key_op := Some simple_get_key;
     help_message := Some (fun p => (0, p));
     parse_opts := Some (fun p parsed => let '(r, o) := simple_parse_opts parsed in
                                         (r, {| simple_options := o; simple_state := simple_state p |})) |}.
