(* ===== verification/KeyFormatSpec.v ===== *)
(** * What key management promises

    Which key lists are accepted and what they stand for; the keys of a flat file are
    found again through [kmi_get_key], call after call. *)

From S2P Require Import Prelude Errors Base64 KeyFormat.
Open Scope Z_scope.

(** ** Texts

    The reference: the texts of a key and of an alias, and the list of the pairs. *)

Definition digit_char (c : Z) : bool := isalnum c || (c =? 43) || (c =? 47).

Record key_text (k : cstring) : Prop := {
  key_text_length : length k = key_length;
  key_text_digits : forallb digit_char (take key_digits k) = true;
  key_text_padding : drop key_digits k = [61]
}.

Record alias_text (a : cstring) : Prop := {
  alias_text_length : length a = keyalias_length;
  alias_text_ascii : forallb isprint (take DKI_ASCII_LENGTH a) = true;
  alias_text_hex : forallb isxdigit (drop DKI_ASCII_LENGTH a) = true
}.

Definition pair_text (p : cstring * cstring) : cstring := p.1 ++ [58] ++ p.2.
Definition pair_ok (p : cstring * cstring) : Prop := key_text p.1 /\ alias_text p.2.

Fixpoint list_text (ps : list (cstring * cstring)) : cstring :=
  match ps with
  | [] => []
  | [p] => pair_text p
  | p :: ps => pair_text p ++ [47] ++ list_text ps
  end.

(** The bytes of an alias: three characters and nine numbers *)
Fixpoint hex_pairs (s : cstring) : list Z :=
  match s with c0 :: c1 :: s => hex_value c0 * 16 + hex_value c1 :: hex_pairs s | _ => [] end.

Definition alias_bytes (a : cstring) : list Z := take DKI_ASCII_LENGTH a ++ hex_pairs (drop DKI_ASCII_LENGTH a).
Definition key_bytes (k : cstring) : list Z := bytes_of (map dec_char k).
Definition key_of (p : cstring * cstring) : key := {| dk := key_bytes p.1; dki := alias_bytes p.2 |}.

(** ** The checks *)

Lemma forallb_at (f : Z -> bool) (s : cstring) n m :
  (n + m <= length s)%nat -> forallb (fun i => f (char_at s i)) (seq n m) = forallb f (take m (drop n s)).
Proof.
  revert n. induction m as [|m IH]; intros n Hn; [done|]. cbn [seq forallb].
  rewrite (drop_S s (char_at s n) n).
  - cbn [take forallb]. rewrite IH by lia. done.
  - unfold char_at. rewrite nth_lookup. destruct (lookup_lt_is_Some_2 s n ltac:(lia)) as [x ->]. done.
Qed.

Lemma is_key_spec s :
  (key_length <= length s)%nat -> (is_key s = 0 /\ key_text (take key_length s)) \/ (is_key s = - LTFS_BAD_ARG /\ ~ key_text (take key_length s)).
Proof.
  intros Hl. unfold is_key. change key_length with 44%nat in *. change key_digits with 43%nat in *.
  change (forallb _ (seq 0 43)) with (forallb (fun i => digit_char (char_at s i)) (seq 0 43)).
  rewrite (forallb_at digit_char s 0 43) by lia. rewrite (forallb_at (fun c => c =? 61) s 43 (44 - 43)) by lia.
  rewrite drop_0. change (44 - 43)%nat with 1%nat.
  assert (E1 : take 43 (take 44 s) = take 43 s) by (rewrite take_take; done).
  assert (E2 : drop 43 (take 44 s) = take 1 (drop 43 s)) by (rewrite skipn_firstn_comm; done).
  destruct (drop 43 s) as [|c t] eqn:Ed; [apply (f_equal length) in Ed; rewrite length_drop in Ed; cbn in Ed; lia|].
  cbn [take forallb]. cbn [take] in E2. rewrite andb_true_r.
  destruct (forallb digit_char (take 43 s)) eqn:Ef; cbn [negb].
  - destruct (Z.eqb_spec c 61) as [->|Hc]; cbn [negb].
    + left. split; [done|]. split; [rewrite length_take; change key_length with 44%nat; lia|change key_digits with 43%nat; by rewrite E1|done].
    + right. split; [done|]. intros [_ _ H]. change key_digits with 43%nat in H. rewrite E2 in H. congruence.
  - right. split; [done|]. intros [_ H _]. change key_digits with 43%nat in H. rewrite E1 in H. congruence.
Qed.

Lemma is_keyalias_spec s :
  (keyalias_length <= length s)%nat ->
  (is_keyalias s = 0 /\ alias_text (take keyalias_length s)) \/ (is_keyalias s = - LTFS_BAD_ARG /\ ~ alias_text (take keyalias_length s)).
Proof.
  intros Hl. unfold is_keyalias. change keyalias_length with 21%nat in *. change DKI_ASCII_LENGTH with 3%nat in *.
  rewrite (forallb_at isprint s 0 3), (forallb_at isxdigit s 3 (21 - 3)) by lia. rewrite drop_0.
  assert (E1 : take 3 (take 21 s) = take 3 s) by (rewrite take_take; done).
  assert (E2 : drop 3 (take 21 s) = take (21 - 3) (drop 3 s)) by (rewrite skipn_firstn_comm; done).
  destruct (forallb isprint (take 3 s)) eqn:Ef; cbn [negb].
  - destruct (forallb isxdigit (take (21 - 3) (drop 3 s))) eqn:Eg; cbn [negb].
    + left. split; [done|]. split; [rewrite length_take; change keyalias_length with 21%nat; lia|change DKI_ASCII_LENGTH with 3%nat; by rewrite E1|change DKI_ASCII_LENGTH with 3%nat; by rewrite E2].
    + right. split; [done|]. intros [_ _ H]. change DKI_ASCII_LENGTH with 3%nat in H. rewrite E2 in H. congruence.
  - right. split; [done|]. intros [_ H _]. change DKI_ASCII_LENGTH with 3%nat in H. rewrite E1 in H. congruence.
Qed.

Lemma length_pair_text p : pair_ok p -> length (pair_text p) = 66%nat.
Proof. intros [[Hk _ _] [Ha _ _]]. unfold pair_text. rewrite !length_app, Hk, Ha. done. Qed.

Lemma list_text_cons p ps : list_text (p :: ps) = pair_text p ++ match ps with [] => [] | _ => [47] ++ list_text ps end.
Proof. destruct ps; [by rewrite app_nil_r|done]. Qed.

Lemma length_list_text p ps : Forall pair_ok (p :: ps) -> (66 <= length (list_text (p :: ps)))%nat.
Proof. intros H. apply List.Forall_cons_iff in H as [Hp _]. rewrite list_text_cons, length_app, length_pair_text by done. lia. Qed.

(** ** Counting the pairs *)

(** One pair at the front of what is left is accepted exactly if it is one. *)
Lemma pair_at s i :
  (i + 66 <= length s)%nat ->
  let accepted := negb (is_key (drop i s) <? 0) && (char_at s (i + key_length) =? 58)
                  && negb (is_keyalias (drop (i + key_length + SEPARATOR_LENGTH) s) <? 0) in
  (accepted = true /\ exists p, pair_ok p /\ drop i s = pair_text p ++ drop (i + 66) s)
  \/ (accepted = false /\ forall p rest, pair_ok p -> drop i s <> pair_text p ++ rest).
Proof.
  intros Hi. cbv zeta. change key_length with 44%nat. change (i + 44 + SEPARATOR_LENGTH)%nat with (i + 44 + 1)%nat.
  assert (Hsplit : drop i s = take 44 (drop i s) ++ char_at s (i + 44) :: take 21 (drop (i + 44 + 1) s) ++ drop (i + 66) s).
  { rewrite <- (firstn_skipn 44 (drop i s)) at 1. f_equal. rewrite drop_drop.
    rewrite (drop_S s (char_at s (i + 44)) (i + 44)).
    - f_equal. replace (S (i + 44)) with (i + 44 + 1)%nat by lia.
      rewrite <- (firstn_skipn 21 (drop (i + 44 + 1) s)) at 1. rewrite drop_drop.
      by replace (i + 44 + 1 + 21)%nat with (i + 66)%nat by lia.
    - unfold char_at. rewrite nth_lookup. by destruct (lookup_lt_is_Some_2 s (i + 44) ltac:(lia)) as [x ->]. }
  assert (Hfront : forall p rest, pair_ok p -> drop i s = pair_text p ++ rest ->
            p.1 = take 44 (drop i s) /\ char_at s (i + 44) = 58 /\ p.2 = take 21 (drop (i + 44 + 1) s)).
  { intros p rest [[Hk _ _] [Ha _ _]] E. rewrite E in Hsplit. unfold pair_text in *. rewrite <- app_assoc in Hsplit.
    rewrite E, <- app_assoc. rewrite take_app_length' in Hsplit |- * by done. apply app_inv_head in Hsplit.
    cbn [app] in Hsplit. injection Hsplit as <- Hsplit. split; [done|]. split; [done|].
    apply (app_inj_1 _ _ _ _) in Hsplit as [-> _]; [done|]. rewrite Ha, length_take, length_drop. change keyalias_length with 21%nat. lia. }
  destruct (is_key_spec (drop i s)) as [[-> Hk]|[-> Hk]]; [rewrite length_drop; change key_length with 44%nat; lia|..].
  2: { right. split; [done|]. intros p rest Hp E. destruct (Hfront p rest Hp E) as (E1 & _). apply Hk.
       change key_length with 44%nat. rewrite <- E1. apply Hp. }
  destruct (Z.eqb_spec (char_at s (i + 44)) 58) as [Ec|Ec].
  2: { right. split; [by rewrite andb_false_r|]. intros p rest Hp E. by destruct (Hfront p rest Hp E) as (_ & E1 & _). }
  destruct (is_keyalias_spec (drop (i + 44 + 1) s)) as [[-> Ha]|[-> Ha]]; [rewrite length_drop; change keyalias_length with 21%nat; lia|..].
  - left. split; [done|]. exists (take 44 (drop i s), take 21 (drop (i + 44 + 1) s)). split; [by split|].
    rewrite Hsplit at 1. rewrite Ec. unfold pair_text. cbn [fst snd]. by rewrite <- app_assoc.
  - right. split; [done|]. intros p rest Hp E. destruct (Hfront p rest Hp E) as (_ & _ & E1). apply Ha.
    change keyalias_length with 21%nat. rewrite <- E1. apply Hp.
Qed.

(** One round of the loop *)
Lemma count_keys_step fuel s i num :
  count_keys (S fuel) s i num
  = let i := if negb (num =? 0) then (i + 1)%nat else i in
    if negb (is_key (drop i s) <? 0) && (char_at s (i + key_length) =? 58)
       && negb (is_keyalias (drop (i + key_length + SEPARATOR_LENGTH) s) <? 0)
    then if (i + 66 + 67 <=? length s)%nat && (char_at s (i + 66) =? 47)
         then count_keys fuel s (i + 66) (num + 1) else inr (num + 1, (i + 66)%nat)
    else inl (- LTFS_BAD_ARG).
Proof.
  cbn [count_keys]. cbv zeta. set (i' := if negb (num =? 0) then (i + SEPARATOR_LENGTH)%nat else i).
  change (if negb (num =? 0) then (i + 1)%nat else i) with i'.
  destruct (is_key (drop i' s) <? 0); [done|]. destruct (char_at s (i' + key_length) =? 58); [|done].
  destruct (is_keyalias _ <? 0); [done|]. cbn [negb andb].
  replace (i' + key_length + SEPARATOR_LENGTH + keyalias_length)%nat with (i' + 66)%nat
    by (change key_length with 44%nat; change SEPARATOR_LENGTH with 1%nat; change keyalias_length with 21%nat; lia).
  replace (i' + 66 + SEPARATOR_LENGTH + key_length + SEPARATOR_LENGTH + keyalias_length)%nat with (i' + 66 + 67)%nat
    by (change key_length with 44%nat; change SEPARATOR_LENGTH with 1%nat; change keyalias_length with 21%nat; lia).
  done.
Qed.

Lemma char_at_drop s i c rest : drop i s = c :: rest -> char_at s i = c /\ drop (i + 1) s = rest.
Proof.
  intros E. split.
  - unfold char_at. rewrite nth_lookup. replace i with (i + 0)%nat by lia. rewrite <- lookup_drop, E. done.
  - by rewrite <- drop_drop, E.
Qed.

(** A list is counted to its end. *)
Lemma count_list fuel s i num ps :
  let start := if negb (num =? 0) then (i + 1)%nat else i in
  0 <= num -> ps <> [] -> Forall pair_ok ps -> drop start s = list_text ps -> (length s - start <= fuel)%nat ->
  count_keys fuel s i num = inr (num + Z.of_nat (length ps), length s).
Proof.
  revert i num ps. induction fuel as [|fuel IH]; intros i num ps start Hn Hne Hok E Hf.
  { exfalso. destruct ps as [|p ps]; [done|]. pose proof (length_list_text p ps Hok). rewrite <- E, length_drop in H. lia. }
  rewrite count_keys_step. cbv zeta. fold start. destruct ps as [|p ps]; [done|].
  pose proof (length_list_text p ps Hok) as Hl. rewrite <- E, length_drop in Hl.
  apply List.Forall_cons_iff in Hok as [Hp Hok]. rewrite list_text_cons in E.
  destruct (pair_at s start ltac:(lia)) as [[-> (q & Hq & Eq)]|[_ Hno]].
  2: { exfalso. by apply (Hno p (match ps with [] => [] | _ => [47] ++ list_text ps end)). }
  assert (Hrest : drop (start + 66) s = match ps with [] => [] | _ => [47] ++ list_text ps end).
  { rewrite Eq in E. apply (app_inj_1 _ _ _ _) in E as [_ E]; [done|]. by rewrite !length_pair_text. }
  destruct ps as [|p' ps].
  - apply (f_equal length) in Hrest. rewrite length_drop in Hrest. cbn in Hrest.
    rewrite (proj2 (Nat.leb_gt _ _)) by lia. cbn [andb length]. f_equal. f_equal; lia.
  - pose proof (length_list_text p' ps Hok) as Hl'. cbn [app] in Hrest. apply char_at_drop in Hrest as [Hc Hrest].
    assert (Hlen : (67 <= length s - (start + 66))%nat).
    { apply (f_equal length) in Hrest. rewrite length_drop in Hrest. lia. }
    rewrite Hc, Z.eqb_refl, (proj2 (Nat.leb_le _ _)) by lia. cbn [andb].
    rewrite (IH (start + 66)%nat (num + 1) (p' :: ps)).
    + f_equal. f_equal. cbn [length]. lia.
    + lia.
    + done.
    + done.
    + by rewrite (proj2 (Z.eqb_neq (num + 1) 0)) by lia.
    + rewrite (proj2 (Z.eqb_neq (num + 1) 0)) by lia. cbn [negb]. lia.
Qed.

(** What is counted to the end is a list. *)
Lemma counted_is_list fuel s i num :
  let start := if negb (num =? 0) then (i + 1)%nat else i in
  0 <= num -> (start + 66 <= length s)%nat -> (length s - start <= fuel)%nat ->
  count_keys fuel s i num = inl (- LTFS_BAD_ARG)
  \/ exists m j, count_keys fuel s i num = inr (m, j)
     /\ (j = length s -> exists ps, ps <> [] /\ Forall pair_ok ps /\ drop start s = list_text ps).
Proof.
  revert i num. induction fuel as [|fuel IH]; intros i num start Hn Hs Hf; [lia|].
  rewrite count_keys_step. cbv zeta. fold start.
  destruct (pair_at s start Hs) as [[-> (q & Hq & Eq)]|[-> _]]; [|by left].
  destruct (Nat.leb_spec (start + 66 + 67) (length s)) as [Hmore|_]; cbn [andb].
  - destruct (Z.eqb_spec (char_at s (start + 66)) 47) as [Hc|_].
    + specialize (IH (start + 66)%nat (num + 1)). rewrite (proj2 (Z.eqb_neq (num + 1) 0)) in IH by lia. cbn [negb] in IH.
      destruct (IH ltac:(lia) ltac:(lia) ltac:(lia)) as [->|(m & j & -> & Hj)]; [by left|]. right. exists m, j.
      split; [done|]. intros Ej. destruct (Hj Ej) as (ps & Hne & Hok & E). exists (q :: ps).
      split; [done|]. split; [by apply List.Forall_cons|]. rewrite Eq, list_text_cons. f_equal.
      rewrite (drop_S s (char_at s (start + 66)) (start + 66)).
      * rewrite Hc. replace (S (start + 66)) with (start + 66 + 1)%nat by lia. rewrite E. by destruct ps.
      * unfold char_at. rewrite nth_lookup. by destruct (lookup_lt_is_Some_2 s (start + 66) ltac:(lia)) as [x ->].
    + right. eexists _, _. split; [done|]. lia.
  - right. eexists _, _. split; [done|]. intros Ej. exists [q]. split; [done|]. split; [by apply List.Forall_cons|].
    by rewrite Eq, Ej, drop_all, app_nil_r.
Qed.

Lemma counted_list ps : ps <> [] -> Forall pair_ok ps -> get_num_of_keys (list_text ps) = Z.of_nat (length ps).
Proof.
  intros Hne Hok. unfold get_num_of_keys. change (key_length + SEPARATOR_LENGTH + keyalias_length)%nat with 66%nat.
  destruct ps as [|p ps]; [done|]. rewrite (proj2 (Nat.leb_le _ _)) by (by apply length_list_text).
  rewrite (count_list _ _ 0 0 (p :: ps)); [|lia|done..|cbn [negb Z.eqb]; lia]. by rewrite Nat.eqb_refl.
Qed.

(** Every text is one of the three. *)
Lemma counted s :
  ((length s < 66)%nat /\ get_num_of_keys s = 0)
  \/ (exists ps, ps <> [] /\ Forall pair_ok ps /\ s = list_text ps /\ get_num_of_keys s = Z.of_nat (length ps))
  \/ ((66 <= length s)%nat /\ get_num_of_keys s = - LTFS_BAD_ARG /\ ~ exists ps, Forall pair_ok ps /\ s = list_text ps).
Proof.
  destruct (decide (length s < 66)%nat) as [Hl|Hl].
  { left. split; [done|]. unfold get_num_of_keys. by rewrite (proj2 (Nat.leb_gt _ _)) by (change 66%nat with (key_length + SEPARATOR_LENGTH + keyalias_length)%nat in Hl; done). }
  right. assert (Hsize : get_num_of_keys s = match count_keys (length s) s 0 0 with
     | inl err => err | inr (n, i) => if negb (i =? length s)%nat then - LTFS_BAD_ARG else n end).
  { unfold get_num_of_keys. by rewrite (proj2 (Nat.leb_le _ _)) by (change (key_length + SEPARATOR_LENGTH + keyalias_length)%nat with 66%nat; lia). }
  assert (Hbad : get_num_of_keys s = - LTFS_BAD_ARG -> ~ exists ps, Forall pair_ok ps /\ s = list_text ps).
  { intros E ([|p ps] & Hok & ->); [cbn in Hl; lia|]. rewrite counted_list in E by done.
    change (- LTFS_BAD_ARG) with (-1022) in E. lia. }
  destruct (counted_is_list (length s) s 0 0 ltac:(lia) ltac:(cbn [negb Z.eqb]; lia) ltac:(lia)) as [E|(m & j & E & Hj)]; rewrite E in Hsize.
  - right. split; [lia|]. split; [done|]. by apply Hbad.
  - destruct (Nat.eqb_spec j (length s)) as [Ej|Hj']; cbn [negb] in Hsize.
    + left. destruct (Hj Ej) as (ps & Hne & Hok & Es). cbn in Es. rewrite drop_0 in Es. exists ps. split; [done|]. split; [done|].
      split; [done|]. rewrite Es. by apply counted_list.
    + right. split; [lia|]. split; [done|]. by apply Hbad.
Qed.

(** ** What the texts stand for *)

Lemma digit_char_code c : digit_char c = true -> is_blank c = false /\ is_code c = true.
Proof.
  intros Hc.
  assert (H : forallb (fun k => implb (digit_char (Z.of_nat k)) (negb (is_blank (Z.of_nat k)) && is_code (Z.of_nat k))) (seq 0 123) = true)
    by (vm_compute; reflexivity).
  assert (Hr : 0 <= c < 123) by (unfold digit_char, isalnum, isdigit in Hc; bool_to_prop; repeat (destruct Hc as [Hc|Hc]; bool_to_prop); lia).
  rewrite forallb_forall in H. specialize (H (Z.to_nat c) ltac:(apply in_seq; lia)). rewrite Z2Nat.id, Hc in H by lia.
  cbn [implb] in H. bool_to_prop. done.
Qed.

Lemma strip_digits s : Forall (fun c => digit_char c = true) s -> strip s = s.
Proof.
  unfold strip. induction 1 as [|c s Hc Hs IH]; [done|].
  by rewrite filter_cons, decide_True, IH by apply (digit_char_code c Hc).
Qed.

Lemma key_bytes_decoded before k :
  key_text k -> length (key_bytes k) = DK_LENGTH /\ exists dec, base64_decode before k = (Z.of_nat DK_LENGTH, Some dec) /\ buffer_is dec (key_bytes k).
Proof.
  intros [Hl Hd Hp]. change key_length with 44%nat in Hl. change key_digits with 43%nat in *. set (body := take 43 k) in *.
  assert (Ek : k = body ++ replicate 1 61) by (rewrite <- (firstn_skipn 43 k), Hp; done).
  assert (Hlb : length body = 43%nat) by (unfold body; rewrite length_take; lia).
  rewrite forallb_forall in Hd.
  assert (Hb : Forall (fun c => is_code c = true) body) by (apply List.Forall_forall; intros c Hc; by apply digit_char_code, Hd).
  assert (Hstrip : strip body = body).
  { apply strip_digits, List.Forall_forall. exact Hd. }
  assert (Hwf : well_formed body 1) by (split; [done|lia|by rewrite Hstrip, Hlb]).
  assert (Hstripk : strip k = k) by (rewrite Ek at 1; rewrite strip_padding, Hstrip; done).
  destruct (decode_ok before body 1 Hwf ltac:(lia)) as (dec & E & Hdec). rewrite <- Ek, Hstripk in E, Hdec.
  assert (Hlen : length (key_bytes k) = DK_LENGTH).
  { assert (Hq : quads (map dec_char k) 1).
    { rewrite Ek, map_app, dec_padding. apply (quads_values _ 1); [rewrite <- Hstrip; by apply codes_values|lia|by rewrite length_map, Hlb]. }
    apply length_bytes_of in Hq. rewrite length_map, Hl in Hq. change (3 * (Z.of_nat 44 / 4) - 1) with 32 in Hq.
    unfold key_bytes, DK_LENGTH. lia. }
  split; [done|]. exists dec. fold (key_bytes k) in E, Hdec. by rewrite Hlen in E.
Qed.

Lemma buffer_list dec bs n : buffer_is dec bs -> length bs = n -> map (fun i => default 0 (dec !! Z.of_nat i)) (seq 0 n) = bs.
Proof.
  intros Hd Hl. apply list_eq. intros i. destruct (decide (i < n)%nat) as [Hi|Hi].
  - change (map ?f ?l) with (f <$> l). rewrite list_lookup_fmap, lookup_seq_lt by done. cbn. rewrite Hd, (proj2 (Z.leb_le _ _)), Nat2Z.id by lia.
    by destruct (lookup_lt_is_Some_2 bs i ltac:(lia)) as [x ->].
  - change (map ?f ?l) with (f <$> l). rewrite lookup_ge_None_2 by (rewrite length_fmap, length_seq; lia). by rewrite lookup_ge_None_2 by lia.
Qed.

Lemma key_converted before k rest : key_text k -> convert_key before (k ++ rest) = key_bytes k.
Proof.
  intros Hk. destruct (key_bytes_decoded before k Hk) as (Hl & dec & E & Hd). unfold convert_key.
  rewrite take_app_length' by (by rewrite (key_text_length _ Hk)). rewrite E, Z.eqb_refl. by apply buffer_list.
Qed.

Lemma hex_byte c0 c1 :
  isxdigit c0 = true -> isxdigit c1 = true -> u8 (strtoul16 (tmp_string c0 c1)) = hex_value c0 * 16 + hex_value c1.
Proof.
  intros H0 H1.
  assert (H : forallb (fun i => forallb (fun j => let c0 := Z.of_nat i in let c1 := Z.of_nat j in
     implb (isxdigit c0 && isxdigit c1) (u8 (strtoul16 (tmp_string c0 c1)) =? hex_value c0 * 16 + hex_value c1)) (seq 0 103)) (seq 0 103) = true)
    by (vm_compute; reflexivity).
  assert (Hr : forall c, isxdigit c = true -> 0 <= c < 103).
  { intros c Hc. unfold isxdigit, isdigit in Hc. bool_to_prop. repeat (destruct Hc as [Hc|Hc]; bool_to_prop); lia. }
  pose proof (Hr c0 H0). pose proof (Hr c1 H1).
  rewrite forallb_forall in H. specialize (H (Z.to_nat c0) ltac:(apply in_seq; lia)).
  rewrite forallb_forall in H. specialize (H (Z.to_nat c1) ltac:(apply in_seq; lia)).
  cbv zeta in H. rewrite !Z2Nat.id, H0, H1 in H by lia. cbn [andb implb] in H. by bool_to_prop.
Qed.

Lemma hex_bytes_at n s k base :
  (k + n * 2 + base * 2 <= length s)%nat -> forallb isxdigit (take (n * 2) (drop (k + base * 2) s)) = true ->
  map (fun i => u8 (strtoul16 (tmp_string (char_at s (k + i * 2)) (char_at s (k + i * 2 + 1))))) (seq base n)
  = hex_pairs (take (n * 2) (drop (k + base * 2) s)).
Proof.
  revert base. induction n as [|n IH]; intros base Hl Hx; [done|]. cbn [seq map].
  assert (Hat : forall i, (i < length s)%nat -> drop i s = char_at s i :: drop (S i) s).
  { intros i Hi. apply drop_S. unfold char_at. rewrite nth_lookup. by destruct (lookup_lt_is_Some_2 s i Hi) as [x ->]. }
  rewrite (Hat (k + base * 2)%nat), (Hat (S (k + base * 2))) in Hx |- * by lia.
  replace (S n * 2)%nat with (S (S (n * 2))) in * by lia. cbn [take forallb hex_pairs] in *. bool_to_prop.
  replace (k + base * 2 + 1)%nat with (S (k + base * 2)) by lia. rewrite hex_byte by done. f_equal.
  replace (S (S (k + base * 2))) with (k + S base * 2)%nat in * by lia. apply IH; [lia|done].
Qed.

Lemma alias_converted a rest : alias_text a -> convert_keyalias (a ++ rest) = Some (alias_bytes a).
Proof.
  intros [Hl _ Hx]. change keyalias_length with 21%nat in Hl. unfold convert_keyalias, alias_bytes.
  rewrite (proj2 (Nat.leb_le _ _)) by (rewrite length_app; change keyalias_length with 21%nat; lia).
  assert (Ed : take (9 * 2) (drop (3 + 0 * 2) (a ++ rest)) = drop 3 a).
  { rewrite drop_app_le by lia. apply take_app_length'. rewrite length_drop. lia. }
  f_equal. f_equal; [rewrite take_app_le by (rewrite Hl; unfold DKI_ASCII_LENGTH; lia); done|].
  change DKI_ASCII_LENGTH with 3%nat in *. change (DKI_LENGTH - 3)%nat with 9%nat.
  rewrite (hex_bytes_at 9 (a ++ rest) 3 0); rewrite ?Ed; [done|rewrite length_app; lia|done].
Qed.

Lemma pairs_converted s off ps :
  Forall pair_ok ps -> drop off s = list_text ps -> convert_pairs (length ps) s off = Some (map key_of ps).
Proof.
  revert off. induction ps as [|p ps IH]; intros off Hok E; [done|].
  apply List.Forall_cons_iff in Hok as [[Hk Ha] Hok]. rewrite list_text_cons in E. unfold pair_text in E. rewrite <- !app_assoc in E.
  cbn [convert_pairs length map]. rewrite E, key_converted by done. change (key_length + 1)%nat with 45%nat.
  assert (E2 : drop (off + 45) s = p.2 ++ match ps with [] => [] | _ => [47] ++ list_text ps end).
  { rewrite <- drop_drop, E, app_assoc, drop_app_length'; [done|]. rewrite length_app, (key_text_length _ Hk). done. }
  rewrite E2, alias_converted by done. change (keyalias_length + 1)%nat with 22%nat.
  rewrite IH; [done|done|]. rewrite <- drop_drop, E2. pose proof (alias_text_length _ Ha) as Hla. change keyalias_length with 21%nat in Hla.
  destruct ps as [|p' ps]; [rewrite app_nil_r; apply drop_ge; lia|].
  rewrite app_assoc, drop_app_length'; [done|]. rewrite length_app, Hla. done.
Qed.

(** ** One request *)

(** The alias a request stands for: the one of the cartridge, or the one to format with,
    or none, which is how a cartridge without encryption is read *)
Inductive asks : option (list Z) -> option cstring -> option (list Z) -> Prop :=
  | asks_given a dki_for_format : length a = DKI_LENGTH -> asks (Some a) dki_for_format (Some a)
  | asks_default t rest : alias_text t -> asks None (Some (t ++ rest)) (Some (alias_bytes t))
  | asks_nothing : asks None None None.

(** The first key with the alias *)
Definition first_key (a : list Z) (ks : list key) : option (list Z) :=
  match List.find (fun k => bool_decide (a = dki k)) ks with Some k => Some (dk k) | None => None end.

Definition found_status (k : option (list Z)) : Z := match k with Some _ => 0 | None => - LTFS_KEY_NOT_FOUND end.

(** Status and key of a request; without an alias it succeeds and there is no key. *)
Definition answer (ks : list key) (a : option (list Z)) : Z * option (list Z) :=
  match a with Some a => (found_status (first_key a ks), first_key a ks) | None => (0, None) end.

Definition no_keys : key_format_ltfs := {| num_of_keys := 0; dk_list := None |}.

Lemma length_alias_bytes a : alias_text a -> length (alias_bytes a) = DKI_LENGTH.
Proof.
  intros Ha. pose proof (alias_converted a [] Ha) as E. rewrite app_nil_r in E. unfold convert_keyalias in E.
  remember (alias_bytes a) as bytes. destruct (_ <=? _)%nat; [|done]. injection E as <-. rewrite length_app,
    length_take, (alias_text_length _ Ha).
  reflexivity.
Qed.

Lemma find_key_first a ks : length a = DKI_LENGTH -> find_key (length ks) a ks = Some (first_key a ks).
Proof.
  intros Ha. unfold first_key. induction ks as [|k ks IH]; [done|]. cbn [length find_key List.find].
  rewrite take_ge by lia. by case_bool_decide.
Qed.

Lemma get_key_found keyalias dki_for_format a ks d :
  asks keyalias dki_for_format a -> num_of_keys d = Z.of_nat (length ks) -> default [] (dk_list d) = ks ->
  get_key keyalias (Some d) dki_for_format = Some ((answer ks a).1, a, (answer ks a).2).
Proof.
  intros Ha Hn Hk. unfold get_key. rewrite Hn, Hk, Nat2Z.id. destruct Ha as [a dfmt Ha|t rest Ht|]; [..|done].
  - rewrite find_key_first by done. cbn [answer fst snd]. by destruct (first_key a ks).
  - change (default [] (Some (t ++ rest))) with (t ++ rest).
    rewrite alias_converted, find_key_first by (done || by apply length_alias_bytes). cbn [answer fst snd]. by destruct (first_key _ ks).
Qed.

(** What a request with a list of keys does *)
Definition answered (v : Z) (a : option (list Z)) (ks : list key) : key_result :=
  {| ret := (answer ks a).1; alias_out := a; key_out := (answer ks a).2;
     handle_out := Some {| vol := v; data := Some no_keys |}; state_out := KFL_CLEARED |}.

Lemma list_set st ps :
  st = KFL_INITIALIZED \/ st = KFL_CLEARED -> Forall pair_ok ps ->
  exists d, set_dk_list (Some (list_text ps)) (Some no_keys) st = Some (0, Some d, KFL_SET)
    /\ num_of_keys d = Z.of_nat (length (map key_of ps)) /\ default [] (dk_list d) = map key_of ps.
Proof.
  intros Hst Hok. unfold set_dk_list.
  replace (negb (bool_decide (st = KFL_INITIALIZED)) && negb (bool_decide (st = KFL_CLEARED))) with false by (by destruct Hst as [-> | ->]).
  change (default [] (Some (list_text ps))) with (list_text ps).
  destruct ps as [|p ps]; [by exists no_keys|]. cbv zeta. rewrite counted_list by done.
  rewrite (proj2 (Z.ltb_ge _ _)), (proj2 (Z.eqb_neq _ _)) by (cbn [length]; lia). cbn [negb].
  rewrite Nat2Z.id, (pairs_converted _ 0 (p :: ps)) by done. eexists. split; [done|]. cbn [num_of_keys dk_list]. by rewrite length_map.
Qed.

Lemma list_answered keyalias out v dki_for_format a st ps :
  st = KFL_INITIALIZED \/ st = KFL_CLEARED -> asks keyalias dki_for_format a -> Forall pair_ok ps ->
  key_format_ltfs_get_key keyalias out (Some {| vol := v; data := Some no_keys |}) (Some (list_text ps)) dki_for_format st
  = Some (answered v a (map key_of ps)).
Proof.
  intros Hst Ha Hok. unfold key_format_ltfs_get_key. cbn [data].
  destruct (list_set st ps Hst Hok) as (d & -> & Hn & Hd). cbn [Z.ltb Z.compare].
  rewrite (get_key_found keyalias dki_for_format a _ d Ha Hn Hd).
  cbn [clear vol]. unfold answered, answer. destruct a as [a|]; [|done]. cbn [fst snd]. by destruct (first_key a _).
Qed.

(** Which key lists are accepted, and the key that is found.  A text is a list of
    pairs - a key of 43 digits and a padding, a colon, three printable characters and 18
    hexadecimal digits - with slashes between, and then the first key with the alias
    asked for is returned, the list wiped and the state cleared; a text shorter than a
    pair counts as a list without keys; anything else is refused and changes nothing, as
    is a call while the list is in use or after the handle is destroyed. *)
Theorem key_format_get_key_spec keyalias out v text dki_for_format a st :
  asks keyalias dki_for_format a ->
  let result := key_format_ltfs_get_key keyalias out (Some {| vol := v; data := Some no_keys |}) (Some text) dki_for_format st in
  let refused err := result = Some {| ret := err; alias_out := keyalias; key_out := out;
                       handle_out := Some {| vol := v; data := Some no_keys |}; state_out := st |} in
  (st <> KFL_INITIALIZED /\ st <> KFL_CLEARED /\ refused (- LTFS_INVALID_SEQUENCE))
  \/ ((st = KFL_INITIALIZED \/ st = KFL_CLEARED)
      /\ ((exists ps, Forall pair_ok ps /\ (text = list_text ps \/ (length text < 66)%nat /\ ps = [])
             /\ result = Some (answered v a (map key_of ps)))
          \/ ((66 <= length text)%nat /\ ~ (exists ps, Forall pair_ok ps /\ text = list_text ps) /\ refused (- LTFS_BAD_ARG)))).
Proof.
  intros Ha result refused.
  destruct (decide (st = KFL_INITIALIZED \/ st = KFL_CLEARED)) as [Hst|Hst].
  2: { left. split; [intros ->; tauto|]. split; [intros ->; tauto|]. unfold refused, result, key_format_ltfs_get_key, set_dk_list. cbn [data].
       by rewrite !bool_decide_eq_false_2 by (intros ->; tauto). }
  right. split; [done|]. destruct (counted text) as [(Hl & E)|[(ps & Hne & Hok & -> & _)|(Hl & E & Hno)]].
  - left. exists []. split; [by apply List.Forall_nil|]. split; [by right|].
    rewrite <- (list_answered keyalias out v dki_for_format a st []) by (done || by apply List.Forall_nil).
    unfold result, key_format_ltfs_get_key, set_dk_list. cbn [data default]. rewrite E. done.
  - left. exists ps. split; [done|]. split; [by left|]. by apply list_answered.
  - right. split; [done|]. split; [done|]. unfold refused, result, key_format_ltfs_get_key, set_dk_list. cbn [data default].
    replace (negb (bool_decide (st = KFL_INITIALIZED)) && negb (bool_decide (st = KFL_CLEARED))) with false by (by destruct Hst as [-> | ->]).
    rewrite E. done.
Qed.

(** ** A file of keys

    The reference: a line for the key, a line for its alias, blank lines anywhere. *)

Inductive key_file : list (cstring * cstring) -> list Z -> Prop :=
  | file_end : key_file [] []
  | file_blank ps t : key_file ps t -> key_file ps (10 :: t)
  | file_pair p ps n t :
      key_file ps t ->
      key_file (p :: ps) ((cstr "DK=" ++ p.1) ++ 10 :: replicate n 10 ++ (cstr "DKi=" ++ p.2) ++ 10 :: t).

Definition plain_char (c : Z) : Prop := c <> 0 /\ c <> 10.

Lemma fgets_line size l t : Forall plain_char l -> (length l + 1 < size)%nat -> fgets size (l ++ 10 :: t) = (l ++ [10], t).
Proof.
  intros Hl. revert size. induction Hl as [|c l [_ Hc] Hl IH]; intros size Hs; cbn [length] in Hs.
  - destruct size as [|[|size]]; [lia..|done].
  - destruct size as [|[|size]]; [lia..|]. cbn [app fgets]. rewrite (proj2 (Z.eqb_neq _ _)) by done.
    rewrite IH by lia. done.
Qed.

Lemma string_of_line l : Forall plain_char l -> string_in (l ++ [10]) = l ++ [10].
Proof.
  induction 1 as [|c l [Hc _] Hl IH]; [done|]. cbn [app string_in]. rewrite (proj2 (Z.eqb_neq _ _)) by done. by rewrite IH.
Qed.

Lemma chomp_line l : chomp (l ++ [10]) = l.
Proof.
  unfold chomp, char_at. rewrite length_app. cbn [length]. rewrite Nat.add_sub, app_nth2, Nat.sub_diag by lia. cbn [nth].
  rewrite Z.eqb_refl. apply removelast_last.
Qed.

Lemma pair_plain p : pair_ok p -> Forall plain_char p.1 /\ Forall plain_char p.2 /\ length p.1 = 44%nat /\ length p.2 = 21%nat.
Proof.
  intros [[Hl Hd Hp] [Ha Hs Hx]]. rewrite !forallb_forall in *.
  assert (H : forall c, digit_char c = true \/ isprint c = true \/ isxdigit c = true -> plain_char c).
  { intros c Hc. unfold plain_char, digit_char, isprint, isxdigit, isalnum, isdigit in *. split; intros ->; by destruct Hc as [Hc|[Hc|Hc]]. }
  split; [|split; [|done]]; apply List.Forall_forall; intros c Hc.
  - rewrite <- (firstn_skipn key_digits p.1), Hp in Hc. apply in_app_iff in Hc as [Hc|[<-|[]]]; [by apply H; left; apply Hd|by vm_compute].
  - rewrite <- (firstn_skipn DKI_ASCII_LENGTH p.2) in Hc. apply in_app_iff in Hc as [Hc|Hc]; apply H; right; [left; by apply Hs|right; by apply Hx].
Qed.

Lemma line_value name value num len txt :
  num mod 2 = 0 /\ name = cstr "DK=" \/ num mod 2 = 1 /\ name = cstr "DKi=" ->
  0 <= num -> num + 1 < 2 ^ 32 -> len = Z.of_nat (length txt) + 1 ->
  let sep := if num =? 0 then [] else [if num mod 2 =? 0 then 47 else 58] in
  let new := txt ++ sep ++ value in
  convert_line ((name ++ value) ++ [10]) {| num_of_lines := num; dk_list_length := len; text := txt |}
  = Some (inr {| num_of_lines := num + 1; dk_list_length := Z.of_nat (length new) + 1; text := new |}).
Proof.
  intros Hname Hnum Hmax -> sep new. unfold convert_line. cbn [num_of_lines dk_list_length text].
  assert (Ht : tag (num mod 2) = (name, if num mod 2 =? 0 then 47 else 58)) by (by destruct Hname as [[-> ->]|[-> ->]]).
  rewrite Ht. rewrite chomp_line, drop_app_length, <- app_assoc, take_app_length, bool_decide_true by done.
  rewrite u32_small by lia. unfold new, sep. rewrite !length_app. change (Z.of_nat SEPARATOR_LENGTH) with 1.
  destruct (num =? 0); cbn [negb length]; rewrite (proj2 (Z.ltb_ge _ _)) by lia; do 3 f_equal; lia.
Qed.

Lemma blank_line c : convert_line [10] c = Some (inr c).
Proof.
  unfold convert_line. pose proof (Z.mod_pos_bound (num_of_lines c) 2 ltac:(lia)).
  unfold tag. destruct (num_of_lines c mod 2 =? 0); cbn [length cstr]; rewrite bool_decide_false by (vm_compute; discriminate); done.
Qed.

(** What is read: nothing, lines, or the line break of a blank one *)
Lemma convert_next fuel l t c :
  Forall plain_char l -> (length l < 1000)%nat ->
  convert_lines (S fuel) (l ++ 10 :: t) c
  = match convert_line (l ++ [10]) c with
    | None => None | Some (inl ret) => Some (ret, text c) | Some (inr c) => convert_lines fuel t c end.
Proof.
  intros Hl Hs. cbn [convert_lines]. rewrite fgets_line by (done || lia). rewrite string_of_line by done. by destruct (l ++ [10]) eqn:E; [destruct l|].
Qed.

Lemma convert_blanks n fuel t c : (n < fuel)%nat -> convert_lines fuel (replicate n 10 ++ t) c = convert_lines (fuel - n) t c.
Proof.
  revert fuel. induction n as [|n IH]; intros fuel Hf; [by rewrite Nat.sub_0_r|]. destruct fuel as [|fuel]; [lia|].
  pose proof (convert_next fuel [] (replicate n 10 ++ t) c (List.Forall_nil _) ltac:(cbn; lia)) as E. cbn [app] in E.
  cbn [replicate app]. rewrite E, blank_line. apply IH. lia.
Qed.

(** The list a file of pairs is turned into *)
Lemma file_converted fuel ps t num txt :
  Forall pair_ok ps -> key_file ps t -> (length t < fuel)%nat ->
  num mod 2 = 0 -> 0 <= num -> num + Z.of_nat (length t) < 2 ^ 32 ->
  convert_lines fuel t {| num_of_lines := num; dk_list_length := Z.of_nat (length txt) + 1; text := txt |}
  = Some (0, txt ++ match ps with [] => [] | _ => (if num =? 0 then [] else [47]) ++ list_text ps end).
Proof.
  intros Hok Hf. revert fuel num txt Hok. induction Hf as [|ps t Hf IH|p ps n t Hf IH]; intros fuel num txt Hok Hl He Hn Hm.
  - destruct fuel as [|fuel]; [lia|]. cbn. by rewrite app_nil_r.
  - destruct fuel as [|fuel]; [lia|]. cbn [length] in Hl, Hm.
    pose proof (convert_next fuel [] t {| num_of_lines := num; dk_list_length := Z.of_nat (length txt) + 1; text := txt |}
                  (List.Forall_nil _) ltac:(cbn; lia)) as E. cbn [app] in E. rewrite E, blank_line. apply IH; done || lia.
  - apply List.Forall_cons_iff in Hok as [Hp Hok]. destruct (pair_plain p Hp) as (Hk & Ha & Lk & La).
    rewrite length_app in Hl, Hm. cbn [length] in Hl, Hm. rewrite !length_app in Hl, Hm. cbn [length] in Hl, Hm.
    rewrite length_replicate, Lk, La in Hl, Hm. change (length (cstr "DK=")) with 3%nat in *. change (length (cstr "DKi=")) with 4%nat in *.
    destruct fuel as [|fuel]; [lia|].
    rewrite convert_next; [|apply list.Forall_app; split; [by repeat constructor|done]|rewrite length_app, Lk; cbn; lia].
    rewrite (line_value (cstr "DK=") p.1 num) by (auto || lia). cbv zeta. rewrite He. cbn [Z.eqb].
    rewrite convert_blanks by lia. destruct (fuel - n)%nat as [|fuel'] eqn:Ef; [lia|].
    rewrite convert_next; [|apply list.Forall_app; split; [by repeat constructor|done]|rewrite length_app, La; cbn; lia].
    assert (Ho : (num + 1) mod 2 = 1) by (rewrite Zplus_mod, He; done).
    rewrite (line_value (cstr "DKi=") p.2 (num + 1)) by (auto || lia). cbv zeta. rewrite Ho, (proj2 (Z.eqb_neq (num + 1) 0)) by lia. cbn [Z.eqb].
    rewrite IH; [|done|lia|rewrite <- Z.add_assoc, Zplus_mod, He; done|lia|lia].
    rewrite (proj2 (Z.eqb_neq (num + 1 + 1) 0)) by lia. rewrite list_text_cons. unfold pair_text.
    rewrite <- !app_assoc. destruct (num =? 0), ps; cbn [app]; by rewrite ?app_nil_r, <- ?app_assoc.
Qed.

Lemma option_converted ps t :
  Forall pair_ok ps -> key_file ps t -> Z.of_nat (length t) < 2 ^ 31 -> convert_option (inr t) = Some (0, list_text ps).
Proof.
  intros Hok Hf Hl. unfold convert_option. pose proof (file_converted (S (length t)) ps t 0 [] Hok Hf ltac:(lia) eq_refl ltac:(lia) ltac:(lia)) as E.
  refine (eq_trans E _). by destruct ps.
Qed.

(** The list is shorter than the file, so that an [int] can count its bytes. *)
Lemma list_shorter ps t : Forall pair_ok ps -> key_file ps t -> (length (list_text ps) + length ps <= length t)%nat.
Proof.
  intros Hok Hf. induction Hf as [|ps t Hf IH|p ps n t Hf IH].
  - done.
  - specialize (IH Hok). cbn [length]. lia.
  - apply List.Forall_cons_iff in Hok as [Hp Hok]. specialize (IH Hok). destruct (pair_plain p Hp) as (_ & _ & Lk & La).
    assert (Hrest : (length (match ps with [] => [] | _ => [47%Z] ++ list_text ps end) <= 1 + length (list_text ps))%nat)
      by (destruct ps; [cbn; lia|by rewrite length_app]).
    rewrite list_text_cons, length_app, length_pair_text by done.
    rewrite !length_app, Lk. cbn [length]. rewrite !length_app, La. cbn [length].
    change (length (cstr "DK=")) with 3%nat. change (length (cstr "DKi=")) with 4%nat. lia.
Qed.

(** ** The texts of keys *)

Definition hex_char (n : Z) : Z := nth (Z.to_nat n) (cstr "0123456789abcdef") 0.

Fixpoint hex_text (bs : list Z) : cstring :=
  match bs with b :: bs => hex_char (b / 16) :: hex_char (b mod 16) :: hex_text bs | [] => [] end.

Definition print_key (k : key) : cstring * cstring :=
  (base64_encode (dk k), take DKI_ASCII_LENGTH (dki k) ++ hex_text (drop DKI_ASCII_LENGTH (dki k))).

Record key_ok (k : key) : Prop := {
  key_ok_dk : length (dk k) = DK_LENGTH;
  key_ok_dk_bytes : Forall is_byte (dk k);
  key_ok_dki : length (dki k) = DKI_LENGTH;
  key_ok_dki_ascii : forallb isprint (take DKI_ASCII_LENGTH (dki k)) = true;
  key_ok_dki_bytes : Forall is_byte (drop DKI_ASCII_LENGTH (dki k))
}.

Lemma hex_char_ok n : 0 <= n < 16 -> isxdigit (hex_char n) = true /\ hex_value (hex_char n) = n.
Proof.
  intros Hn. assert (H : forallb (fun k => isxdigit (hex_char (Z.of_nat k)) && (hex_value (hex_char (Z.of_nat k)) =? Z.of_nat k)) (seq 0 16) = true)
    by (vm_compute; reflexivity).
  rewrite forallb_forall in H. specialize (H (Z.to_nat n) ltac:(apply in_seq; lia)). rewrite Z2Nat.id in H by lia. by bool_to_prop.
Qed.

Lemma hex_text_ok bs :
  Forall is_byte bs -> length (hex_text bs) = (2 * length bs)%nat /\ forallb isxdigit (hex_text bs) = true /\ hex_pairs (hex_text bs) = bs.
Proof.
  induction 1 as [|b bs Hb Hbs (IH1 & IH2 & IH3)]; [done|]. unfold is_byte in Hb. cbn [hex_text length forallb hex_pairs].
  destruct (hex_char_ok (b / 16)) as [-> ->]; [Z.to_euclidean_division_equations; lia|].
  destruct (hex_char_ok (b mod 16)) as [-> ->]; [Z.to_euclidean_division_equations; lia|].
  rewrite IH2, IH3. split; [lia|]. split; [done|]. f_equal. Z.to_euclidean_division_equations; lia.
Qed.

Lemma enc_digit_char n : 0 <= n < 64 -> digit_char (enc_digit n) = true.
Proof.
  intros Hn. assert (H : forallb (fun k => digit_char (enc_digit (Z.of_nat k))) (seq 0 64) = true) by (vm_compute; reflexivity).
  rewrite forallb_forall in H. specialize (H (Z.to_nat n) ltac:(apply in_seq; lia)). by rewrite Z2Nat.id in H by lia.
Qed.

Lemma length_base64_digits bs : length bs = 32%nat -> length (base64_digits bs) = 43%nat.
Proof. intros Hl. do 32 (destruct bs as [|? bs]; [done|]). by destruct bs. Qed.

Lemma printed_ok k : key_ok k -> pair_ok (print_key k) /\ key_of (print_key k) = k.
Proof.
  intros [Hl Hb Hi Hs Hx]. change DK_LENGTH with 32%nat in Hl. change DKI_LENGTH with 12%nat in Hi. change DKI_ASCII_LENGTH with 3%nat in *.
  destruct (digits_quads (dk k) Hb) as (Hd & _ & Hbytes). rewrite Hl in Hbytes. change (padding 32) with 1%nat in Hbytes.
  pose proof (length_base64_digits (dk k) Hl) as Hld. destruct (hex_text_ok _ Hx) as (Hlh & Hxh & Hph). rewrite length_drop, Hi in Hlh.
  assert (Lt : length (take 3 (dki k)) = 3%nat) by (rewrite length_take; lia).
  assert (Ek : base64_encode (dk k) = map enc_digit (base64_digits (dk k)) ++ [61]) by (unfold base64_encode; by rewrite Hl).
  unfold print_key. change DKI_ASCII_LENGTH with 3%nat. split.
  - split; cbn [fst snd]; rewrite ?Ek; split.
    + rewrite length_app, length_map, Hld. done.
    + rewrite take_app_length' by (by rewrite length_map, Hld). apply forallb_forall. intros c Hc.
      apply in_map_iff in Hc as (v & <- & Hv). rewrite List.Forall_forall in Hd. by apply enc_digit_char, Hd.
    + by rewrite drop_app_length' by (by rewrite length_map, Hld).
    + rewrite length_app, Lt, Hlh. done.
    + by rewrite take_app_length'.
    + by rewrite drop_app_length'.
  - unfold key_of, key_bytes, alias_bytes. cbn [fst snd]. change DKI_ASCII_LENGTH with 3%nat.
    rewrite Ek, map_app, map_map, take_app_length', drop_app_length', Hph, firstn_skipn by done.
    assert (E : map (fun x => dec_char (enc_digit x)) (base64_digits (dk k)) = base64_digits (dk k)).
    { clear -Hd. induction Hd as [|v vs Hv _ IH]; [done|]. cbn [map]. by rewrite (proj1 (dec_enc_digit v Hv)), IH. }
    rewrite E. change (map dec_char [61]) with (replicate 1 255). rewrite Hbytes. by destruct k.
Qed.

(** ** The plugins *)

(** One request after the other: status and key of each *)
Fixpoint ask_all {P H A} (plugin : P) (kmi_handle : option (kmi_priv P H A)) (requests : list (option (list Z)))
  : option (list (Z * option (list Z))) :=
  match requests with
  | [] => Some []
  | keyalias :: requests =>
      match kmi_get_key plugin keyalias None kmi_handle with
      | None => None
      | Some (r, _, k, kmi_handle, plugin) =>
          match ask_all plugin kmi_handle requests with None => None | Some l => Some ((r, k) :: l) end
      end
  end.

(** Ready for a request: the file not read yet, or its list kept *)
Record flatfile_ready (ps : list (cstring * cstring)) (dfmt : option cstring) (p : flatfile) : Prop := {
  ready_state : format_state p = KFL_INITIALIZED \/ format_state p = KFL_CLEARED;
  ready_format : file_dki_for_format (options p) = dfmt;
  ready_list : list_read p = Converted (list_text ps)
               \/ list_read p = NotConverted /\ exists t, file_dk_list (options p) = Some (inr t) /\ key_file ps t /\ Z.of_nat (length t) < 2 ^ 31
}.

Lemma flatfile_answers p ps dfmt v keyalias out a :
  flatfile_ready ps dfmt p -> Forall pair_ok ps -> asks keyalias dfmt a ->
  exists p', flatfile_get_key p keyalias out (Some {| vol := v; data := Some no_keys |})
    = Some ((answer (map key_of ps) a).1, a, (answer (map key_of ps) a).2, Some {| vol := v; data := Some no_keys |}, p')
  /\ flatfile_ready ps dfmt p'.
Proof.
  intros [Hst Hf Hl] Hok Ha.
  assert (E : flatfile_list p = Some (Converted (list_text ps), inr (Some (list_text ps)))).
  { unfold flatfile_list. destruct Hl as [->|(-> & t & -> & Ht & Hlen)]; [by destruct (file_dk_list (options p))|].
    by rewrite (option_converted ps t). }
  unfold flatfile_get_key. rewrite E, Hf, (list_answered keyalias out v dfmt a _ ps Hst Ha Hok).
  eexists. split; [done|]. split; [by right|done|by left].
Qed.

Lemma flatfile_answers_all p ps dfmt v requests aliases :
  flatfile_ready ps dfmt p -> Forall pair_ok ps -> Forall2 (fun keyalias a => asks keyalias dfmt a) requests aliases ->
  ask_all p (Some {| ops := flatfile_ops; backend_handle := Some {| vol := v; data := Some no_keys |} |}) requests
  = Some (map (answer (map key_of ps)) aliases).
Proof.
  intros Hr Hok Ha. revert p Hr. induction Ha as [|r a rs bs Ha _ IH]; intros p Hr; [done|].
  destruct (flatfile_answers p ps dfmt v r None a Hr Hok Ha) as (p' & E & Hr').
  cbn [ask_all kmi_get_key ops get_key_op flatfile_ops backend_handle]. rewrite E. cbn [set_backend_handle ops].
  unfold set_backend_handle. cbn [ops]. rewrite (IH p' Hr'). cbn [map]. by destruct (answer (map key_of ps) a).
Qed.

Lemma keys_back ks : Forall key_ok ks -> Forall pair_ok (map print_key ks) /\ map key_of (map print_key ks) = ks.
Proof.
  induction 1 as [|k ks Hk _ (IH1 & IH2)]; [by split; [apply List.Forall_nil|]|]. destruct (printed_ok k Hk) as [Hp E].
  cbn [map]. rewrite E, IH2. split; [by apply List.Forall_cons|done].
Qed.

(** C40: the keys of a flat file.  Where the file, of less than two gigabytes, holds the
    texts of the keys, with blank lines anywhere, [kmi_init] succeeds with the plugin and
    every request that follows, however many there are, returns the first key of the file
    with its alias, or [-LTFS_KEY_NOT_FOUND] without a key if there is none.  A request
    without an alias stands for the alias to format with, whose text is well formed; where
    that is not set either it returns 0 and no key. *)
Theorem flatfile_keys_found p v t ks dki_for_format requests aliases :
  options p = {| file_dk_list := Some (inr t); file_dki_for_format := dki_for_format |} ->
  list_read p = NotConverted -> format_state p = KFL_UNINITIALIZED ->
  Forall key_ok ks -> key_file (map print_key ks) t -> Z.of_nat (length t) < 2 ^ 31 ->
  Forall2 (fun keyalias a => asks keyalias dki_for_format a) requests aliases ->
  exists handle p', kmi_init p flatfile_ops v None = (0, Some handle, p')
    /\ ask_all p' (Some handle) requests = Some (map (answer ks) aliases).
Proof.
  intros Ho Hl Hs Hk Ht Hlen Ha. destruct (keys_back ks Hk) as [Hok E].
  unfold kmi_init. cbn [complete flatfile_ops init destroy get_key_op help_message parse_opts negb].
  unfold flatfile_init, key_format_ltfs_init. rewrite Hs. cbn [bool_decide decide_rel negb].
  rewrite bool_decide_eq_true_2 by done. cbn [negb]. eexists _, _. split; [done|].
  rewrite <- E. apply (flatfile_answers_all _ _ dki_for_format); [|done|done].
  split; cbn [format_state options list_read]; [by left|by rewrite Ho|]. right. split; [done|]. exists t. by rewrite Ho.
Qed.

(** The simple plugin puts the keys of its options behind the list. *)
Lemma pair_appended ps p :
  Forall pair_ok ps -> append_pair (Some p.1) (Some p.2) (Some (list_text ps)) = Some (list_text (ps ++ [p])).
Proof.
  intros Hok. unfold append_pair. f_equal.
  change (default [] (Some (list_text ps))) with (list_text ps). change (default [] (Some p.2)) with p.2. cbv zeta.
  change (p.1 ++ [58] ++ p.2) with (pair_text p).
  destruct ps as [|q ps]; [done|].
  pose proof (length_list_text q ps Hok) as Hl. rewrite (proj2 (Nat.eqb_neq (length (list_text (q :: ps))) 0)) by lia. cbn [negb]. clear Hl Hok.
  revert q. induction ps as [|q' ps IH]; intros q; [done|]. specialize (IH q'). cbn [app] in IH |- *.
  rewrite (list_text_cons q (q' :: ps)), (list_text_cons q (q' :: ps ++ [p])), <- IH, <- !app_assoc. done.
Qed.

Record simple_ready (ps : list (cstring * cstring)) (dfmt : option cstring) (p : simple) : Prop := {
  simple_ready_state : simple_state p = KFL_INITIALIZED \/ simple_state p = KFL_CLEARED;
  simple_ready_format : opt_dki_for_format (simple_options p) = dfmt;
  simple_ready_list : opt_dk_list (simple_options p) = Some (list_text ps)
}.

Lemma simple_answers_all p ps dfmt v requests aliases :
  simple_ready ps dfmt p -> Forall pair_ok ps -> Forall2 (fun keyalias a => asks keyalias dfmt a) requests aliases ->
  ask_all p (Some {| ops := simple_ops; backend_handle := Some {| vol := v; data := Some no_keys |} |}) requests
  = Some (map (answer (map key_of ps)) aliases).
Proof.
  intros Hr Hok Ha. revert p Hr. induction Ha as [|r a rs bs Ha _ IH]; intros p Hr; [done|].
  assert (E : exists p', simple_get_key p r None (Some {| vol := v; data := Some no_keys |})
    = Some ((answer (map key_of ps) a).1, a, (answer (map key_of ps) a).2, Some {| vol := v; data := Some no_keys |}, p')
    /\ simple_ready ps dfmt p').
  { destruct Hr as [Hst Hf Hl]. unfold simple_get_key. rewrite Hl, Hf, (list_answered r None v dfmt a _ ps Hst Ha Hok).
    eexists. split; [done|]. split; [by right|done|done]. }
  destruct E as (p' & E & Hr'). cbn [ask_all kmi_get_key ops get_key_op simple_ops backend_handle]. rewrite E.
  unfold set_backend_handle. cbn [ops]. rewrite (IH p' Hr'). cbn [map]. by destruct (answer (map key_of ps) a).
Qed.

(** The comparison of two texts is that of what they stand for. *)
Lemma printed_same k1 k2 :
  key_ok k1 -> key_ok k2 ->
  bool_decide (Some (print_key k1).1 = Some (print_key k2).1) = bool_decide (dk k1 = dk k2)
  /\ bool_decide (Some (print_key k1).2 = Some (print_key k2).2) = bool_decide (dki k1 = dki k2).
Proof.
  intros H1 H2. destruct (printed_ok k1 H1) as [_ E1], (printed_ok k2 H2) as [_ E2].
  split; apply bool_decide_ext; split; intros E.
  - injection E as E. rewrite <- E1, <- E2. exact (f_equal key_bytes E).
  - unfold print_key. cbn [fst]. by rewrite E.
  - injection E as E. rewrite <- E1, <- E2. exact (f_equal alias_bytes E).
  - unfold print_key. cbn [snd]. by rewrite E.
Qed.

(** The keys in options.  A key and its alias, and a pair for formatting that differs
    from it in both or in neither, are put behind the pairs of the list option, in this
    order, and the requests that follow find the first key with their alias; a pair that
    differs in one of the two is refused. *)
Theorem simple_keys_found p v ks k1 k2 requests aliases :
  Forall key_ok (ks ++ [k1; k2]) ->
  simple_options p = {| opt_dk := Some (print_key k1).1; opt_dki := Some (print_key k1).2;
                        opt_dk_for_format := Some (print_key k2).1; opt_dki_for_format := Some (print_key k2).2;
                        opt_dk_list := Some (list_text (map print_key ks)) |} ->
  simple_state p = KFL_UNINITIALIZED ->
  Forall2 (fun keyalias a => asks keyalias (Some (print_key k2).2) a) requests aliases ->
  if bool_decide (dk k1 = dk k2 <-> dki k1 = dki k2) then
    exists o handle p', simple_parse_opts (0, simple_options p) = (0, o)
      /\ kmi_init {| simple_options := o; simple_state := simple_state p |} simple_ops v None = (0, Some handle, p')
      /\ ask_all p' (Some handle) requests = Some (map (answer (ks ++ [k1; k2])) aliases)
  else simple_parse_opts (0, simple_options p) = (-1, simple_options p).
Proof.
  intros Hk Ho Hs Ha. destruct (keys_back _ Hk) as [Hok E].
  pose proof Hk as Hk'. rewrite list.Forall_app, !List.Forall_cons_iff in Hk'. destruct Hk' as (_ & H1 & H2 & _).
  destruct (printed_same k1 k2 H1 H2) as [E1 E2].
  unfold simple_parse_opts. rewrite Ho. cbn [Z.ltb Z.compare opt_dk opt_dki opt_dk_for_format opt_dki_for_format opt_dk_list is_set xorb negb andb orb].
  rewrite E1, E2. clear E1 E2. case_bool_decide as Hsame.
  - replace (xorb (bool_decide (dk k1 = dk k2)) (bool_decide (dki k1 = dki k2))) with false
      by (repeat case_bool_decide; first [reflexivity|exfalso; tauto]).
    unfold kmi_init. cbn [complete simple_ops init destroy get_key_op help_message parse_opts negb].
    unfold simple_init, key_format_ltfs_init. cbn [simple_state]. rewrite Hs, bool_decide_eq_true_2 by done. cbn [negb].
    eexists _, _, _. split; [done|]. split; [done|]. rewrite <- E.
    apply (simple_answers_all _ _ (Some (print_key k2).2)); [|done|done].
    split; cbn [simple_state simple_options opt_dki_for_format opt_dk_list]; [by left|done|].
    rewrite map_app in Hok |- *. cbn [map] in *. rewrite list.Forall_app in Hok. destruct Hok as [Hok1 Hok2].
    rewrite (pair_appended (map print_key ks) (print_key k1)) by done.
    rewrite (pair_appended (map print_key ks ++ [print_key k1]) (print_key k2)).
    + by rewrite <- app_assoc.
    + apply list.Forall_app. split; [done|]. apply List.Forall_cons_iff in Hok2 as [Hok2 _]. by apply List.Forall_cons.
  - by replace (xorb (bool_decide (dk k1 = dk k2)) (bool_decide (dki k1 = dki k2))) with true
      by (repeat case_bool_decide; first [reflexivity|exfalso; tauto]).
Qed.

(** ** Two keys *)

Definition first_of_two : key := {| dk := map Z.of_nat (seq 0 32); dki := cstr "abc" ++ map Z.of_nat (seq 200 9) |}.
Definition second_of_two : key := {| dk := map Z.of_nat (seq 100 32); dki := cstr "xyz" ++ map Z.of_nat (seq 7 9) |}.
Definition two_keys : list key := [first_of_two; second_of_two].

Lemma two_keys_ok : Forall key_ok two_keys.
Proof.
  assert (H : forall a b, Forall is_byte (map Z.of_nat (seq a b)) \/ (256 < a + b)%nat).
  { intros a b. destruct (decide (256 < a + b)%nat); [by right|left]. apply List.Forall_forall. intros x Hx.
    apply in_map_iff in Hx as (m & <- & Hm). apply in_seq in Hm. unfold is_byte. lia. }
  repeat apply List.Forall_cons; try apply List.Forall_nil; split; try reflexivity.
  - destruct (H 0 32)%nat as [F|F]; [exact F|lia].
  - destruct (H 200 9)%nat as [F|F]; [exact F|lia].
  - destruct (H 100 32)%nat as [F|F]; [exact F|lia].
  - destruct (H 7 9)%nat as [F|F]; [exact F|lia].
Qed.

Definition two_texts : cstring := list_text (map print_key two_keys).

Lemma key_format_get_key_spec_witness :
  exists ks, key_format_ltfs_get_key (Some (dki second_of_two)) None (Some {| vol := 7; data := Some no_keys |}) (Some two_texts) None
               KFL_CLEARED = Some (answered 7 (Some (dki second_of_two)) ks)
    /\ first_key (dki second_of_two) ks = Some (dk second_of_two).
Proof.
  pose proof (key_format_get_key_spec (Some (dki second_of_two)) None 7 two_texts None (Some (dki second_of_two)) KFL_CLEARED
    (asks_given (dki second_of_two) None eq_refl)) as H. cbv zeta in H.
  assert (Hret : exists r, key_format_ltfs_get_key (Some (dki second_of_two)) None (Some {| vol := 7; data := Some no_keys |})
     (Some two_texts) None KFL_CLEARED = Some r /\ key_out r = Some (dk second_of_two)) by (eexists; split; vm_compute; reflexivity).
  destruct Hret as (r & E & Hkey). rewrite E in H |- *.
  destruct H as [(_ & H & _)|(_ & [(ps & _ & _ & H)|(_ & _ & H)])]; [exact (False_ind _ (H eq_refl))| |].
  - injection H as ->. exists (map key_of ps). split; [done|exact Hkey].
  - injection H as ->. discriminate Hkey.
Defined.

(** The file, with blank lines *)
Definition two_lines : list Z :=
  10 :: (cstr "DK=" ++ (print_key first_of_two).1) ++ 10 :: 10 :: (cstr "DKi=" ++ (print_key first_of_two).2) ++ 10 :: 10
     :: (cstr "DK=" ++ (print_key second_of_two).1) ++ 10 :: (cstr "DKi=" ++ (print_key second_of_two).2) ++ [10].

Lemma two_lines_file : key_file (map print_key two_keys) two_lines.
Proof.
  unfold two_lines. apply file_blank. cbn [map two_keys]. apply (file_pair (print_key first_of_two) _ 1), file_blank.
  apply (file_pair (print_key second_of_two) [] 0), file_end.
Qed.

Definition flat_start : flatfile :=
  {| options := {| file_dk_list := Some (inr two_lines); file_dki_for_format := Some (print_key first_of_two).2 |};
     list_read := NotConverted; format_state := KFL_UNINITIALIZED |}.

Lemma flatfile_keys_found_witness :
  exists handle p', kmi_init flat_start flatfile_ops 7 None = (0, Some handle, p')
    /\ ask_all p' (Some handle) [Some (dki second_of_two); None; Some (replicate 12 0)]
       = Some [(0, Some (dk second_of_two)); (0, Some (dk first_of_two)); (- LTFS_KEY_NOT_FOUND, None)].
Proof.
  destruct (flatfile_keys_found flat_start 7 two_lines two_keys (Some (print_key first_of_two).2)
    [Some (dki second_of_two); None; Some (replicate 12 0)] [Some (dki second_of_two); Some (alias_bytes (print_key first_of_two).2); Some (replicate 12 0)]
    eq_refl eq_refl eq_refl two_keys_ok two_lines_file) as (handle & p' & E & Hall).
  - vm_compute. reflexivity.
  - repeat apply List.Forall2_cons; try apply List.Forall2_nil; [by apply asks_given| |by apply asks_given].
    pose proof (asks_default (print_key first_of_two).2 []) as H. rewrite app_nil_r in H. apply H.
    apply (printed_ok first_of_two). exact (proj1 (proj1 (List.Forall_cons_iff _ _ _) two_keys_ok)).
  - exists handle, p'. split; [exact E|]. rewrite Hall. vm_compute. reflexivity.
Defined.

Definition simple_start : simple :=
  {| simple_options := {| opt_dk := Some (print_key first_of_two).1; opt_dki := Some (print_key first_of_two).2;
                          opt_dk_for_format := Some (print_key second_of_two).1; opt_dki_for_format := Some (print_key second_of_two).2;
                          opt_dk_list := Some [] |};
     simple_state := KFL_UNINITIALIZED |}.

Lemma simple_keys_found_witness :
  exists o handle p', simple_parse_opts (0, simple_options simple_start) = (0, o)
    /\ kmi_init {| simple_options := o; simple_state := KFL_UNINITIALIZED |} simple_ops 7 None = (0, Some handle, p')
    /\ ask_all p' (Some handle) [None; Some (dki first_of_two)] = Some [(0, Some (dk second_of_two)); (0, Some (dk first_of_two))].
Proof.
  pose proof (simple_keys_found simple_start 7 [] first_of_two second_of_two [None; Some (dki first_of_two)]
    [Some (alias_bytes (print_key second_of_two).2); Some (dki first_of_two)] two_keys_ok eq_refl eq_refl) as H.
  rewrite bool_decide_eq_true_2 in H by (vm_compute; split; discriminate).
  destruct H as (o & handle & p' & E1 & E2 & E3).
  - repeat apply List.Forall2_cons; try apply List.Forall2_nil; [|by apply asks_given].
    pose proof (asks_default (print_key second_of_two).2 []) as H. rewrite app_nil_r in H. apply H.
    apply (printed_ok second_of_two). exact (proj1 (proj1 (List.Forall_cons_iff _ _ _) (proj2 (proj1 (List.Forall_cons_iff _ _ _) two_keys_ok)))).
  - exists o, handle, p'. split; [exact E1|]. split; [exact E2|]. rewrite E3. vm_compute. reflexivity.
Defined.

(** A file that cannot be read leaves the pointer to the list it freed; the next request
    follows it. *)
Lemma freed_list_is_used keyalias out h :
  let p := {| options := {| file_dk_list := Some (inl 2); file_dki_for_format := None |};
              list_read := NotConverted; format_state := KFL_INITIALIZED |} in
  exists p', flatfile_get_key p keyalias out h = Some (-2, keyalias, out, h, p') /\ flatfile_get_key p' keyalias out h = None.
Proof. eexists. split; reflexivity. Qed.
