(* ===== verification/VolumeInfo.v ===== *)
(** * Questions to the drive and the cartridge

    What the extended attributes of a volume report and change: the functions of
    [tape.c] that pass a question on to the backend, the functions of [ltfs.c] that ask it
    under the lock of the device, the text attributes of the cartridge memory, and
    [ltfs_sync_index].  The functions run on a mounted file system, extended by the parts
    of [struct ltfs_volume] and [struct ltfs_index] that only the attributes use.  There is
    a device, as while a volume is mounted. *)

From S2P Require Import Prelude Errors Endian TapeOps TapeDev Append Coherency Extents Volume FsRaw.
From S2P Require Import TimeInternal Pathname IndexCriteria FsTree FsOps TapeLoad.
Open Scope Z_scope.
Open Scope ltfs_scope.

(** ** Data *)

Definition UNSUPPORTED_CARTRIDGE_HEALTH : Z := -1.

Record cartridge_health_info := {
  mounts : Z; written_ds : Z; write_temps : Z; write_perms : Z; read_ds : Z; read_temps : Z;
  read_perms : Z; write_perms_prev : Z; read_perms_prev : Z; written_mbytes : Z;
  read_mbytes : Z; passes_begin : Z; passes_middle : Z; tape_efficiency : Z
}.

(** The texts; [None]: NULL *)
Record tc_mam_attr := {
  appl_vendor : option cstring; appl_name : option cstring; appl_ver : option cstring;
  appl_format_ver : option cstring; mam_volume_name : option cstring; mam_barcode : option cstring
}.

Definition TC_MAM_APPLICATION_VENDOR : Z := 0x0800.
Definition TC_MAM_APPLICATION_VENDOR_LEN : nat := 8.
Definition TC_MAM_APPLICATION_NAME : Z := 0x0801.
Definition TC_MAM_APPLICATION_NAME_LEN : nat := 32.
Definition TC_MAM_APPLICATION_VERSION : Z := 0x0802.
Definition TC_MAM_APPLICATION_VERSION_LEN : nat := 8.
Definition TC_MAM_APP_FORMAT_VERSION : Z := 0x080B.
Definition TC_MAM_APP_FORMAT_VERSION_LEN : nat := 16.
Definition TC_MAM_USR_MED_TXT_LABEL : Z := 0x0803.
Definition TC_MAM_USR_MED_TXT_LABEL_LEN : nat := 160.
Definition TC_MAM_BARCODE : Z := 0x0806.
Definition TC_MAM_BARCODE_LEN : nat := 32.

Definition TC_MP_READ_WRITE_CTRL : Z := 0x25.
Definition TC_MP_READ_WRITE_CTRL_SIZE : nat := 48.

(** Further entries of [struct tape_ops]; the arguments of [op_update_mam_attr] are the
    volume name, the attribute and the barcode. *)
Record info_ops (D : Type) := {
  op_get_cartridge_health : cartridge_health_info -> D -> Z * cartridge_health_info * D;
  op_clear_tape_alert : Z -> D -> Z * D;
  op_get_xattr : cstring -> D -> Z * option cstring * D;
  op_set_xattr : cstring -> list Z -> D -> Z * D;
  op_takedump_drive : D -> Z * D;
  op_update_mam_attr : option cstring -> Z -> option cstring -> D -> Z * D
}.
Arguments op_get_cartridge_health {_}. Arguments op_clear_tape_alert {_}. Arguments op_get_xattr {_}.
Arguments op_set_xattr {_}. Arguments op_takedump_drive {_}. Arguments op_update_mam_attr {_}.

(** The mounted file system and the rest of what the attributes are about *)
Record details := {
  mam_attr : tc_mam_attr;
  health_cache : cartridge_health_info;
  alert_cache : Z;
  idx_volume_name : option cstring;
  idx_commit_message : option cstring;
  idx_allow_update : bool;
  ltfs_log_level : Z;
  ltfs_syslog_level : Z
}.

Record detailed (D : Type) := { mounted : mount D; rest_of : details }.
Arguments mounted {_}. Arguments rest_of {_}.

Definition set_mam (m : tc_mam_attr) (r : details) : details :=
  {| mam_attr := m; health_cache := health_cache r; alert_cache := alert_cache r; idx_volume_name := idx_volume_name r;
     idx_commit_message := idx_commit_message r; idx_allow_update := idx_allow_update r;
     ltfs_log_level := ltfs_log_level r; ltfs_syslog_level := ltfs_syslog_level r |}.
Definition set_caches (h : cartridge_health_info) (alert : Z) (r : details) : details :=
  {| mam_attr := mam_attr r; health_cache := h; alert_cache := alert; idx_volume_name := idx_volume_name r;
     idx_commit_message := idx_commit_message r; idx_allow_update := idx_allow_update r;
     ltfs_log_level := ltfs_log_level r; ltfs_syslog_level := ltfs_syslog_level r |}.
Definition set_texts (name message : option cstring) (r : details) : details :=
  {| mam_attr := mam_attr r; health_cache := health_cache r; alert_cache := alert_cache r; idx_volume_name := name;
     idx_commit_message := message; idx_allow_update := idx_allow_update r;
     ltfs_log_level := ltfs_log_level r; ltfs_syslog_level := ltfs_syslog_level r |}.
Definition set_levels (log syslog : Z) (r : details) : details :=
  {| mam_attr := mam_attr r; health_cache := health_cache r; alert_cache := alert_cache r; idx_volume_name := idx_volume_name r;
     idx_commit_message := idx_commit_message r; idx_allow_update := idx_allow_update r;
     ltfs_log_level := log; ltfs_syslog_level := syslog |}.

Section info.
Context {D : Type} (ops : tape_ops D) (lops : load_ops D) (iops : info_ops D).
Context (xml : fs_state -> xml_lib) (update_mam_attr : D -> Z * D).
Context (revalidate : bool -> ltfs_volume D -> Z * ltfs_volume D).
Context (retries : nat).

Definition vop : Type -> Type := op (detailed D).

Definition on_mount {A} (f : op (mount D) A) : vop A := fun s =>
  match f (mounted s) with Some (x, m) => Some (x, {| mounted := m; rest_of := rest_of s |}) | None => None end.
Definition get_rest : vop details := fun s => Some (rest_of s, s).
Definition update_rest (f : details -> details) : vop unit := fun s => Some (tt, {| mounted := mounted s; rest_of := f (rest_of s) |}).
Definition update_volume (f : ltfs_volume D -> ltfs_volume D) : vop unit :=
  on_mount (update_state (fun m => set_volume (f (volume m)) m)).

(** A call of the device *)
Definition device_call {A} (f : device_data D -> A * device_data D) : vop A :=
  on_mount (on_volume (fun vol => let '(x, dev) := f (device vol) in (x, set_device dev vol))).

(** ** The device *)

Definition tape_get_cartridge_health (hlt : cartridge_health_info) (dev : device_data D)
    : (Z * cartridge_health_info) * device_data D :=
  let '(ret, hlt, d) := op_get_cartridge_health iops hlt (backend_data dev) in
  ((ret, hlt), set_backend (position dev) d dev).

Definition tape_clear_tape_alert (alert : Z) (dev : device_data D) : Z * device_data D :=
  backend_op (op_clear_tape_alert iops alert) dev.

Definition tape_get_vendorunique_xattr (name : cstring) (dev : device_data D) : (Z * option cstring) * device_data D :=
  let '(ret, buf, d) := op_get_xattr iops name (backend_data dev) in ((ret, buf), set_backend (position dev) d dev).

Definition tape_set_vendorunique_xattr (name : cstring) (value : list Z) (dev : device_data D) : Z * device_data D :=
  backend_op (op_set_xattr iops name value) dev.

Definition tape_takedump_drive (dev : device_data D) : Z * device_data D := backend_op (op_takedump_drive iops) dev.

(** The page of the encryption; 48 zeros are in the buffer before. *)
Definition read_write_control (dev : device_data D) : (Z * list Z) * device_data D :=
  let '(rc, buf, d) := op_modesense lops TC_MP_READ_WRITE_CTRL TC_MP_PC_CURRENT 0
                         (replicate TC_MP_READ_WRITE_CTRL_SIZE 0) (backend_data dev) in
  ((rc, buf), set_backend (position dev) d dev).

Definition tape_get_media_encrypted (dev : device_data D) : cstring * device_data D :=
  let '((rc, buf), dev) := read_write_control dev in
  (if negb (rc =? 0) then cstr "unknown"
   else if Z.land (nth (16 + 24) buf 0) 1 =? 0 then cstr "false" else cstr "true", dev).

Definition tape_get_drive_encryption_state (dev : device_data D) : cstring * device_data D :=
  let '((rc, buf), dev) := read_write_control dev in
  (if negb (rc =? 0) then cstr "unknown"
   else match Z.land (nth (16 + 20) buf 0) 3 with
        | 0 => cstr "off" | 1 => cstr "on" | 2 => cstr "unknown" | _ => cstr "on"
        end, dev).

Definition tape_get_drive_encryption_method (dev : device_data D) : cstring * device_data D :=
  let '((rc, buf), dev) := read_write_control dev in
  (if negb (rc =? 0) then cstr "Unknown"
   else let m := nth (16 + 27) buf 0 in
        if m =? 0x00 then cstr "No Method"
        else if m =? 0x10 then cstr "System Managed"
        else if m =? 0x1F then cstr "Controller Managed"
        else if m =? 0x50 then cstr "Application Managed"
        else if m =? 0x60 then cstr "Library Managed"
        else if m =? 0x70 then cstr "Internal"
        else if m =? 0xFF then cstr "Custom"
        else cstr "Unknown", dev).

(** ** The cartridge memory *)

(** [n] bytes behind the header of five, as a string *)
Fixpoint text_in (buf : list Z) : cstring :=
  match buf with c :: buf => if c =? 0 then [] else c :: text_in buf | [] => [] end.
Definition attribute_text (n : nat) (buf : list Z) : cstring := text_in (take n (drop 5 buf)).

(** One attribute: the status, and the text when it is 0; [size] bytes are read. *)
Definition read_text (id part : Z) (size : Z) (n : nat) (dev : device_data D) : Z * option cstring :=
  let '(status, buf) := op_read_attribute ops part id size (backend_data dev) in
  (status, if status =? 0 then Some (attribute_text n buf) else None).

Definition new_text (old : option cstring) (r : Z * option cstring) : option cstring :=
  match r.2 with Some t => Some t | None => old end.

Definition read_vendor (part : Z) := read_text TC_MAM_APPLICATION_VENDOR part 20 TC_MAM_APPLICATION_VENDOR_LEN.
Definition read_appl_name (part : Z) := read_text TC_MAM_APPLICATION_NAME part 40 TC_MAM_APPLICATION_NAME_LEN.
Definition read_version (part : Z) := read_text TC_MAM_APPLICATION_VERSION part 20 TC_MAM_APPLICATION_VERSION_LEN.
Definition read_format_version (part : Z) := read_text TC_MAM_APP_FORMAT_VERSION part 30 TC_MAM_APP_FORMAT_VERSION_LEN.
Definition read_volume_name (part : Z) := read_text TC_MAM_USR_MED_TXT_LABEL part 165 TC_MAM_USR_MED_TXT_LABEL_LEN.
Definition read_barcode (part : Z) := read_text TC_MAM_BARCODE part 37 TC_MAM_BARCODE_LEN.

Definition with_vendor (t : option cstring) (m : tc_mam_attr) : tc_mam_attr :=
  {| appl_vendor := t; appl_name := appl_name m; appl_ver := appl_ver m; appl_format_ver := appl_format_ver m;
     mam_volume_name := mam_volume_name m; mam_barcode := mam_barcode m |}.
Definition with_appl_name (t : option cstring) (m : tc_mam_attr) : tc_mam_attr :=
  {| appl_vendor := appl_vendor m; appl_name := t; appl_ver := appl_ver m; appl_format_ver := appl_format_ver m;
     mam_volume_name := mam_volume_name m; mam_barcode := mam_barcode m |}.
Definition with_version (t : option cstring) (m : tc_mam_attr) : tc_mam_attr :=
  {| appl_vendor := appl_vendor m; appl_name := appl_name m; appl_ver := t; appl_format_ver := appl_format_ver m;
     mam_volume_name := mam_volume_name m; mam_barcode := mam_barcode m |}.
Definition with_format_version (t : option cstring) (m : tc_mam_attr) : tc_mam_attr :=
  {| appl_vendor := appl_vendor m; appl_name := appl_name m; appl_ver := appl_ver m; appl_format_ver := t;
     mam_volume_name := mam_volume_name m; mam_barcode := mam_barcode m |}.
Definition with_volume_name (t : option cstring) (m : tc_mam_attr) : tc_mam_attr :=
  {| appl_vendor := appl_vendor m; appl_name := appl_name m; appl_ver := appl_ver m; appl_format_ver := appl_format_ver m;
     mam_volume_name := t; mam_barcode := mam_barcode m |}.
Definition with_barcode (t : option cstring) (m : tc_mam_attr) : tc_mam_attr :=
  {| appl_vendor := appl_vendor m; appl_name := appl_name m; appl_ver := appl_ver m; appl_format_ver := appl_format_ver m;
     mam_volume_name := mam_volume_name m; mam_barcode := t |}.

(** All of them: the status of the last that failed *)
Definition read_all_texts (part : Z) (m : tc_mam_attr) (dev : device_data D) : Z * tc_mam_attr :=
  let r1 := read_vendor part dev in
  let r2 := read_appl_name part dev in
  let r3 := read_version part dev in
  let r4 := read_format_version part dev in
  let r5 := read_volume_name part dev in
  let r6 := read_barcode part dev in
  (fold_left (fun ret r => if r.1 =? 0 then ret else r.1) [r1; r2; r3; r4; r5; r6] 0,
   {| appl_vendor := new_text (appl_vendor m) r1; appl_name := new_text (appl_name m) r2;
      appl_ver := new_text (appl_ver m) r3; appl_format_ver := new_text (appl_format_ver m) r4;
      mam_volume_name := new_text (mam_volume_name m) r5; mam_barcode := new_text (mam_barcode m) r6 |}).

Definition tape_get_MAMattributes (attribute_id part : Z) (m : tc_mam_attr) (dev : device_data D) : Z * tc_mam_attr :=
  if attribute_id =? TC_MAM_APPLICATION_VENDOR then
    let r := read_vendor part dev in (r.1, with_vendor (new_text (appl_vendor m) r) m)
  else if attribute_id =? TC_MAM_APPLICATION_NAME then
    let r := read_appl_name part dev in (r.1, with_appl_name (new_text (appl_name m) r) m)
  else if attribute_id =? TC_MAM_APPLICATION_VERSION then
    let r := read_version part dev in (r.1, with_version (new_text (appl_ver m) r) m)
  else if attribute_id =? TC_MAM_APP_FORMAT_VERSION then
    let r := read_format_version part dev in (r.1, with_format_version (new_text (appl_format_ver m) r) m)
  else if attribute_id =? TC_MAM_USR_MED_TXT_LABEL then
    let r := read_volume_name part dev in (r.1, with_volume_name (new_text (mam_volume_name m) r) m)
  else if attribute_id =? TC_MAM_BARCODE then
    let r := read_barcode part dev in (r.1, with_barcode (new_text (mam_barcode m) r) m)
  else read_all_texts part m dev.

(** [tape_update_mam_attributes], all four arguments *)
Definition tape_update_mam (usr_def_vol_name : option cstring) (attribute_id : Z) (usr_def_barcode : option cstring)
    (dev : device_data D) : Z * device_data D :=
  backend_op (op_update_mam_attr iops usr_def_vol_name attribute_id usr_def_barcode) dev.

(** The copy in the volume is read again from the index partition. *)
Definition reread_mam (attribute_id : Z) : vop Z :=
  let* vol := on_mount the_volume in
  let* r := get_rest in
  let '(ret, m) := tape_get_MAMattributes attribute_id (ltfs_part_id2num (partid_ip (label vol)) vol) (mam_attr r) (device vol) in
  update_rest (set_mam m) ;;; ret_op ret.

(** ** Under the lock of the device *)

(** After a call of the device that failed *)
Definition note_failure (ret : Z) : vop unit :=
  if NEED_REVAL ret then update_volume (fun vol => set_device (tape_start_fence (device vol)).2 vol)
  else if IS_UNEXPECTED_MOVE ret then update_volume (set_reval (- LTFS_REVAL_FAILED))
  else ret_op tt.

(** The device locked, and found ready if [ready] is to be tested: a negative status, or
    what [f] does *)
Definition with_device {A} (ready : bool) (now : Z * Z) (failed : Z -> A) (f : vop A) : vop A :=
  let* vol := on_mount the_volume in
  let ret := tape_device_lock 0 (device vol) in
  if ret <? 0 then ret_op (failed ret)
  else
    let* ret := (if ready then device_call (tape_test_unit_ready ops now) else ret_op 0) in
    if ret <? 0 then note_failure ret ;;; ret_op (failed ret) else f.

Definition unsupported_health : cartridge_health_info :=
  {| mounts := UNSUPPORTED_CARTRIDGE_HEALTH; written_ds := UNSUPPORTED_CARTRIDGE_HEALTH;
     write_temps := UNSUPPORTED_CARTRIDGE_HEALTH; write_perms := UNSUPPORTED_CARTRIDGE_HEALTH;
     read_ds := UNSUPPORTED_CARTRIDGE_HEALTH; read_temps := UNSUPPORTED_CARTRIDGE_HEALTH;
     read_perms := UNSUPPORTED_CARTRIDGE_HEALTH; write_perms_prev := UNSUPPORTED_CARTRIDGE_HEALTH;
     read_perms_prev := UNSUPPORTED_CARTRIDGE_HEALTH; written_mbytes := UNSUPPORTED_CARTRIDGE_HEALTH;
     read_mbytes := UNSUPPORTED_CARTRIDGE_HEALTH; passes_begin := UNSUPPORTED_CARTRIDGE_HEALTH;
     passes_middle := UNSUPPORTED_CARTRIDGE_HEALTH; tape_efficiency := UNSUPPORTED_CARTRIDGE_HEALTH |}.

(** [h]: what the caller has in its buffer *)
Definition ltfs_get_cartridge_health (now : Z * Z) (h : cartridge_health_info) : vop (Z * cartridge_health_info) :=
  with_device true now (fun ret => (ret, h))
    (let* r := get_rest in
     let* '(ret, hlt) := device_call (tape_get_cartridge_health (health_cache r)) in
     update_rest (fun r => set_caches hlt (alert_cache r) r) ;;;
     note_failure ret ;;; ret_op (ret, hlt)).

Definition ltfs_get_tape_alert_unlocked (now : Z * Z) (tape_alert : Z) : vop (Z * Z) :=
  with_device true now (fun ret => (ret, tape_alert))
    (let* r := get_rest in
     let* '(ret, alert) := device_call (fun dev => let '(ret, alert, dev) := tape_get_tape_alert lops (alert_cache r) dev in
                                                   ((ret, alert), dev)) in
     update_rest (fun r => set_caches (health_cache r) alert r) ;;;
     note_failure ret ;;; ret_op (ret, alert)).

Definition ltfs_clear_tape_alert (now : Z * Z) (tape_alert : Z) : vop Z :=
  with_device false now (fun ret => ret)
    (let* ret := device_call (tape_clear_tape_alert tape_alert) in note_failure ret ;;; ret_op ret).

Definition ltfs_get_vendorunique_xattr (now : Z * Z) (name : cstring) : vop (Z * option cstring) :=
  with_device false now (fun ret => (ret, None))
    (let* '(ret, buf) := device_call (tape_get_vendorunique_xattr name) in note_failure ret ;;; ret_op (ret, buf)).

Definition ltfs_set_vendorunique_xattr (now : Z * Z) (name : cstring) (value : list Z) : vop Z :=
  with_device false now (fun ret => ret)
    (let* ret := device_call (tape_set_vendorunique_xattr name value) in note_failure ret ;;; ret_op ret).

(** The pointer of the index that is on the data partition *)
Definition index_on_dp (vol : ltfs_volume D) : Z :=
  if off_partition (selfptr (index vol)) =? ltfs_dp_id vol then off_block (selfptr (index vol))
  else off_block (backptr (index vol)).

Definition ltfs_get_append_position (vol : ltfs_volume D) : Z * Z :=
  let '(ret, pos) := tape_get_append_position (ltfs_part_id2num (ltfs_dp_id vol) vol) (device vol) in
  let pos := default 0 pos in
  (ret, if pos =? 0 then index_on_dp vol else pos).

(** ** Synchronisation *)

(** The partition an index is written to *)
Definition sync_partition (vol : ltfs_volume D) : Z :=
  if dp_index_file_end vol && negb (ip_index_file_end vol) then ltfs_ip_id vol else ltfs_dp_id vol.

Fixpoint sync_loop (fuel : nat) (now : Z * Z) (junk reason : list Z) (index_locking : bool) (tree : fs_state) (vol : ltfs_volume D)
    : option (Z * ltfs_volume D) :=
  match fuel with
  | O => None
  | S fuel =>
      if ltfs_get_partition_readonly (ltfs_dp_id vol) vol <? 0 then Some (0, vol)
      else if index_locking && (ltfs_get_volume_lock vol <? 0) then Some (ltfs_get_volume_lock vol, vol)
      else if negb (dirty (index vol)) then Some (if index_locking then ltfs_get_volume_lock vol
                                                  else ltfs_get_partition_readonly (ltfs_dp_id vol) vol, vol)
      else
        let ret := tape_device_lock 0 (device vol) in
        if ret <? 0 then Some (ret, vol)
        else
          match ltfs_write_index ops (xml tree) update_mam_attr 2 now junk (sync_partition vol) reason vol with
          | None => None
          | Some (ret, vol) =>
              let vol := if IS_UNEXPECTED_MOVE ret then set_reval (- LTFS_REVAL_FAILED) vol else vol in
              if index_locking && NEED_REVAL ret then
                let '(ret, vol) := revalidate true vol in
                if ret =? 0 then sync_loop fuel now junk reason index_locking tree vol else Some (ret, vol)
              else Some (ret, vol)
          end
  end.

Definition ltfs_sync_index (now : Z * Z) (junk reason : list Z) (index_locking : bool) : vop Z := fun s =>
  match sync_loop (S retries) now junk reason index_locking (tree (mounted s)) (volume (mounted s)) with
  | Some (ret, v) => Some (ret, {| mounted := set_volume v (mounted s); rest_of := rest_of s |})
  | None => None
  end.

End info.
