(* ===== verification/Xattr.v ===== *)
(** * Extended attributes

    [xattr.c] and the operations of [ltfs_fsops.c] on extended attributes: attributes
    stored in a dentry, and virtual ones, whose names begin with "ltfs." and which report
    or change the state of the volume.  The locks of a dentry are left out, as in
    [FsTree]; the dentry cache is not loaded.  The names are those of a build for Linux. *)

From S2P Require Import XmlWrite Prelude Errors TapeOps TapeDev Append Coherency Extents Volume FsRaw.
From S2P Require Import TimeInternal Pathname IndexCriteria FsTree FsOps XmlLib TapeLoad Label VolumeInfo.
Open Scope Z_scope.
Open Scope ltfs_scope.

Definition LTFS_MAX_XATTR_SIZE : Z := 4096.
Definition MAX_VOLUME_NAME_SIZE : Z := 159.
Definition LTFS_LIVELINK_EA_NAME : cstring := cstr "ltfs.vendor.IBM.prefixLength".
Definition XATTR_CREATE : Z := 1.
Definition XATTR_REPLACE : Z := 2.
Definition SYNC_EA : cstring := cstr "Sync by EA".

(** ** Names *)

Fixpoint has_prefix (p s : cstring) : bool :=
  match p, s with
  | [], _ => true
  | a :: p, b :: s => (a =? b) && has_prefix p s
  | _, _ => false
  end.

Definition is_name (name : cstring) (s : string) : bool := bool_decide (name = cstr s).

(** The reserved names that a user may not set or remove; [starts_with] ignores case. *)
Definition is_reserved (name : cstring) : bool :=
  starts_with (cstr "ltfs") name && negb (is_name name "ltfs.spannedFileOffset")
  && negb (starts_with (cstr "ltfs.permissions.") name) && negb (starts_with (cstr "ltfs.hash.") name).

Definition _xattr_strip_name (name : cstring) : option cstring :=
  if has_prefix (cstr "user.") name then Some (drop 5 name) else None.

(** ** Stored attributes *)

(** The position in the list *)
Fixpoint _xattr_seek (name : cstring) (l : list xattr_info) : option nat :=
  match l with
  | [] => None
  | (k, _) :: l => if bool_decide (k = name) then Some O
                   else match _xattr_seek name l with Some i => Some (S i) | None => None end
  end.

Definition stored_value (value : list Z) : option (list Z) := if (length value =? 0)%nat then None else Some value.

Definition xattr_do_set (name : cstring) (value : list Z) (xattr : option nat) (l : list xattr_info) : list xattr_info :=
  match xattr with
  | Some i => alter (fun e => (e.1, stored_value value)) i l
  | None => (name, stored_value value) :: l
  end.

Definition value_of (e : xattr_info) : list Z := default [] e.2.

(** [buffer_size] and what is there for it: the status, and the bytes put into the buffer *)
Definition deliver (size : Z) (v : list Z) : Z * option (list Z) :=
  if negb (size =? 0) && (Z.of_nat (length v) >? size) then (- LTFS_SMALL_BUFFER, None)
  else if negb (size =? 0) then (Z.of_nat (length v), Some v)
  else (Z.of_nat (length v), None).

Section list.
Context (icu : icu_lib).

(** The names that go into the list; [out]: the buffer filled so far *)
Fixpoint list_entries (prefix : cstring) (size : Z) (l : list xattr_info) (nbytes : Z) (out : list Z) : (Z + Z) * list Z :=
  match l with
  | [] => (inr nbytes, out)
  | (k, _) :: l =>
      match pathname_unformat icu k with
      | inl ret => (inl ret, out)
      | inr new_name =>
          if bool_decide (new_name = LTFS_LIVELINK_EA_NAME) then list_entries prefix size l nbytes out
          else
            let nbytes := nbytes + (Z.of_nat (length prefix) + Z.of_nat (length new_name) + 1) in
            list_entries prefix size l nbytes
              (if negb (size =? 0) && (nbytes <=? size) then out ++ prefix ++ new_name ++ [0] else out)
      end
  end.

Definition _xattr_list_physicals (l : list xattr_info) (size : Z) : (Z + Z) * list Z :=
  match pathname_unformat icu (cstr "user.") with
  | inl ret => (inl ret, [])
  | inr prefix => list_entries prefix size l 0 []
  end.

(** The buffer is cleared first. *)
Definition xattr_list (d : Z) (size : Z) : fs_op (Z * option (list Z)) :=
  let* n := deref d in
  let '(r, out) := _xattr_list_physicals (xattrlist n) size in
  let buf := if size =? 0 then None else Some (out ++ replicate (Z.to_nat size - length out) 0) in
  ret_op (match r with
          | inl ret => ret
          | inr nbytes => if negb (size =? 0) && (nbytes >? size) then - LTFS_SMALL_BUFFER else nbytes
          end, buf).
End list.

(** ** Virtual attributes *)

Definition names_everywhere : list string :=
  ["ltfs.createTime"; "ltfs.modifyTime"; "ltfs.accessTime"; "ltfs.changeTime"; "ltfs.backupTime"; "ltfs.fileUID";
   "ltfs.volumeUUID"; "ltfs.volumeName"; "ltfs.driveCaptureDump"; "ltfs.softwareVersion"; "ltfs.softwareFormatSpec";
   "ltfs.softwareVendor"; "ltfs.softwareProduct"; "ltfs.mamApplicationVendor"; "ltfs.mamApplicationName";
   "ltfs.mamApplicationVersion"; "ltfs.mamApplicationFormatVersion"; "ltfs.mamVolumeName"; "ltfs.mamBarcode"]%string.

Definition names_of_root : list string :=
  ["ltfs.commitMessage"; "ltfs.indexVersion"; "ltfs.labelVersion"; "ltfs.sync"; "ltfs.indexGeneration"; "ltfs.indexTime";
   "ltfs.policyExists"; "ltfs.policyAllowUpdate"; "ltfs.volumeFormatTime"; "ltfs.volumeBlocksize";
   "ltfs.volumeCompression"; "ltfs.indexLocation"; "ltfs.indexPrevious"; "ltfs.indexCreator"; "ltfs.labelCreator";
   "ltfs.partitionMap"; "ltfs.volumeSerial"; "ltfs.mediaLoads"; "ltfs.mediaRecoveredWriteErrors";
   "ltfs.mediaPermanentWriteErrors"; "ltfs.mediaRecoveredReadErrors"; "ltfs.mediaPermanentReadErrors";
   "ltfs.mediaPreviousPermanentWriteErrors"; "ltfs.mediaPreviousPermanentReadErrors";
   "ltfs.mediaBeginningMediumPasses"; "ltfs.mediaMiddleMediumPasses"; "ltfs.mediaEfficiency";
   "ltfs.mediaStorageAlert"; "ltfs.mediaDatasetsWritten"; "ltfs.mediaDatasetsRead"; "ltfs.mediaMBWritten";
   "ltfs.mediaMBRead"; "ltfs.mediaDataPartitionTotalCapacity"; "ltfs.mediaDataPartitionAvailableSpace";
   "ltfs.mediaIndexPartitionTotalCapacity"; "ltfs.mediaIndexPartitionAvailableSpace"; "ltfs.mediaEncrypted";
   "ltfs.driveEncryptionState"; "ltfs.driveEncryptionMethod"; "ltfs.vendor.IBM.referencedBlocks";
   "ltfs.vendor.IBM.trace"; "ltfs.vendor.IBM.totalBlocks"; "ltfs.vendor.IBM.cartridgeMountNode";
   "ltfs.vendor.IBM.logLevel"; "ltfs.vendor.IBM.syslogLevel"]%string.

Definition _xattr_is_virtual (d : Z) (n : fsnode) (name : cstring) (t : fs_state) : bool :=
  existsb (is_name name) names_everywhere
  || (negb (isdir n) && negb (bool_decide (extentlist (file n) = []))
      && (is_name name "ltfs.partition" || is_name name "ltfs.startblock"))
  || ((d =? root t)
      && ((have_criteria (criteria_of t) && is_name name "ltfs.policyMaxFileSize")
          || existsb (is_name name) names_of_root || has_prefix (cstr "ltfs.vendor") name)).

(** *** Texts of values *)

(** "%d" and "%PRId64" *)
Definition print_int (n : Z) : cstring := if n <? 0 then 45 :: print_dec (- n) else print_dec n.

Definition hex_digit (n : Z) : Z := nth (Z.to_nat n) (cstr "0123456789abcdef") 0.
Fixpoint print_hex (digits : nat) (n : Z) (acc : cstring) : cstring :=
  match digits with O => acc | S k => print_hex k (n / 16) (hex_digit (n mod 16) :: acc) end.

Definition bool_text (b : bool) : cstring := if b then cstr "true" else cstr "false".

Definition _xattr_get_version (version : Z) : cstring :=
  if version =? 10000 then cstr "1.0"
  else print_int (Z.quot version 10000) ++ [46] ++ print_int (Z.quot (Z.rem version 10000) 100) ++ [46] ++ print_int (Z.rem version 100).

Definition _xattr_get_tapepos (val : tape_offset) : cstring := off_partition val :: 58 :: print_dec (off_block val).
Definition _xattr_get_partmap (lbl : ltfs_label) : cstring := cstr "I:" ++ [partid_ip lbl] ++ cstr ",D:" ++ [partid_dp lbl].

(** A status and the text; the status that a time is out of range is not passed on. *)
Definition reported : Type := Z * option cstring.
Definition _xattr_get_string (val : option cstring) : reported := (0, val).
Definition text (s : cstring) : reported := (0, Some s).
Definition _xattr_get_u64 (n : Z) : reported := text (print_dec n).
Definition _xattr_get_time (t : Z * Z) : reported :=
  let '(ret, s) := xml_format_time (to_timespec t) in (if ret =? LTFS_TIME_OUT_OF_RANGE then 0 else ret, Some s).

(** [strtoul(v, &end, base)] for base 16, or 0 for the base that the prefix gives: the
    value and whether all of [v] was used *)
Definition digit_value (c : Z) : Z :=
  if isdigit c then c - 48 else if (97 <=? tolower c) && (tolower c <=? 102) then tolower c - 87 else 16.

Fixpoint scan_base (base acc : Z) (s : cstring) : Z * cstring :=
  match s with
  | c :: s' => if digit_value c <? base then scan_base base (acc * base + digit_value c) s' else (acc, s)
  | [] => (acc, [])
  end.

(** What is behind the sign; [s]: the string from its beginning *)
Definition scan_unsigned (base : Z) (negative : bool) (body s : cstring) : Z * bool :=
  let '(base, digits) :=
    match body with
    | 48 :: x :: c :: rest =>
        if (tolower x =? 120) && (digit_value c <? 16) && ((base =? 16) || (base =? 0)) then (16, c :: rest)
        else (if base =? 0 then 8 else base, body)
    | 48 :: _ => (if base =? 0 then 8 else base, body)
    | _ => (if base =? 0 then 10 else base, body)
    end in
  match digits with
  | c :: _ =>
      if digit_value c <? base then
        let '(v, rest) := scan_base base 0 digits in
        (if v >? ULLONG_MAX then ULLONG_MAX else if negative then u64 (- v) else v, bool_decide (rest = []))
      else (0, bool_decide (s = []))
  | [] => (0, bool_decide (s = []))
  end.

Definition strtoul_all (base : Z) (s : cstring) : Z * bool :=
  match skip_spaces s with
  | 45 :: body => scan_unsigned base true body s
  | 43 :: body => scan_unsigned base false body s
  | body => scan_unsigned base false body s
  end.

(** What the build fixes *)
Record build := { PACKAGE_VERSION : cstring; LTFS_VENDOR_NAME : cstring; SOFTWARE_PRODUCT_NAME : cstring }.

(** The tracing facility: what it reports, and its answers to settings *)
Record trace_ops := {
  ltfs_trace_get_offset : reported;
  ltfs_get_trace_status : reported;
  ltfs_set_trace_status : cstring -> Z;
  ltfs_dump : cstring -> Z;
  ltfs_trace_dump : cstring -> Z;
  ltfs_profiler_set : Z -> Z
}.

Section xattr.
Context {D : Type} (ops : tape_ops D) (lops : load_ops D) (iops : info_ops D).
Context (xml : fs_state -> xml_lib) (update_mam_attr : D -> Z * D).
Context (wait_revalidation : ltfs_volume D -> Z * ltfs_volume D).
Context (revalidate : bool -> ltfs_volume D -> Z * ltfs_volume D).
Context (icu : icu_lib) (graphemes : list Z -> option (list (list Z))).
Context (retries : nat).
Context (names : build) (traces : trace_ops).
(** [_xattr_get_cartridge_capacity], which computes with [double], of the field with the
    name; and [periodic_sync_thread_signal], where synchronisation is periodic *)
Context (cartridge_capacity : cstring -> VolumeInfo.vop (D := D) reported).
Context (periodic_sync : option Z).

Abbreviation vop := (VolumeInfo.vop (D := D)).

Definition the_node (d : Z) : vop fsnode := on_mount (fs_deref d).
Definition change_node (d : Z) (f : fsnode -> fsnode) : vop unit := on_mount (fs_update d f).
Definition note_dirty : vop unit := on_mount (mark_dirty false).
Definition the_tree : vop fs_state := on_mount (on_tree get_state).
Definition volume_of : vop (ltfs_volume D) := on_mount the_volume.

(** *** Reading *)

Definition _xattr_get_cartridge_health (now : Z * Z) (val : cartridge_health_info -> Z) : vop reported :=
  let* '(ret, h) := ltfs_get_cartridge_health ops iops now unsupported_health in
  ret_op (if ret =? 0 then text (print_int (val h)) else (ret, None)).

Definition _xattr_get_cartridge_health_u64 (now : Z * Z) (val : cartridge_health_info -> Z) : vop reported :=
  let* '(ret, h) := ltfs_get_cartridge_health ops iops now unsupported_health in
  ret_op (if (ret =? 0) && negb (s64 (val h) =? UNSUPPORTED_CARTRIDGE_HEALTH) then text (print_dec (val h))
          else if ret =? 0 then text (print_int UNSUPPORTED_CARTRIDGE_HEALTH) else (ret, None)).

Definition _xattr_get_vendorunique_xattr (now : Z * Z) (name : cstring) : vop reported :=
  let* '(ret, val) := ltfs_get_vendorunique_xattr ops iops now name in
  ret_op (ret, if ret =? 0 then val else None).

(** "EAs on all dentries" *)
Definition virtual_everywhere (d : Z) (name : cstring) : vop reported :=
  let* n := the_node d in
  let* vol := volume_of in
  let* r := get_rest in
  if is_name name "ltfs.createTime" then ret_op (_xattr_get_time (creation_time n))
  else if is_name name "ltfs.modifyTime" then ret_op (_xattr_get_time (modify_time (file n)))
  else if is_name name "ltfs.accessTime" then ret_op (_xattr_get_time (access_time (file n)))
  else if is_name name "ltfs.changeTime" then ret_op (_xattr_get_time (change_time (file n)))
  else if is_name name "ltfs.backupTime" then ret_op (_xattr_get_time (backup_time n))
  else if is_name name "ltfs.driveCaptureDump" then
    let* ret := device_call (tape_takedump_drive iops) in ret_op (ret, None)
  else if is_name name "ltfs.fileUID" then ret_op (_xattr_get_u64 (uid n))
  else if is_name name "ltfs.volumeUUID" then ret_op (text (vol_uuid (label vol)))
  else if is_name name "ltfs.volumeName" then ret_op (_xattr_get_string (idx_volume_name r))
  else if is_name name "ltfs.softwareVersion" then ret_op (text (PACKAGE_VERSION names))
  else if is_name name "ltfs.softwareFormatSpec" then ret_op (text LTFS_INDEX_VERSION_STR)
  else if is_name name "ltfs.softwareVendor" then ret_op (text (LTFS_VENDOR_NAME names))
  else if is_name name "ltfs.softwareProduct" then ret_op (text (SOFTWARE_PRODUCT_NAME names))
  else if is_name name "ltfs.mamApplicationVendor" then ret_op (_xattr_get_string (appl_vendor (mam_attr r)))
  else if is_name name "ltfs.mamApplicationName" then ret_op (_xattr_get_string (appl_name (mam_attr r)))
  else if is_name name "ltfs.mamApplicationVersion" then ret_op (_xattr_get_string (appl_ver (mam_attr r)))
  else if is_name name "ltfs.mamApplicationFormatVersion" then ret_op (_xattr_get_string (appl_format_ver (mam_attr r)))
  else if is_name name "ltfs.mamVolumeName" then ret_op (_xattr_get_string (mam_volume_name (mam_attr r)))
  else if is_name name "ltfs.mamBarcode" then ret_op (_xattr_get_string (mam_barcode (mam_attr r)))
  else if is_name name "ltfs.vendor.IBM.logLevel" then ret_op (text (print_int (ltfs_log_level r)))
  else if is_name name "ltfs.vendor.IBM.syslogLevel" then ret_op (text (print_int (ltfs_syslog_level r)))
  else if is_name name "ltfs.vendor.IBM.profiler" then
    ret_op (let '(ret, val) := ltfs_trace_get_offset traces in if ret <? 0 then (- LTFS_NO_MEMORY, None) else (ret, val))
  else ret_op (- LTFS_NO_XATTR, None).

(** "EAs on non-empty files" *)
Definition virtual_of_file (n : fsnode) (name : cstring) : reported :=
  match extentlist (file n) with
  | [] => (- LTFS_NO_XATTR, None)
  | e :: _ =>
      if isdir n then (- LTFS_NO_XATTR, None)
      else if is_name name "ltfs.partition" then text [off_partition (start e)]
      else if is_name name "ltfs.startblock" then _xattr_get_u64 (off_block (start e))
      else (- LTFS_NO_XATTR, None)
  end.

(** The attributes of the root that the drive is asked for; [None]: the name is none of
    them *)
Definition drive_attribute (now : Z * Z) (name : cstring) : option (vop reported) :=
  if is_name name "ltfs.mediaLoads" then Some (_xattr_get_cartridge_health now mounts)
  else if is_name name "ltfs.mediaRecoveredWriteErrors" then Some (_xattr_get_cartridge_health now write_temps)
  else if is_name name "ltfs.mediaPermanentWriteErrors" then Some (_xattr_get_cartridge_health now write_perms)
  else if is_name name "ltfs.mediaRecoveredReadErrors" then Some (_xattr_get_cartridge_health now read_temps)
  else if is_name name "ltfs.mediaPermanentReadErrors" then Some (_xattr_get_cartridge_health now read_perms)
  else if is_name name "ltfs.mediaPreviousPermanentWriteErrors" then Some (_xattr_get_cartridge_health now write_perms_prev)
  else if is_name name "ltfs.mediaPreviousPermanentReadErrors" then Some (_xattr_get_cartridge_health now read_perms_prev)
  else if is_name name "ltfs.mediaBeginningMediumPasses" then Some (_xattr_get_cartridge_health now passes_begin)
  else if is_name name "ltfs.mediaMiddleMediumPasses" then Some (_xattr_get_cartridge_health now passes_middle)
  else if is_name name "ltfs.mediaEfficiency" then Some (_xattr_get_cartridge_health now tape_efficiency)
  else if is_name name "ltfs.mediaDatasetsWritten" then Some (_xattr_get_cartridge_health_u64 now written_ds)
  else if is_name name "ltfs.mediaDatasetsRead" then Some (_xattr_get_cartridge_health_u64 now read_ds)
  else if is_name name "ltfs.mediaMBWritten" then Some (_xattr_get_cartridge_health_u64 now written_mbytes)
  else if is_name name "ltfs.mediaMBRead" then Some (_xattr_get_cartridge_health_u64 now read_mbytes)
  else if is_name name "ltfs.mediaStorageAlert" then
    Some (let* '(ret, alert) := ltfs_get_tape_alert_unlocked ops lops now 0 in
          ret_op (if ret <? 0 then (ret, None) else text (cstr "0x" ++ print_hex 16 alert [])))
  else if is_name name "ltfs.mediaDataPartitionTotalCapacity" || is_name name "ltfs.mediaDataPartitionAvailableSpace"
          || is_name name "ltfs.mediaIndexPartitionTotalCapacity" || is_name name "ltfs.mediaIndexPartitionAvailableSpace"
  then Some (cartridge_capacity name)
  else if is_name name "ltfs.mediaEncrypted" then
    Some (let* s := device_call (tape_get_media_encrypted lops) in ret_op (text s))
  else if is_name name "ltfs.driveEncryptionState" then
    Some (let* s := device_call (tape_get_drive_encryption_state lops) in ret_op (text s))
  else if is_name name "ltfs.driveEncryptionMethod" then
    Some (let* s := device_call (tape_get_drive_encryption_method lops) in ret_op (text s))
  else None.

(** The attributes of the root that the program knows itself *)
Definition volume_attribute (vol : ltfs_volume D) (t : fs_state) (r : details) (name : cstring) : option reported :=
  let idx := index vol in
  let lbl := label vol in
  if is_name name "ltfs.commitMessage" then Some (_xattr_get_string (idx_commit_message r))
  else if is_name name "ltfs.volumeSerial" then Some (text (barcode lbl))
  else if is_name name "ltfs.volumeFormatTime" then Some (_xattr_get_time (format_time lbl))
  else if is_name name "ltfs.volumeBlocksize" then Some (_xattr_get_u64 (blocksize lbl))
  else if is_name name "ltfs.indexGeneration" then Some (_xattr_get_u64 (generation idx))
  else if is_name name "ltfs.indexTime" then Some (_xattr_get_time (mod_time idx))
  else if is_name name "ltfs.policyExists" then Some (text (bool_text (have_criteria (criteria_of t))))
  else if is_name name "ltfs.policyAllowUpdate" then Some (text (bool_text (idx_allow_update r)))
  else if is_name name "ltfs.policyMaxFileSize" && have_criteria (criteria_of t)
  then Some (_xattr_get_u64 (max_filesize_criteria (criteria_of t)))
  else if is_name name "ltfs.volumeCompression" then Some (text (bool_text (enable_compression lbl)))
  else if is_name name "ltfs.indexLocation" then Some (text (_xattr_get_tapepos (selfptr idx)))
  else if is_name name "ltfs.indexPrevious" then Some (text (_xattr_get_tapepos (backptr idx)))
  else if is_name name "ltfs.indexCreator" then Some (text (idx_creator idx))
  else if is_name name "ltfs.labelCreator" then Some (_xattr_get_string (label_creator lbl))
  else if is_name name "ltfs.indexVersion" then Some (text (_xattr_get_version (idx_version idx)))
  else if is_name name "ltfs.labelVersion" then Some (text (_xattr_get_version (label_version lbl)))
  else if is_name name "ltfs.partitionMap" then Some (text (_xattr_get_partmap lbl))
  else None.

(** "EAs on root dentry".  A name that is just "ltfs.vendor" is read behind its end. *)
Definition virtual_of_root (now : Z * Z) (name : cstring) : vop reported :=
  let* vol := volume_of in
  let* t := the_tree in
  let* r := get_rest in
  match volume_attribute vol t r name with
  | Some x => ret_op x
  | None =>
      match drive_attribute now name with
      | Some f => f
      | None =>
          if is_name name "ltfs.vendor.IBM.referencedBlocks" then ret_op (_xattr_get_u64 (valid_blocks t))
          else if is_name name "ltfs.vendor.IBM.trace" then ret_op (ltfs_get_trace_status traces)
          else if is_name name "ltfs.vendor.IBM.totalBlocks" then
            let '(ret, pos) := ltfs_get_append_position vol in
            ret_op (if ret <? 0 then (ret, None) else _xattr_get_u64 pos)
          else if is_name name "ltfs.vendor.IBM.cartridgeMountNode" then ret_op (text (cstr "localhost"))
          else if has_prefix (cstr "ltfs.vendor") name then
            if is_name name "ltfs.vendor" then undefined
            else if has_prefix (LTFS_VENDOR_NAME names) (drop 12 name) then _xattr_get_vendorunique_xattr now name
            else ret_op (- LTFS_NO_XATTR, None)
          else if is_name name "ltfs.sync" then ret_op (- LTFS_RDONLY_XATTR, None)
          else ret_op (- LTFS_NO_XATTR, None)
      end
  end.

Definition _xattr_get_virtual (now : Z * Z) (d : Z) (buf_size : Z) (name : cstring) : vop (Z * option (list Z)) :=
  let* '(ret, val) := virtual_everywhere d name in
  let* n := the_node d in
  let '(ret, val) := if ret =? - LTFS_NO_XATTR then virtual_of_file n name else (ret, val) in
  let* t := the_tree in
  let* '(ret, val) := (if (ret =? - LTFS_NO_XATTR) && (d =? root t) then virtual_of_root now name else ret_op (ret, val)) in
  ret_op (match val with
          | None => (ret, None)
          | Some val =>
              if negb (buf_size =? 0)
              then if buf_size <? Z.of_nat (length val) then (- LTFS_SMALL_BUFFER, None)
                   else (Z.of_nat (length val), Some val)
              else (Z.of_nat (length val), None)
          end).

Definition xattr_get (now : Z * Z) (d : Z) (name : cstring) (size : Z) : vop (Z * option (list Z)) :=
  let* n := the_node d in
  let* t := the_tree in
  let stored := (let* n := the_node d in
                 ret_op (match _xattr_seek name (xattrlist n) with
                         | None => (- LTFS_NO_XATTR, None)
                         | Some i => deliver size (match xattrlist n !! i with Some e => value_of e | None => [] end)
                         end)) in
  if _xattr_is_virtual d n name t then
    let* '(ret, out) := _xattr_get_virtual now d size name in
    if ret =? - LTFS_DEVICE_FENCED then
      let* ret := on_mount (on_volume wait_revalidation) in
      ret_op (if ret =? 0 then - LTFS_RESTART_OPERATION else ret, out)
    else if NEED_REVAL ret then
      let* ret := on_mount (on_volume (revalidate false)) in
      ret_op (if ret =? 0 then - LTFS_RESTART_OPERATION else ret, out)
    else if IS_UNEXPECTED_MOVE ret then update_volume (set_reval (- LTFS_REVAL_FAILED)) ;;; ret_op (ret, out)
    else if negb (ret =? - LTFS_NO_XATTR) then ret_op (ret, out)
    else stored
  else stored.

(** *** Setting *)

(** The copy of the value with a terminator *)
Definition terminated (value : list Z) : cstring := text_in value.

Definition _xattr_set_time (d : Z) (set : Z * Z -> fsnode -> fsnode) (value : list Z) : vop Z :=
  match xml_parse_time (terminated value) with
  | (ret, Some t) =>
      if ret <? 0 then ret_op (- LTFS_BAD_ARG)
      else change_node d (set (tv_sec t, tv_nsec t)) ;;; note_dirty ;;;
           ret_op (if ret =? LTFS_TIME_OUT_OF_RANGE then 0 else ret)
  | (_, None) => ret_op (- LTFS_BAD_ARG)
  end.

(** A number in the value, or [-LTFS_STRING_CONVERSION] *)
Definition with_number (base : Z) (value : list Z) (f : Z -> vop Z) : vop Z :=
  let '(v, whole) := strtoul_all base (terminated value) in
  if whole then f v else ret_op (- LTFS_STRING_CONVERSION).

Definition set_sync (now : Z * Z) (junk : list Z) : vop Z :=
  match periodic_sync with
  | Some ret => ret_op ret
  | None => ltfs_sync_index ops xml update_mam_attr revalidate retries now junk SYNC_EA false
  end.

(** What [pathname_format] makes of a value; [None]: an empty value *)
Definition format_value (value : list Z) (validate allow_slash : bool) : Z + option cstring :=
  match value with
  | [] => inr None
  | _ => match pathname_format icu (terminated value) validate allow_slash with inl ret => inl ret | inr s => inr (Some s) end
  end.

(** A value is never so long that the source's check of [INDEX_MAX_COMMENT_LEN] applies,
    and the status it would set is overwritten. *)
Definition store_commit_message (value : list Z) : vop Z :=
  match format_value value false true with
  | inl ret => ret_op ret
  | inr msg => update_rest (fun r => set_texts (idx_volume_name r) msg r) ;;; note_dirty ;;; ret_op 0
  end.

Definition store_volume_name (value : list Z) : vop Z :=
  match format_value (take (Z.to_nat MAX_VOLUME_NAME_SIZE) value) true false with
  | inl ret => ret_op ret
  | inr new_value =>
      update_rest (fun r => set_texts new_value (idx_commit_message r) r) ;;; note_dirty ;;;
      let* ret := device_call (tape_update_mam iops new_value TC_MAM_USR_MED_TXT_LABEL None) in
      if ret =? 0 then reread_mam ops TC_MAM_USR_MED_TXT_LABEL else ret_op ret
  end.

Definition store_mam_barcode (value : list Z) : vop Z :=
  match format_value value true false with
  | inl ret => ret_op ret
  | inr new_value =>
      let '(ret, code) := match new_value with
                          | None => (- LTFS_BARCODE_LENGTH, None)
                          | Some s => let '(ret, s) := ltfs_string_toupper s in (ret, Some s)
                          end in
      let ret := if ret =? 0 then ltfs_validate_barcode code else ret in
      if ret <? 0 then ret_op ret
      else
        let* ret := device_call (tape_update_mam iops None TC_MAM_BARCODE code) in
        if ret =? 0 then reread_mam ops TC_MAM_BARCODE else ret_op ret
  end.

Definition change_file_time (set : Z * Z -> dentry -> dentry) (t : Z * Z) (n : fsnode) : fsnode := on_file (set t) n.

(** The attributes the tracing facility takes *)
Definition set_traces (name : cstring) (value : list Z) : option (vop Z) :=
  if is_name name "ltfs.vendor.IBM.trace" then Some (ret_op (ltfs_set_trace_status traces (terminated value)))
  else if is_name name "ltfs.vendor.IBM.dump" then Some (ret_op (ltfs_dump traces (terminated value)))
  else if is_name name "ltfs.vendor.IBM.dumpTrace" then Some (ret_op (ltfs_trace_dump traces (terminated value)))
  else if is_name name "ltfs.vendor.IBM.profiler" then
    Some (with_number 0 value (fun v => ret_op (ltfs_profiler_set traces v)))
  else None.

Definition _xattr_set_virtual (now : Z * Z) (junk : list Z) (d : Z) (name : cstring) (value : list Z) : vop Z :=
  let* t := the_tree in
  let is_root := d =? root t in
  if is_name name "ltfs.sync" && is_root then set_sync now junk
  else if is_name name "ltfs.commitMessage" && is_root then store_commit_message value
  else if (is_name name "ltfs.volumeName" || is_name name "ltfs.mamVolumeName") && is_root then store_volume_name value
  else if is_name name "ltfs.mamBarcode" && is_root then store_mam_barcode value
  else if is_name name "ltfs.createTime" then _xattr_set_time d set_creation_time value
  else if is_name name "ltfs.modifyTime" then
    change_node d (on_file (set_change_time now)) ;;; _xattr_set_time d (change_file_time set_modify_time) value
  else if is_name name "ltfs.changeTime" then _xattr_set_time d (change_file_time set_change_time) value
  else if is_name name "ltfs.accessTime" then _xattr_set_time d (change_file_time set_access_time) value
  else if is_name name "ltfs.backupTime" then _xattr_set_time d set_backup_time value
  else if is_name name "ltfs.driveCaptureDump" then device_call (tape_takedump_drive iops)
  else if is_name name "ltfs.mediaStorageAlert" then with_number 16 value (ltfs_clear_tape_alert ops iops now)
  else if is_name name "ltfs.vendor.IBM.logLevel" then
    with_number 0 value (fun v => update_rest (fun r => set_levels (s32 v) (ltfs_syslog_level r) r) ;;; ret_op 0)
  else if is_name name "ltfs.vendor.IBM.syslogLevel" then
    with_number 0 value (fun v => update_rest (fun r => set_levels (ltfs_log_level r) (s32 v) r) ;;; ret_op 0)
  else match set_traces name value with
  | Some f => f
  | None =>
      if has_prefix (cstr "ltfs.vendor") name then
        if is_name name "ltfs.vendor" then undefined
        else if has_prefix (LTFS_VENDOR_NAME names) (drop 12 name) then ltfs_set_vendorunique_xattr ops iops now name value
        else ret_op 0
      else ret_op (- LTFS_NO_XATTR)
  end.

(** The attribute is put into the dentry. *)
Definition xattr_store (now : Z * Z) (d : Z) (name : cstring) (value : list Z) (flags : Z) : vop Z :=
  let* n := the_node d in
  let xattr := _xattr_seek name (xattrlist n) in
  let found := match xattr with Some _ => true | None => false end in
  if negb (Z.land flags XATTR_CREATE =? 0) && found then ret_op (- LTFS_XATTR_EXISTS)
  else if negb (Z.land flags XATTR_REPLACE =? 0) && negb found then ret_op (- LTFS_NO_XATTR)
  else
    change_node d (fun n => set_xattrs (xattr_do_set name value xattr (xattrlist n)) n) ;;;
    change_node d (on_file (set_change_time now)) ;;;
    note_dirty ;;; ret_op 0.

Definition xattr_set (now : Z * Z) (junk : list Z) (d : Z) (name : cstring) (value : list Z) (flags : Z) : vop Z :=
  if Z.of_nat (length value) >? LTFS_MAX_XATTR_SIZE then ret_op (- LTFS_LARGE_XATTR)
  else
    let* n := the_node d in
    let* t := the_tree in
    if _xattr_is_virtual d n name t then
      let* ret := _xattr_set_virtual now junk d name value in
      ret_op (if ret =? - LTFS_NO_XATTR then - LTFS_RDONLY_XATTR else ret)
    else if is_reserved name then ret_op (- LTFS_RDONLY_XATTR)
    else xattr_store now d name value flags.

(** *** Removing *)

Definition _xattr_remove_virtual (d : Z) (name : cstring) : vop Z :=
  let* t := the_tree in
  let* r := get_rest in
  if is_name name "ltfs.commitMessage" && (d =? root t) then
    (if idx_commit_message r is Some _
     then update_rest (fun r => set_texts (idx_volume_name r) None r) ;;; note_dirty else ret_op tt) ;;;
    ret_op 0
  else if is_name name "ltfs.volumeName" && (d =? root t) then
    (if idx_volume_name r is Some _
     then update_rest (fun r => set_texts None (idx_commit_message r) r) ;;; note_dirty else ret_op tt) ;;;
    let* ret := device_call (tape_update_mam iops None 0 None) in
    let* _ := reread_mam ops TC_MAM_USR_MED_TXT_LABEL in
    ret_op ret
  else ret_op (- LTFS_NO_XATTR).

Definition xattr_do_remove (now : Z * Z) (d : Z) (name : cstring) (force : bool) : vop Z :=
  let* n := the_node d in
  match _xattr_seek name (xattrlist n) with
  | None => ret_op (- LTFS_NO_XATTR)
  | Some i =>
      if negb force && is_reserved name then ret_op (- LTFS_RDONLY_XATTR)
      else
        change_node d (fun n => set_xattrs (delete i (xattrlist n)) n) ;;;
        change_node d (on_file (set_change_time now)) ;;; ret_op 0
  end.

Definition xattr_remove (now : Z * Z) (d : Z) (name : cstring) : vop Z :=
  let* n := the_node d in
  let* t := the_tree in
  if _xattr_is_virtual d n name t then
    let* ret := _xattr_remove_virtual d name in
    ret_op (if ret =? - LTFS_NO_XATTR then - LTFS_RDONLY_XATTR else ret)
  else
    let* ret := xattr_do_remove now d name false in
    note_dirty ;;; ret_op ret.

(** Used when the length of the mount point is kept with a symbolic link *)
Definition xattr_set_mountpoint_length (d : Z) (value : list Z) : vop Z :=
  let* n := the_node d in
  let xattr := _xattr_seek LTFS_LIVELINK_EA_NAME (xattrlist n) in
  change_node d (fun n => set_xattrs (xattr_do_set LTFS_LIVELINK_EA_NAME value xattr (xattrlist n)) n) ;;; ret_op 0.

(** ** The operations *)

(** The name as the volume keeps it, or the error; [bad_namespace]: the one for a name
    that does not begin with "user." *)
Definition format_name (name : cstring) (bad_namespace : Z) : Z + cstring :=
  match pathname_format icu name true false with
  | inl ret => inl ret
  | inr new_name =>
      match _xattr_strip_name new_name with
      | None => inl bad_namespace
      | Some strip => let ret := pathname_validate_xattr_name icu strip in if ret <? 0 then inl ret else inr strip
      end
  end.

(** From the lock of the volume to the end; [id] is what [ltfs_file_id] holds. *)
Fixpoint setxattr_loop (fuel : nat) (now : Z * Z) (junk : list Z) (path new_path name : cstring) (value : list Z) (flags : Z)
    (id : Z * Z) : vop (Z * (Z * Z)) :=
  match fuel with
  | O => undefined
  | S fuel =>
      let write_lock := is_name name "ltfs.sync" && bool_decide (path = [SLASH]) in
      let* ret := (if write_lock then on_mount (ltfs_fsops_flush None) else ret_op 0) in
      if ret <? 0 then ret_op (ret, id)
      else
        let* ret := on_mount get_volume_lock in
        if ret <? 0 then ret_op (ret, id)
        else
          let* r := on_mount (on_tree (fs_path_lookup new_path 0)) in
          match r with
          | inl ret => ret_op (ret, id)
          | inr d =>
              let* n := the_node d in
              let id := (uid n, ino n) in
              let* _ := xattr_get now d name LTFS_MAX_XATTR_SIZE in
              let* ret := xattr_set now junk d name value flags in
              on_mount (on_tree (fs_release_dentry d)) ;;;
              if NEED_REVAL ret then
                let* ret := on_mount (on_volume (revalidate write_lock)) in
                if ret =? 0 then setxattr_loop fuel now junk path new_path name value flags id else ret_op (ret, id)
              else if IS_UNEXPECTED_MOVE ret then update_volume (set_reval (- LTFS_REVAL_FAILED)) ;;; ret_op (ret, id)
              else ret_op (ret, id)
          end
  end.

Definition ltfs_fsops_setxattr (now : Z * Z) (junk : list Z) (path name : cstring) (value : list Z) (flags : Z)
    : vop (Z * (Z * Z)) :=
  if Z.of_nat (length value) >? LTFS_MAX_XATTR_SIZE then ret_op (- LTFS_LARGE_XATTR, no_id)
  else
    let* ret := on_mount (check_writable ops wait_revalidation revalidate retries true now) in
    if ret <? 0 then ret_op (ret, no_id)
    else match format_src_path icu path with
    | inl ret => ret_op (ret, no_id)
    | inr new_path =>
        match format_name name (- LTFS_XATTR_NAMESPACE) with
        | inl ret => ret_op (ret, no_id)
        | inr name => setxattr_loop (S retries) now junk path new_path name value flags no_id
        end
    end.

Fixpoint getxattr_loop (fuel : nat) (now : Z * Z) (new_path name : cstring) (size : Z) (id : Z * Z)
    : vop (Z * option (list Z) * (Z * Z)) :=
  match fuel with
  | O => undefined
  | S fuel =>
      let* ret := on_mount get_volume_lock in
      if ret <? 0 then ret_op (ret, None, id)
      else
        let* r := on_mount (on_tree (fs_path_lookup new_path 0)) in
        match r with
        | inl ret => ret_op (ret, None, id)
        | inr d =>
            let* n := the_node d in
            let* '(ret, out) := xattr_get now d name size in
            on_mount (on_tree (fs_release_dentry d)) ;;;
            if ret =? - LTFS_RESTART_OPERATION then getxattr_loop fuel now new_path name size (uid n, ino n)
            else ret_op (ret, out, (uid n, ino n))
        end
  end.

Definition ltfs_fsops_getxattr (now : Z * Z) (path name : cstring) (size : Z) : vop (Z * option (list Z) * (Z * Z)) :=
  match format_src_path icu path with
  | inl ret => ret_op (ret, None, no_id)
  | inr new_path =>
      match format_name name (- LTFS_NO_XATTR) with
      | inl ret => ret_op (ret, None, no_id)
      | inr name => getxattr_loop (S retries) now new_path name size no_id
      end
  end.

Definition ltfs_fsops_listxattr (path : cstring) (size : Z) : vop (Z * option (list Z) * (Z * Z)) :=
  match format_src_path icu path with
  | inl ret => ret_op (ret, None, no_id)
  | inr new_path =>
      let* ret := on_mount get_volume_lock in
      if ret <? 0 then ret_op (ret, None, no_id)
      else
        let* r := on_mount (on_tree (fs_path_lookup new_path 0)) in
        match r with
        | inl ret => ret_op (ret, None, no_id)
        | inr d =>
            let* n := the_node d in
            let* '(ret, out) := on_mount (on_tree (xattr_list icu d size)) in
            on_mount (on_tree (fs_release_dentry d)) ;;;
            ret_op (ret, out, (uid n, ino n))
        end
  end.

Definition ltfs_fsops_removexattr (now : Z * Z) (path name : cstring) : vop (Z * (Z * Z)) :=
  let* ret := on_mount (check_writable ops wait_revalidation revalidate retries true now) in
  if ret <? 0 then ret_op (ret, no_id)
  else match format_src_path icu path with
  | inl ret => ret_op (ret, no_id)
  | inr new_path =>
      match format_name name (- LTFS_NO_XATTR) with
      | inl ret => ret_op (ret, no_id)
      | inr name =>
          let* ret := on_mount get_volume_lock in
          if ret <? 0 then ret_op (ret, no_id)
          else
            let* r := on_mount (on_tree (fs_path_lookup new_path 0)) in
            match r with
            | inl ret => ret_op (ret, no_id)
            | inr d =>
                let* n := the_node d in
                let* ret := xattr_remove now d name in
                on_mount (on_tree (fs_release_dentry d)) ;;;
                ret_op (ret, (uid n, ino n))
            end
      end
  end.

End xattr.
