(* ===== verification/XattrSpec.v ===== *)
(** * What the extended attributes promise

    Each dentry has a map from names to values.  The operations of the file system on the
    names that are not virtual act on this map, and on nothing else. *)

From S2P Require Import Prelude Errors TapeOps TapeDev Append Coherency Extents Volume FsRaw.
From S2P Require Import TimeInternal Pathname IndexCriteria FsTree FsOps FsGraph FsTreeSpec FsOpsSpec.
From S2P Require Import XmlLib TapeLoad Label VolumeInfo Xattr.
Open Scope Z_scope.
Open Scope ltfs_scope.

(** ** The list of a dentry as a map *)

Definition attr_map (l : list xattr_info) : gmap cstring (list Z) :=
  list_to_map ((fun e => (e.1, value_of e)) <$> l).

Definition unique_names (l : list xattr_info) : Prop := NoDup l.*1.

Lemma names_of_pairs (l : list xattr_info) : ((fun e => (e.1, value_of e)) <$> l).*1 = l.*1.
Proof. induction l as [|e l IH]; cbn; [done|]. by f_equal. Qed.

Lemma value_of_stored k v : value_of (k, stored_value v) = v.
Proof. by destruct v. Qed.

Lemma seek_spec name l :
  match _xattr_seek name l with
  | Some i => exists e : xattr_info, l !! i = Some e /\ e.1 = name /\ attr_map l !! name = Some (value_of e)
  | None => attr_map l !! name = None
  end.
Proof.
  induction l as [|[k v] l IH]; [done|]. cbn [_xattr_seek].
  case_bool_decide as Hk; [subst k|].
  - exists (name, v). split_and!; [done|done|]. apply lookup_insert_eq.
  - assert (E : attr_map ((k, v) :: l) !! name = attr_map l !! name) by (by apply lookup_insert_ne).
    destruct (_xattr_seek name l) as [i|]; [|exact (eq_trans E IH)].
    destruct IH as (e & H1 & H2 & H3). exists e. split_and!; [done|done|exact (eq_trans E H3)].
Qed.

Lemma do_set_map name v l :
  attr_map (xattr_do_set name v (_xattr_seek name l) l) = <[name := v]> (attr_map l).
Proof.
  unfold xattr_do_set. destruct (_xattr_seek name l) as [i|] eqn:E.
  2: { change (<[name := value_of (name, stored_value v)]> (attr_map l) = <[name := v]> (attr_map l)).
       by rewrite value_of_stored. }
  revert i E. induction l as [|[k w] l IH]; intros i E; [done|]. cbn [_xattr_seek] in E.
  case_bool_decide as Hk; [subst k; injection E as <-|].
  - change (<[name := value_of (name, stored_value v)]> (attr_map l)
            = <[name := v]> (<[name := value_of (name, w)]> (attr_map l))).
    by rewrite value_of_stored, insert_insert_eq.
  - destruct (_xattr_seek name l) as [j|]; [|done]. injection E as <-.
    change (<[k := value_of (k, w)]> (attr_map (alter (fun e => (e.1, stored_value v)) j l))
            = <[name := v]> (<[k := value_of (k, w)]> (attr_map l))).
    rewrite (IH j eq_refl). by apply insert_insert_ne.
Qed.

Lemma alter_names (f : option (list Z) -> option (list Z)) l i :
  (alter (fun e : xattr_info => (e.1, f e.2)) i l).*1 = l.*1.
Proof. revert i. induction l as [|[k w] l IH]; intros [|i]; cbn; [done..|]. by rewrite IH. Qed.

Lemma seek_none_names name l : _xattr_seek name l = None -> name ∉ l.*1.
Proof.
  induction l as [|[k w] l IH]; cbn; [intros _; apply not_elem_of_nil|].
  case_bool_decide as Hk; [done|]. destruct (_xattr_seek name l); [done|]. intros _.
  apply not_elem_of_cons. split; [congruence|by apply IH].
Qed.

Lemma do_set_unique name v l :
  unique_names l -> unique_names (xattr_do_set name v (_xattr_seek name l) l).
Proof.
  unfold unique_names, xattr_do_set. destruct (_xattr_seek name l) as [i|] eqn:E; intros Hu.
  - rewrite (alter_names (fun _ => stored_value v)). exact Hu.
  - apply list.NoDup_cons. split; [|done]. by apply seek_none_names.
Qed.

Lemma delete_map name l i :
  unique_names l -> _xattr_seek name l = Some i -> attr_map (delete i l) = delete name (attr_map l).
Proof.
  revert i. induction l as [|[k w] l IH]; intros i Hu E; [done|]. cbn [_xattr_seek] in E.
  apply list.NoDup_cons in Hu as [Hk Hu].
  case_bool_decide as Hn; [subst k; injection E as <-|].
  - change (attr_map l = delete name (<[name := value_of (name, w)]> (attr_map l))).
    rewrite delete_insert_id; [done|]. apply not_elem_of_list_to_map_1. by rewrite names_of_pairs.
  - destruct (_xattr_seek name l) as [j|]; [|done]. injection E as <-.
    change (<[k := value_of (k, w)]> (attr_map (delete j l)) = delete name (<[k := value_of (k, w)]> (attr_map l))).
    rewrite (IH j) by done. by rewrite delete_insert_ne.
Qed.

Lemma delete_unique l i : unique_names l -> unique_names (delete i l).
Proof.
  unfold unique_names. intros H. eapply sublist_NoDup; [exact H|apply fmap_sublist, sublist_delete].
Qed.

(** ** What the operations mean *)

Definition spec_set (name value : cstring) (flags : Z) (m : gmap cstring (list Z)) : Z * gmap cstring (list Z) :=
  if is_reserved name then (- LTFS_RDONLY_XATTR, m)
  else if negb (Z.land flags XATTR_CREATE =? 0) && bool_decide (is_Some (m !! name)) then (- LTFS_XATTR_EXISTS, m)
  else if negb (Z.land flags XATTR_REPLACE =? 0) && bool_decide (m !! name = None) then (- LTFS_NO_XATTR, m)
  else (0, <[name := value]> m).

Definition spec_get (name : cstring) (size : Z) (m : gmap cstring (list Z)) : Z * option (list Z) :=
  match m !! name with Some v => deliver size v | None => (- LTFS_NO_XATTR, None) end.

Definition spec_remove (name : cstring) (m : gmap cstring (list Z)) : Z * gmap cstring (list Z) :=
  match m !! name with
  | None => (- LTFS_NO_XATTR, m)
  | Some _ => if is_reserved name then (- LTFS_RDONLY_XATTR, m) else (0, delete name m)
  end.

(** ** The state *)

Definition attrs (t : fs_state) : gmap Z (gmap cstring (list Z)) := (fun n => attr_map (xattrlist n)) <$> heap t.

Definition unique_all (t : fs_state) : Prop := forall d n, heap t !! d = Some n -> unique_names (xattrlist n).

(** What else decides which names are virtual *)
Definition same_kind (t t' : fs_state) : Prop :=
  root t' = root t /\ criteria_of t' = criteria_of t
  /\ forall d n', heap t' !! d = Some n' -> exists n, heap t !! d = Some n /\ isdir n' = isdir n
       /\ extentlist (file n') = extentlist (file n).

Lemma same_kind_trans t1 t2 t3 : same_kind t1 t2 -> same_kind t2 t3 -> same_kind t1 t3.
Proof.
  intros (A1 & A2 & A3) (B1 & B2 & B3). split_and!; [congruence..|]. intros d n3 H3.
  destruct (B3 d n3 H3) as (n2 & H2 & ? & ?). destruct (A3 d n2 H2) as (n1 & H1 & ? & ?).
  exists n1. split_and!; [done|congruence..].
Qed.

Lemma counted_nodes hs hs' t t' d n' :
  tree_ok hs t -> counted hs hs' t t' -> heap t' !! d = Some n' ->
  exists n, heap t !! d = Some n /\ payload n' = payload n.
Proof.
  intros Hok (_ & Hb & _) Hn. apply (b_payload _ _ _ Hb d n' Hn). apply (t_fresh _ _ Hok).
  pose proof (lookup_graph _ _ _ Hn) as Hg. rewrite (b_graph _ _ _ Hb) in Hg. unfold rehandle in Hg.
  rewrite lookup_remap in Hg. destruct (graph t !! d) as [c|] eqn:E; [|done].
  apply graph_lookup in E as (n & -> & _). by eexists.
Qed.

Lemma counted_attrs hs hs' t t' :
  tree_ok hs t -> counted hs hs' t t' -> attrs t' = attrs t /\ (unique_all t -> unique_all t') /\ same_kind t t'.
Proof.
  intros Hok Hc. split_and!.
  - apply map_eq. intros d. unfold attrs. rewrite !lookup_fmap. destruct (heap t' !! d) as [n'|] eqn:E; cbn.
    + destruct (counted_nodes _ _ _ _ _ _ Hok Hc E) as (n & -> & Hp). cbn. unfold payload in Hp. do 2 f_equal. congruence.
    + destruct (heap t !! d) as [n|] eqn:E2; [|done].
      destruct (counted_lookup _ _ _ _ _ _ Hc E2) as (? & ? & _). congruence.
  - intros Hu d n' E. destruct (counted_nodes _ _ _ _ _ _ Hok Hc E) as (n & Hn & Hp). unfold payload in Hp.
    replace (xattrlist n') with (xattrlist n) by congruence. by eapply Hu.
  - destruct Hc as (Hok' & Hb & Hk). split; [by apply Hb|]. split; [by apply Hk|].
    intros d n' E. destruct (counted_nodes _ _ _ _ _ _ Hok (conj Hok' (conj Hb Hk)) E) as (n & Hn & Hp).
    exists n. unfold payload in Hp. split_and!; [done|congruence..].
Qed.

(** The attributes of one dentry, and its times, are rewritten. *)
Record rewritten_node (n n' : fsnode) : Prop := {
  rw_core : core_of n' = core_of n;
  rw_ok : node_ok n -> node_ok n';
  rw_isdir : isdir n' = isdir n;
  rw_extents : extentlist (file n') = extentlist (file n);
  rw_unique : unique_names (xattrlist n) -> unique_names (xattrlist n')
}.

Lemma rewritten_refl n : rewritten_node n n.
Proof. by constructor. Qed.

Section node.
Context (hs : Z -> Z) (t : fs_state) (d : Z) (n n' : fsnode).
Context (Hn : heap t !! d = Some n) (Hr : rewritten_node n n').
Let t' : fs_state := set_heap (<[d := n']> (heap t)) t.

Lemma node_graph : graph t' = graph t.
Proof. by apply (graph_update_same d n), Hr. Qed.

Lemma node_tree_ok : tree_ok hs t -> tree_ok hs t'.
Proof.
  intros [A1 A2 A3 A4]. constructor.
  - by rewrite node_graph.
  - intros a m. cbn. destruct (decide (a = d)) as [->|Ha].
    + rewrite lookup_insert_eq. intros [= <-]. apply Hr. by eapply A2.
    + rewrite lookup_insert_ne by done. apply A2.
  - intros a. cbn. destruct (decide (a = d)) as [->|Ha]; [intros _; apply A3; by eexists|].
    rewrite lookup_insert_ne by done. apply A3.
  - intros m. cbn. destruct (decide (root t = d)) as [E|Ha].
    + rewrite E, lookup_insert_eq. intros [= <-]. change (key (core_of n') = Some [SLASH]).
      rewrite (rw_core _ _ Hr). apply A4. by rewrite E.
    + rewrite lookup_insert_ne by done. apply A4.
Qed.

Lemma node_attrs : attrs t' = <[d := attr_map (xattrlist n')]> (attrs t).
Proof. exact (fmap_insert (fun n => attr_map (xattrlist n)) (heap t) d n'). Qed.

Lemma node_unique : unique_all t -> unique_all t'.
Proof.
  intros H a m. cbn. destruct (decide (a = d)) as [->|Ha].
  - rewrite lookup_insert_eq. intros [= <-]. apply Hr. by eapply H.
  - rewrite lookup_insert_ne by done. apply H.
Qed.

Lemma node_kind : same_kind t t'.
Proof.
  split_and!; [done..|]. intros a m. cbn. destruct (decide (a = d)) as [->|Ha].
  - rewrite lookup_insert_eq. intros [= <-]. exists n. split_and!; [done|apply Hr..].
  - rewrite lookup_insert_ne by done. intros H. by exists m.
Qed.
End node.

(** ** Steps of a program on the mounted file system *)

Section steps.
Context {D : Type}.
Implicit Types (s : detailed D).

(** The tree of a state, the volume, and the state with another tree *)
Definition tree_of (s : detailed D) : fs_state := tree (mounted s).
Definition volume_in (s : detailed D) : ltfs_volume D := volume (mounted s).
Definition with_tree (t : fs_state) (s : detailed D) : detailed D :=
  {| mounted := set_tree t (mounted s); rest_of := rest_of s |}.

Lemma with_tree_same s : with_tree (tree_of s) s = s.
Proof. by destruct s as [[? ?] ?]. Qed.

Lemma wp_tree {A} (f : fs_op A) s (Q : A -> detailed D -> Prop) :
  wp f (tree_of s) (fun x t => Q x (with_tree t s)) -> wp (on_mount (on_tree f)) s Q.
Proof. unfold wp, on_mount, on_tree, tree_of. by destruct (f (tree (mounted s))) as [[x t]|]. Qed.

Lemma wp_node s d n (Q : fsnode -> detailed D -> Prop) :
  heap (tree_of s) !! d = Some n -> Q n s -> wp (the_node d) s Q.
Proof. intros Hn HQ. apply wp_tree, (wp_deref _ _ n); [done|]. by rewrite with_tree_same. Qed.

Lemma wp_the_tree s (Q : fs_state -> detailed D -> Prop) : Q (tree_of s) s -> wp the_tree s Q.
Proof. intros HQ. apply wp_tree, wp_get. by rewrite with_tree_same. Qed.

Lemma wp_change s d n f (Q : unit -> detailed D -> Prop) :
  heap (tree_of s) !! d = Some n -> Q tt (with_tree (set_heap (<[d := f n]> (heap (tree_of s))) (tree_of s)) s) ->
  wp (change_node d f) s Q.
Proof. intros Hn HQ. by apply wp_tree, (wp_update _ _ _ n). Qed.

Lemma wp_dirty s (Q : unit -> detailed D -> Prop) :
  (forall s', tree_of s' = tree_of s -> rest_of s' = rest_of s -> dirty (index (volume_in s')) = true -> Q tt s') ->
  wp note_dirty s Q.
Proof. intros HQ. apply HQ; [done|done|]. unfold volume_in. cbn. by destruct (index (volume (mounted s))). Qed.

Lemma wp_lock s (Q : Z -> detailed D -> Prop) :
  Q (ltfs_get_volume_lock (volume_in s)) s -> wp (on_mount get_volume_lock) s Q.
Proof. intros HQ. unfold wp, on_mount, get_volume_lock, bind_op, the_volume, ret_op. by destruct s. Qed.

End steps.

(** ** The operations on a dentry *)

(** The state after an operation on the dentry [d], which is [n] before. *)
Record node_written {D} (s : detailed D) (d : Z) (n : fsnode) (m' : gmap cstring (list Z)) (s' : detailed D) : Prop := {
  nw_node : exists n', rewritten_node n n' /\ attr_map (xattrlist n') = m'
    /\ tree_of s' = set_heap (<[d := n']> (heap (tree_of s))) (tree_of s);
  nw_rest : rest_of s' = rest_of s
}.

Lemma node_written_same {D} (s : detailed D) d n :
  heap (tree_of s) !! d = Some n -> node_written s d n (attr_map (xattrlist n)) s.
Proof.
  intros Hn. constructor; [|done]. exists n. split_and!; [apply rewritten_refl|done|].
  by rewrite insert_id, set_heap_same.
Qed.

Section dentry.
Context {D : Type} (ops : tape_ops D) (lops : load_ops D) (iops : info_ops D).
Context (xml : fs_state -> xml_lib) (update_mam_attr : D -> Z * D).
Context (wait_revalidation : ltfs_volume D -> Z * ltfs_volume D).
Context (revalidate : bool -> ltfs_volume D -> Z * ltfs_volume D).
Context (icu : icu_lib) (retries : nat) (names : build) (traces : trace_ops).
Context (cartridge_capacity : cstring -> VolumeInfo.vop (D := D) reported) (periodic_sync : option Z).
Context (now : Z * Z) (s : detailed D) (d : Z) (n : fsnode) (name : cstring).
Context (Hn : heap (tree_of s) !! d = Some n).

Abbreviation get_attr := (xattr_get ops lops iops wait_revalidation revalidate names traces cartridge_capacity).
Abbreviation set_attr := (xattr_set ops iops xml update_mam_attr revalidate icu retries names traces periodic_sync).

(** Two assignments to the dentry *)
Lemma wp_two_changes f g (Q : unit -> detailed D -> Prop) {B} (k : vop (D := D) B) (QB : B -> detailed D -> Prop) :
  (forall s', tree_of s' = set_heap (<[d := g (f n)]> (heap (tree_of s))) (tree_of s) ->
     volume_in s' = volume_in s -> rest_of s' = rest_of s -> wp k s' QB) ->
  wp (change_node d f ;;; change_node d g ;;; k) s QB.
Proof.
  intros Hk. apply wp_bind, (wp_change _ _ n); [done|]. apply wp_bind, (wp_change _ _ (f n)).
  { apply lookup_insert_eq. }
  apply Hk; [|done|done]. cbn. by rewrite insert_insert_eq, set_heap_twice.
Qed.

Context (Hv : _xattr_is_virtual d n name (tree_of s) = false).

Lemma xattr_get_stored size :
  wp (get_attr now d name size) s (fun r s' => s' = s /\ r = spec_get name size (attr_map (xattrlist n))).
Proof.
  unfold xattr_get. apply wp_bind, (wp_node _ _ n); [done|]. apply wp_bind, wp_the_tree. rewrite Hv.
  apply wp_bind, (wp_node _ _ n); [done|]. apply wp_ret. split; [done|]. unfold spec_get.
  pose proof (seek_spec name (xattrlist n)) as H. destruct (_xattr_seek name (xattrlist n)) as [i|]; [|by rewrite H].
  destruct H as (e & -> & _ & ->). done.
Qed.

Lemma xattr_set_stored junk value flags :
  Z.of_nat (length value) <= LTFS_MAX_XATTR_SIZE ->
  wp (set_attr now junk d name value flags) s (fun ret s' =>
    let '(r, m') := spec_set name value flags (attr_map (xattrlist n)) in
    ret = r /\ node_written s d n m' s' /\ (if ret =? 0 then dirty (index (volume_in s')) = true else s' = s)).
Proof.
  intros Hlen. pose proof (node_written_same s d n Hn) as Hsame. unfold xattr_set, spec_set.
  rewrite Z.gtb_ltb, (proj2 (Z.ltb_ge _ _)) by lia.
  apply wp_bind, (wp_node _ _ n); [done|]. apply wp_bind, wp_the_tree. rewrite Hv.
  destruct (is_reserved name); [by apply wp_ret|]. unfold xattr_store.
  apply wp_bind, (wp_node _ _ n); [done|].
  assert (Hf : bool_decide (is_Some (attr_map (xattrlist n) !! name))
               = match _xattr_seek name (xattrlist n) with Some _ => true | None => false end).
  { pose proof (seek_spec name (xattrlist n)) as H. destruct (_xattr_seek name (xattrlist n)) as [i|].
    - destruct H as (e & _ & _ & ->). done.
    - by rewrite H. }
  assert (Hf' : bool_decide (attr_map (xattrlist n) !! name = None)
               = negb (match _xattr_seek name (xattrlist n) with Some _ => true | None => false end)).
  { rewrite <- Hf. by destruct (attr_map (xattrlist n) !! name). }
  rewrite Hf, Hf'. set (found := match _xattr_seek name (xattrlist n) with Some _ => true | None => false end).
  destruct (negb (Z.land flags XATTR_CREATE =? 0) && found); [by apply wp_ret|].
  destruct (negb (Z.land flags XATTR_REPLACE =? 0) && negb found); [by apply wp_ret|].
  apply wp_two_changes; [exact (fun _ _ => True)|]. intros s1 Ht1 _ Hr1.
  apply wp_bind, wp_dirty. intros s2 Ht2 Hr2 Hd2. apply wp_ret. split_and!; [done| |done].
  constructor; [|congruence]. eexists. split_and!; [| |by rewrite Ht2, Ht1].
  - by constructor; [| intros [? ? ?]; constructor | | | apply do_set_unique].
  - apply do_set_map.
Qed.

Lemma xattr_do_remove_spec :
  unique_names (xattrlist n) ->
  wp (xattr_do_remove now d name false) s (fun ret s' =>
    let '(r, m') := spec_remove name (attr_map (xattrlist n)) in ret = r /\ node_written s d n m' s').
Proof.
  intros Hu. pose proof (node_written_same s d n Hn) as Hsame. unfold xattr_do_remove, spec_remove.
  apply wp_bind, (wp_node _ _ n); [done|].
  pose proof (seek_spec name (xattrlist n)) as H. destruct (_xattr_seek name (xattrlist n)) as [i|] eqn:E.
  2: { rewrite H. by apply wp_ret. }
  destruct H as (e & _ & _ & ->). cbn [negb andb]. destruct (is_reserved name); [by apply wp_ret|].
  apply wp_two_changes; [exact (fun _ _ => True)|]. intros s1 Ht1 _ Hr1. apply wp_ret. split; [done|].
  constructor; [|done]. eexists. split_and!; [| |by rewrite Ht1].
  - by constructor; [| intros [? ? ?]; constructor | | | apply delete_unique].
  - by apply delete_map.
Qed.

Lemma xattr_remove_stored :
  unique_names (xattrlist n) ->
  wp (xattr_remove ops iops now d name) s (fun ret s' =>
    let '(r, m') := spec_remove name (attr_map (xattrlist n)) in
    ret = r /\ node_written s d n m' s' /\ dirty (index (volume_in s')) = true).
Proof.
  intros Hu. unfold xattr_remove. apply wp_bind, (wp_node _ _ n); [done|]. apply wp_bind, wp_the_tree. rewrite Hv.
  eapply wp_seq; [by apply xattr_do_remove_spec|]. intros ret s1.
  destruct (spec_remove name (attr_map (xattrlist n))) as [r m']. intros (-> & [(n' & H1 & H2 & H3) Hr]).
  apply wp_bind, wp_dirty. intros s2 Ht2 Hr2 Hd2. apply wp_ret. split_and!; [done| |done].
  constructor; [|congruence]. exists n'. by rewrite Ht2.
Qed.
End dentry.

(** ** From the path to the dentry and back *)

(** The attributes have become [m']; nothing else has changed that matters to the tree
    or to which names are virtual. *)
Record attrs_became {D} (hs : Z -> Z) (s : detailed D) (m' : gmap Z (gmap cstring (list Z))) (s' : detailed D) : Prop := {
  ab_attrs : attrs (tree_of s') = m';
  ab_tree : tree_ok hs (tree_of s');
  ab_unique : unique_all (tree_of s');
  ab_graph : graph (tree_of s') = graph (tree_of s);
  ab_kind : same_kind (tree_of s) (tree_of s');
  ab_rest : rest_of s' = rest_of s
}.

(** The state with a handle on [d], which the lookup has found *)
Record found {D} (hs : Z -> Z) (s : detailed D) (d : Z) (n1 : fsnode) (s1 : detailed D) : Prop := {
  f_counted : counted hs (bump d 1 hs) (tree_of s) (tree_of s1);
  f_node : heap (tree_of s1) !! d = Some n1;
  f_linked : linked (root (tree_of s)) d (core_of n1) = true;
  f_volume : volume_in s1 = volume_in s;
  f_rest : rest_of s1 = rest_of s
}.

Section path.
Context {D : Type} (hs : Z -> Z) (s : detailed D).
Context (Hok : tree_ok hs (tree_of s)) (Hfew : few hs) (Hu : unique_all (tree_of s)).

Lemma became_counted (s' : detailed D) :
  counted hs hs (tree_of s) (tree_of s') -> rest_of s' = rest_of s -> attrs_became hs s (attrs (tree_of s)) s'.
Proof.
  intros Hc Hr. destruct (counted_attrs _ _ _ _ Hok Hc) as (H1 & H2 & H3). destruct Hc as (Hok' & Hb & _).
  constructor; auto. by rewrite (b_graph _ _ _ Hb), rehandle_same.
Qed.

Lemma found_attrs d n1 s1 :
  found hs s d n1 s1 ->
  attrs (tree_of s) !! d = Some (attr_map (xattrlist n1)) /\ unique_names (xattrlist n1)
  /\ same_kind (tree_of s) (tree_of s1).
Proof.
  intros [Hc Hn1 _ _ _]. destruct (counted_attrs _ _ _ _ Hok Hc) as (<- & H2 & H3).
  split_and!; [|by apply (H2 Hu d)|done]. unfold attrs. by rewrite lookup_fmap, Hn1.
Qed.

Lemma wp_lookup path (Q : Z + Z -> detailed D -> Prop) :
  (forall e s1, follow (graph (tree_of s)) (root (tree_of s)) (path_components path) = inl e ->
     attrs_became hs s (attrs (tree_of s)) s1 -> volume_in s1 = volume_in s -> Q (inl e) s1) ->
  (forall d n1 s1, follow (graph (tree_of s)) (root (tree_of s)) (path_components path) = inr d ->
     found hs s d n1 s1 -> Q (inr d) s1) ->
  wp (on_mount (on_tree (fs_path_lookup path 0))) s Q.
Proof.
  intros HQl HQr. apply wp_tree. pose proof (ok_handles _ _ _ _ (t_graph _ _ Hok)) as Hpos.
  eapply wp_mono; [apply (counted_path_lookup hs hs (tree_of s)); [done|by apply counted_refl|]|].
  { intros a. specialize (Hfew a). specialize (Hpos a). lia. }
  intros r t1 [-> Hc]. destruct (follow _ _ _) as [e|d] eqn:E; cbn [lookup_handles] in Hc.
  - apply HQl; [done| |done]. by apply became_counted.
  - destruct (follow_root_linked _ _ _ _ Hok E) as (n & Hn & Hl).
    assert (Hc' : counted hs (bump d 1 hs) (tree_of s) t1).
    { eapply counted_ext; [|exact Hc]. intros a. rewrite (lookup_graph _ _ _ Hn).
      change (keeps_parent 0) with false. by destruct (up (core_of n)). }
    destruct (counted_lookup _ _ _ _ _ _ Hc' Hn) as (n1 & Hn1 & Hcore).
    apply (HQr d n1); [done|]. constructor; [done|done| |done|done]. by rewrite Hcore.
Qed.

Lemma wp_release d n1 s1 m' s2 :
  found hs s d n1 s1 -> node_written s1 d n1 m' s2 ->
  wp (on_mount (on_tree (fs_release_dentry d))) s2 (fun _ s3 =>
    attrs_became hs s (<[d := m']> (attrs (tree_of s))) s3 /\ volume_in s3 = volume_in s2).
Proof.
  intros [Hc Hn1 Hl _ Hr1] [(n2 & Hrw & <- & Ht2) Hr2]. apply wp_tree.
  destruct (counted_attrs _ _ _ _ Hok Hc) as (Ha1 & Hu1 & Hk1). specialize (Hu1 Hu).
  pose proof (node_tree_ok _ _ _ _ _ Hn1 Hrw (proj1 Hc)) as Hok2. rewrite <- Ht2 in Hok2.
  pose proof (node_unique _ _ _ _ Hn1 Hrw Hu1) as Hu2. rewrite <- Ht2 in Hu2.
  pose proof (node_kind _ _ _ _ Hn1 Hrw) as Hk2. rewrite <- Ht2 in Hk2.
  pose proof (node_graph _ _ _ _ Hn1 Hrw) as Hg2. rewrite <- Ht2 in Hg2.
  assert (Hn2 : heap (tree_of s2) !! d = Some n2) by (rewrite Ht2; apply lookup_insert_eq).
  assert (Hroot : root (tree_of s2) = root (tree_of s)).
  { rewrite Ht2. destruct Hc as (_ & Hb & _). apply (b_root _ _ _ Hb). }
  eapply wp_mono; [apply (release_linked_ok (bump d 1 hs) _ d n2 Hok2)|].
  - apply (few_bounded hs); [done|]. handles.
  - done.
  - pose proof (ok_handles _ _ _ _ (t_graph _ _ Hok) d). handles.
  - by rewrite Hroot, (rw_core _ _ Hrw).
  - intros [] t3 Hc3. split; [|done].
    destruct (counted_attrs _ _ _ _ Hok2 Hc3) as (Ha3 & Hu3 & Hk3). destruct Hc3 as (Hok3 & Hb3 & _).
    constructor.
    + change (tree_of (with_tree t3 s2)) with t3. by rewrite Ha3, Ht2, node_attrs, Ha1.
    + eapply tree_ok_ext; [|exact Hok3]. handles.
    + by apply Hu3.
    + change (tree_of (with_tree t3 s2)) with t3. rewrite (b_graph _ _ _ Hb3), Hg2.
      destruct Hc as (_ & Hb1 & _). rewrite (b_graph _ _ _ Hb1), rehandle_trans. apply rehandle_same. handles.
    + exact (same_kind_trans _ _ _ Hk1 (same_kind_trans _ _ _ Hk2 Hk3)).
    + change (rest_of s2 = rest_of s). congruence.
Qed.
End path.

(** ** The calls of the file system *)

Inductive attr_call :=
| SetAttr (path name : cstring) (value : list Z) (flags : Z)
| GetAttr (path name : cstring) (size : Z)
| RemoveAttr (path name : cstring).

Definition path_of (c : attr_call) : cstring :=
  match c with SetAttr path _ _ _ | GetAttr path _ _ | RemoveAttr path _ => path end.
Definition name_of (c : attr_call) : cstring :=
  match c with SetAttr _ name _ _ | GetAttr _ name _ | RemoveAttr _ name => name end.

(** A status, and the bytes put into the caller's buffer *)
Definition answer : Type := Z * option (list Z).

Section meaning.
Context (icu : icu_lib) (g : gmap Z core) (r : Z).
Implicit Types (m : gmap Z (gmap cstring (list Z))).

(** At the dentry the path leads to, if the volume can be used *)
Definition at_dentry (lock : Z) (path : cstring) (f : gmap cstring (list Z) -> answer * gmap cstring (list Z)) m
    : answer * gmap Z (gmap cstring (list Z)) :=
  if lock <? 0 then ((lock, None), m)
  else match follow g r (path_components path) with
  | inl e => ((e, None), m)
  | inr d => let '(ans, a) := f (default ∅ (m !! d)) in (ans, <[d := a]> m)
  end.

(** The errors of path and name come first. *)
Definition at_path (path name : cstring) (bad lock : Z) (f : cstring -> gmap cstring (list Z) -> answer * gmap cstring (list Z)) m
    : answer * gmap Z (gmap cstring (list Z)) :=
  match format_src_path icu path with
  | inl e => ((e, None), m)
  | inr path =>
      match format_name icu name bad with
      | inl e => ((e, None), m)
      | inr name => at_dentry lock path (f name) m
      end
  end.

(** What a call means; [writable] and [lock]: what the device and the volume say *)
Definition spec_call (writable lock : Z) (c : attr_call) m : answer * gmap Z (gmap cstring (list Z)) :=
  match c with
  | SetAttr path name value flags =>
      if Z.of_nat (length value) >? LTFS_MAX_XATTR_SIZE then ((- LTFS_LARGE_XATTR, None), m)
      else if writable <? 0 then ((writable, None), m)
      else at_path path name (- LTFS_XATTR_NAMESPACE) lock
             (fun name a => let '(ret, a') := spec_set name value flags a in ((ret, None), a')) m
  | GetAttr path name size =>
      at_path path name (- LTFS_NO_XATTR) lock (fun name a => (spec_get name size a, a)) m
  | RemoveAttr path name =>
      if writable <? 0 then ((writable, None), m)
      else at_path path name (- LTFS_NO_XATTR) lock
             (fun name a => let '(ret, a') := spec_remove name a in ((ret, None), a')) m
  end.
End meaning.

(** The name is not that of a virtual attribute of the dentry the path leads to, and the
    call does not ask for a synchronisation. *)
Definition plain (icu : icu_lib) (t : fs_state) (path name : cstring) : Prop :=
  forall nm bad, format_name icu name bad = inr nm ->
    is_name nm "ltfs.sync" && bool_decide (path = [SLASH]) = false
    /\ forall q d n, format_src_path icu path = inr q -> follow (graph t) (root t) (path_components q) = inr d ->
         heap t !! d = Some n -> _xattr_is_virtual d n nm t = false.

Lemma virtual_kind t t' d n' nm :
  same_kind t t' -> heap t' !! d = Some n' ->
  exists n, heap t !! d = Some n /\ _xattr_is_virtual d n' nm t' = _xattr_is_virtual d n nm t.
Proof.
  intros (Hr & Hc & Hk) Hn'. destruct (Hk d n' Hn') as (n & Hn & E1 & E2). exists n. split; [done|].
  unfold _xattr_is_virtual. by rewrite E1, E2, Hr, Hc.
Qed.

Lemma plain_kind icu t t' path name :
  same_kind t t' -> graph t' = graph t -> plain icu t path name -> plain icu t' path name.
Proof.
  intros Hk Hg Hp nm bad Hnm. destruct (Hp nm bad Hnm) as [H1 H2]. split; [done|].
  intros q d n' Hq Hd Hn'. destruct (virtual_kind _ _ _ _ nm Hk Hn') as (n & Hn & ->).
  eapply H2; [done| |done]. by rewrite <- Hg, <- (proj1 Hk).
Qed.

Lemma became_from {D} hs (s s0 s' : detailed D) m :
  tree_of s0 = tree_of s -> rest_of s0 = rest_of s -> attrs_became hs s0 m s' -> attrs_became hs s m s'.
Proof. intros E1 E2 [A1 A2 A3 A4 A5 A6]. rewrite E1, E2 in *. by constructor. Qed.

Lemma spec_set_quiet name value flags m :
  NEED_REVAL (spec_set name value flags m).1 = false /\ IS_UNEXPECTED_MOVE (spec_set name value flags m).1 = false.
Proof. unfold spec_set. repeat case_match; by vm_compute. Qed.

Lemma spec_set_failed name value flags m ret m' : spec_set name value flags m = (ret, m') -> ret <> 0 -> m' = m.
Proof. unfold spec_set. repeat case_match; by intros [= <- <-]. Qed.

Lemma spec_get_final name size m : ((spec_get name size m).1 =? - LTFS_RESTART_OPERATION) = false.
Proof.
  unfold spec_get, deliver. repeat case_match; try reflexivity; cbn [fst]; apply Z.eqb_neq;
    unfold LTFS_RESTART_OPERATION; lia.
Qed.

Section calls.
Context {D : Type} (ops : tape_ops D) (lops : load_ops D) (iops : info_ops D).
Context (xml : fs_state -> xml_lib) (update_mam_attr : D -> Z * D).
Context (wait_revalidation : ltfs_volume D -> Z * ltfs_volume D).
Context (revalidate : bool -> ltfs_volume D -> Z * ltfs_volume D).
Context (icu : icu_lib) (retries : nat) (names : build) (traces : trace_ops).
Context (cartridge_capacity : cstring -> VolumeInfo.vop (D := D) reported) (periodic_sync : option Z).

Definition perform_attr (now : Z * Z) (junk : list Z) (c : attr_call) : vop (D := D) answer :=
  match c with
  | SetAttr path name value flags =>
      let* '(ret, _) := ltfs_fsops_setxattr ops lops iops xml update_mam_attr wait_revalidation revalidate icu retries
                          names traces cartridge_capacity periodic_sync now junk path name value flags in
      ret_op (ret, None)
  | GetAttr path name size =>
      let* '(ans, _) := ltfs_fsops_getxattr ops lops iops wait_revalidation revalidate icu retries names traces
                          cartridge_capacity now path name size in
      ret_op ans
  | RemoveAttr path name =>
      let* '(ret, _) := ltfs_fsops_removexattr ops iops wait_revalidation revalidate icu retries now path name in
      ret_op (ret, None)
  end.

(** What the device says to a call that writes, and then the lock of the volume *)
Definition gate (now : Z * Z) (c : attr_call) (s : detailed D) : option (Z * Z) :=
  match c with
  | GetAttr _ _ _ => Some (0, ltfs_get_volume_lock (volume_in s))
  | _ => match check_writable ops wait_revalidation revalidate retries true now (mounted s) with
         | Some (w, m) => Some (w, ltfs_get_volume_lock (volume m))
         | None => None
         end
  end.

Lemma check_writable_tree now allow (m m1 : mount D) w :
  check_writable ops wait_revalidation revalidate retries allow now m = Some (w, m1) -> tree m1 = tree m.
Proof.
  unfold check_writable, bind_op, the_volume, ltfs_test_unit_ready, ret_op.
  case_match; [by intros [= _ <-]|]. case_match; [|done]. case_match. by intros [= _ <-].
Qed.

(** What a call leaves of the volume: reading changes nothing, and a change of the
    attributes is noted in the index. *)
Definition marked (s : detailed D) (c : attr_call) (s' : detailed D) : Prop :=
  match c with
  | GetAttr _ _ _ => volume_in s' = volume_in s
  | _ => attrs (tree_of s') <> attrs (tree_of s) -> dirty (index (volume_in s')) = true
  end.

Section one.
Context (hs : Z -> Z) (s : detailed D) (now : Z * Z) (junk : list Z).
Context (Hok : tree_ok hs (tree_of s)) (Hfew : few hs) (Hu : unique_all (tree_of s)).

Abbreviation g := (graph (tree_of s)).
Abbreviation r := (root (tree_of s)).

(** The promise of a call that changes attributes *)
Definition promise (x : answer * gmap Z (gmap cstring (list Z))) (a : answer) (s' : detailed D) : Prop :=
  a = x.1 /\ attrs_became hs s x.2 s' /\ (attrs (tree_of s') <> attrs (tree_of s) -> dirty (index (volume_in s')) = true).

(** Nothing has changed but the volume. *)
Lemma refused_ok (s' : detailed D) e :
  tree_of s' = tree_of s -> rest_of s' = rest_of s -> promise ((e, None), attrs (tree_of s)) (e, None) s'.
Proof.
  intros Ht Hr. split_and!; [done| |by rewrite Ht].
  apply became_counted; [done|done| |done]. rewrite Ht. by apply counted_refl.
Qed.

Lemma virtual_found d n1 s1 nm :
  found hs s d n1 s1 -> (forall n, heap (tree_of s) !! d = Some n -> _xattr_is_virtual d n nm (tree_of s) = false) ->
  _xattr_is_virtual d n1 nm (tree_of s1) = false.
Proof.
  intros Hf Hv. destruct (found_attrs hs s Hok Hu d n1 s1 Hf) as (_ & _ & Hk).
  destruct (virtual_kind _ _ _ _ nm Hk (f_node _ _ _ _ _ Hf)) as (n & Hn & ->). by apply Hv.
Qed.

Lemma get_call path name size :
  plain icu (tree_of s) path name ->
  wp (perform_attr now junk (GetAttr path name size)) s (fun a s' =>
    let x := spec_call icu g r 0 (ltfs_get_volume_lock (volume_in s)) (GetAttr path name size) (attrs (tree_of s)) in
    a = x.1 /\ attrs_became hs s x.2 s' /\ volume_in s' = volume_in s).
Proof.
  intros Hp. assert (Hsame : attrs_became hs s (attrs (tree_of s)) s).
  { apply became_counted; [done|done|by apply counted_refl|done]. }
  cbn [perform_attr spec_call]. unfold ltfs_fsops_getxattr, at_path, at_dentry. apply wp_bind.
  destruct (format_src_path icu path) as [e|q] eqn:Eq; [by apply wp_ret, wp_ret|].
  destruct (format_name icu name _) as [e|nm] eqn:Enm; [by apply wp_ret, wp_ret|].
  cbn [getxattr_loop]. apply wp_bind, wp_lock. destruct (_ <? 0); [by apply wp_ret, wp_ret|].
  apply wp_bind. apply (wp_lookup hs); [done..| |].
  - intros e s1 -> Hb Hv. by apply wp_ret, wp_ret.
  - intros d n1 s1 Ed Hf. rewrite Ed. pose proof (f_node _ _ _ _ _ Hf) as Hn1.
    destruct (found_attrs hs s Hok Hu d n1 s1 Hf) as (Ha & _ & _).
    apply wp_bind, (wp_node _ _ n1); [done|].
    eapply wp_seq; [apply (xattr_get_stored _ _ _ _ _ _ _ _ _ s1 d n1 nm Hn1)|].
    { apply (virtual_found d n1 s1 nm Hf). intros n Hn. by apply (proj2 (Hp nm _ Enm) q d n). }
    intros [ret out] s2 [-> Eg]. apply wp_bind.
    eapply wp_mono; [by apply (wp_release hs s Hok Hfew Hu d n1 s1 (attr_map (xattrlist n1)) s1 Hf), node_written_same|].
    intros [] s3 [Hb Hv]. pose proof (spec_get_final nm size (attr_map (xattrlist n1))) as Hfin. rewrite <- Eg in Hfin.
    cbn [fst] in Hfin. rewrite Hfin. apply wp_ret, wp_ret. rewrite Ha. cbn [default from_option id fst snd].
    split_and!; [done|done|]. rewrite Hv. apply Hf.
Qed.

(** The end of a call that changes attributes *)
Lemma changed_ok d n1 s1 m' ret s2 :
  found hs s d n1 s1 -> node_written s1 d n1 m' s2 ->
  (dirty (index (volume_in s2)) = true \/ m' = attr_map (xattrlist n1)) ->
  wp (on_mount (on_tree (fs_release_dentry d))) s2 (fun _ s3 =>
    promise ((ret, None), <[d := m']> (attrs (tree_of s))) (ret, None) s3).
Proof.
  intros Hf Hw Hd. destruct (found_attrs hs s Hok Hu d n1 s1 Hf) as (Ha & _ & _).
  eapply wp_mono; [by apply (wp_release hs s Hok Hfew Hu d n1 s1 m' s2)|]. intros [] s3 [Hb Hv].
  split_and!; [done|done|]. rewrite (ab_attrs _ _ _ _ Hb), Hv. intros Hne. destruct Hd as [Hd|Hd]; [done|].
  destruct Hne. rewrite Hd. by apply insert_id.
Qed.

Lemma set_loop_ok path q nm value flags id :
  is_name nm "ltfs.sync" && bool_decide (path = [SLASH]) = false ->
  (forall d n, follow g r (path_components q) = inr d -> heap (tree_of s) !! d = Some n ->
     _xattr_is_virtual d n nm (tree_of s) = false) ->
  Z.of_nat (length value) <= LTFS_MAX_XATTR_SIZE ->
  wp (setxattr_loop ops lops iops xml update_mam_attr wait_revalidation revalidate icu retries
        names traces cartridge_capacity periodic_sync (S retries) now junk path q nm value flags id) s
     (fun x => promise (at_dentry g r (ltfs_get_volume_lock (volume_in s)) q
        (fun a => let '(ret, a') := spec_set nm value flags a in ((ret, None), a')) (attrs (tree_of s))) (x.1, None)).
Proof.
  intros Hsync Hp Hlen. cbn [setxattr_loop]. rewrite Hsync. unfold at_dentry.
  apply wp_bind, wp_ret. cbn [Z.ltb Z.compare]. apply wp_bind, wp_lock.
  destruct (_ <? 0) eqn:El; [by apply wp_ret, refused_ok|].
  apply wp_bind. apply (wp_lookup hs); [done..| |].
  - intros e s1 -> Hb Hv. apply wp_ret. split_and!; [done|done|]. by rewrite (ab_attrs _ _ _ _ Hb).
  - intros d n1 s1 Ed Hf. rewrite Ed. pose proof (f_node _ _ _ _ _ Hf) as Hn1.
    destruct (found_attrs hs s Hok Hu d n1 s1 Hf) as (Ha & _ & _). rewrite Ha. cbn [default from_option Datatypes.id].
    assert (Hv : _xattr_is_virtual d n1 nm (tree_of s1) = false).
    { apply (virtual_found d n1 s1 nm Hf). intros n Hn. by apply Hp. }
    apply wp_bind, (wp_node _ _ n1); [done|].
    eapply wp_seq; [by apply (xattr_get_stored _ _ _ _ _ _ _ _ _ s1 d n1 nm Hn1)|]. intros ? s2 [-> _].
    eapply wp_seq; [eapply xattr_set_stored; [exact Hn1|exact Hv|exact Hlen]|]. intros ret s2.
    pose proof (spec_set_quiet nm value flags (attr_map (xattrlist n1))) as Hquiet.
    destruct (spec_set nm value flags (attr_map (xattrlist n1))) as [r0 m'] eqn:Es. cbn [fst] in Hquiet.
    destruct Hquiet as [Hq1 Hq2]. intros (-> & Hw & Hd). rewrite Hq1, Hq2.
    eapply wp_seq; [apply (changed_ok d n1 s1 m' r0 s2 Hf Hw)|].
    + destruct (Z.eqb_spec r0 0) as [_|Hne]; [by left|right]. by eapply spec_set_failed.
    + intros [] s3 Hprom. by apply wp_ret.
Qed.

Lemma remove_at_ok q nm :
  (forall d n, follow g r (path_components q) = inr d -> heap (tree_of s) !! d = Some n ->
     _xattr_is_virtual d n nm (tree_of s) = false) ->
  wp (let* ret := on_mount get_volume_lock in
      if ret <? 0 then ret_op (ret, no_id)
      else
        let* r := on_mount (on_tree (fs_path_lookup q 0)) in
        match r with
        | inl ret => ret_op (ret, no_id)
        | inr d =>
            let* n := the_node d in
            let* ret := xattr_remove ops iops now d nm in
            on_mount (on_tree (fs_release_dentry d)) ;;;
            ret_op (ret, (uid n, ino n))
        end) s
     (fun x => promise (at_dentry g r (ltfs_get_volume_lock (volume_in s)) q
        (fun a => let '(ret, a') := spec_remove nm a in ((ret, None), a')) (attrs (tree_of s))) (x.1, None)).
Proof.
  intros Hp. unfold at_dentry. apply wp_bind, wp_lock. destruct (_ <? 0) eqn:El; [by apply wp_ret, refused_ok|].
  apply wp_bind. apply (wp_lookup hs); [done..| |].
  - intros e s1 -> Hb Hv. apply wp_ret. split_and!; [done|done|]. by rewrite (ab_attrs _ _ _ _ Hb).
  - intros d n1 s1 Ed Hf. rewrite Ed. pose proof (f_node _ _ _ _ _ Hf) as Hn1.
    destruct (found_attrs hs s Hok Hu d n1 s1 Hf) as (Ha & Hu1 & _). rewrite Ha. cbn [default from_option Datatypes.id].
    apply wp_bind, (wp_node _ _ n1); [done|].
    eapply wp_seq; [eapply (xattr_remove_stored _ _ _ s1 d n1 nm Hn1); [|done]|].
    { apply (virtual_found d n1 s1 nm Hf). intros n Hn. by apply Hp. }
    intros ret s2. destruct (spec_remove nm (attr_map (xattrlist n1))) as [r0 m']. intros (-> & Hw & Hd).
    eapply wp_seq; [apply (changed_ok d n1 s1 m' r0 s2 Hf Hw); by left|].
    intros [] s3 Hprom. by apply wp_ret.
Qed.

End one.

(** The device is asked first; only the volume changes by that. *)
Lemma wp_gate now (s : detailed D) w m1 (Q : Z -> detailed D -> Prop) :
  check_writable ops wait_revalidation revalidate retries true now (mounted s) = Some (w, m1) ->
  (forall s1, volume_in s1 = volume m1 -> tree_of s1 = tree_of s -> rest_of s1 = rest_of s -> Q w s1) ->
  wp (on_mount (check_writable ops wait_revalidation revalidate retries true now)) s Q.
Proof.
  intros E HQ. unfold wp, on_mount. rewrite E. apply HQ; [done| |done]. by apply check_writable_tree in E.
Qed.

Lemma promise_from hs (s s0 : detailed D) x a s' :
  tree_of s0 = tree_of s -> rest_of s0 = rest_of s -> promise hs s0 x a s' -> promise hs s x a s'.
Proof.
  intros E1 E2 (H1 & H2 & H3). split_and!; [done|by eapply became_from|]. by rewrite <- E1.
Qed.

Lemma set_call hs (s : detailed D) now junk path name value flags w l :
  tree_ok hs (tree_of s) -> few hs -> unique_all (tree_of s) ->
  plain icu (tree_of s) path name -> gate now (SetAttr path name value flags) s = Some (w, l) ->
  wp (perform_attr now junk (SetAttr path name value flags)) s
     (promise hs s (spec_call icu (graph (tree_of s)) (root (tree_of s)) w l (SetAttr path name value flags) (attrs (tree_of s)))).
Proof.
  intros Hok Hfew Hu Hp Hgate. cbn [perform_attr spec_call gate] in *. unfold ltfs_fsops_setxattr. apply wp_bind.
  destruct (_ >? LTFS_MAX_XATTR_SIZE) eqn:El; [by apply wp_ret, wp_ret, refused_ok|].
  destruct (check_writable _ _ _ _ _ _ (mounted s)) as [[w' m1]|] eqn:Ec; [|done]. injection Hgate as -> <-.
  apply wp_bind, (wp_gate _ _ w m1 _ Ec). intros s1 Hv1 Ht1 Hr1.
  destruct (w <? 0); [by apply wp_ret, wp_ret, refused_ok|]. unfold at_path.
  destruct (format_src_path icu path) as [e|q] eqn:Eq; [by apply wp_ret, wp_ret, refused_ok|].
  destruct (format_name icu name _) as [e|nm] eqn:Enm; [by apply wp_ret, wp_ret, refused_ok|].
  destruct (Hp nm _ Enm) as [Hs Hvirt].
  eapply wp_mono; [apply (set_loop_ok hs s1); rewrite ?Ht1; auto; [intros d n; by apply Hvirt|]|].
  { rewrite Z.gtb_ltb in El. by apply Z.ltb_ge in El. }
  intros [ret i] s' Hprom. apply wp_ret. cbn [fst] in Hprom. rewrite Hv1, Ht1 in Hprom.
  by apply (promise_from _ s s1).
Qed.

Lemma remove_call hs (s : detailed D) now junk path name w l :
  tree_ok hs (tree_of s) -> few hs -> unique_all (tree_of s) ->
  plain icu (tree_of s) path name -> gate now (RemoveAttr path name) s = Some (w, l) ->
  wp (perform_attr now junk (RemoveAttr path name)) s
     (promise hs s (spec_call icu (graph (tree_of s)) (root (tree_of s)) w l (RemoveAttr path name) (attrs (tree_of s)))).
Proof.
  intros Hok Hfew Hu Hp Hgate. cbn [perform_attr spec_call gate] in *. unfold ltfs_fsops_removexattr. apply wp_bind.
  destruct (check_writable _ _ _ _ _ _ (mounted s)) as [[w' m1]|] eqn:Ec; [|done]. injection Hgate as -> <-.
  apply wp_bind, (wp_gate _ _ w m1 _ Ec). intros s1 Hv1 Ht1 Hr1.
  destruct (w <? 0); [by apply wp_ret, wp_ret, refused_ok|]. unfold at_path.
  destruct (format_src_path icu path) as [e|q] eqn:Eq; [by apply wp_ret, wp_ret, refused_ok|].
  destruct (format_name icu name _) as [e|nm] eqn:Enm; [by apply wp_ret, wp_ret, refused_ok|].
  destruct (Hp nm _ Enm) as [_ Hvirt].
  eapply wp_mono; [apply (remove_at_ok hs s1); rewrite ?Ht1; auto; intros d n; by apply Hvirt|].
  intros [ret i] s' Hprom. apply wp_ret. cbn [fst] in Hprom. rewrite Hv1, Ht1 in Hprom.
  by apply (promise_from _ s s1).
Qed.

(** What the parts of a promise say together *)
Lemma call_end (hs : Z -> Z) (s s' : detailed D) (c : attr_call) (x : answer * gmap Z (gmap cstring (list Z))) :
  attrs_became hs s x.2 s' -> marked s c s' ->
  (x.1, attrs (tree_of s')) = x
  /\ tree_ok hs (tree_of s') /\ unique_all (tree_of s')
  /\ graph (tree_of s') = graph (tree_of s) /\ root (tree_of s') = root (tree_of s) /\ rest_of s' = rest_of s
  /\ (forall path name, plain icu (tree_of s) path name -> plain icu (tree_of s') path name)
  /\ marked s c s'.
Proof.
  intros [H1 H2 H3 H4 H5 H6] Hm. split_and!; [by destruct x as [a m]; cbn in *; subst|done..|apply H5|done| |done].
  intros path name. by apply plain_kind.
Qed.

(** C16: Extended attributes are a map from names to values, one for each dentry.  Setting,
    reading and removing an attribute that is not virtual, by path, gives the answer, error
    codes included, and leaves the maps that [spec_call] says, whatever the device and the
    volume lock answer.  The tree stays well formed and is the same tree; no name occurs
    twice in a dentry; which names are virtual does not change, so the next call is covered
    as well; reading changes nothing, and a change is marked in the index. *)
Theorem attr_call_refines hs (s : detailed D) now junk c w l :
  tree_ok hs (tree_of s) -> few hs -> unique_all (tree_of s) ->
  plain icu (tree_of s) (path_of c) (name_of c) -> gate now c s = Some (w, l) ->
  wp (perform_attr now junk c) s (fun a s' =>
    (a, attrs (tree_of s')) = spec_call icu (graph (tree_of s)) (root (tree_of s)) w l c (attrs (tree_of s))
    /\ tree_ok hs (tree_of s') /\ unique_all (tree_of s')
    /\ graph (tree_of s') = graph (tree_of s) /\ root (tree_of s') = root (tree_of s) /\ rest_of s' = rest_of s
    /\ (forall path name, plain icu (tree_of s) path name -> plain icu (tree_of s') path name)
    /\ marked s c s').
Proof.
  intros Hok Hfew Hu Hp Hgate. destruct c as [path name value flags|path name size|path name].
  - eapply wp_mono; [by eapply set_call|]. intros a s' (-> & Hb & Hd). by apply call_end.
  - injection Hgate as <- <-. eapply wp_mono; [by apply get_call|]. intros a s' (-> & Hb & Hd). by apply call_end.
  - eapply wp_mono; [by eapply remove_call|]. intros a s' (-> & Hb & Hd). by apply call_end.
Qed.
End calls.

(** ** Listing the names *)

Section list.
Context (icu : icu_lib) (prefix : cstring) (shown : cstring -> cstring).

(** One entry of the list; a name for the use of the program itself is left out. *)
Definition list_entry (name : cstring) : list Z := prefix ++ shown name ++ [0].
Definition listed (name : cstring) : bool := negb (bool_decide (shown name = LTFS_LIVELINK_EA_NAME)).
Definition listing (keys : list cstring) : list Z := concat (list_entry <$> filter (fun k => listed k = true) keys).

Lemma listing_cons k keys : listing (k :: keys) = (if listed k then list_entry k else []) ++ listing keys.
Proof. unfold listing. rewrite filter_cons. destruct (listed k); [by rewrite decide_True|by rewrite decide_False]. Qed.

Lemma list_entries_spec (l : list xattr_info) size nbytes out :
  (forall e, e ∈ l -> pathname_unformat icu e.1 = inr (shown e.1)) ->
  exists out', list_entries icu prefix size l nbytes out = (inr (nbytes + Z.of_nat (length (listing l.*1))), out')
    /\ (size <> 0 -> nbytes + Z.of_nat (length (listing l.*1)) <= size -> out' = out ++ listing l.*1).
Proof.
  revert nbytes out. induction l as [|[k v] l IH]; intros nbytes out Hun.
  - exists out. cbn. rewrite Z.add_0_r, app_nil_r. done.
  - assert (Hl : forall e, e ∈ l -> pathname_unformat icu e.1 = inr (shown e.1)) by (intros e He; apply Hun; by right).
    cbn [list_entries fmap list_fmap fst]. rewrite (Hun (k, v) ltac:(by left) : pathname_unformat icu k = inr (shown k)).
    rewrite listing_cons. unfold listed at 1 2 3. case_bool_decide as Hk; cbn [negb app]; [by apply IH|].
    rewrite length_app. unfold list_entry at 1 2 3. rewrite !length_app. cbn [length].
    set (nb := nbytes + (Z.of_nat (length prefix) + Z.of_nat (length (shown k)) + 1)).
    destruct (IH nb (if negb (size =? 0) && (nb <=? size) then out ++ prefix ++ shown k ++ [0] else out) Hl)
      as (out' & E & Hout).
    exists out'. split; [rewrite E; do 2 f_equal; lia|]. intros Hs Hfit. rewrite Hout by lia.
    apply Z.eqb_neq in Hs as ->. rewrite (proj2 (Z.leb_le _ _)) by lia. cbn [negb andb]. unfold list_entry. by rewrite <- app_assoc.
Qed.

Lemma map_keys (l : list xattr_info) : unique_names l -> (map_to_list (attr_map l)).*1 ≡ₚ l.*1.
Proof.
  intros H. unfold attr_map. rewrite map_to_list_to_map; rewrite names_of_pairs; done.
Qed.

(** C17: Listing the attributes of what a path leads to gives each of its names once, in some
    order, with the prefix in front and a NUL behind, and nothing else.  Without a buffer
    the length is the answer; with one that is too small the answer is an error, and with
    one that is large enough the list is in it and zeros fill the rest.  Nothing changes. *)
Theorem listxattr_spec {D} hs (s : detailed D) path q d m size :
  tree_ok hs (tree_of s) -> few hs -> unique_all (tree_of s) ->
  pathname_unformat icu (cstr "user.") = inr prefix ->
  format_src_path icu path = inr q -> ltfs_get_volume_lock (volume_in s) = 0 ->
  follow (graph (tree_of s)) (root (tree_of s)) (path_components q) = inr d -> attrs (tree_of s) !! d = Some m ->
  (forall k, is_Some (m !! k) -> pathname_unformat icu k = inr (shown k)) -> 0 <= size ->
  wp (ltfs_fsops_listxattr icu path size) s (fun '(ret, buf, _) s' =>
    (exists keys, keys ≡ₚ (map_to_list m).*1
       /\ let text := listing keys in let len := Z.of_nat (length text) in
          ret = (if negb (size =? 0) && (len >? size) then - LTFS_SMALL_BUFFER else len)
          /\ (size <> 0 -> len <= size -> buf = Some (text ++ replicate (Z.to_nat size - length text) 0)))
    /\ attrs_became hs s (attrs (tree_of s)) s' /\ volume_in s' = volume_in s).
Proof.
  intros Hok Hfew Hu Hpre Hq Hlock Hd Hm Hun Hsize. unfold ltfs_fsops_listxattr. rewrite Hq.
  apply wp_bind, wp_lock. rewrite Hlock. cbn [Z.ltb Z.compare]. apply wp_bind.
  apply (wp_lookup hs); [done..|intros e s1 E; congruence|]. intros d' n1 s1 Ed Hf.
  assert (d' = d) as -> by congruence. pose proof (f_node _ _ _ _ _ Hf) as Hn1.
  destruct (found_attrs hs s Hok Hu d n1 s1 Hf) as (Ha & Hu1 & _). assert (m = attr_map (xattrlist n1)) as -> by congruence.
  apply wp_bind, (wp_node _ _ n1); [done|]. apply wp_bind, wp_tree.
  assert (Hkeys : forall e, e ∈ xattrlist n1 -> pathname_unformat icu e.1 = inr (shown e.1)).
  { intros e He. apply Hun. rewrite <- not_eq_None_Some. intros Hnone.
    apply not_elem_of_list_to_map_2 in Hnone. apply Hnone. rewrite names_of_pairs. by apply list_elem_of_fmap_2. }
  destruct (list_entries_spec (xattrlist n1) size 0 [] Hkeys) as (out & E & Hout).
  unfold xattr_list. apply wp_bind, (wp_deref _ _ n1); [done|]. unfold _xattr_list_physicals. rewrite Hpre, E.
  apply wp_ret. rewrite with_tree_same. apply wp_bind.
  eapply wp_mono; [by apply (wp_release hs s Hok Hfew Hu d n1 s1 (attr_map (xattrlist n1)) s1 Hf), node_written_same|].
  intros [] s3 [Hb Hv]. apply wp_ret. rewrite insert_id in Hb by done.
  split; [|by rewrite Hv, (f_volume _ _ _ _ _ Hf)].
  exists (xattrlist n1).*1. split; [by rewrite map_keys|]. cbn zeta. split; [done|]. intros Hs Hfit.
  rewrite (proj2 (Z.eqb_neq _ _) Hs). by rewrite Hout by lia.
Qed.
End list.
