(* ===== verification/XattrOnFile.v ===== *)
(** * Extended attributes of a small tree on the file-backed driver

    The properties of [XattrSpec] at the tree of [FsHistory] and the labelled volume of
    [IndexOnFile]. *)

From S2P Require Import Prelude Errors TapeOps FileDebug TapeDev Append Coherency Extents Volume VolumeOnFile IndexOnFile.
From S2P Require Import FsRaw FsRawOnFile Pathname IndexCriteria IndexCriteriaSpec FsTree FsOps FsGraph FsTreeSpec FsHistory.
From S2P Require Import XmlLib TapeLoad FileDebugLoad Label VolumeInfo Xattr XattrSpec.
Open Scope Z_scope.

Definition no_texts : tc_mam_attr :=
  {| appl_vendor := None; appl_name := None; appl_ver := None; appl_format_ver := None; mam_volume_name := None;
     mam_barcode := None |}.

(** A drive that answers no questions *)
Definition silent_ops : info_ops filedebug_data := {|
  op_get_cartridge_health := fun h d => (- EDEV_UNSUPPORTED_FUNCTION, h, d);
  op_clear_tape_alert := fun _ d => (- EDEV_UNSUPPORTED_FUNCTION, d);
  op_get_xattr := fun _ d => (- LTFS_NO_XATTR, None, d);
  op_set_xattr := fun _ _ d => (- LTFS_NO_XATTR, d);
  op_takedump_drive := fun d => (- EDEV_UNSUPPORTED_FUNCTION, d);
  op_update_mam_attr := fun _ _ _ d => (0, d)
|}.

Definition sample_names : build :=
  {| PACKAGE_VERSION := cstr "2.2.0.2"; LTFS_VENDOR_NAME := cstr "IBM"; SOFTWARE_PRODUCT_NAME := cstr "LTFS" |}.

Definition no_traces : trace_ops := {|
  ltfs_trace_get_offset := (0, None); ltfs_get_trace_status := (0, None); ltfs_set_trace_status := fun _ => 0;
  ltfs_dump := fun _ => 0; ltfs_trace_dump := fun _ => 0; ltfs_profiler_set := fun _ => 0
|}.

Definition sample_details : details :=
  {| mam_attr := no_texts; health_cache := unsupported_health; alert_cache := 0; idx_volume_name := None;
     idx_commit_message := None; idx_allow_update := true; ltfs_log_level := 2; ltfs_syslog_level := 2 |}.

Definition sample_mount (t : fs_state) : detailed filedebug_data :=
  {| mounted := {| tree := t; volume := labelled_volume |}; rest_of := sample_details |}.

Abbreviation run_attr := (perform_attr filedebug_handler filedebug_load_handler silent_ops (fun _ => sample_xml) no_mam
  no_wait no_revalidation ascii_icu 3 sample_names no_traces (fun _ => ret_op (- LTFS_NO_XATTR, None)) None (5, 0) []).

Definition set_color : attr_call := SetAttr (cstr "/docs/a.txt") (cstr "user.color") (cstr "red") XATTR_CREATE.

(** ** The tree *)

Lemma tree3_unique : unique_all tree3.
Proof.
  change (map_Forall (fun _ n => NoDup (xattrlist n).*1) (heap tree3)).
  apply (bool_decide_unpack _). vm_compute. exact I.
Qed.

Lemma color_plain : plain ascii_icu tree3 (cstr "/docs/a.txt") (cstr "user.color").
Proof.
  intros nm bad Hnm. vm_compute in Hnm. injection Hnm as <-. split; [reflexivity|].
  intros q d n Hq Hd Hn. vm_compute in Hq. injection Hq as <-. vm_compute in Hd. injection Hd as <-.
  vm_compute in Hn. injection Hn as <-. reflexivity.
Qed.

(** With two attributes on [/docs/a.txt] *)
Definition two_attrs : list xattr_info :=
  [(cstr "color", Some (cstr "red")); (LTFS_LIVELINK_EA_NAME, Some (cstr "7")); (cstr "note", None)].

Definition tree_with_attrs : fs_state :=
  match heap tree3 !! 3 with Some n => set_heap (<[3 := set_xattrs two_attrs n]> (heap tree3)) tree3 | None => tree3 end.

Lemma two_attrs_unique : unique_names two_attrs.
Proof. apply (bool_decide_unpack _). vm_compute. exact I. Qed.

Lemma attrs_written n : heap tree3 !! 3 = Some n -> xattrlist n = [] -> rewritten_node n (set_xattrs two_attrs n).
Proof.
  intros _ _. constructor; [done|by intros [? ? ?]; constructor|done|done|]. intros _. exact two_attrs_unique.
Qed.

Lemma tree_with_attrs_ok : tree_ok held3 tree_with_attrs /\ unique_all tree_with_attrs.
Proof.
  unfold tree_with_attrs. destruct (heap tree3 !! 3) as [n|] eqn:E; [|by vm_compute in E].
  assert (Hx : xattrlist n = []) by (vm_compute in E; by injection E as <-).
  split; [apply (node_tree_ok held3 tree3 3 n)|apply (node_unique tree3 3 n)];
    auto using attrs_written, tree3_ok, tree3_unique.
Qed.

(** ** The theorems *)

Lemma attr_call_refines_witness :
  exists s', run_attr set_color (sample_mount tree3) = Some ((0, None), s')
    /\ attrs (tree_of s') = <[3 := {[cstr "color" := cstr "red"]}]> (attrs tree3).
Proof.
  destruct (wp_run _ _ _ (attr_call_refines filedebug_handler filedebug_load_handler silent_ops (fun _ => sample_xml) no_mam
    no_wait no_revalidation ascii_icu 3 sample_names no_traces (fun _ => ret_op (- LTFS_NO_XATTR, None)) None
    held3 (sample_mount tree3) (5, 0) [] set_color 0 0 tree3_ok few_held3 tree3_unique color_plain eq_refl))
    as (a & s' & E & Hs & _).
  exists s'. rewrite E.
  assert (Hspec : spec_call ascii_icu (graph tree3) (root tree3) 0 0 set_color (attrs tree3)
                  = ((0, None), <[3 := {[cstr "color" := cstr "red"]}]> (attrs tree3))) by (vm_compute; reflexivity).
  change (tree_of (sample_mount tree3)) with tree3 in Hs. rewrite Hspec in Hs.
  apply (f_equal fst) in Hs as Ha. apply (f_equal snd) in Hs. cbn [fst snd] in Ha, Hs.
  split; [by rewrite Ha|exact Hs].
Defined.

Lemma two_attrs_names k : is_Some (attr_map two_attrs !! k) -> pathname_unformat ascii_icu k = inr k.
Proof.
  intros [v Hk]. revert k v Hk.
  change (map_Forall (fun k _ => pathname_unformat ascii_icu k = inr k) (attr_map two_attrs)).
  apply (bool_decide_unpack _). vm_compute. exact I.
Qed.

Lemma listxattr_spec_witness :
  exists keys buf i s', keys ≡ₚ (map_to_list (attr_map two_attrs)).*1
    /\ ltfs_fsops_listxattr ascii_icu (cstr "/docs/a.txt") 64 (sample_mount tree_with_attrs)
       = Some ((Z.of_nat (length (listing (cstr "user.") id keys)), buf, i), s')
    /\ Z.of_nat (length (listing (cstr "user.") id keys)) = 21.
Proof.
  destruct tree_with_attrs_ok as [Hok Hu].
  destruct (wp_run _ _ _ (listxattr_spec ascii_icu (cstr "user.") id held3 (sample_mount tree_with_attrs) (cstr "/docs/a.txt")
    (cstr "/docs/a.txt") 3 (attr_map two_attrs) 64 Hok few_held3 Hu eq_refl eq_refl eq_refl
    eq_refl eq_refl two_attrs_names ltac:(lia))) as ([[ret buf] i] & s' & E & (keys & Hk & Hret & _) & _).
  pose proof (f_equal (fun o => match o with Some (r, _) => r.1.1 | None => 0 end) E) as Hr. vm_compute in Hr.
  exists keys, buf, i, s'. split; [exact Hk|]. cbn zeta in Hret. cbn [Z.eqb negb andb] in Hret.
  destruct (_ >? 64); [subst ret; discriminate|]. rewrite <- Hret. split; [exact E|exact (eq_sym Hr)].
Defined.
