(* ===== verification/Unified.v ===== *)
(** * The unified I/O scheduler

    iosched/unified.c and iosched/cache_manager.c: writes are collected in requests of one
    cache block each, sorted by file offset, and reach the tape later, from a background
    thread or a flush.  The operations work on the files through an interface,
    [raw_ops], which stands for ltfs_fsops_raw.c and the questions to the volume.

    A call runs without interruption, except where a writer waits for a cache block: what
    the other threads do meanwhile is an argument.  Allocation of memory succeeds.  What a
    cache block holds behind the bytes of its request is never read and left out. *)

From S2P Require Import Prelude Errors Extents FsTree.
Open Scope Z_scope.
Open Scope ltfs_scope.

(** ** The cache manager *)

(** The number of objects in the pool instead of the list *)
Record cache_pool := {
  initial_capacity : Z;
  max_capacity : Z;
  current_capacity : Z;
  pool_objects : Z
}.

Definition set_pool (current objects : Z) (p : cache_pool) : cache_pool :=
  {| initial_capacity := initial_capacity p; max_capacity := max_capacity p; current_capacity := current; pool_objects := objects |}.

Definition cache_manager_init (initial_capacity max_capacity : Z) : cache_pool :=
  {| initial_capacity := initial_capacity; max_capacity := max_capacity; current_capacity := initial_capacity;
     pool_objects := initial_capacity |}.

Definition cache_manager_has_room (p : cache_pool) : bool :=
  negb ((pool_objects p =? 0) && (current_capacity p =? max_capacity p)).

(** How far the pool may grow in one step *)
Definition new_size (p : cache_pool) : Z :=
  if current_capacity p * 2 <? max_capacity p then
    if negb (current_capacity p =? 0) then current_capacity p * 2 else max_capacity p / 2
  else max_capacity p.

Definition cache_manager_allocate_object (p : cache_pool) : option cache_pool :=
  if 0 <? pool_objects p then Some (set_pool (current_capacity p) (pool_objects p - 1) p)
  else if current_capacity p =? max_capacity p then None
  else if current_capacity p <? new_size p
  then Some (set_pool (new_size p) (pool_objects p + (new_size p - current_capacity p) - 1) p)
  else None.

Definition cache_manager_free_object (p : cache_pool) : cache_pool :=
  if initial_capacity p <? current_capacity p then set_pool (current_capacity p - 1) (pool_objects p) p
  else set_pool (current_capacity p) (pool_objects p + 1) p.

(** ** Requests *)

Inductive request_state := REQUEST_PARTIAL | REQUEST_DP | REQUEST_IP.

#[global] Instance request_state_eq_dec : EqDecision request_state.
Proof. solve_decision. Defined.

(** [write_cache]: the bytes of the request in its cache block; [count] is their number. *)
Record write_request := { req_offset : Z; write_cache : list Z; req_state : request_state }.

Definition req_count (r : write_request) : Z := Z.of_nat (length (write_cache r)).
Definition req_end (r : write_request) : Z := req_offset r + req_count r.
Definition is_ip (r : write_request) : bool := bool_decide (req_state r = REQUEST_IP).
Definition is_partial (r : write_request) : bool := bool_decide (req_state r = REQUEST_PARTIAL).

Definition set_req_state (st : request_state) (r : write_request) : write_request :=
  {| req_offset := req_offset r; write_cache := write_cache r; req_state := st |}.
Definition set_bytes (b : list Z) (r : write_request) : write_request :=
  {| req_offset := req_offset r; write_cache := b; req_state := req_state r |}.
(** [n] bytes are cut off at the beginning. *)
Definition cut_front (n : Z) (r : write_request) : write_request :=
  {| req_offset := req_offset r + n; write_cache := drop (Z.to_nat n) (write_cache r); req_state := req_state r |}.
Definition cut_back (n : Z) (r : write_request) : write_request := set_bytes (take (Z.to_nat n) (write_cache r)) r.

Record dentry_priv := {
  file_size : Z;
  write_ip : bool;
  write_error : Z;
  in_working_set : Z;
  in_dp_queue : Z;
  in_ip_queue : Z;
  requests : list write_request;
  alt_extentlist : list extent_info
}.

Definition set_requests (l : list write_request) (p : dentry_priv) : dentry_priv :=
  {| file_size := file_size p; write_ip := write_ip p; write_error := write_error p; in_working_set := in_working_set p;
     in_dp_queue := in_dp_queue p; in_ip_queue := in_ip_queue p; requests := l; alt_extentlist := alt_extentlist p |}.
Definition set_file_size (n : Z) (p : dentry_priv) : dentry_priv :=
  {| file_size := n; write_ip := write_ip p; write_error := write_error p; in_working_set := in_working_set p;
     in_dp_queue := in_dp_queue p; in_ip_queue := in_ip_queue p; requests := requests p; alt_extentlist := alt_extentlist p |}.
Definition set_write_ip (b : bool) (p : dentry_priv) : dentry_priv :=
  {| file_size := file_size p; write_ip := b; write_error := write_error p; in_working_set := in_working_set p;
     in_dp_queue := in_dp_queue p; in_ip_queue := in_ip_queue p; requests := requests p; alt_extentlist := alt_extentlist p |}.
Definition set_write_error (e : Z) (p : dentry_priv) : dentry_priv :=
  {| file_size := file_size p; write_ip := write_ip p; write_error := e; in_working_set := in_working_set p;
     in_dp_queue := in_dp_queue p; in_ip_queue := in_ip_queue p; requests := requests p; alt_extentlist := alt_extentlist p |}.
Definition set_alt_extentlist (l : list extent_info) (p : dentry_priv) : dentry_priv :=
  {| file_size := file_size p; write_ip := write_ip p; write_error := write_error p; in_working_set := in_working_set p;
     in_dp_queue := in_dp_queue p; in_ip_queue := in_ip_queue p; requests := requests p; alt_extentlist := l |}.
Definition set_in_queues (ws dp ip : Z) (p : dentry_priv) : dentry_priv :=
  {| file_size := file_size p; write_ip := write_ip p; write_error := write_error p; in_working_set := ws;
     in_dp_queue := dp; in_ip_queue := ip; requests := requests p; alt_extentlist := alt_extentlist p |}.

(** A queue of dentries, the number of its entries and that of the requests it stands for *)
Record queue := { members : list Z; entry_count : Z; request_count : Z }.

Record unified_data := {
  pool : cache_pool;
  cache_requests : Z;
  cache_size : Z;
  cache_blocks : Z;
  working_set : queue;
  dp_queue : queue;
  ip_queue : queue;
  ext_queue : list Z;
  writer_keepalive : bool;
  (** [d->iosched_priv] *)
  iosched_priv : gmap Z dentry_priv
}.

Definition set_cache (p : cache_pool) (waiting : Z) (u : unified_data) : unified_data :=
  {| pool := p; cache_requests := waiting; cache_size := cache_size u; cache_blocks := cache_blocks u;
     working_set := working_set u; dp_queue := dp_queue u; ip_queue := ip_queue u; ext_queue := ext_queue u;
     writer_keepalive := writer_keepalive u; iosched_priv := iosched_priv u |}.
Definition set_queues (ws dp ip : queue) (ext : list Z) (u : unified_data) : unified_data :=
  {| pool := pool u; cache_requests := cache_requests u; cache_size := cache_size u; cache_blocks := cache_blocks u;
     working_set := ws; dp_queue := dp; ip_queue := ip; ext_queue := ext;
     writer_keepalive := writer_keepalive u; iosched_priv := iosched_priv u |}.
Definition set_privs (m : gmap Z dentry_priv) (u : unified_data) : unified_data :=
  {| pool := pool u; cache_requests := cache_requests u; cache_size := cache_size u; cache_blocks := cache_blocks u;
     working_set := working_set u; dp_queue := dp_queue u; ip_queue := ip_queue u; ext_queue := ext_queue u;
     writer_keepalive := writer_keepalive u; iosched_priv := m |}.
Definition set_keepalive (b : bool) (u : unified_data) : unified_data :=
  {| pool := pool u; cache_requests := cache_requests u; cache_size := cache_size u; cache_blocks := cache_blocks u;
     working_set := working_set u; dp_queue := dp_queue u; ip_queue := ip_queue u; ext_queue := ext_queue u;
     writer_keepalive := b; iosched_priv := iosched_priv u |}.

Definition set_ext_queue (l : list Z) (u : unified_data) : unified_data :=
  set_queues (working_set u) (dp_queue u) (ip_queue u) l u.

(** The queue for a state of requests, and the counter of a dentry for it *)
Definition queue_of (st : request_state) (u : unified_data) : queue :=
  match st with REQUEST_PARTIAL => working_set u | REQUEST_DP => dp_queue u | REQUEST_IP => ip_queue u end.
Definition set_queue_of (st : request_state) (q : queue) (u : unified_data) : unified_data :=
  match st with
  | REQUEST_PARTIAL => set_queues q (dp_queue u) (ip_queue u) (ext_queue u) u
  | REQUEST_DP => set_queues (working_set u) q (ip_queue u) (ext_queue u) u
  | REQUEST_IP => set_queues (working_set u) (dp_queue u) q (ext_queue u) u
  end.
Definition in_queue (st : request_state) (p : dentry_priv) : Z :=
  match st with REQUEST_PARTIAL => in_working_set p | REQUEST_DP => in_dp_queue p | REQUEST_IP => in_ip_queue p end.
Definition set_in_queue (st : request_state) (n : Z) (p : dentry_priv) : dentry_priv :=
  match st with
  | REQUEST_PARTIAL => set_in_queues n (in_dp_queue p) (in_ip_queue p) p
  | REQUEST_DP => set_in_queues (in_working_set p) n (in_ip_queue p) p
  | REQUEST_IP => set_in_queues (in_working_set p) (in_dp_queue p) n p
  end.

(** ** The files below *)

(** ltfs_fsops_raw.c, the fields of [struct dentry] the scheduler reads, and what it asks the
    volume.  The argument of an operation is the dentry; an offset comes before a length. *)
Record raw_ops (S : Type) := {
  fsraw_open : cstring -> bool -> op S (Z + Z);
  fsraw_close : Z -> op S Z;
  fsraw_read : Z -> Z -> Z -> op S (Z * list Z);
  fsraw_write : Z -> list Z -> Z -> Z -> bool -> op S Z;
  fsraw_write_data : Z -> list Z -> Z -> op S (Z * Z);
  fsraw_add_extent : Z -> extent_info -> bool -> op S Z;
  fsraw_truncate : Z -> Z -> op S Z;
  fsraw_get_dentry : Z -> op S unit;
  fsraw_put_dentry : Z -> op S unit;
  set_current_times : Z -> op S unit;
  d_size : S -> Z -> Z;
  d_matches_name_criteria : S -> Z -> bool;
  d_deleted : S -> Z -> bool;
  d_numhandles : S -> Z -> Z;
  volume_lock : S -> Z;
  tape_readonly : S -> Z;
  dp_readonly : S -> Z;
  ip_readonly : S -> Z;
  dp_id : S -> Z;
  ip_id : S -> Z;
  vol_blocksize : S -> Z;
  max_filesize : S -> Z
}.
Arguments fsraw_open {_}. Arguments fsraw_close {_}. Arguments fsraw_read {_}. Arguments fsraw_write {_}.
Arguments fsraw_write_data {_}. Arguments fsraw_add_extent {_}. Arguments fsraw_truncate {_}.
Arguments fsraw_get_dentry {_}. Arguments fsraw_put_dentry {_}. Arguments set_current_times {_}.
Arguments d_size {_}. Arguments d_matches_name_criteria {_}. Arguments d_deleted {_}. Arguments d_numhandles {_}.
Arguments volume_lock {_}. Arguments tape_readonly {_}. Arguments dp_readonly {_}. Arguments ip_readonly {_}.
Arguments dp_id {_}. Arguments ip_id {_}. Arguments vol_blocksize {_}. Arguments max_filesize {_}.

(** The files and the scheduler's data *)
Record sched (S : Type) := { files : S; sdata : unified_data }.
Arguments files {_}. Arguments sdata {_}.

(** ** The alternate extent list *)

Definition ext_end (e : extent_info) : Z := fileoffset e + bytecount e.
Definition set_bytecount (n : Z) (e : extent_info) : extent_info :=
  {| start := start e; byteoffset := byteoffset e; bytecount := n; fileoffset := fileoffset e |}.

(** [newext] follows the bytes of [entry] on the tape. *)
Definition adjacent (blocksize : Z) (entry newext : extent_info) : bool :=
  (byteoffset newext =? 0) && ((byteoffset entry + bytecount entry) mod blocksize =? 0)
  && (off_block (start entry) + (byteoffset entry + bytecount entry) / blocksize =? off_block (start newext)).

Definition drop_front (blocksize newext_end : Z) (entry : extent_info) : extent_info :=
  let diff := newext_end - fileoffset entry in
  let mod_ := diff + byteoffset entry in
  {| start := {| off_partition := off_partition (start entry); off_block := off_block (start entry) + mod_ / blocksize |};
     byteoffset := mod_ mod blocksize; bytecount := bytecount entry - diff; fileoffset := fileoffset entry + diff |}.

Fixpoint alt_loop (blocksize : Z) (newext : extent_info) (used : bool) (l : list extent_info) : list extent_info * bool :=
  match l with
  | [] => ([], used)
  | entry :: rest =>
      let here := negb used && (fileoffset newext <=? fileoffset entry) in
      let used := used || here in
      let go used entries := let '(l, u) := alt_loop blocksize newext used rest in
                             ((if here then [newext] else []) ++ entries ++ l, u) in
      if ext_end entry <? fileoffset newext then go used [entry]
      else if ext_end entry =? fileoffset newext then
        if adjacent blocksize entry newext then go true [set_bytecount (bytecount entry + bytecount newext) entry]
        else go used [entry]
      else if fileoffset entry <? fileoffset newext then
        if ext_end entry <=? ext_end newext then go used [set_bytecount (fileoffset newext - fileoffset entry) entry]
        else go used [entry]
      else if ext_end entry <=? ext_end newext then go used []
      else if fileoffset entry <? ext_end newext then go used [drop_front blocksize (ext_end newext) entry]
      else ((if here then [newext] else []) ++ entry :: rest, used)
  end.

Definition alt_insert (blocksize : Z) (newext : extent_info) (l : list extent_info) : list extent_info :=
  let '(l, used) := alt_loop blocksize newext false l in if used then l else l ++ [newext].

(** ** Queues *)

Definition dequeue (d : Z) (l : list Z) : list Z := filter (fun x => x <> d) l.

(** [counted]: whether the requests count for the queue *)
Definition change_queue (add all counted : bool) (d inq : Z) (q : queue) : Z * queue :=
  let delta n := if counted then u32 (request_count q + n) else request_count q in
  if add then
    (u32 (inq + 1),
     {| members := if inq =? 0 then members q ++ [d] else members q;
        entry_count := if inq =? 0 then u32 (entry_count q + 1) else entry_count q; request_count := delta 1 |})
  else
    let leaves := (all && negb (inq =? 0)) || (inq =? 1) in
    let requests := if all then delta (- inq) else if negb (inq =? 0) then delta (-1) else request_count q in
    (if all then 0 else if negb (inq =? 0) then inq - 1 else inq,
     {| members := if leaves then dequeue d (members q) else members q;
        entry_count := if leaves then u32 (entry_count q - 1) else entry_count q; request_count := requests |}).

(** Linking an entry twice or taking out one that is not linked breaks the list. *)
Definition queue_sound (add all : bool) (d inq : Z) (q : queue) : bool :=
  if add then negb ((inq =? 0) && bool_decide (d ∈ members q))
  else negb (((all && negb (inq =? 0)) || (inq =? 1)) && negb (bool_decide (d ∈ members q))).

Section unified.
Context {S : Type} (raw : raw_ops S).
(** What other threads do while a writer waits for a cache block *)
Context (others : op (sched S) unit).
(** [(uint32_t)(IP_HIGH_WATERMARK * cache_blocks)], which is computed with [double] *)
Context (ip_high_watermark : Z -> Z).

Abbreviation uop := (op (sched S)).

Definition ask {A} (f : S -> A) : uop A := fun s => Some (f (files s), s).
Definition on_files {A} (f : op S A) : uop A := fun s =>
  match f (files s) with Some (x, fs) => Some (x, {| files := fs; sdata := sdata s |}) | None => None end.
Definition get_data : uop unified_data := fun s => Some (sdata s, s).
Definition update_data (f : unified_data -> unified_data) : uop unit :=
  fun s => Some (tt, {| files := files s; sdata := f (sdata s) |}).

(** [*d->iosched_priv]; it is undefined behaviour to use one that is not there. *)
Definition get_priv (d : Z) : uop dentry_priv := fun s =>
  match iosched_priv (sdata s) !! d with Some p => Some (p, s) | None => None end.
Definition update_priv (d : Z) (f : dentry_priv -> dentry_priv) : uop unit :=
  update_data (fun u => set_privs (alter f d (iosched_priv u)) u).
Definition get_request (d : Z) (i : nat) : uop write_request :=
  let* p := get_priv d in match requests p !! i with Some r => ret_op r | None => undefined end.
Definition update_request_at (d : Z) (i : nat) (f : write_request -> write_request) : uop unit :=
  update_priv d (fun p => set_requests (alter f i (requests p)) p).
Definition remove_request (d : Z) (i : nat) : uop unit :=
  update_priv d (fun p => set_requests (delete i (requests p)) p).

Definition counts (st : request_state) (p : dentry_priv) : bool :=
  match st with REQUEST_DP => negb (write_ip p) | _ => true end.

Definition _unified_update_queue_membership (add all : bool) (st : request_state) (d : Z) : uop unit :=
  let* p := get_priv d in
  let* u := get_data in
  if negb (queue_sound add all d (in_queue st p) (queue_of st u)) then undefined
  else
    let '(n, q) := change_queue add all (counts st p) d (in_queue st p) (queue_of st u) in
    update_priv d (set_in_queue st n) ;;; update_data (set_queue_of st q).

Definition _unified_cache_free : uop unit :=
  update_data (fun u => set_cache (cache_manager_free_object (pool u)) (cache_requests u) u).

Definition _unified_free_request : uop unit := _unified_cache_free.

(** Under cache pressure the writer waits until another thread has given a block back;
    [true]: the lock of the dentry was released. *)
Definition _unified_cache_alloc : uop bool :=
  let* u := get_data in
  match cache_manager_allocate_object (pool u) with
  | Some p => update_data (set_cache p (cache_requests u)) ;;; ret_op false
  | None =>
      update_data (fun u => set_cache (pool u) (u32 (cache_requests u + 1)) u) ;;;
      others ;;;
      let* u := get_data in
      match cache_manager_allocate_object (pool u) with
      | Some p => update_data (set_cache p (u32 (cache_requests u - 1))) ;;; ret_op true
      | None => undefined
      end
  end.

(** Requests that are not full become ready up to the offset of the new bytes. *)
Definition promote (d offset : Z) (i : nat) : uop unit :=
  let* w := get_request d i in
  if is_partial w && (req_offset w <=? u64 offset) then
    _unified_update_queue_membership false false REQUEST_PARTIAL d ;;;
    update_request_at d i (set_req_state REQUEST_DP) ;;;
    _unified_update_queue_membership true false REQUEST_DP d
  else ret_op tt.

Fixpoint for_each (f : nat -> uop unit) (l : list nat) : uop unit :=
  match l with [] => ret_op tt | i :: l => f i ;;; for_each f l end.

Definition grow_file (d new_end : Z) : uop unit :=
  update_priv d (fun p => if file_size p <? new_end then set_file_size new_end p else p).

(** The number of bytes of [buf] that were copied into request [j] *)
Definition _unified_update_request (buf : list Z) (offset d : Z) (j : nat) : uop Z :=
  match buf with
  | [] => ret_op 0
  | _ =>
      let* r := get_request d j in
      let* u := get_data in
      let copy_offset := offset - req_offset r in
      let copy_count := Z.min (req_offset r + cache_size u - offset) (Z.of_nat (length buf)) in
      let bytes := take (Z.to_nat copy_offset) (write_cache r) ++ take (Z.to_nat copy_count) buf
                   ++ drop (Z.to_nat (copy_offset + copy_count)) (write_cache r) in
      update_request_at d j (set_bytes bytes) ;;;
      let* r := get_request d j in
      (if is_partial r && (req_count r =? cache_size u)
       then let* p := get_priv d in for_each (promote d offset) (seq 0 (length (requests p)))
       else ret_op tt) ;;;
      grow_file d (req_end r) ;;;
      ret_op copy_count
  end.

(** [spare]: [None] for a NULL pointer, otherwise whether it points to a block.  The result
    is that of the function, and whether there is a spare block now. *)
Definition _unified_merge_requests (d : Z) (dest : option nat) (src : nat) (spare : option bool) : uop (Z * bool) :=
  let has_spare := default false spare in
  match dest with
  | None => ret_op (0, has_spare)
  | Some i =>
      let* t := get_request d i in
      let* s := get_request d src in
      if req_end t <? req_offset s then ret_op (0, has_spare)
      else
        let* u := get_data in
        let copy_offset := req_end t - req_offset s in
        let* copy_count :=
          (if negb (bool_decide (req_state t = req_state s)) && (is_ip t || is_ip s) then ret_op 0
           else if (req_count t <? cache_size u) && (copy_offset <? req_count s)
           then _unified_update_request (drop (Z.to_nat copy_offset) (write_cache s)) (req_offset s + copy_offset) d i
           else ret_op 0) in
        let copy_offset := copy_offset + copy_count in
        let* s := get_request d src in
        if negb (0 <? copy_offset) then ret_op (0, has_spare)
        else if copy_offset <? req_count s then
          update_request_at d src (cut_front copy_offset) ;;;
          (if bool_decide (req_state s = REQUEST_DP) then
             _unified_update_queue_membership false false REQUEST_DP d ;;;
             update_request_at d src (set_req_state REQUEST_PARTIAL) ;;;
             _unified_update_queue_membership true false REQUEST_PARTIAL d
           else ret_op tt) ;;;
          ret_op (1, has_spare)
        else
          remove_request d src ;;;
          _unified_update_queue_membership false false (req_state s) d ;;;
          match spare with
          | Some false => ret_op (2, true)
          | _ => _unified_free_request ;;; ret_op (2, has_spare)
          end
  end.

(** A new request before index [i]; 0: the call has to start over. *)
Definition _unified_insert_new_request (buf : list Z) (offset : Z) (spare ip_state : bool) (i : nat) (d : Z) : uop (Z * bool) :=
  let* waited := (if spare then ret_op false else _unified_cache_alloc) in
  if waited then ret_op (0, true)
  else
    let* u := get_data in
    let count := Z.of_nat (length buf) in
    let copy_count := Z.min count (cache_size u) in
    let st := if ip_state then REQUEST_IP else if copy_count =? cache_size u then REQUEST_DP else REQUEST_PARTIAL in
    let new_req := {| req_offset := offset; write_cache := take (Z.to_nat copy_count) buf; req_state := st |} in
    update_priv d (fun p => set_requests (take i (requests p) ++ new_req :: drop i (requests p)) p) ;;;
    _unified_update_queue_membership true false st d ;;;
    grow_file d (req_end new_req) ;;;
    ret_op (if cache_size u <? count then copy_count else count, false).

Definition _unified_get_write_error (d : Z) : uop Z :=
  let* u := get_data in
  match iosched_priv u !! d with
  | Some p => update_priv d (set_write_error 0) ;;; ret_op (write_error p)
  | None => ret_op 0
  end.

Definition fresh_priv (fs : S) (d : Z) : dentry_priv :=
  let too_large := (max_filesize raw fs =? 0) || (max_filesize raw fs <? d_size raw fs d) in
  {| file_size := d_size raw fs d; write_ip := if too_large then false else d_matches_name_criteria raw fs d;
     write_error := 0; in_working_set := 0; in_dp_queue := 0; in_ip_queue := 0; requests := []; alt_extentlist := [] |}.

Definition _unified_get_dentry_priv (d : Z) : uop unit :=
  let* u := get_data in
  match iosched_priv u !! d with
  | Some _ => ret_op tt
  | None =>
      let* p := ask (fun fs => fresh_priv fs d) in
      update_data (fun u => set_privs (<[d := p]> (iosched_priv u)) u) ;;;
      on_files (fsraw_get_dentry raw d)
  end.

(** *** The alternate extents *)

Definition _unified_update_alt_extentlist (newext : extent_info) (d : Z) : uop unit :=
  let* p := get_priv d in
  let* u := get_data in
  match alt_extentlist p with
  | [] =>
      if bool_decide (d ∈ ext_queue u) then undefined
      else update_data (fun u => set_ext_queue (ext_queue u ++ [d]) u) ;;;
           update_priv d (set_alt_extentlist [newext])
  | l =>
      let* bs := ask (vol_blocksize raw) in
      update_priv d (set_alt_extentlist (alt_insert bs newext l))
  end.

Fixpoint add_extents (d : Z) (l : list extent_info) : uop unit :=
  match l with
  | [] => ret_op tt
  | ext :: l => let* _ := on_files (fsraw_add_extent raw d ext false) in add_extents d l
  end.

Definition _unified_clear_alt_extentlist (save : bool) (d : Z) : uop unit :=
  let* p := get_priv d in
  match alt_extentlist p with
  | [] => ret_op tt
  | l =>
      (if save then add_extents d l else ret_op tt) ;;;
      update_priv d (set_alt_extentlist []) ;;;
      let* u := get_data in
      if bool_decide (d ∈ ext_queue u) then update_data (fun u => set_ext_queue (dequeue d (ext_queue u)) u)
      else undefined
  end.

(** *** Data placement *)

(** Changes the global counter by the requests that are hidden or shown. *)
Definition shift_dp_count (n : Z) : uop unit :=
  update_data (fun u => set_queue_of REQUEST_DP
    {| members := members (dp_queue u); entry_count := entry_count (dp_queue u);
       request_count := u32 (request_count (dp_queue u) + n) |} u).

Definition _unified_set_write_ip (d : Z) : uop unit :=
  update_priv d (set_write_ip true) ;;;
  let* p := get_priv d in
  if in_dp_queue p =? 0 then ret_op tt else shift_dp_count (- in_dp_queue p).

(** The requests that are kept; the blocks of the others are given back. *)
Fixpoint free_requests (keep : write_request -> bool) (l : list write_request) : uop (list write_request) :=
  match l with
  | [] => ret_op []
  | r :: l => if keep r then let* l := free_requests keep l in ret_op (r :: l)
              else _unified_free_request ;;; free_requests keep l
  end.

Definition _unified_unset_write_ip (d : Z) : uop unit :=
  update_priv d (set_write_ip false) ;;;
  let* p := get_priv d in
  (if in_ip_queue p =? 0 then ret_op tt
   else
     let* l := free_requests (fun r => negb (is_ip r)) (requests p) in
     update_priv d (set_requests l) ;;;
     _unified_update_queue_membership false true REQUEST_IP d) ;;;
  let* p := get_priv d in
  (if in_dp_queue p =? 0 then ret_op tt else shift_dp_count (in_dp_queue p)) ;;;
  _unified_clear_alt_extentlist false d.

(** *** Errors of the writing *)

Definition no_space (ret : Z) : bool := (ret =? - LTFS_NO_SPACE) || (ret =? - LTFS_LESS_SPACE).

(** The requests that stay; the size of the file grows with each. *)
Fixpoint sweep (clear_dp clear_ip : bool) (d : Z) (l : list write_request) : uop (list write_request) :=
  match l with
  | [] => ret_op []
  | r :: l =>
      if (is_ip r && clear_ip) || (negb (is_ip r) && clear_dp) then
        _unified_free_request ;;; sweep clear_dp clear_ip d l
      else
        grow_file d (req_end r) ;;;
        let* l := sweep clear_dp clear_ip d l in ret_op (r :: l)
  end.

(** [failed]: the state of the request that could not be written *)
Definition _unified_handle_write_error (write_ret : Z) (failed : request_state) (d : Z) : uop unit :=
  let failed_ip := bool_decide (failed = REQUEST_IP) in
  (if failed_ip && no_space write_ret then ret_op tt
   else update_priv d (fun p => if write_error p =? 0 then set_write_error write_ret p else p)) ;;;
  let* dp := ask (dp_readonly raw) in
  let* ip := ask (ip_readonly raw) in
  let clear_dp := if failed_ip then negb (no_space write_ret) || (dp <? 0) else true in
  let clear_ip := if failed_ip then true else negb (no_space write_ret) || (ip <? 0) in
  let* size := ask (fun fs => d_size raw fs d) in
  update_priv d (set_file_size size) ;;;
  let* p := get_priv d in
  match requests p with
  | [] => ret_op tt
  | l =>
      (if clear_dp then
         _unified_update_queue_membership false true REQUEST_DP d ;;;
         _unified_update_queue_membership false true REQUEST_PARTIAL d
       else ret_op tt) ;;;
      (if clear_ip then _unified_update_queue_membership false true REQUEST_IP d else ret_op tt) ;;;
      let* l := sweep clear_dp clear_ip d l in
      update_priv d (set_requests l)
  end.

(** *** Flushing *)

Definition before (i : nat) : option nat := match i with O => None | Datatypes.S j => Some j end.

(** A request has been written to the data partition of a file that belongs on the index
    partition as well; the result: whether it was merged into the one before it. *)
Definition becomes_ip (d : Z) (i : nat) : uop bool :=
  update_request_at d i (set_req_state REQUEST_IP) ;;;
  _unified_update_queue_membership true false REQUEST_IP d ;;;
  let* '(ret, _) := _unified_merge_requests d (before i) i None in ret_op (ret =? 2).

(** From request [i] on; [fuel]: the number of requests that are left *)
Fixpoint flush_loop (fuel : nat) (d : Z) (i : nat) : uop unit :=
  match fuel with
  | O => ret_op tt
  | Datatypes.S fuel =>
      let* p := get_priv d in
      match requests p !! i with
      | None => ret_op tt
      | Some r =>
          if is_ip r then
            let* '(ret, _) := _unified_merge_requests d (before i) i None in
            flush_loop fuel d (if ret =? 2 then i else Datatypes.S i)
          else
            let* dp := ask (dp_id raw) in
            let* ret := on_files (fsraw_write raw d (write_cache r) (req_offset r) dp false) in
            if ret <? 0 then _unified_handle_write_error ret (req_state r) d
            else if write_ip p then
              let* gone := becomes_ip d i in
              flush_loop fuel d (if gone then i else Datatypes.S i)
            else
              remove_request d i ;;; _unified_free_request ;;; flush_loop fuel d i
      end
  end.

Definition _unified_flush_unlocked (d : Z) : uop Z :=
  let* u := get_data in
  match iosched_priv u !! d with
  | None => ret_op 0
  | Some _ =>
      let* ret := _unified_get_write_error d in
      if ret <? 0 then ret_op ret
      else
        let* p := get_priv d in
        match requests p with
        | [] => ret_op 0
        | l =>
            _unified_update_queue_membership false true REQUEST_DP d ;;;
            _unified_update_queue_membership false true REQUEST_PARTIAL d ;;;
            flush_loop (length l) d 0 ;;;
            let* ret := _unified_get_write_error d in
            ret_op (if ret <? 0 then ret else 0)
        end
  end.

Fixpoint flush_each (l : list Z) : uop Z :=
  match l with
  | [] => ret_op 0
  | d :: l => let* ret := _unified_flush_unlocked d in if ret <? 0 then ret_op ret else flush_each l
  end.

Definition _unified_flush_all : uop Z :=
  let* u := get_data in
  let* ret := flush_each (members (dp_queue u)) in
  if ret <? 0 then ret_op ret
  else let* u := get_data in flush_each (members (working_set u)).

Definition unified_flush (d : option Z) : uop Z :=
  match d with Some d => _unified_flush_unlocked d | None => _unified_flush_all end.

(** *** Releasing the private data of a dentry *)

Definition drop_priv (d : Z) : uop unit :=
  update_data (fun u => set_privs (delete d (iosched_priv u)) u) ;;; on_files (fsraw_put_dentry raw d).

Definition _unified_free_dentry_priv_conditional (d target_handles : Z) : uop unit :=
  let* u := get_data in
  let* handles := ask (fun fs => d_numhandles raw fs d) in
  match iosched_priv u !! d with
  | Some p =>
      if (handles <=? target_handles) && bool_decide (requests p = []) && bool_decide (alt_extentlist p = [])
      then drop_priv d else ret_op tt
  | None => ret_op tt
  end.

(** [get_priv]: an entry of a queue is read although it may have been freed. *)
Definition _unified_free_dentry_priv (d : Z) : uop unit :=
  let* p := get_priv d in
  (if write_ip p then _unified_clear_alt_extentlist true d else ret_op tt) ;;; drop_priv d.

(** *** Open and close *)

Definition unified_open (path : cstring) (open_write : bool) : uop (Z + Z) := on_files (fsraw_open raw path open_write).

Definition unified_close (d : Z) (flush : bool) : uop Z :=
  let* ret := (if flush then _unified_flush_unlocked d else ret_op 0) in
  let* error := _unified_get_write_error d in
  _unified_free_dentry_priv_conditional d 3 ;;;
  let* _ := on_files (fsraw_close raw d) in
  ret_op (if negb (ret =? 0) then ret else error).

(** *** Reading *)

(** What the list of requests gives: pieces of the buffer, from a request or still to be
    read from the tape, and the rest behind the last request. *)
Inductive piece := Cached (bytes : list Z) | FromTape (offset count : Z).

Fixpoint scan_requests (l : list write_request) (offset size : Z) : list piece * (Z * Z) :=
  match l with
  | [] => ([], (offset, size))
  | r :: l =>
      let gap := if offset <? req_offset r then Z.min (req_offset r - offset) size else 0 in
      let tape := if offset <? req_offset r then [FromTape offset gap] else [] in
      let offset := offset + gap in
      let size := size - gap in
      if size =? 0 then (tape, (offset, size))
      else if offset <? req_end r then
        let n := Z.min (req_end r - offset) size in
        let cached := Cached (take (Z.to_nat n) (drop (Z.to_nat (offset - req_offset r)) (write_cache r))) in
        if size - n =? 0 then (tape ++ [cached], (offset + n, size - n))
        else let '(pieces, rest) := scan_requests l (offset + n) (size - n) in (tape ++ cached :: pieces, rest)
      else let '(pieces, rest) := scan_requests l offset size in (tape ++ pieces, rest)
  end.

(** The reads from the tape, in order; behind the end of the file there are zeros. *)
Fixpoint fill_pieces (d : Z) (past_eof : bool) (l : list piece) : uop (Z + list Z) :=
  match l with
  | [] => ret_op (inr [])
  | Cached bytes :: l =>
      let* r := fill_pieces d past_eof l in
      ret_op (match r with inl e => inl e | inr out => inr (bytes ++ out) end)
  | FromTape offset count :: l =>
      let* '(nread, bytes) := (if past_eof then ret_op (0, []) else on_files (fsraw_read raw d offset count)) in
      if nread <? 0 then ret_op (inl nread)
      else
        let* r := fill_pieces d (past_eof || (nread <? count)) l in
        ret_op (match r with
                | inl e => inl e
                | inr out => inr (take (Z.to_nat nread) bytes ++ replicate (Z.to_nat (count - nread)) 0 ++ out)
                end)
  end.

Definition unified_read (d size offset : Z) : uop (Z * list Z) :=
  if size =? 0 then ret_op (0, [])
  else
    let* ret := ask (volume_lock raw) in
    if ret <? 0 then ret_op (ret, [])
    else
      let* u := get_data in
      match iosched_priv u !! d with
      | None => on_files (fsraw_read raw d offset size)
      | Some p =>
          if bool_decide (requests p = []) then on_files (fsraw_read raw d offset size)
          else
            let '(pieces, (offset, rest)) := scan_requests (requests p) offset size in
            let* r := fill_pieces d false pieces in
            match r with
            | inl e => ret_op (e, [])
            | inr out =>
                if rest =? 0 then ret_op (size, out)
                else
                  let* '(nread, bytes) := on_files (fsraw_read raw d offset rest) in
                  ret_op (if nread <? 0 then (nread, []) else (size - rest + nread, out ++ take (Z.to_nat nread) bytes))
            end
      end.

(** *** Truncating and data placement *)

(** From the end of the list; [l]: the requests in reverse order *)
Fixpoint truncate_requests (len d : Z) (l : list write_request) : uop (list write_request) :=
  match l with
  | [] => ret_op []
  | r :: rest =>
      if len <=? req_offset r then
        _unified_update_queue_membership false false (req_state r) d ;;;
        _unified_free_request ;;; truncate_requests len d rest
      else if len <? req_end r then
        let* rest := truncate_requests len d rest in ret_op (cut_back (len - req_offset r) r :: rest)
      else ret_op l
  end.

Fixpoint truncate_alt (len : Z) (l : list extent_info) : list extent_info :=
  match l with
  | [] => []
  | e :: l => if len <=? fileoffset e then truncate_alt len l
              else (if len <? ext_end e then set_bytecount (len - fileoffset e) e else e) :: truncate_alt len l
  end.

Definition unified_truncate (d len : Z) : uop Z :=
  let* ret := ask (tape_readonly raw) in
  if ret <? 0 then ret_op ret
  else
    let* u := get_data in
    match iosched_priv u !! d with
    | None => on_files (fsraw_truncate raw d len)
    | Some p =>
        (if len <? file_size p then
           let* l := truncate_requests len d (rev (requests p)) in
           update_priv d (set_requests (rev l)) ;;;
           update_priv d (fun p => set_alt_extentlist (truncate_alt len (alt_extentlist p)) p)
         else ret_op tt) ;;;
        update_priv d (set_file_size len) ;;;
        let* max := ask (max_filesize raw) in
        let* matches := ask (fun fs => d_matches_name_criteria raw fs d) in
        let* deleted := ask (fun fs => d_deleted raw fs d) in
        (if negb (write_ip p) && (0 <? max) && (len =? 0) && matches && negb deleted then _unified_set_write_ip d
         else if write_ip p && ((max <? len) || negb matches || deleted) then _unified_unset_write_ip d
         else ret_op tt) ;;;
        on_files (fsraw_truncate raw d len)
    end.

Definition unified_get_filesize (d : Z) : uop Z :=
  let* u := get_data in
  match iosched_priv u !! d with
  | Some p => ret_op (file_size p)
  | None => ask (fun fs => d_size raw fs d)
  end.

Definition unified_update_data_placement (d : Z) : uop Z :=
  let* u := get_data in
  match iosched_priv u !! d with
  | None => ret_op 0
  | Some p =>
      let* max := ask (max_filesize raw) in
      let* matches := ask (fun fs => d_matches_name_criteria raw fs d) in
      let* deleted := ask (fun fs => d_deleted raw fs d) in
      (if negb (write_ip p) && (0 <? max) && (file_size p <=? max) && matches && negb deleted then _unified_set_write_ip d
       else if write_ip p && ((max <? file_size p) || negb matches || deleted) then _unified_unset_write_ip d
       else ret_op tt) ;;;
      ret_op 0
  end.

(** *** The background thread *)

(** The requests of one file for the index partition; the loop ends at an error. *)
Fixpoint index_loop (fuel : nat) (d : Z) (i : nat) : uop unit :=
  match fuel with
  | O => ret_op tt
  | Datatypes.S fuel =>
      let* p := get_priv d in
      match requests p !! i with
      | None => ret_op tt
      | Some r =>
          if is_ip r then
            let* id := ask (ip_id raw) in
            let* '(ret, block) := on_files (fsraw_write_data raw id (write_cache r) 1) in
            if ret <? 0 then _unified_handle_write_error ret REQUEST_IP d
            else
              _unified_update_alt_extentlist
                {| start := {| off_partition := id; off_block := block |}; byteoffset := 0;
                   bytecount := req_count r; fileoffset := req_offset r |} d ;;;
              remove_request d i ;;; _unified_free_request ;;; index_loop fuel d i
          else index_loop fuel d (Datatypes.S i)
      end
  end.

Fixpoint index_each (l : list Z) : uop unit :=
  match l with
  | [] => ret_op tt
  | d :: l =>
      _unified_update_queue_membership false true REQUEST_IP d ;;;
      let* p := get_priv d in
      index_loop (length (requests p)) d 0 ;;;
      _unified_free_dentry_priv_conditional d 2 ;;;
      index_each l
  end.

Definition _unified_process_index_queue : uop unit := let* u := get_data in index_each (members (ip_queue u)).

(** What is moved into the private list; [all]: partial requests as well.  Requests of a
    file that belongs on the index partition are written right away. *)
Fixpoint collect_loop (fuel : nat) (all : bool) (d : Z) (i : nat) (local : list write_request) : uop (list write_request) :=
  match fuel with
  | O => ret_op local
  | Datatypes.S fuel =>
      let* p := get_priv d in
      match requests p !! i with
      | None => ret_op local
      | Some r =>
          if is_ip r then
            let* '(ret, _) := _unified_merge_requests d (before i) i None in
            collect_loop fuel all d (if ret =? 2 then i else Datatypes.S i) local
          else if bool_decide (req_state r = REQUEST_DP) || all then
            if write_ip p then
              let* dp := ask (dp_id raw) in
              let* ret := on_files (fsraw_write raw d (write_cache r) (req_offset r) dp false) in
              if ret <? 0 then _unified_handle_write_error ret (req_state r) d ;;; ret_op local
              else
                let* gone := becomes_ip d i in
                collect_loop fuel all d (if gone then i else Datatypes.S i) local
            else remove_request d i ;;; collect_loop fuel all d i (local ++ [r])
          else collect_loop fuel all d (Datatypes.S i) local
      end
  end.

(** The private list is written; [inr (ret, rest)]: an error and what is left of the list. *)
Fixpoint send_local (d : Z) (l : list write_request) : uop (unit + Z * list write_request) :=
  match l with
  | [] => ret_op (inl tt)
  | r :: rest =>
      let* dp := ask (dp_id raw) in
      let* ret := on_files (fsraw_write raw d (write_cache r) (req_offset r) dp false) in
      if ret <? 0 then ret_op (inr (ret, l))
      else _unified_free_request ;;; send_local d rest
  end.

Fixpoint free_all (l : list write_request) : uop unit :=
  match l with [] => ret_op tt | _ :: l => _unified_free_request ;;; free_all l end.

Definition process_dentry (all : bool) (d : Z) : uop unit :=
  _unified_update_queue_membership false true (if all then REQUEST_PARTIAL else REQUEST_DP) d ;;;
  (if all then _unified_update_queue_membership false true REQUEST_DP d else ret_op tt) ;;;
  let* p := get_priv d in
  let* local := collect_loop (length (requests p)) all d 0 [] in
  let* r := send_local d local in
  match r with
  | inl _ => ret_op tt
  | inr (ret, rest) =>
      let* u := get_data in
      (match iosched_priv u !! d, rest with
       | Some _, r :: _ => _unified_handle_write_error ret (req_state r) d
       | _, _ => ret_op tt
       end) ;;;
      free_all rest
  end.

(** [n] times the first dentry of the data queue, or else of the working set *)
Fixpoint process_entries (n : nat) (all : bool) : uop unit :=
  match n with
  | O => ret_op tt
  | Datatypes.S n =>
      let* u := get_data in
      match members (dp_queue u), members (working_set u) with
      | d :: _, _ => process_dentry all d ;;; process_entries n all
      | [], d :: _ => if all then process_dentry all d ;;; process_entries n all else ret_op tt
      | [], [] => ret_op tt
      end
  end.

Definition _unified_process_data_queue (st : request_state) : uop unit :=
  let* u := get_data in
  let all := bool_decide (st = REQUEST_PARTIAL) in
  process_entries (Z.to_nat (if all then u32 (entry_count (dp_queue u) + entry_count (working_set u))
                             else entry_count (dp_queue u))) all.

Definition _unified_process_queue (st : request_state) : uop unit :=
  match st with REQUEST_IP => _unified_process_index_queue | _ => _unified_process_data_queue st end.

(** One round of the thread: [None] when it has nothing to do and waits, otherwise whether
    it goes on *)
Definition _unified_writer_thread : uop (option bool) :=
  let* u := get_data in
  if bool_decide (members (dp_queue u) = []) && (cache_requests u =? 0) && writer_keepalive u then ret_op None
  else if negb (writer_keepalive u) then
    let* _ := _unified_flush_all in _unified_process_queue REQUEST_IP ;;; ret_op (Some false)
  else
    (if 0 <? cache_requests u then
       if 2 * cache_requests u <? request_count (dp_queue u) then _unified_process_queue REQUEST_DP
       else if request_count (ip_queue u) <? ip_high_watermark (cache_blocks u) then _unified_process_queue REQUEST_PARTIAL
       else _unified_process_queue REQUEST_IP
     else _unified_process_queue REQUEST_DP) ;;;
    ret_op (Some true).

(** The last round of the thread is run when it is told to end. *)
Fixpoint free_each (l : list Z) : uop unit :=
  match l with [] => ret_op tt | d :: l => _unified_free_dentry_priv d ;;; free_each l end.

Definition unified_destroy : uop Z :=
  update_data (set_keepalive false) ;;;
  let* _ := _unified_writer_thread in
  let* u := get_data in
  free_each (ext_queue u) ;;; ret_op 0.

(** *** Writing *)

(** What the loop of [unified_write] works on: the rest of the buffer and its offset, the
    last return value of a step, and the local variables *)
Record writer := {
  w_buf : list Z;
  w_offset : Z;
  w_ret : Z;
  spare_cache : bool;
  checked_readonly : bool;
  prev_req : option nat;
  did_merge : bool
}.

Definition advance (n : Z) (w : writer) : writer :=
  {| w_buf := drop (Z.to_nat n) (w_buf w); w_offset := w_offset w + n; w_ret := w_ret w; spare_cache := spare_cache w;
     checked_readonly := checked_readonly w; prev_req := prev_req w; did_merge := did_merge w |}.
Definition set_ret (ret : Z) (spare : bool) (w : writer) : writer :=
  {| w_buf := w_buf w; w_offset := w_offset w; w_ret := ret; spare_cache := spare;
     checked_readonly := checked_readonly w; prev_req := prev_req w; did_merge := did_merge w |}.
Definition set_checked (w : writer) : writer :=
  {| w_buf := w_buf w; w_offset := w_offset w; w_ret := w_ret w; spare_cache := spare_cache w;
     checked_readonly := true; prev_req := prev_req w; did_merge := did_merge w |}.
Definition set_prev (i : option nat) (w : writer) : writer :=
  {| w_buf := w_buf w; w_offset := w_offset w; w_ret := w_ret w; spare_cache := spare_cache w;
     checked_readonly := checked_readonly w; prev_req := i; did_merge := did_merge w |}.
Definition set_merge (b spare : bool) (w : writer) : writer :=
  {| w_buf := w_buf w; w_offset := w_offset w; w_ret := w_ret w; spare_cache := spare;
     checked_readonly := checked_readonly w; prev_req := prev_req w; did_merge := b |}.

Definition w_size (w : writer) : Z := Z.of_nat (length (w_buf w)).
Definition w_end (w : writer) : Z := w_offset w + w_size w.

(** The places in the function, with the index of the request at hand: [scan] is the head of
    the loop over the requests, [do_insert_before] the label of that name, [next_request]
    the end of the loop's body, and [leave] a return that skips the end of the function. *)
Inductive place := write_start | do_append | append_new | scan (i : nat) | do_insert_before (i : nat) | next_request (i : nat)
                 | out | leave.

(** After an insertion: 0 leads to the start, an error to the end. *)
Definition inserted (r : Z * bool) (w : writer) (go : writer -> place * writer) : place * writer :=
  let '(ret, spare) := r in
  let w := set_ret ret spare w in
  if ret <? 0 then (out, w) else if ret =? 0 then (write_start, w) else go w.

(** The new bytes meet request [i]. *)
Definition meet_request (d : Z) (i : nat) (w : writer) : uop (place * writer) :=
  let* r := get_request d i in
  let* u := get_data in
  let offset := w_offset w in
  if offset <? req_offset r then ret_op (do_insert_before i, w)
  else if negb (is_ip r) && ((offset <? req_end r) || ((offset =? req_end r) && (req_count r <? cache_size u))) then
    let* n := _unified_update_request (w_buf w) offset d i in
    ret_op (next_request i, advance n (set_merge true (spare_cache w) w))
  else if is_ip r && (offset <? req_end r) then
    if (offset =? req_offset r) && (req_count r <=? w_size w) then
      (* Remove *)
      remove_request d i ;;;
      _unified_update_queue_membership false false REQUEST_IP d ;;;
      (if spare_cache w then _unified_free_request else ret_op tt) ;;;
      ret_op (scan i, set_merge (did_merge w) true w)
    else if offset =? req_offset r then
      (* Truncate from the beginning *)
      update_request_at d i (cut_front (w_size w)) ;;; ret_op (do_insert_before i, w)
    else if req_end r <=? w_end w then
      (* Truncate from the end *)
      update_request_at d i (cut_back (offset - req_offset r)) ;;; ret_op (next_request i, w)
    else
      (* Split *)
      let copy_offset := offset - req_offset r + w_size w in
      let* x := _unified_insert_new_request (drop (Z.to_nat copy_offset) (write_cache r)) (req_offset r + copy_offset)
                  (spare_cache w) true (Datatypes.S i) d in
      (if 0 <? x.1 then update_request_at d i (cut_back (offset - req_offset r)) else ret_op tt) ;;;
      ret_op (inserted x w (fun w => (do_insert_before (Datatypes.S i), w)))
  else ret_op (next_request i, w).

Definition write_step (d : Z) (at_ : place) (w : writer) : uop (place * writer) :=
  match at_ with
  | write_start =>
      _unified_get_dentry_priv d ;;;
      let* ret := _unified_get_write_error d in
      if ret <? 0 then ret_op (leave, set_ret ret (spare_cache w) w)
      else
        let* ret := (if checked_readonly w then ret_op ret else ask (tape_readonly raw)) in
        if negb (checked_readonly w) && (ret <? 0) && negb (ret =? - LTFS_NO_SPACE)
        then ret_op (leave, set_ret ret (spare_cache w) w)
        else
          let* p := get_priv d in
          let* max := ask (max_filesize raw) in
          let* ip := ask (ip_readonly raw) in
          (if write_ip p && ((max <? u64 (w_end w)) || no_space ip) then _unified_unset_write_ip d else ret_op tt) ;;;
          ret_op (do_append, set_checked (set_ret ret (spare_cache w) w))
  | do_append =>
      let* p := get_priv d in
      let* u := get_data in
      let n := length (requests p) in
      match requests p !! (n - 1)%nat with
      | None => ret_op (if 0 <=? w_offset w then append_new else scan 0, set_prev None w)
      | Some r =>
          if req_end r <=? w_offset w then
            let* copied := (if (req_count r <? cache_size u) && (w_offset w =? req_end r) && negb (is_ip r)
                            then _unified_update_request (w_buf w) (w_offset w) d (n - 1) else ret_op 0) in
            ret_op (append_new, advance copied w)
          else ret_op (scan 0, set_prev None w)
      end
  | append_new =>
      if w_size w =? 0 then ret_op (out, w)
      else
        let* p := get_priv d in
        let* x := _unified_insert_new_request (w_buf w) (w_offset w) (spare_cache w) false (length (requests p)) d in
        ret_op (inserted x w (fun w => (append_new, advance x.1 w)))
  | scan i =>
      let* p := get_priv d in
      match requests p !! i with
      | None => ret_op (if 0 <? w_size w then do_append else out, w)
      | Some r => ret_op (if req_end r <? w_offset w then scan (Datatypes.S i) else do_insert_before i, w)
      end
  | do_insert_before i =>
      let* r := get_request d i in
      if (0 <? w_size w) && (w_offset w <? req_offset r) then
        let* x := _unified_insert_new_request (w_buf w) (w_offset w) (spare_cache w) false i d in
        ret_op (inserted x w (fun w => (do_insert_before (Datatypes.S i), advance x.1 (set_prev (Some i) w))))
      else
        let* '(m, spare) := _unified_merge_requests d (prev_req w) i (Some (spare_cache w)) in
        let w := set_merge (negb (m =? 0)) spare w in
        if m =? 2 then ret_op (scan i, w)
        else if 0 <? w_size w then meet_request d i w
        else ret_op (next_request i, w)
  | next_request i =>
      let w := set_prev (Some i) w in
      ret_op (if (w_size w =? 0) && negb (did_merge w) then out else scan (Datatypes.S i), w)
  | out | leave => ret_op (at_, w)
  end.

Fixpoint write_loop (fuel : nat) (d : Z) (at_ : place) (w : writer) : uop (place * writer) :=
  match at_ with
  | out | leave => ret_op (at_, w)
  | _ =>
      match fuel with
      | O => undefined
      | Datatypes.S fuel => let* x := write_step d at_ w in write_loop fuel d x.1 x.2
      end
  end.

Definition unified_write (fuel : nat) (d : Z) (buf : list Z) (offset : Z) (isupdatetime : bool) : uop Z :=
  match buf with
  | [] => ret_op 0
  | _ =>
      let* ret := ask (volume_lock raw) in
      if ret <? 0 then ret_op ret
      else
        let* '(at_, w) := write_loop fuel d write_start
          {| w_buf := buf; w_offset := offset; w_ret := ret; spare_cache := false; checked_readonly := false;
             prev_req := None; did_merge := false |} in
        match at_ with
        | leave => ret_op (w_ret w)
        | _ =>
            let* err := ask (volume_lock raw) in
            (if (0 <=? w_ret w) && (err =? 0) && isupdatetime then on_files (set_current_times raw d) else ret_op tt) ;;;
            (if spare_cache w then _unified_cache_free else ret_op tt) ;;;
            ret_op (if w_ret w <? 0 then w_ret w else Z.of_nat (length buf))
        end
  end.

End unified.

(** ** The plugin *)

Definition empty_queue : queue := {| members := []; entry_count := 0; request_count := 0 |}.

(** The sizes of the cache are in megabytes. *)
Definition unified_init (blocksize min_cache_size max_cache_size : Z) : unified_data :=
  let blocks mb := mb * 1024 * 1024 / blocksize in
  {| pool := cache_manager_init (blocks min_cache_size) (blocks max_cache_size); cache_requests := 0;
     cache_size := blocksize; cache_blocks := blocks max_cache_size; working_set := empty_queue; dp_queue := empty_queue;
     ip_queue := empty_queue; ext_queue := []; writer_keepalive := true; iosched_priv := ∅ |}.
