(* ===== verification/UnifiedList.v ===== *)
(** * Lists of requests, as runs of bytes

    What the write queue of a file means: the first request that covers an offset gives the
    byte there, the file the rest.  The changes that [unified_write] makes to the list, and
    why they leave this meaning alone. *)

From S2P Require Import Prelude Extents FsTree Unified.
Open Scope Z_scope.

(** ** Chunks *)

(** A request without the difference between partial and ready *)
Record chunk := { c_off : Z; c_bytes : list Z; c_ip : bool }.

Definition chunk_of (r : write_request) : chunk :=
  {| c_off := req_offset r; c_bytes := write_cache r; c_ip := is_ip r |}.

Definition c_len (c : chunk) : Z := Z.of_nat (length (c_bytes c)).
Definition c_end (c : chunk) : Z := c_off c + c_len c.

(** The byte of [c] at offset [x] *)
Definition value (c : chunk) (x : Z) : option Z :=
  if c_off c <=? x then c_bytes c !! Z.to_nat (x - c_off c) else None.

(** The bytes of a file with contents [f] under the requests [l] *)
Fixpoint look (f : Z -> option Z) (l : list chunk) (x : Z) : option Z :=
  match l with
  | [] => f x
  | c :: l => match value c x with Some b => Some b | None => look f l x end
  end.

(** The bytes [b] that are written at offset [o] *)
Definition fresh (o : Z) (b : list Z) : chunk := {| c_off := o; c_bytes := b; c_ip := false |}.
Definition over (o : Z) (b : list Z) (f : Z -> option Z) (x : Z) : option Z :=
  match value (fresh o b) x with Some v => Some v | None => f x end.

Lemma value_spec c x :
  (c_off c <= x < c_end c /\ exists v, value c x = Some v) \/ (~ c_off c <= x < c_end c /\ value c x = None).
Proof.
  unfold value, c_end, c_len. destruct (Z.leb_spec (c_off c) x); [|right; split; [lia|done]].
  destruct (decide (x < c_off c + Z.of_nat (length (c_bytes c)))).
  - left. split; [lia|]. apply lookup_lt_is_Some_2. lia.
  - right. split; [lia|]. apply lookup_ge_None_2. lia.
Qed.

Lemma value_out c x : ~ c_off c <= x < c_end c -> value c x = None.
Proof. destruct (value_spec c x) as [[? _]|[_ ?]]; [done|done]. Qed.

Lemma value_in c x v : value c x = Some v -> c_off c <= x < c_end c.
Proof. destruct (value_spec c x) as [[? _]|[_ ?]]; [done|congruence]. Qed.

(** Equal bytes at [x], whatever the chunks around them are *)
Lemma value_slice c c' x :
  0 <= c_off c' - c_off c -> c_off c' <= x < c_end c' ->
  c_bytes c' !! Z.to_nat (x - c_off c') = c_bytes c !! Z.to_nat (x - c_off c) -> value c' x = value c x.
Proof. intros H Hx He. unfold value. by rewrite !Zle_imp_le_bool by lia. Qed.

(** *** Pieces of chunks *)

Definition front_cut (n : Z) (c : chunk) : chunk :=
  {| c_off := c_off c + n; c_bytes := drop (Z.to_nat n) (c_bytes c); c_ip := c_ip c |}.
Definition back_cut (n : Z) (c : chunk) : chunk :=
  {| c_off := c_off c; c_bytes := take (Z.to_nat n) (c_bytes c); c_ip := c_ip c |}.
(** [n] bytes of [b] over those of [c] from offset [o] on *)
Definition filled (o n : Z) (b : list Z) (c : chunk) : chunk :=
  {| c_off := c_off c;
     c_bytes := take (Z.to_nat (o - c_off c)) (c_bytes c) ++ take (Z.to_nat n) b
                ++ drop (Z.to_nat (o - c_off c + n)) (c_bytes c);
     c_ip := c_ip c |}.

Lemma front_cut_len n c : 0 <= n <= c_len c -> c_len (front_cut n c) = c_len c - n.
Proof. unfold c_len. cbn. rewrite length_drop. lia. Qed.
Lemma front_cut_end n c : 0 <= n <= c_len c -> c_end (front_cut n c) = c_end c.
Proof. intros H. unfold c_end at 1. rewrite front_cut_len by done. unfold c_end. cbn. lia. Qed.
Lemma back_cut_len n c : 0 <= n <= c_len c -> c_len (back_cut n c) = n.
Proof. unfold c_len. cbn. rewrite length_take. lia. Qed.
Lemma back_cut_end n c : 0 <= n <= c_len c -> c_end (back_cut n c) = c_off c + n.
Proof. intros H. unfold c_end. by rewrite back_cut_len. Qed.
Lemma filled_len o n b c :
  c_off c <= o <= c_end c -> 0 <= n <= Z.of_nat (length b) -> c_len (filled o n b c) = Z.max (c_len c) (o + n - c_off c).
Proof. unfold c_end, c_len. cbn. rewrite !length_app, !length_take, length_drop. lia. Qed.
Lemma filled_end o n b c :
  c_off c <= o <= c_end c -> 0 <= n <= Z.of_nat (length b) -> c_end (filled o n b c) = Z.max (c_end c) (o + n).
Proof. intros H Hn. unfold c_end at 1. rewrite filled_len by done. unfold c_end. cbn. lia. Qed.

Lemma front_cut_value n c x : 0 <= n -> value (front_cut n c) x = if c_off c + n <=? x then value c x else None.
Proof.
  intros H. unfold value. cbn. destruct (Z.leb_spec (c_off c + n) x); [|done].
  rewrite Zle_imp_le_bool by lia. rewrite lookup_drop. f_equal. lia.
Qed.

Lemma back_cut_value n c x : 0 <= n -> value (back_cut n c) x = if x <? c_off c + n then value c x else None.
Proof.
  intros H. unfold value. cbn. destruct (Z.leb_spec (c_off c) x).
  - destruct (Z.ltb_spec x (c_off c + n)); [apply lookup_take_lt; lia|apply lookup_take_ge; lia].
  - by destruct (x <? c_off c + n).
Qed.

Lemma filled_value o n b c x :
  c_off c <= o <= c_end c -> 0 <= n <= Z.of_nat (length b) ->
  value (filled o n b c) x = if (o <=? x) && (x <? o + n) then value (fresh o b) x else value c x.
Proof.
  unfold c_end, c_len. intros Ho Hn. unfold value. cbn. destruct (Z.leb_spec (c_off c) x); cycle 1.
  { destruct (Z.leb_spec o x); [lia|done]. }
  destruct (Z.leb_spec o x); cbn; cycle 1.
  { rewrite lookup_app_l by (rewrite length_take; lia). apply lookup_take_lt. lia. }
  rewrite lookup_app_r by (rewrite length_take; lia). rewrite length_take.
  destruct (Z.ltb_spec x (o + n)).
  - rewrite lookup_app_l by (rewrite length_take; lia). rewrite lookup_take_lt by lia. f_equal. lia.
  - rewrite lookup_app_r by (rewrite length_take; lia). rewrite length_take, lookup_drop. f_equal. lia.
Qed.

Lemma fresh_drop_value n o b x :
  0 <= n -> value (fresh (o + n) (drop (Z.to_nat n) b)) x = if o + n <=? x then value (fresh o b) x else None.
Proof. intros H. apply (front_cut_value n (fresh o b) x H). Qed.

Lemma fresh_take_value n o b x :
  0 <= n -> value (fresh o (take (Z.to_nat n) b)) x = if x <? o + n then value (fresh o b) x else None.
Proof. intros H. apply (back_cut_value n (fresh o b) x H). Qed.

(** ** Order *)

(** The chunks are in order, do not overlap, and none is empty or larger than a block. *)
Fixpoint ordered (cs lo : Z) (l : list chunk) : Prop :=
  match l with
  | [] => True
  | c :: l => lo <= c_off c /\ 0 < c_len c <= cs /\ ordered cs (c_end c) l
  end.

Definition upto (o : Z) (l : list chunk) : Prop := forall c, c ∈ l -> c_end c <= o.
Definition ahead (e : Z) (l : list chunk) : Prop := forall c, c ∈ l -> e <= c_end c.

Lemma upto_nil o : upto o [].
Proof. intros c H. by apply elem_of_nil in H. Qed.
Lemma upto_cons o c l : upto o (c :: l) <-> c_end c <= o /\ upto o l.
Proof.
  split; [intros H; split; [apply H; by left|intros c' Hc; apply H; by right]|].
  intros [H1 H2] c' [->|Hc]%elem_of_cons; [done|by apply H2].
Qed.
Lemma upto_app o l l' : upto o (l ++ l') <-> upto o l /\ upto o l'.
Proof.
  split; [intros H; split; intros c Hc; apply H, elem_of_app; tauto|].
  intros [H1 H2] c [Hc|Hc]%elem_of_app; [by apply H1|by apply H2].
Qed.
Lemma upto_mono o o' l : o <= o' -> upto o l -> upto o' l.
Proof. intros Ho H c Hc. specialize (H c Hc). lia. Qed.
Lemma ahead_nil e : ahead e [].
Proof. intros c H. by apply elem_of_nil in H. Qed.
Lemma ahead_cons e c l : ahead e (c :: l) <-> e <= c_end c /\ ahead e l.
Proof.
  split; [intros H; split; [apply H; by left|intros c' Hc; apply H; by right]|].
  intros [H1 H2] c' [->|Hc]%elem_of_cons; [done|by apply H2].
Qed.
Lemma ahead_mono e e' l : e' <= e -> ahead e l -> ahead e' l.
Proof. intros Ho H c Hc. specialize (H c Hc). lia. Qed.

Lemma ordered_weaken cs lo lo' l : lo' <= lo -> ordered cs lo l -> ordered cs lo' l.
Proof. destruct l; cbn; [done|]. intros ? (? & ? & ?). split_and!; [lia|lia|lia|done]. Qed.

Lemma ordered_size cs lo l c : ordered cs lo l -> c ∈ l -> lo <= c_off c /\ 0 < c_len c <= cs.
Proof.
  revert lo. induction l as [|c' l IH]; intros lo; cbn; [intros _ H; by apply elem_of_nil in H|].
  intros (H1 & H2 & H3) [->|Hc]%elem_of_cons; [done|]. destruct (IH _ H3 Hc). unfold c_end in *. split; [lia|done].
Qed.

Lemma ordered_ahead cs lo l : ordered cs lo l -> ahead lo l.
Proof. intros H c Hc. destruct (ordered_size _ _ _ _ H Hc). unfold c_end. lia. Qed.

Lemma ordered_snoc cs lo l c :
  ordered cs lo (l ++ [c]) <-> ordered cs lo l /\ lo <= c_off c /\ upto (c_off c) l /\ 0 < c_len c <= cs.
Proof.
  revert lo. induction l as [|c' l IH]; intros lo; cbn [app ordered].
  - split; [intros (? & ? & _)|intros (_ & ? & _ & ?)]; split_and!; try done; try lia. apply upto_nil.
  - rewrite IH, upto_cons. unfold c_end at 3. split.
    + intros (H1 & H2 & H3 & H4 & H5 & H6). unfold c_end in *. split_and!; try done; lia.
    + intros ((H1 & H2 & H3) & H4 & (H5 & H6) & H7). unfold c_end in *. split_and!; try done; lia.
Qed.

(** A list up to a chunk and a list from its end on *)
Lemma ordered_join cs lo l c r :
  ordered cs lo (l ++ [c]) -> ordered cs (c_end c) r -> ordered cs lo (l ++ c :: r).
Proof.
  revert lo. induction l as [|c' l IH]; intros lo; cbn [app ordered].
  - intros (? & ? & _) ?. done.
  - intros (? & ? & H) Hr. split_and!; try done; try lia. by apply IH.
Qed.

Lemma ordered_app_r cs lo l r : ordered cs lo (l ++ r) -> ordered cs lo r.
Proof.
  revert lo. induction l as [|c l IH]; intros lo; cbn [app ordered]; [done|].
  intros (? & ? & H). apply IH in H. apply (ordered_weaken _ (c_end c)); [unfold c_end; lia|done].
Qed.

Lemma ordered_app_l cs lo l r : ordered cs lo (l ++ r) -> ordered cs lo l.
Proof.
  revert lo. induction l as [|c l IH]; intros lo; cbn [app ordered]; [done|].
  intros (? & ? & H). apply IH in H. done.
Qed.

Lemma ordered_split cs lo l c r :
  ordered cs lo (l ++ c :: r) <-> ordered cs lo (l ++ [c]) /\ ordered cs (c_end c) r.
Proof.
  split; [|intros [? ?]; by apply ordered_join]. revert lo. induction l as [|c' l IH]; intros lo; cbn [app ordered].
  - intros (? & ? & ?). done.
  - intros (? & ? & H). apply IH in H as [? ?]. done.
Qed.

(** Replacing the last chunk by one at the same offset *)
Lemma ordered_last cs lo l c c' :
  ordered cs lo (l ++ [c]) -> c_off c' = c_off c -> 0 < c_len c' <= cs -> ordered cs lo (l ++ [c']).
Proof. rewrite !ordered_snoc. intros (? & ? & ? & ?) -> ?. done. Qed.

Lemma ordered_remove cs lo l c r : ordered cs lo (l ++ c :: r) -> ordered cs lo (l ++ r).
Proof.
  revert lo. induction l as [|c' l IH]; intros lo; cbn [app ordered].
  - intros (? & ? & H). apply (ordered_weaken _ (c_end c)); [unfold c_end; lia|done].
  - intros (? & ? & H). split_and!; [lia|lia|lia|by apply IH].
Qed.

(** Replacing a chunk by chunks within its bounds *)
Lemma ordered_within cs lo l c m r :
  ordered cs lo (l ++ c :: r) -> ordered cs (c_off c) (m ++ r) -> ordered cs lo (l ++ m ++ r).
Proof.
  revert lo. induction l as [|c' l IH]; intros lo; cbn [app ordered].
  - intros (? & ? & H) Hm. by apply (ordered_weaken _ (c_off c)).
  - intros (? & ? & H) Hm. split_and!; [lia|lia|lia|by apply IH].
Qed.

(** ** What a change of the list does to the contents *)

Section contents.
Context (f : Z -> option Z).
Implicit Types (l pre post : list chunk).

Lemma look_app_cong l r r' x : look f r x = look f r' x -> look f (l ++ r) x = look f (l ++ r') x.
Proof. intros H. induction l as [|c l IH]; cbn; [done|]. by rewrite IH. Qed.

Lemma look_behind o l r x : upto o l -> o <= x -> look f (l ++ r) x = look f r x.
Proof.
  induction l as [|c l IH]; cbn; [done|]. intros [Hc Hl]%upto_cons Hx. rewrite value_out by lia. by apply IH.
Qed.

(** The first [n] of the new bytes become part of the list. *)
Lemma look_stored o n b pre post c c' x :
  upto o pre -> 0 <= n <= Z.of_nat (length b) ->
  (forall y, value c' y = if (o <=? y) && (y <? o + n) then value (fresh o b) y else from_option (fun c => value c y) None c) ->
  look f (fresh (o + n) (drop (Z.to_nat n) b) :: pre ++ c' :: post) x =
  look f (fresh o b :: pre ++ option_list c ++ post) x.
Proof.
  intros Hpre Hn Hv. cbn [look]. rewrite fresh_drop_value by lia.
  assert (Hrest : ~ (o <= x < o + n) -> look f (pre ++ c' :: post) x = look f (pre ++ option_list c ++ post) x).
  { intros Hx. apply look_app_cong. cbn [look]. rewrite Hv.
    replace ((o <=? x) && (x <? o + n)) with false by (destruct (Z.leb_spec o x), (Z.ltb_spec x (o + n)); cbn; lia).
    by destruct c. }
  destruct (value_spec (fresh o b) x) as [[Hx [v Hv']]|[Hx Hv']]; rewrite Hv'; unfold c_end, c_len in Hx; cbn in Hx.
  - destruct (Z.leb_spec (o + n) x); [done|]. rewrite (look_behind o) by (done || lia). cbn [look]. rewrite Hv, Hv'.
    by rewrite Zle_imp_le_bool, (proj2 (Z.ltb_lt _ _)) by lia.
  - assert (look f (pre ++ c' :: post) x = look f (pre ++ option_list c ++ post) x) as -> by (apply Hrest; lia).
    by destruct (o + n <=? x).
Qed.

Lemma look_inserted o n b pre post x :
  upto o pre -> 0 <= n <= Z.of_nat (length b) ->
  look f (fresh (o + n) (drop (Z.to_nat n) b) :: pre ++ fresh o (take (Z.to_nat n) b) :: post) x =
  look f (fresh o b :: pre ++ post) x.
Proof.
  intros Hpre Hn. apply (look_stored o n b pre post None (fresh o (take (Z.to_nat n) b)) x Hpre Hn).
  intros y. cbn [from_option]. rewrite fresh_take_value by lia. destruct (Z.leb_spec o y); cbn; [done|].
  rewrite value_out by (cbn; lia). by destruct (y <? o + n).
Qed.

Lemma look_filled o n b c pre post x :
  upto o pre -> 0 <= n <= Z.of_nat (length b) -> c_off c <= o <= c_end c ->
  look f (fresh (o + n) (drop (Z.to_nat n) b) :: pre ++ filled o n b c :: post) x =
  look f (fresh o b :: pre ++ c :: post) x.
Proof.
  intros Hpre Hn Hc. apply (look_stored o n b pre post (Some c) (filled o n b c) x Hpre Hn). intros y. by apply filled_value.
Qed.

(** Where the new bytes are, the list does not matter. *)
Lemma look_covered o b c r pre post x :
  (forall y, value (fresh o b) y = None -> look f (c :: post) y = look f (r ++ post) y) ->
  look f (fresh o b :: pre ++ c :: post) x = look f (fresh o b :: pre ++ r ++ post) x.
Proof.
  intros H. cbn [look]. destruct (value (fresh o b) x) eqn:E; [done|]. apply look_app_cong, H, E.
Qed.

Lemma fresh_none o b x : value (fresh o b) x = None <-> ~ o <= x < o + Z.of_nat (length b).
Proof. destruct (value_spec (fresh o b) x) as [[H [v E]]|[H E]]; unfold c_end, c_len in H; cbn in H; rewrite E.
  - split; [done|lia].
  - done.
Qed.

Lemma look_removed o b c pre post x :
  o <= c_off c -> c_end c <= o + Z.of_nat (length b) ->
  look f (fresh o b :: pre ++ c :: post) x = look f (fresh o b :: pre ++ post) x.
Proof.
  intros H1 H2. apply (look_covered o b c []). intros y Hy%fresh_none. cbn. by rewrite value_out by lia.
Qed.

Lemma look_cut_front o b c n pre post x :
  0 <= n -> o <= c_off c -> c_off c + n <= o + Z.of_nat (length b) ->
  look f (fresh o b :: pre ++ c :: post) x = look f (fresh o b :: pre ++ front_cut n c :: post) x.
Proof.
  intros Hn H1 H2. apply (look_covered o b c [front_cut n c]). intros y Hy%fresh_none. cbn. rewrite front_cut_value by lia.
  destruct (Z.leb_spec (c_off c + n) y); [done|]. by rewrite value_out by lia.
Qed.

Lemma look_cut_back o b c n pre post x :
  0 <= n -> o <= c_off c + n -> c_end c <= o + Z.of_nat (length b) ->
  look f (fresh o b :: pre ++ c :: post) x = look f (fresh o b :: pre ++ back_cut n c :: post) x.
Proof.
  intros Hn H1 H2. apply (look_covered o b c [back_cut n c]). intros y Hy%fresh_none. cbn. rewrite back_cut_value by lia.
  destruct (Z.ltb_spec y (c_off c + n)); [done|]. by rewrite value_out by lia.
Qed.

Lemma look_split o b c n m pre post x :
  0 <= n <= m -> o <= c_off c + n -> c_off c + m <= o + Z.of_nat (length b) ->
  look f (fresh o b :: pre ++ c :: post) x = look f (fresh o b :: pre ++ back_cut n c :: front_cut m c :: post) x.
Proof.
  intros Hn H1 H2. apply (look_covered o b c [back_cut n c; front_cut m c]). intros y Hy%fresh_none. cbn.
  rewrite back_cut_value, front_cut_value by lia.
  destruct (Z.ltb_spec y (c_off c + n)), (Z.leb_spec (c_off c + m) y); try done; try lia.
  all: by destruct (value c y).
Qed.

(** *** Merging *)

(** [q'] is [q] with the bytes of [c] that follow it, as many as fit. *)
Record pulled (cs : Z) (q c q' : chunk) : Prop := {
  pulled_off : c_off q' = c_off q;
  pulled_ip : c_ip q' = c_ip q;
  pulled_end : c_end q <= c_end q';
  pulled_more : c_end q < c_end q' -> c_ip c = c_ip q /\ c_off c <= c_end q /\ c_end q' <= c_end c;
  pulled_size : c_len q' <= cs;
  pulled_value x : value q' x = if (c_end q <=? x) && (x <? c_end q') then value c x else value q x
}.

(** What is left of [c] then *)
Definition remains (q' c : chunk) : list chunk :=
  if c_end q' <=? c_off c then [c]
  else if c_end q' <? c_end c then [front_cut (c_end q' - c_off c) c] else [].

Lemma look_pulled cs q c q' post x :
  pulled cs q c q' -> c_off q <= c_off c ->
  look f (q' :: remains q' c ++ post) x = look f (q :: c :: post) x.
Proof.
  intros Hp Hoff. cbn [look]. rewrite (pulled_value _ _ _ _ Hp). pose proof (pulled_end _ _ _ _ Hp).
  pose proof (pulled_off _ _ _ _ Hp) as Ho. pose proof (pulled_more _ _ _ _ Hp) as Hmore.
  assert (Hrest : value c x = None \/ c_end q' <= x -> look f (remains q' c ++ post) x = look f (c :: post) x).
  { unfold remains. intros Hx. destruct (Z.leb_spec (c_end q') (c_off c)); [done|]. cbn [look].
    destruct (Z.ltb_spec (c_end q') (c_end c)); cbn.
    - rewrite front_cut_value by lia. destruct (Z.leb_spec (c_off c + (c_end q' - c_off c)) x); [done|].
      destruct Hx as [->|Hx]; [done|lia].
    - destruct (value_spec c x) as [[? _]|[_ ->]]; [|done]. destruct Hx as [->|Hx]; [done|lia]. }
  destruct (Z.leb_spec (c_end q) x); cbn.
  - rewrite (value_out q) by lia. destruct (Z.ltb_spec x (c_end q')).
    + destruct (value_spec c x) as [[? [v Hv]]|[? Hv]]; rewrite Hv; [done|]. rewrite Hrest by auto. cbn. by rewrite Hv.
    + rewrite Hrest by auto. cbn. by destruct (value c x).
  - destruct (value_spec q x) as [[? [v ->]]|[Hq ->]]; [done|]. apply Hrest. left. apply value_out.
    unfold c_end, c_len in *. lia.
Qed.
End contents.

(** ** Requests that have been written already *)

(** The bytes of a request for the index partition are also in the file. *)
Definition chunk_synced (f : Z -> option Z) (c : chunk) : Prop :=
  c_ip c = true -> forall x v, value c x = Some v -> f x = Some v.
Definition synced (f : Z -> option Z) (l : list chunk) : Prop := forall c, c ∈ l -> chunk_synced f c.

Lemma synced_app f l l' : synced f (l ++ l') <-> synced f l /\ synced f l'.
Proof.
  split; [intros H; split; intros c Hc; apply H, elem_of_app; tauto|].
  intros [H1 H2] c [Hc|Hc]%elem_of_app; [by apply H1|by apply H2].
Qed.
Lemma synced_cons f c l : synced f (c :: l) <-> chunk_synced f c /\ synced f l.
Proof.
  split; [intros H; split; [apply H; by left|intros c' Hc; apply H; by right]|].
  intros [H1 H2] c' [->|Hc]%elem_of_cons; [done|by apply H2].
Qed.
Lemma synced_not_ip f c : c_ip c = false -> chunk_synced f c.
Proof. intros E H. congruence. Qed.
Lemma synced_part f c c' : c_ip c' = c_ip c -> (forall x v, value c' x = Some v -> value c x = Some v) ->
  chunk_synced f c -> chunk_synced f c'.
Proof. intros Hip Hv H Hc x v Hx. rewrite Hip in Hc. by apply H, Hv. Qed.
Lemma synced_front_cut f n c : 0 <= n -> chunk_synced f c -> chunk_synced f (front_cut n c).
Proof. intros Hn. apply synced_part; [done|]. intros x v. rewrite front_cut_value by done. by case_match. Qed.
Lemma synced_back_cut f n c : 0 <= n -> chunk_synced f c -> chunk_synced f (back_cut n c).
Proof. intros Hn. apply synced_part; [done|]. intros x v. rewrite back_cut_value by done. by case_match. Qed.
Lemma synced_pulled f cs q c q' : pulled cs q c q' -> chunk_synced f q -> chunk_synced f c -> chunk_synced f q'.
Proof.
  intros Hp Hq Hc Hip x v. rewrite (pulled_value _ _ _ _ Hp), (pulled_ip _ _ _ _ Hp) in *.
  destruct (Z.leb_spec (c_end q) x), (Z.ltb_spec x (c_end q')); cbn; try by apply Hq.
  destruct (pulled_more _ _ _ _ Hp) as [He _]; [lia|]. apply Hc. by rewrite He.
Qed.
Lemma synced_remains f q' c : chunk_synced f c -> synced f (remains q' c).
Proof.
  intros H. unfold remains. destruct (Z.leb_spec (c_end q') (c_off c)); [by apply synced_cons; split; [|intros ? ?%elem_of_nil]|].
  destruct (c_end q' <? c_end c); [|by intros ? ?%elem_of_nil]. apply synced_cons. split; [|by intros ? ?%elem_of_nil].
  apply synced_front_cut; [lia|done].
Qed.

Lemma upto_remains o q' c : c_end c <= o -> upto o (remains q' c).
Proof.
  intros H c'. unfold remains. destruct (Z.leb_spec (c_end q') (c_off c)); [by intros ->%list_elem_of_singleton|].
  destruct (Z.ltb_spec (c_end q') (c_end c)); [intros ->%list_elem_of_singleton|by intros ?%elem_of_nil].
  unfold c_end, c_len in *. cbn. rewrite length_drop. lia.
Qed.

(** ** Without the requests for the index partition *)

Definition data_chunks (l : list chunk) : list chunk := List.filter (fun c => negb (c_ip c)) l.

Lemma look_before f cs lo l x : ordered cs lo l -> x < lo -> look f l x = f x.
Proof.
  revert lo. induction l as [|c l IH]; intros lo; cbn; [done|]. intros (? & ? & H) Hx. rewrite value_out by lia.
  apply (IH (c_end c)); [done|]. unfold c_end. lia.
Qed.

Lemma data_chunks_in l c : c ∈ data_chunks l -> c ∈ l.
Proof. unfold data_chunks. rewrite !list_elem_of_In, filter_In. tauto. Qed.

Lemma look_data_chunks f cs lo l x : ordered cs lo l -> synced f l -> look f (data_chunks l) x = look f l x.
Proof.
  unfold data_chunks. revert lo. induction l as [|c l IH]; intros lo; [done|]. cbn [List.filter look ordered].
  intros (? & ? & H) [Hc Hs]%synced_cons. specialize (IH _ H Hs). destruct (c_ip c) eqn:Hip; cbn [negb look]; rewrite IH; [|done].
  destruct (value c x) as [v|] eqn:Hv; [|done]. rewrite (look_before f cs (c_end c)); [by apply Hc|done|].
  apply value_in in Hv. lia.
Qed.

Lemma ordered_filter cs lo (g : chunk -> bool) l : ordered cs lo l -> ordered cs lo (List.filter g l).
Proof.
  revert lo. induction l as [|c l IH]; intros lo; cbn; [done|]. intros (? & ? & H).
  destruct (g c); cbn [ordered]; [split_and!; [lia|lia|lia|by apply IH]|].
  apply (ordered_weaken _ (c_end c)); [unfold c_end; lia|by apply IH].
Qed.

Lemma ordered_data_chunks cs lo l : ordered cs lo l -> ordered cs lo (data_chunks l).
Proof. apply ordered_filter. Qed.

Lemma pairs_data_chunks (R : chunk -> chunk -> Prop) l : ForallOrdPairs R l -> ForallOrdPairs R (data_chunks l).
Proof.
  induction 1 as [|c l Hc Hl IH]; cbn; [constructor|]. destruct (c_ip c); cbn [negb]; [done|]. constructor; [|done].
  apply list.Forall_forall. intros c' Hc'. by apply (proj1 (list.Forall_forall _ _) Hc), data_chunks_in.
Qed.

(** Requests that are all on tape hide nothing. *)
Lemma look_all_ip f cs lo l x : ordered cs lo l -> synced f l -> (forall c, c ∈ l -> c_ip c = true) -> look f l x = f x.
Proof.
  intros Ho Hs Hip. rewrite <- (look_data_chunks f cs lo l x Ho Hs).
  assert (E : data_chunks l = []); [|by rewrite E]. unfold data_chunks. clear Ho Hs. induction l as [|c l IH]; [done|].
  cbn. rewrite (Hip c) by (by left). cbn. apply IH. intros c' Hc'. apply Hip. by right.
Qed.

(** ** The first request that is not on tape is written. *)

Lemma look_written f cs lo pre c post x :
  ordered cs lo (pre ++ c :: post) -> synced f pre -> (forall c', c' ∈ pre -> c_ip c' = true) ->
  look (over (c_off c) (c_bytes c) f) (pre ++ post) x = look f (pre ++ c :: post) x.
Proof.
  intros Ho Hs Hip. revert lo Ho. induction pre as [|c' pre IH]; intros lo; cbn [app ordered look].
  - intros (_ & _ & Ho). assert (Hv : value (fresh (c_off c) (c_bytes c)) x = value c x) by done.
    destruct (value_spec c x) as [[Hx [v Hc]]|[Hx Hc]]; rewrite Hc.
    + rewrite (look_before _ cs (c_end c)) by (done || lia). unfold over. by rewrite Hv, Hc.
    + revert Ho. generalize (c_end c). induction post as [|c2 post IHp]; intros m; cbn; [by unfold over; rewrite Hv, Hc|].
      intros (_ & _ & Ho). by rewrite (IHp _ Ho).
  - intros (_ & _ & Ho). apply synced_cons in Hs as [_ Hs].
    by rewrite (IH Hs ltac:(intros c2 Hc2; apply Hip; by right) _ Ho).
Qed.

Lemma look_written_ip f cs lo pre c c' post x :
  ordered cs lo (pre ++ c :: post) -> synced f pre -> (forall c', c' ∈ pre -> c_ip c' = true) ->
  (forall y, value c' y = value c y) ->
  look (over (c_off c) (c_bytes c) f) (pre ++ c' :: post) x = look f (pre ++ c :: post) x.
Proof.
  intros Ho Hs Hip Hv. rewrite <- (look_written f cs lo pre c post x Ho Hs Hip).
  destruct (value_spec c x) as [[Hx [v Hc]]|[Hx Hc]]; cycle 1.
  { clear -Hv Hc. induction pre as [|c2 pre IH]; cbn; [by rewrite Hv, Hc|by rewrite IH]. }
  apply ordered_split in Ho as [Ho Ho2]. apply ordered_snoc in Ho as (_ & _ & Hup & _).
  rewrite !(look_behind _ (c_off c)) by (done || lia). cbn. rewrite Hv, Hc.
  rewrite (look_before _ cs (c_end c)) by (done || lia). unfold over. change (value (fresh _ _) x) with (value c x). by rewrite Hc.
Qed.

Lemma ordered_disjoint cs lo pre c post c' x :
  ordered cs lo (pre ++ c :: post) -> c' ∈ pre ++ post -> c_off c' <= x < c_end c' -> ~ c_off c <= x < c_end c.
Proof.
  intros Ho Hc' Hx. apply ordered_split in Ho as [Ho Ho2]. apply ordered_snoc in Ho as (_ & _ & Hup & _).
  apply elem_of_app in Hc' as [Hc'|Hc'].
  - specialize (Hup c' Hc'). lia.
  - destruct (ordered_size _ _ _ _ Ho2 Hc'). lia.
Qed.

(** The other requests stay on tape. *)
Lemma synced_elsewhere f f' cs lo pre c post :
  ordered cs lo (pre ++ c :: post) -> synced f (pre ++ post) -> (forall x, ~ c_off c <= x < c_end c -> f' x = f x) ->
  synced f' (pre ++ post).
Proof.
  intros Ho Hs Hf c' Hc' Hip x v Hv. rewrite Hf; [by apply (Hs c' Hc' Hip)|].
  apply value_in in Hv. by eapply ordered_disjoint.
Qed.

Lemma over_elsewhere o b f x : ~ o <= x < o + Z.of_nat (length b) -> over o b f x = f x.
Proof. intros H. unfold over. by rewrite value_out by done. Qed.
