(* ===== verification/UnifiedWp.v ===== *)
(** * Executing the unified scheduler

    Rules for [runs m s Q]: the operation [m], started in [s], has a result, and that and
    the final state satisfy [Q].  [kept] is what every step of a call leaves alone: the
    files, the data of the other dentries, and that the queues and counters belong to
    the dentry's requests. *)

From S2P Require Import Prelude Errors Extents FsTree Unified UnifiedList.
Open Scope Z_scope.
Open Scope ltfs_scope.

(** ** Results *)

Definition runs {S A} (m : op S A) (s : S) (Q : A -> S -> Prop) : Prop :=
  match m s with Some (x, s') => Q x s' | None => False end.

Section runs.
Context {S : Type}.
Implicit Types s : S.

Lemma runs_bind {A B} (m : op S A) (k : A -> op S B) s Q :
  runs m s (fun x s' => runs (k x) s' Q) -> runs (bind_op m k) s Q.
Proof. unfold runs, bind_op. by destruct (m s) as [[x s1]|]. Qed.

Lemma runs_ret {A} (x : A) s (Q : A -> S -> Prop) : Q x s -> runs (ret_op x) s Q.
Proof. done. Qed.

Lemma runs_mono {A} (m : op S A) s (Q Q' : A -> S -> Prop) :
  runs m s Q -> (forall x s', Q x s' -> Q' x s') -> runs m s Q'.
Proof. unfold runs. destruct (m s) as [[x s1]|]; [|done]. intros H Hm. by apply Hm. Qed.

Lemma runs_some {A} (m : op S A) s Q : runs m s Q <-> exists x s', m s = Some (x, s') /\ Q x s'.
Proof.
  unfold runs. split; [|by intros (x & s' & -> & H)]. destruct (m s) as [[x s1]|]; [|done]. intros H. by exists x, s1.
Qed.

Lemma runs_and_then {A B} (m : op S A) (k : A -> op S B) s P Q :
  runs m s P -> (forall x s', P x s' -> runs (k x) s' Q) -> runs (bind_op m k) s Q.
Proof. intros H Hk. apply runs_bind, (runs_mono _ _ P); done. Qed.

Lemma runs_seq {A B C} (m1 : op S A) (m2 : op S B) (k : B -> op S C) s P Q :
  runs (m1 ;;; m2) s P -> (forall x s', P x s' -> runs (k x) s' Q) -> runs (m1 ;;; bind_op m2 k) s Q.
Proof.
  unfold runs, bind_op. destruct (m1 s) as [[x s1]|]; [|done]. destruct (m2 s1) as [[y s2]|]; [|done]. intros H Hk. by apply Hk.
Qed.
End runs.

(** ** The pool *)

(** The blocks that can still be had *)
Definition avail (p : cache_pool) : Z := pool_objects p + (max_capacity p - current_capacity p).

Definition pool_ok (p : cache_pool) : Prop :=
  0 <= pool_objects p /\ 0 <= initial_capacity p <= current_capacity p /\ current_capacity p <= max_capacity p /\ 2 <= max_capacity p.

Lemma alloc_some p : pool_ok p -> 0 < avail p ->
  exists p', cache_manager_allocate_object p = Some p' /\ pool_ok p' /\ avail p' = avail p - 1.
Proof.
  unfold pool_ok, avail, cache_manager_allocate_object, new_size. intros (H1 & H2 & H3 & H4) H.
  pose proof (Z.div_mod (max_capacity p) 2 ltac:(lia)). pose proof (Z.mod_pos_bound (max_capacity p) 2 ltac:(lia)).
  repeat case_match; bool_to_prop; try lia; eexists; (split; [done|]); cbn; lia.
Qed.

Lemma alloc_none p : pool_ok p -> cache_manager_allocate_object p = None <-> avail p = 0.
Proof.
  intros Hp. split.
  - intros H. destruct (decide (0 < avail p)) as [Ha|Ha]; [|unfold pool_ok, avail in *; lia].
    destruct (alloc_some p Hp Ha) as (p' & Hp' & _). congruence.
  - unfold pool_ok, avail in *. intros H. unfold cache_manager_allocate_object.
    by rewrite (proj2 (Z.ltb_ge _ _)), (proj2 (Z.eqb_eq _ _)) by lia.
Qed.

Lemma free_object p : pool_ok p -> pool_ok (cache_manager_free_object p) /\ avail (cache_manager_free_object p) = avail p + 1.
Proof. unfold pool_ok, avail, cache_manager_free_object. intros H. case_match; bool_to_prop; cbn; lia. Qed.

(** ** Counters *)

Definition count_state (st : request_state) (l : list write_request) : Z :=
  Z.of_nat (length (filter (fun r => req_state r = st) l)).

Lemma count_app st l l' : count_state st (l ++ l') = count_state st l + count_state st l'.
Proof. unfold count_state. rewrite list.filter_app, length_app. lia. Qed.

Lemma count_one st r : count_state st [r] = if decide (req_state r = st) then 1 else 0.
Proof. unfold count_state. rewrite list.filter_cons. by case_decide. Qed.

Lemma count_range st l : 0 <= count_state st l <= Z.of_nat (length l).
Proof. unfold count_state. pose proof (list.length_filter (fun r => req_state r = st) l). lia. Qed.

Lemma lookup_split {A} (l : list A) i x : l !! i = Some x -> l = take i l ++ [x] ++ drop (Datatypes.S i) l.
Proof. intros H. symmetry. by apply take_drop_middle. Qed.

Lemma count_delete st l i r :
  l !! i = Some r -> count_state st (delete i l) = count_state st l - (if decide (req_state r = st) then 1 else 0).
Proof.
  intros H. rewrite delete_take_drop. rewrite (lookup_split l i r H) at 3. rewrite !count_app, count_one. lia.
Qed.

Lemma alter_split {A} (l : list A) i x g : l !! i = Some x -> alter g i l = take i l ++ [g x] ++ drop (Datatypes.S i) l.
Proof.
  revert i. induction l as [|y l IH]; intros [|i]; cbn; [done..| |].
  - intros [= ->]. done.
  - intros H. f_equal. by apply IH.
Qed.

Lemma count_alter st l i r g :
  l !! i = Some r ->
  count_state st (alter g i l) =
  count_state st l - (if decide (req_state r = st) then 1 else 0) + (if decide (req_state (g r) = st) then 1 else 0).
Proof.
  intros H. rewrite (alter_split l i r g H). rewrite (lookup_split l i r H) at 3. rewrite !count_app, !count_one. lia.
Qed.

(** The counters of the states in [tracked] are those of the list; requests in other states
    are in no queue. *)
Definition counted_in (tracked : request_state -> bool) (p : dentry_priv) : Prop :=
  forall st, in_queue st p = if tracked st then count_state st (requests p) else 0.
Definition all_states (st : request_state) : bool := true.
Abbreviation counted := (counted_in all_states).

Lemma in_queue_set st st' n p : in_queue st (set_in_queue st' n p) = if decide (st = st') then n else in_queue st p.
Proof. by destruct st, st'. Qed.

Lemma queue_of_set st st' q u : queue_of st (set_queue_of st' q u) = if decide (st = st') then q else queue_of st u.
Proof. by destruct st, st'. Qed.

(** ** What a step leaves alone *)

(** Everything of the scheduler that does not belong to [d] *)
Record frame (d : Z) (u u' : unified_data) : Prop := {
  fr_privs d' : d' <> d -> iosched_priv u' !! d' = iosched_priv u !! d';
  fr_members st d' : d' <> d -> d' ∈ members (queue_of st u') <-> d' ∈ members (queue_of st u);
  fr_ext d' : d' <> d -> d' ∈ ext_queue u' <-> d' ∈ ext_queue u;
  fr_size : cache_size u' = cache_size u;
  fr_blocks : cache_blocks u' = cache_blocks u;
  fr_keepalive : writer_keepalive u' = writer_keepalive u;
  fr_waiting : cache_requests u' = cache_requests u
}.

Lemma frame_refl d u : frame d u u.
Proof. by split. Qed.

Lemma frame_trans d u u' u'' : frame d u u' -> frame d u' u'' -> frame d u u''.
Proof.
  intros [A1 A2 A3 A4 A5 A6 A7] [B1 B2 B3 B4 B5 B6 B7]. split; try congruence.
  - intros d' Hd. by rewrite B1, A1.
  - intros st d' Hd. by rewrite B2, A2.
  - intros d' Hd. by rewrite B3, A3.
Qed.

(** What the operations on requests do not change, apart from the size *)
Definition same_rest (p p' : dentry_priv) : Prop :=
  write_ip p' = write_ip p /\ write_error p' = write_error p /\ alt_extentlist p' = alt_extentlist p.

Section kept.
Context {S : Type} (d : Z) (fs0 : S) (u0 : unified_data).
Implicit Types (s : sched S) (p : dentry_priv).

Record kept p s : Prop := {
  k_files : files s = fs0;
  k_priv : iosched_priv (sdata s) !! d = Some p;
  k_member st : d ∈ members (queue_of st (sdata s)) <-> in_queue st p <> 0;
  k_ext : d ∈ ext_queue (sdata s) <-> alt_extentlist p <> [];
  k_pool : pool_ok (pool (sdata s));
  k_frame : frame d u0 (sdata s)
}.

Definition blocks_left s : Z := avail (pool (sdata s)).

(** *** The private data *)

Lemma runs_get_priv p s Q : kept p s -> Q p s -> runs (get_priv d) s Q.
Proof. intros [_ H _ _ _ _] HQ. unfold runs, get_priv. by rewrite H. Qed.

Lemma runs_get_data s (Q : unified_data -> sched S -> Prop) : Q (sdata s) s -> runs get_data s Q.
Proof. done. Qed.

Lemma runs_get_request p s i r Q : kept p s -> requests p !! i = Some r -> Q r s -> runs (get_request d i) s Q.
Proof. intros Hk Hr HQ. apply runs_bind, (runs_get_priv p); [done|]. by rewrite Hr. Qed.

Lemma runs_update_priv p s f Q :
  kept p s -> (forall st, in_queue st (f p) = in_queue st p) -> (alt_extentlist (f p) = [] <-> alt_extentlist p = []) ->
  (forall s', kept (f p) s' -> blocks_left s' = blocks_left s -> Q tt s') -> runs (update_priv d f) s Q.
Proof.
  intros [H1 H2 H3 H4 H5 H6] Hq He HQ. unfold runs, update_priv, update_data. apply HQ; [|done].
  split; cbn; try done.
  - by rewrite lookup_alter_eq, H2.
  - intros st. rewrite Hq, <- H3. by destruct st.
  - rewrite H4. tauto.
  - apply (frame_trans _ _ _ _ H6). split; try done; try (by intros []). intros d' Hd. cbn. by rewrite lookup_alter_ne.
Qed.

(** *** Queues *)

Lemma elem_of_dequeue (x y : Z) l : y ∈ dequeue x l <-> y <> x /\ y ∈ l.
Proof. unfold dequeue. by rewrite list_elem_of_filter. Qed.

(** Both ways in one rule: [n] is the new counter, [q] the new queue. *)
Lemma runs_membership add all st p s Q :
  kept p s -> queue_sound add all d (in_queue st p) (queue_of st (sdata s)) = true ->
  (forall n q, change_queue add all (counts st p) d (in_queue st p) (queue_of st (sdata s)) = (n, q) ->
     (d ∈ members q <-> n <> 0) /\ (forall d', d' <> d -> d' ∈ members q <-> d' ∈ members (queue_of st (sdata s))) /\
     (forall s', kept (set_in_queue st n p) s' -> blocks_left s' = blocks_left s -> Q tt s')) ->
  runs (_unified_update_queue_membership add all st d) s Q.
Proof.
  intros Hk Hs H. apply runs_bind, (runs_get_priv p); [done|]. apply runs_bind, runs_get_data. rewrite Hs. cbn [negb].
  destruct (change_queue _ _ _ _ _ _) as [n q] eqn:E. destruct (H n q eq_refl) as (Hm & Ho & HQ).
  destruct Hk as [H1 H2 H3 H4 H5 H6]. unfold runs, bind_op, update_priv, update_data. apply HQ; [|by destruct st].
  split; cbn; try done.
  - destruct st; cbn; by rewrite lookup_alter_eq, H2.
  - intros st'. rewrite queue_of_set, in_queue_set. case_decide; [done|]. rewrite <- H3. by destruct st'.
  - by destruct st.
  - by destruct st.
  - apply (frame_trans _ _ _ _ H6). split; try by destruct st.
    + intros d' Hd. destruct st; cbn; by rewrite lookup_alter_ne.
    + intros st' d' Hd. rewrite queue_of_set. case_decide as Hst; [by rewrite Hst, Ho|by destruct st'].
Qed.

Lemma runs_join st p s Q :
  kept p s -> 0 <= in_queue st p < 2 ^ 32 - 1 ->
  (forall s', kept (set_in_queue st (in_queue st p + 1) p) s' -> blocks_left s' = blocks_left s -> Q tt s') ->
  runs (_unified_update_queue_membership true false st d) s Q.
Proof.
  intros Hk Hn HQ. pose proof (k_member _ _ Hk st) as Hm. apply (runs_membership _ _ _ p); [done| |].
  - unfold queue_sound. destruct (Z.eqb_spec (in_queue st p) 0); [|done]. cbn. rewrite bool_decide_false by tauto. done.
  - unfold change_queue. intros n q [= <- <-]. cbn. rewrite u32_small by lia. split_and!; [|intros d' Hd|done].
    + destruct (Z.eqb_spec (in_queue st p) 0); [|split; [lia|intros _; by apply Hm]]. rewrite elem_of_app, list_elem_of_singleton. lia.
    + destruct (in_queue st p =? 0); [|done]. rewrite elem_of_app, list_elem_of_singleton. tauto.
Qed.

Lemma runs_leave st p s Q :
  kept p s -> 0 < in_queue st p ->
  (forall s', kept (set_in_queue st (in_queue st p - 1) p) s' -> blocks_left s' = blocks_left s -> Q tt s') ->
  runs (_unified_update_queue_membership false false st d) s Q.
Proof.
  intros Hk Hn HQ. pose proof (k_member _ _ Hk st) as Hm. apply (runs_membership _ _ _ p); [done| |].
  - unfold queue_sound. cbn. destruct (Z.eqb_spec (in_queue st p) 1); [|done]. rewrite bool_decide_true by (apply Hm; lia). done.
  - unfold change_queue. intros n q [= <- <-]. cbn. rewrite (proj2 (Z.eqb_neq _ 0)) by lia. cbn. split_and!; [|intros d' Hd|done].
    + destruct (Z.eqb_spec (in_queue st p) 1); [rewrite elem_of_dequeue|rewrite Hm]; lia.
    + destruct (in_queue st p =? 1); [rewrite elem_of_dequeue; tauto|done].
Qed.

Lemma runs_leave_all st p s Q :
  kept p s -> 0 <= in_queue st p ->
  (forall s', kept (set_in_queue st 0 p) s' -> blocks_left s' = blocks_left s -> Q tt s') ->
  runs (_unified_update_queue_membership false true st d) s Q.
Proof.
  intros Hk Hn HQ. pose proof (k_member _ _ Hk st) as Hm. apply (runs_membership _ _ _ p); [done| |].
  - unfold queue_sound. cbn. destruct (Z.eqb_spec (in_queue st p) 0) as [->|]; [done|]. cbn.
    rewrite bool_decide_true by (by apply Hm). done.
  - unfold change_queue. intros n q [= <- <-]. cbn. destruct (Z.eqb_spec (in_queue st p) 0) as [He|He]; cbn.
    + rewrite He in *. cbn. split_and!; [rewrite Hm; lia|done|done].
    + split_and!; [rewrite elem_of_dequeue; lia|intros d' Hd; rewrite elem_of_dequeue; tauto|done].
Qed.

(** *** Blocks *)

Lemma kept_pool p s c :
  kept p s -> pool_ok c -> kept p {| files := files s; sdata := set_cache c (cache_requests (sdata s)) (sdata s) |}.
Proof.
  intros [H1 H2 H3 H4 H5 H6] Hc. split; cbn; try done.
  apply (frame_trans _ _ _ _ H6). by split.
Qed.

Lemma runs_free p s Q :
  kept p s -> (forall s', kept p s' -> blocks_left s' = blocks_left s + 1 -> Q tt s') -> runs _unified_free_request s Q.
Proof.
  intros Hk HQ. destruct (free_object _ (k_pool _ _ Hk)) as [H1 H2]. unfold runs, _unified_free_request, _unified_cache_free, update_data.
  apply HQ; [by apply kept_pool|done].
Qed.

Lemma runs_alloc others p s Q :
  kept p s -> 0 < blocks_left s ->
  (forall s', kept p s' -> blocks_left s' = blocks_left s - 1 -> Q false s') -> runs (_unified_cache_alloc others) s Q.
Proof.
  intros Hk Hb HQ. destruct (alloc_some _ (k_pool _ _ Hk) Hb) as (c & Hc & H1 & H2). apply runs_bind, runs_get_data.
  rewrite Hc. unfold runs, bind_op, update_data. cbn. apply HQ; [by apply kept_pool|done].
Qed.
End kept.

(** ** Steps on the requests *)

Lemma in_queue_requests st l p : in_queue st (set_requests l p) = in_queue st p.
Proof. by destruct st. Qed.
Lemma in_queue_file_size st n p : in_queue st (set_file_size n p) = in_queue st p.
Proof. by destruct st. Qed.
Lemma requests_in_queue st n p : requests (set_in_queue st n p) = requests p.
Proof. by destruct st. Qed.
Lemma file_size_in_queue st n p : file_size (set_in_queue st n p) = file_size p.
Proof. by destruct st. Qed.

Section steps.
Context {S : Type} (d : Z) (fs0 : S) (u0 : unified_data) (p0 : dentry_priv) (tracked : request_state -> bool).
Implicit Types (s : sched S) (p : dentry_priv).

(** [n] blocks are left.  No counter overflows, because a request holds a block. *)
Record good p (n : Z) s : Prop := {
  g_kept : kept d fs0 u0 p s;
  g_counted : counted_in tracked p;
  g_rest : same_rest p0 p;
  g_blocks : blocks_left s = n;
  g_bound : Z.of_nat (length (requests p)) + n < 2 ^ 32
}.

Lemma same_rest_in_queue st m p : same_rest p0 p -> same_rest p0 (set_in_queue st m p).
Proof. by destruct st. Qed.

Lemma good_blocks p n s : good p n s -> 0 <= n.
Proof. intros [H _ _ Hb _]. pose proof (k_pool _ _ _ _ _ H). unfold blocks_left, avail, pool_ok in *. lia. Qed.

Lemma runs_update_at p n s i g r (Q : unit -> sched S -> Prop) :
  good p n s -> requests p !! i = Some r -> req_state (g r) = req_state r ->
  (forall s', good (set_requests (alter g i (requests p)) p) n s' -> Q tt s') ->
  runs (update_request_at d i g) s Q.
Proof.
  intros [H1 H2 H3 H4 H5] Hr Hg HQ. apply (runs_update_priv d fs0 u0 p); [done|by intros []|done|]. intros s' Hk Hb. apply HQ.
  split; [done| |done|congruence|cbn; by rewrite length_alter].
  intros st. rewrite in_queue_requests, H2. cbn. rewrite (count_alter _ _ _ _ _ Hr), Hg. destruct (tracked st); lia.
Qed.

Lemma runs_grow p n s e (Q : unit -> sched S -> Prop) :
  good p n s -> (forall s', good (set_file_size (Z.max (file_size p) e) p) n s' -> Q tt s') -> runs (grow_file d e) s Q.
Proof.
  intros [H1 H2 H3 H4 H5] HQ. apply (runs_update_priv d fs0 u0 p); [done|by intros []; case_match|by case_match|].
  intros s' Hk Hb. apply HQ.
  assert (E : (if file_size p <? e then set_file_size e p else p) = set_file_size (Z.max (file_size p) e) p).
  { destruct (Z.ltb_spec (file_size p) e); [by rewrite Z.max_r by lia|]. rewrite Z.max_l by lia. by destruct p. }
  rewrite E in Hk. split; [done| |done|congruence|done]. intros st. rewrite in_queue_file_size. apply H2.
Qed.

(** The request [i] is taken out of the list and out of its queue. *)
Lemma runs_drop {A} p n s i r (m : op (sched S) A) Q :
  good p n s -> requests p !! i = Some r -> tracked (req_state r) = true ->
  (forall p' s', good p' n s' -> requests p' = delete i (requests p) -> file_size p' = file_size p -> runs m s' Q) ->
  runs (remove_request d i ;;; _unified_update_queue_membership false false (req_state r) d ;;; m) s Q.
Proof.
  intros [H1 H2 H3 H4 H5] Hr Ht HQ. pose proof (count_delete (req_state r) _ _ _ Hr) as Hd. rewrite decide_True in Hd by done.
  pose proof (count_range (req_state r) (delete i (requests p))) as Hc.
  apply runs_bind, (runs_update_priv d fs0 u0 p); [done|by intros []|done|]. intros s1 Hk1 Hb1.
  apply runs_bind, (runs_leave d fs0 u0 (req_state r) (set_requests (delete i (requests p)) p));
    [done|rewrite in_queue_requests, H2, Ht; lia|].
  intros s2 Hk2 Hb2. rewrite in_queue_requests in Hk2. eapply HQ.
  - split; [exact Hk2| |by apply same_rest_in_queue|congruence|].
    + intros st. rewrite in_queue_set, requests_in_queue. cbn [requests set_requests]. rewrite (count_delete st _ _ _ Hr).
      case_decide; [subst st; rewrite H2, Ht, decide_True by done; lia|]. rewrite decide_False by congruence.
      rewrite in_queue_requests, H2. destruct (tracked st); lia.
    + rewrite requests_in_queue. cbn. rewrite length_delete by done. lia.
  - by rewrite requests_in_queue.
  - by rewrite file_size_in_queue.
Qed.

(** The request [i] changes its state. *)
Lemma runs_change p n s i r st (Q : unit -> sched S -> Prop) :
  good p n s -> requests p !! i = Some r -> req_state r <> st -> tracked (req_state r) = true -> tracked st = true ->
  (forall p' s', good p' n s' -> requests p' = alter (set_req_state st) i (requests p) -> file_size p' = file_size p -> Q tt s') ->
  runs (_unified_update_queue_membership false false (req_state r) d ;;; update_request_at d i (set_req_state st) ;;;
        _unified_update_queue_membership true false st d) s Q.
Proof.
  intros Hg Hr Hst Htr Ht HQ. pose proof (good_blocks _ _ _ Hg) as Hn. destruct Hg as [H1 H2 H3 H4 H5].
  set (p1 := set_in_queue (req_state r) (in_queue (req_state r) p - 1) p).
  set (l := alter (set_req_state st) i (requests p)).
  assert (Hl : forall st', count_state st' l = count_state st' (requests p) - (if decide (req_state r = st') then 1 else 0)
                           + (if decide (st = st') then 1 else 0)).
  { intros st'. apply (count_alter st' _ i r (set_req_state st) Hr). }
  pose proof (Hl st) as Hst'. rewrite decide_False in Hst' by done. rewrite decide_True in Hst' by done.
  pose proof (count_range st l) as Hc. replace (length l) with (length (requests p)) in Hc by (symmetry; apply length_alter).
  pose proof (Hl (req_state r)) as Hs. rewrite decide_True in Hs by done. rewrite decide_False in Hs by done.
  pose proof (count_range (req_state r) l) as Hc'.
  apply runs_bind, (runs_leave d fs0 u0 (req_state r) p); [done|rewrite H2, Htr; lia|]. intros s1 Hk1 Hb1.
  apply runs_bind, (runs_update_priv d fs0 u0 p1); [done|by intros []|done|]. intros s2 Hk2 Hb2.
  replace (requests p1) with (requests p) in Hk2 by (symmetry; apply requests_in_queue). fold l in Hk2.
  assert (Hq : in_queue st (set_requests l p1) = in_queue st p).
  { rewrite in_queue_requests. unfold p1. rewrite in_queue_set, decide_False by congruence. done. }
  apply (runs_join d fs0 u0 st (set_requests l p1)); [done|pose proof (count_range st (requests p)); rewrite Hq, H2, Ht; lia|]. intros s3 Hk3 Hb3. rewrite Hq in Hk3. eapply HQ.
  - split; [exact Hk3| |do 2 apply same_rest_in_queue; apply H3|congruence|].
    + intros st'. rewrite in_queue_set, requests_in_queue. cbn [requests set_requests]. rewrite Hl.
      case_decide; [subst st'; rewrite decide_False, decide_True, H2, Ht by done; lia|]. rewrite in_queue_requests. unfold p1.
      rewrite in_queue_set. rewrite (decide_False (P := st = st')) by congruence.
      case_decide; [subst st'; rewrite decide_True, H2, Htr by done; lia|]. rewrite decide_False, H2 by congruence.
      destruct (tracked st'); lia.
    + rewrite requests_in_queue. cbn. unfold l. rewrite length_alter. done.
  - rewrite requests_in_queue. done.
  - rewrite file_size_in_queue. cbn. apply file_size_in_queue.
Qed.

Lemma good_free p n s (Q : unit -> sched S -> Prop) :
  good p n s -> Z.of_nat (length (requests p)) + (n + 1) < 2 ^ 32 ->
  (forall s', good p (n + 1) s' -> Q tt s') -> runs _unified_free_request s Q.
Proof.
  intros [H1 H2 H3 H4 H5] Hb HQ. apply (runs_free d fs0 u0 p); [done|]. intros s' Hk Hb'. apply HQ. split; [done|done|done|congruence|done].
Qed.
End steps.

(** ** The functions on requests *)

Section requests.
Context {S : Type} (d : Z) (fs0 : S) (u0 : unified_data) (p0 : dentry_priv) (tracked : request_state -> bool).
Implicit Types (s : sched S) (p : dentry_priv) (l : list chunk).

Abbreviation cs := (cache_size u0).
Abbreviation good := (good d fs0 u0 p0 tracked).

(** The requests of [d] are [l], its size is [size], and [n] blocks are left. *)
Definition now l (n size : Z) s : Prop :=
  exists p, good p n s /\ chunk_of <$> requests p = l /\ file_size p = size.

Lemma cache_size_now p n s : good p n s -> cache_size (sdata s) = cs.
Proof. intros [H _ _ _ _]. apply (fr_size _ _ _ (k_frame _ _ _ _ _ H)). Qed.

Lemma now_length l n size s : now l n size s -> 0 <= n /\ Z.of_nat (length l) + n < 2 ^ 32.
Proof.
  intros (p & H & <- & _). split; [by eapply good_blocks|]. rewrite length_fmap. apply (g_bound _ _ _ _ _ _ _ _ H).
Qed.

Lemma lookup_request p l i c :
  chunk_of <$> requests p = l -> l !! i = Some c -> exists r, requests p !! i = Some r /\ chunk_of r = c.
Proof. intros <-. rewrite list_lookup_fmap. destruct (requests p !! i) as [r|]; [|done]. intros [= <-]. by exists r. Qed.

Lemma chunks_alter (l : list write_request) i r g c :
  l !! i = Some r -> chunk_of (g r) = c -> chunk_of <$> alter g i l = <[i := c]> (chunk_of <$> l).
Proof.
  intros Hr <-. revert i Hr. induction l as [|r' l IH]; intros [|i]; cbn; [done..|by intros [= ->]|].
  intros H. f_equal. by apply IH.
Qed.

Lemma now_change p n s (l : list chunk) i r c size st (Q : unit -> sched S -> Prop) :
  good p n s -> chunk_of <$> requests p = l -> file_size p = size -> requests p !! i = Some r -> req_state r <> st ->
  tracked (req_state r) = true -> tracked st = true -> chunk_of r = c -> chunk_of (set_req_state st r) = c ->
  (forall s', now l n size s' -> Q tt s') ->
  runs (_unified_update_queue_membership false false (req_state r) d ;;; update_request_at d i (set_req_state st) ;;;
        _unified_update_queue_membership true false st d) s Q.
Proof.
  intros Hg Hl Hz Hr Hst Ht Ht' Hc Hc' HQ. apply (runs_change d fs0 u0 p0 tracked p n s i r); [done..|]. intros p' s' Hg' Hr' Hz'. apply HQ.
  exists p'. split; [done|]. split; [|congruence]. rewrite Hr'.
  rewrite (chunks_alter (requests p) i r (set_req_state st) c Hr Hc'), Hl. apply list_insert_id.
  rewrite <- Hl, list_lookup_fmap, Hr. cbn. by rewrite Hc.
Qed.

(** Requests that are not full may become ready. *)
Definition may_promote : Prop := tracked REQUEST_PARTIAL = true /\ tracked REQUEST_DP = true.

Lemma runs_promote o i l n size s (Q : unit -> sched S -> Prop) :
  may_promote -> now l n size s -> (i < length l)%nat -> (forall s', now l n size s' -> Q tt s') -> runs (promote d o i) s Q.
Proof.
  intros [Hm1 Hm2] (p & Hg & Hl & Hz) Hi HQ. rewrite <- Hl, length_fmap in Hi. destruct (lookup_lt_is_Some_2 _ _ Hi) as [r Hr].
  apply runs_bind, (runs_get_request d fs0 u0 p _ i r); [apply Hg|done|].
  destruct (is_partial r && (req_offset r <=? u64 o)) eqn:E; [|apply runs_ret, HQ; by exists p].
  apply andb_true_iff in E as [E _]. apply bool_decide_eq_true in E. rewrite <- E.
  apply (now_change p n s l i r (chunk_of r) size); [done..|congruence|congruence|done|done| |done].
  unfold chunk_of, is_ip. cbn. by rewrite E.
Qed.

Lemma runs_promote_all o js l n size s (Q : unit -> sched S -> Prop) :
  may_promote -> now l n size s -> (forall i, i ∈ js -> (i < length l)%nat) -> (forall s', now l n size s' -> Q tt s') ->
  runs (for_each (promote d o) js) s Q.
Proof.
  intros Hm. revert s. induction js as [|i js IH]; intros s Hn Hi HQ; [by apply HQ|]. cbn.
  apply runs_bind, (runs_promote o i l n size); [done|done|apply Hi; by left|]. intros s' Hn'.
  apply IH; [done| |done]. intros j Hj. apply Hi. by right.
Qed.

Lemma good_request p n s i : good p n s -> get_request d i s = (r ← requests p !! i; Some (r, s)).
Proof.
  intros Hg. unfold get_request, bind_op, get_priv. rewrite (k_priv _ _ _ _ _ (g_kept _ _ _ _ _ _ _ _ Hg)).
  by destruct (requests p !! i).
Qed.

Lemma runs_now_update l n size s i c g c' (Q : unit -> sched S -> Prop) :
  now l n size s -> l !! i = Some c -> (forall r, chunk_of r = c -> chunk_of (g r) = c' /\ req_state (g r) = req_state r) ->
  (forall s', now (<[i := c']> l) n size s' ->
     (forall r, get_request d i s = Some (r, s) -> get_request d i s' = Some (g r, s')) -> Q tt s') ->
  runs (update_request_at d i g) s Q.
Proof.
  intros (p & Hg & Hl & Hz) Hc Hgr HQ. destruct (lookup_request p l i c Hl Hc) as (r & Hr & Hrc).
  destruct (Hgr r Hrc) as [Hgc Hgs]. apply (runs_update_at d fs0 u0 p0 tracked p n s i g r); [done..|]. intros s' Hg'. apply HQ.
  - eexists. split; [exact Hg'|]. split; [|done]. cbn. rewrite (chunks_alter _ _ _ _ c' Hr Hgc). by rewrite Hl.
  - intros r'. rewrite (good_request _ _ _ _ Hg), (good_request _ _ _ _ Hg'), Hr. cbn. rewrite list_lookup_alter_eq, Hr. cbn.
    by intros [= <-].
Qed.

Lemma runs_now_grow l n size e s (Q : unit -> sched S -> Prop) :
  now l n size s -> (forall s', now l n (Z.max size e) s' -> Q tt s') -> runs (grow_file d e) s Q.
Proof.
  intros (p & Hg & Hl & Hz) HQ. apply (runs_grow d fs0 u0 p0 tracked p n); [done|]. intros s' Hg'. apply HQ.
  eexists. split; [exact Hg'|]. split; [done|]. cbn. by rewrite Hz.
Qed.

Lemma runs_now_request l n size s i c (Q : write_request -> sched S -> Prop) :
  now l n size s -> l !! i = Some c -> (forall r, chunk_of r = c -> get_request d i s = Some (r, s) -> Q r s) ->
  runs (get_request d i) s Q.
Proof.
  intros (p & Hg & Hl & Hz) Hc HQ. destruct (lookup_request p l i c Hl Hc) as (r & Hr & Hrc).
  assert (E : get_request d i s = Some (r, s)).
  { by rewrite (good_request _ _ _ _ Hg), Hr. }
  unfold runs. rewrite E. by apply HQ.
Qed.

Lemma runs_now_drop {A} l n size s i r (m : op (sched S) A) Q :
  now l n size s -> get_request d i s = Some (r, s) -> tracked (req_state r) = true ->
  (forall s', now (delete i l) n size s' -> runs m s' Q) ->
  runs (remove_request d i ;;; _unified_update_queue_membership false false (req_state r) d ;;; m) s Q.
Proof.
  intros (p & Hg & Hl & Hz) E Ht HQ. rewrite (good_request _ _ _ _ Hg) in E. destruct (requests p !! i) as [r'|] eqn:Hr; [|done].
  injection E as ->. apply (runs_drop d fs0 u0 p0 tracked p n s i r); [done..|]. intros p' s' Hg' Hl' Hz'. apply HQ.
  exists p'. split; [done|]. split; [|congruence]. by rewrite Hl', list_fmap_delete, Hl.
Qed.

Lemma runs_now_free l n size s (Q : unit -> sched S -> Prop) :
  now l n size s -> Z.of_nat (length l) + (n + 1) < 2 ^ 32 -> (forall s', now l (n + 1) size s' -> Q tt s') ->
  runs _unified_free_request s Q.
Proof.
  intros (p & Hg & Hl & Hz) Hb HQ. rewrite <- Hl, length_fmap in Hb. apply (good_free d fs0 u0 p0 tracked p n); [done..|].
  intros s' Hg'. apply HQ. by exists p.
Qed.

Lemma runs_now_change l n size s i r st (Q : unit -> sched S -> Prop) :
  now l n size s -> get_request d i s = Some (r, s) -> req_state r <> st -> tracked (req_state r) = true -> tracked st = true ->
  is_ip (set_req_state st r) = is_ip r ->
  (forall s', now l n size s' -> Q tt s') ->
  runs (_unified_update_queue_membership false false (req_state r) d ;;; update_request_at d i (set_req_state st) ;;;
        _unified_update_queue_membership true false st d) s Q.
Proof.
  intros (p & Hg & Hl & Hz) E Hst Ht Ht' Hip HQ. rewrite (good_request _ _ _ _ Hg) in E. destruct (requests p !! i) as [r'|] eqn:Hr; [|done].
  injection E as ->. apply (now_change p n s l i r (chunk_of r) size); try done. unfold chunk_of. by rewrite Hip.
Qed.

Lemma runs_now_data l n size s (Q : unified_data -> sched S -> Prop) :
  now l n size s -> (cache_size (sdata s) = cs -> Q (sdata s) s) -> runs get_data s Q.
Proof. intros (p & Hg & _) HQ. by eapply HQ, cache_size_now. Qed.

Lemma runs_now_priv l n size s (Q : dentry_priv -> sched S -> Prop) :
  now l n size s -> (forall p, chunk_of <$> requests p = l -> file_size p = size -> good p n s -> Q p s) -> runs (get_priv d) s Q.
Proof. intros (p & Hg & Hl & Hz) HQ. apply (runs_get_priv d fs0 u0 p); [apply Hg|by apply HQ]. Qed.

(** The number of bytes that go into [c] from offset [o] on *)
Definition taken (o : Z) (b : list Z) (c : chunk) : Z := Z.min (c_off c + cs - o) (Z.of_nat (length b)).

Lemma runs_update_request b o j c l n size s (Q : Z -> sched S -> Prop) :
  may_promote \/ c_ip c = true -> now l n size s -> l !! j = Some c -> b <> [] ->
  (forall s', let c' := filled o (taken o b c) b c in now (<[j := c']> l) n (Z.max size (c_end c')) s' -> Q (taken o b c) s') ->
  runs (_unified_update_request b o d j) s Q.
Proof.
  intros Hm Hn Hc Hb HQ. destruct b as [|x b]; [done|]. unfold _unified_update_request.
  apply runs_bind, (runs_now_request l n size s j c); [done..|]. intros r Hr _.
  apply runs_bind, (runs_now_data l n size); [done|]. intros Hcs. rewrite Hcs.
  assert (Ho : req_offset r = c_off c) by (by rewrite <- Hr). assert (Hw : write_cache r = c_bytes c) by (by rewrite <- Hr).
  set (c' := filled o (taken o (x :: b) c) (x :: b) c).
  apply runs_bind, (runs_now_update l n size s j c _ c'); [done..| |].
  { intros r' Hr'. split; [|done]. unfold c', filled, chunk_of. cbn. f_equal; [by rewrite <- Hr'| |by rewrite <- Hr'].
    rewrite Ho, Hw. done. }
  intros s1 Hn1 _. pose proof (lookup_lt_Some _ _ _ Hc) as Hj.
  assert (Hc' : <[j := c']> l !! j = Some c') by (by apply list_lookup_insert_eq).
  apply runs_bind, (runs_now_request (<[j := c']> l) n size s1 j c'); [done..|]. intros r' Hr' _.
  apply (runs_and_then _ _ _ (fun _ s' => now (<[j := c']> l) n size s')).
  - case_match eqn:E; [|by apply runs_ret]. apply andb_true_iff in E as [E _]. apply bool_decide_eq_true in E.
    assert (Hpart : c_ip c = false) by (change (c_ip c) with (c_ip c'); rewrite <- Hr'; cbn; unfold is_ip; by rewrite E).
    destruct Hm as [Hm|Hm]; [|congruence].
    apply runs_bind, (runs_now_priv (<[j := c']> l) n size); [done|]. intros p Hp _ _.
    apply (runs_promote_all o _ (<[j := c']> l) n size); [done|done| |done]. intros i Hi.
    rewrite <- Hp, length_fmap. apply elem_of_seq in Hi. lia.
  - intros _ s2 Hn2. apply runs_bind, (runs_now_grow (<[j := c']> l) n size); [done|]. intros s3 Hn3. apply runs_ret.
    assert (He : req_end r' = c_end c') by (by rewrite <- Hr'). rewrite He in Hn3. rewrite Ho. by apply HQ.
Qed.

(** *** Merging *)

Lemma lookup_here {A} (pre : list A) x r : (pre ++ x :: r) !! length pre = Some x.
Proof. by apply list_lookup_middle. Qed.
Lemma lookup_next {A} (pre : list A) y x r : (pre ++ y :: x :: r) !! Datatypes.S (length pre) = Some x.
Proof. rewrite lookup_app_r by lia. by replace (Datatypes.S (length pre) - length pre)%nat with 1%nat by lia. Qed.
Lemma insert_here {A} (pre : list A) x y r : <[length pre := y]> (pre ++ x :: r) = pre ++ y :: r.
Proof. induction pre as [|z pre IH]; cbn; [done|by f_equal]. Qed.
Lemma insert_next {A} (pre : list A) z x y r : <[Datatypes.S (length pre) := y]> (pre ++ z :: x :: r) = pre ++ z :: y :: r.
Proof. induction pre as [|w pre IH]; cbn; [done|by f_equal]. Qed.
Lemma delete_here {A} (pre : list A) x r : delete (length pre) (pre ++ x :: r) = pre ++ r.
Proof. induction pre as [|z pre IH]; cbn; [done|by f_equal]. Qed.
Lemma delete_next {A} (pre : list A) z x r : delete (Datatypes.S (length pre)) (pre ++ z :: x :: r) = pre ++ z :: r.
Proof. induction pre as [|w pre IH]; cbn; [done|by f_equal]. Qed.

(** What [_unified_merge_requests] returns when [q] has become [q'] *)
Definition merge_result (q' c : chunk) : Z := if c_end q' <=? c_off c then 0 else if c_end q' <? c_end c then 1 else 2.

Lemma pulled_nothing q c : c_len q <= cs -> pulled cs q c q.
Proof.
  intros H. split; try done; try lia. intros x.
  by destruct (Z.leb_spec (c_end q) x), (Z.ltb_spec x (c_end q)); try lia.
Qed.

Lemma pulled_filled q c :
  0 < c_len q <= cs -> c_off q <= c_off c <= c_end q -> c_ip c = c_ip q -> c_len q < cs -> c_end q < c_end c ->
  let b := drop (Z.to_nat (c_end q - c_off c)) (c_bytes c) in
  let q' := filled (c_end q) (taken (c_end q) b q) b q in
  pulled cs q c q' /\ c_end q' = c_end q + taken (c_end q) b q /\ c_end q < c_end q' /\ b <> [].
Proof.
  intros Hq Hoff Hip Hfree Hmore b q'.
  assert (Hb : Z.of_nat (length b) = c_end c - c_end q).
  { unfold b. rewrite length_drop. unfold c_end, c_len in *. lia. }
  assert (Hk : 0 <= taken (c_end q) b q <= Z.of_nat (length b)) by (unfold taken, c_end in *; lia).
  assert (Hend : c_off q <= c_end q <= c_end q) by (unfold c_end; lia).
  pose proof (filled_end (c_end q) (taken (c_end q) b q) b q Hend Hk) as He. fold q' in He.
  pose proof (filled_len (c_end q) (taken (c_end q) b q) b q Hend Hk) as Hl. fold q' in Hl.
  split; [|split_and!; [lia|unfold taken, c_end in *; lia|intros E; rewrite E in Hb; cbn in Hb; lia]]. split.
  - done.
  - done.
  - lia.
  - intros _. split_and!; [done|lia|lia].
  - rewrite Hl. unfold taken, c_end in *. lia.
  - intros x. unfold q'. rewrite filled_value by done. fold q'. rewrite He.
    replace (Z.max (c_end q) (c_end q + taken (c_end q) b q)) with (c_end q + taken (c_end q) b q) by lia.
    destruct (Z.leb_spec (c_end q) x), (Z.ltb_spec x (c_end q + taken (c_end q) b q)); cbn; try done.
    unfold value. cbn. rewrite !Zle_imp_le_bool by lia. unfold b. rewrite lookup_drop. f_equal. lia.
Qed.

Definition b2z (b : bool) : Z := if b then 1 else 0.

(** The copying part *)
Lemma runs_pull pre q c post n size t r s (Q : Z -> sched S -> Prop) :
  may_promote \/ c_ip q = true -> now (pre ++ q :: c :: post) n size s -> chunk_of t = q -> chunk_of r = c ->
  0 < c_len q <= cs -> c_off q <= c_off c <= c_end q -> c_end c <= size ->
  (forall q' s', pulled cs q c q' -> now (pre ++ q' :: c :: post) n size s' -> Q (c_end q' - c_end q) s') ->
  runs (if negb (bool_decide (req_state t = req_state r)) && (is_ip t || is_ip r) then ret_op 0
        else if (req_count t <? cs) && (c_end q - c_off c <? req_count r)
        then _unified_update_request (drop (Z.to_nat (c_end q - c_off c)) (write_cache r)) (c_off c + (c_end q - c_off c)) d (length pre)
        else ret_op 0) s Q.
Proof.
  intros Hm Hn Ht Hr Hq Hoff Hsize HQ.
  assert (H0 : Q 0 s). { replace 0 with (c_end q - c_end q) by lia. apply HQ; [apply pulled_nothing; lia|done]. }
  assert (Hct : req_count t = c_len q) by (by rewrite <- Ht). assert (Hcr : req_count r = c_len c) by (by rewrite <- Hr).
  assert (Hw : write_cache r = c_bytes c) by (by rewrite <- Hr).
  destruct (negb (bool_decide (req_state t = req_state r)) && (is_ip t || is_ip r)) eqn:Emix; [done|].
  destruct ((req_count t <? cs) && (c_end q - c_off c <? req_count r)) eqn:E; [|done].
  apply andb_true_iff in E as [E1%Z.ltb_lt E2%Z.ltb_lt]. rewrite Hct in E1. rewrite Hcr in E2.
  assert (Hip : c_ip c = c_ip q).
  { rewrite <- Ht, <- Hr. cbn. revert Emix. unfold is_ip. by destruct (req_state t), (req_state r). }
  destruct (pulled_filled q c Hq Hoff Hip E1 ltac:(unfold c_end in *; lia)) as (Hp & He & Hlt & Hb). rewrite Hw, Zplus_minus.
  apply (runs_update_request _ _ _ q (pre ++ q :: c :: post) n size); [done|done|apply lookup_here|done|].
  intros s' c' Hn'. rewrite insert_here in Hn'. destruct (pulled_more _ _ _ _ Hp) as (_ & _ & Hle).
  { done. }
  rewrite Z.max_l in Hn' by (unfold c'; lia). replace (taken _ _ q) with (c_end c' - c_end q) by (unfold c'; lia). by apply HQ.
Qed.

Lemma remains_0 q' c : merge_result q' c = 0 -> remains q' c = [c].
Proof. unfold merge_result, remains. by repeat case_match. Qed.

Lemma runs_merge pre q c post n size spare s (Q : Z * bool -> sched S -> Prop) :
  tracked REQUEST_IP = true -> may_promote \/ (c_ip q = true /\ c_ip c = true) -> now (pre ++ q :: c :: post) n size s ->
  0 < c_len q <= cs -> c_off q <= c_off c -> 0 < c_len c -> c_end c <= size ->
  (forall q' n' spare' s', pulled cs q c q' -> now (pre ++ q' :: remains q' c ++ post) n' size s' ->
     n' + b2z spare' = n + b2z (default false spare) + (if merge_result q' c =? 2 then 1 else 0) ->
     (spare = None -> spare' = false) -> Q (merge_result q' c, spare') s') ->
  runs (_unified_merge_requests d (Some (length pre)) (Datatypes.S (length pre)) spare) s Q.
Proof.
  intros Htip Hmay Hn Hq Hoff Hc Hcs HQ. unfold _unified_merge_requests.
  apply runs_bind. eapply runs_now_request; [exact Hn|apply lookup_here|]. intros t Ht Et.
  apply runs_bind. eapply runs_now_request; [exact Hn|apply lookup_next|]. intros r Hr Er.
  assert (Het : req_end t = c_end q) by (by rewrite <- Ht). assert (Hor : req_offset r = c_off c) by (by rewrite <- Hr).
  assert (Hdef : forall s', now (pre ++ q :: c :: post) n size s' -> c_end q <= c_off c -> Q (0, default false spare) s').
  { intros s' Hn' Hle. assert (Hm : merge_result q c = 0) by (unfold merge_result; by rewrite (proj2 (Z.leb_le _ _))).
    rewrite <- Hm. apply (HQ q n (default false spare) s'); [apply pulled_nothing; lia|by rewrite remains_0| |by intros ->].
    rewrite Hm. cbn. lia. }
  rewrite Het, Hor. destruct (Z.ltb_spec (c_end q) (c_off c)); [apply runs_ret, Hdef; [done|lia]|].
  apply runs_bind, (runs_now_data _ n size _ _ Hn). intros Hsize. rewrite Hsize.
  apply runs_bind. eapply runs_pull; [tauto|exact Hn|done|done|done|lia|done|]. intros q' s1 Hp Hn1.
  apply runs_bind. eapply runs_now_request; [exact Hn1|apply lookup_next|]. intros r1 Hr1 Er1.
  replace (c_end q - c_off c + (c_end q' - c_end q)) with (c_end q' - c_off c) by lia.
  assert (Hcr : req_count r1 = c_len c) by (by rewrite <- Hr1). rewrite Hcr.
  pose proof (pulled_end _ _ _ _ Hp) as Hle.
  destruct (Z.ltb_spec 0 (c_end q' - c_off c)) as [Hpos|Hpos]; cbn [negb]; cycle 1.
  { apply runs_ret. assert (Hm : merge_result q' c = 0) by (unfold merge_result; by rewrite (proj2 (Z.leb_le _ _)) by lia).
    rewrite <- Hm. apply (HQ q' n (default false spare) s1); [done|by rewrite remains_0| |by intros ->]. rewrite Hm. cbn. lia. }
  destruct (Z.ltb_spec (c_end q' - c_off c) (c_len c)) as [Hpart|Hall].
  - assert (Hm : merge_result q' c = 1).
    { unfold merge_result. rewrite (proj2 (Z.leb_gt _ _)), (proj2 (Z.ltb_lt _ _)) by (unfold c_end in *; lia). done. }
    assert (Hrem : remains q' c = [front_cut (c_end q' - c_off c) c]).
    { unfold remains. rewrite (proj2 (Z.leb_gt _ _)), (proj2 (Z.ltb_lt _ _)) by (unfold c_end in *; lia). done. }
    apply runs_bind. eapply (runs_now_update _ n size _ _ c _ (front_cut (c_end q' - c_off c) c)); [exact Hn1|apply lookup_next| |].
    { intros r2 <-. done. }
    intros s2 Hn2 Hget. rewrite insert_next in Hn2.
    apply (runs_and_then _ _ _ (fun _ s' => now (pre ++ q' :: front_cut (c_end q' - c_off c) c :: post) n size s')).
    + case_match eqn:Edp; [|by apply runs_ret]. apply bool_decide_eq_true in Edp.
      specialize (Hget r1 Er1). assert (Hnip : c_ip c = false) by (rewrite <- Hr1; cbn; unfold is_ip; by rewrite Edp).
      destruct Hmay as [[Hm1 Hm2]|[_ Hmay]]; [|congruence].
      rewrite <- Edp at 1. eapply (runs_now_change _ _ _ _ _ (cut_front (c_end q' - c_off c) r1)); [exact Hn2|exact Hget| | |done| |done].
      * cbn. congruence.
      * cbn. by rewrite Edp.
      * unfold is_ip. cbn. by rewrite Edp.
    + intros _ s3 Hn3. apply runs_ret. rewrite <- Hm. apply (HQ q' n (default false spare) s3); [done|by rewrite Hrem| |by intros ->].
      rewrite Hm. cbn. lia.
  - assert (Hm : merge_result q' c = 2).
    { unfold merge_result. rewrite (proj2 (Z.leb_gt _ _)), (proj2 (Z.ltb_ge _ _)) by (unfold c_end in *; lia). done. }
    assert (Hrem : remains q' c = []).
    { unfold remains. rewrite (proj2 (Z.leb_gt _ _)), (proj2 (Z.ltb_ge _ _)) by (unfold c_end in *; lia). done. }
    assert (Htr : tracked (req_state r1) = true).
    { destruct Hmay as [[Hm1 Hm2]|[_ Hmay]]; [by destruct (req_state r1)|]. rewrite <- Hr1 in Hmay. apply bool_decide_eq_true in Hmay.
      by rewrite Hmay. }
    eapply runs_now_drop; [exact Hn1|exact Er1|exact Htr|]. intros s2 Hn2. rewrite delete_next in Hn2.
    pose proof (now_length _ _ _ _ Hn1) as Hlen. rewrite length_app in Hlen. cbn in Hlen.
    assert (Hend : forall n' spare' s', now (pre ++ q' :: post) n' size s' -> n' + b2z spare' = n + b2z (default false spare) + 1 ->
      (spare = None -> spare' = false) -> Q (2, spare') s').
    { intros n' spare' s' Hn' Hb Hs. rewrite <- Hm. apply (HQ q' n' spare' s'); [done|by rewrite Hrem| |done]. by rewrite Hm. }
    destruct spare as [[]|]; unfold default in Hend; cbn [from_option id b2z] in Hend.
    + apply runs_bind. eapply runs_now_free; [exact Hn2|rewrite length_app; cbn; lia|]. intros s3 Hn3. apply runs_ret.
      apply (Hend (n + 1)); [done|cbn; lia|done].
    + apply runs_ret, (Hend n); [done|cbn; lia|done].
    + apply runs_bind. eapply runs_now_free; [exact Hn2|rewrite length_app; cbn; lia|]. intros s3 Hn3. apply runs_ret.
      apply (Hend (n + 1)); [done|cbn; lia|done].
Qed.

(** *** Inserting *)

(** [n] counts the block of the new request as well. *)
Lemma runs_put p n s i r (Q : unit -> sched S -> Prop) :
  kept d fs0 u0 p s -> counted_in tracked p -> tracked (req_state r) = true -> same_rest p0 p -> blocks_left s = n -> 0 <= n ->
  Z.of_nat (length (requests p)) + 1 + n < 2 ^ 32 -> (i <= length (requests p))%nat ->
  (forall p' s', good p' n s' -> requests p' = take i (requests p) ++ r :: drop i (requests p) -> file_size p' = file_size p -> Q tt s') ->
  runs (update_priv d (fun p => set_requests (take i (requests p) ++ r :: drop i (requests p)) p) ;;;
        _unified_update_queue_membership true false (req_state r) d) s Q.
Proof.
  intros H1 H2 Ht H3 H4 Hn H5 Hi HQ. set (l := take i (requests p) ++ r :: drop i (requests p)).
  assert (Hc : forall st, count_state st l = count_state st (requests p) + (if decide (req_state r = st) then 1 else 0)).
  { intros st. unfold l. change (r :: drop i (requests p)) with ([r] ++ drop i (requests p)). rewrite !count_app, count_one.
    rewrite <- (take_drop i (requests p)) at 3. rewrite count_app. lia. }
  pose proof (count_range (req_state r) (requests p)) as Hr.
  assert (Hlen : length l = Datatypes.S (length (requests p))).
  { unfold l. rewrite length_app, length_take. cbn. rewrite length_drop. lia. }
  apply runs_bind, (runs_update_priv d fs0 u0 p); [done|by intros []|done|]. intros s1 Hk1 Hb1. fold l in Hk1.
  apply (runs_join d fs0 u0 _ (set_requests l p)); [done|rewrite in_queue_requests, H2, Ht; lia|].
  intros s2 Hk2 Hb2. rewrite in_queue_requests in Hk2. eapply HQ.
  - split; [exact Hk2| |by apply same_rest_in_queue|congruence|].
    + intros st. rewrite in_queue_set, requests_in_queue. cbn [requests set_requests]. rewrite Hc.
      case_decide; [subst st; rewrite decide_True, H2, Ht by done; lia|]. rewrite decide_False, in_queue_requests, H2 by congruence.
      destruct (tracked st); lia.
    + rewrite requests_in_queue. cbn [requests set_requests]. rewrite Hlen. lia.
  - by rewrite requests_in_queue.
  - by rewrite file_size_in_queue.
Qed.

Lemma runs_insert others b o spare ip pre post n size s (Q : Z * bool -> sched S -> Prop) :
  (forall st, tracked st = true) -> now (pre ++ post) n size s -> 0 < n + b2z spare -> Z.of_nat (length (pre ++ post)) + n + b2z spare < 2 ^ 32 ->
  (forall s', let k := Z.min (Z.of_nat (length b)) cs in
     now (pre ++ {| c_off := o; c_bytes := take (Z.to_nat k) b; c_ip := ip |} :: post) (n + b2z spare - 1)
         (Z.max size (o + Z.of_nat (length (take (Z.to_nat k) b)))) s' ->
     Q (k, false) s') ->
  runs (_unified_insert_new_request others b o spare ip (length pre) d) s Q.
Proof.
  intros Hall (p & Hg & Hl & Hz) Hb Hbound HQ. pose proof (good_blocks _ _ _ _ _ _ _ _ Hg) as H0.
  pose proof Hg as [H1 H2 H3 H4 H5]. unfold _unified_insert_new_request.
  assert (Hlen : length (requests p) = length (pre ++ post)) by (by rewrite <- Hl, length_fmap).
  apply (runs_and_then _ _ _ (fun waited s' => waited = false /\ kept d fs0 u0 p s' /\ blocks_left s' = n + b2z spare - 1)).
  { destruct spare; cbn in *; [apply runs_ret; split_and!; [done|done|lia]|].
    apply (runs_alloc d fs0 u0 others p); [done|lia|]. intros s' Hk' Hb'. split_and!; [done|done|lia]. }
  intros waited s1 (-> & Hk1 & Hb1). apply runs_bind, runs_get_data.
  assert (Hcs : cache_size (sdata s1) = cs) by apply (fr_size _ _ _ (k_frame _ _ _ _ _ Hk1)). rewrite Hcs.
  set (k := Z.min (Z.of_nat (length b)) cs).
  set (st := if ip then REQUEST_IP else if k =? cs then REQUEST_DP else REQUEST_PARTIAL).
  set (r := {| req_offset := o; write_cache := take (Z.to_nat k) b; req_state := st |}).
  assert (Hr : chunk_of r = {| c_off := o; c_bytes := take (Z.to_nat k) b; c_ip := ip |}).
  { unfold chunk_of, is_ip. cbn. f_equal. unfold st. destruct ip; [done|]. by destruct (k =? cs). }
  change st with (req_state r).
  apply (runs_seq _ _ _ _ (fun _ s' => now (pre ++ chunk_of r :: post) (n + b2z spare - 1) size s')).
  { pose proof (good_blocks _ _ _ _ _ _ _ _ Hg). rewrite <- Hlen in Hbound.
    apply (runs_put p (n + b2z spare - 1) s1 (length pre) r); [done..|lia|lia|rewrite Hlen, length_app; lia|].
    intros p' s' Hg' Hp' Hz'. exists p'. split; [done|]. split; [|congruence]. rewrite Hp', fmap_app, fmap_cons, fmap_take, fmap_drop, Hl.
    by rewrite take_app_length, drop_app_length. }
  intros _ s2 Hn2. rewrite Hr in Hn2. apply runs_bind, (runs_now_grow _ _ _ _ _ _ Hn2). intros s3 Hn3. apply runs_ret.
  replace (if cs <? Z.of_nat (length b) then k else Z.of_nat (length b)) with k.
  - apply HQ. exact Hn3.
  - unfold k. destruct (Z.ltb_spec cs (Z.of_nat (length b))); lia.
Qed.
End requests.
