(* ===== verification/UnifiedWrite.v ===== *)
(** * The loop of [unified_write]

    The invariant of the loop, for each place in the function: what the requests before and
    after the write position look like, what is left of the buffer, and how many steps are
    enough.  [step_ok]: every step keeps it. *)

From S2P Require Import Prelude Errors Extents FsTree Unified UnifiedList UnifiedWp.
Open Scope Z_scope.
Open Scope ltfs_scope.

Section write.
Context {S : Type} (raw : raw_ops S) (others : op (sched S) unit).
Context (d : Z) (fs0 : S) (u0 : unified_data) (p0 : dentry_priv).
(** The bytes of the file below, the contents that are wanted in the end; the write starts
    at [o0] and goes up to [e]; [size0] is the size before, [blocks] the number of blocks of
    the requests and of the pool. *)
Context (f wanted : Z -> option Z) (o0 e size0 blocks : Z).
Implicit Types (s : sched S) (l pre post : list chunk) (w : writer).

Abbreviation cs := (cache_size u0).
Abbreviation now := (now d fs0 u0 p0 all_states).

Hypothesis (cs_pos : 0 < cs) (o0_pos : 0 <= o0) (blocks_bound : blocks < 2 ^ 32).

(** ** What holds everywhere *)

Record common w l (n size : Z) : Prop := {
  cm_look x : look f (fresh (w_offset w) (w_buf w) :: l) x = wanted x;
  cm_start : o0 <= w_offset w;
  cm_end : w_end w = e;
  cm_size : size0 <= size <= Z.max size0 e;
  cm_grown : o0 < w_offset w -> w_offset w <= size;
  cm_within : upto size l;
  cm_synced : synced f l;
  cm_blocks : n + b2z (spare_cache w) + Z.of_nat (length l) = blocks;
  cm_ret : 0 <= w_ret w
}.

(** Blocks for what is left of the buffer, and [j] more *)
Definition room w (n j : Z) : Prop := w_size w + j * cs <= (n + b2z (spare_cache w)) * cs.

(** No later request ends inside of the new bytes, and where two requests that are on tape
    already meet the beginning of the new bytes, the first is full. *)
Definition fine (o : Z) (c c' : chunk) : Prop :=
  (o <= c_end c -> e <= c_end c') /\
  (c_ip c = true -> c_ip c' = true -> c_end c = o -> c_off c' = o -> c_len c = cs).

(** ** What holds at a place *)

(** Nothing is pulled into [q] from the request behind it. *)
Definition cannot_grow (q : chunk) post : Prop :=
  c_len q = cs \/ (c_ip q = true /\ match post with c :: _ => c_ip c = true -> c_end q < c_off c | [] => True end).

(** [q] is the request that was handled last. *)
Record behind w pre (q : chunk) post (n : Z) : Prop := {
  be_pre : ordered cs 0 (pre ++ [q]);
  be_post : ordered cs (c_off q) post;
  be_ahead : ahead (c_end q) post;
  be_offset : w_offset w <= c_end q;
  be_more : w_buf w <> [] -> c_end q = w_offset w /\ ahead e post /\ cannot_grow q post /\ room w n 1
}.

Definition steps w (k : Z) (fuel : nat) : Prop := 6 * w_size w + k <= Z.of_nat fuel.
Definition count l : Z := Z.of_nat (length l).

Inductive at_place (fuel : nat) : place -> writer -> list chunk -> Z -> Prop :=
| at_append_last w l n :
    w_buf w <> [] -> ordered cs 0 l -> upto (w_offset w) l -> room w n 1 -> steps w 2 fuel ->
    at_place fuel do_append w l n
| at_start w l n :
    w_buf w <> [] -> ordered cs 0 l -> ForallOrdPairs (fine (w_offset w)) l -> room w n 2 -> steps w (3 * count l + 5) fuel ->
    at_place fuel do_append w l n
| at_append_new w l n :
    ordered cs 0 l -> upto (w_offset w) l -> (w_buf w <> [] -> room w n 1) -> steps w 1 fuel ->
    at_place fuel append_new w l n
| at_scan_first w pre post n :
    prev_req w = None -> w_buf w <> [] -> ordered cs 0 (pre ++ post) -> upto (w_offset w) pre ->
    ForallOrdPairs (fine (w_offset w)) post -> room w n 2 -> steps w (3 * count post + 3) fuel ->
    at_place fuel (scan (length pre)) w (pre ++ post) n
| at_scan w pre q post n :
    prev_req w = Some (length pre) -> behind w pre q post n -> steps w (3 * count post + 3) fuel ->
    at_place fuel (scan (Datatypes.S (length pre))) w (pre ++ q :: post) n
| at_gap w pre c post n :
    w_buf w <> [] -> w_offset w < c_off c -> ordered cs 0 (pre ++ c :: post) -> upto (w_offset w) pre -> ahead e post ->
    room w n 1 -> steps w (3 * count (c :: post) + 1) fuel ->
    at_place fuel (do_insert_before (length pre)) w (pre ++ c :: post) n
| at_first w pre c post n :
    prev_req w = None -> w_buf w <> [] -> c_off c <= w_offset w <= c_end c -> ordered cs 0 (pre ++ c :: post) ->
    upto (w_offset w) pre -> ForallOrdPairs (fine (w_offset w)) (c :: post) -> room w n 2 ->
    steps w (3 * count (c :: post) + 2) fuel ->
    at_place fuel (do_insert_before (length pre)) w (pre ++ c :: post) n
| at_next_to w pre q c post n :
    prev_req w = Some (length pre) -> ordered cs 0 (pre ++ [q]) -> ordered cs (c_off q) (c :: post) -> ahead (c_end q) post ->
    w_offset w <= c_end q ->
    (w_buf w <> [] -> c_end q = w_offset w /\ c_off c <= w_offset w /\ ahead e post /\ room w n 1 /\
       (c_len q = cs \/ (c_ip q = true /\ c_ip c = false /\ w_offset w < c_end c))) ->
    steps w (3 * count (c :: post) + 2) fuel ->
    at_place fuel (do_insert_before (Datatypes.S (length pre))) w (pre ++ q :: c :: post) n
| at_next_request w pre q post n :
    behind w pre q post n -> (did_merge w = false -> w_buf w = [] -> ordered cs 0 (pre ++ q :: post)) ->
    steps w (3 * count post + 4) fuel ->
    at_place fuel (next_request (length pre)) w (pre ++ q :: post) n
| at_out w l n : w_buf w = [] -> ordered cs 0 l -> at_place fuel out w l n.

Definition going (fuel : nat) (at_ : place) w s : Prop :=
  exists l n size, now l n size s /\ common w l n size /\ at_place fuel at_ w l n.

Lemma now_cs l n size s : now l n size s -> 0 <= n.
Proof. intros H. by destruct (now_length _ _ _ _ _ _ _ _ _ H). Qed.

(** ** The changes of a step keep what holds everywhere *)

Lemma common_same w w' l n size :
  w_buf w' = w_buf w -> w_offset w' = w_offset w -> spare_cache w' = spare_cache w -> 0 <= w_ret w' ->
  common w l n size -> common w' l n size.
Proof.
  intros Hb Ho Hs Hr [H1 H2 H3 H4 H5 H6 H7 H8 H9]. split; rewrite ?Hb, ?Ho, ?Hs; try done.
  rewrite <- H3. unfold w_end, w_size. by rewrite Hb, Ho.
Qed.

(** The first [n] bytes of the buffer have been stored in [c']. *)
Lemma common_stored w w' k pre (c : option chunk) c' post n n' size :
  common w (pre ++ option_list c ++ post) n size -> upto (w_offset w) pre -> 0 < k <= w_size w ->
  w_buf w' = drop (Z.to_nat k) (w_buf w) -> w_offset w' = w_offset w + k -> 0 <= w_ret w' ->
  (forall x, value c' x = if (w_offset w <=? x) && (x <? w_offset w + k) then value (fresh (w_offset w) (w_buf w)) x
                          else from_option (fun c => value c x) None c) ->
  c_ip c' = false -> w_offset w + k <= c_end c' <= Z.max size (w_offset w + k) ->
  n' + b2z (spare_cache w') + 1 = n + b2z (spare_cache w) + count (option_list c) ->
  common w' (pre ++ c' :: post) n' (Z.max size (c_end c')).
Proof.
  intros [H1 H2 H3 H4 H5 H6 H7 H8 H9] Hpre Hk Hb Ho Hr Hv Hip Hend Hn. unfold w_end, w_size in *.
  assert (Hlen : Z.of_nat (length (w_buf w')) = Z.of_nat (length (w_buf w)) - k) by (rewrite Hb, length_drop; lia).
  split; try (rewrite ?Ho; lia).
  - intros x. rewrite <- H1, Hb, Ho. apply look_stored; [done|lia|done].
  - unfold w_end, w_size. rewrite Ho, Hlen. lia.
  - apply upto_app in H6 as [H6 H6']. apply upto_app in H6' as [_ H6']. apply upto_app. split; [by apply (upto_mono size); [lia|]|].
    apply upto_cons. split; [lia|]. by apply (upto_mono size); [lia|].
  - apply synced_app in H7 as [H7 H7']. apply synced_app in H7' as [_ H7']. apply synced_app. split; [done|].
    apply synced_cons. split; [by apply synced_not_ip|done].
  - rewrite !length_app in *. unfold count in *. cbn. lia.
Qed.

(** Requests under the new bytes are changed. *)
Lemma common_covered w w' pre l l' n n' size :
  common w (pre ++ l) n size -> w_buf w' = w_buf w -> w_offset w' = w_offset w -> 0 <= w_ret w' ->
  (forall x, look f (fresh (w_offset w) (w_buf w) :: pre ++ l') x = look f (fresh (w_offset w) (w_buf w) :: pre ++ l) x) ->
  (upto size l -> upto size l') -> (synced f l -> synced f l') ->
  n' + b2z (spare_cache w') + count l' = n + b2z (spare_cache w) + count l ->
  common w' (pre ++ l') n' size.
Proof.
  intros [H1 H2 H3 H4 H5 H6 H7 H8 H9] Hb Ho Hr Hl Hup Hsy Hn. split; rewrite ?Hb, ?Ho; try done.
  - intros x. by rewrite Hl.
  - rewrite <- H3. unfold w_end, w_size. by rewrite Hb, Ho.
  - apply upto_app in H6 as [H6 H6']. apply upto_app. split; [done|by apply Hup].
  - apply synced_app in H7 as [H7 H7']. apply synced_app. split; [done|by apply Hsy].
  - rewrite !length_app in *. unfold count in *. lia.
Qed.

(** ** The steps *)

Abbreviation step := (write_step raw others d).
Definition continues (fuel : nat) (x : place * writer) s : Prop := going fuel x.1 x.2 s.

Lemma continue_at l n size fuel pl w s :
  now l n size s -> common w l n size -> at_place fuel pl w l n -> continues fuel (pl, w) s.
Proof. intros H1 H2 H3. by exists l, n, size. Qed.

Lemma room_pos w n j : 0 < j -> room w n j -> 0 < n + b2z (spare_cache w).
Proof. unfold room, w_size. intros Hj H. pose proof (Z.mul_pos_pos j cs Hj cs_pos). nia. Qed.

Lemma size_pos w : w_buf w <> [] -> 0 < w_size w.
Proof. unfold w_size. by destruct (w_buf w). Qed.

Lemma size_0 w : w_size w = 0 -> w_buf w = [].
Proof. unfold w_size. by destruct (w_buf w). Qed.

Lemma advance_size k w : 0 <= k <= w_size w -> w_size (advance k w) = w_size w - k.
Proof. unfold w_size. cbn. rewrite length_drop. lia. Qed.

Lemma rest_nonempty k w : 0 <= k <= w_size w -> w_buf (advance k w) <> [] -> k < w_size w.
Proof. intros Hk H. pose proof (size_pos (advance k w) H). rewrite advance_size in * by done. lia. Qed.

(** A request of up to one block with the next bytes *)
Definition next_chunk w : chunk := fresh (w_offset w) (take (Z.to_nat (Z.min (w_size w) cs)) (w_buf w)).

Lemma next_chunk_len w : c_len (next_chunk w) = Z.min (w_size w) cs.
Proof. unfold c_len, next_chunk, w_size. cbn. rewrite length_take. lia. Qed.
Lemma next_chunk_end w : c_end (next_chunk w) = w_offset w + Z.min (w_size w) cs.
Proof. unfold c_end. by rewrite next_chunk_len. Qed.

Lemma insert_step pre post n size w (go : Z -> writer -> place * writer) s Q :
  now (pre ++ post) n size s -> common w (pre ++ post) n size -> w_buf w <> [] -> upto (w_offset w) pre -> room w n 1 ->
  (forall n' size' s' w', let k := Z.min (w_size w) cs in
     0 < k <= w_size w -> w' = advance k (set_ret k false w) -> n' + 1 = n + b2z (spare_cache w) ->
     now (pre ++ next_chunk w :: post) n' size' s' -> common w' (pre ++ next_chunk w :: post) n' size' ->
     (w_buf w' <> [] -> room w' n' 1 /\ c_len (next_chunk w) = cs) ->
     c_end (next_chunk w) = w_offset w' -> w_offset w' = w_offset w + k -> w_size w' = w_size w - k ->
     Q (go k (set_ret k false w)) s') ->
  runs (let* x := _unified_insert_new_request others (w_buf w) (w_offset w) (spare_cache w) false (length pre) d in
        ret_op (inserted x w (go x.1))) s Q.
Proof.
  intros Hn Hc Hb Hpre Hroom HQ. pose proof (size_pos w Hb) as Hpos. pose proof (room_pos w n 1 ltac:(lia) Hroom).
  apply runs_bind, (runs_insert d fs0 u0 p0 all_states others _ _ _ _ pre post n size); [done|done|done| |].
  { pose proof (cm_blocks _ _ _ _ Hc). lia. }
  intros s' k Hn'. apply runs_ret. fold (w_size w) in k.
  assert (Hk : 0 < k <= w_size w) by (unfold k; fold (w_size w); lia).
  unfold inserted. rewrite (proj2 (Z.ltb_ge k 0)), (proj2 (Z.eqb_neq k 0)) by lia.
  set (w' := advance k (set_ret k false w)).
  assert (Hw : w_size w' = w_size w - k) by (apply (advance_size k (set_ret k false w)); change (w_size (set_ret k false w)) with (w_size w); lia).
  apply (HQ (n + b2z (spare_cache w) - 1) (Z.max size (c_end (next_chunk w))) s' w'); try done; try lia.
  - apply (common_stored w w' k pre None (next_chunk w) post n); try done.
    + cbn. lia.
    + intros x. cbn [from_option]. unfold next_chunk. rewrite fresh_take_value by (unfold k in *; fold (w_size w) in *; lia).
      destruct (Z.leb_spec (w_offset w) x); cbn; [done|]. rewrite value_out by (cbn; lia). by case_match.
    + rewrite next_chunk_end. unfold k. fold (w_size w). lia.
    + change (spare_cache w') with false. change (count (option_list None)) with 0. cbn [b2z]. lia.
  - intros Hb'. pose proof (size_pos w' Hb'). rewrite next_chunk_len. assert (k = cs) by (unfold k in *; fold (w_size w) in *; lia).
    split; [|unfold k in *; fold (w_size w) in *; lia]. unfold room in *. cbn [b2z]. rewrite Hw. change (spare_cache w') with false. cbn [b2z]. lia.
  - rewrite next_chunk_end. done.
Qed.

Lemma step_append_new k w l n size s :
  now l n size s -> common w l n size -> at_place (Datatypes.S k) append_new w l n ->
  runs (step append_new w) s (continues k).
Proof.
  intros Hn Hc H. inversion H as [| |w' l' n' Hord Hup Hroom Hk| | | | | | |]; subst. cbn [write_step].
  destruct (Z.eqb_spec (w_size w) 0) as [H0|H0].
  - apply runs_ret, (continue_at l n size); [done..|]. by apply at_out; [apply size_0|].
  - assert (Hb : w_buf w <> []) by (intros E; unfold w_size in H0; by rewrite E in H0).
    apply runs_bind, (runs_now_priv d fs0 u0 p0 all_states l n size); [done|]. intros p Hp _ _.
    replace (length (requests p)) with (length l) by (by rewrite <- Hp, length_fmap).
    rewrite <- (app_nil_r l) in Hn, Hc.
    apply (insert_step l [] n size w (fun k w => (append_new, advance k w))); [done..|by apply Hroom|].
    intros n' size' s' w' k' Hk' Hw' Hn' Hnow Hcom Hmore Hend Ho Hs. rewrite <- Hw'.
    apply (continue_at (l ++ [next_chunk w]) n' size'); [done..|]. pose proof (size_pos w Hb). apply at_append_new.
    + apply ordered_snoc. pose proof (cm_start _ _ _ _ Hc). split_and!; [done|cbn; lia|done|rewrite next_chunk_len; lia..].
    + apply upto_app. split; [by apply (upto_mono (w_offset w)); [lia|]|]. apply upto_cons. split; [lia|apply upto_nil].
    + intros Hb'. by apply Hmore.
    + unfold steps in *. lia.
Qed.

Abbreviation taken := (taken u0).
Abbreviation filling w c := (filled (w_offset w) (taken (w_offset w) (w_buf w) c) (w_buf w) c).

(** New bytes go into the request [c]. *)
Lemma fill_step pre c post n size w s (Q : Z -> sched S -> Prop) :
  now (pre ++ c :: post) n size s -> common w (pre ++ c :: post) n size -> w_buf w <> [] -> upto (w_offset w) pre ->
  c_ip c = false -> 0 < c_len c <= cs -> c_off c <= w_offset w <= c_end c -> w_offset w < c_off c + cs ->
  (forall s' size', let k := taken (w_offset w) (w_buf w) c in let c' := filling w c in
     0 < k <= w_size w ->
     c_off c' = c_off c -> c_ip c' = false -> 0 < c_len c' <= cs -> c_end c' = Z.max (c_end c) (w_offset w + k) ->
     (k < w_size w -> c_len c' = cs /\ w_offset w + k = c_end c') ->
     now (pre ++ c' :: post) n size' s' ->
     (forall w', w_buf w' = drop (Z.to_nat k) (w_buf w) -> w_offset w' = w_offset w + k -> spare_cache w' = spare_cache w ->
        0 <= w_ret w' -> common w' (pre ++ c' :: post) n size') ->
     Q k s') ->
  runs (_unified_update_request (w_buf w) (w_offset w) d (length pre)) s Q.
Proof.
  intros Hn Hc Hb Hpre Hip Hlen Ho Hroom HQ. pose proof (size_pos w Hb) as Hpos.
  apply (runs_update_request d fs0 u0 p0 all_states _ _ _ c (pre ++ c :: post) n size); [by left|done|apply lookup_here|done|].
  intros s' c' Hn'. rewrite insert_here in Hn'.
  assert (Hk : 0 < taken (w_offset w) (w_buf w) c <= Z.of_nat (length (w_buf w))) by (unfold UnifiedWp.taken, w_size in *; lia).
  set (k := taken (w_offset w) (w_buf w) c) in *.
  assert (Hl : c_len c' = Z.max (c_len c) (w_offset w + k - c_off c)) by (apply filled_len; lia).
  assert (He : c_end c' = Z.max (c_end c) (w_offset w + k)) by (apply filled_end; lia).
  assert (Hkw : k = Z.min (c_off c + cs - w_offset w) (w_size w)) by done.
  assert (Hsz : w_size w = Z.of_nat (length (w_buf w))) by done.
  apply (HQ s' (Z.max size (c_end c'))); try done; fold c'; try lia.
  - rewrite Hl. unfold c_end in *. lia.
  - intros w' Hw1 Hw2 Hw3 Hw4. apply (common_stored w w' k pre (Some c) c' post n); try done.
    + intros x. cbn [from_option]. apply filled_value; lia.
    + pose proof (cm_within _ _ _ _ Hc) as Hu. apply upto_app in Hu as [_ Hu]. apply upto_cons in Hu as [Hu _].
      rewrite He. lia.
    + rewrite Hw3. change (count (option_list (Some c))) with 1. lia.
Qed.

Lemma room_same w w' n j :
  w_buf w' = w_buf w -> spare_cache w' = spare_cache w -> room w n j -> room w' n j.
Proof. unfold room, w_size. by intros -> ->. Qed.

Lemma room_less w w' n j :
  w_size w' <= w_size w -> spare_cache w' = spare_cache w -> room w n j -> room w' n j.
Proof. unfold room. intros H ->. lia. Qed.

Lemma room_one w n : room w n 2 -> room w n 1.
Proof. unfold room. lia. Qed.

Lemma advance_0 w : advance 0 w = w.
Proof. destruct w. unfold advance. cbn. by rewrite Z.add_0_r, drop_0. Qed.

(** At the last request, or without any *)
Lemma append_places k w l n :
  at_place (Datatypes.S k) do_append w l n ->
  w_buf w <> [] /\ ordered cs 0 l /\ room w n 1 /\ steps w 1 k /\
  (~ upto (w_offset w) l -> ForallOrdPairs (fine (w_offset w)) l /\ room w n 2 /\ steps w (3 * count l + 4) k).
Proof.
  intros H. inversion H; subst; unfold steps, count in *.
  - split_and!; try done; lia.
  - split_and!; try done; [by apply room_one|lia|]. intros _. split_and!; [done|done|lia].
Qed.

Lemma step_do_append k w l n size s :
  now l n size s -> common w l n size -> at_place (Datatypes.S k) do_append w l n -> runs (step do_append w) s (continues k).
Proof.
  intros Hn Hc H. destruct (append_places _ _ _ _ H) as (Hb & Hord & Hroom & Hk & Hnot). cbn [write_step].
  apply runs_bind, (runs_now_priv d fs0 u0 p0 all_states l n size); [done|]. intros p Hp _ _.
  apply runs_bind, (runs_now_data d fs0 u0 p0 all_states l n size); [done|]. intros Hcs. rewrite Hcs.
  assert (Hsame : common (set_prev None w) l n size) by (apply (common_same w); try done; apply (cm_ret _ _ _ _ Hc)).
  pose proof (cm_start _ _ _ _ Hc) as Hstart.
  destruct l as [|c pre _] using rev_ind.
  { apply fmap_nil_inv in Hp. rewrite Hp. cbn. rewrite (proj2 (Z.leb_le _ _)) by lia.
    apply runs_ret, (continue_at [] n size); [done..|]. apply at_append_new; [done|apply upto_nil|done|done]. }
  assert (Hlen : (length (requests p) - 1)%nat = length pre).
  { rewrite <- (length_fmap chunk_of), Hp, length_app. cbn. lia. }
  rewrite Hlen. destruct (lookup_request p _ (length pre) c Hp (lookup_here pre c [])) as (r & Hr & Hrc). rewrite Hr.
  assert (Her : req_end r = c_end c) by (by rewrite <- Hrc). assert (Hcr : req_count r = c_len c) by (by rewrite <- Hrc).
  assert (Hir : is_ip r = c_ip c) by (by rewrite <- Hrc). rewrite Her, Hcr, Hir.
  pose proof (proj1 (ordered_snoc _ _ _ _) Hord) as (Hpre & Hoff & Hup & Hsz).
  assert (Hle : c_off c <= c_end c) by (unfold c_end; lia).
  destruct (Z.leb_spec (c_end c) (w_offset w)) as [Hend|Hend].
  - apply (runs_and_then _ _ _ (fun x s' => continues k (append_new, advance x w) s')); [|done].
    destruct ((c_len c <? cs) && (w_offset w =? c_end c) && negb (c_ip c)) eqn:E.
    + apply andb_true_iff in E as [[E1%Z.ltb_lt E2%Z.eqb_eq]%andb_true_iff E3%negb_true_iff].
      apply (fill_step pre c [] n size); try done; [by apply (upto_mono (c_off c)); [lia|]|lia|unfold c_end in *; lia|].
      intros s' size' k' c' Hk' Hoff' Hip' Hlen' Hend' Hmore Hn' Hcom.
      apply (continue_at (pre ++ [c']) n size'); [done|apply Hcom; try done; apply (cm_ret _ _ _ _ Hc)|]. apply at_append_new.
      * apply ordered_snoc. rewrite Hoff'. done.
      * cbn. apply upto_app. split; [apply (upto_mono (c_off c)); [lia|done]|apply upto_cons; split; [lia|apply upto_nil]].
      * intros _. apply (room_less w); [rewrite advance_size by lia; lia|done|done].
      * unfold steps in *. rewrite advance_size by lia. lia.
    + apply runs_ret. rewrite advance_0. apply (continue_at (pre ++ [c]) n size); [done..|]. apply at_append_new; [done| |done|done].
      apply upto_app. split; [by apply (upto_mono (c_off c)); [lia|]|apply upto_cons; split; [lia|apply upto_nil]].
  - destruct Hnot as (Hpairs & Hroom2 & Hk2); [intros Hu; apply upto_app in Hu as [_ Hu]; apply upto_cons in Hu; lia|].
    apply runs_ret, (continue_at (pre ++ [c]) n size); [done..|].
    apply (at_scan_first k (set_prev None w) [] (pre ++ [c]) n); try done; [apply upto_nil|].
    unfold steps, w_size in *. cbn [w_buf set_prev]. lia.
Qed.

Lemma offset_before_end w l n size : common w l n size -> w_buf w <> [] -> w_offset w < e.
Proof. intros Hc Hb. pose proof (cm_end _ _ _ _ Hc). pose proof (size_pos w Hb). unfold w_end in *. lia. Qed.

Lemma fine_ahead o c post : ForallOrdPairs (fine o) (c :: post) -> o <= c_end c -> ahead e post.
Proof.
  inversion 1 as [|? ? Hf _]; subst. intros Ho c' Hc. destruct (proj1 (list.Forall_forall _ _) Hf c' Hc) as [He _]. by apply He.
Qed.

Lemma behind_upto w pre q post n : behind w pre q post n -> c_end q = w_offset w -> upto (w_offset w) (pre ++ [q]).
Proof.
  intros [Hpre _ _ _ _] He. apply ordered_snoc in Hpre as (_ & _ & Hup & Hl). apply upto_app. split.
  - apply (upto_mono (c_off q)); [unfold c_end in *; lia|done].
  - apply upto_cons. split; [lia|apply upto_nil].
Qed.

Lemma steps_weaken w k j k' j' : steps w j k -> Z.of_nat k - j <= Z.of_nat k' - j' -> steps w j' k'.
Proof. unfold steps. lia. Qed.

Lemma at_scan_first_step k w pre c post n :
  prev_req w = None -> w_buf w <> [] -> ordered cs 0 (pre ++ c :: post) -> upto (w_offset w) pre ->
  ForallOrdPairs (fine (w_offset w)) (c :: post) -> room w n 2 -> steps w (3 * count (c :: post) + 3) (Datatypes.S k) ->
  at_place k (if c_end c <? w_offset w then scan (Datatypes.S (length pre)) else do_insert_before (length pre)) w (pre ++ c :: post) n.
Proof.
  intros Hprev Hb Hord Hpre Hf Hroom Hk. destruct (Z.ltb_spec (c_end c) (w_offset w)).
  - replace (Datatypes.S (length pre)) with (length (pre ++ [c])) by (rewrite length_app; cbn; lia).
    change (c :: post) with ([c] ++ post) in *. rewrite app_assoc in *. apply at_scan_first; try done.
    + apply upto_app. split; [done|]. apply upto_cons. split; [lia|apply upto_nil].
    + by inversion Hf.
    + apply (steps_weaken _ _ _ _ _ Hk). unfold count. cbn. lia.
  - destruct (decide (w_offset w < c_off c)).
    + apply at_gap; try done; [by eapply fine_ahead|by apply room_one|]. apply (steps_weaken _ _ _ _ _ Hk). lia.
    + apply at_first; try done; [lia|]. apply (steps_weaken _ _ _ _ _ Hk). lia.
Qed.

Lemma at_scan_step k w pre q c post n size :
  common w (pre ++ q :: c :: post) n size -> prev_req w = Some (length pre) -> behind w pre q (c :: post) n ->
  steps w (3 * count (c :: post) + 3) (Datatypes.S k) ->
  at_place k (if c_end c <? w_offset w then scan (Datatypes.S (Datatypes.S (length pre))) else do_insert_before (Datatypes.S (length pre))) w
    (pre ++ q :: c :: post) n.
Proof.
  intros Hc Hprev Hbe Hk. pose proof Hbe as [Hpre Hpost Hahead Hoff Hmore]. apply ahead_cons in Hahead as [Hend Hahead].
  rewrite (proj2 (Z.ltb_ge _ _)) by lia. destruct (decide (w_buf w <> [] /\ w_offset w < c_off c)) as [[Hb Ho]|Hno].
  - destruct (Hmore Hb) as (He & Hahe & _ & Hroom). apply ahead_cons in Hahe as [_ Hahe].
    replace (Datatypes.S (length pre)) with (length (pre ++ [q])) by (rewrite length_app; cbn; lia).
    pose proof (behind_upto _ _ _ _ _ Hbe He) as Hup.
    assert (Hord : ordered cs 0 (pre ++ q :: c :: post)).
    { apply ordered_join; [done|]. destruct Hpost as (_ & ? & ?). cbn. split_and!; [lia|lia|lia|done]. }
    change (q :: c :: post) with ([q] ++ c :: post) in *. rewrite app_assoc in *. apply at_gap; try done.
    apply (steps_weaken _ _ _ _ _ Hk). lia.
  - apply at_next_to; try done; [|apply (steps_weaken _ _ _ _ _ Hk); lia]. intros Hb.
    destruct (Hmore Hb) as (He & Hahe & Hgrow & Hroom). apply ahead_cons in Hahe as [Hec Hahe].
    pose proof (offset_before_end _ _ _ _ Hc Hb). assert (c_off c <= w_offset w) by (destruct (decide (w_offset w < c_off c)); [tauto|lia]).
    split_and!; try done. destruct Hgrow as [Hf|[Hip Hn]]; [by left|right]. split_and!; [done| |lia].
    destruct (c_ip c); [|done]. specialize (Hn eq_refl). lia.
Qed.

Lemma step_scan k i w l n size s :
  now l n size s -> common w l n size -> at_place (Datatypes.S k) (scan i) w l n -> runs (step (scan i) w) s (continues k).
Proof.
  intros Hn Hc H. cbn [write_step]. apply runs_bind, (runs_now_priv d fs0 u0 p0 all_states l n size); [done|]. intros p Hp _ _.
  assert (Hlook : requests p !! i = None /\ l !! i = None \/
                  exists r c, requests p !! i = Some r /\ l !! i = Some c /\ req_end r = c_end c).
  { rewrite <- Hp, list_lookup_fmap. destruct (requests p !! i) as [r|]; [right|by left]. by exists r, (chunk_of r). }
  clear Hp.
  inversion H as [| | |w' pre post n' Hprev Hb Hord Hpre Hf Hroom Hk|w' pre q post n' Hprev Hbe Hk| | | | |]; subst.
  - destruct Hlook as [[-> Hnone]|(r & c & -> & Hsome & ->)].
    + apply runs_ret, (continue_at (pre ++ post) n size); [done..|]. pose proof (size_pos w Hb).
      rewrite (proj2 (Z.ltb_lt 0 _)) by lia. destruct post as [|c post]; [|by rewrite lookup_here in Hnone].
      rewrite app_nil_r in *. apply at_append_last; try done; [by apply room_one|]. apply (steps_weaken _ _ _ _ _ Hk).
      unfold count. cbn. lia.
    + destruct post as [|c' post]; [by rewrite app_nil_r, lookup_ge_None_2 in Hsome|].
      rewrite lookup_here in Hsome. injection Hsome as ->. apply runs_ret, (continue_at (pre ++ c :: post) n size); [done..|].
      by apply at_scan_first_step.
  - destruct Hlook as [[-> Hnone]|(r & c & -> & Hsome & ->)].
    + apply runs_ret, (continue_at (pre ++ q :: post) n size); [done..|].
      destruct post as [|c post]; [|by rewrite lookup_next in Hnone]. destruct (Z.ltb_spec 0 (w_size w)) as [Hsz|Hsz].
      * assert (Hb : w_buf w <> []) by (intros E; unfold w_size in Hsz; by rewrite E in Hsz).
        destruct (be_more _ _ _ _ _ Hbe Hb) as (He & _ & _ & Hroom).
        apply at_append_last; try done; [apply Hbe|by eapply behind_upto|]. apply (steps_weaken _ _ _ _ _ Hk). unfold count. cbn. lia.
      * apply at_out; [apply size_0; unfold w_size in *; lia|apply Hbe].
    + destruct post as [|c' post]; [rewrite lookup_ge_None_2 in Hsome; [done|rewrite length_app; cbn; lia]|].
      rewrite lookup_next in Hsome. injection Hsome as ->.
      apply runs_ret, (continue_at (pre ++ q :: c :: post) n size); [done..|]. by eapply at_scan_step.
Qed.

Lemma step_next_request k i w l n size s :
  now l n size s -> common w l n size -> at_place (Datatypes.S k) (next_request i) w l n ->
  runs (step (next_request i) w) s (continues k).
Proof.
  intros Hn Hc H. inversion H as [| | | | | | | |w' pre q post n' Hbe Hord Hk|]; subst. cbn [write_step].
  assert (Hsame : common (set_prev (Some (length pre)) w) (pre ++ q :: post) n size) by (apply (common_same w); try done; apply (cm_ret _ _ _ _ Hc)).
  apply runs_ret, (continue_at (pre ++ q :: post) n size); [done..|].
  destruct ((w_size (set_prev (Some (length pre)) w) =? 0) && negb (did_merge (set_prev (Some (length pre)) w))) eqn:E.
  - apply andb_true_iff in E as [E1%Z.eqb_eq E2%negb_true_iff]. cbn in E1, E2. apply at_out; [by apply size_0|].
    apply Hord; [done|by apply size_0].
  - apply at_scan; [done|by destruct Hbe|]. apply (steps_weaken _ _ _ _ _ Hk). lia.
Qed.

(** *** The new bytes meet a request *)

Record meeting w pre (c : chunk) post (n : Z) : Prop := {
  me_buf : w_buf w <> [];
  me_order : ordered cs 0 (pre ++ c :: post);
  me_pre : upto (w_offset w) pre;
  me_place : c_off c <= w_offset w <= c_end c;
  me_ahead : ahead e post;
  me_room : room w n 1;
  (** nothing has been written yet, or the request before holds the byte before *)
  me_mode : (prev_req w = None /\ ForallOrdPairs (fine (w_offset w)) (c :: post) /\ room w n 2) \/
            (exists pre' q, pre = pre' ++ [q] /\ prev_req w = Some (length pre') /\ w_offset w = c_off c /\
               c_end q = w_offset w /\ (c_ip c = true -> c_len q = cs))
}.

Lemma meeting_size w pre c post n : meeting w pre c post n -> 0 < c_len c <= cs.
Proof. intros H. apply (ordered_size cs 0 (pre ++ c :: post)); [apply H|]. apply elem_of_app. right. by left. Qed.

Lemma meeting_post w pre c post n : meeting w pre c post n -> ordered cs (c_end c) post.
Proof. intros H. pose proof (me_order _ _ _ _ _ H) as Ho. by apply ordered_split in Ho as [? ?]. Qed.

Lemma meeting_pre w pre c post n : meeting w pre c post n -> ordered cs 0 (pre ++ [c]).
Proof. intros H. pose proof (me_order _ _ _ _ _ H) as Ho. by apply ordered_split in Ho as [? ?]. Qed.

Lemma meet_fill k pre c post n size w s :
  now (pre ++ c :: post) n size s -> common w (pre ++ c :: post) n size -> meeting w pre c post n ->
  steps w (3 * count (c :: post) + 1) k -> c_ip c = false -> w_offset w < c_off c + cs ->
  runs (let* n := _unified_update_request (w_buf w) (w_offset w) d (length pre) in
        ret_op (next_request (length pre), advance n (set_merge true (spare_cache w) w))) s (continues k).
Proof.
  intros Hn Hc Hm Hk Hip Ho. pose proof (meeting_size _ _ _ _ _ Hm). pose proof (me_place _ _ _ _ _ Hm) as Hplace.
  pose proof (cm_end _ _ _ _ Hc) as He. unfold w_end in He.
  apply runs_bind, (fill_step pre c post n size); [done|done|apply Hm|apply Hm|done|done|done|done|].
  intros s' size' k' c' Hk' Hoff' Hip' Hlen' Hend' Hmore Hn' Hcom.
  pose proof (meeting_post _ _ _ _ _ Hm) as Hpost. pose proof (ordered_ahead _ _ _ Hpost) as Hah.
  apply runs_ret, (continue_at (pre ++ c' :: post) n size'); [done|apply Hcom; try done; apply (cm_ret _ _ _ _ Hc)|].
  set (w' := advance k' (set_merge true (spare_cache w) w)).
  assert (Hw : w_size w' = w_size w - k') by (apply (advance_size k' (set_merge true (spare_cache w) w)); change (w_size (set_merge true (spare_cache w) w)) with (w_size w); lia).
  apply at_next_request; [split| |].
  - apply (ordered_last _ _ _ c); [by eapply meeting_pre|done|done].
  - rewrite Hoff'. apply (ordered_weaken _ (c_end c)); [lia|done].
  - intros c2 Hc2. specialize (Hah c2 Hc2). pose proof (me_ahead _ _ _ _ _ Hm c2 Hc2). lia.
  - cbn. lia.
  - intros Hb'. assert (Hlt : k' < w_size w) by (pose proof (size_pos w' Hb'); lia). destruct (Hmore Hlt) as [Hl Hoe].
    split_and!; [cbn; lia|apply Hm|by left|]. apply (room_less w); [lia|done|apply Hm].
  - done.
  - unfold steps, count in *. rewrite Hw. cbn [length] in Hk. lia.
Qed.

Lemma meet_remove k pre c post n size w r s :
  now (pre ++ c :: post) n size s -> common w (pre ++ c :: post) n size -> meeting w pre c post n ->
  steps w (3 * count (c :: post) + 1) k -> get_request d (length pre) s = Some (r, s) -> req_state r = REQUEST_IP ->
  c_ip c = true -> w_offset w = c_off c -> c_len c <= w_size w ->
  runs (remove_request d (length pre) ;;; _unified_update_queue_membership false false REQUEST_IP d ;;;
        (if spare_cache w then _unified_free_request else ret_op tt) ;;;
        ret_op (scan (length pre), set_merge (did_merge w) true w)) s (continues k).
Proof.
  intros Hn Hc Hm Hk Hr Hst Hip Ho Hl. pose proof (now_length _ _ _ _ _ _ _ _ _ Hn) as [Hn0 Hbound].
  pose proof (cm_end _ _ _ _ Hc) as He. unfold w_end in He. rewrite <- Hst. eapply runs_now_drop; [exact Hn|exact Hr|done|].
  intros s1 Hn1. rewrite delete_here in Hn1. rewrite length_app in Hbound. cbn in Hbound.
  apply (runs_and_then _ _ _ (fun _ s' => now (pre ++ post) (n + b2z (spare_cache w)) size s')).
  { destruct (spare_cache w); [|by apply runs_ret; rewrite Z.add_0_r].
    eapply runs_now_free; [exact Hn1|rewrite length_app; lia|done]. }
  intros _ s2 Hn2. set (w' := set_merge (did_merge w) true w).
  apply runs_ret, (continue_at (pre ++ post) (n + b2z (spare_cache w)) size); [done| |].
  - apply (common_covered w w' pre (c :: post) post n); try done; [apply (cm_ret _ _ _ _ Hc)| | | |].
    + intros x. symmetry. apply look_removed; [lia|]. unfold c_end, w_size in *. lia.
    + intros Hu. by apply upto_cons in Hu as [_ Hu].
    + intros Hs. by apply synced_cons in Hs as [_ Hs].
    + unfold count. cbn. lia.
  - assert (Hroom : forall j, room w n j -> room w' (n + b2z (spare_cache w)) j).
    { intros j. unfold room. change (w_size w') with (w_size w). change (spare_cache w') with true. cbn [b2z]. lia. }
    pose proof (meeting_post _ _ _ _ _ Hm) as Hpost. pose proof (me_order _ _ _ _ _ Hm) as Hord.
    apply ordered_remove in Hord as Hord'.
    destruct (me_mode _ _ _ _ _ Hm) as [(Hprev & Hf & Hroom2)|(pre' & q & -> & Hprev & _ & Hq & Hfull)].
    + apply at_scan_first; [done|apply Hm|done|apply Hm|by inversion Hf|by apply Hroom|].
      apply (steps_weaken w _ _ _ _ Hk). unfold count. cbn. lia.
    + rewrite <- app_assoc. rewrite length_app. cbn [length app]. rewrite Nat.add_comm. cbn [Nat.add]. apply at_scan; [done| |].
      * rewrite <- app_assoc in Hord'. cbn [app] in Hord'. apply ordered_split in Hord' as [Hpre' Hpost']. split.
        -- done.
        -- apply (ordered_weaken _ (c_end q)); [|done]. apply ordered_snoc in Hpre' as (_ & _ & _ & ?). unfold c_end. lia.
        -- by apply ordered_ahead with cs.
        -- cbn. lia.
        -- intros _. split_and!; [done|apply Hm|left; by apply Hfull|apply Hroom, Hm].
      * apply (steps_weaken w _ _ _ _ Hk). unfold count. cbn. lia.
Qed.

(** The bytes before the write stay in front of it. *)
Lemma meet_cut_back k pre c post n size w s :
  now (pre ++ c :: post) n size s -> common w (pre ++ c :: post) n size -> meeting w pre c post n ->
  steps w (3 * count (c :: post) + 1) k -> c_ip c = true -> c_off c < w_offset w < c_end c -> c_end c <= w_end w ->
  runs (update_request_at d (length pre) (cut_back (w_offset w - c_off c)) ;;; ret_op (next_request (length pre), w)) s (continues k).
Proof.
  intros Hn Hc Hm Hk Hip Ho He. pose proof (meeting_size _ _ _ _ _ Hm) as Hsz. set (m := w_offset w - c_off c).
  assert (Hm0 : 0 <= m <= c_len c) by (unfold m, c_end in *; lia).
  assert (Hend : c_end (back_cut m c) = w_offset w) by (rewrite back_cut_end by done; unfold m; lia).
  pose proof (meeting_post _ _ _ _ _ Hm) as Hpost.
  apply runs_bind. eapply (runs_now_update _ _ _ _ _ _ _ _ _ _ c _ (back_cut m c)); [exact Hn|apply lookup_here|by intros r <-|].
  intros s1 Hn1 _. rewrite insert_here in Hn1. apply runs_ret, (continue_at (pre ++ back_cut m c :: post) n size); [done| |].
  - apply (common_covered w w pre (c :: post) (back_cut m c :: post) n); try done; [apply (cm_ret _ _ _ _ Hc)| | |].
    + intros x. symmetry. apply look_cut_back; [lia|unfold m; lia|exact He].
    + intros [Hu1 Hu2]%upto_cons. apply upto_cons. split; [lia|done].
    + intros [Hs1 Hs2]%synced_cons. apply synced_cons. split; [apply synced_back_cut; [lia|done]|done].
  - destruct (me_mode _ _ _ _ _ Hm) as [_|(pre' & q & _ & _ & Hoff & _)]; [|lia].
    apply at_next_request; [split| |].
    + apply (ordered_last _ _ _ c); [by eapply meeting_pre|done|rewrite back_cut_len by done; unfold m; lia].
    + apply (ordered_weaken _ (c_end c)); [cbn; lia|done].
    + intros c2 Hc2. pose proof (ordered_ahead _ _ _ Hpost c2 Hc2). lia.
    + lia.
    + intros _. split_and!; [done|apply Hm| |apply Hm]. right. split; [done|]. destruct post as [|c2 post]; [done|].
      intros _. destruct Hpost as (? & _). lia.
    + intros _ Hb. destruct (me_buf _ _ _ _ _ Hm Hb).
    + apply (steps_weaken w _ _ _ _ Hk). unfold count. cbn [length]. lia.
Qed.

(** The bytes behind the write stay. *)
Lemma meet_cut_front k pre c post n size w s :
  now (pre ++ c :: post) n size s -> common w (pre ++ c :: post) n size -> meeting w pre c post n ->
  steps w (3 * count (c :: post) + 1) k -> w_offset w = c_off c -> w_size w < c_len c ->
  runs (update_request_at d (length pre) (cut_front (w_size w)) ;;; ret_op (do_insert_before (length pre), w)) s (continues k).
Proof.
  intros Hn Hc Hm Hk Ho Hl. pose proof (meeting_size _ _ _ _ _ Hm) as Hsz. pose proof (size_pos w (me_buf _ _ _ _ _ Hm)) as Hpos.
  assert (Hend : c_end (front_cut (w_size w) c) = c_end c) by (apply front_cut_end; lia).
  apply runs_bind. eapply (runs_now_update _ _ _ _ _ _ _ _ _ _ c _ (front_cut (w_size w) c)); [exact Hn|apply lookup_here|by intros r <-|].
  intros s1 Hn1 _. rewrite insert_here in Hn1. apply runs_ret, (continue_at (pre ++ front_cut (w_size w) c :: post) n size); [done| |].
  - apply (common_covered w w pre (c :: post) (front_cut (w_size w) c :: post) n); try done; [apply (cm_ret _ _ _ _ Hc)| | |].
    + intros x. symmetry. apply look_cut_front; [lia|lia|unfold w_size in *; lia].
    + intros [Hu1 Hu2]%upto_cons. apply upto_cons. split; [lia|done].
    + intros [Hs1 Hs2]%synced_cons. apply synced_cons. split; [apply synced_front_cut; [lia|done]|done].
  - apply at_gap; [apply Hm|cbn; lia| |apply Hm|apply Hm|apply Hm|by apply (steps_weaken w _ _ _ _ Hk)].
    apply (ordered_within _ _ _ c [front_cut (w_size w) c]); [apply Hm|]. cbn [app ordered].
    rewrite Hend, front_cut_len by lia. split_and!; [cbn; lia|lia|lia|by eapply meeting_post].
Qed.

Lemma meet_split k pre c post n size w r s :
  now (pre ++ c :: post) n size s -> common w (pre ++ c :: post) n size -> meeting w pre c post n ->
  steps w (3 * count (c :: post) + 1) k -> chunk_of r = c -> c_ip c = true -> c_off c < w_offset w -> w_end w < c_end c ->
  runs (let copy_offset := w_offset w - c_off c + w_size w in
        let* x := _unified_insert_new_request others (drop (Z.to_nat copy_offset) (write_cache r)) (c_off c + copy_offset)
                    (spare_cache w) true (Datatypes.S (length pre)) d in
        (if 0 <? x.1 then update_request_at d (length pre) (cut_back (w_offset w - c_off c)) else ret_op tt) ;;;
        ret_op (inserted x w (fun w => (do_insert_before (Datatypes.S (length pre)), w)))) s (continues k).
Proof.
  intros Hn Hc Hm Hk Hr Hip Ho He. cbv zeta. set (copy_offset := w_offset w - c_off c + w_size w). pose proof (meeting_size _ _ _ _ _ Hm) as Hsz.
  pose proof (size_pos w (me_buf _ _ _ _ _ Hm)) as Hpos.
  assert (Hw : write_cache r = c_bytes c) by (by rewrite <- Hr). rewrite Hw.
  set (m := w_offset w - c_off c). assert (Hm0 : 0 < m < copy_offset /\ copy_offset < c_len c).
  { unfold copy_offset, m, c_end, w_end in *. lia. }
  destruct (me_mode _ _ _ _ _ Hm) as [(Hprev & Hf & Hroom)|(pre' & q & _ & _ & Hoff & _)]; [|lia].
  pose proof (room_pos w n 2 ltac:(lia) Hroom) as Hblocks. pose proof (cm_blocks _ _ _ _ Hc) as Hbl.
  set (tail := front_cut copy_offset c).
  assert (Hte : c_end tail = c_end c) by (apply front_cut_end; lia).
  assert (Htl : c_len tail = c_len c - copy_offset) by (apply front_cut_len; lia).
  assert (Hbe : c_end (back_cut m c) = w_offset w) by (rewrite back_cut_end by lia; unfold m; lia).
  replace (pre ++ c :: post) with ((pre ++ [c]) ++ post) in * by (by rewrite <- app_assoc).
  replace (Datatypes.S (length pre)) with (length (pre ++ [c])) by (rewrite length_app; cbn; lia).
  apply runs_bind, (runs_insert d fs0 u0 p0 all_states others _ _ _ _ (pre ++ [c]) post n size); [done|done|done|lia|].
  intros s1 k1 Hn1. set (bytes := drop (Z.to_nat copy_offset) (c_bytes c)) in *.
  assert (Hbytes : Z.of_nat (length bytes) = c_len c - copy_offset) by (unfold bytes, c_len; rewrite length_drop; unfold c_len in *; lia).
  assert (Hk1 : k1 = c_len c - copy_offset) by (unfold k1; lia).
  replace (take (Z.to_nat k1) bytes) with bytes in Hn1 by (rewrite take_ge; [done|lia]).
  assert (Htail : {| c_off := c_off c + copy_offset; c_bytes := bytes; c_ip := true |} = tail) by (unfold tail, front_cut; by rewrite Hip).
  rewrite Htail in Hn1. pose proof (cm_within _ _ _ _ Hc) as Hu. apply upto_app in Hu as [Hu Hup]. apply upto_app in Hu as [Hu Huc].
  apply upto_cons in Huc as [Huc _].
  assert (c_off c + copy_offset + Z.of_nat (length bytes) = c_end c) as Hex by (unfold c_end; lia).
  rewrite Hex, Z.max_l in Hn1 by lia. cbn [fst]. rewrite (proj2 (Z.ltb_lt 0 k1)) by lia.
  rewrite <- app_assoc in Hn1. cbn [app] in Hn1.
  apply runs_bind. eapply (runs_now_update _ _ _ _ _ _ _ _ _ _ c _ (back_cut m c)); [exact Hn1|apply lookup_here|by intros r' <-|].
  intros s2 Hn2 _. rewrite insert_here in Hn2. apply runs_ret.
  unfold inserted. rewrite (proj2 (Z.ltb_ge k1 0)), (proj2 (Z.eqb_neq k1 0)) by lia.
  set (w' := set_ret k1 false w).
  apply (continue_at (pre ++ back_cut m c :: tail :: post) (n + b2z (spare_cache w) - 1) size); [done| |].
  - rewrite <- app_assoc in Hc. cbn [app] in Hc.
    apply (common_covered w w' pre (c :: post) (back_cut m c :: tail :: post) n); try done; [cbn; lia| | | |].
    + intros x. symmetry. apply look_split; [lia|unfold m; lia|unfold copy_offset, w_size; lia].
    + intros _. apply upto_cons. split; [lia|]. apply upto_cons. split; [lia|done].
    + intros [Hs1 Hs2]%synced_cons. apply synced_cons. split; [apply synced_back_cut; [lia|done]|].
      apply synced_cons. split; [apply synced_front_cut; [lia|done]|done].
    + change (spare_cache w') with false. unfold count. cbn [b2z length]. lia.
  - replace (length (pre ++ [c])) with (length (pre ++ [back_cut m c])) by (by rewrite !length_app).
    change (back_cut m c :: tail :: post) with ([back_cut m c] ++ tail :: post). rewrite app_assoc.
    apply at_gap; [apply Hm|unfold copy_offset; cbn; lia| | |apply Hm| |].
    + rewrite <- app_assoc. apply (ordered_within _ _ _ c ([back_cut m c; tail])); [apply Hm|]. cbn [app ordered].
      rewrite Hbe, Hte, Htl, back_cut_len by lia. split_and!; [cbn; lia|lia|lia|unfold tail, copy_offset; cbn; lia|lia|lia|].
      by eapply meeting_post.
    + apply upto_app. split; [apply Hm|]. apply upto_cons. split; [cbn; lia|apply upto_nil].
    + unfold room in *. change (w_size w') with (w_size w). change (spare_cache w') with false. cbn [b2z]. lia.
    + apply (steps_weaken w _ _ _ _ Hk). unfold count. cbn [length]. lia.
Qed.

Lemma meet_step k pre c post n size w s :
  now (pre ++ c :: post) n size s -> common w (pre ++ c :: post) n size -> meeting w pre c post n ->
  steps w (3 * count (c :: post) + 1) k -> runs (meet_request others d (length pre) w) s (continues k).
Proof.
  intros Hn Hc Hm Hk. pose proof (meeting_size _ _ _ _ _ Hm) as Hsz. pose proof (me_place _ _ _ _ _ Hm) as Hplace.
  pose proof (size_pos w (me_buf _ _ _ _ _ Hm)) as Hpos. unfold meet_request.
  apply runs_bind. eapply runs_now_request; [exact Hn|apply lookup_here|]. intros r Hr Er.
  apply runs_bind, (runs_now_data _ _ _ _ _ _ _ _ _ _ Hn). intros Hcs. rewrite Hcs.
  assert (Hor : req_offset r = c_off c) by (by rewrite <- Hr). assert (Her : req_end r = c_end c) by (by rewrite <- Hr).
  assert (Hcr : req_count r = c_len c) by (by rewrite <- Hr). assert (Hir : is_ip r = c_ip c) by (by rewrite <- Hr).
  rewrite Hor, Her, Hcr, Hir, (proj2 (Z.ltb_ge (w_offset w) (c_off c))) by lia.
  destruct (negb (c_ip c) && ((w_offset w <? c_end c) || (w_offset w =? c_end c) && (c_len c <? cs))) eqn:E1.
  { apply andb_true_iff in E1 as [E1%negb_true_iff E2]. apply (meet_fill k pre c post n size w s); try done.
    apply orb_true_iff in E2 as [E2%Z.ltb_lt|[E2%Z.eqb_eq E3%Z.ltb_lt]%andb_true_iff]; unfold c_end in *; lia. }
  destruct (c_ip c && (w_offset w <? c_end c)) eqn:E2.
  - apply andb_true_iff in E2 as [Hip E2%Z.ltb_lt].
    assert (Hst : req_state r = REQUEST_IP) by (rewrite Hip in Hir; by apply bool_decide_eq_true in Hir).
    destruct (Z.eqb_spec (w_offset w) (c_off c)) as [Heq|Hne]; cbn [andb].
    + destruct (Z.leb_spec (c_len c) (w_size w)); [by eapply meet_remove|by eapply meet_cut_front].
    + destruct (Z.leb_spec (c_end c) (w_end w)).
      * apply (meet_cut_back k pre c post n size w s); try done. lia.
      * apply (meet_split k pre c post n size w r s); try done. lia.
  - apply runs_ret, (continue_at (pre ++ c :: post) n size); [done..|].
    assert (Heq : w_offset w = c_end c /\ (c_len c = cs \/ c_ip c = true)).
    { destruct (c_ip c); cbn in E1, E2; [apply Z.ltb_ge in E2; split; [lia|by right]|].
      apply orb_false_iff in E1 as [E1%Z.ltb_ge E3]. assert (Heq : w_offset w = c_end c) by lia.
      rewrite (proj2 (Z.eqb_eq _ _) Heq) in E3. apply Z.ltb_ge in E3. split; [done|left; lia]. }
    destruct Heq as [Heq Hfull]. pose proof (meeting_post _ _ _ _ _ Hm) as Hpost.
    destruct (me_mode _ _ _ _ _ Hm) as [(_ & Hf & _)|(_ & _ & _ & _ & Ho & _)]; [|unfold c_end in *; lia].
    apply at_next_request; [split| |by apply (steps_weaken w _ _ _ _ Hk); unfold count; cbn [length]; lia].
    + by eapply meeting_pre.
    + apply (ordered_weaken _ (c_end c)); [lia|done].
    + by apply ordered_ahead with cs.
    + lia.
    + intros _. split_and!; [done|apply Hm| |apply Hm]. destruct (decide (c_len c = cs)) as [Hl|Hl]; [by left|right].
      destruct Hfull as [Hfull|Hip]; [done|]. split; [done|]. destruct post as [|c2 post]; [done|]. intros Hip2. destruct Hpost as (Hoff2 & _).
      destruct (decide (c_off c2 = w_offset w)) as [He|He]; [|lia].
      inversion Hf as [|? ? Hf1 _]; subst. destruct (proj1 (list.Forall_forall _ _) Hf1 c2 ltac:(by left)) as [_ Hf2].
      destruct Hl. apply Hf2; [done|done|done|done].
    + intros _ Hb. destruct (me_buf _ _ _ _ _ Hm Hb).
Qed.

(** *** Before a request *)

Lemma step_gap k pre c post n size w s :
  now (pre ++ c :: post) n size s -> common w (pre ++ c :: post) n size -> w_buf w <> [] -> w_offset w < c_off c ->
  ordered cs 0 (pre ++ c :: post) -> upto (w_offset w) pre -> ahead e post -> room w n 1 ->
  steps w (3 * count (c :: post) + 1) (Datatypes.S k) ->
  runs (let* x := _unified_insert_new_request others (w_buf w) (w_offset w) (spare_cache w) false (length pre) d in
        ret_op (inserted x w (fun w => (do_insert_before (Datatypes.S (length pre)), advance x.1 (set_prev (Some (length pre)) w)))))
    s (continues k).
Proof.
  intros Hn Hc Hb Ho Hord Hpre Hahead Hroom Hk. pose proof (size_pos w Hb) as Hpos.
  apply (insert_step pre (c :: post) n size w
    (fun k w => (do_insert_before (Datatypes.S (length pre)), advance k (set_prev (Some (length pre)) w)))); [done..|].
  intros n' size' s' w1 k' Hk' Hw1 Hn' Hnow Hcom Hmore Hend Hoff Hsize.
  set (w' := advance k' (set_prev (Some (length pre)) (set_ret k' false w))).
  assert (Hb' : w_buf w' = w_buf w1) by (by rewrite Hw1). assert (Ho' : w_offset w' = w_offset w1) by (by rewrite Hw1).
  assert (Hs' : spare_cache w' = spare_cache w1) by (by rewrite Hw1). assert (Hz' : w_size w' = w_size w1) by (by rewrite Hw1).
  assert (Hr' : w_ret w' = w_ret w1) by (by rewrite Hw1).
  assert (Hcom' : common w' (pre ++ next_chunk w :: c :: post) n' size').
  { apply (common_same w1); try done. rewrite Hr'. apply (cm_ret _ _ _ _ Hcom). }
  assert (Hmore' : w_buf w' <> [] -> room w' n' 1 /\ c_len (next_chunk w) = cs).
  { rewrite Hb'. intros H. destruct (Hmore H) as [H1 H2]. split; [|done]. by apply (room_same w1). }
  rewrite <- Ho' in Hend, Hoff. rewrite <- Hz' in Hsize. clear Hcom Hmore Hw1 Hb' Ho' Hs' Hz' Hr' w1.
  pose proof (cm_end _ _ _ _ Hcom') as He. unfold w_end in He.
  assert (Hw0 : 0 <= w_size w') by (unfold w_size; lia). pose proof (cm_start _ _ _ _ Hc) as Hstart.
  apply (continue_at (pre ++ next_chunk w :: c :: post) n' size'); [done..|].
  apply ordered_split in Hord as Hsplit. destruct Hsplit as [Hpc Hpost]. apply ordered_snoc in Hpc as (Hpo & _ & _ & Hlc).
  assert (Hnew : ordered cs 0 (pre ++ [next_chunk w])).
  { apply ordered_snoc. split_and!; [done|cbn; lia|done|rewrite next_chunk_len; lia..]. }
  assert (Hk'' : steps w' (3 * count (c :: post) + 2) k) by (unfold steps in *; lia).
  destruct (decide (w_buf w' <> [] /\ w_offset w' < c_off c)) as [[Hb' Hgap]|Hno].
  - replace (Datatypes.S (length pre)) with (length (pre ++ [next_chunk w])) by (rewrite length_app; cbn; lia).
    change (next_chunk w :: c :: post) with ([next_chunk w] ++ c :: post). rewrite app_assoc.
    apply at_gap; [done|done| | |done|by apply Hmore'|by apply (steps_weaken w' _ _ _ _ Hk''); lia].
    + rewrite <- app_assoc. apply ordered_split. split; [done|]. cbn. split_and!; [lia|lia|lia|done].
    + apply upto_app. split; [apply (upto_mono (w_offset w)); [lia|done]|]. apply upto_cons. split; [lia|apply upto_nil].
  - apply at_next_to; [done|done| | |lia| |done].
    + cbn. split_and!; [lia|lia|lia|done].
    + intros c2 Hc2. specialize (Hahead c2 Hc2). lia.
    + intros Hb'. destruct (Hmore' Hb') as [H1 H2]. assert (c_off c <= w_offset w') by (destruct (decide (w_offset w' < c_off c)); [tauto|lia]).
      split_and!; try done. by left.
Qed.

Definition merged_writer w (m : Z) (spare : bool) : writer := set_merge (negb (m =? 0)) spare w.

(** What is left of [c] after a merge that did not take all of it *)
Lemma remains_some q' c :
  merge_result q' c <> 2 -> 0 < c_len c ->
  exists c', remains q' c = [c'] /\ c_end c' = c_end c /\ c_end q' <= c_off c' /\ 0 < c_len c' <= c_len c /\
    c_ip c' = c_ip c /\ (c_off c <= c_end q' -> c_off c' = c_end q') /\ (merge_result q' c = 0 -> c' = c).
Proof.
  unfold merge_result, remains. destruct (Z.leb_spec (c_end q') (c_off c)).
  - intros _ Hc. exists c. split_and!; try done; lia.
  - destruct (Z.ltb_spec (c_end q') (c_end c)); [|done]. intros _ Hc. exists (front_cut (c_end q' - c_off c) c).
    assert (0 <= c_end q' - c_off c <= c_len c) by (unfold c_end in *; lia).
    split_and!; try done; rewrite ?front_cut_end, ?front_cut_len by done; unfold c_end in *; cbn; lia.
Qed.

Lemma merge_2 q' c : merge_result q' c = 2 -> remains q' c = [] /\ c_end c <= c_end q' /\ c_off c < c_end q'.
Proof.
  unfold merge_result, remains. destruct (Z.leb_spec (c_end q') (c_off c)); [done|].
  destruct (Z.ltb_spec (c_end q') (c_end c)); [done|]. intros _. split_and!; [done|lia|lia].
Qed.

(** The request before the new bytes is merged with the one behind them. *)
Lemma step_merge k pre q c post n size w s :
  now (pre ++ q :: c :: post) n size s -> common w (pre ++ q :: c :: post) n size ->
  prev_req w = Some (length pre) -> ordered cs 0 (pre ++ [q]) -> ordered cs (c_off q) (c :: post) -> ahead (c_end q) post ->
  w_offset w <= c_end q ->
  (w_buf w <> [] -> c_end q = w_offset w /\ c_off c <= w_offset w /\ ahead e post /\ room w n 1 /\
     (c_len q = cs \/ (c_ip q = true /\ c_ip c = false /\ w_offset w < c_end c))) ->
  steps w (3 * count (c :: post) + 2) (Datatypes.S k) ->
  runs (let* '(m, spare) := _unified_merge_requests d (prev_req w) (Datatypes.S (length pre)) (Some (spare_cache w)) in
        let w := set_merge (negb (m =? 0)) spare w in
        if m =? 2 then ret_op (scan (Datatypes.S (length pre)), w)
        else if 0 <? w_size w then meet_request others d (Datatypes.S (length pre)) w
        else ret_op (next_request (Datatypes.S (length pre)), w)) s (continues k).
Proof.
  intros Hn Hc Hprev Hpre Hpost Hahead Hoff Hmore Hk. rewrite Hprev. destruct Hpost as (Hqc & Hlc & Hpost).
  pose proof (proj1 (ordered_snoc _ _ _ _) Hpre) as (_ & _ & _ & Hlq).
  pose proof (cm_within _ _ _ _ Hc) as Hu. apply upto_app in Hu as [_ Hu]. apply upto_cons in Hu as [Huq Hu].
  apply upto_cons in Hu as [Huc Hu].
  apply runs_bind. eapply (runs_merge d fs0 u0 p0 all_states); [done|by left|exact Hn|done|done|lia|done|]. intros q' n' spare' s' Hp Hn' Hblocks _. cbn [default from_option id] in Hblocks.
  set (m := merge_result q' c) in *. set (w' := set_merge (negb (m =? 0)) spare' w).
  pose proof (pulled_end _ _ _ _ Hp) as Hle. pose proof (pulled_off _ _ _ _ Hp) as Hoq. pose proof (pulled_size _ _ _ _ Hp) as Hsz.
  assert (Hpre' : ordered cs 0 (pre ++ [q'])) by (apply (ordered_last _ _ _ q); [done|done|unfold c_end in *; lia]).
  assert (Hcom : common w' (pre ++ q' :: remains q' c ++ post) n' size).
  { apply (common_covered w w' pre (q :: c :: post) (q' :: remains q' c ++ post) n); try done; [apply (cm_ret _ _ _ _ Hc)| | | |].
    - intros x. cbn [look]. destruct (value (fresh (w_offset w) (w_buf w)) x); [done|]. apply look_app_cong. by eapply look_pulled.
    - intros _. apply upto_cons. split.
      + destruct (decide (c_end q < c_end q')) as [Hlt|]; [|lia]. destruct (pulled_more _ _ _ _ Hp Hlt) as (_ & _ & ?). lia.
      + apply upto_app. split; [by apply upto_remains|done].
    - intros [Hs1 [Hs2 Hs3]%synced_cons]%synced_cons. apply synced_cons. split; [by eapply synced_pulled|].
      apply synced_app. split; [by apply synced_remains|done].
    - change (spare_cache w') with spare'. unfold count. cbn [length]. rewrite length_app. destruct (decide (m = 2)) as [H2|H2].
      + destruct (merge_2 q' c H2) as (-> & _). rewrite H2 in Hblocks. cbn in *. lia.
      + destruct (remains_some q' c H2 ltac:(lia)) as (c' & -> & _). rewrite (proj2 (Z.eqb_neq _ _) H2) in Hblocks. cbn. lia. }
  assert (Hroom : room w n 1 -> room w' n' 1).
  { unfold room. change (w_size w') with (w_size w). change (spare_cache w') with spare'. case_match; nia. }
  assert (Hfull : w_buf w <> [] -> c_end q' = w_offset w /\ (c_len q = cs -> c_len q' = cs)).
  { intros Hb. destruct (Hmore Hb) as (He & Ho & _ & _ & Hg). assert (Hsame : c_end q' = c_end q).
    { destruct (decide (c_end q < c_end q')) as [Hlt|]; [|lia]. destruct (pulled_more _ _ _ _ Hp Hlt) as (Hip & _ & _).
      destruct Hg as [Hl|(H1 & H2 & _)]; [unfold c_end in *; lia|congruence]. }
    split; [lia|]. unfold c_end in *. lia. }
  assert (Hstill : ahead (c_end q') post).
  { intros c2 Hc2. specialize (Hahead c2 Hc2). destruct (decide (c_end q < c_end q')) as [Hlt|]; [|lia].
    destruct (pulled_more _ _ _ _ Hp Hlt) as (_ & _ & Hend). pose proof (ordered_ahead _ _ _ Hpost c2 Hc2). lia. }
  cbv zeta. fold w'. destruct (Z.eqb_spec m 2) as [H2|H2].
  - destruct (merge_2 q' c H2) as (Hrem & Hce & _). rewrite Hrem in *. cbn [app] in *.
    apply runs_ret, (continue_at (pre ++ q' :: post) n' size); [done..|]. apply at_scan; [done|split|].
    + done.
    + apply (ordered_weaken _ (c_end c)); [unfold c_end in *; lia|done].
    + done.
    + cbn. lia.
    + intros Hb. destruct (Hfull Hb) as [He Hl]. destruct (Hmore Hb) as (_ & _ & Hahe & Hr & Hg).
      split_and!; [done|done| |by apply Hroom]. left. apply Hl. destruct Hg as [Hg|(_ & _ & Hg)]; [done|lia].
    + apply (steps_weaken w _ _ _ _ Hk). unfold count. cbn [length]. lia.
  - destruct (remains_some q' c H2 ltac:(lia)) as (c' & Hrem & Hec & Hqc' & Hlc' & Hipc & Hoc & Hm0). rewrite Hrem in *.
    replace (pre ++ q' :: [c'] ++ post) with ((pre ++ [q']) ++ c' :: post) in * by (by rewrite <- app_assoc).
    replace (Datatypes.S (length pre)) with (length (pre ++ [q'])) by (rewrite length_app; cbn; lia).
    assert (Hord : ordered cs 0 ((pre ++ [q']) ++ c' :: post)).
    { rewrite <- app_assoc. apply ordered_split. split; [done|]. cbn. rewrite Hec. split_and!; [lia|lia|lia|done]. }
    assert (Hk' : steps w' (3 * count (c' :: post) + 1) k) by (apply (steps_weaken w _ _ _ _ Hk); unfold count; cbn [length]; lia).
    change (w_size w') with (w_size w). destruct (Z.ltb_spec 0 (w_size w)) as [Hpos|Hpos].
    + assert (Hb : w_buf w <> []) by (intros E; unfold w_size in Hpos; by rewrite E in Hpos).
      destruct (Hfull Hb) as [He Hl]. destruct (Hmore Hb) as (_ & Hoc' & Hahe & Hr & Hg). specialize (Hoc ltac:(lia)).
      apply (meet_step k (pre ++ [q']) c' post n' size w'); [done|done| |done]. split; try done.
      * apply upto_app. apply ordered_snoc in Hpre' as (_ & _ & Hup & _). cbn. split; [apply (upto_mono (c_off q')); [unfold c_end in *; lia|done]|].
        apply upto_cons. split; [lia|apply upto_nil].
      * cbn. unfold c_end in *. lia.
      * by apply Hroom.
      * right. exists pre, q'. split_and!; [done|done|cbn; lia|cbn; lia|]. intros Hip. apply Hl.
        destruct Hg as [Hg|(_ & Hg & _)]; [done|congruence].
    + assert (Hb : w_buf w = []) by (apply size_0; unfold w_size in *; lia).
      apply runs_ret, (continue_at ((pre ++ [q']) ++ c' :: post) n' size); [done..|]. apply ordered_split in Hord as Hs. destruct Hs as [Ho1 Ho2].
      apply at_next_request; [split|done|by apply (steps_weaken w' _ _ _ _ Hk'); unfold count; cbn [length]; lia].
      * done.
      * apply (ordered_weaken _ (c_end c')); [unfold c_end; lia|done].
      * by apply ordered_ahead with cs.
      * cbn. assert (c_off c' <= c_end c') by (unfold c_end; lia). lia.
      * intros Hb'. by destruct Hb'.
Qed.

Lemma step_do_insert k i w l n size s :
  now l n size s -> common w l n size -> at_place (Datatypes.S k) (do_insert_before i) w l n ->
  runs (step (do_insert_before i) w) s (continues k).
Proof.
  intros Hn Hc H. cbn [write_step].
  inversion H as [| | | | |w' pre c post n' Hb Ho Hord Hpre Hahead Hroom Hk|w' pre c post n' Hprev Hb Ho Hord Hpre Hf Hroom Hk
    |w' pre q c post n' Hprev Hpre Hpost Hahead Hoff Hmore Hk| |]; subst.
  - apply runs_bind. eapply runs_now_request; [exact Hn|apply lookup_here|]. intros r Hr _.
    assert (Hor : req_offset r = c_off c) by (by rewrite <- Hr). pose proof (size_pos w Hb). rewrite Hor.
    rewrite (proj2 (Z.ltb_lt 0 (w_size w))), (proj2 (Z.ltb_lt (w_offset w) (c_off c))) by lia. cbn [andb]. by eapply step_gap.
  - apply runs_bind. eapply runs_now_request; [exact Hn|apply lookup_here|]. intros r Hr _.
    assert (Hor : req_offset r = c_off c) by (by rewrite <- Hr). pose proof (size_pos w Hb). rewrite Hor.
    rewrite (proj2 (Z.ltb_ge (w_offset w) (c_off c))), andb_false_r by lia. rewrite Hprev.
    set (w' := set_merge false (spare_cache w) w).
    apply runs_bind. apply runs_ret. cbn [default from_option id]. cbv zeta. change (negb (0 =? 0)) with false. fold w'.
    change (w_size w') with (w_size w). change (0 =? 2) with false. cbv iota. rewrite (proj2 (Z.ltb_lt 0 (w_size w))) by lia.
    apply (meet_step k pre c post n size w'); [done| | |].
    + apply (common_same w); try done. apply (cm_ret _ _ _ _ Hc).
    + split; try done; [by eapply fine_ahead; [exact Hf|lia]|by apply room_one|]. by left.
    + apply (steps_weaken w _ _ _ _ Hk). lia.
  - apply runs_bind. eapply runs_now_request; [exact Hn|apply lookup_next|]. intros r Hr _.
    assert (Hor : req_offset r = c_off c) by (by rewrite <- Hr). rewrite Hor.
    assert (Hcond : (0 <? w_size w) && (w_offset w <? c_off c) = false).
    { destruct (Z.ltb_spec 0 (w_size w)) as [Hpos|]; [|done]. apply Z.ltb_ge. apply Hmore. intros E. unfold w_size in Hpos. by rewrite E in Hpos. }
    rewrite Hcond. by eapply step_merge.
Qed.

(** ** The loop *)

Lemma step_ok k at_ w s :
  going (Datatypes.S k) at_ w s -> at_ <> out -> runs (step at_ w) s (continues k).
Proof.
  intros (l & n & size & Hn & Hc & H) Hout. destruct at_ as [| | |i|i|i| |].
  - inversion H.
  - by eapply step_do_append.
  - by eapply step_append_new.
  - by eapply step_scan.
  - by eapply step_do_insert.
  - by eapply step_next_request.
  - done.
  - inversion H.
Qed.

Definition finished w s : Prop :=
  exists l n size, now l n size s /\ common w l n size /\ w_buf w = [] /\ ordered cs 0 l.

Lemma some_steps w k : 0 < k -> ~ steps w k 0.
Proof. unfold steps, w_size. lia. Qed.

Lemma loop_ok k at_ w s :
  going k at_ w s -> runs (write_loop raw others k d at_ w) s (fun x s' => x.1 = out /\ finished x.2 s').
Proof.
  revert at_ w s. induction k as [|k IH]; intros at_ w s Hg.
  - destruct (Hg) as (l & n & size & Hn & Hc & H).
    inversion H; subst; try (exfalso; eapply (some_steps w); [|eassumption]; unfold count; lia).
    apply runs_ret. split; [done|]. exists l, n, size. done.
  - assert (at_ = out \/ at_ <> out) as [->|Hout] by (destruct at_; (by left) || by right).
    + destruct Hg as (l & n & size & Hn & Hc & H). inversion H; subst. apply runs_ret. split; [done|]. exists l, n, size. done.
    + assert (Hleave : at_ <> leave) by (intros ->; destruct Hg as (l & n & size & _ & _ & H); inversion H).
      assert (Hloop : write_loop raw others (Datatypes.S k) d at_ w =
                      let* x := write_step raw others d at_ w in write_loop raw others k d x.1 x.2) by (by destruct at_).
      rewrite Hloop. eapply runs_and_then; [by apply step_ok|]. intros [at' w'] s' H'. by apply IH.
Qed.
End write.
