(* ===== verification/UnifiedSpec.v ===== *)
(** * The unified scheduler: what writing, reading and flushing mean

    A file that is being written consists of the bytes on the tape under the requests of its
    write queue.  [unified_write] changes this picture at the offset of the write and nowhere
    else; [unified_read] shows it; [unified_flush] brings it to the tape. *)

From S2P Require Import Prelude Errors Extents FsTree Unified UnifiedList UnifiedWp UnifiedWrite.
Open Scope Z_scope.
Open Scope ltfs_scope.

(** ** The files below *)

Section laws.
Context {S : Type} (raw : raw_ops S).

(** What a read leaves alone: it may find that the volume has to be validated again, so
    that the answers about the state of the volume are not among it. *)
Record same_directory (fs fs' : S) : Prop := {
  sd_size d : d_size raw fs' d = d_size raw fs d;
  sd_matches d : d_matches_name_criteria raw fs' d = d_matches_name_criteria raw fs d;
  sd_deleted d : d_deleted raw fs' d = d_deleted raw fs d;
  sd_max : max_filesize raw fs' = max_filesize raw fs
}.

Lemma same_directory_refl fs : same_directory fs fs.
Proof. by split. Qed.

Lemma same_directory_trans fs fs' fs'' : same_directory fs fs' -> same_directory fs' fs'' -> same_directory fs fs''.
Proof.
  intros [A1 A2 A3 A4] [B1 B2 B3 B4]. split; try congruence; intros d; congruence.
Qed.

(** All that the scheduler asks about *)
Record same_answers (fs fs' : S) : Prop := {
  sa_size d : d_size raw fs' d = d_size raw fs d;
  sa_matches d : d_matches_name_criteria raw fs' d = d_matches_name_criteria raw fs d;
  sa_deleted d : d_deleted raw fs' d = d_deleted raw fs d;
  sa_lock : volume_lock raw fs' = volume_lock raw fs;
  sa_tape : tape_readonly raw fs' = tape_readonly raw fs;
  sa_dp : dp_readonly raw fs' = dp_readonly raw fs;
  sa_ip : ip_readonly raw fs' = ip_readonly raw fs;
  sa_max : max_filesize raw fs' = max_filesize raw fs
}.

Lemma same_answers_refl fs : same_answers fs fs.
Proof. by split. Qed.

Lemma same_answers_trans fs fs' fs'' : same_answers fs fs' -> same_answers fs' fs'' -> same_answers fs fs''.
Proof.
  intros [A1 A2 A3 A4 A5 A6 A7 A8] [B1 B2 B3 B4 B5 B6 B7 B8]. split; try congruence; intros d; congruence.
Qed.
End laws.

(** What the scheduler relies on: [contents fs d x] is the byte of file [d] at offset [x]. *)
Class FileStore {S} (raw : raw_ops S) (contents : S -> Z -> Z -> option Z) := {
  (** the bytes of a file are those before its size *)
  store_size fs d x : contents fs d x <> None -> 0 <= x < d_size raw fs d;
  store_get fs d : exists fs', fsraw_get_dentry raw d fs = Some (tt, fs') /\
    same_answers raw fs fs' /\ (forall d' x, contents fs' d' x = contents fs d' x);
  store_times fs d : exists fs', set_current_times raw d fs = Some (tt, fs') /\
    same_answers raw fs fs' /\ (forall d' x, contents fs' d' x = contents fs d' x);
  (** a read fails, or gives the bytes up to the end of the file *)
  store_read fs d off count : 0 <= off -> 0 < count ->
    exists n bytes fs', fsraw_read raw d off count fs = Some ((n, bytes), fs') /\
      same_directory raw fs fs' /\ (forall d' x, contents fs' d' x = contents fs d' x) /\
      (n < 0 \/ (n = Z.min count (Z.max 0 (d_size raw fs d - off)) /\
         forall i, (i < Z.to_nat n)%nat -> bytes !! i = Some (default 0 (contents fs d (off + Z.of_nat i)))));
  (** a write changes nothing but the bytes it is for; when it fails, they are unknown *)
  store_write fs d buf off partition : buf <> [] -> 0 <= off ->
    exists n fs', fsraw_write raw d buf off partition false fs = Some (n, fs') /\
      (forall d' x, d' <> d -> contents fs' d' x = contents fs d' x) /\
      if n <? 0 then forall x, ~ off <= x < off + Z.of_nat (length buf) -> contents fs' d x = contents fs d x
      else forall x, contents fs' d x = over off buf (contents fs d) x
}.

(** ** A file with a write queue *)

Abbreviation chunks p := (chunk_of <$> requests p).

Section file.
Context {S : Type} (raw : raw_ops S) (contents : S -> Z -> Z -> option Z).
Implicit Types (s : sched S) (p : dentry_priv).

(** The private data of [d], which a write creates when there is none *)
Definition private s (d : Z) : dentry_priv := default (fresh_priv raw (files s) d) (iosched_priv (sdata s) !! d).

(** The contents of [d], its requests included *)
Definition view s (d : Z) : Z -> option Z := look (contents (files s) d) (chunks (private s d)).

Definition blocks_of_queue s (d : Z) : Z := blocks_left s + Z.of_nat (length (requests (private s d))).

(** The invariant *)
Record entry_ok s (d : Z) : Prop := {
  eo_order : ordered (cache_size (sdata s)) 0 (chunks (private s d));
  eo_counted : counted (private s d);
  eo_member st : d ∈ members (queue_of st (sdata s)) <-> in_queue st (private s d) <> 0;
  eo_ext : d ∈ ext_queue (sdata s) <-> alt_extentlist (private s d) <> [];
  eo_size : upto (file_size (private s d)) (chunks (private s d));
  eo_synced : synced (contents (files s) d) (chunks (private s d));
  eo_pool : pool_ok (pool (sdata s));
  eo_blocks : blocks_of_queue s d < 2 ^ 32;
  eo_cs : 0 < cache_size (sdata s)
}.
End file.

(** ** When a file leaves the index partition *)

Section unset.
Context {S : Type} (d : Z) (fs0 : S) (u0 : unified_data).
Implicit Types (s : sched S) (p : dentry_priv).
Abbreviation kept := (kept d fs0 u0).

Lemma runs_free_requests (keep : write_request -> bool) l p s (Q : list write_request -> sched S -> Prop) :
  kept p s ->
  (forall s', let l' := List.filter keep l in
     kept p s' -> blocks_left s' = blocks_left s + Z.of_nat (length l) - Z.of_nat (length l') -> Q l' s') ->
  runs (free_requests keep l) s Q.
Proof.
  revert s Q. induction l as [|r l IH]; intros s Q Hk HQ; cbn [free_requests].
  - apply runs_ret, HQ; [done|cbn; lia].
  - cbn [List.filter] in HQ. destruct (keep r).
    + apply runs_bind, IH; [done|]. intros s' l' Hk' Hb. apply runs_ret, HQ; [done|]. cbn. fold l'. lia.
    + apply runs_bind, (runs_free d fs0 u0 p); [done|]. intros s1 Hk1 Hb1. apply IH; [done|]. intros s' l' Hk' Hb.
      apply HQ; [done|]. fold l'. cbn. lia.
Qed.

Lemma runs_shift_dp_count n p s (Q : unit -> sched S -> Prop) :
  kept p s -> (forall s', kept p s' -> blocks_left s' = blocks_left s -> Q tt s') -> runs (shift_dp_count n) s Q.
Proof.
  intros [H1 H2 H3 H4 H5 H6] HQ. apply HQ; [|done]. split; try done.
  - intros st. rewrite <- H3. by destruct st.
  - apply (frame_trans _ _ _ _ H6). split; try done. by intros [].
Qed.

Lemma runs_clear_alt raw p s (Q : unit -> sched S -> Prop) :
  kept p s -> (forall s', kept (set_alt_extentlist [] p) s' -> blocks_left s' = blocks_left s -> Q tt s') ->
  runs (_unified_clear_alt_extentlist raw false d) s Q.
Proof.
  intros Hk HQ. apply runs_bind, (runs_get_priv d fs0 u0 p); [done|]. destruct (alt_extentlist p) as [|x l] eqn:E.
  { apply runs_ret, HQ; [|done]. by replace (set_alt_extentlist [] p) with p by (destruct p; cbn in E; by subst). }
  destruct Hk as [H1 H2 H3 H4 H5 H6]. assert (Hin : d ∈ ext_queue (sdata s)) by (rewrite H4, E; done).
  unfold runs, bind_op, ret_op, update_priv, update_data, get_data. cbn. rewrite bool_decide_true by done. apply HQ; [|done].
  split; cbn; try done.
  - by rewrite lookup_alter_eq, H2.
  - rewrite list_elem_of_filter. tauto.
  - apply (frame_trans _ _ _ _ H6). split; try done; cbn.
    + intros d' Hd. by rewrite lookup_alter_ne.
    + intros d' Hd. rewrite list_elem_of_filter. tauto.
Qed.

(** The requests of the data partition *)
Definition not_ip (r : write_request) : bool := negb (is_ip r).

Lemma count_cons st r l : count_state st (r :: l) = (if decide (req_state r = st) then 1 else 0) + count_state st l.
Proof. change (r :: l) with ([r] ++ l). by rewrite count_app, count_one. Qed.

Lemma count_not_ip st l :
  count_state st (List.filter not_ip l) = if decide (st = REQUEST_IP) then 0 else count_state st l.
Proof.
  induction l as [|r l IH]; [by case_decide|]. cbn [List.filter]. rewrite (count_cons st r l). unfold not_ip at 1, is_ip.
  destruct (decide (req_state r = REQUEST_IP)) as [Hip|Hip].
  - rewrite bool_decide_true by done. cbn [negb]. rewrite IH. case_decide; [done|]. by rewrite decide_False by congruence.
  - rewrite bool_decide_false by done. cbn [negb]. rewrite count_cons, IH. case_decide; [|done].
    by rewrite decide_False by congruence.
Qed.

Lemma filter_all (l : list write_request) : count_state REQUEST_IP l = 0 -> List.filter not_ip l = l.
Proof.
  induction l as [|r l IH]; [done|]. rewrite count_cons. pose proof (count_range REQUEST_IP l). case_decide; [lia|].
  intros Hz. cbn. unfold not_ip at 1, is_ip. rewrite bool_decide_false by done. cbn. by rewrite IH by lia.
Qed.

Lemma runs_unset_write_ip raw p s (Q : unit -> sched S -> Prop) :
  kept p s -> counted p ->
  (forall p' s', kept p' s' -> counted p' -> requests p' = List.filter not_ip (requests p) -> file_size p' = file_size p ->
     write_error p' = write_error p ->
     blocks_left s' = blocks_left s + Z.of_nat (length (requests p)) - Z.of_nat (length (requests p')) -> Q tt s') ->
  runs (_unified_unset_write_ip raw d) s Q.
Proof.
  intros Hk Hc HQ. apply runs_bind, (runs_update_priv d fs0 u0 p); [done|by intros []|done|]. intros s1 Hk1 Hb1.
  apply runs_bind, (runs_get_priv d fs0 u0 (set_write_ip false p)); [done|].
  set (p2 := set_in_queue REQUEST_IP 0 (set_requests (List.filter not_ip (requests p)) (set_write_ip false p))).
  apply (runs_and_then _ _ _ (fun _ s' => kept p2 s' /\
    blocks_left s' = blocks_left s + Z.of_nat (length (requests p)) - Z.of_nat (length (List.filter not_ip (requests p))))).
  { destruct (Z.eqb_spec (in_ip_queue (set_write_ip false p)) 0) as [H0|H0].
    - apply runs_ret. pose proof (Hc REQUEST_IP) as Hip. cbn in Hip, H0. pose proof (filter_all (requests p) ltac:(lia)) as Hf.
      unfold p2. rewrite Hf. split; [|lia]. destruct p; cbn in *. by subst.
    - apply runs_bind, (runs_free_requests (fun r => negb (is_ip r)) _ (set_write_ip false p)); [done|]. intros s2 l' Hk2 Hb2.
      apply runs_bind, (runs_update_priv d fs0 u0 (set_write_ip false p)); [done|by intros []|done|]. intros s3 Hk3 Hb3.
      eapply (runs_leave_all d fs0 u0 REQUEST_IP); [exact Hk3|cbn; pose proof (Hc REQUEST_IP) as Hip; cbn in Hip; pose proof (count_range REQUEST_IP (requests p)); lia|].
      intros s4 Hk4 Hb4. split; [exact Hk4|]. unfold l' in Hb2. cbn in Hb2. unfold not_ip. lia. }
  intros _ s2 [Hk2 Hb2]. apply runs_bind, (runs_get_priv d fs0 u0 p2); [done|].
  apply (runs_and_then _ _ _ (fun _ s' => kept p2 s' /\ blocks_left s' = blocks_left s2)).
  { case_match; [by apply runs_ret|]. by apply (runs_shift_dp_count _ p2). }
  intros _ s3 [Hk3 Hb3]. apply (runs_clear_alt raw p2); [done|]. intros s4 Hk4 Hb4.
  apply (HQ (set_alt_extentlist [] p2)); try done; [|cbn; lia].
  intros st. cbn [all_states]. change (requests (set_alt_extentlist [] p2)) with (List.filter not_ip (requests p)). rewrite count_not_ip.
  destruct st; cbn; [apply (Hc REQUEST_PARTIAL)|apply (Hc REQUEST_DP)|done].
Qed.
End unset.

Lemma chunks_not_ip (l : list write_request) : chunk_of <$> List.filter not_ip l = data_chunks (chunk_of <$> l).
Proof. induction l as [|r l IH]; [done|]. cbn. unfold not_ip at 1. destruct (is_ip r); cbn; by rewrite IH. Qed.

(** ** Writing *)

Section writing.
Context {S : Type} (raw : raw_ops S) (contents : S -> Z -> Z -> option Z) {laws : FileStore raw contents}.
Context (others : op (sched S) unit).
Implicit Types (s : sched S) (p : dentry_priv) (w : writer).

Abbreviation private := (private raw).
Abbreviation entry_ok := (entry_ok raw contents).
Abbreviation view := (view raw contents).
Abbreviation blocks_of_queue := (blocks_of_queue raw).

(** What [unified_write] needs; the last condition is where its loop goes wrong. *)
Record can_write s (d : Z) (buf : list Z) (offset : Z) : Prop := {
  cw_lock : 0 <= volume_lock raw (files s);
  cw_tape : 0 <= tape_readonly raw (files s);
  cw_error : write_error (private s d) = 0;
  cw_offset : 0 <= offset;
  cw_blocks : Z.of_nat (length buf) + 2 * cache_size (sdata s) <= blocks_left s * cache_size (sdata s);
  cw_fine : ForallOrdPairs (fine (sdata s) (offset + Z.of_nat (length buf)) offset) (chunks (private s d))
}.

Definition same_files (fs fs' : S) : Prop :=
  same_answers raw fs fs' /\ forall d x, contents fs' d x = contents fs d x.

Lemma runs_get_dentry_priv s d (Q : unit -> sched S -> Prop) :
  entry_ok s d ->
  (forall s', kept d (files s') (sdata s) (private s d) s' -> same_files (files s) (files s') ->
     blocks_left s' = blocks_left s -> Q tt s') ->
  runs (_unified_get_dentry_priv raw d) s Q.
Proof.
  intros He HQ. apply runs_bind, runs_get_data. pose proof (eo_member _ _ _ _ He) as Hm. pose proof (eo_ext _ _ _ _ He) as Hx.
  pose proof (eo_pool _ _ _ _ He) as Hp. unfold private in *. destruct (iosched_priv (sdata s) !! d) as [p|] eqn:E.
  - apply runs_ret, HQ; [|by split; [apply same_answers_refl|]|done]. by split.
  - destruct (store_get (files s) d) as (fs' & Hget & Hsame). cbn [default from_option] in *.
    unfold runs, bind_op, ask, update_data, on_files. cbn. rewrite Hget. apply HQ; [|done|done]. split; cbn; try done.
    + by rewrite lookup_insert_eq.
    + split; try done. intros d' Hd. cbn. by rewrite lookup_insert_ne.
Qed.

Lemma runs_get_write_error p fs0 u0 d s (Q : Z -> sched S -> Prop) :
  kept d fs0 u0 p s ->
  (forall s', kept d fs0 u0 (set_write_error 0 p) s' -> blocks_left s' = blocks_left s -> Q (write_error p) s') ->
  runs (_unified_get_write_error d) s Q.
Proof.
  intros Hk HQ. apply runs_bind, runs_get_data. rewrite (k_priv _ _ _ _ _ Hk).
  apply runs_bind, (runs_update_priv d fs0 u0 p); [done|by intros []|done|]. intros s' Hk' Hb'. by apply runs_ret, HQ.
Qed.

Lemma runs_ask {A} (g : S -> A) s (Q : A -> sched S -> Prop) : Q (g (files s)) s -> runs (ask g) s Q.
Proof. done. Qed.

Definition first_writer (ret : Z) (buf : list Z) (offset : Z) : writer :=
  {| w_buf := buf; w_offset := offset; w_ret := ret; spare_cache := false; checked_readonly := false;
     prev_req := None; did_merge := false |}.

(** What is wanted, as the loop is told *)
Definition loop_goes_on s d buf offset fs0 p0 :=
  going d fs0 (sdata s) p0 (contents fs0 d) (over offset buf (view s d)) offset (offset + Z.of_nat (length buf))
    (file_size (private s d)) (blocks_of_queue s d).

Lemma start_state s d buf offset fs0 p' s' :
  entry_ok s d -> can_write s d buf offset -> same_files (files s) fs0 -> kept d fs0 (sdata s) p' s' -> counted p' ->
  file_size p' = file_size (private s d) ->
  chunks p' = chunks (private s d) \/ chunks p' = data_chunks (chunks (private s d)) ->
  blocks_left s' + Z.of_nat (length (requests p')) = blocks_of_queue s d -> forall w k,
  buf <> [] -> w_buf w = buf -> w_offset w = offset -> spare_cache w = false -> 0 <= w_ret w ->
  6 * Z.of_nat (length buf) + 3 * Z.of_nat (length (requests (private s d))) + 5 <= Z.of_nat k ->
  loop_goes_on s d buf offset fs0 p' k do_append w s'.
Proof.
  intros He Hw [_ Hsame] Hk Hc Hz Hl Hb w k Hne Hwb Hwo Hws Hwr Hfuel. destruct He as [H1 H2 H3 H4 H5 H6 H7 H8 H9].
  destruct Hw as [_ _ _ Ho Hroom Hf].
  assert (Hsync : synced (contents fs0 d) (chunks (private s d))).
  { intros c Hc' Hip x v Hv. rewrite Hsame. by apply (H6 c Hc' Hip). }
  assert (Hlook : forall x, look (contents fs0 d) (chunks p') x = view s d x).
  { intros x. unfold UnifiedSpec.view. assert (Hx : forall l, look (contents fs0 d) l x = look (contents (files s) d) l x).
    { intros l. induction l as [|c l IH]; cbn; [apply Hsame|by rewrite IH]. }
    destruct Hl as [-> | ->]; [apply Hx|]. rewrite (look_data_chunks _ (cache_size (sdata s)) 0) by done. apply Hx. }
  assert (Hlen : Z.of_nat (length (requests p')) <= Z.of_nat (length (requests (private s d)))).
  { rewrite <- (length_fmap chunk_of (requests p')), <- (length_fmap chunk_of (requests (private s d))).
    destruct Hl as [-> | ->]; [lia|]. pose proof (filter_length_le (fun c => negb (c_ip c)) (chunks (private s d))).
    unfold data_chunks. lia. }
  assert (Hcount : count (chunks p') = Z.of_nat (length (requests p'))) by (unfold count; by rewrite length_fmap).
  exists (chunks p'), (blocks_left s'), (file_size p'). split; [|split].
  - exists p'. split; [|done]. split; try done. rewrite Z.add_comm. lia.
  - split; rewrite ?Hwb, ?Hwo, ?Hws, ?Hz; try lia.
    + intros x. cbn [look]. unfold over. by rewrite Hlook.
    + unfold w_end, w_size. by rewrite Hwb, Hwo.
    + destruct Hl as [-> | ->]; [done|]. intros c Hin. by apply H5, data_chunks_in.
    + destruct Hl as [-> | ->]; [done|]. intros c Hin. by apply Hsync, data_chunks_in.
    + cbn. unfold count in Hcount. lia.
  - apply at_start; rewrite ?Hwb, ?Hwo; [done| | | |].
    + destruct Hl as [-> | ->]; [done|by apply ordered_data_chunks].
    + destruct Hl as [-> | ->]; [done|by apply pairs_data_chunks].
    + unfold room, w_size. rewrite Hwb, Hws. cbn. unfold UnifiedSpec.blocks_of_queue in Hb. nia.
    + unfold steps, w_size. rewrite Hwb, Hcount. lia.
Qed.

Lemma start_ok s d buf offset k :
  entry_ok s d -> can_write s d buf offset -> buf <> [] ->
  6 * Z.of_nat (length buf) + 3 * Z.of_nat (length (requests (private s d))) + 5 <= Z.of_nat k ->
  runs (write_step raw others d write_start (first_writer (volume_lock raw (files s)) buf offset)) s (fun x s' =>
    exists fs0 p0, same_files (files s) fs0 /\ write_error p0 = 0 /\ loop_goes_on s d buf offset fs0 p0 k x.1 x.2 s').
Proof.
  intros He Hw Hne Hfuel. cbn [write_step]. apply runs_bind, runs_get_dentry_priv; [done|]. intros s1 Hk1 Hsame Hb1.
  apply runs_bind, (runs_get_write_error (private s d) (files s1) (sdata s)); [done|]. intros s2 Hk2 Hb2.
  rewrite (cw_error _ _ _ _ Hw). cbn [Z.ltb Z.compare]. cbn [checked_readonly first_writer].
  destruct Hsame as [Hans Hcon] eqn:Es. clear Es.
  assert (Hfs2 : files s2 = files s1) by apply (k_files _ _ _ _ _ Hk2).
  set (ret := tape_readonly raw (files s2)).
  assert (Hret : 0 <= ret) by (unfold ret; rewrite Hfs2, (sa_tape _ _ _ Hans); apply Hw).
  apply runs_bind, runs_ask. fold ret. rewrite (proj2 (Z.ltb_ge ret 0)) by done. cbn [negb andb].
  set (p := set_write_error 0 (private s d)) in *.
  apply runs_bind, (runs_get_priv d (files s1) (sdata s) p); [done|]. do 2 apply runs_bind, runs_ask.
  assert (Hcounted : counted p) by (intros st; pose proof (eo_counted _ _ _ _ He st); by destruct st).
  apply (runs_and_then _ _ _ (fun _ s' => exists p', kept d (files s1) (sdata s) p' s' /\ counted p' /\
    file_size p' = file_size p /\ write_error p' = 0 /\ (chunks p' = chunks p \/ chunks p' = data_chunks (chunks p)) /\
    blocks_left s' + Z.of_nat (length (requests p')) = blocks_left s + Z.of_nat (length (requests p)))).
  - case_match; [|apply runs_ret; exists p; split_and!; try done; [by left|lia]].
    apply (runs_unset_write_ip d (files s1) (sdata s) raw p); [done..|]. intros p' s3 Hk3 Hc3 Hr3 Hz3 He3 Hb3.
    exists p'. split_and!; try done; [right; by rewrite Hr3, chunks_not_ip|lia].
  - intros _ s3 (p' & Hk3 & Hc3 & Hz3 & He3 & Hl3 & Hb3). apply runs_ret. exists (files s1), p'.
    split; [done|]. split; [done|]. by apply start_state.
Qed.

Lemma runs_free_spare (b : bool) p fs0 u0 d s (Q : unit -> sched S -> Prop) :
  kept d fs0 u0 p s -> (forall s', kept d fs0 u0 p s' -> blocks_left s' = blocks_left s + b2z b -> Q tt s') ->
  runs (if b then _unified_cache_free else ret_op tt) s Q.
Proof.
  intros Hk HQ. destruct b; [by apply (runs_free d fs0 u0 p)|]. apply runs_ret, HQ; [done|cbn; lia].
Qed.

Lemma same_files_trans fs fs' fs'' : same_files fs fs' -> same_files fs' fs'' -> same_files fs fs''.
Proof.
  intros [A1 A2] [B1 B2]. split; [by eapply same_answers_trans|]. intros d x. by rewrite B2, A2.
Qed.

Lemma runs_times (b : bool) p fs0 u0 d s (Q : unit -> sched S -> Prop) :
  kept d fs0 u0 p s ->
  (forall s', kept d (files s') u0 p s' -> same_files fs0 (files s') -> blocks_left s' = blocks_left s -> Q tt s') ->
  runs (if b then on_files (set_current_times raw d) else ret_op tt) s Q.
Proof.
  intros Hk HQ. pose proof (k_files _ _ _ _ _ Hk) as Hf. destruct b.
  - destruct (store_times (files s) d) as (fs' & Ht & Hsame). unfold runs, on_files. rewrite Ht. apply HQ; [|by rewrite <- Hf|done].
    by destruct Hk as [H1 H2 H3 H4 H5 H6].
  - apply runs_ret, HQ; [by rewrite Hf|rewrite Hf; by split; [apply same_answers_refl|]|done].
Qed.

Lemma look_same (f g : Z -> option Z) l x : (forall y, g y = f y) -> look g l x = look f l x.
Proof. intros H. induction l as [|c l IH]; cbn; [apply H|by rewrite IH]. Qed.

(** The end of a call *)
Lemma entry_kept d fs0 u0 p s f :
  kept d fs0 u0 p s -> counted p -> (forall x, contents (files s) d x = f x) -> ordered (cache_size u0) 0 (chunks p) ->
  upto (file_size p) (chunks p) -> synced f (chunks p) -> 0 < cache_size u0 ->
  blocks_left s + Z.of_nat (length (requests p)) < 2 ^ 32 ->
  private s d = p /\ entry_ok s d /\ (forall x, view s d x = look f (chunks p) x).
Proof.
  intros [H1 H2 H3 H4 H5 H6] Hc Hf Hord Hup Hsync Hcs Hb. assert (E : private s d = p) by (unfold UnifiedSpec.private; by rewrite H2).
  split; [done|]. split.
  - split; unfold UnifiedSpec.blocks_of_queue; rewrite ?E, ?(fr_size _ _ _ H6); try done.
    intros c Hin Hip x v Hv. rewrite Hf. by apply (Hsync c Hin Hip).
  - intros x. unfold UnifiedSpec.view. rewrite E. by apply look_same.
Qed.

(** C11: a write that succeeds returns the length of the buffer, changes the contents of the
    file at its offset and nowhere else, makes the file as large as it has to be, keeps the
    order of the queue, loses no cache block, and touches no other file; [fuel] steps are enough. *)
Theorem unified_write_spec fuel d buf offset isupdatetime s :
  entry_ok s d -> can_write s d buf offset -> buf <> [] ->
  6 * Z.of_nat (length buf) + 3 * Z.of_nat (length (requests (private s d))) + 6 <= Z.of_nat fuel ->
  exists s', unified_write raw others fuel d buf offset isupdatetime s = Some (Z.of_nat (length buf), s') /\
    (forall x, view s' d x = over offset buf (view s d) x) /\
    file_size (private s' d) = Z.max (file_size (private s d)) (offset + Z.of_nat (length buf)) /\
    entry_ok s' d /\ write_error (private s' d) = 0 /\ blocks_of_queue s' d = blocks_of_queue s d /\
    frame d (sdata s) (sdata s') /\ same_files (files s) (files s').
Proof.
  intros He Hw Hne Hfuel. cut (runs (unified_write raw others fuel d buf offset isupdatetime) s (fun x s' =>
    x = Z.of_nat (length buf) /\ (forall x, view s' d x = over offset buf (view s d) x) /\
    file_size (private s' d) = Z.max (file_size (private s d)) (offset + Z.of_nat (length buf)) /\
    entry_ok s' d /\ write_error (private s' d) = 0 /\ blocks_of_queue s' d = blocks_of_queue s d /\
    frame d (sdata s) (sdata s') /\ same_files (files s) (files s'))).
  { intros H. apply runs_some in H as (x & s' & H & -> & H'). by exists s'. }
  unfold unified_write. destruct buf as [|b0 buf0] eqn:Ebuf; [done|]. rewrite <- Ebuf in *. clear Hne.
  assert (Hne : buf <> []) by (by rewrite Ebuf).
  apply runs_bind, runs_ask. rewrite (proj2 (Z.ltb_ge _ 0)) by apply Hw. fold (first_writer (volume_lock raw (files s)) buf offset).
  destruct fuel as [|k]; [lia|].
  apply (runs_and_then _ _ _ (fun x s' => exists fs0 p0, same_files (files s) fs0 /\ write_error p0 = 0 /\ x.1 = out /\
    finished d fs0 (sdata s) p0 (contents fs0 d) (over offset buf (view s d)) offset (offset + Z.of_nat (length buf))
      (file_size (private s d)) (blocks_of_queue s d) x.2 s')).
  { cbn [write_loop]. eapply runs_and_then; [apply (start_ok s d buf offset k); [done..|lia]|].
    intros [at_ w] s1 (fs0 & p0 & Hsame & Herr & Hgo). eapply runs_mono.
    - eapply (loop_ok raw others d fs0 (sdata s) p0); [apply (eo_cs _ _ _ _ He)|apply (cw_offset _ _ _ _ Hw)|apply (eo_blocks _ _ _ _ He)|exact Hgo].
    - intros [at' w'] s' [Hout Hfin]. by exists fs0, p0. }
  intros [at_ w] s1 (fs0 & p0 & [Hans Hcon] & Herr & Hout & (l & n & size & (p' & Hg & Hl & Hz) & Hc & Hb & Hord)). cbn in Hout. subst at_.
  cbn [fst snd] in Hc, Hb. pose proof Hg as [Hk Hcounted Hrest Hbl Hbound]. pose proof (cm_ret _ _ _ _ _ _ _ _ _ _ Hc) as Hret.
  apply runs_bind, runs_ask. apply runs_bind, (runs_times _ p' fs0 (sdata s)); [done|]. intros s2 Hk2 Hsame2 Hb2.
  apply runs_bind, (runs_free_spare _ p' (files s2) (sdata s) d); [done|]. intros s3 Hk3 Hb3.
  apply runs_ret. rewrite (proj2 (Z.ltb_ge _ 0)) by done. destruct Hc as [C1 C2 C3 C4 C5 C6 C7 C8 _].
  assert (Hf3 : files s3 = files s2) by apply (k_files _ _ _ _ _ Hk3).
  assert (Hblocks : blocks_left s3 + Z.of_nat (length (requests p')) = blocks_of_queue s d).
  { rewrite <- Hl, length_fmap in C8. lia. }
  destruct (entry_kept d (files s2) (sdata s) p' s3 (contents fs0 d)) as (Hp & Hok & Hview); try done.
  { intros x. rewrite Hf3. apply Hsame2. }
  { by rewrite Hl. } { by rewrite Hl, Hz. } { by rewrite Hl. } { apply He. } { rewrite Hblocks. apply He. }
  rewrite Hp. split_and!; [by rewrite Ebuf| | |done|by destruct Hrest as (_ & -> & _)| |apply Hk3|].
  - intros x. rewrite Hview, Hl, <- C1, Hb. cbn [look]. by rewrite value_out by (unfold c_end, c_len; cbn; lia).
  - unfold w_end, w_size in C3. rewrite Hb in C3. cbn in C3. rewrite Hz. assert (0 < Z.of_nat (length buf)) by (rewrite Ebuf; cbn; lia). lia.
  - unfold UnifiedSpec.blocks_of_queue at 1. by rewrite Hp.
  - rewrite Hf3. by eapply same_files_trans.
Qed.
End writing.

(** ** Reading *)

Section reading.
Context {S : Type} (raw : raw_ops S) (contents : S -> Z -> Z -> option Z) {laws : FileStore raw contents}.
Implicit Types (s : sched S) (p : dentry_priv) (l : list chunk).

Abbreviation private := (private raw).
Abbreviation entry_ok := (entry_ok raw contents).
Abbreviation view := (view raw contents).

(** The files are as before, whatever has become of the volume. *)
Definition same_contents (fs fs' : S) : Prop :=
  same_directory raw fs fs' /\ forall d x, contents fs' d x = contents fs d x.

Lemma same_contents_refl fs : same_contents fs fs.
Proof. split; [apply same_directory_refl|done]. Qed.

Lemma same_contents_trans fs fs' fs'' : same_contents fs fs' -> same_contents fs' fs'' -> same_contents fs fs''.
Proof.
  intros [A1 A2] [B1 B2]. split; [by eapply same_directory_trans|]. intros d x. by rewrite B2, A2.
Qed.

(** A read from the tape of something in [a, b) has failed with [e], and left [fs']. *)
Definition read_failed (d a b e : Z) (fs fs' : S) : Prop :=
  e < 0 /\ exists fs1 off count bytes, same_contents fs fs1 /\ a <= off /\ off + count <= b
  /\ fsraw_read raw d off count fs1 = Some ((e, bytes), fs').

(** The end of the file, its requests included *)
Definition file_end s (d : Z) : Z := foldr (fun c m => Z.max (c_end c) m) (d_size raw (files s) d) (chunks (private s d)).

(** The pieces show the bytes [v] from [a] up to [b], where [f] is what the tape gives. *)
Fixpoint shows (f v : Z -> option Z) (a : Z) (ps : list piece) (b : Z) : Prop :=
  match ps with
  | [] => a = b
  | Cached bytes :: ps =>
      (forall i, (i < length bytes)%nat -> bytes !! i = v (a + Z.of_nat i)) /\ shows f v (a + Z.of_nat (length bytes)) ps b
  | FromTape off n :: ps => off = a /\ 0 < n /\ (forall x, a <= x < a + n -> v x = f x) /\ shows f v (a + n) ps b
  end.

Lemma shows_ext f v v' a ps b : (forall x, a <= x -> v' x = v x) -> shows f v a ps b -> shows f v' a ps b.
Proof.
  revert a. induction ps as [|[bytes|off n] ps IH]; intros a Hv; cbn; [done| |].
  - intros [H1 H2]. split; [intros i Hi; rewrite Hv by lia; by apply H1|]. apply IH; [|done]. intros x Hx. apply Hv. lia.
  - intros (H1 & H2 & H3 & H4). split_and!; [done|done|intros x Hx; rewrite Hv by lia; by apply H3|].
    apply IH; [|done]. intros x Hx. apply Hv. lia.
Qed.

Lemma shows_app f v a ps b ps' c : shows f v a ps b -> shows f v b ps' c -> shows f v a (ps ++ ps') c.
Proof.
  revert a. induction ps as [|[bytes|off n] ps IH]; intros a; cbn; [by intros -> | |].
  - intros [H1 H2] H. split; [done|by apply IH].
  - intros (H1 & H2 & H3 & H4) H. split_and!; [done|done|done|by apply IH].
Qed.

Lemma scan_requests_spec cs f (l : list write_request) lo off size ps off' rest :
  ordered cs lo (chunk_of <$> l) -> 0 < size -> scan_requests l off size = (ps, (off', rest)) ->
  0 <= rest <= size /\ off' = off + (size - rest) /\ shows f (look f (chunk_of <$> l)) off ps off' /\
  (0 < rest -> upto off' (chunk_of <$> l)) /\ (off' = off \/ exists c, c ∈ chunk_of <$> l /\ off' <= c_end c).
Proof.
  revert lo off size ps off' rest. induction l as [|r l IH]; intros lo off size ps off' rest Hord Hsize; cbn [scan_requests].
  { intros [= <- <- <-]. cbn. split_and!; try lia. intros _. apply upto_nil. }
  set (c := chunk_of r) in *. rewrite fmap_cons in *. fold c in Hord |- *. destruct Hord as (Hlo & Hlen & Hord).
  assert (Ho : req_offset r = c_off c) by done. assert (He : req_end r = c_end c) by done. rewrite Ho, He. clear Ho He.
  set (gap := if off <? c_off c then Z.min (c_off c - off) size else 0).
  set (tape := if off <? c_off c then [FromTape off gap] else []).
  assert (Hgap : 0 <= gap <= size /\ (off < c_off c -> 0 < gap /\ off + gap <= c_off c) /\ (gap < size -> c_off c <= off + gap)).
  { unfold gap. destruct (Z.ltb_spec off (c_off c)); lia. }
  assert (Htape : shows f (look f (c :: (chunk_of <$> l))) off tape (off + gap)).
  { unfold tape, gap in *. destruct (Z.ltb_spec off (c_off c)); cbn [shows]; [|lia]. split_and!; [done|lia| |done].
    intros x Hx. apply (look_before f cs (c_off c)); [|lia]. cbn. split_and!; [lia|lia|lia|done]. }
  assert (Hbehind : forall x, c_end c <= x -> look f (c :: (chunk_of <$> l)) x = look f (chunk_of <$> l) x).
  { intros x Hx. cbn. by rewrite value_out by lia. }
  destruct (Z.eqb_spec (size - gap) 0) as [H0|H0].
  { intros [= <- <- <-]. split_and!; try lia; [exact Htape|]. destruct (Z.ltb_spec off (c_off c)); [right|left; unfold gap in *; lia].
    exists c. split; [by left|]. unfold c_end. lia. }
  destruct (Z.ltb_spec (off + gap) (c_end c)) as [Hin|Hout].
  - set (n := Z.min (c_end c - (off + gap)) (size - gap)).
    set (bytes := take (Z.to_nat n) (drop (Z.to_nat (off + gap - c_off c)) (write_cache r))).
    assert (Hn : 0 < n /\ n <= size - gap /\ off + gap + n <= c_end c) by (unfold n; lia).
    assert (Hbl : Z.of_nat (length bytes) = n).
    { unfold bytes. rewrite length_take, length_drop. change (length (write_cache r)) with (length (c_bytes c)).
      unfold c_end, c_len in *. lia. }
    assert (Hcached : shows f (look f (c :: (chunk_of <$> l))) (off + gap) [Cached bytes] (off + gap + n)).
    { cbn. split; [|lia]. intros i Hi. unfold value. rewrite Zle_imp_le_bool by lia. unfold bytes.
      rewrite lookup_take_lt by lia. rewrite lookup_drop. change (write_cache r) with (c_bytes c).
      replace (Z.to_nat (off + gap + Z.of_nat i - c_off c)) with (Z.to_nat (off + gap - c_off c) + i)%nat by lia.
      destruct (lookup_lt_is_Some_2 (c_bytes c) (Z.to_nat (off + gap - c_off c) + i)) as [v ->]; [|done].
      unfold c_end, c_len in *. lia. }
    destruct (Z.eqb_spec (size - gap - n) 0) as [H1|H1].
    + intros [= <- <- <-]. split_and!; try lia.
      * by eapply shows_app.
      * right. exists c. split; [by left|lia].
    + destruct (scan_requests l (off + gap + n) (size - gap - n)) as [pieces [o' r']] eqn:E. intros [= <- <- <-].
      destruct (IH (c_end c) (off + gap + n) (size - gap - n) pieces o' r' Hord ltac:(lia) E) as (A1 & A2 & A3 & A4 & A5). split_and!; try lia.
      * eapply shows_app; [exact Htape|]. change (Cached bytes :: pieces) with ([Cached bytes] ++ pieces).
        eapply shows_app; [exact Hcached|]. eapply shows_ext; [|exact A3]. intros x Hx. apply Hbehind. unfold n in *. lia.
      * intros Hr. apply upto_cons. split; [unfold n in *; lia|by apply A4].
      * right. destruct A5 as [A5|(c' & Hc' & Hce)]; [exists c; split; [by left|lia]|exists c'; split; [by right|lia]].
  - destruct (scan_requests l (off + gap) (size - gap)) as [pieces [o' r']] eqn:E. intros [= <- <- <-].
    destruct (IH (c_end c) (off + gap) (size - gap) pieces o' r' Hord ltac:(lia) E) as (A1 & A2 & A3 & A4 & A5). split_and!; try lia.
    + eapply shows_app; [exact Htape|]. eapply shows_ext; [|exact A3]. intros x Hx. apply Hbehind. lia.
    + intros Hr. apply upto_cons. split; [lia|by apply A4].
    + destruct A5 as [A5|(c' & Hc' & Hce)]; [|right; exists c'; split; [by right|lia]].
      destruct (Z.ltb_spec off (c_off c)); [right; exists c; split; [by left|unfold c_end in *; lia]|left; unfold gap in *; lia].
Qed.

(** The bytes [got] are those of [v] from [a] on, with zeros in the holes. *)
Definition bytes_from (v : Z -> option Z) (a : Z) (got : list Z) : Prop :=
  forall i, (i < length got)%nat -> got !! i = Some (default 0 (v (a + Z.of_nat i))).

Lemma bytes_from_nil v a : bytes_from v a [].
Proof. intros i Hi. cbn in Hi. lia. Qed.

Lemma bytes_from_app v a b got got' :
  bytes_from v a got -> b = a + Z.of_nat (length got) -> bytes_from v b got' -> bytes_from v a (got ++ got').
Proof.
  intros H1 -> H2 i Hi. rewrite length_app in Hi. destruct (decide (i < length got)%nat).
  - rewrite lookup_app_l by done. by apply H1.
  - rewrite lookup_app_r by lia. rewrite H2 by lia.
    by replace (a + Z.of_nat (length got) + Z.of_nat (i - length got)) with (a + Z.of_nat i) by lia.
Qed.

Lemma bytes_from_zeros v a n : (forall x, a <= x < a + Z.of_nat n -> v x = None) -> bytes_from v a (replicate n 0).
Proof.
  intros H i Hi. rewrite length_replicate in Hi. rewrite lookup_replicate_2 by lia. by rewrite H by lia.
Qed.

(** A read from the tape: it fails, or gives [count] bytes, or stops at the end of the file. *)
Lemma runs_store_read d off count s (Q : Z * list Z -> sched S -> Prop) :
  0 <= off -> 0 < count ->
  (forall n bytes s', sdata s' = sdata s -> same_contents (files s) (files s') ->
     (n < 0 /\ fsraw_read raw d off count (files s) = Some ((n, bytes), files s') \/
      (n = Z.min count (Z.max 0 (d_size raw (files s) d - off)) /\
        length (take (Z.to_nat n) bytes) = Z.to_nat n /\ bytes_from (contents (files s) d) off (take (Z.to_nat n) bytes))) ->
     Q (n, bytes) s') ->
  runs (on_files (fsraw_read raw d off count)) s Q.
Proof.
  intros Hoff Hcount HQ. destruct (store_read (files s) d off count Hoff Hcount) as (n & bytes & fs' & Hr & Hans & Hcon & H).
  unfold runs, on_files. rewrite Hr. apply HQ; [done|done|]. destruct H as [H|[Hn H]]; [by left|right]. split; [done|].
  assert (Hl : (Z.to_nat n <= length bytes)%nat).
  { destruct (Z.to_nat n) as [|m] eqn:E; [lia|]. specialize (H m ltac:(lia)). apply lookup_lt_Some in H. lia. }
  assert (Hlen : length (take (Z.to_nat n) bytes) = Z.to_nat n) by (rewrite length_take; lia).
  split; [done|]. intros i Hi. rewrite Hlen in Hi. rewrite lookup_take_lt by done. by apply H.
Qed.

Lemma beyond_size s d x : d_size raw (files s) d <= x -> contents (files s) d x = None.
Proof.
  intros Hx. destruct (contents (files s) d x) eqn:E; [|done]. pose proof (store_size (files s) d x ltac:(by rewrite E)). lia.
Qed.

Lemma shows_le f v a ps b : shows f v a ps b -> a <= b.
Proof.
  revert a. induction ps as [|[bytes|off n] ps IH]; intros a; cbn; [lia| |].
  - intros [_ H]. specialize (IH _ H). lia.
  - intros (_ & Hn & _ & H). specialize (IH _ H). lia.
Qed.

Lemma read_failed_later d a a' b b' e fs fs1 fs' :
  same_contents fs fs1 -> a <= a' -> b' <= b -> read_failed d a' b' e fs1 fs' -> read_failed d a b e fs fs'.
Proof.
  intros Hs Ha Hb (He & fs2 & off & count & bytes & Hs2 & Hoff & Hcount & Hr). split; [done|].
  exists fs2, off, count, bytes. split_and!; [by eapply same_contents_trans|lia|lia|done].
Qed.

Lemma runs_fill_pieces d v ps : forall past a b s (Q : Z + list Z -> sched S -> Prop),
  0 <= a -> shows (contents (files s) d) v a ps b -> (past = true -> d_size raw (files s) d <= a) ->
  (forall r s', sdata s' = sdata s -> same_contents (files s) (files s') ->
     match r with inl e => read_failed d a b e (files s) (files s') | inr got => b = a + Z.of_nat (length got) /\ bytes_from v a got end -> Q r s') ->
  runs (fill_pieces raw d past ps) s Q.
Proof.
  induction ps as [|[bytes|off n] ps IH]; intros past a b s Q Ha; cbn [fill_pieces shows].
  - intros -> _ HQ. apply runs_ret, HQ; [done|apply same_contents_refl|]. split; [cbn; lia|apply bytes_from_nil].
  - intros [Hb Hs] Hpast HQ. apply runs_bind, (IH past (a + Z.of_nat (length bytes)) b); [lia|done|intros Hp; specialize (Hpast Hp); lia|].
    intros r s' Hd Hf Hr. apply runs_ret. destruct r as [e|got]; apply HQ; try done.
    { eapply read_failed_later; [apply same_contents_refl| | |exact Hr]; lia. }
    destruct Hr as [-> Hr].
    split; [rewrite length_app; lia|]. eapply bytes_from_app; [|done|exact Hr].
    intros i Hi. pose proof (lookup_lt_is_Some_2 _ _ Hi) as [x Hx]. rewrite Hx. by rewrite <- Hb, Hx by done.
  - intros (-> & Hn & Hv & Hs) Hpast HQ.
    apply (runs_and_then _ _ _ (fun x s' => sdata s' = sdata s /\ same_contents (files s) (files s') /\
      (x.1 < 0 /\ read_failed d a b x.1 (files s) (files s') \/ (0 <= x.1 <= n /\ length (take (Z.to_nat x.1) x.2) = Z.to_nat x.1 /\
         bytes_from (contents (files s) d) a (take (Z.to_nat x.1) x.2) /\ (x.1 < n -> d_size raw (files s) d <= a + x.1))))).
    { destruct past.
      - apply runs_ret. split; [done|]. split; [apply same_contents_refl|]. right. specialize (Hpast eq_refl). cbn.
        rewrite take_nil. split_and!; [lia|lia|done|apply bytes_from_nil|lia].
      - apply runs_store_read; [done|done|]. intros k bytes s' Hd Hf [[H H']|(-> & Hl & Hb)]; (split; [done|]; split; [done|]); [left|right].
        { split; [done|]. split; [done|]. pose proof (shows_le _ _ _ _ _ Hs).
          exists (files s), a, n, bytes. split_and!; [apply same_contents_refl|lia|lia|done]. }
        cbn [fst snd]. split_and!; try done; lia. }
    intros [k bytes] s1 (Hd1 & Hf1 & Hk). cbn [fst snd] in Hk. destruct (Z.ltb_spec k 0) as [Hneg|Hpos].
    { apply runs_ret, HQ; [done..|]. destruct Hk as [[_ Hk]|[Hk _]]; [done|lia]. }
    destruct Hk as [[Hk _]|(Hk & Hl & Hb & Heof)]; [lia|]. pose proof Hf1 as [Hans1 Hcon1].
    apply runs_bind, (IH (past || (k <? n)) (a + n) b); [lia| | |].
    + revert Hs. clear -Hcon1. generalize (a + n). induction ps as [|[bytes|off m] ps IHp]; intros c; cbn [shows]; [done| |].
      * intros [H1 H2]. split; [done|by apply IHp].
      * intros (H1 & H2 & H3 & H4). split_and!; [done|done|intros x Hx; rewrite Hcon1; by apply H3|by apply IHp].
    + intros Hp. rewrite (sd_size _ _ _ Hans1). apply orb_true_iff in Hp as [Hp|Hp%Z.ltb_lt]; [specialize (Hpast Hp); lia|].
      specialize (Heof Hp). lia.
    + intros r s2 Hd2 Hf2 Hr. apply runs_ret. apply HQ; [congruence|by eapply same_contents_trans|]. destruct r as [e|got].
      { eapply read_failed_later; [exact Hf1| | |exact Hr]; lia. }
      destruct Hr as [-> Hr]. rewrite !length_app, Hl, length_replicate. split; [lia|].
      eapply bytes_from_app with (b := a + k); [| |eapply bytes_from_app; [|reflexivity|]].
      * intros i Hi. rewrite Hl in Hi. rewrite Hb by lia. do 2 f_equal. symmetry. apply Hv. lia.
      * rewrite Hl. lia.
      * apply bytes_from_zeros. intros x Hx. rewrite Hv by lia. apply beyond_size. specialize (Heof ltac:(lia)). lia.
      * rewrite length_replicate. replace (a + k + Z.of_nat (Z.to_nat (n - k))) with (a + n) by lia. done.
Qed.

Lemma file_end_size (n : Z) l : n <= foldr (fun c m => Z.max (c_end c) m) n l.
Proof. induction l as [|c l IH]; cbn; lia. Qed.

Lemma file_end_chunk (n : Z) l c : c ∈ l -> c_end c <= foldr (fun c m => Z.max (c_end c) m) n l.
Proof. induction l as [|c' l IH]; [by intros ?%elem_of_nil|]. intros [->|Hc]%elem_of_cons; cbn; [lia|]. specialize (IH Hc). lia. Qed.

Lemma file_end_upto (n : Z) l o : upto o l -> foldr (fun c m => Z.max (c_end c) m) n l <= Z.max n o.
Proof. induction l as [|c l IH]; cbn; [lia|]. intros [Hc Hl]%upto_cons. specialize (IH Hl). lia. Qed.

Lemma file_end_past (n : Z) l o : upto o l -> Z.max 0 (foldr (fun c m => Z.max (c_end c) m) n l - o) = Z.max 0 (n - o).
Proof. intros H. pose proof (file_end_upto n l o H). pose proof (file_end_size n l). lia. Qed.

(** C13: a read gives the contents of the file with its queued requests, with zeros where
    nothing has been written, up to the end of the file.  It fails only when a read from the
    tape of a part of what was asked for does, and then with the result of that read.  The
    queues, sizes and contents of all files are as before. *)
Theorem unified_read_spec d size offset s :
  entry_ok s d -> 0 <= volume_lock raw (files s) -> 0 <= offset -> 0 <= size ->
  exists n bytes s', unified_read raw d size offset s = Some ((n, bytes), s') /\
    sdata s' = sdata s /\ same_contents (files s) (files s') /\
    (read_failed d offset (offset + size) n (files s) (files s') \/
     (n = Z.min size (Z.max 0 (file_end s d - offset)) /\
       length (take (Z.to_nat n) bytes) = Z.to_nat n /\ bytes_from (view s d) offset (take (Z.to_nat n) bytes))).
Proof.
  intros He Hlock Hoff Hsize. cut (runs (unified_read raw d size offset) s (fun x s' =>
    sdata s' = sdata s /\ same_contents (files s) (files s') /\
    (read_failed d offset (offset + size) x.1 (files s) (files s') \/ (x.1 = Z.min size (Z.max 0 (file_end s d - offset)) /\
       length (take (Z.to_nat x.1) x.2) = Z.to_nat x.1 /\ bytes_from (view s d) offset (take (Z.to_nat x.1) x.2))))).
  { intros H. apply runs_some in H as ([n bytes] & s' & H & H'). by exists n, bytes, s'. }
  unfold unified_read. destruct (Z.eqb_spec size 0) as [->|Hne].
  { apply runs_ret. split; [done|]. split; [apply same_contents_refl|]. right. cbn [fst snd]. rewrite take_nil.
    split_and!; [lia|done|apply bytes_from_nil]. }
  apply runs_bind, runs_ask. rewrite (proj2 (Z.ltb_ge _ 0)) by done. apply runs_bind, runs_get_data.
  assert (Hplain : requests (private s d) = [] -> runs (on_files (fsraw_read raw d offset size)) s (fun x s' =>
    sdata s' = sdata s /\ same_contents (files s) (files s') /\
    (read_failed d offset (offset + size) x.1 (files s) (files s') \/ (x.1 = Z.min size (Z.max 0 (file_end s d - offset)) /\
       length (take (Z.to_nat x.1) x.2) = Z.to_nat x.1 /\ bytes_from (view s d) offset (take (Z.to_nat x.1) x.2))))).
  { intros Hreq. unfold file_end, view, UnifiedSpec.view. rewrite Hreq. cbn. apply runs_store_read; [done|lia|].
    intros n bytes s' Hd Hf [[Hn Hrd]|H]; (split; [done|]; split; [done|]); [left|by right].
    split; [done|]. exists (files s), offset, size, bytes. split_and!; [apply same_contents_refl|lia|lia|done]. }
  destruct (iosched_priv (sdata s) !! d) as [p|] eqn:E; cycle 1.
  { apply Hplain. unfold private, UnifiedSpec.private. by rewrite E. }
  assert (Hp : private s d = p) by (unfold private, UnifiedSpec.private; by rewrite E).
  case_bool_decide as Hreq; [apply Hplain; by rewrite Hp|].
  destruct (scan_requests (requests p) offset size) as [ps [off' rest]] eqn:Escan.
  pose proof (eo_order _ _ _ _ He) as Hord. rewrite Hp in Hord.
  destruct (scan_requests_spec (cache_size (sdata s)) (contents (files s) d) (requests p) 0 offset size ps off' rest Hord ltac:(lia) Escan)
    as (Hrest & Hoff' & Hshow & Hup & Hend).
  assert (Hview : view s d = look (contents (files s) d) (chunks p)) by (unfold view, UnifiedSpec.view; by rewrite Hp).
  assert (Hfe : file_end s d = foldr (fun c m => Z.max (c_end c) m) (d_size raw (files s) d) (chunks p)) by (unfold file_end; by rewrite Hp).
  assert (Hfar : off' = offset \/ off' <= file_end s d).
  { destruct Hend as [Hend|(c & Hc & Hce)]; [by left|right]. pose proof (file_end_chunk (d_size raw (files s) d) (chunks p) c Hc). lia. }
  apply runs_bind, (runs_fill_pieces d (view s d) ps false offset off'); [done|by rewrite Hview|done|].
  intros r s1 Hd1 Hf1 Hr. destruct r as [e|got].
  { apply runs_ret. split; [done|]. split; [done|]. left.
    eapply read_failed_later; [apply same_contents_refl| | |exact Hr]; lia. }
  destruct Hr as [Hr1 Hr2]. assert (Hlen : Z.of_nat (length got) = size - rest) by lia.
  destruct (Z.eqb_spec rest 0) as [H0|H0].
  - apply runs_ret. split; [done|]. split; [done|]. right. cbn [fst snd]. rewrite take_ge by lia. split_and!; [lia|lia|done].
  - specialize (Hup ltac:(lia)). destruct Hf1 as [Hans1 Hcon1] eqn:Ef. clear Ef.
    apply runs_bind, runs_store_read; [lia|lia|]. intros n bytes s2 Hd2 Hf2 Hn. cbn iota beta. destruct (Z.ltb_spec n 0).
    { apply runs_ret. split; [congruence|]. split; [by eapply same_contents_trans|]. left. cbn [fst].
      destruct Hn as [[_ Hrd]|[Hn _]]; [|lia]. split; [done|]. exists (files s1), off', rest, bytes.
      split_and!; [by split|lia|lia|done]. }
    destruct Hn as [[Hn _]|(Hn & Hl & Hb)]; [lia|]. rewrite (sd_size _ _ _ Hans1) in Hn.
    apply runs_ret. split; [congruence|]. split; [by eapply same_contents_trans|]. right. cbn [fst snd].
    pose proof (file_end_past (d_size raw (files s) d) (chunks p) off' Hup) as Hpast. rewrite <- Hfe in Hpast.
    rewrite take_app_ge by lia.
    assert (Htake : length (take (Z.to_nat (size - rest + n) - length got) (take (Z.to_nat n) bytes)) = Z.to_nat n) by (rewrite length_take; lia).
    split_and!; [lia|rewrite length_app, Htake; lia|]. apply (bytes_from_app _ _ off'); [done|lia|].
    rewrite take_ge by lia. intros i Hi. rewrite Hb by done. rewrite Hcon1, Hview.
    pose proof (look_behind (contents (files s) d) off' (chunks p) [] (off' + Z.of_nat i) Hup ltac:(lia)) as Hlook.
    rewrite app_nil_r in Hlook. cbn [look] in Hlook. by rewrite Hlook.
Qed.
End reading.

(** ** Flushing

    A flush writes the queued requests to the data partition.  Afterwards the file on the
    tape has the contents it had with its queue, or the flush reports the error. *)

Section flush.
Context {S : Type} (raw : raw_ops S) (contents : S -> Z -> Z -> option Z) {laws : FileStore raw contents}.
Context (d : Z) (u0 : unified_data) (p0 : dentry_priv) (blocks : Z).
Hypothesis (blocks_bound : blocks < 2 ^ 32) (error_0 : write_error p0 = 0).
Implicit Types (s : sched S) (p : dentry_priv) (l pre post : list chunk).

Abbreviation cs := (cache_size u0).

(** Requests for the data partition are in no queue any more. *)
Definition ip_only (st : request_state) : bool := bool_decide (st = REQUEST_IP).

Definition flushing l n size s : Prop := now d (files s) u0 p0 ip_only l n size s.
Abbreviation good s := (good d (files s) u0 p0 ip_only).

(** *** Steps *)

Lemma kept_files (fs fs' : S) p s :
  kept d fs u0 p s -> kept d fs' u0 p {| files := fs'; sdata := sdata s |}.
Proof. by intros [H1 H2 H3 H4 H5 H6]. Qed.

Lemma flushing_files (fs' : S) l n size s :
  flushing l n size s -> flushing l n size {| files := fs'; sdata := sdata s |}.
Proof.
  intros (p & [H1 H2 H3 H4 H5] & Hl & Hz). exists p. split; [|done]. split; try done. by eapply kept_files.
Qed.

(** The files stay as they are while only the queue changes. *)
Lemma flushing_now (fs : S) l n size s : now d fs u0 p0 ip_only l n size s -> flushing l n size s /\ files s = fs.
Proof.
  intros (p & Hg & Hl & Hz). pose proof (k_files _ _ _ _ _ (g_kept _ _ _ _ _ _ _ _ Hg)) as Hf.
  split; [|done]. exists p. by rewrite Hf.
Qed.

(** A request that is in no queue leaves the list. *)
Lemma runs_remove l n size s i c (Q : unit -> sched S -> Prop) :
  flushing l n size s -> l !! i = Some c -> c_ip c = false ->
  (forall s', flushing (delete i l) n size s' -> files s' = files s -> Q tt s') -> runs (remove_request d i) s Q.
Proof.
  intros (p & Hg & Hl & Hz) Hc Hip HQ. destruct (lookup_request p l i c Hl Hc) as (r & Hr & Hrc).
  destruct Hg as [H1 H2 H3 H4 H5]. apply (runs_update_priv d (files s) u0 p); [done|by intros []|done|]. intros s' Hk Hb.
  pose proof (k_files _ _ _ _ _ Hk) as Hf. apply HQ; [|done]. exists (set_requests (delete i (requests p)) p). rewrite Hf.
  split; [|split; [cbn; by rewrite list_fmap_delete, Hl|done]]. split; [done| |done|congruence|cbn; rewrite length_delete by done; lia].
  intros st. rewrite in_queue_requests, H2. cbn. rewrite (count_delete st _ _ _ Hr). destruct (ip_only st) eqn:E; [|done].
  apply bool_decide_eq_true in E as ->. rewrite decide_False; [lia|]. intros E. rewrite <- Hrc in Hip. apply bool_decide_eq_false in Hip. done.
Qed.

(** A request that has been written stays for the index partition. *)
Definition as_ip (c : chunk) : chunk := {| c_off := c_off c; c_bytes := c_bytes c; c_ip := true |}.

Lemma runs_as_ip l n size s i c (Q : unit -> sched S -> Prop) :
  flushing l n size s -> l !! i = Some c -> c_ip c = false ->
  (forall s', flushing (<[i := as_ip c]> l) n size s' -> files s' = files s -> Q tt s') ->
  runs (update_request_at d i (set_req_state REQUEST_IP) ;;; _unified_update_queue_membership true false REQUEST_IP d) s Q.
Proof.
  intros (p & Hg & Hl & Hz) Hc Hip HQ. pose proof (good_blocks _ _ _ _ _ _ _ _ Hg) as Hn.
  destruct (lookup_request p l i c Hl Hc) as (r & Hr & Hrc). destruct Hg as [H1 H2 H3 H4 H5].
  assert (Hst : req_state r <> REQUEST_IP) by (rewrite <- Hrc in Hip; by apply bool_decide_eq_false in Hip).
  set (l' := alter (set_req_state REQUEST_IP) i (requests p)).
  pose proof (count_alter REQUEST_IP _ _ _ (set_req_state REQUEST_IP) Hr) as Hcnt. fold l' in Hcnt.
  rewrite decide_False, decide_True in Hcnt by done. pose proof (count_range REQUEST_IP l') as Hr1.
  assert (Hlen : length l' = length (requests p)) by apply length_alter. pose proof (count_range REQUEST_IP (requests p)) as Hr2.
  assert (Hq : in_ip_queue p = count_state REQUEST_IP (requests p)) by apply (H2 REQUEST_IP).
  apply runs_bind, (runs_update_priv d (files s) u0 p); [done|by intros []|done|]. intros s1 Hk1 Hb1. fold l' in Hk1.
  apply (runs_join d (files s) u0 REQUEST_IP (set_requests l' p)); [done|cbn; lia|]. intros s2 Hk2 Hb2.
  pose proof (k_files _ _ _ _ _ Hk2) as Hf. apply HQ; [|done]. eexists. rewrite Hf. split; [split; [exact Hk2| |done|congruence|cbn; lia]|].
  - intros st. rewrite in_queue_set. cbn [requests set_requests set_in_queue]. change (requests (set_in_queues _ _ _ _)) with l'.
    case_decide; [subst st; change (in_ip_queue p + 1 = count_state REQUEST_IP l'); lia|].
    rewrite in_queue_requests, H2. by destruct st.
  - split; [|done]. change (chunk_of <$> l' = <[i := as_ip c]> l). unfold l'. rewrite <- Hl.
    apply (chunks_alter _ _ _ _ _ Hr). rewrite <- Hrc. done.
Qed.

(** *** The loop *)

(** [done] requests have been written; [f'] are the bytes on the tape now. *)
Record progress (wanted : Z -> option Z) pre post (n size : Z) s : Prop := {
  pr_order : ordered cs 0 (pre ++ post);
  pr_written : forall c, c ∈ pre -> c_ip c = true;
  pr_synced : synced (contents (files s) d) (pre ++ post);
  pr_look x : look (contents (files s) d) (pre ++ post) x = wanted x;
  pr_size : upto size (pre ++ post);
  pr_blocks : n + Z.of_nat (length (pre ++ post)) = blocks
}.

Lemma in_snoc {A} (P : A -> Prop) (l : list A) (x : A) : (forall y, y ∈ l -> P y) -> P x -> forall y, y ∈ l ++ [x] -> P y.
Proof. intros Hl Hx y [Hy|Hy%list_elem_of_singleton]%elem_of_app; [by apply Hl|by subst]. Qed.

(** The request at hand, which is for the index partition, is merged with the one before it. *)
Lemma merge_ip_step {A} wanted pre c post n size s (k : Z -> op (sched S) A) (Q : A -> sched S -> Prop) :
  flushing (pre ++ c :: post) n size s -> progress wanted pre (c :: post) n size s -> c_ip c = true ->
  (forall m pre' n' s', flushing (pre' ++ post) n' size s' -> progress wanted pre' post n' size s' -> files s' = files s ->
     length pre' = (if (m =? 2)%Z then length pre else Datatypes.S (length pre)) -> runs (k m) s' Q) ->
  runs (let* '(ret, _) := _unified_merge_requests d (before (length pre)) (length pre) None in k ret) s Q.
Proof.
  intros Hn [P1 P2 P3 P4 P5 P6] Hip HQ. destruct pre as [|q pre _] using rev_ind.
  { apply runs_bind. cbn. apply runs_ret. cbv beta iota. apply (HQ 0 [c] n s); [done| |done|done].
    split; try done. by intros c' ->%list_elem_of_singleton. }
  assert (Hlen : length (pre ++ [q]) = Datatypes.S (length pre)) by (rewrite length_app; cbn; lia). rewrite Hlen. cbn [before].
  rewrite <- app_assoc in *. cbn [app] in *.
  pose proof (proj1 (ordered_split _ _ _ _ _) P1) as [Hpre Hpost]. pose proof (proj1 (ordered_snoc _ _ _ _) Hpre) as (_ & _ & _ & Hlq).
  destruct Hpost as (Hqc & Hlc & Hpost). assert (Hle : c_off q <= c_off c) by (unfold c_end in *; lia).
  apply upto_app in P5 as [Hup1 Hup]. apply upto_cons in Hup as [Hupq Hup]. apply upto_cons in Hup as [Hupc Hup].
  assert (Hqip : c_ip q = true) by (apply P2, elem_of_app; right; by left).
  apply synced_app in P3 as [Hs1 Hs]. apply synced_cons in Hs as [Hsq Hs]. apply synced_cons in Hs as [Hsc Hs].
  apply runs_bind. apply (runs_merge d (files s) u0 p0 ip_only pre q c post n size); [done|by right|exact Hn|done|done|lia|done|].
  intros q' n' spare' s' Hp Hn' Hb Hspare. rewrite (Hspare eq_refl) in Hb. cbn [b2z default from_option id] in Hb.
  destruct (flushing_now _ _ _ _ _ Hn') as [Hfl Hfiles]. set (m := merge_result q' c) in *.
  pose proof (pulled_end _ _ _ _ Hp) as Hend. pose proof (pulled_off _ _ _ _ Hp) as Hoq.
  assert (Hpre' : ordered cs 0 (pre ++ [q'])).
  { apply (ordered_last _ _ _ q); [done|done|]. pose proof (pulled_size _ _ _ _ Hp). unfold c_end in *. lia. }
  assert (Hq' : c_ip q' = true) by (by rewrite (pulled_ip _ _ _ _ Hp)).
  assert (Hupq' : c_end q' <= size).
  { destruct (decide (c_end q < c_end q')) as [Hlt|]; [|lia]. destruct (pulled_more _ _ _ _ Hp Hlt) as (_ & _ & ?). lia. }
  assert (Hlook : forall x, look (contents (files s') d) (pre ++ q' :: remains q' c ++ post) x = wanted x).
  { intros x. rewrite Hfiles, <- P4. apply look_app_cong. by eapply look_pulled. }
  assert (Hsq' : chunk_synced (contents (files s) d) q') by (by eapply synced_pulled).
  assert (Hpip : forall c', c' ∈ pre ++ [q'] -> c_ip c' = true).
  { apply in_snoc; [|done]. intros c' Hc'. apply P2, elem_of_app. by left. }
  assert (Hsync : synced (contents (files s') d) (pre ++ q' :: remains q' c ++ post)).
  { rewrite Hfiles. apply synced_app. split; [done|]. apply synced_cons. split; [done|]. apply synced_app.
    split; [by apply synced_remains|done]. }
  assert (Hupto : upto size (pre ++ q' :: remains q' c ++ post)).
  { apply upto_app. split; [done|]. apply upto_cons. split; [done|]. apply upto_app. split; [by apply upto_remains|done]. }
  rewrite length_app in P6. cbn [length] in P6.
  destruct (Z.eqb_spec m 2) as [Hm|Hm].
  - destruct (merge_2 q' c Hm) as (Hrem & Hce & _). rewrite Hrem in *. cbn [app] in *.
    replace (pre ++ q' :: post) with ((pre ++ [q']) ++ post) in * by (by rewrite <- app_assoc).
    apply (HQ m (pre ++ [q']) n'); [done| |done|by rewrite Hm, length_app, Hlen; cbn; lia]. split; try done.
    + rewrite <- app_assoc. apply ordered_join; [done|]. apply (ordered_weaken _ (c_end c)); [|done].
      destruct (decide (c_end q < c_end q')) as [Hlt|]; [|unfold c_end in *; lia]. destruct (pulled_more _ _ _ _ Hp Hlt) as (_ & _ & ?). lia.
    + rewrite !length_app. cbn. lia.
  - destruct (remains_some q' c Hm ltac:(lia)) as (c' & Hrem & Hec & Hqc' & Hlc' & Hic & _). rewrite Hrem in *. cbn [app] in *.
    replace (pre ++ q' :: c' :: post) with ((pre ++ [q'; c']) ++ post) in * by (by rewrite <- app_assoc).
    apply (HQ m (pre ++ [q'; c']) n'); [done| |done|]. 2: { rewrite (proj2 (Z.eqb_neq _ _) Hm), length_app, Hlen. cbn. lia. }
    split; try done.
    + rewrite <- app_assoc. apply ordered_join; [done|]. cbn. rewrite Hec. split_and!; [lia|lia|lia|done].
    + replace (pre ++ [q'; c']) with ((pre ++ [q']) ++ [c']) by (by rewrite <- app_assoc). apply in_snoc; [done|by rewrite Hic].
    + rewrite !length_app. cbn. lia.
Qed.

(** *** Errors *)

(** The requests that stay after a failed write *)
Definition survives (clear_ip : bool) (r : write_request) : bool := is_ip r && negb clear_ip.

Lemma runs_sweep (fs : S) clear_ip (l : list write_request) : forall p s (Q : list write_request -> sched S -> Prop),
  kept d fs u0 p s ->
  (forall size s', let l' := List.filter (survives clear_ip) l in
     kept d fs u0 (set_file_size size p) s' -> file_size p <= size -> (forall r, r ∈ l' -> req_end r <= size) ->
     blocks_left s' = blocks_left s + Z.of_nat (length l) - Z.of_nat (length l') -> Q l' s') ->
  runs (sweep true clear_ip d l) s Q.
Proof.
  induction l as [|r l IH]; intros p s Q Hk HQ.
  - apply runs_ret, (HQ (file_size p)); [by destruct p|done|by intros r ?%elem_of_nil|cbn; lia].
  - cbn [sweep List.filter] in *. change (survives clear_ip r) with (is_ip r && negb clear_ip) in HQ.
    destruct (is_ip r), clear_ip; cbn [andb negb orb] in *.
    1, 3, 4: apply runs_bind, (runs_free d fs u0 p); [done|]; intros s1 Hk1 Hb1; apply (IH p); [done|];
      intros size s' Hk' Hz Hr Hb; apply (HQ size); try done; cbn [length]; lia.
    apply runs_bind, (runs_update_priv d fs u0 p); [done|by intros []; case_match|by case_match|]. intros s1 Hk1 Hb1.
    assert (E : (if file_size p <? req_end r then set_file_size (req_end r) p else p) = set_file_size (Z.max (file_size p) (req_end r)) p).
    { destruct (Z.ltb_spec (file_size p) (req_end r)); [by rewrite Z.max_r by lia|]. rewrite Z.max_l by lia. by destruct p. }
    rewrite E in Hk1. apply runs_bind, (IH (set_file_size (Z.max (file_size p) (req_end r)) p)); [done|].
    intros size s' Hk' Hz Hr Hb. cbn in Hz. apply runs_ret, (HQ size); [done|lia| |cbn [length]; lia].
    intros r' [->|Hr']%elem_of_cons; [lia|by apply Hr].
Qed.

Lemma count_survivors st b (l : list write_request) :
  count_state st (List.filter (survives b) l) = if decide (st = REQUEST_IP) then if b then 0 else count_state st l else 0.
Proof.
  induction l as [|r l IH]; [cbn; by repeat case_match|]. cbn [List.filter]. rewrite (count_cons st r l). unfold survives at 1, is_ip.
  destruct (decide (req_state r = REQUEST_IP)) as [Hip|Hip].
  - rewrite bool_decide_true by done. destruct b; cbn [andb negb]; [by rewrite IH|]. rewrite count_cons, IH.
    case_decide; [done|]. by rewrite decide_False by congruence.
  - rewrite bool_decide_false by done. cbn [andb]. rewrite IH. case_decide; [|done]. rewrite decide_False by congruence. by destruct b.
Qed.

(** The error is noted, the requests for the data partition are given up. *)
Lemma runs_write_error ret st p n s (Q : unit -> sched S -> Prop) :
  good s p n s -> st <> REQUEST_IP -> ret < 0 ->
  (forall p' b s', kept d (files s) u0 p' s' -> counted p' -> write_error p' = ret -> alt_extentlist p' = alt_extentlist p ->
     requests p' = List.filter (survives b) (requests p) -> (forall r, r ∈ requests p' -> req_end r <= file_size p') ->
     blocks_left s' + Z.of_nat (length (requests p')) = n + Z.of_nat (length (requests p)) -> Q tt s') ->
  runs (_unified_handle_write_error raw ret st d) s Q.
Proof.
  intros [H1 H2 H3 H4 H5] Hst Hret HQ. unfold _unified_handle_write_error. rewrite (bool_decide_false (st = REQUEST_IP)) by done. cbn [andb].
  assert (He : write_error p = 0) by (destruct H3 as (_ & -> & _); done).
  apply runs_bind, (runs_update_priv d (files s) u0 p); [done|by intros []; case_match|by case_match|]. intros s1 Hk1 Hb1.
  rewrite He in Hk1. cbn [Z.eqb] in Hk1. set (p1 := set_write_error ret p) in *.
  do 2 apply runs_bind, runs_ask. set (b := negb (no_space ret) || (ip_readonly raw (files s1) <? 0)).
  apply runs_bind, runs_ask. set (size := d_size raw (files s1) d).
  apply runs_bind, (runs_update_priv d (files s) u0 p1); [done|by intros []|done|]. intros s2 Hk2 Hb2.
  set (p2 := set_file_size size p1) in *.
  assert (Hc2 : counted_in ip_only p2) by (intros st'; pose proof (H2 st'); by destruct st').
  assert (Hdp : in_queue REQUEST_DP p2 = 0) by apply (Hc2 REQUEST_DP).
  assert (Hws : in_queue REQUEST_PARTIAL p2 = 0) by apply (Hc2 REQUEST_PARTIAL).
  apply runs_bind, (runs_get_priv d (files s) u0 p2); [done|]. destruct (requests p2) as [|r l] eqn:El.
  { change (requests p2) with (requests p) in El. apply runs_ret, (HQ p2 b); try done.
    - intros st'. rewrite Hc2. change (requests p2) with (requests p). rewrite El. by destruct st'.
    - change (requests p2) with (requests p). by rewrite El.
    - change (requests p2) with (requests p). rewrite El. by intros r ?%elem_of_nil.
    - change (requests p2) with (requests p). lia. }
  rewrite <- El. cbn iota. set (p3 := set_in_queue REQUEST_DP 0 p2). set (p4 := set_in_queue REQUEST_PARTIAL 0 p3).
  set (p5 := if b then set_in_queue REQUEST_IP 0 p4 else p4).
  apply (runs_and_then _ _ _ (fun _ s' => kept d (files s) u0 p4 s' /\ blocks_left s' = n)).
  { apply runs_bind, (runs_leave_all d (files s) u0 REQUEST_DP p2); [done|lia|]. intros s3 Hk3 Hb3.
    apply (runs_leave_all d (files s) u0 REQUEST_PARTIAL p3); [done|change (in_queue REQUEST_PARTIAL p3) with (in_queue REQUEST_PARTIAL p2); lia|].
    intros s4 Hk4 Hb4. split; [done|lia]. }
  intros _ s4 [Hk4 Hb4]. assert (Hip : in_ip_queue p4 = count_state REQUEST_IP (requests p)) by apply (Hc2 REQUEST_IP).
  pose proof (count_range REQUEST_IP (requests p)) as Hrange.
  apply (runs_and_then _ _ _ (fun _ s' => kept d (files s) u0 p5 s' /\ blocks_left s' = n)).
  { unfold p5. destruct b; [|by apply runs_ret]. apply (runs_leave_all d (files s) u0 REQUEST_IP p4); [done|cbn; cbn in Hip; lia|].
    intros s5 Hk5 Hb5. split; [done|lia]. }
  intros _ s5 [Hk5 Hb5]. apply runs_bind, (runs_sweep (files s) b _ p5); [done|]. intros size' s6 l' Hk6 Hz Hr Hb6.
  apply (runs_update_priv d (files s) u0 (set_file_size size' p5)); [done|by intros []|done|]. intros s7 Hk7 Hb7.
  assert (Hrest : requests p2 = requests p /\ alt_extentlist p5 = alt_extentlist p /\ write_error p5 = ret).
  { unfold p5. by destruct b. }
  destruct Hrest as (Er & Ea & Ew). unfold l' in Hk7, Hr, Hb6. rewrite Er in Hk7, Hr, Hb6.
  apply (HQ _ b s7 Hk7); [|done|done|done|done|change (requests (set_requests ?x _)) with x; lia].
  intros st'. change (requests (set_requests ?x _)) with x. rewrite count_survivors, in_queue_requests, in_queue_file_size. unfold p5.
  destruct b, st'; try done; cbn; cbn in Hip; lia.
Qed.

(** *** The whole queue *)

Definition others_same (fs fs' : S) : Prop := forall d' x, d' <> d -> contents fs' d' x = contents fs d' x.

(** A write of bytes of the file [wanted] to the data partition has failed with [e], and
    left the files [fs']. *)
Definition write_failed (wanted : Z -> option Z) (e : Z) (fs' : S) : Prop :=
  e < 0 /\ exists fs buf off, buf <> [] /\ (forall i, (i < length buf)%nat -> buf !! i = wanted (off + Z.of_nat i))
  /\ fsraw_write raw d buf off (dp_id raw fs) false fs = Some (e, fs').

(** What is there when the loop ends, with or without an error *)
Definition flushed (wanted : Z -> option Z) s : Prop :=
  exists p, kept d (files s) u0 p s /\ counted p /\ ordered cs 0 (chunks p) /\ synced (contents (files s) d) (chunks p) /\
    upto (file_size p) (chunks p) /\ (forall c, c ∈ chunks p -> c_ip c = true) /\
    blocks_left s + Z.of_nat (length (requests p)) = blocks /\
    (write_failed wanted (write_error p) (files s) \/ (write_error p = 0 /\ forall x, contents (files s) d x = wanted x)).

Lemma progress_done wanted l n size s : flushing l n size s -> progress wanted l [] n size s -> flushed wanted s.
Proof.
  intros (p & [H1 H2 H3 H4 H5] & Hl & Hz) [P1 P2 P3 P4 P5 P6]. rewrite app_nil_r in *. exists p. rewrite Hl, Hz.
  assert (Hc : counted p).
  { intros st. rewrite H2. destruct (ip_only st) eqn:E; [done|]. apply bool_decide_eq_false in E. cbn. symmetry.
    assert (Hno : forall r, r ∈ requests p -> req_state r = REQUEST_IP).
    { intros r Hr. assert (Hin : chunk_of r ∈ l) by (rewrite <- Hl; by apply list_elem_of_fmap_2).
      specialize (P2 _ Hin). by apply bool_decide_eq_true in P2. }
    clear -Hno E. induction (requests p) as [|r rl IH]; [done|]. rewrite count_cons, decide_False by (rewrite (Hno r) by (by left); congruence).
    rewrite IH; [done|]. intros r' Hr'. apply Hno. by right. }
  split_and!; try done.
  - rewrite <- Hl, length_fmap in P6. lia.
  - right. destruct H3 as (_ & -> & _). split; [done|]. intros x. rewrite <- P4. symmetry. by eapply look_all_ip.
Qed.

Lemma survivors_chunks b (l : list write_request) :
  chunk_of <$> List.filter (survives b) l = List.filter (fun c => c_ip c && negb b) (chunk_of <$> l).
Proof. induction l as [|r l IH]; [done|]. cbn. unfold survives at 1. destruct (is_ip r && negb b); cbn; by rewrite IH. Qed.

Lemma look_chunk f k lo pre c post i :
  ordered k lo (pre ++ c :: post) -> (i < length (c_bytes c))%nat ->
  look f (pre ++ c :: post) (c_off c + Z.of_nat i) = c_bytes c !! i.
Proof.
  intros Ho Hi. apply ordered_split in Ho as [Hpre _]. apply ordered_snoc in Hpre as (_ & _ & Hup & _).
  rewrite (look_behind f (c_off c)) by (done || lia). cbn [look]. unfold value. rewrite Zle_imp_le_bool by lia.
  replace (Z.to_nat (c_off c + Z.of_nat i - c_off c)) with i by lia.
  by destruct (lookup_lt_is_Some_2 (c_bytes c) i Hi) as [v ->].
Qed.

(** A write that fails *)
Lemma flush_fails wanted pre c post n size s fs' ret st :
  flushing (pre ++ c :: post) n size s -> progress wanted pre (c :: post) n size s -> c_ip c = false -> st <> REQUEST_IP -> ret < 0 ->
  (forall x, ~ c_off c <= x < c_end c -> contents fs' d x = contents (files s) d x) ->
  fsraw_write raw d (c_bytes c) (c_off c) (dp_id raw (files s)) false (files s) = Some (ret, fs') ->
  runs (_unified_handle_write_error raw ret st d) {| files := fs'; sdata := sdata s |}
    (fun _ s' => flushed wanted s' /\ files s' = fs').
Proof.
  intros Hn [P1 P2 P3 P4 P5 P6] Hip Hst Hret Hsame Hw. apply (flushing_files fs') in Hn. destruct Hn as (p & Hg & Hl & Hz).
  eapply (runs_write_error ret st p n); [exact Hg|done|done|]. intros p' b s' Hk Hc He _ Hr Hup Hb.
  pose proof (k_files _ _ _ _ _ Hk) as Hf. cbn in Hf. split; [|done]. exists p'. rewrite Hf in *. cbn in Hk.
  assert (Hch : chunks p' = List.filter (fun c => c_ip c && negb b) (pre ++ c :: post)) by (by rewrite Hr, survivors_chunks, Hl).
  assert (Hin : forall c', c' ∈ chunks p' -> c' ∈ pre ++ post /\ c_ip c' = true).
  { intros c'. rewrite Hch, list_elem_of_In, filter_In, andb_true_iff, <- list_elem_of_In, !elem_of_app, elem_of_cons.
    intros [[H|[->|H]] [Hi _]]; [by auto|congruence|by auto]. }
  split_and!; try done.
  - rewrite Hch. by apply ordered_filter.
  - intros c' Hc'. destruct (Hin c' Hc') as [Hc1 _]. revert c' Hc1 Hc'. intros c' Hc1 _.
    apply synced_app in P3 as [P3 P3']. apply synced_cons in P3' as [_ P3'].
    apply (synced_elsewhere (contents (files s) d) _ cs 0 pre c post); [done|by apply synced_app|done|done].
  - intros c' (r & -> & Hr')%list_elem_of_fmap. by apply Hup.
  - intros c' Hc'. by apply Hin.
  - rewrite <- P6, <- Hl, length_fmap. lia.
  - left. rewrite He. split; [done|]. exists (files s), (c_bytes c), (c_off c).
    assert (Hlen : 0 < c_len c <= cs) by (apply (ordered_size cs 0 (pre ++ c :: post)); [done|apply elem_of_app; right; by left]).
    split; [intros E; unfold c_len in Hlen; rewrite E in Hlen; cbn in Hlen; lia|]. split; [|exact Hw].
    intros i Hi. rewrite <- P4. symmetry. by apply (look_chunk _ cs 0).
Qed.

Lemma flush_loop_ok wanted fuel : forall pre post n size s,
  (length post <= fuel)%nat -> flushing (pre ++ post) n size s -> progress wanted pre post n size s ->
  runs (flush_loop raw fuel d (length pre)) s (fun _ s' => flushed wanted s' /\ others_same (files s) (files s')).
Proof.
  induction fuel as [|fuel IH]; intros pre post n size s Hfuel Hn Hp.
  { destruct post; [|cbn in Hfuel; lia]. apply runs_ret. split; [|done]. rewrite app_nil_r in Hn. by eapply progress_done. }
  cbn [flush_loop]. apply runs_bind, (runs_now_priv d (files s) u0 p0 ip_only (pre ++ post) n size); [done|]. intros p Hl Hz Hg.
  destruct post as [|c post].
  { rewrite app_nil_r in *. rewrite lookup_ge_None_2 by (rewrite <- (length_fmap chunk_of), Hl; lia).
    apply runs_ret. split; [|done]. by eapply progress_done. }
  destruct (lookup_request p _ (length pre) c Hl (lookup_here pre c post)) as (r & Hr & Hrc). rewrite Hr.
  assert (Hir : is_ip r = c_ip c) by (by rewrite <- Hrc). rewrite Hir. cbn [length] in Hfuel. destruct (c_ip c) eqn:Hip.
  - apply (merge_ip_step wanted pre c post n size s (fun ret => flush_loop raw fuel d (if ret =? 2 then length pre else Datatypes.S (length pre)))); try done.
    intros m pre' n' s' Hn' Hp' Hf' Hlen. rewrite <- Hlen, <- Hf'. apply (IH pre' post n' size); [lia|done|done].
  - pose proof Hp as [P1 P2 P3 P4 P5 P6].
    assert (Hsz : 0 <= c_off c /\ 0 < c_len c <= cs) by (apply (ordered_size cs 0 (pre ++ c :: post)); [done|apply elem_of_app; right; by left]).
    assert (Hst : req_state r <> REQUEST_IP) by (by apply bool_decide_eq_false in Hir).
    assert (Hb : write_cache r = c_bytes c) by (by rewrite <- Hrc). assert (Ho : req_offset r = c_off c) by (by rewrite <- Hrc).
    assert (Hbne : c_bytes c <> []) by (intros E; unfold c_len in Hsz; rewrite E in Hsz; cbn in Hsz; lia).
    apply runs_bind, runs_ask. destruct (store_write (files s) d (c_bytes c) (c_off c) (dp_id raw (files s)) Hbne ltac:(lia))
      as (ret & fs' & Hw & Hoth & Hcon).
    assert (Hothers : others_same (files s) fs') by done. rewrite Hb, Ho. apply runs_bind. unfold runs, on_files at 1. rewrite Hw.
    set (s1 := {| files := fs'; sdata := sdata s |}). destruct (Z.ltb_spec ret 0) as [Hneg|Hpos].
    + eapply runs_mono; [eapply (flush_fails wanted pre c post n size); done|]. intros _ s' [Hfl Hf']. by rewrite Hf'.
    + assert (Hn1 : flushing (pre ++ c :: post) n size s1) by (by apply flushing_files).
      apply synced_app in P3 as [P3 P3']. apply synced_cons in P3' as [_ P3']. apply upto_app in P5 as [P5 P5'].
      apply upto_cons in P5' as [P5c P5'].
      assert (Hsync : synced (contents fs' d) (pre ++ post)).
      { apply (synced_elsewhere (contents (files s) d) _ cs 0 pre c post); [done|by apply synced_app|].
        intros x Hx. rewrite Hcon. by apply over_elsewhere. }
      assert (Hbound : forall s', others_same fs' (files s') -> others_same (files s) (files s')).
      { intros s' H d' x Hd. by rewrite H, Hothers. }
      destruct (write_ip p).
      * apply runs_bind. unfold becomes_ip.
        apply (runs_seq _ _ _ _ (fun _ s' => flushing (pre ++ as_ip c :: post) n size s' /\ files s' = fs')).
        { eapply runs_as_ip; [exact Hn1|apply lookup_here|done|]. intros s2 Hn2 Hf2. by rewrite insert_here in Hn2. }
        intros _ s2 [Hn2 Hf2]. assert (Hp2 : progress wanted pre (as_ip c :: post) n size s2).
        { split; rewrite ?Hf2; try done.
          - apply ordered_split in P1 as [P1 P1']. apply ordered_split. split; [apply (ordered_last _ _ _ c); [done|done|apply Hsz]|done].
          - apply synced_app in Hsync as [Hs1 Hs2]. apply synced_app. split; [done|]. apply synced_cons. split; [|done].
            intros _ x v Hv. rewrite Hcon. unfold over. change (value (fresh _ _) x) with (value (as_ip c) x). by rewrite Hv.
          - intros x. rewrite <- P4, <- (look_written_ip _ cs 0 pre c (as_ip c) post) by done. by apply look_same.
          - apply upto_app. split; [done|]. by apply upto_cons.
          - rewrite <- P6, !length_app. done. }
        apply (merge_ip_step wanted pre (as_ip c) post n size s2 (fun ret => ret_op (ret =? 2))); try done.
        intros m pre' n' s' Hn' Hp' Hf' Hlen. apply runs_ret. rewrite <- Hlen.
        eapply runs_mono; [apply (IH pre' post n' size); [lia|done|done]|]. intros _ s'' [Hfl Hoth']. split; [done|].
        apply Hbound. by rewrite <- Hf2, <- Hf'.
      * apply runs_bind. eapply runs_remove; [exact Hn1|apply lookup_here|done|]. intros s2 Hn2 Hf2. rewrite delete_here in Hn2.
        rewrite length_app in P6. cbn [length] in P6.
        apply runs_bind. eapply runs_now_free; [exact Hn2|rewrite length_app; lia|]. intros s3 Hn3.
        destruct (flushing_now _ _ _ _ _ Hn3) as [Hn3' Hf3]. rewrite Hf2 in Hf3. cbn in Hf3.
        eapply runs_mono; [apply (IH pre post (n + 1) size); [lia|done|]|].
        -- split; rewrite ?Hf3; try done.
           ++ by apply (ordered_remove _ _ _ c).
           ++ intros x. rewrite <- P4, <- (look_written _ cs 0 pre c post) by done. by apply look_same.
           ++ by apply upto_app.
           ++ rewrite length_app. lia.
        -- intros _ s' [Hfl Hoth']. split; [done|]. apply Hbound. by rewrite <- Hf3.
Qed.
End flush.

Section flush_call.
Context {S : Type} (raw : raw_ops S) (contents : S -> Z -> Z -> option Z) {laws : FileStore raw contents}.
Implicit Types (s : sched S) (p : dentry_priv).

Abbreviation private := (private raw).
Abbreviation entry_ok := (entry_ok raw contents).
Abbreviation view := (view raw contents).
Abbreviation blocks_of_queue := (blocks_of_queue raw).

(** What a flush of [d] guarantees, whether it succeeds or not *)
Definition flush_keeps (d : Z) s s' : Prop :=
  entry_ok s' d /\ write_error (private s' d) = 0 /\ blocks_of_queue s' d = blocks_of_queue s d /\
  frame d (sdata s) (sdata s') /\ others_same contents d (files s) (files s') /\
  (forall r, r ∈ requests (private s' d) -> req_state r = REQUEST_IP).

Lemma flush_keeps_kept d s s' p :
  kept d (files s') (sdata s) p s' -> counted p -> ordered (cache_size (sdata s)) 0 (chunks p) ->
  synced (contents (files s') d) (chunks p) -> upto (file_size p) (chunks p) -> (forall c, c ∈ chunks p -> c_ip c = true) ->
  blocks_left s' + Z.of_nat (length (requests p)) = blocks_of_queue s d -> write_error p = 0 ->
  others_same contents d (files s) (files s') -> entry_ok s d ->
  flush_keeps d s s' /\ forall x, view s' d x = contents (files s') d x.
Proof.
  intros Hk Hc Ho Hs Hu Hip Hb He Hoth Hok.
  destruct (entry_kept raw contents d (files s') (sdata s) p s' (contents (files s') d)) as (Hp & Hok' & Hv); try done;
    [apply Hok|rewrite Hb; apply Hok|].
  split.
  - split; [done|]. rewrite Hp. split_and!; [done| |apply Hk|done|].
    + unfold UnifiedSpec.blocks_of_queue at 1. by rewrite Hp.
    + intros r Hr. assert (Hin : chunk_of r ∈ chunks p) by (by apply list_elem_of_fmap_2).
      specialize (Hip _ Hin). by apply bool_decide_eq_true in Hip.
  - intros x. rewrite Hv. by eapply look_all_ip.
Qed.

(** Nothing to flush *)
Lemma flush_nothing d s s' :
  entry_ok s d -> kept d (files s) (sdata s) (private s d) s' -> write_error (private s d) = 0 ->
  requests (private s d) = [] -> blocks_left s' = blocks_left s ->
  flush_keeps d s s' /\ forall x, contents (files s') d x = view s d x /\ view s' d x = view s d x.
Proof.
  intros He Hk Herr Hreq Hb. pose proof (k_files _ _ _ _ _ Hk) as Hf.
  destruct (flush_keeps_kept d s s' (private s d)) as [H1 H2]; try done; rewrite ?Hf, ?Hreq;
    try apply He; try (by intros c ?%elem_of_nil); try done.
  - unfold UnifiedSpec.blocks_of_queue. rewrite Hreq. cbn. lia.
  - split; [done|]. assert (Hview : forall x, view s d x = contents (files s) d x) by (intros x; unfold UnifiedSpec.view; by rewrite Hreq).
    intros x. by rewrite H2, Hf, Hview.
Qed.

(** C12: a flush ends, keeps the queue consistent, leaves no request for the data partition in
    it, and touches no other file.  When it returns 0, the file on the tape is what the file
    was with its queue; otherwise it
    returns the error of a write of bytes of the file that failed, the last one it made. *)
Theorem unified_flush_spec d s :
  entry_ok s d -> write_error (private s d) = 0 ->
  exists ret s', unified_flush raw (Some d) s = Some (ret, s') /\ flush_keeps d s s' /\
    (write_failed raw d (view s d) ret (files s') \/
     (ret = 0 /\ forall x, contents (files s') d x = view s d x /\ view s' d x = view s d x)).
Proof.
  intros He Herr. cut (runs (unified_flush raw (Some d)) s (fun ret s' => flush_keeps d s s' /\
    (write_failed raw d (view s d) ret (files s') \/
     (ret = 0 /\ forall x, contents (files s') d x = view s d x /\ view s' d x = view s d x)))).
  { intros H. apply runs_some in H as (ret & s' & H & H'). by exists ret, s'. }
  cbn [unified_flush]. unfold _unified_flush_unlocked. apply runs_bind, runs_get_data.
  pose proof He as [E1 E2 E3 E4 E5 E6 E7 E8 E9].
  assert (Hk : iosched_priv (sdata s) !! d = Some (private s d) -> kept d (files s) (sdata s) (private s d) s).
  { intros E. by split. }
  destruct (iosched_priv (sdata s) !! d) as [p|] eqn:E; cycle 1.
  { assert (Hp : private s d = fresh_priv raw (files s) d) by (unfold UnifiedSpec.private; by rewrite E).
    apply runs_ret. split.
    - split_and!; try done. rewrite Hp. by intros r ?%elem_of_nil.
    - right. split; [done|]. intros x. split; [|done]. unfold UnifiedSpec.view. by rewrite Hp. }
  assert (Hp : p = private s d) by (unfold UnifiedSpec.private; by rewrite E). subst p. specialize (Hk eq_refl).
  set (p := private s d) in *.
  apply runs_bind, (runs_get_write_error p (files s) (sdata s)); [done|]. intros s1 Hk1 Hb1. rewrite Herr. cbn [Z.ltb Z.compare].
  assert (Hid : set_write_error 0 p = p) by (destruct p; cbn in *; by subst). rewrite Hid in Hk1.
  apply runs_bind, (runs_get_priv d (files s) (sdata s) p); [done|]. destruct (requests p) as [|r0 l0] eqn:El.
  { apply runs_ret. destruct (flush_nothing d s s1) as [H1 H2]; try done. split; [done|]. by right. }
  rewrite <- El in E1, E5, E6 |- *. cbn iota. set (p3 := set_in_queue REQUEST_DP 0 p). set (p4 := set_in_queue REQUEST_PARTIAL 0 p3).
  assert (Hcount : forall st, 0 <= in_queue st p) by (intros st; rewrite (E2 st); apply count_range).
  apply (runs_seq _ _ _ _ (fun _ s' => kept d (files s) (sdata s) p4 s' /\ blocks_left s' = blocks_left s)).
  { apply runs_bind, (runs_leave_all d (files s) (sdata s) REQUEST_DP p); [done|apply Hcount|]. intros s2 Hk2 Hb2.
    apply (runs_leave_all d (files s) (sdata s) REQUEST_PARTIAL p3); [done|apply (Hcount REQUEST_PARTIAL)|]. intros s3 Hk3 Hb3.
    split; [done|lia]. }
  intros _ s3 [Hk3 Hb3]. pose proof (k_files _ _ _ _ _ Hk3) as Hf3.
  set (n := blocks_left s). set (size := file_size p).
  assert (Hflush : flushing d (sdata s) p4 (chunks p) n size s3).
  { exists p4. split; [|done]. rewrite Hf3. split; [done| |done|done|].
    - intros st. destruct st; [done|done|apply (E2 REQUEST_IP)].
    - unfold UnifiedSpec.blocks_of_queue, blocks_left in E8. change (requests p4) with (requests p). unfold n, blocks_left. fold p in E8. lia. }
  assert (Hprog : progress contents d (sdata s) (blocks_of_queue s d) (view s d) [] (chunks p) n size s3).
  { split; rewrite ?Hf3; cbn [app]; try done; [by intros c ?%elem_of_nil|by rewrite length_fmap]. }
  apply (runs_and_then _ _ _ (fun _ s' => flushed raw contents d (sdata s) (blocks_of_queue s d) (view s d) s' /\ others_same contents d (files s) (files s'))).
  { rewrite <- Hf3. apply (flush_loop_ok raw contents d (sdata s) p4 (blocks_of_queue s d) E8 Herr (view s d) _ [] (chunks p) n size); try done.
    by rewrite length_fmap. }
  intros _ s4 [(p' & Hk4 & Hc4 & Ho4 & Hs4 & Hu4 & Hip4 & Hb4 & Hres) Hoth].
  apply runs_bind, (runs_get_write_error p' (files s4) (sdata s)); [done|]. intros s5 Hk5 Hb5. apply runs_ret.
  pose proof (k_files _ _ _ _ _ Hk5) as Hf5.
  destruct (flush_keeps_kept d s s5 (set_write_error 0 p')) as [H1 H2]; rewrite ?Hf5; try done;
    [change (requests (set_write_error 0 p')) with (requests p'); lia|].
  split; [done|]. destruct Hres as [Hneg|[H0 Hcon]].
  - left. pose proof (proj1 Hneg) as Hn. by rewrite (proj2 (Z.ltb_lt _ _) Hn).
  - right. rewrite H0. split; [done|]. intros x. rewrite H2, Hf5. by rewrite Hcon.
Qed.
End flush_call.
