(* ===== verification/UnifiedOnMemory.v ===== *)
(** * The unified scheduler over files in memory

    An implementation of [raw_ops] that keeps the laws of [FileStore], and concrete runs:
    the witnesses of the properties, and two writes after which the queue is wrong. *)

From S2P Require Import Prelude Errors Extents FsTree Unified UnifiedList UnifiedWp UnifiedWrite UnifiedSpec.
Open Scope Z_scope.
Open Scope ltfs_scope.

(** ** Files in memory *)

(** A byte that was never written is [None]. *)
Abbreviation memory := (gmap Z (list (option Z))).
Definition file_of (fs : memory) (d : Z) : list (option Z) := default [] (fs !! d).

Definition mem_contents (fs : memory) (d x : Z) : option Z :=
  if 0 <=? x then mjoin (file_of fs d !! Z.to_nat x) else None.

Definition put_bytes (off : nat) (buf : list Z) (l : list (option Z)) : list (option Z) :=
  take off (l ++ replicate (off - length l) None) ++ (Some <$> buf) ++ drop (off + length buf) l.

Definition mem_read (d off n : Z) : op memory (Z * list Z) := fun fs =>
  let b := default 0 <$> take (Z.to_nat n) (drop (Z.to_nat off) (file_of fs d)) in Some ((Z.of_nat (length b), b), fs).

Definition mem_write (d : Z) (buf : list Z) (off : Z) : op memory Z := fun fs =>
  Some (0, <[d := put_bytes (Z.to_nat off) buf (file_of fs d)]> fs).

Definition mem_truncate (d n : Z) : op memory Z := fun fs =>
  let l := file_of fs d in
  Some (0, <[d := take (Z.to_nat n) l ++ replicate (Z.to_nat n - length l) None]> fs).

(** Files of up to [max_ip] bytes belong on the index partition. *)
Definition mem_ops (max_ip : Z) : raw_ops memory := {|
  fsraw_open := fun _ _ => ret_op (inr 1);
  fsraw_close := fun _ => ret_op 0;
  fsraw_read := mem_read;
  fsraw_write := fun d buf off _ _ => mem_write d buf off;
  fsraw_write_data := fun _ _ _ => ret_op (0, 7);
  fsraw_add_extent := fun _ _ _ => ret_op 0;
  fsraw_truncate := mem_truncate;
  fsraw_get_dentry := fun _ => ret_op tt;
  fsraw_put_dentry := fun _ => ret_op tt;
  set_current_times := fun _ => ret_op tt;
  d_size := fun fs d => Z.of_nat (length (file_of fs d));
  d_matches_name_criteria := fun _ _ => true;
  d_deleted := fun _ _ => false;
  d_numhandles := fun _ _ => 2;
  volume_lock := fun _ => 0;
  tape_readonly := fun _ => 0;
  dp_readonly := fun _ => 0;
  ip_readonly := fun _ => 0;
  dp_id := fun _ => 98;
  ip_id := fun _ => 97;
  vol_blocksize := fun _ => 4;
  max_filesize := fun _ => max_ip
|}.

Lemma put_bytes_lookup off buf l i :
  put_bytes off buf l !! i =
  if decide (off <= i < off + length buf)%nat then Some <$> buf !! (i - off)%nat
  else if decide (i < off)%nat then (if decide (i < length l)%nat then l !! i else Some None) else l !! i.
Proof.
  unfold put_bytes. assert (Hlen : length (take off (l ++ replicate (off - length l) None)) = off).
  { rewrite length_take, length_app, length_replicate. lia. }
  destruct (decide (i < off)%nat) as [Hi|Hi].
  - rewrite decide_False by lia. rewrite lookup_app_l, lookup_take_lt by lia. case_decide.
    + by rewrite lookup_app_l by lia.
    + rewrite lookup_app_r by lia. apply lookup_replicate_2. lia.
  - rewrite lookup_app_r, Hlen by lia. case_decide.
    + rewrite lookup_app_l by (rewrite length_fmap; lia). by rewrite list_lookup_fmap.
    + rewrite lookup_app_r by (rewrite length_fmap; lia). rewrite length_fmap, lookup_drop. f_equal. lia.
Qed.

Lemma file_of_insert fs d l d' : file_of (<[d := l]> fs) d' = if decide (d = d') then l else file_of fs d'.
Proof. unfold file_of. case_decide; [subst; by rewrite lookup_insert_eq|by rewrite lookup_insert_ne]. Qed.

Lemma mem_write_contents fs d buf off x :
  0 <= off -> mem_contents (<[d := put_bytes (Z.to_nat off) buf (file_of fs d)]> fs) d x = over off buf (mem_contents fs d) x.
Proof.
  intros Hoff. unfold mem_contents, over, value. cbn [fresh c_off c_bytes]. rewrite file_of_insert, decide_True by done.
  destruct (Z.leb_spec 0 x) as [Hx|Hx]; cycle 1.
  { by rewrite (proj2 (Z.leb_gt off x)) by lia. }
  rewrite put_bytes_lookup. destruct (Z.leb_spec off x).
  - case_decide.
    + destruct (lookup_lt_is_Some_2 buf (Z.to_nat x - Z.to_nat off)) as [v Hv]; [lia|].
      replace (Z.to_nat (x - off)) with (Z.to_nat x - Z.to_nat off)%nat by lia. by rewrite Hv.
    + rewrite decide_False by lia. by rewrite (lookup_ge_None_2 buf) by lia.
  - rewrite decide_False, decide_True by lia. case_decide; [done|]. by rewrite (lookup_ge_None_2 (file_of fs d)) by lia.
Qed.

#[local] Instance mem_store max_ip : FileStore (mem_ops max_ip) mem_contents.
Proof.
  assert (Hsame : forall fs, same_answers (mem_ops max_ip) fs fs) by (intros fs; by split).
  split.
  - intros fs d x. unfold mem_contents. destruct (Z.leb_spec 0 x); [|done]. intros H'. split; [done|]. cbn.
    destruct (file_of fs d !! Z.to_nat x) eqn:E; [|done]. apply lookup_lt_Some in E. lia.
  - intros fs d. by exists fs.
  - intros fs d. by exists fs.
  - intros fs d off count Hoff Hcount. do 3 eexists. split; [reflexivity|]. split; [done|]. split; [done|]. right.
    rewrite length_fmap, length_take, length_drop. cbn [d_size mem_ops]. split; [lia|]. intros i Hi.
    rewrite list_lookup_fmap, lookup_take_lt, lookup_drop by lia. unfold mem_contents. rewrite Zle_imp_le_bool by lia.
    replace (Z.to_nat (off + Z.of_nat i)) with (Z.to_nat off + i)%nat by lia.
    destruct (lookup_lt_is_Some_2 (file_of fs d) (Z.to_nat off + i)) as [v ->]; [lia|]. by destruct v.
  - intros fs d buf off partition _ Hoff. do 2 eexists. split; [reflexivity|]. split.
    + intros d' x Hd. unfold mem_contents. by rewrite file_of_insert, decide_False by congruence.
    + intros x. by apply mem_write_contents.
Defined.

(** ** A file with two requests in its queue *)

Definition sample_queue (n : Z) : queue := {| members := [1]; entry_count := 1; request_count := n |}.

Definition sample_priv : dentry_priv :=
  {| file_size := 8; write_ip := false; write_error := 0; in_working_set := 1; in_dp_queue := 1; in_ip_queue := 0;
     requests := [{| req_offset := 0; write_cache := [10; 11; 12; 13]; req_state := REQUEST_DP |};
                  {| req_offset := 6; write_cache := [20; 21]; req_state := REQUEST_PARTIAL |}];
     alt_extentlist := [] |}.

Definition sample_sched : sched memory :=
  {| files := {[1 := Some <$> [1; 2; 3; 4; 5; 6]]};
     sdata := {| pool := {| initial_capacity := 5; max_capacity := 10; current_capacity := 5; pool_objects := 3 |};
                 cache_requests := 0; cache_size := 4; cache_blocks := 10; working_set := sample_queue 1; dp_queue := sample_queue 1;
                 ip_queue := empty_queue; ext_queue := []; writer_keepalive := true; iosched_priv := {[1 := sample_priv]} |} |}.

Abbreviation ops := (mem_ops 0).

Lemma sample_private : private ops sample_sched 1 = sample_priv.
Proof. reflexivity. Qed.

Lemma sample_ok : entry_ok ops mem_contents sample_sched 1.
Proof.
  split; rewrite ?sample_private.
  - repeat split; vm_compute; congruence.
  - by intros [].
  - intros []; cbn; rewrite ?list_elem_of_singleton; split; try done. by intros ?%elem_of_nil.
  - split; [by intros ?%elem_of_nil|done].
  - apply upto_cons. split; [|apply upto_cons; split; [|apply upto_nil]]; vm_compute; congruence.
  - apply synced_cons. split; [by apply synced_not_ip|]. apply synced_cons. split; [by apply synced_not_ip|].
    by intros c ?%elem_of_nil.
  - repeat split; vm_compute; congruence.
  - reflexivity.
  - reflexivity.
Qed.

Lemma sample_can_write : can_write ops sample_sched 1 [51; 52; 53; 54; 55] 3.
Proof.
  split; rewrite ?sample_private; try (vm_compute; congruence).
  repeat constructor; vm_compute; congruence.
Qed.

Lemma unified_write_spec_witness :
  exists s', unified_write ops undefined 60 1 [51; 52; 53; 54; 55] 3 true sample_sched = Some (5, s')
    /\ forall x, view ops mem_contents s' 1 x = over 3 [51; 52; 53; 54; 55] (view ops mem_contents sample_sched 1) x.
Proof.
  destruct (unified_write_spec ops mem_contents undefined 60 1 [51; 52; 53; 54; 55] 3 true sample_sched sample_ok sample_can_write)
    as (s' & H & Hview & _); [done|rewrite sample_private; cbn; lia|]. exists s'. split; [exact H|exact Hview].
Defined.

(** No read and no write of the memory fails. *)
Lemma mem_reads d a b e fs fs' : ~ read_failed ops mem_contents d a b e fs fs'.
Proof. intros (He & fs1 & off & count & bytes & _ & _ & _ & Hr). cbn in Hr. injection Hr as <- _ _. lia. Qed.

Lemma mem_writes d wanted e fs' : ~ write_failed ops d wanted e fs'.
Proof. intros (He & fs & buf & off & _ & _ & Hw). cbn in Hw. injection Hw as <- _. lia. Qed.

Lemma unified_read_spec_witness :
  exists bytes s', unified_read ops 1 20 2 sample_sched = Some ((6, bytes), s')
    /\ bytes_from (view ops mem_contents sample_sched 1) 2 (take 6 bytes).
Proof.
  destruct (unified_read_spec ops mem_contents 1 20 2 sample_sched sample_ok) as (n & bytes & s' & H & _ & _ & Hn); [done..|].
  destruct Hn as [Hn|(Hn & _ & Hb)]; [by apply mem_reads in Hn|].
  change (n = 6) in Hn. subst n. exists bytes, s'. split; [exact H|exact Hb].
Defined.

Lemma unified_flush_spec_witness :
  exists s', unified_flush ops (Some 1) sample_sched = Some (0, s')
    /\ forall x, mem_contents (files s') 1 x = view ops mem_contents sample_sched 1 x.
Proof.
  destruct (unified_flush_spec ops mem_contents 1 sample_sched sample_ok) as (ret & s' & H & _ & Hr); [done|].
  destruct Hr as [Hr|[Hr Hc]]; [by apply mem_writes in Hr|]. subst ret. exists s'. split; [exact H|]. intros x. apply Hc.
Defined.

(** ** Where the loop of [unified_write] goes wrong *)

Definition no_files : sched memory :=
  {| files := {[1 := []]};
     sdata := {| pool := cache_manager_init 20 20; cache_requests := 0; cache_size := 100; cache_blocks := 20;
                 working_set := empty_queue; dp_queue := empty_queue; ip_queue := empty_queue; ext_queue := [];
                 writer_keepalive := true; iosched_priv := ∅ |} |}.

Definition write_bytes (n : nat) (b off : Z) : op (sched memory) Z := unified_write ops undefined 100 1 (replicate n b) off true.

(** Ten bytes at 0 and at 20, then fifty over them from 5 on: the request at 20 lies inside of
    the bytes that go into the first request.  The next round of the loop compares its end
    with the offset behind the new bytes and passes over it.  It stays in the queue; the
    flush writes its old bytes over the new ones. *)
Example write_over_inner_request :
  (let* _ := write_bytes 10 1 0 in let* _ := write_bytes 10 2 20 in let* n := write_bytes 50 3 5 in
   let* _ := unified_flush ops (Some 1) in let* '(_, b) := unified_read ops 1 10 18 in ret_op (n, b)) no_files
  ≫= (fun x => Some x.1) = Some (50, [3; 3; 2; 2; 2; 2; 2; 2; 2; 2]).
Proof. vm_compute. reflexivity. Qed.

(** Two requests that are on tape already, [2,4) and [4,8), and a write of two bytes at 4:
    the first of them is not full, takes bytes of the second, and hides the new bytes. *)
Definition ip_priv : dentry_priv :=
  {| file_size := 8; write_ip := true; write_error := 0; in_working_set := 1; in_dp_queue := 0; in_ip_queue := 2;
     requests := [{| req_offset := 0; write_cache := [10; 11]; req_state := REQUEST_PARTIAL |};
                  {| req_offset := 2; write_cache := [3; 4]; req_state := REQUEST_IP |};
                  {| req_offset := 4; write_cache := [5; 6; 7; 8]; req_state := REQUEST_IP |}];
     alt_extentlist := [] |}.

Definition ip_sched : sched memory :=
  {| files := {[1 := Some <$> [1; 2; 3; 4; 5; 6; 7; 8]]};
     sdata := {| pool := {| initial_capacity := 5; max_capacity := 10; current_capacity := 5; pool_objects := 2 |};
                 cache_requests := 0; cache_size := 4; cache_blocks := 10; working_set := sample_queue 1; dp_queue := empty_queue;
                 ip_queue := sample_queue 2; ext_queue := []; writer_keepalive := true; iosched_priv := {[1 := ip_priv]} |} |}.

Example write_between_ip_requests :
  (let* n := unified_write (mem_ops 100) undefined 100 1 [54; 55] 4 true in
   let* '(_, b) := unified_read (mem_ops 100) 1 8 0 in ret_op (n, b)) ip_sched
  ≫= (fun x => Some x.1) = Some (2, [10; 11; 3; 4; 5; 6; 7; 8]).
Proof. vm_compute. reflexivity. Qed.
